(* ===== verification/_CoqProject ===== *)
-Q . S2P
Prelude.v
CString.v
Rls.v
NasDefs.v
NasEncode.v
NasDecode.v
Rrc.v
Aes.v
Sha256.v
NasCrypto.v
NasSecurity.v
UeTypes.v
UeMm.v
UeSm.v
NetworkAdapter.v
RanTransport.v
RanLink.v
UplinkPath.v
MbimNtb.v
UserPlane.v
InstanceConfig.v
UeContext.v
EngineNas.v
UeEngine.v
EngineSends.v
EngineSafe.v
DataPath.v
EngineReach.v
EngineSecurity.v
EngineWedge.v
RogueNetwork.v
ModemState.v
MbimWire.v
MbimSms.v
MbimHandlers.v
MbimReports.v
MbimStrings.v
MbimCommands.v
MbimIndications.v
MbimIndicated.v
Ring.v
ApnContext.v
StateBridge.v
BridgeReach.v
CoreMbim.v
CoreReach.v
CoreSteps.v
CoreLoop.v
ImsCodec.v
ImsDigest.v
ImsSip.v
ImsWorker.v
ImsReach.v
ImsAuth.v
ImsRounds.v
ImsBridge.v
