(* ===== verification/Prelude.v ===== *)
(** * VirtualLTE: a verification library

    VirtualLTE is a 5G UE in user space behind a USB MBIM modem: [src/src/ue_engine]
    speaks NAS, RRC and the radio link simulation protocol (RLS) with a gNB,
    [src/src/mbim_frontend] speaks MBIM with the host, and
    [src/src/ims_service] and [src/src/state_bridge] join them.

    ** How the C code is modelled

    Integers are [Z], with [u8], [u16], [u32], [u64] wherever the code converts
    or may wrap; [size_t] positions are [nat]; bytes are [Z] in lists; a pointer
    that may be null is an [option]; a C string is the list of its characters
    without the terminator.  A function whose C text can run into undefined
    behaviour (an access outside an object) returns [option], and [None] is that
    case and nothing else, so a theorem that the result is [Some] is memory
    safety.  A loop is a [Fixpoint] on a bound; running out of the bound is
    [None] too, so the same theorems are termination.  [return -1] is a value.
    Records are updated with [r <| f := v |>].

    ** The files

    - [Prelude]: integers, byte orders, buffers, the writer monad [W] of the
      encoders, the error-state monad [EM] of the bit streams, record update,
      the tactics ([vlia], [bdec], [bcase], [wstep], [safe]) and hint databases.
    - [CString]: the C library's string functions the configuration uses.
    - [Rls]: [ue_rls.c], the datagrams exchanged with the gNB.
    - [NasDefs], [NasEncode], [NasDecode]: [ue_nas_encode.c], [ue_nas_decode.c].
    - [Rrc]: [ue_rrc.c], the UPER bit streams and the RRC messages.
    - [Aes], [Sha256], [NasCrypto], [NasSecurity]: [ue_nas_security.c]; the
      first three refine FIPS 197, FIPS 180-4, RFC 4493, TS 35.206 and
      TS 33.501, each written from the standard beside the code's definitions (the
      SHA-256 constants from the roots of the primes), the last one is the
      protection of NAS messages.
    - [UeTypes]: [ue_types.h] and the request and result records; the adapter's
      interface is the class [NetworkAdapter], its laws [SafeAdapter] and
      [AcceptingAdapter].
    - [UeMm], [UeSm]: [ue_mm.c] and [ue_sm.c], state machines over a record,
      written against the adapter's interface; [mm_step] and [sm_step] are the
      calls the engine makes, [mm_reachable] and [sm_reachable] their closure.
    - [NetworkAdapter]: [ue_network_adapter.c], which composes the encoders,
      the security layer and RRC, and discharges the laws of the interface; the
      transport is the interface [RanSender] with its law [SafeSender].
    - [RanTransport], [RanLink]: [ue_ran_transport.c], the cell table, the
      receive rings and the link state; the first file is the model with the
      lemmas on its data, the second the reachable states ([rt_step],
      [rt_reachable]), the tick and the paths in and out.  [sendto] and the
      resolvers are parameters, [net_trace] records the datagrams sent.
    - [UplinkPath]: the adapter over the real transport.
    - [MbimNtb]: [mbim_ntb.c], the blocks of IP datagrams on the data endpoint.
    - [UserPlane]: [ue_up.c], the session table and the two directions of user
      data, over the transport's data functions as an interface.
    - [InstanceConfig]: [ue_instance_config.c], the INI reader.
    - [UeContext], [EngineNas], [UeEngine]: [ue_context.c] and [ue_engine.c]; the
      second file is what a downlink NAS message does ([handle_nas_event]: one
      definition per case of the switch), the third RRC, the tick and the
      interface to the rest of the program.
    - [EngineSends], [EngineSafe]: what each handler sends and that it stays in
      its buffers and keeps the engine's invariant [engine_inv].
    - [EngineReach]: [engine_call] is a call of the interface, [run_call] runs
      it, [engine_reachable] is the closure from an initialised engine.
    - [EngineSecurity], [EngineWedge], [RogueNetwork]: authentication, security
      mode control and what a network without keys can do; [DataPath]: a host
      packet through the user plane to the air.
    - [ModemState], [MbimWire], [MbimSms], [MbimHandlers]: [modem_state.c],
      [mbim_wire.c] and [mbim_handlers.c].  A response is written by the monad [B]
      in the memory of the response buffer; a packed C structure is a [layout], and
      a field's offset is computed from it.  [MbimReports] and [MbimStrings] give
      what the host reads in each answer, [MbimCommands] the dispatch.
    - [MbimIndications], [MbimIndicated]: [mbim_indications.c] and
      [mbim_vendor_qmux.c], over the class [IndicationQueue] of the caller, and
      what the host reads in each indication.
    - [Ring]: the circular arrays of the bridge and of the core, with the list
      of their items.
    - [ApnContext]: [apn_context.c], refined to a map from names.
    - [StateBridge], [BridgeReach]: [state_bridge.c]; the IMS service is the class
      [ImsService]; the second file is the closure of its calls and what the host
      is told.
    - [CoreMbim]: [core.c], the control channel and the data path, with the
      instances of [IndicationQueue] that are its response queue.  [CoreReach] is
      the invariant of its state and the draining of indications, [CoreSteps] the
      steps, [CoreLoop] the program: [core_event] is a transfer of the host, a
      tick, a round of a data thread or a call of the bridge by another thread,
      [run_core] runs it, and [core_reachable] is the closure.
    - [ImsCodec], [ImsDigest]: [ims_ip.c], [ims_rpdata.c] and [ims_digest.c],
      UDP packets, the relay layer of SMS, and the digest, which is RFC 2617 over
      RFC 1321.
    - [ImsSip], [ImsWorker]: [ims_service.c], the searches in SIP headers and the
      texts, then the calls and a round of the service's thread.  A round is one
      step: the calls of other threads come before or after it.  The packets it
      sends and the messages it receives go to two callbacks on the caller's
      state.
    - [ImsReach]: the invariant [ims_ok] and that everything returns;
      [ImsAuth]: challenges, Base64 and AKA; [ImsRounds]: histories of calls
      and rounds ([ims_reachable], [run_rounds]); [ImsBridge]: the service as an
      instance of [ImsService], a round on the bridge and messages from the
      network.

    ** What the theorems show

    Codecs: what an encoder writes is the documented layout, inside its buffer,
    and the decoder gives the fields back; every decoder is total and memory
    safe on every input.  Cryptography: the routines compute their standards.
    Security: what the unwrapping accepts is decided exactly (a header of type 0
    and null integrity pass unchecked, anything else needs the right MAC under the
    estimated COUNT), a sealed message is accepted, and the holes of the scheme
    (replay of the last message, oversized messages) are stated.  State
    machines: invariants of the reachable states, how the registered and active
    states are entered, that registration and establishment give up after a
    bounded number of timer ticks whatever the network does, and the surprising
    outcomes (PTI of a retransmission, release wait).
    Transport: the cell table and the serving cell, when the link is connected,
    the receive rings as bounded FIFO queues, strangers ignored.  Composition:
    each submission of MM and SM leaves in one datagram that carries the sealed,
    RRC-wrapped message of its request, except that a registration whose SUCI the
    encoder refuses (an odd number of MSIN digits) sends nothing.
    Engine: every call returns in every reachable state, whatever the network
    sends; the invariant of those states; security starts only by a Security Mode
    Command that verifies; how a challenge is answered; and what is missing:
    plain messages are obeyed with or without security, null integrity is
    accepted, a late RRC Setup wedges the registration, a radio cycle keeps the
    host's session.  Configuration: every file is read to its
    end, unless it gives a number that is not an [int], and every field fits.
    MBIM: every command is answered in its buffer with the right transaction and
    lengths, the QMUX synchronisation by an event and every other one by a
    COMMAND_DONE; the queries report the modem state, and reading messages
    delivers the store.  APN contexts refine a map of the names that fit; longer
    names are never found again.  Bridge: every call returns, and a host
    that takes its indications in time knows the registration and the session.
    Core: every event returns in every reachable state and the response queue is
    first in, first out; a tick tells the host what changed and rings, or leaves
    the indications where they are while a command is held; packets cross the data
    path unchanged; a command is held exactly while a response waits.  What it
    does not mean: a held command can be overtaken, and a burst of text messages
    overruns the announcement's buffer.
    IMS: every call and round returns whatever the network sends; a challenge is
    answered with the response of RFC 2617 for the RES of the keys; a silent
    network is sent five REGISTERs and no more; a message from the network is
    queued once, and one that finds the host's queue full is acknowledged and
    lost; packets and relay messages are read back, except a TPDU of 65 octets.

    ** Bounds and fuel

    Scans take the message length plus one as fuel: every iteration advances by
    at least one byte.  The SM retry recursion takes [SM_FUEL] = 257: each
    attempt consumes one of at most 255 retries.  A call of the engine takes
    [CALL_FUEL] = 32 for the loop that drains received messages: the ring holds
    at most 31, and draining receives nothing.  The core's loops over its queues
    of 16 slots take 16 or 17.  The searches in a SIP header take its length plus
    one: each round consumes a line end or an occurrence of a name.  Folding an
    Internet checksum takes 4: three rounds fold any 32-bit sum.

    ** Not modelled

    Logging (it has no effect on the state); the parts listed as not modelled
    in the manifest: threads, sockets, USB descriptors and ioctls, tests. *)

From Stdlib Require Export ZifyBool ZifyNat.
From stdpp Require Export prelude strings.

#[export] Set Default Proof Using "Type".
#[export] Set Default Goal Selector "!".

(** [lia] reasons about [/] and [mod] by constants. *)
Ltac Zify.zify_post_hook ::= Z.div_mod_to_equations.

Declare Scope vlte_scope.
Delimit Scope vlte_scope with vlte.
Open Scope Z_scope.

(** ** Machine integers

    A C integer of width [w] is a [Z]; every place where the code converts
    or may wrap is written out with one of these functions. *)

Abbreviation bytes := (list Z).

Definition u8 (x : Z) : Z := x mod 256.
Definition u16 (x : Z) : Z := x mod 65536.
Definition u32 (x : Z) : Z := x mod 4294967296.
Definition u64 (x : Z) : Z := x mod 18446744073709551616.

(** Reinterpretation of a 32-bit pattern as [int32_t], and back. *)
Definition s32 (x : Z) : Z := if x <? 2147483648 then x else x - 4294967296.

(** Bitwise connectives in the C spelling; [≪] and [≫] are stdpp's notations
    for [Z.shiftl] and [Z.shiftr]. *)
Infix "&." := Z.land (at level 38, left associativity) : vlte_scope.
Infix "|." := Z.lor (at level 39, left associativity) : vlte_scope.
Infix "^." := Z.lxor (at level 39, left associativity) : vlte_scope.
Open Scope vlte_scope.

(** A C boolean condition on positions ([size_t], a [nat] here). *)
Infix "<?n" := Nat.ltb (at level 70) : vlte_scope.
Infix "<=?n" := Nat.leb (at level 70) : vlte_scope.
Infix "=?n" := Nat.eqb (at level 70) : vlte_scope.

Definition is_byte (x : Z) : Prop := 0 <= x < 256.

#[export] Instance is_byte_dec x : Decision (is_byte x).
Proof. unfold is_byte. apply _. Defined.

(** The development's hint databases: [vlte] resolves range and length side
    conditions, [vlen] rewrites lengths. *)
Create HintDb vlte.
Create Rewrite HintDb vlen.

Lemma u8_range x : 0 <= u8 x < 256.
Proof. unfold u8. lia. Qed.

Lemma u16_range x : 0 <= u16 x < 65536.
Proof. unfold u16. lia. Qed.

Lemma u32_range x : 0 <= u32 x < 4294967296.
Proof. unfold u32. lia. Qed.

Lemma u8_is_byte x : is_byte (u8 x).
Proof. apply u8_range. Qed.

Lemma u8_small x : 0 <= x < 256 -> u8 x = x.
Proof. unfold u8. lia. Qed.

Lemma u16_small x : 0 <= x < 65536 -> u16 x = x.
Proof. unfold u16. lia. Qed.

Lemma u32_small x : 0 <= x < 4294967296 -> u32 x = x.
Proof. unfold u32. lia. Qed.

#[export] Hint Resolve Forall_nil_2 Forall_cons_2 Forall_app_2 : vlte.
#[export] Hint Resolve u8_is_byte u8_range u16_range u32_range : vlte.

(** A byte-string literal: the character codes of a Rocq string. *)
Fixpoint str (s : string) : bytes :=
  match s with
  | EmptyString => []
  | String c s => Z.of_N (Ascii.N_of_ascii c) :: str s
  end.

(** [strncpy(dst, src, n - 1); dst[n - 1] = '\0'] and [snprintf(dst, n, "%s")]:
    a [char] array of size [n] holds the C string [take (n - 1) src]. *)
Definition strcpy_n (n : nat) (s : bytes) : bytes := take (n - 1) s.

Lemma strcpy_n_fits n s : (length s < n)%nat -> strcpy_n n s = s.
Proof. intros. unfold strcpy_n. apply take_ge. lia. Qed.

Lemma length_strcpy_n n s : (0 < n)%nat -> (length (strcpy_n n s) < n)%nat.
Proof. intros. unfold strcpy_n. rewrite length_take. lia. Qed.

(** ** Bit-level arithmetic *)

Lemma lor_shiftl_add a b n :
  0 <= n -> 0 <= a < 2 ^ n -> Z.lor (Z.shiftl b n) a = b * 2 ^ n + a.
Proof.
  intros Hn Ha. rewrite <- (Z.shiftl_mul_pow2 b n) by lia.
  rewrite Z.add_nocarry_lxor.
  - symmetry. apply Z.bits_inj'. intros i Hi.
    rewrite Z.lxor_spec, Z.lor_spec.
    destruct (Z.lt_ge_cases i n).
    + by rewrite Z.shiftl_spec_low, xorb_false_l by lia.
    + rewrite <- (Z.mod_small a (2 ^ n)) by lia.
      by rewrite Z.mod_pow2_bits_high, xorb_false_r, orb_false_r by lia.
  - apply Z.bits_inj'. intros i Hi. rewrite Z.land_spec, Z.bits_0.
    destruct (Z.lt_ge_cases i n).
    + by rewrite Z.shiftl_spec_low by lia.
    + rewrite <- (Z.mod_small a (2 ^ n)) by lia.
      by rewrite Z.mod_pow2_bits_high, andb_false_r by lia.
Qed.

Lemma land_mask_mod x n : 0 <= n -> Z.land x (Z.ones n) = x mod 2 ^ n.
Proof. apply Z.land_ones. Qed.

Lemma land_ff x : Z.land x 255 = x mod 256.
Proof. exact (Z.land_ones x 8 ltac:(lia)). Qed.

Lemma land_0f x : Z.land x 15 = x mod 16.
Proof. exact (Z.land_ones x 4 ltac:(lia)). Qed.

Lemma land_07 x : Z.land x 7 = x mod 8.
Proof. exact (Z.land_ones x 3 ltac:(lia)). Qed.

Lemma shiftr_div x n : 0 <= n -> Z.shiftr x n = x / 2 ^ n.
Proof. apply Z.shiftr_div_pow2. Qed.

(** ** Big- and little-endian byte lists *)

(** The [n] low bytes of [v], most significant first. *)
Fixpoint be_list (n : nat) (v : Z) : bytes :=
  match n with
  | O => []
  | S n' => u8 (v ≫ (8 * Z.of_nat n')) :: be_list n' v
  end.

(** The unsigned number a big-endian byte list denotes. *)
Definition be_val (l : bytes) : Z := foldl (fun acc b => acc * 256 + b) 0 l.

Definition le_list (n : nat) (v : Z) : bytes := reverse (be_list n v).
Definition le_val (l : bytes) : Z := be_val (reverse l).

Lemma length_be_list n v : length (be_list n v) = n.
Proof. induction n; simpl; auto. Qed.

Lemma length_le_list n v : length (le_list n v) = n.
Proof. unfold le_list. by rewrite length_reverse, length_be_list. Qed.

Lemma be_list_bytes n v : Forall is_byte (be_list n v).
Proof. induction n; constructor; auto with vlte. Qed.

Lemma le_list_bytes n v : Forall is_byte (le_list n v).
Proof. apply Forall_reverse, be_list_bytes. Qed.

Lemma be_val_foldl_acc l acc :
  foldl (fun acc b => acc * 256 + b) acc l = acc * 256 ^ Z.of_nat (length l) + be_val l.
Proof.
  unfold be_val. revert acc. induction l as [|b l IH]; intros acc; simpl; [lia|].
  rewrite IH, (IH (0 * 256 + b)).
  replace (Z.of_nat (S (length l))) with (Z.of_nat (length l) + 1) by lia.
  rewrite Z.pow_add_r by lia. lia.
Qed.

Lemma be_val_cons b l : be_val (b :: l) = b * 256 ^ Z.of_nat (length l) + be_val l.
Proof. unfold be_val at 1. simpl. by rewrite be_val_foldl_acc. Qed.

Lemma be_val_be_list n v : be_val (be_list n v) = v mod 256 ^ Z.of_nat n.
Proof.
  induction n as [|n IH]; [simpl; by rewrite Z.mod_1_r|].
  simpl be_list. rewrite be_val_cons, length_be_list, IH. unfold u8.
  rewrite shiftr_div by lia.
  replace (2 ^ (8 * Z.of_nat n)) with (256 ^ Z.of_nat n)
    by (change 256 with (2 ^ 8); rewrite <- Z.pow_mul_r; lia).
  replace (Z.of_nat (S n)) with (Z.of_nat n + 1) by lia.
  assert (0 < 256 ^ Z.of_nat n) by (apply Z.pow_pos_nonneg; lia).
  rewrite Z.pow_add_r, Z.pow_1_r, Z.rem_mul_r by lia. lia.
Qed.

Lemma le_val_le_list n v : le_val (le_list n v) = v mod 256 ^ Z.of_nat n.
Proof. unfold le_val, le_list. by rewrite reverse_involutive, be_val_be_list. Qed.

Lemma be_val_range l : Forall is_byte l -> 0 <= be_val l < 256 ^ Z.of_nat (length l).
Proof.
  induction 1 as [|b l Hb _ IH]; [unfold be_val; simpl; lia|].
  rewrite be_val_cons. simpl length. unfold is_byte in Hb.
  replace (Z.of_nat (S (length l))) with (Z.of_nat (length l) + 1) by lia.
  rewrite Z.pow_add_r by lia. nia.
Qed.

#[export] Hint Resolve be_list_bytes le_list_bytes : vlte.
#[export] Hint Rewrite length_be_list length_le_list @length_app @length_take
  @length_drop @length_replicate @length_insert @length_cons @length_nil
  @length_map @length_reverse : vlen.

(** ** Reading memory

    An object in memory is the list of its bytes.  A read outside the object
    is undefined behaviour and is modelled by [None]: a decoder of type
    [option _] that is proved never to return [None] performs no access out of
    bounds (and, where it loops with fuel, does not run out of it). *)

(** [p[i .. i + n - 1]] as the source of a [memcpy]. *)
Definition slice (m : bytes) (i n : nat) : option bytes :=
  if i + n <=?n length m then Some (take n (drop i m)) else None.

Lemma slice_in m i n :
  (i + n <= length m)%nat -> slice m i n = Some (take n (drop i m)).
Proof. intros. unfold slice. destruct (Nat.leb_spec (i + n) (length m)); [done|lia]. Qed.

Lemma slice_length m i n l : slice m i n = Some l -> length l = n.
Proof.
  unfold slice. destruct (Nat.leb_spec (i + n) (length m)); [|done].
  intros [= <-]. rewrite length_take, length_drop. lia.
Qed.

Lemma slice_prefix n l r : length l = n -> slice (l ++ r) 0 n = Some l.
Proof.
  intros <-. rewrite slice_in by (rewrite length_app; lia).
  by rewrite drop_0, take_app_length.
Qed.

Lemma slice_app m l r i n :
  length m = i -> length l = n -> slice (m ++ l ++ r) i n = Some l.
Proof.
  intros <- <-. rewrite slice_in by (rewrite !length_app; lia).
  by rewrite drop_app_length, take_app_length.
Qed.

(** A read inside the object succeeds. *)
Lemma load_in (m : bytes) i : (i < length m)%nat -> exists b, m !! i = Some b.
Proof. intros. by apply lookup_lt_is_Some_2. Qed.

Lemma load_app_mid (m r : bytes) b i : length m = i -> (m ++ b :: r) !! i = Some b.
Proof. intros <-. by rewrite list_lookup_middle. Qed.

Lemma lookup_byte (m : bytes) i b : Forall is_byte m -> m !! i = Some b -> is_byte b.
Proof. intros Hm. by apply Forall_lookup_1. Qed.

(** ** Writing memory

    The caller's output buffer with the write cursor [pos] of the encoders.  A
    write outside the buffer is undefined behaviour ([None]). *)

Record wst := St { wmem : bytes; wpos : nat }.

Definition W (A : Type) : Type := wst -> option (A * wst).

#[export] Instance W_ret : MRet W := fun A x s => Some (x, s).
#[export] Instance W_bind : MBind W := fun A B k m s =>
  match m s with Some (x, s') => k x s' | None => None end.

(** [buf[i] = v]. *)
Definition store (i : nat) (v : Z) : W unit := fun s =>
  if i <?n length (wmem s)
  then Some (tt, St (<[i := v]> (wmem s)) (wpos s)) else None.

(** [memcpy(buf + i, l, |l|)], and the writes [buf[i] = l0; buf[i+1] = l1; ...]. *)
Definition stores (i : nat) (l : bytes) : W unit := fun s =>
  if i + length l <=?n length (wmem s)
  then Some (tt, St (take i (wmem s) ++ l ++ drop (i + length l) (wmem s)) (wpos s))
  else None.

(** [buf[pos++] = l0; buf[pos++] = l1; ...]. *)
Definition emits (l : bytes) : W unit := fun s =>
  if wpos s + length l <=?n length (wmem s)
  then Some (tt, St (take (wpos s) (wmem s) ++ l ++ drop (wpos s + length l) (wmem s))
                    (wpos s + length l)) else None.

(** [memcpy(buf + pos, src, n); pos += n]: reading past [src] is undefined. *)
Definition copy_in (src : bytes) (n : nat) : W unit :=
  if n <=?n length src then emits (take n src) else fun _ => None.

Definition get_pos : W nat := fun s => Some (wpos s, s).

(** [return (int)pos]. *)
Definition ret_pos : W Z := fun s => Some (Z.of_nat (wpos s), s).

(** An encoder called on a possibly null output pointer: [if (!buf) return -1]. *)
Definition run_w (buf : option bytes) (body : W Z) : option (Z * option bytes) :=
  match buf with
  | None => Some (-1, None)
  | Some m => match body (St m 0) with
              | Some (r, s) => Some (r, Some (wmem s))
              | None => None
              end
  end.

(** The buffer [b] with its prefix overwritten by [w]. *)
Definition over (w b : bytes) : bytes := w ++ drop (length w) b.

Lemma over_nil b : over [] b = b.
Proof. done. Qed.

Lemma length_over w b : (length w <= length b)%nat -> length (over w b) = length b.
Proof. intros. unfold over. rewrite length_app, length_drop. lia. Qed.

Lemma take_over w b n : n = length w -> take n (over w b) = w.
Proof. intros ->. unfold over. by rewrite take_app_length. Qed.

Lemma over_splice w b l :
  take (length w) (over w b) ++ l ++ drop (length w + length l) (over w b)
  = over (w ++ l) b.
Proof.
  rewrite take_over by done. unfold over.
  rewrite drop_app_ge by lia. rewrite drop_drop, length_app, <- app_assoc.
  do 3 f_equal. lia.
Qed.

Lemma stores_over w b l i p :
  i = length w -> (length w + length l <= length b)%nat ->
  stores i l (St (over w b) p) = Some (tt, St (over (w ++ l) b) p).
Proof.
  intros -> Hfit. unfold stores. simpl. rewrite length_over by lia.
  destruct (Nat.leb_spec (length w + length l) (length b)); [|lia].
  by rewrite over_splice.
Qed.

Lemma emits_over w b l p :
  p = length w -> (length w + length l <= length b)%nat ->
  emits l (St (over w b) p) = Some (tt, St (over (w ++ l) b) (p + length l)%nat).
Proof.
  intros -> Hfit. unfold emits. simpl. rewrite length_over by lia.
  destruct (Nat.leb_spec (length w + length l) (length b)); [|lia].
  by rewrite over_splice.
Qed.

Lemma copy_in_all l : copy_in l (length l) = emits l.
Proof. unfold copy_in. rewrite Nat.leb_refl. by rewrite take_ge by lia. Qed.

Lemma store_stores i v s : store i v s = stores i [v] s.
Proof.
  unfold store, stores. simpl.
  destruct (Nat.ltb_spec i (length (wmem s))), (Nat.leb_spec (i + 1) (length (wmem s)));
    try lia; [|done].
  do 3 f_equal. rewrite insert_take_drop by lia. do 3 f_equal. lia.
Qed.

Lemma store_over w b v i p :
  i = length w -> (length w < length b)%nat ->
  store i v (St (over w b) p) = Some (tt, St (over (w ++ [v]) b) p).
Proof. intros. rewrite store_stores, stores_over; simpl; [done|done|lia]. Qed.

(** Rewriting an already written byte. *)
Lemma store_patch w b v i p :
  (i < length w)%nat ->
  store i v (St (over w b) p) = Some (tt, St (over (<[i := v]> w) b) p).
Proof.
  intros Hi. unfold store, over. simpl. rewrite length_app.
  destruct (Nat.ltb_spec i (length w + length (drop (length w) b))); [|lia].
  by rewrite insert_app_l, length_insert by lia.
Qed.

(** Sequencing: run the first action, continue from its state. *)
Lemma W_bind_some {A B} (m : W A) (k : A -> W B) s x s' :
  m s = Some (x, s') -> (m ≫= k) s = k x s'.
Proof. intros H. unfold mbind, W_bind. by rewrite H. Qed.

Lemma W_bind_none {A B} (m : W A) (k : A -> W B) s :
  m s = None -> (m ≫= k) s = None.
Proof. intros H. unfold mbind, W_bind. by rewrite H. Qed.

Lemma W_ret_eq {A} (x : A) s : (mret x : W A) s = Some (x, s).
Proof. done. Qed.

Lemma bind_get_pos {B} (k : nat -> W B) m p : (get_pos ≫= k) (St m p) = k p (St m p).
Proof. done. Qed.

(** ** Tactics *)

(** Closes side conditions about lengths. *)
Ltac vlia := cbn [negb] in *; repeat (autorewrite with vlen in *; simpl length in *); lia.

(** One step of a straight-line writer. *)
Ltac wstep :=
  first
    [ erewrite W_bind_some; [|apply emits_over; [reflexivity || vlia | vlia]]
    | erewrite W_bind_some; [|apply store_over; [reflexivity || vlia | vlia]]
    | erewrite W_bind_some; [|apply stores_over; [reflexivity || vlia | vlia]] ].

(** Decides the boolean guards of the code whose outcome [lia] knows. *)
Ltac bcase :=
  match goal with
  | |- context [Nat.ltb ?a ?b] =>
      let E := fresh "E" in destruct (Nat.ltb_spec a b) as [E|E]; try (exfalso; vlia)
  | |- context [Nat.leb ?a ?b] =>
      let E := fresh "E" in destruct (Nat.leb_spec a b) as [E|E]; try (exfalso; vlia)
  | |- context [Nat.eqb ?a ?b] =>
      let E := fresh "E" in destruct (Nat.eqb_spec a b) as [E|E]; try (exfalso; vlia)
  | |- context [Z.ltb ?a ?b] =>
      let E := fresh "E" in destruct (Z.ltb_spec a b) as [E|E]; try (exfalso; vlia)
  | |- context [Z.leb ?a ?b] =>
      let E := fresh "E" in destruct (Z.leb_spec a b) as [E|E]; try (exfalso; vlia)
  | |- context [Z.eqb ?a ?b] =>
      let E := fresh "E" in destruct (Z.eqb_spec a b) as [E|E]; try (exfalso; vlia)
  end.

(** Truncating to [n] bytes first does not change the [n] bytes. *)
Lemma u8_shiftr_mod v n k :
  (k < n)%nat ->
  u8 ((v mod 256 ^ Z.of_nat n) ≫ (8 * Z.of_nat k)) = u8 (v ≫ (8 * Z.of_nat k)).
Proof.
  intros Hk. unfold u8. change 256 with (2 ^ 8).
  rewrite <- Z.pow_mul_r by lia. apply Z.bits_inj'. intros i Hi.
  destruct (Z.lt_ge_cases i 8).
  - rewrite !Z.mod_pow2_bits_low, !Z.shiftr_spec by lia.
    by rewrite Z.mod_pow2_bits_low by lia.
  - by rewrite !Z.mod_pow2_bits_high by lia.
Qed.

Lemma be_list_mod_ge n m v : (n <= m)%nat -> be_list n (v mod 256 ^ Z.of_nat m) = be_list n v.
Proof.
  intros Hnm. induction n as [|n IH]; [done|]. simpl.
  rewrite u8_shiftr_mod by lia. by rewrite IH by lia.
Qed.

Lemma be_list_u32 v : be_list 4 (u32 v) = be_list 4 v.
Proof. exact (be_list_mod_ge 4 4 v ltac:(lia)). Qed.

(** Splitting an 8-byte number into two 32-bit words. *)
Lemma be_list_8 v : be_list 8 v = be_list 4 (v ≫ 32) ++ be_list 4 v.
Proof. simpl. rewrite !Z.shiftr_shiftr by lia. reflexivity. Qed.

(** The value of four (or two) adjacent bytes, as the code assembles it. *)
Lemma be_word4 a b c d :
  is_byte a -> is_byte b -> is_byte c -> is_byte d ->
  (a ≪ 24) |. (b ≪ 16) |. (c ≪ 8) |. d = be_val [a; b; c; d].
Proof.
  unfold is_byte, be_val. intros. simpl.
  rewrite <- !Z.lor_assoc.
  rewrite (lor_shiftl_add d c 8) by lia.
  rewrite (lor_shiftl_add _ b 16) by lia.
  rewrite (lor_shiftl_add _ a 24) by lia. lia.
Qed.

Lemma be_word2 a b : is_byte a -> is_byte b -> (a ≪ 8) |. b = be_val [a; b].
Proof.
  unfold is_byte, be_val. intros. simpl. rewrite (lor_shiftl_add b a 8) by lia. lia.
Qed.

Lemma le_word4 a b c d :
  is_byte a -> is_byte b -> is_byte c -> is_byte d ->
  a |. (b ≪ 8) |. (c ≪ 16) |. (d ≪ 24) = le_val [a; b; c; d].
Proof.
  intros. unfold le_val. change (reverse [a; b; c; d]) with [d; c; b; a].
  rewrite <- be_word4 by done.
  rewrite <- !Z.lor_assoc, (Z.lor_comm a), <- !Z.lor_assoc.
  rewrite (Z.lor_comm (b ≪ 8)), <- !Z.lor_assoc.
  rewrite (Z.lor_comm (c ≪ 16)), <- !Z.lor_assoc.
  f_equal. rewrite (Z.lor_comm a), Z.lor_assoc, (Z.lor_comm (b ≪ 8)), <- Z.lor_assoc.
  by rewrite (Z.lor_comm (b ≪ 8)).
Qed.

Lemma le_word2 a b : is_byte a -> is_byte b -> a |. (b ≪ 8) = le_val [a; b].
Proof.
  intros. unfold le_val. change (reverse [a; b]) with [b; a].
  rewrite <- be_word2 by done. apply Z.lor_comm.
Qed.

(** Reading back a list of known bytes inside a larger object. *)
Lemma lookup_app_at (m l r : bytes) i j b :
  length m = i -> l !! j = Some b -> (m ++ l ++ r) !! (i + j)%nat = Some b.
Proof.
  intros <- Hj. rewrite lookup_app_r by lia.
  rewrite Nat.add_comm, Nat.add_sub. by apply lookup_app_l_Some.
Qed.

(** Steps through a successful bind; the kernel does not compare what was bound
    with the rest, as it may after [ob]. *)
Lemma bind_some {A B} (m : option A) (k : A -> option B) x r : m = Some x -> k x = r -> (m ≫= k) = r.
Proof. by intros -> <-. Qed.

(** Steps through a successful bind of the option monad. *)
Ltac ob := cbn [mbind option_bind].

(** Resolves every boolean guard of the goal that [lia] decides, leaving the
    others alone. *)
Ltac bguard a b t := replace a with b by (symmetry; t; solve [lia | vlia]).
Ltac bdec1 :=
  match goal with
  | |- context [Nat.ltb ?a ?b] =>
      first [ bguard (Nat.ltb a b) false ltac:(apply Nat.ltb_ge)
            | bguard (Nat.ltb a b) true ltac:(apply Nat.ltb_lt) ]
  | |- context [Nat.leb ?a ?b] =>
      first [ bguard (Nat.leb a b) true ltac:(apply Nat.leb_le)
            | bguard (Nat.leb a b) false ltac:(apply Nat.leb_gt) ]
  | |- context [Nat.eqb ?a ?b] =>
      first [ bguard (Nat.eqb a b) true ltac:(apply Nat.eqb_eq)
            | bguard (Nat.eqb a b) false ltac:(apply Nat.eqb_neq) ]
  | |- context [Z.ltb ?a ?b] =>
      first [ bguard (Z.ltb a b) false ltac:(apply Z.ltb_ge)
            | bguard (Z.ltb a b) true ltac:(apply Z.ltb_lt) ]
  | |- context [Z.leb ?a ?b] =>
      first [ bguard (Z.leb a b) true ltac:(apply Z.leb_le)
            | bguard (Z.leb a b) false ltac:(apply Z.leb_gt) ]
  | |- context [Z.eqb ?a ?b] =>
      first [ bguard (Z.eqb a b) true ltac:(apply Z.eqb_eq)
            | bguard (Z.eqb a b) false ltac:(apply Z.eqb_neq) ]
  end.
Ltac bdec := repeat (bdec1; cbv iota; cbn [negb andb orb]).

(** ** Safety of decoders

    [is_Some (f input)] says that a decoder terminates without an access out
    of bounds.  The tactic [safe] walks through its body: each load leaves an
    in-bounds obligation for [lia], each guard becomes a hypothesis.  Component
    lemmas join the database [safe]. *)
Create HintDb safe.

Lemma safe_bind {A B} (m : option A) (k : A -> option B) :
  is_Some m -> (forall x, m = Some x -> is_Some (k x)) -> is_Some (m ≫= k).
Proof. intros [x ->] H. exact (H x eq_refl). Qed.

Lemma safe_load (m : bytes) i : (i < length m)%nat -> is_Some (m !! i).
Proof. by apply lookup_lt_is_Some_2. Qed.

Lemma safe_slice m i n : (i + n <= length m)%nat -> is_Some (slice m i n).
Proof. intros. rewrite slice_in by done. eauto. Qed.

#[export] Hint Extern 1 (is_Some (_ !! _)) => apply safe_load; lia : safe.
#[export] Hint Extern 1 (is_Some (slice _ _ _)) => apply safe_slice; lia : safe.
#[export] Hint Extern 0 (is_Some (Some _)) => eexists; reflexivity : safe.

Ltac safe_step :=
  match goal with
  | |- is_Some (Some _) => eexists; reflexivity
  | |- is_Some (let _ := _ in _) => cbv zeta
  | |- is_Some (mbind _ _) => apply safe_bind; [|intros ? ?]
  | |- is_Some (if ?c then _ else _) => let E := fresh "E" in destruct c eqn:E
  | |- is_Some (match ?c with _ => _ end) => let E := fresh "E" in destruct c eqn:E
  | |- is_Some _ => solve [auto with safe]
  end.
Ltac safe := repeat safe_step.

(** ** Record update

    [r <| f := v |>] is the record [r] with field [f] replaced by [v]; the
    setter is derived from the projection.  State records are declared with
    primitive projections, so updates of an opaque record still compute. *)
Class Setter {R T : Type} (get : R -> T) := set_field : T -> R -> R.
#[global] Hint Mode Setter - - ! : typeclass_instances.

Ltac derive_setter get :=
  let v := fresh "v" in let r := fresh "r" in let whole := fresh "whole" in
  red; intros v r; pose (whole := r); destruct r;
  let t := eval unfold whole in whole in
  let x := eval cbn in (get t) in
  match eval pattern x in t with ?f _ => let t' := eval cbv beta in (f v) in exact t' end.

#[global] Hint Extern 1 (Setter ?get) => derive_setter get : typeclass_instances.

Notation "r <| f := v |>" := (set_field (get := f) v r)
  (at level 1, left associativity, f constr at level 1, format "r  <| f  :=  v |>") : vlte_scope.

(** Induction two elements at a time. *)
Lemma list_pair_ind {A} (P : list A -> Prop) :
  P [] -> (forall a, P [a]) -> (forall a b l, P l -> P (a :: b :: l)) -> forall l, P l.
Proof.
  intros H0 H1 H2 l. enough (P l /\ forall a, P (a :: l)) as [? _] by done.
  induction l as [|b l [IH IH']]; split; auto.
Qed.

(** Splits a bounded integer into its values. *)
Ltac zcases x :=
  match goal with
  | H : ?lo <= x <= ?hi |- _ =>
      let E := fresh "E" in
      destruct (Z.eq_dec x lo) as [E|E];
      [ rewrite ?E in *; clear H E
      | let H' := fresh "H" in
        let lo' := eval compute in (lo + 1) in
        assert (lo' <= x <= hi) as H' by lia; clear H E;
        first [ exfalso; lia | zcases x ] ]
  end.

(** ** Postconditions

    [post m P]: if [m] returns a value (no undefined behaviour), it satisfies
    [P].  The tactic [posts] walks through a body as [safe] does. *)
Definition post {A} (m : option A) (P : A -> Prop) : Prop :=
  match m with Some x => P x | None => True end.

Lemma post_bind {A B} (m : option A) (k : A -> option B) P :
  post m (fun x => post (k x) P) -> post (m ≫= k) P.
Proof. by destruct m. Qed.

Lemma post_intro {A} (m : option A) (P : A -> Prop) :
  (forall x, m = Some x -> P x) -> post m P.
Proof. destruct m; simpl; auto. Qed.

Lemma post_elim {A} (m : option A) (P : A -> Prop) x : post m P -> m = Some x -> P x.
Proof. by intros H ->. Qed.

Lemma post_mono {A} (m : option A) (P Q : A -> Prop) :
  post m P -> (forall x, P x -> Q x) -> post m Q.
Proof. destruct m; simpl; auto. Qed.

Ltac posts_step :=
  match goal with
  | |- post (Some _) _ => cbn [post]
  | |- post (let _ := _ in _) _ => cbv zeta
  | |- post (mbind _ _) _ => apply post_bind
  | |- post (if ?c then _ else _) _ => let E := fresh "E" in destruct c eqn:E
  | |- post (match ?c with _ => _ end) _ => let E := fresh "E" in destruct c eqn:E
  | |- post (_ !! _) _ => apply post_intro; intros ? ?
  | |- post (slice _ _ _) _ => apply post_intro; intros ? ?
  end.
Ltac posts := repeat posts_step.

(** ** Fallible state-passing code

    [EM S A]: code over a state [S] that returns a value, or takes an early
    [return -1] ([Some (None, s)], the state as it is then), or has undefined
    behaviour ([None]). *)
Definition EM (S A : Type) : Type := S -> option (option A * S).

#[export] Instance EM_ret {S} : MRet (EM S) := fun A x s => Some (Some x, s).
#[export] Instance EM_bind {S} : MBind (EM S) := fun A B k m s =>
  match m s with
  | Some (Some x, s') => k x s'
  | Some (None, s') => Some (None, s')
  | None => None
  end.

(** [return -1]. *)
Definition fail {S A} : EM S A := fun s => Some (None, s).
Definition ub {S A} : EM S A := fun _ => None.
Definition get_st {S} : EM S S := fun s => Some (Some s, s).
Definition modify {S} (f : S -> S) : EM S unit := fun s => Some (Some tt, f s).

Lemma EM_bind_ok {S A B} (m : EM S A) (k : A -> EM S B) s x s' :
  m s = Some (Some x, s') -> (m ≫= k) s = k x s'.
Proof. intros H. unfold mbind, EM_bind. by rewrite H. Qed.

Lemma EM_bind_err {S A B} (m : EM S A) (k : A -> EM S B) s s' :
  m s = Some (None, s') -> (m ≫= k) s = Some (None, s').
Proof. intros H. unfold mbind, EM_bind. by rewrite H. Qed.

Lemma EM_ret_eq {S A} (x : A) (s : S) : (mret x : EM S A) s = Some (Some x, s).
Proof. done. Qed.

(** Safety of such code: it neither fails a memory access nor runs out of
    fuel from any state satisfying [I], and keeps [I]. *)
Definition em_safe {S A} (I : S -> Prop) (m : EM S A) : Prop :=
  forall s, I s -> exists r s', m s = Some (r, s') /\ I s'.

Lemma em_safe_bind {S A B} (I : S -> Prop) (m : EM S A) (k : A -> EM S B) :
  em_safe I m -> (forall x, em_safe I (k x)) -> em_safe I (m ≫= k).
Proof.
  intros Hm Hk s Hs. destruct (Hm s Hs) as (r & s' & E & Hs').
  unfold mbind, EM_bind. rewrite E. destruct r as [x|]; [by apply Hk|eauto].
Qed.

Lemma em_safe_ret {S A} (I : S -> Prop) (x : A) : em_safe I (mret x : EM S A).
Proof. intros s Hs. by exists (Some x), s. Qed.

Lemma em_safe_fail {S A} (I : S -> Prop) : em_safe I (fail : EM S A).
Proof. intros s Hs. by exists None, s. Qed.

Lemma em_safe_get {S} (I : S -> Prop) : em_safe I (get_st : EM S S).
Proof. intros s Hs. by exists (Some s), s. Qed.

Lemma em_safe_modify {S} (I : S -> Prop) f :
  (forall s, I s -> I (f s)) -> em_safe I (modify f : EM S unit).
Proof. intros H s Hs. exists (Some tt), (f s). auto. Qed.

(** A decidable fact about all bytes, checked by evaluation. *)
Lemma byte_forall (P : Z -> bool) :
  forallb P (seqZ 0 256) = true -> forall x, is_byte x -> P x = true.
Proof.
  intros H x Hx. rewrite forallb_forall in H. apply H.
  apply list_elem_of_In, elem_of_seqZ. unfold is_byte in Hx. lia.
Qed.

(** ** Bytes and exclusive or *)

Lemma lxor_byte a b : is_byte a -> is_byte b -> is_byte (a ^. b).
Proof.
  unfold is_byte. intros Ha Hb. assert (a ^. b = (a ^. b) mod 256) as ->; [|lia].
  change 256 with (2 ^ 8). apply Z.bits_inj'. intros i Hi.
  destruct (Z.lt_ge_cases i 8); [by rewrite Z.mod_pow2_bits_low by lia|].
  rewrite Z.mod_pow2_bits_high, Z.lxor_spec by lia.
  rewrite <- (Z.mod_small a (2 ^ 8)), <- (Z.mod_small b (2 ^ 8)) by lia.
  by rewrite !Z.mod_pow2_bits_high by lia.
Qed.
#[export] Hint Resolve lxor_byte : vlte.

Lemma lxor_cancel a b : (a ^. b) ^. b = a.
Proof. by rewrite Z.lxor_assoc, Z.lxor_nilpotent, Z.lxor_0_r. Qed.

Lemma lookup_total_byte (m : bytes) i : Forall is_byte m -> is_byte (m !!! i).
Proof.
  intros Hm. rewrite list_lookup_total_alt. destruct (m !! i) eqn:E; simpl.
  - by eapply Forall_lookup_1.
  - unfold is_byte, inhabitant. simpl. lia.
Qed.
#[export] Hint Resolve lookup_total_byte : vlte.

(** Concatenation of blocks of one length. *)
Section Blocks.
Context {A : Type} (k : nat).

Lemma length_concat_blocks (ws : list (list A)) :
  Forall (fun w => length w = k) ws -> length (concat ws) = (k * length ws)%nat.
Proof.
  induction 1 as [|w ws Hw _ IH]; [simpl; lia|]. cbn [concat length].
  rewrite length_app, IH, Hw. lia.
Qed.

Lemma drop_concat_blocks (ws : list (list A)) j :
  Forall (fun w => length w = k) ws -> drop (k * j) (concat ws) = concat (drop j ws).
Proof.
  intros H. revert j. induction H as [|w ws Hw _ IH]; intros j; [cbn [concat]; by rewrite !drop_nil|].
  destruct j as [|j]; [by rewrite Nat.mul_0_r|].
  cbn [concat]. rewrite drop_app_ge by lia.
  replace (k * S j - length w)%nat with (k * j)%nat by lia. apply IH.
Qed.

Lemma take_concat_blocks (ws : list (list A)) j :
  Forall (fun w => length w = k) ws -> take (k * j) (concat ws) = concat (take j ws).
Proof.
  intros H. revert j. induction H as [|w ws Hw _ IH]; intros j; [cbn [concat]; by rewrite !take_nil|].
  destruct j as [|j]; [by rewrite Nat.mul_0_r|].
  cbn [concat]. rewrite take_app_ge by lia.
  replace (k * S j - length w)%nat with (k * j)%nat by lia. by rewrite IH.
Qed.

Lemma block_at (ws : list (list A)) j w :
  Forall (fun w => length w = k) ws -> ws !! j = Some w ->
  take k (drop (k * j) (concat ws)) = w.
Proof.
  intros H Hj. rewrite drop_concat_blocks by done.
  rewrite (drop_S _ w j Hj). cbn [concat].
  eapply Forall_lookup_1 in H as Hw; [|exact Hj]. simpl in Hw.
  by rewrite take_app_length'.
Qed.
End Blocks.

Lemma lxor_pow2_range a b n :
  0 <= n -> 0 <= a < 2 ^ n -> 0 <= b < 2 ^ n -> 0 <= a ^. b < 2 ^ n.
Proof.
  intros Hn Ha Hb. assert (a ^. b = (a ^. b) mod 2 ^ n) as ->; [|lia].
  apply Z.bits_inj'. intros i Hi. destruct (Z.lt_ge_cases i n).
  - by rewrite Z.mod_pow2_bits_low by lia.
  - rewrite Z.mod_pow2_bits_high, Z.lxor_spec by lia.
    rewrite <- (Z.mod_small a (2 ^ n)), <- (Z.mod_small b (2 ^ n)) by lia.
    by rewrite !Z.mod_pow2_bits_high by lia.
Qed.
