(* ===== verification/CString.v ===== *)
(** The functions of the C library that the program applies to strings:
    [isspace], [tolower], [strcasecmp], [strchr], [atoi], and the conversions
    [%u], [%0nu], [%03d] and [%02x] of [snprintf].

    A C string is the list of its characters without the terminator; the locale
    is "C". *)

From S2P Require Import Prelude.

Definition isspace (c : Z) : bool := (c =? 32) || ((9 <=? c) && (c <=? 13)).
Definition tolower (c : Z) : Z := if (65 <=? c) && (c <=? 90) then c + 32 else c.
Definition isdigit (c : Z) : bool := (48 <=? c) && (c <=? 57).

(** [strcasecmp(a, b) == 0]. *)
Definition strcaseeq (a b : bytes) : bool := bool_decide (tolower <$> a = tolower <$> b).

(** [strchr(s, c)] with the character cut out: what is before and after it. *)
Fixpoint strcut (c : Z) (s : bytes) : option (bytes * bytes) :=
  match s with
  | [] => None
  | d :: s =>
    if d =? c then Some ([], s) else '(a, b) ← strcut c s; Some (d :: a, b)
  end.

(** ** Numbers *)

Fixpoint digits_val (acc : Z) (s : bytes) : Z :=
  match s with
  | c :: s => if isdigit c then digits_val (acc * 10 + (c - 48)) s else acc
  | [] => acc
  end.

Fixpoint skip_spaces (s : bytes) : bytes :=
  match s with
  | c :: s' => if isspace c then skip_spaces s' else s
  | [] => []
  end.

(** Undefined when the number is not an [int]. *)
Definition atoi (s : bytes) : option Z :=
  let v := match skip_spaces s with
           | c :: s' => if c =? 45 then - digits_val 0 s'
                        else if c =? 43 then digits_val 0 s' else digits_val 0 (c :: s')
           | [] => 0
           end in
  if (- 2147483648 <=? v) && (v <=? 2147483647) then Some v else None.

(** The [n] low decimal digits of [v], most significant first. *)
Fixpoint dec_list (n : nat) (v : Z) : bytes :=
  match n with
  | O => []
  | S n' => 48 + (v / 10 ^ Z.of_nat n') mod 10 :: dec_list n' v
  end.

(** The number of decimal digits, at most [fuel]. *)
Fixpoint dec_width (fuel : nat) (v : Z) : nat :=
  match fuel with
  | O => 1
  | S fuel => if v <? 10 then 1 else S (dec_width fuel (v / 10))
  end.

(** [%u] and [%0wu] of a number of at most 20 digits. *)
Definition utoa (v : Z) : bytes := dec_list (dec_width 20 v) v.
Definition utoa_pad (w : nat) (v : Z) : bytes := dec_list (max w (dec_width 20 v)) v.

(** [%0wd]. *)
Definition itoa_pad (w : nat) (v : Z) : bytes :=
  if v <? 0 then 45 :: utoa_pad (w - 1) (- v) else utoa_pad w v.

(** [%02x]. *)
Definition hex_digit (d : Z) : Z := if d <? 10 then 48 + d else 87 + d.
Definition hex2 (b : Z) : bytes := [hex_digit (b ≫ 4); hex_digit (b &. 15)].

(** ** Facts *)

Lemma strcaseeq_refl s : strcaseeq s s = true.
Proof. unfold strcaseeq. by apply bool_decide_eq_true. Qed.

Lemma strcaseeq_spec a b : strcaseeq a b = true <-> tolower <$> a = tolower <$> b.
Proof. unfold strcaseeq. apply bool_decide_eq_true. Qed.

Lemma strcaseeq_sym a b : strcaseeq a b = strcaseeq b a.
Proof. unfold strcaseeq. apply bool_decide_ext. done. Qed.

Lemma strcut_app c a b : Forall (fun d => d <> c) a -> strcut c (a ++ c :: b) = Some (a, b).
Proof.
  induction 1 as [|d a Hd _ IH]; cbn [strcut app]; [by rewrite Z.eqb_refl|].
  replace (d =? c) with false by lia. by rewrite IH.
Qed.

Lemma strcut_none c a : Forall (fun d => d <> c) a -> strcut c a = None.
Proof.
  induction 1 as [|d a Hd _ IH]; cbn [strcut]; [done|].
  replace (d =? c) with false by lia. by rewrite IH.
Qed.

Lemma strcut_some c s a b : strcut c s = Some (a, b) -> s = a ++ c :: b.
Proof.
  revert a. induction s as [|d s IH]; intros a; cbn [strcut]; [done|].
  destruct (Z.eqb_spec d c) as [->|]; [by intros [= <- <-]|].
  destruct (strcut c s) as [[a' b']|]; [|done]. cbn [mbind option_bind].
  intros [= <- <-]. cbn [app]. f_equal. by apply IH.
Qed.

Lemma length_dec_list n v : length (dec_list n v) = n.
Proof. induction n; cbn; auto. Qed.

Lemma dec_list_digits n v : Forall (fun c => isdigit c = true) (dec_list n v).
Proof.
  induction n as [|n IH]; constructor; [|done].
  unfold isdigit. pose proof (Z.mod_pos_bound (v / 10 ^ Z.of_nat n) 10 ltac:(lia)). lia.
Qed.

Lemma pow10_S n : 10 ^ Z.of_nat (S n) = 10 * 10 ^ Z.of_nat n.
Proof. rewrite Nat2Z.inj_succ, Z.pow_succ_r by lia. lia. Qed.

Lemma digits_val_app acc a b :
  Forall (fun c => isdigit c = true) a -> digits_val acc (a ++ b) = digits_val (digits_val acc a) b.
Proof.
  intros Ha. revert acc. induction Ha as [|c a Hc _ IH]; intros acc; [done|].
  cbn [app digits_val]. rewrite Hc. apply IH.
Qed.

Lemma digits_val_dec acc n v :
  digits_val acc (dec_list n v) = acc * 10 ^ Z.of_nat n + v mod 10 ^ Z.of_nat n.
Proof.
  revert acc. induction n as [|n IH]; intros acc; [cbn; rewrite Z.mod_1_r; lia|].
  cbn [dec_list digits_val].
  assert (isdigit (48 + (v / 10 ^ Z.of_nat n) mod 10) = true) as ->
    by (unfold isdigit; pose proof (Z.mod_pos_bound (v / 10 ^ Z.of_nat n) 10 ltac:(lia)); lia).
  rewrite IH. pose proof (Z.pow_pos_nonneg 10 (Z.of_nat n) ltac:(lia) ltac:(lia)) as Hp.
  rewrite pow10_S, (Z.mul_comm 10), Z.rem_mul_r by lia. lia.
Qed.

(** A number is determined by its digits. *)
Lemma dec_list_inj n v w :
  0 <= v < 10 ^ Z.of_nat n -> 0 <= w < 10 ^ Z.of_nat n -> dec_list n v = dec_list n w -> v = w.
Proof.
  intros Hv Hw E. apply (f_equal (digits_val 0)) in E.
  rewrite !digits_val_dec, !Z.mod_small in E by done. lia.
Qed.

Lemma dec_width_bound fuel n v :
  0 <= v < 10 ^ Z.of_nat n -> (0 < n)%nat -> (dec_width fuel v <= n)%nat.
Proof.
  revert n v. induction fuel as [|fuel IH]; intros n v Hv Hn; cbn [dec_width]; [lia|].
  destruct (v <? 10) eqn:E; [lia|]. destruct n as [|n]; [lia|].
  destruct n as [|n]; [change (10 ^ Z.of_nat 1) with 10 in Hv; lia|].
  apply le_n_S, IH; [|lia]. rewrite pow10_S in Hv.
  pose proof (Z.pow_pos_nonneg 10 (Z.of_nat (S n)) ltac:(lia) ltac:(lia)). lia.
Qed.

Lemma utoa_pad_fixed w v : 0 <= v < 10 ^ Z.of_nat w -> (0 < w)%nat -> utoa_pad w v = dec_list w v.
Proof.
  intros Hv Hw. unfold utoa_pad. by rewrite Nat.max_l by (by apply dec_width_bound).
Qed.

Lemma length_hex2 l : length (concat (hex2 <$> l)) = (2 * length l)%nat.
Proof. induction l as [|b l IH]; [done|]. rewrite fmap_cons. cbn [concat length app hex2]. rewrite IH. lia. Qed.

(** A short string is a number within [int]. *)
Lemma digits_val_range acc s :
  0 <= acc -> 0 <= digits_val acc s < (acc + 1) * 10 ^ Z.of_nat (length s).
Proof.
  revert acc. induction s as [|c s IH]; intros acc Ha; cbn [digits_val length]; [lia|].
  rewrite pow10_S. pose proof (Z.pow_pos_nonneg 10 (Z.of_nat (length s)) ltac:(lia) ltac:(lia)).
  destruct (isdigit c) eqn:E; [|nia].
  unfold isdigit in E. specialize (IH (acc * 10 + (c - 48)) ltac:(lia)). nia.
Qed.

Lemma atoi_short s : (length s < 8)%nat -> exists v, atoi s = Some v.
Proof.
  intros Hl. unfold atoi.
  assert (length (skip_spaces s) <= length s)%nat as Hk.
  { clear. induction s as [|c s IH]; [done|]. cbn [skip_spaces]. case_match; simpl; lia. }
  assert (forall t, (length t < 8)%nat -> 0 <= digits_val 0 t < 10 ^ 7) as Hd.
  { intros t Ht. pose proof (digits_val_range 0 t ltac:(lia)) as [? H].
    split; [done|]. eapply Z.lt_le_trans; [exact H|].
    rewrite Z.mul_1_l. apply Z.pow_le_mono_r; lia. }
  cbv zeta. set (v := match skip_spaces s with [] => 0 | _ => _ end).
  assert (- 10 ^ 7 <= v <= 10 ^ 7) as Hv.
  { unfold v. destruct (skip_spaces s) as [|c t]; [lia|]. simpl in Hk.
    pose proof (Hd t ltac:(lia)). pose proof (Hd (c :: t) ltac:(simpl; lia)).
    repeat case_match; lia. }
  replace (_ && _) with true by lia. by exists v.
Qed.
