(* ===== verification/Rls.v ===== *)
(** The RLS (Radio Link Simulation) wire codec: [src/src/ue_engine/ue_rls.c]
    and [ue_rls.h].

    Encoders run in the writer monad of [Prelude] on the caller's buffer with
    the C bound [buf_len]; the decoder reads [data] with bounds-checked loads.
    The theorems give the byte layout each encoder produces, that decoding it
    gives the message back, and that the decoder accepts arbitrary input
    without an access out of bounds. *)

From S2P Require Import Prelude.

Definition UE_RLS_VERSION_MAJOR : Z := 3.
Definition UE_RLS_VERSION_MINOR : Z := 2.
Definition UE_RLS_VERSION_PATCH : Z := 8.
Definition UE_RLS_COMPAT_MARKER : Z := 3.
Definition UE_RLS_HEADER_SIZE : nat := 13.
Definition UE_RLS_MAX_PDU_SIZE : Z := 16384.
Definition UE_RLS_MAX_ACK_IDS : Z := 64.

(** [enum ue_rls_msg_type] *)
Definition UE_RLS_HEARTBEAT : Z := 4.
Definition UE_RLS_HEARTBEAT_ACK : Z := 5.
Definition UE_RLS_PDU_TRANSMISSION : Z := 6.
Definition UE_RLS_PDU_TRANSMISSION_ACK : Z := 7.

(** [enum ue_rls_pdu_type] *)
Definition UE_RLS_PDU_TYPE_RRC : Z := 1.
Definition UE_RLS_PDU_TYPE_DATA : Z := 2.

Record ue_rls_heartbeat := Heartbeat {
  hb_sti : Z; hb_sim_pos_x : Z; hb_sim_pos_y : Z; hb_sim_pos_z : Z }.

Record ue_rls_heartbeat_ack := HeartbeatAck { ha_sti : Z; ha_dbm : Z }.

(** [pdu] is the bytes the C pointer refers to, [None] for the null pointer. *)
Record ue_rls_pdu_transmission := PduTransmission {
  pt_sti : Z; pt_pdu_type : Z; pt_pdu_id : Z; pt_payload : Z;
  pt_pdu : option bytes; pt_pdu_len : Z }.

(** [pdu_ids] holds the first [count] entries of the C array. *)
Record ue_rls_pdu_transmission_ack := PduTransmissionAck {
  pa_sti : Z; pa_pdu_ids : list Z; pa_count : Z }.

(** The tagged union [struct ue_rls_message]. *)
Inductive ue_rls_message :=
| RlsHeartbeat (m : ue_rls_heartbeat)
| RlsHeartbeatAck (m : ue_rls_heartbeat_ack)
| RlsPduTx (m : ue_rls_pdu_transmission)
| RlsPduAck (m : ue_rls_pdu_transmission_ack).

(** ** Big-endian helpers *)

Definition put_be32 (p : nat) (v : Z) : W unit :=
  store p (u8 (v ≫ 24)) ;;
  store (p + 1) (u8 (v ≫ 16)) ;;
  store (p + 2) (u8 (v ≫ 8)) ;;
  store (p + 3) (u8 v).

Definition put_be64 (p : nat) (v : Z) : W unit :=
  put_be32 p (u32 (v ≫ 32)) ;;
  put_be32 (p + 4) (u32 v).

Definition get_be32 (m : bytes) (p : nat) : option Z :=
  b0 ← m !! p; b1 ← m !! (p + 1)%nat; b2 ← m !! (p + 2)%nat; b3 ← m !! (p + 3)%nat;
  Some ((b0 ≪ 24) |. (b1 ≪ 16) |. (b2 ≪ 8) |. b3).

Definition get_be32_signed (m : bytes) (p : nat) : option Z :=
  u ← get_be32 m p; Some (s32 u).

Definition get_be64 (m : bytes) (p : nat) : option Z :=
  hi ← get_be32 m p; lo ← get_be32 m (p + 4);
  Some ((hi ≪ 32) |. lo).

(** ** Encoders *)

Definition rls_write_header (buf_len : nat) (type sti : Z) : W Z :=
  if buf_len <?n UE_RLS_HEADER_SIZE then mret (-1) else
  store 0 UE_RLS_COMPAT_MARKER ;;
  store 1 UE_RLS_VERSION_MAJOR ;;
  store 2 UE_RLS_VERSION_MINOR ;;
  store 3 UE_RLS_VERSION_PATCH ;;
  store 4 (u8 type) ;;
  put_be64 5 sti ;;
  mret (Z.of_nat UE_RLS_HEADER_SIZE).

Definition ue_rls_encode_heartbeat (buf : option bytes) (buf_len : nat)
    (sti x y z : Z) : option (Z * option bytes) :=
  run_w buf (
    let total := (UE_RLS_HEADER_SIZE + 12)%nat in
    if buf_len <?n total then mret (-1) else
    rls_write_header buf_len UE_RLS_HEARTBEAT sti ;;
    put_be32 13 (u32 x) ;;
    put_be32 17 (u32 y) ;;
    put_be32 21 (u32 z) ;;
    mret (Z.of_nat total)).

Definition ue_rls_encode_pdu_transmission (buf : option bytes) (buf_len : nat)
    (sti pdu_type pdu_id payload : Z) (pdu : option bytes) (pdu_len : nat)
    : option (Z * option bytes) :=
  run_w buf (
    let total := (UE_RLS_HEADER_SIZE + 1 + 4 + 4 + 4 + pdu_len)%nat in
    if buf_len <?n total then mret (-1) else
    if UE_RLS_MAX_PDU_SIZE <? Z.of_nat pdu_len then mret (-1) else
    rls_write_header buf_len UE_RLS_PDU_TRANSMISSION sti ;;
    store 13 (u8 pdu_type) ;;
    put_be32 14 pdu_id ;;
    put_be32 18 payload ;;
    put_be32 22 (Z.of_nat pdu_len) ;;
    match pdu with
    | Some l =>
        if 0 <?n pdu_len
        then match slice l 0 pdu_len with
             | Some src => stores 26 src ;; mret (Z.of_nat total)
             | None => fun _ => None
             end
        else mret (Z.of_nat total)
    | None => mret (Z.of_nat total)
    end).

(** [for (i = 0; i < count; i++) put_be32(buf + 17 + i * 4, pdu_ids[i])]. *)
Fixpoint put_ids (i : nat) (ids : list Z) (n : nat) : W unit :=
  match n with
  | O => mret tt
  | S n' => match ids !! i with
            | Some id => put_be32 (17 + i * 4) id ;; put_ids (i + 1) ids n'
            | None => fun _ => None
            end
  end.

Definition ue_rls_encode_pdu_ack (buf : option bytes) (buf_len : nat)
    (sti : Z) (pdu_ids : list Z) (count : nat) : option (Z * option bytes) :=
  run_w buf (
    let total := (UE_RLS_HEADER_SIZE + 4 + count * 4)%nat in
    if buf_len <?n total then mret (-1) else
    rls_write_header buf_len UE_RLS_PDU_TRANSMISSION_ACK sti ;;
    put_be32 13 (Z.of_nat count) ;;
    put_ids 0 pdu_ids count ;;
    mret (Z.of_nat total)).

(** ** Decoder

    The outer [option] is memory safety, the inner one the [-1] return. *)

(** [for (i = 0; i < count; i++) pdu_ids[i] = get_be32(p + 4 + i * 4)]. *)
Fixpoint get_ids (data : bytes) (p i n : nat) : option (list Z) :=
  match n with
  | O => Some []
  | S n' => id ← get_be32 data (p + 4 + i * 4);
            rest ← get_ids data p (i + 1) n';
            Some (id :: rest)
  end.

Definition ue_rls_decode (data : option bytes) (len : nat)
    : option (option ue_rls_message) :=
  match data with
  | None => Some None
  | Some data =>
    if len <?n UE_RLS_HEADER_SIZE then Some None else
    b0 ← data !! 0%nat;
    if negb (b0 =? UE_RLS_COMPAT_MARKER) then Some None else
    b1 ← data !! 1%nat; b2 ← data !! 2%nat; b3 ← data !! 3%nat;
    if negb (b1 =? UE_RLS_VERSION_MAJOR) || negb (b2 =? UE_RLS_VERSION_MINOR)
       || negb (b3 =? UE_RLS_VERSION_PATCH) then Some None else
    msg_type ← data !! 4%nat;
    sti ← get_be64 data 5;
    let p := UE_RLS_HEADER_SIZE in
    let remaining := (len - UE_RLS_HEADER_SIZE)%nat in
    if msg_type =? UE_RLS_HEARTBEAT then
      if remaining <?n 12 then Some None else
      x ← get_be32_signed data p;
      y ← get_be32_signed data (p + 4);
      z ← get_be32_signed data (p + 8);
      Some (Some (RlsHeartbeat (Heartbeat sti x y z)))
    else if msg_type =? UE_RLS_HEARTBEAT_ACK then
      if remaining <?n 4 then Some None else
      dbm ← get_be32_signed data p;
      Some (Some (RlsHeartbeatAck (HeartbeatAck sti dbm)))
    else if msg_type =? UE_RLS_PDU_TRANSMISSION then
      if remaining <?n 13 then Some None else
      t ← data !! p;
      if negb (t =? UE_RLS_PDU_TYPE_RRC) && negb (t =? UE_RLS_PDU_TYPE_DATA)
      then Some None else
      pdu_len ← get_be32 data (p + 9);
      if UE_RLS_MAX_PDU_SIZE <? pdu_len then Some None else
      if remaining <?n 13 + Z.to_nat pdu_len then Some None else
      pdu_id ← get_be32 data (p + 1);
      payload ← get_be32 data (p + 5);
      pdu ← (if 0 <? pdu_len then
               l ← slice data (p + 13) (Z.to_nat pdu_len); Some (Some l)
             else Some None);
      Some (Some (RlsPduTx (PduTransmission sti t pdu_id payload pdu pdu_len)))
    else if msg_type =? UE_RLS_PDU_TRANSMISSION_ACK then
      if remaining <?n 4 then Some None else
      count ← get_be32 data p;
      if UE_RLS_MAX_ACK_IDS <? count then Some None else
      if remaining <?n 4 + Z.to_nat count * 4 then Some None else
      ids ← get_ids data p 0 (Z.to_nat count);
      Some (Some (RlsPduAck (PduTransmissionAck sti ids count)))
    else Some None
  end.

(** ** Wire layouts (the format documented in [ue_rls.h]) *)

Definition rls_header_wire (type sti : Z) : bytes := [3; 3; 2; 8; type] ++ be_list 8 sti.

Definition rls_heartbeat_wire (sti x y z : Z) : bytes :=
  rls_header_wire 4 sti ++ be_list 4 x ++ be_list 4 y ++ be_list 4 z.

Definition rls_pdu_wire (sti pdu_type pdu_id payload : Z) (pdu : bytes) : bytes :=
  rls_header_wire 6 sti ++ [pdu_type] ++ be_list 4 pdu_id ++ be_list 4 payload
  ++ be_list 4 (Z.of_nat (length pdu)) ++ pdu.

Definition rls_ack_wire (sti : Z) (ids : list Z) : bytes :=
  rls_header_wire 7 sti ++ be_list 4 (Z.of_nat (length ids)) ++ concat (be_list 4 <$> ids).

Lemma length_rls_header_wire type sti : length (rls_header_wire type sti) = 13%nat.
Proof. done. Qed.
#[local] Hint Rewrite length_rls_header_wire : vlen.

(** ** Lemmas on the helpers *)

Lemma put_be32_over p v w b q :
  p = length w -> (length w + 4 <= length b)%nat ->
  put_be32 p v (St (over w b) q) = Some (tt, St (over (w ++ be_list 4 v) b) q).
Proof.
  intros -> Hfit. unfold put_be32. do 3 wstep.
  rewrite store_over by vlia.
  rewrite <- !app_assoc. simpl. by rewrite Z.shiftr_0_r.
Qed.

Lemma put_be64_over p v w b q :
  p = length w -> (length w + 8 <= length b)%nat ->
  put_be64 p v (St (over w b) q) = Some (tt, St (over (w ++ be_list 8 v) b) q).
Proof.
  intros -> Hfit. unfold put_be64.
  erewrite W_bind_some by (apply put_be32_over; vlia).
  rewrite put_be32_over by vlia.
  by rewrite !be_list_u32, be_list_8, app_assoc.
Qed.

Lemma rls_write_header_over buf_len type sti b q :
  (13 <= buf_len)%nat -> (13 <= length b)%nat -> 0 <= type < 256 ->
  rls_write_header buf_len type sti (St b q)
  = Some (13, St (over (rls_header_wire type sti) b) q).
Proof.
  intros Hl Hb Ht. change (St b q) with (St (over [] b) q).
  unfold rls_write_header, UE_RLS_HEADER_SIZE. bcase.
  do 5 wstep. erewrite W_bind_some by (apply put_be64_over; vlia).
  rewrite (u8_small type) by done. reflexivity.
Qed.

Lemma get_be32_app m v r p :
  length m = p -> get_be32 (m ++ be_list 4 v ++ r) p = Some (v mod 2 ^ 32).
Proof.
  intros <-. unfold get_be32.
  pose proof (be_val_be_list 4 v) as Hv. pose proof (be_list_bytes 4 v) as Hb.
  destruct (be_list 4 v) as [|a [|b' [|c [|d [|]]]]] eqn:E; try done.
  inv Hb; repeat match goal with H : Forall _ (_ :: _) |- _ => inv H end.
  rewrite <- (Nat.add_0_r (length m)) at 1.
  rewrite (lookup_app_at m _ r _ 0 a) by done. ob.
  rewrite (lookup_app_at m _ r _ 1 b') by done. ob.
  rewrite (lookup_app_at m _ r _ 2 c) by done. ob.
  rewrite (lookup_app_at m _ r _ 3 d) by done. ob.
  by rewrite be_word4, Hv by done.
Qed.

Lemma s32_mod x : - 2 ^ 31 <= x < 2 ^ 31 -> s32 (x mod 2 ^ 32) = x.
Proof. intros. unfold s32. destruct (Z.ltb_spec (x mod 2 ^ 32) 2147483648); lia. Qed.

Lemma get_be32_signed_app m v r p :
  length m = p -> - 2 ^ 31 <= v < 2 ^ 31 ->
  get_be32_signed (m ++ be_list 4 v ++ r) p = Some v.
Proof. intros. unfold get_be32_signed. rewrite get_be32_app by done. simpl. by rewrite s32_mod. Qed.

Lemma get_be64_app m v r p :
  length m = p -> 0 <= v < 2 ^ 64 -> get_be64 (m ++ be_list 8 v ++ r) p = Some v.
Proof.
  intros Hp Hv. unfold get_be64. rewrite be_list_8, <- app_assoc.
  rewrite (get_be32_app m _ _ p) by done. ob.
  rewrite (app_assoc m), get_be32_app by vlia. ob.
  rewrite shiftr_div, lor_shiftl_add by lia.
  f_equal. rewrite (Z.mod_small (v / _)) by lia. lia.
Qed.

(** In-bounds loads succeed; shared by the safety theorem. *)
Lemma get_be32_in m p :
  (p + 4 <= length m)%nat -> is_Some (get_be32 m p).
Proof. intros. unfold get_be32. safe. Qed.
#[local] Hint Extern 1 (is_Some (get_be32 _ _)) => apply get_be32_in; lia : safe.

Lemma get_be32_range m p v : Forall is_byte m -> get_be32 m p = Some v -> 0 <= v < 2 ^ 32.
Proof.
  intros Hm H. unfold get_be32 in H.
  destruct (m !! p) as [a|] eqn:Ea; [|done]. simpl in H.
  destruct (m !! (p + 1)%nat) as [b|] eqn:Eb; [|done]. simpl in H.
  destruct (m !! (p + 2)%nat) as [c|] eqn:Ec; [|done]. simpl in H.
  destruct (m !! (p + 3)%nat) as [d|] eqn:Ed; [|done]. simpl in H.
  apply lookup_byte in Ea, Eb, Ec, Ed; [|done..].
  rewrite be_word4 in H by done. injection H as <-.
  apply (be_val_range [a; b; c; d]). auto 10 with vlte.
Qed.

Lemma get_ids_in m p i n :
  (p + 4 + (i + n) * 4 <= length m)%nat -> is_Some (get_ids m p i n).
Proof.
  revert i. induction n as [|n IH]; intros i Hl; cbn [get_ids]; safe.
  apply IH. lia.
Qed.
#[local] Hint Extern 1 (is_Some (get_ids _ _ _ _)) => apply get_ids_in; lia : safe.

Lemma get_ids_length m p i n l : get_ids m p i n = Some l -> length l = n.
Proof.
  revert i l. induction n as [|n IH]; intros i l; simpl; [by intros [= <-]|].
  destruct (get_be32 _ _); [|done]. simpl.
  destruct (get_ids m p (i + 1) n) eqn:E; [|done]. simpl. intros [= <-]. simpl.
  f_equal. eauto.
Qed.

Lemma length_concat_be32 (l : list Z) : length (concat (be_list 4 <$> l)) = (4 * length l)%nat.
Proof.
  induction l as [|x l IH]; [done|]. rewrite fmap_cons. cbn [concat].
  rewrite length_app, IH, length_be_list. simpl. lia.
Qed.

Lemma put_ids_over pre ids w b q :
  length w = (17 + length pre * 4)%nat ->
  (length w + 4 * length ids <= length b)%nat ->
  put_ids (length pre) (pre ++ ids) (length ids) (St (over w b) q)
  = Some (tt, St (over (w ++ concat (be_list 4 <$> ids)) b) q).
Proof.
  revert pre w. induction ids as [|id ids IH]; intros pre w Hw Hb.
  - simpl. by rewrite app_nil_r.
  - simpl put_ids. rewrite list_lookup_middle by done.
    erewrite W_bind_some by (apply put_be32_over; vlia).
    replace (pre ++ id :: ids) with ((pre ++ [id]) ++ ids) by (by rewrite <- app_assoc).
    replace (length pre + 1)%nat with (length (pre ++ [id])) by vlia.
    rewrite IH by vlia. simpl. by rewrite <- app_assoc.
Qed.

Lemma get_ids_app m pre ids r p :
  length m = (p + 4)%nat -> Forall (fun x => 0 <= x < 2 ^ 32) ids ->
  get_ids (m ++ concat (be_list 4 <$> (pre ++ ids)) ++ r) p (length pre) (length ids) = Some ids.
Proof.
  intros Hm. revert pre. induction ids as [|id ids IH]; intros pre Hids; [done|].
  inv Hids. cbn [get_ids length].
  assert (get_be32 (m ++ concat (be_list 4 <$> pre ++ id :: ids) ++ r)
            (p + 4 + length pre * 4) = Some id) as ->.
  { rewrite fmap_app, concat_app, fmap_cons. cbn [concat]. rewrite <- !app_assoc.
    rewrite (app_assoc m). rewrite get_be32_app by (rewrite length_app, length_concat_be32; lia).
    f_equal. lia. }
  ob. specialize (IH (pre ++ [id])). rewrite <- app_assoc in IH.
  rewrite length_app in IH. cbn [app length] in IH. by rewrite IH.
Qed.

(** The decoder on a buffer that starts with a valid header. *)
Lemma rls_decode_header type sti body len :
  0 <= sti < 2 ^ 64 -> (13 <= len)%nat ->
  ue_rls_decode (Some (rls_header_wire type sti ++ body)) len
  = let data := rls_header_wire type sti ++ body in
    let remaining := (len - 13)%nat in
    if type =? 4 then
      if remaining <?n 12 then Some None else
      x ← get_be32_signed data 13; y ← get_be32_signed data 17;
      z ← get_be32_signed data 21;
      Some (Some (RlsHeartbeat (Heartbeat sti x y z)))
    else if type =? 5 then
      if remaining <?n 4 then Some None else
      dbm ← get_be32_signed data 13;
      Some (Some (RlsHeartbeatAck (HeartbeatAck sti dbm)))
    else if type =? 6 then
      if remaining <?n 13 then Some None else
      t ← data !! 13%nat;
      if negb (t =? 1) && negb (t =? 2) then Some None else
      pdu_len ← get_be32 data 22;
      if UE_RLS_MAX_PDU_SIZE <? pdu_len then Some None else
      if remaining <?n 13 + Z.to_nat pdu_len then Some None else
      pdu_id ← get_be32 data 14; payload ← get_be32 data 18;
      pdu ← (if 0 <? pdu_len then
               l ← slice data 26 (Z.to_nat pdu_len); Some (Some l)
             else Some None);
      Some (Some (RlsPduTx (PduTransmission sti t pdu_id payload pdu pdu_len)))
    else if type =? 7 then
      if remaining <?n 4 then Some None else
      count ← get_be32 data 13;
      if UE_RLS_MAX_ACK_IDS <? count then Some None else
      if remaining <?n 4 + Z.to_nat count * 4 then Some None else
      ids ← get_ids data 13 0 (Z.to_nat count);
      Some (Some (RlsPduAck (PduTransmissionAck sti ids count)))
    else Some None.
Proof.
  intros Hsti Hlen. unfold ue_rls_decode, UE_RLS_HEADER_SIZE. bcase.
  assert (get_be64 (rls_header_wire type sti ++ body) 5 = Some sti) as ->.
  { unfold rls_header_wire. rewrite <- app_assoc. by apply get_be64_app. }
  reflexivity.
Qed.

(** Normalises a wire image followed by the rest of the buffer. *)
Ltac wire_norm := unfold over; rewrite <- ?app_assoc.

Section Theorems.
Context (b : bytes) (buf_len : nat).
(** The caller's contract: [buf_len] does not exceed the allocation. *)
Context (Hbuf : (buf_len <= length b)%nat).

Lemma encode_heartbeat_wire sti x y z :
  (25 <= buf_len)%nat ->
  ue_rls_encode_heartbeat (Some b) buf_len sti x y z
  = Some (25, Some (over (rls_heartbeat_wire sti x y z) b)).
Proof using Hbuf.
  intros. unfold ue_rls_encode_heartbeat, run_w, UE_RLS_HEADER_SIZE. bcase.
  erewrite W_bind_some by (apply rls_write_header_over; [lia..|by vm_compute]).
  do 3 (erewrite W_bind_some by (apply put_be32_over; vlia)).
  by rewrite !be_list_u32, <- !app_assoc.
Qed.

Lemma encode_pdu_wire sti ty id payload pdu :
  0 <= ty < 256 -> Z.of_nat (length pdu) <= 16384 -> (26 + length pdu <= buf_len)%nat ->
  ue_rls_encode_pdu_transmission (Some b) buf_len sti ty id payload (Some pdu) (length pdu)
  = Some (Z.of_nat (26 + length pdu), Some (over (rls_pdu_wire sti ty id payload pdu) b)).
Proof using Hbuf.
  intros Hty Hp Hl. unfold ue_rls_encode_pdu_transmission, run_w, UE_RLS_HEADER_SIZE,
    UE_RLS_MAX_PDU_SIZE. bdec.
  erewrite W_bind_some by (apply rls_write_header_over; [lia..|by vm_compute]).
  wstep. do 3 (erewrite W_bind_some by (apply put_be32_over; vlia)).
  rewrite (u8_small ty) by done. bcase.
  - rewrite slice_in, drop_0, take_ge by lia. wstep.
    rewrite W_ret_eq. unfold rls_pdu_wire. by rewrite <- !app_assoc.
  - destruct pdu; [|simpl in *; lia].
    rewrite W_ret_eq. unfold rls_pdu_wire. by rewrite app_nil_r, <- !app_assoc.
Qed.

Lemma encode_ack_wire sti ids :
  (17 + 4 * length ids <= buf_len)%nat ->
  ue_rls_encode_pdu_ack (Some b) buf_len sti ids (length ids)
  = Some (Z.of_nat (17 + 4 * length ids), Some (over (rls_ack_wire sti ids) b)).
Proof using Hbuf.
  intros. unfold ue_rls_encode_pdu_ack, run_w, UE_RLS_HEADER_SIZE. bdec.
  erewrite W_bind_some by (apply rls_write_header_over; [lia..|by vm_compute]).
  erewrite W_bind_some by (apply put_be32_over; vlia).
  erewrite W_bind_some by (apply (put_ids_over []); vlia).
  rewrite W_ret_eq, <- !app_assoc. cbn [wmem]. do 2 f_equal. lia.
Qed.
End Theorems.

(** Round trip of a PDU transmission.  For every valid STI, PDU type, ids
    and payload of at most 16384 bytes, encoding into any large enough buffer
    succeeds with the documented length, and decoding those bytes gives the
    same fields back (an empty PDU as the null pointer). *)
Lemma pdu_decodes_back b buf_len sti ty id payload pdu :
  (buf_len <= length b)%nat -> (26 + length pdu <= buf_len)%nat ->
  0 <= sti < 2 ^ 64 -> ty = UE_RLS_PDU_TYPE_RRC \/ ty = UE_RLS_PDU_TYPE_DATA ->
  0 <= id < 2 ^ 32 -> 0 <= payload < 2 ^ 32 -> Z.of_nat (length pdu) <= UE_RLS_MAX_PDU_SIZE ->
  exists b',
    ue_rls_encode_pdu_transmission (Some b) buf_len sti ty id payload (Some pdu) (length pdu)
      = Some (Z.of_nat (26 + length pdu), Some b')
    /\ length b' = length b
    /\ ue_rls_decode (Some b') (26 + length pdu)
       = Some (Some (RlsPduTx (PduTransmission sti ty id payload
           (match pdu with [] => None | _ => Some pdu end) (Z.of_nat (length pdu))))).
Proof.
  unfold UE_RLS_PDU_TYPE_RRC, UE_RLS_PDU_TYPE_DATA, UE_RLS_MAX_PDU_SIZE.
  intros Hb Hl Hsti Hty Hid Hpl Hp.
  eexists. split; [apply encode_pdu_wire; lia|]. split.
  { apply length_over. unfold rls_pdu_wire, rls_header_wire. vlia. }
  unfold rls_pdu_wire. wire_norm. rewrite rls_decode_header by lia. cbn zeta.
  change (6 =? 4) with false. change (6 =? 5) with false. change (6 =? 6) with true. cbv iota.
  bdec. change (_ !! 13%nat) with (Some ty). ob.
  replace (negb (ty =? 1) && negb (ty =? 2)) with false by (destruct Hty as [-> | ->]; done).
  set (tail := drop _ b). set (H := rls_header_wire 6 sti).
  assert (length H = 13%nat) as HH by done.
  rewrite (app_assoc H [ty]), (get_be32_app _ id _ 14) by vlia.
  rewrite (app_assoc _ (be_list 4 id)), (get_be32_app _ payload _ 18) by vlia.
  rewrite (app_assoc _ (be_list 4 payload)), (get_be32_app _ _ _ 22) by vlia.
  rewrite (app_assoc _ (be_list 4 (Z.of_nat _))), (Z.mod_small (Z.of_nat _)) by lia. ob.
  unfold UE_RLS_MAX_PDU_SIZE. rewrite Nat2Z.id, !Z.mod_small by lia. bdec. bcase.
  - rewrite slice_app by vlia. ob. destruct pdu; [simpl in *; lia|done].
  - destruct pdu; [done|simpl in *; lia].
Qed.

(** Round trip of a heartbeat, signed coordinates included. *)
Lemma heartbeat_decodes_back b buf_len sti x y z :
  (buf_len <= length b)%nat -> (25 <= buf_len)%nat -> 0 <= sti < 2 ^ 64 ->
  - 2 ^ 31 <= x < 2 ^ 31 -> - 2 ^ 31 <= y < 2 ^ 31 -> - 2 ^ 31 <= z < 2 ^ 31 ->
  exists b', ue_rls_encode_heartbeat (Some b) buf_len sti x y z = Some (25, Some b')
    /\ ue_rls_decode (Some b') 25 = Some (Some (RlsHeartbeat (Heartbeat sti x y z))).
Proof.
  intros Hb Hl Hsti Hx Hy Hz. eexists. split; [by apply encode_heartbeat_wire|].
  unfold rls_heartbeat_wire. wire_norm. rewrite rls_decode_header by lia. cbn zeta.
  change (4 =? 4) with true. cbv iota. bdec.
  set (tail := drop _ b). set (H := rls_header_wire 4 sti).
  assert (length H = 13%nat) as HH by done.
  rewrite (get_be32_signed_app _ x _ 13) by vlia.
  rewrite (app_assoc H), (get_be32_signed_app _ y _ 17) by vlia.
  by rewrite (app_assoc _ (be_list 4 y)), (get_be32_signed_app _ z _ 21) by vlia.
Qed.

(** Round trip of an acknowledgement of up to 64 PDU ids. *)
Lemma ack_decodes_back b buf_len sti ids :
  (buf_len <= length b)%nat -> (17 + 4 * length ids <= buf_len)%nat ->
  0 <= sti < 2 ^ 64 -> Z.of_nat (length ids) <= UE_RLS_MAX_ACK_IDS ->
  Forall (fun x => 0 <= x < 2 ^ 32) ids ->
  exists b', ue_rls_encode_pdu_ack (Some b) buf_len sti ids (length ids)
      = Some (Z.of_nat (17 + 4 * length ids), Some b')
    /\ ue_rls_decode (Some b') (17 + 4 * length ids)
       = Some (Some (RlsPduAck (PduTransmissionAck sti ids (Z.of_nat (length ids))))).
Proof.
  unfold UE_RLS_MAX_ACK_IDS. intros Hb Hl Hsti Hn Hids.
  eexists. split; [by apply encode_ack_wire|].
  unfold rls_ack_wire. wire_norm. rewrite rls_decode_header by lia. cbn zeta.
  change (7 =? 4) with false. change (7 =? 5) with false. change (7 =? 6) with false.
  change (7 =? 7) with true. cbv iota. bdec.
  set (tail := drop _ b). set (H := rls_header_wire 7 sti).
  assert (length H = 13%nat) as HH by done.
  rewrite (get_be32_app _ _ _ 13), Z.mod_small by (lia || vlia). ob.
  unfold UE_RLS_MAX_ACK_IDS. rewrite Nat2Z.id. bdec.
  rewrite (app_assoc H), (get_ids_app _ [] ids) by (done || vlia). done.
Qed.

Lemma rls_decode_total data len :
  (len <= length data)%nat -> is_Some (ue_rls_decode (Some data) len).
Proof. intros Hl. unfold ue_rls_decode, UE_RLS_HEADER_SIZE, get_be64, get_be32_signed. safe. Qed.

(** A decoded PDU is as long as announced. *)
Lemma rls_decode_pdu data len m :
  Forall is_byte data -> ue_rls_decode (Some data) len = Some (Some (RlsPduTx m)) ->
  0 <= pt_pdu_len m <= UE_RLS_MAX_PDU_SIZE
  /\ match pt_pdu m with Some l => Z.of_nat (length l) = pt_pdu_len m | None => pt_pdu_len m = 0 end.
Proof.
  unfold ue_rls_decode. intros Hb H.
  repeat (match type of H with
          | (if ?c then _ else _) = _ => let E := fresh "E" in destruct c eqn:E
          | (?o ≫= _) = _ => let E := fresh "E" in destruct o eqn:E
          end; cbn [mbind option_bind] in H; try discriminate).
  - injection H as <-. cbn [pt_pdu_len pt_pdu].
    match goal with E : get_be32 _ (_ + 9) = Some ?l |- _ =>
      pose proof (get_be32_range _ _ _ Hb E) end.
    split; [lia|]. destruct (0 <? _) eqn:El in *; [|simplify_eq; lia].
    destruct (slice _ _ _) eqn:Es in *; [|done]. cbn [mbind option_bind] in *. simplify_eq.
    apply slice_length in Es. lia.
Qed.

(** C39: the RLS codec.  The decoder terminates and reads inside every datagram;
    and every message the transport sends, a PDU transmission, a heartbeat
    (signed coordinates included) or an acknowledgement of up to 64 ids, is
    encoded inside the buffer with its exact length and decodes to its fields. *)
Theorem rls_codec_correct :
  (forall data len, (len <= length data)%nat -> exists r, ue_rls_decode (Some data) len = Some r)
  /\ (forall b buf_len sti,
  (buf_len <= length b)%nat -> 0 <= sti < 2 ^ 64 ->
  (forall ty id payload pdu,
     (26 + length pdu <= buf_len)%nat -> ty = UE_RLS_PDU_TYPE_RRC \/ ty = UE_RLS_PDU_TYPE_DATA ->
     0 <= id < 2 ^ 32 -> 0 <= payload < 2 ^ 32 -> Z.of_nat (length pdu) <= UE_RLS_MAX_PDU_SIZE ->
     exists b',
       ue_rls_encode_pdu_transmission (Some b) buf_len sti ty id payload (Some pdu) (length pdu)
         = Some (Z.of_nat (26 + length pdu), Some b')
       /\ length b' = length b
       /\ ue_rls_decode (Some b') (26 + length pdu)
          = Some (Some (RlsPduTx (PduTransmission sti ty id payload
              (match pdu with [] => None | _ => Some pdu end) (Z.of_nat (length pdu))))))
  /\ (forall x y z, (25 <= buf_len)%nat ->
     - 2 ^ 31 <= x < 2 ^ 31 -> - 2 ^ 31 <= y < 2 ^ 31 -> - 2 ^ 31 <= z < 2 ^ 31 ->
     exists b', ue_rls_encode_heartbeat (Some b) buf_len sti x y z = Some (25, Some b')
       /\ ue_rls_decode (Some b') 25 = Some (Some (RlsHeartbeat (Heartbeat sti x y z))))
  /\ (forall ids, (17 + 4 * length ids <= buf_len)%nat ->
     Z.of_nat (length ids) <= UE_RLS_MAX_ACK_IDS -> Forall (fun x => 0 <= x < 2 ^ 32) ids ->
     exists b', ue_rls_encode_pdu_ack (Some b) buf_len sti ids (length ids)
         = Some (Z.of_nat (17 + 4 * length ids), Some b')
       /\ ue_rls_decode (Some b') (17 + 4 * length ids)
          = Some (Some (RlsPduAck (PduTransmissionAck sti ids (Z.of_nat (length ids))))))).
Proof.
  split; [intros; by apply rls_decode_total|]. intros b buf_len sti Hb Hs. split_and!; intros.
  - by apply pdu_decodes_back.
  - by apply heartbeat_decodes_back.
  - by apply ack_decodes_back.
Qed.

(** ** Witnesses *)

Lemma rls_codec_correct_witness :
  (exists r, ue_rls_decode (Some [3; 3; 2; 8; 6]) 5 = Some r)
  /\   (exists b',
    ue_rls_encode_pdu_transmission (Some (replicate 40 255)) 32 77 2 9 1 (Some [1; 2; 3]) 3
      = Some (29, Some b')
    /\ length b' = 40%nat
    /\ ue_rls_decode (Some b') 29
       = Some (Some (RlsPduTx (PduTransmission 77 2 9 1 (Some [1; 2; 3]) 3))))
  /\ (exists b', ue_rls_encode_heartbeat (Some (replicate 40 255)) 32 77 (-5) 0 7
        = Some (25, Some b')
      /\ ue_rls_decode (Some b') 25 = Some (Some (RlsHeartbeat (Heartbeat 77 (-5) 0 7))))
  /\ (exists b', ue_rls_encode_pdu_ack (Some (replicate 40 255)) 32 77 [10; 4294967295] 2
        = Some (25, Some b')
      /\ ue_rls_decode (Some b') 25
         = Some (Some (RlsPduAck (PduTransmissionAck 77 [10; 4294967295] 2)))).
Proof.
  split; [apply (proj1 rls_codec_correct); simpl; lia|].
  destruct (proj2 rls_codec_correct (replicate 40 255) 32%nat 77) as (H1 & H2 & H3); [simpl; lia|lia|].
  split; [|split].
  - apply (H1 2 9 1 [1; 2; 3]); solve [simpl; lia | by right | vm_compute; done].
  - apply (H2 (-5) 0 7); simpl; lia.
  - apply (H3 [10; 4294967295]); simpl;
      solve [lia | unfold UE_RLS_MAX_ACK_IDS; lia | repeat constructor; lia].
Defined.
