(* ===== verification/NasDefs.v ===== *)
(** Constants of the 5G NAS wire format and the decoded event record:
    [src/src/ue_engine/ue_nas_decode.h], shared by the NAS encoder, decoder
    and security components. *)

From S2P Require Import Prelude.

Definition NAS_EPD_5GMM : Z := 0x7E.
Definition NAS_EPD_5GSM : Z := 0x2E.

Definition NAS_SHT_NOT_PROTECTED : Z := 0x00.
Definition NAS_SHT_INTEGRITY_PROTECTED : Z := 0x01.
Definition NAS_SHT_INTEGRITY_PROTECTED_CIPHERED : Z := 0x02.
Definition NAS_SHT_INTEGRITY_PROTECTED_NEW_CTX : Z := 0x03.
Definition NAS_SHT_INTEGRITY_PROTECTED_CIPHERED_NEW_CTX : Z := 0x04.

Definition NAS_MSG_REGISTRATION_REQUEST : Z := 0x41.
Definition NAS_MSG_REGISTRATION_ACCEPT : Z := 0x42.
Definition NAS_MSG_REGISTRATION_COMPLETE : Z := 0x43.
Definition NAS_MSG_REGISTRATION_REJECT : Z := 0x44.
Definition NAS_MSG_DEREGISTRATION_REQUEST_UE : Z := 0x45.
Definition NAS_MSG_AUTHENTICATION_REQUEST : Z := 0x56.
Definition NAS_MSG_AUTHENTICATION_RESPONSE : Z := 0x57.
Definition NAS_MSG_AUTHENTICATION_REJECT : Z := 0x58.
Definition NAS_MSG_AUTHENTICATION_FAILURE : Z := 0x59.
Definition NAS_MSG_SECURITY_MODE_COMMAND : Z := 0x5D.
Definition NAS_MSG_SECURITY_MODE_COMPLETE : Z := 0x5E.
Definition NAS_MSG_DL_NAS_TRANSPORT : Z := 0x68.
Definition NAS_MSG_IDENTITY_REQUEST : Z := 0x5B.
Definition NAS_MSG_CONFIGURATION_UPDATE_COMMAND : Z := 0x54.
Definition NAS_MSG_CONFIGURATION_UPDATE_COMPLETE : Z := 0x55.

Definition NAS_MSG_PDU_SESSION_EST_REQUEST : Z := 0xC1.
Definition NAS_MSG_PDU_SESSION_EST_ACCEPT : Z := 0xC2.
Definition NAS_MSG_PDU_SESSION_EST_REJECT : Z := 0xC3.
Definition NAS_MSG_PDU_SESSION_RELEASE_REQUEST : Z := 0xD1.
Definition NAS_MSG_PDU_SESSION_RELEASE_COMMAND : Z := 0xD3.
Definition NAS_MSG_PDU_SESSION_RELEASE_COMPLETE : Z := 0xD4.
Definition NAS_MSG_FIVEG_SM_STATUS : Z := 0xD6.

(** [enum ue_nas_event_type] *)
Inductive ue_nas_event_type :=
| UE_NAS_EVENT_UNKNOWN
| UE_NAS_EVENT_REGISTRATION_ACCEPT
| UE_NAS_EVENT_REGISTRATION_REJECT
| UE_NAS_EVENT_PDU_SESSION_EST_ACCEPT
| UE_NAS_EVENT_PDU_SESSION_EST_REJECT
| UE_NAS_EVENT_PDU_SESSION_RELEASE_CMD
| UE_NAS_EVENT_AUTHENTICATION_REQUEST
| UE_NAS_EVENT_SECURITY_MODE_COMMAND
| UE_NAS_EVENT_IDENTITY_REQUEST
| UE_NAS_EVENT_CONFIG_UPDATE_COMMAND
| UE_NAS_EVENT_DL_NAS_TRANSPORT.

#[export] Instance ue_nas_event_type_eq_dec : EqDecision ue_nas_event_type.
Proof. solve_decision. Defined.

#[local] Set Primitive Projections.

(** [struct ue_nas_event].  The fixed byte arrays are lists (all zero after
    the [memset]); [inner_sm_data] is the bytes from the pointer on, [None]
    for the null pointer. *)
Record ue_nas_event := NasEvent {
  ev_type : ue_nas_event_type;
  ev_mm_cause : Z;
  ev_has_guti : bool;
  ev_guti : bytes;
  ev_guti_len : nat;
  ev_has_t3512 : bool;
  ev_t3512_seconds : Z;
  ev_psi : Z;
  ev_pti : Z;
  ev_sm_cause : Z;
  ev_has_pdu_address : bool;
  ev_pdu_addr_type : Z;
  ev_ipv4_addr : bytes;
  ev_has_dns : bool;
  ev_dns_ipv4 : bytes;
  ev_has_pcscf : bool;
  ev_pcscf_ipv4 : bytes;
  ev_has_inner_sm : bool;
  ev_inner_sm_data : option bytes;
  ev_inner_sm_len : nat;
  ev_raw_msg_type : Z;
  ev_raw_epd : Z;
  ev_has_auth_rand : bool;
  ev_has_auth_autn : bool;
  ev_has_auth_abba : bool;
  ev_auth_abba_len : nat;
  ev_auth_abba : bytes;
  ev_auth_rand : bytes;
  ev_auth_autn : bytes;
  ev_has_sec_algs : bool;
  ev_sec_enc_alg : Z;
  ev_sec_int_alg : Z;
  ev_has_ngksi : bool;
  ev_ngksi : Z;
  ev_has_additional_5g_sec_info : bool;
  ev_additional_5g_sec_info : Z;
  ev_config_update_ack_requested : bool }.

(** [memset(event, 0, sizeof( *event))]. *)
Definition nas_event_zero : ue_nas_event :=
  NasEvent UE_NAS_EVENT_UNKNOWN 0 false (replicate 16 0) 0 false 0 0 0 0 false 0
    (replicate 4 0) false (replicate 4 0) false (replicate 4 0) false None 0 0 0
    false false false 0 (replicate 16 0) (replicate 16 0) (replicate 16 0)
    false 0 0 false 0 false 0 false.
