(* ===== verification/NasEncode.v ===== *)
(** The NAS uplink encoders: [src/src/ue_engine/ue_nas_encode.c].

    Each encoder is a program of the writer monad on the caller's buffer, with
    the code's own capacity checks; the theorems show which bytes it produces,
    when it returns -1, and whether the capacity checks keep every write
    inside the buffer. *)

From S2P Require Import Prelude NasDefs.

(** ** BCD helpers *)

(** A negative digit is the filler nibble [0xF]. *)
Definition bcd_pack (a b : Z) : Z :=
  let lo := if 0 <=? a then u8 (a &. 0x0F) else 0x0F in
  let hi := if 0 <=? b then u8 (b &. 0x0F) else 0x0F in
  u8 ((hi ≪ 4) |. lo).

(** ['0'] is 48 and ['9'] is 57. *)
Definition digit_val (c : Z) : Z := if (48 <=? c) && (c <=? 57) then c - 48 else -1.

Definition bcd_validate_strict (byte : Z) : Z :=
  let lo := byte &. 0x0F in
  let hi := (byte ≫ 4) &. 0x0F in
  if (9 <? lo) || (9 <? hi) then -1 else 0.

(** [plmn] points at the three PLMN octets of [m] from offset [p] on. *)
Definition bcd_validate_plmn (m : bytes) (p : nat) : option Z :=
  o1 ← m !! p;
  let lo1 := o1 &. 0x0F in let hi1 := (o1 ≫ 4) &. 0x0F in
  if (9 <? lo1) || (9 <? hi1) then Some (-1) else
  o2 ← m !! (p + 1)%nat;
  let lo2 := o2 &. 0x0F in let hi2 := (o2 ≫ 4) &. 0x0F in
  if (9 <? lo2) || ((9 <? hi2) && negb (hi2 =? 0xF)) then Some (-1) else
  o3 ← m !! (p + 2)%nat;
  let lo3 := o3 &. 0x0F in let hi3 := (o3 ≫ 4) &. 0x0F in
  if (9 <? lo3) || (9 <? hi3) then Some (-1) else Some 0.

(** [for (i = 8; i < suci_len; i++)] over the MSIN octets. *)
Fixpoint validate_msin (m : bytes) (i n : nat) : option Z :=
  match n with
  | O => Some 0
  | S n' => b ← m !! i;
            if bcd_validate_strict b <? 0 then Some (-1) else validate_msin m (i + 1) n'
  end.

Definition suci_validate_bcd (suci : bytes) (suci_len : nat) : option Z :=
  r ← bcd_validate_plmn suci 1;
  if r <? 0 then Some (-1) else
  b4 ← suci !! 4%nat;
  if bcd_validate_strict b4 <? 0 then Some (-1) else
  b5 ← suci !! 5%nat;
  if bcd_validate_strict b5 <? 0 then Some (-1) else
  validate_msin suci 8 (suci_len - 8).

(** Reading the buffer being written. *)
Definition peek {A} (f : bytes -> option A) : W A := fun s =>
  match f (wmem s) with Some x => Some (x, s) | None => None end.

(** [for (i = 0; i < msin_len; i += 2)], [n] bounding the iterations. *)
Fixpoint emit_msin (imsi : bytes) (msin_start msin_len i n : nat) : W unit :=
  match n with
  | O => mret tt
  | S n' =>
      if i <?n msin_len then
        match imsi !! (msin_start + i)%nat with
        | None => fun _ => None
        | Some c1 =>
            let d1 := digit_val c1 in
            if i + 1 <?n msin_len then
              match imsi !! (msin_start + i + 1)%nat with
              | None => fun _ => None
              | Some c2 =>
                  emits [bcd_pack d1 (digit_val c2)] ;;
                  emit_msin imsi msin_start msin_len (i + 2) n'
              end
            else emits [bcd_pack d1 (-1)] ;;
                 emit_msin imsi msin_start msin_len (i + 2) n'
        end
      else mret tt
  end.

(** A C string is the list of its characters, without the terminator, so
    [strlen] is [length]. *)
Definition ue_nas_encode_suci (buf : option bytes) (buf_len : nat)
    (imsi mcc mnc : option bytes) : option (Z * option bytes) :=
  run_w buf (
  match imsi, mcc, mnc with
  | Some imsi, Some mcc, Some mnc =>
    let imsi_len := length imsi in
    let mcc_len := length mcc in
    let mnc_len := length mnc in
    if negb (mcc_len =?n 3) || (negb (mnc_len =?n 2) && negb (mnc_len =?n 3))
    then mret (-1) else
    if imsi_len <?n mcc_len + mnc_len then mret (-1) else
    let msin_start := (mcc_len + mnc_len)%nat in
    let msin_len := (imsi_len - msin_start)%nat in
    let need := (8 + (msin_len + 1) / 2)%nat in
    if buf_len <?n need then mret (-1) else
    match mcc, mnc with
    | c0 :: c1 :: c2 :: _, n0 :: n1 :: ns =>
      let mcc1 := digit_val c0 in
      let mcc2 := digit_val c1 in
      let mcc3 := digit_val c2 in
      let mnc1 := digit_val n0 in
      let mnc2 := digit_val n1 in
      let mnc3 := match ns with n2 :: _ => digit_val n2 | [] => -1 end in
      emits [0x01] ;;
      emits [bcd_pack mcc1 mcc2; bcd_pack mcc3 mnc3; bcd_pack mnc1 mnc2] ;;
      emits [0x00; 0x00] ;;
      emits [0x00] ;;
      emits [0x00] ;;
      emit_msin imsi msin_start msin_len 0 msin_len ;;
      pos ← get_pos;
      r ← peek (fun m => suci_validate_bcd m pos);
      if r <? 0 then mret (-1) else ret_pos
    | _, _ => fun _ => None
    end
  | _, _, _ => mret (-1)
  end).

(** ** 5GMM messages *)

(** The mobile identity [mid] and [mid_len] a Registration Request carries:
    the 5G-GUTI when there is one, else a SUCI built in the local array
    [suci_buf[64]]; [Some None] when the SUCI cannot be built. *)
Definition registration_identity (imsi mcc mnc guti : option bytes) (guti_len : nat)
    : option (option (bytes * nat)) :=
  let from_suci :=
    '(n, suci_buf) ← ue_nas_encode_suci (Some (replicate 64 0)) 64 imsi mcc mnc;
    if n <? 0 then Some None else
    suci_buf ← suci_buf; Some (Some (suci_buf, Z.to_nat n)) in
  match guti with
  | Some g => if 0 <?n guti_len then Some (Some (g, guti_len)) else from_suci
  | None => from_suci
  end.

Definition ue_nas_encode_registration_request (buf : option bytes) (buf_len : nat)
    (imsi mcc mnc : option bytes) (slice_sst reg_type : Z)
    (guti : option bytes) (guti_len : nat) (ngksi : Z) (initial_cleartext : bool)
    : option (Z * option bytes) :=
  run_w buf (
  let reg_type := if (reg_type <? 1) || (3 <? reg_type) then 1 else reg_type in
  let ngksi := if 7 <? ngksi then 7 else ngksi in
  match registration_identity imsi mcc mnc guti guti_len with
  | None => fun _ => None
  | Some None => mret (-1)
  | Some (Some (mid, mid_len)) =>
      if buf_len <?n 20 + mid_len then mret (-1) else
      emits [NAS_EPD_5GMM] ;;
      emits [NAS_SHT_NOT_PROTECTED] ;;
      emits [NAS_MSG_REGISTRATION_REQUEST] ;;
      emits [u8 (((ngksi &. 0x07) ≪ 4) |. 0x08 |. (reg_type &. 0x07))] ;;
      emits [u8 ((Z.of_nat mid_len ≫ 8) &. 0xFF)] ;;
      emits [u8 (Z.of_nat mid_len &. 0xFF)] ;;
      copy_in mid mid_len ;;
      (if negb initial_cleartext then emits [0x10; 0x01; 0x00] else mret tt) ;;
      emits [0x2E; 0x02; 0xA0; 0xA0] ;;
      (if 0 <? slice_sst then emits [0x2F; 0x02; 0x01; slice_sst] else mret tt) ;;
      (if negb initial_cleartext then emits [0x53; 0x01; 0x00] else mret tt) ;;
      ret_pos
  end).

Definition ue_nas_encode_registration_complete (buf : option bytes) (buf_len : nat)
    : option (Z * option bytes) :=
  run_w buf (
  if buf_len <?n 3 then mret (-1) else
  store 0 NAS_EPD_5GMM ;;
  store 1 NAS_SHT_NOT_PROTECTED ;;
  store 2 NAS_MSG_REGISTRATION_COMPLETE ;;
  mret 3).

Definition ue_nas_encode_deregistration_request (buf : option bytes) (buf_len : nat)
    (switch_off : bool) (guti : option bytes) (guti_len : nat) (ngksi : Z)
    : option (Z * option bytes) :=
  run_w buf (
  match guti with
  | None => mret (-1)
  | Some guti =>
    if guti_len =?n 0 then mret (-1) else
    let ngksi := if 7 <? ngksi then 7 else ngksi in
    if buf_len <?n 6 + guti_len then mret (-1) else
    emits [NAS_EPD_5GMM] ;;
    emits [NAS_SHT_NOT_PROTECTED] ;;
    emits [NAS_MSG_DEREGISTRATION_REQUEST_UE] ;;
    emits [u8 (((ngksi &. 0x07) ≪ 4) |. (if switch_off then 0x08 else 0x00) |. 0x01)] ;;
    emits [u8 ((Z.of_nat guti_len ≫ 8) &. 0xFF)] ;;
    emits [u8 (Z.of_nat guti_len &. 0xFF)] ;;
    copy_in guti guti_len ;;
    ret_pos
  end).

Definition ue_nas_encode_configuration_update_complete (buf : option bytes) (buf_len : nat)
    : option (Z * option bytes) :=
  run_w buf (
  if buf_len <?n 3 then mret (-1) else
  store 0 NAS_EPD_5GMM ;;
  store 1 NAS_SHT_NOT_PROTECTED ;;
  store 2 NAS_MSG_CONFIGURATION_UPDATE_COMPLETE ;;
  mret 3).

Definition ue_nas_encode_auth_response (buf : option bytes) (buf_len : nat)
    (res : option bytes) (res_len : nat) : option (Z * option bytes) :=
  run_w buf (
  match res with
  | None => mret (-1)
  | Some res =>
    if (res_len =?n 0) || (32 <?n res_len) then mret (-1) else
    if buf_len <?n 3 + 2 + res_len then mret (-1) else
    emits [NAS_EPD_5GMM] ;;
    emits [NAS_SHT_NOT_PROTECTED] ;;
    emits [NAS_MSG_AUTHENTICATION_RESPONSE] ;;
    emits [0x2D] ;;
    emits [u8 (Z.of_nat res_len)] ;;
    copy_in res res_len ;;
    ret_pos
  end).

Definition ue_nas_encode_auth_failure (buf : option bytes) (buf_len : nat) (cause : Z)
    (auts : option bytes) (auts_len : nat) : option (Z * option bytes) :=
  run_w buf (
  if buf_len <?n 4 then mret (-1) else
  emits [NAS_EPD_5GMM] ;;
  emits [NAS_SHT_NOT_PROTECTED] ;;
  emits [NAS_MSG_AUTHENTICATION_FAILURE] ;;
  emits [cause] ;;
  match auts with
  | Some auts =>
    if 0 <?n auts_len then
      pos ← get_pos;
      if buf_len <?n pos + 2 + auts_len then mret (-1) else
      emits [0x30] ;;
      emits [u8 (Z.of_nat auts_len)] ;;
      copy_in auts auts_len ;;
      ret_pos
    else ret_pos
  | None => ret_pos
  end).

Definition ue_nas_encode_security_mode_complete (buf : option bytes) (buf_len : nat)
    (nas_container : option bytes) (nas_container_len : nat)
    : option (Z * option bytes) :=
  run_w buf (
  if buf_len <?n 3 + (match nas_container with Some _ => 3 + nas_container_len | None => 0 end)
  then mret (-1) else
  emits [NAS_EPD_5GMM] ;;
  emits [NAS_SHT_NOT_PROTECTED] ;;
  emits [NAS_MSG_SECURITY_MODE_COMPLETE] ;;
  match nas_container with
  | Some container =>
    if 0 <?n nas_container_len then
      pos ← get_pos;
      if buf_len <?n pos + 3 + nas_container_len then mret (-1) else
      emits [0x71] ;;
      emits [u8 ((Z.of_nat nas_container_len ≫ 8) &. 0xFF)] ;;
      emits [u8 (Z.of_nat nas_container_len &. 0xFF)] ;;
      copy_in container nas_container_len ;;
      ret_pos
    else ret_pos
  | None => ret_pos
  end).

Definition ue_nas_encode_identity_response (buf : option bytes) (buf_len : nat)
    (imsi mcc mnc : option bytes) : option (Z * option bytes) :=
  run_w buf (
  if buf_len <?n 16 then mret (-1) else
  match ue_nas_encode_suci (Some (replicate 64 0)) 64 imsi mcc mnc with
  | Some (suci_len, Some suci_buf) =>
    if suci_len <? 0 then mret (-1) else
    emits [NAS_EPD_5GMM] ;;
    emits [NAS_SHT_NOT_PROTECTED] ;;
    emits [0x5C] ;;
    pos ← get_pos;
    if buf_len <?n pos + 2 + Z.to_nat suci_len then mret (-1) else
    emits [u8 ((suci_len ≫ 8) &. 0xFF)] ;;
    emits [u8 (suci_len &. 0xFF)] ;;
    copy_in suci_buf (Z.to_nat suci_len) ;;
    ret_pos
  | _ => fun _ => None
  end).

(** ** 5GSM messages inside UL NAS Transport *)

(** The UL NAS Transport wrapper shared by the short 5GSM messages: the inner
    message [sm_buf], built in a local array, then the PDU Session ID IE. *)
Definition ul_nas_transport (sm_buf : bytes) (psi : Z) : W Z :=
  let sm_len := Z.of_nat (length sm_buf) in
  emits [NAS_EPD_5GMM] ;;
  emits [NAS_SHT_NOT_PROTECTED] ;;
  emits [0x67] ;;
  emits [0x01] ;;
  emits [u8 ((sm_len ≫ 8) &. 0xFF)] ;;
  emits [u8 (sm_len &. 0xFF)] ;;
  copy_in sm_buf (length sm_buf) ;;
  emits [0x12] ;;
  emits [psi] ;;
  ret_pos.

Definition ue_nas_encode_sm_status (buf : option bytes) (buf_len : nat)
    (psi pti cause : Z) : option (Z * option bytes) :=
  run_w buf (
  if buf_len <?n 16 then mret (-1) else
  ul_nas_transport [NAS_EPD_5GSM; psi; pti; NAS_MSG_FIVEG_SM_STATUS; cause] psi).

Definition ue_nas_encode_pdu_session_release_complete (buf : option bytes) (buf_len : nat)
    (psi pti : Z) : option (Z * option bytes) :=
  run_w buf (
  if buf_len <?n 16 then mret (-1) else
  ul_nas_transport [NAS_EPD_5GSM; psi; pti; NAS_MSG_PDU_SESSION_RELEASE_COMPLETE] psi).

Definition ue_nas_encode_pdu_session_release_request (buf : option bytes) (buf_len : nat)
    (psi pti : Z) : option (Z * option bytes) :=
  run_w buf (
  if buf_len <?n 16 then mret (-1) else
  ul_nas_transport
    [NAS_EPD_5GSM; psi; if pti =? 0 then 1 else pti;
     NAS_MSG_PDU_SESSION_RELEASE_REQUEST; 0x59; 0x24] psi).

(** The placeholder length of the Extended PCO is patched afterwards. *)
Definition encode_pdu_session_est_request_inner (buf_len : nat)
    (psi pti pdu_session_type : Z) : W Z :=
  if buf_len <?n 20 then mret (-1) else
  emits [NAS_EPD_5GSM] ;;
  emits [psi] ;;
  emits [pti] ;;
  emits [NAS_MSG_PDU_SESSION_EST_REQUEST] ;;
  emits [0xFF; 0xFF] ;;
  emits [u8 (0x90 |. (pdu_session_type &. 0x0F))] ;;
  emits [0xA1] ;;
  emits [0x28; 0x01; 0x00] ;;
  emits [0x7B] ;;
  len_pos ← get_pos;
  emits [0x00; 0x00] ;;
  content_start ← get_pos;
  emits [0x80; 0x00; 0x0A; 0x00; 0x00; 0x0D; 0x00; 0x00; 0x0C; 0x00] ;;
  pos ← get_pos;
  let epco_len := Z.of_nat (pos - content_start) in
  store len_pos ((epco_len ≫ 8) &. 0xFF) ;;
  store (len_pos + 1) (epco_len &. 0xFF) ;;
  ret_pos.

(** [sm_buf[128]] is the encoder's local array. *)
Definition ue_nas_encode_pdu_session_est_request (buf : option bytes) (buf_len : nat)
    (psi pti pdu_session_type request_type : Z) (dnn : option bytes) (s_nssai_sst : Z)
    : option (Z * option bytes) :=
  run_w buf (
  if buf_len <?n 32 then mret (-1) else
  match encode_pdu_session_est_request_inner 128 psi pti pdu_session_type
          (St (replicate 128 0) 0) with
  | None => fun _ => None
  | Some (sm_len, sm) =>
    if sm_len <? 0 then mret (-1) else
    emits [NAS_EPD_5GMM] ;;
    emits [NAS_SHT_NOT_PROTECTED] ;;
    emits [0x67] ;;
    emits [0x01] ;;
    emits [u8 ((sm_len ≫ 8) &. 0xFF)] ;;
    emits [u8 (sm_len &. 0xFF)] ;;
    pos ← get_pos;
    if buf_len <?n pos + Z.to_nat sm_len then mret (-1) else
    copy_in (wmem sm) (Z.to_nat sm_len) ;;
    emits [0x12] ;;
    emits [psi] ;;
    let request_type := if request_type =? 0 then 1 else request_type in
    emits [u8 (0x80 |. (request_type &. 0x0F))] ;;
    (if 0 <? s_nssai_sst then emits [0x22; 0x01; s_nssai_sst] else mret tt) ;;
    match dnn with
    | Some (c :: dnn') =>
      let dnn := c :: dnn' in
      let dnn_len := if 100 <?n length dnn then 100%nat else length dnn in
      pos ← get_pos;
      if buf_len <?n pos + 3 + dnn_len then mret (-1) else
      emits [0x25] ;;
      emits [u8 (Z.of_nat dnn_len + 1)] ;;
      emits [u8 (Z.of_nat dnn_len)] ;;
      copy_in dnn dnn_len ;;
      ret_pos
    | _ => ret_pos
    end
  end).

(** ** SUCI: specification *)

Definition is_digit (c : Z) : bool := (48 <=? c) && (c <=? 57).

(** Two characters per octet, the first one in the low nibble. *)
Fixpoint bcd_pairs (l : bytes) : bytes :=
  match l with
  | [] => []
  | [a] => [bcd_pack (digit_val a) (-1)]
  | a :: b :: r => bcd_pack (digit_val a) (digit_val b) :: bcd_pairs r
  end.

(** The characters BCD octets stand for. *)
Fixpoint bcd_unpairs (l : bytes) : bytes :=
  match l with
  | [] => []
  | b :: r => 48 + (b &. 0x0F) :: 48 + ((b ≫ 4) &. 0x0F) :: bcd_unpairs r
  end.

Definition plmn_wire (mcc mnc : bytes) : bytes :=
  match mcc, mnc with
  | [c0; c1; c2], n0 :: n1 :: ns =>
      [bcd_pack (digit_val c0) (digit_val c1);
       bcd_pack (digit_val c2) (match ns with n2 :: _ => digit_val n2 | [] => -1 end);
       bcd_pack (digit_val n0) (digit_val n1)]
  | _, _ => []
  end.

Definition suci_wire (mcc mnc msin : bytes) : bytes :=
  [1] ++ plmn_wire mcc mnc ++ [0; 0; 0; 0] ++ bcd_pairs msin.

(** When the validation pass accepts the encoded SUCI. *)
Definition suci_ok (mcc mnc msin : bytes) : bool :=
  forallb is_digit mcc && forallb is_digit (take 2 mnc)
  && forallb is_digit msin && Nat.even (length msin).

Lemma digit_val_range c : -1 <= digit_val c <= 9.
Proof. unfold digit_val. destruct (_ && _) eqn:E; lia. Qed.

Lemma digit_val_nonneg c : (0 <=? digit_val c) = is_digit c.
Proof. unfold digit_val, is_digit. destruct (_ && _) eqn:E; [lia|done]. Qed.

Lemma strict_pack a b :
  -1 <= a <= 9 -> -1 <= b <= 9 ->
  bcd_validate_strict (bcd_pack a b) = if (0 <=? a) && (0 <=? b) then 0 else -1.
Proof. intros Ha Hb. zcases a; zcases b; reflexivity. Qed.

Lemma bcd_pack_nibbles a b :
  0 <= a <= 9 -> 0 <= b <= 9 ->
  bcd_pack a b &. 0x0F = a /\ (bcd_pack a b ≫ 4) &. 0x0F = b.
Proof. intros Ha Hb. zcases a; zcases b; split; reflexivity. Qed.

Lemma length_bcd_pairs l : length (bcd_pairs l) = ((length l + 1) / 2)%nat.
Proof.
  induction l as [| |a b l IH] using list_pair_ind; [done|done|].
  cbn [bcd_pairs length]. rewrite IH.
  replace (S (S (length l)) + 1)%nat with (length l + 1 + 1 * 2)%nat by lia.
  rewrite Nat.div_add by lia. lia.
Qed.

Lemma bcd_pairs_valid l :
  forallb (fun b => bcd_validate_strict b =? 0) (bcd_pairs l)
  = forallb is_digit l && Nat.even (length l).
Proof.
  induction l as [|a|a b l IH] using list_pair_ind; [done| |].
  - cbn [bcd_pairs forallb]. rewrite strict_pack by (apply digit_val_range || lia).
    rewrite andb_false_r. by destruct (is_digit a).
  - cbn [bcd_pairs forallb length Nat.even]. rewrite IH.
    rewrite strict_pack by apply digit_val_range. rewrite !digit_val_nonneg.
    by destruct (is_digit a), (is_digit b).
Qed.

Lemma bcd_unpairs_pairs l :
  forallb is_digit l = true -> Nat.even (length l) = true -> bcd_unpairs (bcd_pairs l) = l.
Proof.
  induction l as [|a|a b l IH] using list_pair_ind; [done|done|].
  cbn [forallb length Nat.even]. rewrite !andb_true_iff. intros (Ha & Hb & Hl) He.
  cbn [bcd_pairs bcd_unpairs]. rewrite IH by done.
  pose proof (digit_val_range a). pose proof (digit_val_range b).
  pose proof (digit_val_nonneg a) as Na. pose proof (digit_val_nonneg b) as Nb.
  rewrite Ha in Na. rewrite Hb in Nb.
  destruct (bcd_pack_nibbles (digit_val a) (digit_val b)) as [-> ->]; [lia..|].
  unfold digit_val, is_digit in *. by rewrite Ha, Hb, !Zplus_minus.
Qed.

Lemma strict_cases b : bcd_validate_strict b = 0 \/ bcd_validate_strict b = -1.
Proof. unfold bcd_validate_strict. case_match; auto. Qed.

Lemma validate_msin_app pre l post :
  validate_msin (pre ++ l ++ post) (length pre) (length l)
  = Some (if forallb (fun b => bcd_validate_strict b =? 0) l then 0 else -1).
Proof.
  revert pre. induction l as [|b l IH]; intros pre; [done|].
  cbn [validate_msin length forallb app]. rewrite list_lookup_middle by done. ob.
  destruct (strict_cases b) as [-> | ->]; [|done]. cbn [Z.ltb Z.eqb Z.compare andb].
  specialize (IH (pre ++ [b])). rewrite <- app_assoc in IH. cbn [app] in IH.
  by rewrite length_app in IH.
Qed.

Lemma emit_msin_over imsi start i n w b :
  (start + i <= length imsi)%nat -> (length imsi - start - i <= n)%nat ->
  (length w + length (bcd_pairs (drop (start + i) imsi)) <= length b)%nat ->
  emit_msin imsi start (length imsi - start) i n (St (over w b) (length w))
  = let w' := w ++ bcd_pairs (drop (start + i) imsi) in
    Some (tt, St (over w' b) (length w')).
Proof.
  intros Hi Hn Hb. remember (drop (start + i) imsi) as rest eqn:Hrest.
  revert i n w Hi Hn Hb Hrest.
  induction rest as [|c1|c1 c2 rest IH] using list_pair_ind; intros i n w Hi Hn Hb Hrest.
  - assert (length imsi = start + i)%nat as Hl.
    { apply (f_equal length) in Hrest. rewrite length_drop in Hrest. simpl in Hrest. lia. }
    cbv zeta. rewrite app_nil_r. destruct n; cbn [emit_msin]; [done|]. by bdec.
  - assert (length imsi = start + i + 1)%nat as Hl.
    { apply (f_equal length) in Hrest. rewrite length_drop in Hrest. simpl in Hrest. lia. }
    assert (imsi !! (start + i)%nat = Some c1) as Hc1.
    { rewrite <- (Nat.add_0_r (start + i)), <- lookup_drop, <- Hrest. done. }
    destruct n; [lia|]. cbn [emit_msin]. bdec. rewrite Hc1. bdec. wstep.
    cbv zeta. rewrite length_app. destruct n; cbn [emit_msin]; [done|]. by bdec.
  - assert (length imsi = start + i + S (S (length rest)))%nat as Hl.
    { apply (f_equal length) in Hrest. rewrite length_drop in Hrest. simpl in Hrest. lia. }
    assert (imsi !! (start + i)%nat = Some c1) as Hc1.
    { rewrite <- (Nat.add_0_r (start + i)), <- lookup_drop, <- Hrest. done. }
    assert (imsi !! (start + i + 1)%nat = Some c2) as Hc2.
    { rewrite <- lookup_drop, <- Hrest. done. }
    destruct n; [lia|]. cbn [emit_msin]. bdec. rewrite Hc1. bdec. rewrite Hc2.
    cbn [bcd_pairs length] in Hb. wstep.
    cbn [bcd_pairs]. rewrite <- length_app.
    destruct n as [|n]; [lia|].
    rewrite (IH (i + 2)%nat (S n)).
    + cbv zeta. by rewrite <- app_assoc.
    + lia.
    + lia.
    + rewrite length_app. simpl. lia.
    + rewrite Nat.add_assoc, <- drop_drop, <- Hrest. done.
Qed.

(** ** SUCI: the encoder meets its specification *)

Lemma plmn_validate c0 c1 c2 n0 n1 ns post :
  (length ns <= 1)%nat ->
  bcd_validate_plmn ([1] ++ plmn_wire [c0; c1; c2] (n0 :: n1 :: ns) ++ post) 1
  = Some (if forallb is_digit [c0; c1; c2] && forallb is_digit [n0; n1] then 0 else -1).
Proof.
  intros Hns. unfold bcd_validate_plmn. cbn [plmn_wire app lookup list_lookup Nat.add]. ob.
  set (m3 := match ns with n2 :: _ => _ | [] => _ end).
  assert (-1 <= m3 <= 9) as Hm3.
  { unfold m3. destruct ns; [lia|apply digit_val_range]. }
  pose proof (digit_val_nonneg c0) as N0. pose proof (digit_val_nonneg c1) as N1.
  pose proof (digit_val_nonneg c2) as N2. pose proof (digit_val_nonneg n0) as N3.
  pose proof (digit_val_nonneg n1) as N4.
  pose proof (strict_pack (digit_val c0) (digit_val c1) (digit_val_range _) (digit_val_range _)) as S1.
  pose proof (strict_pack (digit_val n0) (digit_val n1) (digit_val_range _) (digit_val_range _)) as S3.
  rewrite N0, N1 in S1. rewrite N3, N4 in S3. unfold bcd_validate_strict in S1, S3.
  assert ((9 <? bcd_pack (digit_val c2) m3 &. 0x0F)
          || ((9 <? (bcd_pack (digit_val c2) m3 ≫ 4) &. 0x0F)
              && negb ((bcd_pack (digit_val c2) m3 ≫ 4) &. 0x0F =? 0xF))
          = negb (is_digit c2)) as ->.
  { rewrite <- N2. pose proof (digit_val_range c2) as R.
    generalize dependent (digit_val c2). intros d _ R. clear -Hm3 R.
    zcases d; zcases m3; reflexivity. }
  cbn [forallb]. destruct ((_ || _) : bool) in S1 |- *; destruct ((_ || _) : bool) in S3 |- *;
    destruct (is_digit c0), (is_digit c1), (is_digit c2), (is_digit n0), (is_digit n1);
    simpl in *; done.
Qed.

Lemma encode_suci_result b buf_len imsi mcc mnc :
  length mcc = 3%nat -> length mnc = 2%nat \/ length mnc = 3%nat ->
  (length mcc + length mnc <= length imsi)%nat ->
  let msin := drop (3 + length mnc) imsi in
  (8 + (length msin + 1) / 2 <= buf_len)%nat -> (buf_len <= length b)%nat ->
  ue_nas_encode_suci (Some b) buf_len (Some imsi) (Some mcc) (Some mnc)
  = Some (if suci_ok mcc mnc msin then Z.of_nat (8 + (length msin + 1) / 2) else -1,
          Some (over (suci_wire mcc mnc msin) b)).
Proof.
  intros Hmcc Hmnc Himsi msin Hneed Hb.
  pose proof (length_bcd_pairs msin) as Hbp.
  assert (length msin = length imsi - (3 + length mnc))%nat as Hms by (unfold msin; by rewrite length_drop).
  unfold ue_nas_encode_suci, run_w. rewrite Hmcc. cbv zeta.
  rewrite Hms in Hneed, Hbp. bdec.
  replace (negb (length mnc =?n 2) && negb (length mnc =?n 3)) with false by lia.
  cbn [orb negb Nat.eqb]. bdec.
  destruct mcc as [|c0 [|c1 [|c2 [|]]]]; try done. clear Hmcc.
  destruct mnc as [|n0 [|n1 ns]]; [simpl in *; lia..|].
  change (St b 0) with (St (over [] b) 0).
  do 5 wstep. cbn [app length Nat.add].
  set (w := [1] ++ plmn_wire [c0; c1; c2] (n0 :: n1 :: ns) ++ [0; 0; 0; 0]).
  erewrite W_bind_some.
  2:{ refine (emit_msin_over imsi (3 + length (n0 :: n1 :: ns)) 0 _ w b _ _ _).
      - simpl in *; lia.
      - simpl; lia.
      - rewrite Nat.add_0_r. fold msin. rewrite Hbp. change (length w) with 8%nat. lia. }
  cbv zeta. rewrite Nat.add_0_r. fold msin.
  set (w' := w ++ bcd_pairs msin).
  assert (w' = suci_wire [c0; c1; c2] (n0 :: n1 :: ns) msin) as Hw' by done.
  assert (length w' = 8 + (length msin + 1) / 2)%nat as Hlw.
  { unfold w'. rewrite length_app, length_bcd_pairs. done. }
  rewrite (W_bind_some get_pos _ (St (over w' b) (length w')) _ _ eq_refl).
  assert (suci_validate_bcd (over w' b) (length w')
          = Some (if suci_ok [c0; c1; c2] (n0 :: n1 :: ns) msin then 0 else -1)) as Hval.
  { unfold suci_validate_bcd, over, w', w. rewrite <- !app_assoc.
    rewrite plmn_validate by (simpl in *; lia). ob.
    unfold suci_ok. change (take 2 (n0 :: n1 :: ns)) with [n0; n1].
    destruct (forallb is_digit [c0; c1; c2] && forallb is_digit [n0; n1]); [|done].
    cbn [Z.ltb Z.compare plmn_wire app lookup list_lookup]. ob.
    cbn [bcd_validate_strict Z.land Z.shiftr Z.ltb Z.compare orb].
    pose proof (validate_msin_app w (bcd_pairs msin) (drop (length w') b)) as HV.
    unfold w in HV. rewrite <- !app_assoc in HV. cbn [app plmn_wire length] in HV.
    replace (length _ - 8)%nat with (length (bcd_pairs msin)).
    - rewrite bcd_pairs_valid in HV. exact HV.
    - cbn [length]. lia. }
  rewrite (W_bind_some (peek _) _ _ (if suci_ok [c0; c1; c2] (n0 :: n1 :: ns) msin then 0 else -1)
             (St (over w' b) (length w'))) by (unfold peek; cbn [wmem wpos]; by rewrite Hval).
  rewrite <- Hw'. destruct (suci_ok _ _ _); [|done].
  cbn [Z.ltb Z.compare]. unfold ret_pos. cbn [wpos wmem]. by rewrite Hlw.
Qed.

(** Every byte sequence of the header and the SUCI is one of the codes above;
    the rest of this section instantiates the result. *)

(** An all-digit IMSI whose MSIN has an even number of digits is encoded:
    the encoder returns the SUCI length, fills the buffer with the documented
    layout, and unpacking the scheme output gives the MSIN back. *)
Lemma suci_encode_roundtrip b buf_len mcc mnc msin :
  length mcc = 3%nat -> length mnc = 2%nat \/ length mnc = 3%nat ->
  forallb is_digit (mcc ++ mnc ++ msin) = true -> Nat.even (length msin) = true ->
  (8 + length msin / 2 <= buf_len)%nat -> (buf_len <= length b)%nat ->
  ue_nas_encode_suci (Some b) buf_len (Some (mcc ++ mnc ++ msin)) (Some mcc) (Some mnc)
    = Some (Z.of_nat (8 + length msin / 2), Some (over (suci_wire mcc mnc msin) b))
  /\ bcd_unpairs (drop 8 (suci_wire mcc mnc msin)) = msin.
Proof.
  intros Hmcc Hmnc Hd He Hl Hb. rewrite !forallb_app, !andb_true_iff in Hd.
  destruct Hd as (Hd1 & Hd2 & Hd3).
  assert ((length msin + 1) / 2 = length msin / 2)%nat as Hdiv.
  { apply Nat.even_spec in He as [k ->]. rewrite (Nat.mul_comm 2 k), Nat.div_mul by lia.
    rewrite Nat.div_add_l by lia. change (1 / 2)%nat with 0%nat. lia. }
  assert (drop (3 + length mnc) (mcc ++ mnc ++ msin) = msin) as Hdrop.
  { rewrite app_assoc. rewrite drop_app_length'; [done|]. rewrite length_app. lia. }
  split.
  - rewrite encode_suci_result; rewrite ?Hdrop, ?Hdiv, ?length_app; try (done || lia).
    unfold suci_ok. rewrite Hd1, Hd3, He.
    rewrite <- (take_drop 2 mnc), forallb_app in Hd2. apply andb_true_iff in Hd2 as [-> _].
    done.
  - destruct mcc as [|? [|? [|? [|]]]]; try done.
    destruct mnc as [|? [|? ?]]; try (simpl in *; lia).
    apply bcd_unpairs_pairs; done.
Qed.

(** An IMSI whose MSIN has an odd number of digits is never encoded: the
    filler nibble of the last octet fails the validation pass, so for example
    every 15-digit IMSI of an operator with a 3-digit MNC is refused. *)
Lemma suci_odd_msin_rejected b buf_len imsi mcc mnc :
  length mcc = 3%nat -> length mnc = 2%nat \/ length mnc = 3%nat ->
  (length mcc + length mnc <= length imsi)%nat ->
  Nat.even (length imsi - length mcc - length mnc) = false ->
  (8 + (length imsi - length mcc - length mnc + 1) / 2 <= buf_len)%nat ->
  (buf_len <= length b)%nat ->
  exists b', ue_nas_encode_suci (Some b) buf_len (Some imsi) (Some mcc) (Some mnc)
             = Some (-1, Some b').
Proof.
  intros Hmcc Hmnc Hi He Hl Hb.
  assert (length (drop (3 + length mnc) imsi) = length imsi - length mcc - length mnc)%nat as Hm
    by (rewrite length_drop; lia).
  rewrite encode_suci_result by (rewrite ?Hm; done || lia).
  unfold suci_ok. rewrite Hm, He, andb_false_r. eauto.
Qed.

(** ** Message layouts *)

Definition nas_header (msg_type : Z) : bytes := [0x7E; 0x00; msg_type].

(** LV-E: a two-byte length, then the value. *)
Definition lve (l : bytes) : bytes := be_list 2 (Z.of_nat (length l)) ++ l.

Definition registration_request_wire (mid : bytes) (slice_sst reg_type ngksi : Z)
    (initial_cleartext : bool) : bytes :=
  nas_header 0x41 ++ [ngksi * 16 + 8 + reg_type] ++ lve mid
  ++ (if initial_cleartext then [] else [0x10; 0x01; 0x00])
  ++ [0x2E; 0x02; 0xA0; 0xA0]
  ++ (if 0 <? slice_sst then [0x2F; 0x02; 0x01; slice_sst] else [])
  ++ (if initial_cleartext then [] else [0x53; 0x01; 0x00]).

Definition deregistration_request_wire (switch_off : bool) (guti : bytes) (ngksi : Z) : bytes :=
  nas_header 0x45 ++ [ngksi * 16 + (if switch_off then 8 else 0) + 1] ++ lve guti.

Definition auth_response_wire (res : bytes) : bytes :=
  nas_header 0x57 ++ [0x2D; Z.of_nat (length res)] ++ res.

Definition auth_failure_wire (cause : Z) (auts : bytes) : bytes :=
  nas_header 0x59 ++ [cause]
  ++ match auts with [] => [] | _ => [0x30; u8 (Z.of_nat (length auts))] ++ auts end.

Definition smc_complete_wire (container : bytes) : bytes :=
  nas_header 0x5E ++ match container with [] => [] | _ => [0x71] ++ lve container end.

Definition ul_nas_transport_wire (sm : bytes) (psi : Z) : bytes :=
  nas_header 0x67 ++ [0x01] ++ lve sm ++ [0x12; psi].

Definition est_request_sm (psi pti pdu_type : Z) : bytes :=
  [0x2E; psi; pti; 0xC1; 0xFF; 0xFF; 0x90 + pdu_type; 0xA1; 0x28; 0x01; 0x00;
   0x7B; 0x00; 0x0A; 0x80; 0x00; 0x0A; 0x00; 0x00; 0x0D; 0x00; 0x00; 0x0C; 0x00].

Definition est_request_wire (psi pti pdu_type request_type : Z) (dnn : bytes) (sst : Z) : bytes :=
  nas_header 0x67 ++ [0x01] ++ lve (est_request_sm psi pti pdu_type) ++ [0x12; psi]
  ++ [0x80 + request_type]
  ++ (if 0 <? sst then [0x22; 0x01; sst] else [])
  ++ match dnn with
     | [] => []
     | _ => [0x25; Z.of_nat (length dnn) + 1; Z.of_nat (length dnn)] ++ dnn
     end.

(** The two length octets the encoders write. *)
Lemma length_octets n :
  [u8 ((Z.of_nat n ≫ 8) &. 0xFF)] ++ [u8 (Z.of_nat n &. 0xFF)] = be_list 2 (Z.of_nat n).
Proof.
  cbn [be_list app Z.of_nat Z.mul]. rewrite !land_ff, Z.shiftr_0_r. unfold u8.
  rewrite !Zmod_mod. done.
Qed.

(** Runs the straight-line writes of an encoder on an intact buffer [b]. *)
Ltac wrun b :=
  change (St b 0) with (St (over [] b) 0);
  repeat first [ wstep | rewrite W_ret_eq | erewrite W_bind_some by reflexivity ].

Lemma ksi_octet ngksi rt :
  0 <= ngksi <= 7 -> 0 <= rt <= 7 ->
  u8 (((ngksi &. 0x07) ≪ 4) |. 0x08 |. (rt &. 0x07)) = ngksi * 16 + 8 + rt.
Proof. intros H1 H2. zcases ngksi; zcases rt; reflexivity. Qed.

Lemma copy_in_over w b src n p :
  p = length w -> (n <= length src)%nat -> (length w + n <= length b)%nat ->
  copy_in src n (St (over w b) p) = Some (tt, St (over (w ++ take n src) b) (p + n)%nat).
Proof.
  intros Hp Hn Hb. unfold copy_in. bdec. rewrite emits_over by (done || vlia).
  by rewrite length_take, Nat.min_l by lia.
Qed.

(** The encoder's result, once the bytes written are known. *)
Lemma emitted (w w' b : bytes) k :
  w = w' -> k = length w ->
  Some (Z.of_nat k, Some (over w b)) = Some (Z.of_nat (length w'), Some (over w' b)).
Proof. by intros -> ->. Qed.

(** The value part of the buffer after an optional IE. *)
Lemma when_emits_over (c : bool) l w b p :
  p = length w -> (length w + (if c then length l else 0) <= length b)%nat ->
  (if c then emits l else mret tt) (St (over w b) p)
  = Some (tt, St (over (w ++ if c then l else []) b) (p + length (if c then l else []))%nat).
Proof.
  intros -> Hb. destruct c; [by apply emits_over|].
  rewrite W_ret_eq, app_nil_r. simpl. by rewrite Nat.add_0_r.
Qed.

Lemma encode_registration_request_result b buf_len imsi mcc mnc sst rt guti guti_len ngksi ic mid n :
  (buf_len <= length b)%nat ->
  registration_identity imsi mcc mnc guti guti_len = Some (Some (mid, n)) ->
  (n <= length mid)%nat -> 1 <= rt <= 3 -> 0 <= ngksi <= 7 ->
  ue_nas_encode_registration_request (Some b) buf_len imsi mcc mnc sst rt guti guti_len ngksi ic
  = Some (if buf_len <?n 20 + n then (-1, Some b) else
          let w := registration_request_wire (take n mid) sst rt ngksi ic in
          (Z.of_nat (length w), Some (over w b))).
Proof.
  intros Hb Hid Hn Hrt Hk. unfold ue_nas_encode_registration_request, run_w. rewrite Hid.
  replace ((rt <? 1) || (3 <? rt)) with false by lia. replace (7 <? ngksi) with false by lia.
  cbv zeta iota. bcase; [done|].
  change (St b 0) with (St (over [] b) 0). do 6 wstep.
  erewrite W_bind_some by (apply copy_in_over; vlia).
  erewrite W_bind_some by (apply when_emits_over; [vlia|destruct ic; vlia]).
  erewrite W_bind_some by (apply emits_over; [destruct ic; vlia|destruct ic; vlia]).
  erewrite W_bind_some by (apply when_emits_over; destruct ic, (0 <? sst); vlia).
  erewrite W_bind_some by (apply when_emits_over; destruct ic, (0 <? sst); vlia).
  rewrite ksi_octet by lia. unfold ret_pos. cbn [wpos wmem].
  apply emitted.
  - unfold registration_request_wire, lve. rewrite length_take, Nat.min_l by lia.
    rewrite <- (length_octets n). rewrite <- !app_assoc. by destruct ic.
  - destruct ic, (0 <? sst); vlia.
Qed.

Lemma dereg_octet ngksi (so : bool) :
  0 <= ngksi <= 7 ->
  u8 (((ngksi &. 0x07) ≪ 4) |. (if so then 0x08 else 0x00) |. 0x01)
  = ngksi * 16 + (if so then 8 else 0) + 1.
Proof. intros H1. destruct so; zcases ngksi; reflexivity. Qed.

Lemma encode_deregistration_request_result b buf_len so guti ngksi :
  (buf_len <= length b)%nat -> (0 < length guti)%nat -> 0 <= ngksi <= 7 ->
  ue_nas_encode_deregistration_request (Some b) buf_len so (Some guti) (length guti) ngksi
  = Some (if buf_len <?n 6 + length guti then (-1, Some b) else
          let w := deregistration_request_wire so guti ngksi in
          (Z.of_nat (length w), Some (over w b))).
Proof.
  intros Hb Hg Hk. unfold ue_nas_encode_deregistration_request, run_w.
  replace (length guti =?n 0) with false by lia. replace (7 <? ngksi) with false by lia.
  cbv zeta iota. bcase; [done|].
  change (St b 0) with (St (over [] b) 0). do 6 wstep.
  erewrite W_bind_some by (apply copy_in_over; vlia).
  unfold ret_pos. cbn [wpos wmem]. rewrite take_ge by lia.
  unfold deregistration_request_wire, lve. rewrite <- (length_octets (length guti)).
  rewrite dereg_octet by lia. apply emitted; [|vlia]. by rewrite <- !app_assoc.
Qed.

Lemma encode_auth_response_result b buf_len res :
  (buf_len <= length b)%nat -> (0 < length res <= 32)%nat ->
  ue_nas_encode_auth_response (Some b) buf_len (Some res) (length res)
  = Some (if buf_len <?n 5 + length res then (-1, Some b) else
          let w := auth_response_wire res in (Z.of_nat (length w), Some (over w b))).
Proof.
  intros Hb Hr. unfold ue_nas_encode_auth_response, run_w.
  replace (_ || _) with false by lia. cbv iota. bcase; bdec; [done|].
  change (St b 0) with (St (over [] b) 0). do 5 wstep.
  erewrite W_bind_some by (apply copy_in_over; vlia).
  unfold ret_pos. cbn [wpos wmem]. rewrite take_ge, u8_small by lia.
  apply emitted; [|vlia]. by rewrite <- !app_assoc.
Qed.

Lemma encode_auth_failure_result b buf_len cause auts :
  (buf_len <= length b)%nat ->
  ue_nas_encode_auth_failure (Some b) buf_len cause (Some auts) (length auts)
  = Some (if buf_len <?n 4 then (-1, Some b) else
          let w := auth_failure_wire cause auts in
          if (0 <?n length auts) && (buf_len <?n 6 + length auts)
          then (-1, Some (over (nas_header 0x59 ++ [cause]) b))
          else (Z.of_nat (length w), Some (over w b))).
Proof.
  intros Hb. unfold ue_nas_encode_auth_failure, run_w. bcase; [done|].
  change (St b 0) with (St (over [] b) 0). do 4 wstep.
  destruct auts as [|a auts]; [done|]. remember (a :: auts) as l eqn:Hl.
  assert (0 < length l)%nat by (subst; simpl; lia).
  replace (0 <?n length l) with true by lia. cbn [andb].
  rewrite bind_get_pos.
  bcase; bdec; [done|]. do 2 wstep.
  erewrite W_bind_some by (apply copy_in_over; vlia).
  unfold ret_pos. cbn [wpos wmem]. rewrite take_ge by lia.
  apply emitted; [|vlia]. rewrite <- !app_assoc, Hl. done.
Qed.

Lemma encode_smc_complete_result b buf_len container :
  (buf_len <= length b)%nat ->
  ue_nas_encode_security_mode_complete (Some b) buf_len (Some container) (length container)
  = Some (if buf_len <?n 6 + length container then (-1, Some b) else
          let w := smc_complete_wire container in (Z.of_nat (length w), Some (over w b))).
Proof.
  intros Hb. unfold ue_nas_encode_security_mode_complete, run_w. bcase; bdec; [done|].
  change (St b 0) with (St (over [] b) 0). do 3 wstep.
  destruct container as [|a c]; [done|]. remember (a :: c) as l eqn:Hl.
  assert (0 < length l)%nat by (subst; simpl; lia).
  replace (0 <?n length l) with true by lia. cbv iota.
  rewrite bind_get_pos.
  bdec. do 3 wstep.
  erewrite W_bind_some by (apply copy_in_over; vlia).
  unfold ret_pos. cbn [wpos wmem]. rewrite take_ge by lia.
  apply emitted; [|vlia].
  transitivity (nas_header 0x5E ++ [0x71] ++ lve l); [|by rewrite Hl].
  unfold lve. rewrite <- (length_octets (length l)). by rewrite <- !app_assoc.
Qed.

Lemma ul_nas_transport_over sm psi b :
  (8 + length sm <= length b)%nat ->
  ul_nas_transport sm psi (St b 0)
  = let w := ul_nas_transport_wire sm psi in
    Some (Z.of_nat (length w), St (over w b) (length w)).
Proof.
  intros Hb. unfold ul_nas_transport.
  change (St b 0) with (St (over [] b) 0). cbv zeta. do 6 wstep.
  erewrite W_bind_some by (apply copy_in_over; vlia). do 2 wstep.
  unfold ret_pos. cbn [wpos wmem]. rewrite take_ge by lia.
  unfold ul_nas_transport_wire, lve. rewrite <- (length_octets (length sm)).
  rewrite <- !app_assoc. do 3 f_equal; [vlia|]. f_equal. vlia.
Qed.

Lemma est_request_inner_result psi pti t :
  0 <= t <= 15 ->
  encode_pdu_session_est_request_inner 128 psi pti t (St (replicate 128 0) 0)
  = Some (24, St (over (est_request_sm psi pti t) (replicate 128 0)) 24).
Proof.
  intros Ht. unfold est_request_sm.
  replace (0x90 + t) with (u8 (0x90 |. (t &. 0x0F))) by (zcases t; reflexivity).
  reflexivity.
Qed.

Lemma encode_est_request_result b buf_len psi pti t rt dnn sst :
  (buf_len <= length b)%nat -> 0 <= t <= 15 -> 1 <= rt <= 15 -> (length dnn <= 100)%nat ->
  (33 + (if (0 <? sst)%Z then 3 else 0) <= buf_len)%nat ->
  ue_nas_encode_pdu_session_est_request (Some b) buf_len psi pti t rt (Some dnn) sst
  = Some (let w := est_request_wire psi pti t rt dnn sst in
          if (0 <?n length dnn) && (buf_len <?n length w)
          then (-1, Some (over (est_request_wire psi pti t rt [] sst) b))
          else (Z.of_nat (length w), Some (over w b))).
Proof.
  intros Hb Ht Hrt Hdnn Hlen. unfold ue_nas_encode_pdu_session_est_request, run_w.
  bdec. rewrite est_request_inner_result by lia. cbn [Z.ltb Z.compare wmem].
  change (St b 0) with (St (over [] b) 0). do 6 wstep.
  rewrite bind_get_pos.
  change (Z.to_nat 24) with 24%nat. bdec.
  erewrite W_bind_some by (apply copy_in_over; destruct (0 <? sst); vlia).
  do 2 (erewrite W_bind_some by (apply emits_over; destruct (0 <? sst); vlia)).
  replace (rt =? 0) with false by lia. cbv zeta iota.
  erewrite W_bind_some by (apply emits_over; destruct (0 <? sst); vlia).
  erewrite W_bind_some by (apply when_emits_over; destruct (0 <? sst); vlia).
  replace (u8 (0x80 |. (rt &. 0x0F))) with (0x80 + rt) by (zcases rt; reflexivity).
  match goal with |- context [over ?w b] =>
    assert (w = est_request_wire psi pti t rt [] sst) as Hw end.
  { unfold est_request_wire. rewrite app_nil_r, <- !app_assoc. reflexivity. }
  rewrite Hw. clear Hw.
  match goal with |- context [St _ ?k] =>
    replace k with (length (est_request_wire psi pti t rt [] sst))
      by (unfold est_request_wire, lve, nas_header; destruct (0 <? sst); vlia) end.
  set (w0 := est_request_wire psi pti t rt [] sst).
  assert (length w0 = 33 + (if (0 <? sst)%Z then 3 else 0))%nat as Hw0
    by (unfold w0, est_request_wire, lve, nas_header; destruct (0 <? sst); vlia).
  destruct dnn as [|c dnn]; [done|]. remember (c :: dnn) as l eqn:Hl.
  assert (0 < length l)%nat by (subst; simpl; lia).
  assert (est_request_wire psi pti t rt l sst
          = w0 ++ [0x25; Z.of_nat (length l) + 1; Z.of_nat (length l)] ++ l) as ->.
  { unfold w0, est_request_wire. rewrite Hl at 1. cbv iota.
    rewrite app_nil_r, <- !app_assoc. done. }
  replace (0 <?n length l) with true by lia. cbn [andb].
  rewrite Hl at 1. cbv iota. rewrite <- Hl. cbv zeta.
  replace (100 <?n length l) with false by lia.
  rewrite bind_get_pos.
  replace (length (w0 ++ _)) with (length w0 + 3 + length l)%nat by vlia.
  bcase; bdec; [done|]. do 3 wstep.
  erewrite W_bind_some by (apply copy_in_over; vlia).
  unfold ret_pos. cbn [wpos wmem]. rewrite take_ge, !u8_small by lia.
  replace (length w0 + 3 + length l)%nat
    with (length (w0 ++ [0x25; Z.of_nat (length l) + 1; Z.of_nat (length l)] ++ l)) by vlia.
  apply emitted; [|vlia]. by rewrite <- !app_assoc.
Qed.

(** ** Claims on the message encoders *)

(** Registration Request.  Whatever the resolved mobile identity (5G-GUTI
    or SUCI), the encoder either reports a short buffer without touching it, or
    writes exactly the documented message; the capacity test [20 + mid_len] is
    enough for every combination of optional IEs. *)
Lemma registration_request_encodes b buf_len imsi mcc mnc sst rt guti guti_len ngksi ic mid n :
  (buf_len <= length b)%nat ->
  registration_identity imsi mcc mnc guti guti_len = Some (Some (mid, n)) ->
  (n <= length mid)%nat -> 1 <= rt <= 3 -> 0 <= ngksi <= 7 ->
  let w := registration_request_wire (take n mid) sst rt ngksi ic in
  ue_nas_encode_registration_request (Some b) buf_len imsi mcc mnc sst rt guti guti_len ngksi ic
  = Some (if buf_len <?n 20 + n then (-1, Some b) else (Z.of_nat (length w), Some (over w b)))
  /\ (length w <= 20 + n)%nat /\ take 4 w = [0x7E; 0x00; 0x41; ngksi * 16 + 8 + rt].
Proof.
  intros Hb Hid Hn Hrt Hk w. split; [by apply encode_registration_request_result|].
  split; [|done]. unfold w, registration_request_wire, lve, nas_header.
  destruct ic, (0 <? sst); vlia.
Qed.

(** Every other 5GMM/5GSM encoder writes exactly its documented message and
    nothing outside the buffer: De-registration Request, Authentication
    Response, Authentication Failure (with its AUTS), Security Mode Complete
    (with its NAS container), 5GSM STATUS, PDU Session Release Request and
    Complete, for a buffer that passes their capacity tests. *)
Lemma nas_encoders_layout b buf_len :
  (buf_len <= length b)%nat -> (16 <= buf_len)%nat ->
  (forall so guti k, (0 < length guti)%nat -> (6 + length guti <= buf_len)%nat -> 0 <= k <= 7 ->
     ue_nas_encode_deregistration_request (Some b) buf_len so (Some guti) (length guti) k
     = let w := deregistration_request_wire so guti k in
       Some (Z.of_nat (length w), Some (over w b)))
  /\ (forall res, (0 < length res <= 32)%nat -> (5 + length res <= buf_len)%nat ->
     ue_nas_encode_auth_response (Some b) buf_len (Some res) (length res)
     = let w := auth_response_wire res in Some (Z.of_nat (length w), Some (over w b)))
  /\ (forall cause auts, (6 + length auts <= buf_len)%nat ->
     ue_nas_encode_auth_failure (Some b) buf_len cause (Some auts) (length auts)
     = let w := auth_failure_wire cause auts in Some (Z.of_nat (length w), Some (over w b)))
  /\ (forall c, (6 + length c <= buf_len)%nat ->
     ue_nas_encode_security_mode_complete (Some b) buf_len (Some c) (length c)
     = let w := smc_complete_wire c in Some (Z.of_nat (length w), Some (over w b)))
  /\ (forall psi pti cause,
     ue_nas_encode_sm_status (Some b) buf_len psi pti cause
     = let w := ul_nas_transport_wire [0x2E; psi; pti; 0xD6; cause] psi in
       Some (Z.of_nat (length w), Some (over w b)))
  /\ (forall psi pti,
     ue_nas_encode_pdu_session_release_complete (Some b) buf_len psi pti
     = let w := ul_nas_transport_wire [0x2E; psi; pti; 0xD4] psi in
       Some (Z.of_nat (length w), Some (over w b)))
  /\ (forall psi pti,
     ue_nas_encode_pdu_session_release_request (Some b) buf_len psi pti
     = let w := ul_nas_transport_wire
                  [0x2E; psi; if pti =? 0 then 1 else pti; 0xD1; 0x59; 0x24] psi in
       Some (Z.of_nat (length w), Some (over w b))).
Proof.
  intros Hb H16. split_and!; intros.
  - rewrite encode_deregistration_request_result by done. by bdec.
  - rewrite encode_auth_response_result by done. by bdec.
  - rewrite encode_auth_failure_result by done. bdec. by rewrite andb_false_r.
  - rewrite encode_smc_complete_result by done. by bdec.
  - unfold ue_nas_encode_sm_status, run_w. bdec. rewrite ul_nas_transport_over by vlia. done.
  - unfold ue_nas_encode_pdu_session_release_complete, run_w. bdec.
    rewrite ul_nas_transport_over by vlia. done.
  - unfold ue_nas_encode_pdu_session_release_request, run_w. bdec.
    rewrite ul_nas_transport_over by vlia. done.
Qed.

(** PDU Session Establishment Request.  With a buffer of at least 36 bytes
    (33 when no S-NSSAI is requested) the encoder stays in bounds: it writes the
    documented message, or returns -1 when the DNN does not fit. *)
Lemma est_request_encodes b buf_len psi pti t rt dnn sst :
  (buf_len <= length b)%nat -> 0 <= t <= 15 -> 1 <= rt <= 15 -> (length dnn <= 100)%nat ->
  (33 + (if (0 <? sst)%Z then 3 else 0) <= buf_len)%nat ->
  ue_nas_encode_pdu_session_est_request (Some b) buf_len psi pti t rt (Some dnn) sst
  = Some (let w := est_request_wire psi pti t rt dnn sst in
          if (0 <?n length dnn) && (buf_len <?n length w)
          then (-1, Some (over (est_request_wire psi pti t rt [] sst) b))
          else (Z.of_nat (length w), Some (over w b))).
Proof. apply encode_est_request_result. Qed.

(** The capacity test of that encoder ([buf_len < 32]) is too weak: a
    32-byte buffer passes it and the request-type octet is then written at
    index 32, outside the buffer, whatever the other arguments. *)
Lemma est_request_overflows b psi pti t rt dnn sst :
  length b = 32%nat -> 0 <= t <= 15 ->
  ue_nas_encode_pdu_session_est_request (Some b) 32 psi pti t rt dnn sst = None.
Proof.
  intros Hb Ht. unfold ue_nas_encode_pdu_session_est_request, run_w.
  bdec. rewrite est_request_inner_result by lia. cbn [Z.ltb Z.compare wmem].
  change (St b 0) with (St (over [] b) 0). do 6 wstep. rewrite bind_get_pos.
  change (Z.to_nat 24) with 24%nat. bdec.
  erewrite W_bind_some by (apply copy_in_over; vlia).
  do 2 (erewrite W_bind_some by (apply emits_over; vlia)).
  cbv zeta. rewrite W_bind_none; [done|]. unfold emits. cbn [wpos wmem].
  rewrite length_over by vlia. rewrite Hb. done.
Qed.

(** ** Witnesses *)

Lemma suci_encode_roundtrip_witness :
  ue_nas_encode_suci (Some (replicate 64 0)) 64 (Some (str "001010000000001"))
      (Some (str "001")) (Some (str "01"))
    = Some (13, Some (over (suci_wire (str "001") (str "01") (str "0000000001")) (replicate 64 0)))
  /\ bcd_unpairs (drop 8 (suci_wire (str "001") (str "01") (str "0000000001")))
     = str "0000000001".
Proof.
  apply (suci_encode_roundtrip (replicate 64 0) 64 (str "001") (str "01") (str "0000000001"));
    solve [done | by left | vm_compute; lia].
Defined.

Example suci_odd_msin_example :
  exists b', ue_nas_encode_suci (Some (replicate 64 0)) 64 (Some (str "310260123456789"))
               (Some (str "310")) (Some (str "260")) = Some (-1, Some b').
Proof.
  apply (suci_odd_msin_rejected (replicate 64 0) 64 (str "310260123456789")
           (str "310") (str "260")); solve [done | by right | vm_compute; lia].
Defined.

Example registration_request_encodes_example :
  let w := registration_request_wire (take 3 [0xf2; 1; 2]) 1 1 7 true in
  ue_nas_encode_registration_request (Some (replicate 64 0)) 64 None None None 1 1
      (Some [0xf2; 1; 2]) 3 7 true
  = Some (if 64 <?n 20 + 3 then (-1, Some (replicate 64 0))
          else (Z.of_nat (length w), Some (over w (replicate 64 0))))
  /\ (length w <= 20 + 3)%nat /\ take 4 w = [0x7E; 0x00; 0x41; 7 * 16 + 8 + 1].
Proof.
  apply (registration_request_encodes (replicate 64 0) 64 None None None 1 1
           (Some [0xf2; 1; 2]) 3 7 true [0xf2; 1; 2] 3); solve [done | simpl; lia].
Defined.

Example nas_encoders_layout_example :
  ue_nas_encode_auth_response (Some (replicate 32 0)) 32 (Some (replicate 16 9)) 16
  = let w := auth_response_wire (replicate 16 9) in
    Some (Z.of_nat (length w), Some (over w (replicate 32 0))).
Proof.
  destruct (nas_encoders_layout (replicate 32 0) 32) as (_ & H & _); [simpl; lia..|].
  apply (H (replicate 16 9)); simpl; lia.
Defined.

Example est_request_encodes_example :
  ue_nas_encode_pdu_session_est_request (Some (replicate 512 0)) 512 1 1 1 1
    (Some (str "internet")) 1
  = Some (let w := est_request_wire 1 1 1 1 (str "internet") 1 in
          if (0 <?n length (str "internet")) && (512 <?n length w)
          then (-1, Some (over (est_request_wire 1 1 1 1 [] 1) (replicate 512 0)))
          else (Z.of_nat (length w), Some (over w (replicate 512 0)))).
Proof.
  apply (est_request_encodes (replicate 512 0) 512 1 1 1 1 (str "internet") 1);
    rewrite ?length_replicate; simpl; lia.
Defined.

