(* ===== verification/NasDecode.v ===== *)
(** The NAS downlink decoder: [src/src/ue_engine/ue_nas_decode.c].

    Every function reads its PDU with bounds-checked loads and returns
    [option _]: [None] is an access out of bounds or exhausted fuel.  Loops
    carry a fuel argument; the bound chosen is the PDU length plus one, enough
    because every iteration moves the position forward (proved with the safety
    theorem).  Hex dumps for the log are not modelled. *)

From S2P Require Import Prelude NasDefs.

Definition gprs_timer3_seconds (v : Z) : Z :=
  let value := v &. 0x1F in
  let unit_ := (v ≫ 5) &. 0x07 in
  if unit_ =? 0 then value * 600
  else if unit_ =? 1 then value * 3600
  else if unit_ =? 2 then value * 36000
  else if unit_ =? 3 then value * 2
  else if unit_ =? 4 then value * 30
  else if unit_ =? 5 then value * 60
  else if unit_ =? 6 then value * 1152000
  else 0.

(** [for (i = 5; i + 2 < len; i++)]. *)
Fixpoint t3512_scan (pdu : bytes) (len i fuel : nat) : option (option Z) :=
  match fuel with
  | O => None
  | S fuel' =>
    if i + 2 <?n len then
      a ← pdu !! i;
      if a =? 0x5E then
        b ← pdu !! (i + 1)%nat;
        if b =? 0x01 then
          v ← pdu !! (i + 2)%nat; Some (Some (gprs_timer3_seconds v))
        else t3512_scan pdu len (i + 1) fuel'
      else t3512_scan pdu len (i + 1) fuel'
    else Some None
  end.

Definition parse_t3512 (pdu : bytes) (len : nat) : option (option Z) :=
  t3512_scan pdu len 5 (S len).

(** Skips the half-octet IEs with IEI 0x9, 0xA or 0xB. *)
Fixpoint skip_half_octets (pdu : bytes) (len pos fuel : nat) : option nat :=
  match fuel with
  | O => None
  | S fuel' =>
    if pos <?n len then
      b ← pdu !! pos;
      let hi := (b ≫ 4) &. 0x0F in
      if (hi =? 0x9) || (hi =? 0xA) || (hi =? 0xB)
      then skip_half_octets pdu len (pos + 1) fuel'
      else Some pos
    else Some pos
  end.

(** Two bytes at [p], big-endian, as the decoder assembles a [uint16_t]. *)
Definition get_u16 (pdu : bytes) (p : nat) : option Z :=
  hi ← pdu !! p; lo ← pdu !! (p + 1)%nat; Some ((hi ≪ 8) |. lo).

(** The 5G-GUTI of a Registration Accept, found at [pos]. *)
Definition parse_guti (pdu : bytes) (len pos : nat) (event : ue_nas_event)
    : option ue_nas_event :=
  if pos + 3 <=?n len then
    iei ← pdu !! pos;
    if iei =? 0x77 then
      glen ← get_u16 pdu (pos + 1);
      if (0 <? glen) && (glen <=? 16) && (pos + 3 + Z.to_nat glen <=?n len) then
        t ← pdu !! (pos + 3)%nat;
        if t &. 0x07 =? 0x02 then
          g ← slice pdu (pos + 3) (Z.to_nat glen);
          Some (event <| ev_guti := over g (ev_guti event) |>
                      <| ev_guti_len := Z.to_nat glen |> <| ev_has_guti := true |>)
        else Some event
      else Some event
    else Some event
  else Some event.

Definition decode_registration_accept (pdu : bytes) (len : nat) (event : ue_nas_event)
    : option ue_nas_event :=
  if 5 <=?n len then
    r ← pdu !! 3%nat;
    pos ← skip_half_octets pdu len (4 + Z.to_nat r) (S len);
    event ← parse_guti pdu len pos event;
    t ← parse_t3512 pdu len;
    match t with
    | Some s => Some (event <| ev_t3512_seconds := s |> <| ev_has_t3512 := true |>)
    | None => Some event
    end
  else Some event.

Definition decode_auth_request (pdu : bytes) (len : nat) (event : ue_nas_event)
    : option ue_nas_event :=
  if 3 + 1 + 2 + 17 + 18 <=?n len then
    k ← pdu !! 3%nat;
    let event := event <| ev_ngksi := k &. 0x07 |> <| ev_has_ngksi := true |> in
    abba_len ← pdu !! 4%nat;
    let abba_len := Z.to_nat abba_len in
    event ← (if 4 + 1 + abba_len <=?n len then
               if abba_len <=?n 16 then
                 a ← slice pdu 5 abba_len;
                 Some (event <| ev_auth_abba := over a (ev_auth_abba event) |>
                             <| ev_auth_abba_len := abba_len |> <| ev_has_auth_abba := true |>)
               else Some event
             else Some event);
    let pos := (4 + 1 + abba_len)%nat in
    '(event, pos) ← (if pos + 17 <=?n len then
        iei ← pdu !! pos;
        if iei =? 0x21 then
          r ← slice pdu (pos + 1) 16;
          Some (event <| ev_auth_rand := r |> <| ev_has_auth_rand := true |>, (pos + 17)%nat)
        else Some (event, pos)
      else Some (event, pos));
    if pos + 18 <=?n len then
      iei ← pdu !! pos;
      if iei =? 0x20 then
        l ← pdu !! (pos + 1)%nat;
        if l =? 16 then
          a ← slice pdu (pos + 2) 16;
          Some (event <| ev_auth_autn := a |> <| ev_has_auth_autn := true |>)
        else Some event
      else Some event
    else Some event
  else Some event.

(** [while (pos + 2 <= len)]: the Additional 5G security information IE. *)
Fixpoint sec_info_scan (pdu : bytes) (len pos fuel : nat) (event : ue_nas_event)
    : option ue_nas_event :=
  match fuel with
  | O => None
  | S fuel' =>
    if pos + 2 <=?n len then
      iei ← pdu !! pos;
      if iei =? 0x36 then
        ie_len ← pdu !! (pos + 1)%nat;
        if (1 <=? ie_len) && (pos + 2 + Z.to_nat ie_len <=?n len) then
          v ← pdu !! (pos + 2)%nat;
          Some (event <| ev_has_additional_5g_sec_info := true |>
                      <| ev_additional_5g_sec_info := v |>)
        else Some event
      else sec_info_scan pdu len (pos + 1) fuel' event
    else Some event
  end.

Definition decode_security_mode_command (pdu : bytes) (len : nat) (event : ue_nas_event)
    : option ue_nas_event :=
  if 5 <=?n len then
    algs ← pdu !! 3%nat;
    ngksi ← pdu !! 4%nat;
    sec_info_scan pdu len 5 (S len)
      (event <| ev_has_sec_algs := true |>
             <| ev_sec_enc_alg := (algs ≫ 4) &. 0x0F |>
             <| ev_sec_int_alg := algs &. 0x0F |>
             <| ev_has_ngksi := true |>
             <| ev_ngksi := ngksi &. 0x07 |>)
  else Some event.

Definition decode_dl_nas_transport (pdu : bytes) (len : nat) (event : ue_nas_event)
    : option ue_nas_event :=
  if 6 <=?n len then
    b3 ← pdu !! 3%nat;
    let pct := b3 &. 0x0F in
    event ← (if pct =? 0x01 then
        container_len ← get_u16 pdu 4;
        if (0 <? container_len) && (Z.to_nat container_len + 6 <=?n len) then
          Some (event <| ev_has_inner_sm := true |>
                      <| ev_inner_sm_data := Some (drop 6 pdu) |>
                      <| ev_inner_sm_len := Z.to_nat container_len |>)
        else Some event
      else Some event);
    let pos := (6 + if ev_has_inner_sm event then ev_inner_sm_len event else 0)%nat in
    if pos + 1 <?n len then
      iei ← pdu !! pos;
      if iei =? 0x12 then
        p ← pdu !! (pos + 1)%nat; Some (event <| ev_psi := p |>)
      else Some event
    else Some event
  else Some event.

(** Returns the C result and the event. *)
Definition decode_mm_message (pdu : bytes) (len : nat) (event : ue_nas_event)
    : option (Z * ue_nas_event) :=
  if len <?n 3 then Some (-1, event) else
  epd ← pdu !! 0%nat;
  if negb (epd =? NAS_EPD_5GMM) then Some (-1, event) else
  msg_type ← pdu !! 2%nat;
  let event := event <| ev_raw_msg_type := msg_type |> <| ev_raw_epd := NAS_EPD_5GMM |> in
  let typed t := event <| ev_type := t |> in
  if msg_type =? NAS_MSG_REGISTRATION_ACCEPT then
    e ← decode_registration_accept pdu len (typed UE_NAS_EVENT_REGISTRATION_ACCEPT);
    Some (0, e)
  else if msg_type =? NAS_MSG_REGISTRATION_REJECT then
    let event := typed UE_NAS_EVENT_REGISTRATION_REJECT in
    if 4 <=?n len then
      c ← pdu !! 3%nat; Some (0, event <| ev_mm_cause := c |>)
    else Some (0, event)
  else if msg_type =? NAS_MSG_AUTHENTICATION_REQUEST then
    e ← decode_auth_request pdu len (typed UE_NAS_EVENT_AUTHENTICATION_REQUEST);
    Some (0, e)
  else if msg_type =? NAS_MSG_SECURITY_MODE_COMMAND then
    e ← decode_security_mode_command pdu len (typed UE_NAS_EVENT_SECURITY_MODE_COMMAND);
    Some (0, e)
  else if msg_type =? NAS_MSG_IDENTITY_REQUEST then
    Some (0, typed UE_NAS_EVENT_IDENTITY_REQUEST)
  else if msg_type =? NAS_MSG_CONFIGURATION_UPDATE_COMMAND then
    let event := typed UE_NAS_EVENT_CONFIG_UPDATE_COMMAND in
    if 4 <=?n len then
      b ← pdu !! 3%nat;
      if (b ≫ 4) =? 0x0D
      then Some (0, event <| ev_config_update_ack_requested := negb (b &. 0x01 =? 0) |>)
      else Some (0, event)
    else Some (0, event)
  else if msg_type =? NAS_MSG_DL_NAS_TRANSPORT then
    e ← decode_dl_nas_transport pdu len (typed UE_NAS_EVENT_DL_NAS_TRANSPORT);
    Some (0, e)
  else Some (-1, typed UE_NAS_EVENT_UNKNOWN).

(** The container items of one Extended PCO: [while (p + 3 <= end)]. *)
Fixpoint epco_items (pdu : bytes) (wanted_id : Z) (end_ p fuel : nat) : option (option bytes) :=
  match fuel with
  | O => None
  | S fuel' =>
    if p + 3 <=?n end_ then
      id ← get_u16 pdu p;
      clen ← pdu !! (p + 2)%nat;
      if end_ <?n p + 3 + Z.to_nat clen then Some None
      else if (id =? wanted_id) && (clen =? 4) then
        v ← slice pdu (p + 3) 4; Some (Some v)
      else epco_items pdu wanted_id end_ (p + 3 + Z.to_nat clen) fuel'
    else Some None
  end.

(** [for (i = 4; i + 4 < len; i++)]: looks for the signature of an ePCO and
    walks it; a miss continues with the next position. *)
Fixpoint epco_scan (pdu : bytes) (len : nat) (wanted_id : Z) (i fuel : nat)
    : option (option bytes) :=
  match fuel with
  | O => None
  | S fuel' =>
    if i + 4 <?n len then
      b ← pdu !! i;
      if negb (b =? 0x7B) then epco_scan pdu len wanted_id (i + 1) fuel' else
      epco_len ← get_u16 pdu (i + 1);
      if (epco_len <? 1) || (len <?n i + 3 + Z.to_nat epco_len)
      then epco_scan pdu len wanted_id (i + 1) fuel' else
      c ← pdu !! (i + 3)%nat;
      if negb (c =? 0x80) then epco_scan pdu len wanted_id (i + 1) fuel' else
      r ← epco_items pdu wanted_id (i + 3 + Z.to_nat epco_len) (i + 4) (S len);
      match r with
      | Some v => Some (Some v)
      | None => epco_scan pdu len wanted_id (i + 1) fuel'
      end
    else Some None
  end.

Definition parse_epco_container_ipv4 (pdu : bytes) (len : nat) (wanted_id : Z)
    : option (option bytes) :=
  epco_scan pdu len wanted_id 4 (S len).

Definition parse_epco_dns (pdu : bytes) (len : nat) := parse_epco_container_ipv4 pdu len 0x000D.
Definition parse_epco_pcscf (pdu : bytes) (len : nat) := parse_epco_container_ipv4 pdu len 0x000C.

(** The optional IEs of an Establishment Accept, up to the PDU address:
    [while (pos + 2 < len)]. *)
Fixpoint pdu_address_scan (pdu : bytes) (len pos fuel : nat) (event : ue_nas_event)
    : option ue_nas_event :=
  match fuel with
  | O => None
  | S fuel' =>
    if pos + 2 <?n len then
      iei ← pdu !! pos;
      if iei =? 0x29 then
        addr_ie_len ← pdu !! (pos + 1)%nat;
        if (pos + 2 + Z.to_nat addr_ie_len <=?n len) && (5 <=? addr_ie_len) then
          t ← pdu !! (pos + 2)%nat;
          let event := event <| ev_has_pdu_address := true |> <| ev_pdu_addr_type := t |> in
          if (t =? 1) && (5 <=? addr_ie_len) then
            a ← slice pdu (pos + 3) 4; Some (event <| ev_ipv4_addr := a |>)
          else Some event
        else Some event
      else if 0x80 <=? iei then pdu_address_scan pdu len (pos + 1) fuel' event
      else if len <=?n pos + 1 then Some event
      else
        ie_len ← pdu !! (pos + 1)%nat;
        pdu_address_scan pdu len (pos + 2 + Z.to_nat ie_len) fuel' event
    else Some event
  end.

(** The Establishment Accept: skip the authorized QoS rules (LV-E) and the
    session AMBR (LV), scan for the PDU address. *)
Definition decode_est_accept_address (pdu : bytes) (len : nat) (event : ue_nas_event)
    : option ue_nas_event :=
  if 5 <=?n len then
    let pos := 5%nat in
    pos ← (if pos + 2 <=?n len then
             qos_len ← get_u16 pdu pos; Some (pos + 2 + Z.to_nat qos_len)%nat
           else Some pos);
    pos ← (if pos + 1 <=?n len then
             ambr_len ← pdu !! pos; Some (pos + 1 + Z.to_nat ambr_len)%nat
           else Some pos);
    pdu_address_scan pdu len pos (S len) event
  else Some event.

Definition decode_sm_message (pdu : bytes) (len : nat) (event : ue_nas_event)
    : option (Z * ue_nas_event) :=
  if len <?n 4 then Some (-1, event) else
  epd ← pdu !! 0%nat;
  if negb (epd =? NAS_EPD_5GSM) then Some (-1, event) else
  psi ← pdu !! 1%nat;
  pti ← pdu !! 2%nat;
  msg_type ← pdu !! 3%nat;
  let event := event <| ev_psi := psi |> <| ev_pti := pti |>
                     <| ev_raw_msg_type := msg_type |> <| ev_raw_epd := NAS_EPD_5GSM |> in
  let typed t := event <| ev_type := t |> in
  let with_cause event :=
    if 5 <=?n len then c ← pdu !! 4%nat; Some (0, event <| ev_sm_cause := c |>)
    else Some (0, event) in
  if msg_type =? NAS_MSG_PDU_SESSION_EST_ACCEPT then
    event ← decode_est_accept_address pdu len (typed UE_NAS_EVENT_PDU_SESSION_EST_ACCEPT);
    dns ← parse_epco_dns pdu len;
    let event := match dns with
                 | Some a => event <| ev_dns_ipv4 := a |> <| ev_has_dns := true |>
                 | None => event
                 end in
    pcscf ← parse_epco_pcscf pdu len;
    let event := match pcscf with
                 | Some a => event <| ev_pcscf_ipv4 := a |> <| ev_has_pcscf := true |>
                 | None => event
                 end in
    Some (0, event)
  else if msg_type =? NAS_MSG_PDU_SESSION_EST_REJECT then
    with_cause (typed UE_NAS_EVENT_PDU_SESSION_EST_REJECT)
  else if msg_type =? NAS_MSG_PDU_SESSION_RELEASE_COMMAND then
    with_cause (typed UE_NAS_EVENT_PDU_SESSION_RELEASE_CMD)
  else Some (-1, typed UE_NAS_EVENT_UNKNOWN).

Definition ue_nas_decode_inner_sm (sm_pdu : option bytes) (len : nat) (event : ue_nas_event)
    : option (Z * ue_nas_event) :=
  match sm_pdu with
  | None => Some (-1, event)
  | Some sm =>
    if len <?n 4 then Some (-1, event) else
    epd ← sm !! 0%nat;
    if negb (epd =? NAS_EPD_5GSM) then Some (-1, event) else
    decode_sm_message sm len event
  end.

(** [event0] is the caller's event before the call, kept when the arguments
    are refused. *)
Definition ue_nas_decode_event (pdu : option bytes) (len : nat) (event0 : ue_nas_event)
    : option (Z * ue_nas_event) :=
  match pdu with
  | None => Some (-1, event0)
  | Some pdu =>
    if len <?n 2 then Some (-1, event0) else
    let event := nas_event_zero in
    epd ← pdu !! 0%nat;
    sht ← pdu !! 1%nat;
    if (epd =? NAS_EPD_5GMM) && negb (sht =? NAS_SHT_NOT_PROTECTED) then Some (-1, event) else
    if epd =? NAS_EPD_5GMM then
      '(rc, event) ← decode_mm_message pdu len event;
      if rc <? 0 then Some (-1, event) else
      if bool_decide (ev_type event = UE_NAS_EVENT_DL_NAS_TRANSPORT) && ev_has_inner_sm event
      then ue_nas_decode_inner_sm (ev_inner_sm_data event) (ev_inner_sm_len event) event
      else Some (0, event)
    else if epd =? NAS_EPD_5GSM then decode_sm_message pdu len event
    else Some (-1, event)
  end.

(** ** Lemmas: progress and safety of the loops

    A loop started at [i] with [len < i + fuel] and some fuel left returns:
    each iteration moves the position forward by at least one. *)

Lemma get_u16_in m p : (p + 2 <= length m)%nat -> is_Some (get_u16 m p).
Proof. intros. unfold get_u16. safe. Qed.
#[local] Hint Extern 1 (is_Some (get_u16 _ _)) => apply get_u16_in; lia : safe.

Ltac loop_safe IH := safe; try (apply IH; vlia).

Lemma t3512_scan_in pdu len i fuel :
  (len <= length pdu)%nat -> (0 < fuel)%nat -> (len < i + fuel)%nat ->
  is_Some (t3512_scan pdu len i fuel).
Proof.
  intros Hl. revert i. induction fuel as [|fuel IH]; intros i H0 Hf; cbn [t3512_scan]; [lia|].
  loop_safe IH.
Qed.

Lemma skip_half_octets_in pdu len pos fuel :
  (len <= length pdu)%nat -> (0 < fuel)%nat -> (len < pos + fuel)%nat ->
  is_Some (skip_half_octets pdu len pos fuel).
Proof.
  intros Hl. revert pos.
  induction fuel as [|fuel IH]; intros pos H0 Hf; cbn [skip_half_octets]; [lia|].
  loop_safe IH.
Qed.

Lemma sec_info_scan_in pdu len pos fuel e :
  (len <= length pdu)%nat -> (0 < fuel)%nat -> (len < pos + fuel)%nat ->
  is_Some (sec_info_scan pdu len pos fuel e).
Proof.
  intros Hl. revert pos.
  induction fuel as [|fuel IH]; intros pos H0 Hf; cbn [sec_info_scan]; [lia|].
  loop_safe IH.
Qed.

Lemma epco_items_in pdu id end_ p fuel :
  (end_ <= length pdu)%nat -> (0 < fuel)%nat -> (end_ < p + fuel)%nat ->
  is_Some (epco_items pdu id end_ p fuel).
Proof.
  intros Hl. revert p. induction fuel as [|fuel IH]; intros p H0 Hf; cbn [epco_items]; [lia|].
  loop_safe IH.
Qed.

Lemma epco_scan_in pdu len id i fuel :
  (len <= length pdu)%nat -> (0 < fuel)%nat -> (len < i + fuel)%nat ->
  is_Some (epco_scan pdu len id i fuel).
Proof.
  intros Hl. revert i. induction fuel as [|fuel IH]; intros i H0 Hf; cbn [epco_scan]; [lia|].
  loop_safe IH. apply epco_items_in; vlia.
Qed.

Lemma pdu_address_scan_in pdu len pos fuel e :
  (len <= length pdu)%nat -> (0 < fuel)%nat -> (len < pos + fuel)%nat ->
  is_Some (pdu_address_scan pdu len pos fuel e).
Proof.
  intros Hl. revert pos.
  induction fuel as [|fuel IH]; intros pos H0 Hf; cbn [pdu_address_scan]; [lia|].
  loop_safe IH.
Qed.

#[local] Hint Extern 1 (is_Some (t3512_scan _ _ _ _)) => apply t3512_scan_in; lia : safe.
#[local] Hint Extern 1 (is_Some (skip_half_octets _ _ _ _)) =>
  apply skip_half_octets_in; lia : safe.
#[local] Hint Extern 1 (is_Some (sec_info_scan _ _ _ _ _)) =>
  apply sec_info_scan_in; lia : safe.
#[local] Hint Extern 1 (is_Some (epco_scan _ _ _ _ _)) => apply epco_scan_in; lia : safe.
#[local] Hint Extern 1 (is_Some (pdu_address_scan _ _ _ _ _)) =>
  apply pdu_address_scan_in; lia : safe.

Lemma decode_sm_message_in pdu len e :
  (len <= length pdu)%nat -> is_Some (decode_sm_message pdu len e).
Proof.
  intros. unfold decode_sm_message, decode_est_accept_address, parse_epco_dns,
    parse_epco_pcscf, parse_epco_container_ipv4. safe.
Qed.
#[local] Hint Extern 1 (is_Some (decode_sm_message _ _ _)) =>
  apply decode_sm_message_in; lia : safe.

Lemma decode_mm_message_in pdu len e :
  (len <= length pdu)%nat -> is_Some (decode_mm_message pdu len e).
Proof.
  intros. unfold decode_mm_message, decode_registration_accept, decode_auth_request,
    decode_security_mode_command, decode_dl_nas_transport, parse_guti, parse_t3512. safe.
Qed.
#[local] Hint Extern 1 (is_Some (decode_mm_message _ _ _)) =>
  apply decode_mm_message_in; lia : safe.

(** The inner SM container of an event lies inside the object it points to. *)
Definition inner_fits (e : ue_nas_event) : Prop :=
  ev_has_inner_sm e = true ->
  exists d, ev_inner_sm_data e = Some d /\ (ev_inner_sm_len e <= length d)%nat.

Lemma sec_info_scan_inner pdu len pos fuel e :
  inner_fits e -> post (sec_info_scan pdu len pos fuel e) inner_fits.
Proof.
  intros He. revert pos. induction fuel as [|fuel IH]; intros pos; cbn [sec_info_scan]; [done|].
  posts; auto.
Qed.

Lemma decode_mm_message_inner pdu len e :
  (len <= length pdu)%nat -> inner_fits e ->
  post (decode_mm_message pdu len e) (fun '(_, e') => inner_fits e').
Proof.
  intros Hl He. unfold decode_mm_message, decode_registration_accept, decode_auth_request,
    decode_security_mode_command, decode_dl_nas_transport, parse_guti, parse_t3512, get_u16.
  repeat first
    [ exact He | posts_step
    | apply (post_mono _ inner_fits); [by apply sec_info_scan_inner | by intros]
    | apply post_intro; intros ? ?
    | intros _; exists (drop 6 pdu); split; [reflexivity|];
      cbv [ev_inner_sm_len set_field]; vlia ].
Qed.

(** ** Lemmas on the wire format *)

Lemma get_u16_app m v r p :
  length m = p -> 0 <= v < 65536 -> get_u16 (m ++ be_list 2 v ++ r) p = Some v.
Proof.
  intros <- Hv. unfold get_u16.
  pose proof (be_val_be_list 2 v) as E. pose proof (be_list_bytes 2 v) as Hb.
  destruct (be_list 2 v) as [|a [|b [|]]] eqn:El; try done.
  inv Hb; repeat match goal with H : Forall _ (_ :: _) |- _ => inv H end.
  rewrite <- (Nat.add_0_r (length m)) at 1.
  rewrite (lookup_app_at m _ r _ 0 a) by done. ob.
  rewrite (lookup_app_at m _ r _ 1 b) by done. ob.
  rewrite be_word2, E by done. f_equal. simpl Z.of_nat. lia.
Qed.

(** An optional TLV information element. *)
Definition tlv_wire (ie : Z * bytes) : bytes :=
  ie.1 :: Z.of_nat (length ie.2) :: ie.2.

(** An element the Establishment Accept scan skips as TLV. *)
Definition skippable (ie : Z * bytes) : Prop :=
  0 <= ie.1 < 0x80 /\ ie.1 <> 0x29 /\ (length ie.2 < 256)%nat.

(** A PDU address element with an IPv4 address. *)
Definition pdu_address_wire (ip : bytes) : bytes := [0x29; 5; 1] ++ ip.

Lemma pdu_address_scan_skips pre ies ip post_ len fuel e :
  Forall skippable ies -> length ip = 4%nat ->
  (len <= length (pre ++ concat (tlv_wire <$> ies) ++ pdu_address_wire ip ++ post_))%nat ->
  (length (pre ++ concat (tlv_wire <$> ies) ++ pdu_address_wire ip) <= len)%nat ->
  (len < length pre + fuel)%nat ->
  pdu_address_scan (pre ++ concat (tlv_wire <$> ies) ++ pdu_address_wire ip ++ post_)
    len (length pre) fuel e
  = Some (e <| ev_has_pdu_address := true |> <| ev_pdu_addr_type := 1 |>
            <| ev_ipv4_addr := ip |>).
Proof.
  intros Hies Hip. revert pre fuel. induction Hies as [|[iei c] ies [Hi [Hn Hc]] _ IH];
    intros pre fuel Hlen Hlen' Hfuel.
  - destruct fuel as [|fuel]; [vlia|]. cbn [fmap list_fmap concat app pdu_address_scan] in *.
    unfold pdu_address_wire in *. cbn [app] in *. bdec.
    rewrite <- (Nat.add_0_r (length pre)) at 1.
    rewrite (lookup_app_at pre [41; 5; 1] (ip ++ post_) _ 0 41) by done. ob. bdec.
    rewrite (lookup_app_at pre [41; 5; 1] (ip ++ post_) _ 1 5) by done. ob.
    rewrite (lookup_app_at pre [41; 5; 1] (ip ++ post_) _ 2 1) by done. ob.
    change (Z.to_nat 5) with 5%nat. bdec.
    change (pre ++ 41 :: 5 :: 1 :: ip ++ post_) with (pre ++ [41; 5; 1] ++ ip ++ post_).
    by rewrite (app_assoc pre), slice_app by vlia.
  - destruct fuel as [|fuel]; [vlia|]. rewrite fmap_cons in *. cbn [concat] in *.
    assert (length (tlv_wire (iei, c)) = 2 + length c)%nat as Htl by done.
    cbn [fst snd] in Hi, Hn, Hc.
    cbn [pdu_address_scan]. bdec.
    replace ((pre ++ (tlv_wire (iei, c) ++ concat (tlv_wire <$> ies)) ++ pdu_address_wire ip ++ post_))
      with (pre ++ tlv_wire (iei, c) ++ (concat (tlv_wire <$> ies) ++ pdu_address_wire ip ++ post_))
      by by rewrite <- !app_assoc.
    rewrite <- (Nat.add_0_r (length pre)) at 1.
    rewrite (lookup_app_at pre (tlv_wire (iei, c)) _ _ 0 iei) by done. ob. bdec.
    rewrite (lookup_app_at pre (tlv_wire (iei, c)) _ _ 1 (Z.of_nat (length c))) by done. ob.
    rewrite Nat2Z.id, app_assoc.
    replace (length pre + 2 + length c)%nat with (length (pre ++ tlv_wire (iei, c)))
      by vlia.

    apply IH; [vlia..].
Qed.

(** An Establishment Accept with the given QoS rules, AMBR and optional IEs
    before its PDU address. *)
Definition est_accept_wire (psi pti ty : Z) (qos ambr : bytes) (ies : list (Z * bytes))
    (ip tail : bytes) : bytes :=
  [0x2E; psi; pti; 0xC2; ty] ++ be_list 2 (Z.of_nat (length qos)) ++ qos
  ++ [Z.of_nat (length ambr)] ++ ambr ++ concat (tlv_wire <$> ies)
  ++ pdu_address_wire ip ++ tail.

(** A DL NAS Transport with an N1 SM container. *)
Definition dl_transport_wire (sm rest : bytes) : bytes :=
  [0x7E; 0; 0x68; 0x01] ++ be_list 2 (Z.of_nat (length sm)) ++ sm ++ rest.

(** What the decoder reports of an accepted session. *)
Definition accept_reported (psi pti : Z) (ip : bytes) (e : ue_nas_event) : Prop :=
  ev_type e = UE_NAS_EVENT_PDU_SESSION_EST_ACCEPT /\ ev_psi e = psi /\ ev_pti e = pti
  /\ ev_has_pdu_address e = true /\ ev_pdu_addr_type e = 1 /\ ev_ipv4_addr e = ip.

Lemma est_accept_address psi pti ty qos ambr ies ip tail rest e :
  Z.of_nat (length qos) < 65536 -> Z.of_nat (length ambr) < 256 ->
  Forall skippable ies -> length ip = 4%nat ->
  let sm := est_accept_wire psi pti ty qos ambr ies ip tail in
  decode_est_accept_address (sm ++ rest) (length sm) e
  = Some (e <| ev_has_pdu_address := true |> <| ev_pdu_addr_type := 1 |>
            <| ev_ipv4_addr := ip |>).
Proof.
  intros Hq Ha Hies Hip. cbn zeta. unfold est_accept_wire. rewrite <- !app_assoc.
  set (H := [46; psi; pti; 194; ty]). set (lq := be_list 2 _).
  set (la := [Z.of_nat (length ambr)]). set (cs := concat _).
  assert (length H = 5%nat /\ length lq = 2%nat /\ length la = 1%nat) as (HH & Hlq & Hla) by done.
  assert (length (pdu_address_wire ip) = 7%nat) as Hw by (unfold pdu_address_wire; vlia).
  unfold decode_est_accept_address. bdec.
  subst lq. rewrite get_u16_app by (done || lia). ob. rewrite Nat2Z.id. bdec.
  set (lq := be_list 2 _) in *.
  replace (H ++ lq ++ qos ++ la ++ ambr ++ cs ++ pdu_address_wire ip ++ tail ++ rest)
    with ((H ++ lq ++ qos) ++ la ++ (ambr ++ cs ++ pdu_address_wire ip ++ tail ++ rest))
    by by rewrite <- !app_assoc.
  replace (5 + 2 + length qos)%nat with (length (H ++ lq ++ qos) + 0)%nat at 1 by vlia.
  rewrite (lookup_app_at _ la _ _ 0 (Z.of_nat (length ambr))) by done. ob. rewrite Nat2Z.id.
  replace (5 + 2 + length qos + 1 + length ambr)%nat
    with (length (H ++ lq ++ qos ++ la ++ ambr)) by vlia.
  replace ((H ++ lq ++ qos) ++ la ++ (ambr ++ cs ++ pdu_address_wire ip ++ tail ++ rest))
    with ((H ++ lq ++ qos ++ la ++ ambr) ++ cs ++ pdu_address_wire ip ++ (tail ++ rest))
    by by rewrite <- !app_assoc.
  apply pdu_address_scan_skips; [done..| | |]; fold cs; vlia.
Qed.

Lemma decode_est_accept psi pti ty qos ambr ies ip tail rest e :
  Z.of_nat (length qos) < 65536 -> Z.of_nat (length ambr) < 256 ->
  Forall skippable ies -> length ip = 4%nat ->
  let sm := est_accept_wire psi pti ty qos ambr ies ip tail in
  exists e', decode_sm_message (sm ++ rest) (length sm) e = Some (0, e')
    /\ accept_reported psi pti ip e'.
Proof.
  intros Hq Ha Hies Hip sm. unfold decode_sm_message.
  assert (4 < length sm)%nat by (unfold sm, est_accept_wire; vlia). bdec.
  change ((sm ++ rest) !! 0%nat) with (Some 0x2E). change ((sm ++ rest) !! 1%nat) with (Some psi).
  change ((sm ++ rest) !! 2%nat) with (Some pti). change ((sm ++ rest) !! 3%nat) with (Some 0xC2).
  ob. cbn [NAS_EPD_5GSM Z.eqb Pos.eqb negb NAS_MSG_PDU_SESSION_EST_ACCEPT].
  pose proof (fun e => est_accept_address psi pti ty qos ambr ies ip tail rest e Hq Ha Hies Hip)
    as Haddr. cbn zeta in Haddr. fold sm in Haddr. rewrite Haddr. ob.
  unfold parse_epco_dns, parse_epco_pcscf, parse_epco_container_ipv4.
  destruct (epco_scan_in (sm ++ rest) (length sm) 0xD 4 (S (length sm))) as [dns ->]; [vlia..|].
  destruct (epco_scan_in (sm ++ rest) (length sm) 0xC 4 (S (length sm))) as [pcscf ->]; [vlia..|].
  ob. destruct dns, pcscf; by eexists.
Qed.

(** ** Properties *)

(** The decoder returns on every input, with every read in bounds, also through
    the nested SM container. *)
Lemma nas_decode_total pdu len e0 :
  (len <= length pdu)%nat -> exists r, ue_nas_decode_event (Some pdu) len e0 = Some r.
Proof.
  intros Hl. change (is_Some (ue_nas_decode_event (Some pdu) len e0)).
  assert (inner_fits nas_event_zero) as Hz by (intros [=]).
  pose proof (decode_mm_message_inner pdu len _ Hl Hz) as Hin.
  unfold ue_nas_decode_event. safe.
  rewrite H1 in Hin. apply andb_true_iff in E4 as [_ E4].
  destruct (Hin E4) as (d & -> & Hd). cbn [ue_nas_decode_inner_sm]. safe.
Qed.

(** A session accepted by the network is reported exactly.  For every PSI,
    PTI, QoS rules, AMBR, skippable optional IEs, IPv4 address and trailing
    bytes, the DL NAS Transport that carries the Establishment Accept decodes
    to an accept event with that PSI, PTI and IPv4 address. *)
Lemma est_accept_decodes psi pti ty qos ambr ies ip tail rest e0 :
  Z.of_nat (length qos) < 65536 -> Z.of_nat (length ambr) < 256 ->
  Forall skippable ies -> length ip = 4%nat ->
  let sm := est_accept_wire psi pti ty qos ambr ies ip tail in
  Z.of_nat (length sm) < 65536 ->
  exists e', ue_nas_decode_event (Some (dl_transport_wire sm rest))
               (length (dl_transport_wire sm rest)) e0 = Some (0, e')
    /\ accept_reported psi pti ip e'.
Proof.
  intros Hq Ha Hies Hip sm Hsm.
  assert (4 < length sm)%nat by (unfold sm, est_accept_wire; vlia).
  set (p := dl_transport_wire sm rest).
  assert (length p = 6 + length sm + length rest)%nat as Hp
    by (unfold p, dl_transport_wire; vlia).
  assert (get_u16 p 4 = Some (Z.of_nat (length sm))) as Hu
    by (unfold p, dl_transport_wire; apply get_u16_app; [done|lia]).
  assert (exists e1, decode_mm_message p (length p) nas_event_zero = Some (0, e1)
    /\ ev_type e1 = UE_NAS_EVENT_DL_NAS_TRANSPORT /\ ev_has_inner_sm e1 = true
    /\ ev_inner_sm_data e1 = Some (sm ++ rest) /\ ev_inner_sm_len e1 = length sm)
    as (e1 & Hmm & Ht & Hi & Hd & Hn).
  { unfold decode_mm_message. bdec.
    change (p !! 0%nat) with (Some 0x7E). change (p !! 2%nat) with (Some 0x68). ob.
    cbn [NAS_EPD_5GMM Z.eqb Pos.eqb negb]. unfold decode_dl_nas_transport. bdec.
    change (p !! 3%nat) with (Some 1). ob. rewrite Hu. ob. change (1 &. 15 =? 1) with true.
    cbv iota. rewrite Nat2Z.id. bdec. ob.
    cbv [ev_has_inner_sm ev_inner_sm_len set_field]. bcase; [|by eexists].
    destruct (load_in p (6 + length sm)) as [x Hx]; [lia|].
    destruct (load_in p (6 + length sm + 1)) as [y Hy]; [lia|].
    rewrite Hx. ob. rewrite Hy. ob. destruct (x =? 18); by eexists. }
  unfold ue_nas_decode_event. bdec.
  change (p !! 0%nat) with (Some 0x7E). change (p !! 1%nat) with (Some 0). ob.
  cbn [NAS_EPD_5GMM NAS_SHT_NOT_PROTECTED Z.eqb Pos.eqb negb andb].
  rewrite Hmm. ob. cbn [Z.ltb Z.compare]. rewrite bool_decide_true, Hi, Hd, Hn by done.
  cbn [andb ue_nas_decode_inner_sm]. bdec. change ((sm ++ rest) !! 0%nat) with (Some 0x2E).
  ob. cbn [NAS_EPD_5GSM Z.eqb Pos.eqb negb].
  by apply decode_est_accept.
Qed.

(** An Authentication Request. *)
Definition auth_request_wire (ngksi : Z) (abba rand autn rest : bytes) : bytes :=
  [0x7E; 0; 0x56; ngksi; Z.of_nat (length abba)] ++ abba ++ [0x21] ++ rand
  ++ [0x20; 16] ++ autn ++ rest.

(** An Authentication Request decodes to its ngKSI, ABBA, RAND and AUTN,
    with no other field of the event touched. *)
Lemma auth_request_decodes ngksi abba rand autn rest e0 :
  (1 <= length abba <= 16)%nat -> length rand = 16%nat -> length autn = 16%nat ->
  ue_nas_decode_event (Some (auth_request_wire ngksi abba rand autn rest))
    (length (auth_request_wire ngksi abba rand autn rest)) e0
  = Some (0, nas_event_zero
      <| ev_raw_msg_type := 0x56 |> <| ev_raw_epd := 0x7E |>
      <| ev_type := UE_NAS_EVENT_AUTHENTICATION_REQUEST |>
      <| ev_ngksi := ngksi &. 0x07 |> <| ev_has_ngksi := true |>
      <| ev_auth_abba := over abba (replicate 16 0) |>
      <| ev_auth_abba_len := length abba |> <| ev_has_auth_abba := true |>
      <| ev_auth_rand := rand |> <| ev_has_auth_rand := true |>
      <| ev_auth_autn := autn |> <| ev_has_auth_autn := true |>).
Proof.
  intros Ha Hr Hn. set (p := auth_request_wire _ _ _ _ _).
  assert (p = [0x7E; 0; 0x56; ngksi; Z.of_nat (length abba)] ++ abba ++ [0x21] ++ rand
              ++ [0x20; 16] ++ autn ++ rest) as Ep by done.
  assert (length p = 40 + length abba + length rest)%nat as Hp by (rewrite Ep; vlia).
  assert (slice p 5 (length abba) = Some abba) as S1 by (rewrite Ep; by apply slice_app).
  assert (p !! (4 + 1 + length abba)%nat = Some 0x21) as L1.
  { rewrite Ep, app_assoc. apply load_app_mid. vlia. }
  assert (slice p (4 + 1 + length abba + 1) 16 = Some rand) as S2.
  { rewrite Ep, app_assoc, (app_assoc _ [33]). apply slice_app; vlia. }
  assert (p !! (4 + 1 + length abba + 17)%nat = Some 0x20) as L2.
  { rewrite Ep, app_assoc, (app_assoc _ [33]), (app_assoc _ rand). apply load_app_mid. vlia. }
  assert (p !! (4 + 1 + length abba + 17 + 1)%nat = Some 16) as L3.
  { rewrite Ep, app_assoc, (app_assoc _ [33]), (app_assoc _ rand).
    apply lookup_app_at; [vlia|done]. }
  assert (slice p (4 + 1 + length abba + 17 + 2) 16 = Some autn) as S3.
  { rewrite Ep, app_assoc, (app_assoc _ [33]), (app_assoc _ rand), (app_assoc _ [32; 16]).
    apply slice_app; vlia. }
  unfold ue_nas_decode_event, decode_mm_message. bdec.
  change (p !! 0%nat) with (Some 0x7E). change (p !! 1%nat) with (Some 0).
  change (p !! 2%nat) with (Some 0x56). ob.
  cbn [NAS_EPD_5GMM NAS_SHT_NOT_PROTECTED Z.eqb Pos.eqb negb andb].
  unfold decode_auth_request. bdec.
  change (p !! 3%nat) with (Some ngksi). change (p !! 4%nat) with (Some (Z.of_nat (length abba))).
  ob. rewrite Nat2Z.id. bdec. rewrite S1. ob. rewrite L1. ob. rewrite S2.
  cbn [Z.eqb Pos.eqb]. ob. bdec. rewrite L2. ob. rewrite L3. ob. rewrite S3.
  cbn [Z.eqb Pos.eqb]. ob. reflexivity.
Qed.

(** A Registration Accept with a 5G-GUTI after its half-octet IEs. *)
Definition reg_accept_wire (res halves guti rest : bytes) : bytes :=
  [0x7E; 0; 0x42; Z.of_nat (length res)] ++ res ++ halves
  ++ [0x77] ++ be_list 2 (Z.of_nat (length guti)) ++ guti ++ rest.

Definition is_half_octet (b : Z) : Prop := 0x90 <= b < 0xC0.

Lemma half_octet_iei b : is_half_octet b ->
  ((b ≫ 4) &. 15 =? 9) || ((b ≫ 4) &. 15 =? 10) || ((b ≫ 4) &. 15 =? 11) = true.
Proof. unfold is_half_octet. intros. rewrite land_0f, shiftr_div by lia. lia. Qed.

Lemma skip_half_octets_skips pre halves rest len fuel :
  Forall is_half_octet halves ->
  (length pre + length halves < len)%nat -> (len < length pre + fuel)%nat ->
  skip_half_octets (pre ++ halves ++ 0x77 :: rest) len (length pre) fuel
  = Some (length pre + length halves)%nat.
Proof.
  intros Hh. revert pre fuel. induction Hh as [|h halves Hh _ IH]; intros pre fuel Hl Hf.
  - destruct fuel as [|fuel]; [lia|]. cbn [skip_half_octets app length] in *. bdec.
    rewrite load_app_mid by done. ob. cbn. f_equal. lia.
  - destruct fuel as [|fuel]; [lia|]. cbn [skip_half_octets app length] in *. bdec.
    rewrite load_app_mid by done. ob. rewrite half_octet_iei by done.
    specialize (IH (pre ++ [h]) fuel). rewrite <- app_assoc in IH.
    cbn [app] in IH. replace (length pre + 1)%nat with (length (pre ++ [h])) by vlia.
    rewrite IH by vlia. f_equal. vlia.
Qed.

Lemma gprs_timer3_range v : 0 <= gprs_timer3_seconds v <= 31 * 1152000.
Proof.
  unfold gprs_timer3_seconds. rewrite (Z.land_ones v 5 ltac:(lia) : v &. 31 = v mod 32).
  repeat case_match; lia.
Qed.

Lemma t3512_scan_range pdu len i fuel :
  post (t3512_scan pdu len i fuel) (fun r => forall s, r = Some s -> 0 <= s <= 31 * 1152000).
Proof.
  revert i. induction fuel as [|fuel IH]; intros i; cbn [t3512_scan]; [done|].
  posts; auto; intros s [= <-]. apply gprs_timer3_range.
Qed.

(** A Registration Accept decodes to its 5G-GUTI whatever registration
    result, half-octet IEs and trailing IEs surround it, and a T3512 value it
    reports is at most 31 * 320 h, which fits the 32-bit timer. *)
Lemma reg_accept_decodes res halves guti rest e0 :
  Z.of_nat (length res) < 256 -> Forall is_half_octet halves ->
  (1 <= length guti <= 16)%nat -> (exists g, head guti = Some g /\ g &. 0x07 = 2) ->
  exists e', ue_nas_decode_event (Some (reg_accept_wire res halves guti rest))
               (length (reg_accept_wire res halves guti rest)) e0 = Some (0, e')
    /\ ev_type e' = UE_NAS_EVENT_REGISTRATION_ACCEPT
    /\ ev_has_guti e' = true /\ take (ev_guti_len e') (ev_guti e') = guti
    /\ (ev_has_t3512 e' = true -> 0 <= ev_t3512_seconds e' <= 31 * 1152000).
Proof.
  intros Hres Hh Hg (g & Hhd & Hg2). set (p := reg_accept_wire _ _ _ _).
  set (r0 := [0x7E; 0; 0x42; Z.of_nat (length res)] ++ res).
  assert (p = r0 ++ halves ++ [0x77] ++ be_list 2 (Z.of_nat (length guti)) ++ guti ++ rest)
    as Ep by (unfold p, reg_accept_wire, r0; by rewrite <- !app_assoc).
  assert (length r0 = 4 + length res)%nat as Hr0 by (unfold r0; vlia).
  assert (length p = 7 + length res + length halves + length guti + length rest)%nat as Hp
    by (rewrite Ep; vlia).
  set (pos := (length r0 + length halves)%nat).
  assert (p !! pos = Some 0x77) as L1 by (rewrite Ep, app_assoc; apply load_app_mid; vlia).
  assert (get_u16 p (pos + 1) = Some (Z.of_nat (length guti))) as L2.
  { rewrite Ep, app_assoc, (app_assoc _ [_]). apply get_u16_app; [vlia|lia]. }
  assert (slice p (pos + 3) (length guti) = Some guti) as S1.
  { rewrite Ep, app_assoc, (app_assoc _ [_]), (app_assoc _ (be_list _ _)). apply slice_app; vlia. }
  assert (p !! (pos + 3)%nat = Some g) as L3.
  { destruct guti as [|g' guti]; [simpl in *; lia|]. injection Hhd as ->.
    rewrite Ep, app_assoc, (app_assoc _ [_]), (app_assoc _ (be_list _ _)).
    apply load_app_mid. vlia. }
  assert (skip_half_octets p (length p) (length r0) (S (length p)) = Some pos) as Hsk.
  { rewrite Hp, Ep. apply skip_half_octets_skips; [done|lia..]. }
  unfold ue_nas_decode_event, decode_mm_message. bdec.
  change (p !! 0%nat) with (Some 0x7E). change (p !! 1%nat) with (Some 0).
  change (p !! 2%nat) with (Some 0x42). ob.
  cbn [NAS_EPD_5GMM NAS_SHT_NOT_PROTECTED Z.eqb Pos.eqb negb andb].
  unfold decode_registration_accept. bdec. change (p !! 3%nat) with (Some (Z.of_nat (length res))).
  ob. rewrite Nat2Z.id. replace (4 + length res)%nat with (length r0) by lia.
  rewrite Hsk. ob. unfold parse_guti. bdec. rewrite L1. ob. rewrite L2. ob. rewrite Nat2Z.id. bdec.
  rewrite L3. ob. rewrite Hg2, S1. cbn [Z.eqb Pos.eqb]. ob.
  pose proof (t3512_scan_range p (length p) 5 (S (length p))) as Ht. unfold parse_t3512.
  destruct (t3512_scan_in p (length p) 5 (S (length p))) as [t Et]; [lia..|].
  rewrite Et in *. ob. cbn [post] in Ht.
  destruct t as [s|]; ob; cbn [Z.ltb Z.compare]; eexists; (split; [reflexivity|]).
  all: split; [done|split; [done|split; [by apply take_over|]]].
  - intros _. by apply Ht.
  - done.
Qed.

(** The scans never change the event's type. *)
Lemma pdu_address_scan_type pdu len pos fuel e :
  post (pdu_address_scan pdu len pos fuel e) (fun e' => ev_type e' = ev_type e).
Proof.
  revert pos. induction fuel as [|fuel IH]; intros pos; cbn [pdu_address_scan]; [done|].
  posts; auto.
Qed.

Lemma sec_info_scan_type pdu len pos fuel e :
  post (sec_info_scan pdu len pos fuel e) (fun e' => ev_type e' = ev_type e).
Proof.
  revert pos. induction fuel as [|fuel IH]; intros pos; cbn [sec_info_scan]; [done|].
  posts; auto.
Qed.

Definition is_sm_event (t : ue_nas_event_type) : Prop :=
  t = UE_NAS_EVENT_PDU_SESSION_EST_ACCEPT \/ t = UE_NAS_EVENT_PDU_SESSION_EST_REJECT
  \/ t = UE_NAS_EVENT_PDU_SESSION_RELEASE_CMD.

Lemma decode_sm_message_result pdu len e :
  post (decode_sm_message pdu len e) (fun '(rc, e') =>
    rc = -1 \/ rc = 0 /\ is_sm_event (ev_type e')).
Proof.
  unfold decode_sm_message, decode_est_accept_address, is_sm_event, get_u16.
  repeat first
    [ posts_step | by left | by auto 6
    | apply (post_mono _ (fun e' => ev_type e' = UE_NAS_EVENT_PDU_SESSION_EST_ACCEPT));
        [by apply pdu_address_scan_type | intros e' He']
    | apply post_intro; intros ? ? ].
  all: right; split; [done|left]; repeat case_match; exact He' || done.
Qed.

Lemma decode_mm_message_result pdu len e :
  post (decode_mm_message pdu len e) (fun '(rc, e') =>
    rc = -1 \/ rc = 0 /\ ev_type e' <> UE_NAS_EVENT_UNKNOWN).
Proof.
  unfold decode_mm_message, decode_registration_accept, decode_auth_request,
    decode_security_mode_command, decode_dl_nas_transport, parse_guti, parse_t3512, get_u16.
  repeat first
    [ posts_step | by left | by right
    | apply (post_mono _ (fun e' => ev_type e' = UE_NAS_EVENT_SECURITY_MODE_COMMAND));
        [by apply sec_info_scan_type | intros e' He'; right; split; [done|by rewrite He'] ]
    | apply post_intro; intros ? ? ].
Qed.

(** What the decoder accepts.  It returns 0 or -1; when it returns 0 the
    event has a known type and the PDU was a 5GSM message or an unprotected
    5GMM message: a message with a security header is never taken as plain. *)
Lemma nas_decode_accepts_plain pdu len e0 rc e :
  ue_nas_decode_event (Some pdu) len e0 = Some (rc, e) ->
  rc = -1 \/ rc = 0 /\ ev_type e <> UE_NAS_EVENT_UNKNOWN
    /\ (head pdu = Some NAS_EPD_5GSM
        \/ head pdu = Some NAS_EPD_5GMM /\ pdu !! 1%nat = Some NAS_SHT_NOT_PROTECTED).
Proof.
  intros H. rewrite head_lookup.
  refine (post_elim _ (fun '(rc, e) => rc = -1 \/ rc = 0 /\ ev_type e <> UE_NAS_EVENT_UNKNOWN
    /\ (pdu !! 0%nat = Some NAS_EPD_5GSM \/ pdu !! 0%nat = Some NAS_EPD_5GMM
         /\ pdu !! 1%nat = Some NAS_SHT_NOT_PROTECTED)) _ _ H). clear H.
  assert (forall e, is_sm_event (ev_type e) -> ev_type e <> UE_NAS_EVENT_UNKNOWN) as Hsm
    by (intros ? [-> | [-> | ->]]; done).
  unfold ue_nas_decode_event, ue_nas_decode_inner_sm.
  repeat first
    [ posts_step | by left
    | eapply post_mono; [apply decode_mm_message_result | intros [? ?] [? | [? ?]]]
    | eapply post_mono; [apply decode_sm_message_result | intros [? ?] [? | [? ?]]] ].
  all: try (left; vlia).
  all: right; split; [lia|split; [by auto|]].
  all: unfold NAS_EPD_5GMM, NAS_SHT_NOT_PROTECTED in *.
  all: first [left; rewrite H; f_equal; lia
    | right; split; [rewrite H|rewrite H0]; f_equal; lia].
Qed.

(** The arrays of a decoded event keep their sizes, and its key set identifier
    has three bits. *)
Record event_ok (e : ue_nas_event) : Prop := {
  event_rand : length (ev_auth_rand e) = 16%nat;
  event_autn : length (ev_auth_autn e) = 16%nat;
  event_ngksi : 0 <= ev_ngksi e <= 7 }.

Lemma event_zero_ok : event_ok nas_event_zero.
Proof. by split. Qed.

Lemma land_7_range x : 0 <= x &. 0x07 <= 7.
Proof. rewrite land_07. lia. Qed.

Ltac keeps_event :=
  match goal with He : event_ok _ |- _ => destruct He end;
  split; cbv [set_field ev_auth_rand ev_auth_autn ev_ngksi];
  first [done | apply land_7_range | by eapply slice_length | lia].

Lemma scans_event_ok pdu len pos fuel e :
  event_ok e ->
  post (pdu_address_scan pdu len pos fuel e) event_ok
  /\ post (sec_info_scan pdu len pos fuel e) event_ok.
Proof.
  intros He. split; revert pos; induction fuel as [|fuel IH]; intros pos;
    cbn [pdu_address_scan sec_info_scan]; try done; posts; try keeps_event; auto.
Qed.

Lemma decode_sm_event_ok pdu len e :
  event_ok e -> post (decode_sm_message pdu len e) (fun '(_, e') => event_ok e').
Proof.
  intros He. unfold decode_sm_message, decode_est_accept_address, get_u16.
  repeat first
    [ posts_step | keeps_event
    | eapply post_mono; [eapply scans_event_ok; keeps_event | intros e' He']
    | apply post_intro; intros ? ? ].
  all: repeat case_match; keeps_event.
Qed.

Lemma decode_mm_event_ok pdu len e :
  event_ok e -> post (decode_mm_message pdu len e) (fun '(_, e') => event_ok e').
Proof.
  intros He. unfold decode_mm_message, decode_registration_accept, decode_auth_request,
    decode_security_mode_command, decode_dl_nas_transport, parse_guti, parse_t3512, get_u16.
  repeat first
    [ posts_step
    | eapply post_mono; [eapply scans_event_ok; keeps_event | intros e' He']
    | apply post_intro; intros ? ? ].
  all: keeps_event.
Qed.

Lemma nas_decode_event_ok pdu len e0 rc e :
  event_ok e0 -> ue_nas_decode_event (Some pdu) len e0 = Some (rc, e) -> event_ok e.
Proof.
  intros He0 H. refine (post_elim _ (fun '(_, e) => event_ok e) _ _ H). clear H.
  pose proof event_zero_ok as Hz. unfold ue_nas_decode_event, ue_nas_decode_inner_sm.
  repeat first
    [ posts_step | done
    | eapply post_mono; [by apply decode_mm_event_ok | intros [? ?] ?]
    | by apply decode_sm_event_ok
    | apply post_intro; intros ? ? ].
Qed.

(** ** Claims on the decoder *)

(** The NAS decoder is total, memory safe and takes only plain messages.  On
    every object of at least [len] bytes, whatever it contains, it returns with
    every read in bounds, also through the nested SM container; it returns 0 or
    -1, and when it returns 0 the event has a known type and the PDU was a 5GSM
    message or an unprotected 5GMM message: a message with a security header is
    never taken as plain. *)
Lemma nas_decode_safe pdu len e0 :
  (len <= length pdu)%nat ->
  exists rc e, ue_nas_decode_event (Some pdu) len e0 = Some (rc, e)
  /\ (rc = -1 \/ rc = 0 /\ ev_type e <> UE_NAS_EVENT_UNKNOWN
      /\ (head pdu = Some NAS_EPD_5GSM
          \/ head pdu = Some NAS_EPD_5GMM /\ pdu !! 1%nat = Some NAS_SHT_NOT_PROTECTED)).
Proof.
  intros Hl. destruct (nas_decode_total pdu len e0 Hl) as [[rc e] E].
  exists rc, e. split; [exact E|]. by eapply nas_decode_accepts_plain.
Qed.

(** The messages of a registration and of a session decode to what the
    network sent.  An Authentication Request gives its ngKSI, ABBA, RAND and AUTN
    and no other field; a Registration Accept gives its 5G-GUTI whatever
    registration result, half-octet and trailing elements surround it, and a
    T3512 of at most 31 * 320 h, which fits the 32-bit timer; a DL NAS Transport
    with an Establishment Accept gives an accept with its PSI, PTI and IPv4
    address, whatever its QoS rules, AMBR and skippable elements. *)
Lemma downlink_decodes e0 :
  (forall ngksi abba rand autn rest,
     (1 <= length abba <= 16)%nat -> length rand = 16%nat -> length autn = 16%nat ->
     ue_nas_decode_event (Some (auth_request_wire ngksi abba rand autn rest))
       (length (auth_request_wire ngksi abba rand autn rest)) e0
     = Some (0, nas_event_zero
         <| ev_raw_msg_type := 0x56 |> <| ev_raw_epd := 0x7E |>
         <| ev_type := UE_NAS_EVENT_AUTHENTICATION_REQUEST |>
         <| ev_ngksi := ngksi &. 0x07 |> <| ev_has_ngksi := true |>
         <| ev_auth_abba := over abba (replicate 16 0) |>
         <| ev_auth_abba_len := length abba |> <| ev_has_auth_abba := true |>
         <| ev_auth_rand := rand |> <| ev_has_auth_rand := true |>
         <| ev_auth_autn := autn |> <| ev_has_auth_autn := true |>))
  /\ (forall res halves guti rest,
     Z.of_nat (length res) < 256 -> Forall is_half_octet halves ->
     (1 <= length guti <= 16)%nat -> (exists g, head guti = Some g /\ g &. 0x07 = 2) ->
     exists e', ue_nas_decode_event (Some (reg_accept_wire res halves guti rest))
                  (length (reg_accept_wire res halves guti rest)) e0 = Some (0, e')
       /\ ev_type e' = UE_NAS_EVENT_REGISTRATION_ACCEPT
       /\ ev_has_guti e' = true /\ take (ev_guti_len e') (ev_guti e') = guti
       /\ (ev_has_t3512 e' = true -> 0 <= ev_t3512_seconds e' <= 31 * 1152000))
  /\ (forall psi pti ty qos ambr ies ip tail rest,
  Z.of_nat (length qos) < 65536 -> Z.of_nat (length ambr) < 256 ->
  Forall skippable ies -> length ip = 4%nat ->
  let sm := est_accept_wire psi pti ty qos ambr ies ip tail in
  Z.of_nat (length sm) < 65536 ->
  exists e', ue_nas_decode_event (Some (dl_transport_wire sm rest))
               (length (dl_transport_wire sm rest)) e0 = Some (0, e')
    /\ accept_reported psi pti ip e').
Proof.
  split_and!; intros;
    [by apply auth_request_decodes|by apply reg_accept_decodes|by apply est_accept_decodes].
Qed.

(** ** Witnesses *)

(** C37: the NAS decoder.  On every object of at least [len] bytes, whatever it
    contains, it returns with every read in bounds, also through the nested SM
    container, and accepts only plain messages, with a known event type: one with
    a security header is never taken as plain.  (The comment in
    [ue_nas_decode.h] promises that such a message is read past its MAC and sequence
    number; the code refuses it, and the engine unwraps it before it decodes.)
    The messages of a registration and of a session decode to what the network sent: an Authentication Request to
    its ngKSI, ABBA, RAND and AUTN and no other field; a Registration Accept to
    its 5G-GUTI whatever surrounds it, with a T3512 of at most 31 * 320 h; a DL
    NAS Transport with an Establishment Accept to its PSI, PTI and IPv4 address,
    whatever its QoS rules, AMBR and skippable elements. *)
Theorem nas_decoder_correct e0 :
  (forall pdu len, (len <= length pdu)%nat ->
     exists rc e, ue_nas_decode_event (Some pdu) len e0 = Some (rc, e)
     /\ (rc = -1 \/ rc = 0 /\ ev_type e <> UE_NAS_EVENT_UNKNOWN
         /\ (head pdu = Some NAS_EPD_5GSM
             \/ head pdu = Some NAS_EPD_5GMM /\ pdu !! 1%nat = Some NAS_SHT_NOT_PROTECTED)))
  /\ (forall ngksi abba rand autn rest,
     (1 <= length abba <= 16)%nat -> length rand = 16%nat -> length autn = 16%nat ->
     ue_nas_decode_event (Some (auth_request_wire ngksi abba rand autn rest))
       (length (auth_request_wire ngksi abba rand autn rest)) e0
     = Some (0, nas_event_zero
         <| ev_raw_msg_type := 0x56 |> <| ev_raw_epd := 0x7E |>
         <| ev_type := UE_NAS_EVENT_AUTHENTICATION_REQUEST |>
         <| ev_ngksi := ngksi &. 0x07 |> <| ev_has_ngksi := true |>
         <| ev_auth_abba := over abba (replicate 16 0) |>
         <| ev_auth_abba_len := length abba |> <| ev_has_auth_abba := true |>
         <| ev_auth_rand := rand |> <| ev_has_auth_rand := true |>
         <| ev_auth_autn := autn |> <| ev_has_auth_autn := true |>))
  /\ (forall res halves guti rest,
     Z.of_nat (length res) < 256 -> Forall is_half_octet halves ->
     (1 <= length guti <= 16)%nat -> (exists g, head guti = Some g /\ g &. 0x07 = 2) ->
     exists e', ue_nas_decode_event (Some (reg_accept_wire res halves guti rest))
                  (length (reg_accept_wire res halves guti rest)) e0 = Some (0, e')
       /\ ev_type e' = UE_NAS_EVENT_REGISTRATION_ACCEPT
       /\ ev_has_guti e' = true /\ take (ev_guti_len e') (ev_guti e') = guti
       /\ (ev_has_t3512 e' = true -> 0 <= ev_t3512_seconds e' <= 31 * 1152000))
  /\ (forall psi pti ty qos ambr ies ip tail rest,
  Z.of_nat (length qos) < 65536 -> Z.of_nat (length ambr) < 256 ->
  Forall skippable ies -> length ip = 4%nat ->
  let sm := est_accept_wire psi pti ty qos ambr ies ip tail in
  Z.of_nat (length sm) < 65536 ->
  exists e', ue_nas_decode_event (Some (dl_transport_wire sm rest))
               (length (dl_transport_wire sm rest)) e0 = Some (0, e')
    /\ accept_reported psi pti ip e').
Proof.
  split; [intros pdu len Hl; by apply nas_decode_safe|apply downlink_decodes].
Qed.

Lemma nas_decoder_correct_witness :
  (exists rc e, ue_nas_decode_event (Some [0x7E; 0; 0x68; 1; 0; 3; 0x2E; 5; 1]) 9 nas_event_zero = Some (rc, e))
  /\ (exists e', ue_nas_decode_event
      (Some (dl_transport_wire
               (est_accept_wire 5 1 0x11 [1; 0; 0] [6; 1] [(0x22, [1])] [10; 45; 0; 2] []) [0x12; 5]))
      35 nas_event_zero = Some (0, e')
    /\ accept_reported 5 1 [10; 45; 0; 2] e')
  /\ exists e', ue_nas_decode_event
      (Some (reg_accept_wire [9] [0x91; 0xB1] [0xF2; 1; 2; 3] [0x5E; 1; 6])) 17 nas_event_zero
      = Some (0, e')
    /\ ev_type e' = UE_NAS_EVENT_REGISTRATION_ACCEPT /\ ev_has_guti e' = true.
Proof.
  destruct (nas_decoder_correct nas_event_zero) as (Hsafe & _ & Hreg & Hest). split_and!.
  - destruct (Hsafe [0x7E; 0; 0x68; 1; 0; 3; 0x2E; 5; 1] 9%nat) as (rc & e & E & _); [simpl; lia|].
    exists rc, e. exact E.
  - apply (Hest 5 1 0x11 [1; 0; 0] [6; 1] [(0x22, [1])] [10; 45; 0; 2] [] [0x12; 5]);
      try (simpl; lia).
    constructor; [|constructor]. unfold skippable. simpl. lia.
  - destruct (Hreg [9] [0x91; 0xB1] [0xF2; 1; 2; 3] [0x5E; 1; 6]) as (e & E & H1 & H2 & _).
    + simpl. lia.
    + repeat constructor; unfold is_half_octet; lia.
    + simpl. lia.
    + by exists 0xF2.
    + exists e. split; [exact E|]. by split.
Defined.
