(* ===== verification/Rrc.v ===== *)
(** The RRC UPER codec: [src/src/ue_engine/ue_rrc.c].

    The bit writer and reader are records over the caller's buffer; each
    primitive is an [EM] action (early [return -1], undefined behaviour on an
    access outside the allocation).  Messages are composed of the same calls in
    the same order as the source.  The specification works on bit lists: a
    buffer [m] read as its bits ([buf_bit]), a field of width [n] as [bits_be n].
    Log statements are not modelled. *)

From S2P Require Import Prelude.

Definition UE_RRC_MAX_NAS_SIZE : Z := 8192.

(** ** Bitstream writer *)

#[local] Set Primitive Projections.

Record bitwriter := BW { bw_buf : bytes; bw_buf_len : nat; bw_bit_pos : nat }.

(** [memset(buf, 0, len)] when [len > 0]. *)
Definition ue_rrc_bw_init (buf : bytes) (len : nat) : option bitwriter :=
  if len <=?n length buf then Some (BW (replicate len 0 ++ drop len buf) len 0) else None.

(** The loop over [i = n - 1 .. 0]. *)
Fixpoint put_bits_loop (val : Z) (n : nat) : EM bitwriter unit :=
  match n with
  | O => mret tt
  | S i =>
    bw ← get_st;
    let byte_idx := (bw_bit_pos bw / 8)%nat in
    let bit_idx := Z.of_nat (7 - bw_bit_pos bw mod 8) in
    if bw_buf_len bw <=?n byte_idx then fail else
    (if negb ((val ≫ Z.of_nat i) &. 1 =? 0) then
       match bw_buf bw !! byte_idx with
       | Some b => modify (fun bw => bw <| bw_buf := <[byte_idx := b |. u8 (1 ≪ bit_idx)]> (bw_buf bw) |>)
       | None => ub
       end
     else mret tt);;
    modify (fun bw => bw <| bw_bit_pos := S (bw_bit_pos bw) |>);;
    put_bits_loop val i
  end.

Definition ue_rrc_bw_put_bits (val nbits : Z) : EM bitwriter unit :=
  if (nbits <=? 0) || (64 <? nbits) then fail else put_bits_loop val (Z.to_nat nbits).

Fixpoint put_bytes_loop (data : bytes) (i n : nat) : EM bitwriter unit :=
  match n with
  | O => mret tt
  | S n' => match data !! i with
            | Some b => ue_rrc_bw_put_bits b 8;; put_bytes_loop data (i + 1) n'
            | None => ub
            end
  end.

Definition ue_rrc_bw_put_bytes (data : bytes) (len : nat) : EM bitwriter unit :=
  put_bytes_loop data 0 len.

Definition ue_rrc_bw_byte_len (bw : bitwriter) : nat := ((bw_bit_pos bw + 7) / 8)%nat.

(** ** Bitstream reader *)

Record bitreader := BR { br_buf : bytes; br_buf_len : nat; br_bit_pos : nat }.

Definition ue_rrc_br_init (buf : bytes) (len : nat) : bitreader := BR buf len 0.

Fixpoint get_bits_loop (result : Z) (n : nat) : EM bitreader Z :=
  match n with
  | O => mret result
  | S n' =>
    br ← get_st;
    let byte_idx := (br_bit_pos br / 8)%nat in
    let bit_idx := Z.of_nat (7 - br_bit_pos br mod 8) in
    if br_buf_len br <=?n byte_idx then fail else
    match br_buf br !! byte_idx with
    | Some b =>
      modify (fun br => br <| br_bit_pos := S (br_bit_pos br) |>);;
      get_bits_loop (u64 (result ≪ 1) |. ((b ≫ bit_idx) &. 1)) n'
    | None => ub
    end
  end.

Definition ue_rrc_br_get_bits (nbits : Z) : EM bitreader Z :=
  if (nbits <=? 0) || (64 <? nbits) then fail else get_bits_loop 0 (Z.to_nat nbits).

Fixpoint ue_rrc_br_get_bytes (len : nat) : EM bitreader bytes :=
  match len with
  | O => mret []
  | S n => b ← ue_rrc_br_get_bits 8; rest ← ue_rrc_br_get_bytes n; mret (u8 b :: rest)
  end.

Definition ue_rrc_br_remaining_bits (br : bitreader) : nat :=
  let total := (br_buf_len br * 8)%nat in
  if total <=?n br_bit_pos br then 0 else total - br_bit_pos br.

(** ** UPER length determinant *)

Definition uper_put_length (len : nat) : EM bitwriter unit :=
  if len <?n 128 then ue_rrc_bw_put_bits (Z.of_nat len) 8
  else if Z.of_nat len <? 16384 then ue_rrc_bw_put_bits (0x8000 |. Z.of_nat len) 16
  else fail.

Definition uper_get_length : EM bitreader nat :=
  first_byte ← ue_rrc_br_get_bits 8;
  if first_byte &. 0x80 =? 0 then mret (Z.to_nat first_byte)
  else if first_byte &. 0xC0 =? 0x80 then
    second_byte ← ue_rrc_br_get_bits 8;
    mret (Z.to_nat (((first_byte &. 0x3F) ≪ 8) |. second_byte))
  else fail.

(** ** Encoders *)

(** Runs a message body on a fresh writer: the C result, and the buffer. *)
Definition run_bw (buf : bytes) (buf_len : nat) (body : EM bitwriter unit)
    : option (Z * option bytes) :=
  bw ← ue_rrc_bw_init buf buf_len;
  match body bw with
  | Some (Some _, bw') => Some (Z.of_nat (ue_rrc_bw_byte_len bw'), Some (bw_buf bw'))
  | Some (None, bw') => Some (-1, Some (bw_buf bw'))
  | None => None
  end.

Definition ue_rrc_encode_ul_info_transfer (buf : option bytes) (buf_len : nat)
    (nas_pdu : option bytes) (nas_len : nat) : option (Z * option bytes) :=
  match buf, nas_pdu with
  | Some b, Some nas =>
    if (nas_len =?n 0) || (UE_RRC_MAX_NAS_SIZE <? Z.of_nat nas_len) then Some (-1, buf) else
    run_bw b buf_len (
      ue_rrc_bw_put_bits 0 1;;
      ue_rrc_bw_put_bits 7 4;;
      ue_rrc_bw_put_bits 0 1;;
      ue_rrc_bw_put_bits 4 3;;
      uper_put_length nas_len;;
      ue_rrc_bw_put_bytes nas nas_len)
  | _, _ => Some (-1, buf)
  end.

Definition ue_rrc_encode_setup_request (buf : option bytes) (buf_len : nat)
    (ue_identity establishment_cause : Z) : option (Z * option bytes) :=
  match buf with
  | Some b =>
    run_bw b buf_len (
      ue_rrc_bw_put_bits 0 1;;
      ue_rrc_bw_put_bits 0 2;;
      ue_rrc_bw_put_bits 1 1;;
      ue_rrc_bw_put_bits (ue_identity &. 0x7FFFFFFFFF) 39;;
      ue_rrc_bw_put_bits (establishment_cause &. 0x0F) 4;;
      ue_rrc_bw_put_bits 0 1)
  | None => Some (-1, None)
  end.

Definition ue_rrc_encode_setup_complete (buf : option bytes) (buf_len : nat)
    (rrc_transaction_id selected_plmn_id : Z) (nas_pdu : option bytes) (nas_len : nat)
    : option (Z * option bytes) :=
  match buf, nas_pdu with
  | Some b, Some nas =>
    if (nas_len =?n 0) || (UE_RRC_MAX_NAS_SIZE <? Z.of_nat nas_len) then Some (-1, buf) else
    if (selected_plmn_id <? 1) || (12 <? selected_plmn_id) then Some (-1, buf) else
    run_bw b buf_len (
      ue_rrc_bw_put_bits 0 1;;
      ue_rrc_bw_put_bits 2 4;;
      ue_rrc_bw_put_bits (rrc_transaction_id &. 0x03) 2;;
      ue_rrc_bw_put_bits 0 1;;
      ue_rrc_bw_put_bits 0 6;;
      ue_rrc_bw_put_bits (selected_plmn_id - 1) 4;;
      uper_put_length nas_len;;
      ue_rrc_bw_put_bytes nas nas_len)
  | _, _ => Some (-1, buf)
  end.

(** ** Decoders *)

Inductive ue_rrc_msg_type :=
| UE_RRC_UNKNOWN
| UE_RRC_UL_INFO_TRANSFER
| UE_RRC_DL_INFO_TRANSFER
| UE_RRC_SETUP_REQUEST
| UE_RRC_SETUP
| UE_RRC_SETUP_COMPLETE.

(** [nas_pdu]: null, an offset into the decoded buffer, or the function's
    static buffer (shared by every decoded message). *)
Inductive nas_ref := NasNull | NasInBuffer (off : nat) | NasCopyBuf.

Record ue_rrc_message := RrcMsg {
  rrc_type : ue_rrc_msg_type;
  rrc_nas_pdu : nas_ref;
  rrc_nas_len : Z;
  rrc_transaction_id : Z;
  rrc_ue_identity : Z;
  rrc_establishment_cause : Z }.

Definition rrc_message_zero : ue_rrc_message := RrcMsg UE_RRC_UNKNOWN NasNull 0 0 0 0.

(** The decoder's state: the reader, the caller's message, and the static
    [nas_copy_buf]. *)
Record rrc_st := RrcSt { st_br : bitreader; st_out : ue_rrc_message; st_copy : bytes }.

(** A reader action inside the decoder. *)
Definition on_br {A} (m : EM bitreader A) : EM rrc_st A := fun s =>
  match m (st_br s) with
  | Some (r, br) => Some (r, s <| st_br := br |>)
  | None => None
  end.

Definition set_out (f : ue_rrc_message -> ue_rrc_message) : EM rrc_st unit :=
  modify (fun s => s <| st_out := f (st_out s) |>).

(** The unaligned copy loop: [nas_copy_buf[i] = b]. *)
Fixpoint copy_nas_loop (i n : nat) : EM rrc_st unit :=
  match n with
  | O => mret tt
  | S n' =>
    b ← on_br (ue_rrc_br_get_bits 8);
    s ← get_st;
    if i <?n length (st_copy s)
    then modify (fun s => s <| st_copy := <[i := u8 b]> (st_copy s) |>);; copy_nas_loop (i + 1) n'
    else ub
  end.

Definition decode_dl_info_transfer : EM rrc_st unit :=
  set_out (fun m => m <| rrc_type := UE_RRC_DL_INFO_TRANSFER |>);;
  val ← on_br (ue_rrc_br_get_bits 2);
  set_out (fun m => m <| rrc_transaction_id := u8 val |>);;
  val ← on_br (ue_rrc_br_get_bits 1);
  if negb (val =? 0) then fail else
  opt_bitmap ← on_br (ue_rrc_br_get_bits 3);
  if opt_bitmap &. 4 =? 0 then
    set_out (fun m => m <| rrc_nas_pdu := NasNull |> <| rrc_nas_len := 0 |>)
  else
    nas_len ← on_br uper_get_length;
    if UE_RRC_MAX_NAS_SIZE <? Z.of_nat nas_len then fail else
    set_out (fun m => m <| rrc_nas_len := u32 (Z.of_nat nas_len) |>);;
    s ← get_st;
    if br_bit_pos (st_br s) mod 8 =?n 0 then
      let byte_off := (br_bit_pos (st_br s) / 8)%nat in
      if br_buf_len (st_br s) <?n byte_off + nas_len then fail else
      set_out (fun m => m <| rrc_nas_pdu := NasInBuffer byte_off |>);;
      on_br (modify (fun br => br <| br_bit_pos := (br_bit_pos br + nas_len * 8)%nat |>))
    else
      copy_nas_loop 0 nas_len;;
      set_out (fun m => m <| rrc_nas_pdu := NasCopyBuf |>).

(** The body of a decoder from the zeroed message: the C result, the message
    and the static buffer. *)
Definition run_decoder (data : option bytes) (len : nat) (out : ue_rrc_message) (copy : bytes)
    (body : EM rrc_st unit) : option (Z * ue_rrc_message * bytes) :=
  match data with
  | None => Some (-1, out, copy)
  | Some d =>
    if len <?n 1 then Some (-1, out, copy) else
    match body (RrcSt (ue_rrc_br_init d len) rrc_message_zero copy) with
    | Some (r, s) => Some (match r with Some _ => 0 | None => -1 end, st_out s, st_copy s)
    | None => None
    end
  end.

Definition ue_rrc_decode_dl_dcch (data : option bytes) (len : nat) (out : ue_rrc_message)
    (copy : bytes) : option (Z * ue_rrc_message * bytes) :=
  run_decoder data len out copy (
    val ← on_br (ue_rrc_br_get_bits 1);
    if negb (val =? 0) then fail else
    c1_index ← on_br (ue_rrc_br_get_bits 4);
    if c1_index =? 5 then decode_dl_info_transfer
    else set_out (fun m => m <| rrc_type := UE_RRC_UNKNOWN |>);; fail).

Definition ue_rrc_decode_dl_ccch (data : option bytes) (len : nat) (out : ue_rrc_message)
    (copy : bytes) : option (Z * ue_rrc_message * bytes) :=
  run_decoder data len out copy (
    val ← on_br (ue_rrc_br_get_bits 1);
    if negb (val =? 0) then fail else
    c1_index ← on_br (ue_rrc_br_get_bits 2);
    if c1_index =? 1 then
      set_out (fun m => m <| rrc_type := UE_RRC_SETUP |>);;
      val ← on_br (ue_rrc_br_get_bits 2);
      set_out (fun m => m <| rrc_transaction_id := u8 val |>)
    else set_out (fun m => m <| rrc_type := UE_RRC_UNKNOWN |>);; fail).

(** ** Bit-list specification *)

(** Bit [i] of a buffer, most significant bit of byte 0 first. *)
Definition buf_bit (m : bytes) (i : nat) : option bool :=
  b ← m !! (i / 8)%nat; Some (Z.testbit b (Z.of_nat (7 - i mod 8))).

(** The [n] low bits of [v], most significant first, and their value. *)
Fixpoint bits_be (n : nat) (v : Z) : list bool :=
  match n with O => [] | S i => Z.testbit v (Z.of_nat i) :: bits_be i v end.

Definition bits_val (acc : Z) (bl : list bool) : Z :=
  foldl (fun acc b => 2 * acc + Z.b2z b) acc bl.

(** The bits [bl] are in the buffer from position [pos] on. *)
Definition has_bits (m : bytes) (pos : nat) (bl : list bool) : Prop :=
  forall k b, bl !! k = Some b -> buf_bit m (pos + k) = Some b.

(** The layouts of the messages (TS 38.331, UPER). *)
Definition uper_length_bits (len : nat) : list bool :=
  if len <?n 128 then bits_be 8 (Z.of_nat len) else [true; false] ++ bits_be 14 (Z.of_nat len).

Definition octets_bits (l : bytes) : list bool :=
  uper_length_bits (length l) ++ concat (bits_be 8 <$> l).

Definition ul_info_transfer_bits (nas : bytes) : list bool :=
  [false] ++ bits_be 4 7 ++ [false] ++ [true; false; false] ++ octets_bits nas.

Definition setup_request_bits (ident cause : Z) : list bool :=
  [false] ++ [false; false] ++ [true] ++ bits_be 39 ident ++ bits_be 4 cause ++ [false].

Definition setup_complete_bits (tx plmn : Z) (nas : bytes) : list bool :=
  [false] ++ bits_be 4 2 ++ bits_be 2 tx ++ [false] ++ replicate 6 false
  ++ bits_be 4 (plmn - 1) ++ octets_bits nas.

Definition dl_info_transfer_bits (tx : Z) (late noncrit : bool) (nas : bytes) : list bool :=
  [false] ++ bits_be 4 5 ++ bits_be 2 tx ++ [false] ++ [true; late; noncrit] ++ octets_bits nas.

Definition rrc_setup_bits (tx : Z) : list bool := [false] ++ bits_be 2 1 ++ bits_be 2 tx.

Lemma length_bits_be n v : length (bits_be n v) = n.
Proof. induction n; simpl; auto. Qed.
#[local] Hint Rewrite length_bits_be : vlen.

Lemma bits_val_acc bl acc : bits_val acc bl = acc * 2 ^ Z.of_nat (length bl) + bits_val 0 bl.
Proof.
  unfold bits_val. revert acc. induction bl as [|b bl IH]; intros acc; cbn [foldl length]; [simpl; lia|].
  rewrite IH, (IH (2 * 0 + _)), Nat2Z.inj_succ, Z.pow_succ_r by lia. lia.
Qed.

Lemma bits_val_be n v : bits_val 0 (bits_be n v) = v mod 2 ^ Z.of_nat n.
Proof.
  induction n as [|n IH]; [simpl; by rewrite Z.mod_1_r|].
  cbn [bits_be]. unfold bits_val. cbn [foldl]. fold (bits_val (2 * 0 + Z.b2z (Z.testbit v (Z.of_nat n))) (bits_be n v)).
  rewrite bits_val_acc, IH, length_bits_be, Nat2Z.inj_succ, Z.pow_succ_r by lia.
  rewrite (Z.mul_comm 2 (2 ^ _)), Z.rem_mul_r by lia.
  rewrite Z.testbit_spec' by lia. ring.
Qed.

Lemma bits_val_app acc a b : bits_val acc (a ++ b) = bits_val (bits_val acc a) b.
Proof. unfold bits_val. apply foldl_app. Qed.

Lemma bits_be_mod n v m : (n <= m)%nat -> bits_be n (v mod 2 ^ Z.of_nat m) = bits_be n v.
Proof.
  intros Hn. induction n as [|n IH]; [done|]. cbn [bits_be].
  rewrite Z.mod_pow2_bits_low by lia. by rewrite IH by lia.
Qed.

Lemma has_bits_app m pos a b :
  has_bits m pos (a ++ b) <-> has_bits m pos a /\ has_bits m (pos + length a) b.
Proof.
  unfold has_bits. split.
  - intros H. split; intros k x Hk.
    + apply H. by apply lookup_app_l_Some.
    + rewrite <- Nat.add_assoc. apply H. rewrite lookup_app_r by lia.
      by rewrite (Nat.add_comm (length a)), Nat.add_sub.
  - intros [Ha Hb] k x Hk. apply lookup_app_Some in Hk as [Hk | [Hle Hk]]; [by apply Ha|].
    specialize (Hb _ _ Hk). rewrite <- Hb. f_equal. lia.
Qed.

(** ** The writer writes bits *)

(** The writer over a buffer of [cap] bytes, [len] of them usable, has written
    exactly the bits [bl]; the rest of the usable part is zero. *)
Record bw_repr (len cap : nat) (bw : bitwriter) (bl : list bool) : Prop := {
  repr_pos : bw_bit_pos bw = length bl;
  repr_len : bw_buf_len bw = len;
  repr_cap : length (bw_buf bw) = cap;
  repr_fits : (len <= cap)%nat;
  repr_room : (length bl <= 8 * len)%nat;
  repr_bits : forall i, (i < 8 * len)%nat ->
    buf_bit (bw_buf bw) i = Some (default false (bl !! i)) }.

(** [m] appends the bits [bl], or fails with [-1] when they do not fit. *)
Definition writes (m : EM bitwriter unit) (bl : list bool) : Prop :=
  forall len cap bw pre, bw_repr len cap bw pre ->
  if length pre + length bl <=?n 8 * len
  then exists bw', m bw = Some (Some tt, bw') /\ bw_repr len cap bw' (pre ++ bl)
  else exists bw', m bw = Some (None, bw') /\ length (bw_buf bw') = cap.

(** A bit set in a byte of the buffer is that bit of the buffer. *)
Lemma buf_bit_set m p b i :
  m !! (p / 8)%nat = Some b ->
  buf_bit (<[(p / 8)%nat := b |. u8 (1 ≪ Z.of_nat (7 - p mod 8))]> m) i
  = if i =?n p then Some true else buf_bit m i.
Proof.
  intros Hb. unfold buf_bit.
  assert (u8 (1 ≪ Z.of_nat (7 - p mod 8)) = 2 ^ Z.of_nat (7 - p mod 8)) as ->.
  { rewrite Z.shiftl_1_l. apply u8_small. split; [lia|].
    change 256 with (2 ^ 8). apply Z.pow_lt_mono_r; lia. }
  destruct (decide (i / 8 = p / 8)%nat) as [E|E].
  - rewrite E, list_lookup_insert_eq, Hb by (by eapply lookup_lt_Some). ob.
    rewrite Z.lor_spec, Z.pow2_bits_eqb by lia.
    destruct (Nat.eqb_spec i p) as [->|Hne].
    + by rewrite Z.eqb_refl, orb_true_r.
    + replace (Z.of_nat (7 - p mod 8) =? Z.of_nat (7 - i mod 8)) with false by lia.
      by rewrite orb_false_r.
  - rewrite list_lookup_insert_ne by done.
    destruct (Nat.eqb_spec i p) as [->|]; [lia|done].
Qed.

Lemma land_1_testbit v i : 0 <= i -> (v ≫ i) &. 1 = Z.b2z (Z.testbit v i).
Proof. intros. rewrite (Z.land_ones _ 1 ltac:(lia) : _ &. 1 = _ mod 2), Z.testbit_spec', Z.shiftr_div_pow2 by lia. done. Qed.

Lemma put_bits_loop_writes val n :
  forall len cap bw pre, bw_repr len cap bw pre ->
  if length pre + n <=?n 8 * len
  then exists bw', put_bits_loop val n bw = Some (Some tt, bw')
                   /\ bw_repr len cap bw' (pre ++ bits_be n val)
  else exists bw', put_bits_loop val n bw = Some (None, bw') /\ length (bw_buf bw') = cap.
Proof.
  induction n as [|n IH]; intros len cap bw pre Hr; cbn [put_bits_loop bits_be].
  { pose proof (repr_room _ _ _ _ Hr). bdec. rewrite app_nil_r. eauto. }
  assert (get_st bw = Some (Some bw, bw)) as Hg by done.
  rewrite (EM_bind_ok _ _ _ _ _ Hg). cbv zeta. destruct Hr as [Hp Hl Hc Hf Hpre Hb].
  rewrite Hp, Hl. destruct (Nat.leb_spec len (length pre / 8)) as [Hfull|Hroom].
  { bcase. eexists. by split. }
  destruct (load_in (bw_buf bw) (length pre / 8)) as [b Eb]; [lia|].
  set (bit := Z.testbit val (Z.of_nat n)).
  set (buf1 := if bit then <[(length pre / 8)%nat := b |. u8 (1 ≪ Z.of_nat (7 - length pre mod 8))]> (bw_buf bw)
               else bw_buf bw).
  set (bw1 := BW buf1 len (S (length pre))).
  assert (bw_repr len cap bw1 (pre ++ [bit])) as Hr1.
  { split; [cbn [bw1 bw_bit_pos]; vlia|done| |done|vlia|].
    - subst buf1. simpl. by destruct bit; rewrite ?length_insert.
    - intros i Hi. cbn [bw_buf bw1]. subst buf1.
      destruct (decide (i < length pre)%nat) as [Hlt|Hge].
      + rewrite lookup_app_l, <- Hb by lia. destruct bit; [|done].
        rewrite buf_bit_set by done. by bdec.
      + destruct (decide (i = length pre)) as [->|Hne].
        * rewrite list_lookup_middle by done. destruct bit.
          -- rewrite buf_bit_set by done. by bdec.
          -- rewrite Hb by lia. by rewrite lookup_ge_None_2 by lia.
        * rewrite lookup_ge_None_2 by vlia. destruct bit; [rewrite buf_bit_set by done; bdec|];
            rewrite Hb, lookup_ge_None_2 by lia; done. }
  specialize (IH len cap bw1 (pre ++ [bit]) Hr1).
  rewrite <- app_assoc in IH. cbn [app] in IH.
  replace (length (pre ++ [bit]) + n)%nat with (length pre + S n)%nat in IH by vlia.
  rewrite land_1_testbit by lia. fold bit. rewrite Eb.
  destruct bw as [buf l p]. cbn [bw_bit_pos bw_buf bw_buf_len] in *. subst l p.
  destruct bit; exact IH.
Qed.

Lemma put_bits_writes val nbits :
  0 < nbits <= 64 -> writes (ue_rrc_bw_put_bits val nbits) (bits_be (Z.to_nat nbits) val).
Proof.
  intros Hn len cap bw pre Hr. unfold ue_rrc_bw_put_bits. bdec. rewrite length_bits_be.
  by apply put_bits_loop_writes.
Qed.

Lemma writes_bind m k a b :
  writes m a -> writes k b -> writes (m;; k) (a ++ b).
Proof.
  intros Hm Hk len cap bw pre Hr. specialize (Hm _ _ _ _ Hr). rewrite length_app.
  destruct (Nat.leb_spec (length pre + length a) (8 * len)) as [Ha|Ha].
  - destruct Hm as (bw1 & E & Hr1). rewrite (EM_bind_ok _ _ _ _ _ E).
    specialize (Hk _ _ _ _ Hr1). rewrite length_app, <- app_assoc, <- Nat.add_assoc in Hk. exact Hk.
  - destruct Hm as (bw1 & E & Hc). bcase. exists bw1. by rewrite (EM_bind_err _ _ _ _ E).
Qed.

Lemma put_bytes_loop_writes data pre post :
  writes (put_bytes_loop (pre ++ data ++ post) (length pre) (length data))
    (concat (bits_be 8 <$> data)).
Proof.
  revert pre. induction data as [|b data IH]; intros pre.
  - intros len cap bw bl Hr. pose proof (repr_room _ _ _ _ Hr). cbn. bdec.
    rewrite app_nil_r. eauto.
  - cbn [length put_bytes_loop app]. rewrite list_lookup_middle by done.
    rewrite fmap_cons. cbn [concat]. apply writes_bind; [by apply (put_bits_writes b 8)|].
    specialize (IH (pre ++ [b])). rewrite length_app, <- app_assoc in IH. exact IH.
Qed.

(** The first [n] bytes of [data]. *)
Lemma put_bytes_writes data n :
  (n <= length data)%nat ->
  writes (ue_rrc_bw_put_bytes data n) (concat (bits_be 8 <$> take n data)).
Proof.
  intros Hn. pose proof (put_bytes_loop_writes (take n data) [] (drop n data)) as H.
  cbn [app length] in H. rewrite take_drop, length_take, Nat.min_l in H by done. exact H.
Qed.

Lemma bits_be_add n m v : bits_be (n + m) v = bits_be n (v ≫ Z.of_nat m) ++ bits_be m v.
Proof.
  induction n as [|n IH]; [done|]. cbn [Nat.add bits_be app]. rewrite IH.
  rewrite Z.shiftr_spec by lia. by rewrite <- Nat2Z.inj_add.
Qed.

Lemma uper_put_length_writes len :
  Z.of_nat len < 16384 -> writes (uper_put_length len) (uper_length_bits len).
Proof.
  intros Hl. unfold uper_put_length, uper_length_bits. destruct (len <?n 128).
  { by apply (put_bits_writes _ 8). }
  bdec. replace ([true; false] ++ bits_be 14 (Z.of_nat len))
    with (bits_be 16 (0x8000 |. Z.of_nat len)); [by apply (put_bits_writes _ 16)|].
  rewrite (lor_shiftl_add (Z.of_nat len) 1 15 ltac:(lia) ltac:(lia) : 0x8000 |. _ = _).
  rewrite (bits_be_add 2 14), shiftr_div by lia. f_equal.
  - replace ((1 * 2 ^ 15 + Z.of_nat len) / 2 ^ Z.of_nat 14) with 2 by lia. done.
  - rewrite <- (bits_be_mod 14 (Z.of_nat len) 14), <- (bits_be_mod 14 _ 14) by done.
    f_equal. lia.
Qed.

(** Running a message body: it fits, and the buffer holds its bits and zeros
    up to [len], or the result is [-1]. *)
Lemma run_bw_writes buf len body bl :
  writes body bl -> (len <= length buf)%nat ->
  if length bl <=?n 8 * len
  then exists b', run_bw buf len body = Some (Z.of_nat ((length bl + 7) / 8), Some b')
       /\ length b' = length buf
       /\ (forall i, (i < 8 * len)%nat -> buf_bit b' i = Some (default false (bl !! i)))
  else exists b', run_bw buf len body = Some (-1, Some b') /\ length b' = length buf.
Proof.
  intros Hw Hl. unfold run_bw, ue_rrc_bw_init. bdec. ob.
  set (bw0 := BW _ _ _).
  assert (bw_repr len (length buf) bw0 []) as Hr.
  { split; [done..|cbn [bw0 bw_buf]; vlia|done|simpl; lia|].
    intros i Hi. unfold buf_bit, bw0. cbn [bw_buf].
    rewrite lookup_app_l, lookup_replicate_2 by vlia. ob. by rewrite Z.bits_0. }
  specialize (Hw _ _ _ _ Hr). cbn [length Nat.add] in Hw.
  destruct (length bl <=?n 8 * len).
  - destruct Hw as (bw' & -> & Hr'). destruct Hr' as [Hp _ Hc _ _ Hb].
    unfold ue_rrc_bw_byte_len. rewrite Hp. eauto.
  - destruct Hw as (bw' & -> & Hc). eauto.
Qed.

Lemma written_has_bits m len bl :
  (forall i, (i < 8 * len)%nat -> buf_bit m i = Some (default false (bl !! i))) ->
  (length bl <= 8 * len)%nat -> has_bits m 0 bl.
Proof.
  intros H Hl k b Hk. rewrite H by (apply lookup_lt_Some in Hk; lia). simpl. by rewrite Hk.
Qed.

(** ** The reader reads bits *)

(** When the next bits are [bl], [m] consumes exactly them and returns [x]. *)
Definition reads {A} (m : EM bitreader A) (bl : list bool) (x : A) : Prop :=
  forall br, has_bits (br_buf br) (br_bit_pos br) bl ->
  (br_bit_pos br + length bl <= 8 * br_buf_len br)%nat ->
  m br = Some (Some x, br <| br_bit_pos := (br_bit_pos br + length bl)%nat |>).

Lemma reads_bind {A B} (m : EM bitreader A) (k : A -> EM bitreader B) a b x y :
  reads m a x -> reads (k x) b y -> reads (m ≫= k) (a ++ b) y.
Proof.
  intros Hm Hk br Hb Hl. apply has_bits_app in Hb as [Ha Hb]. rewrite length_app in Hl.
  rewrite (EM_bind_ok _ _ _ _ _ (Hm br Ha ltac:(lia))).
  rewrite Hk; [|exact Hb|cbv [set_field br_bit_pos br_buf_len] in *; lia].
  rewrite length_app, Nat.add_assoc. done.
Qed.

Lemma reads_ret {A} (x : A) : reads (mret x) [] x.
Proof. intros br _ _. destruct br. cbn. by rewrite Nat.add_0_r. Qed.

Lemma get_bits_loop_reads bl acc :
  0 <= acc -> bits_val acc bl < 2 ^ 64 -> reads (get_bits_loop acc (length bl)) bl (bits_val acc bl).
Proof.
  revert acc. induction bl as [|b bl IH]; intros acc Hacc Hv br Hb Hl.
  { by apply reads_ret. }
  cbn [length get_bits_loop]. assert (get_st br = Some (Some br, br)) as Hg by done.
  rewrite (EM_bind_ok _ _ _ _ _ Hg). cbv zeta.
  cbn [length] in Hl. bdec.
  pose proof (Hb 0%nat b eq_refl) as Hb0. rewrite Nat.add_0_r in Hb0. unfold buf_bit in Hb0.
  destruct (br_buf br !! (br_bit_pos br / 8)%nat) as [byte|]; [|done].
  cbn [mbind option_bind] in Hb0. apply (inj Some) in Hb0.
  rewrite (EM_bind_ok _ _ _ tt (br <| br_bit_pos := S (br_bit_pos br) |>) eq_refl).
  rewrite land_1_testbit, Hb0 by lia.
  assert (bits_val acc (b :: bl) = bits_val (2 * acc + Z.b2z b) bl) as Ev by done.
  assert (2 * acc + Z.b2z b < 2 ^ 64) as Hacc'.
  { rewrite Ev, bits_val_acc in Hv. assert (0 <= bits_val 0 bl).
    { clear. enough (forall a, 0 <= a -> 0 <= bits_val a bl) by auto with lia.
      induction bl as [|c bl IH]; intros a Ha; [done|]. apply IH. destruct c; simpl; lia. }
    nia. }
  assert (u64 (acc ≪ 1) |. Z.b2z b = 2 * acc + Z.b2z b) as ->.
  { unfold u64. rewrite Z.shiftl_mul_pow2, Z.mod_small by (destruct b; simpl in *; lia).
    rewrite <- Z.shiftl_mul_pow2 by lia. rewrite lor_shiftl_add by (destruct b; simpl; lia).
    lia. }
  rewrite IH.
  - cbn [length]. rewrite Nat.add_succ_r. done.
  - destruct b; simpl; lia.
  - by rewrite Ev in Hv.
  - intros k c Hk. cbn. specialize (Hb (S k) c Hk). by rewrite Nat.add_succ_r in Hb.
  - cbv [set_field br_bit_pos br_buf_len] in *. lia.
Qed.

Lemma get_bits_reads nbits v :
  0 < nbits <= 64 -> reads (ue_rrc_br_get_bits nbits) (bits_be (Z.to_nat nbits) v) (v mod 2 ^ nbits).
Proof.
  intros Hn. unfold ue_rrc_br_get_bits. bdec.
  assert (bits_val 0 (bits_be (Z.to_nat nbits) v) = v mod 2 ^ nbits) as Ev
    by (rewrite bits_val_be; do 2 f_equal; lia).
  rewrite <- Ev. rewrite <- (length_bits_be (Z.to_nat nbits) v) at 1.
  apply get_bits_loop_reads; [lia|]. rewrite Ev.
  assert (2 ^ nbits <= 2 ^ 64) by (apply Z.pow_le_mono_r; lia).
  pose proof (Z.mod_pos_bound v (2 ^ nbits) ltac:(lia)). lia.
Qed.

(** The two forms of the length determinant, bit by bit. *)
Lemma length_octet_forms b : is_byte b ->
  (b &. 0x80 =? 0) = (b <? 128) /\ (b &. 0xC0 =? 0x80) = (128 <=? b) && (b <? 192)
  /\ b &. 0x3F = b mod 64.
Proof.
  intros Hb. split; [|split].
  - apply eqb_prop, (byte_forall (fun b => eqb (b &. 0x80 =? 0) (b <? 128))); [done|done].
  - apply eqb_prop, (byte_forall (fun b => eqb (b &. 0xC0 =? 0x80) ((128 <=? b) && (b <? 192))));
      [done|done].
  - exact (Z.land_ones b 6 ltac:(lia)).
Qed.

Lemma uper_get_length_reads n :
  Z.of_nat n < 16384 -> reads uper_get_length (uper_length_bits n) n.
Proof.
  intros Hn. unfold uper_length_bits, uper_get_length. bcase.
  - rewrite <- (app_nil_r (bits_be 8 _)).
    apply (reads_bind _ _ _ _ (Z.of_nat n)).
    + pose proof (get_bits_reads 8 (Z.of_nat n) ltac:(lia)) as H.
      rewrite Z.mod_small in H by lia. exact H.
    + destruct (length_octet_forms (Z.of_nat n)) as (-> & _ & _); [unfold is_byte; lia|].
      bdec. rewrite Nat2Z.id. apply reads_ret.
  - set (hi := 128 + Z.of_nat n / 256).
    replace ([true; false] ++ bits_be 14 (Z.of_nat n))
      with (bits_be 8 hi ++ bits_be 8 (Z.of_nat n) ++ []).
    2:{ rewrite app_nil_r. rewrite (bits_be_add 6 8 : forall v, bits_be 14 v = _).
        rewrite (bits_be_add 2 6 hi : bits_be 8 hi = _), <- !app_assoc.
        f_equal; [rewrite shiftr_div by lia; replace (hi / 2 ^ Z.of_nat 6) with 2 by lia; done|].
        f_equal. rewrite shiftr_div by lia.
        rewrite <- (bits_be_mod 6 _ 6), <- (bits_be_mod 6 (_ / _) 6) by done. f_equal. lia. }
    apply (reads_bind _ _ _ _ hi).
    + pose proof (get_bits_reads 8 hi ltac:(lia)) as H. rewrite Z.mod_small in H by lia. exact H.
    + destruct (length_octet_forms hi) as (-> & -> & ->); [unfold is_byte; lia|]. bdec.
      apply (reads_bind _ _ _ _ (Z.of_nat n mod 256)).
      * exact (get_bits_reads 8 (Z.of_nat n) ltac:(lia)).
      * rewrite lor_shiftl_add by lia.
        replace (Z.to_nat _) with n by lia. apply reads_ret.
Qed.

Lemma on_br_reads {A} (m : EM bitreader A) bl x s :
  reads m bl x -> has_bits (br_buf (st_br s)) (br_bit_pos (st_br s)) bl ->
  (br_bit_pos (st_br s) + length bl <= 8 * br_buf_len (st_br s))%nat ->
  on_br m s = Some (Some x, s <| st_br := (st_br s) <| br_bit_pos := (br_bit_pos (st_br s) + length bl)%nat |> |>).
Proof. intros Hm Hb Hl. unfold on_br. by rewrite Hm. Qed.

Lemma copy_nas_loop_reads nas i buf len pos out copy :
  Forall is_byte nas -> has_bits buf pos (concat (bits_be 8 <$> nas)) ->
  (pos + 8 * length nas <= 8 * len)%nat -> (i + length nas <= length copy)%nat ->
  copy_nas_loop i (length nas) (RrcSt (BR buf len pos) out copy)
  = Some (Some tt, RrcSt (BR buf len (pos + 8 * length nas)) out
            (take i copy ++ nas ++ drop (i + length nas) copy)).
Proof.
  intros Hn. revert i pos copy. induction Hn as [|b nas Hb _ IH]; intros i pos copy Hbits Hp Hi.
  - cbn [length copy_nas_loop app]. rewrite Nat.mul_0_r, !Nat.add_0_r, take_drop. done.
  - cbn [length copy_nas_loop] in *. rewrite fmap_cons in Hbits. cbn [concat] in Hbits.
    apply has_bits_app in Hbits as [H1 H2].
    rewrite (EM_bind_ok _ _ _ _ _ (on_br_reads _ _ _ (RrcSt (BR buf len pos) out copy)
      (get_bits_reads 8 b ltac:(lia)) H1 ltac:(simpl; lia))).
    rewrite (EM_bind_ok _ _ _ _ _ (eq_refl : get_st _ = Some (Some _, _))).
    cbn [st_copy]. cbv [set_field]. cbn [st_copy st_br st_out]. bdec.
    rewrite (EM_bind_ok _ _ _ _ _ (eq_refl : modify _ _ = Some (Some tt, _))).
    cbv [set_field]. cbn [st_copy st_br st_out br_buf br_buf_len br_bit_pos].
    rewrite IH; [|exact H2|simpl; lia|vlia].
    replace (u8 (b mod 2 ^ 8)) with b by (unfold u8; unfold is_byte in Hb; lia).
    replace (pos + length (bits_be (Z.to_nat 8) b) + 8 * length nas)%nat
      with (pos + 8 * S (length nas))%nat by (simpl; lia).
    enough (take (i + 1) (<[i:=b]> copy) ++ nas ++ drop (i + 1 + length nas) (<[i:=b]> copy)
            = take i copy ++ (b :: nas) ++ drop (i + S (length nas)) copy) as -> by done.
    rewrite insert_take_drop by lia.
    rewrite take_app_ge by vlia. rewrite drop_app_ge by vlia.
    rewrite length_take, Nat.min_l by lia.
    replace (i + 1 - i)%nat with 1%nat by lia.
    replace (i + 1 + length nas - i)%nat with (S (length nas)) by lia.
    cbn [firstn skipn]. rewrite take_0, drop_drop, <- app_assoc. cbn [app].
    do 4 f_equal. lia.
Qed.

(** ** Properties *)

(** Writing and reading a sequence of bit fields [(value, width)]. *)
Fixpoint put_fields (fs : list (Z * Z)) : EM bitwriter unit :=
  match fs with
  | [] => mret tt
  | (v, w) :: fs => ue_rrc_bw_put_bits v w;; put_fields fs
  end.

Fixpoint get_fields (ws : list Z) : EM bitreader (list Z) :=
  match ws with
  | [] => mret []
  | w :: ws => v ← ue_rrc_br_get_bits w; vs ← get_fields ws; mret (v :: vs)
  end.

Definition field_bits (fs : list (Z * Z)) : list bool :=
  concat ((fun '(v, w) => bits_be (Z.to_nat w) v) <$> fs).

Definition field_width_ok (f : Z * Z) : Prop := 0 < f.2 <= 64.

Lemma put_fields_writes fs :
  Forall field_width_ok fs -> writes (put_fields fs) (field_bits fs).
Proof.
  induction 1 as [|[v w] fs Hw _ IH].
  - intros len cap bw bl Hr. pose proof (repr_room _ _ _ _ Hr). cbn. bdec.
    rewrite app_nil_r. eauto.
  - cbn [put_fields]. unfold field_bits. rewrite fmap_cons. cbn [concat].
    apply writes_bind; [by apply put_bits_writes|exact IH].
Qed.

Lemma get_fields_reads fs :
  Forall field_width_ok fs ->
  reads (get_fields (snd <$> fs)) (field_bits fs) ((fun '(v, w) => v mod 2 ^ w) <$> fs).
Proof.
  induction 1 as [|[v w] fs Hw _ IH]; [apply reads_ret|].
  rewrite !fmap_cons. cbn [get_fields snd]. unfold field_bits. rewrite fmap_cons. cbn [concat].
  apply (reads_bind _ _ _ _ (v mod 2 ^ w)); [by apply get_bits_reads|].
  rewrite <- (app_nil_r (concat _)). eapply reads_bind; [exact IH|apply reads_ret].
Qed.

(** The bit writer and the bit reader are inverse.  Any sequence of fields
    of 1 to 64 bits that fits the buffer is written without error, the byte
    length is the number of bits rounded up, and reading the same widths back
    gives each value modulo its width. *)
Lemma bit_fields_roundtrip buf len fs :
  (len <= length buf)%nat -> Forall field_width_ok fs ->
  (length (field_bits fs) <= 8 * len)%nat ->
  exists b' br', run_bw buf len (put_fields fs)
      = Some (Z.of_nat ((length (field_bits fs) + 7) / 8), Some b')
    /\ get_fields (snd <$> fs) (ue_rrc_br_init b' len)
       = Some (Some ((fun '(v, w) => v mod 2 ^ w) <$> fs), br').
Proof.
  intros Hl Hfs Hfit. pose proof (run_bw_writes buf len _ _ (put_fields_writes fs Hfs) Hl) as H.
  destruct (Nat.leb_spec (length (field_bits fs)) (8 * len)); [|lia].
  destruct H as (b' & E & Hlen & Hbits). eexists b', _. split; [exact E|].
  apply (get_fields_reads fs Hfs (ue_rrc_br_init b' len)).
  - by apply (written_has_bits _ len).
  - cbn. lia.
Qed.

(** The outcome of an encoder for the layout [bl]: the bits, zero padded, and
    the byte length, or [-1] exactly when they do not fit. *)
Definition encodes (b : bytes) (len : nat) (bl : list bool) (r : option (Z * option bytes)) : Prop :=
  if length bl <=?n 8 * len
  then exists b', r = Some (Z.of_nat ((length bl + 7) / 8), Some b') /\ length b' = length b
       /\ (forall i, (i < 8 * len)%nat -> buf_bit b' i = Some (default false (bl !! i)))
  else exists b', r = Some (-1, Some b') /\ length b' = length b.

Ltac field :=
  match goal with
  | |- writes (ue_rrc_bw_put_bits ?v ?n) _ => exact (put_bits_writes v n ltac:(lia))
  | |- writes (uper_put_length _) _ => apply uper_put_length_writes; lia
  | |- writes (ue_rrc_bw_put_bytes _ _) _ => apply put_bytes_writes; lia
  end.
Ltac fields := repeat (apply writes_bind; [field|]); field.

Lemma bits_land_ones n m v : (n <= m)%nat -> bits_be n (v &. Z.ones (Z.of_nat m)) = bits_be n v.
Proof. intros. rewrite Z.land_ones by lia. by apply bits_be_mod. Qed.

Lemma ul_info_transfer_result b len nas n :
  (len <= length b)%nat -> (1 <= n <= length nas)%nat -> Z.of_nat n <= UE_RRC_MAX_NAS_SIZE ->
  encodes b len (ul_info_transfer_bits (take n nas))
    (ue_rrc_encode_ul_info_transfer (Some b) len (Some nas) n).
Proof.
  unfold UE_RRC_MAX_NAS_SIZE. intros Hl Hn Hm.
  unfold ue_rrc_encode_ul_info_transfer, UE_RRC_MAX_NAS_SIZE. bdec.
  apply run_bw_writes; [|done]. unfold ul_info_transfer_bits, octets_bits.
  rewrite length_take, Nat.min_l by lia. fields.
Qed.

Lemma setup_complete_result b len nas n tx plmn :
  (len <= length b)%nat -> (1 <= n <= length nas)%nat -> Z.of_nat n <= UE_RRC_MAX_NAS_SIZE ->
  1 <= plmn <= 12 ->
  encodes b len (setup_complete_bits tx plmn (take n nas))
    (ue_rrc_encode_setup_complete (Some b) len tx plmn (Some nas) n).
Proof.
  unfold UE_RRC_MAX_NAS_SIZE. intros Hl Hn Hm Hp.
  unfold ue_rrc_encode_setup_complete, UE_RRC_MAX_NAS_SIZE. bdec.
  apply run_bw_writes; [|done]. unfold setup_complete_bits, octets_bits.
  rewrite length_take, Nat.min_l by lia. rewrite <- (bits_land_ones 2 2 tx) by done. fields.
Qed.

Lemma setup_request_result b len ident cause :
  (len <= length b)%nat ->
  encodes b len (setup_request_bits ident cause)
    (ue_rrc_encode_setup_request (Some b) len ident cause).
Proof.
  intros Hl. unfold ue_rrc_encode_setup_request. apply run_bw_writes; [|done].
  unfold setup_request_bits.
  rewrite <- (bits_land_ones 39 39 ident), <- (bits_land_ones 4 4 cause) by done. fields.
Qed.

(** The three uplink RRC messages have their UPER layout.  For every NAS
    PDU of 1 to 8192 bytes, transaction id, PLMN index, identity and cause, the
    encoder writes exactly the message's bits followed by zero padding, never
    outside the buffer, and returns the rounded-up byte length; it returns -1
    exactly when the bits do not fit. *)
Lemma rrc_uplink_encodes b len nas tx plmn ident cause :
  (len <= length b)%nat -> (1 <= length nas)%nat -> Z.of_nat (length nas) <= UE_RRC_MAX_NAS_SIZE ->
  1 <= plmn <= 12 ->
  encodes b len (ul_info_transfer_bits nas)
    (ue_rrc_encode_ul_info_transfer (Some b) len (Some nas) (length nas))
  /\ encodes b len (setup_complete_bits tx plmn nas)
    (ue_rrc_encode_setup_complete (Some b) len tx plmn (Some nas) (length nas))
  /\ encodes b len (setup_request_bits ident cause)
    (ue_rrc_encode_setup_request (Some b) len ident cause).
Proof.
  intros Hl Hn Hm Hp. pose proof (take_ge nas (length nas) (Nat.le_refl _)) as Et.
  split; [|split; [|by apply setup_request_result]].
  - pose proof (ul_info_transfer_result b len nas (length nas)) as H. rewrite Et in H. apply H; lia.
  - pose proof (setup_complete_result b len nas (length nas) tx plmn) as H. rewrite Et in H. apply H; lia.
Qed.

Lemma on_br_bits n v d len p out copy :
  0 < n <= 64 -> has_bits d p (bits_be (Z.to_nat n) v) -> (p + Z.to_nat n <= 8 * len)%nat ->
  on_br (ue_rrc_br_get_bits n) (RrcSt (BR d len p) out copy)
  = Some (Some (v mod 2 ^ n), RrcSt (BR d len (p + Z.to_nat n)) out copy).
Proof.
  intros Hn Hb Hl. rewrite (on_br_reads _ _ _ (RrcSt (BR d len p) out copy) (get_bits_reads n v Hn) Hb).
  - by rewrite length_bits_be.
  - rewrite length_bits_be. exact Hl.
Qed.

Lemma set_out_eq f br out copy :
  set_out f (RrcSt br out copy) = Some (Some tt, RrcSt br (f out) copy).
Proof. done. Qed.

(** One field of a decoder. *)
Ltac getb n v H := erewrite EM_bind_ok; [|apply (on_br_bits n v); [lia|exact H|lia]].
Ltac seto := rewrite (EM_bind_ok _ _ _ _ _ (set_out_eq _ _ _ _)).

Lemma dl_info_transfer_result d len tx late noncrit nas out copy :
  Forall is_byte nas -> Z.of_nat (length nas) <= UE_RRC_MAX_NAS_SIZE ->
  (length nas <= length copy)%nat -> 0 <= tx < 4 ->
  has_bits d 0 (dl_info_transfer_bits tx late noncrit nas) ->
  (length (dl_info_transfer_bits tx late noncrit nas) <= 8 * len)%nat ->
  ue_rrc_decode_dl_dcch (Some d) len out copy
  = Some (0, RrcMsg UE_RRC_DL_INFO_TRANSFER NasCopyBuf (Z.of_nat (length nas)) tx 0 0,
          over nas copy).
Proof.
  unfold UE_RRC_MAX_NAS_SIZE. intros Hnas Hn Hc Htx Hb Hl. unfold dl_info_transfer_bits, octets_bits in *.
  rewrite !has_bits_app in Hb. destruct Hb as (H0 & H1 & H2 & H3 & H4 & H5 & H6).
  set (ob := [true; late; noncrit]) in *. cbn [length] in *. rewrite !length_bits_be in *.
  set (lb := uper_length_bits (length nas)) in *. set (nb := concat _) in *.
  assert (length lb = 8 \/ length lb = 16)%nat as Hlb
    by (unfold lb, uper_length_bits; case_match; auto).
  assert (length nb = 8 * length nas)%nat as Hnb.
  { unfold nb. clear. induction nas as [|x l IH]; [done|]. rewrite fmap_cons. cbn [concat].
    rewrite length_app, IH, length_bits_be. simpl. lia. }
  rewrite !length_app, !length_bits_be in Hl. change (length ob) with 3%nat in *.
  unfold ue_rrc_decode_dl_dcch, run_decoder, ue_rrc_br_init. bdec.
  getb 1 0 H0. change (0 mod 2 ^ 1 =? 0) with true. cbn [negb].
  getb 4 5 H1. change (5 mod 2 ^ 4 =? 5) with true. cbv iota. unfold decode_dl_info_transfer.
  seto. getb 2 tx H2. seto. getb 1 0 H3. change (0 mod 2 ^ 1 =? 0) with true. cbn [negb].
  set (obv := bits_val 0 ob).
  assert (bits_be 3 obv = ob /\ obv mod 2 ^ 3 = obv /\ (obv &. 4 =? 0) = false) as (Eob & Eov & Eof)
    by (by destruct late, noncrit).
  rewrite <- Eob in H4. getb 3 obv H4. rewrite Eov, Eof.
  erewrite EM_bind_ok;
    [|apply (on_br_reads _ _ _ _ (uper_get_length_reads (length nas) ltac:(lia))); [exact H5|]];
    [|cbn [st_br br_bit_pos br_buf_len]; fold lb; lia].
  unfold UE_RRC_MAX_NAS_SIZE. bdec. cbv [set_field]. cbn [st_br st_out st_copy br_bit_pos br_buf br_buf_len].
  fold lb. seto. rewrite (EM_bind_ok _ _ _ _ _ (eq_refl : get_st _ = Some (Some _, _))).
  cbn [st_br br_bit_pos].
  replace (_ =?n 0) with false by (destruct Hlb as [-> | ->]; done).
  erewrite EM_bind_ok; [|apply (copy_nas_loop_reads nas 0); [done|exact H6|lia|exact Hc]].
  rewrite set_out_eq. cbv [set_field]. cbn [st_out st_copy rrc_type rrc_nas_pdu rrc_nas_len
    rrc_transaction_id rrc_ue_identity rrc_establishment_cause rrc_message_zero].
  rewrite u32_small by lia. rewrite u8_small by (rewrite Z.mod_small; lia).
  rewrite Z.mod_small by lia. done.
Qed.

(** The reader stays inside its buffer, the copy buffer keeps its size. *)
Definition br_ok (len : nat) (br : bitreader) : Prop :=
  br_buf_len br = len /\ (len <= length (br_buf br))%nat.

(** The NAS PDU of a message lies in the decoded buffer or the copy buffer. *)
Definition nas_in_bounds (len : nat) (m : ue_rrc_message) : Prop :=
  match rrc_nas_pdu m with
  | NasNull => True
  | NasInBuffer off => (off + Z.to_nat (rrc_nas_len m) <= len)%nat
  | NasCopyBuf => rrc_nas_len m <= UE_RRC_MAX_NAS_SIZE
  end.

(** Until the NAS PDU is known the pointer is null, and its length is small. *)
Definition rrc_st_ok (len : nat) (s : rrc_st) : Prop :=
  br_ok len (st_br s) /\ Z.of_nat (length (st_copy s)) = UE_RRC_MAX_NAS_SIZE
  /\ rrc_nas_pdu (st_out s) = NasNull /\ rrc_nas_len (st_out s) <= UE_RRC_MAX_NAS_SIZE.
Definition rrc_out_ok (len : nat) (s : rrc_st) : Prop :=
  Z.of_nat (length (st_copy s)) = UE_RRC_MAX_NAS_SIZE /\ nas_in_bounds len (st_out s).

Section Safe.
Variable len : nat.

Lemma get_bits_loop_safe acc n : em_safe (br_ok len) (get_bits_loop acc n).
Proof.
  revert acc. induction n as [|n IH]; intros acc br Hbr; [by apply em_safe_ret|].
  cbn [get_bits_loop]. rewrite (EM_bind_ok _ _ _ _ _ (eq_refl : get_st _ = Some (Some _, _))).
  cbv zeta. bcase; [by apply em_safe_fail|]. destruct Hbr as [Hb1 Hb2].
  destruct (load_in (br_buf br) (br_bit_pos br / 8)) as [b ->]; [lia|].
  rewrite (EM_bind_ok _ _ _ _ _ (eq_refl : modify _ _ = Some (Some tt, _))). by apply IH.
Qed.

Lemma get_bits_safe n : em_safe (br_ok len) (ue_rrc_br_get_bits n).
Proof.
  unfold ue_rrc_br_get_bits. case_match; [apply em_safe_fail|apply get_bits_loop_safe].
Qed.

Lemma uper_get_length_safe : em_safe (br_ok len) uper_get_length.
Proof.
  unfold uper_get_length. apply em_safe_bind; [apply get_bits_safe|intros b].
  repeat case_match; [apply em_safe_ret| |apply em_safe_fail].
  apply em_safe_bind; [apply get_bits_safe|intros; apply em_safe_ret].
Qed.

Lemma on_br_safe {A} (m : EM bitreader A) :
  em_safe (br_ok len) m -> em_safe (rrc_st_ok len) (on_br m).
Proof.
  intros Hm s (Hbr & Hc & Ho). destruct (Hm _ Hbr) as (r & br & E & Hbr').
  unfold on_br. rewrite E. by eexists _, _.
Qed.

Lemma copy_nas_loop_safe i n :
  Z.of_nat (i + n) <= UE_RRC_MAX_NAS_SIZE -> em_safe (rrc_st_ok len) (copy_nas_loop i n).
Proof.
  revert i. induction n as [|n IH]; intros i Hi; [apply em_safe_ret|]. cbn [copy_nas_loop].
  apply em_safe_bind; [apply on_br_safe, get_bits_safe|]. intros b s (Hbr & Hc & Ho).
  rewrite (EM_bind_ok _ _ _ _ _ (eq_refl : get_st _ = Some (Some _, _))).
  bdec. rewrite (EM_bind_ok _ _ _ _ _ (eq_refl : modify _ _ = Some (Some tt, _))).
  apply IH; [lia|]. split; [done|]. split; [|done]. cbv [set_field st_copy]. by rewrite length_insert.
Qed.

(** A decoder body: its result is in bounds. *)
Definition decodes_within {A} (m : EM rrc_st A) : Prop :=
  forall s, rrc_st_ok len s -> exists r s', m s = Some (r, s') /\ rrc_out_ok len s'.

Lemma st_out_ok s : rrc_st_ok len s -> rrc_out_ok len s.
Proof. intros (_ & Hc & Ho & _). split; [done|]. unfold nas_in_bounds. by rewrite Ho. Qed.

Lemma within_safe {A} (m : EM rrc_st A) : em_safe (rrc_st_ok len) m -> decodes_within m.
Proof. intros Hm s Hs. destruct (Hm s Hs) as (r & s' & E & Hs'). eauto using st_out_ok. Qed.

Lemma within_bind {A B} (m : EM rrc_st A) (k : A -> EM rrc_st B) :
  em_safe (rrc_st_ok len) m -> (forall x, decodes_within (k x)) -> decodes_within (m ≫= k).
Proof.
  intros Hm Hk s Hs. destruct (Hm s Hs) as (r & s' & E & Hs').
  unfold mbind, EM_bind. rewrite E. destruct r as [x|]; [by apply Hk|eauto using st_out_ok].
Qed.
End Safe.

Ltac em_step :=
  match goal with
  | |- decodes_within _ (mbind _ _) => apply within_bind; [|intros ?]
  | |- decodes_within _ (if ?c then _ else _) => let E := fresh "E" in destruct c eqn:E
  | |- decodes_within _ _ => apply within_safe
  | |- em_safe _ (mbind _ _) => apply em_safe_bind; [|intros ?]
  | |- em_safe _ (mret _) => apply em_safe_ret
  | |- em_safe _ fail => apply em_safe_fail
  | |- em_safe _ get_st => apply em_safe_get
  | |- em_safe _ (set_out _) => by apply em_safe_modify
  | |- em_safe _ (on_br (ue_rrc_br_get_bits _)) => apply on_br_safe, get_bits_safe
  | |- em_safe _ (on_br uper_get_length) => apply on_br_safe, uper_get_length_safe
  | |- em_safe _ (on_br (modify _)) => by apply on_br_safe, em_safe_modify
  | |- em_safe _ (copy_nas_loop _ _) => apply copy_nas_loop_safe; lia
  | |- em_safe _ (if ?c then _ else _) => let E := fresh "E" in destruct c eqn:E
  | |- em_safe _ (let _ := _ in _) => cbv zeta
  end.

(** The end of the DL Information Transfer, once the length is known. *)
Lemma nas_pdu_within len n :
  Z.of_nat n <= UE_RRC_MAX_NAS_SIZE ->
  decodes_within len (
    set_out (fun m => m <| rrc_nas_len := u32 (Z.of_nat n) |>);;
    s ← get_st;
    if br_bit_pos (st_br s) mod 8 =?n 0 then
      let byte_off := (br_bit_pos (st_br s) / 8)%nat in
      if br_buf_len (st_br s) <?n byte_off + n then fail else
      set_out (fun m => m <| rrc_nas_pdu := NasInBuffer byte_off |>);;
      on_br (modify (fun br => br <| br_bit_pos := (br_bit_pos br + n * 8)%nat |>))
    else
      copy_nas_loop 0 n;;
      set_out (fun m => m <| rrc_nas_pdu := NasCopyBuf |>)).
Proof.
  intros Hn [br [ty nas nl ti ui ec] copy] Hs. set (s := RrcSt _ _ _) in *.
  assert (u32 (Z.of_nat n) = Z.of_nat n) as En
    by (apply u32_small; unfold UE_RRC_MAX_NAS_SIZE in Hn; lia).
  rewrite (EM_bind_ok _ _ _ _ _ (eq_refl : set_out _ _ = Some (Some tt, _))).
  set (s1 := s <| st_out := (st_out s) <| rrc_nas_len := u32 (Z.of_nat n) |> |>).
  assert (rrc_st_ok len s1) as Hs1
    by (destruct Hs as (? & ? & ? & ?); split; [done|]; split; [done|]; split; [done|];
        unfold s1; cbv [set_field st_out rrc_nas_len]; lia).
  rewrite (EM_bind_ok _ _ _ _ _ (eq_refl : get_st s1 = Some (Some s1, s1))).
  pose proof Hs1 as ([Hbl _] & Hc & _).
  destruct (_ =?n 0).
  - cbv zeta. rewrite Hbl. destruct (len <?n _) eqn:El; [eexists _, _; split; [reflexivity|by apply st_out_ok]|].
    eexists _, _. split; [reflexivity|]. split; [done|].
    change (br_bit_pos br / 8 + Z.to_nat (u32 (Z.of_nat n)) <= len)%nat. rewrite En.
    change (br_bit_pos (st_br s1)) with (br_bit_pos br) in El. lia.
  - destruct (copy_nas_loop_safe len 0 n Hn s1 Hs1) as (r & s2 & E & Hs2).
    unfold mbind, EM_bind. rewrite E. destruct r; [|by eauto using st_out_ok].
    eexists _, _. split; [reflexivity|]. destruct Hs2 as (_ & Hc2 & _ & Hl2). split; [done|]. exact Hl2.
Qed.

Lemma dl_info_transfer_within len : decodes_within len decode_dl_info_transfer.
Proof.
  unfold decode_dl_info_transfer. repeat (em_step; [solve [repeat em_step]|]).
  em_step; [apply within_safe, em_safe_modify|].
  - intros s (? & ? & _ & _). split; [done|]. split; [done|]. split; [done|]. done.
  - repeat (em_step; [solve [repeat em_step]|]). apply nas_pdu_within. lia.
Qed.

Lemma run_decoder_within d len out copy body :
  (len <= length d)%nat -> Z.of_nat (length copy) = UE_RRC_MAX_NAS_SIZE -> nas_in_bounds len out ->
  decodes_within len body ->
  exists rc m copy', run_decoder (Some d) len out copy body = Some (rc, m, copy')
    /\ nas_in_bounds len m /\ Z.of_nat (length copy') = UE_RRC_MAX_NAS_SIZE.
Proof.
  intros Hl Hc Ho Hb. unfold run_decoder. case_match; [eauto 10|].
  destruct (Hb (RrcSt (ue_rrc_br_init d len) rrc_message_zero copy)) as (r & s & -> & Hc' & Hs).
  - split; [done|]. split; [done|]. split; [done|]. done.
  - eexists _, _, _. split; [reflexivity|]. by split.
Qed.

Lemma decoders_within d len out copy :
  (len <= length d)%nat -> Z.of_nat (length copy) = UE_RRC_MAX_NAS_SIZE -> nas_in_bounds len out ->
  (exists rc m copy', ue_rrc_decode_dl_dcch (Some d) len out copy = Some (rc, m, copy')
     /\ nas_in_bounds len m /\ Z.of_nat (length copy') = UE_RRC_MAX_NAS_SIZE)
  /\ (exists rc m copy', ue_rrc_decode_dl_ccch (Some d) len out copy = Some (rc, m, copy')
     /\ nas_in_bounds len m /\ Z.of_nat (length copy') = UE_RRC_MAX_NAS_SIZE).
Proof.
  intros Hl Hc Ho. split; (apply run_decoder_within; [done..|]).
  - do 3 (em_step; [solve [repeat em_step]|]). em_step; [apply dl_info_transfer_within|repeat em_step].
  - repeat (em_step; [solve [repeat em_step]|]). repeat em_step.
Qed.

(** The downlink RRC decoders.  On arbitrary input of at least [len] bytes
    both are total and memory safe, including every write to the 8192-byte static
    copy buffer, and the NAS PDU of the result lies inside the input or the copy
    buffer.  A DL Information Transfer that carries a dedicated NAS message of up
    to 8192 bytes, with any transaction id, late critical extension flag and
    non-critical extension flag, is accepted, and its NAS bytes, which are never
    aligned, are in the copy buffer. *)
Lemma rrc_downlink_decodes d len out copy :
  (len <= length d)%nat -> Z.of_nat (length copy) = UE_RRC_MAX_NAS_SIZE -> nas_in_bounds len out ->
  (exists rc m copy', ue_rrc_decode_dl_dcch (Some d) len out copy = Some (rc, m, copy')
     /\ nas_in_bounds len m /\ Z.of_nat (length copy') = UE_RRC_MAX_NAS_SIZE)
  /\ (exists rc m copy', ue_rrc_decode_dl_ccch (Some d) len out copy = Some (rc, m, copy')
     /\ nas_in_bounds len m /\ Z.of_nat (length copy') = UE_RRC_MAX_NAS_SIZE)
  /\ (forall tx late noncrit nas,
     Forall is_byte nas -> Z.of_nat (length nas) <= UE_RRC_MAX_NAS_SIZE -> 0 <= tx < 4 ->
     has_bits d 0 (dl_info_transfer_bits tx late noncrit nas) ->
     (length (dl_info_transfer_bits tx late noncrit nas) <= 8 * len)%nat ->
     ue_rrc_decode_dl_dcch (Some d) len out copy
     = Some (0, RrcMsg UE_RRC_DL_INFO_TRANSFER NasCopyBuf (Z.of_nat (length nas)) tx 0 0,
             over nas copy)).
Proof.
  intros Hl Hc Ho. destruct (decoders_within d len out copy Hl Hc Ho) as [H1 H2].
  split; [exact H1|]. split; [exact H2|]. intros tx late noncrit nas ? ? ? ? ?.
  apply (dl_info_transfer_result d len tx late noncrit nas out copy); try done. lia.
Qed.

(** ** Witnesses *)

Example bit_fields_roundtrip_example :
  exists b' br', run_bw [255; 255; 255] 2 (put_fields [(5, 3); (1000, 10)]) = Some (2, Some b')
    /\ get_fields [3; 10] (ue_rrc_br_init b' 2) = Some (Some [5; 1000], br').
Proof.
  apply (bit_fields_roundtrip [255; 255; 255] 2 [(5, 3); (1000, 10)]).
  - simpl. lia.
  - repeat constructor; simpl; lia.
  - vm_compute. lia.
Defined.

Example dl_info_transfer_example :
  ue_rrc_decode_dl_dcch (Some [0x28; 0x80; 0x4F; 0xC0; 0x00]) 5 rrc_message_zero (replicate 4 9)
  = Some (0, RrcMsg UE_RRC_DL_INFO_TRANSFER NasCopyBuf 2 0 0 0, [0x7E; 0; 9; 9]).
Proof. vm_compute. reflexivity. Qed.

(** C38: the RRC codec.  Uplink: for every NAS PDU of 1 to 8192 bytes,
    transaction id, PLMN index, identity and cause each of the three encoders
    writes exactly the message's UPER bits followed by zero padding, never
    outside the buffer, and returns the rounded-up byte length, or -1 exactly
    when the bits do not fit.  The bits are those the code writes: RRC Setup
    Complete has the index 2 of TS 38.331 and six presence bits, an information
    transfer three, where comments of [ue_rrc.h] and [ue_rrc.c] still say index 4,
    an extension bit and fewer presence bits.  Downlink: on arbitrary input both decoders return
    without an access outside the input or the 8192-byte copy buffer, the NAS PDU
    of the result lies inside one of the two, and a DL Information Transfer with
    any transaction id and extension flags delivers its NAS bytes in the copy
    buffer. *)
Theorem rrc_codec_correct :
  (forall b len nas tx plmn ident cause,
     (len <= length b)%nat -> (1 <= length nas)%nat -> Z.of_nat (length nas) <= UE_RRC_MAX_NAS_SIZE ->
     1 <= plmn <= 12 ->
     encodes b len (ul_info_transfer_bits nas)
       (ue_rrc_encode_ul_info_transfer (Some b) len (Some nas) (length nas))
     /\ encodes b len (setup_complete_bits tx plmn nas)
       (ue_rrc_encode_setup_complete (Some b) len tx plmn (Some nas) (length nas))
     /\ encodes b len (setup_request_bits ident cause)
       (ue_rrc_encode_setup_request (Some b) len ident cause))
  /\ (forall d len out copy,
     (len <= length d)%nat -> Z.of_nat (length copy) = UE_RRC_MAX_NAS_SIZE -> nas_in_bounds len out ->
     (exists rc m copy', ue_rrc_decode_dl_dcch (Some d) len out copy = Some (rc, m, copy')
        /\ nas_in_bounds len m /\ Z.of_nat (length copy') = UE_RRC_MAX_NAS_SIZE)
     /\ (exists rc m copy', ue_rrc_decode_dl_ccch (Some d) len out copy = Some (rc, m, copy')
        /\ nas_in_bounds len m /\ Z.of_nat (length copy') = UE_RRC_MAX_NAS_SIZE)
     /\ (forall tx late noncrit nas,
        Forall is_byte nas -> Z.of_nat (length nas) <= UE_RRC_MAX_NAS_SIZE -> 0 <= tx < 4 ->
        has_bits d 0 (dl_info_transfer_bits tx late noncrit nas) ->
        (length (dl_info_transfer_bits tx late noncrit nas) <= 8 * len)%nat ->
        ue_rrc_decode_dl_dcch (Some d) len out copy
        = Some (0, RrcMsg UE_RRC_DL_INFO_TRANSFER NasCopyBuf (Z.of_nat (length nas)) tx 0 0,
                over nas copy))).
Proof. split; intros; [by apply rrc_uplink_encodes|by apply rrc_downlink_decodes]. Qed.

Lemma rrc_codec_correct_witness :
  encodes (replicate 12 7) 10 (ul_info_transfer_bits [0x7E; 0; 0x41])
    (ue_rrc_encode_ul_info_transfer (Some (replicate 12 7)) 10 (Some [0x7E; 0; 0x41]) 3)
  /\ exists rc m copy', ue_rrc_decode_dl_dcch (Some [0x28; 0x83]) 2 rrc_message_zero
      (replicate (Z.to_nat UE_RRC_MAX_NAS_SIZE) 0) = Some (rc, m, copy')
    /\ nas_in_bounds 2 m /\ Z.of_nat (length copy') = UE_RRC_MAX_NAS_SIZE.
Proof.
  destruct rrc_codec_correct as [Hup Hdown]. split.
  - apply (Hup (replicate 12 7) 10%nat [0x7E; 0; 0x41] 0 1 0 0); unfold UE_RRC_MAX_NAS_SIZE; simpl; lia.
  - refine (proj1 (Hdown [0x28; 0x83] 2%nat rrc_message_zero _ _ _ _)); [simpl; lia| |exact I].
    rewrite length_replicate. reflexivity.
Defined.
