(* ===== verification/Aes.v ===== *)
(** AES-128 ECB encryption: section 1 of [src/src/ue_engine/ue_nas_security.c].

    The 16-byte state and the 176-byte round keys are byte lists, updated by
    index in the order of the source.  The specification is FIPS-197: the field
    GF(2^8), the S-box as inverse and affine map, ShiftRows and MixColumns by
    their formulas, the key schedule on words.  The theorem is that the code
    computes the FIPS-197 cipher. *)

From S2P Require Import Prelude.

(** [a ^ b] byte by byte. *)
Definition xor_bytes (a b : bytes) : bytes := zip_with Z.lxor a b.

Definition aes_sbox : bytes :=
  [0x63; 0x7c; 0x77; 0x7b; 0xf2; 0x6b; 0x6f; 0xc5; 0x30; 0x01; 0x67; 0x2b; 0xfe; 0xd7; 0xab; 0x76;
   0xca; 0x82; 0xc9; 0x7d; 0xfa; 0x59; 0x47; 0xf0; 0xad; 0xd4; 0xa2; 0xaf; 0x9c; 0xa4; 0x72; 0xc0;
   0xb7; 0xfd; 0x93; 0x26; 0x36; 0x3f; 0xf7; 0xcc; 0x34; 0xa5; 0xe5; 0xf1; 0x71; 0xd8; 0x31; 0x15;
   0x04; 0xc7; 0x23; 0xc3; 0x18; 0x96; 0x05; 0x9a; 0x07; 0x12; 0x80; 0xe2; 0xeb; 0x27; 0xb2; 0x75;
   0x09; 0x83; 0x2c; 0x1a; 0x1b; 0x6e; 0x5a; 0xa0; 0x52; 0x3b; 0xd6; 0xb3; 0x29; 0xe3; 0x2f; 0x84;
   0x53; 0xd1; 0x00; 0xed; 0x20; 0xfc; 0xb1; 0x5b; 0x6a; 0xcb; 0xbe; 0x39; 0x4a; 0x4c; 0x58; 0xcf;
   0xd0; 0xef; 0xaa; 0xfb; 0x43; 0x4d; 0x33; 0x85; 0x45; 0xf9; 0x02; 0x7f; 0x50; 0x3c; 0x9f; 0xa8;
   0x51; 0xa3; 0x40; 0x8f; 0x92; 0x9d; 0x38; 0xf5; 0xbc; 0xb6; 0xda; 0x21; 0x10; 0xff; 0xf3; 0xd2;
   0xcd; 0x0c; 0x13; 0xec; 0x5f; 0x97; 0x44; 0x17; 0xc4; 0xa7; 0x7e; 0x3d; 0x64; 0x5d; 0x19; 0x73;
   0x60; 0x81; 0x4f; 0xdc; 0x22; 0x2a; 0x90; 0x88; 0x46; 0xee; 0xb8; 0x14; 0xde; 0x5e; 0x0b; 0xdb;
   0xe0; 0x32; 0x3a; 0x0a; 0x49; 0x06; 0x24; 0x5c; 0xc2; 0xd3; 0xac; 0x62; 0x91; 0x95; 0xe4; 0x79;
   0xe7; 0xc8; 0x37; 0x6d; 0x8d; 0xd5; 0x4e; 0xa9; 0x6c; 0x56; 0xf4; 0xea; 0x65; 0x7a; 0xae; 0x08;
   0xba; 0x78; 0x25; 0x2e; 0x1c; 0xa6; 0xb4; 0xc6; 0xe8; 0xdd; 0x74; 0x1f; 0x4b; 0xbd; 0x8b; 0x8a;
   0x70; 0x3e; 0xb5; 0x66; 0x48; 0x03; 0xf6; 0x0e; 0x61; 0x35; 0x57; 0xb9; 0x86; 0xc1; 0x1d; 0x9e;
   0xe1; 0xf8; 0x98; 0x11; 0x69; 0xd9; 0x8e; 0x94; 0x9b; 0x1e; 0x87; 0xe9; 0xce; 0x55; 0x28; 0xdf;
   0x8c; 0xa1; 0x89; 0x0d; 0xbf; 0xe6; 0x42; 0x68; 0x41; 0x99; 0x2d; 0x0f; 0xb0; 0x54; 0xbb; 0x16].

Definition aes_rcon : bytes :=
  [0x00; 0x01; 0x02; 0x04; 0x08; 0x10; 0x20; 0x40; 0x80; 0x1b; 0x36].

(** [aes_sbox[x]]; every index is a [uint8_t], in range of the table. *)
Definition sbox (x : Z) : Z := aes_sbox !!! Z.to_nat x.

Definition gf_mul2 (x : Z) : Z := u8 ((x ≪ 1) ^. (if x &. 0x80 =? 0 then 0x00 else 0x1b)).

(** Iterations [i .. i + n - 1] of the key expansion loop; [rk] holds the
    bytes written so far. *)
Fixpoint key_expansion_loop (rk : bytes) (i n : nat) : bytes :=
  match n with
  | O => rk
  | S n' =>
    let tmp := take 4 (drop ((i - 1) * 4) rk) in
    let tmp :=
      if i mod 4 =?n 0 then
        let t := tmp !!! 0%nat in
        [sbox (tmp !!! 1%nat) ^. (aes_rcon !!! (i / 4)%nat); sbox (tmp !!! 2%nat);
         sbox (tmp !!! 3%nat); sbox t]
      else tmp in
    let prev k := rk !!! ((i - 4) * 4 + k)%nat in
    key_expansion_loop
      (rk ++ [prev 0%nat ^. (tmp !!! 0%nat); prev 1%nat ^. (tmp !!! 1%nat);
              prev 2%nat ^. (tmp !!! 2%nat); prev 3%nat ^. (tmp !!! 3%nat)]) (i + 1) n'
  end.

Definition aes_key_expansion (key : bytes) : bytes := key_expansion_loop (take 16 key) 4 40.

Definition aes_sub_bytes (s : bytes) : bytes := sbox <$> s.

Definition aes_shift_rows (s : bytes) : bytes :=
  (* row 1 *)
  let t := s !!! 1%nat in
  let s := <[1%nat := s !!! 5%nat]> s in let s := <[5%nat := s !!! 9%nat]> s in
  let s := <[9%nat := s !!! 13%nat]> s in let s := <[13%nat := t]> s in
  (* row 2 *)
  let t := s !!! 2%nat in
  let s := <[2%nat := s !!! 10%nat]> s in let s := <[10%nat := t]> s in
  let t := s !!! 6%nat in
  let s := <[6%nat := s !!! 14%nat]> s in let s := <[14%nat := t]> s in
  (* row 3 *)
  let t := s !!! 15%nat in
  let s := <[15%nat := s !!! 11%nat]> s in let s := <[11%nat := s !!! 7%nat]> s in
  let s := <[7%nat := s !!! 3%nat]> s in <[3%nat := t]> s.

Definition mix_column (s : bytes) (c : nat) : bytes :=
  let a0 := s !!! (c * 4 + 0)%nat in let a1 := s !!! (c * 4 + 1)%nat in
  let a2 := s !!! (c * 4 + 2)%nat in let a3 := s !!! (c * 4 + 3)%nat in
  let s := <[(c * 4 + 0)%nat := gf_mul2 a0 ^. gf_mul2 a1 ^. a1 ^. a2 ^. a3]> s in
  let s := <[(c * 4 + 1)%nat := a0 ^. gf_mul2 a1 ^. gf_mul2 a2 ^. a2 ^. a3]> s in
  let s := <[(c * 4 + 2)%nat := a0 ^. a1 ^. gf_mul2 a2 ^. gf_mul2 a3 ^. a3]> s in
  <[(c * 4 + 3)%nat := gf_mul2 a0 ^. a0 ^. a1 ^. a2 ^. gf_mul2 a3]> s.

Definition aes_mix_columns (s : bytes) : bytes := foldl mix_column s [0; 1; 2; 3]%nat.

Definition aes_add_round_key (s rk : bytes) : bytes := xor_bytes s (take 16 rk).

(** Round [r] of the loop [1 <= r < 10]. *)
Definition aes_round (rk s : bytes) (r : nat) : bytes :=
  aes_add_round_key (aes_mix_columns (aes_shift_rows (aes_sub_bytes s))) (drop (r * 16) rk).

Definition ue_aes128_ecb_encrypt (key inp : bytes) : bytes :=
  let rk := aes_key_expansion key in
  let s := take 16 inp in
  let s := aes_add_round_key s rk in
  let s := foldl (aes_round rk) s (seq 1 9) in
  let s := aes_sub_bytes s in
  let s := aes_shift_rows s in
  aes_add_round_key s (drop 160 rk).

(** ** FIPS-197 *)

(** Multiplication in GF(2^8) modulo x^8 + x^4 + x^3 + x + 1: Horner's rule
    over the eight bits of [b]. *)
Definition xtime (a : Z) : Z := if a <? 128 then 2 * a else (2 * a) ^. 0x11b.
Definition gmul (a b : Z) : Z :=
  foldl (fun acc i => (xtime acc) ^. (if Z.testbit b i then a else 0)) 0 [7; 6; 5; 4; 3; 2; 1; 0].

(** x^254, the inverse of [x] (and 0 for 0). *)
Definition ginv (x : Z) : Z :=
  let x2 := gmul x x in let x4 := gmul x2 x2 in let x8 := gmul x4 x4 in
  let x16 := gmul x8 x8 in let x32 := gmul x16 x16 in let x64 := gmul x32 x32 in
  let x128 := gmul x64 x64 in
  gmul x128 (gmul x64 (gmul x32 (gmul x16 (gmul x8 (gmul x4 x2))))).

(** The affine transformation of section 5.1.1. *)
Definition affine (b : Z) : Z :=
  foldr Z.add 0 ((fun i =>
    let bit k := Z.b2z (Z.testbit b ((i + k) mod 8)) in
    ((bit 0 + bit 4 + bit 5 + bit 6 + bit 7 + Z.b2z (Z.testbit 0x63 i)) mod 2) * 2 ^ i)
    <$> [0; 1; 2; 3; 4; 5; 6; 7]).

Definition fips_sbox (x : Z) : Z := affine (ginv x).

(** State byte [s_{r,c}] is at index [r + 4 c]. *)
Definition fips_sub_bytes (s : bytes) : bytes := fips_sbox <$> s.
Definition fips_shift_rows (s : bytes) : bytes :=
  (fun i => s !!! (i mod 4 + 4 * ((i / 4 + i mod 4) mod 4))%nat) <$> seq 0 16.

(** The circulant matrix of MixColumns, row [r], column [k]. *)
Definition mix_coeff (r k : nat) : Z := [2; 3; 1; 1] !!! ((k + 4 - r) mod 4)%nat.
Definition matrix_product (mul : Z -> Z -> Z) (s : bytes) : bytes :=
  (fun i => let r := (i mod 4)%nat in let c := (i / 4)%nat in
     foldl Z.lxor 0 ((fun k => mul (mix_coeff r k) (s !!! (4 * c + k)%nat)) <$> seq 0 4))
  <$> seq 0 16.
Definition fips_mix_columns (s : bytes) : bytes := matrix_product gmul s.

(** The key schedule on words of four bytes: [w i]. *)
Definition rot_word (w : bytes) : bytes := drop 1 w ++ take 1 w.
Definition rcon (i : nat) : Z := Nat.iter (i - 1) (gmul 2) 1.

(** All words before [w i], computed left to right. *)
Fixpoint fips_schedule (key : bytes) (n : nat) : list bytes :=
  match n with
  | O => (fun i => take 4 (drop (4 * i) key)) <$> seq 0 4
  | S n' =>
    let ws := fips_schedule key n' in
    let i := (n' + 4)%nat in
    let temp := ws !!! (i - 1)%nat in
    let temp := if (i mod 4 =?n 0)
                then xor_bytes (fips_sbox <$> rot_word temp) [rcon (i / 4)%nat; 0; 0; 0]
                else temp in
    ws ++ [xor_bytes (ws !!! (i - 4)%nat) temp]
  end.

Definition fips_round_key (key : bytes) (r : nat) : bytes :=
  concat (take 4 (drop (4 * r) (fips_schedule key 40))).

Definition fips_round (key s : bytes) (r : nat) : bytes :=
  xor_bytes (fips_mix_columns (fips_shift_rows (fips_sub_bytes s))) (fips_round_key key r).

Definition fips197_encrypt (key inp : bytes) : bytes :=
  let s := xor_bytes inp (fips_round_key key 0) in
  let s := foldl (fips_round key) s (seq 1 9) in
  xor_bytes (fips_shift_rows (fips_sub_bytes s)) (fips_round_key key 10).

(** FIPS-197 appendix B. *)
Example aes_fips197_b :
  ue_aes128_ecb_encrypt
    [0x2b; 0x7e; 0x15; 0x16; 0x28; 0xae; 0xd2; 0xa6; 0xab; 0xf7; 0x15; 0x88; 0x09; 0xcf; 0x4f; 0x3c]
    [0x32; 0x43; 0xf6; 0xa8; 0x88; 0x5a; 0x30; 0x8d; 0x31; 0x31; 0x98; 0xa2; 0xe0; 0x37; 0x07; 0x34]
  = [0x39; 0x25; 0x84; 0x1d; 0x02; 0xdc; 0x09; 0xfb; 0xdc; 0x11; 0x85; 0x97; 0x19; 0x6a; 0x0b; 0x32].
Proof. vm_compute. reflexivity. Qed.

Example aes_fips197_spec_b :
  fips197_encrypt
    [0x2b; 0x7e; 0x15; 0x16; 0x28; 0xae; 0xd2; 0xa6; 0xab; 0xf7; 0x15; 0x88; 0x09; 0xcf; 0x4f; 0x3c]
    [0x32; 0x43; 0xf6; 0xa8; 0x88; 0x5a; 0x30; 0x8d; 0x31; 0x31; 0x98; 0xa2; 0xe0; 0x37; 0x07; 0x34]
  = [0x39; 0x25; 0x84; 0x1d; 0x02; 0xdc; 0x09; 0xfb; 0xdc; 0x11; 0x85; 0x97; 0x19; 0x6a; 0x0b; 0x32].
Proof. vm_compute. reflexivity. Qed.

(** ** Lemmas *)

Lemma length_xor_bytes a b : length (xor_bytes a b) = (length a `min` length b)%nat.
Proof. apply length_zip_with. Qed.

Lemma xor_bytes_bytes a b :
  Forall is_byte a -> Forall is_byte b -> Forall is_byte (xor_bytes a b).
Proof.
  intros Ha. revert b. induction Ha as [|x a Hx _ IH]; intros b Hb; [constructor|].
  destruct Hb; [constructor|]. constructor; [by apply lxor_byte|by apply IH].
Qed.

Lemma xor_bytes_cancel a b : (length a <= length b)%nat -> xor_bytes (xor_bytes a b) b = a.
Proof.
  revert b. induction a as [|x a IH]; intros [|y b]; simpl; intros; try done; try lia.
  unfold xor_bytes in *. rewrite lxor_cancel, IH by lia. done.
Qed.
#[export] Hint Rewrite length_xor_bytes : vlen.
#[export] Hint Resolve xor_bytes_bytes : vlte.

(** The table is the S-box of the standard, entry by entry. *)
Lemma sbox_fips x : is_byte x -> sbox x = fips_sbox x.
Proof.
  intros Hx. apply Z.eqb_eq.
  apply (byte_forall (fun x => sbox x =? fips_sbox x)); [vm_compute; reflexivity|done].
Qed.

Lemma sbox_byte x : is_byte (sbox x).
Proof.
  apply lookup_total_byte. apply (bool_decide_unpack (Forall is_byte aes_sbox)).
  vm_compute. exact I.
Qed.

Lemma gmul_small x : is_byte x ->
  gmul 1 x = x /\ gmul 2 x = gf_mul2 x /\ gmul 3 x = gf_mul2 x ^. x /\ is_byte (gf_mul2 x).
Proof.
  intros Hx. split; [|split; [|split]].
  - apply Z.eqb_eq, (byte_forall (fun x => gmul 1 x =? x)); [vm_compute; reflexivity|done].
  - apply Z.eqb_eq, (byte_forall (fun x => gmul 2 x =? gf_mul2 x)); [vm_compute; reflexivity|done].
  - apply Z.eqb_eq, (byte_forall (fun x => gmul 3 x =? gf_mul2 x ^. x));
      [vm_compute; reflexivity|done].
  - apply u8_is_byte.
Qed.

Lemma list16 (s : bytes) : length s = 16%nat ->
  exists a0 a1 a2 a3 b0 b1 b2 b3 c0 c1 c2 c3 d0 d1 d2 d3,
    s = [a0; a1; a2; a3; b0; b1; b2; b3; c0; c1; c2; c3; d0; d1; d2; d3].
Proof.
  intros H. do 16 (destruct s as [|? s]; [done|]). destruct s; [|done]. by do 16 eexists.
Qed.

Lemma shift_rows_fips s : length s = 16%nat -> aes_shift_rows s = fips_shift_rows s.
Proof. intros H. destruct (list16 s H) as (?&?&?&?&?&?&?&?&?&?&?&?&?&?&?&?&->). reflexivity. Qed.

Lemma sub_bytes_fips s : Forall is_byte s -> aes_sub_bytes s = fips_sub_bytes s.
Proof.
  induction 1 as [|x s Hx _ IH]; [done|].
  unfold aes_sub_bytes, fips_sub_bytes in *. rewrite !fmap_cons, IH. f_equal. by apply sbox_fips.
Qed.

(** One column of the matrix product. *)
Lemma column_fips a0 a1 a2 a3 :
  is_byte a0 -> is_byte a1 -> is_byte a2 -> is_byte a3 ->
  [gf_mul2 a0 ^. gf_mul2 a1 ^. a1 ^. a2 ^. a3; a0 ^. gf_mul2 a1 ^. gf_mul2 a2 ^. a2 ^. a3;
   a0 ^. a1 ^. gf_mul2 a2 ^. gf_mul2 a3 ^. a3; gf_mul2 a0 ^. a0 ^. a1 ^. a2 ^. gf_mul2 a3]
  = [0 ^. gmul 2 a0 ^. gmul 3 a1 ^. gmul 1 a2 ^. gmul 1 a3;
     0 ^. gmul 1 a0 ^. gmul 2 a1 ^. gmul 3 a2 ^. gmul 1 a3;
     0 ^. gmul 1 a0 ^. gmul 1 a1 ^. gmul 2 a2 ^. gmul 3 a3;
     0 ^. gmul 3 a0 ^. gmul 1 a1 ^. gmul 1 a2 ^. gmul 2 a3].
Proof.
  intros H0 H1 H2 H3.
  destruct (gmul_small a0 H0) as (-> & -> & -> & _), (gmul_small a1 H1) as (-> & -> & -> & _),
    (gmul_small a2 H2) as (-> & -> & -> & _), (gmul_small a3 H3) as (-> & -> & -> & _).
  by rewrite !Z.lxor_0_l, !Z.lxor_assoc.
Qed.

Lemma matrix_product_columns mul a0 a1 a2 a3 b0 b1 b2 b3 c0 c1 c2 c3 d0 d1 d2 d3 :
  let column x0 x1 x2 x3 :=
    [0 ^. mul 2 x0 ^. mul 3 x1 ^. mul 1 x2 ^. mul 1 x3;
     0 ^. mul 1 x0 ^. mul 2 x1 ^. mul 3 x2 ^. mul 1 x3;
     0 ^. mul 1 x0 ^. mul 1 x1 ^. mul 2 x2 ^. mul 3 x3;
     0 ^. mul 3 x0 ^. mul 1 x1 ^. mul 1 x2 ^. mul 2 x3] in
  matrix_product mul [a0; a1; a2; a3; b0; b1; b2; b3; c0; c1; c2; c3; d0; d1; d2; d3]
  = column a0 a1 a2 a3 ++ column b0 b1 b2 b3 ++ column c0 c1 c2 c3 ++ column d0 d1 d2 d3.
Proof. reflexivity. Qed.

Lemma mix_columns_fips s :
  length s = 16%nat -> Forall is_byte s -> aes_mix_columns s = fips_mix_columns s.
Proof.
  intros H Hs.
  destruct (list16 s H) as (a0&a1&a2&a3&b0&b1&b2&b3&c0&c1&c2&c3&d0&d1&d2&d3&->).
  repeat match goal with H : Forall _ (_ :: _) |- _ => inv H end.
  unfold fips_mix_columns. rewrite matrix_product_columns. cbv zeta.
  rewrite <- !column_fips by done. reflexivity.
Qed.

(** Every step keeps a state of 16 bytes. *)
Definition is_block (s : bytes) : Prop := length s = 16%nat /\ Forall is_byte s.

Lemma sub_bytes_block s : is_block s -> is_block (aes_sub_bytes s).
Proof.
  intros [Hl _]. split; [by rewrite <- Hl, <- (length_fmap sbox s)|].
  unfold aes_sub_bytes. clear Hl. induction s; constructor; auto using sbox_byte.
Qed.

Lemma shift_rows_block s : is_block s -> is_block (aes_shift_rows s).
Proof.
  intros [Hl Hs]. rewrite shift_rows_fips by done. split; [done|].
  unfold fips_shift_rows. apply Forall_fmap, Forall_forall. intros i _. simpl. auto with vlte.
Qed.

Lemma mix_column_block s c : (c < 4)%nat -> is_block s -> is_block (mix_column s c).
Proof.
  intros Hc [Hl Hs]. unfold mix_column. split; [by rewrite !length_insert|].
  assert (forall x, is_byte (gf_mul2 x)) by (intros; apply u8_is_byte).
  repeat apply Forall_insert; auto 20 with vlte.
Qed.

Lemma mix_columns_block s : is_block s -> is_block (aes_mix_columns s).
Proof. intros H. unfold aes_mix_columns. cbn [foldl]. repeat (apply mix_column_block; [lia|]). done. Qed.

Lemma xor_block s k : is_block s -> is_block k -> is_block (xor_bytes s k).
Proof. intros [? ?] [? ?]. split; [vlia|by apply xor_bytes_bytes]. Qed.

(** The widths alone, for any contents. *)
Lemma length_key_expansion_loop rk i n :
  length (key_expansion_loop rk i n) = (length rk + 4 * n)%nat.
Proof.
  revert rk i. induction n as [|n IH]; intros rk i; cbn [key_expansion_loop]; [lia|].
  cbv zeta. rewrite IH, length_app. simpl. lia.
Qed.

Lemma length_shift_rows s : length (aes_shift_rows s) = length s.
Proof. unfold aes_shift_rows. cbv zeta. by rewrite !length_insert. Qed.

Lemma length_mix_column s c : length (mix_column s c) = length s.
Proof. unfold mix_column. cbv zeta. by rewrite !length_insert. Qed.

Lemma length_mix_columns s : length (aes_mix_columns s) = length s.
Proof. unfold aes_mix_columns. cbn [foldl]. by rewrite !length_mix_column. Qed.

Lemma length_aes key inp :
  length key = 16%nat -> length inp = 16%nat -> length (ue_aes128_ecb_encrypt key inp) = 16%nat.
Proof.
  intros Hk Hi. unfold ue_aes128_ecb_encrypt.
  assert (length (aes_key_expansion key) = 176)%nat as Hrk
    by (unfold aes_key_expansion; rewrite length_key_expansion_loop, length_take, Hk; reflexivity).
  generalize dependent (aes_key_expansion key). intros rk Hrk. cbv zeta.
  assert (forall s n, length s = 16%nat -> (n <= 160)%nat ->
    length (aes_add_round_key s (drop n rk)) = 16%nat) as Hadd
    by (intros s n Hs Hn; unfold aes_add_round_key, xor_bytes; rewrite length_zip_with; vlia).
  assert (forall s r, length s = 16%nat -> (r <= 10)%nat -> length (aes_round rk s r) = 16%nat) as Hround.
  { intros s r Hs Hr. apply Hadd; [|lia]. rewrite length_mix_columns, length_shift_rows.
    unfold aes_sub_bytes. by rewrite length_fmap. }
  assert (forall rs s, length s = 16%nat -> (forall r, r ∈ rs -> (r <= 10)%nat) ->
    length (foldl (aes_round rk) s rs) = 16%nat) as Hrounds.
  { intros rs. induction rs as [|r rs IH]; intros s Hs Hr; [done|]. cbn [foldl].
    apply IH; [apply Hround; [done|apply Hr; left]|intros; apply Hr; by right]. }
  assert (forall r, r ∈ seq 1 9 -> (r <= 10)%nat) as Hseq by (intros r Hr%elem_of_seq; lia).
  apply Hadd; [|lia]. rewrite length_shift_rows. unfold aes_sub_bytes. rewrite length_fmap.
  apply Hrounds; [|exact Hseq].
  change rk with (drop 0 rk) at 1. apply Hadd; [|lia]. rewrite length_take, Hi. reflexivity.
Qed.

(** ** The key schedule *)

(** Bytes of an explicit list. *)
Ltac all_bytes :=
  repeat first [assumption | apply Forall_nil_2 | apply Forall_cons_2 | reflexivity
               | match goal with |- _ /\ _ => split end].

Definition is_word (w : bytes) : Prop := length w = 4%nat /\ Forall is_byte w.

Lemma schedule_words key n :
  is_block key ->
  length (fips_schedule key n) = (n + 4)%nat /\ Forall is_word (fips_schedule key n).
Proof.
  intros [Hl Hb]. induction n as [|n [IHl IH]].
  - split; [done|]. destruct (list16 key Hl) as (?&?&?&?&?&?&?&?&?&?&?&?&?&?&?&?&->).
    repeat match goal with H : Forall _ (_ :: _) |- _ => inv H end.
    cbn. unfold is_word. all_bytes.
  - cbn [fips_schedule]. split; [vlia|]. apply Forall_app. split; [done|].
    constructor; [|constructor].
    assert (forall j, (j < n + 4)%nat -> is_word (fips_schedule key n !!! j)) as Hw.
    { intros j Hj. destruct (lookup_lt_is_Some_2 (fips_schedule key n) j) as [w Ew]; [lia|].
      rewrite (list_lookup_total_correct _ _ _ Ew). by eapply Forall_lookup_1. }
    destruct (Hw (n + 4 - 4)%nat ltac:(lia)) as [Wl Wb].
    destruct (Hw (n + 4 - 1)%nat ltac:(lia)) as [Tl Tb].
    set (t := fips_schedule key n !!! (n + 4 - 1)%nat) in *.
    assert (is_word (if (n + 4) mod 4 =?n 0
      then xor_bytes (fips_sbox <$> rot_word t) [rcon ((n + 4) / 4); 0; 0; 0] else t)) as [Xl Xb].
    { destruct ((n + 4) mod 4 =?n 0); [|done].
      destruct t as [|t0 [|t1 [|t2 [|t3 [|]]]]]; try done. unfold rot_word. cbn [app drop take].
      repeat match goal with H : Forall _ (_ :: _) |- _ => inv H end.
      split; [done|]. apply xor_bytes_bytes.
      - rewrite <- !sub_bytes_fips by all_bytes.
        unfold aes_sub_bytes. cbn. all_bytes; apply sbox_byte.
      - assert (is_byte (rcon ((n + 4) / 4))); [|all_bytes; unfold is_byte; lia].
        unfold rcon. generalize ((n + 4) / 4 - 1)%nat. clear. intros m.
        induction m as [|m IH]; [done|].
        change (Nat.iter (S m) (gmul 2) 1) with (gmul 2 (Nat.iter m (gmul 2) 1)).
        apply (gmul_small _) in IH as (_ & -> & _). apply u8_is_byte. }
    split; [vlia|by apply xor_bytes_bytes].
Qed.

Lemma key_expansion_loop_snoc rk i n :
  key_expansion_loop rk i (S n) = key_expansion_loop (key_expansion_loop rk i n) (i + n) 1.
Proof.
  revert rk i. induction n as [|n IH]; intros rk i; [by rewrite Nat.add_0_r|].
  transitivity (key_expansion_loop (key_expansion_loop rk i 1) (i + 1) (S n)); [done|].
  rewrite IH. replace (i + 1 + n)%nat with (i + S n)%nat by lia. done.
Qed.

(** One iteration appends the next word of the schedule. *)
Lemma key_expansion_step key n :
  is_block key -> (n < 40)%nat ->
  key_expansion_loop (concat (fips_schedule key n)) (4 + n) 1 = concat (fips_schedule key (S n)).
Proof.
  intros Hk Hn. destruct (schedule_words key n Hk) as [Hl Hw].
  assert (Forall (fun w => length w = 4%nat) (fips_schedule key n)) as Hw4
    by (eapply Forall_impl; [exact Hw|by intros w []]).
  assert (forall j, (j < n + 4)%nat -> exists w, fips_schedule key n !! j = Some w /\ is_word w) as Hj.
  { intros j Hj. destruct (lookup_lt_is_Some_2 (fips_schedule key n) j) as [w Ew]; [lia|].
    exists w. split; [done|]. by eapply Forall_lookup_1. }
  destruct (Hj (n + 4 - 1)%nat ltac:(lia)) as (t & Et & Htl & Htb).
  destruct (Hj (n + 4 - 4)%nat ltac:(lia)) as (p & Ep & Hpl & Hpb).
  cbn [fips_schedule key_expansion_loop]. rewrite concat_app. cbn [concat]. rewrite app_nil_r.
  set (rk := concat (fips_schedule key n)) in *.
  assert (take 4 (drop ((4 + n - 1) * 4) rk) = t) as ->.
  { replace ((4 + n - 1) * 4)%nat with (4 * (n + 4 - 1))%nat by lia. by apply block_at. }
  assert (forall k, (k < 4)%nat -> rk !!! ((4 + n - 4) * 4 + k)%nat = p !!! k) as Hp.
  { intros k Hk4. rewrite <- (block_at 4 _ _ _ Hw4 Ep) at 1. fold rk.
    rewrite !list_lookup_total_alt, lookup_take_lt, lookup_drop by lia. do 3 f_equal. lia. }
  rewrite !Hp by lia. rewrite (list_lookup_total_correct _ _ _ Et).
  rewrite (list_lookup_total_correct _ _ _ Ep), (Nat.add_comm 4 n). f_equal.
  destruct t as [|t0 [|t1 [|t2 [|t3 [|]]]]]; try done.
  destruct p as [|p0 [|p1 [|p2 [|p3 [|]]]]]; try done.
  repeat match goal with H : Forall _ (_ :: _) |- _ => inv H end.
  destruct ((n + 4) mod 4 =?n 0); [|done].
  unfold rot_word. cbn [app drop take lookup_total list_lookup_total].
  rewrite <- (sub_bytes_fips [_; _; _; _]) by all_bytes.
  assert (aes_rcon !!! ((n + 4) / 4)%nat = rcon ((n + 4) / 4)) as ->.
  { assert (1 <= (n + 4) / 4 <= 10)%nat as Hr by lia. revert Hr.
    generalize ((n + 4) / 4)%nat. intros r Hr.
    do 11 (destruct r as [|r]; [lia || (vm_compute; reflexivity)|]). lia. }
  unfold aes_sub_bytes, xor_bytes. cbn. by rewrite !Z.lxor_0_r.
Qed.

Lemma key_expansion_fips key :
  is_block key -> aes_key_expansion key = concat (fips_schedule key 40).
Proof.
  intros Hk. unfold aes_key_expansion.
  assert (take 16 key = concat (fips_schedule key 0)) as ->.
  { destruct Hk as [Hl _]. destruct (list16 key Hl) as (?&?&?&?&?&?&?&?&?&?&?&?&?&?&?&?&->). done. }
  assert (forall n, (n <= 40)%nat ->
    key_expansion_loop (concat (fips_schedule key 0)) 4 n = concat (fips_schedule key n)) as H;
    [|by apply H].
  induction n as [|n IH]; intros Hn; [done|].
  rewrite key_expansion_loop_snoc, IH by lia. apply key_expansion_step; [done|lia].
Qed.

Lemma round_key_fips key r :
  is_block key -> (r <= 10)%nat ->
  take 16 (drop (r * 16) (aes_key_expansion key)) = fips_round_key key r
  /\ is_block (fips_round_key key r).
Proof.
  intros Hk Hr. destruct (schedule_words key 40 Hk) as [Hl Hw].
  assert (Forall (fun w => length w = 4%nat) (fips_schedule key 40)) as Hw4
    by (eapply Forall_impl; [exact Hw|by intros w []]).
  rewrite key_expansion_fips by done. unfold fips_round_key. split.
  - replace (r * 16)%nat with (4 * (4 * r))%nat by lia.
    rewrite drop_concat_blocks by done. apply (take_concat_blocks 4 _ 4). by apply Forall_drop.
  - assert (Forall is_word (take 4 (drop (4 * r) (fips_schedule key 40)))) as Hf
      by by apply Forall_take, Forall_drop.
    split.
    + rewrite (length_concat_blocks 4) by (eapply Forall_impl; [exact Hf|by intros w []]). vlia.
    + apply Forall_concat. eapply Forall_impl; [exact Hf|by intros w []].
Qed.

Lemma aes_round_fips key s r :
  is_block key -> is_block s -> (r <= 10)%nat ->
  aes_round (aes_key_expansion key) s r = fips_round key s r /\ is_block (fips_round key s r).
Proof.
  intros Hk Hs Hr. destruct (round_key_fips key r Hk Hr) as [Erk Hrk].
  assert (aes_round (aes_key_expansion key) s r = fips_round key s r) as E.
  { unfold aes_round, fips_round, aes_add_round_key. rewrite Erk.
    pose proof (sub_bytes_block _ Hs) as H1. pose proof (shift_rows_block _ H1) as H2.
    destruct Hs as [? ?], H1 as [? ?], H2 as [? ?].
    by rewrite mix_columns_fips, shift_rows_fips, sub_bytes_fips. }
  split; [done|]. rewrite <- E. unfold aes_round, aes_add_round_key. rewrite Erk.
  apply xor_block; [|done]. by apply mix_columns_block, shift_rows_block, sub_bytes_block.
Qed.

Lemma aes_encrypt_fips key inp :
  is_block key -> is_block inp ->
  ue_aes128_ecb_encrypt key inp = fips197_encrypt key inp
  /\ is_block (ue_aes128_ecb_encrypt key inp).
Proof.
  intros Hk Hi. unfold ue_aes128_ecb_encrypt, fips197_encrypt, aes_add_round_key.
  destruct (round_key_fips key 0 Hk ltac:(lia)) as [E0 H0]. change (0 * 16)%nat with 0%nat in E0.
  rewrite drop_0 in E0.
  destruct (round_key_fips key 10 Hk ltac:(lia)) as [E10 H10]. cbn [Nat.mul Nat.add] in E10.
  rewrite E0, E10. rewrite (take_ge inp) by (destruct Hi; lia).
  set (s := xor_bytes inp _). assert (is_block s) as Hs by by apply xor_block.
  assert (forall l s, Forall (fun r => r <= 10)%nat l -> is_block s ->
    foldl (aes_round (aes_key_expansion key)) s l = foldl (fips_round key) s l
    /\ is_block (foldl (fips_round key) s l)) as Hf.
  { clear -Hk. induction l as [|r l IH]; intros s Hl Hs; [done|]. inv Hl. cbn [foldl].
    destruct (aes_round_fips key s r) as [-> Hb]; [done..|]. by apply IH. }
  destruct (Hf (seq 1 9) s) as [-> Hb]; [repeat constructor; lia|done|].
  pose proof (sub_bytes_block _ Hb) as H1. pose proof (shift_rows_block _ H1) as H2.
  split; [|by apply xor_block].
  rewrite shift_rows_fips by by destruct H1. by rewrite sub_bytes_fips by by destruct Hb.
Qed.

(** ** Properties *)

(** The AES-128 routine is the FIPS-197 cipher.  For every 16-byte key and
    block, table lookups, in-place row shifts, column mixing and the byte-wise
    key schedule compute the cipher of the standard, whose S-box is the
    inverse in GF(2^8) followed by the affine map. *)
Lemma aes_refines_fips197 key inp :
  is_block key -> is_block inp -> ue_aes128_ecb_encrypt key inp = fips197_encrypt key inp.
Proof. intros Hk Hi. by apply aes_encrypt_fips. Qed.

