(* ===== verification/Sha256.v ===== *)
(** SHA-256 and HMAC-SHA-256: sections 2 and 3 of
    [src/src/ue_engine/ue_nas_security.c].

    Words are 32-bit integers with the wrap-around of every addition written
    out.  The specification is FIPS 180-4: the constants are computed from the
    primes, the compression function is written with the standard's functions, and
    it is folded over the blocks of the padded message. *)

From S2P Require Import Prelude Aes.

(** A row of eight 32-bit constants, as one number. *)
Definition words8 (row : Z) : list Z :=
  (fun i => u32 (row ≫ (32 * Z.of_nat (7 - i)))) <$> seq 0 8.

(** The table [sha256_k], a source line of eight entries per row. *)
Definition sha256_k : list Z := Eval vm_compute in
  concat (words8 <$>
    [0x428a2f9871374491b5c0fbcfe9b5dba53956c25b59f111f1923f82a4ab1c5ed5;
     0xd807aa9812835b01243185be550c7dc372be5d7480deb1fe9bdc06a7c19bf174;
     0xe49b69c1efbe47860fc19dc6240ca1cc2de92c6f4a7484aa5cb0a9dc76f988da;
     0x983e5152a831c66db00327c8bf597fc7c6e00bf3d5a7914706ca635114292967;
     0x27b70a852e1b21384d2c6dfc53380d13650a7354766a0abb81c2c92e92722c85;
     0xa2bfe8a1a81a664bc24b8b70c76c51a3d192e819d6990624f40e3585106aa070;
     0x19a4c1161e376c082748774c34b0bcb5391c0cb34ed8aa4a5b9cca4f682e6ff3;
     0x748f82ee78a5636f84c878148cc7020890befffaa4506cebbef9a3f7c67178f2]).

(** [ROR32(x, n)] on a [uint32_t]. *)
Definition ROR32 (x n : Z) : Z := (x ≫ n) |. u32 (x ≪ (32 - n)).

(** [~x] on a [uint32_t]. *)
Definition not32 (x : Z) : Z := 4294967295 - x.

Definition block_word (block : bytes) (i : nat) : Z :=
  ((block !!! (i * 4)%nat) ≪ 24) |. ((block !!! (i * 4 + 1)%nat) ≪ 16)
  |. ((block !!! (i * 4 + 2)%nat) ≪ 8) |. (block !!! (i * 4 + 3)%nat).

(** Iterations [i .. i + n - 1] of the message schedule; [w] holds the words
    so far. *)
Fixpoint schedule_loop (w : list Z) (i n : nat) : list Z :=
  match n with
  | O => w
  | S n' =>
    let w15 := w !!! (i - 15)%nat in
    let w2 := w !!! (i - 2)%nat in
    let s0 := ROR32 w15 7 ^. ROR32 w15 18 ^. (w15 ≫ 3) in
    let s1 := ROR32 w2 17 ^. ROR32 w2 19 ^. (w2 ≫ 10) in
    schedule_loop (w ++ [u32 (w !!! (i - 16)%nat + s0 + w !!! (i - 7)%nat + s1)]) (i + 1) n'
  end.

Record sha_regs := Regs { ra : Z; rb : Z; rc : Z; rd : Z; re : Z; rf : Z; rg : Z; rhh : Z }.

Definition sha_round (w : list Z) (r : sha_regs) (i : nat) : sha_regs :=
  let '(Regs a b c d e f g hh) := r in
  let S1 := ROR32 e 6 ^. ROR32 e 11 ^. ROR32 e 25 in
  let ch := (e &. f) ^. (not32 e &. g) in
  let t1 := u32 (hh + S1 + ch + sha256_k !!! i + w !!! i) in
  let S0 := ROR32 a 2 ^. ROR32 a 13 ^. ROR32 a 22 in
  let maj := (a &. b) ^. (a &. c) ^. (b &. c) in
  let t2 := u32 (S0 + maj) in
  Regs (u32 (t1 + t2)) a b c (u32 (d + t1)) e f g.

Definition sha256_transform (h : list Z) (block : bytes) : list Z :=
  let w := schedule_loop (block_word block <$> seq 0 16) 16 48 in
  let r0 := Regs (h !!! 0%nat) (h !!! 1%nat) (h !!! 2%nat) (h !!! 3%nat)
                 (h !!! 4%nat) (h !!! 5%nat) (h !!! 6%nat) (h !!! 7%nat) in
  let '(Regs a b c d e f g hh) := foldl (sha_round w) r0 (seq 0 64) in
  [u32 (h !!! 0%nat + a); u32 (h !!! 1%nat + b); u32 (h !!! 2%nat + c); u32 (h !!! 3%nat + d);
   u32 (h !!! 4%nat + e); u32 (h !!! 5%nat + f); u32 (h !!! 6%nat + g); u32 (h !!! 7%nat + hh)].

Definition sha256_h0 : list Z :=
  [0x6a09e667; 0xbb67ae85; 0x3c6ef372; 0xa54ff53a;
   0x510e527f; 0x9b05688c; 0x1f83d9ab; 0x5be0cd19].

(** [for (i = 0; i < blocks; i++) sha256_transform(h, msg + i * 64)]. *)
Definition sha256_full_blocks (h : list Z) (msg : bytes) (blocks : nat) : list Z :=
  foldl (fun h i => sha256_transform h (take 64 (drop (i * 64) msg))) h (seq 0 blocks).

(** [block[56 .. 63] = bit_len], big-endian. *)
Definition put_bit_len (block : bytes) (bit_len : Z) : bytes := take 56 block ++ be_list 8 bit_len.

Definition sha256 (msg : bytes) : bytes :=
  let len := length msg in
  let blocks := (len / 64)%nat in
  let h := sha256_full_blocks sha256_h0 msg blocks in
  let rem := (len mod 64)%nat in
  let block := replicate 64 0 in
  let block := if 0 <?n rem then over (take rem (drop (blocks * 64) msg)) block else block in
  let block := <[rem := 0x80]> block in
  let '(h, block) :=
    if 56 <=?n rem then (sha256_transform h block, replicate 64 0) else (h, block) in
  let bit_len := u64 (u64 (Z.of_nat len) * 8) in
  let h := sha256_transform h (put_bit_len block bit_len) in
  concat (be_list 4 <$> h).

(** [inner_buf] holds 64 + 8192 bytes; a longer message is left out. *)
Definition ue_hmac_sha256 (key msg : bytes) : bytes :=
  let k_pad := if 64 <?n length key
               then over (sha256 key) (replicate 64 0) else over key (replicate 64 0) in
  let ipad := (fun b => b ^. 0x36) <$> k_pad in
  let inner_hash :=
    if Z.of_nat (length msg) <=? 8192 then sha256 (ipad ++ msg) else sha256 ipad in
  sha256 (((fun b => b ^. 0x5c) <$> k_pad) ++ inner_hash).

(** ** FIPS 180-4

    The standard in its own terms: the constants are computed from the primes,
    rotations are arithmetic, and nothing is shared with the code above but the
    record of the eight working variables. *)

(** The first [n] prime numbers, of those below 400. *)
Definition primes (n : nat) : list Z :=
  take n (filter (fun p => forallb (fun d => negb (p mod d =? 0)) (seqZ 2 (p - 2)) = true) (seqZ 2 400)).

(** The integer cube root, by its [n] binary digits from the highest. *)
Fixpoint cube_root_from (n : nat) (r x : Z) : Z :=
  match n with
  | O => r
  | S n =>
    let r' := r + 2 ^ Z.of_nat n in
    cube_root_from n (if r' ^ 3 <=? x then r' else r) x
  end.

(** The first 32 bits of the fractional part of the cube root, and of the square root. *)
Definition fips_K : list Z := (fun p => cube_root_from 40 0 (p * 2 ^ 96) mod 2 ^ 32) <$> primes 64.
Definition fips_H0 : list Z := (fun p => Z.sqrt (p * 2 ^ 64) mod 2 ^ 32) <$> primes 8.

Definition ROTR (n x : Z) : Z := x / 2 ^ n + (x mod 2 ^ n) * 2 ^ (32 - n).
Definition SHR (n x : Z) : Z := x / 2 ^ n.
Definition Ch (x y z : Z) : Z := Z.lxor (Z.land x y) (Z.land (Z.lxor x (2 ^ 32 - 1)) z).
Definition Maj (x y z : Z) : Z := Z.lxor (Z.lxor (Z.land x y) (Z.land x z)) (Z.land y z).
Definition Sigma0 (x : Z) : Z := Z.lxor (Z.lxor (ROTR 2 x) (ROTR 13 x)) (ROTR 22 x).
Definition Sigma1 (x : Z) : Z := Z.lxor (Z.lxor (ROTR 6 x) (ROTR 11 x)) (ROTR 25 x).
Definition sigma0 (x : Z) : Z := Z.lxor (Z.lxor (ROTR 7 x) (ROTR 18 x)) (SHR 3 x).
Definition sigma1 (x : Z) : Z := Z.lxor (Z.lxor (ROTR 17 x) (ROTR 19 x)) (SHR 10 x).

(** The message schedule, one word after the other. *)
Definition fips_W_step (M W : list Z) (t : nat) : list Z :=
  W ++ [if (t <? 16)%nat then M !!! t
        else (sigma1 (W !!! (t - 2)%nat) + W !!! (t - 7)%nat + sigma0 (W !!! (t - 15)%nat)
              + W !!! (t - 16)%nat) mod 2 ^ 32].
Definition fips_W (M : list Z) : list Z := foldl (fips_W_step M) [] (seq 0 64).

Definition fips_step (W : list Z) (v : sha_regs) (t : nat) : sha_regs :=
  let T1 := (rhh v + Sigma1 (re v) + Ch (re v) (rf v) (rg v) + fips_K !!! t + W !!! t) mod 2 ^ 32 in
  let T2 := (Sigma0 (ra v) + Maj (ra v) (rb v) (rc v)) mod 2 ^ 32 in
  {| ra := (T1 + T2) mod 2 ^ 32; rb := ra v; rc := rb v; rd := rc v;
     re := (rd v + T1) mod 2 ^ 32; rf := re v; rg := rf v; rhh := rg v |}.

(** The 16 big-endian words of a block of 64 bytes. *)
Definition fips_words (block : bytes) : list Z := (fun i => be_val (take 4 (drop (4 * i) block))) <$> seq 0 16.

Definition fips_compress (H : list Z) (block : bytes) : list Z :=
  let v0 := Regs (H !!! 0%nat) (H !!! 1%nat) (H !!! 2%nat) (H !!! 3%nat)
                 (H !!! 4%nat) (H !!! 5%nat) (H !!! 6%nat) (H !!! 7%nat) in
  let v := foldl (fips_step (fips_W (fips_words block))) v0 (seq 0 64) in
  zip_with (fun h x => (h + x) mod 2 ^ 32) H [ra v; rb v; rc v; rd v; re v; rf v; rg v; rhh v].

(** The message followed by 0x80, zeros and the 64-bit length in bits. *)
Definition sha_padding (len : nat) : bytes :=
  0x80 :: replicate ((119 - len mod 64) mod 64) 0 ++ be_list 8 (8 * Z.of_nat len).

(** The first [n] blocks of [k] bytes. *)
Definition blocks_of (k n : nat) (m : bytes) : list bytes :=
  (fun i => take k (drop (i * k) m)) <$> seq 0 n.

Definition sha256_spec (msg : bytes) : bytes :=
  let padded := msg ++ sha_padding (length msg) in
  concat (be_list 4 <$> foldl fips_compress fips_H0 (blocks_of 64 (length padded / 64) padded)).

Example sha256_abc :
  sha256 (str "abc")
  = be_list 32 0xba7816bf8f01cfea414140de5dae2223b00361a396177a9cb410ff61f20015ad.
Proof. vm_compute. reflexivity. Qed.

Example sha256_two_blocks :
  sha256 (str "abcdbcdecdefdefgefghfghighijhijkijkljklmklmnlmnomnopnopq")
  = be_list 32 0x248d6a61d20638b8e5c026930c3e6039a33ce45964ff2167f6ecedd419db06c1.
Proof. vm_compute. reflexivity. Qed.

(** RFC 4231, test case 2. *)
Example hmac_rfc4231_2 :
  ue_hmac_sha256 (str "Jefe") (str "what do ya want for nothing?")
  = be_list 32 0x5bdcc146bf60754e6a042426089575c75a003f089d2739839dec58b964ec3843.
Proof. vm_compute. reflexivity. Qed.

(** ** Lemmas *)

Lemma blocks_of_app k n m r :
  (n * k <= length m)%nat -> blocks_of k n (m ++ r) = blocks_of k n m.
Proof.
  intros Hn. unfold blocks_of. apply list_fmap_ext. intros i j Hi.
  apply lookup_seq in Hi as [-> Hi]. simpl.
  rewrite drop_app_le, take_app_le; [done|rewrite length_drop; nia|nia].
Qed.

Lemma blocks_of_add k a b m :
  blocks_of k (a + b) m = blocks_of k a m ++ blocks_of k b (drop (a * k) m).
Proof.
  unfold blocks_of. rewrite seq_app, fmap_app. f_equal.
  replace (0 + a)%nat with (a + 0)%nat by lia.
  rewrite <- (fmap_add_seq a 0 b), <- list_fmap_compose. apply list_fmap_ext. intros i j Hi. simpl.
  rewrite drop_drop. do 2 f_equal. lia.
Qed.

Lemma full_blocks_fold h msg n :
  sha256_full_blocks h msg n = foldl sha256_transform h (blocks_of 64 n msg).
Proof. unfold sha256_full_blocks, blocks_of. by rewrite foldl_fmap. Qed.

(** The block buffer after copying the tail and the 0x80 byte. *)
Lemma tail_block (rest : bytes) :
  (length rest < 64)%nat ->
  <[length rest := 0x80]> (if 0 <?n length rest then over rest (replicate 64 0) else replicate 64 0)
  = rest ++ 0x80 :: replicate (63 - length rest) 0.
Proof.
  intros Hr. replace (if 0 <?n length rest then over rest (replicate 64 0) else replicate 64 0)
    with (over rest (replicate 64 0)) by (destruct rest; done).
  unfold over. rewrite drop_replicate.
  rewrite insert_app_r_alt, Nat.sub_diag by lia.
  by replace (64 - length rest)%nat with (S (63 - length rest)) by lia.
Qed.

Lemma bit_len_bytes len : be_list 8 (u64 (u64 (Z.of_nat len) * 8)) = be_list 8 (8 * Z.of_nat len).
Proof.
  unfold u64. rewrite (be_list_mod_ge 8 8 _ ltac:(lia) : be_list 8 (_ mod 18446744073709551616) = _).
  rewrite <- (be_list_mod_ge 8 8) by lia. rewrite <- (be_list_mod_ge 8 8 (8 * _)) by lia.
  f_equal. simpl (256 ^ _). lia.
Qed.

Lemma sha_padded_blocks (msg : bytes) :
  let q := (length msg / 64)%nat in
  let rest := drop (q * 64) msg in
  let bits := be_list 8 (8 * Z.of_nat (length msg)) in
  let padded := msg ++ sha_padding (length msg) in
  blocks_of 64 (length padded / 64) padded
  = blocks_of 64 q msg
    ++ (if 56 <=?n length rest
        then [rest ++ 0x80 :: replicate (63 - length rest) 0; replicate 56 0 ++ bits]
        else [rest ++ 0x80 :: replicate (55 - length rest) 0 ++ bits]).
Proof.
  cbv zeta. set (q := (length msg / 64)%nat). set (rest := drop (q * 64) msg).
  assert (length rest = length msg mod 64)%nat as Hrest by (subst rest q; rewrite length_drop; lia).
  assert (length rest < 64)%nat by lia.
  set (bits := be_list 8 _). assert (length bits = 8%nat) as Hbits by done.
  set (pad := sha_padding (length msg)).
  assert (pad = 0x80 :: replicate ((119 - length rest) mod 64) 0 ++ bits) as Epad
    by (unfold pad, sha_padding; by rewrite <- Hrest).
  assert (drop (q * 64) (msg ++ pad) = rest ++ pad) as Edrop
    by (rewrite drop_app_le; [done|subst q; lia]).
  destruct (Nat.leb_spec 56 (length rest)) as [Hbig|Hsmall].
  - assert ((119 - length rest) mod 64 = (63 - length rest) + 56)%nat as Ez
      by (rewrite Nat.mod_small; lia).
    rewrite Ez, replicate_add, <- app_assoc in Epad.
    assert (length (msg ++ pad) / 64 = q + 2)%nat as ->.
    { rewrite length_app, Epad. vlia. }
    rewrite blocks_of_add, blocks_of_app, Edrop, Epad by (subst q; lia). f_equal.
    unfold blocks_of. cbn [seq fmap list_fmap]. change (0 * 64)%nat with 0%nat. rewrite drop_0.
    set (b1 := rest ++ 128 :: replicate (63 - length rest) 0).
    replace (rest ++ 128 :: replicate (63 - length rest) 0 ++ replicate 56 0 ++ bits)
      with (b1 ++ (replicate 56 0 ++ bits)) by (unfold b1; by rewrite <- app_assoc).
    assert (length b1 = 64%nat) as Hb1 by (unfold b1; vlia).
    rewrite take_app_length' by done. rewrite drop_app_length' by (rewrite Hb1; lia).
    by rewrite take_ge by (rewrite length_app, Hbits; done).
  - assert ((119 - length rest) mod 64 = 55 - length rest)%nat as Ez.
    { replace (119 - length rest)%nat with (55 - length rest + 1 * 64)%nat by lia.
      rewrite Nat.Div0.mod_add, Nat.mod_small; lia. }
    rewrite Ez in Epad.
    assert (length (msg ++ pad) / 64 = q + 1)%nat as ->.
    { rewrite length_app, Epad. vlia. }
    rewrite blocks_of_add, blocks_of_app, Edrop, Epad by (subst q; lia). f_equal.
    unfold blocks_of. cbn [seq fmap list_fmap]. change (0 * 64)%nat with 0%nat. rewrite drop_0.
    by rewrite take_ge by vlia.
Qed.

Lemma length_sha256_transform h b : length (sha256_transform h b) = 8%nat.
Proof.
  unfold sha256_transform.
  by destruct (foldl (sha_round _) _ _).
Qed.

Lemma sha256_digest msg : length (sha256 msg) = 32%nat /\ Forall is_byte (sha256 msg).
Proof.
  unfold sha256. cbv zeta.
  match goal with |- context [let '(h, block) := ?p in _] => destruct p as [h0 b0] end.
  set (blk := put_bit_len _ _). pose proof (length_sha256_transform h0 blk) as Hh. split.
  - rewrite (length_concat_blocks 4); [rewrite length_fmap, Hh; done|].
    apply Forall_fmap, Forall_forall. intros x _. apply length_be_list.
  - apply Forall_concat, Forall_fmap, Forall_forall. intros x _. apply be_list_bytes.
Qed.

Lemma hmac_digest key msg :
  length (ue_hmac_sha256 key msg) = 32%nat /\ Forall is_byte (ue_hmac_sha256 key msg).
Proof. apply sha256_digest. Qed.

(** ** Properties *)

(** ** The compression function *)

Definition is_word (x : Z) : Prop := 0 <= x < 2 ^ 32.

Lemma mod_word x : is_word (x mod 2 ^ 32).
Proof. unfold is_word. by apply Z.mod_pos_bound. Qed.

Lemma u32_word x : is_word (u32 x).
Proof. apply u32_range. Qed.

Lemma cube_root_from_spec n r x :
  0 <= r -> r ^ 3 <= x < (r + 2 ^ Z.of_nat n) ^ 3 ->
  let c := cube_root_from n r x in 0 <= c /\ c ^ 3 <= x < (c + 1) ^ 3.
Proof.
  revert r. induction n as [|n IH]; intros r Hr Hx; cbn [cube_root_from]; [done|]. cbv zeta.
  pose proof (Z.pow_pos_nonneg 2 (Z.of_nat n) ltac:(lia) ltac:(lia)).
  replace (2 ^ Z.of_nat (S n)) with (2 ^ Z.of_nat n + 2 ^ Z.of_nat n) in Hx
    by (rewrite Nat2Z.inj_succ, Z.pow_succ_r by lia; lia).
  rewrite Z.add_assoc in Hx. bcase; apply IH; lia.
Qed.

(** The tables of the code are those of the standard. *)
Lemma sha256_k_fips : sha256_k = fips_K.
Proof. vm_compute. reflexivity. Qed.
Lemma sha256_h0_fips : sha256_h0 = fips_H0.
Proof. vm_compute. reflexivity. Qed.

Lemma h0_words : Forall is_word sha256_h0.
Proof. unfold sha256_h0. repeat apply Forall_cons_2; try apply Forall_nil_2; unfold is_word; lia. Qed.

Lemma ROR32_ROTR x n : is_word x -> 0 < n < 32 -> ROR32 x n = ROTR n x.
Proof.
  unfold is_word. intros Hx Hn. unfold ROR32, ROTR, u32.
  rewrite Z.shiftl_mul_pow2, Z.shiftr_div_pow2 by lia.
  change 4294967296 with (2 ^ 32). replace (2 ^ 32) with (2 ^ n * 2 ^ (32 - n)) at 1
    by (rewrite <- Z.pow_add_r by lia; f_equal; lia).
  pose proof (Z.pow_pos_nonneg 2 n ltac:(lia) ltac:(lia)).
  pose proof (Z.pow_pos_nonneg 2 (32 - n) ltac:(lia) ltac:(lia)).
  rewrite Z.mul_mod_distr_r by lia.
  rewrite Z.lor_comm, <- Z.shiftl_mul_pow2 by lia. rewrite lor_shiftl_add; [rewrite ?Z.shiftl_mul_pow2 by lia; lia|lia|].
  split; [apply Z.div_pos; lia|]. apply Z.div_lt_upper_bound; [lia|].
  rewrite <- Z.pow_add_r by lia. replace (n + (32 - n)) with 32 by lia. lia.
Qed.

Lemma not32_lxor x : is_word x -> not32 x = Z.lxor x (2 ^ 32 - 1).
Proof.
  unfold is_word, not32. intros Hx. change 4294967295 with (Z.ones 32). change (2 ^ 32 - 1) with (Z.ones 32).
  assert (forall i, 32 <= i -> Z.testbit x i = false) as Hhigh.
  { intros i Hi. rewrite <- (Z.mod_small x (2 ^ 32)) by lia. by apply Z.mod_pow2_bits_high. }
  rewrite Z.sub_nocarry_ldiff; apply Z.bits_inj'; intros i Hi.
  - rewrite Z.ldiff_spec, Z.lxor_spec. destruct (Z.lt_ge_cases i 32).
    + rewrite Z.ones_spec_low by lia. by destruct (Z.testbit x i).
    + rewrite Z.ones_spec_high, Hhigh by lia. done.
  - rewrite Z.ldiff_spec, Z.bits_0. destruct (Z.lt_ge_cases i 32).
    + rewrite Z.ones_spec_low by lia. apply andb_false_r.
    + by rewrite Hhigh by lia.
Qed.

Lemma words_lookup (w : list Z) i : Forall is_word w -> is_word (w !!! i).
Proof.
  intros Hw. rewrite list_lookup_total_alt. destruct (w !! i) as [x|] eqn:E; [|unfold is_word; done].
  exact (Forall_lookup_1 _ _ _ _ Hw E).
Qed.

(** The loop of the schedule appends the words of the standard. *)
Lemma schedule_loop_fips M w i n :
  (16 <= i)%nat -> Forall is_word w ->
  schedule_loop w i n = foldl (fips_W_step M) w (seq i n).
Proof.
  revert w i. induction n as [|n IH]; intros w i Hi Hw; [done|]. cbn [schedule_loop seq foldl]. cbv zeta.
  assert (w ++ [u32 (w !!! (i - 16)%nat + (ROR32 (w !!! (i - 15)%nat) 7 ^. ROR32 (w !!! (i - 15)%nat) 18
      ^. (w !!! (i - 15)%nat ≫ 3)) + w !!! (i - 7)%nat + (ROR32 (w !!! (i - 2)%nat) 17
      ^. ROR32 (w !!! (i - 2)%nat) 19 ^. (w !!! (i - 2)%nat ≫ 10)))] = fips_W_step M w i) as <-.
  { unfold fips_W_step. replace (i <? 16)%nat with false by (symmetry; apply Nat.ltb_ge; lia).
    do 2 f_equal. rewrite !ROR32_ROTR by (first [by apply words_lookup|lia]).
    unfold u32, sigma0, sigma1, SHR. rewrite !Z.shiftr_div_pow2 by lia. change (2 ^ 32) with 4294967296.
    f_equal. lia. }
  rewrite Nat.add_1_r. apply IH; [lia|]. apply Forall_app. split; [done|]. apply Forall_singleton, u32_word.
Qed.

Lemma block_word_fips block i :
  Forall is_byte block -> (i * 4 + 4 <= length block)%nat ->
  block_word block i = be_val (take 4 (drop (4 * i) block)).
Proof.
  intros Hb Hl. unfold block_word. rewrite be_word4 by (by apply lookup_total_byte). f_equal.
  apply list_eq. intros j. destruct (Nat.lt_ge_cases j 4).
  - rewrite lookup_take_lt, lookup_drop by lia.
    rewrite (list_lookup_lookup_total_lt block (4 * i + j)) by lia.
    do 4 (destruct j as [|j]; [cbn; do 2 f_equal; lia|]). lia.
  - rewrite lookup_ge_None_2 by (cbn; lia). symmetry. apply lookup_ge_None_2. rewrite length_take. lia.
Qed.

Lemma fips_words_spec block :
  Forall is_byte block -> length block = 64%nat ->
  block_word block <$> seq 0 16 = fips_words block /\ Forall is_word (fips_words block).
Proof.
  intros Hb Hl. split.
  - apply list_fmap_ext. intros ? i Hi. apply lookup_seq in Hi as [-> Hi]. apply block_word_fips; [done|lia].
  - apply Forall_fmap, Forall_forall. intros i Hi. apply elem_of_seq in Hi. cbn [compose].
    pose proof (be_val_range (take 4 (drop (4 * i) block)) ltac:(by apply Forall_take, Forall_drop)) as H.
    rewrite length_take, length_drop in H. replace (4 `min` (length block - 4 * i))%nat with 4%nat in H by lia.
    exact H.
Qed.

Lemma W_steps_words M w ts : Forall is_word M -> Forall is_word w -> Forall is_word (foldl (fips_W_step M) w ts).
Proof.
  intros HM. revert w. induction ts as [|t ts IH]; intros w Hw; [done|]. cbn [foldl]. apply IH.
  apply Forall_app. split; [done|]. apply Forall_singleton. case_match; [by apply words_lookup|apply mod_word].
Qed.

Lemma schedule_fips block :
  Forall is_byte block -> length block = 64%nat ->
  schedule_loop (block_word block <$> seq 0 16) 16 48 = fips_W (fips_words block)
  /\ Forall is_word (fips_W (fips_words block)).
Proof.
  intros Hb Hl. destruct (fips_words_spec block Hb Hl) as [-> Hw].
  split; [|by apply W_steps_words]. rewrite (schedule_loop_fips (fips_words block)) by (done || lia).
  unfold fips_W. change (seq 0 64) with (seq 0 16 ++ seq 16 48). rewrite foldl_app. reflexivity.
Qed.

Definition regs_ok (r : sha_regs) : Prop :=
  is_word (ra r) /\ is_word (rb r) /\ is_word (rc r) /\ is_word (rd r)
  /\ is_word (re r) /\ is_word (rf r) /\ is_word (rg r) /\ is_word (rhh r).

Lemma sha_round_fips w r t :
  regs_ok r -> sha_round w r t = fips_step w r t /\ regs_ok (fips_step w r t).
Proof.
  destruct r as [a b c d e f g h]. intros (Ha & Hb & Hc & Hd & He & Hf & Hg & Hh). cbn [ra rb rc rd re rf rg rhh] in *.
  split; [|unfold regs_ok, fips_step; cbn [ra rb rc rd re rf rg rhh]; split_and!; done || apply mod_word].
  unfold sha_round, fips_step, Sigma0, Sigma1, Ch, Maj. cbn [ra rb rc rd re rf rg rhh].
  rewrite !ROR32_ROTR by (done || lia). rewrite not32_lxor by done. rewrite sha256_k_fips. reflexivity.
Qed.

Lemma sha_rounds_fips w r ts :
  regs_ok r -> foldl (sha_round w) r ts = foldl (fips_step w) r ts.
Proof.
  revert r. induction ts as [|t ts IH]; intros r Hr; [done|]. cbn [foldl].
  destruct (sha_round_fips w r t Hr) as [-> H]. by apply IH.
Qed.

Lemma transform_fips h block :
  Forall is_byte block -> length block = 64%nat -> Forall is_word h -> length h = 8%nat ->
  sha256_transform h block = fips_compress h block
  /\ Forall is_word (sha256_transform h block) /\ length (sha256_transform h block) = 8%nat.
Proof.
  intros Hb Hl Hh H8. unfold sha256_transform, fips_compress. cbv zeta.
  destruct (schedule_fips block Hb Hl) as [-> Hw].
  rewrite sha_rounds_fips by (unfold regs_ok; cbn [ra rb rc rd re rf rg rhh]; split_and!; by apply words_lookup).
  destruct (foldl _ _ _) as [a b c d e f g hh]. cbn [ra rb rc rd re rf rg rhh].
  split; [|split; [repeat constructor; apply u32_word|done]].
  by do 9 (destruct h as [|? h]; [done || discriminate|]).
Qed.

Lemma transforms_fips blocks h :
  Forall (fun b => Forall is_byte b /\ length b = 64%nat) blocks -> Forall is_word h -> length h = 8%nat ->
  foldl sha256_transform h blocks = foldl fips_compress h blocks.
Proof.
  intros Hbs. revert h. induction Hbs as [|b bs [Hb Hl] _ IH]; intros h Hh H8; [done|]. cbn [foldl].
  destruct (transform_fips h b Hb Hl Hh H8) as (E & Hw & H). rewrite <- E. by apply IH.
Qed.

(** The block loop, the padding in one or two extra blocks and the length
    field fold the compression function over the blocks of the padded message. *)
Lemma sha256_blocks msg :
  sha256 msg
  = let padded := msg ++ sha_padding (length msg) in
    concat (be_list 4 <$> foldl sha256_transform sha256_h0 (blocks_of 64 (length padded / 64) padded)).
Proof.
  unfold sha256. cbv zeta. rewrite sha_padded_blocks. cbv zeta.
  rewrite foldl_app, <- full_blocks_fold.
  set (q := (length msg / 64)%nat). set (rest := drop (q * 64) msg).
  assert (length rest = length msg mod 64)%nat as Hrest by (subst rest q; rewrite length_drop; lia).
  assert (length rest < 64)%nat by lia.
  rewrite <- Hrest, (take_ge rest) by lia. rewrite tail_block by done.
  unfold put_bit_len. rewrite bit_len_bytes. set (bits := be_list 8 _).
  set (h := sha256_full_blocks _ _ _).
  destruct (Nat.leb_spec 56 (length rest)) as [Hbig|Hsmall].
  { cbn [foldl]. change (take 56 (replicate 64 0)) with (replicate 56 (0 : Z)). reflexivity. }
  cbn [foldl]. enough (take 56 (rest ++ 128 :: replicate (63 - length rest) 0)
    = rest ++ 128 :: replicate (55 - length rest) 0) as -> by by rewrite <- app_assoc.
  rewrite take_app_ge by lia.
  replace (56 - length rest)%nat with (S (55 - length rest)) by lia.
  cbn [firstn]. rewrite take_replicate. do 3 f_equal. lia.
Qed.

(** The SHA-256 routine is the hash of FIPS 180-4. *)
Lemma sha256_refines msg : Forall is_byte msg -> sha256 msg = sha256_spec msg.
Proof.
  intros Hm. rewrite sha256_blocks. unfold sha256_spec. cbv zeta. set (padded := msg ++ _).
  assert (Forall is_byte padded) as Hp.
  { apply Forall_app. split; [done|]. constructor; [unfold is_byte; lia|]. apply Forall_app.
    split; [apply Forall_replicate; unfold is_byte; lia|apply be_list_bytes]. }
  rewrite <- sha256_h0_fips. f_equal. f_equal. apply transforms_fips; [|apply h0_words|reflexivity].
  apply Forall_forall. intros b Hb. apply list_elem_of_fmap in Hb as (i & -> & Hi). apply elem_of_seq in Hi.
  split; [by apply Forall_take, Forall_drop|]. rewrite length_take, length_drop.
  pose proof (Nat.Div0.mul_div_le (length padded) 64). nia.
Qed.
