(* ===== verification/NasCrypto.v ===== *)
(** AES-CMAC, AES-CTR, Milenage and the 3GPP key derivation: sections 4 to 7 of
    [src/src/ue_engine/ue_nas_security.c].

    The specifications are RFC 4493 (CMAC over a message cut into blocks, the
    sub-keys as doublings in GF(2^128)), counter mode as a keystream, and
    TS 35.206 (the Milenage functions as one formula with constants). *)

From S2P Require Import Prelude Aes Sha256.

(** ** AES-CMAC *)

(** [for (i = 15; i >= 0; i--) { out[i] = (in[i] << 1) | carry; carry = ...; }]
    as a recursion over the bytes: the shifted list and the carry out of it. *)
Fixpoint shift_left_loop (inp : bytes) : bytes * Z :=
  match inp with
  | [] => ([], 0)
  | b :: inp' =>
    let '(out, carry) := shift_left_loop inp' in
    (u8 ((b ≪ 1) |. carry) :: out, if b &. 0x80 =? 0 then 0 else 1)
  end.

Definition cmac_shift_left (inp : bytes) : bytes :=
  let out := (shift_left_loop (take 16 inp)).1 in
  if inp !!! 0%nat &. 0x80 =? 0 then out else <[15%nat := (out !!! 15%nat) ^. 0x87]> out.

(** [for (i = 0; i < n - 1; i++)]: the chaining value after the first blocks. *)
Definition cbc_loop (key msg x : bytes) (n : nat) : bytes :=
  foldl (fun x i => ue_aes128_ecb_encrypt key (xor_bytes x (take 16 (drop (i * 16) msg))))
    x (seq 0 n).

Definition ue_aes_cmac (key msg : bytes) : bytes :=
  let msg_len := length msg in
  let l := ue_aes128_ecb_encrypt key (replicate 16 0) in
  let k1 := cmac_shift_left l in
  let k2 := cmac_shift_left k1 in
  let n := ((msg_len + 15) / 16)%nat in
  let '(n, flag) := if n =?n 0 then (1%nat, false) else (n, msg_len mod 16 =?n 0) in
  let m_last :=
    if flag then xor_bytes (take 16 (drop ((n - 1) * 16) msg)) k1
    else
      let rem := (msg_len mod 16)%nat in
      let m := replicate 16 0 in
      let m := if 0 <?n rem then over (take rem (drop ((n - 1) * 16) msg)) m else m in
      xor_bytes (<[rem := 0x80]> m) k2 in
  let x := cbc_loop key msg (replicate 16 0) (n - 1) in
  ue_aes128_ecb_encrypt key (xor_bytes x m_last).

(** ** AES-128-CTR *)

(** [for (k = 15; k >= 12; k--) { ctr[k]++; if (ctr[k] != 0) break; }]. *)
Fixpoint ctr_inc (ctr : bytes) (k n : nat) : bytes :=
  match n with
  | O => ctr
  | S n' =>
    let ctr := <[k := u8 (ctr !!! k + 1)]> ctr in
    if negb (ctr !!! k =? 0) then ctr else ctr_inc ctr (k - 1) n'
  end.

(** One iteration per block of 16 bytes; [n] blocks cover the data. *)
Fixpoint ctr_loop (key ctr data : bytes) (n : nat) : bytes :=
  match n with
  | O => data
  | S n' =>
    let ks := ue_aes128_ecb_encrypt key ctr in
    xor_bytes (take 16 data) ks ++ ctr_loop key (ctr_inc ctr 15 4) (drop 16 data) n'
  end.

Definition aes128_ctr (key iv data : bytes) : bytes :=
  ctr_loop key (take 16 iv) data ((length data + 15) / 16).

(** ** Milenage *)

Definition milenage_rotate (inp : bytes) (r : nat) : bytes :=
  (fun i => inp !!! ((i + r) mod 16)%nat) <$> seq 0 16.

Definition ue_milenage_opc (k op : bytes) : bytes := xor_bytes (ue_aes128_ecb_encrypt k op) op.

Record ue_milenage_result := MilenageResult {
  mil_res : bytes; mil_ck : bytes; mil_ik : bytes; mil_ak : bytes; mil_ak_star : bytes;
  mil_mac_a : bytes; mil_mac_s : bytes }.

(** [tmp[15] ^= c]. *)
Definition xor_last (s : bytes) (c : Z) : bytes := <[15%nat := (s !!! 15%nat) ^. c]> s.

(** The whole computation on non-null arguments (the callers pass arrays). *)
Definition ue_milenage_compute (opc k rand sqn amf : bytes) : ue_milenage_result :=
  let temp := ue_aes128_ecb_encrypt k (xor_bytes rand opc) in
  (* f1, f1* *)
  let in1 := take 6 sqn ++ take 2 amf ++ take 6 sqn ++ take 2 amf in
  let tmp1 := xor_bytes in1 opc in
  let tmp3 := milenage_rotate tmp1 8 in
  let tmp3 := xor_bytes tmp3 temp in
  let tmp1 := ue_aes128_ecb_encrypt k tmp3 in
  let tmp1 := xor_bytes tmp1 opc in
  let mac_a := take 8 tmp1 in
  let mac_s := drop 8 tmp1 in
  (* f2, f5 *)
  let tmp1 := xor_bytes temp opc in
  let tmp1 := xor_last tmp1 0x01 in
  let tmp2 := ue_aes128_ecb_encrypt k tmp1 in
  let tmp2 := xor_bytes tmp2 opc in
  let ak := take 6 tmp2 in
  let res := drop 8 tmp2 in
  (* f3 *)
  let tmp1 := xor_bytes temp opc in
  let tmp3 := milenage_rotate tmp1 4 in
  let tmp3 := xor_last tmp3 0x02 in
  let ck := xor_bytes (ue_aes128_ecb_encrypt k tmp3) opc in
  (* f4 *)
  let tmp3 := milenage_rotate tmp1 8 in
  let tmp3 := xor_last tmp3 0x04 in
  let ik := xor_bytes (ue_aes128_ecb_encrypt k tmp3) opc in
  (* f5* *)
  let tmp3 := milenage_rotate tmp1 12 in
  let tmp3 := xor_last tmp3 0x08 in
  let tmp2 := xor_bytes (ue_aes128_ecb_encrypt k tmp3) opc in
  MilenageResult res ck ik ak (take 6 tmp2) mac_a mac_s.

(** ** Key derivation *)

(** One parameter of the KDF input: appended with its length when the pointer
    is not null and the length not zero.  The buffer [s] has 512 bytes. *)
Definition kdf_param (s : bytes) (p : option bytes) (l : Z) : option bytes :=
  match p with
  | Some p =>
    if 0 <? l then
      v ← slice p 0 (Z.to_nat l);
      let s := s ++ v ++ [u8 (l ≫ 8); u8 l] in
      if length s <=?n 512 then Some s else None
    else Some s
  | None => Some s
  end.

Definition ue_3gpp_kdf (key : bytes) (fc : Z) (p0 : option bytes) (l0 : Z)
    (p1 : option bytes) (l1 : Z) : option bytes :=
  s ← kdf_param [fc] p0 l0;
  s ← kdf_param s p1 l1;
  Some (ue_hmac_sha256 key s).

Definition kdf_3p (key : bytes) (fc : Z) (p0 : option bytes) (l0 : Z)
    (p1 : option bytes) (l1 : Z) (p2 : option bytes) (l2 : Z) : option bytes :=
  s ← kdf_param [fc] p0 l0;
  s ← kdf_param s p1 l1;
  s ← kdf_param s p2 l2;
  Some (ue_hmac_sha256 key s).

#[local] Set Primitive Projections.

Record ue_nas_keys := NasKeys {
  k_kausf : bytes; k_kseaf : bytes; k_kamf : bytes;
  k_knas_int : bytes; k_knas_enc : bytes; k_res_star : bytes }.

Definition nas_keys_zero : ue_nas_keys :=
  NasKeys (replicate 32 0) (replicate 32 0) (replicate 32 0)
          (replicate 16 0) (replicate 16 0) (replicate 16 0).

(** Returns the C result and the key structure; [None] is a buffer overrun. *)
Definition ue_nas_derive_keys (ck ik ak rand res sqn snn supi abba : option bytes)
    (abba_len : nat) (int_alg_id enc_alg_id : Z) (out : ue_nas_keys)
    : option (Z * ue_nas_keys) :=
  match ck, ik, ak, sqn, snn with
  | Some ck, Some ik, Some ak, Some sqn, Some snn =>
    let out := nas_keys_zero in
    let ck_ik := take 16 ck ++ take 16 ik in
    let sqn_xor_ak := xor_bytes (take 6 sqn) (take 6 ak) in
    let snn_len := u16 (Z.of_nat (length snn)) in
    let supi_len := match supi with Some s => u16 (Z.of_nat (length s)) | None => 0 end in
    kausf ← ue_3gpp_kdf ck_ik 0x6A (Some snn) snn_len (Some sqn_xor_ak) 6;
    let out := out <| k_kausf := kausf |> in
    kseaf ← ue_3gpp_kdf (k_kausf out) 0x6C (Some snn) snn_len None 0;
    let out := out <| k_kseaf := kseaf |> in
    kamf ← ue_3gpp_kdf (k_kseaf out) 0x6D supi supi_len abba (u16 (Z.of_nat abba_len));
    let out := out <| k_kamf := kamf |> in
    kdf_out ← ue_3gpp_kdf (k_kamf out) 0x69 (Some [0x01]) 1 (Some [enc_alg_id]) 1;
    let out := out <| k_knas_enc := drop 16 kdf_out |> in
    kdf_out ← ue_3gpp_kdf (k_kamf out) 0x69 (Some [0x02]) 1 (Some [int_alg_id]) 1;
    let out := out <| k_knas_int := drop 16 kdf_out |> in
    match rand, res with
    | Some rand, Some res =>
      kdf_out ← kdf_3p ck_ik 0x6B (Some snn) snn_len (Some rand) 16 (Some res) 8;
      Some (0, out <| k_res_star := drop 16 kdf_out |>)
    | _, _ => Some (0, out)
    end
  | _, _, _, _, _ => Some (-1, out)
  end.

(** Returns the pair [(knas_int, knas_enc)]. *)
Definition ue_nas_derive_knas_from_kamf (kamf : bytes) (int_alg_id enc_alg_id : Z)
    : option (bytes * bytes) :=
  kdf_out ← ue_3gpp_kdf kamf 0x69 (Some [0x01]) 1 (Some [enc_alg_id]) 1;
  let knas_enc := drop 16 kdf_out in
  kdf_out ← ue_3gpp_kdf kamf 0x69 (Some [0x02]) 1 (Some [int_alg_id]) 1;
  let knas_int := drop 16 kdf_out in
  Some (knas_int, knas_enc).

(** ** Specifications *)

(** RFC 4493: doubling in GF(2^128). *)
Definition dbl128 (v : Z) : Z :=
  if v <? 2 ^ 127 then 2 * v else ((2 * v) mod 2 ^ 128) ^. 0x87.

(** RFC 4493: the message cut into blocks, the last one completed with 10...0
    and masked with K2, or masked with K1 if it is whole. *)
Definition cmac_last (k1 k2 last : bytes) : bytes :=
  if length last =?n 16 then xor_bytes last k1
  else xor_bytes (last ++ 0x80 :: replicate (15 - length last) 0) k2.

Definition cbc_mac (key : bytes) (blocks : list bytes) : bytes :=
  foldl (fun x m => ue_aes128_ecb_encrypt key (xor_bytes x m)) (replicate 16 0) blocks.

Definition cmac_spec (key : bytes) (blocks : list bytes) (last : bytes) : bytes :=
  let l := be_val (ue_aes128_ecb_encrypt key (replicate 16 0)) in
  let k1 := be_list 16 (dbl128 l) in
  let k2 := be_list 16 (dbl128 (dbl128 l)) in
  cbc_mac key (blocks ++ [cmac_last k1 k2 last]).

(** Counter mode: block [i] of the keystream encrypts the IV with its low 32
    bits advanced by [i]. *)
Definition ctr_block (iv : bytes) (i : nat) : bytes :=
  take 12 iv ++ be_list 4 (be_val (drop 12 iv) + Z.of_nat i).
Definition keystream (key iv : bytes) (n : nat) : bytes :=
  concat ((fun i => ue_aes128_ecb_encrypt key (ctr_block iv i)) <$> seq 0 n).

(** TS 35.206: OUT = E_K(rot(X ^ OPc, r) ^ Y ^ c) ^ OPc. *)
Definition milenage_out (k opc x y : bytes) (r : nat) (c : Z) : bytes :=
  xor_bytes (ue_aes128_ecb_encrypt k
    (xor_bytes (xor_bytes (milenage_rotate (xor_bytes x opc) r) y) (be_list 16 c))) opc.

(** RFC 4493, examples 1 to 3. *)
Example cmac_rfc4493_1 :
  ue_aes_cmac (be_list 16 0x2b7e151628aed2a6abf7158809cf4f3c) []
  = be_list 16 0xbb1d6929e95937287fa37d129b756746.
Proof. vm_compute. reflexivity. Qed.

Example cmac_rfc4493_3 :
  ue_aes_cmac (be_list 16 0x2b7e151628aed2a6abf7158809cf4f3c)
    (be_list 40 0x6bc1bee22e409f96e93d7e117393172aae2d8a571e03ac9c9eb76fac45af8e5130c81c46a35ce411)
  = be_list 16 0xdfa66747de9ae63030ca32611497c827.
Proof. vm_compute. reflexivity. Qed.

(** TS 35.208, test set 1. *)
Example milenage_set1 :
  let opc := ue_milenage_opc (be_list 16 0x465b5ce8b199b49faa5f0a2ee238a6bc)
                             (be_list 16 0xcdc202d5123e20f62b6d676ac72cb318) in
  let r := ue_milenage_compute opc (be_list 16 0x465b5ce8b199b49faa5f0a2ee238a6bc)
             (be_list 16 0x23553cbe9637a89d218ae64dae47bf35) (be_list 6 0xff9bb4d0b607)
             (be_list 2 0xb9b9) in
  opc = be_list 16 0xcd63cb71954a9f4e48a5994e37a02baf
  /\ mil_mac_a r = be_list 8 0x4a9ffac354dfafb3 /\ mil_mac_s r = be_list 8 0x01cfaf9ec4e871e9
  /\ mil_res r = be_list 8 0xa54211d5e3ba50bf
  /\ mil_ck r = be_list 16 0xb40ba9a3c58b2a05bbf0d987b21bf8cb
  /\ mil_ik r = be_list 16 0xf769bcd751044604127672711c6d3441
  /\ mil_ak r = be_list 6 0xaa689c648370 /\ mil_ak_star r = be_list 6 0x451e8beca43b.
Proof. vm_compute. repeat split. Qed.

(** ** Lemmas: doubling *)

Lemma be_val_app a b : be_val (a ++ b) = be_val a * 256 ^ Z.of_nat (length b) + be_val b.
Proof. unfold be_val at 1. rewrite foldl_app, be_val_foldl_acc. done. Qed.

Lemma be_val_snoc a x : be_val (a ++ [x]) = be_val a * 256 + x.
Proof. rewrite be_val_app. unfold be_val at 2. cbn. lia. Qed.

Lemma be_list_be_val l : Forall is_byte l -> be_list (length l) (be_val l) = l.
Proof.
  induction 1 as [|b l Hb Hl IH]; [done|]. cbn [length be_list].
  pose proof (be_val_range l Hl) as Hr. rewrite be_val_cons.
  assert (256 ^ Z.of_nat (length l) = 2 ^ (8 * Z.of_nat (length l))) as E
    by (change 256 with (2 ^ 8); rewrite <- Z.pow_mul_r; lia).
  f_equal.
  - rewrite shiftr_div, <- E by lia.
    rewrite Z.div_add_l, Z.div_small, Z.add_0_r by lia. by apply u8_small.
  - rewrite <- (be_list_mod_ge (length l) (length l)) by lia.
    rewrite Z.add_comm, Z.mod_add, Z.mod_small by lia. done.
Qed.

Lemma lxor_low p b c : is_byte b -> is_byte c -> (p * 256 + b) ^. c = p * 256 + (b ^. c).
Proof.
  intros Hb Hc. pose proof (lxor_byte b c Hb Hc) as Hbc. unfold is_byte in *.
  rewrite <- (lor_shiftl_add b p 8 ltac:(lia) ltac:(lia) : _ = p * 256 + b).
  rewrite <- (lor_shiftl_add (b ^. c) p 8 ltac:(lia) ltac:(lia) : _ = p * 256 + (b ^. c)).
  apply Z.bits_inj'. intros i Hi. rewrite !Z.lxor_spec, !Z.lor_spec, Z.lxor_spec.
  destruct (Z.lt_ge_cases i 8).
  - by rewrite !Z.shiftl_spec_low by lia.
  - rewrite <- (Z.mod_small b (2 ^ 8)), <- (Z.mod_small c (2 ^ 8)) by lia.
    rewrite !Z.mod_pow2_bits_high by lia. by rewrite xorb_false_r.
Qed.

Lemma shift_byte b c : is_byte b -> 0 <= c <= 1 ->
  u8 ((b ≪ 1) |. c) = (2 * b + c) mod 256
  /\ (if b &. 0x80 =? 0 then 0 else 1) = (2 * b + c) / 256.
Proof.
  intros Hb Hc. rewrite lor_shiftl_add by lia. split; [unfold u8; f_equal; lia|].
  assert ((b &. 0x80 =? 0) = (b <? 128)) as ->
    by (apply eqb_prop, (byte_forall (fun b => eqb (b &. 0x80 =? 0) (b <? 128))); done).
  unfold is_byte in Hb. destruct (Z.ltb_spec b 128); lia.
Qed.

(** The shift loop doubles the number and returns the carry. *)
Lemma shift_left_loop_val l :
  Forall is_byte l ->
  let '(out, c) := shift_left_loop l in
  be_val out + c * 256 ^ Z.of_nat (length l) = 2 * be_val l
  /\ length out = length l /\ Forall is_byte out /\ 0 <= c <= 1.
Proof.
  induction 1 as [|b l Hb Hl IH]; [done|]. cbn [shift_left_loop].
  destruct (shift_left_loop l) as [out c]. destruct IH as (IH & Hlen & Hout & Hc).
  destruct (shift_byte b c Hb Hc) as [-> ->].
  split; [|split; [simpl; lia|split; [constructor; [unfold is_byte; lia|done]|unfold is_byte in Hb; lia]]].
  rewrite !be_val_cons, Hlen. cbn [length].
  replace (Z.of_nat (S (length l))) with (Z.of_nat (length l) + 1) by lia.
  rewrite Z.pow_add_r by lia. nia.
Qed.

Lemma cmac_shift_left_dbl l :
  is_block l -> cmac_shift_left l = be_list 16 (dbl128 (be_val l))
  /\ is_block (cmac_shift_left l) .
Proof.
  intros [Hl Hb]. unfold cmac_shift_left. rewrite (take_ge l) by lia.
  pose proof (shift_left_loop_val l Hb) as H. destruct (shift_left_loop l) as [out c] eqn:Eout.
  destruct H as (Hv & Hlen & Hob & Hc). rewrite Hl in *. cbn [fst].
  pose proof (be_val_range out Hob) as Ho. pose proof (be_val_range l Hb) as Hlr.
  rewrite Hlen in Ho. rewrite Hl in Hlr. change (256 ^ Z.of_nat 16) with (2 ^ 128) in *.
  assert ((if l !!! 0%nat &. 128 =? 0 then 0 else 1) = c) as Ec.
  { destruct l as [|b l']; [done|]. cbn [shift_left_loop] in Eout.
    destruct (shift_left_loop l'). by injection Eout. }
  unfold dbl128. destruct (l !!! 0%nat &. 128 =? 0).
  - replace (be_val l <? 2 ^ 127) with true by lia. split; [|by split; [lia|]].
    replace (2 * be_val l) with (be_val out) by lia.
    rewrite <- Hlen. symmetry. by apply be_list_be_val.
  - replace (be_val l <? 2 ^ 127) with false by lia.
    replace ((2 * be_val l) mod 2 ^ 128) with (be_val out) by lia.
    destruct (list16 out Hlen) as (a0&a1&a2&a3&a4&a5&a6&a7&a8&a9&a10&a11&a12&a13&a14&x&->).
    set (pre := [a0; a1; a2; a3; a4; a5; a6; a7; a8; a9; a10; a11; a12; a13; a14]).
    change [a0; a1; a2; a3; a4; a5; a6; a7; a8; a9; a10; a11; a12; a13; a14; x] with (pre ++ [x]) in *.
    change (<[15%nat := _]> (pre ++ [x])) with (pre ++ [x ^. 0x87]).
    apply Forall_app in Hob as [Hp Hx]. inv Hx.
    assert (is_byte 0x87) as H87 by (unfold is_byte; lia).
    assert (Forall is_byte (pre ++ [x ^. 0x87])) as Hn by auto 10 with vlte.
    split; [|by split]. rewrite be_val_snoc, lxor_low, <- be_val_snoc by done.
    symmetry. exact (be_list_be_val (pre ++ [x ^. 0x87]) Hn).
Qed.

(** ** Lemmas: CMAC *)

#[local] Opaque ue_aes128_ecb_encrypt.

Lemma cbc_loop_blocks key blocks rest n :
  Forall (fun b => length b = 16%nat) blocks -> n = length blocks ->
  cbc_loop key (concat blocks ++ rest) (replicate 16 0) n = cbc_mac key blocks.
Proof.
  intros Hb ->. unfold cbc_loop, cbc_mac.
  rewrite <- (foldl_fmap (fun x m => ue_aes128_ecb_encrypt key (xor_bytes x m)) _
    (seq 0 (length blocks)) (fun i => take 16 (drop (i * 16) (concat blocks ++ rest)))).
  f_equal. apply list_eq. intros i.
  rewrite list_lookup_fmap. destruct (decide (i < length blocks)%nat) as [Hi|Hi].
  - rewrite lookup_seq_lt by done. destruct (lookup_lt_is_Some_2 blocks i Hi) as [w Hw].
    rewrite Hw. cbn. f_equal.
    assert (16 * S i <= 16 * length blocks)%nat by nia.
    rewrite drop_app_le, take_app_le.
    + rewrite Nat.mul_comm. by apply block_at.
    + rewrite length_drop, (length_concat_blocks 16) by done. lia.
    + rewrite (length_concat_blocks 16) by done. lia.
  - rewrite (proj2 (lookup_ge_None (seq 0 (length blocks)) i)) by (rewrite length_seq; lia).
    by rewrite lookup_ge_None_2 by lia.
Qed.

Lemma zeros_block : is_block (replicate 16 0).
Proof. split; [done|]. apply Forall_replicate. unfold is_byte. lia. Qed.

Lemma cmac_padded_last (last : bytes) :
  (length last < 16)%nat ->
  <[length last := 0x80]> (over last (replicate 16 0))
  = last ++ 0x80 :: replicate (15 - length last) 0.
Proof.
  intros Hr. unfold over. rewrite drop_replicate, insert_app_r_alt, Nat.sub_diag by lia.
  by replace (16 - length last)%nat with (S (15 - length last)) by lia.
Qed.

Lemma cmac_spec_eq key blocks last :
  is_block key -> Forall (fun b => length b = 16%nat) blocks ->
  (length last <= 16)%nat -> (last = [] -> blocks = []) ->
  ue_aes_cmac key (concat blocks ++ last) = cmac_spec key blocks last.
Proof.
  intros Hk Hb Hl He. unfold ue_aes_cmac, cmac_spec. cbv zeta.
  pose proof (proj2 (aes_encrypt_fips key _ Hk zeros_block)) as HL.
  set (l := ue_aes128_ecb_encrypt key (replicate 16 0)) in *.
  destruct (cmac_shift_left_dbl l HL) as [E1 H1].
  destruct (cmac_shift_left_dbl _ H1) as [E2 _].
  assert (be_val (cmac_shift_left l) = dbl128 (be_val l)) as Ev.
  { rewrite E1, be_val_be_list. apply Z.mod_small. unfold dbl128.
    pose proof (be_val_range l (proj2 HL)) as Hr. rewrite (proj1 HL) in Hr.
    change (256 ^ Z.of_nat 16) with (2 ^ 128) in Hr |- *. destruct (Z.ltb_spec (be_val l) (2 ^ 127)); [lia|].
    apply lxor_pow2_range; lia. }
  rewrite E2, Ev, E1.
  set (k1 := be_list 16 (dbl128 (be_val l))). set (k2 := be_list 16 (dbl128 (dbl128 _))).
  clearbody k1 k2. clear E1 E2 Ev H1 HL l.
  rewrite length_app, (length_concat_blocks 16) by done. set (nb := length blocks).
  unfold cbc_mac. rewrite foldl_app. cbn [foldl]. fold (cbc_mac key blocks).
  assert (drop (nb * 16) (concat blocks ++ last) = last) as Edrop.
  { rewrite drop_app_length'; [done|]. rewrite (length_concat_blocks 16) by done. lia. }
  unfold cmac_last.
  destruct (decide (last = [])) as [->|Hne].
  - specialize (He eq_refl). subst blocks. reflexivity.
  - assert (0 < length last)%nat by (destruct (Nat.eq_0_gt_0_cases (length last)) as [E0|]; [|done];
      by apply length_zero_iff_nil in E0).
    replace ((16 * nb + length last + 15) / 16)%nat with (nb + 1)%nat by lia.
    bdec. replace (nb + 1 - 1)%nat with nb by lia. rewrite Edrop, cbc_loop_blocks by done.
    destruct (Nat.eqb_spec (length last) 16) as [E16|N16].
    + bdec. by rewrite take_ge by lia.
    + bdec. replace ((16 * nb + length last) mod 16)%nat with (length last) by lia.
      by rewrite take_ge, cmac_padded_last by lia.
Qed.

(** The MAC is a block, whatever the message. *)
Lemma cbc_loop_block key msg n :
  is_block key -> Forall is_byte msg -> (16 * n <= length msg)%nat ->
  is_block (cbc_loop key msg (replicate 16 0) n).
Proof.
  intros Hk Hm. unfold cbc_loop. induction n as [|n IH]; intros Hn; [exact zeros_block|].
  rewrite seq_S, foldl_app. cbn [foldl].
  apply (aes_encrypt_fips key); [done|]. apply xor_block; [apply IH; lia|].
  split; [vlia|]. by apply Forall_take, Forall_drop.
Qed.

Lemma cmac_block key msg : is_block key -> Forall is_byte msg -> is_block (ue_aes_cmac key msg).
Proof.
  intros Hk Hm. unfold ue_aes_cmac. cbv zeta.
  pose proof (proj2 (aes_encrypt_fips key _ Hk zeros_block)) as HL.
  pose proof (proj2 (cmac_shift_left_dbl _ HL)) as H1.
  pose proof (proj2 (cmac_shift_left_dbl _ H1)) as H2.
  set (k1 := cmac_shift_left (ue_aes128_ecb_encrypt _ _)) in *.
  set (k2 := cmac_shift_left k1) in *. clearbody k1 k2. clear HL.
  assert (is_byte 0x80) as H80 by (unfold is_byte; lia).
  assert (forall r, (length r < 16)%nat -> Forall is_byte r ->
    is_block (xor_bytes (<[length r := 0x80]> (over r (replicate 16 0))) k2)) as Hlast.
  { intros r Hr Hb. apply xor_block; [|done]. split.
    - rewrite length_insert. unfold over. vlia.
    - apply Forall_insert; [|done]. unfold over. apply Forall_app. split; [done|].
      apply Forall_drop, zeros_block. }
  destruct (Nat.eqb_spec ((length msg + 15) / 16) 0) as [E|E].
  - apply (aes_encrypt_fips key); [done|]. apply xor_block; [exact zeros_block|].
    replace (length msg) with 0%nat by lia. apply (Hlast []); [simpl; lia|done].
  - set (n := ((length msg + 15) / 16)%nat) in *.
    apply (aes_encrypt_fips key); [done|].
    apply xor_block; [apply cbc_loop_block; [done|done|subst n; lia]|].
    destruct (Nat.eqb_spec (length msg mod 16) 0) as [Em|Em].
    + apply xor_block; [|done]. split; [subst n; vlia|]. by apply Forall_take, Forall_drop.
    + bdec. set (r := take (length msg mod 16) (drop ((n - 1) * 16) msg)).
      assert (length r = length msg mod 16)%nat as Hr by (subst r n; vlia).
      rewrite <- Hr. apply Hlast; [lia|]. by apply Forall_take, Forall_drop.
Qed.

(** ** Lemmas: counter mode *)

Lemma list12 (s : bytes) : length s = 12%nat ->
  exists a0 a1 a2 a3 b0 b1 b2 b3 c0 c1 c2 c3, s = [a0; a1; a2; a3; b0; b1; b2; b3; c0; c1; c2; c3].
Proof.
  intros H. do 12 (destruct s as [|? s]; [done|]). destruct s; [|done]. by do 12 eexists.
Qed.

(** A byte list is the big-endian form of any number with its value. *)
Lemma be_list_unique l v :
  Forall is_byte l -> be_val l = v mod 256 ^ Z.of_nat (length l) -> be_list (length l) v = l.
Proof.
  intros Hl Hv. rewrite <- (be_list_mod_ge (length l) (length l)), <- Hv by lia.
  by apply be_list_be_val.
Qed.

(** The increment loop adds one to the low 32 bits. *)
Lemma ctr_inc_word pre w :
  length pre = 12%nat -> length w = 4%nat -> Forall is_byte w ->
  ctr_inc (pre ++ w) 15 4 = pre ++ be_list 4 (be_val w + 1).
Proof.
  intros Hp Hw Hb. destruct (list12 pre Hp) as (?&?&?&?&?&?&?&?&?&?&?&?&->).
  destruct w as [|a [|b [|c [|d [|]]]]]; try done.
  repeat match goal with H : Forall _ (_ :: _) |- _ => inv H end. unfold is_byte in *.
  set (w' := if d <? 255 then [a; b; c; d + 1] else if c <? 255 then [a; b; c + 1; 0]
             else if b <? 255 then [a; b + 1; 0; 0] else [u8 (a + 1); 0; 0; 0]).
  assert (length w' = 4%nat /\ Forall is_byte w' /\ be_val w' = (be_val [a; b; c; d] + 1) mod 2 ^ 32)
    as (Hl & Hby & Hv).
  { subst w'. unfold be_val, u8.
    destruct (Z.ltb_spec d 255); [|destruct (Z.ltb_spec c 255); [|destruct (Z.ltb_spec b 255)]];
      (split; [done|split; [repeat (constructor; [unfold is_byte; lia|]); constructor|cbn [foldl]; lia]]). }
  pose proof (be_list_unique w' (be_val [a; b; c; d] + 1) Hby) as E. rewrite Hl in E.
  rewrite (E Hv). clear E. subst w'. cbn -[u8 Z.add].
  destruct (Z.ltb_spec d 255).
  { rewrite u8_small by lia. by replace (d + 1 =? 0) with false by lia. }
  replace d with 255 by lia. change (u8 (255 + 1)) with 0. cbn -[u8 Z.add].
  destruct (Z.ltb_spec c 255).
  { rewrite u8_small by lia. by replace (c + 1 =? 0) with false by lia. }
  replace c with 255 by lia. change (u8 (255 + 1)) with 0. cbn -[u8 Z.add].
  destruct (Z.ltb_spec b 255).
  { rewrite u8_small by lia. by replace (b + 1 =? 0) with false by lia. }
  replace b with 255 by lia. change (u8 (255 + 1)) with 0. cbn -[u8 Z.add].
  by destruct (negb _).
Qed.

Lemma ctr_block_next iv i :
  is_block iv -> ctr_inc (ctr_block iv i) 15 4 = ctr_block iv (S i).
Proof.
  intros [Hl Hb]. unfold ctr_block.
  rewrite ctr_inc_word by (rewrite ?length_be_list, ?length_take; auto using be_list_bytes with lia).
  f_equal. rewrite be_val_be_list. rewrite <- (be_list_mod_ge 4 4), <- (be_list_mod_ge 4 4 (_ + _)) by done.
  f_equal. change (256 ^ Z.of_nat 4) with (2 ^ 32). lia.
Qed.

Lemma ctr_block_block iv i : is_block iv -> is_block (ctr_block iv i).
Proof.
  intros [Hl Hb]. unfold ctr_block. split; [vlia|].
  apply Forall_app. split; [by apply Forall_take|apply be_list_bytes].
Qed.

Lemma xor_bytes_app a b c d :
  length a = length c -> xor_bytes (a ++ b) (c ++ d) = xor_bytes a c ++ xor_bytes b d.
Proof. apply zip_with_app. Qed.

Lemma keystream_from key iv i n :
  is_block key -> is_block iv ->
  length (concat ((fun i => ue_aes128_ecb_encrypt key (ctr_block iv i)) <$> seq i n)) = (16 * n)%nat.
Proof.
  intros Hk Hi. rewrite (length_concat_blocks 16), length_fmap, length_seq; [done|].
  apply Forall_fmap, Forall_forall. intros j _. simpl.
  by apply (aes_encrypt_fips key _ Hk (ctr_block_block iv j Hi)).
Qed.

Lemma ctr_loop_stream key iv data i n :
  is_block key -> is_block iv -> (length data <= 16 * n)%nat ->
  ctr_loop key (ctr_block iv i) data n
  = xor_bytes data (concat ((fun i => ue_aes128_ecb_encrypt key (ctr_block iv i)) <$> seq i n)).
Proof.
  intros Hk Hi. revert data i. induction n as [|n IH]; intros data i Hd.
  { destruct data; [done|simpl in Hd; lia]. }
  cbn [ctr_loop seq]. rewrite fmap_cons. cbn [concat]. rewrite ctr_block_next by done.
  rewrite IH by (rewrite length_drop; lia).
  set (e := ue_aes128_ecb_encrypt key (ctr_block iv i)).
  assert (length e = 16%nat) as He by by apply (aes_encrypt_fips key _ Hk (ctr_block_block iv i Hi)).
  destruct (decide (16 <= length data)%nat) as [H16|H16].
  - rewrite <- (take_drop 16 data) at 3. rewrite xor_bytes_app; [done|]. vlia.
  - rewrite (take_ge data), (drop_ge data) by lia. cbn [xor_bytes zip_with]. rewrite app_nil_r.
    unfold xor_bytes. rewrite <- (app_nil_r data) at 2. rewrite <- (take_drop (length data) e) at 2.
    rewrite <- app_assoc, zip_with_app by (rewrite length_take; lia).
    cbn [zip_with]. rewrite app_nil_r.
    rewrite <- (take_drop (length data) e) at 1. rewrite <- (app_nil_r data) at 1.
    rewrite zip_with_app by (rewrite length_take; lia). cbn [zip_with]. by rewrite app_nil_r.
Qed.

Lemma aes128_ctr_stream key iv data :
  is_block key -> is_block iv ->
  aes128_ctr key iv data = xor_bytes data (keystream key iv ((length data + 15) / 16)).
Proof.
  intros Hk Hi. unfold aes128_ctr, keystream. rewrite <- ctr_loop_stream by (done || lia).
  f_equal. unfold ctr_block. destruct Hi as [Hl Hb]. rewrite take_ge, Z.add_0_r by lia.
  rewrite <- (take_drop 12 iv) at 1. f_equal.
  assert (length (drop 12 iv) = 4%nat) as H4 by (rewrite length_drop; lia).
  pose proof (be_list_be_val (drop 12 iv) (Forall_drop _ 12 _ Hb)) as E. rewrite H4 in E. by rewrite E.
Qed.

Lemma length_aes128_ctr key iv data :
  is_block key -> is_block iv -> length (aes128_ctr key iv data) = length data.
Proof.
  intros Hk Hi. rewrite aes128_ctr_stream by done. unfold keystream.
  rewrite length_xor_bytes, keystream_from by done. lia.
Qed.

Lemma aes128_ctr_bytes key iv data :
  is_block key -> is_block iv -> Forall is_byte data -> Forall is_byte (aes128_ctr key iv data).
Proof.
  intros Hk Hi Hd. rewrite aes128_ctr_stream by done. apply xor_bytes_bytes; [done|].
  apply Forall_concat, Forall_fmap, Forall_forall. intros j _. simpl.
  by apply (aes_encrypt_fips key _ Hk (ctr_block_block iv j Hi)).
Qed.

Lemma aes128_ctr_involutive key iv data :
  is_block key -> is_block iv -> aes128_ctr key iv (aes128_ctr key iv data) = data.
Proof.
  intros Hk Hi. rewrite (aes128_ctr_stream _ _ (aes128_ctr _ _ _)) by done.
  rewrite length_aes128_ctr by done. rewrite aes128_ctr_stream by done.
  apply xor_bytes_cancel. unfold keystream. rewrite keystream_from by done. lia.
Qed.

(** ** Lemmas: Milenage *)

Lemma xor_last_spec s c : length s = 16%nat -> is_byte c -> xor_last s c = xor_bytes s (be_list 16 c).
Proof.
  intros Hs Hc. destruct (list16 s Hs) as (?&?&?&?&?&?&?&?&?&?&?&?&?&?&?&?&->).
  assert (be_list 16 c = [0;0;0;0;0;0;0;0;0;0;0;0;0;0;0;c]) as ->.
  { apply (be_list_unique [0;0;0;0;0;0;0;0;0;0;0;0;0;0;0;c]).
    - repeat (apply Forall_cons_2; [unfold is_byte in *; lia|]). constructor.
    - change (256 ^ _) with (2 ^ 128). unfold is_byte in Hc. rewrite Z.mod_small by lia.
      unfold be_val. cbn. lia. }
  unfold xor_last, xor_bytes. cbn -[Z.lxor]. by rewrite !Z.lxor_0_r.
Qed.

Lemma xor_zeros s : length s = 16%nat -> xor_bytes s (replicate 16 0) = s.
Proof.
  intros Hs. destruct (list16 s Hs) as (?&?&?&?&?&?&?&?&?&?&?&?&?&?&?&?&->).
  unfold xor_bytes. cbn -[Z.lxor]. by rewrite !Z.lxor_0_r.
Qed.

Lemma length_rotate s r : length (milenage_rotate s r) = 16%nat.
Proof. done. Qed.

Lemma rotate_0 s : length s = 16%nat -> milenage_rotate s 0 = s.
Proof. intros Hs. destruct (list16 s Hs) as (?&?&?&?&?&?&?&?&?&?&?&?&?&?&?&?&->). reflexivity. Qed.

(** ** Properties *)

(** AES-CMAC is RFC 4493.  For every key and every message, cut into whole
    blocks and a last block (empty only for the empty message), the code
    computes the CBC-MAC with the sub-keys obtained by doubling in GF(2^128)
    and the 10...0 padding. *)
Lemma cmac_refines_rfc4493 key blocks last :
  is_block key -> Forall (fun b => length b = 16%nat) blocks ->
  (length last <= 16)%nat -> (last = [] -> blocks = []) ->
  ue_aes_cmac key (concat blocks ++ last) = cmac_spec key blocks last.
Proof. apply cmac_spec_eq. Qed.

(** Counter mode is a keystream cipher: the output is the data xored with
    the encryption of successive counter blocks (the low 32 bits of the IV
    advance by one per block, modulo 2^32); applying it twice gives the data
    back, for any length. *)
Lemma ctr_keystream_involutive key iv data :
  is_block key -> is_block iv ->
  aes128_ctr key iv data = xor_bytes data (keystream key iv ((length data + 15) / 16))
  /\ aes128_ctr key iv (aes128_ctr key iv data) = data.
Proof. intros Hk Hi. split; [by apply aes128_ctr_stream|by apply aes128_ctr_involutive]. Qed.

(** The Milenage routine computes f1 to f5* of TS 35.206: each output is
    E_K(rot(X ^ OPc, r) ^ Y ^ c) ^ OPc with the standard's rotations and
    constants, split into the documented parts. *)
Lemma milenage_refines opc k rand sqn amf :
  is_block opc -> is_block k -> is_block rand ->
  let temp := ue_aes128_ecb_encrypt k (xor_bytes rand opc) in
  let in1 := take 6 sqn ++ take 2 amf ++ take 6 sqn ++ take 2 amf in
  let zero := replicate 16 0 in
  let out1 := milenage_out k opc in1 temp 8 0 in
  let out2 := milenage_out k opc temp zero 0 1 in
  ue_milenage_compute opc k rand sqn amf
  = MilenageResult (drop 8 out2) (milenage_out k opc temp zero 4 2)
      (milenage_out k opc temp zero 8 4) (take 6 out2)
      (take 6 (milenage_out k opc temp zero 12 8)) (take 8 out1) (drop 8 out1).
Proof.
  intros Ho Hk Hr. cbv zeta. unfold ue_milenage_compute, milenage_out. cbv zeta.
  set (temp := ue_aes128_ecb_encrypt k (xor_bytes rand opc)).
  assert (is_block temp) as Ht by by apply aes_encrypt_fips, xor_block.
  assert (length (xor_bytes temp opc) = 16%nat) as Hx by by apply xor_block.
  rewrite !xor_zeros by (done || by rewrite rotate_0).
  rewrite rotate_0 by done.
  rewrite !xor_last_spec by (done || (unfold is_byte; lia)).
  change (be_list 16 0) with (replicate 16 (0 : Z)).
  rewrite (xor_zeros (xor_bytes (milenage_rotate _ 8) temp)); [done|].
  destruct Ht as [Htl _]. rewrite length_xor_bytes, Htl. done.
Qed.

Lemma length_xor a b : length a = length b -> length (xor_bytes a b) = length a.
Proof. intros. unfold xor_bytes. rewrite length_zip_with. lia. Qed.

(** The widths of the results, for any contents. *)
Lemma milenage_lengths opc k rand sqn amf :
  length opc = 16%nat -> length k = 16%nat -> length rand = 16%nat ->
  (6 <= length sqn)%nat -> (2 <= length amf)%nat ->
  let m := ue_milenage_compute opc k rand sqn amf in
  length (mil_res m) = 8%nat /\ length (mil_ck m) = 16%nat /\ length (mil_ik m) = 16%nat
  /\ length (mil_ak m) = 6%nat /\ length (mil_ak_star m) = 6%nat
  /\ length (mil_mac_a m) = 8%nat /\ length (mil_mac_s m) = 8%nat.
Proof.
  intros Ho Hk Hr Hs Ha. unfold ue_milenage_compute. cbv zeta.
  cbn [mil_res mil_ck mil_ik mil_ak mil_ak_star mil_mac_a mil_mac_s].
  set (temp := ue_aes128_ecb_encrypt k (xor_bytes rand opc)).
  assert (forall a b, length a = 16%nat -> length b = 16%nat -> length (xor_bytes a b) = 16%nat) as Hx
    by (intros; rewrite length_xor; congruence).
  assert (length temp = 16%nat) as Ht by (apply length_aes; auto).
  assert (forall x c, length x = 16%nat -> length (xor_last x c) = 16%nat) as Hl
    by (intros; unfold xor_last; by rewrite length_insert).
  assert (forall x, length x = 16%nat -> length (xor_bytes (ue_aes128_ecb_encrypt k x) opc) = 16%nat) as He
    by (intros; apply Hx; [by apply length_aes|done]).
  assert (forall i c, length (xor_bytes (ue_aes128_ecb_encrypt k
    (xor_last (milenage_rotate (xor_bytes temp opc) i) c)) opc) = 16%nat) as Hf
    by (intros; by apply He, Hl).
  rewrite !length_take, !length_drop, !Hf, !He by auto. lia.
Qed.

Lemma kdf_param_ok s p l :
  0 <= l -> (Z.to_nat l <= length p)%nat -> (length s + Z.to_nat l + 2 <= 512)%nat ->
  exists s', kdf_param s (Some p) l = Some s' /\ (length s' <= length s + Z.to_nat l + 2)%nat.
Proof.
  intros H0 Hl Hs. unfold kdf_param. bcase; [|exists s; split; [done|lia]].
  rewrite slice_in by lia. ob.
  assert (length (s ++ take (Z.to_nat l) (drop 0 p) ++ [u8 (l ≫ 8); u8 l])
          = length s + Z.to_nat l + 2)%nat as El by vlia.
  rewrite El. bdec. eexists. split; [reflexivity|]. rewrite El. done.
Qed.

#[local] Opaque ue_hmac_sha256.

Lemma knas_kdf kamf t a :
  ue_3gpp_kdf kamf 0x69 (Some [t]) 1 (Some [a]) 1
  = Some (ue_hmac_sha256 kamf [0x69; t; 0; 1; a; 0; 1]).
Proof. reflexivity. Qed.

Lemma kdf_ok key fc p0 l0 p1 l1 :
  0 <= l0 -> 0 <= l1 -> (Z.to_nat l0 <= length p0)%nat -> (Z.to_nat l1 <= length p1)%nat ->
  (Z.to_nat l0 + Z.to_nat l1 + 5 <= 512)%nat ->
  exists s, ue_3gpp_kdf key fc (Some p0) l0 (Some p1) l1 = Some (ue_hmac_sha256 key s).
Proof.
  intros. unfold ue_3gpp_kdf.
  destruct (kdf_param_ok [fc] p0 l0) as (s1 & -> & H1'); [simpl; lia..|]. ob.
  destruct (kdf_param_ok s1 p1 l1) as (s2 & -> & _); [simpl in *; lia..|]. by exists s2.
Qed.

Lemma kdf_ok_one key fc p0 l0 :
  0 <= l0 -> (Z.to_nat l0 <= length p0)%nat -> (Z.to_nat l0 + 3 <= 512)%nat ->
  exists s, ue_3gpp_kdf key fc (Some p0) l0 None 0 = Some (ue_hmac_sha256 key s).
Proof.
  intros. unfold ue_3gpp_kdf.
  destruct (kdf_param_ok [fc] p0 l0) as (s1 & -> & H1'); [simpl; lia..|]. by exists s1.
Qed.

Lemma kdf_3p_ok key fc p0 l0 p1 l1 p2 l2 :
  0 <= l0 -> 0 <= l1 -> 0 <= l2 -> (Z.to_nat l0 <= length p0)%nat ->
  (Z.to_nat l1 <= length p1)%nat -> (Z.to_nat l2 <= length p2)%nat ->
  (Z.to_nat l0 + Z.to_nat l1 + Z.to_nat l2 + 7 <= 512)%nat ->
  exists s, kdf_3p key fc (Some p0) l0 (Some p1) l1 (Some p2) l2 = Some (ue_hmac_sha256 key s).
Proof.
  intros. unfold kdf_3p.
  destruct (kdf_param_ok [fc] p0 l0) as (s1 & -> & H1'); [simpl; lia..|]. ob.
  destruct (kdf_param_ok s1 p1 l1) as (s2 & -> & H2'); [simpl in *; lia..|]. ob.
  destruct (kdf_param_ok s2 p2 l2) as (s3 & -> & _); [simpl in *; lia..|]. by exists s3.
Qed.

(** The derivation from the results of its KDF calls. *)
Lemma derive_keys_steps ck ik ak rand res sqn snn supi abba abba_len ia ea out kausf kseaf kamf e i r :
  let l := u16 (Z.of_nat (length snn)) in
  let ck_ik := take 16 ck ++ take 16 ik in
  ue_3gpp_kdf ck_ik 0x6A (Some snn) l (Some (xor_bytes (take 6 sqn) (take 6 ak))) 6 = Some kausf ->
  ue_3gpp_kdf kausf 0x6C (Some snn) l None 0 = Some kseaf ->
  ue_3gpp_kdf kseaf 0x6D (Some supi) (u16 (Z.of_nat (length supi))) (Some abba)
    (u16 (Z.of_nat abba_len)) = Some kamf ->
  ue_3gpp_kdf kamf 0x69 (Some [1]) 1 (Some [ea]) 1 = Some e ->
  ue_3gpp_kdf kamf 0x69 (Some [2]) 1 (Some [ia]) 1 = Some i ->
  kdf_3p ck_ik 0x6B (Some snn) l (Some rand) 16 (Some res) 8 = Some r ->
  ue_nas_derive_keys (Some ck) (Some ik) (Some ak) (Some rand) (Some res) (Some sqn) (Some snn)
    (Some supi) (Some abba) abba_len ia ea out
  = Some (0, NasKeys kausf kseaf kamf (drop 16 i) (drop 16 e) (drop 16 r))
  /\ ue_nas_derive_knas_from_kamf kamf ia ea = Some (drop 16 i, drop 16 e).
Proof.
  intros l ck_ik E1 E2 E3 E4 E5 E6.
  unfold ue_nas_derive_keys, ue_nas_derive_knas_from_kamf. fold l ck_ik.
  rewrite E1. ob. cbv [set_field k_kausf k_kseaf k_kamf]. rewrite E2. ob. rewrite E3. ob.
  rewrite E4. ob. rewrite E5. ob. rewrite E6. done.
Qed.

Lemma derive_keys_blocks ck ik ak rand res sqn snn supi abba abba_len ia ea out :
  (length snn <= 481)%nat -> (length supi <= 400)%nat -> (abba_len <= 16)%nat ->
  (abba_len <= length abba)%nat -> length rand = 16%nat -> length res = 8%nat ->
  (6 <= length ak)%nat -> (6 <= length sqn)%nat ->
  exists keys,
    ue_nas_derive_keys (Some ck) (Some ik) (Some ak) (Some rand) (Some res) (Some sqn) (Some snn)
      (Some supi) (Some abba) abba_len ia ea out = Some (0, keys)
    /\ ue_nas_derive_knas_from_kamf (k_kamf keys) ia ea = Some (k_knas_int keys, k_knas_enc keys)
    /\ length (k_kamf keys) = 32%nat /\ is_block (k_knas_int keys) /\ is_block (k_knas_enc keys)
    /\ is_block (k_res_star keys).
Proof.
  intros Hsnn Hsupi Habba Hal Hrand Hres Hak Hsqn.
  assert (forall m k, is_block (drop 16 (ue_hmac_sha256 m k))) as Hb.
  { intros m k. destruct (hmac_digest m k) as [Hl Hf]. split; [rewrite length_drop, Hl; done|].
    by apply Forall_drop. }
  destruct (kdf_ok (take 16 ck ++ take 16 ik) 0x6A snn (Z.of_nat (length snn))
    (xor_bytes (take 6 sqn) (take 6 ak)) 6) as (s1 & E1); [lia..|vlia|lia|].
  set (kausf := ue_hmac_sha256 _ s1) in E1.
  destruct (kdf_ok_one kausf 0x6C snn (Z.of_nat (length snn))) as (s2 & E2); [lia..|].
  set (kseaf := ue_hmac_sha256 _ s2) in E2.
  destruct (kdf_ok kseaf 0x6D supi (Z.of_nat (length supi)) abba (Z.of_nat abba_len))
    as (s3 & E3); [lia..|].
  set (kamf := ue_hmac_sha256 _ s3) in E3.
  destruct (kdf_3p_ok (take 16 ck ++ take 16 ik) 0x6B snn (Z.of_nat (length snn)) rand 16 res 8)
    as (s4 & E4); [simpl; lia..|].
  destruct (derive_keys_steps ck ik ak rand res sqn snn supi abba abba_len ia ea out
    kausf kseaf kamf _ _ _ ltac:(rewrite u16_small by lia; exact E1)
    ltac:(rewrite u16_small by lia; exact E2) ltac:(rewrite !u16_small by lia; exact E3)
    (knas_kdf _ _ _) (knas_kdf _ _ _) ltac:(rewrite u16_small by lia; exact E4)) as [Ek Ej].
  eexists. split; [exact Ek|]. cbn [k_kamf k_knas_int k_knas_enc k_res_star].
  split; [exact Ej|]. split; [apply hmac_digest|]. split; [apply Hb|]. split; apply Hb.
Qed.

(** The 5G key hierarchy.  For a serving network name of at most 481
    bytes, a SUPI of at most 400 and an ABBA of at most 16, the derivation
    stays inside its 512-byte buffer and succeeds; every key has its width,
    and the NAS keys are exactly those that [ue_nas_derive_knas_from_kamf]
    recomputes later from the stored KAMF for the same algorithms. *)
Lemma key_derivation_consistent ck ik ak rand res sqn snn supi abba abba_len ia ea out :
  (length snn <= 481)%nat -> (length supi <= 400)%nat -> (abba_len <= 16)%nat ->
  (abba_len <= length abba)%nat -> length rand = 16%nat -> length res = 8%nat ->
  (6 <= length ak)%nat -> (6 <= length sqn)%nat ->
  exists keys,
    ue_nas_derive_keys (Some ck) (Some ik) (Some ak) (Some rand) (Some res) (Some sqn) (Some snn)
      (Some supi) (Some abba) abba_len ia ea out = Some (0, keys)
    /\ ue_nas_derive_knas_from_kamf (k_kamf keys) ia ea = Some (k_knas_int keys, k_knas_enc keys)
    /\ length (k_kamf keys) = 32%nat /\ is_block (k_knas_int keys) /\ is_block (k_knas_enc keys)
    /\ is_block (k_res_star keys).
Proof. apply derive_keys_blocks. Qed.

(** ** Witnesses *)

Lemma block_const x : is_byte x -> is_block (replicate 16 x).
Proof. intros. split; [done|]. by apply Forall_replicate. Qed.

Example ctr_keystream_involutive_example :
  is_block (replicate 16 1)
  /\ aes128_ctr (replicate 16 1) (replicate 16 255)
       (aes128_ctr (replicate 16 1) (replicate 16 255) [1; 2; 3]) = [1; 2; 3].
Proof.
  split; [apply block_const; unfold is_byte; lia|].
  apply (ctr_keystream_involutive (replicate 16 1) (replicate 16 255) [1; 2; 3]);
    apply block_const; unfold is_byte; lia.
Defined.

Example milenage_refines_example :
  is_block (replicate 16 1)
  /\ mil_mac_a (ue_milenage_compute (replicate 16 1) (replicate 16 2) (replicate 16 3)
                  (replicate 6 0) [128; 0])
     = take 8 (milenage_out (replicate 16 2) (replicate 16 1)
         [0; 0; 0; 0; 0; 0; 128; 0; 0; 0; 0; 0; 0; 0; 128; 0]
         (ue_aes128_ecb_encrypt (replicate 16 2) (xor_bytes (replicate 16 3) (replicate 16 1))) 8 0).
Proof.
  assert (forall x, 0 <= x < 256 -> is_block (replicate 16 x)) as H
    by (intros; by apply block_const).
  split; [apply H; lia|].
  exact (f_equal mil_mac_a (milenage_refines (replicate 16 1) (replicate 16 2) (replicate 16 3)
    (replicate 6 0) [128; 0] (H 1 ltac:(lia)) (H 2 ltac:(lia)) (H 3 ltac:(lia)))).
Defined.

(** C36: the primitives under NAS security are those of their standards.  For every
    16-byte key and block the table-driven AES-128 is the FIPS-197 cipher, whose
    S-box is the inverse in GF(2^8) followed by the affine map; for every key and
    every message, cut into whole blocks and a last block, AES-CMAC is RFC 4493;
    and for every byte string SHA-256 is the hash of FIPS 180-4, whose constants
    are computed from the roots of the primes and whose schedule, compression
    function and padding are those of the standard. *)
Theorem crypto_refines_standards :
  (forall key inp, is_block key -> is_block inp -> ue_aes128_ecb_encrypt key inp = fips197_encrypt key inp)
  /\ (forall key blocks last, is_block key -> Forall (fun b => length b = 16%nat) blocks ->
       (length last <= 16)%nat -> (last = [] -> blocks = []) ->
       ue_aes_cmac key (concat blocks ++ last) = cmac_spec key blocks last)
  /\ (forall msg, Forall is_byte msg -> sha256 msg = sha256_spec msg).
Proof. split_and!; [apply aes_refines_fips197|apply cmac_refines_rfc4493|apply sha256_refines]. Qed.

Lemma crypto_refines_standards_witness :
  ue_aes128_ecb_encrypt (replicate 16 1) (replicate 16 7) = fips197_encrypt (replicate 16 1) (replicate 16 7)
  /\ ue_aes_cmac (replicate 16 1) (concat [replicate 16 7] ++ [9; 9])
     = cmac_spec (replicate 16 1) [replicate 16 7] [9; 9]
  /\ sha256 [0x61; 0x62; 0x63] = sha256_spec [0x61; 0x62; 0x63].
Proof.
  destruct crypto_refines_standards as (H1 & H2 & H3). split; [|split].
  - apply H1; apply block_const; unfold is_byte; lia.
  - apply H2; [apply block_const; unfold is_byte; lia|repeat constructor|simpl; lia|intros [=]].
  - apply H3. repeat apply Forall_cons_2; try apply Forall_nil_2; unfold is_byte; lia.
Defined.
