(* ===== verification/NasSecurity.v ===== *)
(** NAS integrity, ciphering and the security envelope: sections 8 and 9 of
    [src/src/ue_engine/ue_nas_security.c], the context of
    [src/src/ue_engine/ue_nas_security.h].

    The algorithm identifiers stay integers, as the decoder delivers them (0 to
    15).  A protected message is [EPD, SHT, MAC(4), SQN, payload]; the MAC covers
    the SQN and the payload as sent. *)

From S2P Require Import Prelude Aes Sha256 NasCrypto NasDefs.

Definition UE_NIA0 : Z := 0.
Definition UE_NIA2 : Z := 2.
Definition UE_NEA0 : Z := 0.
Definition UE_NEA2 : Z := 2.

#[local] Set Primitive Projections.

Record ue_nas_count := NasCount { overflow : Z; sqn : Z }.

Definition ue_nas_count_value (c : ue_nas_count) : Z := u32 (overflow c ≪ 8) |. sqn c.

Definition ue_nas_count_increment (c : ue_nas_count) : ue_nas_count :=
  let c := c <| sqn := u8 (sqn c + 1) |> in
  if sqn c =? 0 then c <| overflow := u16 (overflow c + 1) |> else c.

(** [struct ue_nas_security_ctx]. *)
Record ue_nas_security_ctx := SecCtx {
  sc_active : bool;
  sc_keys : ue_nas_keys;
  sc_int_alg : Z;
  sc_enc_alg : Z;
  sc_ul_count : ue_nas_count;
  sc_dl_count : ue_nas_count;
  sc_bearer : Z;
  sc_ngksi : Z;
  sc_milenage : ue_milenage_result;
  sc_rand : bytes;
  sc_sqn_xor_ak : bytes;
  sc_abba : bytes;
  sc_abba_len : Z }.

Definition milenage_zero : ue_milenage_result :=
  MilenageResult (replicate 8 0) (replicate 16 0) (replicate 16 0) (replicate 6 0)
    (replicate 6 0) (replicate 8 0) (replicate 8 0).

Definition sec_ctx_zero : ue_nas_security_ctx :=
  SecCtx false nas_keys_zero 0 0 (NasCount 0 0) (NasCount 0 0) 0 0 milenage_zero
    (replicate 16 0) (replicate 6 0) (replicate 16 0) 0.

(** [(bearer << 3) | ((direction & 1) << 2)] as a byte. *)
Definition bearer_octet (bearer direction : Z) : Z :=
  u8 ((bearer ≪ 3) |. ((direction &. 1) ≪ 2)).

(** The four bytes of a MAC as a [uint32_t]. *)
Definition mac_word (m : bytes) : Z :=
  ((m !!! 0%nat) ≪ 24) |. ((m !!! 1%nat) ≪ 16) |. ((m !!! 2%nat) ≪ 8) |. (m !!! 3%nat).

Definition count_octets (count : Z) : bytes :=
  [u8 (count ≫ 24); u8 (count ≫ 16); u8 (count ≫ 8); u8 count].

Definition ue_nas_compute_mac (alg count bearer direction : Z) (key msg : bytes) : Z :=
  if alg =? UE_NIA0 then 0
  else if alg =? UE_NIA2 then
    if 8192 <? Z.of_nat (length msg) then 0
    else
      let cmac_input := count_octets count ++ [bearer_octet bearer direction; 0; 0; 0] ++ msg in
      mac_word (ue_aes_cmac key cmac_input)
  else 0.

(** Returns the C result and the data, transformed in place. *)
Definition ue_nas_cipher (alg count bearer direction : Z) (key data : bytes) : Z * bytes :=
  if alg =? UE_NEA0 then (0, data)
  else if alg =? UE_NEA2 then
    let iv := count_octets count ++ [bearer_octet bearer direction] ++ replicate 11 0 in
    (0, aes128_ctr key iv data)
  else (-1, data).

(** Bytes [i .. i + n - 1] of the buffer being written. *)
Definition read_back (i n : nat) : W bytes := fun s =>
  match slice (wmem s) i n with Some l => Some (l, s) | None => None end.

(** Returns the C result, the buffer and the context ([ctx] is never null). *)
Definition ue_nas_security_protect_with_sht (buf : option bytes) (buf_len : nat)
    (ctx : ue_nas_security_ctx) (plain : option bytes) (plain_len : nat) (sht : Z)
    : option (Z * option bytes * ue_nas_security_ctx) :=
  match buf, plain with
  | Some b, Some p =>
    if negb (sc_active ctx) || (plain_len =?n 0) then Some (-1, buf, ctx) else
    if negb (sht =? NAS_SHT_INTEGRITY_PROTECTED) &&
       negb (sht =? NAS_SHT_INTEGRITY_PROTECTED_CIPHERED) &&
       negb (sht =? NAS_SHT_INTEGRITY_PROTECTED_NEW_CTX) &&
       negb (sht =? NAS_SHT_INTEGRITY_PROTECTED_CIPHERED_NEW_CTX)
    then Some (-1, buf, ctx) else
    let total := (7 + plain_len)%nat in
    if buf_len <?n total then Some (-1, buf, ctx) else
    let count := ue_nas_count_value (sc_ul_count ctx) in
    let sqn_byte := sqn (sc_ul_count ctx) in
    let cipher_payload := (sht =? NAS_SHT_INTEGRITY_PROTECTED_CIPHERED)
                          || (sht =? NAS_SHT_INTEGRITY_PROTECTED_CIPHERED_NEW_CTX) in
    let body : W unit :=
      store 0 NAS_EPD_5GMM;;
      store 1 sht;;
      store 6 sqn_byte;;
      (if plain_len <=?n length p then stores 7 (take plain_len p) else fun _ => None);;
      (if cipher_payload then
         d ← read_back 7 plain_len;
         stores 7 (ue_nas_cipher (sc_enc_alg ctx) count (sc_bearer ctx) 0
                     (k_knas_enc (sc_keys ctx)) d).2
       else mret tt);;
      m ← read_back 6 (1 + plain_len);
      let mac := ue_nas_compute_mac (sc_int_alg ctx) count (sc_bearer ctx) 0
                   (k_knas_int (sc_keys ctx)) m in
      store 2 (u8 (mac ≫ 24));;
      store 3 (u8 (mac ≫ 16));;
      store 4 (u8 (mac ≫ 8));;
      store 5 (u8 mac) in
    match body (St b 0) with
    | Some (_, s) =>
      Some (Z.of_nat total, Some (wmem s),
            ctx <| sc_ul_count := ue_nas_count_increment (sc_ul_count ctx) |>)
    | None => None
    end
  | _, _ => Some (-1, buf, ctx)
  end.

Definition ue_nas_security_protect (buf : option bytes) (buf_len : nat)
    (ctx : ue_nas_security_ctx) (plain : option bytes) (plain_len : nat)
    : option (Z * option bytes * ue_nas_security_ctx) :=
  ue_nas_security_protect_with_sht buf buf_len ctx plain plain_len
    NAS_SHT_INTEGRITY_PROTECTED_CIPHERED.

(** The result of an unwrapping: the C result, the data (deciphered in place),
    the context, and the plain message as an offset and a length. *)
Record unwrapped := Unwrapped {
  uw_rc : Z; uw_data : bytes; uw_ctx : ue_nas_security_ctx; uw_plain : option (nat * nat) }.

(** The estimate of the downlink COUNT from a received sequence number. *)
Definition estimate_dl_count (c : ue_nas_count) (sqn_byte : Z) : ue_nas_count :=
  let est := if sqn_byte <? sqn c then c <| overflow := u16 (overflow c + 1) |> else c in
  est <| sqn := sqn_byte |>.

Definition received_mac_at (data : bytes) : option Z :=
  a ← data !! 2%nat; b ← data !! 3%nat; c ← data !! 4%nat; d ← data !! 5%nat;
  Some ((a ≪ 24) |. (b ≪ 16) |. (c ≪ 8) |. d).

Definition ue_nas_security_unprotect (data : option bytes) (len : nat)
    (ctx : ue_nas_security_ctx) : option unwrapped :=
  match data with
  | None => Some (Unwrapped (-1) [] ctx None)
  | Some data =>
    let refuse := Some (Unwrapped (-1) data ctx None) in
    if negb (sc_active ctx) then refuse else
    if len <?n 7 then refuse else
    epd ← data !! 0%nat;
    if negb (epd =? NAS_EPD_5GMM) then refuse else
    sht ← data !! 1%nat;
    if sht =? NAS_SHT_NOT_PROTECTED then Some (Unwrapped 0 data ctx (Some (0, len)%nat)) else
    received_mac ← received_mac_at data;
    sqn_byte ← data !! 6%nat;
    let est := estimate_dl_count (sc_dl_count ctx) sqn_byte in
    let count := ue_nas_count_value est in
    covered ← slice data 6 (len - 6);
    let computed_mac := ue_nas_compute_mac (sc_int_alg ctx) count (sc_bearer ctx) 1
                          (k_knas_int (sc_keys ctx)) covered in
    if negb (sc_int_alg ctx =? UE_NIA0) && negb (received_mac =? computed_mac) then refuse else
    let ctx := ctx <| sc_dl_count := est |> in
    payload ← slice data 7 (len - 7);
    let plain := (ue_nas_cipher (sc_enc_alg ctx) count (sc_bearer ctx) 1
                    (k_knas_enc (sc_keys ctx)) payload).2 in
    let data := take 7 data ++ plain ++ drop len data in
    Some (Unwrapped 0 data ctx (Some (7, (len - 7)))%nat)
  end.

Record ue_nas_sec_header_info := SecHdr { h_epd : Z; h_sht : Z; h_mac : Z; h_sqn : Z }.

(** The C result, the header, and the inner message as offset and length. *)
Definition ue_nas_security_unwrap_parse_only (data : option bytes) (len : nat)
    : option (Z * option (ue_nas_sec_header_info * (nat * nat))) :=
  match data with
  | None => Some (-1, None)
  | Some data =>
    if len <?n 7 then Some (-1, None) else
    epd ← data !! 0%nat;
    if negb (epd =? NAS_EPD_5GMM) then Some (-1, None) else
    sht ← data !! 1%nat;
    if sht =? NAS_SHT_NOT_PROTECTED then Some (-1, None) else
    mac ← received_mac_at data;
    s ← data !! 6%nat;
    Some (0, Some (SecHdr epd sht mac s, (7, len - 7)%nat))
  end.

#[local] Opaque ue_aes_cmac aes128_ctr ue_aes128_ecb_encrypt.

(** ** Specification *)

(** A protected message on the wire. *)
Definition envelope (sht mac sqn_byte : Z) (payload : bytes) : bytes :=
  [NAS_EPD_5GMM; sht] ++ be_list 4 mac ++ [sqn_byte] ++ payload.

(** What the sender of direction [dir] puts in the envelope at COUNT [c]. *)
Definition sealed (ctx : ue_nas_security_ctx) (dir sht : Z) (c : ue_nas_count)
    (ciphered : bool) (plain : bytes) : bytes :=
  let count := ue_nas_count_value c in
  let payload := if ciphered
    then (ue_nas_cipher (sc_enc_alg ctx) count (sc_bearer ctx) dir (k_knas_enc (sc_keys ctx)) plain).2
    else plain in
  let mac := ue_nas_compute_mac (sc_int_alg ctx) count (sc_bearer ctx) dir
               (k_knas_int (sc_keys ctx)) (sqn c :: payload) in
  envelope sht mac (sqn c) payload.

Definition sht_protected (sht : Z) : Prop := 1 <= sht <= 4.
Definition sht_ciphered (sht : Z) : bool := (sht =? 2) || (sht =? 4).

Record count_ok (c : ue_nas_count) : Prop := {
  count_overflow : 0 <= overflow c < 65536;
  count_sqn : 0 <= sqn c < 256 }.

(** An active context with keys of the right width (established by the key
    derivation), for the uplink and for both directions. *)
Record uplink_ok (ctx : ue_nas_security_ctx) : Prop := {
  ctx_active : sc_active ctx = true;
  ctx_knas_int : is_block (k_knas_int (sc_keys ctx));
  ctx_knas_enc : is_block (k_knas_enc (sc_keys ctx));
  ctx_ul : count_ok (sc_ul_count ctx) }.
Record ctx_ok (ctx : ue_nas_security_ctx) : Prop := {
  ctx_uplink : uplink_ok ctx;
  ctx_dl : count_ok (sc_dl_count ctx) }.

(** ** Lemmas *)

Lemma count_value_eq c : count_ok c -> ue_nas_count_value c = overflow c * 256 + sqn c.
Proof.
  intros [Ho Hs]. unfold ue_nas_count_value.
  rewrite u32_small by (rewrite Z.shiftl_mul_pow2; lia). rewrite lor_shiftl_add by lia. lia.
Qed.

Lemma count_increment_eq c : count_ok c ->
  count_ok (ue_nas_count_increment c)
  /\ ue_nas_count_value (ue_nas_count_increment c) = (ue_nas_count_value c + 1) mod 2 ^ 24.
Proof.
  intros Hc. destruct c as [o s]. pose proof Hc as [Ho Hs]. cbn [overflow sqn] in *.
  assert (count_ok (ue_nas_count_increment (NasCount o s))) as H.
  { unfold ue_nas_count_increment. cbv [set_field overflow sqn].
    case_match; split; cbv [overflow sqn]; auto with vlte. }
  split; [done|]. rewrite !count_value_eq by done. clear H Hc.
  unfold ue_nas_count_increment. cbv [set_field overflow sqn]. unfold u8, u16.
  destruct (Z.eqb_spec ((s + 1) mod 256) 0); lia.
Qed.

Lemma estimate_ok c s : count_ok c -> 0 <= s < 256 ->
  count_ok (estimate_dl_count c s) /\ sqn (estimate_dl_count c s) = s
  /\ ue_nas_count_value (estimate_dl_count c s)
     = u16 (overflow c + (if s <? sqn c then 1 else 0)) * 256 + s.
Proof.
  intros Hc Hs. destruct c as [o q]. pose proof Hc as [Ho Hq].
  assert (count_ok (estimate_dl_count (NasCount o q) s)) as H.
  { unfold estimate_dl_count. cbv [set_field overflow sqn] in *.
    case_match; split; cbv [overflow sqn]; auto with vlte. }
  split; [done|]. split; [done|]. rewrite count_value_eq by done.
  unfold estimate_dl_count. cbv [set_field overflow sqn] in *.
  destruct (s <? q); rewrite ?Z.add_0_r, ?(u16_small o) by lia; done.
Qed.

Lemma count_octets_bytes count : Forall is_byte (count_octets count).
Proof. unfold count_octets. auto 10 with vlte. Qed.

Lemma cipher_iv_block count bearer dir :
  is_block (count_octets count ++ [bearer_octet bearer dir] ++ replicate 11 0).
Proof.
  split; [done|]. apply Forall_app. split; [apply count_octets_bytes|].
  apply Forall_app. split; [|apply Forall_replicate; unfold is_byte; lia].
  constructor; [apply u8_is_byte|constructor].
Qed.

Lemma cipher_length alg count bearer dir key data :
  is_block key -> length (ue_nas_cipher alg count bearer dir key data).2 = length data.
Proof.
  intros Hk. unfold ue_nas_cipher. repeat case_match; simpl; try done.
  apply length_aes128_ctr; [done|apply cipher_iv_block].
Qed.

Lemma cipher_involutive alg count bearer dir key data :
  is_block key ->
  (ue_nas_cipher alg count bearer dir key (ue_nas_cipher alg count bearer dir key data).2).2 = data.
Proof.
  intros Hk. unfold ue_nas_cipher. repeat case_match; simpl; try done.
  apply aes128_ctr_involutive; [done|apply cipher_iv_block].
Qed.

Lemma mac_word_range m : Forall is_byte m -> length m = 16%nat -> 0 <= mac_word m < 2 ^ 32.
Proof.
  intros Hm Hl. unfold mac_word. rewrite be_word4 by auto with vlte.
  apply (be_val_range [_; _; _; _]). auto 10 with vlte.
Qed.

Lemma compute_mac_range alg count bearer dir key msg :
  is_block key -> Forall is_byte msg ->
  0 <= ue_nas_compute_mac alg count bearer dir key msg < 2 ^ 32.
Proof.
  intros Hk Hm. unfold ue_nas_compute_mac. repeat case_match; try lia.
  destruct (cmac_block key (count_octets count ++ [bearer_octet bearer dir; 0; 0; 0] ++ msg) Hk)
    as [Hl Hb]; [|by apply mac_word_range].
  apply Forall_app. split; [apply count_octets_bytes|].
  repeat (apply Forall_cons_2; [first [apply u8_is_byte|unfold is_byte; lia]|]). done.
Qed.

Lemma read_back_eq w b p i n l :
  slice (over w b) i n = Some l -> read_back i n (St (over w b) p) = Some (l, St (over w b) p).
Proof. intros H. unfold read_back. cbn [wmem]. by rewrite H. Qed.

(** Overwriting a middle part of what was written. *)
Lemma stores_patch pre old new rest b i p :
  i = length pre -> length new = length old ->
  stores i new (St (over (pre ++ old ++ rest) b) p)
  = Some (tt, St (over (pre ++ new ++ rest) b) p).
Proof.
  intros -> Hn. unfold stores. cbn [wmem wpos].
  assert (length (pre ++ old ++ rest) = length (pre ++ new ++ rest)) as El by vlia.
  unfold over. rewrite <- El. set (tl := drop _ b). rewrite <- !app_assoc.
  bcase. rewrite take_app_length, drop_app_ge by lia.
  replace (length pre + length new - length pre)%nat with (length old) by lia.
  by rewrite drop_app_length.
Qed.

Definition bits_of_sht (sht : Z) : bool :=
  (sht =? NAS_SHT_INTEGRITY_PROTECTED_CIPHERED)
  || (sht =? NAS_SHT_INTEGRITY_PROTECTED_CIPHERED_NEW_CTX).

(** The envelope is built from the first [n] bytes of [p]. *)
Lemma protect_result ctx b buf_len p n sht :
  uplink_ok ctx -> (buf_len <= length b)%nat -> sht_protected sht ->
  (1 <= n <= length p)%nat -> (7 + n <= buf_len)%nat ->
  ue_nas_security_protect_with_sht (Some b) buf_len ctx (Some p) n sht
  = Some (Z.of_nat (7 + n),
          Some (over (sealed ctx 0 sht (sc_ul_count ctx) (sht_ciphered sht) (take n p)) b),
          ctx <| sc_ul_count := ue_nas_count_increment (sc_ul_count ctx) |>).
Proof.
  intros [Ha Hi He Hul] Hb Hsht Hp Hl. unfold sht_protected in Hsht.
  unfold ue_nas_security_protect_with_sht. rewrite Ha. cbn [negb orb].
  unfold NAS_SHT_INTEGRITY_PROTECTED, NAS_SHT_INTEGRITY_PROTECTED_CIPHERED,
    NAS_SHT_INTEGRITY_PROTECTED_NEW_CTX, NAS_SHT_INTEGRITY_PROTECTED_CIPHERED_NEW_CTX.
  fold (sht_ciphered sht). bdec.
  replace (n <=?n length p) with true by lia. set (plain := take n p).
  assert (length plain = n) as Hn by (unfold plain; vlia). clearbody plain. subst n.
  replace (negb (sht =? 1) && negb (sht =? 2) && negb (sht =? 3) && negb (sht =? 4))
    with false by lia.
  set (count := ue_nas_count_value _). set (s := sqn _).
  do 7 (destruct b as [|? b]; [simpl in *; lia|]). cbn [length] in *.
  set (b' := _ :: _ :: _).
  assert (b' = over ([z; z0; z1; z2; z3; z4; z5] ++ take (length plain) b) b') as Eb.
  { unfold over, b'. cbn [app length]. cbn [skipn]. rewrite length_take, Nat.min_l by lia.
    by rewrite take_drop. }
  rewrite Eb at 1. unfold app at 1. set (old := take (length plain) b).
  assert (length old = length plain) as Hold by (unfold old; vlia).
  clearbody b' old. clear Eb.
  do 3 (erewrite W_bind_some; [|apply store_patch; simpl; lia]). cbn [insert list_insert].
  bdec. set (h1 := [NAS_EPD_5GMM; sht; z1; z2; z3; z4; s]).
  assert (forall x y, length x = length y ->
    stores 7 y (St (over (h1 ++ x ++ []) b') 0) = Some (tt, St (over (h1 ++ y ++ []) b') 0)) as Hst
    by (intros; by apply stores_patch).
  assert (forall x, length x = length plain ->
    slice (over (h1 ++ x ++ []) b') 7 (length plain) = Some x
    /\ slice (over (h1 ++ x ++ []) b') 6 (1 + length plain) = Some (s :: x)) as Hsl.
  { intros x Hx. unfold over. rewrite <- !app_assoc. split; [by apply slice_app|].
    change (h1 ++ x ++ [] ++ ?t) with (take 6 h1 ++ (s :: x) ++ ([] ++ t)). apply slice_app; simpl; lia. }
  replace (NAS_EPD_5GMM :: sht :: _) with (h1 ++ old ++ []) by (by rewrite app_nil_r).
  rewrite (W_bind_some _ _ _ _ _ (Hst old plain Hold)).
  set (payload := if sht_ciphered sht then (ue_nas_cipher (sc_enc_alg ctx) count (sc_bearer ctx) 0
    (k_knas_enc (sc_keys ctx)) plain).2 else plain).
  assert (length payload = length plain) as Hpl
    by (unfold payload; case_match; [by apply cipher_length|done]).
  erewrite (W_bind_some (if sht_ciphered sht then _ else _) _ _ tt
    (St (over (h1 ++ payload ++ []) b') 0)).
  2:{ unfold payload in *. destruct (sht_ciphered sht); [|done].
      erewrite W_bind_some; [|apply read_back_eq; by apply Hsl]. by apply Hst. }
  erewrite W_bind_some; [|apply read_back_eq; by apply Hsl].
  rewrite app_nil_r. set (mac := ue_nas_compute_mac _ _ _ _ _ _).
  subst h1. unfold app at 1.
  do 3 (erewrite W_bind_some; [|apply store_patch; simpl; lia]).
  rewrite store_patch by (simpl; lia). cbn [insert list_insert].
  unfold sealed, envelope. fold count payload s mac. cbn [be_list app wmem].
  reflexivity.
Qed.

(** C3: protecting an uplink message.  With an active context, a valid header
    type and room for the 7-byte header, the buffer receives exactly the
    sealed message of the uplink COUNT (payload ciphered for the two ciphered
    types only, MAC over the sequence number and the payload as sent), and the
    COUNT advances by one modulo 2^24. *)
Theorem protect_seals ctx b buf_len plain sht :
  uplink_ok ctx -> (buf_len <= length b)%nat -> sht_protected sht ->
  (1 <= length plain)%nat -> (7 + length plain <= buf_len)%nat ->
  exists ctx',
    ue_nas_security_protect_with_sht (Some b) buf_len ctx (Some plain) (length plain) sht
    = Some (Z.of_nat (7 + length plain),
            Some (over (sealed ctx 0 sht (sc_ul_count ctx) (sht_ciphered sht) plain) b), ctx')
    /\ ctx' = ctx <| sc_ul_count := sc_ul_count ctx' |>
    /\ ue_nas_count_value (sc_ul_count ctx') = (ue_nas_count_value (sc_ul_count ctx) + 1) mod 2 ^ 24.
Proof.
  intros Hc Hb Hsht Hp Hl. pose proof Hc as [_ _ _ Hul].
  exists (ctx <| sc_ul_count := ue_nas_count_increment (sc_ul_count ctx) |>).
  split; [|split; [reflexivity|by apply count_increment_eq]].
  rewrite protect_result by (done || lia). by rewrite take_ge by lia.
Qed.

(** Reading a sealed message. *)
Lemma envelope_fields sht mac s payload rest :
  let data := envelope sht mac s payload ++ rest in
  let len := (7 + length payload)%nat in
  0 <= mac < 2 ^ 32 ->
  data !! 0%nat = Some NAS_EPD_5GMM /\ data !! 1%nat = Some sht
  /\ received_mac_at data = Some mac /\ data !! 6%nat = Some s
  /\ slice data 6 (len - 6) = Some (s :: payload) /\ slice data 7 (len - 7) = Some payload
  /\ take 7 data = [NAS_EPD_5GMM; sht] ++ be_list 4 mac ++ [s] /\ drop len data = rest.
Proof.
  intros data len Hm. subst data len. unfold envelope. rewrite <- !app_assoc.
  pose proof (be_list_bytes 4 mac) as Hb. pose proof (be_val_be_list 4 mac) as Hv.
  destruct (be_list 4 mac) as [|a [|b [|c [|d [|]]]]] eqn:E; try done.
  cbn [app]. split; [done|]. split; [done|]. split; [|split; [done|]].
  - unfold received_mac_at. cbn.
    repeat match goal with H : Forall _ (_ :: _) |- _ => inv H end.
    rewrite be_word4, Hv by done. f_equal. change (256 ^ Z.of_nat 4) with (2 ^ 32). lia.
  - replace (7 + length payload - 6)%nat with (S (length payload)) by lia.
    replace (7 + length payload - 7)%nat with (length payload) by lia. split; [|split; [|split]].
    + exact (slice_app [_; _; a; b; c; d] (s :: payload) rest 6 (S (length payload)) eq_refl eq_refl).
    + exact (slice_app [_; _; a; b; c; d; s] payload rest 7 (length payload) eq_refl eq_refl).
    + done.
    + change (drop (length payload) (payload ++ rest) = rest). by rewrite drop_app_length.
Qed.

Lemma sealed_bytes ctx dir c ciphered plain :
  is_block (k_knas_enc (sc_keys ctx)) -> Forall is_byte plain ->
  Forall is_byte (if ciphered : bool
    then (ue_nas_cipher (sc_enc_alg ctx) (ue_nas_count_value c) (sc_bearer ctx) dir
            (k_knas_enc (sc_keys ctx)) plain).2 else plain).
Proof.
  intros Hk Hp. case_match; [|done]. unfold ue_nas_cipher. repeat case_match; simpl; try done.
  apply aes128_ctr_bytes; [done|apply cipher_iv_block|done].
Qed.

Lemma unprotect_accepts_sealed_gen ctx sht s plain rest :
  ctx_ok ctx -> 1 <= sht < 256 -> 0 <= s < 256 -> Forall is_byte plain ->
  let c := estimate_dl_count (sc_dl_count ctx) s in
  let wire := sealed ctx 1 sht c true plain in
  ue_nas_security_unprotect (Some (wire ++ rest)) (length wire) ctx
  = Some (Unwrapped 0 (take 7 wire ++ plain ++ rest) (ctx <| sc_dl_count := c |>)
            (Some (7%nat, length plain))).
Proof.
  intros [[Ha Hi He _] Hd] Hsht Hs Hp c wire.
  destruct (estimate_ok _ s Hd Hs) as (Hc & Hsq & _). fold c in Hc, Hsq.
  subst wire. unfold sealed. rewrite Hsq. set (count := ue_nas_count_value c).
  pose proof (cipher_length (sc_enc_alg ctx) count (sc_bearer ctx) 1 _ plain He) as Hlen.
  pose proof (cipher_involutive (sc_enc_alg ctx) count (sc_bearer ctx) 1 _ plain He) as Hinv.
  pose proof (sealed_bytes ctx 1 c true plain He Hp) as Hbytes. fold count in Hbytes.
  set (payload := (ue_nas_cipher _ _ _ _ _ plain).2) in *.
  assert (0 <= ue_nas_compute_mac (sc_int_alg ctx) count (sc_bearer ctx) 1
    (k_knas_int (sc_keys ctx)) (s :: payload) < 2 ^ 32) as Hmac
    by (apply compute_mac_range; [done|constructor; [done|done]]).
  set (mac := ue_nas_compute_mac _ _ _ _ _ _) in *.
  destruct (envelope_fields sht mac s payload rest Hmac) as (E0 & E1 & Em & E6 & S6 & S7 & T7 & D).
  assert (length (envelope sht mac s payload) = 7 + length payload)%nat as Hel
    by (unfold envelope; vlia).
  set (data := envelope sht mac s payload ++ rest) in *. rewrite Hel.
  unfold ue_nas_security_unprotect. rewrite Ha. cbn [negb]. bdec.
  rewrite E0. ob. change (NAS_EPD_5GMM =? NAS_EPD_5GMM) with true. cbn [negb].
  rewrite E1. ob. unfold NAS_SHT_NOT_PROTECTED. bdec. rewrite Em. ob. rewrite E6. ob. cbv zeta. fold c count.
  rewrite S6. ob. cbv zeta. fold c count mac. rewrite Z.eqb_refl, andb_false_r. rewrite S7. ob.
  cbv zeta. fold c count. change (sc_enc_alg (set_field c ctx)) with (sc_enc_alg ctx).
  change (sc_keys (set_field c ctx)) with (sc_keys ctx).
  change (sc_bearer (set_field c ctx)) with (sc_bearer ctx). rewrite Hinv, D. replace (7 + length payload - 7)%nat with (length plain) by lia.
  rewrite T7. unfold envelope. done.
Qed.

(** C2: a genuine downlink message is accepted.  A message sealed by the
    network (ciphered, direction 1) with the COUNT the UE estimates from its
    sequence number is deciphered to the original plain message, the downlink
    COUNT becomes that COUNT, and nothing else changes. *)
Theorem unprotect_accepts_sealed ctx sht s plain rest :
  ctx_ok ctx -> 1 <= sht < 256 -> 0 <= s < 256 -> Forall is_byte plain ->
  let c := estimate_dl_count (sc_dl_count ctx) s in
  let wire := sealed ctx 1 sht c true plain in
  ue_nas_security_unprotect (Some (wire ++ rest)) (length wire) ctx
  = Some (Unwrapped 0 (take 7 wire ++ plain ++ rest) (ctx <| sc_dl_count := c |>)
            (Some (7%nat, length plain))).
Proof. apply unprotect_accepts_sealed_gen. Qed.

Lemma received_mac_in data : (6 <= length data)%nat -> received_mac_at data <> None.
Proof.
  intros Hl. unfold received_mac_at.
  destruct (load_in data 2) as [? ->]; [lia|]. destruct (load_in data 3) as [? ->]; [lia|].
  destruct (load_in data 4) as [? ->]; [lia|]. destruct (load_in data 5) as [? ->]; [lia|]. done.
Qed.

Lemma unprotect_result ctx data len :
  (len <= length data)%nat ->
  exists r, ue_nas_security_unprotect (Some data) len ctx = Some r
  /\ (uw_rc r = -1 /\ uw_data r = data /\ uw_ctx r = ctx /\ uw_plain r = None
      \/ uw_rc r = 0
         /\ (data !! 1%nat = Some 0 /\ uw_data r = data /\ uw_ctx r = ctx
             /\ uw_plain r = Some (0%nat, len)
             \/ exists s covered, data !! 6%nat = Some s /\ slice data 6 (len - 6) = Some covered
                /\ uw_ctx r = ctx <| sc_dl_count := estimate_dl_count (sc_dl_count ctx) s |>
                /\ uw_plain r = Some (7, len - 7)%nat /\ (7 <= len)%nat
                /\ uw_data r = take 7 data ++ (ue_nas_cipher (sc_enc_alg ctx)
                     (ue_nas_count_value (sc_dl_count (uw_ctx r))) (sc_bearer ctx) 1
                     (k_knas_enc (sc_keys ctx)) (take (len - 7) (drop 7 data))).2 ++ drop len data
                /\ (sc_int_alg ctx <> UE_NIA0 ->
                    received_mac_at data = Some (ue_nas_compute_mac (sc_int_alg ctx)
                      (ue_nas_count_value (sc_dl_count (uw_ctx r))) (sc_bearer ctx) 1
                      (k_knas_int (sc_keys ctx)) covered)))).
Proof.
  intros Hl. unfold ue_nas_security_unprotect.
  assert (forall P : unwrapped -> Prop, P (Unwrapped (-1) data ctx None) ->
    exists r, Some (Unwrapped (-1) data ctx None) = Some r /\ P r) as Href by (intros; eauto).
  destruct (sc_active ctx); cbn [negb]; [|apply Href; by left].
  bcase; [apply Href; by left|].
  destruct (load_in data 0) as [epd ->]; [lia|]. ob.
  destruct (epd =? NAS_EPD_5GMM); cbn [negb]; [|apply Href; by left].
  destruct (load_in data 1) as [sht E1]; [lia|]. rewrite E1. ob. unfold NAS_SHT_NOT_PROTECTED.
  destruct (Z.eqb_spec sht 0) as [->|]; [eexists; split; [reflexivity|]; right; split; [done|by left]|].
  destruct (received_mac_at data) as [rm|] eqn:Erm.
  2: by destruct (received_mac_in data ltac:(lia) Erm).
  destruct (load_in data 6) as [s E6]; [lia|]. ob. rewrite E6. ob.
  rewrite (slice_in data 6) by lia. ob. rewrite (slice_in data 7) by lia. ob.
  set (cov := take (len - 6) (drop 6 data)).
  match goal with |- context [if ?c then _ else _] => destruct c eqn:Eg end.
  - apply Href. by left.
  - eexists. split; [reflexivity|]. right. split; [done|]. right. exists s, cov.
    split; [done|]. split; [done|]. split; [reflexivity|]. split; [reflexivity|].
    split; [done|]. split; [reflexivity|]. intros Hn. apply Z.eqb_neq in Hn. rewrite Hn in Eg. cbn [negb andb] in Eg.
    apply negb_false_iff, Z.eqb_eq in Eg. f_equal. exact Eg.
Qed.

(** What the unwrapping looks at before the MAC. *)
Definition unwrappable (ctx : ue_nas_security_ctx) (data : bytes) (len : nat) : Prop :=
  sc_active ctx = true /\ (7 <= len)%nat /\ data !! 0%nat = Some NAS_EPD_5GMM.

(** C1: integrity.  The unwrapping is decided exactly, on every input.  Without
    an active context, seven bytes and the discriminator of 5GMM it refuses.  A
    message whose header type is 0 passes as it is, without any check.  A message
    of another header type is accepted when the integrity algorithm is NIA0,
    which checks nothing, and otherwise if and only if its MAC field is the MAC
    computed with the downlink key, under the estimated COUNT, over the sequence
    number and the payload as received; it is then deciphered in place and only
    the downlink COUNT of the context changes.  Every refusal leaves the message
    and the context as they were. *)
Theorem unprotect_sound ctx data len :
  (len <= length data)%nat ->
  let result := ue_nas_security_unprotect (Some data) len ctx in
  let refused := Some (Unwrapped (-1) data ctx None) in
  (~ unwrappable ctx data len -> result = refused)
  /\ (unwrappable ctx data len -> data !! 1%nat = Some NAS_SHT_NOT_PROTECTED ->
       result = Some (Unwrapped 0 data ctx (Some (0%nat, len))))
  /\ (unwrappable ctx data len -> data !! 1%nat <> Some NAS_SHT_NOT_PROTECTED ->
       exists mac s, received_mac_at data = Some mac /\ data !! 6%nat = Some s
       /\ let est := estimate_dl_count (sc_dl_count ctx) s in
          let verifies := mac = ue_nas_compute_mac (sc_int_alg ctx) (ue_nas_count_value est)
            (sc_bearer ctx) 1 (k_knas_int (sc_keys ctx)) (take (len - 6) (drop 6 data)) in
          let deciphered := (ue_nas_cipher (sc_enc_alg ctx) (ue_nas_count_value est) (sc_bearer ctx) 1
            (k_knas_enc (sc_keys ctx)) (take (len - 7) (drop 7 data))).2 in
          (sc_int_alg ctx = UE_NIA0 \/ verifies ->
             result = Some (Unwrapped 0 (take 7 data ++ deciphered ++ drop len data)
                              (ctx <| sc_dl_count := est |>) (Some (7, len - 7)%nat)))
          /\ (sc_int_alg ctx <> UE_NIA0 -> ~ verifies -> result = refused)).
Proof.
  intros Hl result refused. subst result refused. unfold ue_nas_security_unprotect, unwrappable.
  destruct (sc_active ctx); cbn [negb]; [|split; [done|by split; intros []]].
  destruct (Nat.ltb_spec len 7); [split; [done|split; intros (_ & ? & _); lia]|].
  destruct (load_in data 0) as [epd ->]; [lia|]. ob.
  destruct (Z.eqb_spec epd NAS_EPD_5GMM) as [->|Hepd]; cbn [negb];
    [|split; [done|split; intros (_ & _ & [= ->]); done]].
  split; [intros []; done|]. destruct (load_in data 1) as [sht E1]; [lia|]. rewrite E1. ob.
  split; [intros _ [= ->]; done|]. intros _ Hsht.
  destruct (Z.eqb_spec sht NAS_SHT_NOT_PROTECTED) as [->|_]; [done|].
  destruct (received_mac_at data) as [mac|] eqn:Emac; [|destruct (received_mac_in data ltac:(lia) Emac)].
  destruct (load_in data 6) as [s E6]; [lia|]. rewrite E6. ob. exists mac, s. do 2 (split; [done|]). cbv zeta.
  rewrite !slice_in by lia. ob. split.
  - intros [->|<-]; [|rewrite Z.eqb_refl, andb_false_r]; reflexivity.
  - intros Ha Hv. apply Z.eqb_neq in Ha, Hv. by rewrite Ha, Hv.
Qed.

(** The last message can be replayed.  The estimate of the downlink COUNT
    takes a repeated sequence number as current, so a sealed message that was
    just accepted is accepted again, with the same COUNT: only older sequence
    numbers are refused. *)
Lemma last_message_replayable ctx sht s plain :
  ctx_ok ctx -> 1 <= sht < 256 -> 0 <= s < 256 -> Forall is_byte plain ->
  let wire := sealed ctx 1 sht (estimate_dl_count (sc_dl_count ctx) s) true plain in
  exists r, ue_nas_security_unprotect (Some wire) (length wire) ctx = Some r /\ uw_rc r = 0
  /\ exists r', ue_nas_security_unprotect (Some wire) (length wire) (uw_ctx r) = Some r'
     /\ uw_rc r' = 0 /\ uw_data r' = uw_data r /\ uw_ctx r' = uw_ctx r.
Proof.
  intros Hc Hsht Hs Hp wire.
  pose proof (unprotect_accepts_sealed_gen ctx sht s plain [] Hc Hsht Hs Hp) as H1.
  cbv zeta in H1. rewrite app_nil_r in H1. fold wire in H1.
  eexists. split; [exact H1|]. split; [done|]. cbn [uw_ctx uw_data].
  set (c := estimate_dl_count (sc_dl_count ctx) s) in *.
  set (ctx' := ctx <| sc_dl_count := c |>) in *.
  assert (estimate_dl_count (sc_dl_count ctx') s = c) as Ec.
  { destruct (estimate_ok _ s (ctx_dl _ Hc) Hs) as (_ & Hsq & _). fold c in Hsq.
    change (sc_dl_count ctx') with c. unfold estimate_dl_count. rewrite Hsq, Z.ltb_irrefl.
    destruct c as [o q]. cbv [set_field overflow sqn] in *. by subst q. }
  assert (ctx_ok ctx') as Hc'.
  { destruct Hc as [[? ? ? ?] Hd]. split; [by split|]. by apply estimate_ok. }
  pose proof (unprotect_accepts_sealed_gen ctx' sht s plain [] Hc' Hsht Hs Hp) as H2.
  cbv zeta in H2. rewrite Ec, app_nil_r in H2. change (sealed ctx' 1 sht c true plain) with wire in H2.
  eexists. split; [exact H2|]. done.
Qed.

(** The MAC of a long message is zero.  Under NIA2 a covered part of more
    than 8192 bytes is not authenticated at all: a message of that size with a
    zero MAC field is accepted whatever its content and key.  (The RRC layer
    delivers at most 8192 bytes, so a covered part has at most 8186.) *)
Lemma oversized_message_unauthenticated ctx sht s payload :
  sc_active ctx = true -> 1 <= sht < 256 -> sc_int_alg ctx = UE_NIA2 ->
  8192 <= Z.of_nat (length payload) ->
  exists r, ue_nas_security_unprotect (Some (envelope sht 0 s payload))
              (length (envelope sht 0 s payload)) ctx = Some r /\ uw_rc r = 0.
Proof.
  intros Ha Hsht Hi Hl.
  destruct (envelope_fields sht 0 s payload [] ltac:(lia)) as (E0 & E1 & Em & E6 & S6 & S7 & _).
  assert (length (envelope sht 0 s payload) = 7 + length payload)%nat as Hel
    by (unfold envelope; vlia).
  rewrite app_nil_r in *. set (data := envelope sht 0 s payload) in *. rewrite Hel.
  unfold ue_nas_security_unprotect. rewrite Ha. cbn [negb]. bdec.
  rewrite E0. ob. change (NAS_EPD_5GMM =? NAS_EPD_5GMM) with true. cbn [negb].
  rewrite E1. ob. unfold NAS_SHT_NOT_PROTECTED. bdec. rewrite Em. ob. rewrite E6. ob.
  rewrite S6. ob. unfold ue_nas_compute_mac. rewrite Hi.
  change (UE_NIA2 =? UE_NIA0) with false. change (UE_NIA2 =? UE_NIA2) with true. cbv iota.
  cbn [length]. bdec. rewrite S7. ob. by eexists.
Qed.

(** C40: the two gaps of the protection.  The message accepted last is accepted
    again with the same COUNT, because the estimate takes a repeated sequence
    number as current; and under NIA2 a message whose covered part exceeds 8192
    bytes is accepted with a zero MAC whatever its content and key. *)
Theorem unprotect_gaps :
  (forall ctx sht s plain,
  ctx_ok ctx -> 1 <= sht < 256 -> 0 <= s < 256 -> Forall is_byte plain ->
  let wire := sealed ctx 1 sht (estimate_dl_count (sc_dl_count ctx) s) true plain in
  exists r, ue_nas_security_unprotect (Some wire) (length wire) ctx = Some r /\ uw_rc r = 0
  /\ exists r', ue_nas_security_unprotect (Some wire) (length wire) (uw_ctx r) = Some r'
     /\ uw_rc r' = 0 /\ uw_data r' = uw_data r /\ uw_ctx r' = uw_ctx r)
  /\ (forall ctx sht s payload,
  sc_active ctx = true -> 1 <= sht < 256 -> sc_int_alg ctx = UE_NIA2 ->
  8192 <= Z.of_nat (length payload) ->
  exists r, ue_nas_security_unprotect (Some (envelope sht 0 s payload))
              (length (envelope sht 0 s payload)) ctx = Some r /\ uw_rc r = 0).
Proof.
  split; intros; [by apply last_message_replayable|by apply oversized_message_unauthenticated].
Qed.

(** ** Witnesses *)

Definition test_ctx : ue_nas_security_ctx :=
  sec_ctx_zero <| sc_active := true |> <| sc_int_alg := UE_NIA2 |> <| sc_enc_alg := UE_NEA2 |>
               <| sc_bearer := 1 |> <| sc_dl_count := NasCount 0 255 |>.

Lemma test_ctx_ok : ctx_ok test_ctx.
Proof.
  split; [|split; cbv; split; congruence].
  split; [done| | |split; cbv; split; congruence]; exact (block_const 0 ltac:(unfold is_byte; lia)).
Qed.

Lemma protect_seals_witness :
  uplink_ok test_ctx /\ exists ctx',
    ue_nas_security_protect_with_sht (Some (replicate 10 0)) 10 test_ctx (Some [0x7E; 0; 0x43]) 3 2
    = Some (10, Some (over (sealed test_ctx 0 2 (NasCount 0 0) true [0x7E; 0; 0x43]) (replicate 10 0)), ctx')
    /\ ctx' = test_ctx <| sc_ul_count := sc_ul_count ctx' |>
    /\ ue_nas_count_value (sc_ul_count ctx') = 1.
Proof.
  split; [apply test_ctx_ok|].
  apply (protect_seals test_ctx (replicate 10 0) 10 [0x7E; 0; 0x43] 2 (ctx_uplink _ test_ctx_ok));
    unfold sht_protected; simpl; lia.
Defined.

Definition test_wire : bytes :=
  sealed test_ctx 1 2 (estimate_dl_count (sc_dl_count test_ctx) 0) true [0x7E; 0; 0x54].

Lemma unprotect_accepts_sealed_witness :
  ctx_ok test_ctx /\
  ue_nas_security_unprotect (Some (test_wire ++ [])) (length test_wire) test_ctx
  = Some (Unwrapped 0 (take 7 test_wire ++ [0x7E; 0; 0x54] ++ [])
            (test_ctx <| sc_dl_count := estimate_dl_count (sc_dl_count test_ctx) 0 |>)
            (Some (7%nat, length [0x7E; 0; 0x54]))).
Proof.
  split; [exact test_ctx_ok|].
  assert (Forall is_byte [0x7E; 0; 0x54]) as Hb
    by (repeat (apply Forall_cons_2; [unfold is_byte; lia|]); constructor).
  exact (unprotect_accepts_sealed test_ctx 2 0 [0x7E; 0; 0x54] [] test_ctx_ok
    ltac:(lia) ltac:(lia) Hb).
Defined.

(** A sealed message of three octets, and its deciphered form. *)
Definition test_sealed : bytes := [0x7E; 2; 92; 53; 6; 149; 0; 15; 54; 186].
Definition test_forged : bytes := [0x7E; 2; 92; 53; 6; 149; 0; 15; 77; 186].

Lemma test_macs :
  test_wire = test_sealed
  /\ ue_nas_compute_mac 2 (ue_nas_count_value (NasCount 1 0)) 1 1 (k_knas_int (sc_keys test_ctx))
       [0; 15; 54; 186] = 0x5C350695
  /\ ue_nas_compute_mac 2 (ue_nas_count_value (NasCount 1 0)) 1 1 (k_knas_int (sc_keys test_ctx))
       [0; 15; 77; 186] <> 0x5C350695
  /\ (ue_nas_cipher 2 (ue_nas_count_value (NasCount 1 0)) 1 1 (k_knas_enc (sc_keys test_ctx))
       [15; 54; 186]).2 = [0x7E; 0; 0x54].
Proof. split_and!; vm_compute; congruence. Qed.

#[local] Opaque ue_nas_compute_mac ue_nas_cipher.

(** A sealed message is accepted under NIA2, and refused with an octet changed. *)
Lemma unprotect_sound_witness :
  (exists r, ue_nas_security_unprotect (Some test_sealed) 10 test_ctx = Some r
     /\ uw_rc r = 0 /\ uw_plain r = Some (7, 3)%nat /\ drop 7 (uw_data r) = [0x7E; 0; 0x54])
  /\ ue_nas_security_unprotect (Some test_forged) 10 test_ctx
     = Some (Unwrapped (-1) test_forged test_ctx None).
Proof.
  destruct test_macs as (_ & H1 & H2 & H3). split.
  - destruct (unprotect_sound test_ctx test_sealed 10 (le_n _)) as (_ & _ & H).
    destruct H as (mac & s & Hm & Hs & Ha & _); [split; [reflexivity|split; [lia|reflexivity]]|discriminate|].
    injection Hm as <-. injection Hs as <-.
    assert ((92 ≪ 24) |. (53 ≪ 16) |. (6 ≪ 8) |. 149 = 0x5C350695) as Ew by reflexivity.
    eexists. split; [apply Ha; right; exact (eq_trans Ew (eq_sym H1))|]. do 2 (split; [reflexivity|]).
    assert (forall d, d = [0x7E; 0; 0x54] ->
      drop 7 (take 7 test_sealed ++ d ++ drop 10 test_sealed) = [0x7E; 0; 0x54]) as Hd by (intros ? ->; reflexivity).
    apply Hd. exact H3.
  - destruct (unprotect_sound test_ctx test_forged 10 (le_n _)) as (_ & _ & H).
    destruct H as (mac & s & Hm & Hs & _ & Hr); [split; [reflexivity|split; [lia|reflexivity]]|discriminate|].
    injection Hm as <-. injection Hs as <-.
    apply Hr; [discriminate|]. intros Hv. apply H2. exact (eq_sym Hv).
Defined.

Lemma unprotect_gaps_witness :
  ctx_ok test_ctx /\
  exists r r', ue_nas_security_unprotect (Some test_wire) (length test_wire) test_ctx = Some r
    /\ uw_rc r = 0
    /\ ue_nas_security_unprotect (Some test_wire) (length test_wire) (uw_ctx r) = Some r'
    /\ uw_rc r' = 0.
Proof.
  split; [exact test_ctx_ok|].
  assert (Forall is_byte [0x7E; 0; 0x54]) as Hb
    by (repeat (apply Forall_cons_2; [unfold is_byte; lia|]); constructor).
  destruct (proj1 unprotect_gaps test_ctx 2 0 [0x7E; 0; 0x54] test_ctx_ok
    ltac:(lia) ltac:(lia) Hb) as (r & E & H0 & r' & E' & H0' & _).
  exists r, r'. split; [exact E|]. split; [exact H0|]. split; [exact E'|exact H0'].
Defined.

Lemma unprotect_gaps_long :
  exists r, ue_nas_security_unprotect (Some (envelope 2 0 7 (replicate (Z.to_nat 8192) 0)))
      (length (envelope 2 0 7 (replicate (Z.to_nat 8192) 0))) test_ctx = Some r /\ uw_rc r = 0.
Proof.
  apply (oversized_message_unauthenticated test_ctx 2 7 (replicate (Z.to_nat 8192) 0));
    [reflexivity|lia|reflexivity|].
  rewrite length_replicate. lia.
Qed.
