(* ===== verification/UeTypes.v ===== *)
(** Types shared by the MM and SM state machines and the network adapter:
    [src/src/ue_engine/ue_types.h], [ue_mm_messages.h], [ue_sm_messages.h], and
    the interface of the adapter, [ue_network_adapter.h], as a type class.

    Reject causes keep their numbers (the code stores them in [uint32_t]
    fields); the other enumerations are inductive types.  A [char] array holds
    a C string, the list of its characters. *)

From S2P Require Import Prelude.

Inductive ue_mm_state :=
| UE_MM_POWERED_OFF | UE_MM_SIM_NOT_READY | UE_MM_DEREGISTERED
| UE_MM_SEARCHING | UE_MM_REGISTERING | UE_MM_REGISTERED_HOME.

Inductive ue_sm_state :=
| UE_SM_INACTIVE | UE_SM_ESTABLISHING | UE_SM_ACTIVE | UE_SM_RELEASING.

Inductive ue_mm_procedure := UE_MM_PROC_IDLE | UE_MM_PROC_REGISTRATION.

Inductive ue_mm_proc_step :=
| UE_MM_STEP_NONE | UE_MM_STEP_WAIT_CELL_SELECTION | UE_MM_STEP_WAIT_REGISTRATION_RESPONSE.

Inductive ue_mm_last_cause :=
| UE_MM_CAUSE_NONE | UE_MM_CAUSE_POWER_ON | UE_MM_CAUSE_SIM_BECAME_READY
| UE_MM_CAUSE_REGISTER_REQUESTED | UE_MM_CAUSE_REGISTRATION_ACCEPTED
| UE_MM_CAUSE_REGISTRATION_REJECTED | UE_MM_CAUSE_REGISTRATION_TIMEOUT
| UE_MM_CAUSE_REGISTRATION_RETRY | UE_MM_CAUSE_RADIO_OFF | UE_MM_CAUSE_SIM_NOT_READY.

Inductive ue_sm_procedure := UE_SM_PROC_IDLE | UE_SM_PROC_ESTABLISH_PDU | UE_SM_PROC_RELEASE_PDU.

Inductive ue_sm_proc_step :=
| UE_SM_STEP_NONE | UE_SM_STEP_WAIT_ESTABLISH_RESPONSE | UE_SM_STEP_WAIT_RELEASE_COMPLETE.

Inductive ue_sm_last_cause :=
| UE_SM_CAUSE_NONE | UE_SM_CAUSE_CONNECT_REQUESTED | UE_SM_CAUSE_ESTABLISH_ACCEPTED
| UE_SM_CAUSE_ESTABLISH_REJECTED | UE_SM_CAUSE_DISCONNECT_REQUESTED
| UE_SM_CAUSE_RELEASE_COMPLETE | UE_SM_CAUSE_MM_NOT_REGISTERED | UE_SM_CAUSE_RADIO_OFF.

Inductive ue_reject_class := UE_REJECT_TEMPORARY | UE_REJECT_PERMANENT.

Inductive ue_mm_reg_type := UE_MM_REG_INITIAL | UE_MM_REG_MOBILITY_UPDATE.

Inductive ue_mm_reg_trigger :=
| UE_MM_REG_TRIGGER_EXPLICIT_REQUEST | UE_MM_REG_TRIGGER_MOBILITY_CHANGE
| UE_MM_REG_TRIGGER_PERIODIC_UPDATE.

Inductive ue_mm_reg_accept_result := UE_MM_REG_ACCEPT_3GPP | UE_MM_REG_ACCEPT_NON_3GPP.

Inductive ue_sm_pdu_request_type := UE_SM_PDU_REQUEST_INITIAL | UE_SM_PDU_REQUEST_EXISTING.

#[export] Instance ue_mm_state_eq_dec : EqDecision ue_mm_state.
Proof. solve_decision. Defined.
#[export] Instance ue_sm_state_eq_dec : EqDecision ue_sm_state.
Proof. solve_decision. Defined.
#[export] Instance ue_mm_procedure_eq_dec : EqDecision ue_mm_procedure.
Proof. solve_decision. Defined.
#[export] Instance ue_mm_proc_step_eq_dec : EqDecision ue_mm_proc_step.
Proof. solve_decision. Defined.
#[export] Instance ue_sm_procedure_eq_dec : EqDecision ue_sm_procedure.
Proof. solve_decision. Defined.
#[export] Instance ue_sm_proc_step_eq_dec : EqDecision ue_sm_proc_step.
Proof. solve_decision. Defined.
#[export] Instance ue_reject_class_eq_dec : EqDecision ue_reject_class.
Proof. solve_decision. Defined.
#[export] Instance ue_mm_reg_accept_result_eq_dec : EqDecision ue_mm_reg_accept_result.
Proof. solve_decision. Defined.
#[export] Instance ue_sm_pdu_request_type_eq_dec : EqDecision ue_sm_pdu_request_type.
Proof. solve_decision. Defined.

(** [enum ue_mm_reg_reject_cause] and [enum ue_sm_pdu_reject_cause]. *)
Definition UE_MM_REG_REJECT_NONE : Z := 0.
Definition UE_MM_REG_REJECT_ILLEGAL_UE : Z := 3.
Definition UE_MM_REG_REJECT_CONGESTION : Z := 22.
Definition UE_MM_REG_REJECT_PLMN_NOT_ALLOWED : Z := 11.
Definition UE_MM_REG_REJECT_TA_NOT_ALLOWED : Z := 12.

Definition UE_SM_PDU_REJECT_NONE : Z := 0.
Definition UE_SM_PDU_REJECT_INSUFFICIENT_RESOURCES : Z := 26.
Definition UE_SM_PDU_REJECT_MISSING_DNN : Z := 27.
Definition UE_SM_PDU_REJECT_UNKNOWN_PDU_SESSION_TYPE : Z := 28.
Definition UE_SM_PDU_REJECT_SEMANTIC_ERROR : Z := 95.

Record ue_engine_runtime_ip := RuntimeIp {
  ip_ipv4_addr : bytes; ip_ipv4_gw : bytes; ip_dns1 : bytes; ip_dns2 : bytes; ip_mtu : Z }.

Record ue_mm_registration_request := MmRegRequest {
  rq_attempt_id : Z; rq_reg_type : ue_mm_reg_type; rq_trigger : ue_mm_reg_trigger;
  rq_with_sim : bool; rq_suci : bytes; rq_plmn_mcc : bytes; rq_plmn_mnc : bytes }.

Record ue_mm_registration_result := MmRegResult {
  rr_submitted : bool; rr_reject_class : ue_reject_class; rr_reject_cause : Z;
  rr_accept_result : ue_mm_reg_accept_result; rr_assigned_guti : bytes; rr_t3512_seconds : Z }.

Record ue_sm_pdu_session_est_request := SmEstRequest {
  eq_attempt_id : Z; eq_pdu_session_id : Z; eq_pti : Z; eq_request_type : ue_sm_pdu_request_type;
  eq_dnn : bytes; eq_pdu_type : bytes; eq_s_nssai_sst : Z; eq_has_existing_session : bool }.

Record ue_sm_pdu_session_est_result := SmEstResult {
  er_submitted : bool; er_reject_class : ue_reject_class; er_reject_cause : Z;
  er_selected_psi : Z; er_assigned_ipv4 : bytes; er_assigned_mtu : Z }.

Record ue_sm_pdu_session_rel_request := SmRelRequest {
  lq_attempt_id : Z; lq_pdu_session_id : Z; lq_pti : Z }.

Record ue_sm_pdu_session_rel_result := SmRelResult {
  lr_submitted : bool; lr_reject_class : ue_reject_class; lr_reject_cause : Z }.

(** ** The interface of the network adapter

    What MM and SM call: each submission takes the request and the adapter's
    state and gives the result; [None] is undefined behaviour in the adapter. *)
Class NetworkAdapter (N : Type) := {
  ue_network_mm_submit_registration :
    ue_mm_registration_request -> N -> option (ue_mm_registration_result * N);
  ue_network_sm_submit_establish :
    ue_sm_pdu_session_est_request -> N -> option (ue_sm_pdu_session_est_result * N);
  ue_network_sm_submit_release :
    ue_sm_pdu_session_rel_request -> N -> option (ue_sm_pdu_session_rel_result * N) }.

(** A well-behaved adapter: it answers every request (the DNN is a string in
    [char dnn[64]]) from a state it keeps valid. *)
Class SafeAdapter (N : Type) `{NetworkAdapter N} := {
  adapter_ok : N -> Prop;
  mm_submit_ok : forall req n, adapter_ok n ->
    exists r n', ue_network_mm_submit_registration req n = Some (r, n') /\ adapter_ok n';
  sm_establish_ok : forall req n, (length (eq_dnn req) < 64)%nat -> adapter_ok n ->
    exists r n', ue_network_sm_submit_establish req n = Some (r, n') /\ adapter_ok n'
      /\ 0 <= er_selected_psi r < 2 ^ 32 /\ length (er_assigned_ipv4 r) = 4%nat;
  sm_release_ok : forall req n, adapter_ok n ->
    exists r n', ue_network_sm_submit_release req n = Some (r, n') /\ adapter_ok n' }.

(** An adapter that accepts every submission (the answer comes later, in a
    downlink message). *)
Class AcceptingAdapter (N : Type) `{SafeAdapter N} := {
  mm_submit_accepts : forall req n r n',
    ue_network_mm_submit_registration req n = Some (r, n') ->
    rr_submitted r = true /\ rr_accept_result r = UE_MM_REG_ACCEPT_3GPP;
  sm_establish_accepts : forall req n r n',
    ue_network_sm_submit_establish req n = Some (r, n') -> er_submitted r = true;
  sm_release_accepts : forall req n r n',
    ue_network_sm_submit_release req n = Some (r, n') -> lr_submitted r = true }.

(** ** The interface of the RAN transport

    [ue_ran_transport_send_nas_pdu (t, pdu, len, rrc_channel)]; a safe transport
    defines it for every PDU on a state it keeps valid. *)
Class RanSender (T : Type) := {
  ue_ran_transport_send_nas_pdu : T -> bytes -> Z -> option (Z * T) }.

Class SafeSender (T : Type) `{RanSender T} := {
  sender_ok : T -> Prop;
  send_nas_ok : forall t pdu channel, sender_ok t ->
    exists r t', ue_ran_transport_send_nas_pdu t pdu channel = Some (r, t') /\ sender_ok t' }.
