(* ===== verification/UeMm.v ===== *)
(** The 5G mobility-management state machine: [src/src/ue_engine/ue_mm.c].

    The context is a record and every operation a function on it.  The only
    operation that reaches the network, [ue_mm_on_cell_found], is written
    against the adapter's interface.  [mm_step] is the step relation of the
    engine's calls; the invariant and the safety theorems are by induction on
    reachability. *)

From S2P Require Import Prelude UeTypes.

Definition UE_MM_TIMEOUT_MS : Z := 1200.
Definition UE_MM_DEFAULT_MAX_RETRIES : Z := 2.

#[local] Set Primitive Projections.

Record ue_mm_ctx := MmCtx {
  mm_state : ue_mm_state;
  mm_procedure : ue_mm_procedure;
  mm_proc_step : ue_mm_proc_step;
  mm_last_cause : ue_mm_last_cause;
  mm_last_reject_class : ue_reject_class;
  mm_last_reject_cause_code : Z;
  mm_register_requested : bool;
  mm_retry_count : Z;
  mm_max_retries : Z;
  mm_registration_attempt_id : Z;
  mm_last_assigned_guti : bytes;
  mm_imsi : bytes;
  mm_mcc : bytes;
  mm_mnc : bytes;
  mm_pending_reg_type : ue_mm_reg_type;
  mm_pending_reg_trigger : ue_mm_reg_trigger;
  mm_next_step_deadline_ms : Z }.

Abbreviation is_mm s mm := (bool_decide (mm_state mm = s)).

Definition mm_reject_class_from_cause (cause : Z) : ue_reject_class :=
  if cause =? UE_MM_REG_REJECT_CONGESTION then UE_REJECT_TEMPORARY
  else if (cause =? UE_MM_REG_REJECT_ILLEGAL_UE) || (cause =? UE_MM_REG_REJECT_PLMN_NOT_ALLOWED)
          || (cause =? UE_MM_REG_REJECT_TA_NOT_ALLOWED) then UE_REJECT_PERMANENT
  else UE_REJECT_TEMPORARY.

Definition mm_enter_deregistered (mm : ue_mm_ctx) (cause : ue_mm_last_cause)
    (clear_request : bool) : ue_mm_ctx :=
  let mm := mm <| mm_state := UE_MM_DEREGISTERED |> <| mm_procedure := UE_MM_PROC_IDLE |>
               <| mm_proc_step := UE_MM_STEP_NONE |> <| mm_last_cause := cause |> in
  let mm := if clear_request
            then mm <| mm_register_requested := false |> <| mm_retry_count := 0 |> else mm in
  mm <| mm_last_reject_cause_code := UE_MM_REG_REJECT_NONE |> <| mm_next_step_deadline_ms := 0 |>.

Definition mm_start_registration_procedure (mm : ue_mm_ctx) : ue_mm_ctx :=
  mm <| mm_registration_attempt_id := u32 (mm_registration_attempt_id mm + 1) |>
     <| mm_state := UE_MM_SEARCHING |>
     <| mm_procedure := UE_MM_PROC_REGISTRATION |>
     <| mm_proc_step := UE_MM_STEP_WAIT_CELL_SELECTION |>
     <| mm_last_cause := UE_MM_CAUSE_REGISTER_REQUESTED |>
     <| mm_last_reject_class := UE_REJECT_TEMPORARY |>
     <| mm_last_reject_cause_code := UE_MM_REG_REJECT_NONE |>
     <| mm_next_step_deadline_ms := 0 |>.

Definition mm_retry_registration_attempt (mm : ue_mm_ctx) (next_deadline_ms : Z) : ue_mm_ctx :=
  mm <| mm_retry_count := u8 (mm_retry_count mm + 1) |>
     <| mm_registration_attempt_id := u32 (mm_registration_attempt_id mm + 1) |>
     <| mm_state := UE_MM_SEARCHING |>
     <| mm_procedure := UE_MM_PROC_REGISTRATION |>
     <| mm_proc_step := UE_MM_STEP_WAIT_CELL_SELECTION |>
     <| mm_last_cause := UE_MM_CAUSE_REGISTRATION_RETRY |>
     <| mm_last_reject_class := UE_REJECT_TEMPORARY |>
     <| mm_last_reject_cause_code := UE_MM_REG_REJECT_NONE |>
     <| mm_next_step_deadline_ms := next_deadline_ms |>.

Definition mm_invoke_pending_registration (mm : ue_mm_ctx) : ue_mm_ctx :=
  if negb (mm_register_requested mm) then mm
  else if negb (is_mm UE_MM_DEREGISTERED mm) && negb (is_mm UE_MM_REGISTERED_HOME mm) then mm
  else mm_start_registration_procedure mm.

Definition mm_handle_reject_by_procedure (mm : ue_mm_ctx) (reject_cause : Z) : ue_mm_ctx :=
  let reject_class := mm_reject_class_from_cause reject_cause in
  let mm := mm <| mm_last_reject_class := reject_class |>
               <| mm_last_reject_cause_code := reject_cause |> in
  if negb (bool_decide (mm_procedure mm = UE_MM_PROC_REGISTRATION)) ||
     negb (bool_decide (mm_proc_step mm = UE_MM_STEP_WAIT_REGISTRATION_RESPONSE))
  then mm_enter_deregistered mm UE_MM_CAUSE_REGISTRATION_REJECTED true
  else if bool_decide (reject_class = UE_REJECT_TEMPORARY)
          && (mm_retry_count mm <? mm_max_retries mm)
  then mm_retry_registration_attempt mm 0
  else mm_enter_deregistered mm UE_MM_CAUSE_REGISTRATION_REJECTED true.

(** The request is always built: the early [-1] is for null pointers only. *)
Definition mm_build_registration_request (mm : ue_mm_ctx) : ue_mm_registration_request :=
  MmRegRequest (mm_registration_attempt_id mm) (mm_pending_reg_type mm)
    (mm_pending_reg_trigger mm) true
    (strcpy_n 32 (mm_imsi mm)) (strcpy_n 8 (mm_mcc mm)) (strcpy_n 8 (mm_mnc mm)).

Definition mm_handle_registration_submit_result (mm : ue_mm_ctx)
    (result : ue_mm_registration_result) : ue_mm_ctx :=
  if rr_submitted result then
    if bool_decide (rr_accept_result result = UE_MM_REG_ACCEPT_NON_3GPP) then
      mm_enter_deregistered
        (mm <| mm_last_reject_class := UE_REJECT_PERMANENT |>
            <| mm_last_reject_cause_code := UE_MM_REG_REJECT_PLMN_NOT_ALLOWED |>)
        UE_MM_CAUSE_REGISTRATION_REJECTED true
    else
      mm <| mm_last_assigned_guti := strcpy_n 32 (rr_assigned_guti result) |>
         <| mm_last_reject_class := UE_REJECT_TEMPORARY |>
         <| mm_last_reject_cause_code := UE_MM_REG_REJECT_NONE |>
  else
    mm_handle_reject_by_procedure
      (mm <| mm_last_reject_class := rr_reject_class result |>
          <| mm_last_reject_cause_code := rr_reject_cause result |>)
      (rr_reject_cause result).

Definition mm_set_pending_initial_registration (mm : ue_mm_ctx) : ue_mm_ctx :=
  mm <| mm_pending_reg_type := UE_MM_REG_INITIAL |>
     <| mm_pending_reg_trigger := UE_MM_REG_TRIGGER_EXPLICIT_REQUEST |>.
Definition mm_set_pending_mobility_update (mm : ue_mm_ctx) : ue_mm_ctx :=
  mm <| mm_pending_reg_type := UE_MM_REG_MOBILITY_UPDATE |>
     <| mm_pending_reg_trigger := UE_MM_REG_TRIGGER_MOBILITY_CHANGE |>.
Definition mm_set_pending_periodic_update (mm : ue_mm_ctx) : ue_mm_ctx :=
  mm <| mm_pending_reg_type := UE_MM_REG_MOBILITY_UPDATE |>
     <| mm_pending_reg_trigger := UE_MM_REG_TRIGGER_PERIODIC_UPDATE |>.

(** Arms the deadline, then retries or gives up when it has passed.  The two
    waiting handlers have the same text in the source. *)
Definition mm_handle_wait_cell_selection (mm : ue_mm_ctx) (now_ms : Z) : ue_mm_ctx :=
  let mm := if mm_next_step_deadline_ms mm =? 0
            then mm <| mm_next_step_deadline_ms := u64 (now_ms + UE_MM_TIMEOUT_MS) |> else mm in
  if now_ms <? mm_next_step_deadline_ms mm then mm
  else if mm_retry_count mm <? mm_max_retries mm
  then mm_retry_registration_attempt mm (u64 (now_ms + UE_MM_TIMEOUT_MS))
  else (mm_enter_deregistered mm UE_MM_CAUSE_REGISTRATION_TIMEOUT true)
         <| mm_last_reject_class := UE_REJECT_TEMPORARY |>.

Definition mm_handle_wait_registration_response (mm : ue_mm_ctx) (now_ms : Z) : ue_mm_ctx :=
  let mm := if mm_next_step_deadline_ms mm =? 0
            then mm <| mm_next_step_deadline_ms := u64 (now_ms + UE_MM_TIMEOUT_MS) |> else mm in
  if now_ms <? mm_next_step_deadline_ms mm then mm
  else if mm_retry_count mm <? mm_max_retries mm
  then mm_retry_registration_attempt mm (u64 (now_ms + UE_MM_TIMEOUT_MS))
  else (mm_enter_deregistered mm UE_MM_CAUSE_REGISTRATION_TIMEOUT true)
         <| mm_last_reject_class := UE_REJECT_TEMPORARY |>.

Definition ue_mm_init (mm : ue_mm_ctx) (radio_on sim_present : bool) : ue_mm_ctx :=
  let mm :=
    mm <| mm_procedure := UE_MM_PROC_IDLE |> <| mm_proc_step := UE_MM_STEP_NONE |>
       <| mm_last_cause := UE_MM_CAUSE_NONE |> <| mm_last_reject_class := UE_REJECT_TEMPORARY |>
       <| mm_last_reject_cause_code := UE_MM_REG_REJECT_NONE |>
       <| mm_register_requested := false |>
       <| mm_pending_reg_type := UE_MM_REG_INITIAL |>
       <| mm_pending_reg_trigger := UE_MM_REG_TRIGGER_EXPLICIT_REQUEST |>
       <| mm_last_assigned_guti := [] |> <| mm_retry_count := 0 |>
       <| mm_max_retries := UE_MM_DEFAULT_MAX_RETRIES |> <| mm_next_step_deadline_ms := 0 |> in
  if negb radio_on then
    mm <| mm_state := UE_MM_POWERED_OFF |> <| mm_last_cause := UE_MM_CAUSE_RADIO_OFF |>
       <| mm_last_reject_class := UE_REJECT_TEMPORARY |>
       <| mm_last_reject_cause_code := UE_MM_REG_REJECT_NONE |> <| mm_last_assigned_guti := [] |>
  else
    mm <| mm_state := if sim_present then UE_MM_DEREGISTERED else UE_MM_SIM_NOT_READY |>
       <| mm_last_cause := if sim_present then UE_MM_CAUSE_POWER_ON else UE_MM_CAUSE_SIM_NOT_READY |>
       <| mm_last_reject_class := UE_REJECT_TEMPORARY |>
       <| mm_last_reject_cause_code := UE_MM_REG_REJECT_NONE |>.

(** Leaving service: the assignments shared by the radio going off and the SIM
    going away. *)
Definition mm_out_of_service (mm : ue_mm_ctx) (st : ue_mm_state) (cause : ue_mm_last_cause)
    : ue_mm_ctx :=
  mm <| mm_state := st |> <| mm_procedure := UE_MM_PROC_IDLE |>
     <| mm_proc_step := UE_MM_STEP_NONE |> <| mm_last_cause := cause |>
     <| mm_last_reject_class := UE_REJECT_TEMPORARY |>
     <| mm_last_reject_cause_code := UE_MM_REG_REJECT_NONE |>
     <| mm_register_requested := false |> <| mm_retry_count := 0 |>
     <| mm_next_step_deadline_ms := 0 |>.

Definition ue_mm_on_radio (mm : ue_mm_ctx) (on : bool) : ue_mm_ctx :=
  if negb on then mm_out_of_service mm UE_MM_POWERED_OFF UE_MM_CAUSE_RADIO_OFF
  else if is_mm UE_MM_SIM_NOT_READY mm then mm
  else (mm_enter_deregistered mm UE_MM_CAUSE_POWER_ON true)
         <| mm_last_reject_class := UE_REJECT_TEMPORARY |>
         <| mm_last_reject_cause_code := UE_MM_REG_REJECT_NONE |>.

Definition ue_mm_on_sim (mm : ue_mm_ctx) (sim_ready : bool) : ue_mm_ctx :=
  if negb sim_ready then mm_out_of_service mm UE_MM_SIM_NOT_READY UE_MM_CAUSE_SIM_NOT_READY
  else
    let mm := if is_mm UE_MM_SIM_NOT_READY mm then mm <| mm_state := UE_MM_DEREGISTERED |> else mm in
    mm <| mm_last_cause := UE_MM_CAUSE_SIM_BECAME_READY |>.

Definition ue_mm_set_profile (mm : ue_mm_ctx) (imsi mcc mnc : option bytes) : ue_mm_ctx :=
  let mm := match imsi with Some s => mm <| mm_imsi := strcpy_n 32 s |> | None => mm end in
  let mm := match mcc with Some s => mm <| mm_mcc := strcpy_n 8 s |> | None => mm end in
  match mnc with Some s => mm <| mm_mnc := strcpy_n 8 s |> | None => mm end.

Definition ue_mm_request_register (mm : ue_mm_ctx) : ue_mm_ctx :=
  mm_invoke_pending_registration (mm_set_pending_initial_registration
    (mm <| mm_register_requested := true |> <| mm_retry_count := 0 |>)).

Definition ue_mm_request_mobility_update (mm : ue_mm_ctx) : ue_mm_ctx :=
  mm_invoke_pending_registration (mm_set_pending_mobility_update
    (mm <| mm_register_requested := true |> <| mm_retry_count := 0 |>)).

Definition ue_mm_request_periodic_update (mm : ue_mm_ctx) : ue_mm_ctx :=
  mm_invoke_pending_registration (mm_set_pending_periodic_update
    (mm <| mm_register_requested := true |> <| mm_retry_count := 0 |>)).

Definition ue_mm_on_cell_found `{NetworkAdapter A} (mm : ue_mm_ctx) (n : A)
    : option (ue_mm_ctx * A) :=
  if is_mm UE_MM_SEARCHING mm && mm_register_requested mm &&
     bool_decide (mm_proc_step mm = UE_MM_STEP_WAIT_CELL_SELECTION) then
    '(res, n) ← ue_network_mm_submit_registration (mm_build_registration_request mm) n;
    let mm := mm_handle_registration_submit_result mm res in
    if negb (is_mm UE_MM_SEARCHING mm) then Some (mm, n)
    else Some (mm <| mm_state := UE_MM_REGISTERING |>
                  <| mm_proc_step := UE_MM_STEP_WAIT_REGISTRATION_RESPONSE |>
                  <| mm_next_step_deadline_ms := 0 |>, n)
  else Some (mm, n).

Definition ue_mm_transition_to_registering (mm : ue_mm_ctx) : ue_mm_ctx :=
  mm <| mm_state := UE_MM_REGISTERING |>
     <| mm_proc_step := UE_MM_STEP_WAIT_REGISTRATION_RESPONSE |>
     <| mm_next_step_deadline_ms := 0 |>.

Definition ue_mm_on_registration_accept (mm : ue_mm_ctx) : ue_mm_ctx :=
  if is_mm UE_MM_REGISTERING mm && mm_register_requested mm then
    mm <| mm_state := UE_MM_REGISTERED_HOME |> <| mm_procedure := UE_MM_PROC_IDLE |>
       <| mm_proc_step := UE_MM_STEP_NONE |>
       <| mm_last_cause := UE_MM_CAUSE_REGISTRATION_ACCEPTED |>
       <| mm_last_reject_class := UE_REJECT_TEMPORARY |>
       <| mm_last_reject_cause_code := UE_MM_REG_REJECT_NONE |>
       <| mm_register_requested := false |> <| mm_retry_count := 0 |>
       <| mm_next_step_deadline_ms := 0 |>
  else mm.

Definition ue_mm_on_registration_reject (mm : ue_mm_ctx) (reject_cause : Z) : ue_mm_ctx :=
  if is_mm UE_MM_REGISTERING mm && mm_register_requested mm
  then mm_handle_reject_by_procedure mm reject_cause else mm.

Definition ue_mm_tick (mm : ue_mm_ctx) (now_ms : Z) : ue_mm_ctx :=
  if is_mm UE_MM_SEARCHING mm && mm_register_requested mm &&
     bool_decide (mm_proc_step mm = UE_MM_STEP_WAIT_CELL_SELECTION)
  then mm_handle_wait_cell_selection mm now_ms
  else if is_mm UE_MM_REGISTERING mm && mm_register_requested mm &&
     bool_decide (mm_proc_step mm = UE_MM_STEP_WAIT_REGISTRATION_RESPONSE)
  then mm_handle_wait_registration_response mm now_ms
  else
    let mm := if negb (is_mm UE_MM_REGISTERING mm) && negb (is_mm UE_MM_SEARCHING mm)
              then mm <| mm_procedure := UE_MM_PROC_IDLE |> <| mm_proc_step := UE_MM_STEP_NONE |>
              else mm in
    mm <| mm_next_step_deadline_ms := 0 |>.

(** ** The machine as the engine drives it

    One constructor per entry point.  The engine moves to REGISTERING only from
    SEARCHING ([ue_engine.c], step 5 of the tick), which is the guard of
    [st_transition]. *)
Inductive mm_step `{NetworkAdapter A} : ue_mm_ctx * A -> ue_mm_ctx * A -> Prop :=
| st_init mm n radio sim : mm_step (mm, n) (ue_mm_init mm radio sim, n)
| st_radio mm n on : mm_step (mm, n) (ue_mm_on_radio mm on, n)
| st_sim mm n ready : mm_step (mm, n) (ue_mm_on_sim mm ready, n)
| st_profile mm n imsi mcc mnc : mm_step (mm, n) (ue_mm_set_profile mm imsi mcc mnc, n)
| st_register mm n : mm_step (mm, n) (ue_mm_request_register mm, n)
| st_mobility mm n : mm_step (mm, n) (ue_mm_request_mobility_update mm, n)
| st_periodic mm n : mm_step (mm, n) (ue_mm_request_periodic_update mm, n)
| st_cell_found mm n mm' n' :
    ue_mm_on_cell_found mm n = Some (mm', n') -> mm_step (mm, n) (mm', n')
| st_transition mm n :
    mm_state mm = UE_MM_SEARCHING -> mm_step (mm, n) (ue_mm_transition_to_registering mm, n)
| st_accept mm n : mm_step (mm, n) (ue_mm_on_registration_accept mm, n)
| st_reject mm n cause : mm_step (mm, n) (ue_mm_on_registration_reject mm cause, n)
| st_tick mm n now : mm_step (mm, n) (ue_mm_tick mm now, n).

(** Reachable from a context initialised by [ue_mm_init]. *)
Inductive mm_reachable `{NetworkAdapter A} : ue_mm_ctx * A -> Prop :=
| reach_init mm n radio sim : mm_reachable (ue_mm_init mm radio sim, n)
| reach_step s s' : mm_reachable s -> mm_step s s' -> mm_reachable s'.

(** The phase of the machine determines its procedure, its step, whether a
    request is outstanding and whether the timer can run. *)
Definition mm_phase_ok (mm : ue_mm_ctx) : Prop :=
  match mm_state mm with
  | UE_MM_SEARCHING =>
    mm_procedure mm = UE_MM_PROC_REGISTRATION
    /\ mm_proc_step mm = UE_MM_STEP_WAIT_CELL_SELECTION /\ mm_register_requested mm = true
  | UE_MM_REGISTERING =>
    mm_procedure mm = UE_MM_PROC_REGISTRATION
    /\ mm_proc_step mm = UE_MM_STEP_WAIT_REGISTRATION_RESPONSE /\ mm_register_requested mm = true
  | _ =>
    mm_procedure mm = UE_MM_PROC_IDLE /\ mm_proc_step mm = UE_MM_STEP_NONE
    /\ mm_next_step_deadline_ms mm = 0
  end.

Record mm_inv (mm : ue_mm_ctx) : Prop := {
  inv_phase : mm_phase_ok mm;
  inv_retries : 0 <= mm_retry_count mm <= mm_max_retries mm;
  inv_max : mm_max_retries mm = UE_MM_DEFAULT_MAX_RETRIES;
  inv_no_cause : mm_last_reject_cause_code mm = UE_MM_REG_REJECT_NONE }.

(** Opens every guard of an operation and reduces the record updates. *)
Ltac mm_red :=
  cbv [set_field mm_state mm_procedure mm_proc_step mm_last_cause mm_last_reject_class
    mm_last_reject_cause_code mm_register_requested mm_retry_count mm_max_retries
    mm_registration_attempt_id mm_last_assigned_guti mm_imsi mm_mcc mm_mnc mm_pending_reg_type
    mm_pending_reg_trigger mm_next_step_deadline_ms mm_phase_ok negb andb orb] in *.
Ltac mm_atomic t :=
  lazymatch t with context [if _ then _ else _] => fail | _ => idtac end.
Ltac mm_case :=
  mm_red;
  repeat (match goal with
          | |- context [bool_decide (?x = ?x)] => rewrite (bool_decide_true (x = x)) by done
          | |- context [bool_decide ?P] => rewrite (bool_decide_false P) by done
          | |- context [if ?c then _ else _] =>
            mm_atomic c; let E := fresh "E" in destruct c eqn:E
          end; mm_red).

Ltac mm_unfold :=
  unfold ue_mm_init, ue_mm_on_radio, ue_mm_on_sim, ue_mm_set_profile, ue_mm_request_register,
    ue_mm_request_mobility_update, ue_mm_request_periodic_update, ue_mm_transition_to_registering,
    ue_mm_on_registration_accept, ue_mm_on_registration_reject, ue_mm_tick,
    mm_handle_registration_submit_result, mm_handle_reject_by_procedure, mm_handle_wait_cell_selection,
    mm_handle_wait_registration_response,
    mm_invoke_pending_registration, mm_start_registration_procedure,
    mm_retry_registration_attempt, mm_enter_deregistered, mm_out_of_service,
    mm_set_pending_initial_registration, mm_set_pending_mobility_update,
    mm_set_pending_periodic_update in *.

Lemma mm_inv_handlers mm b c :
  mm_inv mm ->
  mm_inv (ue_mm_on_radio mm b) /\ mm_inv (ue_mm_on_sim mm b)
  /\ mm_inv (ue_mm_request_register mm) /\ mm_inv (ue_mm_request_mobility_update mm)
  /\ mm_inv (ue_mm_request_periodic_update mm) /\ mm_inv (ue_mm_on_registration_accept mm)
  /\ mm_inv (ue_mm_on_registration_reject mm c) /\ mm_inv (ue_mm_tick mm c).
Proof.
  intros [Hp Hr Hm Hc]. destruct mm. unfold mm_phase_ok, UE_MM_DEFAULT_MAX_RETRIES in *.
  cbv [mm_state mm_procedure mm_proc_step mm_register_requested mm_retry_count mm_max_retries
    mm_last_reject_cause_code] in *. subst.
  destruct mm_state0; destruct_and?; subst.
  all: split_and!; mm_unfold; mm_case.
  all: try (split; mm_red; [done|unfold u8; lia|done|done]).
Qed.

Lemma mm_inv_init mm r s : mm_inv (ue_mm_init mm r s).
Proof.
  destruct mm, r, s; unfold ue_mm_init; split; mm_red; unfold UE_MM_DEFAULT_MAX_RETRIES;
    done || lia.
Qed.

Lemma mm_inv_profile mm i c n : mm_inv mm -> mm_inv (ue_mm_set_profile mm i c n).
Proof. intros [? ? ? ?]. destruct mm, i, c, n; split; assumption. Qed.

Lemma mm_inv_transition mm :
  mm_inv mm -> mm_state mm = UE_MM_SEARCHING -> mm_inv (ue_mm_transition_to_registering mm).
Proof.
  intros [Hp ? ? ?] Hs. unfold mm_phase_ok in Hp. rewrite Hs in Hp. destruct_and?.
  destruct mm; split; first [assumption | done].
Qed.

(** The answer to a submission either keeps the search going or ends it. *)
Lemma mm_submit_result_inv mm res :
  mm_inv mm -> mm_state mm = UE_MM_SEARCHING ->
  let mm' := mm_handle_registration_submit_result mm res in
  mm_inv mm' /\ (mm_state mm' = UE_MM_SEARCHING /\ mm_retry_count mm' = mm_retry_count mm
                 \/ mm_state mm' = UE_MM_DEREGISTERED /\ mm_next_step_deadline_ms mm' = 0).
Proof.
  intros [Hp Hr Hm Hc] Hs. destruct mm, res as [sub rcl cause acc guti t35].
  unfold mm_phase_ok, UE_MM_DEFAULT_MAX_RETRIES in *.
  mm_red. subst. destruct_and?; subst. mm_unfold. cbn [rr_submitted rr_accept_result
    rr_assigned_guti rr_reject_class rr_reject_cause]. mm_case.
  all: split; [split; mm_red; [done|lia|done|done]|tauto].
Qed.

Lemma mm_cell_found_cases `{NetworkAdapter A} mm (n : A) mm' n' :
  ue_mm_on_cell_found mm n = Some (mm', n') -> mm_inv mm ->
  mm' = mm \/
  mm_state mm = UE_MM_SEARCHING /\ exists mm1, mm_inv mm1 /\
    (mm_state mm1 = UE_MM_DEREGISTERED /\ mm_next_step_deadline_ms mm1 = 0 /\ mm' = mm1
     \/ mm_state mm1 = UE_MM_SEARCHING /\ mm_retry_count mm1 = mm_retry_count mm
        /\ mm' = ue_mm_transition_to_registering mm1).
Proof.
  unfold ue_mm_on_cell_found. intros Hc Hi.
  destruct (is_mm UE_MM_SEARCHING mm && _ && _) eqn:E; [|left; by simplify_eq].
  destruct (ue_network_mm_submit_registration _ n) as [[res n2]|]; [|done]. cbn in Hc.
  apply andb_true_iff in E as [[E _]%andb_true_iff _]. apply bool_decide_eq_true in E.
  right. split; [done|]. exists (mm_handle_registration_submit_result mm res).
  destruct (mm_submit_result_inv mm res Hi E) as [Hi1 Hst]. split; [done|].
  destruct Hst as [[Hst Hk]|[Hst Hd]].
  - right. split; [done|]. split; [done|]. rewrite bool_decide_true in Hc by done.
    cbn [negb] in Hc. by injection Hc as <- <-.
  - left. split; [done|]. split; [done|]. rewrite Hst in Hc. cbn in Hc. by injection Hc as <- <-.
Qed.

Section Reachability.
Context `{NetworkAdapter A}.

Lemma mm_inv_step s s' : mm_inv s.1 -> mm_step s s' -> mm_inv s'.1.
Proof.
  intros Hi Hs. destruct Hs; cbn [fst] in *;
    try (pose proof (fun b c => mm_inv_handlers mm b c Hi) as Hh;
         first [apply (Hh true 0) | apply (Hh _ 0) | apply (Hh true)]).
  - apply mm_inv_init.
  - by apply mm_inv_profile.
  - match goal with E : ue_mm_on_cell_found _ _ = _ |- _ =>
      destruct (mm_cell_found_cases _ _ _ _ E Hi) as [->|(_ & mm1 & Hi1 & [(_ & _ & ->)|(Hs1 & _ & ->)])]
    end; [done|done|by apply mm_inv_transition].
  - by apply mm_inv_transition.
Qed.

Lemma mm_reachable_ok s : mm_reachable s -> mm_inv s.1.
Proof. induction 1; [apply mm_inv_init|by eapply mm_inv_step]. Qed.
End Reachability.

(** C9: in every state the machine can reach, the phase determines the running
    procedure, its step and the outstanding request, the retry counter stays
    within its bound of two, and no reject cause code is recorded. *)
Theorem mm_reachable_invariant `{NetworkAdapter A} mm (n : A) :
  mm_reachable (mm, n) ->
  mm_phase_ok mm /\ 0 <= mm_retry_count mm <= 2
  /\ mm_last_reject_cause_code mm = UE_MM_REG_REJECT_NONE.
Proof.
  intros Hr. destruct (mm_reachable_ok (mm, n) Hr) as [? Hc Hm ?]. cbn [fst] in *.
  rewrite Hm in Hc. done.
Qed.

Section Safety.
Context `{NetworkAdapter A}.

Lemma mm_step_enters_home mm (n : A) mm' n' :
  mm_step (mm, n) (mm', n') -> mm_inv mm ->
  mm_state mm' = UE_MM_REGISTERED_HOME -> mm_state mm <> UE_MM_REGISTERED_HOME ->
  mm_state mm = UE_MM_REGISTERING /\ mm' = ue_mm_on_registration_accept mm.
Proof.
  intros Hs Hi Hm' Hm. inversion Hs; subst; clear Hs.
  all: try (destruct mm, mm_state0; try done; exfalso; revert Hm'; mm_unfold; mm_case; done).
  - exfalso. revert Hm'. destruct mm, imsi, mcc, mnc; done.
  - exfalso. match goal with E : ue_mm_on_cell_found _ _ = _ |- _ =>
      destruct (mm_cell_found_cases _ _ _ _ E Hi) as [->|(_ & mm1 & Hi1 & [(Hd & _ & ->)|(Hs1 & _ & ->)])]
    end; [done|by rewrite Hd in Hm'|done].
Qed.
End Safety.

(** C10: the machine becomes REGISTERED_HOME in one way only, by the handler of
    a registration accept, from REGISTERING, while the registration procedure
    waits for that answer to an outstanding request. *)
Theorem mm_home_only_by_accept `{NetworkAdapter A} mm (n : A) mm' n' :
  mm_reachable (mm, n) -> mm_step (mm, n) (mm', n') ->
  mm_state mm' = UE_MM_REGISTERED_HOME -> mm_state mm <> UE_MM_REGISTERED_HOME ->
  mm' = ue_mm_on_registration_accept mm /\ mm_state mm = UE_MM_REGISTERING
  /\ mm_proc_step mm = UE_MM_STEP_WAIT_REGISTRATION_RESPONSE
  /\ mm_register_requested mm = true.
Proof.
  intros Hr Hs Hm' Hm. pose proof (mm_reachable_ok (mm, n) Hr) as Hi. cbn [fst] in Hi.
  destruct (mm_step_enters_home _ _ _ _ Hs Hi Hm' Hm) as [Hst ->].
  destruct Hi as [Hp _ _ _]. unfold mm_phase_ok in Hp. rewrite Hst in Hp. tauto.
Qed.

(** ** Giving up

    The events the network and the clock cause.  A run takes them in order; a
    tick carries its time. *)
Inductive mm_event :=
| EvTick (now_ms : Z) | EvCellFound | EvToRegistering | EvAccept | EvReject (cause : Z).

Definition mm_waiting (mm : ue_mm_ctx) : bool :=
  is_mm UE_MM_SEARCHING mm || is_mm UE_MM_REGISTERING mm.

Definition mm_event_step `{NetworkAdapter A} (e : mm_event) (s : ue_mm_ctx * A)
    : option (ue_mm_ctx * A) :=
  let '(mm, n) := s in
  match e with
  | EvTick now => Some (ue_mm_tick mm now, n)
  | EvCellFound => ue_mm_on_cell_found mm n
  | EvToRegistering =>
    Some (if is_mm UE_MM_SEARCHING mm then ue_mm_transition_to_registering mm else mm, n)
  | EvAccept => Some (ue_mm_on_registration_accept mm, n)
  | EvReject c => Some (ue_mm_on_registration_reject mm c, n)
  end.

Definition mm_run `{NetworkAdapter A} (es : list mm_event) (s : ue_mm_ctx * A)
    : option (ue_mm_ctx * A) :=
  foldl (fun o e => o ≫= mm_event_step e) (Some s) es.

(** The ticks of a run and their spacing: each at least the timeout after the
    one before. *)
Fixpoint mm_ticks (es : list mm_event) : Z :=
  match es with
  | [] => 0
  | EvTick _ :: es => 1 + mm_ticks es
  | _ :: es => mm_ticks es
  end.

Fixpoint mm_spaced (last : Z) (es : list mm_event) : Prop :=
  match es with
  | [] => True
  | EvTick t :: es => last + UE_MM_TIMEOUT_MS <= t < 2 ^ 63 /\ mm_spaced t es
  | _ :: es => mm_spaced last es
  end.

(** How many more such ticks the machine can wait for. *)
Definition mm_patience (mm : ue_mm_ctx) : Z :=
  if mm_waiting mm then
    2 * (mm_max_retries mm - mm_retry_count mm)
    + match is_mm UE_MM_SEARCHING mm, mm_next_step_deadline_ms mm =? 0 with
      | true, true => 3 | true, false => 2 | false, true => 2 | false, false => 1 end
  else 0.

Definition mm_deadline_ok (last : Z) (mm : ue_mm_ctx) : Prop :=
  0 <= mm_next_step_deadline_ms mm <= last + UE_MM_TIMEOUT_MS.

Ltac mm_open mm Hi :=
  destruct Hi as [Hp Hr Hm Hc]; destruct mm;
  unfold mm_phase_ok, UE_MM_DEFAULT_MAX_RETRIES, mm_patience, mm_deadline_ok, mm_waiting in *;
  mm_red; subst.

Lemma mm_tick_patience mm last t :
  mm_inv mm -> 0 <= last -> last + UE_MM_TIMEOUT_MS <= t < 2 ^ 63 -> mm_deadline_ok last mm ->
  mm_deadline_ok t (ue_mm_tick mm t)
  /\ mm_patience (ue_mm_tick mm t) <= Z.max 0 (mm_patience mm - 1).
Proof.
  intros Hi Hl Ht Hd. mm_open mm Hi.
  assert (u64 (t + UE_MM_TIMEOUT_MS) = t + UE_MM_TIMEOUT_MS) as Hu
    by (unfold u64, UE_MM_TIMEOUT_MS in *; apply Z.mod_small; lia).
  assert (u8 (mm_retry_count0 + 1) = mm_retry_count0 + 1) as Hk
    by (unfold u8; apply Z.mod_small; lia).
  destruct mm_state0; destruct_and?; subst; mm_unfold; mm_red; rewrite ?Hu, ?Hk; mm_case;
    unfold UE_MM_TIMEOUT_MS in *; lia.
Qed.

Lemma mm_patience_transition mm mm1 :
  mm_inv mm -> mm_inv mm1 -> mm_state mm = UE_MM_SEARCHING ->
  mm_retry_count mm1 = mm_retry_count mm ->
  mm_patience (ue_mm_transition_to_registering mm1) <= mm_patience mm.
Proof.
  intros [_ _ Hm _] [_ _ Hm1 _] Hs Hk. unfold mm_patience, mm_waiting.
  rewrite Hs, Hm. destruct mm1. mm_unfold. mm_red. subst.
  mm_case; lia.
Qed.

Lemma mm_patience_nonneg mm : mm_inv mm -> 0 <= mm_patience mm.
Proof. intros Hi. mm_open mm Hi. mm_case; lia. Qed.

Lemma mm_patience_pos mm : mm_inv mm -> mm_waiting mm = true -> 1 <= mm_patience mm.
Proof. intros Hi Hw. mm_open mm Hi. revert Hw. mm_case; done || lia. Qed.

Lemma mm_event_patience `{NetworkAdapter A} e mm (n : A) mm' n' last :
  mm_event_step e (mm, n) = Some (mm', n') -> mm_inv mm -> 0 <= last ->
  mm_deadline_ok last mm -> match e with EvTick _ => False | _ => True end ->
  mm_inv mm' /\ mm_deadline_ok last mm' /\ mm_patience mm' <= mm_patience mm.
Proof.
  intros He Hi Hl Hd Hnt. destruct e as [t| | | |c]; try done; cbn [mm_event_step] in He.
  - destruct (mm_cell_found_cases _ _ _ _ He Hi) as [->|(Hs & mm1 & Hi1 & Hc)]; [done|].
    pose proof (mm_patience_nonneg mm Hi).
    destruct Hc as [(Hs1 & Hd1 & ->)|(Hs1 & Hk & ->)].
    + split; [done|]. unfold mm_deadline_ok, mm_patience, mm_waiting, UE_MM_TIMEOUT_MS.
      rewrite Hs1, Hd1. split; [lia|done].
    + split; [by apply mm_inv_transition|]. split; [cbn; unfold mm_deadline_ok in *; cbn; lia|].
      by apply mm_patience_transition.
  - injection He as <- <-. destruct (bool_decide (mm_state mm = UE_MM_SEARCHING)) eqn:E; [|done].
    apply bool_decide_eq_true in E. split; [by apply mm_inv_transition|].
    split; [unfold mm_deadline_ok in *; cbn; lia|]. by apply mm_patience_transition.
  - injection He as <- <-. split; [by apply (mm_inv_handlers mm true 0)|].
    mm_open mm Hi. destruct mm_state0; destruct_and?; subst; mm_unfold; mm_case; lia.
  - injection He as <- <-. split; [by apply (mm_inv_handlers mm true c)|]. mm_open mm Hi.
    assert (u8 (mm_retry_count0 + 1) = mm_retry_count0 + 1)
      by (unfold u8; apply Z.mod_small; lia).
    destruct mm_state0; destruct_and?; subst; mm_unfold; mm_case; lia.
Qed.

Lemma mm_ticks_nonneg es : 0 <= mm_ticks es.
Proof. induction es as [|[]]; cbn [mm_ticks]; lia. Qed.

Lemma mm_run_cons `{NetworkAdapter A} e es (s s' : ue_mm_ctx * A) :
  mm_run (e :: es) s = Some s' -> exists s1, mm_event_step e s = Some s1 /\ mm_run es s1 = Some s'.
Proof.
  unfold mm_run. cbn. destruct (mm_event_step e s) as [s1|]; [by exists s1|].
  enough (foldl (fun o e => o ≫= mm_event_step e) None es = @None (ue_mm_ctx * A)) as -> by done.
  by induction es.
Qed.

Lemma mm_run_patience `{NetworkAdapter A} es mm (n : A) mm' n' last :
  mm_run es (mm, n) = Some (mm', n') -> mm_inv mm -> 0 <= last -> mm_deadline_ok last mm ->
  mm_spaced last es ->
  mm_inv mm' /\ mm_patience mm' <= Z.max 0 (mm_patience mm - mm_ticks es).
Proof.
  revert mm n last. induction es as [|e es IH]; intros mm n last Hr Hi Hl Hd Hs.
  { injection Hr as <- <-. split; [done|]. cbn. lia. }
  destruct (mm_run_cons _ _ _ _ Hr) as ([mm1 n1] & He & Hr1).
  pose proof (mm_ticks_nonneg es). destruct e as [t| | | |c] eqn:Ee.
  1: { injection He as <- <-. cbn in Hs. destruct Hs as [Ht Hs].
       destruct (mm_tick_patience mm last t Hi Hl Ht Hd) as [Hd1 Hp1].
       assert (0 <= t) by (unfold UE_MM_TIMEOUT_MS in *; lia).
       destruct (IH _ _ t Hr1 ltac:(by apply (mm_inv_handlers mm true t)) ltac:(done) Hd1 Hs).
       split; [done|]. cbn [mm_ticks]. lia. }
  all: destruct (mm_event_patience e mm n mm1 n1 last) as (Hi1 & Hd1 & Hp1); subst; try done.
  all: destruct (IH _ _ last Hr1 Hi1 Hl Hd1 Hs); split; [done|]; cbn [mm_ticks]; lia.
Qed.

(** C8: a registration request never waits for ever.  From any reachable
    state out of registration, once a registration is requested, whatever the
    network does (cells found, accepts, rejects), after seven ticks spaced by
    the 1200 ms timeout the machine is neither SEARCHING nor REGISTERING: the
    first wait, and two retries, have been answered or have timed out. *)
Theorem mm_registration_terminates `{NetworkAdapter A} mm (n : A) es mm' n' :
  mm_reachable (mm, n) -> mm_waiting mm = false ->
  mm_spaced 0 es -> 7 <= mm_ticks es ->
  mm_run es (ue_mm_request_register mm, n) = Some (mm', n') ->
  mm_waiting mm' = false.
Proof.
  intros Hr Hw Hs Ht Hrun. pose proof (mm_reachable_ok (mm, n) Hr) as Hi. cbn [fst] in Hi.
  assert (mm_inv (ue_mm_request_register mm)) as Hi1 by apply (mm_inv_handlers mm true 0 Hi).
  assert (mm_patience (ue_mm_request_register mm) <= 7
          /\ mm_deadline_ok 0 (ue_mm_request_register mm)) as [Hp Hd].
  { clear - Hi Hw. mm_open mm Hi. unfold UE_MM_TIMEOUT_MS.
    destruct mm_state0; destruct_and?; subst; try done; mm_unfold; mm_case; lia. }
  destruct (mm_run_patience es _ _ _ _ 0 Hrun Hi1 ltac:(done) Hd Hs) as [Hi' Hp'].
  destruct (mm_waiting mm') eqn:E; [|done].
  pose proof (mm_patience_pos mm' Hi' E). lia.
Qed.

(** In SEARCHING, when a cell is found, the registration request built
    from the context is submitted once, and with an adapter that accepts
    submissions the machine goes to REGISTERING, waits for the response with
    its timer unarmed and keeps its attempt and its retries. *)
Lemma mm_cell_found_registers `{AcceptingAdapter A} mm (n : A) :
  mm_reachable (mm, n) -> mm_state mm = UE_MM_SEARCHING -> adapter_ok n ->
  exists r n' mm',
    ue_network_mm_submit_registration (mm_build_registration_request mm) n = Some (r, n')
    /\ ue_mm_on_cell_found mm n = Some (mm', n')
    /\ mm_state mm' = UE_MM_REGISTERING
    /\ mm_proc_step mm' = UE_MM_STEP_WAIT_REGISTRATION_RESPONSE
    /\ mm_next_step_deadline_ms mm' = 0
    /\ mm_registration_attempt_id mm' = mm_registration_attempt_id mm
    /\ mm_retry_count mm' = mm_retry_count mm
    /\ mm_last_assigned_guti mm' = strcpy_n 32 (rr_assigned_guti r).
Proof.
  intros Hr Hs Hn. destruct (mm_reachable_ok _ Hr) as [Hp _ _ _]. cbn [fst] in Hp.
  unfold mm_phase_ok in Hp. rewrite Hs in Hp. destruct Hp as (Hpr & Hst & Hq).
  destruct (mm_submit_ok (mm_build_registration_request mm) n Hn) as (r & n' & E & _).
  destruct (mm_submit_accepts _ _ _ _ E) as [Hsub Hacc].
  unfold ue_mm_on_cell_found. rewrite Hs, Hq, Hst, E. cbn [mbind option_bind].
  unfold mm_handle_registration_submit_result. rewrite Hsub, Hacc. destruct mm.
  mm_red. subst. eexists _, n', _. split; [done|]. split; [reflexivity|]. done.
Qed.

(** A registration reject from the network, in REGISTERING: a temporary
    cause with retries left starts the next attempt, any other deregisters the
    machine and drops the request; the reject cause itself is erased on both
    paths, so [last_reject_cause_code] always reads NONE. *)
Lemma mm_reject_outcome `{NetworkAdapter A} mm (n : A) cause :
  mm_reachable (mm, n) -> mm_state mm = UE_MM_REGISTERING ->
  let mm' := ue_mm_on_registration_reject mm cause in
  mm_last_reject_cause_code mm' = UE_MM_REG_REJECT_NONE
  /\ if bool_decide (mm_reject_class_from_cause cause = UE_REJECT_TEMPORARY)
        && (mm_retry_count mm <? 2)
     then mm_state mm' = UE_MM_SEARCHING /\ mm_retry_count mm' = mm_retry_count mm + 1
          /\ mm_registration_attempt_id mm' = u32 (mm_registration_attempt_id mm + 1)
          /\ mm_last_cause mm' = UE_MM_CAUSE_REGISTRATION_RETRY
     else mm_state mm' = UE_MM_DEREGISTERED /\ mm_register_requested mm' = false
          /\ mm_last_cause mm' = UE_MM_CAUSE_REGISTRATION_REJECTED
          /\ mm_last_reject_class mm' = mm_reject_class_from_cause cause.
Proof.
  intros Hr Hs mm'. destruct (mm_reachable_ok _ Hr) as [Hp Hk Hm Hc]. cbn [fst] in *.
  assert (u8 (mm_retry_count mm + 1) = mm_retry_count mm + 1) as Hu
    by (unfold u8, UE_MM_DEFAULT_MAX_RETRIES in *; apply Z.mod_small; lia).
  subst mm'. unfold mm_phase_ok, UE_MM_DEFAULT_MAX_RETRIES in *. rewrite Hs in Hp.
  destruct mm. mm_red. subst. destruct_and?; subst. mm_unfold. mm_case; done.
Qed.

(** ** Witnesses *)

(** An adapter that accepts everything, to run the machine with. *)
#[local] Instance accept_all : NetworkAdapter unit := {|
  ue_network_mm_submit_registration _ n :=
    Some (MmRegResult true UE_REJECT_TEMPORARY 0 UE_MM_REG_ACCEPT_3GPP [51] 3600, n);
  ue_network_sm_submit_establish _ n :=
    Some (SmEstResult true UE_REJECT_TEMPORARY 0 1 [10; 0; 0; 2] 1500, n);
  ue_network_sm_submit_release _ n := Some (SmRelResult true UE_REJECT_TEMPORARY 0, n) |}.

#[local] Instance accept_all_safe : SafeAdapter unit.
Proof.
  refine {| adapter_ok := fun _ : unit => True |}; intros; eexists _, _;
    (split; [reflexivity|]); repeat split; cbn; lia.
Defined.

#[local] Instance accept_all_accepting : AcceptingAdapter unit.
Proof. split; intros req n r n' E; injection E as <- <-; done. Qed.

Definition mm_blank : ue_mm_ctx :=
  MmCtx UE_MM_POWERED_OFF UE_MM_PROC_IDLE UE_MM_STEP_NONE UE_MM_CAUSE_NONE UE_REJECT_TEMPORARY
    0 false 0 0 0 [] [] [] [] UE_MM_REG_INITIAL UE_MM_REG_TRIGGER_EXPLICIT_REQUEST 0.
Definition mm_home_sim : ue_mm_ctx :=
  ue_mm_set_profile (ue_mm_init mm_blank true true)
    (Some (str "001010000000001")) (Some (str "001")) (Some (str "01")).
Definition mm_searching : ue_mm_ctx := ue_mm_request_register mm_home_sim.
Definition mm_registering : ue_mm_ctx := ue_mm_transition_to_registering mm_searching.

Lemma mm_home_sim_reachable : mm_reachable (mm_home_sim, tt).
Proof. eapply reach_step; [apply reach_init|apply st_profile]. Qed.
Lemma mm_searching_reachable : mm_reachable (mm_searching, tt).
Proof. eapply reach_step; [apply mm_home_sim_reachable|apply st_register]. Qed.
Lemma mm_registering_reachable : mm_reachable (mm_registering, tt).
Proof. eapply reach_step; [apply mm_searching_reachable|by apply st_transition]. Qed.

Lemma mm_reachable_invariant_witness :
  mm_phase_ok mm_registering /\ 0 <= mm_retry_count mm_registering <= 2
  /\ mm_last_reject_cause_code mm_registering = UE_MM_REG_REJECT_NONE.
Proof. apply (mm_reachable_invariant mm_registering tt), mm_registering_reachable. Defined.

Lemma mm_home_only_by_accept_witness :
  mm_state (ue_mm_on_registration_accept mm_registering) = UE_MM_REGISTERED_HOME
  /\ mm_register_requested mm_registering = true.
Proof.
  split; [reflexivity|].
  eapply (mm_home_only_by_accept mm_registering tt _ tt mm_registering_reachable).
  - apply st_accept.
  - reflexivity.
  - discriminate.
Defined.

(** Cell found at once, no answer: the response wait and both retries time
    out. *)
Definition mm_silent_run : list mm_event :=
  [EvTick 1200; EvCellFound; EvTick 2400; EvTick 3600; EvCellFound; EvTick 4800; EvTick 6000;
   EvCellFound; EvTick 7200; EvTick 8400].

Lemma mm_registration_terminates_witness :
  7 <= mm_ticks mm_silent_run
  /\ mm_run (firstn 9 mm_silent_run) (mm_searching, tt)
     <> mm_run mm_silent_run (mm_searching, tt)
  /\ exists mm', mm_run mm_silent_run (mm_searching, tt) = Some (mm', tt)
       /\ mm_last_cause mm' = UE_MM_CAUSE_REGISTRATION_TIMEOUT /\ mm_waiting mm' = false.
Proof.
  split; [vm_compute; discriminate|]. split; [vm_compute; discriminate|].
  eexists. split; [vm_compute; reflexivity|]. split; [reflexivity|].
  eapply (mm_registration_terminates mm_home_sim tt mm_silent_run _ tt mm_home_sim_reachable).
  - reflexivity.
  - cbn. unfold UE_MM_TIMEOUT_MS. lia.
  - vm_compute. discriminate.
  - vm_compute. reflexivity.
Defined.

Example mm_cell_found_registers_example :
  exists mm', ue_mm_on_cell_found mm_searching tt = Some (mm', tt)
    /\ mm_state mm' = UE_MM_REGISTERING.
Proof.
  destruct (mm_cell_found_registers mm_searching tt mm_searching_reachable eq_refl ltac:(exact I))
    as (r & [] & mm' & _ & E & Hs & _).
  exists mm'. split; [exact E|exact Hs].
Defined.

Example mm_reject_outcome_example :
  mm_state (ue_mm_on_registration_reject mm_registering UE_MM_REG_REJECT_CONGESTION)
    = UE_MM_SEARCHING
  /\ mm_state (ue_mm_on_registration_reject mm_registering UE_MM_REG_REJECT_ILLEGAL_UE)
     = UE_MM_DEREGISTERED.
Proof.
  split.
  - apply (mm_reject_outcome mm_registering tt UE_MM_REG_REJECT_CONGESTION
             mm_registering_reachable eq_refl).
  - apply (mm_reject_outcome mm_registering tt UE_MM_REG_REJECT_ILLEGAL_UE
             mm_registering_reachable eq_refl).
Defined.
