(* ===== verification/UeSm.v ===== *)
(** The 5G session-management state machine: [src/src/ue_engine/ue_sm.c].

    The context is a record, and an operation that can reach the network takes
    and returns the state of the adapter as well; its result is [None] only if
    the adapter's is.  The mutual recursion of the source (a submission that is
    rejected at once starts the procedure again) is cut at the retry, which the
    rejecting functions take as an argument; [sm_start_establish_procedure]
    ties the knot with fuel.  Every attempt consumes one of at most 255 retries,
    so [SM_FUEL] is enough ([sm_start_total]). *)

From S2P Require Import Prelude UeTypes.

Definition UE_SM_T3580_MS : Z := 16000.
Definition UE_SM_T3580_MAX_RETX : Z := 4.
Definition UE_SM_RELEASE_WAIT_MS : Z := 16000.
Definition SM_FUEL : nat := 257.

#[local] Set Primitive Projections.

Record ue_sm_ctx := SmCtx {
  sm_state : ue_sm_state;
  sm_procedure : ue_sm_procedure;
  sm_proc_step : ue_sm_proc_step;
  sm_last_cause : ue_sm_last_cause;
  sm_last_reject_class : ue_reject_class;
  sm_last_reject_cause_code : Z;
  sm_session_id : Z;
  sm_active_dnn : bytes;
  sm_ip : ue_engine_runtime_ip;
  sm_connect_requested : bool;
  sm_disconnect_requested : bool;
  sm_retry_count : Z;
  sm_max_retries : Z;
  sm_establishment_attempt_id : Z;
  sm_pti : Z;
  sm_next_pti : Z;
  sm_pdu_type : bytes;
  sm_s_nssai_sst : Z;
  sm_next_step_deadline_ms : Z;
  sm_est_retx_count : Z }.

Abbreviation is_sm s sm := (bool_decide (sm_state sm = s)).

Definition sm_alloc_pti (sm : ue_sm_ctx) : ue_sm_ctx :=
  let sm := if (sm_next_pti sm <? 1) || (254 <? sm_next_pti sm)
            then sm <| sm_next_pti := 1 |> else sm in
  sm <| sm_pti := sm_next_pti sm |>
     <| sm_next_pti := u8 (sm_next_pti sm mod 254 + 1) |>.

Definition sm_reject_class_from_cause (cause : Z) : ue_reject_class :=
  if cause =? UE_SM_PDU_REJECT_INSUFFICIENT_RESOURCES then UE_REJECT_TEMPORARY
  else if (cause =? UE_SM_PDU_REJECT_MISSING_DNN)
          || (cause =? UE_SM_PDU_REJECT_UNKNOWN_PDU_SESSION_TYPE)
          || (cause =? UE_SM_PDU_REJECT_SEMANTIC_ERROR) then UE_REJECT_PERMANENT
  else UE_REJECT_TEMPORARY.

Definition sm_enter_inactive (sm : ue_sm_ctx) (cause : ue_sm_last_cause)
    (clear_connect clear_disconnect : bool) : ue_sm_ctx :=
  let sm := sm <| sm_state := UE_SM_INACTIVE |> <| sm_procedure := UE_SM_PROC_IDLE |>
               <| sm_proc_step := UE_SM_STEP_NONE |> <| sm_last_cause := cause |> in
  let sm := if clear_connect then sm <| sm_connect_requested := false |> else sm in
  let sm := if clear_disconnect then sm <| sm_disconnect_requested := false |> else sm in
  sm <| sm_next_step_deadline_ms := 0 |> <| sm_pti := 0 |>.

(** The requests are always built: the early [-1] of the source is for null
    pointers only. *)
Definition sm_build_release_request (sm : ue_sm_ctx) : ue_sm_pdu_session_rel_request :=
  SmRelRequest (sm_establishment_attempt_id sm) (sm_session_id sm) (sm_pti sm).

Definition sm_build_establish_request (sm : ue_sm_ctx) : ue_sm_pdu_session_est_request :=
  SmEstRequest (sm_establishment_attempt_id sm)
    (if sm_session_id sm =? 0 then 1 else sm_session_id sm)
    (if sm_pti sm =? 0 then 1 else sm_pti sm)
    UE_SM_PDU_REQUEST_INITIAL
    (strcpy_n 64 (sm_active_dnn sm)) (strcpy_n 16 (sm_pdu_type sm))
    (sm_s_nssai_sst sm) (negb (sm_session_id sm =? 0)).

Definition sm_handle_release_submit_result (sm : ue_sm_ctx)
    (result : ue_sm_pdu_session_rel_result) : ue_sm_ctx :=
  if lr_submitted result then sm <| sm_last_reject_cause_code := UE_SM_PDU_REJECT_NONE |>
  else
    let sm := sm <| sm_last_reject_class := sm_reject_class_from_cause (lr_reject_cause result) |>
                 <| sm_last_reject_cause_code := lr_reject_cause result |> in
    (sm_enter_inactive sm UE_SM_CAUSE_RELEASE_COMPLETE true true) <| sm_retry_count := 0 |>.

Section Network.
Context `{NetworkAdapter A}.

Definition sm_handle_establish_reject_by_procedure
    (sm_retry_establish_procedure : ue_sm_ctx -> A -> option (ue_sm_ctx * A))
    (sm : ue_sm_ctx) (n : A) (reject_cause : Z) : option (ue_sm_ctx * A) :=
  let sm := sm <| sm_last_reject_class := sm_reject_class_from_cause reject_cause |>
               <| sm_last_reject_cause_code := reject_cause |> <| sm_pti := 0 |> in
  if negb (bool_decide (sm_procedure sm = UE_SM_PROC_ESTABLISH_PDU)) ||
     negb (bool_decide (sm_proc_step sm = UE_SM_STEP_WAIT_ESTABLISH_RESPONSE)) then
    Some ((sm_enter_inactive sm UE_SM_CAUSE_ESTABLISH_REJECTED true true)
            <| sm_retry_count := 0 |>, n)
  else
    let sm := sm_enter_inactive sm UE_SM_CAUSE_ESTABLISH_REJECTED false true in
    if reject_cause =? UE_SM_PDU_REJECT_SEMANTIC_ERROR then
      Some (sm <| sm_connect_requested := false |> <| sm_retry_count := 0 |>, n)
    else if bool_decide (sm_last_reject_class sm = UE_REJECT_TEMPORARY)
            && (sm_retry_count sm <? sm_max_retries sm)
    then sm_retry_establish_procedure sm n
    else Some (sm <| sm_connect_requested := false |> <| sm_retry_count := 0 |>, n).

Definition sm_set_assigned_ip (sm : ue_sm_ctx) (result : ue_sm_pdu_session_est_result)
    : ue_engine_runtime_ip :=
  RuntimeIp (take 4 (er_assigned_ipv4 result)) (ip_ipv4_gw (sm_ip sm)) (ip_dns1 (sm_ip sm))
    (ip_dns2 (sm_ip sm))
    (if er_assigned_mtu result =? 0 then ip_mtu (sm_ip sm) else er_assigned_mtu result).

Definition sm_handle_establish_submit_result
    (sm_retry_establish_procedure : ue_sm_ctx -> A -> option (ue_sm_ctx * A))
    (sm : ue_sm_ctx) (n : A) (result : ue_sm_pdu_session_est_result) : option (ue_sm_ctx * A) :=
  if er_submitted result then
    Some (sm <| sm_session_id := er_selected_psi result |>
             <| sm_ip := sm_set_assigned_ip sm result |>
             <| sm_last_reject_cause_code := UE_SM_PDU_REJECT_NONE |>
             <| sm_pti := 0 |>, n)
  else sm_handle_establish_reject_by_procedure sm_retry_establish_procedure sm n
         (er_reject_cause result).

(** The context as a fresh attempt leaves it, before the request is built. *)
Definition sm_begin_establish (sm : ue_sm_ctx) : ue_sm_ctx :=
  let sm := sm_alloc_pti sm in
  sm <| sm_establishment_attempt_id := u32 (sm_establishment_attempt_id sm + 1) |>
     <| sm_state := UE_SM_ESTABLISHING |> <| sm_procedure := UE_SM_PROC_ESTABLISH_PDU |>
     <| sm_proc_step := UE_SM_STEP_WAIT_ESTABLISH_RESPONSE |>
     <| sm_next_step_deadline_ms := 0 |> <| sm_est_retx_count := 0 |>.

(** What the retry sets before it starts the procedure again. *)
Definition sm_retry_prepare (sm : ue_sm_ctx) : ue_sm_ctx :=
  sm <| sm_retry_count := u8 (sm_retry_count sm + 1) |>
     <| sm_connect_requested := true |> <| sm_disconnect_requested := false |>.

Fixpoint sm_start_establish_procedure (fuel : nat) (sm : ue_sm_ctx) (n : A)
    : option (ue_sm_ctx * A) :=
  match fuel with
  | O => None
  | S fuel =>
    let sm := sm_begin_establish sm in
    '(res, n) ← ue_network_sm_submit_establish (sm_build_establish_request sm) n;
    sm_handle_establish_submit_result
      (fun sm n => sm_start_establish_procedure fuel (sm_retry_prepare sm) n) sm n res
  end.

Definition sm_retry_establish_procedure (sm : ue_sm_ctx) (n : A) : option (ue_sm_ctx * A) :=
  sm_start_establish_procedure SM_FUEL (sm_retry_prepare sm) n.

Definition sm_start_release_procedure (sm : ue_sm_ctx) (n : A) : option (ue_sm_ctx * A) :=
  let sm := sm_alloc_pti sm in
  let sm := sm <| sm_state := UE_SM_RELEASING |> <| sm_procedure := UE_SM_PROC_RELEASE_PDU |>
               <| sm_proc_step := UE_SM_STEP_WAIT_RELEASE_COMPLETE |>
               <| sm_next_step_deadline_ms := 0 |> in
  '(res, n) ← ue_network_sm_submit_release (sm_build_release_request sm) n;
  Some (sm_handle_release_submit_result sm res, n).

(** The three parts of the tick, in order: the pending requests, the T3580
    timer, the release wait. *)
Definition sm_tick_requests (sm : ue_sm_ctx) (n : A) : option (ue_sm_ctx * A) :=
  '(sm, n) ← (if sm_disconnect_requested sm then
                if is_sm UE_SM_ACTIVE sm then sm_start_release_procedure sm n
                else Some (sm_enter_inactive sm UE_SM_CAUSE_DISCONNECT_REQUESTED false true, n)
              else Some (sm, n));
  if sm_connect_requested sm && is_sm UE_SM_INACTIVE sm
  then sm_start_establish_procedure SM_FUEL (sm <| sm_connect_requested := false |>) n
  else Some (sm, n).

Definition sm_tick_t3580 (sm : ue_sm_ctx) (n : A) (now_ms : Z) : option (ue_sm_ctx * A) :=
  if is_sm UE_SM_ESTABLISHING sm &&
     bool_decide (sm_proc_step sm = UE_SM_STEP_WAIT_ESTABLISH_RESPONSE) then
    if sm_next_step_deadline_ms sm =? 0 then
      Some (sm <| sm_next_step_deadline_ms := u64 (now_ms + UE_SM_T3580_MS) |>, n)
    else if sm_next_step_deadline_ms sm <=? now_ms then
      if sm_est_retx_count sm <? UE_SM_T3580_MAX_RETX then
        let sm := sm <| sm_est_retx_count := u8 (sm_est_retx_count sm + 1) |>
                     <| sm_next_step_deadline_ms := u64 (now_ms + UE_SM_T3580_MS) |> in
        '(_, n) ← ue_network_sm_submit_establish (sm_build_establish_request sm) n;
        Some (sm, n)
      else Some ((sm_enter_inactive sm UE_SM_CAUSE_ESTABLISH_REJECTED true true)
                   <| sm_est_retx_count := 0 |>, n)
    else Some (sm, n)
  else Some (sm, n).

Definition sm_tick_release (sm : ue_sm_ctx) (now_ms : Z) : ue_sm_ctx :=
  if is_sm UE_SM_RELEASING sm &&
     bool_decide (sm_proc_step sm = UE_SM_STEP_WAIT_RELEASE_COMPLETE) then
    if sm_next_step_deadline_ms sm =? 0
    then sm <| sm_next_step_deadline_ms := u64 (now_ms + UE_SM_RELEASE_WAIT_MS) |>
    else if sm_next_step_deadline_ms sm <=? now_ms
    then sm_enter_inactive sm UE_SM_CAUSE_RELEASE_COMPLETE true true else sm
  else sm.

Definition ue_sm_tick (sm : ue_sm_ctx) (n : A) (now_ms : Z) (mm_registered : bool)
    : option (ue_sm_ctx * A) :=
  if negb mm_registered then
    Some ((sm_enter_inactive sm UE_SM_CAUSE_MM_NOT_REGISTERED true true)
            <| sm_last_reject_class := UE_REJECT_TEMPORARY |>
            <| sm_last_reject_cause_code := UE_SM_PDU_REJECT_NONE |> <| sm_retry_count := 0 |>, n)
  else
    '(sm, n) ← sm_tick_requests sm n;
    '(sm, n) ← sm_tick_t3580 sm n now_ms;
    Some (sm_tick_release sm now_ms, n).

Definition ue_sm_on_pdu_session_reject (sm : ue_sm_ctx) (n : A) (reject_cause : Z)
    : option (ue_sm_ctx * A) :=
  if is_sm UE_SM_ESTABLISHING sm &&
     bool_decide (sm_proc_step sm = UE_SM_STEP_WAIT_ESTABLISH_RESPONSE)
  then sm_handle_establish_reject_by_procedure sm_retry_establish_procedure sm n reject_cause
  else Some (sm, n).
End Network.

(** A string argument that is null or empty leaves the field alone. *)
Definition nonempty_arg (s : option bytes) : option bytes :=
  match s with Some (c :: s) => Some (c :: s) | _ => None end.

Definition ue_sm_set_profile (sm : ue_sm_ctx) (default_dnn pdu_type : option bytes) : ue_sm_ctx :=
  let sm := match nonempty_arg default_dnn with
            | Some s => sm <| sm_active_dnn := strcpy_n 64 s |> | None => sm end in
  match nonempty_arg pdu_type with
  | Some s => sm <| sm_pdu_type := strcpy_n 16 s |> | None => sm end.

Definition ue_sm_init (default_dnn : option bytes) : ue_sm_ctx :=
  SmCtx UE_SM_INACTIVE UE_SM_PROC_IDLE UE_SM_STEP_NONE UE_SM_CAUSE_NONE UE_REJECT_TEMPORARY
    UE_SM_PDU_REJECT_NONE 0
    (match default_dnn with Some s => strcpy_n 64 s | None => [] end)
    (RuntimeIp [1; 2; 3; 4] [5; 6; 7; 8] [9; 10; 11; 12] [1; 1; 1; 1] 1500)
    false false 0 1 0 0 0 (strcpy_n 16 (str "ipv4")) 1 0 0.

Definition ue_sm_on_radio (sm : ue_sm_ctx) (on : bool) : ue_sm_ctx :=
  if negb on then
    (sm_enter_inactive sm UE_SM_CAUSE_RADIO_OFF true true)
      <| sm_last_reject_class := UE_REJECT_TEMPORARY |>
      <| sm_last_reject_cause_code := UE_SM_PDU_REJECT_NONE |> <| sm_retry_count := 0 |>
  else sm.

Definition ue_sm_request_connect (sm : ue_sm_ctx) (dnn : option bytes) : ue_sm_ctx :=
  let sm := match nonempty_arg dnn with
            | Some s => sm <| sm_active_dnn := strcpy_n 64 s |> | None => sm end in
  sm <| sm_connect_requested := true |> <| sm_disconnect_requested := false |>
     <| sm_last_cause := UE_SM_CAUSE_CONNECT_REQUESTED |>
     <| sm_last_reject_class := UE_REJECT_TEMPORARY |>
     <| sm_last_reject_cause_code := UE_SM_PDU_REJECT_NONE |> <| sm_retry_count := 0 |>.

Definition ue_sm_request_disconnect (sm : ue_sm_ctx) : ue_sm_ctx :=
  sm <| sm_disconnect_requested := true |> <| sm_connect_requested := false |>
     <| sm_last_cause := UE_SM_CAUSE_DISCONNECT_REQUESTED |>
     <| sm_last_reject_class := UE_REJECT_TEMPORARY |>
     <| sm_last_reject_cause_code := UE_SM_PDU_REJECT_NONE |>.

Definition ue_sm_on_pdu_session_established (sm : ue_sm_ctx) : ue_sm_ctx :=
  if is_sm UE_SM_ESTABLISHING sm then
    sm <| sm_state := UE_SM_ACTIVE |> <| sm_procedure := UE_SM_PROC_IDLE |>
       <| sm_proc_step := UE_SM_STEP_NONE |> <| sm_last_cause := UE_SM_CAUSE_ESTABLISH_ACCEPTED |>
       <| sm_last_reject_class := UE_REJECT_TEMPORARY |>
       <| sm_last_reject_cause_code := UE_SM_PDU_REJECT_NONE |>
       <| sm_session_id := 0 |> <| sm_connect_requested := false |> <| sm_retry_count := 0 |>
       <| sm_next_step_deadline_ms := 0 |>
  else sm.

Definition ue_sm_on_pdu_session_released (sm : ue_sm_ctx) : ue_sm_ctx :=
  if is_sm UE_SM_RELEASING sm || is_sm UE_SM_ACTIVE sm then
    (sm_enter_inactive sm UE_SM_CAUSE_RELEASE_COMPLETE true true)
      <| sm_last_reject_class := UE_REJECT_TEMPORARY |>
      <| sm_last_reject_cause_code := UE_SM_PDU_REJECT_NONE |> <| sm_retry_count := 0 |>
  else sm.

(** ** The machine as the engine drives it

    The calls of [ue_engine.c], each in any state; [st_sm_session] and
    [st_sm_auto] are the two places where the engine writes fields of the context
    itself, under the conditions of the engine (the session and address of an
    accept before it reports it, the automatic connect). *)
Inductive sm_step `{NetworkAdapter A} : ue_sm_ctx * A -> ue_sm_ctx * A -> Prop :=
| st_sm_init sm n dnn : sm_step (sm, n) (ue_sm_init dnn, n)
| st_sm_profile sm n dnn ty : sm_step (sm, n) (ue_sm_set_profile sm dnn ty, n)
| st_sm_radio sm n on : sm_step (sm, n) (ue_sm_on_radio sm on, n)
| st_sm_connect sm n dnn : sm_step (sm, n) (ue_sm_request_connect sm dnn, n)
| st_sm_disconnect sm n : sm_step (sm, n) (ue_sm_request_disconnect sm, n)
| st_sm_session sm n psi ip :
    sm_state sm = UE_SM_ESTABLISHING ->
    sm_step (sm, n) (sm <| sm_ip := ip |> <| sm_session_id := psi |>, n)
| st_sm_accept sm n : sm_step (sm, n) (ue_sm_on_pdu_session_established sm, n)
| st_sm_auto sm n :
    sm_state sm = UE_SM_INACTIVE -> sm_connect_requested sm = false ->
    sm_disconnect_requested sm = false ->
    sm_step (sm, n) (sm <| sm_connect_requested := true |>, n)
| st_sm_released sm n : sm_step (sm, n) (ue_sm_on_pdu_session_released sm, n)
| st_sm_reject sm n c s : ue_sm_on_pdu_session_reject sm n c = Some s -> sm_step (sm, n) s
| st_sm_tick sm n t reg s :
    0 <= t < 2 ^ 63 -> ue_sm_tick sm n t reg = Some s -> sm_step (sm, n) s.

Inductive sm_reachable `{SafeAdapter A} : ue_sm_ctx * A -> Prop :=
| sm_reach_init n dnn : adapter_ok n -> sm_reachable (ue_sm_init dnn, n)
| sm_reach_step s s' : sm_reachable s -> sm_step s s' -> sm_reachable s'.

(** What each phase determines.  The PTI is held only while a release is under
    way: an accepted submission of an establishment frees it at once. *)
Definition sm_phase_ok (sm : ue_sm_ctx) : Prop :=
  match sm_state sm with
  | UE_SM_INACTIVE =>
    sm_procedure sm = UE_SM_PROC_IDLE /\ sm_proc_step sm = UE_SM_STEP_NONE /\ sm_pti sm = 0
    /\ sm_next_step_deadline_ms sm = 0
  | UE_SM_ESTABLISHING =>
    sm_procedure sm = UE_SM_PROC_ESTABLISH_PDU
    /\ sm_proc_step sm = UE_SM_STEP_WAIT_ESTABLISH_RESPONSE /\ sm_pti sm = 0
  | UE_SM_ACTIVE =>
    sm_procedure sm = UE_SM_PROC_IDLE /\ sm_proc_step sm = UE_SM_STEP_NONE /\ sm_pti sm = 0
    /\ sm_next_step_deadline_ms sm = 0 /\ sm_session_id sm = 0
  | UE_SM_RELEASING =>
    sm_procedure sm = UE_SM_PROC_RELEASE_PDU
    /\ sm_proc_step sm = UE_SM_STEP_WAIT_RELEASE_COMPLETE /\ 1 <= sm_pti sm <= 254
  end.

Record sm_inv (sm : ue_sm_ctx) : Prop := {
  inv_sm_phase : sm_phase_ok sm;
  inv_sm_max : sm_max_retries sm = 1;
  inv_sm_retries : 0 <= sm_retry_count sm <= 1;
  inv_sm_cursor : 0 <= sm_next_pti sm <= 254;
  inv_sm_retx : 0 <= sm_est_retx_count sm <= UE_SM_T3580_MAX_RETX;
  inv_sm_requests : sm_connect_requested sm && sm_disconnect_requested sm = false }.

Ltac sm_red :=
  cbv [set_field sm_state sm_procedure sm_proc_step sm_last_cause sm_last_reject_class
    sm_last_reject_cause_code sm_session_id sm_active_dnn sm_ip sm_connect_requested
    sm_disconnect_requested sm_retry_count sm_max_retries sm_establishment_attempt_id sm_pti
    sm_next_pti sm_pdu_type sm_s_nssai_sst sm_next_step_deadline_ms sm_est_retx_count
    sm_phase_ok negb andb orb] in *.
Ltac sm_atomic t :=
  lazymatch t with context [if _ then _ else _] => fail | _ => idtac end.
Ltac sm_case :=
  sm_red;
  repeat (match goal with
          | |- context [bool_decide (?x = ?x)] => rewrite (bool_decide_true (x = x)) by done
          | |- context [bool_decide ?P] => rewrite (bool_decide_false P) by done
          | |- context [0 =? 0] => change (0 =? 0) with true
          | |- context [if ?c then _ else _] =>
            sm_atomic c; let E := fresh "E" in destruct c eqn:E
          end; sm_red).

(** The allocated PTI is the cursor, and both stay within 1..254. *)
Lemma sm_alloc_pti_spec sm :
  0 <= sm_next_pti sm <= 254 ->
  exists p q, sm_alloc_pti sm = sm <| sm_pti := p |> <| sm_next_pti := q |>
    /\ 1 <= p <= 254 /\ 1 <= q <= 254 /\ p = Z.max 1 (sm_next_pti sm).
Proof.
  intros Hn. unfold sm_alloc_pti, u8. destruct sm. sm_red.
  destruct (sm_next_pti0 <? 1) eqn:E; [exists 1, 2; split_and!; done || lia|].
  destruct (254 <? sm_next_pti0) eqn:E2; [lia|]. sm_red.
  assert (0 <= sm_next_pti0 mod 254 < 254) by (apply Z.mod_pos_bound; lia).
  rewrite (Z.mod_small (_ + 1)) by lia. eexists _, _. split; [reflexivity|]. lia.
Qed.

Lemma sm_build_dnn sm : (length (eq_dnn (sm_build_establish_request sm)) < 64)%nat.
Proof. unfold sm_build_establish_request, strcpy_n. cbn [eq_dnn]. rewrite length_take. lia. Qed.

Section Network.
Context `{SafeAdapter A}.

(** What an attempt needs, and what it leaves behind. *)
Definition sm_startable (sm : ue_sm_ctx) : Prop :=
  sm_max_retries sm = 1 /\ 0 <= sm_retry_count sm <= 1 /\ 0 <= sm_next_pti sm <= 254
  /\ sm_connect_requested sm && sm_disconnect_requested sm = false.

Definition sm_started (k : Z) (s : ue_sm_ctx * A) : Prop :=
  sm_inv s.1 /\ adapter_ok s.2
  /\ (sm_state s.1 = UE_SM_ESTABLISHING /\ sm_next_step_deadline_ms s.1 = 0
      /\ k <= sm_retry_count s.1
      \/ sm_state s.1 = UE_SM_INACTIVE /\ sm_connect_requested s.1 = false).

Lemma sm_begin_ok sm :
  sm_startable sm ->
  1 <= sm_pti (sm_begin_establish sm) <= 254
  /\ sm_startable (sm_begin_establish sm)
  /\ sm_retry_count (sm_begin_establish sm) = sm_retry_count sm
  /\ sm_inv ((sm_begin_establish sm) <| sm_pti := 0 |>).
Proof.
  intros (Hm & Hr & Hc & Hq). unfold sm_begin_establish, sm_startable.
  destruct (sm_alloc_pti_spec sm Hc) as (p & q & -> & Hp & Hc' & _).
  destruct sm. sm_red. subst. split_and!; try done; try lia. split; sm_red; done || lia.
Qed.

Lemma sm_started_mono k k' s : k <= k' -> sm_started k' s -> sm_started k s.
Proof. intros ? (? & ? & [(? & ? & ?)|?]); split_and!; try done; [left; split_and!; done || lia|by right]. Qed.

Lemma sm_handle_reject_ok retry sm n c :
  sm_startable sm -> adapter_ok n -> 0 <= sm_est_retx_count sm <= UE_SM_T3580_MAX_RETX ->
  sm_procedure sm = UE_SM_PROC_ESTABLISH_PDU ->
  sm_proc_step sm = UE_SM_STEP_WAIT_ESTABLISH_RESPONSE ->
  (forall sm1, sm_retry_count sm < 1 -> sm_startable (sm_retry_prepare sm1) ->
     sm_retry_count (sm_retry_prepare sm1) = sm_retry_count sm + 1 ->
     exists s, retry sm1 n = Some s /\ sm_started (sm_retry_count sm + 1) s) ->
  exists s, sm_handle_establish_reject_by_procedure retry sm n c = Some s
    /\ sm_started (sm_retry_count sm + 1) s.
Proof.
  intros (Hm & Hr & Hc & Hq) Hn Hx Hpr Hst Hretry.
  unfold sm_handle_establish_reject_by_procedure, sm_enter_inactive.
  destruct sm. sm_red. subst.
  sm_case; try (eexists; split; [reflexivity|]; split_and!;
                [split; sm_red; done || lia|done|by right]).
  apply Hretry; [lia| |].
  - unfold sm_startable, sm_retry_prepare, u8. sm_red.
    rewrite Z.mod_small by lia. split_and!; done || lia.
  - unfold sm_retry_prepare, u8. sm_red. apply Z.mod_small. lia.
Qed.

Lemma sm_start_ok fuel sm n :
  sm_startable sm -> adapter_ok n -> 1 - sm_retry_count sm < Z.of_nat fuel ->
  exists s, sm_start_establish_procedure fuel sm n = Some s /\ sm_started (sm_retry_count sm) s.
Proof.
  revert sm n. induction fuel as [|fuel IH]; intros sm n Hs Hn Hf; [destruct Hs; lia|].
  destruct (sm_begin_ok sm Hs) as (Hp & Hs1 & Hr1 & Hi1).
  assert (sm_procedure (sm_begin_establish sm) = UE_SM_PROC_ESTABLISH_PDU
    /\ sm_proc_step (sm_begin_establish sm) = UE_SM_STEP_WAIT_ESTABLISH_RESPONSE
    /\ sm_est_retx_count (sm_begin_establish sm) = 0
    /\ sm_state (sm_begin_establish sm) = UE_SM_ESTABLISHING
    /\ sm_next_step_deadline_ms (sm_begin_establish sm) = 0) as (Hpr & Hst & Hx & Hse & Hd)
    by done.
  cbn [sm_start_establish_procedure].
  set (sm1 := sm_begin_establish sm) in *. clearbody sm1.
  destruct (sm_establish_ok _ n (sm_build_dnn sm1) Hn) as (r & n1 & -> & Hn1 & _).
  cbn [mbind option_bind]. unfold sm_handle_establish_submit_result.
  destruct (er_submitted r).
  - eexists. split; [reflexivity|]. split_and!; [|done|left].
    + destruct Hi1 as [? ? ? ? ? ?]. unfold sm_phase_ok in *. destruct sm1. sm_red. subst.
      split; sm_red; done.
    + destruct sm1. sm_red. subst. done.
  - assert (0 <= sm_est_retx_count sm1 <= UE_SM_T3580_MAX_RETX) as Hx'
      by (rewrite Hx; unfold UE_SM_T3580_MAX_RETX; lia).
    destruct (sm_handle_reject_ok
      (fun sm n => sm_start_establish_procedure fuel (sm_retry_prepare sm) n) sm1 n1
      (er_reject_cause r) Hs1 Hn1 Hx' Hpr Hst) as (s & E & Hok).
    + intros sm2 Hlt Hs2 Hk2. rewrite <- Hk2. apply IH; [done|done|lia].
    + exists s. split; [exact E|]. eapply sm_started_mono; [|exact Hok]. lia.
Qed.
End Network.

(** ** The tick

    [sm_patience] bounds how many more ticks, spaced by T3580, an
    establishment can last. *)
Definition sm_patience (sm : ue_sm_ctx) : Z :=
  if is_sm UE_SM_ESTABLISHING sm then
    6 * (1 - sm_retry_count sm)
    + (if sm_next_step_deadline_ms sm =? 0 then 6 else 5 - sm_est_retx_count sm)
  else if is_sm UE_SM_INACTIVE sm && sm_connect_requested sm
  then 6 * (1 - sm_retry_count sm) + 6 else 0.

Definition sm_deadline_ok (last : Z) (sm : ue_sm_ctx) : Prop :=
  0 <= sm_next_step_deadline_ms sm <= last + UE_SM_T3580_MS.

Ltac sm_open sm Hi :=
  destruct Hi as [Hp Hm Hr Hc Hx Hq]; destruct sm;
  unfold sm_phase_ok, sm_patience, sm_deadline_ok, UE_SM_T3580_MAX_RETX, UE_SM_T3580_MS,
    UE_SM_RELEASE_WAIT_MS in *;
  sm_red; subst.
Ltac sm_inv_split := split; sm_red; unfold UE_SM_T3580_MAX_RETX; done || lia.

Section Tick.
Context `{SafeAdapter A}.

Lemma sm_start_release_ok sm n :
  sm_inv sm -> sm_state sm = UE_SM_ACTIVE -> adapter_ok n ->
  exists s, sm_start_release_procedure sm n = Some s /\ sm_inv s.1 /\ adapter_ok s.2
    /\ sm_next_step_deadline_ms s.1 = 0
    /\ (sm_state s.1 = UE_SM_RELEASING /\ sm_connect_requested s.1 = sm_connect_requested sm
        \/ sm_state s.1 = UE_SM_INACTIVE /\ sm_connect_requested s.1 = false).
Proof.
  intros Hi Hs Hn. destruct (sm_alloc_pti_spec sm) as (p & q & E & Hpp & Hqq & _); [apply Hi|].
  unfold sm_start_release_procedure. rewrite E. clear E.
  set (sm1 := set_field _ _).
  destruct (sm_release_ok (sm_build_release_request sm1) n Hn) as (r & n1 & -> & Hn1).
  eexists. split; [reflexivity|]. cbn [fst snd]. subst sm1. sm_open sm Hi. destruct_and?. subst.
  unfold sm_handle_release_submit_result, sm_enter_inactive.
  destruct (lr_submitted r); sm_red; (split; [sm_inv_split|]); split_and!; try done; tauto.
Qed.

(** The pending requests. *)
Lemma sm_tick_requests_ok sm n :
  sm_inv sm -> adapter_ok n ->
  exists s, sm_tick_requests sm n = Some s /\ sm_inv s.1 /\ adapter_ok s.2
    /\ (sm_next_step_deadline_ms s.1 = sm_next_step_deadline_ms sm
        \/ sm_next_step_deadline_ms s.1 = 0) /\ sm_patience s.1 <= sm_patience sm
    /\ is_sm UE_SM_INACTIVE s.1 && sm_connect_requested s.1 = false
    /\ (sm_state s.1 = UE_SM_ACTIVE -> sm_state sm = UE_SM_ACTIVE).
Proof.
  intros Hi Hn. unfold sm_tick_requests.
  destruct (sm_disconnect_requested sm) eqn:Edis.
  - assert (sm_connect_requested sm = false) as Hcon
      by (destruct Hi; rewrite Edis, andb_true_r in *; done).
    destruct (bool_decide (sm_state sm = UE_SM_ACTIVE)) eqn:E.
    + apply bool_decide_eq_true in E.
      destruct (sm_start_release_ok sm n Hi E Hn) as ([sm1 n1] & -> & Hi1 & Hn1 & Hd1 & Hcase).
      cbn [fst snd mbind option_bind] in *.
      assert (sm_connect_requested sm1 = false) as Hcon1 by (rewrite Hcon in Hcase; tauto).
      rewrite Hcon1. cbn [andb].
      eexists. split; [reflexivity|]. cbn [fst snd]. rewrite Hcon1, andb_false_r.
      unfold sm_patience. split_and!; try done; [by right|].
      destruct Hcase as [[-> _]|[-> _]]; rewrite ?Hcon1, Hcon, E; sm_case; lia.
    + cbn [mbind option_bind].
      change (sm_connect_requested (sm_enter_inactive sm UE_SM_CAUSE_DISCONNECT_REQUESTED
        false true)) with (sm_connect_requested sm). rewrite Hcon. cbn [andb].
      eexists. split; [reflexivity|]. cbn [fst snd].
      sm_open sm Hi. unfold sm_enter_inactive. sm_red. subst.
      split_and!; [sm_inv_split|done|by right| |by sm_case|done].
      sm_case; lia.
  - cbn [mbind option_bind]. destruct (sm_connect_requested sm && is_sm UE_SM_INACTIVE sm) eqn:E.
    + apply andb_true_iff in E as [Hcon E%bool_decide_eq_true].
      assert (sm_startable (sm <| sm_connect_requested := false |>)) as Hst
        by (destruct Hi; destruct_and?; split_and!; assumption || reflexivity).
      destruct (sm_start_ok SM_FUEL _ n Hst Hn) as ([sm1 n1] & Es & Hi1 & Hn1 & Hcase);
        [change (sm_retry_count (sm <| sm_connect_requested := false |>))
           with (sm_retry_count sm); destruct Hi; unfold SM_FUEL; lia|].
      change (sm_retry_count (sm <| sm_connect_requested := false |>))
        with (sm_retry_count sm) in Hcase.
      exists (sm1, n1). split; [exact Es|]. cbn [fst snd] in *.
      unfold sm_patience in *. rewrite E, Hcon.
      pose proof Hi1 as [Hp1 _ _ _ _ _]. destruct Hi.
      destruct Hcase as [(Hs1 & Hd1 & Hk)|(Hs1 & Hc1)].
      * rewrite Hs1, Hd1. sm_case; split_and!; try done; auto; try lia; congruence.
      * unfold sm_phase_ok in Hp1. rewrite Hs1 in Hp1. rewrite Hs1, Hc1. sm_case;
        split_and!; try done; try lia; try tauto; congruence.
    + eexists. split; [reflexivity|]. rewrite andb_comm in E. cbn [fst snd]. split_and!; done || auto.
Qed.

(** The T3580 timer: one tick less to wait. *)
Lemma sm_tick_t3580_ok sm n last t :
  sm_inv sm -> adapter_ok n -> 0 <= t < 2 ^ 63 ->
  is_sm UE_SM_INACTIVE sm && sm_connect_requested sm = false ->
  exists s, sm_tick_t3580 sm n t = Some s /\ sm_inv s.1 /\ adapter_ok s.2
    /\ (sm_state s.1 = UE_SM_ACTIVE -> sm_state sm = UE_SM_ACTIVE)
    /\ (sm_deadline_ok last sm -> last + UE_SM_T3580_MS <= t ->
        sm_deadline_ok t s.1 /\ sm_patience s.1 <= Z.max 0 (sm_patience sm - 1)).
Proof.
  intros Hi Hn Ht Hc. unfold sm_tick_t3580.
  destruct (is_sm UE_SM_ESTABLISHING sm) eqn:E; cycle 1.
  { eexists. split; [reflexivity|]. cbn [fst snd]. split_and!; try done.
    intros. split; [unfold sm_deadline_ok, UE_SM_T3580_MS in *; lia|].
    unfold sm_patience. rewrite E, Hc. lia. }
  apply bool_decide_eq_true in E.
  assert (u64 (t + UE_SM_T3580_MS) = t + UE_SM_T3580_MS) as Hu
    by (unfold u64, UE_SM_T3580_MS in *; apply Z.mod_small; lia).
  cbv zeta. match goal with |- context [ue_network_sm_submit_establish ?q n] =>
    destruct (sm_establish_ok q n (sm_build_dnn _) Hn) as (r & n1 & Er & Hn1 & _) end.
  rewrite Er. clear Er. cbn [mbind option_bind].
  rewrite Hu. destruct Hi as [Hp Hm Hr Hcu Hx Hq]. unfold sm_phase_ok in Hp. rewrite E in Hp.
  destruct Hp as (Hpr & Hst & Hpt). rewrite Hst. clear Hc.
  rewrite (bool_decide_true (UE_SM_STEP_WAIT_ESTABLISH_RESPONSE = _)) by done. cbn [andb].
  unfold sm_deadline_ok, UE_SM_T3580_MAX_RETX, UE_SM_T3580_MS in *.
  assert (u8 (sm_est_retx_count sm + 1) = sm_est_retx_count sm + 1) as Hu8
    by (unfold u8; apply Z.mod_small; lia). rewrite Hu8.
  unfold sm_patience. rewrite E. rewrite (bool_decide_true (UE_SM_ESTABLISHING = _)) by done.
  destruct (sm_next_step_deadline_ms sm =? 0) eqn:Ed;
    [|destruct (sm_next_step_deadline_ms sm <=? t) eqn:Et; [destruct (sm_est_retx_count sm <? 4) eqn:Ex|]].
  all: eexists; split; [reflexivity|]; cbn [fst snd]; destruct sm; unfold sm_enter_inactive; sm_red; subst;
    split_and!; try done; try sm_inv_split; intros; sm_case; lia.
Qed.

(** The release wait. *)
Lemma sm_tick_release_ok sm t :
  sm_inv sm -> 0 <= t < 2 ^ 63 ->
  sm_inv (sm_tick_release sm t)
  /\ (sm_state (sm_tick_release sm t) = UE_SM_ACTIVE -> sm_state sm = UE_SM_ACTIVE)
  /\ (sm_deadline_ok t sm -> sm_deadline_ok t (sm_tick_release sm t))
  /\ sm_patience (sm_tick_release sm t) <= sm_patience sm.
Proof.
  intros Hi Ht.
  assert (u64 (t + UE_SM_RELEASE_WAIT_MS) = t + UE_SM_RELEASE_WAIT_MS) as Hu
    by (unfold u64, UE_SM_RELEASE_WAIT_MS in *; apply Z.mod_small; lia).
  unfold sm_tick_release, sm_enter_inactive. rewrite Hu. sm_open sm Hi.
  destruct sm_state0; destruct_and?; subst; sm_case;
    (split; [sm_inv_split|]); split_and!; try done; lia.
Qed.

Lemma ue_sm_tick_ok sm n last t reg :
  sm_inv sm -> adapter_ok n -> 0 <= t < 2 ^ 63 ->
  exists s, ue_sm_tick sm n t reg = Some s /\ sm_inv s.1 /\ adapter_ok s.2
    /\ (sm_state s.1 = UE_SM_ACTIVE -> sm_state sm = UE_SM_ACTIVE)
    /\ (sm_deadline_ok last sm -> 0 <= last -> last + UE_SM_T3580_MS <= t ->
        sm_deadline_ok t s.1 /\ sm_patience s.1 <= Z.max 0 (sm_patience sm - 1)).
Proof.
  intros Hi Hn Ht. unfold ue_sm_tick. destruct reg; cbn [negb].
  - destruct (sm_tick_requests_ok sm n Hi Hn) as ([sm1 n1] & -> & Hi1 & Hn1 & Hd1 & Hp1 & Hc1 & Ha1).
    cbn [mbind option_bind fst snd] in *.
    destruct (sm_tick_t3580_ok sm1 n1 last t Hi1 Hn1 Ht Hc1)
      as ([sm2 n2] & -> & Hi2 & Hn2 & Ha2 & Hd2).
    cbn [mbind option_bind fst snd] in *.
    destruct (sm_tick_release_ok sm2 t Hi2 Ht) as (Hi3 & Ha3 & Hd3 & Hp3).
    eexists. split; [reflexivity|]. cbn [fst snd]. split_and!; try done; [auto|]. intros Hd Hl Hlt.
    assert (sm_deadline_ok last sm1) as Hdl
      by (unfold sm_deadline_ok, UE_SM_T3580_MS in *; destruct Hd1 as [->| ->]; lia).
    destruct (Hd2 Hdl Hlt). split; [auto|lia].
  - eexists. split; [reflexivity|]. cbn [fst snd].
    sm_open sm Hi. unfold sm_enter_inactive. sm_red.
    split_and!; [sm_inv_split|done|done|]. intros. split; [lia|sm_case; lia].
Qed.
End Tick.

Section Reachability.
Context `{SafeAdapter A}.

Lemma sm_reject_ok sm n c :
  sm_inv sm -> adapter_ok n ->
  exists s, ue_sm_on_pdu_session_reject sm n c = Some s /\ sm_inv s.1 /\ adapter_ok s.2
    /\ (s.1 = sm \/ sm_state sm = UE_SM_ESTABLISHING /\ sm_started (sm_retry_count sm + 1) s).
Proof.
  intros Hi Hn. unfold ue_sm_on_pdu_session_reject.
  destruct (is_sm UE_SM_ESTABLISHING sm && _) eqn:E.
  - apply andb_true_iff in E as [E%bool_decide_eq_true Est%bool_decide_eq_true].
    destruct Hi as [Hp Hm Hr Hc Hx Hq]. unfold sm_phase_ok in Hp. rewrite E in Hp.
    destruct Hp as (Hpr & _ & _).
    destruct (sm_handle_reject_ok sm_retry_establish_procedure sm n c) as (s & Es & Hs);
      [done|done|done|done|done| |].
    + intros sm1 Hlt Hs1 Hk. rewrite <- Hk. apply sm_start_ok; [done|done|].
      rewrite Hk. unfold SM_FUEL. lia.
    + exists s. split; [exact Es|]. pose proof Hs as (? & ? & _). auto.
  - eexists. split; [reflexivity|]. auto.
Qed.

Lemma sm_inv_simple sm dnn ty b :
  sm_inv sm ->
  sm_inv (ue_sm_set_profile sm dnn ty) /\ sm_inv (ue_sm_on_radio sm b)
  /\ sm_inv (ue_sm_request_connect sm dnn) /\ sm_inv (ue_sm_request_disconnect sm)
  /\ sm_inv (ue_sm_on_pdu_session_released sm).
Proof.
  intros Hi. unfold ue_sm_set_profile, ue_sm_on_radio, ue_sm_request_connect,
    ue_sm_request_disconnect, ue_sm_on_pdu_session_released, sm_enter_inactive.
  destruct (nonempty_arg dnn), (nonempty_arg ty), b; sm_open sm Hi;
    split_and!; sm_case; sm_inv_split.
Qed.

Lemma sm_inv_session sm psi ip :
  sm_inv sm -> sm_state sm = UE_SM_ESTABLISHING ->
  sm_inv (sm <| sm_ip := ip |> <| sm_session_id := psi |>).
Proof. intros Hi Hs. sm_open sm Hi. destruct_and?. subst. sm_case. sm_inv_split. Qed.

Lemma sm_inv_established sm : sm_inv sm -> sm_inv (ue_sm_on_pdu_session_established sm).
Proof.
  intros Hi. unfold ue_sm_on_pdu_session_established.
  destruct (is_sm UE_SM_ESTABLISHING sm) eqn:Hs; [|done]. apply bool_decide_eq_true in Hs.
  sm_open sm Hi. destruct_and?. subst. sm_case. sm_inv_split.
Qed.

Lemma sm_inv_accept sm psi ip :
  sm_inv sm -> sm_state sm = UE_SM_ESTABLISHING ->
  sm_inv (ue_sm_on_pdu_session_established (sm <| sm_ip := ip |> <| sm_session_id := psi |>)).
Proof. intros Hi Hs. by apply sm_inv_established, sm_inv_session. Qed.

Lemma sm_step_inv s s' :
  sm_inv s.1 -> adapter_ok s.2 -> sm_step s s' -> sm_inv s'.1 /\ adapter_ok s'.2.
Proof.
  intros Hi Hn Hs. destruct Hs; cbn [fst snd] in *.
  - split; [|done]. sm_inv_split.
  - split; [|done]. apply (sm_inv_simple sm dnn ty true Hi).
  - split; [|done]. apply (sm_inv_simple sm None None on Hi).
  - split; [|done]. apply (sm_inv_simple sm dnn None true Hi).
  - split; [|done]. apply (sm_inv_simple sm None None true Hi).
  - split; [|done]. by apply sm_inv_session.
  - split; [|done]. by apply sm_inv_established.
  - split; [|done]. destruct Hi as [Hp ? ? ? ? Hq]. destruct sm. unfold sm_phase_ok in *. sm_red.
    subst. split; sm_red; done.
  - split; [|done]. apply (sm_inv_simple sm None None true Hi).
  - destruct (sm_reject_ok sm n c Hi Hn) as (s0 & E & ? & ? & _). by simplify_eq.
  - destruct (ue_sm_tick_ok sm n 0 t reg Hi Hn) as (s0 & E & ? & ? & _); [done|]. by simplify_eq.
Qed.

Lemma sm_reachable_ok s : sm_reachable s -> sm_inv s.1 /\ adapter_ok s.2.
Proof.
  induction 1 as [n dnn Hn|s s' _ [Hi Hn] Hs]; [split; [sm_inv_split|done]|].
  by eapply sm_step_inv.
Qed.
End Reachability.

(** C12: in every reachable state the phase determines the procedure, its step
    and the PTI, the counters stay within their bounds, a connect and a
    disconnect request never coexist, and, whatever the network, the tick and
    the reject handler return (the recursion of retries is bounded). *)
Theorem sm_reachable_invariant `{SafeAdapter A} sm (n : A) :
  sm_reachable (sm, n) ->
  sm_phase_ok sm /\ 0 <= sm_retry_count sm <= 1 /\ 0 <= sm_est_retx_count sm <= 4
  /\ sm_connect_requested sm && sm_disconnect_requested sm = false
  /\ (forall t reg, 0 <= t < 2 ^ 63 -> is_Some (ue_sm_tick sm n t reg))
  /\ (forall c, is_Some (ue_sm_on_pdu_session_reject sm n c)).
Proof.
  intros Hr. destruct (sm_reachable_ok _ Hr) as [Hi Hn]. cbn [fst snd] in *.
  pose proof Hi as [? ? ? ? ? ?]. split_and!; try done.
  all: try (unfold UE_SM_T3580_MAX_RETX in *; lia).
  - intros t reg Ht. destruct (ue_sm_tick_ok sm n 0 t reg Hi Hn Ht) as (s & E & _). by exists s.
  - intros c. destruct (sm_reject_ok sm n c Hi Hn) as (s & E & _). by exists s.
Qed.

(** C13: a PDU session becomes ACTIVE in one way only: by the report of an
    accept, which the engine may make in any state, while the establishment
    procedure waits for its answer; in every other state the report does nothing. *)
Theorem sm_active_only_by_accept `{SafeAdapter A} sm (n : A) sm' n' :
  sm_reachable (sm, n) -> sm_step (sm, n) (sm', n') ->
  sm_state sm' = UE_SM_ACTIVE -> sm_state sm <> UE_SM_ACTIVE ->
  sm_state sm = UE_SM_ESTABLISHING /\ sm_proc_step sm = UE_SM_STEP_WAIT_ESTABLISH_RESPONSE
  /\ sm' = ue_sm_on_pdu_session_established sm.
Proof.
  intros Hr Hs Ha Hna. destruct (sm_reachable_ok _ Hr) as [Hi Hn]. cbn [fst snd] in *.
  assert (sm_state sm = UE_SM_ESTABLISHING ->
    sm_proc_step sm = UE_SM_STEP_WAIT_ESTABLISH_RESPONSE) as Hst
    by (intros E; destruct Hi as [Hp _ _ _ _ _]; unfold sm_phase_ok in Hp; rewrite E in Hp; tauto).
  inversion Hs; subst; clear Hs; try done.
  - exfalso. revert Ha. unfold ue_sm_set_profile.
    destruct (nonempty_arg dnn), (nonempty_arg ty); done.
  - exfalso. by destruct on.
  - exfalso. revert Ha. unfold ue_sm_request_connect. by destruct (nonempty_arg dnn).
  - revert Ha. unfold ue_sm_on_pdu_session_established.
    destruct (is_sm UE_SM_ESTABLISHING sm) eqn:Hs; [|done]. apply bool_decide_eq_true in Hs. auto.
  - exfalso. revert Ha. unfold ue_sm_on_pdu_session_released. by destruct (_ || _).
  - exfalso. destruct (sm_reject_ok sm n c Hi Hn) as (s & E & _ & _ & Hc). simplify_eq.
    cbn [fst] in Hc. destruct Hc as [->|[_ (_ & _ & [(Hc & _)|(Hc & _)])]]; cbn [fst] in *; congruence.
  - exfalso. match goal with Ht : 0 <= _ < _ |- _ =>
      destruct (ue_sm_tick_ok sm n 0 t reg Hi Hn Ht) as (s & E & _ & _ & Hc & _) end.
    simplify_eq. auto.
Qed.

(** ** Giving up *)
Inductive sm_event :=
| SmTick (now_ms : Z) (mm_registered : bool) | SmReject (cause : Z)
| SmAccept (psi : Z) (ip : ue_engine_runtime_ip) | SmReleased.

Definition sm_event_step `{NetworkAdapter A} (e : sm_event) (s : ue_sm_ctx * A)
    : option (ue_sm_ctx * A) :=
  let '(sm, n) := s in
  match e with
  | SmTick t reg => ue_sm_tick sm n t reg
  | SmReject c => ue_sm_on_pdu_session_reject sm n c
  | SmAccept psi ip =>
    Some (if is_sm UE_SM_ESTABLISHING sm
          then ue_sm_on_pdu_session_established (sm <| sm_ip := ip |> <| sm_session_id := psi |>)
          else sm, n)
  | SmReleased => Some (ue_sm_on_pdu_session_released sm, n)
  end.

Fixpoint sm_run `{NetworkAdapter A} (es : list sm_event) (s : ue_sm_ctx * A)
    : option (ue_sm_ctx * A) :=
  match es with
  | [] => Some s
  | e :: es => s ← sm_event_step e s; sm_run es s
  end.

Fixpoint sm_ticks (es : list sm_event) : Z :=
  match es with
  | [] => 0
  | SmTick _ _ :: es => 1 + sm_ticks es
  | _ :: es => sm_ticks es
  end.

(** The ticks of a run are spaced by T3580 at least. *)
Fixpoint sm_spaced (last : Z) (es : list sm_event) : Prop :=
  match es with
  | [] => True
  | SmTick t _ :: es => last + UE_SM_T3580_MS <= t < 2 ^ 63 /\ sm_spaced t es
  | _ :: es => sm_spaced last es
  end.

Lemma sm_ticks_nonneg es : 0 <= sm_ticks es.
Proof. induction es as [|[]]; cbn [sm_ticks]; lia. Qed.

Section GivingUp.
Context `{SafeAdapter A}.

Lemma sm_patience_nonneg sm : sm_inv sm -> 0 <= sm_patience sm.
Proof. intros Hi. sm_open sm Hi. sm_case; lia. Qed.

Lemma sm_patience_pos sm :
  sm_inv sm -> sm_state sm = UE_SM_ESTABLISHING ->
  6 * (1 - sm_retry_count sm) + 1 <= sm_patience sm.
Proof. intros Hi Hs. sm_open sm Hi. sm_case; lia. Qed.

Lemma sm_event_patience e sm n last :
  sm_inv sm -> adapter_ok n -> 0 <= last -> sm_deadline_ok last sm ->
  match e with SmTick _ _ => False | _ => True end ->
  exists s, sm_event_step e (sm, n) = Some s /\ sm_inv s.1 /\ adapter_ok s.2
    /\ sm_deadline_ok last s.1 /\ sm_patience s.1 <= sm_patience sm.
Proof.
  intros Hi Hn Hl Hd He. destruct e as [|c|psi ip|]; try done; cbn [sm_event_step].
  - destruct (sm_reject_ok sm n c Hi Hn) as (s & E & Hi1 & Hn1 & Hc).
    exists s. split; [done|]. split; [done|]. split; [done|].
    destruct Hc as [->|[Hs (_ & _ & Hc)]]; [done|].
    pose proof (sm_patience_pos sm Hi Hs). pose proof (sm_patience_nonneg sm Hi).
    set (P := sm_patience sm) in *. clearbody P. destruct Hi1 as [Hp1 _ _ _ _ _].
    unfold sm_phase_ok, sm_deadline_ok, sm_patience, UE_SM_T3580_MS in *.
    destruct Hc as [(Hs1 & Hd1 & Hk)|(Hs1 & Hc1)]; rewrite Hs1 in *; rewrite ?Hc1.
    + rewrite Hd1. rewrite (bool_decide_true (_ = _)) by done. rewrite Z.eqb_refl. lia.
    + destruct Hp1 as (_ & _ & _ & ->). rewrite (bool_decide_false (_ = _)) by done.
      rewrite andb_false_r. lia.
  - eexists. split; [reflexivity|]. cbn [fst snd].
    destruct (bool_decide (sm_state sm = UE_SM_ESTABLISHING)) eqn:E; [|done].
    apply bool_decide_eq_true in E. split_and!; [by apply sm_inv_accept|done| | ].
    all: unfold ue_sm_on_pdu_session_established; sm_open sm Hi; sm_case; lia.
  - eexists. split; [reflexivity|]. cbn [fst snd].
    split_and!; [by apply (sm_inv_simple sm None None true)|done| | ].
    all: unfold ue_sm_on_pdu_session_released, sm_enter_inactive; sm_open sm Hi; sm_case; lia.
Qed.

Lemma sm_run_patience es sm n last :
  sm_inv sm -> adapter_ok n -> 0 <= last -> sm_deadline_ok last sm -> sm_spaced last es ->
  exists s, sm_run es (sm, n) = Some s /\ sm_inv s.1
    /\ sm_patience s.1 <= Z.max 0 (sm_patience sm - sm_ticks es).
Proof.
  revert sm n last. induction es as [|e es IH]; intros sm n last Hi Hn Hl Hd Hs.
  { eexists. split; [reflexivity|]. cbn. pose proof (sm_patience_nonneg sm Hi). split; [done|lia]. }
  pose proof (sm_ticks_nonneg es). destruct e as [t reg|c|psi ip|] eqn:Ee; cbn [sm_run].
  1: { destruct Hs as [Ht Hs]. assert (0 <= t < 2 ^ 63) by (unfold UE_SM_T3580_MS in *; lia).
       destruct (ue_sm_tick_ok sm n last t reg Hi Hn ltac:(done))
         as ([sm1 n1] & E & Hi1 & Hn1 & _ & Hx).
       cbn [sm_event_step]. rewrite E. cbn [mbind option_bind fst snd] in *.
       destruct (Hx Hd Hl ltac:(lia)) as [Hd1 Hp1].
       destruct (IH sm1 n1 t Hi1 Hn1 ltac:(lia) Hd1 Hs) as (s & Er & Hi2 & Hp2).
       exists s. split_and!; [done|done|]. cbn [sm_ticks]. lia. }
  all: destruct (sm_event_patience e sm n last Hi Hn Hl Hd) as ([sm1 n1] & E & Hi1 & Hn1 & Hd1 & Hp1);
    subst e; [done|]; rewrite E; cbn [mbind option_bind fst snd] in *.
  all: destruct (IH sm1 n1 last Hi1 Hn1 Hl Hd1 Hs) as (s & Er & Hi2 & Hp2);
    exists s; split_and!; [done|done|]; cbn [sm_ticks]; lia.
Qed.
End GivingUp.

(** C11: an establishment never waits for ever.  After a connect request, in
    any reachable state without a timer running, whatever the network answers
    the run of events is defined, and after twelve ticks spaced by T3580 (each
    of the two attempts: its start, four retransmissions, the abandon) no
    establishment is under way or waiting to start. *)
Theorem sm_establishment_terminates `{SafeAdapter A} sm (n : A) dnn es :
  sm_reachable (sm, n) -> sm_next_step_deadline_ms sm = 0 ->
  sm_spaced 0 es -> 12 <= sm_ticks es ->
  exists sm' n', sm_run es (ue_sm_request_connect sm dnn, n) = Some (sm', n')
    /\ sm_state sm' <> UE_SM_ESTABLISHING
    /\ (sm_state sm' = UE_SM_INACTIVE -> sm_connect_requested sm' = false).
Proof.
  intros Hr Hd Hs Ht. destruct (sm_reachable_ok _ Hr) as [Hi Hn]. cbn [fst snd] in *.
  assert (sm_inv (ue_sm_request_connect sm dnn)) as Hi1 by apply (sm_inv_simple sm dnn None true Hi).
  assert (sm_deadline_ok 0 (ue_sm_request_connect sm dnn)
          /\ sm_patience (ue_sm_request_connect sm dnn) <= 12) as [Hd1 Hp1].
  { clear - Hi Hd. unfold ue_sm_request_connect. destruct (nonempty_arg dnn);
      sm_open sm Hi; sm_case; lia. }
  destruct (sm_run_patience es _ n 0 Hi1 Hn ltac:(done) Hd1 Hs) as ([sm' n'] & E & Hi2 & Hp2).
  cbn [fst] in *. exists sm', n'. split; [done|].
  assert (sm_patience sm' <= 0) as Hlim by lia. clear - Hi2 Hlim.
  sm_open sm' Hi2. revert Hlim. destruct sm_state0; sm_case; intros; split; intros; try done; lia.
Qed.



(** The PTI of a retransmission.  The first request of an establishment
    carries the PTI at the cursor; its submission frees it, so that every
    retransmission on T3580 carries PTI 1 instead, with the same session. *)
Lemma sm_retransmission_pti `{SafeAdapter A} sm (n : A) t :
  sm_reachable (sm, n) -> sm_state sm = UE_SM_ESTABLISHING ->
  sm_disconnect_requested sm = false -> sm_est_retx_count sm < 4 ->
  0 < sm_next_step_deadline_ms sm <= t -> t < 2 ^ 63 ->
  eq_pti (sm_build_establish_request (sm_begin_establish sm)) = Z.max 1 (sm_next_pti sm)
  /\ eq_pti (sm_build_establish_request sm) = 1
  /\ exists r n',
       ue_network_sm_submit_establish (sm_build_establish_request sm) n = Some (r, n')
       /\ ue_sm_tick sm n t true
          = Some (sm <| sm_est_retx_count := sm_est_retx_count sm + 1 |>
                     <| sm_next_step_deadline_ms := t + UE_SM_T3580_MS |>, n').
Proof.
  intros Hr Hs Hdis Hx Hd Ht. destruct (sm_reachable_ok _ Hr) as [Hi Hn]. cbn [fst snd] in *.
  pose proof (inv_sm_cursor sm Hi) as Hcur. destruct Hi as [Hp _ _ _ Hx' _].
  unfold sm_phase_ok in Hp. rewrite Hs in Hp. destruct Hp as (Hpr & Hst & Hpti).
  split; [|split].
  - unfold sm_begin_establish. destruct (sm_alloc_pti_spec sm Hcur) as (p & q & -> & Hp & _ & <-).
    unfold sm_build_establish_request. destruct sm. sm_red. cbn [eq_pti].
    by rewrite (proj2 (Z.eqb_neq p 0)) by lia.
  - unfold sm_build_establish_request. cbn [eq_pti]. by rewrite Hpti.
  - destruct (sm_establish_ok _ n (sm_build_dnn sm) Hn) as (r & n1 & Er & _).
    exists r, n1. split; [done|].
    assert (u64 (t + UE_SM_T3580_MS) = t + UE_SM_T3580_MS) as Hu
      by (unfold u64, UE_SM_T3580_MS in *; apply Z.mod_small; lia).
    assert (u8 (sm_est_retx_count sm + 1) = sm_est_retx_count sm + 1) as Hu8
      by (unfold u8; apply Z.mod_small; lia).
    unfold ue_sm_tick, sm_tick_requests. rewrite Hdis. cbn [negb mbind option_bind].
    rewrite Hs, (bool_decide_false (UE_SM_ESTABLISHING = UE_SM_INACTIVE)), andb_false_r by done.
    cbn [mbind option_bind].
    unfold sm_tick_t3580. rewrite Hs, Hst, Hu, Hu8.
    rewrite (bool_decide_true (UE_SM_ESTABLISHING = _)) by done.
    rewrite (bool_decide_true (UE_SM_STEP_WAIT_ESTABLISH_RESPONSE = _)) by done. cbn [andb].
    rewrite (proj2 (Z.eqb_neq _ _)), (proj2 (Z.leb_le _ _)), (proj2 (Z.ltb_lt _ _)) by done || lia.
    cbv zeta. match goal with |- context [ue_network_sm_submit_establish ?q n] =>
      change q with (sm_build_establish_request sm) end.
    rewrite Er. cbn [mbind option_bind]. unfold sm_tick_release. destruct sm. sm_red. subst.
    sm_case. done.
Qed.

Lemma sm_tick_disconnecting `{NetworkAdapter A} sm (n : A) t :
  sm_state sm = UE_SM_RELEASING -> sm_disconnect_requested sm = true ->
  sm_connect_requested sm = false ->
  ue_sm_tick sm n t true
  = Some (sm_enter_inactive sm UE_SM_CAUSE_DISCONNECT_REQUESTED false true, n).
Proof.
  intros Hs Hd Hc. unfold ue_sm_tick, sm_tick_requests. rewrite Hd, Hs.
  rewrite (bool_decide_false (UE_SM_RELEASING = _)) by done. cbn [negb mbind option_bind].
  change (sm_connect_requested (sm_enter_inactive sm UE_SM_CAUSE_DISCONNECT_REQUESTED false true))
    with (sm_connect_requested sm). rewrite Hc. cbn [andb mbind option_bind].
  unfold sm_tick_t3580, sm_tick_release, sm_enter_inactive. destruct sm. sm_case.
  cbn [mbind option_bind]. sm_case. done.
Qed.

(** The wait for the network's release command is never used.  After a
    disconnect request in ACTIVE the first tick sends the release request and
    enters RELEASING, and the next one, whenever it comes, finds the request
    still pending and makes the session INACTIVE without waiting. *)
Lemma sm_release_wait_skipped `{AcceptingAdapter A} sm (n : A) t1 t2 :
  sm_reachable (sm, n) -> sm_state sm = UE_SM_ACTIVE ->
  exists sm1 sm2 n1,
    ue_sm_tick (ue_sm_request_disconnect sm) n t1 true = Some (sm1, n1)
    /\ sm_state sm1 = UE_SM_RELEASING
    /\ sm_next_step_deadline_ms sm1 = u64 (t1 + UE_SM_RELEASE_WAIT_MS)
    /\ ue_sm_tick sm1 n1 t2 true = Some (sm2, n1)
    /\ sm_state sm2 = UE_SM_INACTIVE /\ sm_last_cause sm2 = UE_SM_CAUSE_DISCONNECT_REQUESTED.
Proof.
  intros Hr Hs. destruct (sm_reachable_ok _ Hr) as [Hi Hn]. cbn [fst snd] in *.
  destruct (sm_alloc_pti_spec (ue_sm_request_disconnect sm)) as (p & q & Ea & _);
    [apply Hi|].
  unfold ue_sm_tick at 1, sm_tick_requests at 1, sm_start_release_procedure.
  rewrite Ea. clear Ea. unfold ue_sm_request_disconnect. destruct sm. sm_red. subst.
  rewrite (bool_decide_true (UE_SM_ACTIVE = _)) by done. cbn [mbind option_bind].
  match goal with |- context [ue_network_sm_submit_release ?rq n] =>
    destruct (sm_release_ok rq n Hn) as (r & n1 & Er & _) end.
  pose proof (sm_release_accepts _ _ _ _ Er) as Hsub. rewrite Er. cbn [mbind option_bind].
  unfold sm_handle_release_submit_result. rewrite Hsub.
  unfold sm_tick_t3580, sm_tick_release.
  cbn [mbind option_bind]. sm_case. cbn [mbind option_bind]. sm_case.
  eexists _, _, n1. split; [reflexivity|]. split; [reflexivity|]. split; [reflexivity|].
  rewrite sm_tick_disconnecting by done. done.
Qed.

(** Two timers that do not do what their comments say.  A retransmission on
    T3580 carries PTI 1 and not the PTI of the request it repeats, whose number
    was freed when it was submitted; and the wait for the release command ends
    with the next tick, because the disconnect request is still pending. *)
Lemma sm_timers_differ `{AcceptingAdapter A} (n : A) :
  (forall sm t,
  sm_reachable (sm, n) -> sm_state sm = UE_SM_ESTABLISHING ->
  sm_disconnect_requested sm = false -> sm_est_retx_count sm < 4 ->
  0 < sm_next_step_deadline_ms sm <= t -> t < 2 ^ 63 ->
  eq_pti (sm_build_establish_request (sm_begin_establish sm)) = Z.max 1 (sm_next_pti sm)
  /\ eq_pti (sm_build_establish_request sm) = 1
  /\ exists r n',
       ue_network_sm_submit_establish (sm_build_establish_request sm) n = Some (r, n')
       /\ ue_sm_tick sm n t true
          = Some (sm <| sm_est_retx_count := sm_est_retx_count sm + 1 |>
                     <| sm_next_step_deadline_ms := t + UE_SM_T3580_MS |>, n'))
  /\ (forall sm t1 t2,
  sm_reachable (sm, n) -> sm_state sm = UE_SM_ACTIVE ->
  exists sm1 sm2 n1,
    ue_sm_tick (ue_sm_request_disconnect sm) n t1 true = Some (sm1, n1)
    /\ sm_state sm1 = UE_SM_RELEASING
    /\ sm_next_step_deadline_ms sm1 = u64 (t1 + UE_SM_RELEASE_WAIT_MS)
    /\ ue_sm_tick sm1 n1 t2 true = Some (sm2, n1)
    /\ sm_state sm2 = UE_SM_INACTIVE /\ sm_last_cause sm2 = UE_SM_CAUSE_DISCONNECT_REQUESTED).
Proof.
  split; intros; [by apply sm_retransmission_pti|by apply sm_release_wait_skipped].
Qed.

(** ** Witnesses *)

#[local] Instance recording : NetworkAdapter (list ue_sm_pdu_session_est_request) := {|
  ue_network_mm_submit_registration _ n :=
    Some (MmRegResult true UE_REJECT_TEMPORARY 0 UE_MM_REG_ACCEPT_3GPP [] 0, n);
  ue_network_sm_submit_establish req n :=
    Some (SmEstResult true UE_REJECT_TEMPORARY 0 1 [0; 0; 0; 0] 0, n ++ [req]);
  ue_network_sm_submit_release _ n := Some (SmRelResult true UE_REJECT_TEMPORARY 0, n) |}.

#[local] Instance recording_safe : SafeAdapter (list ue_sm_pdu_session_est_request).
Proof.
  refine {| adapter_ok := fun _ : list ue_sm_pdu_session_est_request => True |};
    intros; eexists _, _; (split; [reflexivity|]); repeat split; cbn; lia.
Defined.

#[local] Instance recording_accepts : AcceptingAdapter (list ue_sm_pdu_session_est_request).
Proof. split; intros req n r n' E; injection E as <- <-; done. Qed.

(** A first session established and released, then a second one started. *)
Definition sm_blank : ue_sm_ctx := ue_sm_init (Some (str "internet")).
Definition sm_ip0 : ue_engine_runtime_ip := RuntimeIp [10; 0; 0; 2] [0; 0; 0; 0] [8; 8; 8; 8] [1; 1; 1; 1] 1400.
Definition sm_script1 : list sm_event := [SmTick 16000 true; SmAccept 1 sm_ip0].
Definition sm_script2 : list sm_event :=
  [SmTick 16000 true; SmAccept 1 sm_ip0; SmReleased].

Definition sm_after (es : list sm_event) (sm : ue_sm_ctx) (n : list ue_sm_pdu_session_est_request)
    : ue_sm_ctx * list ue_sm_pdu_session_est_request :=
  default (sm, n) (sm_run es (ue_sm_request_connect sm None, n)).

Definition sm_active1 := sm_after sm_script1 sm_blank [].
Definition sm_idle2 := sm_after sm_script2 sm_blank [].
Definition sm_second := sm_after [SmTick 32000 true] sm_idle2.1 sm_idle2.2.

(** Runs stay within the reachable states. *)
Lemma sm_event_reachable `{SafeAdapter A} e (s s' : ue_sm_ctx * A) :
  sm_reachable s -> sm_event_step e s = Some s' ->
  match e with SmTick t _ => 0 <= t < 2 ^ 63 | _ => True end -> sm_reachable s'.
Proof.
  intros Hr He Ht. destruct s as [sm n]. destruct e as [t reg|c|psi ip|]; cbn in He.
  - eapply sm_reach_step; [done|]. by eapply st_sm_tick.
  - eapply sm_reach_step; [done|]. by eapply st_sm_reject.
  - injection He as <-. case_bool_decide; [|done].
    eapply sm_reach_step; [|apply st_sm_accept]. eapply sm_reach_step; [done|]. by apply st_sm_session.
  - injection He as <-. eapply sm_reach_step; [done|]. apply st_sm_released.
Qed.

Lemma sm_run_reachable `{SafeAdapter A} es (s s' : ue_sm_ctx * A) last :
  sm_reachable s -> sm_run es s = Some s' -> 0 <= last -> sm_spaced last es -> sm_reachable s'.
Proof.
  revert s last. induction es as [|e es IH]; intros s last Hr He Hl Hs.
  { by injection He as <-. }
  cbn [sm_run] in He. destruct (sm_event_step e s) as [s1|] eqn:E; [|done].
  cbn [mbind option_bind] in He.
  destruct e as [t reg|c|psi ip|]; cbn [sm_spaced] in Hs.
  - destruct Hs as [Ht Hs]. assert (0 <= t < 2 ^ 63) by (unfold UE_SM_T3580_MS in *; lia).
    eapply (IH s1 t); [eapply sm_event_reachable; [done|exact E|done]|done|lia|done].
  - eapply (IH s1 last); [eapply sm_event_reachable; [done|exact E|done]|done|done|done].
  - eapply (IH s1 last); [eapply sm_event_reachable; [done|exact E|done]|done|done|done].
  - eapply (IH s1 last); [eapply sm_event_reachable; [done|exact E|done]|done|done|done].
Qed.

Lemma sm_after_reachable es sm n :
  sm_reachable (sm, n) -> sm_spaced 0 es -> sm_reachable (sm_after es sm n).
Proof.
  intros Hr Hs. unfold sm_after.
  destruct (sm_run es (ue_sm_request_connect sm None, n)) as [s|] eqn:E; [|done].
  eapply sm_run_reachable; [|exact E|done|done].
  eapply sm_reach_step; [exact Hr|apply st_sm_connect].
Qed.

Lemma sm_blank_reachable : sm_reachable (sm_blank, [] : list ue_sm_pdu_session_est_request).
Proof. by apply sm_reach_init. Qed.
Lemma sm_active1_reachable : sm_reachable sm_active1.
Proof.
  apply sm_after_reachable; [apply sm_blank_reachable|]. repeat split; vm_compute; done.
Qed.
Lemma sm_idle2_reachable : sm_reachable sm_idle2.
Proof.
  apply sm_after_reachable; [apply sm_blank_reachable|]. repeat split; vm_compute; done.
Qed.
Lemma sm_second_reachable : sm_reachable sm_second.
Proof.
  apply sm_after_reachable; [apply sm_idle2_reachable|]. repeat split; vm_compute; done.
Qed.

Lemma sm_reachable_invariant_witness :
  sm_phase_ok sm_second.1 /\ sm_state sm_second.1 = UE_SM_ESTABLISHING
  /\ is_Some (ue_sm_on_pdu_session_reject sm_second.1 sm_second.2 26).
Proof.
  pose proof (sm_reachable_invariant sm_second.1 sm_second.2 sm_second_reachable) as Hinv.
  split; [apply Hinv|]. split; [reflexivity|]. apply Hinv.
Defined.

Lemma sm_active_only_by_accept_witness :
  sm_state (ue_sm_on_pdu_session_established sm_second.1) = UE_SM_ACTIVE
  /\ sm_proc_step sm_second.1 = UE_SM_STEP_WAIT_ESTABLISH_RESPONSE
  /\ sm_state (ue_sm_on_pdu_session_established sm_idle2.1) = UE_SM_INACTIVE.
Proof.
  split; [reflexivity|]. split; [|reflexivity].
  eapply (sm_active_only_by_accept sm_second.1 sm_second.2 _ sm_second.2 sm_second_reachable).
  - apply st_sm_accept.
  - reflexivity.
  - discriminate.
Defined.

(** Twelve silent ticks: the machine sends the request five times and stops. *)
Definition sm_silent : list sm_event :=
  map (fun k => SmTick (16000 * k) true) [1; 2; 3; 4; 5; 6; 7; 8; 9; 10; 11; 12].

Lemma sm_establishment_terminates_witness :
  12 <= sm_ticks sm_silent
  /\ (exists sm' n', sm_run sm_silent (ue_sm_request_connect sm_blank None, []) = Some (sm', n')
       /\ sm_state sm' <> UE_SM_ESTABLISHING)
  /\ length (sm_after sm_silent sm_blank []).2 = 5%nat.
Proof.
  split; [done|]. split; [|reflexivity].
  destruct (sm_establishment_terminates sm_blank [] None sm_silent sm_blank_reachable)
    as (sm' & n' & E & Hs & _); [reflexivity|repeat split; vm_compute; done|done|].
  exists sm', n'. split; [exact E|exact Hs].
Defined.

