(* ===== verification/NetworkAdapter.v ===== *)
(** The network adapter: [src/src/ue_engine/ue_network_adapter.c].

    The two file-scope pointers are the state: the transport and the NAS
    security context, either of which may be null.  The transport's own state
    and its send function come through the interface [RanSender].  The three
    submissions implement the interface of [UeTypes.v] that the MM and SM
    machines are written against, and the instances at the end discharge its
    laws. *)

From S2P Require Import Prelude NasDefs NasEncode Rrc Aes NasCrypto NasSecurity UeTypes UeMm.

#[local] Opaque ue_aes128_ecb_encrypt ue_aes_cmac aes128_ctr.

Definition UE_RRC_CHANNEL_UL_DCCH : Z := 7.
Definition nas_tx_size : nat := Z.to_nat (8192 + 64).

Record net_adapter (T : Type) := NetAdapter {
  g_transport : option T;
  g_nas_sec : option ue_nas_security_ctx }.
Arguments NetAdapter {T}.
Arguments g_transport {T}.
Arguments g_nas_sec {T}.

(** 'i', 'I', '4', '6' and 'v'.  The request's array is zero padded
    ([strncpy]), so a read past the terminator gives 0. *)
Definition pdu_type_from_string (pdu_type : bytes) : Z :=
  match pdu_type with
  | [] => 1
  | c :: _ =>
    if (c =? 105) || (c =? 73) then
      if (nth 3 pdu_type 0 =? 52) && (nth 4 pdu_type 0 =? 118) then 3
      else if nth 3 pdu_type 0 =? 54 then 2
      else 1
    else 1
  end.

Section Adapter.
Context `{RanSender T}.

Definition ue_network_adapter_set_transport (transport : option T) (n : net_adapter T)
    : net_adapter T := NetAdapter transport (g_nas_sec n).
Definition ue_network_adapter_set_security_ctx (nas_sec : option ue_nas_security_ctx)
    (n : net_adapter T) : net_adapter T := NetAdapter (g_transport n) nas_sec.

(** The PDU that is wrapped: protected when a security context is active.
    [None] inside is the [-1] of a failed protection. *)
Definition protect_if_active (nas_pdu : bytes) (nas_len : Z) (n : net_adapter T)
    : option (option (bytes * Z) * net_adapter T) :=
  match g_nas_sec n with
  | Some sec =>
    if sc_active sec then
      '(send_len, secured_buf, sec) ←
        ue_nas_security_protect_with_sht (Some (replicate nas_tx_size 0)) nas_tx_size sec
          (Some nas_pdu) (Z.to_nat nas_len) NAS_SHT_INTEGRITY_PROTECTED_CIPHERED;
      secured_buf ← secured_buf;
      let n := NetAdapter (g_transport n) (Some sec) in
      Some (if send_len <=? 0 then None else Some (secured_buf, send_len), n)
    else Some (Some (nas_pdu, nas_len), n)
  | None => Some (Some (nas_pdu, nas_len), n)
  end.

Definition send_nas_in_rrc (nas_pdu : bytes) (nas_len : Z) (n : net_adapter T)
    : option (Z * net_adapter T) :=
  match g_transport n with
  | None => Some (-1, n)
  | Some t =>
    if nas_len <=? 0 then Some (-1, n) else
    '(pdu, n) ← protect_if_active nas_pdu nas_len n;
    match pdu with
    | None => Some (-1, n)
    | Some (send_pdu, send_len) =>
      '(rrc_len, rrc_buf) ←
        ue_rrc_encode_ul_info_transfer (Some (replicate nas_tx_size 0)) nas_tx_size
          (Some send_pdu) (Z.to_nat send_len);
      rrc_buf ← rrc_buf;
      if rrc_len <=? 0 then Some (-1, n) else
      '(r, t) ← ue_ran_transport_send_nas_pdu t (take (Z.to_nat rrc_len) rrc_buf)
                  UE_RRC_CHANNEL_UL_DCCH;
      Some (r, NetAdapter (Some t) (g_nas_sec n))
    end
  end.

(** [if (nas_len > 0) send_nas_in_rrc(nas_buf, nas_len);], the result ignored. *)
Definition send_encoded (enc : option (Z * option bytes)) (n : net_adapter T)
    : option (net_adapter T) :=
  '(nas_len, nas_buf) ← enc;
  nas_buf ← nas_buf;
  if 0 <? nas_len then '(_, n) ← send_nas_in_rrc nas_buf nas_len n; Some n else Some n.

Definition submit_registration (req : ue_mm_registration_request) (n : net_adapter T)
    : option (ue_mm_registration_result * net_adapter T) :=
  n ← send_encoded
        (ue_nas_encode_registration_request (Some (replicate 256 0)) 256
           (Some (rq_suci req)) (Some (rq_plmn_mcc req)) (Some (rq_plmn_mnc req))
           0 1 None 0 7 true) n;
  Some (MmRegResult true UE_REJECT_TEMPORARY 0 UE_MM_REG_ACCEPT_3GPP [] 0, n).

Definition session_psi (pdu_session_id : Z) : Z :=
  if (0 <? pdu_session_id) && (pdu_session_id <=? 15) then u8 pdu_session_id else 1.

Definition submit_establish (req : ue_sm_pdu_session_est_request) (n : net_adapter T)
    : option (ue_sm_pdu_session_est_result * net_adapter T) :=
  let psi := session_psi (eq_pdu_session_id req) in
  let pti := if eq_pti req =? 0 then 1 else eq_pti req in
  let pdu_type := pdu_type_from_string (eq_pdu_type req) in
  let request_type :=
    if bool_decide (eq_request_type req = UE_SM_PDU_REQUEST_EXISTING) then 2 else 1 in
  n ← send_encoded
        (ue_nas_encode_pdu_session_est_request (Some (replicate 512 0)) 512 psi pti pdu_type
           request_type (Some (eq_dnn req)) (eq_s_nssai_sst req)) n;
  Some (SmEstResult true UE_REJECT_TEMPORARY 0 psi [0; 0; 0; 0] 0, n).

Definition submit_release (req : ue_sm_pdu_session_rel_request) (n : net_adapter T)
    : option (ue_sm_pdu_session_rel_result * net_adapter T) :=
  let psi := session_psi (lq_pdu_session_id req) in
  n ← send_encoded
        (ue_nas_encode_pdu_session_release_request (Some (replicate 64 0)) 64 psi
           (if lq_pti req =? 0 then 1 else lq_pti req)) n;
  Some (SmRelResult true UE_REJECT_TEMPORARY 0, n).

#[export] Instance net_adapter_operations : NetworkAdapter (net_adapter T) := {|
  ue_network_mm_submit_registration := submit_registration;
  ue_network_sm_submit_establish := submit_establish;
  ue_network_sm_submit_release := submit_release |}.

(** ** What is sent *)

(** The security context, when there is one in use, is well formed. *)
Definition sec_ok (s : option ue_nas_security_ctx) : Prop :=
  match s with Some sec => sc_active sec = true -> uplink_ok sec | None => True end.

Context `{Hsafe : !SafeSender T}.

(** A valid adapter: so are its security context and its transport. *)
Definition net_ok (n : net_adapter T) : Prop :=
  sec_ok (g_nas_sec n) /\ match g_transport n with Some t => sender_ok t | None => True end.

(** The PDU the network sees for the plain message [plain], and the context
    afterwards. *)
Definition secured_pdu (s : option ue_nas_security_ctx) (plain : bytes) : bytes :=
  match s with
  | Some sec => if sc_active sec
                then sealed sec 0 NAS_SHT_INTEGRITY_PROTECTED_CIPHERED (sc_ul_count sec) true plain
                else plain
  | None => plain
  end.
Definition secured_ctx (s : option ue_nas_security_ctx) : option ue_nas_security_ctx :=
  match s with
  | Some sec => Some (if sc_active sec
                      then sec <| sc_ul_count := ue_nas_count_increment (sc_ul_count sec) |> else sec)
  | None => None
  end.

(** [pdu] holds exactly the bits [bl], zero padded to a whole byte. *)
Definition octets_of (bl : list bool) (pdu : bytes) : Prop :=
  length pdu = ((length bl + 7) / 8)%nat
  /\ forall i, (i < 8 * length pdu)%nat -> buf_bit pdu i = Some (default false (bl !! i)).

Lemma length_sealed sec dir sht c ciphered plain :
  is_block (k_knas_enc (sc_keys sec)) ->
  length (sealed sec dir sht c ciphered plain) = (7 + length plain)%nat.
Proof.
  intros Hk. unfold sealed, envelope. rewrite !length_app, length_be_list.
  destruct ciphered; [rewrite cipher_length by done|]; simpl; lia.
Qed.

Lemma secured_len s plain :
  sec_ok s ->
  (length (secured_pdu s plain) <= 7 + length plain)%nat
  /\ (0 < length plain -> 0 < length (secured_pdu s plain))%nat.
Proof.
  intros Hs. unfold secured_pdu, sec_ok in *. destruct s as [sec|]; [|lia].
  destruct (sc_active sec); [|lia]. rewrite length_sealed by (by apply Hs). lia.
Qed.

Lemma protect_if_active_result nas len (n : net_adapter T) :
  sec_ok (g_nas_sec n) -> (1 <= len <= length nas)%nat -> Z.of_nat len <= 8185 ->
  exists buf, protect_if_active nas (Z.of_nat len) n
    = Some (Some (buf, Z.of_nat (length (secured_pdu (g_nas_sec n) (take len nas)))),
            NetAdapter (g_transport n) (secured_ctx (g_nas_sec n)))
    /\ take (length (secured_pdu (g_nas_sec n) (take len nas))) buf
       = secured_pdu (g_nas_sec n) (take len nas)
    /\ (length (secured_pdu (g_nas_sec n) (take len nas)) <= length buf)%nat.
Proof.
  intros Hs Hl Hm. unfold protect_if_active. destruct n as [t [sec|]]; cbn [g_nas_sec g_transport] in *.
  - unfold secured_pdu, secured_ctx, sec_ok in *. destruct (sc_active sec); cycle 1.
    { exists nas. rewrite length_take, Nat.min_l by lia. split_and!; done || lia. }
    set (w := sealed _ _ _ _ _ _).
    assert (length w = (7 + len)%nat) as Hw by (unfold w; rewrite length_sealed by (by apply Hs); vlia).
    assert (Z.of_nat nas_tx_size = 8256) as Hsz by (unfold nas_tx_size; lia).
    exists (over w (replicate nas_tx_size 0)). rewrite Nat2Z.id.
    rewrite protect_result; [|by apply Hs|by rewrite length_replicate|done|lia|lia].
    change (sht_ciphered NAS_SHT_INTEGRITY_PROTECTED_CIPHERED) with true. fold w.
    cbn [mbind option_bind]. split_and!.
    + replace (Z.of_nat (7 + len) <=? 0) with false by lia. by rewrite Hw.
    + by apply take_over.
    + rewrite length_over by (rewrite length_replicate; lia). rewrite length_replicate. lia.
  - exists nas. unfold secured_pdu. cbn [secured_ctx].
    rewrite length_take, Nat.min_l by lia. split_and!; done || lia.
Qed.

Lemma length_concat_bits l : length (concat (bits_be 8 <$> l)) = (8 * length l)%nat.
Proof.
  induction l as [|b l IH]; [done|]. rewrite fmap_cons. cbn [concat].
  rewrite length_app, length_bits_be, IH. simpl. lia.
Qed.

Lemma ul_info_transfer_bits_len nas :
  (17 <= length (ul_info_transfer_bits nas) <= 25 + 8 * length nas)%nat.
Proof.
  unfold ul_info_transfer_bits, octets_bits, uper_length_bits.
  rewrite !length_app, !length_bits_be, length_concat_bits.
  destruct (_ <?n _); rewrite ?length_app, length_bits_be; simpl; lia.
Qed.

Lemma send_nas_result nas len (n : net_adapter T) t :
  g_transport n = Some t -> net_ok n ->
  (1 <= len <= length nas)%nat -> Z.of_nat len <= 8185 ->
  exists pdu r t',
    octets_of (ul_info_transfer_bits (secured_pdu (g_nas_sec n) (take len nas))) pdu
    /\ ue_ran_transport_send_nas_pdu t pdu UE_RRC_CHANNEL_UL_DCCH = Some (r, t') /\ sender_ok t'
    /\ send_nas_in_rrc nas (Z.of_nat len) n
       = Some (r, NetAdapter (Some t') (secured_ctx (g_nas_sec n))).
Proof.
  intros Ht [Hs Hsend] Hl Hm. rewrite Ht in Hsend. destruct (protect_if_active_result nas len n Hs Hl Hm) as (buf & E & Hbuf & Hlb).
  unfold send_nas_in_rrc. rewrite Ht. replace (Z.of_nat len <=? 0) with false by lia.
  rewrite E. cbn [mbind option_bind g_nas_sec]. rewrite Nat2Z.id.
  set (w := secured_pdu _ _) in *.
  assert (length w <= 7 + len /\ 1 <= length w)%nat as [Hw Hw1]
    by (pose proof (secured_len (g_nas_sec n) (take len nas) Hs); unfold w; rewrite length_take in *; lia).
  assert (Z.of_nat nas_tx_size = 8256) as Hsz by (unfold nas_tx_size; lia).
  pose proof (ul_info_transfer_result (replicate nas_tx_size 0) nas_tx_size buf (length w)
    ltac:(by rewrite length_replicate) ltac:(lia) ltac:(unfold UE_RRC_MAX_NAS_SIZE; lia)) as Henc.
  rewrite Hbuf in Henc. unfold encodes in Henc.
  pose proof (ul_info_transfer_bits_len w) as Hbl.
  replace (length (ul_info_transfer_bits w) <=?n 8 * nas_tx_size) with true in Henc by lia.
  destruct Henc as (b' & -> & Hlb' & Hbits). cbn [mbind option_bind].
  set (k := ((length (ul_info_transfer_bits w) + 7) / 8)%nat) in *.
  assert (1 <= k <= nas_tx_size)%nat as Hk by (unfold k; lia).
  replace (Z.of_nat k <=? 0) with false by lia. rewrite Nat2Z.id.
  destruct (send_nas_ok t (take k b') UE_RRC_CHANNEL_UL_DCCH Hsend) as (r & t' & Es & Ht').
  rewrite Es. cbn [mbind option_bind].
  exists (take k b'), r, t'. split; [split|split_and!; done].
  - rewrite length_take, Hlb', length_replicate. lia.
  - intros i Hi. rewrite length_take, Hlb', length_replicate in Hi.
    rewrite <- Hbits by lia. unfold buf_bit. rewrite lookup_take_lt; [done|]. lia.
Qed.
Lemma secured_ctx_ok s : sec_ok s -> sec_ok (secured_ctx s).
Proof.
  unfold sec_ok, secured_ctx. destruct s as [sec|]; [|done]. intros Hs Ha.
  destruct (sc_active sec) eqn:E; [|congruence]. destruct (Hs eq_refl) as [? ? ? Hul].
  split; try done. by apply count_increment_eq.
Qed.

(** An encoder's outcome that the adapter can send: nothing, or a message
    inside its buffer. *)
Definition sendable (enc : option (Z * option bytes)) : Prop :=
  exists len buf, enc = Some (len, Some buf)
    /\ (len <= 0 \/ 0 < len <= 8185 /\ len <= Z.of_nat (length buf)).

Lemma send_encoded_safe enc (n : net_adapter T) :
  sendable enc -> net_ok n -> exists n', send_encoded enc n = Some n' /\ net_ok n'.
Proof.
  intros (len & buf & -> & Hlen) Hs. unfold send_encoded. cbn [mbind option_bind].
  destruct (0 <? len) eqn:El; [|by exists n].
  destruct (g_transport n) as [t|] eqn:Et; cycle 1.
  { unfold send_nas_in_rrc. rewrite Et. by exists n. }
  destruct (send_nas_result buf (Z.to_nat len) n t Et Hs) as (pdu & r & t' & _ & _ & Ht' & E); [lia..|].
  rewrite Z2Nat.id in E by lia. rewrite E. cbn [mbind option_bind].
  eexists. split; [reflexivity|]. split; [by apply secured_ctx_ok, Hs|done].
Qed.

Lemma send_encoded_sends w b (n : net_adapter T) t :
  g_transport n = Some t -> net_ok n -> (1 <= length w <= length b)%nat ->
  Z.of_nat (length w) <= 8185 ->
  exists pdu r t',
    octets_of (ul_info_transfer_bits (secured_pdu (g_nas_sec n) w)) pdu
    /\ ue_ran_transport_send_nas_pdu t pdu UE_RRC_CHANNEL_UL_DCCH = Some (r, t')
    /\ send_encoded (Some (Z.of_nat (length w), Some (over w b))) n
       = Some (NetAdapter (Some t') (secured_ctx (g_nas_sec n))).
Proof.
  intros Ht Hs Hl Hm.
  destruct (send_nas_result (over w b) (length w) n t Ht Hs) as (pdu & r & t' & Hp & E1 & _ & E2);
    [rewrite length_over by lia; lia|done|].
  rewrite take_over in Hp by done. exists pdu, r, t'. split; [done|]. split; [done|].
  unfold send_encoded. cbn [mbind option_bind]. replace (0 <? _) with true by lia.
  by rewrite E2.
Qed.

(** ** The encoders as the adapter calls them *)

Lemma length_suci_wire mcc mnc msin :
  length mcc = 3%nat -> (2 <= length mnc)%nat ->
  length (suci_wire mcc mnc msin) = (8 + (length msin + 1) / 2)%nat.
Proof.
  intros H1 H2. unfold suci_wire.
  destruct mcc as [|? [|? [|? [|]]]], mnc as [|? [|? mnc]]; try (simpl in *; lia).
  rewrite !length_app, length_bcd_pairs. simpl. lia.
Qed.

Lemma registration_identity_suci imsi mcc mnc :
  registration_identity (Some imsi) (Some mcc) (Some mnc) None 0 = Some None
  \/ exists mid k, registration_identity (Some imsi) (Some mcc) (Some mnc) None 0
       = Some (Some (mid, k)) /\ (k <= 64)%nat /\ length mid = 64%nat.
Proof.
  unfold registration_identity.
  destruct (decide (length mcc = 3 /\ (length mnc = 2 \/ length mnc = 3)
    /\ length mcc + length mnc <= length imsi
    /\ 8 + (length (drop (3 + length mnc) imsi) + 1) / 2 <= 64)%nat) as [(H1 & H2 & H3 & H4)|Hn].
  - rewrite encode_suci_result by (done || by rewrite length_replicate). cbn [mbind option_bind].
    destruct (suci_ok _ _ _); [|by left]. right.
    replace (Z.of_nat _ <? 0) with false by lia.
    eexists _, _. split; [reflexivity|]. split; [lia|].
    rewrite length_over; [by rewrite length_replicate|].
    rewrite length_replicate, length_suci_wire; lia.
  - left. unfold ue_nas_encode_suci, run_w. cbv zeta. rewrite length_drop in Hn.
    destruct (_ || _) eqn:E1; [done|]. destruct (length imsi <?n _) eqn:E2; [done|].
    destruct (64 <?n _) eqn:E3; [done|]. exfalso. apply Hn.
    lia.
Qed.

Lemma registration_sendable req :
  sendable (ue_nas_encode_registration_request (Some (replicate 256 0)) 256
    (Some (rq_suci req)) (Some (rq_plmn_mcc req)) (Some (rq_plmn_mnc req)) 0 1 None 0 7 true).
Proof.
  destruct (registration_identity_suci (rq_suci req) (rq_plmn_mcc req) (rq_plmn_mnc req))
    as [E|(mid & k & E & Hk & Hm)].
  - unfold ue_nas_encode_registration_request, run_w. rewrite E.
    eexists _, _. split; [reflexivity|]. lia.
  - rewrite (encode_registration_request_result _ _ _ _ _ _ _ _ _ _ _ mid k)
      by (done || lia || by rewrite length_replicate).
    replace (256 <?n 20 + k) with false by lia. cbv zeta.
    eexists _, _. split; [reflexivity|]. right.
    assert (length (registration_request_wire (take k mid) 0 1 7 true) = 10 + k)%nat as Hw.
    { unfold registration_request_wire, lve, nas_header. vlia. }
    rewrite length_over by (rewrite length_replicate; lia). rewrite length_replicate. lia.
Qed.

Lemma pdu_type_range s : 1 <= pdu_type_from_string s <= 3.
Proof. unfold pdu_type_from_string. repeat case_match; lia. Qed.

Lemma session_psi_range id : 1 <= session_psi id <= 15.
Proof. unfold session_psi, u8. destruct (_ && _) eqn:E; [|lia]. rewrite Z.mod_small; lia. Qed.

Lemma est_wire_len psi pti ty rt dnn sst :
  (length dnn < 64)%nat ->
  (33 <= length (est_request_wire psi pti ty rt dnn sst) <= 102)%nat.
Proof.
  intros Hd. unfold est_request_wire, lve, nas_header.
  destruct (0 <? sst), dnn; vlia.
Qed.

Lemma establish_encodes psi pti ty rt dnn sst :
  1 <= ty <= 3 -> 1 <= rt <= 2 -> (length dnn < 64)%nat ->
  ue_nas_encode_pdu_session_est_request (Some (replicate 512 0)) 512 psi pti ty rt (Some dnn) sst
  = Some (Z.of_nat (length (est_request_wire psi pti ty rt dnn sst)),
          Some (over (est_request_wire psi pti ty rt dnn sst) (replicate 512 0))).
Proof.
  intros Ht Hr Hd. pose proof (est_wire_len psi pti ty rt dnn sst Hd).
  rewrite encode_est_request_result;
    [|by rewrite length_replicate|lia|lia|lia|destruct (0 <? sst); lia].
  cbv zeta. replace (512 <?n _) with false by lia. by rewrite andb_false_r.
Qed.

Lemma release_encodes psi pti :
  ue_nas_encode_pdu_session_release_request (Some (replicate 64 0)) 64 psi pti
  = let w := ul_nas_transport_wire [NAS_EPD_5GSM; psi; if pti =? 0 then 1 else pti;
               NAS_MSG_PDU_SESSION_RELEASE_REQUEST; 0x59; 0x24] psi in
    Some (Z.of_nat (length w), Some (over w (replicate 64 0))).
Proof.
  unfold ue_nas_encode_pdu_session_release_request, run_w. cbn [Nat.ltb Nat.leb].
  rewrite ul_nas_transport_over by (rewrite length_replicate; simpl; lia). done.
Qed.

(** Whatever the sending of a message keeps, the three submissions keep. *)
Lemma submissions_keep (P : net_adapter T -> Prop) (n : net_adapter T) :
  (forall enc n, sendable enc -> P n -> exists n', send_encoded enc n = Some n' /\ P n') -> P n ->
  (forall req, exists r n', submit_registration req n = Some (r, n') /\ P n')
  /\ (forall req, (length (eq_dnn req) < 64)%nat ->
       exists r n', submit_establish req n = Some (r, n') /\ P n'
         /\ 1 <= er_selected_psi r <= 15 /\ length (er_assigned_ipv4 r) = 4%nat)
  /\ (forall req, exists r n', submit_release req n = Some (r, n') /\ P n').
Proof using.
  intros Hsend Hs. split; [|split].
  - intros req. unfold submit_registration.
    destruct (Hsend _ n (registration_sendable req) Hs) as (n' & -> & Hn'). eauto.
  - intros req Hd. unfold submit_establish.
    rewrite establish_encodes by (apply pdu_type_range || (case_match; lia) || done).
    match goal with |- context [send_encoded ?e n] =>
      destruct (Hsend e n) as (n' & -> & Hn'); [|done|] end.
    + eexists _, _. split; [reflexivity|]. right.
      match goal with |- context [est_request_wire ?a ?b ?c ?d ?e ?f] =>
        pose proof (est_wire_len a b c d e f Hd) end.
      rewrite length_over by (rewrite length_replicate; lia). rewrite length_replicate. lia.
    + cbn [mbind option_bind]. eexists _, _. split; [reflexivity|].
      cbn [er_selected_psi er_assigned_ipv4 length].
      pose proof (session_psi_range (eq_pdu_session_id req)). auto.
  - intros req. unfold submit_release. rewrite release_encodes. cbv zeta.
    match goal with |- context [send_encoded ?e n] =>
      destruct (Hsend e n) as (n' & -> & Hn'); [|done|] end.
    + eexists _, _. split; [reflexivity|]. right. simpl. lia.
    + cbn [mbind option_bind]. eauto.
Qed.

Lemma submissions_safe (n : net_adapter T) :
  net_ok n ->
  (forall req, exists r n', submit_registration req n = Some (r, n') /\ net_ok n')
  /\ (forall req, (length (eq_dnn req) < 64)%nat ->
       exists r n', submit_establish req n = Some (r, n') /\ net_ok n'
         /\ 1 <= er_selected_psi r <= 15 /\ length (er_assigned_ipv4 r) = 4%nat)
  /\ (forall req, exists r n', submit_release req n = Some (r, n') /\ net_ok n').
Proof. apply submissions_keep, send_encoded_safe. Qed.

(** The laws of the interface. *)
#[export] Instance net_adapter_safe : SafeAdapter (net_adapter T).
Proof using Hsafe.
  refine {| adapter_ok := net_ok |}.
  - intros req n Hn. exact (proj1 (submissions_safe n Hn) req).
  - intros req n Hd Hn. destruct (proj1 (proj2 (submissions_safe n Hn)) req Hd)
      as (r & n' & E & Hn' & Hpsi & Hip). exists r, n'.
    split; [exact E|]. split; [exact Hn'|]. split; [lia|exact Hip].
  - intros req n Hn. exact (proj2 (proj2 (submissions_safe n Hn)) req).
Defined.

#[export] Instance net_adapter_accepting : AcceptingAdapter (net_adapter T).
Proof using Hsafe.
  split; intros req n r n' E.
  - change (submit_registration req n = Some (r, n')) in E. unfold submit_registration in E.
    destruct (send_encoded _ n); [|discriminate]. cbn [mbind option_bind] in E.
    injection E as <- _. split; reflexivity.
  - change (submit_establish req n = Some (r, n')) in E. unfold submit_establish in E.
    destruct (send_encoded _ n); [|discriminate]. cbn [mbind option_bind] in E.
    injection E as <- _. reflexivity.
  - change (submit_release req n = Some (r, n')) in E. unfold submit_release in E.
    destruct (send_encoded _ n); [|discriminate]. cbn [mbind option_bind] in E.
    injection E as <- _. reflexivity.
Qed.

(** The transport of [n] is handed one PDU, carrying the NAS message [nas]. *)
Definition sends (n : net_adapter T) (t : T) (nas : bytes) (n' : net_adapter T) : Prop :=
  exists pdu rc t',
    octets_of (ul_info_transfer_bits (secured_pdu (g_nas_sec n) nas)) pdu
    /\ ue_ran_transport_send_nas_pdu t pdu UE_RRC_CHANNEL_UL_DCCH = Some (rc, t')
    /\ n' = NetAdapter (Some t') (secured_ctx (g_nas_sec n)).

Section Sends.
Variables (n : net_adapter T) (t : T).
Hypothesis Ht : g_transport n = Some t.
Hypothesis Hs : net_ok n.

Lemma submit_registration_sends req mcc mnc msin :
  rq_plmn_mcc req = mcc -> rq_plmn_mnc req = mnc -> rq_suci req = mcc ++ mnc ++ msin ->
  length mcc = 3%nat -> length mnc = 2%nat \/ length mnc = 3%nat -> (length msin <= 31)%nat ->
  suci_ok mcc mnc msin = true ->
  exists r n', submit_registration req n = Some (r, n')
    /\ sends n t (registration_request_wire (suci_wire mcc mnc msin) 0 1 7 true) n'.
Proof using Ht Hs.
  intros E1 E2 E3 H1 H2 H3 Hok. unfold submit_registration.
  rewrite E1, E2, E3.
  assert (length (suci_wire mcc mnc msin) = 8 + (length msin + 1) / 2)%nat as Hw
    by (apply length_suci_wire; lia).
  assert (drop (3 + length mnc) (mcc ++ mnc ++ msin) = msin) as Hdrop
    by (rewrite app_assoc; apply drop_app_length'; rewrite length_app; lia).
  assert (registration_identity (Some (mcc ++ mnc ++ msin)) (Some mcc) (Some mnc) None 0
    = Some (Some (over (suci_wire mcc mnc msin) (replicate 64 0%Z), 8 + (length msin + 1) / 2)%nat))
    as Hid.
  { unfold registration_identity.
    rewrite encode_suci_result; rewrite ?Hdrop, ?length_app, ?length_replicate; try lia.
    rewrite Hok. cbn [mbind option_bind]. replace (Z.of_nat _ <? 0) with false by lia.
    by rewrite Nat2Z.id. }
  rewrite (fun Hb => encode_registration_request_result (replicate 256 0) 256 _ _ _ 0 1 _ _ 7 true
    _ _ Hb Hid); [|by rewrite length_replicate|rewrite length_over; rewrite length_replicate; lia|lia|lia].
  replace (256 <?n _) with false by lia. rewrite take_over by done. cbv zeta.
  set (w := registration_request_wire _ _ _ _ _).
  assert (length w = 18 + (length msin + 1) / 2)%nat as Hlw
    by (unfold w, registration_request_wire, lve, nas_header; rewrite !length_app, length_be_list, Hw; simpl; lia).
  destruct (send_encoded_sends w (replicate 256 0) n t Ht Hs) as (pdu & r & t' & Hp & E4 & ->);
    [rewrite length_replicate; lia|lia|].
  cbn [mbind option_bind]. eexists _, _. split; [reflexivity|]. exists pdu, r, t'. auto.
Qed.

Lemma submit_establish_sends req :
  (length (eq_dnn req) < 64)%nat ->
  exists r n', submit_establish req n = Some (r, n')
    /\ er_selected_psi r = session_psi (eq_pdu_session_id req)
    /\ sends n t
         (est_request_wire (session_psi (eq_pdu_session_id req)) (if eq_pti req =? 0 then 1 else eq_pti req)
            (pdu_type_from_string (eq_pdu_type req))
            (if bool_decide (eq_request_type req = UE_SM_PDU_REQUEST_EXISTING) then 2 else 1)
            (eq_dnn req) (eq_s_nssai_sst req)) n'.
Proof using Ht Hs.
  intros Hd. unfold submit_establish.
  rewrite establish_encodes by (apply pdu_type_range || (case_match; lia) || done).
  match goal with |- context [est_request_wire ?a ?b ?c ?d ?e ?f] =>
    pose proof (est_wire_len a b c d e f Hd) as Hl; set (w := est_request_wire a b c d e f) in * end.
  destruct (send_encoded_sends w (replicate 512 0) n t Ht Hs) as (pdu & r & t' & Hpdu & E4 & ->);
    [rewrite length_replicate; lia|lia|].
  cbn [mbind option_bind]. eexists _, _. split; [reflexivity|]. split; [reflexivity|].
  exists pdu, r, t'. auto.
Qed.

Lemma submit_release_sends req :
  exists r n', submit_release req n = Some (r, n')
    /\ sends n t (ul_nas_transport_wire
         [NAS_EPD_5GSM; session_psi (lq_pdu_session_id req); (if lq_pti req =? 0 then 1 else lq_pti req);
          NAS_MSG_PDU_SESSION_RELEASE_REQUEST; 0x59; 0x24] (session_psi (lq_pdu_session_id req))) n'.
Proof using Ht Hs.
  unfold submit_release. rewrite release_encodes. replace (_ =? 0) with false by (case_match; lia).
  cbv zeta. match goal with |- context [ul_nas_transport_wire ?a ?b] =>
    set (w := ul_nas_transport_wire a b) end.
  destruct (send_encoded_sends w (replicate 64 0) n t Ht Hs) as (pdu & r & t' & Hpdu & E4 & ->);
    [rewrite length_replicate; simpl; lia|simpl; lia|].
  cbn [mbind option_bind]. eexists _, _. split; [reflexivity|]. exists pdu, r, t'. auto.
Qed.

(** A SUCI that the encoder refuses, one with an odd number of MSIN digits for
    example: nothing is sent. *)
Lemma submit_registration_odd req mcc mnc msin :
  rq_plmn_mcc req = mcc -> rq_plmn_mnc req = mnc -> rq_suci req = mcc ++ mnc ++ msin ->
  length mcc = 3%nat -> length mnc = 2%nat \/ length mnc = 3%nat -> (length msin <= 31)%nat ->
  suci_ok mcc mnc msin = false ->
  exists r, submit_registration req n = Some (r, n) /\ rr_submitted r = true.
Proof.
  intros E1 E2 E3 H1 H2 H3 Hodd. unfold submit_registration.
  assert (drop (3 + length mnc) (mcc ++ mnc ++ msin) = msin) as Hdrop
    by (rewrite app_assoc; apply drop_app_length'; rewrite length_app; lia).
  unfold ue_nas_encode_registration_request, run_w, registration_identity. rewrite E1, E2, E3.
  rewrite encode_suci_result; rewrite ?Hdrop, ?length_app, ?length_replicate; try lia.
  rewrite Hodd. cbn [mbind option_bind].
  eexists. split; reflexivity.
Qed.
End Sends.
End Adapter.

(** ** Claims *)

(** What reaches the transport.  With a transport and a valid (or no)
    security context, each submission hands it one PDU on UL-DCCH: the RRC UL
    Information Transfer, bit for bit and zero padded, of the NAS message built
    from the request, sealed under the current uplink COUNT when security is
    active (the COUNT then advances).  The registration is for a SUCI of an even
    number of digits. *)
Lemma submissions_send `{SafeSender T} (n : net_adapter T) t :
  g_transport n = Some t -> net_ok n ->
  (forall req mcc mnc msin,
     rq_plmn_mcc req = mcc -> rq_plmn_mnc req = mnc -> rq_suci req = mcc ++ mnc ++ msin ->
     length mcc = 3%nat -> length mnc = 2%nat \/ length mnc = 3%nat -> (length msin <= 31)%nat ->
     suci_ok mcc mnc msin = true ->
     exists r n', submit_registration req n = Some (r, n')
       /\ sends n t (registration_request_wire (suci_wire mcc mnc msin) 0 1 7 true) n')
  /\ (forall req, (length (eq_dnn req) < 64)%nat ->
     exists r n', submit_establish req n = Some (r, n')
       /\ er_selected_psi r = session_psi (eq_pdu_session_id req)
       /\ sends n t
            (est_request_wire (session_psi (eq_pdu_session_id req)) (if eq_pti req =? 0 then 1 else eq_pti req)
               (pdu_type_from_string (eq_pdu_type req))
               (if bool_decide (eq_request_type req = UE_SM_PDU_REQUEST_EXISTING) then 2 else 1)
               (eq_dnn req) (eq_s_nssai_sst req)) n')
  /\ (forall req,
     exists r n', submit_release req n = Some (r, n')
       /\ sends n t (ul_nas_transport_wire
            [NAS_EPD_5GSM; session_psi (lq_pdu_session_id req); (if lq_pti req =? 0 then 1 else lq_pti req);
             NAS_MSG_PDU_SESSION_RELEASE_REQUEST; 0x59; 0x24]
            (session_psi (lq_pdu_session_id req))) n').
Proof.
  intros Ht Hs. split; [|split].
  - intros req mcc mnc msin. by apply submit_registration_sends.
  - intros req. by apply submit_establish_sends.
  - intros req. by apply submit_release_sends.
Qed.

(** A registration that cannot be sent still counts as submitted.  For an
    IMSI with an odd number of MSIN digits the encoder fails, nothing reaches
    the transport, and the result says submitted: from SEARCHING the machine
    goes to REGISTERING and waits for an answer to a request it never sent. *)
Lemma unsent_registration_submitted `{SafeSender T} (n : net_adapter T) mm mcc mnc msin :
  mm_reachable (mm, n) -> mm_state mm = UE_MM_SEARCHING ->
  mm_mcc mm = mcc -> mm_mnc mm = mnc -> mm_imsi mm = mcc ++ mnc ++ msin ->
  length mcc = 3%nat -> length mnc = 2%nat \/ length mnc = 3%nat -> (length msin <= 25)%nat ->
  Nat.even (length msin) = false ->
  exists mm', ue_mm_on_cell_found mm n = Some (mm', n)
    /\ mm_state mm' = UE_MM_REGISTERING
    /\ mm_proc_step mm' = UE_MM_STEP_WAIT_REGISTRATION_RESPONSE.
Proof.
  intros Hr Hs Hmcc Hmnc Hi H1 H2 H3 Hodd.
  destruct (mm_reachable_ok _ Hr) as [Hp _ _ _]. cbn [fst] in Hp.
  unfold mm_phase_ok in Hp. rewrite Hs in Hp. destruct Hp as (_ & Hst & Hq).
  assert (forall k s, (length s < k)%nat -> strcpy_n k s = s) as Hcp
    by (intros; unfold strcpy_n; apply take_ge; lia).
  destruct (submit_registration_odd n (mm_build_registration_request mm) mcc mnc msin)
    as (r & E & Hsub); try done.
  - change (strcpy_n 8 (mm_mcc mm) = mcc). rewrite Hmcc. apply Hcp. lia.
  - change (strcpy_n 8 (mm_mnc mm) = mnc). rewrite Hmnc. apply Hcp. lia.
  - change (strcpy_n 32 (mm_imsi mm) = mcc ++ mnc ++ msin). rewrite Hi. apply Hcp. rewrite !length_app. lia.
  - lia.
  - unfold suci_ok. by rewrite Hodd, andb_false_r.
  - unfold ue_mm_on_cell_found. rewrite Hs, Hst, Hq.
    change (ue_network_mm_submit_registration (mm_build_registration_request mm) n)
      with (submit_registration (mm_build_registration_request mm) n).
    rewrite E. cbn [mbind option_bind].
    pose proof (mm_submit_accepts (N := net_adapter T) _ _ _ _ E) as [_ Hacc].
    unfold mm_handle_registration_submit_result. rewrite Hsub, Hacc.
    destruct mm. mm_red. subst. mm_case. eexists. split; [reflexivity|]. done.
Qed.

(** ** Witnesses *)

(** A transport that records what it is given. *)
#[local] Instance recording_sender : RanSender (list bytes) := {|
  ue_ran_transport_send_nas_pdu t pdu _ := Some (0, t ++ [pdu]) |}.
#[local] Instance recording_safe : SafeSender (list bytes).
Proof. refine {| sender_ok := fun _ => True |}. intros t pdu ch _. eauto. Defined.

Definition test_adapter : net_adapter (list bytes) := NetAdapter (Some []) None.

Example submissions_send_example :
  exists r n', submit_registration
      (MmRegRequest 1 UE_MM_REG_INITIAL UE_MM_REG_TRIGGER_EXPLICIT_REQUEST true
         (str "00101" ++ str "0000000001") (str "001") (str "01")) test_adapter = Some (r, n')
    /\ sends test_adapter []
         (registration_request_wire (suci_wire (str "001") (str "01") (str "0000000001")) 0 1 7 true)
         n'.
Proof.
  apply (proj1 (submissions_send test_adapter [] eq_refl ltac:(split; exact I)) _ (str "001") (str "01")
           (str "0000000001")); try reflexivity; [by left|simpl; lia].
Defined.

Definition odd_searching : ue_mm_ctx :=
  ue_mm_request_register (ue_mm_set_profile (ue_mm_init mm_blank true true)
    (Some (str "00101000000001")) (Some (str "001")) (Some (str "01"))).

Example unsent_registration_submitted_example :
  exists mm', ue_mm_on_cell_found odd_searching test_adapter = Some (mm', test_adapter)
    /\ mm_state mm' = UE_MM_REGISTERING.
Proof.
  assert (mm_reachable (odd_searching, test_adapter)) as Hr.
  { eapply reach_step; [eapply reach_step; [apply reach_init|apply st_profile]|apply st_register]. }
  destruct (unsent_registration_submitted test_adapter odd_searching (str "001") (str "01")
    (str "000000001") Hr) as (mm' & E & Hm & _); try reflexivity; [by left|simpl; lia|].
  exists mm'. split; [exact E|exact Hm].
Defined.
