(* ===== verification/RanTransport.v ===== *)
(** The RAN transport: [src/src/ue_engine/ue_ran_transport.c].

    The context is a record: the link state, the configured gNBs, the table of
    cells learned from heartbeat acknowledgements, the two receive rings, the
    PDU ids to acknowledge and the counters.  Each function that takes a lock
    for its whole body is one atomic operation.

    The network is outside: [sendto] and the address resolvers are parameters,
    [net_trace] records every [sendto] call with its destination and datagram,
    and the datagrams a tick receives are an argument of it. *)

From S2P Require Import Prelude Rls UeTypes.

#[local] Set Primitive Projections.

Definition UE_RAN_DEFAULT_RLS_PORT : Z := 4997.
Definition UE_RAN_DEFAULT_HB_INTERVAL : Z := 1000.
Definition UE_RAN_DEFAULT_HB_TIMEOUT : Z := 2000.
Definition UE_RAN_ACK_SEND_INTERVAL : Z := 2250.
Definition UE_RAN_TRANSPORT_MAX_GNB : nat := 8.
Definition UE_RAN_TRANSPORT_MAX_CELLS : nat := 16.
Definition UE_RAN_RX_QUEUE_SIZE : nat := 32.
Definition UE_RAN_RX_PDU_MAX : Z := 8192.
Definition UE_RAN_PENDING_ACK_MAX : nat := 64.

Inductive ue_ran_transport_state :=
| UE_RAN_TRANSPORT_IDLE | UE_RAN_TRANSPORT_SEARCHING
| UE_RAN_TRANSPORT_CONNECTED | UE_RAN_TRANSPORT_LOST.
#[export] Instance ue_ran_transport_state_eq_dec : EqDecision ue_ran_transport_state.
Proof. solve_decision. Defined.

(** The fields of a [struct sockaddr] that the code reads, with its length. *)
Record sockaddr := SockAddr { sa_family : Z; sin_addr : Z; sin_port : Z; sa_len : Z }.
Definition AF_INET : Z := 2.

Record ue_ran_gnb_endpoint := GnbEndpoint { gnb_address : bytes; gnb_port : Z }.

Record ue_ran_cell_info := CellInfo {
  cell_valid : bool; cell_sti : Z; cell_id : Z; cell_dbm : Z; cell_last_seen_ms : Z;
  cell_addr : sockaddr; cell_addr_len : Z }.

Record ue_ran_rx_entry := RxEntry {
  rx_valid : bool; rx_pdu_type : Z; rx_psi : Z; rx_rrc_channel : Z; rx_data : bytes;
  rx_len : Z }.

(** A ring: its slots, the index of the oldest entry and the first free one. *)
Record rx_ring := RxRing { q_slots : list ue_ran_rx_entry; q_head : nat; q_tail : nat }.

Record ue_ran_transport_ctx := RanCtx {
  rt_state : ue_ran_transport_state;
  rt_gnb_list : list ue_ran_gnb_endpoint;
  rt_cells : list ue_ran_cell_info;
  rt_cell_count : Z;
  rt_serving_cell_id : Z;
  rt_next_cell_id : Z;
  rt_sti : Z;
  rt_socket_fd : Z;
  rt_last_heartbeat_ms : Z;
  rt_heartbeat_interval_ms : Z;
  rt_heartbeat_timeout_ms : Z;
  rt_next_pdu_id : Z;
  rt_nas_queue : rx_ring;
  rt_data_queue : rx_ring;
  rt_pending_ack_ids : list Z;
  rt_last_ack_send_ms : Z;
  rt_tx_pdu_count : Z; rt_rx_pdu_count : Z; rt_tx_bytes : Z; rt_rx_bytes : Z;
  net_trace : list (sockaddr * bytes) }.

Abbreviation is_rt s t := (bool_decide (rt_state t = s)).

(** ** Queue helpers *)

Definition zero_entry : ue_ran_rx_entry := RxEntry false 0 0 0 (replicate (Z.to_nat UE_RAN_RX_PDU_MAX) 0) 0.

Definition rx_queue_full (head tail : nat) : bool :=
  ((tail + 1) mod UE_RAN_RX_QUEUE_SIZE =? head)%nat.
Definition rx_queue_empty (head tail : nat) : bool := (head =? tail)%nat.

(** The slot taken is cleared, then filled by the caller with [fill]. *)
Definition rx_queue_push (fill : ue_ran_rx_entry -> ue_ran_rx_entry) (q : rx_ring) : rx_ring :=
  RxRing (<[q_tail q := fill (zero_entry <| rx_valid := true |>)]> (q_slots q)) (q_head q)
    ((q_tail q + 1) mod UE_RAN_RX_QUEUE_SIZE)%nat.

Definition rx_queue_peek (q : rx_ring) : option ue_ran_rx_entry :=
  if rx_queue_empty (q_head q) (q_tail q) then None else q_slots q !! q_head q.

Definition rx_queue_pop (q : rx_ring) : rx_ring :=
  RxRing (q_slots q) ((q_head q + 1) mod UE_RAN_RX_QUEUE_SIZE)%nat (q_tail q).

Definition rx_queue_reset (q : rx_ring) : rx_ring := RxRing (q_slots q) 0 0.

(** ** Cells *)

Definition zero_addr : sockaddr := SockAddr 0 0 0 0.
Definition zero_cell : ue_ran_cell_info := CellInfo false 0 0 0 0 zero_addr 0.
Definition no_cells : list ue_ran_cell_info := replicate UE_RAN_TRANSPORT_MAX_CELLS zero_cell.

(** The index of the cell, which stands for the pointer to it. *)
Definition find_cell_by_sti (t : ue_ran_transport_ctx) (sti : Z) : option nat :=
  fst <$> list_find (fun c => Is_true (cell_valid c && (cell_sti c =? sti))) (rt_cells t).
Definition find_cell_by_id (t : ue_ran_transport_ctx) (id : Z) : option nat :=
  fst <$> list_find (fun c => Is_true (cell_valid c && (cell_id c =? id))) (rt_cells t).

(** [next_cell_id] is an [int]: it counts the cells discovered since the
    context was initialised. *)
Definition alloc_cell (t : ue_ran_transport_ctx) : option (nat * ue_ran_transport_ctx) :=
  '(i, _) ← list_find (fun c => Is_true (negb (cell_valid c))) (rt_cells t);
  Some (i, t <| rt_cells := <[i := zero_cell <| cell_valid := true |>
                                             <| cell_id := rt_next_cell_id t |>]> (rt_cells t) |>
             <| rt_next_cell_id := rt_next_cell_id t + 1 |>
             <| rt_cell_count := rt_cell_count t + 1 |>).

(** The pair of the best level so far and its cell. *)
Definition select_step (best : Z * Z) (c : ue_ran_cell_info) : Z * Z :=
  if cell_valid c && (best.1 <? cell_dbm c) then (cell_dbm c, cell_id c) else best.
Definition select_best_serving_cell (t : ue_ran_transport_ctx) : ue_ran_transport_ctx :=
  t <| rt_serving_cell_id := (foldl select_step (-999, -1) (rt_cells t)).2 |>.

Definition cell_expired (t : ue_ran_transport_ctx) (now_ms : Z) (c : ue_ran_cell_info) : bool :=
  cell_valid c && (rt_heartbeat_timeout_ms t <? u64 (now_ms - cell_last_seen_ms c)).

Definition expire_cells (t : ue_ran_transport_ctx) (now_ms : Z) : ue_ran_transport_ctx :=
  let gone := cell_expired t now_ms in
  let serving_lost := existsb (fun c => gone c && (cell_id c =? rt_serving_cell_id t)) (rt_cells t) in
  let n := length (List.filter gone (rt_cells t)) in
  let t := t <| rt_cells := map (fun c => if gone c then c <| cell_valid := false |> else c)
                                (rt_cells t) |>
             <| rt_cell_count := rt_cell_count t - Z.of_nat n |> in
  if serving_lost then
    let t := select_best_serving_cell t in
    if rt_serving_cell_id t <? 0 then t <| rt_state := UE_RAN_TRANSPORT_LOST |> else t
  else t.

(** ** Configuration *)

(** [rand] is a parameter, called twice. *)
Definition make_sti (r1 r2 : Z) : Z := (u32 r1 ≪ 32) |. u32 r2.

Definition empty_ring : rx_ring := RxRing (replicate UE_RAN_RX_QUEUE_SIZE zero_entry) 0 0.

Definition ue_ran_transport_init (r1 r2 : Z) (trace : list (sockaddr * bytes))
    : ue_ran_transport_ctx :=
  RanCtx UE_RAN_TRANSPORT_IDLE [] no_cells 0 (-1) 1 (make_sti r1 r2) (-1) 0
    UE_RAN_DEFAULT_HB_INTERVAL UE_RAN_DEFAULT_HB_TIMEOUT 1 empty_ring empty_ring [] 0
    0 0 0 0 trace.

Definition ue_ran_transport_refresh_sti (t : ue_ran_transport_ctx) (r1 r2 : Z)
    : ue_ran_transport_ctx := t <| rt_sti := make_sti r1 r2 |>.

Definition ue_ran_transport_add_gnb (t : ue_ran_transport_ctx) (address : option bytes) (port : Z)
    : Z * ue_ran_transport_ctx :=
  match address with
  | None => (-1, t)
  | Some address =>
    if UE_RAN_TRANSPORT_MAX_GNB <=?n length (rt_gnb_list t) then (-1, t) else
    (0, t <| rt_gnb_list := rt_gnb_list t ++
              [GnbEndpoint (strcpy_n 64 address)
                 (if port =? 0 then UE_RAN_DEFAULT_RLS_PORT else port)] |>)
  end.

Fixpoint add_gnbs (t : ue_ran_transport_ctx) (addresses : list (option bytes)) (port : Z)
    : Z * ue_ran_transport_ctx :=
  match addresses with
  | [] => (0, t)
  | a :: rest =>
    let '(r, t) := ue_ran_transport_add_gnb t a
                     (if port =? 0 then UE_RAN_DEFAULT_RLS_PORT else port) in
    if r <? 0 then (-1, t) else add_gnbs t rest port
  end.

(** [count] is the length of the array. *)
Definition ue_ran_transport_configure (t : ue_ran_transport_ctx)
    (gnb_addresses : option (list (option bytes))) (default_port : Z) : Z * ue_ran_transport_ctx :=
  match gnb_addresses with
  | None | Some [] => (-1, t)
  | Some l => add_gnbs t (take UE_RAN_TRANSPORT_MAX_GNB l) default_port
  end.

(** [fd] is the non-blocking socket, negative when opening it failed.  The two
    long-lived threads are not part of the context. *)
Definition ue_ran_transport_start (t : ue_ran_transport_ctx) (fd : Z) : Z * ue_ran_transport_ctx :=
  match rt_gnb_list t with
  | [] => (-1, t)
  | _ =>
    if fd <? 0 then (-1, t) else
    (0, t <| rt_last_heartbeat_ms := 0 |> <| rt_last_ack_send_ms := 0 |>
          <| rt_pending_ack_ids := [] |> <| rt_data_queue := rx_queue_reset (rt_data_queue t) |>
          <| rt_nas_queue := rx_queue_reset (rt_nas_queue t) |>
          <| rt_cells := no_cells |> <| rt_cell_count := 0 |> <| rt_serving_cell_id := -1 |>
          <| rt_socket_fd := fd |> <| rt_state := UE_RAN_TRANSPORT_SEARCHING |>)
  end.

Definition ue_ran_transport_stop (t : ue_ran_transport_ctx) : ue_ran_transport_ctx :=
  t <| rt_socket_fd := -1 |> <| rt_state := UE_RAN_TRANSPORT_IDLE |>
    <| rt_cells := no_cells |> <| rt_cell_count := 0 |> <| rt_serving_cell_id := -1 |>
    <| rt_nas_queue := rx_queue_reset (rt_nas_queue t) |>
    <| rt_data_queue := rx_queue_reset (rt_data_queue t) |> <| rt_pending_ack_ids := [] |>.

Definition htons (x : Z) : Z := u16 (x ≪ 8) |. (u16 x ≫ 8).
Definition sa_in_equal (a b : sockaddr) : bool :=
  if negb (sa_family a =? AF_INET) || negb (sa_family b =? AF_INET) then false
  else (sin_addr a =? sin_addr b) && (sin_port a =? sin_port b).

(** The bytes an encoder wrote, with its result. *)
Definition tx_size : nat := Z.to_nat (16384 + 64).
Definition tx_buf : option bytes := Some (replicate tx_size 0).
Definition encoded (enc : option (Z * option bytes)) : option (Z * bytes) :=
  '(n, buf) ← enc; buf ← buf; Some (n, take (Z.to_nat n) buf).

(** [(uint32_t)len]. *)
Definition len32 (l : bytes) : nat := Z.to_nat (u32 (Z.of_nat (length l))).

(** What one [recvfrom] gives: a datagram with its source, nothing to read, or
    an error. *)
Inductive recv_result :=
| RecvData (datagram : bytes) (peer : sockaddr) | RecvWouldBlock | RecvError.

Section Network.
(** The result of the [k]-th [sendto], and the two resolvers. *)
Variable sendto : nat -> sockaddr -> bytes -> Z.
Variable inet_pton : bytes -> option Z.
Variable getaddrinfo : bytes -> option sockaddr.

Definition resolve_endpoint (address : bytes) (port : Z) : option sockaddr :=
  match inet_pton address with
  | Some a => Some (SockAddr AF_INET a (htons port) 16)
  | None =>
    match getaddrinfo address with
    | Some sa => Some (SockAddr (sa_family sa) (sin_addr sa) (htons port) (sa_len sa))
    | None => None
    end
  end.

Definition send_to_addr (t : ue_ran_transport_ctx) (addr : sockaddr) (data : bytes)
    : Z * ue_ran_transport_ctx :=
  if rt_socket_fd t <? 0 then (-1, t) else
  let rc := sendto (length (net_trace t)) addr data in
  let t := t <| net_trace := net_trace t ++ [(addr, data)] |> in
  if rc <? 0 then (-1, t) else (0, t <| rt_tx_bytes := u64 (rt_tx_bytes t + rc) |>).

Definition send_to_cell (t : ue_ran_transport_ctx) (cell : ue_ran_cell_info) (data : bytes)
    : Z * ue_ran_transport_ctx :=
  if (rt_socket_fd t <? 0) || (cell_addr_len cell =? 0) then (-1, t)
  else send_to_addr t (cell_addr cell) data.

Fixpoint send_heartbeat_each (gnbs : list ue_ran_gnb_endpoint) (t : ue_ran_transport_ctx)
    : option ue_ran_transport_ctx :=
  match gnbs with
  | [] => Some t
  | g :: gnbs =>
    match resolve_endpoint (gnb_address g) (gnb_port g) with
    | None => send_heartbeat_each gnbs t
    | Some ss =>
      '(enc_len, data) ← encoded (ue_rls_encode_heartbeat tx_buf tx_size (rt_sti t) 0 0 0);
      if enc_len <=? 0 then send_heartbeat_each gnbs t
      else send_heartbeat_each gnbs (send_to_addr t ss data).2
    end
  end.

Definition send_heartbeats (t : ue_ran_transport_ctx) (now_ms : Z) : option ue_ran_transport_ctx :=
  t ← send_heartbeat_each (rt_gnb_list t) t; Some (t <| rt_last_heartbeat_ms := now_ms |>).

Definition clear_acks (t : ue_ran_transport_ctx) (now_ms : Z) : ue_ran_transport_ctx :=
  t <| rt_pending_ack_ids := [] |> <| rt_last_ack_send_ms := now_ms |>.

Definition send_pending_acks (t : ue_ran_transport_ctx) (now_ms : Z)
    : option ue_ran_transport_ctx :=
  match rt_pending_ack_ids t with
  | [] => Some t
  | ids =>
    match find_cell_by_id t (rt_serving_cell_id t) with
    | None => Some (clear_acks t now_ms)
    | Some i =>
      cell ← rt_cells t !! i;
      '(enc_len, data) ← encoded (ue_rls_encode_pdu_ack tx_buf tx_size (rt_sti t) ids (length ids));
      Some (clear_acks (if 0 <? enc_len then (send_to_cell t cell data).2 else t) now_ms)
    end
  end.

(** The serving cell's address, as the senders snapshot it. *)
Definition serving_addr (t : ue_ran_transport_ctx) : option sockaddr :=
  i ← find_cell_by_id t (rt_serving_cell_id t);
  cell ← rt_cells t !! i;
  if (0 <? cell_addr_len cell) && (cell_addr_len cell <=? 128) then Some (cell_addr cell) else None.

Definition rt_send_nas_pdu (t : ue_ran_transport_ctx) (pdu : bytes) (rrc_channel : Z)
    : option (Z * ue_ran_transport_ctx) :=
  if (length pdu =?n 0) then Some (-1, t) else
  if negb (is_rt UE_RAN_TRANSPORT_CONNECTED t) || (rt_serving_cell_id t <? 0) then Some (-1, t) else
  match serving_addr t with
  | None => Some (-1, t)
  | Some addr =>
    let id := rt_next_pdu_id t in
    let t := t <| rt_next_pdu_id := u32 (id + 1) |> in
    '(enc_len, data) ← encoded (ue_rls_encode_pdu_transmission tx_buf tx_size (rt_sti t)
                                  UE_RLS_PDU_TYPE_RRC id rrc_channel (Some pdu) (len32 pdu));
    if enc_len <=? 0 then Some (-1, t) else
    let '(r, t) := send_to_addr t addr data in
    if r <? 0 then Some (-1, t) else Some (0, t <| rt_tx_pdu_count := u64 (rt_tx_pdu_count t + 1) |>)
  end.

Definition ue_ran_transport_send_data_pdu (t : ue_ran_transport_ctx) (psi : Z) (data : bytes)
    : option (Z * ue_ran_transport_ctx) :=
  if (length data =?n 0) then Some (-1, t) else
  if (psi <? 1) || (15 <? psi) then Some (-1, t) else
  if negb (is_rt UE_RAN_TRANSPORT_CONNECTED t) || (rt_serving_cell_id t <? 0) then Some (-1, t) else
  match serving_addr t with
  | None => Some (-1, t)
  | Some addr =>
    '(enc_len, dgram) ← encoded (ue_rls_encode_pdu_transmission tx_buf tx_size (rt_sti t)
                                   UE_RLS_PDU_TYPE_DATA 0 psi (Some data) (len32 data));
    if enc_len <=? 0 then Some (-1, t) else
    let '(r, t) := send_to_addr t addr dgram in
    if r <? 0 then Some (-1, t) else Some (0, t <| rt_tx_pdu_count := u64 (rt_tx_pdu_count t + 1) |>)
  end.

(** ** Received messages *)

Definition handle_heartbeat_ack (t : ue_ran_transport_ctx) (ack : ue_rls_heartbeat_ack)
    (peer : sockaddr) (now_ms : Z) : ue_ran_transport_ctx :=
  let found :=
    match find_cell_by_sti t (ha_sti ack) with
    | Some i => Some (i, t)
    | None =>
      match alloc_cell t with
      | Some (i, t) =>
        Some (i, t <| rt_cells := alter (fun c => c <| cell_sti := ha_sti ack |>) i (rt_cells t) |>)
      | None => None
      end
    end in
  match found with
  | None => t
  | Some (i, t) =>
    let t := t <| rt_cells := alter (fun c =>
               c <| cell_dbm := ha_dbm ack |> <| cell_last_seen_ms := now_ms |>
                 <| cell_addr := peer |> <| cell_addr_len := sa_len peer |>) i (rt_cells t) |> in
    select_best_serving_cell t
  end.

(** Copies at most [UE_RAN_RX_PDU_MAX] bytes of the PDU into a slot. *)
Definition fill_entry (pdu_type psi channel : Z) (data : bytes) (len : Z) (e : ue_ran_rx_entry)
    : ue_ran_rx_entry :=
  e <| rx_pdu_type := pdu_type |> <| rx_psi := psi |> <| rx_rrc_channel := channel |>
    <| rx_len := len |> <| rx_data := data ++ drop (length data) (rx_data e) |>.

Definition track_ack (id : Z) (ids : list Z) : list Z :=
  if negb (id =? 0) && (length ids <?n UE_RAN_PENDING_ACK_MAX) then ids ++ [id] else ids.

Definition handle_pdu_transmission (t : ue_ran_transport_ctx) (pdu : ue_rls_pdu_transmission)
    : option ue_ran_transport_ctx :=
  let t := t <| rt_rx_pdu_count := u64 (rt_rx_pdu_count t + 1) |>
             <| rt_rx_bytes := u64 (rt_rx_bytes t + pt_pdu_len pdu) |> in
  let t := t <| rt_pending_ack_ids := track_ack (pt_pdu_id pdu) (rt_pending_ack_ids t) |> in
  let len := if pt_pdu_len pdu <=? UE_RAN_RX_PDU_MAX then pt_pdu_len pdu else UE_RAN_RX_PDU_MAX in
  let copied := match pt_pdu pdu with
                | Some p => if 0 <? len then slice p 0 (Z.to_nat len) else Some []
                | None => Some []
                end in
  if pt_pdu_type pdu =? UE_RLS_PDU_TYPE_RRC then
    let q := rt_nas_queue t in
    if rx_queue_full (q_head q) (q_tail q) then Some t else
    data ← copied;
    Some (t <| rt_nas_queue :=
      rx_queue_push (fill_entry UE_RLS_PDU_TYPE_RRC 0 (pt_payload pdu) data len) q |>)
  else if pt_pdu_type pdu =? UE_RLS_PDU_TYPE_DATA then
    let q := rt_data_queue t in
    if rx_queue_full (q_head q) (q_tail q) then Some t else
    data ← copied;
    Some (t <| rt_data_queue :=
      rx_queue_push (fill_entry UE_RLS_PDU_TYPE_DATA (s32 (pt_payload pdu)) 0 data len) q |>)
  else Some t.

Definition peer_is_known (t : ue_ran_transport_ctx) (sa : sockaddr) : bool :=
  existsb (fun c => cell_valid c && (0 <? cell_addr_len c) && sa_in_equal (cell_addr c) sa)
    (rt_cells t)
  || existsb (fun g => match resolve_endpoint (gnb_address g) (gnb_port g) with
                       | Some ss => sa_in_equal ss sa | None => false end) (rt_gnb_list t).

(** One datagram, and whether it counts as an event. *)
Definition receive_one (t : ue_ran_transport_ctx) (dgram : bytes) (peer : sockaddr) (now_ms : Z)
    : option (Z * ue_ran_transport_ctx) :=
  let t := t <| rt_rx_bytes := u64 (rt_rx_bytes t + Z.of_nat (length dgram)) |> in
  if negb (peer_is_known t peer) then Some (0, t) else
  msg ← ue_rls_decode (Some dgram) (length dgram);
  match msg with
  | None => Some (0, t)
  | Some (RlsHeartbeatAck ack) => Some (1, handle_heartbeat_ack t ack peer now_ms)
  | Some (RlsPduTx pdu) => t ← handle_pdu_transmission t pdu; Some (1, t)
  | Some (RlsPduAck _) => Some (1, t)
  | Some (RlsHeartbeat _) => Some (0, t)
  end.

(** [k] is [max_per_tick]; an empty inbox would block. *)
Fixpoint receive_loop (k : nat) (inbox : list recv_result) (t : ue_ran_transport_ctx)
    (now_ms events : Z) : option (Z * ue_ran_transport_ctx) :=
  match k with
  | O => Some (events, t)
  | S k =>
    match inbox with
    | [] | RecvWouldBlock :: _ => Some (events, t)
    | RecvError :: _ => Some (-1, t)
    | RecvData dgram peer :: inbox =>
      let dgram := take tx_size dgram in
      if (length dgram =?n 0) then Some (events, t) else
      '(e, t) ← receive_one t dgram peer now_ms;
      receive_loop k inbox t now_ms (events + e)
    end
  end.

Definition receive_pending (t : ue_ran_transport_ctx) (inbox : list recv_result) (now_ms : Z)
    : option (Z * ue_ran_transport_ctx) :=
  if rt_socket_fd t <? 0 then Some (0, t) else receive_loop 64 inbox t now_ms 0.

Definition state_transition (t : ue_ran_transport_ctx) : ue_ran_transport_ctx :=
  if is_rt UE_RAN_TRANSPORT_SEARCHING t && (0 <=? rt_serving_cell_id t)
  then t <| rt_state := UE_RAN_TRANSPORT_CONNECTED |>
  else if is_rt UE_RAN_TRANSPORT_CONNECTED t && (rt_serving_cell_id t <? 0)
  then t <| rt_state := UE_RAN_TRANSPORT_LOST |>
  else if is_rt UE_RAN_TRANSPORT_LOST t && (0 <=? rt_serving_cell_id t)
  then t <| rt_state := UE_RAN_TRANSPORT_CONNECTED |>
  else t.

Definition ue_ran_transport_tick (t : ue_ran_transport_ctx) (inbox : list recv_result) (now_ms : Z)
    : option (Z * ue_ran_transport_ctx) :=
  if is_rt UE_RAN_TRANSPORT_IDLE t then Some (0, t) else
  let t := expire_cells t now_ms in
  '(events, t) ← (if (rt_last_heartbeat_ms t =? 0)
                     || (rt_heartbeat_interval_ms t <=? u64 (now_ms - rt_last_heartbeat_ms t))
                  then t ← send_heartbeats t now_ms; Some (1, t) else Some (0, t));
  '(rx, t) ← receive_pending t inbox now_ms;
  if rx <? 0 then Some (-1, t) else
  t ← (if (0 <?n length (rt_pending_ack_ids t))
          && ((rt_last_ack_send_ms t =? 0)
              || (UE_RAN_ACK_SEND_INTERVAL <=? u64 (now_ms - rt_last_ack_send_ms t)))
       then send_pending_acks t now_ms else Some t);
  Some (events + rx, state_transition t).
End Network.

(** ** Dequeuing and queries *)

(** The C result, the caller's buffer, the channel and the context. *)
Definition ue_ran_transport_recv_nas_pdu (t : ue_ran_transport_ctx) (buf : option bytes)
    (buf_len : nat) : option (Z * option bytes * option Z * ue_ran_transport_ctx) :=
  match buf with
  | None => Some (-1, buf, None, t)
  | Some b =>
    if (buf_len =?n 0) then Some (-1, buf, None, t) else
    match rx_queue_peek (rt_nas_queue t) with
    | None => Some (0, buf, None, t)
    | Some e =>
      let copy_len := if rx_len e <=? u32 (Z.of_nat buf_len) then rx_len e
                      else u32 (Z.of_nat buf_len) in
      data ← slice (rx_data e) 0 (Z.to_nat copy_len);
      if length b <?n length data then None else
      Some (copy_len, Some (over data b), Some (rx_rrc_channel e),
            t <| rt_nas_queue := rx_queue_pop (rt_nas_queue t) |>)
    end
  end.

Definition ue_ran_transport_recv_data_pdu (t : ue_ran_transport_ctx) (buf : option bytes)
    (buf_len : nat) : option (Z * option bytes * option Z * ue_ran_transport_ctx) :=
  match buf with
  | None => Some (-1, buf, None, t)
  | Some b =>
    if (buf_len =?n 0) then Some (-1, buf, None, t) else
    match rx_queue_peek (rt_data_queue t) with
    | None => Some (0, buf, None, t)
    | Some e =>
      let copy_len := if rx_len e <=? u32 (Z.of_nat buf_len) then rx_len e
                      else u32 (Z.of_nat buf_len) in
      data ← slice (rx_data e) 0 (Z.to_nat copy_len);
      if length b <?n length data then None else
      Some (copy_len, Some (over data b), Some (rx_psi e),
            t <| rt_data_queue := rx_queue_pop (rt_data_queue t) |>)
    end
  end.

Definition ue_ran_transport_is_connected (t : ue_ran_transport_ctx) : bool :=
  is_rt UE_RAN_TRANSPORT_CONNECTED t.

Definition ue_ran_transport_serving_cell_dbm (t : ue_ran_transport_ctx) : Z :=
  if rt_serving_cell_id t <? 0 then -999 else
  match list_find (fun c => Is_true (cell_valid c && (cell_id c =? rt_serving_cell_id t)))
          (rt_cells t) with
  | Some (_, c) => cell_dbm c
  | None => -999
  end.

(** ** The rings as queues

    [ring_list] is the sequence of entries from the oldest to the newest. *)
Record ring_ok (q : rx_ring) : Prop := {
  ring_slots : length (q_slots q) = UE_RAN_RX_QUEUE_SIZE;
  ring_head : (q_head q < UE_RAN_RX_QUEUE_SIZE)%nat;
  ring_tail : (q_tail q < UE_RAN_RX_QUEUE_SIZE)%nat }.

Definition ring_used (q : rx_ring) : nat :=
  ((q_tail q + UE_RAN_RX_QUEUE_SIZE - q_head q) mod UE_RAN_RX_QUEUE_SIZE)%nat.
#[export] Instance rx_entry_inhabited : Inhabited ue_ran_rx_entry := populate zero_entry.
Definition ring_slot (q : rx_ring) (k : nat) : ue_ran_rx_entry :=
  q_slots q !!! ((q_head q + k) mod UE_RAN_RX_QUEUE_SIZE)%nat.
Definition ring_list (q : rx_ring) : list ue_ran_rx_entry := ring_slot q <$> seq 0 (ring_used q).

Lemma wrap32 a b :
  (a < 32)%nat -> (b < 32)%nat ->
  ((a + b) mod 32 = if a + b <? 32 then a + b else a + b - 32)%nat.
Proof.
  intros. destruct (a + b <? 32)%nat eqn:E; [apply Nat.mod_small; lia|].
  rewrite <- (Nat.mod_small (a + b - 32) 32) by lia.
  rewrite <- (Nat.Div0.mod_add (a + b - 32) 1). f_equal. lia.
Qed.

Lemma ring_used_eq q :
  ring_ok q ->
  ring_used q = (if q_head q <=? q_tail q then q_tail q - q_head q
                 else q_tail q + 32 - q_head q)%nat.
Proof.
  intros [_ Hh Ht]. unfold ring_used, UE_RAN_RX_QUEUE_SIZE in *.
  replace (q_tail q + 32 - q_head q)%nat with (q_tail q + (32 - q_head q))%nat by lia.
  destruct (q_head q) as [|h]; [|rewrite wrap32 by lia; destruct (_ <? _)%nat eqn:?, (_ <=? _)%nat eqn:?; lia].
  cbn [Nat.leb]. rewrite Nat.sub_0_r. replace (q_tail q + 32)%nat with (q_tail q + 1 * 32)%nat by lia.
  rewrite Nat.Div0.mod_add, Nat.mod_small; lia.
Qed.

Ltac ring_lia :=
  repeat (match goal with
          | |- context [if ?c then _ else _] => destruct c eqn:?
          | H : context [if ?c then _ else _] |- _ => destruct c eqn:?
          end); lia.

Lemma rx_queue_push_spec fill q :
  ring_ok q -> rx_queue_full (q_head q) (q_tail q) = false ->
  ring_ok (rx_queue_push fill q)
  /\ ring_list (rx_queue_push fill q) = ring_list q ++ [fill (zero_entry <| rx_valid := true |>)].
Proof.
  intros Hok Hf. pose proof (ring_used_eq q Hok) as Hu. destruct Hok as [Hs Hh Ht].
  unfold rx_queue_full, rx_queue_push, UE_RAN_RX_QUEUE_SIZE in *.
  rewrite wrap32 in * by lia. set (v := fill (zero_entry <| rx_valid := true |>)).
  assert (ring_ok (RxRing (<[q_tail q := v]> (q_slots q)) (q_head q)
    (if q_tail q + 1 <? 32 then q_tail q + 1 else q_tail q + 1 - 32)%nat)) as Hok'.
  { split; cbn [q_slots q_head q_tail]; unfold UE_RAN_RX_QUEUE_SIZE;
      [by rewrite length_insert|lia|destruct (_ <? _)%nat eqn:?; lia]. }
  split; [done|]. unfold ring_list. rewrite (ring_used_eq _ Hok'). cbn [q_head q_tail].
  match goal with |- _ <$> seq 0 ?n = _ => replace n with (ring_used q + 1)%nat end; cycle 1.
  { rewrite Hu. clear -Hf Hh Ht. ring_lia. }
  rewrite seq_app, fmap_app. cbn [Nat.add seq fmap list_fmap]. f_equal.
  - apply list_fmap_ext. intros i k Hk. apply lookup_seq in Hk as [-> Hk].
    unfold ring_slot. cbn [q_slots q_head]. unfold UE_RAN_RX_QUEUE_SIZE.
    apply list_lookup_total_insert_ne. clear -Hf Hh Ht Hu Hk.
    rewrite Hu in Hk. rewrite wrap32 by ring_lia. ring_lia.
  - f_equal. unfold ring_slot. cbn [q_slots q_head]. unfold UE_RAN_RX_QUEUE_SIZE.
    replace ((q_head q + ring_used q) mod 32)%nat with (q_tail q).
    + apply list_lookup_total_insert_eq. lia.
    + clear -Hf Hh Ht Hu. rewrite Hu. rewrite wrap32 by ring_lia. ring_lia.
Qed.

Lemma rx_queue_full_spec q :
  ring_ok q ->
  rx_queue_full (q_head q) (q_tail q) = (length (ring_list q) =? 31)%nat
  /\ rx_queue_empty (q_head q) (q_tail q) = (length (ring_list q) =? 0)%nat.
Proof.
  intros Hok. pose proof (ring_used_eq q Hok) as Hu. destruct Hok as [_ Hh Ht].
  unfold ring_list, rx_queue_full, rx_queue_empty, UE_RAN_RX_QUEUE_SIZE in *.
  rewrite length_fmap, length_seq, Hu, wrap32 by lia. clear Hu. split; ring_lia.
Qed.

Lemma rx_queue_pop_spec q e l :
  ring_ok q -> ring_list q = e :: l ->
  rx_queue_peek q = Some e /\ ring_ok (rx_queue_pop q) /\ ring_list (rx_queue_pop q) = l.
Proof.
  intros Hok Hl. pose proof (ring_used_eq q Hok) as Hu.
  pose proof (rx_queue_full_spec q Hok) as [_ He]. rewrite Hl in He. cbn in He.
  destruct (ring_used q) as [|n] eqn:En; [unfold ring_list in Hl; by rewrite En in Hl|].
  unfold ring_list in Hl. rewrite En in Hl. cbn [seq fmap list_fmap] in Hl. injection Hl as He0 Hl.
  destruct Hok as [Hs Hh Ht]. unfold UE_RAN_RX_QUEUE_SIZE in *.
  assert (ring_ok (rx_queue_pop q)) as Hok'.
  { split; cbn [rx_queue_pop q_slots q_head q_tail]; unfold UE_RAN_RX_QUEUE_SIZE; [done| |lia].
    by apply Nat.mod_upper_bound. }
  split; [|split; [done|]].
  - unfold rx_queue_peek. rewrite He. rewrite <- He0. unfold ring_slot, UE_RAN_RX_QUEUE_SIZE.
    rewrite Nat.add_0_r, Nat.mod_small by lia. apply list_lookup_lookup_total_lt. lia.
  - rewrite <- Hl. unfold ring_list. rewrite (ring_used_eq _ Hok').
    cbn [rx_queue_pop q_head q_tail]. unfold UE_RAN_RX_QUEUE_SIZE. rewrite wrap32 by lia.
    match goal with |- _ <$> seq 0 ?k = _ => replace k with n by (clear -Hu Hh Ht; ring_lia) end.
    rewrite <- fmap_S_seq, <- list_fmap_compose. apply list_fmap_ext. intros i k Hk.
    apply lookup_seq in Hk as [-> Hk].
    unfold ring_slot, compose. cbn [rx_queue_pop q_slots q_head]. unfold UE_RAN_RX_QUEUE_SIZE.
    f_equal. rewrite Nat.Div0.add_mod_idemp_l. f_equal. lia.
Qed.

Lemma ring_list_reset q : ring_list (rx_queue_reset q) = [].
Proof. done. Qed.

(** ** The cell table *)

Definition cell_at (t : ue_ran_transport_ctx) (i : nat) (c : ue_ran_cell_info) : Prop :=
  rt_cells t !! i = Some c /\ cell_valid c = true.
Definition valid_cells (l : list ue_ran_cell_info) : Z :=
  Z.of_nat (length (List.filter cell_valid l)).

(** The serving cell is one in use of the highest level, or none when no cell
    in use is above -999 dBm. *)
Definition best_cell (t : ue_ran_transport_ctx) (id : Z) : Prop :=
  (id = -1 /\ forall i c, cell_at t i c -> cell_dbm c <= -999)
  \/ exists i c, cell_at t i c /\ cell_id c = id /\ -999 < cell_dbm c
     /\ forall j d, cell_at t j d -> cell_dbm d <= cell_dbm c.

(** No two cells in use share an id or an STI, and the serving cell is the best
    one. *)
Record cells_inv (t : ue_ran_transport_ctx) : Prop := {
  ci_len : length (rt_cells t) = UE_RAN_TRANSPORT_MAX_CELLS;
  ci_count : rt_cell_count t = valid_cells (rt_cells t);
  ci_next : 1 <= rt_next_cell_id t;
  ci_ids : forall i c, cell_at t i c -> 1 <= cell_id c < rt_next_cell_id t;
  ci_distinct : forall i j c d, cell_at t i c -> cell_at t j d ->
    cell_id c = cell_id d \/ cell_sti c = cell_sti d -> i = j;
  ci_serving : best_cell t (rt_serving_cell_id t) }.

Lemma valid_cells_insert l i c d :
  l !! i = Some c ->
  valid_cells (<[i := d]> l)
  = valid_cells l - Z.b2z (cell_valid c) + Z.b2z (cell_valid d).
Proof.
  intros H. unfold valid_cells. rewrite insert_take_drop by (by eapply lookup_lt_Some).
  rewrite <- (take_drop_middle l i c H) at 3.
  rewrite !List.filter_app, !length_app.
  destruct c as [[] ? ? ? ? ? ?], d as [[] ? ? ? ? ? ?]; cbn [List.filter cell_valid length Z.b2z];
    lia.
Qed.

Lemma select_fold l best :
  let r := foldl select_step best l in
  (r = best \/ exists i c, l !! i = Some c /\ cell_valid c = true
     /\ r = (cell_dbm c, cell_id c) /\ best.1 < cell_dbm c)
  /\ best.1 <= r.1
  /\ forall i c, l !! i = Some c -> cell_valid c = true -> cell_dbm c <= r.1.
Proof.
  revert best. induction l as [|x l IH]; intros best; cbn [foldl].
  { split_and!; [by left|lia|done]. }
  assert (select_step best x
    = if cell_valid x && (best.1 <? cell_dbm x) then (cell_dbm x, cell_id x) else best) as -> by done.
  destruct (cell_valid x && (best.1 <? cell_dbm x)) eqn:E.
  - apply andb_true_iff in E as [Ev El]. destruct (IH (cell_dbm x, cell_id x)) as (H1 & H2 & H3).
    cbn [fst] in *. split_and!; [right|lia|].
    + destruct H1 as [H1|(i & c & Hi & Hv & Hr & Hb)]; [|exists (S i), c; split_and!; done || lia].
      exists 0%nat, x. rewrite H1. split_and!; done || lia.
    + intros [|i] c Hi Hv; [injection Hi as ->; lia|by eapply H3].
  - destruct (IH best) as (H1 & H2 & H3). split_and!; [|lia|].
    + destruct H1 as [H1|(i & c & Hi & Hv & Hr & Hb)]; [by left|right]. by exists (S i), c.
    + intros [|i] c Hi Hv; [|by eapply H3]. injection Hi as ->. rewrite Hv in E. cbn in E. lia.
Qed.

Lemma select_best_spec t :
  best_cell t (rt_serving_cell_id (select_best_serving_cell t)).
Proof.
  unfold select_best_serving_cell, best_cell. change (rt_serving_cell_id (set_field _ t))
    with (foldl select_step (-999, -1) (rt_cells t)).2.
  destruct (select_fold (rt_cells t) (-999, -1)) as ([->|(i & c & Hi & Hv & Hr & Hb)] & _ & Hm).
  - left. split; [done|]. intros i c [Hi Hv]. by apply (Hm i c).
  - right. exists i, c. rewrite Hr in *. split_and!; try done.
    intros j d [Hj Hd]. by apply (Hm j d).
Qed.

Lemma select_best_inv t : 
  length (rt_cells t) = UE_RAN_TRANSPORT_MAX_CELLS -> rt_cell_count t = valid_cells (rt_cells t) ->
  1 <= rt_next_cell_id t ->
  (forall i c, cell_at t i c -> 1 <= cell_id c < rt_next_cell_id t) ->
  (forall i j c d, cell_at t i c -> cell_at t j d ->
    cell_id c = cell_id d \/ cell_sti c = cell_sti d -> i = j) ->
  cells_inv (select_best_serving_cell t).
Proof.
  intros. split; try done. apply (select_best_spec t).
Qed.

Lemma cells_inv_set_state t s : cells_inv t -> cells_inv (t <| rt_state := s |>).
Proof. intros [? ? ? ? ? ?]. by split. Qed.

(** The table without the cells of [gone]. *)
Definition drop_cells (gone : ue_ran_cell_info -> bool) (l : list ue_ran_cell_info) :=
  map (fun c => if gone c then c <| cell_valid := false |> else c) l.

Lemma drop_cells_lookup gone l i c :
  drop_cells gone l !! i = Some c -> cell_valid c = true ->
  l !! i = Some c /\ gone c = false.
Proof.
  unfold drop_cells. rewrite list_lookup_fmap. intros H Hv.
  apply fmap_Some in H as (d & Hd & ->). destruct (gone d) eqn:E; [discriminate Hv|done].
Qed.

Lemma drop_cells_count gone l :
  (forall c, gone c = true -> cell_valid c = true) ->
  valid_cells (drop_cells gone l) = valid_cells l - Z.of_nat (length (List.filter gone l)).
Proof.
  intros Hg. unfold valid_cells, drop_cells. induction l as [|x l IH]; [done|].
  cbn [map List.filter]. specialize (Hg x). destruct (gone x).
  - specialize (Hg eq_refl). destruct x as [v ? ? ? ? ? ?]. cbn [cell_valid] in Hg. subst v.
    cbn [set_field cell_valid length] in *. lia.
  - destruct x as [[] ? ? ? ? ? ?]; cbn [cell_valid length] in *; lia.
Qed.

Lemma expire_cells_inv t now :
  cells_inv t -> cells_inv (expire_cells t now).
Proof.
  intros [Hl Hc Hn Hi Hd Hs]. unfold expire_cells.
  set (gone := cell_expired t now). fold (drop_cells gone (rt_cells t)).
  assert (forall i c, drop_cells gone (rt_cells t) !! i = Some c -> cell_valid c = true ->
    cell_at t i c /\ gone c = false) as Hat.
  { intros i c H Hv. destruct (drop_cells_lookup _ _ _ _ H Hv). done. }
  assert (length (drop_cells gone (rt_cells t)) = UE_RAN_TRANSPORT_MAX_CELLS) as Hl'
    by (unfold drop_cells; by rewrite length_map).
  assert (rt_cell_count t - Z.of_nat (length (List.filter gone (rt_cells t)))
    = valid_cells (drop_cells gone (rt_cells t))) as Hc'.
  { rewrite drop_cells_count, Hc; [done|]. intros c Hg. unfold gone, cell_expired in Hg.
    by apply andb_true_iff in Hg as [? _]. }
  set (t1 := t <| rt_cells := _ |> <| rt_cell_count := _ |>).
  assert (forall i c, cell_at t1 i c -> cell_at t i c /\ gone c = false) as Hat1
    by (intros i c [H Hv]; by apply Hat).
  destruct (existsb _ _) eqn:E.
  - assert (cells_inv (select_best_serving_cell t1)) as Hinv.
    { apply select_best_inv; try done.
      - intros i c H. apply (Hi i c). by apply Hat1.
      - intros i j c d H1 H2. apply (Hd i j c d); by apply Hat1. }
    destruct (_ <? 0); [by apply cells_inv_set_state|done].
  - split; try done.
    + intros i c H. apply (Hi i c). by apply Hat1.
    + intros i j c d H1 H2. apply (Hd i j c d); by apply Hat1.
    + destruct Hs as [[Hs Hm]|(i & c & [Hci Hcv] & Hid & Hdb & Hm)].
      { left. split; [done|]. intros j d H. apply (Hm j). by apply Hat1. }
      right. exists i, c. split; [|split_and!; try done].
      2: { intros j d H. apply (Hm j). by apply Hat1. }
      split; [|done]. change (drop_cells gone (rt_cells t) !! i = Some c).
      unfold drop_cells. rewrite list_lookup_fmap, Hci. cbn.
      destruct (gone c) eqn:Eg; [|done]. exfalso.
      assert (existsb (fun c => gone c && (cell_id c =? rt_serving_cell_id t)) (rt_cells t) = true)
        as Ht; [|congruence].
      apply existsb_exists. exists c. split; [by apply list_elem_of_In, list_elem_of_lookup_2 with i|].
      rewrite Eg, Hid. by rewrite Z.eqb_refl.
Qed.

Lemma alter_insert {A} (f : A -> A) (i : nat) (l : list A) x : l !! i = Some x -> alter f i l = <[i := f x]> l.
Proof.
  revert i. induction l as [|y l IH]; intros [|i] H; try done.
  - by injection H as ->.
  - change (y :: alter f i l = y :: <[i := f x]> l). by rewrite IH.
Qed.

Lemma find_cell_spec (P : ue_ran_cell_info -> bool) l :
  match list_find (fun c => Is_true (cell_valid c && P c)) l with
  | Some (i, c) => l !! i = Some c /\ cell_valid c = true /\ P c = true
  | None => forall i c, l !! i = Some c -> cell_valid c = true -> P c = false
  end.
Proof.
  destruct (list_find _ l) as [[i c]|] eqn:E.
  - apply list_find_Some in E as (Hi & Hp & _). split; [done|]. by apply andb_prop_elim in Hp as [?%Is_true_true ?%Is_true_true].
  - intros i c Hi Hv. apply list_find_None in E. rewrite Forall_lookup in E.
    specialize (E i c Hi). rewrite Hv in E. cbn in E. by destruct (P c).
Qed.

(** A change of a cell that keeps its id and STI. *)
Lemma update_cell_inv t i c f :
  cells_inv t -> cell_at t i c ->
  cell_valid (f c) = true -> cell_id (f c) = cell_id c -> cell_sti (f c) = cell_sti c ->
  cells_inv (select_best_serving_cell (t <| rt_cells := alter f i (rt_cells t) |>)).
Proof.
  intros [Hl Hc Hn Hi Hd Hs] [Hci Hcv] Hv Hid Hsti. rewrite (alter_insert f i _ c Hci).
  set (t1 := t <| rt_cells := _ |>).
  assert (forall j d, cell_at t1 j d -> exists d0, cell_at t j d0 /\ cell_id d = cell_id d0
    /\ cell_sti d = cell_sti d0) as Hat.
  { intros j d [Hj Hdv]. change (<[i := f c]> (rt_cells t) !! j = Some d) in Hj.
    destruct (decide (i = j)) as [<-|Hij].
    - rewrite list_lookup_insert_eq in Hj by (by eapply lookup_lt_Some). injection Hj as <-.
      exists c. done.
    - rewrite list_lookup_insert_ne in Hj by done. by exists d. }
  apply select_best_inv.
  - change (length (<[i := f c]> (rt_cells t)) = UE_RAN_TRANSPORT_MAX_CELLS).
    by rewrite length_insert.
  - change (rt_cell_count t = valid_cells (<[i := f c]> (rt_cells t))).
    rewrite (valid_cells_insert _ _ c), Hcv, Hv by done. lia.
  - done.
  - intros j d H. destruct (Hat j d H) as (d0 & H0 & -> & _). by apply (Hi j d0).
  - intros j k d e H1 H2 Heq. destruct (Hat j d H1) as (d0 & H3 & E1 & E2).
    destruct (Hat k e H2) as (e0 & H4 & E3 & E4). apply (Hd j k d0 e0); try done.
    rewrite <- E1, <- E2, <- E3, <- E4. done.
Qed.

(** A cell allocated under a fresh id, for an STI no cell in use has. *)
Lemma insert_cell_inv t i c0 c :
  cells_inv t -> rt_cells t !! i = Some c0 -> cell_valid c0 = false ->
  cell_valid c = true -> cell_id c = rt_next_cell_id t ->
  (forall j d, cell_at t j d -> cell_sti d <> cell_sti c) ->
  cells_inv (select_best_serving_cell
    (t <| rt_cells := <[i := c]> (rt_cells t) |> <| rt_next_cell_id := rt_next_cell_id t + 1 |>
       <| rt_cell_count := rt_cell_count t + 1 |>)).
Proof.
  intros [Hl Hc Hn Hi Hd Hs] Hci Hcv Hv Hid Hsti.
  set (t1 := t <| rt_cells := _ |> <| rt_next_cell_id := _ |> <| rt_cell_count := _ |>).
  assert (forall j d, cell_at t1 j d -> j = i /\ d = c \/ j <> i /\ cell_at t j d) as Hat.
  { intros j d [Hj Hdv]. change (<[i := c]> (rt_cells t) !! j = Some d) in Hj.
    destruct (decide (i = j)) as [<-|Hij].
    - rewrite list_lookup_insert_eq in Hj by (by eapply lookup_lt_Some). injection Hj as <-. by left.
    - rewrite list_lookup_insert_ne in Hj by done. right. by split; [congruence|]. }
  apply select_best_inv.
  - change (length (<[i := c]> (rt_cells t)) = UE_RAN_TRANSPORT_MAX_CELLS).
    by rewrite length_insert.
  - change (rt_cell_count t + 1 = valid_cells (<[i := c]> (rt_cells t))).
    rewrite (valid_cells_insert _ _ c0), Hcv, Hv by done. cbn [Z.b2z]. lia.
  - change (1 <= rt_next_cell_id t + 1). lia.
  - intros j d H. change (1 <= cell_id d < rt_next_cell_id t + 1).
    destruct (Hat j d H) as [[_ ->]|[_ Hold]]; [lia|]. specialize (Hi j d Hold). lia.
  - intros j k d e H1 H2 Heq.
    destruct (Hat j d H1) as [[-> ->]|[Hj Ho1]], (Hat k e H2) as [[-> ->]|[Hk Ho2]]; [done| | |].
    + exfalso. destruct Heq as [Heq|Heq]; [specialize (Hi k e Ho2); lia|].
      by apply (Hsti k e Ho2).
    + exfalso. destruct Heq as [Heq|Heq]; [specialize (Hi j d Ho1); lia|].
      by apply (Hsti j d Ho1).
    + by apply (Hd j k d e).
Qed.

Lemma handle_heartbeat_ack_inv t ack peer now :
  cells_inv t -> cells_inv (handle_heartbeat_ack t ack peer now).
Proof.
  intros Ht. unfold handle_heartbeat_ack, find_cell_by_sti.
  pose proof (find_cell_spec (fun c => cell_sti c =? ha_sti ack) (rt_cells t)) as Hf.
  destruct (list_find _ (rt_cells t)) as [[i c]|] eqn:E.
  - destruct Hf as (Hi & Hv & _). cbn [fmap option_fmap option_map fst].
    by apply (update_cell_inv t i c).
  - cbn [fmap option_fmap option_map]. unfold alloc_cell.
    destruct (list_find (fun c => Is_true (negb (cell_valid c))) (rt_cells t)) as [[i c]|] eqn:E2;
      cbn [mbind option_bind]; [|done].
    apply list_find_Some in E2 as (Hi & Hv%negb_prop_elim & _).
    set (n := zero_cell <| cell_valid := true |> <| cell_id := rt_next_cell_id t |>).
    set (g := fun c => c <| cell_sti := ha_sti ack |>).
    set (f := fun c => c <| cell_dbm := ha_dbm ack |> <| cell_last_seen_ms := now |>
                         <| cell_addr := peer |> <| cell_addr_len := sa_len peer |>).
    pose proof (lookup_lt_Some _ _ _ Hi) as Hlt.
    pose proof (insert_cell_inv t i c (f (g n)) Ht Hi) as Hins.
    change (cells_inv (select_best_serving_cell
      (t <| rt_cells := alter f i (alter g i (<[i := n]> (rt_cells t))) |>
         <| rt_next_cell_id := rt_next_cell_id t + 1 |> <| rt_cell_count := rt_cell_count t + 1 |>))).
    rewrite (alter_insert g i _ n) by (by apply list_lookup_insert_eq).
    rewrite list_insert_insert_eq.
    rewrite (alter_insert f i _ (g n)) by (by apply list_lookup_insert_eq).
    rewrite list_insert_insert_eq. apply Hins; try done.
    + by destruct (cell_valid c).
    + intros j d [Hj Hdv] Heq. specialize (Hf j d Hj Hdv). cbn in Heq. lia.
Qed.
