(* ===== verification/RanLink.v ===== *)
(** The behaviour of the RAN transport: the invariant of its reachable states,
    the tick, the receive queues as bounded FIFOs, what is sent, and the instance
    of the adapter's [RanSender] interface.  The model is in [RanTransport.v]. *)

From S2P Require Import Prelude Rls UeTypes RanTransport.

#[local] Set Primitive Projections.

(** ** The invariant of the transport *)

Definition entry_ok (e : ue_ran_rx_entry) : Prop :=
  Z.of_nat (length (rx_data e)) = UE_RAN_RX_PDU_MAX /\ 0 <= rx_len e <= UE_RAN_RX_PDU_MAX.
Record queue_ok (q : rx_ring) : Prop := {
  queue_ring : ring_ok q; queue_entries : Forall entry_ok (q_slots q) }.

Record rt_ok (t : ue_ran_transport_ctx) : Prop := {
  ro_cells : cells_inv t;
  ro_nas : queue_ok (rt_nas_queue t);
  ro_data : queue_ok (rt_data_queue t);
  ro_acks : (length (rt_pending_ack_ids t) <= UE_RAN_PENDING_ACK_MAX)%nat;
  ro_timeout : 0 <= rt_heartbeat_timeout_ms t;
  ro_sti : 0 <= rt_sti t < 2 ^ 64;
  ro_next : 0 <= rt_next_pdu_id t < 2 ^ 32;
  ro_socket : rt_state t <> UE_RAN_TRANSPORT_IDLE -> 0 <= rt_socket_fd t;
  ro_addr : forall i c, cell_at t i c -> 0 < cell_addr_len c <= 128 }.

(** Every cell in use was heard of within the timeout. *)
Definition fresh (t : ue_ran_transport_ctx) (now : Z) : Prop :=
  forall i c, cell_at t i c -> u64 (now - cell_last_seen_ms c) <= rt_heartbeat_timeout_ms t.

Lemma cells_inv_ext t t' :
  rt_cells t' = rt_cells t -> rt_cell_count t' = rt_cell_count t ->
  rt_next_cell_id t' = rt_next_cell_id t -> rt_serving_cell_id t' = rt_serving_cell_id t ->
  cells_inv t -> cells_inv t'.
Proof.
  intros E1 E2 E3 E4 [Hl Hc Hn Hi Hd Hs].
  assert (forall i c, cell_at t' i c <-> cell_at t i c) as Hat by (intros; unfold cell_at; by rewrite E1).
  split; rewrite ?E1, ?E2, ?E3, ?E4; try done.
  - intros i c H. by apply (Hi i c), Hat.
  - intros i j c d H1 H2. apply (Hd i j c d); by apply Hat.
  - unfold best_cell in *. destruct Hs as [[Hs Hm]|(i & c & Hci & Hid & Hdb & Hm)].
    + left. split; [done|]. intros i c H. by apply (Hm i c), Hat.
    + right. exists i, c. split_and!; try done; [by apply Hat|]. intros j d H. by apply (Hm j d), Hat.
Qed.

Lemma fresh_ext t t' now :
  rt_cells t' = rt_cells t -> rt_heartbeat_timeout_ms t' = rt_heartbeat_timeout_ms t ->
  fresh t now -> fresh t' now.
Proof. intros E1 E2 H i c Hc. rewrite E2. apply (H i c). unfold cell_at in *. by rewrite E1 in Hc. Qed.

(** Sending changes the counters and the trace only. *)
Lemma send_to_addr_frame sendto t a d :
  exists tr b, (send_to_addr sendto t a d).2 = t <| net_trace := tr |> <| rt_tx_bytes := b |>.
Proof.
  unfold send_to_addr. destruct (_ <? 0); [by exists (net_trace t), (rt_tx_bytes t)|].
  cbv zeta. exists (net_trace t ++ [(a, d)]).
  destruct (_ <? 0); [exists (rt_tx_bytes t)|eexists]; reflexivity.
Qed.

Lemma encoded_heartbeat sti :
  encoded (ue_rls_encode_heartbeat tx_buf tx_size sti 0 0 0)
  = Some (25, rls_heartbeat_wire sti 0 0 0).
Proof.
  assert (Z.of_nat tx_size = 16448) by (unfold tx_size; lia).
  unfold tx_buf. rewrite encode_heartbeat_wire by (rewrite ?length_replicate; lia).
  unfold encoded. cbn [mbind option_bind]. by rewrite take_over by done.
Qed.

Lemma encoded_pdu sti ty id payload pdu :
  0 <= ty < 256 -> Z.of_nat (length pdu) <= 16384 ->
  encoded (ue_rls_encode_pdu_transmission tx_buf tx_size sti ty id payload (Some pdu) (length pdu))
  = Some (Z.of_nat (26 + length pdu), rls_pdu_wire sti ty id payload pdu).
Proof.
  intros Ht Hp. assert (Z.of_nat tx_size = 16448) by (unfold tx_size; lia).
  unfold tx_buf. rewrite encode_pdu_wire by (rewrite ?length_replicate; lia).
  unfold encoded. cbn [mbind option_bind].
  rewrite take_over; [done|]. unfold rls_pdu_wire, rls_header_wire. vlia.
Qed.

Lemma encoded_ack sti ids :
  (length ids <= 64)%nat ->
  encoded (ue_rls_encode_pdu_ack tx_buf tx_size sti ids (length ids))
  = Some (Z.of_nat (17 + 4 * length ids), rls_ack_wire sti ids).
Proof.
  intros Hp. assert (Z.of_nat tx_size = 16448) by (unfold tx_size; lia).
  unfold tx_buf. rewrite encode_ack_wire by (rewrite ?length_replicate; lia).
  unfold encoded. cbn [mbind option_bind].
  rewrite take_over; [done|].
  unfold rls_ack_wire, rls_header_wire. rewrite !length_app, length_concat_be32, !length_be_list.
  simpl. lia.
Qed.

Lemma send_heartbeats_frame sendto pton gai t now :
  exists tr b, send_heartbeats sendto pton gai t now
    = Some (t <| net_trace := tr |> <| rt_tx_bytes := b |> <| rt_last_heartbeat_ms := now |>).
Proof.
  unfold send_heartbeats.
  enough (exists tr b, send_heartbeat_each sendto pton gai (rt_gnb_list t) t
    = Some (t <| net_trace := tr |> <| rt_tx_bytes := b |>)) as (tr & b & ->) by (by exists tr, b).
  generalize (rt_gnb_list t) as l. intros l. revert t. induction l as [|g l IH]; intros t.
  - by exists (net_trace t), (rt_tx_bytes t).
  - cbn [send_heartbeat_each]. destruct (resolve_endpoint _ _ _ _) as [ss|]; [|apply IH].
    rewrite encoded_heartbeat. cbn [mbind option_bind]. change (25 <=? 0) with false. cbv iota.
    destruct (send_to_addr_frame sendto t ss (rls_heartbeat_wire (rt_sti t) 0 0 0)) as (tr & b & ->).
    destruct (IH (t <| net_trace := tr |> <| rt_tx_bytes := b |>)) as (tr' & b' & ->).
    by exists tr', b'.
Qed.

Lemma find_cell_by_id_spec t id :
  match find_cell_by_id t id with
  | Some i => exists c, cell_at t i c /\ cell_id c = id
  | None => forall i c, cell_at t i c -> cell_id c <> id
  end.
Proof.
  unfold find_cell_by_id. pose proof (find_cell_spec (fun c => cell_id c =? id) (rt_cells t)) as H.
  destruct (list_find _ _) as [[i c]|]; cbn.
  - destruct H as (Hi & Hv & He). exists c. unfold cell_at. split; [done|lia].
  - intros i c [Hi Hv] He. specialize (H i c Hi Hv). lia.
Qed.

Lemma send_pending_acks_frame sendto t now :
  (length (rt_pending_ack_ids t) <= 64)%nat -> rt_pending_ack_ids t <> [] ->
  exists tr b, send_pending_acks sendto t now
    = Some (clear_acks (t <| net_trace := tr |> <| rt_tx_bytes := b |>) now).
Proof.
  intros Hl Hne. unfold send_pending_acks. destruct (rt_pending_ack_ids t) as [|a ids] eqn:E; [done|].
  pose proof (find_cell_by_id_spec t (rt_serving_cell_id t)) as Hf.
  destruct (find_cell_by_id _ _) as [i|]; [|by exists (net_trace t), (rt_tx_bytes t)].
  destruct Hf as (c & [Hc _] & _). rewrite Hc. cbn [mbind option_bind].
  rewrite encoded_ack by done. cbn [mbind option_bind].
  replace (0 <? _) with true by lia. unfold send_to_cell.
  destruct (_ || _); [by exists (net_trace t), (rt_tx_bytes t)|].
  destruct (send_to_addr_frame sendto t (cell_addr c) (rls_ack_wire (rt_sti t) (a :: ids)))
    as (tr & b & ->). by exists tr, b.
Qed.

(** ** Receiving *)

Lemma fill_entry_ok ty psi ch data len :
  0 <= len <= UE_RAN_RX_PDU_MAX -> Z.of_nat (length data) <= len ->
  entry_ok (fill_entry ty psi ch data len (zero_entry <| rx_valid := true |>)).
Proof.
  unfold UE_RAN_RX_PDU_MAX. intros Hl Hd. split; [|done].
  change (rx_data _) with (data ++ drop (length data) (replicate (Z.to_nat UE_RAN_RX_PDU_MAX) 0)).
  rewrite length_app, length_drop, length_replicate. unfold UE_RAN_RX_PDU_MAX. lia.
Qed.

Lemma queue_push_ok fill q :
  queue_ok q -> rx_queue_full (q_head q) (q_tail q) = false ->
  entry_ok (fill (zero_entry <| rx_valid := true |>)) -> queue_ok (rx_queue_push fill q).
Proof.
  intros [Hr He] Hf Hv. split; [by apply rx_queue_push_spec|].
  cbn [rx_queue_push q_slots]. by apply Forall_insert.
Qed.

(** What [ue_rls_decode] gives of a datagram. *)
Definition pdu_ok (pdu : ue_rls_pdu_transmission) : Prop :=
  0 <= pt_pdu_len pdu <= UE_RLS_MAX_PDU_SIZE
  /\ match pt_pdu pdu with
     | Some l => Z.of_nat (length l) = pt_pdu_len pdu | None => pt_pdu_len pdu = 0 end.

(** The bytes queued: at most [UE_RAN_RX_PDU_MAX] of them. *)
Definition queued_bytes (pdu : ue_rls_pdu_transmission) : bytes :=
  take (Z.to_nat UE_RAN_RX_PDU_MAX) (default [] (pt_pdu pdu)).
Definition queued_entry (pdu : ue_rls_pdu_transmission) : ue_ran_rx_entry :=
  fill_entry (pt_pdu_type pdu) (if pt_pdu_type pdu =? UE_RLS_PDU_TYPE_RRC then 0 else s32 (pt_payload pdu))
    (if pt_pdu_type pdu =? UE_RLS_PDU_TYPE_RRC then pt_payload pdu else 0)
    (queued_bytes pdu) (Z.of_nat (length (queued_bytes pdu))) (zero_entry <| rx_valid := true |>).

Lemma queued_copy pdu :
  pdu_ok pdu ->
  (if pt_pdu_len pdu <=? UE_RAN_RX_PDU_MAX then pt_pdu_len pdu else UE_RAN_RX_PDU_MAX)
    = Z.of_nat (length (queued_bytes pdu))
  /\ match pt_pdu pdu with
     | Some p => if 0 <? Z.of_nat (length (queued_bytes pdu))
                 then slice p 0 (Z.to_nat (Z.of_nat (length (queued_bytes pdu)))) else Some []
     | None => Some []
     end = Some (queued_bytes pdu).
Proof.
  intros [Hr Hp]. unfold queued_bytes. rewrite length_take. unfold UE_RAN_RX_PDU_MAX.
  destruct (pt_pdu pdu) as [p|]; cbn [from_option id length] in *.
  - split; [unfold UE_RLS_MAX_PDU_SIZE in *; destruct (_ <=? _) eqn:?; lia|]. destruct (0 <? _) eqn:E.
    + rewrite slice_in by lia. rewrite drop_0. f_equal.
      rewrite Nat2Z.id. destruct (decide (length p <= Z.to_nat 8192)%nat).
      * by rewrite !take_ge by lia.
      * f_equal. lia.
    + assert (length p = 0)%nat by lia. by destruct p.
  - rewrite take_nil, Hp. by split.
Qed.

Lemma queued_entry_ok pdu : entry_ok (queued_entry pdu).
Proof.
  apply fill_entry_ok; [|done]. unfold queued_bytes. rewrite length_take.
  unfold UE_RAN_RX_PDU_MAX. lia.
Qed.

Lemma ring_list_bound q : ring_ok q -> (length (ring_list q) <= 31)%nat.
Proof.
  intros Hok. pose proof (ring_used_eq q Hok) as Hu. destruct Hok as [_ Hh Ht].
  unfold ring_list, UE_RAN_RX_QUEUE_SIZE in *. rewrite length_fmap, length_seq, Hu. clear Hu. ring_lia.
Qed.

Lemma track_ack_bound id ids :
  (length ids <= UE_RAN_PENDING_ACK_MAX)%nat ->
  (length (track_ack id ids) <= UE_RAN_PENDING_ACK_MAX)%nat.
Proof.
  intros. unfold track_ack. destruct (_ && _) eqn:E; [|done]. rewrite length_app. cbn [length]. lia.
Qed.

(** Reads of an updated context. *)
Ltac rt_red :=
  cbv [set_field rt_state rt_gnb_list rt_cells rt_cell_count rt_serving_cell_id rt_next_cell_id
    rt_sti rt_socket_fd rt_last_heartbeat_ms rt_heartbeat_interval_ms rt_heartbeat_timeout_ms
    rt_next_pdu_id rt_nas_queue rt_data_queue rt_pending_ack_ids rt_last_ack_send_ms
    rt_tx_pdu_count rt_rx_pdu_count rt_tx_bytes rt_rx_bytes net_trace] in *.

Lemma handle_pdu_spec t pdu :
  pdu_ok pdu -> rt_ok t ->
  exists t', handle_pdu_transmission t pdu = Some t' /\ rt_ok t'
    /\ rt_cells t' = rt_cells t /\ rt_serving_cell_id t' = rt_serving_cell_id t
    /\ rt_state t' = rt_state t /\ rt_heartbeat_timeout_ms t' = rt_heartbeat_timeout_ms t
    /\ rt_socket_fd t' = rt_socket_fd t
    /\ rt_pending_ack_ids t' = track_ack (pt_pdu_id pdu) (rt_pending_ack_ids t)
    /\ ring_list (rt_nas_queue t') = ring_list (rt_nas_queue t)
         ++ (if (pt_pdu_type pdu =? UE_RLS_PDU_TYPE_RRC) && (length (ring_list (rt_nas_queue t)) <?n 31)
             then [queued_entry pdu] else [])
    /\ ring_list (rt_data_queue t') = ring_list (rt_data_queue t)
         ++ (if (pt_pdu_type pdu =? UE_RLS_PDU_TYPE_DATA)
                && (length (ring_list (rt_data_queue t)) <?n 31)
             then [queued_entry pdu] else []).
Proof.
  intros Hp [Hc Hn Hd Ha Ht Hsti Hnx Hso Had]. destruct (queued_copy pdu Hp) as [El Ec].
  destruct (rx_queue_full_spec _ (queue_ring _ Hn)) as [Fn _].
  destruct (rx_queue_full_spec _ (queue_ring _ Hd)) as [Fd _].
  pose proof (ring_list_bound _ (queue_ring _ Hn)) as Ln.
  pose proof (ring_list_bound _ (queue_ring _ Hd)) as Ld.
  pose proof (queued_entry_ok pdu) as Hq.
  pose proof (track_ack_bound (pt_pdu_id pdu) _ Ha) as Hk.
  unfold handle_pdu_transmission. cbv zeta. rewrite El, Ec. cbn [mbind option_bind].
  assert (forall q fill, queue_ok q -> rx_queue_full (q_head q) (q_tail q) = false ->
    fill (zero_entry <| rx_valid := true |>) = queued_entry pdu ->
    queue_ok (rx_queue_push fill q)
    /\ ring_list (rx_queue_push fill q) = ring_list q ++ [queued_entry pdu]) as Hpush.
  { intros q fill Hqq Hf Hv. split; [apply queue_push_ok; [done|done|rewrite Hv; exact Hq]|].
    rewrite <- Hv. apply rx_queue_push_spec; [by apply queue_ring|done]. }
  assert ((pt_pdu_type pdu =? UE_RLS_PDU_TYPE_RRC) = true ->
    fill_entry UE_RLS_PDU_TYPE_RRC 0 (pt_payload pdu) (queued_bytes pdu)
      (Z.of_nat (length (queued_bytes pdu))) (zero_entry <| rx_valid := true |>) = queued_entry pdu) as Hrrc.
  { intros E. unfold queued_entry. rewrite E. apply Z.eqb_eq in E. by rewrite E. }
  assert ((pt_pdu_type pdu =? UE_RLS_PDU_TYPE_DATA) = true ->
    fill_entry UE_RLS_PDU_TYPE_DATA (s32 (pt_payload pdu)) 0 (queued_bytes pdu)
      (Z.of_nat (length (queued_bytes pdu))) (zero_entry <| rx_valid := true |>) = queued_entry pdu) as Hdata.
  { intros E. unfold queued_entry. apply Z.eqb_eq in E. by rewrite E. }
  destruct t as [st gl cs cc sv nc sti fd lh hi ht np nq dq pa la txc rxc txb rxb tr]. rt_red.
  assert ((pt_pdu_type pdu =? UE_RLS_PDU_TYPE_RRC) = true -> (pt_pdu_type pdu =? UE_RLS_PDU_TYPE_DATA) = false)
    as Hex by (unfold UE_RLS_PDU_TYPE_RRC, UE_RLS_PDU_TYPE_DATA; lia).
  destruct (pt_pdu_type pdu =? UE_RLS_PDU_TYPE_RRC) eqn:Er;
    [rewrite (Hex eq_refl) in *|destruct (pt_pdu_type pdu =? UE_RLS_PDU_TYPE_DATA) eqn:Edt].
  1: destruct (rx_queue_full (q_head nq) _) eqn:Ef;
    [|edestruct (Hpush _ (fill_entry UE_RLS_PDU_TYPE_RRC 0 (pt_payload pdu) (queued_bytes pdu)
        (Z.of_nat (length (queued_bytes pdu)))) Hn Ef (Hrrc eq_refl)) as [Hq' Hl']].
  3: destruct (rx_queue_full (q_head dq) _) eqn:Ef;
    [|edestruct (Hpush _ (fill_entry UE_RLS_PDU_TYPE_DATA (s32 (pt_payload pdu)) 0 (queued_bytes pdu)
        (Z.of_nat (length (queued_bytes pdu)))) Hd Ef (Hdata eq_refl)) as [Hq' Hl']].
  all: eexists; split; [reflexivity|]; split;
    [split; rt_red; try assumption; eapply cells_inv_ext; [..|exact Hc]; reflexivity|].
  all: rt_red; split_and!; try reflexivity; cbn [andb]; rewrite ?app_nil_r; try reflexivity;
    try (replace (_ <?n 31) with false by lia; by rewrite app_nil_r);
    try (replace (_ <?n 31) with true by lia; assumption).
Qed.

Lemma handle_heartbeat_ack_frame t ack peer now :
  exists cs k n s, handle_heartbeat_ack t ack peer now
    = t <| rt_cells := cs |> <| rt_cell_count := k |> <| rt_next_cell_id := n |>
        <| rt_serving_cell_id := s |>
  /\ forall (i : nat) c, cs !! i = Some c -> cell_valid c = true ->
       cell_at t i c \/ cell_last_seen_ms c = now /\ cell_addr_len c = sa_len peer.
Proof.
  unfold handle_heartbeat_ack, select_best_serving_cell.
  assert (forall (f : ue_ran_cell_info -> ue_ran_cell_info) (i : nat) (l : list ue_ran_cell_info) (j : nat) c,
    alter f i l !! j = Some c -> l !! j = Some c \/ exists d, c = f d) as Halt.
  { intros f i l j c H. destruct (decide (i = j)) as [<-|Hij].
    - rewrite list_lookup_alter_eq in H. apply fmap_Some in H as (d & _ & ->). right. by exists d.
    - rewrite list_lookup_alter_ne in H by done. by left. }
  destruct (find_cell_by_sti t (ha_sti ack)) as [i|].
  - eexists (alter _ i (rt_cells t)), (rt_cell_count t), (rt_next_cell_id t), _. split; [reflexivity|].
    intros j c Hj Hv. apply Halt in Hj as [Hj|[d ->]]; [by left|by right].
  - unfold alloc_cell. destruct (list_find _ _) as [[i c0]|]; cbn [mbind option_bind].
    + eexists (alter _ i (alter _ i (<[i:=_]> (rt_cells t)))), (rt_cell_count t + 1), (rt_next_cell_id t + 1), _.
      split; [reflexivity|].
      intros j c Hj Hv. destruct (decide (i = j)) as [<-|Hij].
      * rewrite list_lookup_alter_eq in Hj. apply fmap_Some in Hj as (d & _ & ->). by right.
      * left. split; [|done]. rewrite list_lookup_alter_ne in Hj by done.
        change (alter (fun c => c <| cell_sti := ha_sti ack |>) i
          (<[i := zero_cell <| cell_valid := true |> <| cell_id := rt_next_cell_id t |>]> (rt_cells t))
          !! j = Some c) in Hj.
        by rewrite list_lookup_alter_ne, list_lookup_insert_ne in Hj by done.
    + exists (rt_cells t), (rt_cell_count t), (rt_next_cell_id t), (rt_serving_cell_id t).
      split; [reflexivity|]. intros j c Hj Hv. by left.
Qed.

(** What one step of the receive loop keeps. *)
Definition step_ok (now : Z) (t t' : ue_ran_transport_ctx) : Prop :=
  rt_ok t' /\ (fresh t now -> fresh t' now) /\ rt_state t' = rt_state t.

Lemma handle_heartbeat_ack_ok t ack peer now :
  rt_ok t -> 0 < sa_len peer <= 128 -> step_ok now t (handle_heartbeat_ack t ack peer now).
Proof.
  intros [Hc Hn Hd Ha Ht Hsti Hnx Hso Had] Hpl. pose proof (handle_heartbeat_ack_inv t ack peer now Hc) as Hc'.
  destruct (handle_heartbeat_ack_frame t ack peer now) as (cs & k & n & s & E & Hcs).
  rewrite E in *. split; [|split; [|done]].
  - split; try done. intros i c [Hi Hv].
    destruct (Hcs i c Hi Hv) as [H|[_ ->]]; [by apply (Had i c)|done].
  - intros Hf i c [Hi Hv]. destruct (Hcs i c Hi Hv) as [H|[-> _]]; [by apply (Hf i c)|].
    rewrite Z.sub_diag. exact Ht.
Qed.

Definition recv_ok (r : recv_result) : Prop :=
  match r with
  | RecvData d peer => Forall is_byte d /\ 0 < sa_len peer <= 128 | _ => True end.

Section Receive.
Variable (pton : bytes -> option Z) (gai : bytes -> option sockaddr).

Lemma receive_one_ok t dgram peer now :
  rt_ok t -> Forall is_byte dgram -> 0 < sa_len peer <= 128 ->
  exists e t', receive_one pton gai t dgram peer now = Some (e, t') /\ 0 <= e <= 1
    /\ step_ok now t t'.
Proof.
  intros Hok Hb Hpl. unfold receive_one.
  set (t1 := t <| rt_rx_bytes := _ |>).
  assert (rt_ok t1 /\ step_ok now t t1) as [Hok1 H1].
  { assert (rt_ok t1) as Hok1; [|by split_and!].
    destruct Hok as [Hc ? ? ? ? ? ? Hso ?]. split; try done. by apply (cells_inv_ext t). }
  destruct (negb _); [by exists 0, t1|].
  destruct (rls_decode_total dgram (length dgram)) as [r Er]; [done|]. rewrite Er.
  cbn [mbind option_bind]. destruct r as [[hb|ack|pdu|ka]|].
  - by exists 0, t1.
  - eexists 1, _. split; [reflexivity|]. split; [done|].
    destruct H1 as (_ & Hf1 & Es1). destruct (handle_heartbeat_ack_ok t1 ack peer now Hok1 Hpl) as (Ho & Hf & Es).
    split; [done|]. split; [auto|]. by rewrite Es.
  - destruct (handle_pdu_spec t1 pdu) as (t' & -> & Ho & Ec & _ & Es & Et & _); [by eapply rls_decode_pdu|done|].
    exists 1, t'. split; [done|]. split; [done|]. split; [done|]. split; [|done].
    intros Hf. by apply (fresh_ext t).
  - by exists 1, t1.
  - by exists 0, t1.
Qed.

Lemma receive_loop_ok k inbox t now ev :
  rt_ok t -> Forall recv_ok inbox ->
  exists e t', receive_loop pton gai k inbox t now ev = Some (e, t')
    /\ (e = -1 /\ In RecvError inbox \/ ev <= e <= ev + Z.of_nat k) /\ step_ok now t t'.
Proof.
  revert inbox t ev. induction k as [|k IH]; intros inbox t ev Hok Hi; cbn [receive_loop].
  { exists ev, t. split; [done|]. split; [lia|done]. }
  assert (step_ok now t t) as Hrefl by done.
  destruct inbox as [|[d peer| |] inbox].
  - exists ev, t. split; [done|]. split; [lia|done].
  - apply Forall_cons in Hi as [[Hby Hpl] Hi]. destruct (_ =?n 0); [exists ev, t; split; [done|]; split; [lia|done]|].
    destruct (receive_one_ok t (take tx_size d) peer now) as (e & t1 & -> & He & Ho & Hf & Es);
      [done|by apply Forall_take|done|]. cbn [mbind option_bind].
    destruct (IH inbox t1 (ev + e)) as (e' & t2 & -> & He' & Ho2 & Hf2 & Es2); [done|done|].
    exists e', t2. split; [done|]. split.
    + destruct He' as [[-> Hin]|He']; [left; split; [done|by right]|right; lia].
    + split; [done|]. split; [auto|]. by rewrite Es2.
  - exists ev, t. split; [done|]. split; [lia|done].
  - exists (-1), t. split; [done|]. split; [left; split; [done|by left]|done].
Qed.
End Receive.

Lemma expire_cells_ok t now :
  rt_ok t -> rt_state t <> UE_RAN_TRANSPORT_IDLE ->
  rt_ok (expire_cells t now) /\ fresh (expire_cells t now) now
    /\ rt_state (expire_cells t now) <> UE_RAN_TRANSPORT_IDLE.
Proof.
  intros [Hc Hn Hd Ha Ht Hsti Hnx Hso Had] Hne. pose proof (expire_cells_inv t now Hc) as Hc'.
  assert (exists k s st, expire_cells t now
    = t <| rt_cells := drop_cells (cell_expired t now) (rt_cells t) |> <| rt_cell_count := k |>
        <| rt_serving_cell_id := s |> <| rt_state := st |>
    /\ (st = rt_state t \/ st = UE_RAN_TRANSPORT_LOST)) as (k & s & st & E & Hst).
  { unfold expire_cells, drop_cells, select_best_serving_cell.
    exists (rt_cell_count t - Z.of_nat (length (List.filter (cell_expired t now) (rt_cells t)))).
    destruct (existsb _ _); [destruct (_ <? 0)|].
    - exists (foldl select_step (-999, -1) (drop_cells (cell_expired t now) (rt_cells t))).2, UE_RAN_TRANSPORT_LOST. split; [reflexivity|]. by right.
    - exists (foldl select_step (-999, -1) (drop_cells (cell_expired t now) (rt_cells t))).2, (rt_state t). split; [reflexivity|]. by left.
    - exists (rt_serving_cell_id t), (rt_state t). split; [reflexivity|]. by left. }
  rewrite E in *. split; [split; try done|split].
  - intros _. by apply Hso.
  - intros i c [Hi Hv]. apply (Had i c). split; [apply (drop_cells_lookup _ _ _ _ Hi Hv)|done].
  - intros i c [Hi Hv]. change (drop_cells (cell_expired t now) (rt_cells t) !! i = Some c) in Hi.
    change (u64 (now - cell_last_seen_ms c) <= rt_heartbeat_timeout_ms t).
    destruct (drop_cells_lookup _ _ _ _ Hi Hv) as [_ Hg]. unfold cell_expired in Hg.
    rewrite Hv in Hg. cbn [andb] in Hg. lia.
  - change (st <> UE_RAN_TRANSPORT_IDLE). by destruct Hst as [->| ->].
Qed.

(** ** The tick *)

(** There is a cell to be connected to. *)
Definition cell_heard (t : ue_ran_transport_ctx) : Prop :=
  exists i c, cell_at t i c /\ -999 < cell_dbm c.

Lemma serving_heard t : cells_inv t -> 0 <= rt_serving_cell_id t <-> cell_heard t.
Proof.
  intros [_ _ _ Hi _ [[Hs Hm]|(i & c & Hc & <- & Hd & Hm)]].
  - rewrite Hs. split; [lia|]. intros (i & c & Hc & Hd). specialize (Hm i c Hc). lia.
  - specialize (Hi i c Hc). split; [intros _; by exists i, c|lia].
Qed.

Lemma state_transition_ok t now :
  rt_ok t -> fresh t now -> rt_state t <> UE_RAN_TRANSPORT_IDLE ->
  let t' := state_transition t in
  rt_ok t' /\ fresh t' now /\ rt_state t' <> UE_RAN_TRANSPORT_IDLE
  /\ (rt_state t' = UE_RAN_TRANSPORT_CONNECTED <-> cell_heard t').
Proof.
  intros Hok Hf Hs. cbv zeta.
  assert (exists st, state_transition t = t <| rt_state := st |> /\ st <> UE_RAN_TRANSPORT_IDLE
    /\ (st = UE_RAN_TRANSPORT_CONNECTED <-> 0 <= rt_serving_cell_id t)) as (st & -> & Hst & Hcc).
  { unfold state_transition. destruct (rt_state t) eqn:E; [done| | |];
      destruct (0 <=? rt_serving_cell_id t) eqn:Ez, (rt_serving_cell_id t <? 0) eqn:El;
      try lia; [exists UE_RAN_TRANSPORT_CONNECTED|exists (rt_state t)|exists (rt_state t)
               |exists UE_RAN_TRANSPORT_LOST|exists UE_RAN_TRANSPORT_CONNECTED|exists (rt_state t)];
      (split; [reflexivity|rewrite ?E; split; [done|]; split; done || lia]). }
  pose proof (serving_heard t (ro_cells _ Hok)) as Hh.
  destruct Hok as [Hc Hn Hd Ha Ht Hsti Hnx Hso Had]. split_and!; try done.
  - split; try done; [by apply cells_inv_set_state|]. intros _. by apply Hso.
  - change (st = UE_RAN_TRANSPORT_CONNECTED <-> cell_heard t). by rewrite Hcc.
Qed.

Lemma tick_ok sendto pton gai t inbox now :
  rt_ok t -> Forall recv_ok inbox ->
  exists e t', ue_ran_transport_tick sendto pton gai t inbox now = Some (e, t') /\ rt_ok t'
  /\ (rt_state t = UE_RAN_TRANSPORT_IDLE -> e = 0 /\ t' = t)
  /\ (rt_state t <> UE_RAN_TRANSPORT_IDLE ->
       e = -1 /\ In RecvError inbox
       \/ 0 <= e <= 65 /\ fresh t' now /\ rt_state t' <> UE_RAN_TRANSPORT_IDLE
          /\ (rt_state t' = UE_RAN_TRANSPORT_CONNECTED <-> cell_heard t')).
Proof.
  intros Hok Hi. unfold ue_ran_transport_tick.
  destruct (decide (rt_state t = UE_RAN_TRANSPORT_IDLE)) as [Hs|Hs].
  { rewrite bool_decide_true by done. by exists 0, t. }
  rewrite bool_decide_false by done. cbv zeta.
  destruct (expire_cells_ok t now Hok Hs) as (Ho1 & Hf1 & Hs1).
  set (t1 := expire_cells t now) in *. clearbody t1.
  match goal with |- context [if ?c then ?a else Some (0, t1)] =>
    assert (exists e t2, (if c then a else Some (0, t1)) = Some (e, t2) /\ 0 <= e <= 1
      /\ rt_ok t2 /\ fresh t2 now /\ rt_state t2 = rt_state t1) as (e & t2 & -> & He & Ho2 & Hf2 & Hs2)
  end.
  { destruct (_ || _); [|by exists 0, t1].
    destruct (send_heartbeats_frame sendto pton gai t1 now) as (tr & b & ->).
    eexists 1, _. split; [reflexivity|]. split; [done|]. split; [|done].
    destruct Ho1 as [Hc ? ? ? ? ? ? Hso ?]. split; try done. by apply (cells_inv_ext t1). }
  cbn [mbind option_bind]. unfold receive_pending.
  match goal with |- context [if ?c then ?a else receive_loop pton gai 64 inbox t2 now 0] =>
    assert (exists rx t3, (if c then a else receive_loop pton gai 64 inbox t2 now 0) = Some (rx, t3)
      /\ (rx = -1 /\ In RecvError inbox \/ 0 <= rx <= 64) /\ step_ok now t2 t3)
    as (rx & t3 & -> & Hrx & Ho3 & Hf3 & Hs3)
  end.
  { destruct (_ <? 0); [exists 0, t2; split; [done|]; split; [lia|done]|].
    destruct (receive_loop_ok pton gai 64 inbox t2 now 0 Ho2 Hi) as (rx & t3 & E & Hrx & H3).
    exists rx, t3. split; [done|]. split; [|done].
    destruct Hrx as [Hrx|Hrx]; [by left|right; lia]. }
  cbn [mbind option_bind]. destruct (rx <? 0) eqn:Er.
  { exists (-1), t3. split; [done|]. split; [done|]. split; [done|]. intros _. left.
    destruct Hrx as [[_ Hin]|]; [done|lia]. }
  match goal with |- context [if ?c then ?a else Some t3] =>
    assert (exists t4, (if c then a else Some t3) = Some t4
      /\ rt_ok t4 /\ fresh t4 now /\ rt_state t4 = rt_state t3) as (t4 & -> & Ho4 & Hf4 & Hs4)
  end.
  { destruct (_ && _) eqn:Eg; [|exists t3; auto].
    destruct (send_pending_acks_frame sendto t3 now) as (tr & b & ->).
    - apply Ho3.
    - intros En. rewrite En in Eg. discriminate Eg.
    - eexists. split; [reflexivity|]. split; [|split; [|done]].
      + destruct Ho3 as [Hc ? ? ? ? ? ? Hso ?]. split; try done; [by apply (cells_inv_ext t3)|cbn; lia].
      + apply (fresh_ext t3); auto. }
  cbn [mbind option_bind].
  destruct (state_transition_ok t4 now Ho4 Hf4) as (Ho5 & Hf5 & Hs5 & Hc5);
    [by rewrite Hs4, Hs3, Hs2|].
  exists (e + rx), (state_transition t4). split; [done|]. split; [done|]. split; [done|].
  intros _. right. split; [lia|done].
Qed.

(** ** Sending *)

Lemma serving_addr_spec t a :
  serving_addr t = Some a ->
  exists i c, cell_at t i c /\ cell_id c = rt_serving_cell_id t /\ cell_addr c = a.
Proof.
  unfold serving_addr. pose proof (find_cell_by_id_spec t (rt_serving_cell_id t)) as Hf.
  destruct (find_cell_by_id _ _) as [i|]; cbn [mbind option_bind]; [|done].
  destruct Hf as (c & [Hc Hv] & Hid). rewrite Hc. cbn [mbind option_bind].
  destruct (_ && _); [|done]. intros [= <-]. exists i, c. done.
Qed.

Lemma len32_small pdu : Z.of_nat (length pdu) <= 16384 -> len32 pdu = length pdu.
Proof. intros. unfold len32. rewrite u32_small by lia. lia. Qed.

(** The encoder answers for every length, also one that wraps. *)
Lemma encoded_any sti ty id payload pdu :
  0 <= ty < 256 ->
  exists n d, encoded (ue_rls_encode_pdu_transmission tx_buf tx_size sti ty id payload (Some pdu)
    (len32 pdu)) = Some (n, d).
Proof.
  intros Ht. assert (len32 pdu <= length pdu)%nat as Hl
    by (unfold len32, u32; pose proof (Z.mod_le (Z.of_nat (length pdu)) 4294967296); lia).
  set (k := len32 pdu) in *. clearbody k.
  destruct (decide (Z.of_nat k <= 16384)) as [Hk|Hk].
  - assert (ue_rls_encode_pdu_transmission tx_buf tx_size sti ty id payload (Some pdu) k
      = ue_rls_encode_pdu_transmission tx_buf tx_size sti ty id payload (Some (take k pdu))
          (length (take k pdu))) as ->.
    { rewrite length_take, Nat.min_l by done. unfold ue_rls_encode_pdu_transmission.
      rewrite !slice_in by (rewrite ?length_take; lia).
      by rewrite !drop_0, take_take, Nat.min_id. }
    rewrite encoded_pdu by (rewrite ?length_take; lia). eauto.
  - unfold ue_rls_encode_pdu_transmission, run_w, tx_buf, UE_RLS_MAX_PDU_SIZE.
    replace (16384 <? _) with true by lia. cbv zeta. destruct (_ <?n _); eexists _, _; reflexivity.
Qed.

(** A datagram on the wire decodes to the PDU it carries. *)
Lemma pdu_wire_decodes sti ty id ch pdu :
  ty = UE_RLS_PDU_TYPE_RRC \/ ty = UE_RLS_PDU_TYPE_DATA -> 0 <= sti < 2 ^ 64 -> 0 <= id < 2 ^ 32 -> 0 <= ch < 2 ^ 32 ->
  pdu <> [] -> Z.of_nat (length pdu) <= 16384 ->
  let d := rls_pdu_wire sti ty id ch pdu in
  ue_rls_decode (Some d) (length d)
  = Some (Some (RlsPduTx (PduTransmission sti ty id ch (Some pdu)
      (Z.of_nat (length pdu))))).
Proof.
  intros Hty Hs Hi Hc Hne Hl. cbv zeta. assert (0 <= ty < 256) as Hty' by (destruct Hty; subst; done). set (d := rls_pdu_wire _ _ _ _ _).
  assert (length d = 26 + length pdu)%nat as Hd
    by (unfold d, rls_pdu_wire, rls_header_wire; vlia).
  set (b := replicate (26 + length pdu) 0).
  assert (length b = 26 + length pdu)%nat as Hb by (unfold b; by rewrite length_replicate).
  destruct (pdu_decodes_back b (26 + length pdu) sti ty id ch pdu)
    as (b' & E & _ & Hdec); try done; try lia.
  rewrite encode_pdu_wire in E by (rewrite ?Hb; done || lia). injection E as <-.
  rewrite Hd. fold d in Hdec. unfold over in Hdec. rewrite drop_ge, app_nil_r in Hdec by lia.
  rewrite Hdec. by destruct pdu.
Qed.

Section Sending.
Variable sendto : nat -> sockaddr -> bytes -> Z.

(** The state after a PDU was given to [sendto] as the datagram [d]. *)
Lemma rt_send_nas_pdu_sends t pdu channel a :
  Z.of_nat (length pdu) <= 16384 -> pdu <> [] -> rt_state t = UE_RAN_TRANSPORT_CONNECTED ->
  0 <= rt_serving_cell_id t -> serving_addr t = Some a ->
  let d := rls_pdu_wire (rt_sti t) UE_RLS_PDU_TYPE_RRC (rt_next_pdu_id t) channel pdu in
  exists r tr b k, rt_send_nas_pdu sendto t pdu channel
    = Some (r, t <| rt_next_pdu_id := u32 (rt_next_pdu_id t + 1) |> <| net_trace := tr |>
                 <| rt_tx_bytes := b |> <| rt_tx_pdu_count := k |>)
  /\ (0 <= rt_socket_fd t ->
       tr = net_trace t ++ [(a, d)] /\ (0 <= sendto (length (net_trace t)) a d -> r = 0)).
Proof.
  intros Hp Hne Hc Hs Ha. unfold rt_send_nas_pdu. cbv zeta. rewrite Hc, Ha.
  replace (length pdu =?n 0) with false by (destruct pdu; [done|cbn; lia]).
  rewrite bool_decide_true by done. replace (_ || _) with false by (cbn [negb orb]; lia).
  set (t1 := t <| rt_next_pdu_id := _ |>).
  change (rt_sti t1) with (rt_sti t). rewrite len32_small, encoded_pdu by (done || lia).
  cbn [mbind option_bind]. replace (_ <=? 0) with false by lia.
  set (d := rls_pdu_wire _ _ _ _ _). unfold send_to_addr.
  change (rt_socket_fd t1) with (rt_socket_fd t).
  change (length (net_trace t1)) with (length (net_trace t)).
  destruct (rt_socket_fd t <? 0) eqn:Ef; cbv zeta.
  { exists (-1), (net_trace t), (rt_tx_bytes t), (rt_tx_pdu_count t). split; [done|lia]. }
  destruct (sendto _ a d <? 0) eqn:Er.
  - exists (-1), (net_trace t ++ [(a, d)]), (rt_tx_bytes t), (rt_tx_pdu_count t).
    split; [done|]. intros _. split; [done|lia].
  - exists 0, (net_trace t ++ [(a, d)]), (u64 (rt_tx_bytes t + sendto (length (net_trace t)) a d)),
      (u64 (rt_tx_pdu_count t + 1)). done.
Qed.

Lemma rt_send_nas_frame t pdu channel :
  exists r n tr b k, rt_send_nas_pdu sendto t pdu channel
    = Some (r, t <| rt_next_pdu_id := n |> <| net_trace := tr |> <| rt_tx_bytes := b |>
                 <| rt_tx_pdu_count := k |>)
  /\ (n = rt_next_pdu_id t \/ n = u32 (rt_next_pdu_id t + 1)).
Proof.
  assert (exists r n tr b k, Some (-1, t)
    = Some (r, t <| rt_next_pdu_id := n |> <| net_trace := tr |> <| rt_tx_bytes := b |>
                 <| rt_tx_pdu_count := k |>)
    /\ (n = rt_next_pdu_id t \/ n = u32 (rt_next_pdu_id t + 1))) as Hsame.
  { exists (-1), (rt_next_pdu_id t), (net_trace t), (rt_tx_bytes t), (rt_tx_pdu_count t).
    split; [reflexivity|by left]. }
  unfold rt_send_nas_pdu. destruct (_ =?n 0); [done|]. destruct (_ || _); [done|].
  destruct (serving_addr t) as [a|]; [|done]. cbv zeta.
  set (t1 := t <| rt_next_pdu_id := _ |>).
  destruct (encoded_any (rt_sti t1) UE_RLS_PDU_TYPE_RRC (rt_next_pdu_id t) channel pdu)
    as (n & d & ->); [done|]. cbn [mbind option_bind].
  destruct (n <=? 0).
  { exists (-1), (u32 (rt_next_pdu_id t + 1)), (net_trace t), (rt_tx_bytes t), (rt_tx_pdu_count t).
    split; [reflexivity|by right]. }
  destruct (send_to_addr_frame sendto t1 a d) as (tr & b & E).
  destruct (send_to_addr sendto t1 a d) as [r t2]. cbn [snd] in E. subst t2.
  destruct (r <? 0).
  - exists (-1), (u32 (rt_next_pdu_id t + 1)), tr, b, (rt_tx_pdu_count t).
    split; [reflexivity|by right].
  - exists 0, (u32 (rt_next_pdu_id t + 1)), tr, b, (u64 (rt_tx_pdu_count t + 1)).
    split; [reflexivity|by right].
Qed.

Lemma rt_send_nas_ok t pdu ch :
  rt_ok t -> exists r t', rt_send_nas_pdu sendto t pdu ch = Some (r, t') /\ rt_ok t'.
Proof.
  intros Hok. destruct (rt_send_nas_frame t pdu ch) as (r & n & tr & b & k & E & Hn). rewrite E.
  eexists _, _. split; [reflexivity|]. destruct Hok as [Hc ? ? ? ? ? ? Hso ?].
  split; try done; [by apply (cells_inv_ext t)|].
  change (0 <= n < 2 ^ 32). destruct Hn as [->| ->]; [done|apply u32_range].
Qed.

(** A connected transport that heard a cell serves the strongest one. *)
Lemma serving_strongest t :
  rt_ok t -> rt_state t = UE_RAN_TRANSPORT_CONNECTED -> cell_heard t ->
  exists i c, cell_at t i c /\ (forall j e, cell_at t j e -> cell_dbm e <= cell_dbm c)
    /\ serving_addr t = Some (cell_addr c) /\ 0 <= rt_serving_cell_id t /\ 0 <= rt_socket_fd t.
Proof.
  clear sendto. intros Hok Hs Hh. pose proof (proj2 (serving_heard t (ro_cells _ Hok)) Hh) as Hsv.
  destruct (ci_serving _ (ro_cells _ Hok)) as [[E _]|(i & c & Hc & Hid & _ & Hbest)]; [lia|].
  pose proof (ro_socket _ Hok) as Hso. rewrite Hs in Hso. specialize (Hso ltac:(done)).
  exists i, c. split_and!; [exact Hc|exact Hbest| |exact Hsv|exact Hso].
  unfold serving_addr. pose proof (find_cell_by_id_spec t (rt_serving_cell_id t)) as Hf.
  destruct (find_cell_by_id _ _) as [j|]; [|by destruct (Hf i c Hc)].
  destruct Hf as (d & Hd & Hdid). cbn [mbind option_bind].
  assert (j = i) as -> by (apply (ci_distinct _ (ro_cells _ Hok) j i d c Hd Hc); left; congruence).
  destruct Hc as [Hci Hcv]. rewrite Hci. cbn [mbind option_bind].
  pose proof (ro_addr _ Hok i c (conj Hci Hcv)).
  by replace (_ && _) with true by lia.
Qed.

(** A packet of a session leaves in one datagram, to the strongest cell. *)
Lemma rt_send_data_on_air t psi pkt :
  rt_ok t -> rt_state t = UE_RAN_TRANSPORT_CONNECTED -> cell_heard t -> 1 <= psi <= 15 ->
  pkt <> [] -> Z.of_nat (length pkt) <= 16384 ->
  exists i c r t' d, cell_at t i c /\ (forall j e, cell_at t j e -> cell_dbm e <= cell_dbm c)
    /\ ue_ran_transport_send_data_pdu sendto t psi pkt = Some (r, t')
    /\ net_trace t' = net_trace t ++ [(cell_addr c, d)]
    /\ ue_rls_decode (Some d) (length d)
       = Some (Some (RlsPduTx (PduTransmission (rt_sti t) UE_RLS_PDU_TYPE_DATA 0 psi
           (Some pkt) (Z.of_nat (length pkt)))))
    /\ (0 <= sendto (length (net_trace t)) (cell_addr c) d -> r = 0).
Proof.
  intros Hok Hs Hh Hpsi Hne Hl.
  destruct (serving_strongest t Hok Hs Hh) as (i & c & Hc & Hbest & Ha & Hsv & Hso).
  unfold ue_ran_transport_send_data_pdu. rewrite Hs, Ha.
  replace (length pkt =?n 0) with false by (destruct pkt; [done|cbn; lia]).
  replace ((psi <? 1) || (15 <? psi)) with false by lia.
  rewrite bool_decide_true by done. replace (_ || _) with false by (cbn [negb orb]; lia).
  rewrite len32_small, encoded_pdu by (done || lia).
  cbn [mbind option_bind]. replace (_ <=? 0) with false by lia.
  set (d := rls_pdu_wire _ _ _ _ _). unfold send_to_addr.
  replace (rt_socket_fd t <? 0) with false by lia.
  assert (ue_rls_decode (Some d) (length d)
    = Some (Some (RlsPduTx (PduTransmission (rt_sti t) UE_RLS_PDU_TYPE_DATA 0 psi (Some pkt) (Z.of_nat (length pkt))))))
    as Hd by (apply pdu_wire_decodes; try done; first [by right|apply Hok|lia]).
  destruct (sendto _ _ d <? 0) eqn:Er; cbv zeta;
    (eexists i, c, _, _, d; split; [done|]; split; [done|]; split; [reflexivity|]; split; [reflexivity|];
     split; [exact Hd|]); [lia|done].
Qed.

Lemma rt_send_nas_on_air t pdu ch :
  rt_ok t -> rt_state t = UE_RAN_TRANSPORT_CONNECTED -> cell_heard t ->
  pdu <> [] -> Z.of_nat (length pdu) <= 16384 -> 0 <= ch < 2 ^ 32 ->
  exists i c r t' d, cell_at t i c /\ (forall j e, cell_at t j e -> cell_dbm e <= cell_dbm c)
    /\ rt_send_nas_pdu sendto t pdu ch = Some (r, t')
    /\ net_trace t' = net_trace t ++ [(cell_addr c, d)]
    /\ ue_rls_decode (Some d) (length d)
       = Some (Some (RlsPduTx (PduTransmission (rt_sti t) UE_RLS_PDU_TYPE_RRC (rt_next_pdu_id t) ch
           (Some pdu) (Z.of_nat (length pdu)))))
    /\ rt_next_pdu_id t' = u32 (rt_next_pdu_id t + 1)
    /\ (0 <= sendto (length (net_trace t)) (cell_addr c) d -> r = 0).
Proof.
  intros Hok Hs Hh Hne Hl Hch.
  destruct (serving_strongest t Hok Hs Hh) as (i & c & Hc & Hbest & Ha & Hsv & Hso).
  destruct (rt_send_nas_pdu_sends t pdu ch (cell_addr c) Hl Hne Hs Hsv Ha)
    as (r & tr & b & k & E & Htr). destruct (Htr Hso) as [-> Hr].
  eexists i, c, r, _, _. split; [done|]. split; [done|]. split; [exact E|].
  split; [reflexivity|]. split; [|split; [done|exact Hr]].
  apply pdu_wire_decodes; try done; [by left|apply Hok..].
Qed.

End Sending.

Lemma send_data_frame sendto t psi data :
  exists r tr b k, ue_ran_transport_send_data_pdu sendto t psi data
    = Some (r, t <| net_trace := tr |> <| rt_tx_bytes := b |> <| rt_tx_pdu_count := k |>).
Proof.
  assert (forall r : Z, exists r' tr b k, Some (r, t)
    = Some (r', t <| net_trace := tr |> <| rt_tx_bytes := b |> <| rt_tx_pdu_count := k |>)) as Hsame
    by (intros r; exists r, (net_trace t), (rt_tx_bytes t), (rt_tx_pdu_count t); reflexivity).
  unfold ue_ran_transport_send_data_pdu.
  destruct (_ =?n 0); [apply Hsame|]. destruct (_ || _); [apply Hsame|].
  destruct (_ || _); [apply Hsame|]. destruct (serving_addr t) as [a|]; [|apply Hsame].
  destruct (encoded_any (rt_sti t) UE_RLS_PDU_TYPE_DATA 0 psi data) as (n & d & ->); [done|].
  cbn [mbind option_bind]. destruct (_ <=? 0); [apply Hsame|].
  destruct (send_to_addr_frame sendto t a d) as (tr & b & E).
  destruct (send_to_addr sendto t a d) as [r t1]. cbn [snd] in E. subst t1.
  destruct (r <? 0).
  - exists (-1), tr, b, (rt_tx_pdu_count t). reflexivity.
  - exists 0, tr, b, (u64 (rt_tx_pdu_count t + 1)). reflexivity.
Qed.

(** ** The receive queues as a specification *)

(** The messages queued, oldest first: a channel or a PDU session, and bytes. *)
Record rx_spec := RxSpec { spec_nas : list (Z * bytes); spec_data : list (Z * bytes) }.

Definition entry_bytes (e : ue_ran_rx_entry) : bytes := take (Z.to_nat (rx_len e)) (rx_data e).
Definition rx_view (t : ue_ran_transport_ctx) : rx_spec :=
  RxSpec ((fun e => (rx_rrc_channel e, entry_bytes e)) <$> ring_list (rt_nas_queue t))
         ((fun e => (rx_psi e, entry_bytes e)) <$> ring_list (rt_data_queue t)).

(** At most 31 messages, and 8192 bytes of each. *)
Definition spec_push (m : Z * bytes) (l : list (Z * bytes)) : list (Z * bytes) :=
  if length l <?n 31 then l ++ [m] else l.
Definition spec_enqueue (pdu : ue_rls_pdu_transmission) (s : rx_spec) : rx_spec :=
  let data := queued_bytes pdu in
  if pt_pdu_type pdu =? UE_RLS_PDU_TYPE_RRC
  then RxSpec (spec_push (pt_payload pdu, data) (spec_nas s)) (spec_data s)
  else if pt_pdu_type pdu =? UE_RLS_PDU_TYPE_DATA
  then RxSpec (spec_nas s) (spec_push (s32 (pt_payload pdu), data) (spec_data s))
  else s.

Lemma queued_entry_view pdu :
  entry_bytes (queued_entry pdu) = queued_bytes pdu
  /\ rx_rrc_channel (queued_entry pdu)
     = (if pt_pdu_type pdu =? UE_RLS_PDU_TYPE_RRC then pt_payload pdu else 0)
  /\ rx_psi (queued_entry pdu)
     = (if pt_pdu_type pdu =? UE_RLS_PDU_TYPE_RRC then 0 else s32 (pt_payload pdu)).
Proof.
  split; [|done]. unfold entry_bytes, queued_entry.
  change (rx_len (fill_entry _ _ _ _ ?n _)) with n.
  set (z := zero_entry <| rx_valid := true |>).
  change (rx_data (fill_entry _ _ _ ?d _ z)) with (d ++ drop (length d) (rx_data z)).
  rewrite Nat2Z.id. by rewrite take_app_length.
Qed.

Lemma handle_pdu_refines t pdu :
  rt_ok t -> pdu_ok pdu ->
  exists t', handle_pdu_transmission t pdu = Some t' /\ rt_ok t'
    /\ rx_view t' = spec_enqueue pdu (rx_view t).
Proof.
  intros Hok Hp. destruct (handle_pdu_spec t pdu Hp Hok)
    as (t' & E & Hok' & _ & _ & _ & _ & _ & _ & Hn & Hd).
  exists t'. split; [done|]. split; [done|]. unfold rx_view, spec_enqueue, spec_push.
  cbn [spec_nas spec_data]. rewrite Hn, Hd, !length_fmap, !fmap_app. clear Hn Hd.
  destruct (queued_entry_view pdu) as (Eb & Ec & Ep).
  destruct (pt_pdu_type pdu =? UE_RLS_PDU_TYPE_RRC) eqn:Er.
  - replace (pt_pdu_type pdu =? UE_RLS_PDU_TYPE_DATA) with false
      by (unfold UE_RLS_PDU_TYPE_RRC, UE_RLS_PDU_TYPE_DATA in *; lia).
    cbn [andb fmap list_fmap]. rewrite app_nil_r. f_equal.
    destruct (_ <?n 31); cbn [fmap list_fmap]; [by rewrite Ec, Eb|by rewrite app_nil_r].
  - cbn [andb]. rewrite fmap_nil, app_nil_r.
    destruct (pt_pdu_type pdu =? UE_RLS_PDU_TYPE_DATA); cbn [andb].
    + f_equal. destruct (_ <?n 31); cbn [fmap list_fmap]; [|by rewrite app_nil_r].
      rewrite Eb. exact (f_equal (fun m => _ ++ [(m, _)]) Ep).
    + by rewrite fmap_nil, app_nil_r.
Qed.

(** Taking the head of a queue into a caller's buffer of [n] bytes. *)
Lemma queue_take q e l (b : bytes) n :
  queue_ok q -> ring_list q = e :: l -> (0 < n <= length b)%nat -> Z.of_nat n < 2 ^ 32 ->
  rx_queue_peek q = Some e /\ queue_ok (rx_queue_pop q) /\ ring_list (rx_queue_pop q) = l
  /\ exists k, (if rx_len e <=? u32 (Z.of_nat n) then rx_len e else u32 (Z.of_nat n)) = Z.of_nat k
     /\ k = length (take n (entry_bytes e))
     /\ slice (rx_data e) 0 (Z.to_nat (Z.of_nat k)) = Some (take n (entry_bytes e))
     /\ (length b <?n k) = false.
Proof.
  intros [Hr He] Hl Hn Hn2. destruct (rx_queue_pop_spec q e l Hr Hl) as (Hp & Hr' & Hl').
  split; [done|]. split; [by split|]. split; [done|].
  assert (entry_ok e) as [Hd Hlen].
  { unfold rx_queue_peek in Hp. destruct (rx_queue_empty _ _); [done|]. by eapply Forall_lookup_1. }
  unfold entry_bytes, UE_RAN_RX_PDU_MAX in *. rewrite u32_small by lia.
  exists (n `min` Z.to_nat (rx_len e))%nat. rewrite !length_take, take_take.
  split_and!.
  - destruct (_ <=? _) eqn:E; lia.
  - lia.
  - rewrite Nat2Z.id, slice_in by lia. by rewrite drop_0.
  - lia.
Qed.

Lemma recv_nas_refines t b n :
  rt_ok t -> (0 < n <= length b)%nat -> Z.of_nat n < 2 ^ 32 ->
  match spec_nas (rx_view t) with
  | [] => ue_ran_transport_recv_nas_pdu t (Some b) n = Some (0, Some b, None, t)
  | (ch, p) :: rest =>
    exists t', ue_ran_transport_recv_nas_pdu t (Some b) n
        = Some (Z.of_nat (length (take n p)), Some (over (take n p) b), Some ch, t')
      /\ rt_ok t' /\ rx_view t' = RxSpec rest (spec_data (rx_view t))
  end.
Proof.
  intros Hok Hn Hn2. unfold ue_ran_transport_recv_nas_pdu, rx_view. cbn [spec_nas spec_data].
  replace (n =?n 0) with false by lia. pose proof (ro_nas _ Hok) as Hq.
  destruct (ring_list (rt_nas_queue t)) as [|e l] eqn:El; cbn [fmap list_fmap].
  - destruct (rx_queue_full_spec _ (queue_ring _ Hq)) as [_ Hemp]. rewrite El in Hemp.
    unfold rx_queue_peek. by rewrite Hemp.
  - destruct (queue_take _ e l b n Hq El Hn Hn2) as (-> & Hq' & Hl' & k & -> & -> & Hs & Hb).
    rewrite Hs. cbn [mbind option_bind]. rewrite Hb. eexists. split; [reflexivity|].
    split; [destruct Hok as [Hc ? ? ? ? ? ? Hso ?]; split; try done; by apply (cells_inv_ext t)|].
    unfold rx_view. f_equal. exact (f_equal (fmap (M := list) _) Hl').
Qed.

Lemma recv_data_refines t b n :
  rt_ok t -> (0 < n <= length b)%nat -> Z.of_nat n < 2 ^ 32 ->
  match spec_data (rx_view t) with
  | [] => ue_ran_transport_recv_data_pdu t (Some b) n = Some (0, Some b, None, t)
  | (psi, p) :: rest =>
    exists t', ue_ran_transport_recv_data_pdu t (Some b) n
        = Some (Z.of_nat (length (take n p)), Some (over (take n p) b), Some psi, t')
      /\ rt_ok t' /\ rx_view t' = RxSpec (spec_nas (rx_view t)) rest
  end.
Proof.
  intros Hok Hn Hn2. unfold ue_ran_transport_recv_data_pdu, rx_view. cbn [spec_nas spec_data].
  replace (n =?n 0) with false by lia. pose proof (ro_data _ Hok) as Hq.
  destruct (ring_list (rt_data_queue t)) as [|e l] eqn:El; cbn [fmap list_fmap].
  - destruct (rx_queue_full_spec _ (queue_ring _ Hq)) as [_ Hemp]. rewrite El in Hemp.
    unfold rx_queue_peek. by rewrite Hemp.
  - destruct (queue_take _ e l b n Hq El Hn Hn2) as (-> & Hq' & Hl' & k & -> & -> & Hs & Hb).
    rewrite Hs. cbn [mbind option_bind]. rewrite Hb. eexists. split; [reflexivity|].
    split; [destruct Hok as [Hc ? ? ? ? ? ? Hso ?]; split; try done; by apply (cells_inv_ext t)|].
    unfold rx_view. f_equal. exact (f_equal (fmap (M := list) _) Hl').
Qed.

(** ** Reachable states *)

Section Reach.
Variable sendto : nat -> sockaddr -> bytes -> Z.
Variable (pton : bytes -> option Z) (gai : bytes -> option sockaddr).

(** The calls the engine and the receive thread make, with buffers as large as
    announced. *)
Inductive rt_step (t : ue_ran_transport_ctx) : ue_ran_transport_ctx -> Prop :=
| rs_add_gnb a port : rt_step t (ue_ran_transport_add_gnb t a port).2
| rs_configure l port : rt_step t (ue_ran_transport_configure t l port).2
| rs_refresh_sti r1 r2 : rt_step t (ue_ran_transport_refresh_sti t r1 r2)
| rs_start fd : rt_step t (ue_ran_transport_start t fd).2
| rs_stop : rt_step t (ue_ran_transport_stop t)
| rs_tick inbox now e t' :
    Forall recv_ok inbox -> ue_ran_transport_tick sendto pton gai t inbox now = Some (e, t') ->
    rt_step t t'
| rs_send_nas pdu ch r t' : rt_send_nas_pdu sendto t pdu ch = Some (r, t') -> rt_step t t'
| rs_send_data psi d r t' :
    ue_ran_transport_send_data_pdu sendto t psi d = Some (r, t') -> rt_step t t'
| rs_recv_nas b n o t' :
    (0 < n <= length b)%nat -> Z.of_nat n < 2 ^ 32 ->
    ue_ran_transport_recv_nas_pdu t (Some b) n = Some (o, t') -> rt_step t t'
| rs_recv_data b n o t' :
    (0 < n <= length b)%nat -> Z.of_nat n < 2 ^ 32 ->
    ue_ran_transport_recv_data_pdu t (Some b) n = Some (o, t') -> rt_step t t'.

Inductive rt_reachable : ue_ran_transport_ctx -> Prop :=
| rt_reach_init r1 r2 trace : rt_reachable (ue_ran_transport_init r1 r2 trace)
| rt_reach_step t t' : rt_reachable t -> rt_step t t' -> rt_reachable t'.

Lemma no_cell_at t i c : rt_cells t = no_cells -> ~ cell_at t i c.
Proof.
  intros Hc [Hi Hv]. rewrite Hc in Hi. apply lookup_replicate in Hi as [-> _]. discriminate Hv.
Qed.

Lemma empty_cells_inv t :
  rt_cells t = no_cells -> rt_cell_count t = 0 -> rt_serving_cell_id t = -1 ->
  1 <= rt_next_cell_id t -> cells_inv t.
Proof.
  intros Hc Hn Hs Hx.
  assert (forall i c, ~ cell_at t i c) as Hno by (intros; by apply no_cell_at).
  split; try done.
  - by rewrite Hc.
  - by rewrite Hn, Hc.
  - intros i c H. by destruct (Hno i c).
  - intros i j c d H. by destruct (Hno i c).
  - left. split; [done|]. intros i c H. by destruct (Hno i c).
Qed.

Lemma ring_reset_ok q : queue_ok q -> queue_ok (rx_queue_reset q).
Proof. intros [[Hl _ _] He]. split; [|done]. split; [done|cbv; lia..]. Qed.

Lemma empty_ring_ok : queue_ok empty_ring.
Proof.
  split; [split; [done|cbv; lia..]|]. cbn [empty_ring q_slots]. apply Forall_replicate.
  split; [|done]. change (rx_data zero_entry) with (replicate (Z.to_nat UE_RAN_RX_PDU_MAX) 0).
  rewrite length_replicate. unfold UE_RAN_RX_PDU_MAX. lia.
Qed.

Lemma make_sti_range r1 r2 : 0 <= make_sti r1 r2 < 2 ^ 64.
Proof.
  unfold make_sti. pose proof (u32_range r1). pose proof (u32_range r2).
  rewrite lor_shiftl_add by lia. lia.
Qed.

Lemma init_ok r1 r2 trace : rt_ok (ue_ran_transport_init r1 r2 trace).
Proof.
  split; try done; [by apply empty_cells_inv|apply empty_ring_ok..|cbn; lia|apply make_sti_range|].
  intros i c H. by apply no_cell_at in H.
Qed.

Lemma add_gnb_ok t a port : rt_ok t -> rt_ok (ue_ran_transport_add_gnb t a port).2.
Proof.
  intros Hok. unfold ue_ran_transport_add_gnb. destruct a as [a|]; [|done].
  destruct (_ <=?n _); [done|]. destruct Hok as [Hc ? ? ? ? ? ? Hso ?]. split; try done.
  by apply (cells_inv_ext t).
Qed.

Lemma add_gnbs_ok l t port : rt_ok t -> rt_ok (add_gnbs t l port).2.
Proof.
  revert t. induction l as [|a l IH]; intros t Hok; cbn [add_gnbs]; [done|].
  set (p := if port =? 0 then UE_RAN_DEFAULT_RLS_PORT else port). pose proof (add_gnb_ok t a p Hok) as H.
  destruct (ue_ran_transport_add_gnb t a p) as [r t1]. destruct (r <? 0); [done|by apply IH].
Qed.

Lemma rt_step_ok t t' : rt_ok t -> rt_step t t' -> rt_ok t'.
Proof.
  intros Hok H.
  destruct H as [a p|l p|r1 r2|fd| |inbox now e t' Hi E|pdu ch r t' E|psi d r t' E
                |b n o t' Hn Hn2 E|b n o t' Hn Hn2 E].
  - by apply add_gnb_ok.
  - unfold ue_ran_transport_configure. destruct l as [[|a l]|]; [done| |done].
    by apply add_gnbs_ok.
  - destruct Hok as [Hc ? ? ? ? ? ? Hso ?].
    split; try done; [by apply (cells_inv_ext t)|apply make_sti_range].
  - unfold ue_ran_transport_start. destruct (rt_gnb_list t); [done|]. destruct (fd <? 0) eqn:Efd; [done|].
    destruct Hok as [Hc ? ? ? ? ? ? Hso ?].
    split; try done; [|by apply ring_reset_ok..|cbn; lia|intros _; cbn; lia|].
    + apply empty_cells_inv; try done. apply Hc.
    + intros i c H. by apply no_cell_at in H.
  - destruct Hok as [Hc ? ? ? ? ? ? Hso ?]. split; try done; [|by apply ring_reset_ok..|cbn; lia|].
    + apply empty_cells_inv; try done. apply Hc.
    + intros i c H. by apply no_cell_at in H.
  - destruct (tick_ok sendto pton gai t inbox now Hok Hi) as (e' & t1 & E' & Ho & _). congruence.
  - destruct (rt_send_nas_ok sendto t pdu ch Hok) as (r' & t1 & E' & Ho). congruence.
  - destruct (send_data_frame sendto t psi d) as (r' & tr & b & k & E'). rewrite E' in E.
    injection E as _ <-. destruct Hok as [Hc ? ? ? ? ? ? Hso ?]. split; try done. by apply (cells_inv_ext t).
  - pose proof (recv_nas_refines t b n Hok Hn Hn2) as H.
    destruct (spec_nas (rx_view t)) as [|[ch p] rest]; [rewrite H in E; injection E as _ <-; done|].
    destruct H as (t1 & E1 & Ho & _). rewrite E1 in E. injection E as _ <-. done.
  - pose proof (recv_data_refines t b n Hok Hn Hn2) as H.
    destruct (spec_data (rx_view t)) as [|[ch p] rest]; [rewrite H in E; injection E as _ <-; done|].
    destruct H as (t1 & E1 & Ho & _). rewrite E1 in E. injection E as _ <-. done.
Qed.

Lemma rt_reachable_ok t : rt_reachable t -> rt_ok t.
Proof. induction 1 as [r1 r2 tr|t t' _ IH Hs]; [apply init_ok|by eapply rt_step_ok]. Qed.

End Reach.

Section Interface.
Variable sendto : nat -> sockaddr -> bytes -> Z.

(** The transport implements the interface of the adapter. *)
#[export] Instance ran_transport_sender : RanSender ue_ran_transport_ctx := {|
  ue_ran_transport_send_nas_pdu := rt_send_nas_pdu sendto |}.
#[export] Instance ran_transport_safe : SafeSender ue_ran_transport_ctx.
Proof.
  refine {| sender_ok := rt_ok |}. intros t pdu ch Hok.
  destruct (rt_send_nas_ok sendto t pdu ch Hok) as (r & t' & E & Ho). exists r, t'. split; [exact E|exact Ho].
Defined.
End Interface.

(** ** Claims *)

(** C16: the invariant of the transport.  In every state the engine's calls and
    the receive thread's ticks reach, whatever datagrams arrive, the cell table
    holds at most one entry per gNB identity, its counter is the number of cells
    in use, the serving cell is the strongest cell in use (none when no cell is
    above -999 dBm), both receive rings are well formed with PDUs of at most 8192
    bytes, and at most 64 acknowledgements are pending. *)
Theorem rt_reachable_invariant sendto pton gai t :
  rt_reachable sendto pton gai t ->
  cells_inv t /\ queue_ok (rt_nas_queue t) /\ queue_ok (rt_data_queue t)
  /\ (length (rt_pending_ack_ids t) <= UE_RAN_PENDING_ACK_MAX)%nat.
Proof. intros H. by destruct (rt_reachable_ok _ _ _ _ H). Qed.

(** C15: the tick of the receive thread.  From a reachable state that is not idle
    the tick answers, whatever it receives; unless the socket fails, every cell
    then in use was heard of within the heartbeat timeout (a silent gNB is
    forgotten) and the link is CONNECTED exactly when there is such a cell above
    -999 dBm.  An idle transport is left alone. *)
Theorem tick_connects_iff_cell_heard sendto pton gai t inbox now :
  rt_reachable sendto pton gai t -> Forall recv_ok inbox ->
  exists e t', ue_ran_transport_tick sendto pton gai t inbox now = Some (e, t')
  /\ (rt_state t = UE_RAN_TRANSPORT_IDLE -> e = 0 /\ t' = t)
  /\ (rt_state t <> UE_RAN_TRANSPORT_IDLE -> ~ In RecvError inbox ->
       0 <= e <= 65 /\ rt_state t' <> UE_RAN_TRANSPORT_IDLE
       /\ (forall i c, cell_at t' i c -> u64 (now - cell_last_seen_ms c) <= rt_heartbeat_timeout_ms t')
       /\ (rt_state t' = UE_RAN_TRANSPORT_CONNECTED
            <-> exists i c, cell_at t' i c /\ -999 < cell_dbm c)).
Proof.
  intros Hr Hi. destruct (tick_ok sendto pton gai t inbox now (rt_reachable_ok _ _ _ _ Hr) Hi)
    as (e & t' & E & _ & H1 & H2).
  exists e, t'. split; [exact E|]. split; [exact H1|]. intros Hs Hne.
  destruct (H2 Hs) as [[_ Hin]|(He & Hf & Hs' & Hc)]; [contradiction|]. auto.
Qed.

(** The receive rings refine two bounded queues.  Through the abstraction
    [rx_view], a PDU transmission appends its payload (cut to 8192 bytes) to the
    queue of its type unless that queue already holds 31 messages, and a dequeue
    removes the oldest message and gives its length, its bytes (cut to the
    caller's buffer) and its channel or session; on an empty queue it gives 0. *)
Lemma rx_queues_refine_fifo t :
  rt_ok t ->
  (forall pdu, pdu_ok pdu ->
     exists t', handle_pdu_transmission t pdu = Some t' /\ rt_ok t'
       /\ rx_view t' = spec_enqueue pdu (rx_view t))
  /\ (forall b n, (0 < n <= length b)%nat -> Z.of_nat n < 2 ^ 32 ->
     match spec_nas (rx_view t) with
     | [] => ue_ran_transport_recv_nas_pdu t (Some b) n = Some (0, Some b, None, t)
     | (ch, p) :: rest =>
       exists t', ue_ran_transport_recv_nas_pdu t (Some b) n
           = Some (Z.of_nat (length (take n p)), Some (over (take n p) b), Some ch, t')
         /\ rt_ok t' /\ rx_view t' = RxSpec rest (spec_data (rx_view t))
     end)
  /\ (forall b n, (0 < n <= length b)%nat -> Z.of_nat n < 2 ^ 32 ->
     match spec_data (rx_view t) with
     | [] => ue_ran_transport_recv_data_pdu t (Some b) n = Some (0, Some b, None, t)
     | (psi, p) :: rest =>
       exists t', ue_ran_transport_recv_data_pdu t (Some b) n
           = Some (Z.of_nat (length (take n p)), Some (over (take n p) b), Some psi, t')
         /\ rt_ok t' /\ rx_view t' = RxSpec (spec_nas (rx_view t)) rest
     end).
Proof.
  intros Hok. split; [|split].
  - intros pdu. by apply handle_pdu_refines.
  - intros b n. by apply recv_nas_refines.
  - intros b n. by apply recv_data_refines.
Qed.

(** [peer] is neither the address of a cell in use nor that of a configured gNB. *)
Definition stranger pton gai (t : ue_ran_transport_ctx) (peer : sockaddr) : Prop :=
  (forall i c, cell_at t i c -> 0 < cell_addr_len c -> sa_in_equal (cell_addr c) peer = false)
  /\ (forall g ss, In g (rt_gnb_list t) ->
       resolve_endpoint pton gai (gnb_address g) (gnb_port g) = Some ss ->
       sa_in_equal ss peer = false).

(** A datagram from a stranger has no effect.  When the source is neither
    the address of a cell in use nor that of a configured gNB, the datagram
    changes nothing but the byte counter: no message is decoded, queued or
    acknowledged, no cell is learned. *)
Lemma unknown_peer_ignored pton gai t dgram peer now :
  stranger pton gai t peer ->
  receive_one pton gai t dgram peer now
  = Some (0, t <| rt_rx_bytes := u64 (rt_rx_bytes t + Z.of_nat (length dgram)) |>).
Proof.
  intros [Hc Hg]. unfold receive_one. cbv zeta. set (t1 := t <| rt_rx_bytes := _ |>).
  replace (peer_is_known pton gai t1 peer) with false; [done|]. symmetry.
  apply orb_false_iff. split.
  - apply not_true_is_false. intros H. apply existsb_exists in H as (c & Hin & H).
    apply list_elem_of_In, list_elem_of_lookup in Hin as [i Hi].
    apply andb_true_iff in H as [H He]. apply andb_true_iff in H as [Hv Hl].
    rewrite (Hc i c) in He; [done| |lia]. by split.
  - apply not_true_is_false. intros H. apply existsb_exists in H as (g & Hin & H).
    destruct (resolve_endpoint _ _ _ _) as [ss|] eqn:E; [|done]. by rewrite (Hg g ss Hin E) in H.
Qed.

(** A PDU of a session the ring has no room for is acknowledged all the
    same: with 31 messages queued and fewer than 64 ids pending, its id joins the
    pending acknowledgements while the queues are unchanged, so the gNB is told
    that the dropped PDU arrived. *)
Lemma dropped_pdu_acknowledged t pdu :
  rt_ok t -> pdu_ok pdu -> pt_pdu_type pdu = UE_RLS_PDU_TYPE_RRC -> pt_pdu_id pdu <> 0 ->
  length (spec_nas (rx_view t)) = 31%nat ->
  (length (rt_pending_ack_ids t) < UE_RAN_PENDING_ACK_MAX)%nat ->
  exists t', handle_pdu_transmission t pdu = Some t' /\ rx_view t' = rx_view t
    /\ rt_pending_ack_ids t' = rt_pending_ack_ids t ++ [pt_pdu_id pdu].
Proof.
  intros Hok Hp Ht Hid Hl Ha.
  destruct (handle_pdu_spec t pdu Hp Hok) as (t' & E & _ & _ & _ & _ & _ & _ & Hk & Hn & Hd).
  exists t'. split; [exact E|]. split.
  - unfold rx_view in *. cbn [spec_nas] in Hl. rewrite length_fmap in Hl.
    rewrite Hn, Hd, Ht, Hl. cbn [Nat.ltb Nat.leb andb]. rewrite !app_nil_r. reflexivity.
  - rewrite Hk. unfold track_ack.
    replace (negb (pt_pdu_id pdu =? 0)) with true by lia.
    replace (_ <?n _) with true by lia. reflexivity.
Qed.

(** What a NAS submission puts on the air.  From a reachable CONNECTED state
    with a cell above -999 dBm, a PDU of 1 to 16384 bytes leaves in exactly one
    datagram, to the address of the strongest cell in use; the datagram decodes to
    an RRC PDU transmission with the transport's STI, the next PDU id, the RRC
    channel and exactly that PDU.  The call succeeds when [sendto] does. *)
Lemma send_nas_on_air sendto pton gai t pdu ch :
  rt_reachable sendto pton gai t ->
  rt_state t = UE_RAN_TRANSPORT_CONNECTED -> cell_heard t ->
  pdu <> [] -> Z.of_nat (length pdu) <= 16384 -> 0 <= ch < 2 ^ 32 ->
  exists i c r t' d, cell_at t i c /\ (forall j e, cell_at t j e -> cell_dbm e <= cell_dbm c)
    /\ rt_send_nas_pdu sendto t pdu ch = Some (r, t')
    /\ net_trace t' = net_trace t ++ [(cell_addr c, d)]
    /\ ue_rls_decode (Some d) (length d)
       = Some (Some (RlsPduTx (PduTransmission (rt_sti t) UE_RLS_PDU_TYPE_RRC (rt_next_pdu_id t) ch
           (Some pdu) (Z.of_nat (length pdu)))))
    /\ rt_next_pdu_id t' = u32 (rt_next_pdu_id t + 1)
    /\ (0 <= sendto (length (net_trace t)) (cell_addr c) d -> r = 0).
Proof. intros Hr. apply rt_send_nas_on_air. by eapply rt_reachable_ok. Qed.

(** ** Witnesses *)

(** A network that accepts every datagram, and a gNB at 127.0.0.1. *)
Definition test_sendto (k : nat) (a : sockaddr) (d : bytes) : Z := Z.of_nat (length d).
Definition test_pton (a : bytes) : option Z := Some 16777343.
Definition test_gai (a : bytes) : option sockaddr := None.
Definition test_gnb : sockaddr := SockAddr AF_INET 16777343 (htons 4997) 16.
Definition test_started : ue_ran_transport_ctx :=
  (ue_ran_transport_start
     (ue_ran_transport_add_gnb (ue_ran_transport_init 7 9 []) (Some (str "127.0.0.1")) 0).2 5).2.
(** A heartbeat acknowledgement of the gNB of STI 77 at -60 dBm. *)
Definition test_ack : bytes := rls_header_wire UE_RLS_HEARTBEAT_ACK 77 ++ be_list 4 (- 60).
Definition test_inbox : list recv_result := [RecvData test_ack test_gnb; RecvWouldBlock].
Definition test_connected : ue_ran_transport_ctx :=
  match ue_ran_transport_tick test_sendto test_pton test_gai test_started test_inbox 1000 with
  | Some (_, t) => t
  | None => test_started
  end.

Lemma test_started_reachable : rt_reachable test_sendto test_pton test_gai test_started.
Proof.
  eapply rt_reach_step; [eapply rt_reach_step; [apply rt_reach_init|]|].
  - apply (rs_add_gnb _ _ _ _ (Some (str "127.0.0.1")) 0).
  - apply (rs_start _ _ _ _ 5).
Qed.

Lemma test_inbox_ok : Forall recv_ok test_inbox.
Proof.
  constructor; [split|by repeat constructor]; [|cbn; lia].
  apply (bool_decide_unpack _). vm_compute. exact I.
Qed.

Lemma test_connected_reachable : rt_reachable test_sendto test_pton test_gai test_connected.
Proof.
  eapply rt_reach_step; [apply test_started_reachable|].
  destruct (tick_ok test_sendto test_pton test_gai test_started test_inbox 1000
    (rt_reachable_ok _ _ _ _ test_started_reachable) test_inbox_ok) as (e & t & E & _).
  unfold test_connected. rewrite E. eapply rs_tick; [apply test_inbox_ok|exact E].
Qed.

Lemma test_connected_state :
  rt_state test_connected = UE_RAN_TRANSPORT_CONNECTED /\ cell_heard test_connected.
Proof.
  split; [vm_compute; reflexivity|]. exists 0%nat.
  exists (CellInfo true 77 1 (-60) 1000 test_gnb 16).
  split; [split; vm_compute; reflexivity|vm_compute; reflexivity].
Qed.

Lemma rt_reachable_invariant_witness : cells_inv test_connected.
Proof. apply (rt_reachable_invariant _ _ _ _ test_connected_reachable). Defined.

Lemma tick_connects_iff_cell_heard_witness :
  exists e t', ue_ran_transport_tick test_sendto test_pton test_gai test_started test_inbox 1000
    = Some (e, t')
  /\ (rt_state t' = UE_RAN_TRANSPORT_CONNECTED <-> exists i c, cell_at t' i c /\ -999 < cell_dbm c).
Proof.
  destruct (tick_connects_iff_cell_heard test_sendto test_pton test_gai test_started test_inbox 1000
    test_started_reachable test_inbox_ok) as (e & t' & E & _ & H).
  exists e, t'. split; [exact E|]. apply H; [discriminate|].
  intros [H1|[H1|[]]]; discriminate H1.
Defined.

Lemma rx_queues_refine_fifo_witness :
  exists t', handle_pdu_transmission test_started
      (PduTransmission 77 UE_RLS_PDU_TYPE_RRC 5 3 (Some [1; 2; 3]) 3) = Some t'
    /\ rx_view t' = spec_enqueue (PduTransmission 77 UE_RLS_PDU_TYPE_RRC 5 3 (Some [1; 2; 3]) 3)
                      (rx_view test_started).
Proof.
  destruct (proj1 (rx_queues_refine_fifo test_started (rt_reachable_ok _ _ _ _ test_started_reachable))
    (PduTransmission 77 UE_RLS_PDU_TYPE_RRC 5 3 (Some [1; 2; 3]) 3)) as (t' & E & _ & H).
  - split; [unfold UE_RLS_MAX_PDU_SIZE; cbn; lia|reflexivity].
  - exists t'. split; [exact E|exact H].
Defined.

Lemma unknown_peer_ignored_witness :
  receive_one test_pton test_gai test_started test_ack (SockAddr AF_INET 16777343 9 16) 1000
  = Some (0, test_started <| rt_rx_bytes := 17 |>).
Proof.
  apply (unknown_peer_ignored test_pton test_gai test_started test_ack
    (SockAddr AF_INET 16777343 9 16) 1000). split.
  - intros i c H. exfalso. by apply no_cell_at in H.
  - intros g ss [<-|[]] [= <-]. vm_compute. reflexivity.
Defined.

Definition full_queue_ctx : ue_ran_transport_ctx :=
  (ue_ran_transport_init 7 9 []) <| rt_nas_queue := RxRing (q_slots empty_ring) 0 31 |>.

Example dropped_pdu_acknowledged_example :
  exists t', handle_pdu_transmission full_queue_ctx
      (PduTransmission 77 UE_RLS_PDU_TYPE_RRC 5 3 (Some [1; 2; 3]) 3) = Some t'
    /\ rx_view t' = rx_view full_queue_ctx /\ rt_pending_ack_ids t' = [5].
Proof.
  apply (dropped_pdu_acknowledged full_queue_ctx
    (PduTransmission 77 UE_RLS_PDU_TYPE_RRC 5 3 (Some [1; 2; 3]) 3)).
  - destruct (init_ok 7 9 []) as [Hc Hn ? ? ? ? ? ? Had]. split; try done.
    + by apply (cells_inv_ext (ue_ran_transport_init 7 9 [])).
    + destruct Hn as [_ He]. split; [|exact He]. split; [reflexivity|cbv; lia..].
  - split; [unfold UE_RLS_MAX_PDU_SIZE; cbn; lia|reflexivity].
  - reflexivity.
  - discriminate.
  - reflexivity.
  - cbv. lia.
Defined.

Example send_nas_on_air_example :
  exists r t', rt_send_nas_pdu test_sendto test_connected [1; 2; 3] 7 = Some (r, t')
    /\ exists a d, net_trace t' = net_trace test_connected ++ [(a, d)].
Proof.
  destruct test_connected_state as [Hs Hh].
  destruct (send_nas_on_air test_sendto test_pton test_gai test_connected [1; 2; 3] 7
    test_connected_reachable Hs Hh) as (i & c & r & t' & d & _ & _ & E & Ht & _).
  - discriminate.
  - cbn. lia.
  - lia.
  - exists r, t'. split; [exact E|]. exists (cell_addr c), d. exact Ht.
Defined.
