(* ===== verification/UplinkPath.v ===== *)
(** The uplink path, composed: the adapter of [ue_network_adapter.c] over the
    transport of [ue_ran_transport.c].  The adapter's theorems are proved against
    the interface [RanSender]; here the interface is the real transport, so a
    submission of MM or SM is followed from the request to the datagram. *)

From S2P Require Import Prelude Rls NasDefs NasEncode NasSecurity Rrc UeTypes NetworkAdapter.
From S2P Require Import RanTransport RanLink.

#[local] Opaque sealed.

Section Uplink.
Variable sendto : nat -> sockaddr -> bytes -> Z.

#[local] Instance uplink_sender : RanSender ue_ran_transport_ctx := ran_transport_sender sendto.
#[local] Instance uplink_safe : SafeSender ue_ran_transport_ctx := ran_transport_safe sendto.

(** The adapter put the NAS message [nas] on the air: one datagram to the
    strongest cell, an RLS PDU transmission on UL-DCCH of the RRC UL Information
    Transfer of [nas], sealed when security is active. *)
Definition on_air (n : net_adapter ue_ran_transport_ctx) (t : ue_ran_transport_ctx) (nas : bytes)
    (n' : net_adapter ue_ran_transport_ctx) : Prop :=
  exists i c t' d pdu,
    cell_at t i c /\ (forall j e, cell_at t j e -> cell_dbm e <= cell_dbm c)
    /\ n' = NetAdapter (Some t') (secured_ctx (g_nas_sec n))
    /\ net_trace t' = net_trace t ++ [(cell_addr c, d)]
    /\ ue_rls_decode (Some d) (length d)
       = Some (Some (RlsPduTx (PduTransmission (rt_sti t) UE_RLS_PDU_TYPE_RRC (rt_next_pdu_id t)
           UE_RRC_CHANNEL_UL_DCCH (Some pdu) (Z.of_nat (length pdu)))))
    /\ octets_of (ul_info_transfer_bits (secured_pdu (g_nas_sec n) nas)) pdu.

Lemma sends_on_air n t nas n' :
  g_transport n = Some t -> sec_ok (g_nas_sec n) -> rt_ok t ->
  rt_state t = UE_RAN_TRANSPORT_CONNECTED -> cell_heard t -> Z.of_nat (length nas) <= 8185 ->
  sends n t nas n' -> on_air n t nas n'.
Proof.
  intros Ht Hs Hok Hc Hh Hl (pdu & rc & t' & Hp & E & ->).
  pose proof (proj1 (secured_len (g_nas_sec n) nas Hs)) as Hsl.
  pose proof (ul_info_transfer_bits_len (secured_pdu (g_nas_sec n) nas)) as Hb.
  assert (length pdu = ((length (ul_info_transfer_bits (secured_pdu (g_nas_sec n) nas)) + 7) / 8)%nat)
    as Hpl by apply Hp.
  destruct (rt_send_nas_on_air sendto t pdu UE_RRC_CHANNEL_UL_DCCH)
    as (i & c & r & t1 & d & Hci & Hbest & E1 & Htr & Hdec & _); try done.
  - intros ->. cbn [length] in Hpl. lia.
  - lia.
  - change (rt_send_nas_pdu sendto t pdu UE_RRC_CHANNEL_UL_DCCH = Some (rc, t')) in E.
    rewrite E in E1. injection E1 as <- <-. exists i, c, t', d, pdu. done.
Qed.
End Uplink.

(** ** Claims *)

(** C14: the whole uplink path, from the request to the datagram.  With a
    reachable CONNECTED transport that hears a cell and a valid (or no) security
    context, a submission of MM or SM leaves in exactly one datagram, to the
    strongest cell: it decodes, as the gNB decodes it, to an RRC PDU on UL-DCCH
    with the transport's STI and next PDU id, whose payload is bit for bit the
    RRC UL Information Transfer of the NAS message built from the request, sealed
    under the current uplink COUNT when security is active.  The exception is a
    registration whose SUCI the encoder refuses, an odd number of MSIN digits
    above all: nothing leaves, and the submission reports success all the same. *)
Theorem submissions_on_air sendto pton gai (n : net_adapter ue_ran_transport_ctx) t :
  g_transport n = Some t -> rt_reachable sendto pton gai t ->
  rt_state t = UE_RAN_TRANSPORT_CONNECTED -> cell_heard t -> sec_ok (g_nas_sec n) ->
  let H := ran_transport_sender sendto in
  (forall req mcc mnc msin,
     rq_plmn_mcc req = mcc -> rq_plmn_mnc req = mnc -> rq_suci req = mcc ++ mnc ++ msin ->
     length mcc = 3%nat -> length mnc = 2%nat \/ length mnc = 3%nat -> (length msin <= 31)%nat ->
     if suci_ok mcc mnc msin
     then exists r n', submit_registration req n = Some (r, n')
       /\ on_air n t (registration_request_wire (suci_wire mcc mnc msin) 0 1 7 true) n'
     else exists r, submit_registration req n = Some (r, n) /\ rr_submitted r = true)
  /\ (forall req, (length (eq_dnn req) < 64)%nat ->
     exists r n', submit_establish req n = Some (r, n')
       /\ on_air n t
            (est_request_wire (session_psi (eq_pdu_session_id req)) (if eq_pti req =? 0 then 1 else eq_pti req)
               (pdu_type_from_string (eq_pdu_type req))
               (if bool_decide (eq_request_type req = UE_SM_PDU_REQUEST_EXISTING) then 2 else 1)
               (eq_dnn req) (eq_s_nssai_sst req)) n')
  /\ (forall req,
     exists r n', submit_release req n = Some (r, n')
       /\ on_air n t (ul_nas_transport_wire
            [NAS_EPD_5GSM; session_psi (lq_pdu_session_id req); (if lq_pti req =? 0 then 1 else lq_pti req);
             NAS_MSG_PDU_SESSION_RELEASE_REQUEST; 0x59; 0x24]
            (session_psi (lq_pdu_session_id req))) n').
Proof.
  intros Ht Hr Hst Hh Hs H. pose proof (rt_reachable_ok _ _ _ _ Hr) as Hok.
  pose proof (ran_transport_safe sendto) as Hsafe.
  assert (net_ok (Hsafe := ran_transport_safe sendto) n) as Hn by (split; [done|by rewrite Ht]).
  split; [|split].
  - intros req mcc mnc msin E1 E2 E3 L1 L2 L3. destruct (suci_ok mcc mnc msin) eqn:Hsuci;
      [|by apply (submit_registration_odd n req mcc mnc msin)].
    destruct (submit_registration_sends n t Ht Hn req mcc mnc msin) as (r & n' & E & Hsn); try done.
    exists r, n'. split; [exact E|]. apply (sends_on_air sendto n t _ n' Ht Hs Hok Hst Hh); [|exact Hsn].
    assert (length (suci_wire mcc mnc msin) = 8 + (length msin + 1) / 2)%nat as Hw
      by (apply length_suci_wire; lia).
    set (w := registration_request_wire _ _ _ _ _).
    assert (length w = 18 + (length msin + 1) / 2)%nat as Hlw
      by (unfold w, registration_request_wire, lve, nas_header;
          rewrite !length_app, length_be_list, Hw; simpl; lia).
    lia.
  - intros req Hd. destruct (submit_establish_sends n t Ht Hn req Hd) as (r & n' & E & _ & Hsn).
    exists r, n'. split; [exact E|]. apply (sends_on_air sendto n t _ n' Ht Hs Hok Hst Hh); [|exact Hsn].
    match goal with |- context [est_request_wire ?a ?b ?c ?d ?e ?f] =>
      pose proof (est_wire_len a b c d e f Hd) end. lia.
  - intros req. destruct (submit_release_sends n t Ht Hn req) as (r & n' & E & Hsn).
    exists r, n'. split; [exact E|]. apply (sends_on_air sendto n t _ n' Ht Hs Hok Hst Hh); [|exact Hsn].
    simpl. lia.
Qed.

Definition test_uplink : net_adapter ue_ran_transport_ctx := NetAdapter (Some test_connected) None.

Lemma submissions_on_air_witness :
  let H := ran_transport_sender test_sendto in
  exists r n', submit_registration
      (MmRegRequest 1 UE_MM_REG_INITIAL UE_MM_REG_TRIGGER_EXPLICIT_REQUEST true
         (str "00101" ++ str "0000000001") (str "001") (str "01")) test_uplink = Some (r, n')
    /\ on_air test_uplink test_connected
         (registration_request_wire (suci_wire (str "001") (str "01") (str "0000000001")) 0 1 7 true)
         n'.
Proof.
  intros H. destruct test_connected_state as [Hs Hh].
  apply (proj1 (submissions_on_air test_sendto test_pton test_gai test_uplink test_connected eq_refl
    test_connected_reachable Hs Hh I) _ (str "001") (str "01") (str "0000000001"));
    try reflexivity; [by left|simpl; lia].
Defined.
