(* ===== verification/MbimNtb.v ===== *)
(** NTB16 framing of the MBIM data endpoints: [src/src/mbim_frontend/mbim_ntb.c].

    Offsets are [uint32_t]: the sums that can wrap are written with [u32].  The
    callback of the deframer is its trace: the list of the datagrams it was
    called with, in order. *)

From S2P Require Import Prelude.

Definition MBIM_NTH16_SIGNATURE : Z := 0x484D434E.
Definition MBIM_NDP16_SIGNATURE : Z := 0x00535049.
Definition MBIM_NDP16_SIG_MASK : Z := 0x00FFFFFF.

Definition rd16 (m : bytes) (p : Z) : option Z :=
  b0 ← m !! Z.to_nat p; b1 ← m !! Z.to_nat (p + 1); Some (b0 |. (b1 ≪ 8)).

Definition rd32 (m : bytes) (p : Z) : option Z :=
  b0 ← m !! Z.to_nat p; b1 ← m !! Z.to_nat (p + 1);
  b2 ← m !! Z.to_nat (p + 2); b3 ← m !! Z.to_nat (p + 3);
  Some (b0 |. (b1 ≪ 8) |. (b2 ≪ 16) |. (b3 ≪ 24)).

Definition wr16 (p : nat) (v : Z) : W unit := stores p (le_list 2 v).
Definition wr32 (p : nat) (v : Z) : W unit := stores p (le_list 4 v).

(** The entries of one NDP16 from offset [p]. *)
Fixpoint ndp_entries (fuel : nat) (ntb : bytes) (block_len ndp_end p : Z) : option (list bytes) :=
  match fuel with
  | O => None
  | S fuel =>
    if u32 (p + 4) <=? ndp_end then
      dg_index ← rd16 ntb p;
      dg_len ← rd16 ntb (p + 2);
      if (dg_index =? 0) && (dg_len =? 0) then Some [] else
      if (dg_len =? 0) || (block_len <? dg_index + dg_len)
      then ndp_entries fuel ntb block_len ndp_end (u32 (p + 4)) else
      dg ← slice ntb (Z.to_nat dg_index) (Z.to_nat dg_len);
      rest ← ndp_entries fuel ntb block_len ndp_end (u32 (p + 4));
      Some (dg :: rest)
    else Some []
  end.

(** The chain of NDPs. *)
Fixpoint ndp_chain (fuel : nat) (ntb : bytes) (len block_len ndp_index : Z) : option (list bytes) :=
  match fuel with
  | O => None
  | S fuel =>
    if negb (ndp_index =? 0) && (ndp_index + 8 <=? block_len) then
      sig ← rd32 ntb ndp_index;
      ndp_len ← rd16 ntb (ndp_index + 4);
      next_ndp ← rd16 ntb (ndp_index + 6);
      let ndp_end := ndp_index + ndp_len in
      if negb (sig &. MBIM_NDP16_SIG_MASK =? MBIM_NDP16_SIGNATURE) then Some [] else
      let ndp_end := if (ndp_len <? 8) || (block_len <? ndp_end) then block_len else ndp_end in
      dgs ← ndp_entries (S (Z.to_nat len)) ntb block_len ndp_end (ndp_index + 8);
      if (next_ndp =? 0) || (next_ndp <=? ndp_index) then Some dgs else
      rest ← ndp_chain fuel ntb len block_len next_ndp;
      Some (dgs ++ rest)
    else Some []
  end.

(** The C result and the datagrams delivered. *)
Definition mbim_ntb16_deframe (ntb : option bytes) (len : Z) (cb : bool)
    : option (Z * list bytes) :=
  match ntb with
  | None => Some (-1, [])
  | Some ntb =>
    if (len <? 12) || negb cb then Some (-1, []) else
    sig ← rd32 ntb 0;
    if negb (sig =? MBIM_NTH16_SIGNATURE) then Some (-1, []) else
    block_len ← rd16 ntb 8;
    let block_len := if (block_len =? 0) || (len <? block_len) then len else block_len in
    ndp_index ← rd16 ntb 10;
    dgs ← ndp_chain (S (Z.to_nat len)) ntb len block_len ndp_index;
    Some (Z.of_nat (length dgs), dgs)
  end.

(** The offset of the NDP and the total length for a datagram of [ip_len] bytes. *)
Definition ntb_ndp_off (ip_len : Z) : Z := Z.ldiff (u32 (u32 (12 + ip_len) + 3)) 3.
Definition ntb_total (ip_len : Z) : Z := u32 (ntb_ndp_off ip_len + 16).

(** The C result and the caller's buffer. *)
Definition mbim_ntb16_frame_single (out : option bytes) (cap : Z) (ip : option bytes)
    (ip_len sequence : Z) : option (Z * option bytes) :=
  let ndp_off := ntb_ndp_off ip_len in
  let total := ntb_total ip_len in
  match out, ip with
  | Some o, Some ip =>
    if (ip_len =? 0) || (cap <? total) || (0xFFFF <? total) then Some (0, out) else
    match (stores 0 (replicate (Z.to_nat total) 0) ;;
           wr32 0 MBIM_NTH16_SIGNATURE ;;
           wr16 4 12 ;;
           wr16 6 sequence ;;
           wr16 8 (u16 total) ;;
           wr16 10 (u16 ndp_off) ;;
           stores 12 (take (Z.to_nat ip_len) ip) ;;
           wr32 (Z.to_nat ndp_off) MBIM_NDP16_SIGNATURE ;;
           wr16 (Z.to_nat ndp_off + 4) 16 ;;
           wr16 (Z.to_nat ndp_off + 6) 0 ;;
           wr16 (Z.to_nat ndp_off + 8) 12 ;;
           wr16 (Z.to_nat ndp_off + 10) (u16 ip_len) ;;
           wr16 (Z.to_nat ndp_off + 12) 0 ;;
           wr16 (Z.to_nat ndp_off + 14) 0) (St o 0) with
    | Some (_, s) => if Z.of_nat (length ip) <? ip_len then None else Some (total, Some (wmem s))
    | None => None
    end
  | _, _ => Some (0, out)
  end.

Example ntb_example :
  let out := replicate 64 7 in
  match mbim_ntb16_frame_single (Some out) 64 (Some [69; 0; 1; 2; 3]) 5 9 with
  | Some (n, Some o) => n = 36 /\ mbim_ntb16_deframe (Some o) n true = Some (1, [[69; 0; 1; 2; 3]])
  | _ => False
  end.
Proof. vm_compute. split; reflexivity. Qed.

(** ** Memory as a sequence of fields *)

(** The offset of field [k]. *)
Definition field_at (ps : list bytes) (k : nat) : nat := length (concat (take k ps)).

Lemma concat_split (ps : list bytes) k w :
  ps !! k = Some w -> concat ps = concat (take k ps) ++ w ++ concat (drop (S k) ps).
Proof.
  intros H. rewrite <- (take_drop_middle ps k w H) at 1. by rewrite concat_app.
Qed.

Lemma stores_field ps k w l o p :
  ps !! k = Some w -> length w = length l -> (length (concat ps) <= length o)%nat ->
  stores (field_at ps k) l (St (over (concat ps) o) p)
  = Some (tt, St (over (concat (<[k := l]> ps)) o) p).
Proof.
  intros Hk Hl Ho. unfold stores, field_at. cbn [wmem wpos].
  rewrite (concat_split ps k w Hk) in *. rewrite length_app, length_app in Ho.
  set (a := concat (take k ps)) in *. set (b := concat (drop (S k) ps)) in *.
  rewrite length_over by (rewrite !length_app; lia).
  replace (length a + length l <=?n length o) with true by lia. do 3 f_equal.
  rewrite insert_take_drop by (by eapply lookup_lt_Some). rewrite concat_app. cbn [concat].
  fold a b. unfold over. rewrite !length_app, Hl, <- !app_assoc.
  f_equal; [by rewrite take_app_length|]. f_equal.
  rewrite drop_app_ge by lia. replace (length a + length l - length a)%nat with (length l) by lia.
  by rewrite drop_app_length'.
Qed.

Lemma rd16_field (ps : list bytes) k v r :
  ps !! k = Some (le_list 2 v) -> rd16 (concat ps ++ r) (Z.of_nat (field_at ps k)) = Some (u16 v).
Proof.
  intros Hk. rewrite (concat_split ps k _ Hk). unfold rd16, field_at.
  set (a := concat (take k ps)). rewrite <- !app_assoc.
  replace (Z.to_nat (Z.of_nat (length a))) with (length a + 0)%nat by lia.
  replace (Z.to_nat (Z.of_nat (length a) + 1)) with (length a + 1)%nat by lia.
  rewrite !(lookup_app_r a) by lia.
  replace (length a + 0 - length a)%nat with 0%nat by lia.
  replace (length a + 1 - length a)%nat with 1%nat by lia.
  change (le_list 2 v) with [u8 (v ≫ 0); u8 (v ≫ 8)]. cbn [app lookup list_lookup mbind option_bind].
  f_equal. rewrite Z.lor_comm, lor_shiftl_add by (unfold u8; lia).
  rewrite !shiftr_div by lia. unfold u8, u16. change (2 ^ 0) with 1. change (2 ^ 8) with 256. lia.
Qed.

Lemma rd32_field (ps : list bytes) k v r :
  ps !! k = Some (le_list 4 v) -> rd32 (concat ps ++ r) (Z.of_nat (field_at ps k)) = Some (u32 v).
Proof.
  intros Hk. rewrite (concat_split ps k _ Hk). unfold rd32, field_at.
  set (a := concat (take k ps)). rewrite <- !app_assoc.
  replace (Z.to_nat (Z.of_nat (length a))) with (length a + 0)%nat by lia.
  replace (Z.to_nat (Z.of_nat (length a) + 1)) with (length a + 1)%nat by lia.
  replace (Z.to_nat (Z.of_nat (length a) + 2)) with (length a + 2)%nat by lia.
  replace (Z.to_nat (Z.of_nat (length a) + 3)) with (length a + 3)%nat by lia.
  rewrite !(lookup_app_r a) by lia.
  replace (length a + 0 - length a)%nat with 0%nat by lia.
  replace (length a + 1 - length a)%nat with 1%nat by lia.
  replace (length a + 2 - length a)%nat with 2%nat by lia.
  replace (length a + 3 - length a)%nat with 3%nat by lia.
  assert (le_val (le_list 4 v) = u32 v) as <- by (rewrite le_val_le_list; done).
  change (le_list 4 v) with [u8 (v ≫ 0); u8 (v ≫ 8); u8 (v ≫ 16); u8 (v ≫ 24)].
  cbn [app lookup list_lookup mbind option_bind]. f_equal.
  pose proof (u8_range (v ≫ 0)) as R0. pose proof (u8_range (v ≫ 8)) as R1.
  pose proof (u8_range (v ≫ 16)) as R2. revert R0 R1 R2.
  generalize (u8 (v ≫ 0)) (u8 (v ≫ 8)) (u8 (v ≫ 16)) (u8 (v ≫ 24)). intros x0 x1 x2 x3 R0 R1 R2.
  rewrite (Z.lor_comm _ (x3 ≪ 24)), (Z.lor_comm _ (x2 ≪ 16)), (Z.lor_comm _ (x1 ≪ 8)).
  rewrite (lor_shiftl_add _ x1 8), (lor_shiftl_add _ x2 16), (lor_shiftl_add _ x3 24) by lia.
  unfold le_val, be_val. cbn [reverse rev_append foldl]. lia.
Qed.

(** ** Reading *)

Lemma rd16_in m p :
  Forall is_byte m -> 0 <= p -> p + 2 <= Z.of_nat (length m) ->
  exists v, rd16 m p = Some v /\ 0 <= v < 65536.
Proof.
  intros Hm Hp Hl. unfold rd16.
  destruct (load_in m (Z.to_nat p)) as [a Ha]; [lia|].
  destruct (load_in m (Z.to_nat (p + 1))) as [b Hb]; [lia|]. rewrite Ha, Hb. ob.
  pose proof (lookup_byte _ _ _ Hm Ha). pose proof (lookup_byte _ _ _ Hm Hb). unfold is_byte in *.
  eexists. split; [reflexivity|]. rewrite Z.lor_comm, lor_shiftl_add by lia. lia.
Qed.

Lemma rd32_in m p :
  0 <= p -> p + 4 <= Z.of_nat (length m) -> exists v, rd32 m p = Some v.
Proof.
  intros Hp Hl. unfold rd32.
  destruct (load_in m (Z.to_nat p)) as [a ->]; [lia|].
  destruct (load_in m (Z.to_nat (p + 1))) as [b ->]; [lia|].
  destruct (load_in m (Z.to_nat (p + 2))) as [c ->]; [lia|].
  destruct (load_in m (Z.to_nat (p + 3))) as [d ->]; [lia|]. ob. by eexists.
Qed.

(** A datagram of the block: [k] bytes at offset [i]. *)
Definition datagram_of (ntb : bytes) (len : Z) (d : bytes) : Prop :=
  exists i k, (0 < k)%nat /\ Z.of_nat (i + k) <= len /\ Z.of_nat k < 65536
    /\ d = take k (drop i ntb).

Section Deframe.
Variables (ntb : bytes) (len : Z).
Hypothesis Hb : Forall is_byte ntb.
Hypothesis Hlen : 0 <= len <= Z.of_nat (length ntb).
Hypothesis Hmax : len < 2 ^ 32 - 4.

Lemma ndp_entries_safe fuel block_len ndp_end p :
  block_len <= len -> ndp_end <= len -> 0 <= p < 2 ^ 32 - 4 -> len + 1 - p <= Z.of_nat fuel ->
  (0 < fuel)%nat ->
  exists ds, ndp_entries fuel ntb block_len ndp_end p = Some ds /\ Forall (datagram_of ntb len) ds.
Proof using Hb Hlen Hmax.
  revert p. induction fuel as [|fuel IH]; intros p Hbl Hend Hp Hf H0; [lia|]. cbn [ndp_entries].
  rewrite u32_small by lia. destruct (p + 4 <=? ndp_end) eqn:E; [|by exists []].
  destruct (rd16_in ntb p) as (i & -> & Hi); [done|lia..|].
  destruct (rd16_in ntb (p + 2)) as (k & -> & Hk); [done|lia..|]. ob.
  destruct (_ && _) eqn:E0; [by exists []|].
  destruct (IH (p + 4)) as (ds & Eds & Hds); [done|done|lia|lia|lia|].
  rewrite Eds. destruct (_ || _) eqn:E1; [by exists ds|].
  rewrite slice_in by lia. ob. eexists. split; [reflexivity|]. constructor; [|done].
  exists (Z.to_nat i), (Z.to_nat k). split_and!; [lia..|done].
Qed.

Lemma ndp_chain_safe fuel block_len i :
  block_len <= len -> 0 <= i < 65536 -> 65536 - i <= Z.of_nat fuel \/ len + 1 - i <= Z.of_nat fuel ->
  (0 < fuel)%nat ->
  exists ds, ndp_chain fuel ntb len block_len i = Some ds /\ Forall (datagram_of ntb len) ds.
Proof using Hb Hlen Hmax.
  revert i. induction fuel as [|fuel IH]; intros i Hbl Hi Hf H0; [lia|]. cbn [ndp_chain].
  destruct (negb (i =? 0) && (i + 8 <=? block_len)) eqn:E; [|by exists []].
  destruct (rd32_in ntb i) as (sig & ->); [lia..|].
  destruct (rd16_in ntb (i + 4)) as (nl & -> & Hnl); [done|lia..|].
  destruct (rd16_in ntb (i + 6)) as (nx & -> & Hnx); [done|lia..|]. ob. cbv zeta.
  destruct (negb (_ =? MBIM_NDP16_SIGNATURE)); [by exists []|].
  match goal with |- context [ndp_entries _ _ _ ?e _] =>
    destruct (ndp_entries_safe (S (Z.to_nat len)) block_len e (i + 8)) as (ds & -> & Hds);
      [done|destruct (_ || _) eqn:E1; lia|lia|lia|lia|] end.
  ob. destruct (_ || _) eqn:E2; [by exists ds|].
  destruct (decide (0 < fuel)%nat).
  - destruct (IH nx) as (rest & -> & Hrest); [done|done|lia|done|]. ob.
    eexists. split; [reflexivity|]. by apply Forall_app.
  - lia.
Qed.
End Deframe.

(** ** Framing *)

Lemma ldiff_3 x : 0 <= x -> Z.ldiff x 3 = x - x mod 4.
Proof.
  intros H. change 3 with (Z.ones 2). rewrite Z.ldiff_ones_r, Z.shiftl_mul_pow2, Z.shiftr_div_pow2 by lia.
  change (2 ^ 2) with 4. lia.
Qed.

(** The offset of the NDP: past the header and the datagram, 4-byte aligned. *)
Lemma ntb_ndp_off_eq n : 0 <= n < 2 ^ 32 - 31 ->
  ntb_ndp_off n = 12 + 4 * ((n + 3) / 4) /\ ntb_total n = 28 + 4 * ((n + 3) / 4).
Proof.
  intros Hn. unfold ntb_total, ntb_ndp_off.
  rewrite !(u32_small (12 + n)), (u32_small (12 + n + 3)) by lia.
  rewrite ldiff_3 by lia. rewrite u32_small by lia. lia.
Qed.

(** The padding between the datagram and the NDP. *)
Definition ntb_pad (n : Z) : nat := Z.to_nat (4 * ((n + 3) / 4) - n).

(** The fields of the block for the datagram [ip]. *)
Definition ntb_fields (ip : bytes) (sequence : Z) : list bytes :=
  let n := Z.of_nat (length ip) in
  [le_list 4 MBIM_NTH16_SIGNATURE; le_list 2 12; le_list 2 sequence;
   le_list 2 (u16 (ntb_total n)); le_list 2 (u16 (ntb_ndp_off n)); ip; replicate (ntb_pad n) 0;
   le_list 4 MBIM_NDP16_SIGNATURE; le_list 2 16; le_list 2 0; le_list 2 12; le_list 2 (u16 n);
   le_list 2 0; le_list 2 0].

Definition ntb_wire (ip : bytes) (sequence : Z) : bytes := concat (ntb_fields ip sequence).

Lemma length_ntb_wire ip sequence :
  Z.of_nat (length ip) < 2 ^ 32 - 31 ->
  Z.of_nat (length (ntb_wire ip sequence)) = ntb_total (Z.of_nat (length ip)).
Proof.
  intros Hn. unfold ntb_wire, ntb_fields. cbn [concat]. cbv zeta.
  rewrite !length_app, !length_le_list, length_replicate. cbn [length].
  destruct (ntb_ndp_off_eq (Z.of_nat (length ip))) as [_ ->]; [lia|].
  unfold ntb_pad. lia.
Qed.

(** The blank block: the same fields, all zero. *)
Definition blank_fields (n : Z) : list bytes :=
  map (fun k => replicate k 0) [4; 2; 2; 2; 2; Z.to_nat n; ntb_pad n; 4; 2; 2; 2; 2; 2; 2]%nat.

Lemma concat_blank n :
  0 <= n < 2 ^ 32 - 31 -> concat (blank_fields n) = replicate (Z.to_nat (ntb_total n)) 0.
Proof.
  intros Hn. unfold blank_fields. cbn [map concat]. rewrite app_nil_r, <- !replicate_add. f_equal.
  destruct (ntb_ndp_off_eq n) as [_ ->]; [lia|]. unfold ntb_pad. lia.
Qed.

(** The lengths of the fields; writes keep them. *)
Lemma shape_insert (ps : list bytes) ls k l :
  length <$> ps = ls -> ls !! k = Some (length l) -> length <$> <[k := l]> ps = ls.
Proof. intros <- Hk. rewrite list_fmap_insert. by apply list_insert_id. Qed.

Lemma stores_shape (ps : list bytes) ls k l o p i :
  length <$> ps = ls -> ls !! k = Some (length l) -> i = sum_list (take k ls) ->
  (sum_list ls <= length o)%nat ->
  stores i l (St (over (concat ps) o) p) = Some (tt, St (over (concat (<[k := l]> ps)) o) p).
Proof.
  intros <- Hk -> Ho. rewrite list_lookup_fmap in Hk. apply fmap_Some in Hk as (w & Hk & Hw).
  assert (forall qs : list bytes, sum_list (length <$> qs) = length (concat qs)) as Hs
    by (induction qs as [|q qs IH]; cbn; [done|rewrite length_app; lia]).
  rewrite <- fmap_take, Hs. apply (stores_field ps k w); [done|done|]. by rewrite <- Hs.
Qed.

Section Frame.
Variables (o ip : bytes) (cap sequence : Z).
Let n := Z.of_nat (length ip).
Hypothesis H0 : (0 < length ip)%nat.
Hypothesis Hn : n < 2 ^ 32 - 31.
Hypothesis Hcap : cap <= Z.of_nat (length o).

Let shape : list nat := [4; 2; 2; 2; 2; length ip; ntb_pad n; 4; 2; 2; 2; 2; 2; 2]%nat.

Lemma blank_shape : length <$> blank_fields n = shape.
Proof using.
  unfold blank_fields, shape, n. rewrite Nat2Z.id. cbn [map fmap list_fmap].
  by rewrite !length_replicate.
Qed.

Lemma sum_shape : Z.of_nat (sum_list shape) = ntb_total n.
Proof using Hn.
  clear H0 Hcap. destruct (ntb_ndp_off_eq n) as [_ ->]; [unfold n; lia|]. unfold shape, ntb_pad, n. cbn [sum_list_with id]. lia.
Qed.

Ltac ntb_store k :=
  erewrite W_bind_some by
    (apply (stores_shape _ shape k);
     [repeat first [apply blank_shape | apply shape_insert; [|reflexivity]]
     |reflexivity
     |unfold shape; cbn [take sum_list_with id]; unfold ntb_pad; lia
     |assumption]).

Lemma ntb_frame_result :
  ntb_total n <= cap -> ntb_total n <= 0xFFFF ->
  mbim_ntb16_frame_single (Some o) cap (Some ip) n sequence
  = Some (ntb_total n, Some (over (ntb_wire ip sequence) o)).
Proof using H0 Hn Hcap.
  intros Ht Hf. destruct (ntb_ndp_off_eq n) as [Eo Et]; [unfold n; lia|].
  pose proof sum_shape as Hsum.
  assert (sum_list shape <= length o)%nat as Hso by lia.
  unfold mbim_ntb16_frame_single. cbv zeta.
  assert (0 < n) as Hn0 by (unfold n; lia). replace (_ || _) with false by lia.
  unfold wr16, wr32. replace (Z.to_nat n) with (length ip) by (unfold n; lia). rewrite take_ge by lia.
  change (St o 0) with (St (over [] o) 0).
  erewrite W_bind_some by (apply stores_over; [done|rewrite length_replicate; cbn; lia]).
  rewrite app_nil_l, <- concat_blank by lia.
  assert (Z.to_nat (ntb_ndp_off n) = 12 + length ip + ntb_pad n)%nat as Hoff
    by (unfold ntb_pad; lia).
  rewrite Hoff. clear Hoff.
  ntb_store 0%nat. ntb_store 1%nat. ntb_store 2%nat. ntb_store 3%nat. ntb_store 4%nat.
  ntb_store 5%nat. ntb_store 7%nat. ntb_store 8%nat. ntb_store 9%nat. ntb_store 10%nat.
  ntb_store 11%nat. ntb_store 12%nat.
  rewrite (stores_shape _ shape 13);
    [|repeat first [apply blank_shape | apply shape_insert; [|reflexivity]]
     |reflexivity|unfold shape; cbn [take sum_list_with id]; lia|assumption].
  replace (Z.of_nat (length ip) <? n) with false by (unfold n; lia). reflexivity.
Qed.
End Frame.

Section RoundTrip.
Variables (ip r : bytes) (sequence : Z).
Let n := Z.of_nat (length ip).
Hypothesis H0 : (0 < length ip)%nat.
Hypothesis Hf : ntb_total n <= 0xFFFF.
Hypothesis Hn : n < 2 ^ 32 - 31.

Let m := ntb_wire ip sequence ++ r.

Lemma ntb_rd16 k v i :
  ntb_fields ip sequence !! k = Some (le_list 2 v) -> i = Z.of_nat (field_at (ntb_fields ip sequence) k) ->
  rd16 m i = Some (u16 v).
Proof using. intros Hk ->. by apply rd16_field. Qed.

Lemma ntb_rd32 k v i :
  ntb_fields ip sequence !! k = Some (le_list 4 v) -> i = Z.of_nat (field_at (ntb_fields ip sequence) k) ->
  rd32 m i = Some (u32 v).
Proof using. intros Hk ->. by apply rd32_field. Qed.

Ltac ntb_at :=
  unfold field_at, ntb_fields; cbn [take concat];
  rewrite ?length_app, ?length_le_list, ?length_replicate; cbn [length]; unfold ntb_pad; lia.

Lemma ntb_deframes_wire :
  mbim_ntb16_deframe (Some m) (ntb_total n) true = Some (1, [ip]).
Proof using H0 Hf Hn.
  destruct (ntb_ndp_off_eq n) as [Eo Et]; [unfold n; lia|].
  assert (Z.of_nat (length ip) = n) as Hnl by done. assert (0 < n) as Hn0 by lia.
  unfold mbim_ntb16_deframe. replace (_ || _) with false by (cbn [negb orb]; lia).
  rewrite (ntb_rd32 0 MBIM_NTH16_SIGNATURE 0) by (reflexivity || ntb_at). ob.
  change (negb (u32 MBIM_NTH16_SIGNATURE =? MBIM_NTH16_SIGNATURE)) with false. cbv iota.
  rewrite (ntb_rd16 3 (u16 (ntb_total n)) 8) by (reflexivity || ntb_at). ob.
  rewrite !u16_small by (unfold u16; lia). cbv zeta.
  replace (_ || _) with false by lia.
  rewrite (ntb_rd16 4 (u16 (ntb_ndp_off n)) 10) by (reflexivity || ntb_at). ob.
  rewrite !u16_small by (unfold u16; lia).
  cbn [ndp_chain]. replace (negb _ && _) with true by lia.
  rewrite (ntb_rd32 7 MBIM_NDP16_SIGNATURE (ntb_ndp_off n)) by (reflexivity || ntb_at). ob.
  rewrite (ntb_rd16 8 16 (ntb_ndp_off n + 4)) by (reflexivity || ntb_at). ob.
  rewrite (ntb_rd16 9 0 (ntb_ndp_off n + 6)) by (reflexivity || ntb_at). ob. cbv zeta.
  change (negb (u32 MBIM_NDP16_SIGNATURE &. MBIM_NDP16_SIG_MASK =? MBIM_NDP16_SIGNATURE)) with false.
  change (u16 16) with 16. change (u16 0) with 0. cbv iota.
  replace ((16 <? 8) || (ntb_total n <? ntb_ndp_off n + 16)) with false by lia.
  destruct (Z.to_nat (ntb_total n)) as [|[|f]] eqn:Ef; [lia|lia|].
  cbn [ndp_entries]. rewrite !(u32_small (ntb_ndp_off n + 8 + 4)) by lia.
  replace (ntb_ndp_off n + 8 + 4 <=? ntb_ndp_off n + 16) with true by lia.
  rewrite (ntb_rd16 10 12 (ntb_ndp_off n + 8)) by (reflexivity || ntb_at). ob.
  rewrite (ntb_rd16 11 (u16 n) (ntb_ndp_off n + 8 + 2)) by (reflexivity || ntb_at). ob.
  change (u16 12) with 12. rewrite !u16_small by (unfold u16; lia).
  change ((12 =? 0) && (n =? 0)) with false. cbv iota.
  replace ((n =? 0) || (ntb_total n <? 12 + n)) with false by lia.
  assert (slice m (Z.to_nat 12) (Z.to_nat n) = Some ip) as ->.
  { unfold m, ntb_wire. rewrite (concat_split (ntb_fields ip sequence) 5 ip eq_refl), <- !app_assoc.
    apply slice_app; [|lia]. change (Z.to_nat 12) with 12%nat. cbn [take ntb_fields concat].
    rewrite !length_app, !length_le_list. done. }
  ob. rewrite !(u32_small (ntb_ndp_off n + 8 + 4 + 4)) by lia.
  replace (ntb_ndp_off n + 8 + 4 + 4 <=? ntb_ndp_off n + 16) with true by lia.
  rewrite (ntb_rd16 12 0 (ntb_ndp_off n + 8 + 4)) by (reflexivity || ntb_at). ob.
  rewrite (ntb_rd16 13 0 (ntb_ndp_off n + 8 + 4 + 2)) by (reflexivity || ntb_at). ob. reflexivity.
Qed.
End RoundTrip.

(** ** Claims *)

(** Framing round trips.  A datagram of at least one byte whose block fits
    the caller's capacity and the 16-bit block length is framed inside the
    buffer, in the documented length, and deframing that block, whatever follows
    it in the buffer, delivers exactly that datagram; a datagram that does not
    fit is refused with 0 and the buffer is untouched. *)
Lemma ntb_frame_roundtrip o ip cap sequence :
  (0 < length ip)%nat -> Z.of_nat (length ip) < 2 ^ 32 - 31 -> cap <= Z.of_nat (length o) ->
  let n := Z.of_nat (length ip) in
  let total := 28 + 4 * ((n + 3) / 4) in
  (total <= cap /\ total <= 0xFFFF ->
   exists o', mbim_ntb16_frame_single (Some o) cap (Some ip) n sequence = Some (total, Some o')
     /\ length o' = length o
     /\ mbim_ntb16_deframe (Some o') total true = Some (1, [ip]))
  /\ (cap < total \/ 0xFFFF < total ->
      mbim_ntb16_frame_single (Some o) cap (Some ip) n sequence = Some (0, Some o)).
Proof.
  intros H0 Hn Hcap n total. destruct (ntb_ndp_off_eq n) as [_ Et]; [lia|]. fold total in Et.
  split.
  - intros [Ht Hf]. exists (over (ntb_wire ip sequence) o).
    pose proof (length_ntb_wire ip sequence Hn) as Hl. fold n in Hl. split_and!.
    + rewrite <- Et in *. by apply ntb_frame_result.
    + apply length_over. lia.
    + rewrite <- Et in *. by apply ntb_deframes_wire.
  - intros Hc. unfold mbim_ntb16_frame_single. fold n. rewrite Et. cbv zeta.
    by replace (_ || _) with true by lia.
Qed.

(** The deframer is memory safe and terminates on every block.  Whatever the
    host sends, each read is inside the announced length, the walk over chained
    and cyclic NDPs ends, the result is -1 or the number of datagrams delivered,
    and each of them is a non-empty range of the block. *)
Lemma ntb_deframe_safe ntb len :
  Forall is_byte ntb -> 0 <= len <= Z.of_nat (length ntb) -> len < 2 ^ 32 - 4 ->
  exists rc ds, mbim_ntb16_deframe (Some ntb) len true = Some (rc, ds)
    /\ (rc = -1 /\ ds = [] \/ rc = Z.of_nat (length ds)) /\ Forall (datagram_of ntb len) ds.
Proof.
  intros Hb Hl Hm. unfold mbim_ntb16_deframe.
  destruct (_ || _) eqn:E; [exists (-1), []; split; [done|]; split; [by left|done]|].
  destruct (rd32_in ntb 0) as (sig & ->); [lia..|]. ob.
  destruct (negb (_ =? MBIM_NTH16_SIGNATURE));
    [exists (-1), []; split; [done|]; split; [by left|done]|].
  destruct (rd16_in ntb 8) as (bl & -> & Hbl); [done|lia..|]. ob. cbv zeta.
  destruct (rd16_in ntb 10) as (ni & -> & Hni); [done|lia..|]. ob.
  match goal with |- context [ndp_chain _ _ _ ?b _] =>
    destruct (ndp_chain_safe ntb len Hb Hl Hm (S (Z.to_nat len)) b ni) as (ds & -> & Hds) end.
  - clear E. destruct (_ || _) eqn:E1; lia.
  - done.
  - right. lia.
  - lia.
  - ob. exists (Z.of_nat (length ds)), ds. split; [done|]. split; [by right|done].
Qed.

Lemma stores_inv i l (k : W unit) s r :
  (stores i l ;; k) s = Some r ->
  (i + length l <= length (wmem s))%nat
  /\ exists s', length (wmem s') = length (wmem s) /\ k s' = Some r.
Proof.
  change ((stores i l ;; k) s) with (match stores i l s with Some (_, s') => k s' | None => None end).
  unfold stores. destruct (_ <=?n _) eqn:E; [|done]. intros H. split; [lia|].
  eexists. split; [|exact H]. cbn [wmem]. rewrite !length_app, length_take, length_drop. lia.
Qed.

(** The [uint32_t] sums wrap for a length close to [2 ^ 32]: the block is then
    taken for a 16-byte one and the copy runs past the buffer. *)
Lemma ntb_frame_wraps o ip cap sequence :
  16 <= cap -> (16 <= length o)%nat -> Z.of_nat (length o) < 2 ^ 32 - 14 ->
  mbim_ntb16_frame_single (Some o) cap (Some ip) (2 ^ 32 - 14) sequence = None.
Proof.
  intros Hc Ho Hm. unfold mbim_ntb16_frame_single. cbv zeta.
  change (ntb_total (2 ^ 32 - 14)) with 16. change (ntb_ndp_off (2 ^ 32 - 14)) with 0.
  replace (_ || _) with false by lia. case_match eqn:E; [|done]. destruct p as [[] s].
  destruct (_ <? 2 ^ 32 - 14) eqn:El; [done|]. exfalso. unfold wr16, wr32 in E.
  do 6 (apply stores_inv in E as (_ & ? & ? & E); cbn [wmem] in * ).
  apply stores_inv in E as (Hfit & _). rewrite length_take in Hfit. cbn [wmem] in *. lia.
Qed.

(** The NTB framing.  A datagram whose block fits the capacity and the
    16-bit block length is framed inside the buffer in the documented length and
    deframed to exactly that datagram, whatever follows it; one that does not fit
    is refused with the buffer untouched.  On every block the host sends, chained
    and cyclic NDPs included, the deframer terminates with reads inside the block
    and delivers only non-empty ranges of it. *)
Lemma ntb_codec_correct :
  (forall o ip cap sequence,
  (0 < length ip)%nat -> Z.of_nat (length ip) < 2 ^ 32 - 31 -> cap <= Z.of_nat (length o) ->
  let n := Z.of_nat (length ip) in
  let total := 28 + 4 * ((n + 3) / 4) in
  (total <= cap /\ total <= 0xFFFF ->
   exists o', mbim_ntb16_frame_single (Some o) cap (Some ip) n sequence = Some (total, Some o')
     /\ length o' = length o
     /\ mbim_ntb16_deframe (Some o') total true = Some (1, [ip]))
  /\ (cap < total \/ 0xFFFF < total ->
      mbim_ntb16_frame_single (Some o) cap (Some ip) n sequence = Some (0, Some o)))
  /\ (forall ntb len,
  Forall is_byte ntb -> 0 <= len <= Z.of_nat (length ntb) -> len < 2 ^ 32 - 4 ->
  exists rc ds, mbim_ntb16_deframe (Some ntb) len true = Some (rc, ds)
    /\ (rc = -1 /\ ds = [] \/ rc = Z.of_nat (length ds)) /\ Forall (datagram_of ntb len) ds).
Proof.
  split; intros; [by apply ntb_frame_roundtrip|by apply ntb_deframe_safe].
Qed.

Lemma ntb_codec_correct_witness :
  (exists o', mbim_ntb16_frame_single (Some (replicate 64 7)) 64 (Some [69; 0; 1; 2; 3]) 5 9
      = Some (36, Some o')
    /\ mbim_ntb16_deframe (Some o') 36 true = Some (1, [[69; 0; 1; 2; 3]]))
  /\ exists rc ds, mbim_ntb16_deframe (Some (replicate 40 255)) 40 true = Some (rc, ds).
Proof.
  split.
  - destruct (proj1 ntb_codec_correct (replicate 64 7) [69; 0; 1; 2; 3] 64 9) as [H _]; [simpl; lia..|].
    destruct H as (o' & E & _ & D); [simpl; lia|]. exists o'. split; [exact E|exact D].
  - destruct (proj2 ntb_codec_correct (replicate 40 255) 40) as (rc & ds & E & _).
    + apply Forall_replicate. unfold is_byte. lia.
    + simpl. lia.
    + lia.
    + exists rc, ds. exact E.
Defined.
