(* ===== verification/UserPlane.v ===== *)
(** The user plane: [src/src/ue_engine/ue_up.c].

    The context holds the host session, the table of the sessions by PSI and the
    counters.  The transport it points to is not a copy: the pointer is the flag
    [up_transport] and the transport's state is threaded through the operations,
    behind the interface [DataLink].  The two delivery callbacks are parameters
    over a state [Host] of the receivers, the pointers to them are flags. *)

From S2P Require Import Prelude UeTypes.

#[local] Set Primitive Projections.

(** ** The interface of the transport's data path

    [ue_ran_transport_is_connected], [ue_ran_transport_send_data_pdu] and
    [ue_ran_transport_recv_data_pdu] (its result, buffer and session). *)
Class DataLink (T : Type) := {
  link_is_connected : T -> bool;
  link_send_data_pdu : T -> Z -> bytes -> option (Z * T);
  link_recv_data_pdu : T -> option bytes -> nat -> option (Z * option bytes * option Z * T) }.

(** Its laws: the received PDUs form a queue, sending leaves it alone. *)
Class QueueLink (T : Type) `{DataLink T} := {
  link_ok : T -> Prop;
  link_queue : T -> list (Z * bytes);
  link_send_ok : forall t psi d, link_ok t ->
    exists r t', link_send_data_pdu t psi d = Some (r, t') /\ link_ok t'
      /\ link_queue t' = link_queue t /\ link_is_connected t' = link_is_connected t;
  link_recv_ok : forall t b n, link_ok t -> (0 < n <= length b)%nat -> Z.of_nat n < 2 ^ 32 ->
    match link_queue t with
    | [] => link_recv_data_pdu t (Some b) n = Some (0, Some b, None, t)
    | (psi, p) :: rest =>
      exists t', link_recv_data_pdu t (Some b) n
          = Some (Z.of_nat (length (take n p)), Some (over (take n p) b), Some psi, t')
        /\ link_ok t' /\ link_queue t' = rest /\ link_is_connected t' = link_is_connected t
    end }.

(** ** The context *)

Inductive ue_up_state := UE_UP_IDLE | UE_UP_BINDING | UE_UP_ACTIVE | UE_UP_SUSPENDED.
#[export] Instance ue_up_state_eq_dec : EqDecision ue_up_state.
Proof. solve_decision. Defined.

Record ue_up_session := UpSession {
  us_used : bool; us_host_visible : bool; us_psi : Z; us_dnn : bytes; us_pdu_type : bytes;
  us_ipv4_addr : bytes; us_ipv4_gw : bytes; us_dns1 : bytes; us_dns2 : bytes; us_mtu : Z;
  us_ambr_ul_kbps : Z; us_ambr_dl_kbps : Z }.

Definition up_no_session : ue_up_session :=
  UpSession false false 0 [] [] [0; 0; 0; 0] [0; 0; 0; 0] [0; 0; 0; 0] [0; 0; 0; 0] 0 0 0.

Record ue_up_ctx := UpCtx {
  up_state : ue_up_state;
  up_session : ue_up_session;
  up_has_session : bool;
  up_sessions : list ue_up_session;
  up_host_psi : Z;
  up_transport : bool;
  up_dl_callback : bool;
  up_internal_dl_callback : bool;
  up_ul_packets : Z; up_dl_packets : Z; up_ul_bytes : Z; up_dl_bytes : Z;
  up_ul_drops : Z; up_dl_drops : Z }.

Abbreviation is_up s up := (bool_decide (up_state up = s)).

(** [up->sessions[psi]]. *)
Definition up_at (up : ue_up_ctx) (psi : Z) : ue_up_session :=
  default up_no_session (up_sessions up !! Z.to_nat psi).

Definition ue_up_init : ue_up_ctx :=
  UpCtx UE_UP_IDLE up_no_session false (replicate 16 up_no_session) 0 false false false 0 0 0 0 0 0.

Definition ue_up_set_transport (up : ue_up_ctx) (transport : bool) : ue_up_ctx :=
  up <| up_transport := transport |>.
Definition ue_up_set_downlink_callback (up : ue_up_ctx) (cb : bool) : ue_up_ctx :=
  up <| up_dl_callback := cb |>.
Definition ue_up_set_internal_downlink_callback (up : ue_up_ctx) (cb : bool) : ue_up_ctx :=
  up <| up_internal_dl_callback := cb |>.

(** The record written for a bound session. *)
Definition bound_session (psi : Z) (dnn pdu_type : option bytes) (ip : option ue_engine_runtime_ip)
    (host_visible : bool) : ue_up_session :=
  let s := UpSession true host_visible psi (strcpy_n 64 (default [] dnn))
             (strcpy_n 16 (default [] pdu_type)) [0; 0; 0; 0] [0; 0; 0; 0] [0; 0; 0; 0] [0; 0; 0; 0]
             0 0 0 in
  match ip with
  | None => s
  | Some ip => s <| us_ipv4_addr := ip_ipv4_addr ip |> <| us_ipv4_gw := ip_ipv4_gw ip |>
                 <| us_dns1 := ip_dns1 ip |> <| us_dns2 := ip_dns2 ip |> <| us_mtu := ip_mtu ip |>
  end.

Definition ue_up_unbind_session (up : ue_up_ctx) : ue_up_ctx :=
  let sessions := if (1 <=? up_host_psi up) && (up_host_psi up <=? 15)
                  then <[Z.to_nat (up_host_psi up) := up_no_session]> (up_sessions up)
                  else up_sessions up in
  up <| up_sessions := sessions |> <| up_session := up_no_session |> <| up_has_session := false |>
     <| up_host_psi := 0 |> <| up_state := UE_UP_IDLE |>.

Definition ue_up_unbind_session_psi (up : ue_up_ctx) (psi : Z) : ue_up_ctx :=
  if (psi <? 1) || (15 <? psi) then up else
  if negb (us_used (up_at up psi)) then up else
  let up := up <| up_sessions := <[Z.to_nat psi := up_no_session]> (up_sessions up) |> in
  if up_host_psi up =? psi
  then up <| up_session := up_no_session |> <| up_has_session := false |> <| up_host_psi := 0 |>
          <| up_state := UE_UP_IDLE |>
  else up.

Definition ue_up_suspend (up : ue_up_ctx) : ue_up_ctx :=
  if is_up UE_UP_ACTIVE up then up <| up_state := UE_UP_SUSPENDED |> else up.
Definition ue_up_resume (up : ue_up_ctx) : ue_up_ctx :=
  if is_up UE_UP_SUSPENDED up then up <| up_state := UE_UP_ACTIVE |> else up.

(** The session is unbound, then the whole context is cleared. *)
Definition ue_up_deinit (up : ue_up_ctx) : ue_up_ctx := ue_up_init.

Definition ue_up_is_active (up : ue_up_ctx) : bool := is_up UE_UP_ACTIVE up && up_has_session up.
Definition ue_up_get_session (up : ue_up_ctx) : option ue_up_session :=
  if up_has_session up then Some (up_session up) else None.

Definition up_count_ul (up : ue_up_ctx) (len : Z) : ue_up_ctx :=
  up <| up_ul_packets := u64 (up_ul_packets up + 1) |> <| up_ul_bytes := u64 (up_ul_bytes up + len) |>.
Definition up_drop_ul (up : ue_up_ctx) : ue_up_ctx :=
  up <| up_ul_drops := u64 (up_ul_drops up + 1) |>.
Definition up_drop_dl (up : ue_up_ctx) : ue_up_ctx :=
  up <| up_dl_drops := u64 (up_dl_drops up + 1) |>.

Definition UP_PKT_SIZE : nat := Z.to_nat 16384.

Section Link.
Context `{DataLink T}.
(** The receivers of downlink packets and their state. *)
Context {Host : Type} (dl_cb internal_dl_cb : Z -> bytes -> Host -> Z * Host).

Definition ue_up_bind_session_ex (up : ue_up_ctx) (t : T) (psi : Z) (dnn pdu_type : option bytes)
    (ip : option ue_engine_runtime_ip) (host_visible : bool) : Z * ue_up_ctx :=
  if (psi <? 1) || (15 <? psi) then (-1, up) else
  let s := bound_session psi dnn pdu_type ip host_visible in
  let up := up <| up_sessions := <[Z.to_nat psi := s]> (up_sessions up) |> in
  let up := if host_visible
            then up <| up_session := s |> <| up_has_session := true |> <| up_host_psi := psi |>
            else up in
  (0, if up_has_session up && up_transport up && link_is_connected t
      then up <| up_state := UE_UP_ACTIVE |>
      else if up_has_session up then up <| up_state := UE_UP_BINDING |> else up).

Definition ue_up_bind_session (up : ue_up_ctx) (t : T) (psi : Z) (dnn pdu_type : option bytes)
    (ip : option ue_engine_runtime_ip) : Z * ue_up_ctx :=
  ue_up_bind_session_ex up t psi dnn pdu_type ip true.

Definition ue_up_send_uplink (up : ue_up_ctx) (t : T) (ip_packet : bytes)
    : option (Z * ue_up_ctx * T) :=
  if (length ip_packet =?n 0) then Some (-1, up, t) else
  if negb (is_up UE_UP_ACTIVE up) || negb (up_has_session up) then Some (-1, up_drop_ul up, t) else
  if negb (up_transport up) then Some (-1, up_drop_ul up, t) else
  '(rc, t) ← link_send_data_pdu t (up_host_psi up) ip_packet;
  if rc <? 0 then Some (-1, up_drop_ul up, t)
  else Some (0, up_count_ul up (Z.of_nat (length ip_packet)), t).

Definition ue_up_send_internal_uplink (up : ue_up_ctx) (t : T) (psi : Z) (ip_packet : bytes)
    : option (Z * ue_up_ctx * T) :=
  if (length ip_packet =?n 0) || (psi <? 1) || (15 <? psi) then Some (-1, up, t) else
  if negb (up_transport up) || negb (us_used (up_at up psi)) || us_host_visible (up_at up psi)
  then Some (-1, up_drop_ul up, t) else
  '(rc, t) ← link_send_data_pdu t psi ip_packet;
  if rc <? 0 then Some (-1, up_drop_ul up, t)
  else Some (0, up_count_ul up (Z.of_nat (length ip_packet)), t).

(** The body of the downlink loop for one packet: whether it was delivered. *)
Definition route_downlink (up : ue_up_ctx) (h : Host) (psi : Z) (data : bytes)
    : bool * ue_up_ctx * Host :=
  if negb (psi =? up_host_psi up) then
    if (1 <=? psi) && (psi <=? 15) && us_used (up_at up psi) && negb (us_host_visible (up_at up psi))
       && up_internal_dl_callback up
    then let '(rc, h) := internal_dl_cb psi data h in
         if rc =? 0 then (true, up, h) else (false, up_drop_dl up, h)
    else (false, up_drop_dl up, h)
  else if up_dl_callback up then
    let '(rc, h) := dl_cb psi data h in
    if rc <? 0 then (false, up_drop_dl up, h)
    else (true, up <| up_dl_packets := u64 (up_dl_packets up + 1) |>
                   <| up_dl_bytes := u64 (up_dl_bytes up + Z.of_nat (length data)) |>, h)
  else (false, up_drop_dl up, h).

(** [psi] and [pkt_buf] are the locals; the fuel bounds the number of packets. *)
Fixpoint downlink_loop (fuel : nat) (up : ue_up_ctx) (t : T) (h : Host) (psi : Z) (pkt_buf : bytes)
    (delivered : Z) : option (Z * ue_up_ctx * T * Host) :=
  match fuel with
  | O => None
  | S fuel =>
    '(pkt_len, buf, session, t) ← link_recv_data_pdu t (Some pkt_buf) UP_PKT_SIZE;
    pkt_buf ← buf;
    let psi := default psi session in
    if 0 <? pkt_len then
      let '(ok, up, h) := route_downlink up h psi (take (Z.to_nat pkt_len) pkt_buf) in
      downlink_loop fuel up t h psi pkt_buf (delivered + if ok then 1 else 0)
    else Some (delivered, up, t, h)
  end.

Definition up_any_session (up : ue_up_ctx) : bool :=
  up_has_session up || existsb us_used (take 15 (drop 1 (up_sessions up))).

Definition ue_up_process_downlink (fuel : nat) (up : ue_up_ctx) (t : T) (h : Host)
    : option (Z * ue_up_ctx * T * Host) :=
  if negb (up_transport up) then Some (-1, up, t, h) else
  if negb (up_any_session up) || negb (link_is_connected t) then Some (0, up, t, h) else
  downlink_loop fuel up t h 0 (replicate UP_PKT_SIZE 0) 0.

Definition ue_up_tick (up : ue_up_ctx) (t : T) : ue_up_ctx :=
  if up_has_session up && up_transport up then
    let connected := link_is_connected t in
    if is_up UE_UP_BINDING up && connected then up <| up_state := UE_UP_ACTIVE |>
    else if is_up UE_UP_ACTIVE up && negb connected then up <| up_state := UE_UP_SUSPENDED |>
    else if is_up UE_UP_SUSPENDED up && connected then up <| up_state := UE_UP_ACTIVE |>
    else up
  else up.
End Link.

(** ** The invariant *)

Record up_inv (up : ue_up_ctx) : Prop := {
  upi_len : length (up_sessions up) = 16%nat;
  upi_host : if up_has_session up
             then 1 <= up_host_psi up <= 15 /\ us_used (up_at up (up_host_psi up)) = true
             else up_host_psi up = 0;
  upi_state : up_state up <> UE_UP_IDLE <-> up_has_session up = true;
  upi_used : forall psi, 0 <= psi < 16 -> us_used (up_at up psi) = true ->
    1 <= psi /\ us_psi (up_at up psi) = psi }.

Section Reach.
Context `{DataLink T}.
Context {Host : Type} (dl_cb internal_dl_cb : Z -> bytes -> Host -> Z * Host).

(** The calls of the engine and of the receive thread. *)
Inductive up_step (up : ue_up_ctx) : ue_up_ctx -> Prop :=
| us_transport b : up_step up (ue_up_set_transport up b)
| us_cb b : up_step up (ue_up_set_downlink_callback up b)
| us_internal_cb b : up_step up (ue_up_set_internal_downlink_callback up b)
| us_bind t psi dnn ty ip hv : up_step up (ue_up_bind_session_ex up t psi dnn ty ip hv).2
| us_unbind : up_step up (ue_up_unbind_session up)
| us_unbind_psi psi : up_step up (ue_up_unbind_session_psi up psi)
| us_suspend : up_step up (ue_up_suspend up)
| us_resume : up_step up (ue_up_resume up)
| us_deinit : up_step up (ue_up_deinit up)
| us_uplink t d rc up' t' : ue_up_send_uplink up t d = Some (rc, up', t') -> up_step up up'
| us_internal_uplink t psi d rc up' t' :
    ue_up_send_internal_uplink up t psi d = Some (rc, up', t') -> up_step up up'
| us_downlink fuel t h n up' t' h' :
    ue_up_process_downlink dl_cb internal_dl_cb fuel up t h = Some (n, up', t', h') -> up_step up up'
| us_tick t : up_step up (ue_up_tick up t).

Inductive up_reachable : ue_up_ctx -> Prop :=
| up_reach_init : up_reachable ue_up_init
| up_reach_step up up' : up_reachable up -> up_step up up' -> up_reachable up'.

(** The counters are not part of the invariant. *)
Definition same_sessions (up up' : ue_up_ctx) : Prop :=
  up_state up' = up_state up /\ up_has_session up' = up_has_session up
  /\ up_sessions up' = up_sessions up /\ up_host_psi up' = up_host_psi up
  /\ up_session up' = up_session up /\ up_internal_dl_callback up' = up_internal_dl_callback up
  /\ up_dl_callback up' = up_dl_callback up /\ up_transport up' = up_transport up.

Lemma same_sessions_inv up up' : same_sessions up up' -> up_inv up -> up_inv up'.
Proof.
  intros (E1 & E2 & E3 & E4 & _) [Hl Hh Hs Hu].
  assert (forall psi, up_at up' psi = up_at up psi) as Hat by (intros; unfold up_at; by rewrite E3).
  split; rewrite ?E1, ?E2, ?E3, ?E4, ?Hat; try done. intros psi. rewrite Hat. apply Hu.
Qed.

Lemma route_same (up : ue_up_ctx) (h : Host) psi d : same_sessions up (route_downlink dl_cb internal_dl_cb up h psi d).1.2.
Proof.
  unfold route_downlink.
  repeat first [case_match; simplify_eq | done].
Qed.

Lemma downlink_loop_same fuel up t h psi buf k n up' t' h' :
  downlink_loop dl_cb internal_dl_cb fuel up t h psi buf k = Some (n, up', t', h') ->
  same_sessions up up'.
Proof.
  revert up t h psi buf k. induction fuel as [|fuel IH]; intros up t h psi buf k E; [done|].
  cbn [downlink_loop] in E.
  destruct (link_recv_data_pdu _ _ _) as [[[[len b] s] t1]|]; [|done]. cbn [mbind option_bind] in E.
  destruct b as [b|]; [|done]. cbn [mbind option_bind] in E. destruct (0 <? len); [|by simplify_eq].
  pose proof (route_same up h (default psi s) (take (Z.to_nat len) b)) as Hr.
  destruct (route_downlink _ _ _ _ _ _) as [[ok up1] h1]. cbn [fst snd] in Hr.
  apply IH in E. unfold same_sessions in *. destruct_and!. split_and!; congruence.
Qed.
End Reach.

(** ** Sessions in the table *)

Lemma up_at_insert (l : list ue_up_session) psi s k :
  length l = 16%nat -> 0 <= psi < 16 -> 0 <= k ->
  default up_no_session (<[Z.to_nat psi := s]> l !! Z.to_nat k)
  = if k =? psi then s else default up_no_session (l !! Z.to_nat k).
Proof.
  intros Hl Hp Hk. destruct (Z.eqb_spec k psi) as [->|Hne].
  - rewrite list_lookup_insert_eq by lia. done.
  - rewrite list_lookup_insert_ne by lia. done.
Qed.

Ltac up_red :=
  cbv [set_field up_state up_session up_has_session up_sessions up_host_psi up_transport
    up_dl_callback up_internal_dl_callback up_at] in *.

Lemma bind_inv `{DataLink T} up (t : T) psi dnn ty ip hv :
  up_inv up -> up_inv (ue_up_bind_session_ex up t psi dnn ty ip hv).2.
Proof.
  intros [Hl Hh Hs Hu]. unfold ue_up_bind_session_ex.
  destruct ((psi <? 1) || (15 <? psi)) eqn:Eg; [by split|].
  set (s := bound_session psi dnn ty ip hv).
  assert (us_used s = true /\ us_psi s = psi) as [Hsu Hsp] by (unfold s, bound_session; by destruct ip).
  clearbody s. cbv zeta.
  assert (forall k, 0 <= k -> default up_no_session (<[Z.to_nat psi := s]> (up_sessions up) !! Z.to_nat k)
    = if k =? psi then s else up_at up k) as Hat.
  { intros k Hk. apply up_at_insert; [done|lia|done]. }
  destruct up as [st se has ss hp tr c1 c2 n1 n2 n3 n4 n5 n6]. up_red.
  assert (forall k, 0 <= k < 16 ->
    us_used (default up_no_session (<[Z.to_nat psi := s]> ss !! Z.to_nat k)) = true ->
    1 <= k /\ us_psi (default up_no_session (<[Z.to_nat psi := s]> ss !! Z.to_nat k)) = k) as Hused.
  { intros k Hk. rewrite Hat by lia. destruct (Z.eqb_spec k psi) as [->|]; [intros _; lia|by apply Hu]. }
  assert (length (<[Z.to_nat psi := s]> ss) = 16%nat) as Hlen by (by rewrite length_insert).
  assert (has = true -> 1 <= hp <= 15
    /\ us_used (default up_no_session (<[Z.to_nat psi := s]> ss !! Z.to_nat hp)) = true) as Hhas.
  { intros ->. destruct Hh as [Hr Huh]. split; [done|]. rewrite Hat by lia.
    by destruct (Z.eqb_spec hp psi) as [->|]. }
  assert (1 <= psi <= 15
    /\ us_used (default up_no_session (<[Z.to_nat psi := s]> ss !! Z.to_nat psi)) = true) as Hpsi.
  { rewrite Hat by lia. rewrite Z.eqb_refl. split; [lia|done]. }
  destruct hv; cbn [snd andb].
  - destruct (tr && _); split; up_red; done.
  - destruct has; cbn [andb]; [destruct (tr && _)|]; split; up_red; try done; by apply Hhas.
Qed.

Lemma unbind_inv up : up_inv up -> up_inv (ue_up_unbind_session up).
Proof.
  intros [Hl Hh Hs Hu]. unfold ue_up_unbind_session.
  destruct ((1 <=? up_host_psi up) && (up_host_psi up <=? 15)) eqn:Eg.
  - assert (forall k, 0 <= k -> default up_no_session
      (<[Z.to_nat (up_host_psi up) := up_no_session]> (up_sessions up) !! Z.to_nat k)
      = if k =? up_host_psi up then up_no_session else up_at up k) as Hat.
    { intros k Hk. apply up_at_insert; [done|lia|done]. }
    destruct up as [st se has ss hp tr c1 c2 n1 n2 n3 n4 n5 n6].
    split; up_red; cbv zeta; [by rewrite length_insert|done|done|].
    intros k Hk. rewrite Hat by lia. destruct (k =? hp); [done|by apply Hu].
  - destruct up as [st se has ss hp tr c1 c2 n1 n2 n3 n4 n5 n6]. split; up_red; done.
Qed.

Lemma unbind_psi_inv up psi : up_inv up -> up_inv (ue_up_unbind_session_psi up psi).
Proof.
  intros [Hl Hh Hs Hu]. unfold ue_up_unbind_session_psi.
  destruct ((psi <? 1) || (15 <? psi)) eqn:Eg; [by split|].
  destruct (negb _); [by split|]. cbv zeta.
  assert (forall k, 0 <= k -> default up_no_session
    (<[Z.to_nat psi := up_no_session]> (up_sessions up) !! Z.to_nat k)
    = if k =? psi then up_no_session else up_at up k) as Hat.
  { intros k Hk. apply up_at_insert; [done|lia|done]. }
  destruct up as [st se has ss hp tr c1 c2 n1 n2 n3 n4 n5 n6]. up_red.
  destruct (hp =? psi) eqn:Ep; split; up_red; try done; try (by rewrite length_insert);
    try (intros k Hk; rewrite Hat by lia; destruct (k =? psi); [done|by apply Hu]).
  destruct has; [|done]. rewrite Hat by lia. rewrite Ep. done.
Qed.

Lemma state_inv up s :
  up_inv up -> up_has_session up = true -> s <> UE_UP_IDLE -> up_inv (up <| up_state := s |>).
Proof. intros [Hl Hh Hs Hu] Eh Hne. split; [done|done|by split|done]. Qed.

Lemma up_step_inv `{DataLink T} {Host : Type} (f g : Z -> bytes -> Host -> Z * Host) up up' :
  up_inv up -> up_step f g up up' -> up_inv up'.
Proof.
  intros Hi Hs. assert (same_sessions up up -> up_inv up) as _ by done.
  destruct Hs as [b|b|b|t psi dnn ty ip hv| |psi| | | |t d rc up' t' E|t psi d rc up' t' E
                 |fuel t h n up' t' h' E|t].
  - destruct Hi. by split.
  - destruct Hi. by split.
  - destruct Hi. by split.
  - by apply bind_inv.
  - by apply unbind_inv.
  - by apply unbind_psi_inv.
  - unfold ue_up_suspend. case_bool_decide as E; [|done].
    apply state_inv; [done| |done]. apply Hi. by rewrite E.
  - unfold ue_up_resume. case_bool_decide as E; [|done].
    apply state_inv; [done| |done]. apply Hi. by rewrite E.
  - split; [done|done|split; done|]. intros psi Hp. unfold up_at. cbn [ue_up_deinit ue_up_init up_sessions].
    destruct (_ !! _) eqn:E; [|done]. apply lookup_replicate in E as [-> _]. done.
  - unfold ue_up_send_uplink in E. cbv [mbind option_bind] in E.
    apply (same_sessions_inv up); [|done].
    repeat (case_match; simplify_eq; try done).
  - unfold ue_up_send_internal_uplink in E. cbv [mbind option_bind] in E.
    apply (same_sessions_inv up); [|done].
    repeat (case_match; simplify_eq; try done).
  - apply (same_sessions_inv up); [|done]. unfold ue_up_process_downlink in E.
    repeat (case_match; simplify_eq; try done). by eapply downlink_loop_same.
  - unfold ue_up_tick. destruct (_ && _) eqn:Eg; [|done]. apply andb_true_iff in Eg as [Eh _].
    destruct (_ && _); [by apply state_inv|]. destruct (_ && _); [by apply state_inv|].
    destruct (_ && _); [by apply state_inv|done].
Qed.

Lemma up_reachable_inv `{DataLink T} {Host : Type} (f g : Z -> bytes -> Host -> Z * Host) up :
  up_reachable f g up -> up_inv up.
Proof.
  induction 1 as [|up up' _ IH Hs]; [|by eapply up_step_inv].
  split; [done|done|split; done|]. intros psi Hp. unfold up_at. cbn [ue_up_init up_sessions].
  destruct (_ !! _) eqn:E; [|done]. apply lookup_replicate in E as [-> _]. done.
Qed.

(** ** Draining the downlink *)

Lemma over_length (a b : bytes) : (length a <= length b)%nat -> length (over a b) = length b.
Proof. intros Hl. unfold over. rewrite length_app, length_drop. lia. Qed.

Lemma up_pkt_size_bounds : (0 < UP_PKT_SIZE)%nat /\ Z.of_nat UP_PKT_SIZE < 2 ^ 32.
Proof. unfold UP_PKT_SIZE. rewrite Z2Nat.id; [split|]; lia. Qed.

Section Drain.
Context `{QueueLink T}.
Context {Host : Type} (dl_cb internal_dl_cb : Z -> bytes -> Host -> Z * Host).

(** What one call does with the queue [q]: every packet is routed in order, and
    the first empty one, which is consumed, ends the call. *)
Fixpoint drain (up : ue_up_ctx) (h : Host) (q : list (Z * bytes)) (delivered : Z)
    : Z * ue_up_ctx * Host * list (Z * bytes) :=
  match q with
  | [] => (delivered, up, h, [])
  | (psi, p) :: q =>
    if (length p =?n 0) then (delivered, up, h, q) else
    let '(ok, up, h) := route_downlink dl_cb internal_dl_cb up h psi (take UP_PKT_SIZE p) in
    drain up h q (delivered + if ok then 1 else 0)
  end.

Lemma downlink_loop_drain fuel : forall up t h psi buf k,
  link_ok t -> length buf = UP_PKT_SIZE -> (length (link_queue t) < fuel)%nat ->
  exists t',
    let '(n, up', h', rest) := drain up h (link_queue t) k in
    downlink_loop dl_cb internal_dl_cb fuel up t h psi buf k = Some (n, up', t', h')
    /\ link_ok t' /\ link_queue t' = rest /\ link_is_connected t' = link_is_connected t.
Proof.
  destruct up_pkt_size_bounds as [Hp0 Hp1].
  induction fuel as [|fuel IH]; intros up t h psi buf k Hok Hb Hf; [lia|].
  pose proof (link_recv_ok t buf UP_PKT_SIZE Hok) as Hr. cbn [downlink_loop].
  specialize (Hr (conj Hp0 (Nat.eq_le_incl _ _ (eq_sym Hb))) Hp1).
  destruct (link_queue t) as [|[psi1 p] q] eqn:Eq.
  - rewrite Hr. cbn [mbind option_bind drain]. exists t. rewrite Eq. split_and!; [reflexivity|exact Hok|reflexivity|reflexivity].
  - destruct Hr as (t1 & Hr & Hok1 & Hq1 & Hc1). rewrite Hr. cbn [mbind option_bind drain default from_option id].
    rewrite length_take.
    assert (length (take UP_PKT_SIZE p) <= length buf)%nat as Hle by (rewrite length_take; lia).
    destruct p as [|b0 p].
    { cbn [length]. rewrite Nat.min_0_r. exists t1. split_and!; [reflexivity|exact Hok1|exact Hq1|exact Hc1]. }
    cbn [length]. destruct (0 <? Z.of_nat _) eqn:E0; [clear E0|lia].
    rewrite Nat.eqb_compare. cbn [Nat.compare].
    assert (take (Z.to_nat (Z.of_nat (UP_PKT_SIZE `min` S (length p))))
              (over (take UP_PKT_SIZE (b0 :: p)) buf) = take UP_PKT_SIZE (b0 :: p)) as ->.
    { rewrite Nat2Z.id. unfold over. rewrite take_app_length'; [done|].
      rewrite length_take. done. }
    destruct (route_downlink dl_cb internal_dl_cb up h psi1 (take UP_PKT_SIZE (b0 :: p)))
      as [[ok up1] h1].
    destruct (IH up1 t1 h1 psi1 (over (take UP_PKT_SIZE (b0 :: p)) buf) (k + if ok then 1 else 0))
      as (t' & Ht'); [done|by rewrite over_length|rewrite Hq1; cbn [length] in Hf; lia|].
    rewrite Hq1 in Ht'. exists t'.
    destruct (drain up1 h1 q (k + if ok then 1 else 0)) as [[[n up'] h'] rest].
    destruct Ht' as (-> & Ho & Hq & Hc). split_and!; [reflexivity|exact Ho|exact Hq|by rewrite Hc].
Qed.

Lemma process_downlink_drains fuel up (t : T) (h : Host)
    (Hok : link_ok t) (Hf : (length (link_queue t) < fuel)%nat) :
  exists t',
    let '(n, up', h', rest) :=
      if negb (up_transport up) then (-1, up, h, link_queue t) else
      if negb (up_any_session up) || negb (link_is_connected t) then (0, up, h, link_queue t) else
      drain up h (link_queue t) 0 in
    ue_up_process_downlink dl_cb internal_dl_cb fuel up t h = Some (n, up', t', h')
    /\ link_ok t' /\ link_queue t' = rest /\ link_is_connected t' = link_is_connected t.
Proof.
  unfold ue_up_process_downlink.
  destruct (negb (up_transport up)); [by exists t|].
  destruct (negb (up_any_session up) || _); [by exists t|].
  apply downlink_loop_drain; [done|by rewrite length_replicate|done].
Qed.
(** With fuel above the number of queued PDUs the downlink routine returns;
    its result, the counters and the calls to the receivers are those of routing
    the queued packets one by one in their order, up to and including the first
    empty one, and it removes exactly these from the queue of a connected
    transport; without a transport it answers -1, without a session or a
    connection 0, and touches nothing. *)
Lemma downlink_drains fuel up (t : T) (h : Host)
    (Hok : link_ok t) (Hf : (length (link_queue t) < fuel)%nat) :
  exists t',
    let '(n, up', h', rest) :=
      if negb (up_transport up) then (-1, up, h, link_queue t) else
      if negb (up_any_session up) || negb (link_is_connected t) then (0, up, h, link_queue t) else
      drain up h (link_queue t) 0 in
    ue_up_process_downlink dl_cb internal_dl_cb fuel up t h = Some (n, up', t', h')
    /\ link_ok t' /\ link_queue t' = rest /\ link_is_connected t' = link_is_connected t.
Proof. by apply process_downlink_drains. Qed.
End Drain.

(** In every context reachable from the initialisation by the calls of the
    engine and of the receive thread the host session exists exactly when the
    state is not idle, its PSI is then between 1 and 15 and its entry of the table
    is in use, and is 0 otherwise; a used entry of the table lies at its own PSI. *)
Lemma up_reachable_invariant `{DataLink T} {Host : Type} (f g : Z -> bytes -> Host -> Z * Host) up
    (Hr : up_reachable f g up) :
  (up_state up <> UE_UP_IDLE <-> up_has_session up = true)
  /\ (up_has_session up = true -> 1 <= up_host_psi up <= 15
      /\ us_used (up_at up (up_host_psi up)) = true /\ us_psi (up_at up (up_host_psi up)) = up_host_psi up)
  /\ (up_has_session up = false -> up_host_psi up = 0)
  /\ (forall psi, 0 <= psi < 16 -> us_used (up_at up psi) = true -> 1 <= psi /\ us_psi (up_at up psi) = psi).
Proof.
  destruct (up_reachable_inv f g up Hr) as [Hl Hh Hs Hu]. split_and!; [done..| | |done].
  - intros E. rewrite E in Hh. destruct Hh as [H1 H2]. split_and!; [lia..|done|].
    by apply Hu; [lia|].
  - intros E. by rewrite E in Hh.
Qed.

(** While no host session exists, which makes the host PSI 0, a DATA PDU that
    carries session identity 0 is not dropped: it is handed to the host's
    callback, and counted as delivered when the callback takes it. *)
Lemma sessionless_psi0_delivered `{DataLink T} {Host : Type} (f g : Z -> bytes -> Host -> Z * Host)
    up h d (Hr : up_reachable f g up) (Hs : up_has_session up = false) (Hc : up_dl_callback up = true) :
  route_downlink f g up h 0 d
  = let '(rc, h') := f 0 d h in
    if rc <? 0 then (false, up_drop_dl up, h')
    else (true, up <| up_dl_packets := u64 (up_dl_packets up + 1) |>
                   <| up_dl_bytes := u64 (up_dl_bytes up + Z.of_nat (length d)) |>, h').
Proof.
  destruct (up_reachable_inv f g up Hr) as [_ Hh _ _]. rewrite Hs in Hh.
  unfold route_downlink. by rewrite Hh, Hc.
Qed.

(** ** A concrete link and its users *)

#[local] Instance test_link : DataLink (list (Z * bytes)) := {
  link_is_connected _ := true;
  link_send_data_pdu t psi d := Some (0, t);
  link_recv_data_pdu t b n :=
    match b, t with
    | None, _ => None
    | Some b, [] => Some (0, Some b, None, [])
    | Some b, (psi, p) :: t =>
      Some (Z.of_nat (length (take n p)), Some (over (take n p) b), Some psi, t)
    end }.
#[local] Instance test_queue : QueueLink (list (Z * bytes)).
Proof.
  refine {| link_ok t := True; link_queue t := t |}.
  - intros t psi d _. by exists 0, t.
  - intros [|[psi p] t] b n _ _ _; [done|]. cbn [link_recv_data_pdu test_link]. by exists t.
Defined.

Definition test_cb : Z -> bytes -> list (Z * bytes) -> Z * list (Z * bytes) :=
  fun psi d h => (0, h ++ [(psi, d)]).

Definition test_up : ue_up_ctx :=
  (ue_up_bind_session_ex (ue_up_set_downlink_callback (ue_up_set_transport ue_up_init true) true)
     ([] : list (Z * bytes)) 2 None None None false).2.

Lemma test_up_reachable : up_reachable test_cb test_cb test_up.
Proof.
  eapply up_reach_step; [eapply up_reach_step; [eapply up_reach_step; [constructor|apply (us_transport _ _ _ true)]
    |apply (us_cb _ _ _ true)]|apply us_bind].
Qed.

Lemma downlink_drains_witness : exists t' : list (Z * bytes),
  ue_up_process_downlink test_cb test_cb 5 test_up [(0, [69; 1]); (2, [69]); (1, []); (1, [9])] []
  = Some (1, up_drop_dl test_up <| up_dl_packets := 1 |> <| up_dl_bytes := 2 |>, t', [(0, [69; 1])])
  /\ t' = [(1, [9])].
Proof.
  destruct (downlink_drains test_cb test_cb 5 test_up
    ([(0, [69; 1]); (2, [69]); (1, []); (1, [9])] : list (Z * bytes)) []) as (t' & H & _ & Hq & _).
  - exact I.
  - cbn. lia.
  - exists t'. done.
Defined.

Example sessionless_psi0_delivered_example :
  (route_downlink test_cb test_cb test_up [] 0 [69; 1]).2 = [(0, [69; 1])].
Proof.
  rewrite (sessionless_psi0_delivered test_cb test_cb test_up [] [69; 1] test_up_reachable); done.
Defined.
