(* ===== verification/InstanceConfig.v ===== *)
(** The configuration of a UE instance: [src/src/runtime/ue_instance_config.c]
    and its header.

    The file's contents are the argument of [ue_instance_config_load_file]; a
    [char] array holds a C string.  Reading gives [None] where [atoi] meets a
    number that is not an [int]. *)

From S2P Require Import Prelude CString.

#[local] Set Primitive Projections.

Record ue_device_identity := DeviceIdentity {
  dev_imei : bytes; dev_manufacturer : bytes; dev_model : bytes; dev_firmware : bytes;
  dev_serial : bytes }.

Record ue_sim_profile := SimProfile {
  sim_sim_present : bool; sim_imsi : bytes; sim_iccid : bytes; sim_key : bytes;
  sim_opc : bytes; sim_amf : bytes }.

Record ue_network_profile := NetProfile {
  net_mcc : bytes; net_mnc : bytes; net_dnn : bytes; net_operator_long : bytes;
  net_operator_short : bytes; net_pdu_type : bytes; net_slice_sst : Z }.

(** The pairs of [domain_names] and [domain_levels], [domain_count] of them. *)
Record ue_logging_config := LogConfig { log_level : bytes; log_domains : list (bytes * bytes) }.

Record ue_ran_config := RanConfig { ran_gnb_address : bytes; ran_gnb_port : Z }.

Inductive ue_sms_transport_mode := UE_SMS_TRANSPORT_AUTO | UE_SMS_TRANSPORT_IMS.

Record ue_ims_config := ImsConfig { ims_enabled : bool }.
Record ue_sms_config := SmsConfig { sms_enabled : bool; sms_transport : ue_sms_transport_mode }.

Record ue_instance_config := InstanceConfig {
  cfg_device : ue_device_identity;
  cfg_sim : ue_sim_profile;
  cfg_network : ue_network_profile;
  cfg_ran : ue_ran_config;
  cfg_ims : ue_ims_config;
  cfg_sms : ue_sms_config;
  cfg_logging : ue_logging_config;
  cfg_use_real_backend : bool }.

Definition is_empty (s : bytes) : bool := match s with [] => true | _ => false end.

(** Leading and trailing white space removed. *)
Definition trim (s : bytes) : bytes := reverse (skip_spaces (reverse (skip_spaces s))).

Definition parse_bool (s : bytes) : option bool :=
  if strcaseeq s (str "1") || strcaseeq s (str "true") || strcaseeq s (str "yes")
     || strcaseeq s (str "on") then Some true
  else if strcaseeq s (str "0") || strcaseeq s (str "false") || strcaseeq s (str "no")
     || strcaseeq s (str "off") then Some false
  else None.

Definition parse_sms_transport (s : bytes) : option ue_sms_transport_mode :=
  if strcaseeq s (str "auto") then Some UE_SMS_TRANSPORT_AUTO
  else if strcaseeq s (str "ims") then Some UE_SMS_TRANSPORT_IMS
  else None.

(** ** Assignments, by section *)

Definition set_device (d : ue_device_identity) (key value : bytes) : ue_device_identity :=
  if strcaseeq key (str "imei") then d <| dev_imei := strcpy_n 32 value |>
  else if strcaseeq key (str "manufacturer") then d <| dev_manufacturer := strcpy_n 64 value |>
  else if strcaseeq key (str "model") then d <| dev_model := strcpy_n 64 value |>
  else if strcaseeq key (str "firmware") then d <| dev_firmware := strcpy_n 64 value |>
  else if strcaseeq key (str "serial") then d <| dev_serial := strcpy_n 64 value |>
  else d.

Definition set_sim (s : ue_sim_profile) (key value : bytes) : ue_sim_profile :=
  if strcaseeq key (str "imsi") then s <| sim_imsi := strcpy_n 32 value |>
  else if strcaseeq key (str "iccid") then s <| sim_iccid := strcpy_n 40 value |>
  else if strcaseeq key (str "key") then s <| sim_key := strcpy_n 64 value |>
  else if strcaseeq key (str "opc") || strcaseeq key (str "op")
  then s <| sim_opc := strcpy_n 64 value |>
  else if strcaseeq key (str "amf") then s <| sim_amf := strcpy_n 16 value |>
  else if strcaseeq key (str "sim_present") then
    match parse_bool value with Some b => s <| sim_sim_present := b |> | None => s end
  else s.

Definition set_network (n : ue_network_profile) (key value : bytes) : option ue_network_profile :=
  if strcaseeq key (str "mcc") then Some (n <| net_mcc := strcpy_n 8 value |>)
  else if strcaseeq key (str "mnc") then Some (n <| net_mnc := strcpy_n 8 value |>)
  else if strcaseeq key (str "dnn") || strcaseeq key (str "apn")
  then Some (n <| net_dnn := strcpy_n 64 value |>)
  else if strcaseeq key (str "operator_long")
  then Some (n <| net_operator_long := strcpy_n 64 value |>)
  else if strcaseeq key (str "operator_short")
  then Some (n <| net_operator_short := strcpy_n 32 value |>)
  else if strcaseeq key (str "pdu_type") then Some (n <| net_pdu_type := strcpy_n 16 value |>)
  else if strcaseeq key (str "slice_sst") then
    v ← atoi value; Some (n <| net_slice_sst := u8 v |>)
  else Some n.

Definition set_backend (real : bool) (key value : bytes) : bool :=
  if strcaseeq key (str "mode") then
    match parse_bool value with
    | Some b => b
    | None => strcaseeq value (str "real") || strcaseeq value (str "true")
              || strcaseeq value (str "1") || strcaseeq value (str "yes")
              || strcaseeq value (str "on")
    end
  else real.

Definition set_ran (r : ue_ran_config) (key value : bytes) : option ue_ran_config :=
  if strcaseeq key (str "gnb_address") then Some (r <| ran_gnb_address := strcpy_n 128 value |>)
  else if strcaseeq key (str "gnb_port") then
    v ← atoi value; Some (r <| ran_gnb_port := u16 v |>)
  else Some r.

Definition set_ims (i : ue_ims_config) (key value : bytes) : ue_ims_config :=
  if strcaseeq key (str "enabled") then
    match parse_bool value with Some b => i <| ims_enabled := b |> | None => i end
  else i.

Definition set_sms (s : ue_sms_config) (key value : bytes) : ue_sms_config :=
  if strcaseeq key (str "enabled") then
    match parse_bool value with Some b => s <| sms_enabled := b |> | None => s end
  else if strcaseeq key (str "transport") then
    match parse_sms_transport value with Some m => s <| sms_transport := m |> | None => s end
  else s.

Definition set_logging (l : ue_logging_config) (key value : bytes) : ue_logging_config :=
  if strcaseeq key (str "level") then l <| log_level := strcpy_n 16 value |> else l.

Definition add_domain (l : ue_logging_config) (key value : bytes) : ue_logging_config :=
  if (length (log_domains l) <?n 16)
  then l <| log_domains := log_domains l ++ [(strcpy_n 32 key, strcpy_n 16 value)] |> else l.

Definition set_option (cfg : ue_instance_config) (section key value : bytes)
    : option ue_instance_config :=
  if strcaseeq section (str "device")
  then Some (cfg <| cfg_device := (set_device (cfg_device cfg) key value) |>)
  else if strcaseeq section (str "sim")
  then Some (cfg <| cfg_sim := (set_sim (cfg_sim cfg) key value) |>)
  else if strcaseeq section (str "network")
  then n ← set_network (cfg_network cfg) key value; Some (cfg <| cfg_network := n |>)
  else if strcaseeq section (str "backend")
  then Some (cfg <| cfg_use_real_backend := (set_backend (cfg_use_real_backend cfg) key value) |>)
  else if strcaseeq section (str "ran")
  then r ← set_ran (cfg_ran cfg) key value; Some (cfg <| cfg_ran := r |>)
  else if strcaseeq section (str "ims")
  then Some (cfg <| cfg_ims := (set_ims (cfg_ims cfg) key value) |>)
  else if strcaseeq section (str "sms")
  then Some (cfg <| cfg_sms := (set_sms (cfg_sms cfg) key value) |>)
  else if strcaseeq section (str "logging")
  then Some (cfg <| cfg_logging := (set_logging (cfg_logging cfg) key value) |>)
  else if strcaseeq section (str "logging.domains")
  then Some (cfg <| cfg_logging := (add_domain (cfg_logging cfg) key value) |>)
  else Some cfg.

(** ** Reading a file *)

(** One call of [fgets] with room for [n] characters, and what is left. *)
Fixpoint fgets (n : nat) (f : bytes) : bytes * bytes :=
  match n, f with
  | S n, c :: f => if c =? 10 then ([c], f) else let '(l, r) := fgets n f in (c :: l, r)
  | _, _ => ([], f)
  end.

(** The string a buffer holds, up to the first null character. *)
Fixpoint c_str (l : bytes) : bytes :=
  match l with
  | c :: l => if c =? 0 then [] else c :: c_str l
  | [] => []
  end.

(** The body of the loop: ['#'] is 35, [';'] 59, ['['] 91, [']'] 93, ['='] 61. *)
Definition load_line (section : bytes) (cfg : ue_instance_config) (line : bytes)
    : option (bytes * ue_instance_config) :=
  let s := trim (c_str line) in
  match s with
  | [] => Some (section, cfg)
  | c :: s' =>
    if (c =? 35) || (c =? 59) then Some (section, cfg) else
    if c =? 91 then
      match strcut 93 s with
      | None => Some (section, cfg)
      | Some (before, _) => Some (strcpy_n 32 (trim (drop 1 before)), cfg)
      end
    else
      match strcut 61 s with
      | None => Some (section, cfg)
      | Some (k, v) => cfg ← set_option cfg section (trim k) (trim v); Some (section, cfg)
      end
  end.

(** What the calls of [fgets] return one after the other.  The fuel bounds their
    number; the length of the file is enough. *)
Fixpoint file_lines (fuel : nat) (f : bytes) : list bytes :=
  match fuel, f with
  | S fuel, _ :: _ => let '(line, f) := fgets 511 f in line :: file_lines fuel f
  | _, _ => []
  end.

(** [None] is a number that is not an [int]. *)
Fixpoint load_lines (lines : list bytes) (section : bytes) (cfg : ue_instance_config)
    : option ue_instance_config :=
  match lines with
  | [] => Some cfg
  | line :: lines => '(section, cfg) ← load_line section cfg line; load_lines lines section cfg
  end.

(** [contents] is [errno] when the file cannot be opened. *)
Definition ue_instance_config_load_file (cfg : ue_instance_config) (contents : Z + bytes)
    : option (Z * ue_instance_config) :=
  match contents with
  | inl errno => Some (- errno, cfg)
  | inr f => cfg ← load_lines (file_lines (length f) f) [] cfg; Some (0, cfg)
  end.

(** ** Defaults, validation, completion *)

Definition ue_instance_config_set_defaults : ue_instance_config :=
  InstanceConfig
    (DeviceIdentity [] (str "Quectel") (str "RM520N-GL") (str "FAKA01") (str "deadbeef0001"))
    (SimProfile true (str "208010123456789") (str "8933012345678901234")
       (str "00112233445566778899aabbccddeeff") (str "63bfa50ee6523365ff14c1f45f88737d")
       (str "8000"))
    (NetProfile (str "208") (str "01") (str "internet") (str "EllaLab") (str "EllaLab")
       (str "ipv4") 1)
    (RanConfig (str "127.0.0.1") 4997)
    (ImsConfig true)
    (SmsConfig true UE_SMS_TRANSPORT_IMS)
    (LogConfig [] [])
    false.

Definition ue_instance_config_validate (cfg : ue_instance_config) : Z :=
  let d := cfg_device cfg in let s := cfg_sim cfg in let n := cfg_network cfg in
  if is_empty (dev_manufacturer d) || is_empty (dev_model d) || is_empty (dev_firmware d)
  then -1 else
  if sim_sim_present s && (is_empty (sim_imsi s) || is_empty (sim_iccid s)
     || is_empty (sim_key s) || is_empty (sim_opc s) || is_empty (sim_amf s))
  then -1 else
  if is_empty (net_mcc n) || is_empty (net_mnc n) || is_empty (net_dnn n)
     || is_empty (net_operator_long n) then -1 else 0.

(** [ue_id] is an [unsigned int]. *)
Definition ue_instance_config_finalize (cfg : ue_instance_config) (ue_id : Z)
    (allow_lab_autogen_subscriber : bool) : Z * ue_instance_config :=
  let d := cfg_device cfg in
  let cfg := if is_empty (dev_imei d)
    then cfg <| cfg_device := (d <| dev_imei :=
           (strcpy_n 32 (str "8675309" ++ utoa_pad 8 (ue_id mod 100000000))) |>) |>
    else cfg in
  let cfg :=
    if allow_lab_autogen_subscriber && sim_sim_present (cfg_sim cfg) then
      let s := cfg_sim cfg in
      let s := if is_empty (sim_imsi s)
        then s <| sim_imsi := (strcpy_n 32 (str "00101" ++ utoa_pad 10 (ue_id mod 1000000000))) |>
        else s in
      let s := if is_empty (sim_iccid s)
        then s <| sim_iccid :=
               (strcpy_n 40 (str "890100100000" ++ utoa_pad 7 (ue_id mod 10000000))) |>
        else s in
      cfg <| cfg_sim := s |>
    else cfg in
  (ue_instance_config_validate cfg, cfg).

(** ** The fields fit their arrays *)

Definition device_fits (d : ue_device_identity) : Prop :=
  (length (dev_imei d) < 32 /\ length (dev_manufacturer d) < 64 /\ length (dev_model d) < 64
   /\ length (dev_firmware d) < 64 /\ length (dev_serial d) < 64)%nat.
Definition sim_fits (s : ue_sim_profile) : Prop :=
  (length (sim_imsi s) < 32 /\ length (sim_iccid s) < 40 /\ length (sim_key s) < 64
   /\ length (sim_opc s) < 64 /\ length (sim_amf s) < 16)%nat.
Definition network_fits (n : ue_network_profile) : Prop :=
  (length (net_mcc n) < 8 /\ length (net_mnc n) < 8 /\ length (net_dnn n) < 64
   /\ length (net_operator_long n) < 64 /\ length (net_operator_short n) < 32
   /\ length (net_pdu_type n) < 16)%nat /\ 0 <= net_slice_sst n < 256.
Definition ran_fits (r : ue_ran_config) : Prop :=
  (length (ran_gnb_address r) < 128)%nat /\ 0 <= ran_gnb_port r < 65536.
Definition logging_fits (l : ue_logging_config) : Prop :=
  (length (log_level l) < 16)%nat /\ (length (log_domains l) <= 16)%nat
  /\ Forall (fun d => (length d.1 < 32)%nat /\ (length d.2 < 16)%nat) (log_domains l).

Record config_fits (cfg : ue_instance_config) : Prop := {
  cf_device : device_fits (cfg_device cfg);
  cf_sim : sim_fits (cfg_sim cfg);
  cf_network : network_fits (cfg_network cfg);
  cf_ran : ran_fits (cfg_ran cfg);
  cf_logging : logging_fits (cfg_logging cfg) }.

Lemma strcpy_fits n s : (0 < n)%nat -> (length (strcpy_n n s) < n)%nat.
Proof. apply length_strcpy_n. Qed.
Create HintDb fits.
#[local] Hint Extern 1 (length (strcpy_n _ _) < _)%nat => apply strcpy_fits; lia : fits.
#[local] Hint Extern 1 (length (take _ _) < _)%nat => rewrite length_take; lia : fits.

(** Every branch of a setter. *)
Ltac setter := intros H; destruct_and? H; repeat case_match; split_and!; cbn; auto with fits.

Lemma set_device_fits d key value : device_fits d -> device_fits (set_device d key value).
Proof. unfold device_fits, set_device. setter. Qed.

Lemma set_sim_fits s key value : sim_fits s -> sim_fits (set_sim s key value).
Proof.
  unfold sim_fits, set_sim. setter.
Qed.

Lemma set_network_fits n key value n' :
  network_fits n -> set_network n key value = Some n' -> network_fits n'.
Proof.
  unfold network_fits, set_network. intros [H Hs].
  repeat (case_match; [intros [= <-]; destruct_and? H; split; [split_and!; cbn; auto with fits|done]|]).
  case_match; [|by intros [= <-]].
  destruct (atoi value) as [v|]; [|done]. cbn [mbind option_bind]. intros [= <-].
  split; [exact H|apply u8_range].
Qed.

Lemma set_ran_fits r key value r' : ran_fits r -> set_ran r key value = Some r' -> ran_fits r'.
Proof.
  unfold ran_fits, set_ran. intros [H Hp]. case_match; [intros [= <-]; split; [cbn; auto with fits|done]|].
  case_match; [|by intros [= <-]]. destruct (atoi value) as [v|]; [|done]. cbn [mbind option_bind].
  intros [= <-]. split; [exact H|apply u16_range].
Qed.

Lemma logging_setters_fit l key value :
  logging_fits l -> logging_fits (set_logging l key value) /\ logging_fits (add_domain l key value).
Proof.
  unfold logging_fits, set_logging, add_domain. intros (H1 & H2 & H3). split.
  - case_match; [|done]. split_and!; [cbn; auto with fits|done|done].
  - destruct (_ <?n 16) eqn:E; [|done]. split_and!; [done| |].
    + cbn. rewrite length_app. cbn. lia.
    + apply Forall_app. split; [done|]. apply Forall_singleton. split; apply strcpy_fits; lia.
Qed.

Lemma set_option_fits cfg section key value cfg' :
  config_fits cfg -> set_option cfg section key value = Some cfg' -> config_fits cfg'.
Proof.
  intros [Hd Hs Hn Hr Hl]. pose proof (set_device_fits _ key value Hd). pose proof (set_sim_fits _ key value Hs).
  destruct (logging_setters_fit _ key value Hl). unfold set_option.
  do 2 (case_match; [intros [= <-]; by split|]).
  case_match.
  { destruct (set_network _ _ _) as [n|] eqn:E; [|done]. apply set_network_fits in E; [|done].
    cbn [mbind option_bind]. intros [= <-]. by split. }
  case_match; [intros [= <-]; by split|].
  case_match.
  { destruct (set_ran _ _ _) as [r|] eqn:E; [|done]. apply set_ran_fits in E; [|done].
    cbn [mbind option_bind]. intros [= <-]. by split. }
  repeat (case_match; [intros [= <-]; by split|]). by intros [= <-].
Qed.

Lemma fgets_split n f : let '(l, r) := fgets n f in l ++ r = f /\ (length l <= n)%nat.
Proof.
  revert f. induction n as [|n IH]; intros f; cbn [fgets]; [by split|]. destruct f as [|c f]; [split; [done|cbn; lia]|].
  destruct (c =? 10); [split; [done|cbn; lia]|]. specialize (IH f). destruct (fgets n f) as [l r].
  destruct IH as [<- Hl]. split; [done|cbn [length]; lia].
Qed.

Lemma fgets_pos n c f : (0 < length (fgets (S n) (c :: f)).1)%nat.
Proof. cbn [fgets]. destruct (c =? 10); [|destruct (fgets n f)]; cbn; lia. Qed.

(** The lines are the file, cut. *)
Lemma file_lines_all fuel f :
  (length f <= fuel)%nat ->
  concat (file_lines fuel f) = f /\ Forall (fun l => (0 < length l <= 511)%nat) (file_lines fuel f).
Proof.
  revert f. induction fuel as [|fuel IH]; intros f Hf; [by destruct f; [|cbn in Hf; lia]|].
  destruct f as [|c f]; [done|]. cbn [file_lines]. pose proof (fgets_split 511 (c :: f)) as Hs.
  destruct (fgets 511 (c :: f)) as [l r] eqn:E. destruct Hs as [Hs Hl].
  assert (0 < length l)%nat as Hpos
    by (pose proof (fgets_pos 510 c f) as Hp; change (S 510) with 511%nat in Hp; by rewrite E in Hp).
  apply (f_equal length) in Hs as Hlen. rewrite length_app in Hlen. cbn [length] in Hlen, Hf.
  destruct (IH r ltac:(lia)) as [Hc Hr]. cbn [concat]. rewrite Hc. split; [done|].
  constructor; [lia|done].
Qed.

(** A line does not assign a number that is not an [int]. *)
Definition numbers_ok (line : bytes) : bool :=
  match strcut 61 (trim (c_str line)) with
  | Some (k, v) =>
    negb (strcaseeq (trim k) (str "slice_sst") || strcaseeq (trim k) (str "gnb_port"))
    || bool_decide (is_Some (atoi (trim v)))
  | None => true
  end.

Lemma set_option_some cfg section key value :
  (strcaseeq key (str "slice_sst") || strcaseeq key (str "gnb_port") = true -> is_Some (atoi value)) ->
  is_Some (set_option cfg section key value).
Proof.
  intros Hn. unfold set_option. repeat (case_match; [try (by eexists)|]); [| |by eexists].
  - unfold set_network. repeat (case_match; [try (by eexists)|]); [|by eexists].
    destruct Hn as [v ->]; [by apply orb_true_iff; left|]. by eexists.
  - unfold set_ran. repeat (case_match; [try (by eexists)|]); [|by eexists].
    destruct Hn as [v ->]; [by apply orb_true_iff; right|]. by eexists.
Qed.

Lemma load_line_fits section cfg line section' cfg' :
  config_fits cfg -> load_line section cfg line = Some (section', cfg') -> config_fits cfg'.
Proof.
  intros Hc. unfold load_line. cbv zeta.
  destruct (trim (c_str line)) as [|a s]; [by intros [= _ <-]|].
  case_match; [by intros [= _ <-]|]. case_match.
  { destruct (strcut _ _) as [[b r]|]; by intros [= _ <-]. }
  destruct (strcut _ _) as [[k v]|]; [|by intros [= _ <-]].
  destruct (set_option _ _ _ _) as [cfg2|] eqn:E; [|done]. cbn [mbind option_bind].
  intros [= _ <-]. by eapply set_option_fits.
Qed.

Lemma load_line_some section cfg line : numbers_ok line = true -> is_Some (load_line section cfg line).
Proof.
  unfold numbers_ok, load_line. cbv zeta. intros Hn.
  destruct (trim (c_str line)) as [|a s]; [by eexists|].
  destruct (_ || _); [by eexists|].
  destruct (a =? 91); [destruct (strcut 93 _) as [[b r]|]; by eexists|].
  destruct (strcut 61 _) as [[k v]|]; [|by eexists].
  destruct (set_option_some cfg section (trim k) (trim v)) as [c ->]; [|by eexists].
  intros Hk. rewrite Hk in Hn. by apply bool_decide_eq_true in Hn.
Qed.

Lemma load_lines_fits lines : forall section cfg cfg',
  config_fits cfg -> load_lines lines section cfg = Some cfg' -> config_fits cfg'.
Proof.
  induction lines as [|line lines IH]; intros section cfg cfg' Hc; cbn [load_lines]; [by intros [= <-]|].
  destruct (load_line section cfg line) as [[sec cfg1]|] eqn:E; [|done]. cbn [mbind option_bind].
  apply IH. by eapply load_line_fits.
Qed.

Lemma load_lines_some lines : forall section cfg,
  forallb numbers_ok lines = true -> is_Some (load_lines lines section cfg).
Proof.
  induction lines as [|line lines IH]; intros section cfg Hl; cbn [load_lines]; [by eexists|].
  cbn [forallb] in Hl. apply andb_prop in Hl as [H1 H2]. destruct (load_line_some section cfg line H1) as [[sec c] ->].
  by apply IH.
Qed.

Lemma defaults_fit : config_fits ue_instance_config_set_defaults.
Proof.
  split; unfold device_fits, sim_fits, network_fits, ran_fits, logging_fits;
    apply (bool_decide_unpack _); vm_compute; exact I.
Qed.

Lemma finalize_fits cfg ue_id lab :
  config_fits cfg -> config_fits (ue_instance_config_finalize cfg ue_id lab).2.
Proof.
  intros Hc. unfold ue_instance_config_finalize. cbv zeta. cbn [snd].
  destruct Hc as [Hd Hs Hn Hr Hl].
  set (c1 := if is_empty (dev_imei (cfg_device cfg)) then _ else cfg).
  assert (config_fits c1) as [Hd1 Hs1 Hn1 Hr1 Hl1].
  { unfold c1. case_match; [|by split]. split; try done.
    destruct Hd as (_ & Hd'). exact (conj (strcpy_fits 32 _ (Nat.lt_0_succ _)) Hd'). }
  clearbody c1. case_match; [|by split]. split; try done. cbn [cfg_sim].
  destruct Hs1 as (Hi & Hc & Hs1).
  set (s1 := if is_empty (sim_imsi (cfg_sim c1)) then _ else cfg_sim c1).
  assert (sim_fits s1) as (Hi1 & Hc1 & Hs2).
  { unfold s1. case_match; [exact (conj (strcpy_fits 32 _ (Nat.lt_0_succ _)) (conj Hc Hs1))|exact (conj Hi (conj Hc Hs1))]. }
  clearbody s1. cbn [cfg_sim].
  case_match; [exact (conj Hi1 (conj (strcpy_fits 40 _ (Nat.lt_0_succ _)) Hs2))|exact (conj Hi1 (conj Hc1 Hs2))].
Qed.

(** C35: every file gives a configuration that fits.  The lines that are read
    are the whole file, cut into pieces of at most 511 characters; if no line
    assigns a port or a slice that is not an [int] (the conversion of such a number
    is undefined), the file is read to its end and the result is 0; a file that
    cannot be opened gives its error and leaves the defaults.  In every case where
    there is a result, each string of the configuration, also when completed for an
    instance, fits its array with the terminator, at most 16 log domains are kept,
    and the numbers fit their fields. *)
Theorem loaded_config_fits contents :
  match contents with
  | inl errno => ue_instance_config_load_file ue_instance_config_set_defaults contents
                 = Some (- errno, ue_instance_config_set_defaults)
  | inr f =>
    concat (file_lines (length f) f) = f
    /\ Forall (fun l => (0 < length l <= 511)%nat) (file_lines (length f) f)
    /\ (forallb numbers_ok (file_lines (length f) f) = true -> exists cfg,
          ue_instance_config_load_file ue_instance_config_set_defaults contents = Some (0, cfg))
  end
  /\ (forall rc cfg, ue_instance_config_load_file ue_instance_config_set_defaults contents = Some (rc, cfg) ->
        config_fits cfg /\ forall ue_id lab, config_fits (ue_instance_config_finalize cfg ue_id lab).2).
Proof.
  split.
  - destruct contents as [errno|f]; [done|]. destruct (file_lines_all (length f) f (le_n _)) as [H1 H2].
    do 2 (split; [done|]). intros Hn. unfold ue_instance_config_load_file.
    destruct (load_lines_some _ [] ue_instance_config_set_defaults Hn) as [cfg ->]. by exists cfg.
  - intros rc cfg H. assert (config_fits cfg) as Hc; [|split; [done|intros; by apply finalize_fits]].
    unfold ue_instance_config_load_file in H. destruct contents as [errno|f].
    + injection H as _ <-. apply defaults_fit.
    + destruct (load_lines _ _ _) as [c|] eqn:E; [|done]. cbn [mbind option_bind] in H. injection H as _ <-.
      eapply load_lines_fits; [apply defaults_fit|exact E].
Qed.

Lemma loaded_config_fits_witness :
  let f := str "[network]" ++ [10] ++ str "mcc = 123456789" ++ [10] ++ str "slice_sst = 300" in
  exists cfg, ue_instance_config_load_file ue_instance_config_set_defaults (inr f) = Some (0, cfg)
  /\ net_mcc (cfg_network cfg) = str "1234567" /\ net_slice_sst (cfg_network cfg) = 44 /\ config_fits cfg.
Proof.
  cbv zeta. set (f := str "[network]" ++ _).
  destruct (loaded_config_fits (inr f)) as [(_ & _ & Hl) Hf].
  destruct Hl as [cfg E].
  { vm_compute. reflexivity. }
  exists cfg. split; [exact E|]. destruct (Hf 0 cfg E) as [Hc _].
  split; [|split; [|exact Hc]]; vm_compute in E; injection E as <-; reflexivity.
Defined.
