(* ===== verification/UeContext.v ===== *)
(** The context of a UE: [src/src/ue_engine/ue_context.c] and its header.

    [struct ue_context] owns the machines, the user plane, the transport and the
    security contexts.  The pointers that other modules keep into it are flags:
    [up_transport] and the two pointers of the network adapter, which are passed
    the context's own transport and security context.  [uc_nas_copy_buf] is the
    static buffer of the RRC decoder, the only other memory the engine's calls
    share. *)

From S2P Require Import Prelude InstanceConfig NasCrypto NasSecurity UeTypes UeMm UeSm.
From S2P Require Import RanTransport UserPlane.

#[local] Set Primitive Projections.

Inductive ue_rrc_state := UE_RRC_IDLE | UE_RRC_SETUP_REQUESTED | UE_RRC_CONNECTED.
#[export] Instance ue_rrc_state_eq_dec : EqDecision ue_rrc_state.
Proof. solve_decision. Defined.

(** [enum ue_engine_changed]. *)
Definition UE_ENGINE_CHANGED_NONE : Z := 0.
Definition UE_ENGINE_CHANGED_MM : Z := 1.
Definition UE_ENGINE_CHANGED_SM : Z := 2.
Definition UE_ENGINE_CHANGED_IP : Z := 4.
Definition UE_ENGINE_CHANGED_IDENT : Z := 8.
Definition UE_ENGINE_CHANGED_OPERATOR : Z := 16.
Definition UE_ENGINE_CHANGED_DNN : Z := 32.

Record ue_engine_snapshot := Snapshot {
  ss_running : bool; ss_radio_on : bool; ss_sim_ready : bool;
  ss_mm_state : ue_mm_state; ss_sm_state : ue_sm_state;
  ss_mm_procedure : ue_mm_procedure; ss_sm_procedure : ue_sm_procedure;
  ss_mm_proc_step : ue_mm_proc_step; ss_sm_proc_step : ue_sm_proc_step;
  ss_mm_last_cause : ue_mm_last_cause; ss_sm_last_cause : ue_sm_last_cause;
  ss_mm_last_reject_class : ue_reject_class; ss_sm_last_reject_class : ue_reject_class;
  ss_mm_last_reject_cause_code : Z; ss_sm_last_reject_cause_code : Z;
  ss_mm_registration_attempt_id : Z; ss_sm_establishment_attempt_id : Z;
  ss_mm_pending_reg_type : ue_mm_reg_type; ss_mm_pending_reg_trigger : ue_mm_reg_trigger;
  ss_mm_last_assigned_guti : bytes;
  ss_session_id : Z; ss_active_dnn : bytes;
  ss_imei : bytes; ss_imsi : bytes; ss_iccid : bytes; ss_manufacturer : bytes;
  ss_model : bytes; ss_firmware : bytes; ss_serial : bytes;
  ss_plmn : bytes; ss_operator_name : bytes;
  ss_ip : ue_engine_runtime_ip }.

Definition ip_zero : ue_engine_runtime_ip :=
  RuntimeIp [0; 0; 0; 0] [0; 0; 0; 0] [0; 0; 0; 0] [0; 0; 0; 0] 0.

Record ue_context := UeCtx {
  uc_ue_id : Z; uc_running : bool; uc_radio_on : bool; uc_sim_ready : bool;
  uc_cfg : ue_instance_config;
  uc_mm : ue_mm_ctx; uc_sm : ue_sm_ctx; uc_up : ue_up_ctx; uc_ran : ue_ran_transport_ctx;
  uc_rrc_state : ue_rrc_state; uc_rrc_setup_request_ms : Z;
  uc_rrc_setup_complete_ms : Z; uc_post_setup_pdu_count : Z; uc_waiting_core_response : bool;
  uc_nas_sec : ue_nas_security_ctx; uc_nas_sec_non_current : ue_nas_security_ctx;
  uc_nas_sec_non_current_valid : bool;
  uc_dl_sec_hdr_valid : bool; uc_dl_sec_hdr_sht : Z; uc_dl_sec_hdr_mac : Z;
  uc_dl_sec_hdr_sqn : Z;
  uc_smc_last_valid : bool; uc_smc_last_mac : Z; uc_smc_last_sqn : Z; uc_smc_last_algs : Z;
  uc_smc_last_ngksi : Z;
  uc_smc_last_inner : bytes; uc_smc_last_inner_len : nat;
  uc_smc_last_payload : bytes; uc_smc_last_payload_len : nat;
  uc_guti : bytes; uc_guti_len : nat;
  uc_auth_sqn_ms : bytes; uc_auth_sqn_ms_valid : bool;
  uc_reg_ngksi : Z; uc_reg_ngksi_valid : bool; uc_t3512_seconds : Z;
  uc_ims_pdu_requested : bool; uc_ims_pdu_establishing : bool; uc_ims_pdu_active : bool;
  uc_ims_has_pcscf : bool; uc_ims_psi : Z; uc_ims_pti : Z; uc_ims_pcscf_ipv4 : bytes;
  uc_ims_ip : ue_engine_runtime_ip;
  uc_snapshot : ue_engine_snapshot; uc_changed_flags : Z;
  uc_nas_copy_buf : bytes }.

(** The snapshot is rebuilt from the context. *)
Definition context_snapshot (ctx : ue_context) : ue_engine_snapshot :=
  let mm := uc_mm ctx in let sm := uc_sm ctx in let cfg := uc_cfg ctx in
  let dev := cfg_device cfg in let sim := cfg_sim cfg in let net := cfg_network cfg in
  {| ss_running := uc_running ctx; ss_radio_on := uc_radio_on ctx;
     ss_sim_ready := uc_sim_ready ctx;
     ss_mm_state := mm_state mm; ss_sm_state := sm_state sm;
     ss_mm_procedure := mm_procedure mm; ss_sm_procedure := sm_procedure sm;
     ss_mm_proc_step := mm_proc_step mm; ss_sm_proc_step := sm_proc_step sm;
     ss_mm_last_cause := mm_last_cause mm; ss_sm_last_cause := sm_last_cause sm;
     ss_mm_last_reject_class := mm_last_reject_class mm;
     ss_sm_last_reject_class := sm_last_reject_class sm;
     ss_mm_last_reject_cause_code := mm_last_reject_cause_code mm;
     ss_sm_last_reject_cause_code := sm_last_reject_cause_code sm;
     ss_mm_registration_attempt_id := mm_registration_attempt_id mm;
     ss_sm_establishment_attempt_id := sm_establishment_attempt_id sm;
     ss_mm_pending_reg_type := mm_pending_reg_type mm;
     ss_mm_pending_reg_trigger := mm_pending_reg_trigger mm;
     ss_mm_last_assigned_guti := strcpy_n 32 (mm_last_assigned_guti mm);
     ss_session_id := sm_session_id sm;
     ss_active_dnn := strcpy_n 64 (sm_active_dnn sm);
     ss_imei := strcpy_n 32 (dev_imei dev); ss_imsi := strcpy_n 32 (sim_imsi sim);
     ss_iccid := strcpy_n 40 (sim_iccid sim);
     ss_manufacturer := strcpy_n 64 (dev_manufacturer dev);
     ss_model := strcpy_n 64 (dev_model dev); ss_firmware := strcpy_n 64 (dev_firmware dev);
     ss_serial := strcpy_n 64 (dev_serial dev);
     ss_plmn := strcpy_n 16 (net_mcc net ++ net_mnc net);
     ss_operator_name := strcpy_n 64 (net_operator_long net);
     ss_ip := if is_sm UE_SM_ACTIVE sm then sm_ip sm else ip_zero |}.

Definition ue_context_refresh_snapshot (ctx : ue_context) : ue_context :=
  ctx <| uc_snapshot := (context_snapshot ctx) |>.

(** A zeroed [struct ue_mm_ctx]. *)
Definition mm_zero : ue_mm_ctx :=
  MmCtx UE_MM_POWERED_OFF UE_MM_PROC_IDLE UE_MM_STEP_NONE UE_MM_CAUSE_NONE UE_REJECT_TEMPORARY
    0 false 0 0 0 [] [] [] [] UE_MM_REG_INITIAL UE_MM_REG_TRIGGER_EXPLICIT_REQUEST 0.

(** The security context without keys. *)
Definition nas_sec_initial : ue_nas_security_ctx :=
  sec_ctx_zero <| sc_int_alg := UE_NIA0 |> <| sc_enc_alg := UE_NEA0 |>
               <| sc_bearer := 1 |> <| sc_ngksi := 7 |>.

(** Everything but the snapshot and the flags.  [r1] and [r2] are the random
    numbers of the transport's identity; the log of datagrams starts as [trace]. *)
Definition context_fields (ue_id : Z) (cfg : ue_instance_config) (r1 r2 : Z)
    (trace : list (sockaddr * bytes)) (snapshot : ue_engine_snapshot) (copy : bytes)
    : ue_context :=
  let net := cfg_network cfg in let sim := cfg_sim cfg in let ran := cfg_ran cfg in
  let t := ue_ran_transport_init r1 r2 trace in
  {| uc_ue_id := ue_id; uc_running := false; uc_radio_on := true;
     uc_sim_ready := sim_sim_present sim; uc_cfg := cfg;
     uc_mm := ue_mm_set_profile (ue_mm_init mm_zero true (sim_sim_present sim))
                (Some (sim_imsi sim)) (Some (net_mcc net)) (Some (net_mnc net));
     uc_sm := ue_sm_set_profile (ue_sm_init (Some (net_dnn net)))
                (Some (net_dnn net)) (Some (net_pdu_type net));
     uc_up := ue_up_set_transport ue_up_init true;
     uc_ran := if is_empty (ran_gnb_address ran) then t
               else (ue_ran_transport_configure t (Some [Some (ran_gnb_address ran)])
                       (if ran_gnb_port ran =? 0 then 4997 else ran_gnb_port ran)).2;
     uc_rrc_state := UE_RRC_IDLE; uc_rrc_setup_request_ms := 0;
     uc_rrc_setup_complete_ms := 0; uc_post_setup_pdu_count := 0;
     uc_waiting_core_response := false;
     uc_nas_sec := nas_sec_initial; uc_nas_sec_non_current := sec_ctx_zero;
     uc_nas_sec_non_current_valid := false;
     uc_dl_sec_hdr_valid := false; uc_dl_sec_hdr_sht := 0; uc_dl_sec_hdr_mac := 0;
     uc_dl_sec_hdr_sqn := 0;
     uc_smc_last_valid := false; uc_smc_last_mac := 0; uc_smc_last_sqn := 0;
     uc_smc_last_algs := 0; uc_smc_last_ngksi := 0;
     uc_smc_last_inner := replicate 256 0; uc_smc_last_inner_len := 0;
     uc_smc_last_payload := replicate 256 0; uc_smc_last_payload_len := 0;
     uc_guti := replicate 16 0; uc_guti_len := 0;
     uc_auth_sqn_ms := replicate 6 0; uc_auth_sqn_ms_valid := false;
     uc_reg_ngksi := 0; uc_reg_ngksi_valid := false; uc_t3512_seconds := 0;
     uc_ims_pdu_requested := false; uc_ims_pdu_establishing := false;
     uc_ims_pdu_active := false; uc_ims_has_pcscf := false; uc_ims_psi := 0;
     uc_ims_pti := 0; uc_ims_pcscf_ipv4 := [0; 0; 0; 0]; uc_ims_ip := ip_zero;
     uc_snapshot := snapshot; uc_changed_flags := 0; uc_nas_copy_buf := copy |}.

(** A zeroed snapshot. *)
Definition snapshot_zero : ue_engine_snapshot :=
  {| ss_running := false; ss_radio_on := false; ss_sim_ready := false;
     ss_mm_state := UE_MM_POWERED_OFF; ss_sm_state := UE_SM_INACTIVE;
     ss_mm_procedure := UE_MM_PROC_IDLE; ss_sm_procedure := UE_SM_PROC_IDLE;
     ss_mm_proc_step := UE_MM_STEP_NONE; ss_sm_proc_step := UE_SM_STEP_NONE;
     ss_mm_last_cause := UE_MM_CAUSE_NONE; ss_sm_last_cause := UE_SM_CAUSE_NONE;
     ss_mm_last_reject_class := UE_REJECT_TEMPORARY;
     ss_sm_last_reject_class := UE_REJECT_TEMPORARY;
     ss_mm_last_reject_cause_code := 0; ss_sm_last_reject_cause_code := 0;
     ss_mm_registration_attempt_id := 0; ss_sm_establishment_attempt_id := 0;
     ss_mm_pending_reg_type := UE_MM_REG_INITIAL;
     ss_mm_pending_reg_trigger := UE_MM_REG_TRIGGER_EXPLICIT_REQUEST;
     ss_mm_last_assigned_guti := []; ss_session_id := 0; ss_active_dnn := [];
     ss_imei := []; ss_imsi := []; ss_iccid := []; ss_manufacturer := []; ss_model := [];
     ss_firmware := []; ss_serial := []; ss_plmn := []; ss_operator_name := [];
     ss_ip := ip_zero |}.

(** The result of a call with non-null pointers. *)
Definition ue_context_init_from_config (ue_id : Z) (cfg : ue_instance_config) (r1 r2 : Z)
    (trace : list (sockaddr * bytes)) (copy : bytes) : Z * ue_context :=
  let ctx := context_fields ue_id cfg r1 r2 trace snapshot_zero copy in
  let ctx := ue_context_refresh_snapshot ctx in
  (0, ctx <| uc_changed_flags := UE_ENGINE_CHANGED_IDENT |. UE_ENGINE_CHANGED_OPERATOR
               |. UE_ENGINE_CHANGED_DNN |. UE_ENGINE_CHANGED_IP |. UE_ENGINE_CHANGED_MM
               |. UE_ENGINE_CHANGED_SM |>).

(** [ue_context_drain_downlink], the transport's callback on received data. *)
Definition ue_context_drain_downlink `{DataLink ue_ran_transport_ctx} {Host : Type}
    (dl_cb internal_dl_cb : Z -> bytes -> Host -> Z * Host) (fuel : nat) (ctx : ue_context) (h : Host)
    : option (ue_context * Host) :=
  '(_, up, t, h) ← ue_up_process_downlink dl_cb internal_dl_cb fuel (uc_up ctx) (uc_ran ctx) h;
  Some (ctx <| uc_up := up |> <| uc_ran := t |>, h).
