(* ===== verification/EngineNas.v ===== *)
(** The engine's NAS layer: [src/src/ue_engine/ue_engine.c], from the sending of
    NAS messages to the processing of the decoded ones.

    Every function takes the context and returns it; [None] is undefined
    behaviour or a loop out of fuel.  The network is a parameter: [sendto], and
    per call the random numbers and the socket that the transport asks for.  The
    network adapter keeps pointers to the transport and the security context of
    this context, so its calls work on both ([with_adapter]).  Log messages have
    no effect on the state. *)

From S2P Require Import Prelude CString InstanceConfig NasDefs NasEncode NasDecode Rrc Aes NasCrypto.
From S2P Require Import NasSecurity UeTypes UeMm UeSm NetworkAdapter RanTransport RanLink.
From S2P Require Import UserPlane UeContext.

(** The transport as the user plane sees it. *)
Definition ran_data_link (sendto : nat -> sockaddr -> bytes -> Z) : DataLink ue_ran_transport_ctx := {|
  link_is_connected := ue_ran_transport_is_connected;
  link_send_data_pdu := ue_ran_transport_send_data_pdu sendto;
  link_recv_data_pdu := ue_ran_transport_recv_data_pdu |}.

Section Engine.
Variable sendto : nat -> sockaddr -> bytes -> Z.
#[local] Instance engine_sender : RanSender ue_ran_transport_ctx := ran_transport_sender sendto.
#[local] Instance engine_link : DataLink ue_ran_transport_ctx := ran_data_link sendto.

(** ** Sending *)

(** The PDU handed to RRC: protected when the context is active.  The inner
    [None] is a failed protection. *)
Definition engine_protect (ctx : ue_context) (nas_pdu : bytes) (nas_len : Z) (integrity_only : bool)
    : option (option (bytes * Z) * ue_context) :=
  if sc_active (uc_nas_sec ctx) then
    let sht := if integrity_only then NAS_SHT_INTEGRITY_PROTECTED_CIPHERED_NEW_CTX
               else NAS_SHT_INTEGRITY_PROTECTED_CIPHERED in
    '(send_len, secured_buf, sec) ←
      ue_nas_security_protect_with_sht (Some (replicate nas_tx_size 0)) nas_tx_size
        (uc_nas_sec ctx) (Some nas_pdu) (Z.to_nat nas_len) sht;
    secured_buf ← secured_buf;
    Some (if send_len <=? 0 then None else Some (secured_buf, send_len), ctx <| uc_nas_sec := sec |>)
  else Some (Some (nas_pdu, nas_len), ctx).

Definition engine_send_nas_uplink (ctx : ue_context) (nas_pdu : bytes) (nas_len : Z)
    (integrity_only : bool) : option (Z * ue_context) :=
  if nas_len <=? 0 then Some (-1, ctx) else
  '(pdu, ctx) ← engine_protect ctx nas_pdu nas_len integrity_only;
  match pdu with
  | None => Some (-1, ctx)
  | Some (send_pdu, send_len) =>
    '(rrc_len, rrc_buf) ←
      ue_rrc_encode_ul_info_transfer (Some (replicate nas_tx_size 0)) nas_tx_size
        (Some send_pdu) (Z.to_nat send_len);
    rrc_buf ← rrc_buf;
    if rrc_len <=? 0 then Some (-1, ctx) else
    '(r, t) ← rt_send_nas_pdu sendto (uc_ran ctx) (take (Z.to_nat rrc_len) rrc_buf)
                UE_RRC_CHANNEL_UL_DCCH;
    Some (r, ctx <| uc_ran := t |>)
  end.

(** [nas_len = encode(nas_buf, ...); if (nas_len > 0) engine_send_nas_uplink(...);] *)
Definition engine_send_encoded (ctx : ue_context) (enc : option (Z * option bytes))
    (integrity_only : bool) : option ue_context :=
  '(nas_len, nas_buf) ← enc;
  nas_buf ← nas_buf;
  if 0 <? nas_len
  then '(_, ctx) ← engine_send_nas_uplink ctx nas_buf nas_len integrity_only; Some ctx
  else Some ctx.

(** ['0'] is 48, ['a'] 97, ['A'] 65. *)
Definition hex_nibble (c : Z) : Z :=
  if (48 <=? c) && (c <=? 57) then c - 48
  else if (97 <=? c) && (c <=? 102) then 10 + (c - 97)
  else if (65 <=? c) && (c <=? 70) then 10 + (c - 65)
  else -1.

Fixpoint parse_hex_loop (hex : bytes) (n : nat) : option bytes :=
  match n, hex with
  | O, _ => Some []
  | S n, h :: l :: hex =>
    let hi := hex_nibble h in let lo := hex_nibble l in
    if (hi <? 0) || (lo <? 0) then None
    else out ← parse_hex_loop hex n; Some (u8 ((hi ≪ 4) |. lo) :: out)
  | S _, _ => None
  end.

(** [None] is -1; the callers do not look at [out] then. *)
Definition parse_hex_bytes (hex : bytes) (out_len : nat) : option bytes :=
  if (length hex <?n out_len * 2) then None else parse_hex_loop hex out_len.

Definition engine_reg_type (mm : ue_mm_ctx) : Z :=
  match mm_pending_reg_type mm with
  | UE_MM_REG_INITIAL => 1
  | UE_MM_REG_MOBILITY_UPDATE =>
    match mm_pending_reg_trigger mm with UE_MM_REG_TRIGGER_PERIODIC_UPDATE => 3 | _ => 2 end
  end.

Definition engine_reg_ngksi (ctx : ue_context) : Z :=
  if uc_reg_ngksi_valid ctx && negb (engine_reg_type (uc_mm ctx) =? 1) then uc_reg_ngksi ctx else 7.

(** ** Forgetting *)

Definition engine_reset_rrc_tracking (ctx : ue_context) : ue_context :=
  ctx <| uc_rrc_state := UE_RRC_IDLE |> <| uc_rrc_setup_request_ms := 0 |>
      <| uc_rrc_setup_complete_ms := 0 |> <| uc_post_setup_pdu_count := 0 |>
      <| uc_waiting_core_response := false |>.

Definition engine_clear_nas_identity_context (ctx : ue_context) : ue_context :=
  ctx <| uc_nas_sec := nas_sec_initial |> <| uc_nas_sec_non_current := sec_ctx_zero |>
      <| uc_nas_sec_non_current_valid := false |> <| uc_dl_sec_hdr_valid := false |>
      <| uc_smc_last_valid := false |> <| uc_smc_last_inner_len := 0%nat |>
      <| uc_smc_last_payload_len := 0%nat |>
      <| uc_guti := (replicate 16 0) |> <| uc_guti_len := 0%nat |>
      <| uc_auth_sqn_ms := (replicate 6 0) |> <| uc_auth_sqn_ms_valid := false |>
      <| uc_reg_ngksi := 7 |> <| uc_reg_ngksi_valid := false |> <| uc_t3512_seconds := 0 |>
      <| uc_mm := ((uc_mm ctx) <| mm_last_assigned_guti := [] |>) |>.

Definition engine_clear_sm_runtime (ctx : ue_context) : ue_context :=
  ctx <| uc_sm := ((uc_sm ctx) <| sm_session_id := 0 |> <| sm_ip := ip_zero |> <| sm_pti := 0 |>
                     <| sm_next_pti := 0 |> <| sm_est_retx_count := 0 |>
                     <| sm_establishment_attempt_id := 0 |> <| sm_next_step_deadline_ms := 0 |>
                     <| sm_connect_requested := false |> <| sm_disconnect_requested := false |>) |>.

(** [r1] and [r2] are the random numbers of the new transport identity. *)
Definition engine_forget_network_context (ctx : ue_context) (r1 r2 : Z) : ue_context :=
  let ctx := engine_reset_rrc_tracking ctx in
  let ctx := engine_clear_nas_identity_context ctx in
  let ctx := engine_clear_sm_runtime ctx in
  let ctx := ctx <| uc_ran := (ue_ran_transport_refresh_sti (uc_ran ctx) r1 r2) |> in
  ctx <| uc_up := (ue_up_unbind_session_psi (uc_up ctx) (uc_ims_psi ctx)) |>
      <| uc_ims_pdu_requested := false |> <| uc_ims_pdu_establishing := false |>
      <| uc_ims_pdu_active := false |> <| uc_ims_has_pcscf := false |>
      <| uc_ims_pcscf_ipv4 := [0; 0; 0; 0] |> <| uc_ims_ip := ip_zero |>.

(** ** The adapter on this context *)

Definition with_adapter {R : Type} (ctx : ue_context)
    (f : net_adapter ue_ran_transport_ctx -> option (R * net_adapter ue_ran_transport_ctx))
    : option (R * ue_context) :=
  '(r, n) ← f (NetAdapter (Some (uc_ran ctx)) (Some (uc_nas_sec ctx)));
  t ← g_transport n;
  sec ← g_nas_sec n;
  Some (r, ctx <| uc_ran := t |> <| uc_nas_sec := sec |>).

(** ** 5GMM and 5GSM events *)

Definition on_registration_accept (ctx : ue_context) (event : ue_nas_event) : option ue_context :=
  let ctx := ctx <| uc_waiting_core_response := false |>
                 <| uc_mm := (ue_mm_on_registration_accept (uc_mm ctx)) |> in
  ctx ← (if ev_has_guti event && (0 <?n ev_guti_len event) && (ev_guti_len event <=?n 16) then
           let guti := take (ev_guti_len event) (ev_guti event) in
           let ctx := ctx <| uc_guti := (over guti (uc_guti ctx)) |>
                          <| uc_guti_len := (ev_guti_len event) |>
                          <| uc_mm := ((uc_mm ctx)
                               <| mm_last_assigned_guti := (concat (hex2 <$> take 15 guti)) |>) |> in
           engine_send_encoded ctx
             (ue_nas_encode_registration_complete (Some (replicate 16 0)) 16) false
         else Some ctx);
  Some (if ev_has_t3512 event then ctx <| uc_t3512_seconds := (ev_t3512_seconds event) |> else ctx).

Definition on_registration_reject (ctx : ue_context) (event : ue_nas_event) : ue_context :=
  let c := ev_mm_cause event in
  let cause := if c =? 3 then UE_MM_REG_REJECT_ILLEGAL_UE
               else if c =? 11 then UE_MM_REG_REJECT_PLMN_NOT_ALLOWED
               else if c =? 12 then UE_MM_REG_REJECT_TA_NOT_ALLOWED
               else UE_MM_REG_REJECT_CONGESTION in
  ctx <| uc_waiting_core_response := false |>
      <| uc_mm := (ue_mm_on_registration_reject (uc_mm ctx) cause) |>.

Definition send_sm_status (ctx : ue_context) (event : ue_nas_event) : option ue_context :=
  engine_send_encoded ctx
    (ue_nas_encode_sm_status (Some (replicate 16 0)) 16 (ev_psi event) (ev_pti event) 0x62) false.

Definition is_ims_transaction (ctx : ue_context) (event : ue_nas_event) : bool :=
  uc_ims_pdu_establishing ctx && (ev_psi event =? uc_ims_psi ctx) && (ev_pti event =? uc_ims_pti ctx).

(** The internal IMS session is established. *)
Definition on_ims_accept (ctx : ue_context) (event : ue_nas_event) : ue_context :=
  let ip := uc_ims_ip ctx in
  let ip := if ev_has_pdu_address event && (ev_pdu_addr_type event =? 1)
            then ip <| ip_ipv4_addr := (ev_ipv4_addr event) |> else ip in
  let ip := if ev_has_dns event then ip <| ip_dns1 := (ev_dns_ipv4 event) |> else ip in
  let ctx := if ev_has_pcscf event
             then ctx <| uc_ims_pcscf_ipv4 := (ev_pcscf_ipv4 event) |> <| uc_ims_has_pcscf := true |>
             else ctx in
  let ip := ip <| ip_mtu := if ip_mtu ip =? 0 then 1500 else ip_mtu ip |> in
  ctx <| uc_ims_ip := ip |> <| uc_ims_pdu_establishing := false |> <| uc_ims_pdu_active := true |>
      <| uc_up := (ue_up_bind_session_ex (uc_up ctx) (uc_ran ctx) (ev_psi event) (Some (str "ims"))
                     (Some (str "ipv4")) (Some ip) false).2 |>.

Definition on_est_accept (ctx : ue_context) (event : ue_nas_event) : option ue_context :=
  if is_ims_transaction ctx event then Some (on_ims_accept ctx event) else
  if negb (is_sm UE_SM_ESTABLISHING (uc_sm ctx)) then send_sm_status ctx event else
  let sm := uc_sm ctx in
  let sm := if ev_has_pdu_address event && (ev_pdu_addr_type event =? 1)
            then sm <| sm_ip := ((sm_ip sm) <| ip_ipv4_addr := (ev_ipv4_addr event) |>) |> else sm in
  let sm := if ev_has_dns event
            then sm <| sm_ip := ((sm_ip sm) <| ip_dns1 := (ev_dns_ipv4 event) |>) |> else sm in
  let sm := ue_sm_on_pdu_session_established (sm <| sm_session_id := (ev_psi event) |>) in
  let ctx := ctx <| uc_sm := sm |> in
  Some (if is_sm UE_SM_ACTIVE sm
        then ctx <| uc_up := (ue_up_bind_session (uc_up ctx) (uc_ran ctx)
                                (if ev_psi event =? 0 then 1 else ev_psi event)
                                (Some (sm_active_dnn sm)) (Some (sm_pdu_type sm))
                                (Some (sm_ip sm))).2 |>
        else ctx).

Definition on_est_reject (ctx : ue_context) (event : ue_nas_event) : option ue_context :=
  if is_ims_transaction ctx event
  then Some (ctx <| uc_ims_pdu_establishing := false |> <| uc_ims_pdu_requested := false |>
                 <| uc_ims_pdu_active := false |>) else
  if negb (is_sm UE_SM_ESTABLISHING (uc_sm ctx)) then send_sm_status ctx event else
  let c := ev_sm_cause event in
  let cause := if c =? 27 then UE_SM_PDU_REJECT_MISSING_DNN
               else if c =? 28 then UE_SM_PDU_REJECT_UNKNOWN_PDU_SESSION_TYPE
               else UE_SM_PDU_REJECT_INSUFFICIENT_RESOURCES in
  '(sm, ctx) ← with_adapter ctx (fun n => ue_sm_on_pdu_session_reject (uc_sm ctx) n cause);
  Some (ctx <| uc_sm := sm |>).

Definition on_release_cmd (ctx : ue_context) (event : ue_nas_event) : option ue_context :=
  ctx ← engine_send_encoded ctx
          (ue_nas_encode_pdu_session_release_complete (Some (replicate 16 0)) 16
             (ev_psi event) (ev_pti event)) false;
  if uc_ims_pdu_active ctx && (ev_psi event =? uc_ims_psi ctx) then
    Some (ctx <| uc_ims_pdu_active := false |> <| uc_ims_pdu_requested := false |>
              <| uc_ims_pdu_establishing := false |>
              <| uc_up := (ue_up_unbind_session_psi (uc_up ctx) (uc_ims_psi ctx)) |>)
  else
    Some (ctx <| uc_up := (ue_up_unbind_session (uc_up ctx)) |>
              <| uc_sm := (ue_sm_on_pdu_session_released (uc_sm ctx)) |>).

(** ** Authentication *)

(** The challenge stored in the current context. *)
Definition store_challenge (sec : ue_nas_security_ctx) (event : ue_nas_event) : ue_nas_security_ctx :=
  let sec := sec <| sc_rand := (ev_auth_rand event) |>
                 <| sc_sqn_xor_ak := (take 6 (ev_auth_autn event)) |> in
  if ev_has_auth_abba event && (ev_auth_abba_len event <=?n 16)
  then sec <| sc_abba := (over (take (ev_auth_abba_len event) (ev_auth_abba event)) (sc_abba sec)) |>
           <| sc_abba_len := (Z.of_nat (ev_auth_abba_len event)) |>
  else sec <| sc_abba := (over [0; 0] (sc_abba sec)) |> <| sc_abba_len := 2 |>.

Definition serving_network_name (cfg : ue_instance_config) : option bytes :=
  mnc ← atoi (net_mnc (cfg_network cfg));
  mcc ← atoi (net_mcc (cfg_network cfg));
  Some (strcpy_n 96 (str "5G:mnc" ++ itoa_pad 3 mnc ++ str ".mcc" ++ itoa_pad 3 mcc
                       ++ str ".3gppnetwork.org")).

(** [memcmp(a, b, n) < 0] for [n] bytes. *)
Definition memcmp_lt (a b : bytes) : bool := be_val a <? be_val b.

(** The challenge is genuine and fresh: the keys are derived into the current
    context, which is copied as the non-current one, and RES* is sent. *)
Definition auth_accept (ctx : ue_context) (event : ue_nas_event) (sqn : bytes) : option ue_context :=
  let ctx := ctx <| uc_auth_sqn_ms := sqn |> <| uc_auth_sqn_ms_valid := true |> in
  let ctx := if ev_has_ngksi event
             then ctx <| uc_reg_ngksi := (ev_ngksi event) |> <| uc_reg_ngksi_valid := true |>
             else ctx in
  snn ← serving_network_name (uc_cfg ctx);
  let supi := strcpy_n 48 (sim_imsi (cfg_sim (uc_cfg ctx))) in
  let sec := uc_nas_sec ctx in
  let m := sc_milenage sec in
  '(rc, keys) ← ue_nas_derive_keys (Some (mil_ck m)) (Some (mil_ik m)) (Some (mil_ak m))
                  (Some (ev_auth_rand event)) (Some (mil_res m)) (Some sqn) (Some snn) (Some supi)
                  (Some (sc_abba sec)) (Z.to_nat (sc_abba_len sec)) UE_NIA2 UE_NEA0 (sc_keys sec);
  let sec := sec <| sc_keys := keys |> in
  let ctx := ctx <| uc_nas_sec := sec |> in
  if rc <? 0 then Some ctx else
  let ctx := ctx <| uc_nas_sec_non_current := (sec
      <| sc_active := true |> <| sc_int_alg := UE_NIA2 |> <| sc_enc_alg := UE_NEA0 |>
      <| sc_bearer := 1 |> <| sc_ngksi := if ev_has_ngksi event then ev_ngksi event else 0 |>
      <| sc_ul_count := (NasCount 0 0) |> <| sc_dl_count := (NasCount 0 0) |>) |>
    <| uc_nas_sec_non_current_valid := true |> in
  engine_send_encoded ctx
    (ue_nas_encode_auth_response (Some (replicate 64 0)) 64 (Some (k_res_star keys)) 16) false.

Definition on_authentication_request (ctx : ue_context) (event : ue_nas_event) : option ue_context :=
  if negb (ev_has_auth_rand event) || negb (ev_has_auth_autn event) then Some ctx else
  let sim := cfg_sim (uc_cfg ctx) in
  match parse_hex_bytes (sim_key sim) 16, parse_hex_bytes (sim_opc sim) 16,
        parse_hex_bytes (sim_amf sim) 2 with
  | Some k, Some opc, Some amf =>
    let rand := ev_auth_rand event in
    let sec := store_challenge (uc_nas_sec ctx) event in
    let sec := sec <| sc_milenage := (ue_milenage_compute opc k rand (replicate 6 0) amf) |> in
    let sqn := xor_bytes (take 6 (ev_auth_autn event)) (mil_ak (sc_milenage sec)) in
    let sec := sec <| sc_milenage := (ue_milenage_compute opc k rand sqn amf) |> in
    let ctx := ctx <| uc_nas_sec := sec |> in
    if negb (bool_decide (mil_mac_a (sc_milenage sec) = take 8 (drop 8 (ev_auth_autn event)))) then
      engine_send_encoded ctx
        (ue_nas_encode_auth_failure (Some (replicate 16 0)) 16 0x14 None 0) false
    else if uc_auth_sqn_ms_valid ctx && memcmp_lt sqn (uc_auth_sqn_ms ctx) then
      let rs := ue_milenage_compute opc k rand (uc_auth_sqn_ms ctx) [0; 0] in
      let auts := xor_bytes (uc_auth_sqn_ms ctx) (mil_ak_star rs) ++ mil_mac_s rs in
      engine_send_encoded ctx
        (ue_nas_encode_auth_failure (Some (replicate 32 0)) 32 0x15 (Some auts) 14) false
    else auth_accept ctx event sqn
  | _, _, _ => Some ctx
  end.

(** ** Security mode *)

(** The MAC of a Security Mode Command under the keys of [base] for the given
    algorithms: the keys, and whether the COUNT was the one with overflow 0.
    [None] inside is -1. *)
Definition verify_smc_new_context_mac (ctx : ue_context) (base : ue_nas_security_ctx)
    (smc_payload : bytes) (smc_payload_len : nat) (smc_inner_len : nat)
    (int_alg enc_alg ngksi : Z) : option (option (ue_nas_keys * bool)) :=
  if (smc_payload_len =?n 0) then Some None else
  if negb (uc_dl_sec_hdr_valid ctx)
     || negb (uc_dl_sec_hdr_sht ctx =? NAS_SHT_INTEGRITY_PROTECTED_NEW_CTX) then Some None else
  if (256 <?n smc_payload_len) then Some None else
  '(knas_int, knas_enc) ← ue_nas_derive_knas_from_kamf (k_kamf (sc_keys base)) int_alg enc_alg;
  let keys := (sc_keys base) <| k_knas_int := knas_int |> <| k_knas_enc := knas_enc |> in
  payload ← slice smc_payload 0 smc_payload_len;
  let mac_msg := uc_dl_sec_hdr_sqn ctx :: payload in
  let mac_under count := ue_nas_compute_mac int_alg (ue_nas_count_value count) 1 1 knas_int mac_msg in
  let count := (sc_dl_count base) <| sqn := uc_dl_sec_hdr_sqn ctx |> in
  if (256 <?n smc_inner_len) then Some None else
  if mac_under count =? uc_dl_sec_hdr_mac ctx then Some (Some (keys, false)) else
  if mac_under (count <| overflow := 0 |>) =? uc_dl_sec_hdr_mac ctx then Some (Some (keys, true))
  else Some None.

(** The algorithms that are not implemented are replaced. *)
Definition smc_enc_alg (event : ue_nas_event) : Z :=
  if ev_has_sec_algs event
  then if (UE_NEA2 <? ev_sec_enc_alg event) || (ev_sec_enc_alg event =? 1) then UE_NEA0
       else ev_sec_enc_alg event
  else UE_NEA0.
Definition smc_int_alg (event : ue_nas_event) : Z :=
  if ev_has_sec_algs event
  then if (UE_NIA2 <? ev_sec_int_alg event) || (ev_sec_int_alg event =? 1) then UE_NIA2
       else ev_sec_int_alg event
  else UE_NIA2.
Definition smc_algs (event : ue_nas_event) : Z := u8 ((smc_enc_alg event ≪ 4) |. smc_int_alg event).
Definition smc_ngksi (event : ue_nas_event) : Z := if ev_has_ngksi event then ev_ngksi event else 0.

Definition duplicate_smc (ctx : ue_context) (event : ue_nas_event) : bool :=
  uc_dl_sec_hdr_valid ctx && (uc_dl_sec_hdr_sht ctx =? NAS_SHT_INTEGRITY_PROTECTED_NEW_CTX)
  && uc_smc_last_valid ctx && (uc_smc_last_mac ctx =? uc_dl_sec_hdr_mac ctx)
  && (uc_smc_last_sqn ctx =? uc_dl_sec_hdr_sqn ctx)
  && (uc_smc_last_algs ctx =? smc_algs event) && (uc_smc_last_ngksi ctx =? smc_ngksi event).

(** The context the command is about, and whether it is the non-current one. *)
Definition smc_target (ctx : ue_context) (ngksi : Z) : option (ue_nas_security_ctx * bool) :=
  if sc_active (uc_nas_sec ctx) && (sc_ngksi (uc_nas_sec ctx) =? ngksi)
  then Some (uc_nas_sec ctx, false)
  else if uc_nas_sec_non_current_valid ctx && (sc_ngksi (uc_nas_sec_non_current ctx) =? ngksi)
  then Some (uc_nas_sec_non_current ctx, true)
  else None.

(** A verified command takes the context into use. *)
Definition smc_activate (ctx : ue_context) (event : ue_nas_event) (target : ue_nas_security_ctx)
    (using_non_current : bool) (derived_keys : ue_nas_keys) (count0 : bool) : ue_context :=
  let target := target <| sc_keys := derived_keys |> <| sc_int_alg := smc_int_alg event |>
      <| sc_enc_alg := smc_enc_alg event |> <| sc_bearer := 1 |> in
  let target := if ev_has_ngksi event then target <| sc_ngksi := smc_ngksi event |> else target in
  let target := if count0 then target <| sc_dl_count := (NasCount 0 0) |> else target in
  let target := target <| sc_active := true |> in
  if using_non_current
  then ctx <| uc_nas_sec_non_current := target |>
           <| uc_nas_sec := (target <| sc_ul_count := (NasCount 0 0) |>) |>
           <| uc_nas_sec_non_current_valid := false |>
  else ctx <| uc_nas_sec := target |>.

(** The reply: a Security Mode Complete with the Registration Request. *)
Definition send_smc_complete (ctx : ue_context) : option ue_context :=
  let net := cfg_network (uc_cfg ctx) in
  '(reg_container_len, reg_container) ←
    ue_nas_encode_registration_request (Some (replicate 256 0)) 256
      (Some (sim_imsi (cfg_sim (uc_cfg ctx)))) (Some (net_mcc net)) (Some (net_mnc net))
      (net_slice_sst net) (engine_reg_type (uc_mm ctx))
      (if (uc_guti_len ctx =?n 0) then None else Some (uc_guti ctx)) (uc_guti_len ctx)
      (engine_reg_ngksi ctx) false;
  engine_send_encoded ctx
    (if 0 <? reg_container_len
     then ue_nas_encode_security_mode_complete (Some (replicate 64 0)) 64 reg_container
            (Z.to_nat reg_container_len)
     else ue_nas_encode_security_mode_complete (Some (replicate 64 0)) 64 None 0) true.

(** The fingerprint of the command, for duplicates. *)
Definition remember_smc (ctx : ue_context) (event : ue_nas_event) : ue_context :=
  if uc_dl_sec_hdr_valid ctx && (uc_dl_sec_hdr_sht ctx =? NAS_SHT_INTEGRITY_PROTECTED_NEW_CTX)
  then ctx <| uc_smc_last_valid := true |> <| uc_smc_last_mac := (uc_dl_sec_hdr_mac ctx) |>
           <| uc_smc_last_sqn := (uc_dl_sec_hdr_sqn ctx) |> <| uc_smc_last_algs := (smc_algs event) |>
           <| uc_smc_last_ngksi := (smc_ngksi event) |>
  else ctx.

Definition on_security_mode_command (ctx : ue_context) (event : ue_nas_event) : option ue_context :=
  match smc_target ctx (smc_ngksi event) with
  | None => Some ctx
  | Some (target, using_non_current) =>
    if duplicate_smc ctx event then send_smc_complete (remember_smc ctx event) else
    verdict ← verify_smc_new_context_mac ctx target (uc_smc_last_payload ctx)
                (uc_smc_last_payload_len ctx) (uc_smc_last_inner_len ctx)
                (smc_int_alg event) (smc_enc_alg event) (smc_ngksi event);
    match verdict with
    | None => Some ctx
    | Some (keys, count0) =>
      let ctx := smc_activate ctx event target using_non_current keys count0 in
      send_smc_complete (remember_smc ctx event)
    end
  end.

(** ** The other requests *)

Definition on_identity_request (ctx : ue_context) : option ue_context :=
  let net := cfg_network (uc_cfg ctx) in
  engine_send_encoded ctx
    (ue_nas_encode_identity_response (Some (replicate 64 0)) 64
       (Some (sim_imsi (cfg_sim (uc_cfg ctx)))) (Some (net_mcc net)) (Some (net_mnc net))) false.

Definition on_config_update (ctx : ue_context) (event : ue_nas_event) : option ue_context :=
  if ev_config_update_ack_requested event
  then engine_send_encoded ctx
         (ue_nas_encode_configuration_update_complete (Some (replicate 8 0)) 8) false
  else Some ctx.

(** ** Dispatch *)

Definition handle_nas_event (ctx : ue_context) (event : ue_nas_event) : option ue_context :=
  match ev_type event with
  | UE_NAS_EVENT_REGISTRATION_ACCEPT => on_registration_accept ctx event
  | UE_NAS_EVENT_REGISTRATION_REJECT => Some (on_registration_reject ctx event)
  | UE_NAS_EVENT_PDU_SESSION_EST_ACCEPT => on_est_accept ctx event
  | UE_NAS_EVENT_PDU_SESSION_EST_REJECT => on_est_reject ctx event
  | UE_NAS_EVENT_PDU_SESSION_RELEASE_CMD => on_release_cmd ctx event
  | UE_NAS_EVENT_AUTHENTICATION_REQUEST => on_authentication_request ctx event
  | UE_NAS_EVENT_SECURITY_MODE_COMMAND => on_security_mode_command ctx event
  | UE_NAS_EVENT_IDENTITY_REQUEST => on_identity_request ctx
  | UE_NAS_EVENT_CONFIG_UPDATE_COMMAND => on_config_update ctx event
  | UE_NAS_EVENT_UNKNOWN | UE_NAS_EVENT_DL_NAS_TRANSPORT => Some ctx
  end.

(** A change of the state, the procedure or the step of a machine is flagged. *)
Definition mm_changed (before after : ue_mm_ctx) : bool :=
  negb (bool_decide (mm_state before = mm_state after))
  || negb (bool_decide (mm_procedure before = mm_procedure after))
  || negb (bool_decide (mm_proc_step before = mm_proc_step after)).
Definition sm_changed (before after : ue_sm_ctx) : bool :=
  negb (bool_decide (sm_state before = sm_state after))
  || negb (bool_decide (sm_procedure before = sm_procedure after))
  || negb (bool_decide (sm_proc_step before = sm_proc_step after)).
Definition flag_mm (before : ue_mm_ctx) (ctx : ue_context) : ue_context :=
  if mm_changed before (uc_mm ctx)
  then ctx <| uc_changed_flags := (uc_changed_flags ctx |. UE_ENGINE_CHANGED_MM) |> else ctx.
Definition flag_sm (before : ue_sm_ctx) (ctx : ue_context) : ue_context :=
  if sm_changed before (uc_sm ctx)
  then ctx <| uc_changed_flags := (uc_changed_flags ctx |. UE_ENGINE_CHANGED_SM) |> else ctx.

Definition engine_process_nas_event (ctx : ue_context) (event : ue_nas_event) : option ue_context :=
  ctx' ← handle_nas_event ctx event;
  Some (flag_sm (uc_sm ctx) (flag_mm (uc_mm ctx) ctx')).

(** The security envelope of the message [nas_pdu]: the message as it is after
    deciphering in place, and the plain message as an offset and a length;
    [None] inside when it is refused. *)
Definition unwrap_nas (ctx : ue_context) (nas_pdu : bytes) (nas_len : nat)
    : option (bytes * option (nat * nat) * ue_context) :=
  if nas_len <?n 2 then Some (nas_pdu, Some (0, nas_len)%nat, ctx) else
  epd ← nas_pdu !! 0%nat;
  sht ← nas_pdu !! 1%nat;
  if negb (epd =? NAS_EPD_5GMM) || (sht =? NAS_SHT_NOT_PROTECTED)
  then Some (nas_pdu, Some (0, nas_len)%nat, ctx) else
  if sht =? NAS_SHT_INTEGRITY_PROTECTED_NEW_CTX then
    '(rc, res) ← ue_nas_security_unwrap_parse_only (Some nas_pdu) nas_len;
    match res with
    | None => Some (nas_pdu, None, ctx)
    | Some (hdr, (off, inner_len)) =>
      let ctx := ctx <| uc_dl_sec_hdr_valid := true |> <| uc_dl_sec_hdr_sht := (h_sht hdr) |>
          <| uc_dl_sec_hdr_mac := (h_mac hdr) |> <| uc_dl_sec_hdr_sqn := (h_sqn hdr) |> in
      ctx ← (if (7 <?n nas_len) && ((nas_len - 7)%nat <=?n 256) then
               payload ← slice nas_pdu 7 (nas_len - 7);
               Some (ctx <| uc_smc_last_payload := (over payload (uc_smc_last_payload ctx)) |>
                         <| uc_smc_last_payload_len := (nas_len - 7)%nat |>)
             else Some (ctx <| uc_smc_last_payload_len := 0%nat |>));
      ctx ← (if (inner_len <=?n 256) then
               inner ← slice nas_pdu off inner_len;
               Some (ctx <| uc_smc_last_inner := (over inner (uc_smc_last_inner ctx)) |>
                         <| uc_smc_last_inner_len := inner_len |>)
             else Some (ctx <| uc_smc_last_inner_len := 0%nat |>));
      Some (nas_pdu, Some (off, inner_len), ctx)
    end
  else if sc_active (uc_nas_sec ctx) then
    u ← ue_nas_security_unprotect (Some nas_pdu) nas_len (uc_nas_sec ctx);
    let ctx := ctx <| uc_nas_sec := (uw_ctx u) |> in
    if uw_rc u <? 0 then Some (uw_data u, None, ctx) else
    mac ← received_mac_at (uw_data u);
    sqn ← uw_data u !! 6%nat;
    Some (uw_data u, uw_plain u,
          ctx <| uc_dl_sec_hdr_valid := true |> <| uc_dl_sec_hdr_sht := sht |>
              <| uc_dl_sec_hdr_mac := mac |> <| uc_dl_sec_hdr_sqn := sqn |>)
  else Some (nas_pdu, None, ctx).

(** Returns the result and the message buffer too. *)
Definition decode_and_process_nas (ctx : ue_context) (nas_pdu : bytes) (nas_len : nat)
    : option (Z * bytes * ue_context) :=
  '(nas_pdu, plain, ctx) ← unwrap_nas ctx nas_pdu nas_len;
  match plain with
  | None => Some (-1, nas_pdu, ctx)
  | Some (off, plain_len) =>
    '(rc, event) ← ue_nas_decode_event (Some (drop off nas_pdu)) plain_len nas_event_zero;
    if rc <? 0 then Some (-1, nas_pdu, ctx) else
    ctx ← engine_process_nas_event ctx event;
    Some (0, nas_pdu, ctx)
  end.
End Engine.
