(* ===== verification/UeEngine.v ===== *)
(** The engine: [src/src/ue_engine/ue_engine.c], the tick and the interface to
    the rest of the program.

    The tick takes the time and what the transport would draw at random, [set_radio]
    also the socket that opening it gives.  The loop that drains the received
    RRC PDUs is a [Fixpoint] on the number of PDUs. *)

From S2P Require Import Prelude InstanceConfig NasDefs NasEncode Rrc NasSecurity UeTypes UeMm UeSm.
From S2P Require Import NetworkAdapter RanTransport RanLink UserPlane UeContext EngineNas.

Definition UE_RRC_CHANNEL_DL_CCCH : Z := 2.
Definition UE_RRC_CHANNEL_DL_DCCH : Z := 3.
Definition UE_RRC_CHANNEL_UL_CCCH : Z := 5.
Definition NAS_BUF_SIZE : nat := Z.to_nat 8192.

Section Engine.
Variable sendto : nat -> sockaddr -> bytes -> Z.
#[local] Instance engine_sender' : RanSender ue_ran_transport_ctx := ran_transport_sender sendto.
#[local] Instance engine_link' : DataLink ue_ran_transport_ctx := ran_data_link sendto.

(** ** RRC *)

(** The Registration Request of the pending registration, in a buffer of 256. *)
Definition encode_registration (ctx : ue_context) (initial_cleartext : bool)
    : option (Z * option bytes) :=
  let net := cfg_network (uc_cfg ctx) in
  ue_nas_encode_registration_request (Some (replicate 256 0)) 256
    (Some (sim_imsi (cfg_sim (uc_cfg ctx)))) (Some (net_mcc net)) (Some (net_mnc net))
    (net_slice_sst net) (engine_reg_type (uc_mm ctx))
    (if (uc_guti_len ctx =?n 0) then None else Some (uc_guti ctx)) (uc_guti_len ctx)
    (engine_reg_ngksi ctx) initial_cleartext.

Definition send_setup_complete (ctx : ue_context) (transaction_id : Z) : option ue_context :=
  '(reg_len, reg_buf) ← encode_registration ctx true;
  reg_buf ← reg_buf;
  if reg_len <=? 0 then Some ctx else
  '(complete_len, complete_buf) ←
    ue_rrc_encode_setup_complete (Some (replicate NAS_BUF_SIZE 0)) NAS_BUF_SIZE transaction_id 1
      (Some reg_buf) (Z.to_nat reg_len);
  complete_buf ← complete_buf;
  if complete_len <=? 0 then Some ctx else
  '(_, t) ← rt_send_nas_pdu sendto (uc_ran ctx) (take (Z.to_nat complete_len) complete_buf)
              UE_RRC_CHANNEL_UL_DCCH;
  Some (ctx <| uc_ran := t |>).

Definition engine_handle_rrc_setup (ctx : ue_context) (rrc_msg : ue_rrc_message) (now_ms : Z)
    : option ue_context :=
  ctx ← (if is_mm UE_MM_REGISTERING (uc_mm ctx) && mm_register_requested (uc_mm ctx)
         then send_setup_complete ctx (rrc_transaction_id rrc_msg) else Some ctx);
  Some (ctx <| uc_rrc_state := UE_RRC_CONNECTED |> <| uc_rrc_setup_complete_ms := now_ms |>
            <| uc_post_setup_pdu_count := 0 |> <| uc_waiting_core_response := true |>).

Definition engine_initiate_rrc_setup (ctx : ue_context) (now_ms : Z) : option ue_context :=
  '(rrc_len, rrc_buf) ← ue_rrc_encode_setup_request (Some (replicate 32 0)) 32
                          (rt_sti (uc_ran ctx)) 3;
  rrc_buf ← rrc_buf;
  if rrc_len <=? 0 then Some ctx else
  '(_, t) ← rt_send_nas_pdu sendto (uc_ran ctx) (take (Z.to_nat rrc_len) rrc_buf)
              UE_RRC_CHANNEL_UL_CCCH;
  Some (ctx <| uc_ran := t |> <| uc_rrc_state := UE_RRC_SETUP_REQUESTED |>
            <| uc_rrc_setup_request_ms := now_ms |>).

(** ** Received PDUs *)

(** The NAS PDU a decoded message points to: [None] for the null pointer. *)
Definition rrc_nas_bytes (ctx : ue_context) (nas_buf : bytes) (m : ue_rrc_message) : option bytes :=
  match rrc_nas_pdu m with
  | NasNull => None
  | NasInBuffer off => Some (drop off nas_buf)
  | NasCopyBuf => Some (uc_nas_copy_buf ctx)
  end.

(** The NAS message is deciphered where it lies. *)
Definition process_rrc_nas (ctx : ue_context) (nas_buf : bytes) (m : ue_rrc_message)
    : option (bytes * ue_context) :=
  match rrc_nas_bytes ctx nas_buf m with
  | None => Some (nas_buf, ctx)
  | Some nas =>
    '(_, nas, ctx) ← decode_and_process_nas sendto ctx nas (Z.to_nat (rrc_nas_len m));
    match rrc_nas_pdu m with
    | NasNull => Some (nas_buf, ctx)
    | NasInBuffer off => Some (take off nas_buf ++ nas, ctx)
    | NasCopyBuf => Some (nas_buf, ctx <| uc_nas_copy_buf := nas |>)
    end
  end.

(** A decoded DL-DCCH message. *)
Definition process_dl_dcch (ctx : ue_context) (nas_buf : bytes) (m : ue_rrc_message) (now_ms : Z)
    : option (bytes * ue_context) :=
  match rrc_type m with
  | UE_RRC_DL_INFO_TRANSFER =>
    if 0 <? rrc_nas_len m then process_rrc_nas ctx nas_buf m else Some (nas_buf, ctx)
  | UE_RRC_SETUP => ctx ← engine_handle_rrc_setup ctx m now_ms; Some (nas_buf, ctx)
  | _ => Some (nas_buf, ctx)
  end.

(** A decoded DL-CCCH message. *)
Definition process_dl_ccch (ctx : ue_context) (m : ue_rrc_message) (now_ms : Z) : option ue_context :=
  match rrc_type m with
  | UE_RRC_SETUP => engine_handle_rrc_setup ctx m now_ms
  | _ => Some ctx
  end.

(** DL-DCCH, then DL-CCCH, then a bare NAS message. *)
Definition process_fallback (ctx : ue_context) (nas_buf : bytes) (nas_len : nat) (rrc_channel : Z)
    (rrc_msg : ue_rrc_message) (now_ms : Z) : option (bytes * ue_context) :=
  '(ret_dc, m, copy) ← ue_rrc_decode_dl_dcch (Some nas_buf) nas_len rrc_msg (uc_nas_copy_buf ctx);
  let ctx := ctx <| uc_nas_copy_buf := copy |> in
  if ret_dc =? 0 then process_dl_dcch ctx nas_buf m now_ms else
  if uc_waiting_core_response ctx && (rrc_channel =? UE_RRC_CHANNEL_DL_DCCH)
  then Some (nas_buf, ctx) else
  '(ret_cc, m, copy) ← ue_rrc_decode_dl_ccch (Some nas_buf) nas_len m (uc_nas_copy_buf ctx);
  let ctx := ctx <| uc_nas_copy_buf := copy |> in
  if ret_cc =? 0 then ctx ← process_dl_ccch ctx m now_ms; Some (nas_buf, ctx) else
  '(_, nas_buf, ctx) ← decode_and_process_nas sendto ctx nas_buf nas_len;
  Some (nas_buf, ctx).

(** The body of the loop: the channel says which decoder is tried first. *)
Definition process_rrc_pdu (ctx : ue_context) (nas_buf : bytes) (nas_len : nat) (rrc_channel : Z)
    (now_ms : Z) : option (bytes * ue_context) :=
  let ctx := if uc_waiting_core_response ctx
             then ctx <| uc_post_setup_pdu_count := u32 (uc_post_setup_pdu_count ctx + 1) |> else ctx in
  if rrc_channel =? 2 then
    '(ret, m, copy) ← ue_rrc_decode_dl_ccch (Some nas_buf) nas_len rrc_message_zero
                        (uc_nas_copy_buf ctx);
    let ctx := ctx <| uc_nas_copy_buf := copy |> in
    if ret =? 0 then ctx ← process_dl_ccch ctx m now_ms; Some (nas_buf, ctx)
    else process_fallback ctx nas_buf nas_len rrc_channel m now_ms
  else if rrc_channel =? 3 then
    '(ret, m, copy) ← ue_rrc_decode_dl_dcch (Some nas_buf) nas_len rrc_message_zero
                        (uc_nas_copy_buf ctx);
    let ctx := ctx <| uc_nas_copy_buf := copy |> in
    if ret =? 0 then process_dl_dcch ctx nas_buf m now_ms
    else process_fallback ctx nas_buf nas_len rrc_channel m now_ms
  else process_fallback ctx nas_buf nas_len rrc_channel rrc_message_zero now_ms.

(** [rrc_channel] keeps its value when the queue is empty. *)
Fixpoint drain_rrc (fuel : nat) (ctx : ue_context) (nas_buf : bytes) (rrc_channel now_ms : Z)
    : option ue_context :=
  match fuel with
  | O => None
  | S fuel =>
    '(nas_len, buf, channel, t) ←
      ue_ran_transport_recv_nas_pdu (uc_ran ctx) (Some nas_buf) NAS_BUF_SIZE;
    nas_buf ← buf;
    let ctx := ctx <| uc_ran := t |> in
    let rrc_channel := default rrc_channel channel in
    if 0 <? nas_len then
      '(nas_buf, ctx) ← process_rrc_pdu ctx nas_buf (Z.to_nat nas_len) rrc_channel now_ms;
      drain_rrc fuel ctx nas_buf rrc_channel now_ms
    else Some ctx
  end.

(** ** The tick *)

(** 1b: the link was lost while registered or with a session. *)
Definition recover_lost_link (ctx : ue_context) (r1 r2 : Z) : ue_context :=
  if is_rt UE_RAN_TRANSPORT_LOST (uc_ran ctx)
     && (is_mm UE_MM_REGISTERED_HOME (uc_mm ctx) || is_sm UE_SM_ACTIVE (uc_sm ctx)) then
    let ctx := engine_forget_network_context ctx r1 r2 in
    ctx <| uc_sm := (ue_sm_on_radio (uc_sm ctx) false) |>
        <| uc_mm := (ue_mm_request_register (ue_mm_on_radio (ue_mm_on_radio (uc_mm ctx) false) true)) |>
  else ctx.

(** 2: the timers of the machines. *)
Definition tick_machines (ctx : ue_context) (now_ms : Z) : option ue_context :=
  let ctx := if uc_waiting_core_response ctx then ctx
             else ctx <| uc_mm := (ue_mm_tick (uc_mm ctx) now_ms) |> in
  '(sm, ctx) ← with_adapter ctx (fun n =>
                 ue_sm_tick (uc_sm ctx) n now_ms (is_mm UE_MM_REGISTERED_HOME (uc_mm ctx)));
  Some (ctx <| uc_sm := sm |>).

(** 4 and 5: connect once registered, register once a cell is found. *)
Definition advance_machines (ctx : ue_context) : ue_context :=
  let sm := uc_sm ctx in
  let ctx := if is_mm UE_MM_REGISTERED_HOME (uc_mm ctx) && is_sm UE_SM_INACTIVE sm
                && negb (sm_connect_requested sm) && negb (sm_disconnect_requested sm)
             then ctx <| uc_sm := (sm <| sm_connect_requested := true |>) |> else ctx in
  if is_mm UE_MM_SEARCHING (uc_mm ctx) && ue_ran_transport_is_connected (uc_ran ctx)
     && negb (uc_waiting_core_response ctx)
  then ctx <| uc_mm := (ue_mm_transition_to_registering (uc_mm ctx)) |> else ctx.

Definition is_update_pending (mm : ue_mm_ctx) : bool :=
  match mm_pending_reg_type mm with UE_MM_REG_INITIAL => false | _ => true end.

(** 5b-bis: a registration update over the existing RRC connection. *)
Definition send_registration_update (ctx : ue_context) (now_ms : Z) : option ue_context :=
  let mm := uc_mm ctx in
  if is_mm UE_MM_REGISTERING mm && mm_register_requested mm
     && bool_decide (uc_rrc_state ctx = UE_RRC_CONNECTED)
     && is_update_pending mm && negb (uc_waiting_core_response ctx) then
    '(reg_len, reg_buf) ← encode_registration ctx false;
    reg_buf ← reg_buf;
    if reg_len <=? 0 then Some ctx else
    '(_, ctx) ← engine_send_nas_uplink sendto ctx reg_buf reg_len false;
    Some (ctx <| uc_waiting_core_response := true |> <| uc_rrc_setup_complete_ms := now_ms |>
              <| uc_post_setup_pdu_count := 0 |>)
  else Some ctx.

(** 5c, 5e and 5d: the timeouts of RRC, and a lost transport. *)
Definition tick_rrc_timeouts (ctx : ue_context) (now_ms : Z) : ue_context :=
  let ctx := if bool_decide (uc_rrc_state ctx = UE_RRC_SETUP_REQUESTED)
                && (3000 <? u64 (now_ms - uc_rrc_setup_request_ms ctx))
             then ctx <| uc_rrc_state := UE_RRC_IDLE |> else ctx in
  let ctx := if uc_waiting_core_response ctx && bool_decide (uc_rrc_state ctx = UE_RRC_CONNECTED)
                && is_mm UE_MM_REGISTERING (uc_mm ctx)
                && (15000 <? u64 (now_ms - uc_rrc_setup_complete_ms ctx))
             then ctx <| uc_waiting_core_response := false |> <| uc_rrc_state := UE_RRC_IDLE |>
             else ctx in
  if negb (ue_ran_transport_is_connected (uc_ran ctx))
     && negb (bool_decide (uc_rrc_state ctx = UE_RRC_IDLE))
  then ctx <| uc_rrc_state := UE_RRC_IDLE |> else ctx.

Definition engine_real_tick (fuel : nat) (ctx : ue_context) (r1 r2 now_ms : Z) : option (Z * ue_context) :=
  if negb (uc_radio_on ctx) then
    let ctx := engine_reset_rrc_tracking ctx in
    Some (0, ctx <| uc_up := (ue_up_tick (uc_up ctx) (uc_ran ctx)) |>)
  else
    let ctx := recover_lost_link ctx r1 r2 in
    ctx ← tick_machines ctx now_ms;
    ctx ← drain_rrc fuel ctx (replicate NAS_BUF_SIZE 0) 0 now_ms;
    let ctx := advance_machines ctx in
    ctx ← (if bool_decide (uc_rrc_state ctx = UE_RRC_IDLE)
              && ue_ran_transport_is_connected (uc_ran ctx) && mm_register_requested (uc_mm ctx)
           then engine_initiate_rrc_setup ctx now_ms else Some ctx);
    ctx ← send_registration_update ctx now_ms;
    let ctx := tick_rrc_timeouts ctx now_ms in
    Some (0, ctx <| uc_up := (ue_up_tick (uc_up ctx) (uc_ran ctx)) |>).

(** ** The interface *)

Definition ue_engine_init (cfg : ue_instance_config) (ue_id r1 r2 : Z)
    (trace : list (sockaddr * bytes)) (copy : bytes) : Z * ue_context :=
  ue_context_init_from_config ue_id cfg r1 r2 trace copy.

Definition ue_engine_start (ctx : ue_context) : ue_context :=
  ue_context_refresh_snapshot (ctx <| uc_running := true |>).
Definition ue_engine_stop (ctx : ue_context) : ue_context :=
  ue_context_refresh_snapshot (ctx <| uc_running := false |>).

Definition ue_engine_inject_uplink_ip (ctx : ue_context) (ip_packet : bytes)
    : option (Z * ue_context) :=
  '(rc, up, t) ← ue_up_send_uplink (uc_up ctx) (uc_ran ctx) ip_packet;
  Some (rc, ctx <| uc_up := up |> <| uc_ran := t |>).

Definition ue_engine_inject_ims_ip (ctx : ue_context) (ip_packet : bytes)
    : option (Z * ue_context) :=
  if negb (uc_ims_pdu_active ctx) then Some (-1, ctx) else
  '(rc, up, t) ← ue_up_send_internal_uplink (uc_up ctx) (uc_ran ctx) (uc_ims_psi ctx) ip_packet;
  Some (rc, ctx <| uc_up := up |> <| uc_ran := t |>).

(** The first PSI from [i] on, among [n], that is not the host's and not in use. *)
Fixpoint free_psi (up : ue_up_ctx) (i : Z) (n : nat) : option Z :=
  match n with
  | O => None
  | S n => if (i =? up_host_psi up) || us_used (up_at up i) then free_psi up (i + 1) n else Some i
  end.

Definition next_ims_pti (ctx : ue_context) : Z :=
  let pti := if uc_ims_pti ctx =? 0 then 2 else u8 (uc_ims_pti ctx + 1) in
  if (pti =? 0) || (pti =? 255) then 2 else pti.

Definition ue_engine_request_ims_pdu (ctx : ue_context) : option (Z * ue_context) :=
  if negb (uc_radio_on ctx) || negb (is_mm UE_MM_REGISTERED_HOME (uc_mm ctx))
     || negb (sc_active (uc_nas_sec ctx))
     || negb (bool_decide (uc_rrc_state ctx = UE_RRC_CONNECTED)) then Some (-1, ctx) else
  if uc_ims_pdu_active ctx || uc_ims_pdu_establishing ctx then Some (0, ctx) else
  match free_psi (uc_up ctx) 2 14 with
  | None => Some (-1, ctx)
  | Some psi =>
    let ctx := ctx <| uc_ims_psi := u8 psi |> in
    let ctx := ctx <| uc_ims_pti := (next_ims_pti ctx) |> in
    '(nas_len, nas) ← ue_nas_encode_pdu_session_est_request (Some (replicate 512 0)) 512
                        (uc_ims_psi ctx) (uc_ims_pti ctx) 1 1 (Some (str "ims"))
                        (net_slice_sst (cfg_network (uc_cfg ctx)));
    nas ← nas;
    if nas_len <=? 0 then Some (-1, ctx) else
    '(r, ctx) ← engine_send_nas_uplink sendto ctx nas nas_len false;
    if r <? 0 then Some (-1, ctx)
    else Some (0, ctx <| uc_ims_pdu_requested := true |> <| uc_ims_pdu_establishing := true |>)
  end.

Definition ue_engine_tick (fuel : nat) (ctx : ue_context) (r1 r2 now_ms : Z)
    : option (Z * ue_context) :=
  '(rc, ctx) ← engine_real_tick fuel ctx r1 r2 now_ms;
  if rc <? 0 then Some (-1, ctx) else Some (0, ue_context_refresh_snapshot ctx).

(** The farewell before the link is torn down. *)
Definition send_deregistration (ctx : ue_context) : option ue_context :=
  if negb (is_rt UE_RAN_TRANSPORT_IDLE (uc_ran ctx)) && sc_active (uc_nas_sec ctx)
     && (0 <?n uc_guti_len ctx)
     && (is_mm UE_MM_REGISTERED_HOME (uc_mm ctx) || is_sm UE_SM_ACTIVE (uc_sm ctx))
  then engine_send_encoded sendto ctx
         (ue_nas_encode_deregistration_request (Some (replicate 80 0)) 80 true
            (Some (uc_guti ctx)) (uc_guti_len ctx) (sc_ngksi (uc_nas_sec ctx))) false
  else Some ctx.

(** The link follows the radio; [fd] is the socket that starting it opens. *)
Definition set_radio_link (ctx : ue_context) (on : bool) (r1 r2 fd : Z) : option ue_context :=
  let was_radio_on := uc_radio_on ctx in
  let ctx := ctx <| uc_radio_on := on |> in
  if on then
    let ctx := if was_radio_on then ctx else engine_forget_network_context ctx r1 r2 in
    Some (if is_rt UE_RAN_TRANSPORT_IDLE (uc_ran ctx) && (0 <?n length (rt_gnb_list (uc_ran ctx)))
          then ctx <| uc_ran := (ue_ran_transport_start (uc_ran ctx) fd).2 |> else ctx)
  else
    ctx ← send_deregistration ctx;
    let ctx := if is_rt UE_RAN_TRANSPORT_IDLE (uc_ran ctx) then ctx
               else ctx <| uc_ran := (ue_ran_transport_stop (uc_ran ctx)) |> in
    Some (engine_forget_network_context ctx r1 r2).

Definition ue_engine_set_radio (ctx : ue_context) (on : bool) (r1 r2 fd : Z) : option ue_context :=
  let mm_before := uc_mm ctx in
  let sm_before := uc_sm ctx in
  ctx ← set_radio_link ctx on r1 r2 fd;
  let ctx := ctx <| uc_mm := (ue_mm_on_radio (uc_mm ctx) on) |>
                 <| uc_sm := (ue_sm_on_radio (uc_sm ctx) on) |> in
  let ctx := if on && is_mm UE_MM_DEREGISTERED (uc_mm ctx)
             then ctx <| uc_mm := (ue_mm_request_register (uc_mm ctx)) |> else ctx in
  Some (ue_context_refresh_snapshot (flag_sm sm_before (flag_mm mm_before ctx))).

Definition ue_engine_request_register (ctx : ue_context) : ue_context :=
  ue_context_refresh_snapshot
    (flag_mm (uc_mm ctx) (ctx <| uc_mm := (ue_mm_request_register (uc_mm ctx)) |>)).
Definition ue_engine_request_periodic_update (ctx : ue_context) : ue_context :=
  ue_context_refresh_snapshot
    (flag_mm (uc_mm ctx) (ctx <| uc_mm := (ue_mm_request_periodic_update (uc_mm ctx)) |>)).
Definition ue_engine_request_mobility_update (ctx : ue_context) : ue_context :=
  ue_context_refresh_snapshot
    (flag_mm (uc_mm ctx) (ctx <| uc_mm := (ue_mm_request_mobility_update (uc_mm ctx)) |>)).

Definition ue_engine_request_connect (ctx : ue_context) (dnn : option bytes) : ue_context :=
  let ctx := flag_sm (uc_sm ctx) (ctx <| uc_sm := (ue_sm_request_connect (uc_sm ctx) dnn) |>) in
  ue_context_refresh_snapshot
    (ctx <| uc_changed_flags := (uc_changed_flags ctx |. UE_ENGINE_CHANGED_DNN) |>).
Definition ue_engine_request_disconnect (ctx : ue_context) : ue_context :=
  ue_context_refresh_snapshot
    (flag_sm (uc_sm ctx) (ctx <| uc_sm := (ue_sm_request_disconnect (uc_sm ctx)) |>)).

Definition ue_engine_take_changed (ctx : ue_context) : Z * ue_context :=
  (uc_changed_flags ctx, ctx <| uc_changed_flags := UE_ENGINE_CHANGED_NONE |>).
End Engine.
