(* ===== verification/EngineSends.v ===== *)
(** What the engine sends: every encoder, as the engine calls it, stays in its
    buffer, and sending its message over a valid context returns and leaves the
    context valid.

    The encoders are straight-line writers, so a bound on the position is all
    their safety needs: [wfits] is a weakest-precondition calculus that tracks
    the position alone, and [wfit] runs it. *)

From S2P Require Import Prelude CString InstanceConfig NasDefs NasEncode NasDecode Rrc Aes Sha256 NasCrypto.
From S2P Require Import NasSecurity UeTypes UeMm UeSm NetworkAdapter RanTransport RanLink.
From S2P Require Import UserPlane UeContext EngineNas UeEngine.

#[local] Opaque ue_aes128_ecb_encrypt ue_aes_cmac aes128_ctr ue_hmac_sha256.

(** ** Positions of a writer *)

(** From position [p] of a buffer of [k] bytes, [m] runs inside the buffer, and
    its result and final position satisfy [Q]. *)
Definition wfits {A} (k : nat) (m : W A) (p : nat) (Q : A -> nat -> Prop) : Prop :=
  forall mem, length mem = k ->
    exists a mem' p', m (St mem p) = Some (a, St mem' p') /\ length mem' = k /\ Q a p'.

Lemma wfits_ret {A} k (x : A) p (Q : A -> nat -> Prop) : Q x p -> wfits k (mret x : W A) p Q.
Proof. intros H mem Hm. eexists _, _, _. split; [reflexivity|auto]. Qed.

Lemma wfits_get_pos k p (Q : nat -> nat -> Prop) : Q p p -> wfits k get_pos p Q.
Proof. intros H mem Hm. eexists _, _, _. split; [reflexivity|auto]. Qed.

Lemma wfits_ret_pos k p (Q : Z -> nat -> Prop) : Q (Z.of_nat p) p -> wfits k ret_pos p Q.
Proof. intros H mem Hm. eexists _, _, _. split; [reflexivity|auto]. Qed.

Lemma wfits_bind {A B} k (m : W A) (f : A -> W B) p (Q : B -> nat -> Prop) :
  wfits k m p (fun a p' => wfits k (f a) p' Q) -> wfits k (m ≫= f) p Q.
Proof.
  intros H mem Hm. destruct (H mem Hm) as (a & mem' & p' & E & Hl & Hf).
  rewrite (W_bind_some _ _ _ _ _ E). by apply Hf.
Qed.

Lemma wfits_emits k l p (Q : unit -> nat -> Prop) :
  (p + length l <= k)%nat -> Q tt (p + length l)%nat -> wfits k (emits l) p Q.
Proof.
  intros Hk H mem Hm. unfold emits. cbn [wmem wpos]. rewrite Hm.
  destruct (Nat.leb_spec (p + length l) k); [|lia]. eexists _, _, _. split; [reflexivity|].
  split; [|done]. rewrite !length_app, length_take, length_drop. lia.
Qed.

Lemma wfits_copy_in k src n p (Q : unit -> nat -> Prop) :
  (n <= length src)%nat -> (p + n <= k)%nat -> Q tt (p + n)%nat -> wfits k (copy_in src n) p Q.
Proof.
  intros Hn Hk HQ. unfold copy_in. destruct (Nat.leb_spec n (length src)); [|lia].
  apply wfits_emits; rewrite length_take, Nat.min_l by lia; done.
Qed.

Lemma wfits_store k i v p (Q : unit -> nat -> Prop) :
  (i < k)%nat -> Q tt p -> wfits k (store i v) p Q.
Proof.
  intros Hi H mem Hm. unfold store. cbn [wmem wpos]. rewrite Hm.
  destruct (Nat.ltb_spec i k); [|lia]. eexists _, _, _. split; [reflexivity|].
  by rewrite length_insert.
Qed.

(** The rules for conditions: both branches fit. *)
Lemma wfits_if {A} k (b : bool) (m m' : W A) p (Q : A -> nat -> Prop) :
  (b = true -> wfits k m p Q) -> (b = false -> wfits k m' p Q) ->
  wfits k (if b then m else m') p Q.
Proof. destruct b; auto. Qed.

Lemma wfits_when {B} k (b : bool) l (f : unit -> W B) p (Q : B -> nat -> Prop) :
  (p + length l <= k)%nat ->
  (forall p', (p <= p' <= p + length l)%nat -> wfits k (f tt) p' Q) ->
  wfits k ((if b then emits l else mret tt) ≫= f) p Q.
Proof.
  intros Hk Hf. apply wfits_bind. destruct b; [apply wfits_emits; [done|]|apply wfits_ret];
    apply Hf; lia.
Qed.

Ltac wfit :=
  repeat first
    [ apply wfits_when; [vlia|intros ? ?]
    | apply wfits_bind
    | apply wfits_emits; [vlia|]
    | apply wfits_copy_in; [vlia|vlia|]
    | apply wfits_store; [vlia|]
    | apply wfits_get_pos
    | apply wfits_ret_pos; vlia
    | apply wfits_ret; vlia
    | apply wfits_if; intros ? ].

(** A writer that fits a buffer of [k] bytes yields something that can be sent. *)
Lemma fits_sendable k b (m : W Z) :
  length b = k -> Z.of_nat k <= 8185 -> wfits k m 0 (fun z _ => z <= Z.of_nat k) ->
  sendable (run_w (Some b) m).
Proof.
  intros Hb Hk H. destruct (H b Hb) as (z & mem & p & E & Hl & Hz).
  unfold run_w. rewrite E. exists z, mem. cbn [wmem]. split; [done|]. lia.
Qed.

(** ** The encoders *)

Lemma sm_status_sendable psi pti cause :
  sendable (ue_nas_encode_sm_status (Some (replicate 16 0)) 16 psi pti cause).
Proof.
  apply (fits_sendable 16); [done|lia|]. wfit.
Qed.

Lemma release_complete_sendable psi pti :
  sendable (ue_nas_encode_pdu_session_release_complete (Some (replicate 16 0)) 16 psi pti).
Proof.
  apply (fits_sendable 16); [done|lia|]. wfit.
Qed.

Lemma registration_complete_sendable :
  sendable (ue_nas_encode_registration_complete (Some (replicate 16 0)) 16).
Proof. apply (fits_sendable 16); [done|lia|]. wfit. Qed.

Lemma config_update_complete_sendable :
  sendable (ue_nas_encode_configuration_update_complete (Some (replicate 8 0)) 8).
Proof. apply (fits_sendable 8); [done|lia|]. wfit. Qed.

Lemma auth_failure_sendable k cause auts n :
  (n <= length (default [] auts))%nat -> Z.of_nat k <= 8185 ->
  sendable (ue_nas_encode_auth_failure (Some (replicate k 0)) k cause auts n).
Proof.
  intros Hn Hk. apply (fits_sendable k); [by rewrite length_replicate|done|].
  destruct auts; simpl in Hn; wfit.
Qed.

Lemma auth_response_sendable res n :
  (n <= length res)%nat ->
  sendable (ue_nas_encode_auth_response (Some (replicate 64 0)) 64 (Some res) n).
Proof. intros Hn. apply (fits_sendable 64); [by rewrite length_replicate|lia|]. wfit. Qed.

Lemma smc_complete_sendable container n :
  (n <= length (default [] container))%nat ->
  sendable (ue_nas_encode_security_mode_complete (Some (replicate 64 0)) 64 container n).
Proof.
  intros Hn. apply (fits_sendable 64); [by rewrite length_replicate|lia|].
  destruct container; simpl in Hn; wfit.
Qed.

Lemma deregistration_sendable guti n ngksi :
  (n <= length guti)%nat ->
  sendable (ue_nas_encode_deregistration_request (Some (replicate 80 0)) 80 true (Some guti) n ngksi).
Proof. intros Hn. apply (fits_sendable 80); [by rewrite length_replicate|lia|]. wfit. Qed.

Lemma est_request_sendable psi pti sst :
  sendable (ue_nas_encode_pdu_session_est_request (Some (replicate 512 0)) 512 psi pti 1 1
              (Some (str "ims")) sst).
Proof.
  rewrite establish_encodes by (simpl; lia). eexists _, _. split; [reflexivity|]. right.
  pose proof (est_wire_len psi pti 1 1 (str "ims") sst ltac:(simpl; lia)) as Hl.
  rewrite length_over by (rewrite length_replicate; lia). rewrite length_replicate. lia.
Qed.

(** The SUCI of any strings in its local array of 64 bytes. *)
Lemma suci_total imsi mcc mnc :
  exists n mem, ue_nas_encode_suci (Some (replicate 64 0)) 64 (Some imsi) (Some mcc) (Some mnc)
    = Some (n, Some mem) /\ n <= 64 /\ length mem = 64%nat.
Proof.
  destruct (decide (length mcc = 3 /\ (length mnc = 2 \/ length mnc = 3)
    /\ length mcc + length mnc <= length imsi
    /\ 8 + (length (drop (3 + length mnc) imsi) + 1) / 2 <= 64)%nat) as [(H1 & H2 & H3 & H4)|Hn].
  - rewrite encode_suci_result by (done || by rewrite length_replicate).
    eexists _, _. split; [reflexivity|]. split; [destruct (suci_ok _ _ _); lia|].
    rewrite length_over; [by rewrite length_replicate|].
    rewrite length_replicate, length_suci_wire; lia.
  - exists (-1), (replicate 64 0). split; [|by rewrite length_replicate].
    unfold ue_nas_encode_suci, run_w. cbv zeta. rewrite length_drop in Hn.
    destruct (_ || _) eqn:E1; [done|]. destruct (length imsi <?n _) eqn:E2; [done|].
    destruct (64 <?n _) eqn:E3; [done|]. exfalso. apply Hn. lia.
Qed.

Lemma identity_response_sendable imsi mcc mnc :
  sendable (ue_nas_encode_identity_response (Some (replicate 64 0)) 64 (Some imsi) (Some mcc) (Some mnc)).
Proof.
  apply (fits_sendable 64); [done|lia|]. apply wfits_if; intros _; [wfit|].
  destruct (suci_total imsi mcc mnc) as (n & mem & -> & Hn & Hm). wfit.
Qed.

Lemma identity_total imsi mcc mnc guti n :
  (n <= length (default [] guti))%nat -> (n <= 64)%nat ->
  registration_identity (Some imsi) (Some mcc) (Some mnc) guti n = Some None
  \/ exists mid k, registration_identity (Some imsi) (Some mcc) (Some mnc) guti n = Some (Some (mid, k))
       /\ (k <= 64)%nat /\ (k <= length mid)%nat.
Proof.
  intros Hn H64. unfold registration_identity.
  destruct (suci_total imsi mcc mnc) as (s & mem & -> & Hs & Hm). cbn [mbind option_bind].
  assert ((if s <? 0 then Some None else Some (Some (mem, Z.to_nat s))) = Some None
    \/ exists mid k, (if s <? 0 then Some None else Some (Some (mem, Z.to_nat s))) = Some (Some (mid, k))
       /\ (k <= 64)%nat /\ (k <= length mid)%nat) as H.
  { destruct (s <? 0) eqn:E; [by left|]. right. eexists _, _. split; [reflexivity|]. lia. }
  destruct guti as [g|]; [|done]. simpl in Hn. destruct (0 <?n n); [|done].
  right. eexists _, _. split; [reflexivity|]. lia.
Qed.

(** A Registration Request in its buffer of 256 bytes: at most 64 bytes of
    identity and 26 of the other elements. *)
Lemma registration_request_total imsi mcc mnc sst rt guti n ngksi ic :
  (n <= length (default [] guti))%nat -> (n <= 64)%nat ->
  exists len buf, ue_nas_encode_registration_request (Some (replicate 256 0)) 256
      (Some imsi) (Some mcc) (Some mnc) sst rt guti n ngksi ic = Some (len, Some buf)
    /\ len <= 256 /\ length buf = 256%nat.
Proof.
  intros Hn H64.
  assert (forall m : W Z, wfits 256 m 0 (fun z _ => z <= 256) ->
    exists len buf, run_w (Some (replicate 256 0)) m = Some (len, Some buf)
      /\ len <= 256 /\ length buf = 256%nat) as Hrun.
  { intros m H. destruct (H (replicate 256 0) (length_replicate 256 0)) as (z & mem & p & E & Hl & Hz).
    unfold run_w. rewrite E. eauto. }
  apply Hrun. clear Hrun.
  destruct (identity_total imsi mcc mnc guti n Hn H64) as [->|(mid & k & -> & Hk & Hl)]; wfit.
Qed.

(** ** Sending over the context *)

(** Sending a PDU changes the counters of the transport and its record of
    datagrams, nothing else. *)
Definition tx_only (t t' : ue_ran_transport_ctx) : Prop :=
  exists n tr b k, t' = t <| rt_next_pdu_id := n |> <| net_trace := tr |>
                          <| rt_tx_bytes := b |> <| rt_tx_pdu_count := k |>.

Lemma tx_only_refl t : tx_only t t.
Proof. exists (rt_next_pdu_id t), (net_trace t), (rt_tx_bytes t), (rt_tx_pdu_count t). reflexivity. Qed.

Lemma tx_only_trans t1 t2 t3 : tx_only t1 t2 -> tx_only t2 t3 -> tx_only t1 t3.
Proof.
  intros (n & tr & b & k & ->) (n' & tr' & b' & k' & ->). exists n', tr', b', k'. reflexivity.
Qed.

Lemma tx_only_same t t' : tx_only t t' ->
  rx_view t' = rx_view t /\ rt_state t' = rt_state t /\ rt_sti t' = rt_sti t.
Proof. intros (? & ? & ? & ? & ->). split_and!; reflexivity. Qed.

(** The PDU that leaves for the plain message, and the context afterwards. *)
Definition uplink_sht (integrity_only : bool) : Z :=
  if integrity_only then NAS_SHT_INTEGRITY_PROTECTED_CIPHERED_NEW_CTX
  else NAS_SHT_INTEGRITY_PROTECTED_CIPHERED.
Definition uplink_pdu (sec : ue_nas_security_ctx) (integrity_only : bool) (plain : bytes) : bytes :=
  if sc_active sec then sealed sec 0 (uplink_sht integrity_only) (sc_ul_count sec) true plain
  else plain.
Definition uplink_spent (sec : ue_nas_security_ctx) : ue_nas_security_ctx :=
  if sc_active sec then sec <| sc_ul_count := (ue_nas_count_increment (sc_ul_count sec)) |> else sec.

Lemma uplink_spent_ok sec : sec_ok (Some sec) -> sec_ok (Some (uplink_spent sec)).
Proof.
  intros H. pose proof (secured_ctx_ok (Some sec) H) as H'. unfold uplink_spent.
  unfold secured_ctx in H'. by destruct (sc_active sec).
Qed.

Lemma uplink_pdu_len sec io plain :
  sec_ok (Some sec) ->
  (length (uplink_pdu sec io plain) <= 7 + length plain)%nat
  /\ (0 < length plain -> 0 < length (uplink_pdu sec io plain))%nat.
Proof.
  intros Hs. unfold uplink_pdu, sec_ok in *. destruct (sc_active sec); [|lia].
  rewrite length_sealed by (by apply Hs). lia.
Qed.

Lemma engine_protect_result ctx nas len io :
  sec_ok (Some (uc_nas_sec ctx)) -> (1 <= len <= length nas)%nat -> Z.of_nat len <= 8185 ->
  let w := uplink_pdu (uc_nas_sec ctx) io (take len nas) in
  exists buf, engine_protect ctx nas (Z.of_nat len) io
    = Some (Some (buf, Z.of_nat (length w)), ctx <| uc_nas_sec := (uplink_spent (uc_nas_sec ctx)) |>)
    /\ take (length w) buf = w /\ (length w <= length buf)%nat.
Proof.
  intros Hs Hl Hm. unfold engine_protect, uplink_pdu, uplink_spent, sec_ok in *.
  destruct (sc_active (uc_nas_sec ctx)); cycle 1.
  { exists nas. cbv zeta. rewrite length_take, Nat.min_l by lia. split_and!; done || lia. }
  fold (uplink_sht io). set (w := sealed _ _ _ _ _ _).
  assert (length w = (7 + len)%nat) as Hw by (unfold w; rewrite length_sealed by (by apply Hs); vlia).
  assert (Z.of_nat nas_tx_size = 8256) as Hsz by (unfold nas_tx_size; lia).
  exists (over w (replicate nas_tx_size 0)). rewrite Nat2Z.id.
  rewrite protect_result;
    [|by apply Hs|by rewrite length_replicate|by destruct io; unfold sht_protected; auto|lia|lia].
  replace (sht_ciphered (uplink_sht io)) with true by (by destruct io). fold w.
  cbn [mbind option_bind]. split_and!.
  - replace (Z.of_nat (7 + len) <=? 0) with false by lia. by rewrite Hw.
  - by apply take_over.
  - rewrite length_over by (rewrite length_replicate; lia). rewrite length_replicate. lia.
Qed.

Section Sending.
Variable sendto : nat -> sockaddr -> bytes -> Z.

(** A message over a valid context leaves in one PDU on UL-DCCH. *)
Lemma engine_send_result ctx nas len io :
  sec_ok (Some (uc_nas_sec ctx)) -> (1 <= len <= length nas)%nat -> Z.of_nat len <= 8185 ->
  exists pdu r t',
    octets_of (ul_info_transfer_bits (uplink_pdu (uc_nas_sec ctx) io (take len nas))) pdu
    /\ rt_send_nas_pdu sendto (uc_ran ctx) pdu UE_RRC_CHANNEL_UL_DCCH = Some (r, t')
    /\ tx_only (uc_ran ctx) t' /\ (rt_ok (uc_ran ctx) -> rt_ok t')
    /\ engine_send_nas_uplink sendto ctx nas (Z.of_nat len) io
       = Some (r, ctx <| uc_nas_sec := (uplink_spent (uc_nas_sec ctx)) |> <| uc_ran := t' |>).
Proof.
  intros Hs Hl Hm. destruct (engine_protect_result ctx nas len io Hs Hl Hm) as (buf & E & Hbuf & Hlb).
  unfold engine_send_nas_uplink. replace (Z.of_nat len <=? 0) with false by lia.
  rewrite E. cbn [mbind option_bind]. rewrite Nat2Z.id.
  set (w := uplink_pdu _ _ _) in *.
  assert (length w <= 7 + len /\ 1 <= length w)%nat as [Hw Hw1]
    by (pose proof (uplink_pdu_len (uc_nas_sec ctx) io (take len nas) Hs) as [H1 H2];
        rewrite length_take, Nat.min_l in H1, H2 by lia; fold w in H1, H2; lia).
  assert (Z.of_nat nas_tx_size = 8256) as Hsz by (unfold nas_tx_size; lia).
  pose proof (ul_info_transfer_result (replicate nas_tx_size 0) nas_tx_size buf (length w)
    ltac:(by rewrite length_replicate) ltac:(lia) ltac:(unfold UE_RRC_MAX_NAS_SIZE; lia)) as Henc.
  rewrite Hbuf in Henc. unfold encodes in Henc.
  pose proof (ul_info_transfer_bits_len w) as Hbl.
  replace (length (ul_info_transfer_bits w) <=?n 8 * nas_tx_size) with true in Henc by lia.
  destruct Henc as (b' & -> & Hlb' & Hbits). cbn [mbind option_bind].
  set (k := ((length (ul_info_transfer_bits w) + 7) / 8)%nat) in *.
  assert (1 <= k <= nas_tx_size)%nat as Hk by (unfold k; lia).
  replace (Z.of_nat k <=? 0) with false by lia. rewrite Nat2Z.id.
  change (uc_ran (ctx <| uc_nas_sec := _ |>)) with (uc_ran ctx).
  destruct (rt_send_nas_frame sendto (uc_ran ctx) (take k b') UE_RRC_CHANNEL_UL_DCCH)
    as (r & n & tr & b & q & Es & Hn).
  exists (take k b'), r. eexists. split; [split|split; [exact Es|split; [by exists n, tr, b, q|split]]].
  - rewrite length_take, Hlb', length_replicate. lia.
  - intros i Hi. rewrite length_take, Hlb', length_replicate in Hi.
    rewrite <- Hbits by lia. unfold buf_bit. rewrite lookup_take_lt; [done|]. lia.
  - intros Hok. destruct (rt_send_nas_ok sendto (uc_ran ctx) (take k b') UE_RRC_CHANNEL_UL_DCCH Hok)
      as (r' & t' & E' & Ht'). rewrite Es in E'. by injection E' as _ <-.
  - by rewrite Es.
Qed.
End Sending.
