(* ===== verification/EngineSafe.v ===== *)
(** The invariant of the engine's context, and that every handler of downlink
    messages returns and keeps it. *)

From S2P Require Import Prelude CString InstanceConfig NasDefs NasEncode NasDecode Rrc Aes Sha256 NasCrypto.
From S2P Require Import NasSecurity UeTypes UeMm UeSm NetworkAdapter RanTransport RanLink.
From S2P Require Import UserPlane UeContext EngineNas UeEngine EngineSends.

#[local] Opaque ue_aes128_ecb_encrypt ue_aes_cmac aes128_ctr ue_hmac_sha256.

(** ** The invariant *)

(** A security context: its keys are blocks when it is in use, and its ABBA
    lies in its array. *)
Record sec_wf (sec : ue_nas_security_ctx) : Prop := {
  sw_keys : sec_ok (Some sec);
  sw_ul : count_ok (sc_ul_count sec);
  sw_abba : length (sc_abba sec) = 16%nat;
  sw_abba_len : 0 <= sc_abba_len sec <= 16 }.

Record engine_inv (ctx : ue_context) : Prop := {
  ei_ran : rt_ok (uc_ran ctx);
  ei_mm : mm_inv (uc_mm ctx);
  ei_sm : sm_inv (uc_sm ctx);
  ei_up : up_inv (uc_up ctx);
  ei_sec : sec_wf (uc_nas_sec ctx);
  ei_non_current : sec_wf (uc_nas_sec_non_current ctx);
  ei_guti : length (uc_guti ctx) = 16%nat /\ (uc_guti_len ctx <= 16)%nat;
  ei_sqn : length (uc_auth_sqn_ms ctx) = 6%nat;
  ei_payload : length (uc_smc_last_payload ctx) = 256%nat /\ (uc_smc_last_payload_len ctx <= 256)%nat;
  ei_inner : length (uc_smc_last_inner ctx) = 256%nat /\ (uc_smc_last_inner_len ctx <= 256)%nat;
  ei_copy : Z.of_nat (length (uc_nas_copy_buf ctx)) = UE_RRC_MAX_NAS_SIZE;
  ei_plmn : (length (net_mcc (cfg_network (uc_cfg ctx))) < 8)%nat
            /\ (length (net_mnc (cfg_network (uc_cfg ctx))) < 8)%nat }.

(** What handling a message leaves alone: the radio, the configuration and the
    receive queues. *)
Definition same_frame (ctx ctx' : ue_context) : Prop :=
  uc_radio_on ctx' = uc_radio_on ctx /\ uc_cfg ctx' = uc_cfg ctx
  /\ tx_only (uc_ran ctx) (uc_ran ctx').

Lemma same_frame_refl ctx : same_frame ctx ctx.
Proof. split_and!; [done..|apply tx_only_refl]. Qed.

Lemma same_frame_trans c1 c2 c3 : same_frame c1 c2 -> same_frame c2 c3 -> same_frame c1 c3.
Proof.
  intros (E1 & E2 & H1) (E3 & E4 & H2). split_and!; [congruence..|by eapply tx_only_trans].
Qed.

(** The handler returns a context as valid as [ctx], in the same frame. *)
Definition keeps (ctx : ue_context) (r : option ue_context) : Prop :=
  exists ctx', r = Some ctx' /\ engine_inv ctx' /\ same_frame ctx ctx'.

Lemma keeps_some ctx ctx' : engine_inv ctx' -> same_frame ctx ctx' -> keeps ctx (Some ctx').
Proof. intros H1 H2. by exists ctx'. Qed.

Lemma keeps_refl ctx : engine_inv ctx -> keeps ctx (Some ctx).
Proof. intros H. apply keeps_some; [done|apply same_frame_refl]. Qed.

Lemma keeps_bind ctx r f :
  keeps ctx r -> (forall c, engine_inv c -> same_frame ctx c -> keeps c (f c)) ->
  keeps ctx (r ≫= f).
Proof.
  intros (c & -> & Hc & Hf) H. destruct (H c Hc Hf) as (c' & E & Hc' & Hf').
  exists c'. split_and!; [done..|by eapply same_frame_trans].
Qed.

(** Changing the starting context within the frame. *)
Lemma keeps_from ctx ctx1 r : same_frame ctx ctx1 -> keeps ctx1 r -> keeps ctx r.
Proof.
  intros H (c & -> & Hc & Hf). exists c. split_and!; [done..|by eapply same_frame_trans].
Qed.

(** An update of fields outside the invariant, or of fields whose clauses are
    given. *)
Ltac inv_fields H := destruct H; split; try assumption.
Ltac frame := split_and!; [reflexivity|reflexivity|apply tx_only_refl].

Lemma uplink_spent_wf sec : sec_wf sec -> sec_wf (uplink_spent sec).
Proof.
  intros [Hk Hu Ha Hl]. pose proof (uplink_spent_ok sec Hk).
  unfold uplink_spent in *. destruct (sc_active sec) eqn:E; split; try done.
  by apply count_increment_eq.
Qed.

Section Handlers.
Variable sendto : nat -> sockaddr -> bytes -> Z.

Lemma send_keeps ctx nas len io :
  engine_inv ctx -> len <= 0 \/ 0 < len <= 8185 /\ len <= Z.of_nat (length nas) ->
  exists r ctx', engine_send_nas_uplink sendto ctx nas len io = Some (r, ctx')
    /\ engine_inv ctx' /\ same_frame ctx ctx'.
Proof.
  intros Hi Hl. destruct (Z.leb_spec len 0).
  { exists (-1), ctx. unfold engine_send_nas_uplink. replace (len <=? 0) with true by lia.
    split_and!; [done|done|apply same_frame_refl]. }
  destruct (engine_send_result sendto ctx nas (Z.to_nat len) io) as (pdu & r & t' & _ & _ & Htx & Hok & E);
    [apply Hi|lia|lia|].
  rewrite Z2Nat.id in E by lia. eexists r, _. split; [exact E|]. split.
  - pose proof (Hok (ei_ran _ Hi)). pose proof (uplink_spent_wf _ (ei_sec _ Hi)). by inv_fields Hi.
  - split_and!; [reflexivity..|exact Htx].
Qed.

Lemma send_encoded_keeps ctx enc io :
  engine_inv ctx -> sendable enc -> keeps ctx (engine_send_encoded sendto ctx enc io).
Proof.
  intros Hi (len & buf & -> & Hl). unfold engine_send_encoded. cbn [mbind option_bind].
  destruct (0 <? len); [|by apply keeps_refl].
  destruct (send_keeps ctx buf len io Hi Hl) as (r & c & -> & Hc & Hf). cbn [mbind option_bind].
  by apply keeps_some.
Qed.

(** *** The adapter over this context *)

#[local] Instance handlers_sender : RanSender ue_ran_transport_ctx := engine_sender sendto.
#[local] Instance handlers_link : DataLink ue_ran_transport_ctx := engine_link sendto.
#[local] Instance handlers_safe : SafeSender ue_ran_transport_ctx := ran_transport_safe sendto.

(** The adapter's pointers are set, to a transport and a context that have only
    been used to send. *)
Definition ul_only (sec0 sec : ue_nas_security_ctx) : Prop :=
  exists c, sec = sec0 <| sc_ul_count := c |>.
Definition adapter_from (t0 : ue_ran_transport_ctx) (sec0 : ue_nas_security_ctx)
    (n : net_adapter ue_ran_transport_ctx) : Prop :=
  exists t sec, n = NetAdapter (Some t) (Some sec) /\ rt_ok t /\ tx_only t0 t /\ sec_wf sec
    /\ ul_only sec0 sec.

Lemma uplink_spent_ul sec0 sec : ul_only sec0 sec -> ul_only sec0 (uplink_spent sec).
Proof.
  clear sendto. intros [c ->]. unfold uplink_spent.
  destruct (sc_active _); [by eexists|by exists c].
Qed.

Lemma adapter_from_send t0 sec0 enc n :
  sendable enc -> adapter_from t0 sec0 n ->
  exists n', send_encoded enc n = Some n' /\ adapter_from t0 sec0 n'.
Proof.
  intros (len & buf & -> & Hl) (t & sec & -> & Ht & Htx & Hsec & Hul). unfold send_encoded.
  cbn [mbind option_bind]. destruct (Z.ltb_spec 0 len).
  2:{ eexists. split; [reflexivity|]. by exists t, sec. }
  destruct (send_nas_result buf (Z.to_nat len)
    (NetAdapter (Some t) (Some sec)) t eq_refl) as (pdu & r & t' & _ & Es & Ht' & E); [|lia|lia|].
  { split; [apply Hsec|exact Ht]. }
  rewrite Z2Nat.id in E by lia. rewrite E. cbn [mbind option_bind].
  eexists. split; [reflexivity|]. exists t', (uplink_spent sec). split.
  - unfold secured_ctx, uplink_spent. reflexivity.
  - split_and!; [exact Ht'| |by apply uplink_spent_wf|by apply uplink_spent_ul].
    eapply tx_only_trans; [exact Htx|].
    destruct (rt_send_nas_frame sendto t pdu UE_RRC_CHANNEL_UL_DCCH) as (r' & m & tr & b & k & E' & _).
    assert (Some (r, t') = Some (r', t <| rt_next_pdu_id := m |> <| net_trace := tr |>
      <| rt_tx_bytes := b |> <| rt_tx_pdu_count := k |>)) as Heq by (etransitivity; [symmetry; exact Es|exact E']).
    injection Heq as _ ->. by exists m, tr, b, k.
Qed.

#[local] Instance adapter_from_safe (t0 : ue_ran_transport_ctx) (sec0 : ue_nas_security_ctx) :
    SafeAdapter (net_adapter ue_ran_transport_ctx).
Proof.
  refine {| adapter_ok := adapter_from t0 sec0 |}.
  - intros req n Hn.
    exact (proj1 (submissions_keep _ n (fun enc m => adapter_from_send t0 sec0 enc m) Hn) req).
  - intros req n Hd Hn.
    destruct (proj1 (proj2 (submissions_keep _ n (fun enc m => adapter_from_send t0 sec0 enc m) Hn)) req Hd)
      as (r & n' & E & Hn' & Hpsi & Hip). exists r, n'.
    split; [exact E|]. split; [exact Hn'|]. split; [lia|exact Hip].
  - intros req n Hn.
    exact (proj2 (proj2 (submissions_keep _ n (fun enc m => adapter_from_send t0 sec0 enc m) Hn)) req).
Defined.

Lemma with_adapter_result {R} ctx f (Q : R -> Prop) :
  engine_inv ctx ->
  (forall n, adapter_from (uc_ran ctx) (uc_nas_sec ctx) n ->
     exists r n', f n = Some (r, n') /\ Q r /\ adapter_from (uc_ran ctx) (uc_nas_sec ctx) n') ->
  exists r t sec, with_adapter ctx f = Some (r, ctx <| uc_ran := t |> <| uc_nas_sec := sec |>)
    /\ Q r /\ rt_ok t /\ tx_only (uc_ran ctx) t /\ sec_wf sec /\ ul_only (uc_nas_sec ctx) sec.
Proof.
  intros Hi Hf. destruct (Hf (NetAdapter (Some (uc_ran ctx)) (Some (uc_nas_sec ctx))))
    as (r & n' & E & HQ & t & sec & -> & Ht & Htx & Hsec & Hul).
  { exists (uc_ran ctx), (uc_nas_sec ctx).
    split_and!; [done|apply Hi|apply tx_only_refl|apply Hi|].
    by exists (sc_ul_count (uc_nas_sec ctx)). }
  unfold with_adapter. rewrite E. cbn [mbind option_bind g_transport g_nas_sec].
  exists r, t, sec. done.
Qed.

(** *** 5GMM and 5GSM *)

Lemma mm_inv_guti mm g : mm_inv mm -> mm_inv (mm <| mm_last_assigned_guti := g |>).
Proof. intros [? ? ? ?]. by split. Qed.

Lemma registration_accept_keeps ctx e : engine_inv ctx -> keeps ctx (on_registration_accept sendto ctx e).
Proof.
  intros Hi. unfold on_registration_accept.
  set (c1 := ctx <| uc_waiting_core_response := false |> <| uc_mm := _ |>).
  assert (engine_inv c1) as H1.
  { pose proof (mm_inv_handlers (uc_mm ctx) true 0 (ei_mm _ Hi)) as Hm. destruct_and? Hm.
    by inv_fields Hi. }
  apply keeps_from with c1; [frame|]. clearbody c1. clear Hi ctx.
  apply keeps_bind.
  - destruct (_ && _) eqn:Eg; [|by apply keeps_refl].
    set (c2 := c1 <| uc_guti := _ |> <| uc_guti_len := _ |> <| uc_mm := _ |>).
    assert (engine_inv c2) as H2.
    { pose proof (mm_inv_guti (uc_mm c1) (concat (hex2 <$> take 15 (take (ev_guti_len e) (ev_guti e)))) (ei_mm _ H1)).
      pose proof (ei_guti _ H1) as [Hg _].
      assert (length (over (take (ev_guti_len e) (ev_guti e)) (uc_guti c1)) = 16%nat
        /\ (ev_guti_len e <= 16)%nat) as Hgl.
      { split; [|lia]. rewrite length_over; [done|]. rewrite length_take. lia. }
      by inv_fields H1. }
    apply keeps_from with c2; [frame|]. apply send_encoded_keeps; [done|].
    apply registration_complete_sendable.
  - intros c Hc Hf. destruct (ev_has_t3512 e); [|by apply keeps_refl].
    apply keeps_some; [by inv_fields Hc|frame].
Qed.

Lemma registration_reject_keeps ctx e : engine_inv ctx -> keeps ctx (Some (on_registration_reject ctx e)).
Proof.
  intros Hi. unfold on_registration_reject. cbv zeta. apply keeps_some; [|frame].
  match goal with |- context [ue_mm_on_registration_reject _ ?c] =>
    pose proof (mm_inv_handlers (uc_mm ctx) true c (ei_mm _ Hi)) as Hm end.
  destruct_and? Hm. by inv_fields Hi.
Qed.

Lemma sm_status_keeps ctx e : engine_inv ctx -> keeps ctx (send_sm_status sendto ctx e).
Proof. intros Hi. apply send_encoded_keeps; [done|apply sm_status_sendable]. Qed.

Lemma ims_accept_keeps ctx e : engine_inv ctx -> keeps ctx (Some (on_ims_accept sendto ctx e)).
Proof.
  intros Hi. unfold on_ims_accept. cbv zeta.
  match goal with |- context [ue_up_bind_session_ex ?up ?t ?psi ?d ?ty ?ip ?hv] =>
    assert (up_inv (ue_up_bind_session_ex up t psi d ty ip hv).2) as Hu end.
  { apply bind_inv. destruct (ev_has_pcscf e); apply Hi. }
  apply keeps_some; destruct (ev_has_pcscf e); first [frame|by inv_fields Hi].
Qed.

Lemma est_accept_keeps ctx e : engine_inv ctx -> keeps ctx (on_est_accept sendto ctx e).
Proof.
  intros Hi. unfold on_est_accept. destruct (is_ims_transaction ctx e); [by apply ims_accept_keeps|].
  destruct (negb _) eqn:Es; [by apply sm_status_keeps|].
  apply negb_false_iff, bool_decide_eq_true in Es. cbv zeta.
  match goal with |- context [ue_sm_on_pdu_session_established ?x] => set (sm1 := x) end.
  assert (exists ip, sm1 = (uc_sm ctx) <| sm_ip := ip |> <| sm_session_id := (ev_psi e) |>) as [ip E].
  { unfold sm1. destruct (_ && _), (ev_has_dns e); eexists; reflexivity. }
  rewrite E. clear sm1 E.
  pose proof (sm_inv_accept (uc_sm ctx) (ev_psi e) ip (ei_sm _ Hi) Es) as Hsm.
  set (sm1 := ue_sm_on_pdu_session_established _) in *. clearbody sm1.
  destruct (is_sm UE_SM_ACTIVE sm1); (apply keeps_some; [|frame]).
  - match goal with |- context [ue_up_bind_session ?up ?t ?psi ?d ?ty ?i] =>
      assert (up_inv (ue_up_bind_session up t psi d ty i).2) by (apply bind_inv; apply Hi) end.
    by inv_fields Hi.
  - by inv_fields Hi.
Qed.

Lemma est_reject_adapter ctx cause :
  engine_inv ctx ->
  exists sm t sec, with_adapter ctx (fun n => ue_sm_on_pdu_session_reject (uc_sm ctx) n cause)
      = Some (sm, ctx <| uc_ran := t |> <| uc_nas_sec := sec |>)
    /\ sm_inv sm /\ rt_ok t /\ tx_only (uc_ran ctx) t /\ sec_wf sec /\ ul_only (uc_nas_sec ctx) sec.
Proof.
  intros Hi. apply (with_adapter_result ctx _ sm_inv Hi). intros n Hn.
  destruct (sm_reject_ok (H0 := adapter_from_safe (uc_ran ctx) (uc_nas_sec ctx)) (uc_sm ctx) n cause (ei_sm _ Hi) Hn)
    as ([sm n'] & E & Hs & Hn' & _). by exists sm, n'.
Qed.

Lemma est_reject_keeps ctx e : engine_inv ctx -> keeps ctx (on_est_reject sendto ctx e).
Proof.
  intros Hi. unfold on_est_reject. destruct (is_ims_transaction ctx e).
  { apply keeps_some; [by inv_fields Hi|frame]. }
  destruct (negb _); [by apply sm_status_keeps|]. cbv zeta.
  match goal with |- context [ue_sm_on_pdu_session_reject _ _ ?c] =>
    destruct (est_reject_adapter ctx c Hi) as (sm & t & sec & E & Hsm & Ht & Htx & Hsec & _) end.
  unfold handlers_sender in E. rewrite E. cbn [mbind option_bind].
  apply keeps_some; [by inv_fields Hi|]. split_and!; [reflexivity..|exact Htx].
Qed.

Lemma release_cmd_keeps ctx e : engine_inv ctx -> keeps ctx (on_release_cmd sendto ctx e).
Proof.
  intros Hi. unfold on_release_cmd. apply keeps_bind.
  { apply send_encoded_keeps; [done|apply release_complete_sendable]. }
  intros c Hc _. pose proof (unbind_inv _ (ei_up _ Hc)).
  pose proof (unbind_psi_inv _ (uc_ims_psi c) (ei_up _ Hc)).
  pose proof (sm_inv_simple (uc_sm c) None None true (ei_sm _ Hc)) as Hs. destruct_and? Hs.
  destruct (_ && _); (apply keeps_some; [by inv_fields Hc|frame]).
Qed.

Lemma identity_request_keeps ctx : engine_inv ctx -> keeps ctx (on_identity_request sendto ctx).
Proof. intros Hi. apply send_encoded_keeps; [done|apply identity_response_sendable]. Qed.

Lemma config_update_keeps ctx e : engine_inv ctx -> keeps ctx (on_config_update sendto ctx e).
Proof.
  intros Hi. unfold on_config_update. destruct (ev_config_update_ack_requested e); [|by apply keeps_refl].
  apply send_encoded_keeps; [done|apply config_update_complete_sendable].
Qed.

(** *** Authentication *)

Lemma parse_hex_length h n l : parse_hex_bytes h n = Some l -> length l = n.
Proof.
  unfold parse_hex_bytes. destruct (_ <?n _); [done|]. revert h l.
  induction n as [|n IH]; intros h l; [by destruct h; intros [= <-]|].
  destruct h as [|a [|b h]]; cbn [parse_hex_loop]; [done..|]. cbv zeta. destruct (_ || _); [done|].
  destruct (parse_hex_loop h n) as [out|] eqn:E; [|done]. cbn [mbind option_bind].
  intros [= <-]. simpl. f_equal. by eapply IH.
Qed.

(** Well-formedness looks at the keys, the uplink COUNT and the ABBA only. *)
Lemma sec_wf_ext sec sec' :
  sec_wf sec -> sc_active sec' = sc_active sec -> sc_keys sec' = sc_keys sec ->
  sc_ul_count sec' = sc_ul_count sec -> length (sc_abba sec') = 16%nat ->
  0 <= sc_abba_len sec' <= 16 -> sec_wf sec'.
Proof.
  intros [Hk Hu _ _] E1 E2 E3 Ha Hl. split; [|by rewrite E3|done..]. intros Hact. cbn in Hk. rewrite E1 in Hact.
  destruct (Hk Hact) as [? ? ? ?]. split; rewrite ?E1, ?E2, ?E3; done.
Qed.

Lemma store_challenge_wf sec e : sec_wf sec -> sec_wf (store_challenge sec e).
Proof.
  intros Hs. pose proof Hs as [_ _ Ha Hl]. unfold store_challenge. cbv zeta.
  destruct (_ && _) eqn:E; apply (sec_wf_ext sec); try reflexivity; try exact Hs.
  - change (length (over (take (ev_auth_abba_len e) (ev_auth_abba e)) (sc_abba sec)) = 16%nat).
    rewrite length_over; [done|]. rewrite length_take. lia.
  - change (0 <= Z.of_nat (ev_auth_abba_len e) <= 16). lia.
  - change (length (over [0; 0] (sc_abba sec)) = 16%nat). rewrite length_over; [done|]. simpl. lia.
  - change (0 <= 2 <= 16). lia.
Qed.

Lemma milenage_wf sec m : sec_wf sec -> sec_wf (sec <| sc_milenage := m |>).
Proof. intros Hs. apply (sec_wf_ext sec); try reflexivity; apply Hs. Qed.

(** New keys of the right width. *)
Lemma keys_wf sec keys :
  sec_wf sec -> is_block (k_knas_int keys) -> is_block (k_knas_enc keys) ->
  sec_wf (sec <| sc_keys := keys |>).
Proof.
  intros [Hk Hu Ha Hl] Hi He. by split.
Qed.

(** Taking a context with such keys into use. *)
Lemma activated_wf sec sec' :
  sec_wf sec -> sc_keys sec' = sc_keys sec ->
  is_block (k_knas_int (sc_keys sec)) -> is_block (k_knas_enc (sc_keys sec)) ->
  (sc_ul_count sec' = sc_ul_count sec \/ sc_ul_count sec' = NasCount 0 0) ->
  sc_abba sec' = sc_abba sec -> sc_abba_len sec' = sc_abba_len sec ->
  sc_active sec' = true -> sec_wf sec'.
Proof.
  intros [_ Hu Ha Hl] Ek Hi He Hc Ea El Hact.
  assert (count_ok (sc_ul_count sec')) as Hu'
    by (destruct Hc as [->| ->]; [exact Hu|by split]).
  split; [|done|by rewrite Ea|by rewrite El]. intros _. split; rewrite ?Ek; done.
Qed.

Lemma serving_network_name_total cfg :
  (length (net_mcc (cfg_network cfg)) < 8)%nat -> (length (net_mnc (cfg_network cfg)) < 8)%nat ->
  exists snn, serving_network_name cfg = Some snn /\ (length snn < 96)%nat.
Proof.
  intros H1 H2. unfold serving_network_name.
  destruct (atoi_short _ H2) as [v ->]. cbn [mbind option_bind].
  destruct (atoi_short _ H1) as [w ->]. cbn [mbind option_bind].
  eexists. split; [reflexivity|]. apply length_strcpy_n. lia.
Qed.

Lemma auth_accept_keeps ctx e sqn :
  engine_inv ctx -> event_ok e -> length sqn = 6%nat ->
  length (mil_res (sc_milenage (uc_nas_sec ctx))) = 8%nat ->
  length (mil_ak (sc_milenage (uc_nas_sec ctx))) = 6%nat ->
  keeps ctx (auth_accept sendto ctx e sqn).
Proof.
  intros Hi [Hrand _ _] Hs Hres Hak. unfold auth_accept.
  set (c1 := ctx <| uc_auth_sqn_ms := sqn |> <| uc_auth_sqn_ms_valid := true |>).
  set (c2 := if ev_has_ngksi e then _ else c1).
  assert (engine_inv c2 /\ same_frame ctx c2 /\ uc_nas_sec c2 = uc_nas_sec ctx) as (H2 & Hf2 & Hsec).
  { unfold c2. destruct (ev_has_ngksi e); (split; [by inv_fields Hi|]); split; first [frame|done]. }
  apply keeps_from with c2; [done|]. rewrite <- Hsec in Hres, Hak. clearbody c2. clear Hi Hf2 Hsec c1 ctx.
  cbv zeta. destruct (ei_plmn _ H2) as [Hmcc Hmnc].
  destruct (serving_network_name_total (uc_cfg c2) Hmcc Hmnc) as (snn & -> & Hsnn).
  cbn [mbind option_bind]. pose proof (ei_sec _ H2) as Hsec.
  match goal with |- context [ue_nas_derive_keys (Some ?ck) (Some ?ik) (Some ?ak) (Some ?rand)
      (Some ?res) (Some ?sqn) (Some ?snn) (Some ?supi) (Some ?abba) ?al ?ia ?ea ?out] =>
    destruct (derive_keys_blocks ck ik ak rand res sqn snn supi abba al ia ea out)
      as (keys & Ek & _ & _ & Hki & Hke & [Hrs _]) end.
  1: lia.
  1: pose proof (length_strcpy_n 48 (sim_imsi (cfg_sim (uc_cfg c2))) ltac:(lia)); lia.
  1: pose proof (sw_abba_len _ Hsec); lia.
  1: rewrite (sw_abba _ Hsec); pose proof (sw_abba_len _ Hsec); lia.
  1: exact Hrand.
  1: exact Hres.
  1: lia.
  1: lia.
  rewrite Ek. cbn [mbind option_bind]. change (0 <? 0) with false. cbv iota.
  pose proof (keys_wf _ keys Hsec Hki Hke) as Hk.
  match goal with |- keeps c2 (engine_send_encoded _ ?c _ _) => set (c3 := c) end.
  apply keeps_from with c3; [frame|]. apply send_encoded_keeps; [|apply auth_response_sendable; lia].
  unfold c3. inv_fields H2. apply (activated_wf _ _ (keys_wf _ keys Hsec Hki Hke)); try done. by right.
Qed.

Lemma authentication_request_keeps ctx e :
  engine_inv ctx -> event_ok e -> keeps ctx (on_authentication_request sendto ctx e).
Proof.
  intros Hi He. unfold on_authentication_request. destruct (_ || _); [by apply keeps_refl|].
  destruct (parse_hex_bytes (sim_key _) 16) as [k|] eqn:Ek; [|by apply keeps_refl].
  destruct (parse_hex_bytes (sim_opc _) 16) as [opc|] eqn:Eo; [|by apply keeps_refl].
  destruct (parse_hex_bytes (sim_amf _) 2) as [amf|] eqn:Ea; [|by apply keeps_refl].
  apply parse_hex_length in Ek, Eo, Ea. pose proof He as [Hrand Hautn _]. cbv zeta.
  set (s1 := store_challenge (uc_nas_sec ctx) e).
  assert (sec_wf s1) as Hs1 by (apply store_challenge_wf, Hi).
  set (m1 := ue_milenage_compute opc k (ev_auth_rand e) (replicate 6 0) amf).
  pose proof (milenage_lengths opc k (ev_auth_rand e) (replicate 6 0) amf Eo Ek Hrand
    ltac:(by rewrite length_replicate) ltac:(lia)) as Hm1. cbv zeta in Hm1. fold m1 in Hm1.
  change (sc_milenage (s1 <| sc_milenage := m1 |>)) with m1.
  set (sqn := xor_bytes (take 6 (ev_auth_autn e)) (mil_ak m1)).
  assert (length sqn = 6%nat) as Hsqn.
  { unfold sqn. rewrite length_xor; [rewrite length_take; lia|]. rewrite length_take. destruct_and? Hm1. lia. }
  set (m2 := ue_milenage_compute opc k (ev_auth_rand e) sqn amf).
  pose proof (milenage_lengths opc k (ev_auth_rand e) sqn amf Eo Ek Hrand
    ltac:(lia) ltac:(lia)) as Hm2. cbv zeta in Hm2. fold m2 in Hm2. clearbody m1 m2 sqn.
  set (s2 := s1 <| sc_milenage := m1 |> <| sc_milenage := m2 |>).
  assert (sec_wf s2) as Hs2 by (by apply milenage_wf, milenage_wf).
  set (c1 := ctx <| uc_nas_sec := s2 |>).
  assert (engine_inv c1) as H1 by (by inv_fields Hi).
  apply keeps_from with c1; [frame|].
  destruct (negb _).
  { apply send_encoded_keeps; [done|]. apply auth_failure_sendable; simpl; lia. }
  destruct (_ && _).
  { apply send_encoded_keeps; [done|]. apply auth_failure_sendable; [|lia]. cbn [default].
    pose proof (milenage_lengths opc k (ev_auth_rand e) (uc_auth_sqn_ms c1) [0; 0] Eo Ek Hrand
      ltac:(rewrite (ei_sqn _ H1); lia) ltac:(simpl; lia)) as Hr. cbv zeta in Hr. destruct_and? Hr.
    cbn [from_option id]. rewrite length_app, length_xor by (rewrite (ei_sqn _ H1); lia).
    rewrite (ei_sqn _ H1). lia. }
  apply auth_accept_keeps; try done; apply Hm2.
Qed.

(** *** Security mode *)

Lemma knas_total kamf ia ea :
  exists i e, ue_nas_derive_knas_from_kamf kamf ia ea = Some (i, e) /\ is_block i /\ is_block e.
Proof.
  unfold ue_nas_derive_knas_from_kamf. rewrite !knas_kdf. cbn [mbind option_bind].
  assert (forall k m, is_block (drop 16 (ue_hmac_sha256 k m))) as Hb.
  { intros k m. destruct (hmac_digest k m) as [Hl Hf].
    split; [by rewrite length_drop, Hl|by apply Forall_drop]. }
  eexists _, _. split; [reflexivity|]. split; apply Hb.
Qed.

Lemma verify_smc_total ctx base payload plen ilen ia ea ngksi :
  (plen <= length payload)%nat ->
  exists v, verify_smc_new_context_mac ctx base payload plen ilen ia ea ngksi = Some v
    /\ match v with
       | None => True
       | Some (keys, _) => is_block (k_knas_int keys) /\ is_block (k_knas_enc keys)
       end.
Proof.
  clear sendto. intros Hl. unfold verify_smc_new_context_mac.
  destruct (plen =?n 0); [by exists None|]. destruct (_ || _); [by exists None|].
  destruct (256 <?n plen); [by exists None|].
  destruct (knas_total (k_kamf (sc_keys base)) ia ea) as (i & e & -> & Hi & He).
  rewrite slice_in by lia. cbn [mbind option_bind]. cbv zeta.
  destruct (256 <?n ilen); [by exists None|].
  do 2 (match goal with |- context [if ?c then _ else _] => destruct c end;
    [eexists; split; [reflexivity|exact (conj Hi He)]|]).
  by exists None.
Qed.

Lemma remember_smc_keeps ctx e : engine_inv ctx -> engine_inv (remember_smc ctx e).
Proof. intros Hi. unfold remember_smc. destruct (_ && _); [by inv_fields Hi|done]. Qed.

Lemma remember_smc_frame ctx e : same_frame ctx (remember_smc ctx e).
Proof. unfold remember_smc. destruct (_ && _); frame. Qed.

Lemma smc_target_wf ctx ngksi target b :
  engine_inv ctx -> smc_target ctx ngksi = Some (target, b) -> sec_wf target.
Proof.
  intros Hi. unfold smc_target. destruct (_ && _); [intros [= <- _]; apply Hi|].
  destruct (_ && _); [intros [= <- _]; apply Hi|done].
Qed.

Lemma smc_activate_keeps ctx e target b keys c0 :
  engine_inv ctx -> sec_wf target -> is_block (k_knas_int keys) -> is_block (k_knas_enc keys) ->
  engine_inv (smc_activate ctx e target b keys c0) /\ same_frame ctx (smc_activate ctx e target b keys c0).
Proof.
  intros Hi Ht Hki Hke. unfold smc_activate. cbv zeta.
  set (t1 := if c0 then _ else _).
  assert (sec_wf (t1 <| sc_active := true |>)
    /\ sec_wf (t1 <| sc_active := true |> <| sc_ul_count := (NasCount 0 0) |>)) as [H1 H2].
  { unfold t1. pose proof (keys_wf _ keys Ht Hki Hke) as Hk.
    destruct c0, (ev_has_ngksi e); (split; apply (activated_wf _ _ Hk); try done; [by left|by right]). }
  clearbody t1. destruct b; (split; [by inv_fields Hi|frame]).
Qed.

Lemma smc_reply_keeps ctx : engine_inv ctx -> keeps ctx (send_smc_complete sendto ctx).
Proof.
  intros Hi. unfold send_smc_complete. cbv zeta. destruct (ei_guti _ Hi) as [Hg Hgl].
  match goal with |- context [ue_nas_encode_registration_request _ _ (Some ?a) (Some ?b) (Some ?c)
      ?s ?r ?g ?n ?k ?i] =>
    destruct (registration_request_total a b c s r g n k i) as (len & buf & -> & Hlen & Hbuf) end.
  { destruct (uc_guti_len ctx =?n 0) eqn:E; cbn [default from_option id]; [|lia].
    apply Nat.eqb_eq in E. rewrite E. simpl. lia. }
  { lia. }
  cbn [mbind option_bind]. apply send_encoded_keeps; [done|].
  destruct (0 <? len) eqn:E; apply smc_complete_sendable; cbn [default from_option id]; [lia|lia].
Qed.

Lemma security_mode_command_keeps ctx e :
  engine_inv ctx -> keeps ctx (on_security_mode_command sendto ctx e).
Proof.
  intros Hi. unfold on_security_mode_command.
  destruct (smc_target ctx (smc_ngksi e)) as [[target b]|] eqn:Et; [|by apply keeps_refl].
  pose proof (smc_target_wf _ _ _ _ Hi Et) as Ht.
  destruct (duplicate_smc ctx e).
  { eapply keeps_from; [apply remember_smc_frame|]. by apply smc_reply_keeps, remember_smc_keeps. }
  destruct (ei_payload _ Hi) as [Hp Hpl].
  destruct (verify_smc_total ctx target (uc_smc_last_payload ctx) (uc_smc_last_payload_len ctx)
    (uc_smc_last_inner_len ctx) (smc_int_alg e) (smc_enc_alg e) (smc_ngksi e) ltac:(lia))
    as (v & -> & Hv). cbn [mbind option_bind].
  destruct v as [[keys c0]|]; [|by apply keeps_refl]. destruct Hv as [Hki Hke].
  destruct (smc_activate_keeps ctx e target b keys c0 Hi Ht Hki Hke) as [H1 Hf].
  eapply keeps_from; [exact Hf|]. eapply keeps_from; [apply remember_smc_frame|].
  by apply smc_reply_keeps, remember_smc_keeps.
Qed.

(** *** Any event *)

Lemma flag_keeps ctx mm sm : engine_inv ctx ->
  engine_inv (flag_sm sm (flag_mm mm ctx)) /\ same_frame ctx (flag_sm sm (flag_mm mm ctx)).
Proof.
  intros Hi. unfold flag_sm, flag_mm.
  destruct (mm_changed _ _), (sm_changed _ _); (split; [by inv_fields Hi|frame]).
Qed.

Lemma handle_event_keeps ctx e : engine_inv ctx -> event_ok e -> keeps ctx (handle_nas_event sendto ctx e).
Proof.
  intros Hi He. unfold handle_nas_event. destruct (ev_type e).
  - by apply keeps_refl.
  - by apply registration_accept_keeps.
  - by apply registration_reject_keeps.
  - by apply est_accept_keeps.
  - by apply est_reject_keeps.
  - by apply release_cmd_keeps.
  - by apply authentication_request_keeps.
  - by apply security_mode_command_keeps.
  - by apply identity_request_keeps.
  - by apply config_update_keeps.
  - by apply keeps_refl.
Qed.

Lemma process_event_keeps ctx e :
  engine_inv ctx -> event_ok e -> keeps ctx (engine_process_nas_event sendto ctx e).
Proof.
  intros Hi He. unfold engine_process_nas_event. apply keeps_bind; [by apply handle_event_keeps|].
  intros c Hc _. destruct (flag_keeps c (uc_mm ctx) (uc_sm ctx) Hc). by apply keeps_some.
Qed.

(** ** Messages *)

(** The plain message lies inside the buffer. *)
Definition plain_within (data : bytes) (plain : option (nat * nat)) : Prop :=
  match plain with Some (off, n) => (off + n <= length data)%nat | None => True end.

Lemma dl_count_wf sec c : sec_wf sec -> sec_wf (sec <| sc_dl_count := c |>).
Proof. intros Hs. apply (sec_wf_ext sec); try reflexivity; apply Hs. Qed.

Lemma received_mac_total data : (7 <= length data)%nat -> exists m, received_mac_at data = Some m.
Proof.
  intros H. unfold received_mac_at.
  destruct (load_in data 2) as [? ->]; [lia|]. destruct (load_in data 3) as [? ->]; [lia|].
  destruct (load_in data 4) as [? ->]; [lia|]. destruct (load_in data 5) as [? ->]; [lia|].
  eexists. reflexivity.
Qed.

(** Unprotecting over a valid context. *)
Lemma unprotect_total data len sec :
  (len <= length data)%nat -> sec_wf sec -> sc_active sec = true -> data !! 1%nat <> Some 0 ->
  exists u, ue_nas_security_unprotect (Some data) len sec = Some u
    /\ length (uw_data u) = length data /\ sec_wf (uw_ctx u)
    /\ plain_within (uw_data u) (uw_plain u) /\ (0 <= uw_rc u -> (7 <= length data)%nat).
Proof.
  clear sendto. intros Hl Hs Ha Hsht. destruct (unprotect_result sec data len Hl)
    as (u & E & [(Hr & E1 & E2 & E3)|(Hr & [[E0 _]|(s & cov & _ & _ & E2 & E3 & H7 & Hd & _)])]); [|done|].
  - exists u. rewrite E1, E2, E3. split_and!; [done..|lia].
  - destruct (sw_keys _ Hs Ha) as [_ _ Hk _].
    assert (length (uw_data u) = length data) as Hlen.
    { rewrite Hd, !length_app, cipher_length, length_take, length_take, !length_drop by done. lia. }
    exists u. rewrite E2, E3. split_and!; [done|done|by apply dl_count_wf| |lia].
    unfold plain_within. lia.
Qed.

Lemma unwrap_total ctx nas len :
  engine_inv ctx -> (len <= length nas)%nat ->
  exists nas' plain ctx', unwrap_nas ctx nas len = Some (nas', plain, ctx')
    /\ length nas' = length nas /\ plain_within nas' plain
    /\ engine_inv ctx' /\ same_frame ctx ctx'.
Proof.
  clear sendto. intros Hi Hl. unfold unwrap_nas.
  assert (forall p, plain_within nas p -> exists nas' plain ctx', Some (nas, p, ctx) = Some (nas', plain, ctx')
    /\ length nas' = length nas /\ plain_within nas' plain /\ engine_inv ctx' /\ same_frame ctx ctx') as Hsame.
  { intros p Hp. exists nas, p, ctx. split_and!; [done..|apply same_frame_refl]. }
  destruct (len <?n 2) eqn:E2; [by apply Hsame|].
  destruct (load_in nas 0) as [epd Eepd]; [lia|]. destruct (load_in nas 1) as [sht Esht]; [lia|].
  rewrite Eepd, Esht. cbn [mbind option_bind].
  destruct (_ || _) eqn:Esh; [by apply Hsame|]. apply orb_false_iff in Esh as [Eg Esh].
  destruct (sht =? NAS_SHT_INTEGRITY_PROTECTED_NEW_CTX).
  - unfold ue_nas_security_unwrap_parse_only. destruct (len <?n 7) eqn:E7; [by apply (Hsame None)|].
    rewrite Eepd. cbn [mbind option_bind]. rewrite Eg, Esht. cbn [mbind option_bind]. rewrite Esh.
    destruct (received_mac_total nas) as [mac ->]; [lia|]. cbn [mbind option_bind].
    destruct (load_in nas 6) as [sq ->]; [lia|]. cbn [mbind option_bind h_sht h_mac h_sqn].
    cbv zeta. set (c1 := ctx <| uc_dl_sec_hdr_valid := true |> <| uc_dl_sec_hdr_sht := _ |>
      <| uc_dl_sec_hdr_mac := _ |> <| uc_dl_sec_hdr_sqn := _ |>).
    assert (engine_inv c1) as H1 by (by inv_fields Hi).
    assert (same_frame ctx c1) as F1 by frame. clearbody c1.
    match goal with |- exists _ _ _, (?m ≫= _) = _ /\ _ =>
      assert (exists c2, m = Some c2 /\ engine_inv c2 /\ same_frame c1 c2) as (c2 & -> & H2 & F2) end.
    { destruct (_ && _) eqn:Eb.
      - destruct (slice nas 7 (len - 7)) as [p|] eqn:Ep;
          [|unfold slice in Ep; destruct (_ <=?n _) eqn:Ec in Ep; [done|lia]].
        apply slice_length in Ep. cbn [mbind option_bind]. eexists. split; [reflexivity|]. split; [|frame].
        destruct (ei_payload _ H1) as [Hp _].
        assert (length (over p (uc_smc_last_payload c1)) = 256 /\ (len - 7 <= 256))%nat
          by (rewrite length_over; lia). by inv_fields H1.
      - eexists. split; [reflexivity|]. split; [|frame]. destruct (ei_payload _ H1) as [Hp _].
        assert (length (uc_smc_last_payload c1) = 256 /\ (0 <= 256))%nat by lia. by inv_fields H1. }
    cbn [mbind option_bind].
    match goal with |- exists _ _ _, (?m ≫= _) = _ /\ _ =>
      assert (exists c3, m = Some c3 /\ engine_inv c3 /\ same_frame c2 c3) as (c3 & -> & H3 & F3) end.
    { destruct (_ <=?n 256) eqn:Eb.
      - destruct (slice nas 7 (len - 7)) as [p|] eqn:Ep;
          [|unfold slice in Ep; destruct (_ <=?n _) eqn:Ec in Ep; [done|lia]].
        apply slice_length in Ep. cbn [mbind option_bind]. eexists. split; [reflexivity|]. split; [|frame].
        destruct (ei_inner _ H2) as [Hp _].
        assert (length (over p (uc_smc_last_inner c2)) = 256 /\ (len - 7 <= 256))%nat
          by (rewrite length_over; lia). by inv_fields H2.
      - eexists. split; [reflexivity|]. split; [|frame]. destruct (ei_inner _ H2) as [Hp _].
        assert (length (uc_smc_last_inner c2) = 256 /\ (0 <= 256))%nat by lia. by inv_fields H2. }
    cbn [mbind option_bind]. eexists _, _, _. split; [reflexivity|]. split; [done|].
    split; [unfold plain_within; lia|]. split; [done|].
    eapply same_frame_trans; [exact F1|]. by eapply same_frame_trans.
  - destruct (sc_active (uc_nas_sec ctx)) eqn:Ea; [|by apply (Hsame None)].
    destruct (unprotect_total nas len (uc_nas_sec ctx) Hl (ei_sec _ Hi) Ea)
      as (u & -> & Hul & Hus & Hup & H7).
    { rewrite Esht. intros [= ->]. done. }
    cbn [mbind option_bind].
    set (c1 := ctx <| uc_nas_sec := uw_ctx u |>).
    assert (engine_inv c1) as H1 by (by inv_fields Hi).
    destruct (uw_rc u <? 0) eqn:Erc.
    { eexists _, _, _. split; [reflexivity|]. split_and!; [done..|frame]. }
    destruct (received_mac_total (uw_data u)) as [mac ->]; [rewrite Hul; apply H7; lia|].
    destruct (load_in (uw_data u) 6) as [sq ->]; [rewrite Hul; apply H7; lia|]. cbn [mbind option_bind].
    eexists _, _, _. split; [reflexivity|]. split_and!; [done|done|by inv_fields H1|frame].
Qed.

(** A NAS message of any content: the buffer keeps its length. *)
Lemma decode_and_process_total ctx nas len :
  engine_inv ctx -> (len <= length nas)%nat ->
  exists rc nas' ctx', decode_and_process_nas sendto ctx nas len = Some (rc, nas', ctx')
    /\ length nas' = length nas /\ engine_inv ctx' /\ same_frame ctx ctx'.
Proof.
  intros Hi Hl. unfold decode_and_process_nas.
  destruct (unwrap_total ctx nas len Hi Hl) as (nas' & plain & c & -> & Hn & Hp & Hc & Hf).
  cbn [mbind option_bind]. destruct plain as [[off n]|]; [|by exists (-1), nas', c].
  unfold plain_within in Hp.
  destruct (nas_decode_total (drop off nas') n nas_event_zero) as [[rc e] E];
    [rewrite length_drop; lia|].
  rewrite E. cbn [mbind option_bind]. destruct (rc <? 0); [by exists (-1), nas', c|].
  destruct (process_event_keeps c e Hc (nas_decode_event_ok _ _ _ _ _ event_zero_ok E))
    as (c' & -> & Hc' & Hf'). cbn [mbind option_bind].
  exists 0, nas', c'. split_and!; try done. by eapply same_frame_trans.
Qed.

(** ** RRC *)

Lemma encode_registration_total ctx ic :
  engine_inv ctx ->
  exists len buf, encode_registration ctx ic = Some (len, Some buf) /\ len <= 256 /\ length buf = 256%nat.
Proof.
  clear sendto. intros Hi. destruct (ei_guti _ Hi) as [Hg Hgl]. unfold encode_registration. cbv zeta.
  apply registration_request_total; [|lia].
  destruct (uc_guti_len ctx =?n 0) eqn:E; cbn [default from_option id]; [|lia].
  apply Nat.eqb_eq in E. rewrite E. simpl. lia.
Qed.

(** A PDU handed to the transport. *)
Lemma rt_send_keeps ctx pdu ch :
  engine_inv ctx -> exists r t, rt_send_nas_pdu sendto (uc_ran ctx) pdu ch = Some (r, t)
    /\ engine_inv (ctx <| uc_ran := t |>) /\ same_frame ctx (ctx <| uc_ran := t |>).
Proof.
  intros Hi. destruct (rt_send_nas_ok sendto (uc_ran ctx) pdu ch (ei_ran _ Hi)) as (r & t & E & Ht).
  exists r, t. split; [exact E|]. split; [by inv_fields Hi|].
  destruct (rt_send_nas_frame sendto (uc_ran ctx) pdu ch) as (r' & n & tr & b & k & E' & _).
  rewrite E in E'. injection E' as _ ->. split_and!; [reflexivity..|]. by exists n, tr, b, k.
Qed.

Lemma nas_buf_size : Z.of_nat NAS_BUF_SIZE = 8192.
Proof. unfold NAS_BUF_SIZE. lia. Qed.

Lemma setup_complete_keeps ctx tx : engine_inv ctx -> keeps ctx (send_setup_complete sendto ctx tx).
Proof.
  intros Hi. unfold send_setup_complete.
  destruct (encode_registration_total ctx true Hi) as (len & buf & -> & Hlen & Hbuf).
  cbn [mbind option_bind]. destruct (len <=? 0) eqn:E0; [by apply keeps_refl|].
  pose proof nas_buf_size as Hsz.
  pose proof (setup_complete_result (replicate NAS_BUF_SIZE 0) NAS_BUF_SIZE buf (Z.to_nat len) tx 1
    ltac:(by rewrite length_replicate) ltac:(lia) ltac:(unfold UE_RRC_MAX_NAS_SIZE; lia) ltac:(lia)) as Henc.
  unfold encodes in Henc.
  assert (exists clen cbuf, ue_rrc_encode_setup_complete (Some (replicate NAS_BUF_SIZE 0)) NAS_BUF_SIZE tx 1
    (Some buf) (Z.to_nat len) = Some (clen, Some cbuf)) as (clen & cbuf & ->).
  { destruct (_ <=?n _); destruct Henc as (b' & -> & _); eexists _, _; reflexivity. }
  cbn [mbind option_bind]. destruct (clen <=? 0); [by apply keeps_refl|].
  match goal with |- context [rt_send_nas_pdu _ _ ?p ?c] =>
    destruct (rt_send_keeps ctx p c Hi) as (r & t & -> & Ht & Hf) end.
  cbn [mbind option_bind]. by apply keeps_some.
Qed.

Lemma rrc_setup_keeps ctx m now : engine_inv ctx -> keeps ctx (engine_handle_rrc_setup sendto ctx m now).
Proof.
  intros Hi. unfold engine_handle_rrc_setup. apply keeps_bind.
  - destruct (_ && _); [by apply setup_complete_keeps|by apply keeps_refl].
  - intros c Hc _. apply keeps_some; [by inv_fields Hc|frame].
Qed.

Lemma initiate_setup_keeps ctx now : engine_inv ctx -> keeps ctx (engine_initiate_rrc_setup sendto ctx now).
Proof.
  intros Hi. unfold engine_initiate_rrc_setup.
  pose proof (setup_request_result (replicate 32 0) 32 (rt_sti (uc_ran ctx)) 3
    ltac:(by rewrite length_replicate)) as Henc. unfold encodes in Henc.
  assert (exists clen cbuf, ue_rrc_encode_setup_request (Some (replicate 32 0)) 32 (rt_sti (uc_ran ctx)) 3
    = Some (clen, Some cbuf)) as (clen & cbuf & ->).
  { destruct (_ <=?n _); destruct Henc as (b' & -> & _); eexists _, _; reflexivity. }
  cbn [mbind option_bind]. destruct (clen <=? 0); [by apply keeps_refl|].
  match goal with |- context [rt_send_nas_pdu _ _ ?p ?c] =>
    destruct (rt_send_keeps ctx p c Hi) as (r & t & -> & Ht & Hf) end.
  cbn [mbind option_bind]. apply keeps_some; [by inv_fields Ht|].
  eapply same_frame_trans; [exact Hf|frame].
Qed.

(** What is done with the buffer of received PDUs too. *)
Definition keeps_buf (ctx : ue_context) (n : nat) (r : option (bytes * ue_context)) : Prop :=
  exists b c, r = Some (b, c) /\ length b = n /\ engine_inv c /\ same_frame ctx c.

Lemma keeps_buf_some ctx n b c :
  length b = n -> engine_inv c -> same_frame ctx c -> keeps_buf ctx n (Some (b, c)).
Proof. intros. by exists b, c. Qed.

Lemma keeps_buf_from ctx ctx1 n r : same_frame ctx ctx1 -> keeps_buf ctx1 n r -> keeps_buf ctx n r.
Proof.
  intros H (b & c & -> & Hb & Hc & Hf). exists b, c. split_and!; [done..|by eapply same_frame_trans].
Qed.

Lemma keeps_buf_ctx ctx n b r : length b = n -> keeps ctx r -> keeps_buf ctx n (c ← r; Some (b, c)).
Proof. intros Hb (c & -> & Hc & Hf). by apply keeps_buf_some. Qed.

Lemma copy_buf_keeps ctx copy :
  engine_inv ctx -> Z.of_nat (length copy) = UE_RRC_MAX_NAS_SIZE ->
  engine_inv (ctx <| uc_nas_copy_buf := copy |>) /\ same_frame ctx (ctx <| uc_nas_copy_buf := copy |>).
Proof. intros Hi Hc. split; [by inv_fields Hi|frame]. Qed.

Lemma process_rrc_nas_keeps ctx buf m len :
  engine_inv ctx -> nas_in_bounds len m -> (len <= length buf)%nat ->
  keeps_buf ctx (length buf) (process_rrc_nas sendto ctx buf m).
Proof.
  intros Hi Hm Hl. unfold process_rrc_nas, rrc_nas_bytes, nas_in_bounds in *.
  destruct (rrc_nas_pdu m) as [|off|] eqn:E.
  - apply keeps_buf_some; [done|done|apply same_frame_refl].
  - destruct (decode_and_process_total ctx (drop off buf) (Z.to_nat (rrc_nas_len m)) Hi)
      as (rc & nas & c & -> & Hn & Hc & Hf); [rewrite length_drop; lia|].
    cbn [mbind option_bind]. apply keeps_buf_some; [|done|done].
    rewrite length_app, length_take, Hn, length_drop. lia.
  - pose proof (ei_copy _ Hi) as Hcopy.
    destruct (decode_and_process_total ctx (uc_nas_copy_buf ctx) (Z.to_nat (rrc_nas_len m)) Hi)
      as (rc & nas & c & -> & Hn & Hc & Hf); [lia|].
    cbn [mbind option_bind]. destruct (copy_buf_keeps c nas Hc) as [H1 H2]; [by rewrite Hn|].
    apply keeps_buf_some; [done|done|by eapply same_frame_trans].
Qed.

Lemma dl_dcch_keeps ctx buf m len now :
  engine_inv ctx -> nas_in_bounds len m -> (len <= length buf)%nat ->
  keeps_buf ctx (length buf) (process_dl_dcch sendto ctx buf m now).
Proof.
  intros Hi Hm Hl. unfold process_dl_dcch.
  assert (keeps_buf ctx (length buf) (Some (buf, ctx))) as Hsame
    by (apply keeps_buf_some; [done|done|apply same_frame_refl]).
  destruct (rrc_type m); try exact Hsame.
  - destruct (0 <? _); [by eapply process_rrc_nas_keeps|exact Hsame].
  - apply keeps_buf_ctx; [done|by apply rrc_setup_keeps].
Qed.

Lemma dl_ccch_keeps ctx m now : engine_inv ctx -> keeps ctx (process_dl_ccch sendto ctx m now).
Proof.
  intros Hi. unfold process_dl_ccch. destruct (rrc_type m); try by apply keeps_refl.
  by apply rrc_setup_keeps.
Qed.

Lemma fallback_keeps ctx buf len ch m now :
  engine_inv ctx -> nas_in_bounds len m -> (len <= length buf)%nat ->
  keeps_buf ctx (length buf) (process_fallback sendto ctx buf len ch m now).
Proof.
  intros Hi Hm Hl. unfold process_fallback.
  destruct (decoders_within buf len m (uc_nas_copy_buf ctx) Hl (ei_copy _ Hi) Hm)
    as [(rc & m1 & copy & -> & Hm1 & Hcopy) _]. cbn [mbind option_bind]. cbv zeta.
  destruct (copy_buf_keeps ctx copy Hi Hcopy) as [H1 F1]. eapply keeps_buf_from; [exact F1|].
  set (c1 := ctx <| uc_nas_copy_buf := copy |>) in *. clearbody c1.
  destruct (rc =? 0); [by eapply dl_dcch_keeps|].
  destruct (_ && _); [apply keeps_buf_some; [done|done|apply same_frame_refl]|].
  destruct (decoders_within buf len m1 (uc_nas_copy_buf c1) Hl (ei_copy _ H1) Hm1)
    as [_ (rc' & m2 & copy' & -> & Hm2 & Hcopy')]. cbn [mbind option_bind]. cbv zeta.
  destruct (copy_buf_keeps c1 copy' H1 Hcopy') as [H2 F2]. eapply keeps_buf_from; [exact F2|].
  set (c2 := c1 <| uc_nas_copy_buf := copy' |>) in *. clearbody c2.
  destruct (rc' =? 0); [apply keeps_buf_ctx; [done|by apply dl_ccch_keeps]|].
  destruct (decode_and_process_total c2 buf len H2 Hl) as (rc2 & b & c & -> & Hb & Hc & Hf).
  cbn [mbind option_bind]. by apply keeps_buf_some.
Qed.

Lemma rrc_pdu_keeps ctx buf len ch now :
  engine_inv ctx -> (len <= length buf)%nat ->
  keeps_buf ctx (length buf) (process_rrc_pdu sendto ctx buf len ch now).
Proof.
  intros Hi Hl. unfold process_rrc_pdu.
  set (c1 := if uc_waiting_core_response ctx then _ else ctx).
  assert (engine_inv c1 /\ same_frame ctx c1) as [H1 F1].
  { unfold c1. destruct (uc_waiting_core_response ctx);
      [split; [by inv_fields Hi|frame]|split; [done|apply same_frame_refl]]. }
  eapply keeps_buf_from; [exact F1|]. clearbody c1. cbv zeta.
  assert (nas_in_bounds len rrc_message_zero) as Hz by exact I.
  destruct (decoders_within buf len rrc_message_zero (uc_nas_copy_buf c1) Hl (ei_copy _ H1) Hz)
    as [(rc & m & copy & Edc & Hm & Hcopy) (rc' & m' & copy' & Ecc & Hm' & Hcopy')].
  destruct (ch =? 2); [rewrite Ecc|destruct (ch =? 3); [rewrite Edc|by apply fallback_keeps]];
    cbn [mbind option_bind].
  - destruct (copy_buf_keeps c1 copy' H1 Hcopy') as [H2 F2]. eapply keeps_buf_from; [exact F2|].
    destruct (rc' =? 0); [apply keeps_buf_ctx; [done|by apply dl_ccch_keeps]|by apply fallback_keeps].
  - destruct (copy_buf_keeps c1 copy H1 Hcopy) as [H2 F2]. eapply keeps_buf_from; [exact F2|].
    destruct (rc =? 0); [by eapply dl_dcch_keeps|by apply fallback_keeps].
Qed.

(** The loop ends: each round takes one PDU off the queue and queues none. *)
Lemma drain_rrc_total fuel ctx buf ch now :
  engine_inv ctx -> length buf = NAS_BUF_SIZE ->
  (length (spec_nas (rx_view (uc_ran ctx))) < fuel)%nat ->
  exists ctx', drain_rrc sendto fuel ctx buf ch now = Some ctx' /\ engine_inv ctx'
    /\ uc_radio_on ctx' = uc_radio_on ctx /\ uc_cfg ctx' = uc_cfg ctx.
Proof.
  revert ctx buf ch. induction fuel as [|fuel IH]; intros ctx buf ch Hi Hb Hf; [lia|].
  cbn [drain_rrc]. pose proof nas_buf_size as Hsz.
  pose proof (recv_nas_refines (uc_ran ctx) buf NAS_BUF_SIZE (ei_ran _ Hi) ltac:(lia) ltac:(lia)) as Hr.
  destruct (spec_nas (rx_view (uc_ran ctx))) as [|[c p] rest] eqn:Eq.
  - rewrite Hr. cbn [mbind option_bind]. cbv zeta. change (0 <? 0) with false. cbv iota.
    exists (ctx <| uc_ran := (uc_ran ctx) |>). split; [reflexivity|].
    split; [exact Hi|exact (conj eq_refl eq_refl)].
  - destruct Hr as (t & -> & Ht & Hv). cbn [mbind option_bind default from_option id]. cbv zeta.
    set (c1 := ctx <| uc_ran := t |>). assert (engine_inv c1) as H1 by (by inv_fields Hi).
    assert (length (take NAS_BUF_SIZE p) <= NAS_BUF_SIZE)%nat as Hp by (rewrite length_take; lia).
    destruct (0 <? _); cycle 1.
    { exists c1. exact (conj eq_refl (conj H1 (conj eq_refl eq_refl))). }
    assert (length (over (take NAS_BUF_SIZE p) buf) = NAS_BUF_SIZE) as Hb'
      by (rewrite length_over; lia).
    destruct (rrc_pdu_keeps c1 (over (take NAS_BUF_SIZE p) buf)
      (Z.to_nat (Z.of_nat (length (take NAS_BUF_SIZE p)))) c now H1)
      as (b & c2 & -> & Hb2 & H2 & (E1 & E2 & Htx)); [lia|].
    cbn [mbind option_bind].
    destruct (IH c2 b c) as (c3 & -> & H3 & E3 & E4); [done|congruence| |].
    + destruct (tx_only_same _ _ Htx) as [-> _]. change (uc_ran c1) with t. rewrite Hv.
      cbn [spec_nas]. simpl in Hf. lia.
    + exists c3. split_and!; [done|done|by rewrite E3, E1|by rewrite E4, E2].
Qed.

(** ** The tick *)

(** The clearing of the session context leaves the machine inactive, or ready
    to be made so. *)
Lemma sm_cleared_off sm sid ip attempt :
  sm_inv sm ->
  sm_inv (ue_sm_on_radio (sm <| sm_session_id := sid |> <| sm_ip := ip |> <| sm_pti := 0 |>
    <| sm_next_pti := 0 |> <| sm_est_retx_count := 0 |> <| sm_establishment_attempt_id := attempt |>
    <| sm_next_step_deadline_ms := 0 |> <| sm_connect_requested := false |>
    <| sm_disconnect_requested := false |>) false)
  /\ (sm_state sm = UE_SM_INACTIVE ->
      sm_inv (sm <| sm_session_id := sid |> <| sm_ip := ip |> <| sm_pti := 0 |>
        <| sm_next_pti := 0 |> <| sm_est_retx_count := 0 |> <| sm_establishment_attempt_id := attempt |>
        <| sm_next_step_deadline_ms := 0 |> <| sm_connect_requested := false |>
        <| sm_disconnect_requested := false |>)).
Proof.
  clear sendto. intros Hi. unfold ue_sm_on_radio, sm_enter_inactive. sm_open sm Hi. split.
  - sm_case. sm_inv_split.
  - intros Hs. subst. destruct_and?. subst. sm_inv_split.
Qed.

Lemma mm_radio_ok mm b : mm_inv mm -> mm_inv (ue_mm_on_radio mm b).
Proof. intros H. apply (mm_inv_handlers mm b 0 H). Qed.

Lemma mm_register_ok mm : mm_inv mm -> mm_inv (ue_mm_request_register mm).
Proof. intros H. apply (mm_inv_handlers mm true 0 H). Qed.

Lemma sec_zero_wf : sec_wf sec_ctx_zero /\ sec_wf nas_sec_initial.
Proof. split; (split; [done|split; cbn; lia|done|cbn; lia]). Qed.

Lemma up_step_keeps up up' :
  up_step (fun psi d (h : unit) => (0, h)) (fun psi d (h : unit) => (0, h)) up up' ->
  up_inv up -> up_inv up'.
Proof. intros H Hi. by eapply up_step_inv. Qed.

Lemma rt_steps_keep t r1 r2 fd :
  rt_ok t -> rt_ok (ue_ran_transport_refresh_sti t r1 r2) /\ rt_ok (ue_ran_transport_start t fd).2
  /\ rt_ok (ue_ran_transport_stop t).
Proof.
  intros Ht. split_and!; apply (rt_step_ok (fun _ _ _ => 0) (fun _ => None) (fun _ => None) t); try done;
    constructor.
Qed.

(** Forgetting the network keeps all but the session machine, which the
    callers settle. *)
Lemma forget_keeps ctx r1 r2 sm :
  engine_inv ctx -> sm_inv sm ->
  engine_inv ((engine_forget_network_context ctx r1 r2) <| uc_sm := sm |>).
Proof.
  intros Hi Hsm. unfold engine_forget_network_context. cbv zeta.
  destruct (rt_steps_keep (uc_ran ctx) r1 r2 0 (ei_ran _ Hi)) as (Ht & _ & _).
  destruct sec_zero_wf as [Hz Hz'].
  pose proof (mm_inv_guti _ [] (ei_mm _ Hi)).
  pose proof (unbind_psi_inv _ (uc_ims_psi ctx) (ei_up _ Hi)).
  destruct (ei_payload _ Hi) as [Hp _]. destruct (ei_inner _ Hi) as [Hn _].
  inv_fields Hi; try exact Ht; try exact Hz; try exact Hz'.
  - split; [done|]. change (0 <= 16)%nat. lia.
  - done.
  - split; [exact Hp|]. change (0 <= 256)%nat. lia.
  - split; [exact Hn|]. change (0 <= 256)%nat. lia.
Qed.

Lemma recover_keeps ctx r1 r2 :
  engine_inv ctx -> engine_inv (recover_lost_link ctx r1 r2)
  /\ uc_radio_on (recover_lost_link ctx r1 r2) = uc_radio_on ctx
  /\ uc_cfg (recover_lost_link ctx r1 r2) = uc_cfg ctx
  /\ rx_view (uc_ran (recover_lost_link ctx r1 r2)) = rx_view (uc_ran ctx).
Proof.
  intros Hi. unfold recover_lost_link. destruct (_ && _); [|done]. cbv zeta. split; [|done].
  destruct (sm_cleared_off (uc_sm ctx) 0 ip_zero 0 (ei_sm _ Hi)) as [Hsm _].
  pose proof (forget_keeps ctx r1 r2 _ Hi Hsm) as Hf.
  set (c1 := engine_forget_network_context ctx r1 r2) in *.
  assert (mm_inv (ue_mm_request_register (ue_mm_on_radio (ue_mm_on_radio (uc_mm c1) false) true))) as Hm.
  { apply mm_register_ok, mm_radio_ok, mm_radio_ok, (ei_mm _ Hf). }
  by inv_fields Hf.
Qed.

Lemma tick_machines_keeps ctx now :
  engine_inv ctx -> 0 <= now < 2 ^ 63 -> keeps ctx (tick_machines sendto ctx now).
Proof.
  intros Hi Hnow. unfold tick_machines.
  set (c1 := if uc_waiting_core_response ctx then ctx else _).
  assert (engine_inv c1 /\ same_frame ctx c1) as [H1 F1].
  { pose proof (mm_inv_handlers (uc_mm ctx) true now (ei_mm _ Hi)) as Hm. destruct_and? Hm.
    unfold c1. destruct (uc_waiting_core_response ctx);
      [split; [done|apply same_frame_refl]|split; [by inv_fields Hi|frame]]. }
  eapply keeps_from; [exact F1|]. clearbody c1. cbv zeta.
  destruct (with_adapter_result c1 (fun n => ue_sm_tick (uc_sm c1) n now
      (is_mm UE_MM_REGISTERED_HOME (uc_mm c1))) sm_inv H1)
    as (sm & t & sec & E & Hsm & Ht & Htx & Hsec & _).
  { intros n Hn.
    destruct (ue_sm_tick_ok (H0 := adapter_from_safe (uc_ran c1) (uc_nas_sec c1)) (uc_sm c1) n 0 now
      (is_mm UE_MM_REGISTERED_HOME (uc_mm c1)) (ei_sm _ H1) Hn Hnow) as ([sm n'] & E & Hs & Hn' & _).
    by exists sm, n'. }
  match type of E with _ = ?r => match goal with |- context [with_adapter c1 ?f] =>
    replace (with_adapter c1 f) with r by (symmetry; exact E) end end.
  cbn [mbind option_bind].
  apply keeps_some; [by inv_fields H1|]. split_and!; [reflexivity..|exact Htx].
Qed.

Lemma advance_keeps ctx :
  engine_inv ctx -> engine_inv (advance_machines ctx) /\ same_frame ctx (advance_machines ctx).
Proof.
  clear sendto. intros Hi. unfold advance_machines. cbv zeta.
  set (c1 := if _ && _ && _ && _ then _ else ctx).
  assert (engine_inv c1 /\ same_frame ctx c1) as [H1 F1].
  { unfold c1. destruct (_ && _ && _ && _) eqn:E; [|split; [done|apply same_frame_refl]].
    apply andb_true_iff in E as [E Ed%negb_true_iff]. apply andb_true_iff in E as [E Ec%negb_true_iff].
    apply andb_true_iff in E as [_ Es%bool_decide_eq_true].
    assert (sm_inv ((uc_sm ctx) <| sm_connect_requested := true |>)) as Hs.
    { destruct (ei_sm _ Hi) as [Hp ? ? ? ? Hq]. by split. }
    split; [by inv_fields Hi|frame]. }
  clearbody c1. destruct (is_mm UE_MM_SEARCHING (uc_mm c1) && _ && _) eqn:E; [|exact (conj H1 F1)].
  apply andb_true_iff in E as [[Em%bool_decide_eq_true _]%andb_true_iff _].
  pose proof (mm_inv_transition _ (ei_mm _ H1) Em). split; [by inv_fields H1|].
  eapply same_frame_trans; [exact F1|frame].
Qed.

Lemma registration_update_keeps ctx now :
  engine_inv ctx -> keeps ctx (send_registration_update sendto ctx now).
Proof.
  intros Hi. unfold send_registration_update. cbv zeta.
  destruct (is_mm UE_MM_REGISTERING (uc_mm ctx) && _ && _ && _ && _); [|by apply keeps_refl].
  destruct (encode_registration_total ctx false Hi) as (len & buf & -> & Hlen & Hbuf).
  cbn [mbind option_bind]. destruct (len <=? 0) eqn:E; [by apply keeps_refl|].
  destruct (send_keeps ctx buf len false Hi) as (r & c & -> & Hc & Hf); [right; lia|].
  cbn [mbind option_bind]. apply keeps_some; [by inv_fields Hc|].
  eapply same_frame_trans; [exact Hf|frame].
Qed.

Lemma rrc_timeouts_keep ctx now :
  engine_inv ctx -> engine_inv (tick_rrc_timeouts ctx now) /\ same_frame ctx (tick_rrc_timeouts ctx now).
Proof.
  intros Hi. unfold tick_rrc_timeouts. cbv zeta.
  set (c1 := if _ && _ then ctx <| uc_rrc_state := UE_RRC_IDLE |> else ctx).
  assert (engine_inv c1 /\ same_frame ctx c1) as [H1 F1].
  { unfold c1. destruct (_ && _); (split; [by inv_fields Hi|frame]). }
  clearbody c1. set (c2 := if _ && _ && _ && _ then _ else c1).
  assert (engine_inv c2 /\ same_frame ctx c2) as [H2 F2].
  { unfold c2. destruct (_ && _ && _ && _); [|exact (conj H1 F1)].
    split; [by inv_fields H1|eapply same_frame_trans; [exact F1|frame]]. }
  clearbody c2. destruct (_ && _); [|exact (conj H2 F2)].
  split; [by inv_fields H2|eapply same_frame_trans; [exact F2|frame]].
Qed.

(** One tick: the loop over the received PDUs ends, nothing is accessed out of
    bounds, and the invariant is kept. *)
Lemma real_tick_keeps fuel ctx r1 r2 now :
  engine_inv ctx -> 0 <= now < 2 ^ 63 -> (31 < fuel)%nat ->
  exists ctx', engine_real_tick sendto fuel ctx r1 r2 now = Some (0, ctx') /\ engine_inv ctx'
    /\ uc_radio_on ctx' = uc_radio_on ctx /\ uc_cfg ctx' = uc_cfg ctx
    /\ (uc_radio_on ctx = false -> uc_sm ctx' = uc_sm ctx /\ uc_mm ctx' = uc_mm ctx
          /\ uc_ran ctx' = uc_ran ctx).
Proof.
  intros Hi Hnow Hfuel. unfold engine_real_tick.
  assert (forall c, engine_inv c -> engine_inv (c <| uc_up := (ue_up_tick (uc_up c) (uc_ran c)) |>)) as Hup.
  { intros c Hc. assert (up_inv (ue_up_tick (uc_up c) (uc_ran c)))
      by (eapply up_step_keeps; [apply us_tick|apply Hc]). by inv_fields Hc. }
  destruct (uc_radio_on ctx) eqn:Er; cbn [negb].
  2:{ eexists. split; [reflexivity|]. split; [apply Hup; by inv_fields Hi|]. by rewrite <- Er. }
  destruct (recover_keeps ctx r1 r2 Hi) as (H1 & E1 & C1 & V1). cbv zeta.
  set (c1 := recover_lost_link ctx r1 r2) in *. clearbody c1.
  destruct (tick_machines_keeps c1 now H1 Hnow) as (c2 & -> & H2 & (E2 & C2 & T2)). cbn [mbind option_bind].
  assert (length (spec_nas (rx_view (uc_ran c2))) <= 31)%nat as Hq.
  { unfold rx_view. cbn [spec_nas]. rewrite length_fmap. apply ring_list_bound, (ro_nas _ (ei_ran _ H2)). }
  destruct (drain_rrc_total fuel c2 (replicate NAS_BUF_SIZE 0) 0 now H2) as (c3 & -> & H3 & E3 & C3);
    [by rewrite length_replicate|lia|]. cbn [mbind option_bind].
  destruct (advance_keeps c3 H3) as [H4 (E4 & C4 & _)]. set (c4 := advance_machines c3) in *. clearbody c4.
  match goal with |- context [?m ≫= _] =>
    assert (keeps c4 m) as (c5 & -> & H5 & (E5 & C5 & _)) end.
  { destruct (_ && _ && _); [by apply initiate_setup_keeps|by apply keeps_refl]. }
  cbn [mbind option_bind].
  destruct (registration_update_keeps c5 now H5) as (c6 & -> & H6 & (E6 & C6 & _)). cbn [mbind option_bind].
  destruct (rrc_timeouts_keep c6 now H6) as [H7 (E7 & C7 & _)].
  set (c7 := tick_rrc_timeouts c6 now) in *. clearbody c7.
  eexists. split; [reflexivity|]. split; [by apply Hup|].
  split; [|split; [|done]].
  - change (uc_radio_on c7 = true). congruence.
  - change (uc_cfg c7 = uc_cfg ctx). congruence.
Qed.
End Handlers.
