(* ===== verification/DataPath.v ===== *)
(** The data path: the user plane over the real transport.

    [ran_data_link] of [EngineNas.v] makes the transport a link of the user
    plane; here its laws are discharged, so that what [UserPlane.v] proves of any
    link holds of the transport. *)

From S2P Require Import Prelude UeTypes Rls RanTransport RanLink UserPlane UeContext EngineNas UeEngine EngineSends.
From S2P Require Import EngineSafe.

Lemma recv_data_state t b n r b' s t' :
  ue_ran_transport_recv_data_pdu t b n = Some (r, b', s, t') -> rt_state t' = rt_state t.
Proof.
  unfold ue_ran_transport_recv_data_pdu. cbv [mbind option_bind].
  intros E. repeat (case_match; simplify_eq; try done).
Qed.

Section Link.
Variable sendto : nat -> sockaddr -> bytes -> Z.

(** Sending data is sending only. *)
Lemma send_data_tx t psi d : rt_ok t ->
  exists r t', ue_ran_transport_send_data_pdu sendto t psi d = Some (r, t') /\ rt_ok t' /\ tx_only t t'.
Proof.
  intros Ht. destruct (send_data_frame sendto t psi d) as (r & tr & b & k & E).
  rewrite E. eexists r, _. split; [reflexivity|]. split.
  - eapply (rt_step_ok sendto (fun _ => None) (fun _ => None) t); [done|by eapply rs_send_data].
  - exists (rt_next_pdu_id t), tr, b, k. reflexivity.
Qed.

#[export] Instance ran_queue_link :
  @QueueLink ue_ran_transport_ctx (ran_data_link sendto).
Proof.
  refine (@Build_QueueLink _ (ran_data_link sendto) rt_ok (fun t => spec_data (rx_view t)) _ _).
  - intros t psi d Ht. destruct (send_data_tx t psi d Ht) as (r & t' & E & Ht' & Htx).
    exists r, t'. destruct (tx_only_same _ _ Htx) as (Hv & Hs & _).
    split_and!; [exact E|exact Ht'|by rewrite Hv|].
    change (is_rt UE_RAN_TRANSPORT_CONNECTED t' = is_rt UE_RAN_TRANSPORT_CONNECTED t).
    unfold is_rt. by rewrite Hs.
  - intros t b n Ht Hn Hn2. pose proof (recv_data_refines t b n Ht Hn Hn2) as H.
    destruct (spec_data (rx_view t)) as [|[psi p] rest]; [exact H|].
    destruct H as (t' & E & Ht' & Hv). exists t'.
    split_and!; [exact E|exact Ht'|by rewrite Hv|].
    change (is_rt UE_RAN_TRANSPORT_CONNECTED t' = is_rt UE_RAN_TRANSPORT_CONNECTED t).
    unfold is_rt. by rewrite (recv_data_state _ _ _ _ _ _ _ E).
Defined.

(** A packet of the host over an active session and a connected link leaves in
    one datagram to the strongest cell, with the PSI of the host's session. *)
Lemma inject_on_air ctx pkt :
  engine_inv ctx -> up_state (uc_up ctx) = UE_UP_ACTIVE -> up_transport (uc_up ctx) = true ->
  rt_state (uc_ran ctx) = UE_RAN_TRANSPORT_CONNECTED -> cell_heard (uc_ran ctx) ->
  pkt <> [] -> Z.of_nat (length pkt) <= 16384 ->
  exists i c rc ctx' d, cell_at (uc_ran ctx) i c
    /\ (forall j e, cell_at (uc_ran ctx) j e -> cell_dbm e <= cell_dbm c)
    /\ ue_engine_inject_uplink_ip sendto ctx pkt = Some (rc, ctx')
    /\ net_trace (uc_ran ctx') = net_trace (uc_ran ctx) ++ [(cell_addr c, d)]
    /\ ue_rls_decode (Some d) (length d)
       = Some (Some (RlsPduTx (PduTransmission (rt_sti (uc_ran ctx)) UE_RLS_PDU_TYPE_DATA 0
           (up_host_psi (uc_up ctx)) (Some pkt) (Z.of_nat (length pkt)))))
    /\ (0 <= sendto (length (net_trace (uc_ran ctx))) (cell_addr c) d -> rc = 0).
Proof.
  intros Hi Hup Htr Hs Hh Hne Hl. pose proof (ei_up _ Hi) as Hu.
  assert (up_has_session (uc_up ctx) = true) as Hsess by (apply (upi_state _ Hu); congruence).
  pose proof (upi_host _ Hu) as Hpsi. rewrite Hsess in Hpsi.
  destruct (rt_send_data_on_air sendto (uc_ran ctx) (up_host_psi (uc_up ctx)) pkt (ei_ran _ Hi) Hs Hh
    (proj1 Hpsi) Hne Hl) as (i & c & r & t' & d & Hc & Hbest & E & Ht & Hd & Hr).
  unfold ue_engine_inject_uplink_ip, ue_up_send_uplink. rewrite Hup, Hsess, Htr.
  replace (length pkt =?n 0) with false by (destruct pkt; [done|cbn; lia]).
  rewrite bool_decide_true by done. cbn [negb orb]. cbv iota.
  change (@link_send_data_pdu _ _ (uc_ran ctx) (up_host_psi (uc_up ctx)) pkt)
    with (ue_ran_transport_send_data_pdu sendto (uc_ran ctx) (up_host_psi (uc_up ctx)) pkt).
  rewrite E. cbn [mbind option_bind].
  destruct (r <? 0) eqn:Er; cbn [mbind option_bind]; (eexists i, c, _, _, d; split; [exact Hc|];
    split; [exact Hbest|]; split; [reflexivity|]; split; [exact Ht|]; split; [exact Hd|]); [|done].
  intros H. specialize (Hr H). lia.
Qed.
End Link.
