(* ===== verification/EngineReach.v ===== *)
(** The engine as the rest of the program drives it.

    [engine_call] lists the calls of the engine's interface, the tick of the
    transport's receive thread and the draining of the downlink that this thread
    starts; [run_call] performs one.  Calls are atomic here: the program makes
    them under the engine's lock, and the transport's queues have locks of their
    own.  [engine_reachable] is what any sequence of calls can lead to from the
    initialisation with a configuration whose fields fit their arrays. *)

From S2P Require Import Prelude CString InstanceConfig NasDefs NasEncode Rrc Aes Sha256 NasCrypto NasSecurity.
From S2P Require Import UeTypes UeMm UeSm NetworkAdapter RanTransport RanLink UserPlane UeContext.
From S2P Require Import EngineNas UeEngine EngineSends EngineSafe DataPath.

#[local] Opaque ue_aes128_ecb_encrypt ue_aes_cmac aes128_ctr ue_hmac_sha256.

Inductive engine_call :=
| CallStart | CallStop
| CallTick (r1 r2 now_ms : Z)
| CallSetRadio (on : bool) (r1 r2 fd : Z)
| CallRegister | CallPeriodicUpdate | CallMobilityUpdate
| CallConnect (dnn : option bytes) | CallDisconnect
| CallImsPdu
| CallUplink (ip_packet : bytes) | CallImsUplink (ip_packet : bytes)
| CallTakeChanged
| CallReceive (inbox : list recv_result) (now_ms : Z)
| CallDownlink
| CallSetDownlink (b : bool) | CallSetInternalDownlink (b : bool).

(** Times are milliseconds of a clock that does not wrap; [recvfrom] gives
    datagrams that fit the transport's buffer. *)
Definition call_ok (c : engine_call) : Prop :=
  match c with
  | CallTick _ _ now_ms => 0 <= now_ms < 2 ^ 63
  | CallReceive inbox _ => Forall recv_ok inbox
  | _ => True
  end.

(** The rings hold at most 31 PDUs. *)
Definition CALL_FUEL : nat := 32.

Section Calls.
Variable sendto : nat -> sockaddr -> bytes -> Z.
Variables (pton : bytes -> option Z) (gai : bytes -> option sockaddr).
(** The receivers of downlink packets and their state. *)
Context {Host : Type} (dl_cb internal_dl_cb : Z -> bytes -> Host -> Z * Host).

Definition call_result (r : option (Z * ue_context)) (h : Host) : option (ue_context * Host) :=
  '(_, ctx) ← r; Some (ctx, h).

Definition run_call (c : engine_call) (ctx : ue_context) (h : Host) : option (ue_context * Host) :=
  match c with
  | CallStart => Some (ue_engine_start ctx, h)
  | CallStop => Some (ue_engine_stop ctx, h)
  | CallTick r1 r2 now_ms => call_result (ue_engine_tick sendto CALL_FUEL ctx r1 r2 now_ms) h
  | CallSetRadio on r1 r2 fd => ctx ← ue_engine_set_radio sendto ctx on r1 r2 fd; Some (ctx, h)
  | CallRegister => Some (ue_engine_request_register ctx, h)
  | CallPeriodicUpdate => Some (ue_engine_request_periodic_update ctx, h)
  | CallMobilityUpdate => Some (ue_engine_request_mobility_update ctx, h)
  | CallConnect dnn => Some (ue_engine_request_connect ctx dnn, h)
  | CallDisconnect => Some (ue_engine_request_disconnect ctx, h)
  | CallImsPdu => call_result (ue_engine_request_ims_pdu sendto ctx) h
  | CallUplink d => call_result (ue_engine_inject_uplink_ip sendto ctx d) h
  | CallImsUplink d => call_result (ue_engine_inject_ims_ip sendto ctx d) h
  | CallTakeChanged => Some ((ue_engine_take_changed ctx).2, h)
  | CallReceive inbox now_ms =>
    '(_, t) ← ue_ran_transport_tick sendto pton gai (uc_ran ctx) inbox now_ms;
    Some (ctx <| uc_ran := t |>, h)
  | CallDownlink => ue_context_drain_downlink (H := engine_link' sendto) dl_cb internal_dl_cb CALL_FUEL ctx h
  | CallSetDownlink b => Some (ctx <| uc_up := (ue_up_set_downlink_callback (uc_up ctx) b) |>, h)
  | CallSetInternalDownlink b =>
    Some (ctx <| uc_up := (ue_up_set_internal_downlink_callback (uc_up ctx) b) |>, h)
  end.

Fixpoint run_calls (l : list engine_call) (ctx : ue_context) (h : Host) : option (ue_context * Host) :=
  match l with
  | [] => Some (ctx, h)
  | c :: l => '(ctx, h) ← run_call c ctx h; run_calls l ctx h
  end.

(** The fields of a configuration the engine copies or formats fit their
    arrays, and the decoder's static buffer has its size. *)
Inductive engine_reachable : ue_context * Host -> Prop :=
| er_init cfg ue_id r1 r2 trace copy h :
    (length (net_mcc (cfg_network cfg)) < 8)%nat -> (length (net_mnc (cfg_network cfg)) < 8)%nat ->
    Z.of_nat (length copy) = UE_RRC_MAX_NAS_SIZE ->
    engine_reachable ((ue_engine_init cfg ue_id r1 r2 trace copy).2, h)
| er_call s c s' :
    engine_reachable s -> call_ok c -> run_call c s.1 s.2 = Some s' -> engine_reachable s'.

(** ** The invariant *)

(** With the radio off nothing of the network is left but the host's session of
    the user plane. *)
Definition radio_off_ok (ctx : ue_context) : Prop :=
  uc_radio_on ctx = false ->
  mm_state (uc_mm ctx) = UE_MM_POWERED_OFF /\ sm_state (uc_sm ctx) = UE_SM_INACTIVE
  /\ rt_state (uc_ran ctx) = UE_RAN_TRANSPORT_IDLE
  /\ sc_active (uc_nas_sec ctx) = false /\ uc_nas_sec_non_current_valid ctx = false
  /\ uc_guti_len ctx = 0%nat /\ uc_auth_sqn_ms_valid ctx = false /\ uc_ims_pdu_active ctx = false.

Record engine_ok (ctx : ue_context) : Prop := {
  eo_inv : engine_inv ctx;
  eo_off : radio_off_ok ctx;
  eo_snapshot : uc_snapshot ctx = context_snapshot ctx }.

Lemma refresh_snapshot_ok ctx :
  engine_inv ctx -> radio_off_ok ctx -> engine_ok (ue_context_refresh_snapshot ctx).
Proof. intros Hi Hoff. split; [by inv_fields Hi|exact Hoff|reflexivity]. Qed.

(** Flags are outside the invariant. *)
Lemma flags_only mm sm ctx :
  (engine_inv ctx -> engine_inv (flag_sm sm (flag_mm mm ctx)) /\ engine_inv (flag_mm mm ctx)
    /\ engine_inv (flag_sm sm ctx))
  /\ (radio_off_ok ctx -> radio_off_ok (flag_sm sm (flag_mm mm ctx)) /\ radio_off_ok (flag_mm mm ctx)
    /\ radio_off_ok (flag_sm sm ctx)).
Proof.
  unfold flag_sm, flag_mm. split; intros H.
  - assert (forall c f, engine_inv c -> engine_inv (c <| uc_changed_flags := f |>)) as Hf
      by (intros c f Hc; by inv_fields Hc).
    destruct (mm_changed _ _); (split; [|split]); repeat match goal with |- context [sm_changed ?a ?b] => destruct (sm_changed a b) end; auto.
  - destruct (mm_changed _ _); (split; [|split]); repeat match goal with |- context [sm_changed ?a ?b] => destruct (sm_changed a b) end; exact H.
Qed.

(** The requests of the machines change neither a machine that is off. *)
Lemma requests_off mm sm dnn :
  (mm_state mm = UE_MM_POWERED_OFF ->
    mm_state (ue_mm_request_register mm) = UE_MM_POWERED_OFF
    /\ mm_state (ue_mm_request_periodic_update mm) = UE_MM_POWERED_OFF
    /\ mm_state (ue_mm_request_mobility_update mm) = UE_MM_POWERED_OFF)
  /\ sm_state (ue_sm_request_connect sm dnn) = sm_state sm
  /\ sm_state (ue_sm_request_disconnect sm) = sm_state sm.
Proof.
  split; [|split; [unfold ue_sm_request_connect; by destruct (nonempty_arg dnn)|done]].
  intros E. unfold ue_mm_request_register, ue_mm_request_periodic_update,
    ue_mm_request_mobility_update, mm_invoke_pending_registration, is_mm.
  mm_unfold. destruct mm. cbn in E. subst. done.
Qed.

(** *** Requests *)

Lemma mm_request_ok ctx mm :
  engine_ok ctx -> mm_inv mm ->
  (mm_state (uc_mm ctx) = UE_MM_POWERED_OFF -> mm_state mm = UE_MM_POWERED_OFF) ->
  engine_ok (ue_context_refresh_snapshot (flag_mm (uc_mm ctx) (ctx <| uc_mm := mm |>))).
Proof.
  intros [Hi Hoff _] Hm Hst.
  destruct (flags_only (uc_mm ctx) (uc_sm ctx) (ctx <| uc_mm := mm |>)) as [Hf Ho].
  apply refresh_snapshot_ok.
  - apply Hf. by inv_fields Hi.
  - apply Ho. intros Hr. destruct (Hoff Hr) as (H1 & H2). split; [by apply Hst|exact H2].
Qed.

Lemma sm_request_ok ctx sm f :
  engine_ok ctx -> sm_inv sm -> sm_state sm = sm_state (uc_sm ctx) ->
  engine_ok (ue_context_refresh_snapshot
    ((flag_sm (uc_sm ctx) (ctx <| uc_sm := sm |>)) <| uc_changed_flags := f |>)).
Proof.
  intros [Hi Hoff _] Hm Hst.
  destruct (flags_only (uc_mm ctx) (uc_sm ctx) (ctx <| uc_sm := sm |>)) as [Hf Ho].
  apply refresh_snapshot_ok.
  - assert (engine_inv (flag_sm (uc_sm ctx) (ctx <| uc_sm := sm |>))) as H
      by (apply Hf; by inv_fields Hi). by inv_fields H.
  - assert (radio_off_ok (flag_sm (uc_sm ctx) (ctx <| uc_sm := sm |>))) as H; [|exact H].
    apply Ho. intros Hr. destruct (Hoff Hr) as (H1 & H2 & H3).
    split_and!; [exact H1|by rewrite <- H2|apply H3..].
Qed.

(** *** The user plane and the transport *)

(** A call of the user plane over the transport: the machines, the security
    context and the state of the link stay. *)
Lemma path_ok ctx up t :
  engine_ok ctx -> up_inv up -> rt_ok t -> rt_state t = rt_state (uc_ran ctx) ->
  engine_ok (ctx <| uc_up := up |> <| uc_ran := t |>).
Proof.
  intros [Hi Hoff Hs] Hu Ht E. split; [by inv_fields Hi| |exact Hs].
  intros Hr. destruct (Hoff Hr) as (H1 & H2 & H3 & H4).
  split_and!; [exact H1|exact H2|by rewrite <- H3|apply H4..].
Qed.

Lemma send_uplink_total ctx d :
  engine_ok ctx ->
  (exists rc c, ue_engine_inject_uplink_ip sendto ctx d = Some (rc, c) /\ engine_ok c)
  /\ (exists rc c, ue_engine_inject_ims_ip sendto ctx d = Some (rc, c) /\ engine_ok c).
Proof.
  intros Ho. pose proof (eo_inv _ Ho) as Hi.
  assert (forall psi, exists r t, @link_send_data_pdu _ (engine_link' sendto) (uc_ran ctx) psi d = Some (r, t)
    /\ rt_ok t /\ rt_state t = rt_state (uc_ran ctx)) as Hsend.
  { intros psi. destruct (send_data_tx sendto (uc_ran ctx) psi d (ei_ran _ Hi)) as (r & t & E & Ht & Htx).
    destruct (tx_only_same _ _ Htx) as (_ & Hst & _). by exists r, t. }
  split.
  - assert (exists rc up t, ue_up_send_uplink (H := engine_link' sendto) (uc_up ctx) (uc_ran ctx) d = Some (rc, up, t)
      /\ rt_ok t /\ rt_state t = rt_state (uc_ran ctx)) as (rc & up & t & E & Ht & Hst).
    { unfold ue_up_send_uplink. destruct (_ =?n _); [by eexists _, _, _; split; [reflexivity|split; [apply Hi|]]|].
      destruct (_ || _); [by eexists _, _, _; split; [reflexivity|split; [apply Hi|]]|].
      destruct (negb _); [by eexists _, _, _; split; [reflexivity|split; [apply Hi|]]|].
      destruct (Hsend (up_host_psi (uc_up ctx))) as (r & t & -> & Ht & Hst). cbn [mbind option_bind].
      destruct (r <? 0); eexists _, _, _; (split; [reflexivity|done]). }
    exists rc, (ctx <| uc_up := up |> <| uc_ran := t |>). split.
    { unfold ue_engine_inject_uplink_ip. by rewrite E. }
    apply path_ok; [done| |done|done].
    apply (up_step_keeps sendto (uc_up ctx)); [by eapply us_uplink|apply Hi].
  - unfold ue_engine_inject_ims_ip. destruct (negb _); [by eexists _, _|].
    assert (exists rc up t, ue_up_send_internal_uplink (H := engine_link' sendto) (uc_up ctx) (uc_ran ctx) (uc_ims_psi ctx) d = Some (rc, up, t)
      /\ rt_ok t /\ rt_state t = rt_state (uc_ran ctx)) as (rc & up & t & E & Ht & Hst).
    { unfold ue_up_send_internal_uplink. destruct (_ || _ || _); [by eexists _, _, _; split; [reflexivity|split; [apply Hi|]]|].
      destruct (_ || _ || _); [by eexists _, _, _; split; [reflexivity|split; [apply Hi|]]|].
      destruct (Hsend (uc_ims_psi ctx)) as (r & t & -> & Ht & Hst). cbn [mbind option_bind].
      destruct (r <? 0); eexists _, _, _; (split; [reflexivity|done]). }
    exists rc, (ctx <| uc_up := up |> <| uc_ran := t |>). split.
    { by rewrite E. }
    apply path_ok; [done| |done|done].
    apply (up_step_keeps sendto (uc_up ctx)); [by eapply us_internal_uplink|apply Hi].
Qed.
(** Draining the downlink delivers what is queued and leaves the rest alone. *)
Lemma drain_downlink_total ctx h :
  engine_ok ctx ->
  exists c h', ue_context_drain_downlink (H := engine_link' sendto) dl_cb internal_dl_cb CALL_FUEL ctx h
      = Some (c, h') /\ engine_ok c.
Proof.
  intros Ho. pose proof (eo_inv _ Ho) as Hi.
  assert (length (spec_data (rx_view (uc_ran ctx))) < CALL_FUEL)%nat as Hf.
  { unfold rx_view, CALL_FUEL. cbn [spec_data]. rewrite length_fmap.
    pose proof (ring_list_bound _ (queue_ring _ (ro_data _ (ei_ran _ Hi)))). lia. }
  unfold ue_context_drain_downlink.
  destruct (link_is_connected (DataLink := ran_data_link sendto) (uc_ran ctx)) eqn:Ec.
  2:{ unfold ue_up_process_downlink. change (@link_is_connected _ _ (uc_ran ctx)) with
        (@link_is_connected _ (ran_data_link sendto) (uc_ran ctx)). rewrite Ec, orb_true_r.
      destruct (negb _); cbn [mbind option_bind]; eexists _, _; (split; [reflexivity|]);
        (apply path_ok; [done|apply Hi|apply Hi|done]). }
  destruct (process_downlink_drains (H0 := ran_queue_link sendto) dl_cb internal_dl_cb CALL_FUEL
    (uc_up ctx) (uc_ran ctx) h (ei_ran _ Hi) Hf) as (t & Hd).
  match type of Hd with context [if ?b then (?x, ?y, ?z, ?w) else ?v] =>
    destruct (if b then (x, y, z, w) else v) as [[[n up] h'] rest] end.
  destruct Hd as (E & Ht & _ & Hct).
  exists (ctx <| uc_up := up |> <| uc_ran := t |>), h'. split.
  { match type of E with _ = ?r => match goal with |- context [ue_up_process_downlink ?a ?b ?c ?d ?e ?f] =>
      replace (ue_up_process_downlink a b c d e f) with r by (symmetry; exact E) end end. reflexivity. }
  apply path_ok; [done| |exact Ht|].
  - eapply (up_step_inv (H := engine_link' sendto) dl_cb internal_dl_cb); [apply Hi|by eapply us_downlink].
  - assert (is_rt UE_RAN_TRANSPORT_CONNECTED (uc_ran ctx) = true) as H1 by exact Ec.
    assert (is_rt UE_RAN_TRANSPORT_CONNECTED t = true) as H2 by exact (eq_trans Hct Ec).
    apply bool_decide_eq_true in H1, H2. congruence.
Qed.

(** The tick of the receive thread. *)
Lemma receive_total ctx inbox now :
  engine_ok ctx -> Forall recv_ok inbox ->
  exists e t, ue_ran_transport_tick sendto pton gai (uc_ran ctx) inbox now = Some (e, t)
    /\ engine_ok (ctx <| uc_ran := t |>).
Proof.
  intros [Hi Hoff Hs] Hin.
  destruct (tick_ok sendto pton gai (uc_ran ctx) inbox now (ei_ran _ Hi) Hin) as (e & t & E & Ht & Hidle & _).
  exists e, t. split; [exact E|]. split; [by inv_fields Hi| |exact Hs].
  intros Hr. destruct (Hoff Hr) as (H1 & H2 & H3 & H4).
  split_and!; [exact H1|exact H2| |apply H4..]. destruct (Hidle H3) as [_ ->]. exact H3.
Qed.

(** The request for the IMS session sends one message. *)
Lemma ims_pdu_total ctx :
  engine_ok ctx -> exists rc c, ue_engine_request_ims_pdu sendto ctx = Some (rc, c) /\ engine_ok c.
Proof.
  clear pton gai dl_cb internal_dl_cb Host.
  intros Ho. pose proof (eo_inv _ Ho) as Hi. unfold ue_engine_request_ims_pdu.
  destruct (negb (uc_radio_on ctx)) eqn:Hon; [by eexists _, _|].
  apply negb_false_iff in Hon. cbn [orb]. destruct (_ || _ || _); [by eexists _, _|].
  destruct (_ || _); [by eexists _, _|]. destruct (free_psi _ _ _) as [psi|]; [|by eexists _, _].
  cbv zeta.
  match goal with |- context [engine_send_nas_uplink sendto ?c] => set (c1 := c) end.
  assert (engine_ok c1) as H1.
  { split; [by inv_fields Hi| |apply Ho]. intros Hr. change (uc_radio_on ctx = false) in Hr. congruence. }
  assert (uc_radio_on c1 = true) as Hon1 by exact Hon.
  destruct (est_request_sendable (uc_ims_psi c1) (uc_ims_pti c1) (net_slice_sst (cfg_network (uc_cfg c1))))
    as (len & buf & -> & Hl). cbn [mbind option_bind].
  destruct (Z.leb_spec len 0); [by eexists _, _|]. clearbody c1.
  destruct (engine_send_result sendto c1 buf (Z.to_nat len) false)
    as (pdu & r & t & _ & _ & Htx & Hok & E); [apply (eo_inv _ H1)|lia|lia|].
  rewrite Z2Nat.id in E by lia. rewrite E. cbn [mbind option_bind].
  set (c2 := c1 <| uc_nas_sec := _ |> <| uc_ran := t |>).
  assert (engine_ok c2) as H2.
  { pose proof (Hok (ei_ran _ (eo_inv _ H1))). pose proof (uplink_spent_wf _ (ei_sec _ (eo_inv _ H1))).
    destruct H1 as [Hi1 _ Hs1]. split; [by inv_fields Hi1| |exact Hs1].
    intros Hr. change (uc_radio_on c1 = false) in Hr. congruence. }
  destruct (r <? 0); (eexists _, _; split; [reflexivity|]); [exact H2|].
  destruct H2 as [Hi2 Hoff2 Hs2]. split; [by inv_fields Hi2| |exact Hs2].
  intros Hr. change (uc_radio_on c1 = false) in Hr. congruence.
Qed.

(** The tick with the radio off touches the RRC bookkeeping and the user plane
    only. *)
Lemma tick_off ctx r1 r2 now :
  engine_ok ctx -> uc_radio_on ctx = false ->
  exists c, engine_real_tick sendto CALL_FUEL ctx r1 r2 now = Some (0, c) /\ radio_off_ok c.
Proof.
  intros [Hi Hoff _] Hr. unfold engine_real_tick. rewrite Hr. cbn [negb].
  eexists. split; [reflexivity|]. intros _. exact (Hoff Hr).
Qed.

Lemma tick_total ctx r1 r2 now :
  engine_ok ctx -> 0 <= now < 2 ^ 63 ->
  exists c, ue_engine_tick sendto CALL_FUEL ctx r1 r2 now = Some (0, c) /\ engine_ok c.
Proof.
  clear pton gai dl_cb internal_dl_cb Host.
  intros Ho Hnow. unfold ue_engine_tick.
  destruct (real_tick_keeps sendto CALL_FUEL ctx r1 r2 now (eo_inv _ Ho) Hnow) as (c & E & Hc & Er & _);
    [unfold CALL_FUEL; lia|].
  rewrite E. cbn [mbind option_bind]. eexists. split; [reflexivity|]. apply refresh_snapshot_ok; [done|].
  destruct (uc_radio_on ctx) eqn:Hr; [intros H; congruence|].
  destruct (tick_off ctx r1 r2 now Ho Hr) as (c' & E' & Hc'). rewrite E in E'. by injection E' as <-.
Qed.

(** Forgetting the network while the session machine is inactive. *)
Lemma forget_inactive ctx r1 r2 :
  engine_inv ctx -> sm_state (uc_sm ctx) = UE_SM_INACTIVE ->
  engine_inv (engine_forget_network_context ctx r1 r2).
Proof.
  intros Hi Hs. destruct (sm_cleared_off (uc_sm ctx) 0 ip_zero 0 (ei_sm _ Hi)) as [_ Hsm].
  exact (forget_keeps ctx r1 r2 _ Hi (Hsm Hs)).
Qed.

(** *** The radio *)

Lemma deregistration_keeps ctx : engine_inv ctx -> keeps ctx (send_deregistration sendto ctx).
Proof.
  intros Hi. unfold send_deregistration. destruct (_ && _ && _ && _); [|by apply keeps_refl].
  apply send_encoded_keeps; [done|]. apply deregistration_sendable.
  destruct (ei_guti _ Hi) as [-> H]. exact H.
Qed.

Lemma mm_off_powered mm : mm_state (ue_mm_on_radio mm false) = UE_MM_POWERED_OFF.
Proof. clear sendto. unfold ue_mm_on_radio. mm_unfold. by destruct mm. Qed.

(** With the radio off the link is torn down and the network forgotten. *)
Lemma radio_off_total ctx r1 r2 fd :
  engine_ok ctx ->
  exists c, ue_engine_set_radio sendto ctx false r1 r2 fd = Some c /\ engine_ok c /\ uc_radio_on c = false.
Proof.
  clear pton gai dl_cb internal_dl_cb Host.
  intros [Hi _ _]. unfold ue_engine_set_radio, set_radio_link. cbv zeta.
  set (c0 := ctx <| uc_radio_on := false |>). assert (engine_inv c0) as H0 by (by inv_fields Hi).
  destruct (deregistration_keeps c0 H0) as (c1 & -> & H1 & (Er & _)). cbn [mbind option_bind andb].
  set (c2 := if is_rt _ _ then c1 else _).
  assert (engine_inv c2 /\ rt_state (uc_ran c2) = UE_RAN_TRANSPORT_IDLE /\ uc_radio_on c2 = false)
    as (H2 & Hidle & Er2).
  { unfold c2. destruct (is_rt _ _) eqn:E.
    - apply bool_decide_eq_true in E. split_and!; [done|done|exact Er].
    - destruct (rt_steps_keep (uc_ran c1) 0 0 0 (ei_ran _ H1)) as (_ & _ & Ht).
      split_and!; [by inv_fields H1|reflexivity|exact Er]. }
  clearbody c2. eexists. split; [reflexivity|].
  destruct (sm_cleared_off (uc_sm c2) 0 ip_zero 0 (ei_sm _ H2)) as [Hsm _].
  pose proof (forget_keeps c2 r1 r2 _ H2 Hsm) as Hf.
  set (c3 := (engine_forget_network_context c2 r1 r2) <| uc_mm := _ |> <| uc_sm := _ |>).
  assert (engine_inv c3) as H3.
  { pose proof (mm_radio_ok _ false (ei_mm _ Hf)). by inv_fields Hf. }
  assert (radio_off_ok c3) as Hoff.
  { intros _. split_and!; [apply mm_off_powered|reflexivity|exact Hidle|reflexivity..]. }
  destruct (flags_only (uc_mm ctx) (uc_sm ctx) c3) as [Hk Hko].
  split; [apply refresh_snapshot_ok; [by apply Hk|by apply Hko]|].
  assert (uc_radio_on c3 = false) as Er3 by exact Er2. clearbody c3. clear -Er3.
  unfold flag_sm, flag_mm. by destruct (mm_changed _ _), (sm_changed _ _).
Qed.

Lemma radio_on_total ctx r1 r2 fd :
  engine_ok ctx -> exists c, ue_engine_set_radio sendto ctx true r1 r2 fd = Some c /\ engine_ok c.
Proof.
  clear pton gai dl_cb internal_dl_cb Host.
  intros [Hi Hoff _]. unfold ue_engine_set_radio, set_radio_link. cbv zeta.
  set (c0 := ctx <| uc_radio_on := true |>). assert (engine_inv c0) as H0 by (by inv_fields Hi).
  set (c1 := if uc_radio_on ctx then c0 else _).
  assert (engine_inv c1 /\ uc_radio_on c1 = true) as [H1 Er].
  { unfold c1. destruct (uc_radio_on ctx) eqn:E; [done|]. split; [|done].
    apply forget_inactive; [done|]. apply (Hoff E). }
  clearbody c1. cbn [mbind option_bind].
  set (c2 := if _ && _ then _ else c1).
  assert (engine_inv c2 /\ uc_radio_on c2 = true) as [H2 Er2].
  { unfold c2. destruct (_ && _); [|done].
    destruct (rt_steps_keep (uc_ran c1) 0 0 fd (ei_ran _ H1)) as (_ & Ht & _).
    split; [by inv_fields H1|exact Er]. }
  clearbody c2.
  set (c3 := c2 <| uc_mm := _ |> <| uc_sm := _ |>).
  assert (engine_inv c3) as H3 by (pose proof (mm_radio_ok _ true (ei_mm _ H2)); by inv_fields H2).
  assert (uc_radio_on c3 = true) as Er3 by exact Er2. clearbody c3.
  set (c4 := if true && _ then _ else c3).
  assert (engine_inv c4 /\ uc_radio_on c4 = true) as [H4 Er4].
  { unfold c4. destruct (true && _); [|done]. split; [|exact Er3].
    pose proof (mm_register_ok _ (ei_mm _ H3)). by inv_fields H3. }
  clearbody c4. eexists. split; [reflexivity|].
  destruct (flags_only (uc_mm ctx) (uc_sm ctx) c4) as [Hk Hko].
  apply refresh_snapshot_ok; [by apply Hk|]. apply Hko. intros Hr. congruence.
Qed.

(** ** Every call *)

Lemma init_engine_ok cfg ue_id r1 r2 trace copy :
  (length (net_mcc (cfg_network cfg)) < 8)%nat -> (length (net_mnc (cfg_network cfg)) < 8)%nat ->
  Z.of_nat (length copy) = UE_RRC_MAX_NAS_SIZE ->
  engine_ok (ue_engine_init cfg ue_id r1 r2 trace copy).2.
Proof.
  clear pton gai dl_cb internal_dl_cb Host sendto.
  intros Hmcc Hmnc Hcopy. destruct sec_zero_wf as [Hz Hz'].
  assert (engine_inv (context_fields ue_id cfg r1 r2 trace snapshot_zero copy)) as Hi.
  { split; try exact Hz; try exact Hz'; cbn [context_fields].
    - change (rt_ok (if is_empty (ran_gnb_address (cfg_ran cfg)) then ue_ran_transport_init r1 r2 trace
        else (ue_ran_transport_configure (ue_ran_transport_init r1 r2 trace)
          (Some [Some (ran_gnb_address (cfg_ran cfg))])
          (if ran_gnb_port (cfg_ran cfg) =? 0 then 4997 else ran_gnb_port (cfg_ran cfg))).2)).
      destruct (is_empty _); [apply init_ok|].
      apply (rt_step_ok (fun _ _ _ => 0) (fun _ => None) (fun _ => None) (ue_ran_transport_init r1 r2 trace));
        [apply init_ok|constructor].
    - destruct (mm_inv_init mm_zero true (sim_sim_present (cfg_sim cfg))) as [H1 H2 H3 H4].
      split; [exact H1|exact H2|exact H3|exact H4].
    - assert (sm_inv (ue_sm_init (Some (net_dnn (cfg_network cfg))))) as Hs by sm_inv_split.
      apply (sm_inv_simple _ (Some (net_dnn (cfg_network cfg))) (Some (net_pdu_type (cfg_network cfg)))
        true Hs).
    - eapply (up_reachable_inv (H := engine_link' (fun _ _ _ => 0)) (fun psi d (h : unit) => (0, h))
        (fun psi d (h : unit) => (0, h))). eapply up_reach_step; [apply up_reach_init|apply us_transport].
    - split; [reflexivity|apply Nat.le_0_l].
    - reflexivity.
    - split; [reflexivity|apply Nat.le_0_l].
    - split; [reflexivity|apply Nat.le_0_l].
    - exact Hcopy.
    - exact (conj Hmcc Hmnc). }
  split; [by inv_fields Hi|intros H; discriminate H|reflexivity].
Qed.

Lemma call_total c ctx h :
  engine_ok ctx -> call_ok c -> exists c' h', run_call c ctx h = Some (c', h') /\ engine_ok c'.
Proof.
  intros Ho Hc. pose proof Ho as [Hi Hoff Hs].
  destruct (requests_off (uc_mm ctx) (uc_sm ctx) None) as (Hreq & _).
  pose proof (mm_inv_handlers (uc_mm ctx) true 0 (ei_mm _ Hi)) as (_ & _ & Hm1 & Hm2 & Hm3 & _).
  destruct c as [| |r1 r2 now|on r1 r2 fd| | | |dnn| | |d|d| |inbox now| |b|b]; cbn [run_call].
  - eexists _, _. split; [reflexivity|]. apply refresh_snapshot_ok; [by inv_fields Hi|exact Hoff].
  - eexists _, _. split; [reflexivity|]. apply refresh_snapshot_ok; [by inv_fields Hi|exact Hoff].
  - destruct (tick_total ctx r1 r2 now Ho Hc) as (c & -> & H). by exists c, h.
  - destruct on.
    + destruct (radio_on_total ctx r1 r2 fd Ho) as (c & -> & H). by exists c, h.
    + destruct (radio_off_total ctx r1 r2 fd Ho) as (c & -> & H & _). by exists c, h.
  - eexists _, _. split; [reflexivity|]. apply mm_request_ok; [done|done|apply Hreq].
  - eexists _, _. split; [reflexivity|]. apply mm_request_ok; [done|done|apply Hreq].
  - eexists _, _. split; [reflexivity|]. apply mm_request_ok; [done|done|apply Hreq].
  - eexists _, _. split; [reflexivity|]. apply sm_request_ok; [done|apply (sm_inv_simple _ dnn None true (ei_sm _ Hi))|].
    apply (requests_off (uc_mm ctx) (uc_sm ctx) dnn).
  - pose proof (sm_request_ok ctx (ue_sm_request_disconnect (uc_sm ctx))
      (uc_changed_flags (flag_sm (uc_sm ctx) (ctx <| uc_sm := ue_sm_request_disconnect (uc_sm ctx) |>))) Ho) as H.
    eexists _, _. split; [reflexivity|].
    apply H; [apply (sm_inv_simple _ None None true (ei_sm _ Hi))|reflexivity].
  - destruct (ims_pdu_total ctx Ho) as (rc & c & -> & H). by exists c, h.
  - destruct (send_uplink_total ctx d Ho) as [(rc & c & -> & H) _]. by exists c, h.
  - destruct (send_uplink_total ctx d Ho) as [_ (rc & c & -> & H)]. by exists c, h.
  - eexists _, _. split; [reflexivity|]. split; [by inv_fields Hi|exact Hoff|exact Hs].
  - destruct (receive_total ctx inbox now Ho Hc) as (e & t & -> & H). cbn [mbind option_bind]. by eexists _, _.
  - destruct (drain_downlink_total ctx h Ho) as (c & h' & E & H). by exists c, h'.
  - eexists _, _. split; [reflexivity|].
    assert (up_inv (ue_up_set_downlink_callback (uc_up ctx) b))
      by (apply (up_step_keeps sendto (uc_up ctx)); [apply us_cb|apply Hi]).
    split; [by inv_fields Hi|exact Hoff|exact Hs].
  - eexists _, _. split; [reflexivity|].
    assert (up_inv (ue_up_set_internal_downlink_callback (uc_up ctx) b))
      by (apply (up_step_keeps sendto (uc_up ctx)); [apply us_internal_cb|apply Hi]).
    split; [by inv_fields Hi|exact Hoff|exact Hs].
Qed.

Lemma engine_reachable_ok s : engine_reachable s -> engine_ok s.1.
Proof.
  induction 1 as [cfg ue_id r1 r2 trace copy h H1 H2 H3|s c s' _ IH Hc E]; [by apply init_engine_ok|].
  destruct (call_total c s.1 s.2 IH Hc) as (c' & h' & E' & H). rewrite E in E'. by injection E' as ->.
Qed.

Lemma run_calls_reachable l : forall s s',
  engine_reachable s -> Forall call_ok l -> run_calls l s.1 s.2 = Some s' -> engine_reachable s'.
Proof.
  induction l as [|c l IH]; intros [ctx h] s' Hr Hl; cbn [run_calls fst snd].
  - by intros [= <-].
  - apply Forall_cons in Hl as [Hc Hl].
    destruct (run_call c ctx h) as [[c1 h1]|] eqn:E; [|done]. cbn [mbind option_bind].
    apply (IH (c1, h1)); [|done]. by eapply (er_call (ctx, h)).
Qed.

(** C5: in every state any sequence of calls leads to, whatever the network
    answers, every call of the engine returns: it stays in the bounds of every
    buffer, and a tick, which drains whatever NAS messages the transport has
    queued, ends. *)
Theorem engine_calls_return s c :
  engine_reachable s -> call_ok c -> exists s', run_call c s.1 s.2 = Some s'.
Proof.
  intros Hr Hc. destruct (call_total c s.1 s.2 (engine_reachable_ok s Hr) Hc) as (c' & h' & E & _).
  by exists (c', h').
Qed.

(** C4: in every reachable state the published snapshot is that of the current
    context, the machines satisfy their phase conditions, an active security
    context has keys of their widths, the buffers that messages are copied to
    have their sizes, and when the radio is off MM is powered off, SM inactive,
    the transport idle and no security context, identity, sequence number or IMS
    session is left. *)
Theorem engine_reachable_invariant ctx h :
  engine_reachable (ctx, h) ->
  uc_snapshot ctx = context_snapshot ctx
  /\ mm_phase_ok (uc_mm ctx) /\ sm_phase_ok (uc_sm ctx)
  /\ (sc_active (uc_nas_sec ctx) = true -> uplink_ok (uc_nas_sec ctx))
  /\ (uc_guti_len ctx <= length (uc_guti ctx))%nat
  /\ (uc_smc_last_payload_len ctx <= length (uc_smc_last_payload ctx))%nat
  /\ (length (spec_nas (rx_view (uc_ran ctx))) <= 31)%nat
  /\ (uc_radio_on ctx = false ->
       mm_state (uc_mm ctx) = UE_MM_POWERED_OFF /\ sm_state (uc_sm ctx) = UE_SM_INACTIVE
       /\ rt_state (uc_ran ctx) = UE_RAN_TRANSPORT_IDLE
       /\ sc_active (uc_nas_sec ctx) = false /\ uc_nas_sec_non_current_valid ctx = false
       /\ uc_guti_len ctx = 0%nat /\ uc_auth_sqn_ms_valid ctx = false /\ uc_ims_pdu_active ctx = false).
Proof.
  intros Hr. destruct (engine_reachable_ok _ Hr) as [Hi Hoff Hs]. cbn [fst snd] in *.
  destruct (ei_guti _ Hi) as [Hg Hgl]. destruct (ei_payload _ Hi) as [Hp Hpl].
  split_and!; [exact Hs|apply (ei_mm _ Hi)|apply (ei_sm _ Hi)| |by rewrite Hg|by rewrite Hp| |exact Hoff].
  - intros Ha. apply (sw_keys _ (ei_sec _ Hi)), Ha.
  - unfold rx_view. cbn [spec_nas]. rewrite length_fmap.
    apply ring_list_bound, (ro_nas _ (ei_ran _ Hi)).
Qed.
End Calls.

(** ** Witnesses *)

Definition test_engine : ue_context :=
  (ue_engine_init ue_instance_config_set_defaults 1 5 6 [] (replicate (Z.to_nat UE_RRC_MAX_NAS_SIZE) 0)).2.

Definition test_cb (psi : Z) (d : bytes) (h : unit) : Z * unit := (0, h).

(** The engine after its start, its radio turned off. *)
Definition test_engine_off : ue_context :=
  match run_call test_sendto test_pton test_gai test_cb test_cb (CallSetRadio false 1 2 0) test_engine tt with
  | Some (c, _) => c
  | None => test_engine
  end.

Lemma test_engine_reachable :
  engine_reachable test_sendto test_pton test_gai test_cb test_cb (test_engine, tt).
Proof.
  apply er_init; [vm_compute; lia|vm_compute; lia|]. rewrite length_replicate. reflexivity.
Qed.

Lemma test_engine_off_reachable :
  engine_reachable test_sendto test_pton test_gai test_cb test_cb (test_engine_off, tt).
Proof.
  eapply (er_call _ _ _ _ _ _ (CallSetRadio false 1 2 0)); [apply test_engine_reachable|exact I|].
  destruct (call_total test_sendto test_pton test_gai test_cb test_cb (CallSetRadio false 1 2 0) test_engine tt)
    as (c & [] & E & _); [apply (engine_reachable_ok _ _ _ _ _ _ test_engine_reachable)|exact I|].
  cbn [fst snd]. unfold test_engine_off. rewrite E. reflexivity.
Qed.

Lemma engine_calls_return_witness :
  exists s', run_call test_sendto test_pton test_gai test_cb test_cb (CallTick 1 2 1000) test_engine tt = Some s'.
Proof.
  apply (engine_calls_return test_sendto test_pton test_gai test_cb test_cb (test_engine, tt) (CallTick 1 2 1000)).
  - exact test_engine_reachable.
  - cbn. lia.
Defined.

Lemma engine_reachable_invariant_witness :
  uc_radio_on test_engine_off = false
  /\ mm_state (uc_mm test_engine_off) = UE_MM_POWERED_OFF
  /\ rt_state (uc_ran test_engine_off) = UE_RAN_TRANSPORT_IDLE.
Proof.
  assert (uc_radio_on test_engine_off = false) as Hr by (vm_compute; reflexivity).
  destruct (engine_reachable_invariant test_sendto test_pton test_gai test_cb test_cb test_engine_off tt
    test_engine_off_reachable) as (_ & _ & _ & _ & _ & _ & _ & Hoff).
  destruct (Hoff Hr) as (H1 & _ & H2 & _). split_and!; [exact Hr|exact H1|exact H2].
Defined.
