(* ===== verification/EngineSecurity.v ===== *)
(** What the engine's security amounts to: which messages take a security
    context into use, how an authentication challenge is answered, and which
    messages are processed although nothing authenticates them. *)

From S2P Require Import Prelude CString InstanceConfig NasDefs NasEncode NasDecode Rrc Aes Sha256 NasCrypto.
From S2P Require Import NasSecurity UeTypes UeMm UeSm NetworkAdapter RanTransport RanLink.
From S2P Require Import UserPlane UeContext EngineNas UeEngine EngineSends EngineSafe EngineReach.

#[local] Opaque ue_aes128_ecb_encrypt ue_aes_cmac aes128_ctr ue_hmac_sha256.

Section Security.
Variable sendto : nat -> sockaddr -> bytes -> Z.

(** ** What sending leaves *)

(** [ctx'] is [ctx] after the plain message [plain] was sent: protected when
    security is active, wrapped for RRC, and handed to the transport. *)
Definition sent_nas (ctx : ue_context) (integrity_only : bool) (plain : bytes) (ctx' : ue_context) : Prop :=
  exists pdu r t,
    octets_of (ul_info_transfer_bits (uplink_pdu (uc_nas_sec ctx) integrity_only plain)) pdu
    /\ rt_send_nas_pdu sendto (uc_ran ctx) pdu UE_RRC_CHANNEL_UL_DCCH = Some (r, t)
    /\ ctx' = ctx <| uc_nas_sec := (uplink_spent (uc_nas_sec ctx)) |> <| uc_ran := t |>.

(** An encoder that wrote [w] at the start of its buffer. *)
Lemma send_encoded_sent ctx w b io :
  sec_ok (Some (uc_nas_sec ctx)) -> (1 <= length w <= length b)%nat -> Z.of_nat (length w) <= 8185 ->
  exists ctx', engine_send_encoded sendto ctx (Some (Z.of_nat (length w), Some (over w b))) io = Some ctx'
    /\ sent_nas ctx io w ctx'.
Proof.
  intros Hs Hw Hm. unfold engine_send_encoded. cbn [mbind option_bind].
  replace (0 <? Z.of_nat (length w)) with true by lia.
  destruct (engine_send_result sendto ctx (over w b) (length w) io Hs)
    as (pdu & r & t & Ho & Es & _ & _ & E); [rewrite length_over by lia; lia|lia|].
  rewrite E. cbn [mbind option_bind]. eexists. split; [reflexivity|].
  exists pdu, r, t. rewrite take_over in Ho by lia. split_and!; [exact Ho|exact Es|reflexivity].
Qed.

(** Any message the engine encodes: only the transport and the uplink COUNT of
    the current context change. *)
Lemma send_encoded_exact ctx enc io :
  engine_inv ctx -> sendable enc ->
  exists t sec, engine_send_encoded sendto ctx enc io
      = Some (ctx <| uc_nas_sec := sec |> <| uc_ran := t |>)
    /\ ul_only (uc_nas_sec ctx) sec.
Proof.
  intros Hi (len & buf & -> & Hl). unfold engine_send_encoded. cbn [mbind option_bind].
  assert (ul_only (uc_nas_sec ctx) (uc_nas_sec ctx)) as H0 by (by eexists (sc_ul_count _)).
  destruct (Z.ltb_spec 0 len); [|by exists (uc_ran ctx), (uc_nas_sec ctx)].
  destruct (engine_send_result sendto ctx buf (Z.to_nat len) io) as (pdu & r & t & _ & _ & _ & _ & E);
    [apply Hi|lia|lia|].
  rewrite Z2Nat.id in E by lia. rewrite E. cbn [mbind option_bind].
  exists t, (uplink_spent (uc_nas_sec ctx)). split; [reflexivity|]. by apply uplink_spent_ul.
Qed.

(** ** Taking a context into use *)

(** Every context the handler may return is as active as [b] says. *)
Definition active_is (b : bool) (r : option ue_context) : Prop :=
  forall c, r = Some c -> sc_active (uc_nas_sec c) = b.

Lemma active_some b c : sc_active (uc_nas_sec c) = b -> active_is b (Some c).
Proof. by intros H c' [= <-]. Qed.

Lemma active_bind b r f :
  active_is b r -> (forall c, sc_active (uc_nas_sec c) = b -> active_is b (f c)) -> active_is b (r ≫= f).
Proof. intros H Hf c. destruct r as [c0|]; [|done]. apply Hf. by apply H. Qed.

Lemma protect_active buf n sec plain len sht r b' sec' :
  ue_nas_security_protect_with_sht buf n sec plain len sht = Some (r, b', sec') ->
  sc_active sec' = sc_active sec.
Proof.
  unfold ue_nas_security_protect_with_sht. cbv [mbind option_bind].
  intros E. repeat (case_match; simplify_eq; try done).
Qed.

Lemma send_encoded_active ctx enc io :
  active_is (sc_active (uc_nas_sec ctx)) (engine_send_encoded sendto ctx enc io).
Proof.
  intros c. unfold engine_send_encoded, engine_send_nas_uplink, engine_protect. cbv [mbind option_bind].
  intros E. repeat (case_match; simplify_eq; try done).
  all: match goal with H : ue_nas_security_protect_with_sht _ _ _ _ _ _ = _ |- _ =>
    apply protect_active in H; cbn; congruence end.
Qed.

Lemma auth_accept_active ctx e sqn :
  active_is (sc_active (uc_nas_sec ctx)) (auth_accept sendto ctx e sqn).
Proof.
  unfold auth_accept. cbv zeta. intros c.
  destruct (ev_has_ngksi e); (destruct (serving_network_name _) as [snn|]; [|done]); cbn [mbind option_bind];
    (match goal with |- (?m ≫= _) = _ -> _ => destruct m as [[rc keys]|]; [|done] end);
    cbn [mbind option_bind]; (destruct (rc <? 0); [by intros [= <-]|]);
    intros E; by apply send_encoded_active in E.
Qed.

Lemma authentication_active ctx e :
  active_is (sc_active (uc_nas_sec ctx)) (on_authentication_request sendto ctx e).
Proof.
  unfold on_authentication_request. cbv zeta.
  destruct (_ || _); [by apply active_some|].
  destruct (parse_hex_bytes (sim_key _) 16) as [k|]; [|by apply active_some].
  destruct (parse_hex_bytes (sim_opc _) 16) as [opc|]; [|by apply active_some].
  destruct (parse_hex_bytes (sim_amf _) 2) as [amf|]; [|by apply active_some].
  assert (forall m1 m2, sc_active ((store_challenge (uc_nas_sec ctx) e) <| sc_milenage := m1 |> <| sc_milenage := m2 |>)
    = sc_active (uc_nas_sec ctx)) as Ha.
  { intros m1 m2. unfold store_challenge. cbv zeta. by destruct (_ && _). }
  destruct (negb _); [intros c E; apply send_encoded_active in E; etransitivity; [exact E|apply Ha]|].
  destruct (_ && _); [intros c E; apply send_encoded_active in E; etransitivity; [exact E|apply Ha]|].
  intros c E. apply auth_accept_active in E. etransitivity; [exact E|apply Ha].
Qed.

Lemma est_reject_active ctx e :
  engine_inv ctx -> active_is (sc_active (uc_nas_sec ctx)) (on_est_reject sendto ctx e).
Proof.
  intros Hi. unfold on_est_reject. destruct (is_ims_transaction ctx e); [by apply active_some|].
  destruct (negb _); [apply send_encoded_active|]. cbv zeta.
  match goal with |- context [ue_sm_on_pdu_session_reject _ _ ?c] =>
    destruct (est_reject_adapter sendto ctx c Hi) as (sm & t & sec & E & _ & _ & _ & _ & (c' & ->)) end.
  unfold handlers_sender in E. rewrite E. cbn [mbind option_bind]. by apply active_some.
Qed.

(** No event but a Security Mode Command changes whether security is active. *)
Lemma event_active ctx e :
  engine_inv ctx -> ev_type e <> UE_NAS_EVENT_SECURITY_MODE_COMMAND ->
  active_is (sc_active (uc_nas_sec ctx)) (handle_nas_event sendto ctx e).
Proof.
  intros Hi Ht. unfold handle_nas_event. destruct (ev_type e).
  - by apply active_some.
  - unfold on_registration_accept. apply active_bind.
    + destruct (_ && _); [|by apply active_some].
      intros c E. apply send_encoded_active in E. exact E.
    + intros c Hc. by destruct (ev_has_t3512 e); apply active_some.
  - by apply active_some.
  - unfold on_est_accept. destruct (is_ims_transaction ctx e).
    { apply active_some. unfold on_ims_accept. cbv zeta. by destruct (ev_has_pcscf e). }
    destruct (negb _); [apply send_encoded_active|]. cbv zeta.
    apply active_some. by destruct (is_sm _ _).
  - by apply est_reject_active.
  - unfold on_release_cmd. apply active_bind; [apply send_encoded_active|].
    intros c Hc. destruct (_ && _); by apply active_some.
  - apply authentication_active.
  - done.
  - apply send_encoded_active.
  - unfold on_config_update. destruct (ev_config_update_ack_requested e);
      [apply send_encoded_active|by apply active_some].
  - by apply active_some.
Qed.

(** The stored header and payload of a protected message verify, under the keys
    derived from the K_AMF of [base] for the algorithms the command names; its
    COUNT is the current one with the received sequence number, or has overflow
    0. *)
Definition smc_verified (ctx : ue_context) (e : ue_nas_event) (base : ue_nas_security_ctx)
    (keys : ue_nas_keys) : Prop :=
  uc_dl_sec_hdr_valid ctx = true /\ uc_dl_sec_hdr_sht ctx = NAS_SHT_INTEGRITY_PROTECTED_NEW_CTX
  /\ ue_nas_derive_knas_from_kamf (k_kamf (sc_keys base)) (smc_int_alg e) (smc_enc_alg e)
     = Some (k_knas_int keys, k_knas_enc keys)
  /\ exists count, sqn count = uc_dl_sec_hdr_sqn ctx
     /\ (overflow count = overflow (sc_dl_count base) \/ overflow count = 0)
     /\ uc_dl_sec_hdr_mac ctx
        = ue_nas_compute_mac (smc_int_alg e) (ue_nas_count_value count) 1 1 (k_knas_int keys)
            (uc_dl_sec_hdr_sqn ctx :: take (uc_smc_last_payload_len ctx) (uc_smc_last_payload ctx)).

Lemma verify_smc_sound ctx e base keys c0 :
  verify_smc_new_context_mac ctx base (uc_smc_last_payload ctx) (uc_smc_last_payload_len ctx)
    (uc_smc_last_inner_len ctx) (smc_int_alg e) (smc_enc_alg e) (smc_ngksi e) = Some (Some (keys, c0)) ->
  smc_verified ctx e base keys.
Proof.
  clear sendto. unfold verify_smc_new_context_mac. cbv zeta.
  destruct (_ =?n 0); [done|]. destruct (negb _ || negb _) eqn:Eh; [done|].
  apply orb_false_iff in Eh as [E1%negb_false_iff E2%negb_false_iff%Z.eqb_eq].
  destruct (256 <?n _); [done|].
  destruct (ue_nas_derive_knas_from_kamf _ _ _) as [[ki ke]|] eqn:Ek; [|done]. cbn [mbind option_bind].
  destruct (slice _ 0 _) as [p|] eqn:Ep; [|done]. cbn [mbind option_bind].
  assert (p = take (uc_smc_last_payload_len ctx) (uc_smc_last_payload ctx)) as ->.
  { unfold slice in Ep. destruct (_ <=?n _); [|done]. injection Ep as <-. reflexivity. }
  destruct (256 <?n _); [done|].
  match goal with |- context [if (?a =? uc_dl_sec_hdr_mac ctx) then _ else _] =>
    destruct (a =? uc_dl_sec_hdr_mac ctx) eqn:Em end.
  - intros [= <- <-]. apply Z.eqb_eq in Em. split_and!; [done|done|exact Ek|].
    eexists. split; [|split; [|symmetry; exact Em]]; [reflexivity|by left].
  - clear Em. match goal with |- context [if (?a =? uc_dl_sec_hdr_mac ctx) then _ else _] =>
      destruct (a =? uc_dl_sec_hdr_mac ctx) eqn:Em end; [|done].
    intros [= <- <-]. apply Z.eqb_eq in Em. split_and!; [done|done|exact Ek|].
    eexists. split; [|split; [|symmetry; exact Em]]; [reflexivity|by right].
Qed.

(** What taking the non-current context into use, and the reply, leave of it. *)
Lemma smc_reply_sec ctx : engine_inv ctx ->
  exists t sec, send_smc_complete sendto ctx = Some (ctx <| uc_nas_sec := sec |> <| uc_ran := t |>)
    /\ ul_only (uc_nas_sec ctx) sec.
Proof.
  intros Hi. unfold send_smc_complete. cbv zeta. destruct (ei_guti _ Hi) as [Hg Hgl].
  match goal with |- context [ue_nas_encode_registration_request _ _ (Some ?a) (Some ?b) (Some ?c)
      ?s ?r ?g ?n ?k ?i] =>
    destruct (registration_request_total a b c s r g n k i) as (len & buf & -> & Hlen & Hbuf) end.
  { destruct (uc_guti_len ctx =?n 0) eqn:E; cbn [default from_option id]; [|lia].
    apply Nat.eqb_eq in E. rewrite E. simpl. lia. }
  { lia. }
  cbn [mbind option_bind]. apply send_encoded_exact; [done|].
  destruct (0 <? len) eqn:E; apply smc_complete_sendable; cbn [default from_option id]; lia.
Qed.

(** C6: security starts in one way only: by a Security Mode Command for the key
    set of the last accepted challenge, whose MAC, over the stored message,
    verifies under the keys derived from the K_AMF of that challenge for the
    algorithms the command names; those algorithms and keys are then in use, and
    the challenge is spent. *)
Theorem security_started_by_verified_smc ctx e ctx' :
  engine_inv ctx -> event_ok e ->
  handle_nas_event sendto ctx e = Some ctx' ->
  sc_active (uc_nas_sec ctx) = false -> sc_active (uc_nas_sec ctx') = true ->
  ev_type e = UE_NAS_EVENT_SECURITY_MODE_COMMAND
  /\ uc_nas_sec_non_current_valid ctx = true /\ uc_nas_sec_non_current_valid ctx' = false
  /\ sc_ngksi (uc_nas_sec_non_current ctx) = smc_ngksi e
  /\ smc_verified ctx e (uc_nas_sec_non_current ctx) (sc_keys (uc_nas_sec ctx'))
  /\ sc_int_alg (uc_nas_sec ctx') = smc_int_alg e /\ sc_enc_alg (uc_nas_sec ctx') = smc_enc_alg e.
Proof.
  intros Hi He E Hoff Hon.
  destruct (decide (ev_type e = UE_NAS_EVENT_SECURITY_MODE_COMMAND)) as [Ht|Ht].
  2:{ pose proof (event_active ctx e Hi Ht ctx' E) as H. congruence. }
  split; [done|]. unfold handle_nas_event in E. rewrite Ht in E. unfold on_security_mode_command in E.
  destruct (smc_target ctx (smc_ngksi e)) as [[target b]|] eqn:Etg; [|congruence].
  pose proof (smc_target_wf _ _ _ _ Hi Etg) as Hwf.
  unfold smc_target in Etg. rewrite Hoff in Etg. cbn [andb] in Etg.
  destruct (uc_nas_sec_non_current_valid ctx && _) eqn:Env; [|done]. injection Etg as <- <-.
  apply andb_true_iff in Env as [Hv Hng%Z.eqb_eq].
  destruct (duplicate_smc ctx e).
  { destruct (smc_reply_sec (remember_smc ctx e) (remember_smc_keeps ctx e Hi)) as (t & sec & E' & (c & Hu)).
    rewrite E in E'. injection E' as ->. exfalso. revert Hon. cbn. rewrite Hu. cbn.
    unfold remember_smc. destruct (_ && _); cbn; congruence. }
  destruct (ei_payload _ Hi) as [Hp Hpl].
  destruct (verify_smc_total ctx (uc_nas_sec_non_current ctx) (uc_smc_last_payload ctx)
    (uc_smc_last_payload_len ctx) (uc_smc_last_inner_len ctx) (smc_int_alg e) (smc_enc_alg e) (smc_ngksi e)
    ltac:(lia)) as (v & Ev & Hkeys). rewrite Ev in E. cbn [mbind option_bind] in E.
  destruct v as [[keys c0]|]; [|congruence]. destruct Hkeys as [Hki Hke].
  apply verify_smc_sound in Ev.
  destruct (smc_activate_keeps ctx e (uc_nas_sec_non_current ctx) true keys c0 Hi Hwf Hki Hke) as [H1 _].
  set (c1 := smc_activate ctx e (uc_nas_sec_non_current ctx) true keys c0) in *.
  assert (uc_nas_sec_non_current_valid c1 = false /\ sc_keys (uc_nas_sec c1) = keys
    /\ sc_int_alg (uc_nas_sec c1) = smc_int_alg e /\ sc_enc_alg (uc_nas_sec c1) = smc_enc_alg e)
    as (P1 & P2 & P3 & P4).
  { unfold c1, smc_activate. cbv zeta. by destruct (ev_has_ngksi e), c0. }
  assert (uc_nas_sec (remember_smc c1 e) = uc_nas_sec c1
    /\ uc_nas_sec_non_current_valid (remember_smc c1 e) = uc_nas_sec_non_current_valid c1) as [R1 R2].
  { unfold remember_smc. by destruct (_ && _). }
  pose proof (remember_smc_keeps c1 e H1) as H2. set (c2 := remember_smc c1 e) in *. clearbody c1 c2.
  destruct (smc_reply_sec c2 H2) as (t & sec & E' & (c & Hu)).
  rewrite E in E'. injection E' as ->. subst sec.
  assert (forall {A} (f : ue_nas_security_ctx -> A), f (uc_nas_sec c2) = f (uc_nas_sec c1)) as Hf
    by (intros; by rewrite R1).
  split; [done|]. split; [exact (eq_trans R2 P1)|]. split; [done|]. split.
  - assert (sc_keys (uc_nas_sec c2) = keys) as Hk by (by rewrite R1). rewrite <- Hk in Ev. exact Ev.
  - split; [exact (eq_trans (Hf _ sc_int_alg) P3)|exact (eq_trans (Hf _ sc_enc_alg) P4)].
Qed.

(** ** Authentication *)

(** The SQN of the challenge, the values Milenage gives for it, and the context
    with the challenge recorded. *)
Definition challenge_sqn (opc k amf : bytes) (e : ue_nas_event) : bytes :=
  xor_bytes (take 6 (ev_auth_autn e))
    (mil_ak (ue_milenage_compute opc k (ev_auth_rand e) (replicate 6 0) amf)).
Definition challenge_values (opc k amf : bytes) (e : ue_nas_event) : ue_milenage_result :=
  ue_milenage_compute opc k (ev_auth_rand e) (challenge_sqn opc k amf e) amf.
Definition challenged (ctx : ue_context) (opc k amf : bytes) (e : ue_nas_event) : ue_context :=
  ctx <| uc_nas_sec :=
    ((store_challenge (uc_nas_sec ctx) e) <| sc_milenage := (challenge_values opc k amf e) |>) |>.

(** The AUTS of TS 33.102: the highest SQN accepted, concealed, and MAC-S. *)
Definition resync_token (opc k rand sqn_ms : bytes) : bytes :=
  let rs := ue_milenage_compute opc k rand sqn_ms [0; 0] in
  xor_bytes sqn_ms (mil_ak_star rs) ++ mil_mac_s rs.

(** The context a genuine challenge leads to, from [c]: the keys are those of the
    challenge in the current context, whatever it held, and in its copy. *)
Definition authenticated (c : ue_context) (e : ue_nas_event) (sqn : bytes) (keys : ue_nas_keys)
    (c' : ue_context) : Prop :=
  uc_auth_sqn_ms c' = sqn /\ uc_auth_sqn_ms_valid c' = true
  /\ uc_nas_sec c' = (uc_nas_sec c) <| sc_keys := keys |>
  /\ uc_nas_sec_non_current_valid c' = true
  /\ sc_active (uc_nas_sec_non_current c') = true /\ sc_keys (uc_nas_sec_non_current c') = keys
  /\ sc_ul_count (uc_nas_sec_non_current c') = NasCount 0 0
  /\ sc_dl_count (uc_nas_sec_non_current c') = NasCount 0 0
  /\ sc_ngksi (uc_nas_sec_non_current c') = (if ev_has_ngksi e then ev_ngksi e else 0).

Definition challenge_keys (c : ue_context) (e : ue_nas_event) (sqn : bytes) (keys : ue_nas_keys) : Prop :=
  let m := sc_milenage (uc_nas_sec c) in
  exists snn, serving_network_name (uc_cfg c) = Some snn
  /\ ue_nas_derive_keys (Some (mil_ck m)) (Some (mil_ik m)) (Some (mil_ak m)) (Some (ev_auth_rand e))
       (Some (mil_res m)) (Some sqn) (Some snn) (Some (strcpy_n 48 (sim_imsi (cfg_sim (uc_cfg c)))))
       (Some (sc_abba (uc_nas_sec c))) (Z.to_nat (sc_abba_len (uc_nas_sec c))) UE_NIA2 UE_NEA0
       (sc_keys (uc_nas_sec c)) = Some (0, keys).

Lemma sec_wf_ok sec : sec_wf sec -> sec_ok (Some sec).
Proof. by intros [H _ _ _]. Qed.

(** The encoders of the two answers, on the engine's buffers. *)
Lemma auth_failure_sent ctx cause n :
  engine_inv ctx -> (4 <= n)%nat ->
  exists ctx', engine_send_encoded sendto ctx
      (ue_nas_encode_auth_failure (Some (replicate n 0)) n cause None 0) false = Some ctx'
    /\ sent_nas ctx false (auth_failure_wire cause []) ctx'.
Proof.
  intros Hi Hn.
  assert (ue_nas_encode_auth_failure (Some (replicate n 0)) n cause None 0
    = ue_nas_encode_auth_failure (Some (replicate n 0)) n cause (Some []) 0) as -> by reflexivity.
  rewrite (encode_auth_failure_result _ n cause []) by (by rewrite length_replicate).
  replace (n <?n 4) with false by lia.
  apply send_encoded_sent; [by apply sec_wf_ok, Hi|rewrite length_replicate; cbn; lia|cbn; lia].
Qed.

Lemma resync_sent ctx auts :
  engine_inv ctx -> length auts = 14%nat ->
  exists ctx', engine_send_encoded sendto ctx
      (ue_nas_encode_auth_failure (Some (replicate 32 0)) 32 0x15 (Some auts) 14) false = Some ctx'
    /\ sent_nas ctx false (auth_failure_wire 0x15 auts) ctx'.
Proof.
  intros Hi Ha. pose proof (encode_auth_failure_result (replicate 32 0) 32 0x15 auts (le_n 32)) as E.
  rewrite Ha in E at 1. rewrite E. clear E. cbv zeta. change (32 <?n 4) with false. cbv iota.
  replace ((0 <?n length auts) && (32 <?n 6 + length auts)) with false by lia.
  assert (length (auth_failure_wire 0x15 auts) = 20%nat) as Hw
    by (destruct auts; [done|]; cbn in *; lia).
  apply send_encoded_sent; [by apply sec_wf_ok, Hi|rewrite length_replicate; lia|lia].
Qed.

Lemma response_sent ctx res :
  engine_inv ctx -> length res = 16%nat ->
  exists ctx', engine_send_encoded sendto ctx
      (ue_nas_encode_auth_response (Some (replicate 64 0)) 64 (Some res) 16) false = Some ctx'
    /\ sent_nas ctx false (auth_response_wire res) ctx'.
Proof.
  intros Hi Ha. pose proof (encode_auth_response_result (replicate 64 0) 64 res (le_n 64) ltac:(lia)) as E.
  rewrite Ha in E at 1. rewrite E. clear E.
  replace (64 <?n 5 + length res) with false by lia.
  assert (length (auth_response_wire res) = 21%nat) as Hw by (unfold auth_response_wire; rewrite !length_app; cbn; lia).
  cbv zeta. apply send_encoded_sent; [by apply sec_wf_ok, Hi|rewrite length_replicate; lia|lia].
Qed.

Lemma auth_accept_result ctx e sqn :
  engine_inv ctx -> event_ok e -> length sqn = 6%nat ->
  length (mil_res (sc_milenage (uc_nas_sec ctx))) = 8%nat ->
  length (mil_ak (sc_milenage (uc_nas_sec ctx))) = 6%nat ->
  exists keys c ctx', auth_accept sendto ctx e sqn = Some ctx' /\ challenge_keys ctx e sqn keys
    /\ authenticated ctx e sqn keys c /\ sent_nas c false (auth_response_wire (k_res_star keys)) ctx'.
Proof.
  intros Hi He Hs Hres Hak.
  pose proof He as [Hrand _ _]. destruct (ei_plmn _ Hi) as [Hmcc Hmnc].
  destruct (serving_network_name_total (uc_cfg ctx) Hmcc Hmnc) as (snn & Esnn & Hsnn).
  pose proof (ei_sec _ Hi) as Hsec. pose proof (sw_abba_len _ Hsec). pose proof (sw_abba _ Hsec) as Habba.
  pose proof (length_strcpy_n 48 (sim_imsi (cfg_sim (uc_cfg ctx))) ltac:(lia)) as Hsupi.
  destruct (derive_keys_blocks (mil_ck (sc_milenage (uc_nas_sec ctx))) (mil_ik (sc_milenage (uc_nas_sec ctx)))
    (mil_ak (sc_milenage (uc_nas_sec ctx))) (ev_auth_rand e) (mil_res (sc_milenage (uc_nas_sec ctx))) sqn snn
    (strcpy_n 48 (sim_imsi (cfg_sim (uc_cfg ctx)))) (sc_abba (uc_nas_sec ctx))
    (Z.to_nat (sc_abba_len (uc_nas_sec ctx))) UE_NIA2 UE_NEA0 (sc_keys (uc_nas_sec ctx)))
    as (keys & Ek & _ & _ & Hki & Hke & [Hrs _]); [lia|lia|lia|rewrite Habba; lia|done|done|lia|lia|].
  assert (challenge_keys ctx e sqn keys) as Hck by (exists snn; exact (conj Esnn Ek)).
  unfold auth_accept. cbv zeta.
  set (c1 := if ev_has_ngksi e then _ else _).
  assert (engine_inv c1 /\ uc_nas_sec c1 = uc_nas_sec ctx /\ uc_cfg c1 = uc_cfg ctx
    /\ uc_auth_sqn_ms c1 = sqn /\ uc_auth_sqn_ms_valid c1 = true) as (H1 & E1 & E2 & E3 & E4).
  { unfold c1. destruct (ev_has_ngksi e); (split; [by inv_fields Hi|done]). }
  clearbody c1. rewrite E2, Esnn. cbn [mbind option_bind]. rewrite E1, Ek. cbn [mbind option_bind].
  change (0 <? 0) with false. cbv iota.
  match goal with |- context [engine_send_encoded sendto ?c _ false] => set (c2 := c) end.
  assert (engine_inv c2) as H2.
  { pose proof (keys_wf _ keys Hsec Hki Hke) as Hk. unfold c2. inv_fields H1.
    apply (activated_wf _ _ Hk); try done. by right. }
  destruct (response_sent c2 (k_res_star keys) H2 Hrs) as (ctx' & E & Hsent).
  exists keys, c2, ctx'. split; [exact E|]. split; [exact Hck|]. split; [|exact Hsent].
  unfold authenticated. split_and!; [exact E3|exact E4|reflexivity..].
Qed.

(** C7: an authentication challenge is answered in one of three ways.  With a
    MAC-A that is not Milenage's the answer is Authentication Failure, cause 20;
    with a sequence number below the highest accepted one it is Authentication
    Failure, cause 21, with the AUTS of TS 33.102, and neither keys nor sequence
    number change.  Any other challenge is accepted, one with the highest
    sequence number again too: the keys are derived at once into the current
    context, also when it is in use, and the response with RES* is sent under
    them. *)
Theorem authentication_outcome ctx e opc k amf :
  engine_inv ctx -> event_ok e -> ev_has_auth_rand e = true -> ev_has_auth_autn e = true ->
  parse_hex_bytes (sim_key (cfg_sim (uc_cfg ctx))) 16 = Some k ->
  parse_hex_bytes (sim_opc (cfg_sim (uc_cfg ctx))) 16 = Some opc ->
  parse_hex_bytes (sim_amf (cfg_sim (uc_cfg ctx))) 2 = Some amf ->
  let c := challenged ctx opc k amf e in
  let sqn := challenge_sqn opc k amf e in
  exists ctx', on_authentication_request sendto ctx e = Some ctx'
  /\ (if negb (bool_decide (mil_mac_a (challenge_values opc k amf e) = take 8 (drop 8 (ev_auth_autn e))))
      then sent_nas c false (auth_failure_wire 0x14 []) ctx'
      else if uc_auth_sqn_ms_valid ctx && (be_val sqn <? be_val (uc_auth_sqn_ms ctx))
      then sent_nas c false
             (auth_failure_wire 0x15 (resync_token opc k (ev_auth_rand e) (uc_auth_sqn_ms ctx))) ctx'
      else exists keys c', challenge_keys c e sqn keys /\ authenticated c e sqn keys c'
             /\ sent_nas c' false (auth_response_wire (k_res_star keys)) ctx').
Proof.
  intros Hi He Hr Ha Ek Eo Ea. cbv zeta. unfold on_authentication_request. rewrite Hr, Ha, Ek, Eo, Ea.
  cbn [negb orb]. cbv iota zeta. pose proof He as [Hrand Hautn _].
  apply parse_hex_length in Ek, Eo, Ea.
  pose proof (milenage_lengths opc k (ev_auth_rand e) (replicate 6 0) amf Eo Ek Hrand
    ltac:(by rewrite length_replicate) ltac:(lia)) as Hm1. cbv zeta in Hm1.
  set (s1 := store_challenge (uc_nas_sec ctx) e).
  change (sc_milenage (s1 <| sc_milenage := ?m |>)) with m.
  fold (challenge_sqn opc k amf e). fold (challenge_values opc k amf e).
  assert (length (challenge_sqn opc k amf e) = 6%nat) as Hsqn.
  { unfold challenge_sqn. rewrite length_xor; [rewrite length_take; lia|]. rewrite length_take.
    destruct_and? Hm1. lia. }
  set (c1 := ctx <| uc_nas_sec := _ |>). change (challenged ctx opc k amf e) with c1.
  assert (engine_inv c1) as H1.
  { pose proof (milenage_wf _ (challenge_values opc k amf e) (store_challenge_wf _ e (ei_sec _ Hi))) as Hs.
    by inv_fields Hi. }
  change (mil_mac_a (sc_milenage _)) with (mil_mac_a (challenge_values opc k amf e)).
  change (uc_auth_sqn_ms_valid c1) with (uc_auth_sqn_ms_valid ctx).
  change (uc_auth_sqn_ms c1) with (uc_auth_sqn_ms ctx). unfold memcmp_lt.
  destruct (negb _); [by apply auth_failure_sent; [|lia]|].
  destruct (_ && _).
  - apply resync_sent; [done|]. unfold resync_token. cbv zeta.
    pose proof (milenage_lengths opc k (ev_auth_rand e) (uc_auth_sqn_ms ctx) [0; 0] Eo Ek Hrand
      ltac:(rewrite (ei_sqn _ Hi); lia) ltac:(simpl; lia)) as Hr'. cbv zeta in Hr'. destruct_and? Hr'.
    rewrite length_app, length_xor by (rewrite (ei_sqn _ Hi); lia). rewrite (ei_sqn _ Hi). lia.
  - pose proof (milenage_lengths opc k (ev_auth_rand e) (challenge_sqn opc k amf e) amf Eo Ek Hrand
      ltac:(lia) ltac:(lia)) as Hm2. cbv zeta in Hm2.
    destruct (auth_accept_result c1 e (challenge_sqn opc k amf e) H1 He Hsqn) as (keys & c & ctx' & E & Hc & Hau & Hsent);
      [apply Hm2|apply Hm2|].
    exists ctx'. split; [exact E|]. by exists keys, c.
Qed.

(** ** Messages that nothing authenticates *)

(** A bare 5GSM Release Command of five bytes. *)
Definition bare_release (psi pti cause : Z) : bytes := [0x2E; psi; pti; 0xD3; cause].

Lemma bare_release_decodes psi pti cause :
  exists e, ue_nas_decode_event (Some (bare_release psi pti cause)) 5 nas_event_zero = Some (0, e)
    /\ ev_type e = UE_NAS_EVENT_PDU_SESSION_RELEASE_CMD /\ ev_psi e = psi /\ ev_pti e = pti.
Proof. eexists. split; [reflexivity|done]. Qed.

(** A plain message: the event it decodes to is processed, whatever the
    security context. *)
Lemma plain_processed ctx nas len e :
  (2 <= len)%nat -> (exists epd, nas !! 0%nat = Some epd /\ (epd <> NAS_EPD_5GMM \/ nas !! 1%nat = Some 0)) ->
  is_Some (nas !! 1%nat) -> ue_nas_decode_event (Some nas) len nas_event_zero = Some (0, e) ->
  decode_and_process_nas sendto ctx nas len
  = c ← engine_process_nas_event sendto ctx e; Some (0, nas, c).
Proof.
  intros Hl (epd & E0 & Hp) [sht E1] Ed. unfold decode_and_process_nas, unwrap_nas.
  replace (len <?n 2) with false by lia. rewrite E0, E1. cbn [mbind option_bind].
  assert (negb (epd =? NAS_EPD_5GMM) || (sht =? NAS_SHT_NOT_PROTECTED) = true) as ->.
  { unfold NAS_SHT_NOT_PROTECTED. destruct Hp as [H|H]; [by replace (epd =? _) with false by lia|].
    assert (sht = 0) as -> by congruence. apply orb_true_r. }
  cbn [mbind option_bind]. rewrite drop_0, Ed. reflexivity.
Qed.

(** A plain 5GSM message is processed although security is active: five
    bytes without a MAC, naming any session, tear down the host's session. *)
Lemma forged_release_obeyed ctx psi pti cause :
  engine_inv ctx -> sc_active (uc_nas_sec ctx) = true -> sm_state (uc_sm ctx) = UE_SM_ACTIVE ->
  uc_ims_pdu_active ctx && (psi =? uc_ims_psi ctx) = false ->
  exists ctx', decode_and_process_nas sendto ctx (bare_release psi pti cause) 5
      = Some (0, bare_release psi pti cause, ctx')
    /\ sm_state (uc_sm ctx') = UE_SM_INACTIVE /\ up_has_session (uc_up ctx') = false.
Proof.
  intros Hi _ Hs Hims. destruct (bare_release_decodes psi pti cause) as (e & Ed & Et & Ep & _).
  rewrite (plain_processed ctx _ 5 e); [|lia|by exists 0x2E; split; [|left]|by eexists|exact Ed].
  unfold engine_process_nas_event, handle_nas_event. rewrite Et. unfold on_release_cmd.
  destruct (send_encoded_exact ctx (ue_nas_encode_pdu_session_release_complete (Some (replicate 16 0)) 16
    (ev_psi e) (ev_pti e)) false Hi (release_complete_sendable _ _)) as (t & sec & -> & _).
  cbn [mbind option_bind].
  set (c := ctx <| uc_nas_sec := sec |> <| uc_ran := t |>).
  change (uc_ims_pdu_active c && (ev_psi e =? uc_ims_psi c))
    with (uc_ims_pdu_active ctx && (ev_psi e =? uc_ims_psi ctx)). rewrite Ep, Hims. cbn [mbind option_bind].
  eexists. split; [reflexivity|].
  set (c' := c <| uc_up := _ |> <| uc_sm := _ |>).
  assert (forall m s, uc_sm (flag_sm s (flag_mm m c')) = uc_sm c' /\ uc_up (flag_sm s (flag_mm m c')) = uc_up c') as Hf.
  { intros m s. unfold flag_sm, flag_mm. by destruct (mm_changed _ _), (sm_changed _ _). }
  destruct (Hf (uc_mm ctx) (uc_sm ctx)) as [-> ->]. split.
  - change (sm_state (ue_sm_on_pdu_session_released (uc_sm ctx)) = UE_SM_INACTIVE).
    unfold ue_sm_on_pdu_session_released, is_sm. rewrite Hs. reflexivity.
  - change (up_has_session (ue_up_unbind_session (uc_up ctx)) = false).
    reflexivity.
Qed.

(** A Security Mode Command that names NEA0 and NIA0 for key set [ng], in an
    envelope whose MAC is zero, and without the UE's security capabilities. *)
Definition null_smc (sq ng : Z) : bytes := [0x7E; 3; 0; 0; 0; 0; sq; 0x7E; 0; 0x5D; 0; ng].

(** The context once the envelope is stored. *)
Definition null_smc_stored (ctx : ue_context) (sq ng : Z) : ue_context :=
  ctx <| uc_dl_sec_hdr_valid := true |> <| uc_dl_sec_hdr_sht := 3 |> <| uc_dl_sec_hdr_mac := 0 |>
      <| uc_dl_sec_hdr_sqn := sq |>
      <| uc_smc_last_payload := (over [0x7E; 0; 0x5D; 0; ng] (uc_smc_last_payload ctx)) |>
      <| uc_smc_last_payload_len := 5%nat |>
      <| uc_smc_last_inner := (over [0x7E; 0; 0x5D; 0; ng] (uc_smc_last_inner ctx)) |>
      <| uc_smc_last_inner_len := 5%nat |>.

Lemma null_smc_unwraps ctx sq ng :
  unwrap_nas ctx (null_smc sq ng) 12
  = Some (null_smc sq ng, Some (7, 5)%nat, null_smc_stored ctx sq ng).
Proof. reflexivity. Qed.

Lemma null_smc_decodes ng :
  0 <= ng <= 7 ->
  exists e, ue_nas_decode_event (Some [0x7E; 0; 0x5D; 0; ng]) 5 nas_event_zero = Some (0, e)
    /\ ev_type e = UE_NAS_EVENT_SECURITY_MODE_COMMAND /\ smc_ngksi e = ng
    /\ smc_int_alg e = UE_NIA0 /\ smc_enc_alg e = UE_NEA0.
Proof.
  intros Hn. eexists. split; [reflexivity|]. split_and!; [reflexivity| |reflexivity..].
  change (ng &. 0x07 = ng). rewrite land_07. lia.
Qed.

(** A Security Mode Command that selects the null algorithms takes the keys
    of a challenge into use although its MAC is zero: whatever the keys, and
    without the UE's capabilities being replayed, the UE goes on with null
    integrity and null ciphering. *)
Lemma null_integrity_accepted ctx sq :
  engine_inv ctx -> sc_active (uc_nas_sec ctx) = false -> uc_nas_sec_non_current_valid ctx = true ->
  uc_smc_last_valid ctx = false -> 0 <= sc_ngksi (uc_nas_sec_non_current ctx) <= 7 ->
  let nas := null_smc sq (sc_ngksi (uc_nas_sec_non_current ctx)) in
  exists ctx', decode_and_process_nas sendto ctx nas 12 = Some (0, nas, ctx')
    /\ sc_active (uc_nas_sec ctx') = true
    /\ sc_int_alg (uc_nas_sec ctx') = UE_NIA0 /\ sc_enc_alg (uc_nas_sec ctx') = UE_NEA0.
Proof.
  intros Hi Hoff Hv Hlast Hng. cbv zeta. set (ng := sc_ngksi (uc_nas_sec_non_current ctx)) in *.
  unfold decode_and_process_nas. rewrite null_smc_unwraps. cbn [mbind option_bind].
  change (drop 7 (null_smc sq ng)) with [0x7E; 0; 0x5D; 0; ng].
  destruct (null_smc_decodes ng Hng) as (e & -> & Et & En & Eia & Eea). cbn [mbind option_bind].
  change (0 <? 0) with false. cbv iota.
  destruct (unwrap_total ctx (null_smc sq ng) 12 Hi (le_n 12)) as (n' & p' & c' & Eu & _ & _ & H1 & _).
  rewrite null_smc_unwraps in Eu. injection Eu as _ _ <-.
  set (c1 := null_smc_stored ctx sq ng) in *.
  assert (smc_target c1 (smc_ngksi e) = Some (uc_nas_sec_non_current c1, true)) as Htg.
  { unfold smc_target. change (uc_nas_sec c1) with (uc_nas_sec ctx). rewrite Hoff. cbn [andb].
    change (uc_nas_sec_non_current_valid c1) with (uc_nas_sec_non_current_valid ctx).
    rewrite Hv, En. by rewrite Z.eqb_refl. }
  assert (duplicate_smc c1 e = false) as Hdup.
  { unfold duplicate_smc. change (uc_smc_last_valid c1) with (uc_smc_last_valid ctx).
    by rewrite Hlast, !andb_false_r. }
  unfold engine_process_nas_event, handle_nas_event. rewrite Et. unfold on_security_mode_command.
  rewrite Htg, Hdup. unfold verify_smc_new_context_mac. change (uc_smc_last_payload_len c1) with 5%nat.
  change (uc_smc_last_inner_len c1) with 5%nat.
  change (negb (uc_dl_sec_hdr_valid c1) || negb (uc_dl_sec_hdr_sht c1 =? NAS_SHT_INTEGRITY_PROTECTED_NEW_CTX))
    with false. cbn [Nat.eqb]. cbv iota. change (256 <?n 5) with false. cbv iota.
  rewrite Eia, Eea.
  destruct (knas_total (k_kamf (sc_keys (uc_nas_sec_non_current c1))) UE_NIA0 UE_NEA0)
    as (ki & ke & -> & Hki & Hke). cbn [mbind option_bind].
  rewrite slice_in by (destruct (ei_payload _ H1); lia). cbn [mbind option_bind]. cbv zeta.
  change (ue_nas_compute_mac UE_NIA0 _ 1 1 ki _ =? uc_dl_sec_hdr_mac c1) with true. cbv iota.
  cbn [mbind option_bind].
  match goal with |- context [smc_activate c1 e ?t true ?k ?o] =>
    destruct (smc_activate_keeps c1 e t true k o H1 (ei_non_current _ H1) Hki Hke) as [H2 _];
    assert (sc_active (uc_nas_sec (smc_activate c1 e t true k o)) = true
      /\ sc_int_alg (uc_nas_sec (smc_activate c1 e t true k o)) = smc_int_alg e
      /\ sc_enc_alg (uc_nas_sec (smc_activate c1 e t true k o)) = smc_enc_alg e) as (P1 & P2 & P3)
      by (unfold smc_activate; cbv zeta; by destruct (ev_has_ngksi e));
    set (c2 := smc_activate c1 e t true k o) in * end.
  pose proof (remember_smc_keeps c2 e H2) as H3.
  assert (uc_nas_sec (remember_smc c2 e) = uc_nas_sec c2) as R by (unfold remember_smc; by destruct (_ && _)).
  set (c3 := remember_smc c2 e) in *. clearbody c1 c2 c3.
  destruct (smc_reply_sec c3 H3) as (t & sec & -> & (c & ->)). cbn [mbind option_bind].
  eexists. split; [reflexivity|].
  set (c4 := c3 <| uc_nas_sec := _ |> <| uc_ran := t |>).
  assert (forall m s, uc_nas_sec (flag_sm s (flag_mm m c4)) = uc_nas_sec c4) as Hf.
  { intros m s. unfold flag_sm, flag_mm. by destruct (mm_changed _ _), (sm_changed _ _). }
  rewrite Hf. rewrite <- R in P1, P2, P3. split_and!; [exact P1|exact (eq_trans P2 Eia)|exact (eq_trans P3 Eea)].
Qed.
End Security.

(** ** Witnesses *)

(** A context that is waiting for the command after challenge 5, with keys. *)
Definition test_keys : ue_nas_keys :=
  (sc_keys sec_ctx_zero) <| k_kamf := (replicate 32 7) |> <| k_knas_int := (replicate 16 1) |>
                         <| k_knas_enc := (replicate 16 2) |>.
Definition test_sec : ue_nas_security_ctx :=
  sec_ctx_zero <| sc_active := true |> <| sc_keys := test_keys |> <| sc_ngksi := 5 |>.
Definition test_challenged : ue_context :=
  test_engine <| uc_nas_sec_non_current := test_sec |> <| uc_nas_sec_non_current_valid := true |>.
Definition test_secured : ue_context :=
  test_engine <| uc_nas_sec := test_sec |>
              <| uc_sm := ((uc_sm test_engine) <| sm_state := UE_SM_ACTIVE |>) |>.

Lemma test_engine_inv : engine_inv test_engine.
Proof. exact (eo_inv _ (engine_reachable_ok _ _ _ _ _ _ test_engine_reachable)). Qed.

Lemma test_sec_wf : sec_wf test_sec.
Proof.
  split; [|split; cbn; lia|reflexivity|cbn; lia]. intros _. split; [reflexivity| | |split; cbn; lia].
  - split; [reflexivity|]. apply Forall_replicate. unfold is_byte. lia.
  - split; [reflexivity|]. apply Forall_replicate. unfold is_byte. lia.
Qed.

Lemma test_contexts_ok : engine_inv test_challenged /\ engine_inv test_secured.
Proof.
  pose proof test_engine_inv as Hi. pose proof test_sec_wf as Hs.
  split; [by inv_fields Hi|].
  assert (sm_inv ((uc_sm test_engine) <| sm_state := UE_SM_ACTIVE |>)) as Hsm.
  { destruct (ei_sm _ Hi) as [_ H1 H2 H3 H4 H5]. split; [|exact H1|exact H2|exact H3|exact H4|exact H5].
    vm_compute. repeat split. }
  by inv_fields Hi.
Qed.

Lemma null_integrity_accepted_witness :
  exists ctx', decode_and_process_nas test_sendto test_challenged (null_smc 0 5) 12
      = Some (0, null_smc 0 5, ctx')
    /\ sc_active (uc_nas_sec ctx') = true
    /\ sc_int_alg (uc_nas_sec ctx') = UE_NIA0 /\ sc_enc_alg (uc_nas_sec ctx') = UE_NEA0.
Proof.
  apply (null_integrity_accepted test_sendto test_challenged 0);
    [apply test_contexts_ok|reflexivity|reflexivity|reflexivity|cbn; lia].
Defined.

(** The null command, stored and decoded. *)
Definition test_null_event : ue_nas_event :=
  match ue_nas_decode_event (Some [0x7E; 0; 0x5D; 0; 5]) 5 nas_event_zero with
  | Some (_, e) => e
  | None => nas_event_zero
  end.
Definition test_stored : ue_context := null_smc_stored test_challenged 0 5.

Lemma security_started_by_verified_smc_witness :
  exists ctx', handle_nas_event test_sendto test_stored test_null_event = Some ctx'
  /\ smc_verified test_stored test_null_event test_sec (sc_keys (uc_nas_sec ctx')).
Proof.
  assert (engine_inv test_stored) as Hi.
  { destruct (unwrap_total test_challenged (null_smc 0 5) 12 (proj1 test_contexts_ok) (le_n 12))
      as (n' & p' & c' & Eu & _ & _ & H & _).
    rewrite null_smc_unwraps in Eu. injection Eu as _ _ <-. exact H. }
  assert (event_ok test_null_event) as He by (split; [reflexivity|reflexivity|vm_compute; split; discriminate]).
  destruct (handle_event_keeps test_sendto test_stored test_null_event Hi He) as (ctx' & E & _).
  exists ctx'. split; [exact E|].
  assert (match handle_nas_event test_sendto test_stored test_null_event with
          | Some c => sc_active (uc_nas_sec c) | None => false end = true) as Hact by (vm_compute; reflexivity).
  rewrite E in Hact.
  apply (security_started_by_verified_smc test_sendto test_stored test_null_event ctx' Hi He E
    eq_refl Hact).
Defined.

(** A challenge for the default subscriber whose MAC-A is wrong. *)
Definition test_challenge : ue_nas_event :=
  nas_event_zero <| ev_type := UE_NAS_EVENT_AUTHENTICATION_REQUEST |>
    <| ev_has_auth_rand := true |> <| ev_has_auth_autn := true |>
    <| ev_auth_rand := (replicate 16 1) |> <| ev_auth_autn := (replicate 16 2) |>.

Lemma authentication_outcome_witness :
  let opc := [0x63; 0xBF; 0xA5; 0x0E; 0xE6; 0x52; 0x33; 0x65; 0xFF; 0x14; 0xC1; 0xF4; 0x5F; 0x88; 0x73; 0x7D] in
  let k := [0; 0x11; 0x22; 0x33; 0x44; 0x55; 0x66; 0x77; 0x88; 0x99; 0xAA; 0xBB; 0xCC; 0xDD; 0xEE; 0xFF] in
  exists ctx', on_authentication_request test_sendto test_engine test_challenge = Some ctx'
  /\ sent_nas test_sendto (challenged test_engine opc k [0x80; 0] test_challenge) false
       (auth_failure_wire 0x14 []) ctx'.
Proof.
  cbv zeta.
  set (opc := [0x63; 0xBF; 0xA5; 0x0E; 0xE6; 0x52; 0x33; 0x65; 0xFF; 0x14; 0xC1; 0xF4; 0x5F; 0x88; 0x73; 0x7D]).
  set (k := [0; 0x11; 0x22; 0x33; 0x44; 0x55; 0x66; 0x77; 0x88; 0x99; 0xAA; 0xBB; 0xCC; 0xDD; 0xEE; 0xFF]).
  destruct (authentication_outcome test_sendto test_engine test_challenge opc k [0x80; 0])
    as (ctx' & E & H);
    [exact test_engine_inv|split; [reflexivity|reflexivity|vm_compute; split; discriminate]|reflexivity..|].
  exists ctx'. split; [exact E|].
  assert (bool_decide (mil_mac_a (challenge_values opc k [0x80; 0] test_challenge)
    = take 8 (drop 8 (ev_auth_autn test_challenge))) = false) as Hb by (vm_compute; reflexivity).
  rewrite Hb in H. exact H.
Defined.
