(* ===== verification/EngineWedge.v ===== *)
(** Two behaviours of the engine over several calls that its tick does not
    recover from: a connection set up while no registration is under way, and
    the host's session of the user plane across a power cycle of the radio. *)

From S2P Require Import Prelude CString InstanceConfig NasDefs NasEncode Rrc Aes Sha256 NasCrypto NasSecurity.
From S2P Require Import UeTypes UeMm UeSm NetworkAdapter RanTransport RanLink UserPlane UeContext.
From S2P Require Import EngineNas UeEngine EngineSends EngineSafe DataPath EngineReach EngineSecurity.

#[local] Opaque ue_aes128_ecb_encrypt ue_aes_cmac aes128_ctr ue_hmac_sha256.

Section Wedge.
Variable sendto : nat -> sockaddr -> bytes -> Z.
Variables (pton : bytes -> option Z) (gai : bytes -> option sockaddr).

(** ** A late RRC Setup *)

(** Searching, waiting for an answer of the core to a message never sent, and
    nothing received. *)
Record wedged (ctx : ue_context) : Prop := {
  wd_inv : engine_inv ctx;
  wd_radio : uc_radio_on ctx = true;
  wd_searching : mm_state (uc_mm ctx) = UE_MM_SEARCHING;
  wd_sm : sm_state (uc_sm ctx) <> UE_SM_ACTIVE;
  wd_waiting : uc_waiting_core_response ctx = true;
  wd_quiet : spec_nas (rx_view (uc_ran ctx)) = [] }.

Lemma is_mm_ne s mm : mm_state mm <> s -> is_mm s mm = false.
Proof. intros H. by apply bool_decide_eq_false. Qed.

(** Without a registration the session machine is made inactive, and nothing is
    sent. *)
Lemma machines_wedged ctx now :
  wedged ctx -> exists sm, sm_state sm = UE_SM_INACTIVE
    /\ tick_machines sendto ctx now = Some (ctx <| uc_sm := sm |>).
Proof.
  clear pton gai. intros [Hi Hr Hs Hm Hw Hq]. unfold tick_machines. rewrite Hw. cbv zeta.
  unfold with_adapter, ue_sm_tick.
  rewrite (is_mm_ne UE_MM_REGISTERED_HOME) by (by rewrite Hs). cbn [negb mbind option_bind g_transport g_nas_sec].
  eexists. split; [|reflexivity]. unfold sm_enter_inactive. reflexivity.
Qed.

Lemma drain_quiet fuel ctx buf ch now :
  rt_ok (uc_ran ctx) -> length buf = NAS_BUF_SIZE -> spec_nas (rx_view (uc_ran ctx)) = [] ->
  (0 < fuel)%nat -> drain_rrc sendto fuel ctx buf ch now = Some ctx.
Proof.
  clear pton gai. intros Hok Hb Hq Hf. destruct fuel as [|fuel]; [lia|]. cbn [drain_rrc].
  pose proof nas_buf_size as Hsz.
  pose proof (recv_nas_refines (uc_ran ctx) buf NAS_BUF_SIZE Hok ltac:(lia) ltac:(lia)) as Hr.
  rewrite Hq in Hr. rewrite Hr. reflexivity.
Qed.

(** What the end of the tick keeps of the wedge. *)
Definition wedge_kept (mm : ue_mm_ctx) (c : ue_context) : Prop :=
  uc_mm c = mm /\ sm_state (uc_sm c) = UE_SM_INACTIVE /\ uc_waiting_core_response c = true
  /\ spec_nas (rx_view (uc_ran c)) = [].

Lemma setup_request_kept mm c now c' :
  wedge_kept mm c -> engine_initiate_rrc_setup sendto c now = Some c' -> wedge_kept mm c'.
Proof.
  clear pton gai. intros (H1 & H2 & H3 & H4). unfold engine_initiate_rrc_setup.
  destruct (ue_rrc_encode_setup_request _ _ _ _) as [[len [buf|]]|]; cbn [mbind option_bind]; [|done|done].
  destruct (len <=? 0); [by intros [= <-]|].
  destruct (rt_send_nas_frame sendto (uc_ran c) (take (Z.to_nat len) buf) UE_RRC_CHANNEL_UL_CCCH)
    as (r & n & tr & b & k & -> & _).
  cbn [mbind option_bind]. intros [= <-]. split_and!; [exact H1|exact H2|exact H3|exact H4].
Qed.

Lemma timeouts_kept c now :
  mm_state (uc_mm c) = UE_MM_SEARCHING -> wedge_kept (uc_mm c) c -> wedge_kept (uc_mm c) (tick_rrc_timeouts c now).
Proof.
  intros Hs (_ & H2 & H3 & H4). unfold tick_rrc_timeouts. cbv zeta.
  set (c1 := if _ && _ then c <| uc_rrc_state := UE_RRC_IDLE |> else c).
  assert (wedge_kept (uc_mm c) c1) as Hk by (unfold c1; destruct (_ && _); exact (conj eq_refl (conj H2 (conj H3 H4)))).
  clearbody c1. destruct Hk as (K1 & K2 & K3 & K4).
  assert (is_mm UE_MM_REGISTERING (uc_mm c1) = false) as -> by (apply is_mm_ne; rewrite K1, Hs; done).
  rewrite andb_false_r. cbn [andb].
  destruct (_ && _); exact (conj K1 (conj K2 (conj K3 K4))).
Qed.

Lemma tick_wedged fuel ctx r1 r2 now :
  wedged ctx -> 0 <= now < 2 ^ 63 -> (31 < fuel)%nat ->
  exists ctx', ue_engine_tick sendto fuel ctx r1 r2 now = Some (0, ctx') /\ wedged ctx'.
Proof.
  clear pton gai. intros Hw Hnow Hf. pose proof Hw as [Hi Hr Hs Hm Hwait Hq].
  destruct (real_tick_keeps sendto fuel ctx r1 r2 now Hi Hnow Hf) as (ctx' & E & Hi' & Hr' & _).
  unfold ue_engine_tick. rewrite E. cbn [mbind option_bind]. eexists. split; [reflexivity|].
  revert E. unfold engine_real_tick. rewrite Hr. cbn [negb].
  assert (recover_lost_link ctx r1 r2 = ctx) as ->.
  { unfold recover_lost_link. rewrite (is_mm_ne UE_MM_REGISTERED_HOME) by (by rewrite Hs).
    assert (is_sm UE_SM_ACTIVE (uc_sm ctx) = false) as -> by (by apply bool_decide_eq_false).
    by rewrite andb_false_r. }
  destruct (machines_wedged ctx now Hw) as (sm & Hsm & ->). cbn [mbind option_bind]. cbv zeta.
  set (c1 := ctx <| uc_sm := sm |>).
  rewrite (drain_quiet fuel c1) by first [exact (ei_ran _ Hi)|by rewrite length_replicate|exact Hq|lia].
  cbn [mbind option_bind].
  assert (advance_machines c1 = c1) as ->.
  { unfold advance_machines. cbv zeta. change (uc_mm c1) with (uc_mm ctx).
    rewrite (is_mm_ne UE_MM_REGISTERED_HOME) by (by rewrite Hs). cbn [andb].
    change (uc_waiting_core_response c1) with (uc_waiting_core_response ctx). rewrite Hwait.
    by rewrite andb_false_r. }
  assert (wedge_kept (uc_mm ctx) c1) as K1 by (split_and!; [reflexivity|exact Hsm|exact Hwait|exact Hq]).
  clearbody c1.
  match goal with |- context [?m ≫= _] => destruct m as [c2|] eqn:E2 end; [|done].
  assert (wedge_kept (uc_mm ctx) c2) as K2.
  { destruct (_ && _ && _); [by eapply setup_request_kept|by injection E2 as <-]. }
  clear E2 K1 c1. cbn [mbind option_bind]. destruct K2 as (M & K).
  assert (send_registration_update sendto c2 now = Some c2) as ->.
  { unfold send_registration_update. cbv zeta. rewrite (is_mm_ne UE_MM_REGISTERING) by (by rewrite M, Hs).
    reflexivity. }
  cbn [mbind option_bind].
  pose proof (timeouts_kept c2 now ltac:(by rewrite M) (conj eq_refl K)) as (T1 & T2 & T3 & T4).
  set (c3 := tick_rrc_timeouts c2 now) in *. clearbody c3. intros [= <-].
  set (c4 := c3 <| uc_up := _ |>) in *.
  split; [by inv_fields Hi'|by rewrite <- Hr, <- Hr'| |by intros H; change (sm_state (uc_sm c3) = UE_SM_ACTIVE) in H; rewrite T2 in H|exact T3|exact T4].
  change (mm_state (uc_mm c3) = UE_MM_SEARCHING). by rewrite T1, M.
Qed.

(** Time passes: ticks, and whatever the transport receives as long as it
    queues no NAS message. *)
Inductive quiet : ue_context -> ue_context -> Prop :=
| quiet_refl ctx : quiet ctx ctx
| quiet_tick ctx ctx1 ctx' r1 r2 now rc :
    quiet ctx ctx1 -> 0 <= now < 2 ^ 63 ->
    ue_engine_tick sendto CALL_FUEL ctx1 r1 r2 now = Some (rc, ctx') -> quiet ctx ctx'
| quiet_receive ctx ctx1 inbox now e t :
    quiet ctx ctx1 -> Forall recv_ok inbox ->
    ue_ran_transport_tick sendto pton gai (uc_ran ctx1) inbox now = Some (e, t) ->
    spec_nas (rx_view t) = [] -> quiet ctx (ctx1 <| uc_ran := t |>).

Lemma quiet_wedged ctx ctx' : wedged ctx -> quiet ctx ctx' -> wedged ctx'.
Proof.
  intros Hw H. induction H as [ctx|ctx ctx1 ctx' r1 r2 now rc _ IH Hnow E|ctx ctx1 inbox now e t _ IH Hin E Hq].
  - done.
  - destruct (tick_wedged CALL_FUEL ctx1 r1 r2 now (IH Hw) Hnow) as (c & E' & H);
      [unfold CALL_FUEL; lia|]. rewrite E in E'. by injection E' as _ <-.
  - destruct (IH Hw) as [Hi Hr Hs Hm Hwait _].
    destruct (tick_ok sendto pton gai (uc_ran ctx1) inbox now (ei_ran _ Hi) Hin) as (e' & t' & E' & Ht & _).
    rewrite E in E'. injection E' as _ <-. split; [by inv_fields Hi|exact Hr|exact Hs|exact Hm|exact Hwait|exact Hq].
Qed.

(** C34: an RRC Setup that arrives while the UE searches (the answer to an
    earlier request, after the registration timed out) wedges it, when no session
    is active and no message of the core waits: the UE then waits for an answer of
    the core although it has sent no registration, its retry timer is stopped, and
    as long as the core sends nothing and the host calls nothing it stays in
    SEARCHING, however long the ticks go on and whatever cells are heard. *)
Theorem late_setup_wedges ctx m now :
  engine_inv ctx -> uc_radio_on ctx = true -> mm_state (uc_mm ctx) = UE_MM_SEARCHING ->
  sm_state (uc_sm ctx) <> UE_SM_ACTIVE -> spec_nas (rx_view (uc_ran ctx)) = [] ->
  exists ctx1, engine_handle_rrc_setup sendto ctx m now = Some ctx1
  /\ net_trace (uc_ran ctx1) = net_trace (uc_ran ctx)
  /\ forall ctx2, quiet ctx1 ctx2 ->
       mm_state (uc_mm ctx2) = UE_MM_SEARCHING /\ uc_waiting_core_response ctx2 = true.
Proof.
  intros Hi Hr Hs Hm Hq. unfold engine_handle_rrc_setup.
  rewrite (is_mm_ne UE_MM_REGISTERING) by (by rewrite Hs). cbn [andb mbind option_bind].
  eexists. split; [reflexivity|]. split; [reflexivity|]. intros ctx2 H.
  assert (wedged ctx2) as [_ _ H1 _ H2 _]; [|done].
  eapply quiet_wedged; [|exact H]. split; [by inv_fields Hi|exact Hr|exact Hs|exact Hm|reflexivity|exact Hq].
Qed.


(** ** The host's session across a power cycle *)

Lemma unbind_other up psi :
  up_host_psi up <> psi -> up_has_session (ue_up_unbind_session_psi up psi) = up_has_session up
  /\ up_host_psi (ue_up_unbind_session_psi up psi) = up_host_psi up
  /\ up_state (ue_up_unbind_session_psi up psi) = up_state up
  /\ up_transport (ue_up_unbind_session_psi up psi) = up_transport up.
Proof.
  clear sendto pton gai. intros H. unfold ue_up_unbind_session_psi. destruct (_ || _); [done|].
  destruct (negb _); [done|]. cbv zeta.
  match goal with |- context [if ?c then _ else _] => assert (c = false) as -> by (by apply Z.eqb_neq) end.
  done.
Qed.

(** The user plane after the radio is turned off, and on again. *)
Lemma radio_up ctx on r1 r2 fd ctx' :
  engine_inv ctx -> ue_engine_set_radio sendto ctx on r1 r2 fd = Some ctx' ->
  uc_ims_psi ctx' = uc_ims_psi ctx
  /\ (uc_up ctx' = uc_up ctx \/ uc_up ctx' = ue_up_unbind_session_psi (uc_up ctx) (uc_ims_psi ctx)).
Proof.
  clear pton gai. intros Hi. unfold ue_engine_set_radio. cbv zeta.
  assert (forall c m s, uc_up (flag_sm s (flag_mm m c)) = uc_up c
    /\ uc_ims_psi (flag_sm s (flag_mm m c)) = uc_ims_psi c) as Hf.
  { intros c m s. unfold flag_sm, flag_mm. by destruct (mm_changed _ _), (sm_changed _ _). }
  destruct (set_radio_link sendto ctx on r1 r2 fd) as [c|] eqn:E; [|done]. cbn [mbind option_bind].
  intros [= <-].
  match goal with |- context [flag_sm _ (flag_mm _ ?x)] => set (c1 := x) end.
  change (uc_ims_psi (flag_sm (uc_sm ctx) (flag_mm (uc_mm ctx) c1)) = uc_ims_psi ctx
    /\ (uc_up (flag_sm (uc_sm ctx) (flag_mm (uc_mm ctx) c1)) = uc_up ctx
        \/ uc_up (flag_sm (uc_sm ctx) (flag_mm (uc_mm ctx) c1)) = ue_up_unbind_session_psi (uc_up ctx) (uc_ims_psi ctx))).
  destruct (Hf c1 (uc_mm ctx) (uc_sm ctx)) as [-> ->].
  assert (uc_up c1 = uc_up c /\ uc_ims_psi c1 = uc_ims_psi c) as [-> ->] by (unfold c1; by destruct (_ && _)).
  clear c1 Hf. revert E. unfold set_radio_link. cbv zeta. destruct on.
  - intros [= <-]. destruct (uc_radio_on ctx), (_ && _); (split; [reflexivity|]); (by left) || (by right).
  - set (c0 := ctx <| uc_radio_on := false |>). assert (engine_inv c0) as H0 by (by inv_fields Hi).
    assert (exists t sec, send_deregistration sendto c0 = Some (c0 <| uc_nas_sec := sec |> <| uc_ran := t |>))
      as (t & sec & ->).
    { unfold send_deregistration. destruct (_ && _ && _ && _); [|by exists (uc_ran c0), (uc_nas_sec c0)].
      destruct (send_encoded_exact sendto c0 (ue_nas_encode_deregistration_request (Some (replicate 80 0)) 80 true
        (Some (uc_guti c0)) (uc_guti_len c0) (sc_ngksi (uc_nas_sec c0))) false H0) as (t & sec & E & _); [|by exists t, sec].
      apply deregistration_sendable. destruct (ei_guti _ H0) as [-> H]. exact H. }
    cbn [mbind option_bind]. intros [= <-]. destruct (is_rt _ _); (split; [reflexivity|by right]).
Qed.

Lemma powered_off_registers ctx r1 r2 fd ctx' :
  mm_state (uc_mm ctx) = UE_MM_POWERED_OFF -> uc_radio_on ctx = false ->
  ue_engine_set_radio sendto ctx true r1 r2 fd = Some ctx' ->
  mm_state (uc_mm ctx') = UE_MM_SEARCHING /\ sc_active (uc_nas_sec ctx') = false.
Proof.
  clear pton gai. intros Hm Hr. unfold ue_engine_set_radio, set_radio_link. cbv zeta. rewrite Hr.
  cbn [mbind option_bind].
  set (c1 := if _ && _ then _ else engine_forget_network_context _ r1 r2).
  assert (mm_state (uc_mm c1) = UE_MM_POWERED_OFF /\ sc_active (uc_nas_sec c1) = false) as [Hm1 Hs1]
    by (unfold c1; destruct (_ && _); exact (conj Hm eq_refl)).
  clearbody c1. intros [= <-].
  match goal with |- context [flag_sm _ (flag_mm _ ?x)] => set (c2 := x) end.
  assert (mm_state (uc_mm c2) = UE_MM_SEARCHING /\ sc_active (uc_nas_sec c2) = false) as H.
  { assert (is_mm UE_MM_DEREGISTERED (ue_mm_on_radio (uc_mm c1) true) = true
      /\ mm_state (ue_mm_request_register (ue_mm_on_radio (uc_mm c1) true)) = UE_MM_SEARCHING) as [E1 E2].
    { unfold ue_mm_on_radio, ue_mm_request_register, mm_invoke_pending_registration, is_mm.
      mm_unfold. destruct (uc_mm c1). cbn in Hm1. subst. done. }
    unfold c2. cbn [andb]. change (uc_mm (c1 <| uc_mm := ?m |> <| uc_sm := ?s |>)) with m.
    rewrite E1. exact (conj E2 Hs1). }
  clearbody c2. unfold flag_sm, flag_mm. by destruct (mm_changed _ _), (sm_changed _ _).
Qed.

(** Turning the radio off and on forgets the registration and the security
    context but not the host's session of the user plane: with MM searching, no
    security context and no PDU session the next packet of the host is sent on
    the old session. *)
Lemma host_session_survives_radio {Host : Type} (dl idl : Z -> bytes -> Host -> Z * Host) ctx h r1 r2 fd r3 r4 fd' :
  engine_reachable sendto pton gai dl idl (ctx, h) ->
  up_has_session (uc_up ctx) = true -> up_state (uc_up ctx) = UE_UP_ACTIVE ->
  up_transport (uc_up ctx) = true -> up_host_psi (uc_up ctx) <> uc_ims_psi ctx ->
  exists c1 c2, ue_engine_set_radio sendto ctx false r1 r2 fd = Some c1
  /\ ue_engine_set_radio sendto c1 true r3 r4 fd' = Some c2
  /\ mm_state (uc_mm c2) = UE_MM_SEARCHING /\ sc_active (uc_nas_sec c2) = false
  /\ forall d, d <> [] -> exists rc t,
       ue_ran_transport_send_data_pdu sendto (uc_ran c2) (up_host_psi (uc_up ctx)) d = Some (rc, t)
       /\ ue_engine_inject_uplink_ip sendto c2 d
          = Some (if rc <? 0 then -1 else 0,
                  c2 <| uc_up := (if rc <? 0 then up_drop_ul (uc_up c2)
                                  else up_count_ul (uc_up c2) (Z.of_nat (length d))) |>
                     <| uc_ran := t |>).
Proof.
  intros Hr Hs Hst Htr Hne. pose proof (engine_reachable_ok _ _ _ _ _ _ Hr) as Ho. cbn [fst] in Ho.
  destruct (radio_off_total sendto ctx r1 r2 fd Ho) as (c1 & E1 & Ho1 & Hr1).
  destruct (radio_on_total sendto c1 r3 r4 fd' Ho1) as (c2 & E2 & Ho2).
  exists c1, c2. split; [exact E1|]. split; [exact E2|].
  assert (mm_state (uc_mm c1) = UE_MM_POWERED_OFF) as Hm1 by (by apply (eo_off _ Ho1)).
  destruct (powered_off_registers c1 r3 r4 fd' c2 Hm1 Hr1 E2) as [Hm2 Hs2].
  split; [exact Hm2|]. split; [exact Hs2|].
  assert (up_has_session (uc_up c2) = true /\ up_host_psi (uc_up c2) = up_host_psi (uc_up ctx)
    /\ up_state (uc_up c2) = UE_UP_ACTIVE /\ up_transport (uc_up c2) = true) as (U1 & U2 & U3 & U4).
  { destruct (radio_up ctx false r1 r2 fd c1 (eo_inv _ Ho) E1) as [P1 H1].
    destruct (radio_up c1 true r3 r4 fd' c2 (eo_inv _ Ho1) E2) as [_ H2]. rewrite P1 in H2.
    destruct (unbind_other (uc_up ctx) (uc_ims_psi ctx) Hne) as (V1 & V2 & V3 & V4).
    pose (up1 := ue_up_unbind_session_psi (uc_up ctx) (uc_ims_psi ctx)). fold up1 in V1, V2, V3, V4, H1.
    assert (up_host_psi up1 <> uc_ims_psi ctx) as Hne1 by congruence.
    destruct (unbind_other up1 (uc_ims_psi ctx) Hne1) as (W1 & W2 & W3 & W4).
    destruct H1 as [H1|H1]; rewrite H1 in H2; (destruct H2 as [H2|H2]; try fold up1 in H2); rewrite H2;
      split_and!; congruence. }
  intros d Hd. destruct (send_data_tx sendto (uc_ran c2) (up_host_psi (uc_up ctx)) d (ei_ran _ (eo_inv _ Ho2)))
    as (rc & t & E & _). exists rc, t. split; [exact E|].
  unfold ue_engine_inject_uplink_ip, ue_up_send_uplink.
  assert ((length d =?n 0) = false) as -> by (destruct d; done).
  unfold is_up. rewrite U1, U3, U4, U2. cbn [bool_decide decide_rel negb orb]. 
  change (@link_send_data_pdu _ _ (uc_ran c2) (up_host_psi (uc_up ctx)) d)
    with (ue_ran_transport_send_data_pdu sendto (uc_ran c2) (up_host_psi (uc_up ctx)) d).
  rewrite E. cbn [mbind option_bind]. by destruct (rc <? 0).
Qed.
End Wedge.

(** ** Witnesses *)

(** The engine once asked to register: searching, with nothing received. *)
Definition test_engine_searching : ue_context := ue_engine_request_register test_engine.

Lemma test_engine_searching_reachable :
  engine_reachable test_sendto test_pton test_gai test_cb test_cb (test_engine_searching, tt).
Proof.
  eapply (er_call _ _ _ _ _ _ CallRegister); [apply test_engine_reachable|exact I|reflexivity].
Qed.

Lemma late_setup_wedges_witness :
  exists ctx1, engine_handle_rrc_setup test_sendto test_engine_searching rrc_message_zero 5 = Some ctx1
  /\ uc_waiting_core_response ctx1 = true.
Proof.
  destruct (late_setup_wedges test_sendto test_pton test_gai test_engine_searching rrc_message_zero 5)
    as (ctx1 & E & _ & H).
  - exact (eo_inv _ (engine_reachable_ok _ _ _ _ _ _ test_engine_searching_reachable)).
  - reflexivity.
  - reflexivity.
  - vm_compute. discriminate.
  - vm_compute. reflexivity.
  - exists ctx1. split; [exact E|]. apply (H ctx1), quiet_refl.
Defined.
