(* ===== verification/RogueNetwork.v ===== *)
(** A network that holds no key: the calls by which it registers the UE and gives
    the host a session.  The state they lead to is also the concrete reachable
    state of several witnesses. *)

From S2P Require Import Prelude CString InstanceConfig NasDefs NasEncode Rls Rrc Aes Sha256 NasCrypto NasSecurity.
From S2P Require Import UeTypes UeMm UeSm NetworkAdapter RanTransport RanLink UserPlane UeContext.
From S2P Require Import EngineNas UeEngine EngineSends EngineSafe DataPath EngineReach EngineSecurity EngineWedge.

(** The octets of a bit string, the last one completed with zeros. *)
Fixpoint pack_bits (n : nat) (l : list bool) : bytes :=
  match n, l with
  | S n, _ :: _ =>
    foldl (fun v (b : bool) => 2 * v + if b then 1 else 0) 0 (take 8 (l ++ replicate 7 false))
    :: pack_bits n (drop 8 l)
  | _, _ => []
  end.
Definition pack (l : list bool) : bytes := pack_bits (length l) l.

(** A PDU of the gNB at 127.0.0.1, and a NAS message on DL-DCCH. *)
Definition gnb_rrc (pdu_id channel : Z) (pdu : bytes) : list recv_result :=
  [RecvData (rls_pdu_wire 77 UE_RLS_PDU_TYPE_RRC pdu_id channel pdu) test_gnb; RecvWouldBlock].
Definition gnb_nas (pdu_id : Z) (nas : bytes) : list recv_result :=
  gnb_rrc pdu_id 3 (pack (dl_info_transfer_bits 0 false false nas)).

(** A Registration Accept, and an Establishment Accept for session 1 with
    address 10.0.0.2, both plain. *)
Definition plain_registration_accept : bytes := [0x7E; 0; 0x42; 1; 1].
Definition plain_est_accept : bytes :=
  [0x2E; 1; 1; 0xC2; 0x11; 0; 0; 0; 0x29; 5; 1; 10; 0; 0; 2].

Definition rogue_calls : list engine_call :=
  [CallSetRadio true 1 2 5;
   CallReceive test_inbox 1000; CallTick 3 4 1100;
   CallReceive (gnb_rrc 1 2 (pack (rrc_setup_bits 0) ++ [0; 0])) 1200; CallTick 3 4 1300;
   CallReceive (gnb_nas 2 plain_registration_accept) 1400; CallTick 3 4 1500; CallTick 3 4 1600;
   CallReceive (gnb_nas 3 plain_est_accept) 1700; CallTick 3 4 1800].

(** The configured keys of the subscriber: any strings. *)
Definition keyed_config (key opc : bytes) : ue_instance_config :=
  ue_instance_config_set_defaults
    <| cfg_sim := ((cfg_sim ue_instance_config_set_defaults) <| sim_key := key |> <| sim_opc := opc |>) |>.
Definition keyed_engine (key opc : bytes) : ue_context :=
  (ue_engine_init (keyed_config key opc) 1 5 6 [] (replicate (Z.to_nat UE_RRC_MAX_NAS_SIZE) 0)).2.

(** The state the calls end in, as far as it shows. *)
Definition rogue_outcome (s : ue_context * unit) : Prop :=
  let ctx := s.1 in
  mm_state (uc_mm ctx) = UE_MM_REGISTERED_HOME /\ sm_state (uc_sm ctx) = UE_SM_ACTIVE
  /\ ip_ipv4_addr (sm_ip (uc_sm ctx)) = [10; 0; 0; 2]
  /\ up_state (uc_up ctx) = UE_UP_ACTIVE /\ up_host_psi (uc_up ctx) = 1
  /\ up_has_session (uc_up ctx) = true /\ up_transport (uc_up ctx) = true
  /\ uc_ims_psi ctx = 0 /\ uc_ims_pdu_active ctx = false /\ sc_active (uc_nas_sec ctx) = false.

Lemma rogue_calls_outcome key opc :
  match run_calls test_sendto test_pton test_gai test_cb test_cb rogue_calls (keyed_engine key opc) tt with
  | Some s => rogue_outcome s
  | None => False
  end.
Proof. vm_compute. repeat split. Qed.

(** C33: mutual authentication is not required: a network that holds no key, and
    sends nothing but plain messages, registers a UE with any keys and gives its
    host a session, with security never started. *)
Theorem rogue_network_registers key opc :
  exists ctx h,
    run_calls test_sendto test_pton test_gai test_cb test_cb rogue_calls (keyed_engine key opc) tt = Some (ctx, h)
    /\ mm_state (uc_mm ctx) = UE_MM_REGISTERED_HOME /\ sm_state (uc_sm ctx) = UE_SM_ACTIVE
    /\ ip_ipv4_addr (sm_ip (uc_sm ctx)) = [10; 0; 0; 2]
    /\ up_state (uc_up ctx) = UE_UP_ACTIVE /\ up_host_psi (uc_up ctx) = 1
    /\ sc_active (uc_nas_sec ctx) = false.
Proof.
  pose proof (rogue_calls_outcome key opc) as H. destruct (run_calls _ _ _ _ _ _ _ _) as [[ctx h]|]; [|done].
  destruct H as (H1 & H2 & H3 & H4 & H5 & _ & _ & _ & _ & H6). exists ctx, h. split_and!; try done.
Qed.

(** ** Witnesses *)

Definition rogue_state : ue_context * unit :=
  match run_calls test_sendto test_pton test_gai test_cb test_cb rogue_calls (keyed_engine [] []) tt with
  | Some s => s
  | None => (keyed_engine [] [], tt)
  end.

Lemma rogue_calls_ok : Forall call_ok rogue_calls.
Proof.
  unfold rogue_calls, gnb_nas, gnb_rrc.
  repeat first
    [ apply Forall_nil_2 | apply Forall_cons; split
    | exact I | exact test_inbox_ok | split; [apply (bool_decide_unpack _); vm_compute; exact I|] | cbn; lia ].
Qed.

Lemma rogue_state_reachable : engine_reachable test_sendto test_pton test_gai test_cb test_cb rogue_state.
Proof.
  apply (run_calls_reachable _ _ _ _ _ rogue_calls (keyed_engine [] [], tt)).
  - apply er_init; [vm_compute; lia|vm_compute; lia|]. rewrite length_replicate. reflexivity.
  - exact rogue_calls_ok.
  - cbn [fst snd]. pose proof (rogue_calls_outcome [] []) as H. unfold rogue_state.
    destruct (run_calls _ _ _ _ _ _ _ _) as [s|]; [reflexivity|destruct H].
Qed.

Lemma rogue_state_outcome : rogue_outcome rogue_state.
Proof.
  pose proof (rogue_calls_outcome [] []) as H. unfold rogue_state.
  destruct (run_calls _ _ _ _ _ _ _ _) as [s|]; [exact H|destruct H].
Qed.

Lemma host_session_survives_radio_witness :
  exists c1 c2, ue_engine_set_radio test_sendto rogue_state.1 false 1 2 5 = Some c1
  /\ ue_engine_set_radio test_sendto c1 true 3 4 5 = Some c2
  /\ mm_state (uc_mm c2) = UE_MM_SEARCHING
  /\ exists rc t, ue_ran_transport_send_data_pdu test_sendto (uc_ran c2) 1 [69; 0] = Some (rc, t).
Proof.
  pose proof rogue_state_outcome as (_ & _ & _ & H1 & H2 & H3 & H4 & H5 & _).
  destruct (host_session_survives_radio test_sendto test_pton test_gai test_cb test_cb
    rogue_state.1 rogue_state.2 1 2 5 3 4 5) as (c1 & c2 & E1 & E2 & Hm & _ & Hd).
  - destruct rogue_state eqn:E. cbn [fst snd]. rewrite <- E. exact rogue_state_reachable.
  - exact H3.
  - exact H1.
  - exact H4.
  - rewrite H2, H5. discriminate.
  - exists c1, c2. split; [exact E1|]. split; [exact E2|]. split; [exact Hm|].
    destruct (Hd [69; 0] ltac:(discriminate)) as (rc & t & E & _). rewrite H2 in E. by exists rc, t.
Defined.
