(* ===== verification/ModemState.v ===== *)
(** The state the host sees: [src/src/modem_state/modem_state.c] and its header.
    A [char] array holds a C string. *)

From S2P Require Import Prelude.

#[local] Set Primitive Projections.

Record modem_identity := ModemIdentity {
  id_imei : bytes; id_imsi : bytes; id_iccid : bytes; id_manufacturer : bytes; id_model : bytes;
  id_firmware : bytes; id_serial : bytes }.

Record modem_operator := ModemOperator { op_plmn : bytes; op_name : bytes }.

Record modem_ip_config := ModemIp {
  mip_ipv4_addr : bytes; mip_ipv4_gw : bytes; mip_ipv4_dns1 : bytes; mip_mtu : Z }.

Record modem_state := ModemState {
  ms_sim_ready : bool;
  ms_radio_hw_on : bool;
  ms_radio_sw_on : bool;
  ms_registered_home : bool;
  ms_packet_attached : bool;
  ms_serving_connected : bool;
  ms_connect_activated : bool;
  ms_connect_session_id : Z;
  ms_apn : bytes;
  ms_identity : modem_identity;
  ms_oper : modem_operator;
  ms_ip : modem_ip_config }.

Definition modem_state_init_defaults : modem_state :=
  ModemState true true true true true true false 0 (str "internet")
    (ModemIdentity (str "867530900000001") (str "208010123456789") (str "8933012345678901234")
       (str "Quectel") (str "RM520N-GL") (str "FAKA01") (str "FAKE-0001"))
    (ModemOperator (str "20801") (str "EllaLab"))
    (ModemIp [1; 2; 3; 4] [5; 6; 7; 8] [9; 10; 11; 12] 1500).

(** A C string of an array of [n] bytes. *)
Definition c_string (n : nat) (s : bytes) : Prop := (length s < n)%nat.

#[export] Instance c_string_dec n s : Decision (c_string n s).
Proof. unfold c_string. apply _. Defined.

(** What the arrays and integers of a modem state can hold. *)
Record modem_state_ok (st : modem_state) : Prop := {
  mso_session : 0 <= ms_connect_session_id st < 2 ^ 32;
  mso_apn : c_string 64 (ms_apn st);
  mso_imei : c_string 32 (id_imei (ms_identity st));
  mso_imsi : c_string 32 (id_imsi (ms_identity st));
  mso_iccid : c_string 40 (id_iccid (ms_identity st));
  mso_manufacturer : c_string 64 (id_manufacturer (ms_identity st));
  mso_model : c_string 64 (id_model (ms_identity st));
  mso_firmware : c_string 64 (id_firmware (ms_identity st));
  mso_plmn : c_string 16 (op_plmn (ms_oper st));
  mso_name : c_string 64 (op_name (ms_oper st));
  mso_addr : length (mip_ipv4_addr (ms_ip st)) = 4%nat;
  mso_gw : length (mip_ipv4_gw (ms_ip st)) = 4%nat;
  mso_dns : length (mip_ipv4_dns1 (ms_ip st)) = 4%nat;
  mso_mtu : 0 <= mip_mtu (ms_ip st) < 2 ^ 32 }.

Lemma modem_state_defaults_ok : modem_state_ok modem_state_init_defaults.
Proof. split; apply (bool_decide_unpack _); vm_compute; exact I. Qed.
