(* ===== verification/MbimWire.v ===== *)
(** The wire format of MBIM: [src/src/mbim_frontend/mbim_wire.h], [mbim_wire.c]
    and the numbers of [mbim_protocol.h].

    A packed structure is its list of fields with their sizes; [offsetof] and
    [sizeof] compute on it.  The memory a builder writes to is the message
    buffer that holds its InformationBuffer, so that the header and the
    InformationBuffer are the same object; [w_base] is the offset of [b->buf] in
    it.  A write outside the object is [None]. *)

From S2P Require Import Prelude.

#[local] Set Primitive Projections.

(** ** Numbers of the protocol *)

Definition MBIM_OPEN_MSG : Z := 0x00000001.
Definition MBIM_CLOSE_MSG : Z := 0x00000002.
Definition MBIM_OPEN_DONE : Z := 0x80000001.
Definition MBIM_CLOSE_DONE : Z := 0x80000002.
Definition MBIM_COMMAND_MSG : Z := 0x00000003.
Definition MBIM_COMMAND_DONE : Z := 0x80000003.
Definition MBIM_INDICATE_STATUS_MSG : Z := 0x80000007.
Definition MBIM_STATUS_SUCCESS : Z := 0.

Definition MBIM_CID_DEVICE_CAPS : Z := 1.
Definition MBIM_CID_SUBSCRIBER_READY_STATUS : Z := 2.
Definition MBIM_CID_RADIO_STATE : Z := 3.
Definition MBIM_CID_REGISTER_STATE : Z := 9.
Definition MBIM_CID_PACKET_SERVICE : Z := 10.
Definition MBIM_CID_SIGNAL_STATE : Z := 11.
Definition MBIM_CID_CONNECT : Z := 12.
Definition MBIM_CID_PROVISIONED_CONTEXTS : Z := 13.
Definition MBIM_CID_IP_CONFIGURATION : Z := 15.
Definition MBIM_CID_DEVICE_SERVICES : Z := 16.

Definition MBIM_EXT_CID_PROVISIONED_CONTEXT_V2 : Z := 1.
Definition MBIM_EXT_CID_LTE_ATTACH_CONFIG : Z := 3.
Definition MBIM_EXT_CID_LTE_ATTACH_STATUS : Z := 4.

Definition MBIM_CID_SMS_CONFIGURATION : Z := 1.
Definition MBIM_CID_SMS_READ : Z := 2.
Definition MBIM_CID_SMS_SEND : Z := 3.
Definition MBIM_CID_SMS_DELETE : Z := 4.
Definition MBIM_CID_SMS_MESSAGE_STORE_STATUS : Z := 5.

Definition MBIM_SMS_CAPS_PDU_RECEIVE : Z := 1.
Definition MBIM_SMS_CAPS_PDU_SEND : Z := 2.
Definition MBIM_SMS_STATUS_FLAG_NONE : Z := 0.
Definition MBIM_SMS_STATUS_FLAG_NEW_MESSAGE : Z := 2.
Definition MBIM_SMS_FLAG_ALL : Z := 0.
Definition MBIM_SMS_FLAG_NEW : Z := 2.

Definition UUID_BASIC_CONNECT : bytes :=
  [0xa2; 0x89; 0xcc; 0x33; 0xbc; 0xbb; 0x8b; 0x4f; 0xb6; 0xb0; 0x13; 0x3e; 0xc2; 0xaa; 0xe6; 0xdf].
Definition UUID_EXT_QMUX : bytes :=
  [0xd1; 0xa3; 0x0b; 0xc2; 0xf9; 0x7a; 0x6e; 0x43; 0xbf; 0x65; 0xc7; 0xe2; 0x4f; 0xb0; 0xf0; 0xd3].
Definition UUID_BASIC_CONNECT_EXTENSIONS : bytes :=
  [0x3d; 0x01; 0xdc; 0xc5; 0xfe; 0xf5; 0x4d; 0x05; 0x0d; 0x3a; 0xbe; 0xf7; 0x05; 0x8e; 0x9a; 0xaf].
Definition UUID_SMS : bytes :=
  [0x53; 0x3f; 0xbe; 0xeb; 0x14; 0xfe; 0x44; 0x67; 0x9f; 0x90; 0x33; 0xa2; 0x23; 0xe5; 0x6c; 0x3f].

(** ** Packed structures *)

#[local] Open Scope string_scope.

Definition layout := list (string * nat).

Fixpoint sizeof (s : layout) : nat :=
  match s with [] => 0 | (_, n) :: s => n + sizeof s end.

(** The offset of the first field of that name. *)
Fixpoint offsetof (s : layout) (f : string) : nat :=
  match s with
  | [] => 0
  | (g, n) :: s => if String.eqb f g then 0 else n + offsetof s f
  end.

Definition mbim_string : layout := [("offset", 4%nat); ("length", 4%nat)].

Definition mbim_basic_connect_device_caps : layout :=
  [("devicetype", 4%nat); ("cellularclass", 4%nat); ("voiceclass", 4%nat); ("simclass", 4%nat);
   ("dataclass", 4%nat); ("smscaps", 4%nat); ("controlcaps", 4%nat); ("maxsessions", 4%nat);
   ("customdataclass", 8%nat); ("deviceid", 8%nat); ("firmwareinfo", 8%nat);
   ("hardwareinfo", 8%nat)].

Definition mbim_basic_connect_subscriber_ready_status : layout :=
  [("readystate", 4%nat); ("subscriberid", 8%nat); ("simiccid", 8%nat); ("readyinfo", 4%nat);
   ("telephonenumberscount", 4%nat); ("telephonenumbers", 4%nat)].

Definition mbim_basic_connect_radio_state : layout :=
  [("hwradiostate", 4%nat); ("swradiostate", 4%nat)].

Definition mbim_basic_connect_register_state : layout :=
  [("nwerror", 4%nat); ("registerstate", 4%nat); ("registermode", 4%nat);
   ("availabledataclasses", 4%nat); ("currentcellularclass", 4%nat); ("providerid", 8%nat);
   ("providername", 8%nat); ("roamingtext", 8%nat); ("registrationflag", 4%nat)].

Definition mbim_basic_connect_packet_service : layout :=
  [("nwerror", 4%nat); ("packetservicestate", 4%nat); ("highestavailabledataclass", 4%nat);
   ("uplinkspeed", 8%nat); ("downlinkspeed", 8%nat)].

Definition mbim_basic_connect_connect : layout :=
  [("sessionid", 4%nat); ("activationstate", 4%nat); ("voicecallstate", 4%nat); ("iptype", 4%nat);
   ("contexttype", 16%nat); ("nwerror", 4%nat)].

Definition mbimprovisionedcontextelement : layout :=
  [("contextid", 4%nat); ("contexttype", 16%nat); ("accessstring", 8%nat); ("username", 8%nat);
   ("password", 8%nat); ("compression", 4%nat); ("authprotocol", 4%nat); ("providerid", 8%nat)].

Definition mbim_basic_connect_provisioned_contexts : layout :=
  [("provisionedcontextscount", 4%nat); ("provisionedcontexts", 4%nat)].

Definition mbimipv4element : layout := [("onlinkprefixlength", 4%nat); ("ipv4address", 4%nat)].

Definition mbim_basic_connect_ip_configuration : layout :=
  [("sessionid", 4%nat); ("ipv4configurationavailable", 4%nat);
   ("ipv6configurationavailable", 4%nat); ("ipv4addresscount", 4%nat); ("ipv4address", 4%nat);
   ("ipv6addresscount", 4%nat); ("ipv6address", 4%nat); ("ipv4gateway", 4%nat);
   ("ipv6gateway", 4%nat); ("ipv4dnsservercount", 4%nat); ("ipv4dnsserver", 4%nat);
   ("ipv6dnsservercount", 4%nat); ("ipv6dnsserver", 4%nat); ("ipv4mtu", 4%nat); ("ipv6mtu", 4%nat)].

Definition mbimdeviceserviceelement : layout :=
  [("deviceserviceid", 16%nat); ("dsspayload", 4%nat); ("maxdssinstances", 4%nat);
   ("cidscount", 4%nat); ("cids", 4%nat)].

Definition mbim_basic_connect_device_services : layout :=
  [("deviceservicescount", 4%nat); ("maxdsssessions", 4%nat); ("deviceservices", 4%nat)].

Definition mbim_ms_context_v2 : layout :=
  [("contextid", 4%nat); ("contexttype", 16%nat); ("iptype", 4%nat); ("enable", 4%nat);
   ("roaming", 4%nat); ("mediatype", 4%nat); ("source", 4%nat); ("accessstring", 8%nat);
   ("username", 8%nat); ("password", 8%nat); ("compression", 4%nat); ("authprotocol", 4%nat)].

Definition mbim_ms_provisioned_contexts_info_v2 : layout :=
  [("elementcount", 4%nat); ("provisionedcontexts", 4%nat)].

Definition mbim_ms_lte_attach_configuration : layout :=
  [("iptype", 4%nat); ("roaming", 4%nat); ("source", 4%nat); ("accessstring", 8%nat);
   ("username", 8%nat); ("password", 8%nat); ("compression", 4%nat); ("authprotocol", 4%nat)].

Definition mbim_ms_lte_attach_configuration_info : layout :=
  [("configurationcount", 4%nat); ("configurations", 4%nat)].

Definition mbim_ms_lte_attach_status : layout :=
  [("lteattachstate", 4%nat); ("iptype", 4%nat); ("accessstring", 8%nat); ("username", 8%nat);
   ("password", 8%nat); ("compression", 4%nat); ("authprotocol", 4%nat)].

Definition mbim_sms_configuration : layout :=
  [("smsstoragestate", 4%nat); ("format", 4%nat); ("maxmessages", 4%nat);
   ("cdmashortmessagesize", 4%nat); ("scaddress", 8%nat)].

Definition mbim_sms_pdu_read_record : layout :=
  [("messageindex", 4%nat); ("messagestatus", 4%nat); ("pdudata", 8%nat)].

Definition mbim_sms_send : layout := [("messagereference", 4%nat)].

Definition mbim_sms_message_store_status : layout := [("flag", 4%nat); ("messageindex", 4%nat)].

(** The static assertions of [mbim_wire.c]. *)
Example static_asserts :
  map sizeof
    [mbim_string; mbim_basic_connect_subscriber_ready_status;
     mbim_basic_connect_provisioned_contexts; mbimprovisionedcontextelement;
     mbim_basic_connect_device_caps; mbim_basic_connect_register_state;
     mbim_basic_connect_packet_service; mbim_basic_connect_connect;
     mbim_basic_connect_ip_configuration; mbim_basic_connect_radio_state;
     mbim_basic_connect_device_services; mbimdeviceserviceelement; mbimipv4element;
     mbim_ms_context_v2; mbim_ms_provisioned_contexts_info_v2; mbim_ms_lte_attach_configuration;
     mbim_ms_lte_attach_configuration_info; mbim_ms_lte_attach_status; mbim_sms_configuration;
     mbim_sms_pdu_read_record; mbim_sms_send; mbim_sms_message_store_status]
  = [8; 32; 8; 60; 64; 48; 28; 36; 60; 8; 12; 32; 8; 72; 8; 44; 8; 40; 24; 16; 4; 8]%nat.
Proof. reflexivity. Qed.

#[local] Close Scope string_scope.

(** ** Memory *)

(** The [n] bytes at [i]. *)
Definition bytes_at (m : bytes) (i n : nat) : bytes := take n (drop i m).

Definition get_le32 (m : bytes) (i : nat) : option Z :=
  if (i + 4 <=?n length m) then Some (le_val (bytes_at m i 4)) else None.

(** ** The builder *)

Record mbim_wire_builder := Wire {
  w_mem : bytes;
  w_base : nat;
  w_cap : Z;
  w_len : Z;
  w_frame_base : Z;
  w_overflow : bool }.

Definition B (A : Type) : Type := mbim_wire_builder -> option (A * mbim_wire_builder).

#[export] Instance B_ret : MRet B := fun A x b => Some (x, b).
#[export] Instance B_bind : MBind B := fun A C k m b =>
  match m b with Some (x, b') => k x b' | None => None end.

Definition mbim_align4 (v : Z) : Z := Z.ldiff (u32 (v + 3)) 3.

(** Bytes copied to offset [i] of the object. *)
Definition mem_write (i : nat) (l : bytes) : B unit := fun b =>
  if (i + length l <=?n length (w_mem b))
  then Some (tt, b <| w_mem := (list_inserts i l (w_mem b)) |>) else None.

Definition put_le32 (i : nat) (v : Z) : B unit := mem_write i (le_list 4 v).

Definition mbim_wire_init (info_buffer : nat) (cap : Z) : B unit := fun b =>
  Some (tt, b <| w_base := info_buffer |> <| w_cap := cap |> <| w_len := 0 |>
              <| w_frame_base := 0 |> <| w_overflow := false |>).

Definition set_frame_base (v : Z) : B unit := fun b => Some (tt, b <| w_frame_base := v |>).
Definition wire_base : B nat := fun b => Some (w_base b, b).
Definition wire_overflow : B bool := fun b => Some (w_overflow b, b).
Definition mbim_wire_len : B Z := fun b => Some (w_len b, b).

Definition mbim_wire_reserve (n : Z) : B Z := fun b =>
  let off := w_len b in
  if (w_cap b <? n) || (w_cap b - n <? off) then Some (off, b <| w_overflow := true |>) else
  match mem_write (w_base b + Z.to_nat off) (replicate (Z.to_nat n) 0) b with
  | Some (_, b) => Some (off, b <| w_len := (u32 (w_len b + n)) |>)
  | None => None
  end.

Definition utf16le (src : bytes) : bytes := flat_map (fun c => [u8 c; 0]) src.

Definition mbim_wire_write_utf16le (dst : nat) (src : bytes) : B Z :=
  mem_write dst (utf16le src) ;; mret (u32 (Z.of_nat (length src) * 2)).

(** The offset and the length of the string. *)
Definition mbim_wire_append_string (ascii : bytes) : B (Z * Z) := fun b =>
  let utf16_len := u32 (Z.of_nat (length ascii) * 2) in
  if utf16_len =? 0 then Some ((0, 0), b) else
  match mbim_wire_reserve (mbim_align4 utf16_len) b with
  | Some (off, b) =>
    if w_overflow b then Some ((0, 0), b) else
    match mbim_wire_write_utf16le (w_base b + Z.to_nat off) ascii b with
    | Some (_, b) => Some ((u32 (off - w_frame_base b), utf16_len), b)
    | None => None
    end
  | None => None
  end.

Definition mbim_wire_put_string (dst : nat) (v : Z * Z) : B unit :=
  put_le32 (dst + offsetof mbim_string "offset"%string) v.1 ;;
  put_le32 (dst + offsetof mbim_string "length"%string) v.2.

Definition mbim_wire_finalize : B bool := fun b =>
  Some (negb (w_overflow b || (w_cap b <? w_len b)), b).

Definition run_wire {A} (m : B A) (mem : bytes) : option (A * bytes) :=
  match m (Wire mem 0 0 0 0 false) with
  | Some (x, b) => Some (x, w_mem b)
  | None => None
  end.

(** ** Memory lemmas *)

Lemma length_bytes_at m i n : (i + n <= length m)%nat -> length (bytes_at m i n) = n.
Proof. intros. unfold bytes_at. rewrite length_take, length_drop. lia. Qed.

Lemma bytes_at_lookup m i n j : (j < n)%nat -> bytes_at m i n !! j = m !! (i + j)%nat.
Proof. intros. unfold bytes_at. rewrite lookup_take_lt by lia. apply lookup_drop. Qed.

Lemma bytes_at_ext m m' i n :
  length m' = length m -> (forall j, (i <= j < i + n)%nat -> m' !! j = m !! j) ->
  bytes_at m' i n = bytes_at m i n.
Proof.
  intros Hl H. unfold bytes_at. apply list_eq. intros j.
  destruct (decide (j < n)%nat).
  - rewrite !lookup_take_lt, !lookup_drop by lia. apply H. lia.
  - rewrite !lookup_take_ge by lia. done.
Qed.

(** A write does not change what is read before or after it. *)
Lemma bytes_at_inserts_ne i l m o n :
  (o + n <= i \/ i + length l <= o)%nat -> bytes_at (list_inserts i l m) o n = bytes_at m o n.
Proof.
  intros H. apply bytes_at_ext; [apply length_inserts|]. intros j Hj.
  destruct H; [rewrite list_lookup_inserts_lt by lia|rewrite list_lookup_inserts_ge by lia]; done.
Qed.

(** A read inside what was written. *)
Lemma bytes_at_inserts_in i l m o n :
  (i <= o)%nat -> (o + n <= i + length l)%nat -> (i + length l <= length m)%nat ->
  bytes_at (list_inserts i l m) o n = bytes_at l (o - i) n.
Proof.
  intros. apply list_eq. intros j. destruct (decide (j < n)%nat).
  - rewrite !bytes_at_lookup by lia. rewrite list_lookup_inserts by lia. f_equal. lia.
  - unfold bytes_at. rewrite !lookup_take_ge by lia. done.
Qed.

Lemma bytes_at_all l n : n = length l -> bytes_at l 0 n = l.
Proof. intros ->. unfold bytes_at. rewrite drop_0. by apply take_ge. Qed.

Lemma bytes_at_inserts_eq i l m n :
  n = length l -> (i + length l <= length m)%nat -> bytes_at (list_inserts i l m) i n = l.
Proof.
  intros -> H. rewrite bytes_at_inserts_in, Nat.sub_diag by lia. by apply bytes_at_all.
Qed.

(** A window of the memory, with a write inside it. *)
Lemma bytes_at_inserts_window i l m o n :
  (o <= i)%nat -> (i + length l <= o + n)%nat -> (o + n <= length m)%nat ->
  bytes_at (list_inserts i l m) o n = list_inserts (i - o) l (bytes_at m o n).
Proof.
  intros. pose proof (length_bytes_at m o n ltac:(lia)) as Hl. apply list_eq. intros j.
  destruct (decide (j < n)%nat).
  - rewrite bytes_at_lookup by lia. destruct (decide (j < i - o)%nat).
    + rewrite !list_lookup_inserts_lt by lia. by rewrite bytes_at_lookup by lia.
    + destruct (decide (j < i - o + length l)%nat).
      * rewrite !list_lookup_inserts by lia. f_equal. lia.
      * rewrite !list_lookup_inserts_ge by lia. by rewrite bytes_at_lookup by lia.
  - rewrite !lookup_ge_None_2; [done|rewrite length_inserts; lia|].
    rewrite length_bytes_at; [lia|rewrite length_inserts; lia].
Qed.

Lemma bytes_at_replicate k x o n : (o + n <= k)%nat -> bytes_at (replicate k x) o n = replicate n x.
Proof. intros. unfold bytes_at. rewrite drop_replicate, take_replicate. f_equal. lia. Qed.

Lemma length_mem_inserts i l (m : bytes) : length (list_inserts i l m) = length m.
Proof. apply length_inserts. Qed.

(** The 32-bit field at [i], as the host reads it. *)
Definition field32 (m : bytes) (i : nat) : Z := le_val (bytes_at m i 4).

Lemma field32_put i v m :
  (i + 4 <= length m)%nat -> field32 (list_inserts i (le_list 4 v) m) i = u32 v.
Proof.
  intros. unfold field32. rewrite bytes_at_inserts_eq by (rewrite ?length_le_list; lia).
  by rewrite le_val_le_list.
Qed.

Lemma field32_ne i l m o :
  (o + 4 <= i \/ i + length l <= o)%nat -> field32 (list_inserts i l m) o = field32 m o.
Proof. intros. unfold field32. by rewrite bytes_at_inserts_ne. Qed.

Lemma field32_zero i n m o :
  (i <= o)%nat -> (o + 4 <= i + n)%nat -> (i + n <= length m)%nat ->
  field32 (list_inserts i (replicate n 0) m) o = 0.
Proof.
  intros. unfold field32. rewrite bytes_at_inserts_in by (rewrite ?length_replicate; lia).
  by rewrite bytes_at_replicate by lia.
Qed.

Lemma get_le32_in m i : (i + 4 <= length m)%nat -> get_le32 m i = Some (field32 m i).
Proof. intros. unfold get_le32. by rewrite (proj2 (Nat.leb_le _ _)). Qed.

(** ** Strings *)

Lemma length_utf16le s : length (utf16le s) = (2 * length s)%nat.
Proof. induction s as [|c s IH]; [done|]. unfold utf16le in *. cbn [flat_map length app]. rewrite IH. lia. Qed.

Lemma utf16le_nil s : utf16le s = [] -> s = [].
Proof. destruct s; [done|discriminate]. Qed.

Lemma utf16le_inj s s' :
  Forall is_byte s -> Forall is_byte s' -> utf16le s = utf16le s' -> s = s'.
Proof.
  intros H. revert s'. induction H as [|c s Hc Hs IH]; intros s' H' E.
  - by rewrite (utf16le_nil s').
  - destruct H' as [|c' s' Hc' Hs']; [done|]. unfold utf16le in *. cbn [flat_map app] in E. injection E as E0 E.
    rewrite !u8_small in E0 by (unfold is_byte in *; lia). f_equal; [done|by apply IH].
Qed.

Lemma align4_spec v : 0 <= v < 2 ^ 32 - 3 -> v <= mbim_align4 v < v + 4 /\ mbim_align4 v mod 4 = 0.
Proof.
  intros H. unfold mbim_align4. rewrite u32_small by lia.
  assert (Z.ldiff (v + 3) 3 = (v + 3) / 4 * 4) as ->; [|lia].
  change 3 with (Z.ones 2) at 2. rewrite Z.ldiff_ones_r, Z.shiftl_mul_pow2, Z.shiftr_div_pow2 by lia.
  done.
Qed.

(** The string a [struct mbim_string] at offset [p] names, its offset being
    relative to [frame]: the host's [mbim_get_string], before it decodes the
    UTF-16. *)
Definition string_ref (m : bytes) (frame p : nat) : bytes :=
  bytes_at m (frame + Z.to_nat (field32 m p)) (Z.to_nat (field32 m (p + 4))).

(** The reference the builder returns for a string placed at [off]. *)
Definition str_ref (s : bytes) (off : Z) : Z * Z :=
  match s with [] => (0, 0) | _ => (off, 2 * Z.of_nat (length s)) end.

(** A reference written for a string gives the host that string. *)
Lemma string_ref_read m frame p s off :
  0 <= off < 2 ^ 32 -> Z.of_nat (length s) < 2 ^ 31 ->
  field32 m p = u32 (str_ref s off).1 -> field32 m (p + 4) = u32 (str_ref s off).2 ->
  bytes_at m (frame + Z.to_nat off) (2 * length s) = utf16le s ->
  string_ref m frame p = utf16le s.
Proof.
  intros Ho Hs H1 H2 H. unfold string_ref. rewrite H1, H2. destruct s as [|c s]; [done|].
  cbn [str_ref fst snd]. rewrite !u32_small by lia.
  rewrite <- H. f_equal. lia.
Qed.

(** ** Reasoning about a builder *)

Definition wp {A} (m : B A) (b : mbim_wire_builder) (Q : A -> mbim_wire_builder -> Prop) : Prop :=
  match m b with Some (x, b') => Q x b' | None => False end.

Lemma wp_ret {A} (x : A) b Q : Q x b -> wp (mret x) b Q.
Proof. done. Qed.

Lemma wp_bind {A C} (m : B A) (k : A -> B C) b Q :
  wp m b (fun x b' => wp (k x) b' Q) -> wp (m ≫= k) b Q.
Proof. unfold wp, mbind, B_bind. by destruct (m b) as [[x b']|]. Qed.

Lemma wp_seq {A C} (m : B A) (k : B C) b Q :
  wp m b (fun _ b' => wp k b' Q) -> wp (m ;; k) b Q.
Proof. apply wp_bind. Qed.

Lemma wp_mono {A} (m : B A) b (P Q : A -> mbim_wire_builder -> Prop) :
  wp m b P -> (forall x b', P x b' -> Q x b') -> wp m b Q.
Proof. unfold wp. destruct (m b) as [[x b']|]; auto. Qed.

Section Rules.
Context (mem : bytes) (base : nat) (cap len fb : Z) (ov : bool).

Lemma wp_write i l Q :
  (i + length l <= length mem)%nat -> Q tt (Wire (list_inserts i l mem) base cap len fb ov) ->
  wp (mem_write i l) (Wire mem base cap len fb ov) Q.
Proof. intros H HQ. unfold wp, mem_write. cbn [w_mem]. by rewrite (proj2 (Nat.leb_le _ _)). Qed.

Lemma wp_put i v Q :
  (i + 4 <= length mem)%nat -> Q tt (Wire (list_inserts i (le_list 4 v) mem) base cap len fb ov) ->
  wp (put_le32 i v) (Wire mem base cap len fb ov) Q.
Proof. intros. apply wp_write; [rewrite length_le_list|]; done. Qed.

Lemma wp_init i c Q :
  Q tt (Wire mem i c 0 0 false) -> wp (mbim_wire_init i c) (Wire mem base cap len fb ov) Q.
Proof. done. Qed.

Lemma wp_frame v Q :
  Q tt (Wire mem base cap len v ov) -> wp (set_frame_base v) (Wire mem base cap len fb ov) Q.
Proof. done. Qed.

Lemma wp_len Q :
  Q len (Wire mem base cap len fb ov) -> wp mbim_wire_len (Wire mem base cap len fb ov) Q.
Proof. done. Qed.

Lemma wp_base Q :
  Q base (Wire mem base cap len fb ov) -> wp wire_base (Wire mem base cap len fb ov) Q.
Proof. done. Qed.

Lemma wp_overflow Q :
  Q ov (Wire mem base cap len fb ov) -> wp wire_overflow (Wire mem base cap len fb ov) Q.
Proof. done. Qed.

Lemma wp_reserve n Q :
  0 <= n -> 0 <= len -> len + n <= cap -> cap < 2 ^ 32 ->
  (base + Z.to_nat len + Z.to_nat n <= length mem)%nat ->
  Q len (Wire (list_inserts (base + Z.to_nat len) (replicate (Z.to_nat n) 0) mem)
           base cap (len + n) fb ov) ->
  wp (mbim_wire_reserve n) (Wire mem base cap len fb ov) Q.
Proof.
  intros. unfold wp, mbim_wire_reserve, mem_write. cbn [w_cap w_len w_base w_mem].
  replace (_ || _) with false by lia. rewrite length_replicate.
  rewrite (proj2 (Nat.leb_le _ _)) by lia. pose proof (u32_small (len + n)) as E. cbn. by rewrite E by lia.
Qed.

Lemma wp_finalize Q : Q (negb (ov || (cap <? len))) (Wire mem base cap len fb ov) ->
  wp mbim_wire_finalize (Wire mem base cap len fb ov) Q.
Proof. done. Qed.
End Rules.

Lemma wp_put_string mem base cap len fb ov i v Q :
  (i + 8 <= length mem)%nat ->
  Q tt (Wire (list_inserts (i + 4) (le_list 4 v.2) (list_inserts i (le_list 4 v.1) mem))
          base cap len fb ov) ->
  wp (mbim_wire_put_string i v) (Wire mem base cap len fb ov) Q.
Proof.
  intros H HQ. unfold mbim_wire_put_string.
  change (offsetof _ "offset") with 0%nat. change (offsetof _ "length") with 4%nat.
  rewrite Nat.add_0_r. apply wp_seq, wp_put; [lia|]. apply wp_put; [rewrite length_inserts; lia|done].
Qed.

Lemma wp_append s mem base cap len fb Q :
  0 <= len -> len + 2 * Z.of_nat (length s) + 3 <= cap -> cap < 2 ^ 31 ->
  (base + Z.to_nat cap <= length mem)%nat ->
  (forall pad, 2 * Z.of_nat (length s) <= pad < 2 * Z.of_nat (length s) + 4 ->
     Q (str_ref s (u32 (len - fb)))
       (Wire (list_inserts (base + Z.to_nat len) (utf16le s)
                (list_inserts (base + Z.to_nat len) (replicate (Z.to_nat pad) 0) mem))
          base cap (len + pad) fb false)) ->
  wp (mbim_wire_append_string s) (Wire mem base cap len fb false) Q.
Proof.
  intros Hl Hs Hc Hm HQ. unfold wp, mbim_wire_append_string.
  rewrite u32_small by lia.
  destruct (align4_spec (2 * Z.of_nat (length s))) as [Hp _]; [lia|].
  destruct s as [|c s].
  - cbn [length Z.of_nat Z.mul Z.eqb]. specialize (HQ 0 ltac:(cbn; lia)).
    cbn [str_ref Z.to_nat replicate list_inserts utf16le flat_map] in HQ. by rewrite Z.add_0_r in HQ.
  - replace (_ =? 0) with false by (cbn [length] in *; lia). specialize (HQ _ Hp).
    rewrite (Z.mul_comm (Z.of_nat _)). set (n := mbim_align4 _) in *.
    assert (wp (mbim_wire_reserve n) (Wire mem base cap len fb false) (fun off b =>
      off = len /\ b = Wire (list_inserts (base + Z.to_nat len) (replicate (Z.to_nat n) 0) mem)
        base cap (len + n) fb false)) as Hr by (apply wp_reserve; [lia..|done]).
    unfold wp in Hr. destruct (mbim_wire_reserve _ _) as [[off b]|]; [|done]. destruct Hr as [-> ->].
    cbn [w_overflow w_base w_frame_base].
    unfold mbim_wire_write_utf16le, mbind, B_bind, mem_write. cbn [w_mem].
    rewrite length_inserts, (proj2 (Nat.leb_le _ _)) by (rewrite length_utf16le; cbn [length] in *; lia).
    exact HQ.
Qed.

Create Rewrite HintDb wlen.
#[export] Hint Rewrite length_mem_inserts length_le_list length_utf16le : wlen.
#[export] Hint Rewrite @length_replicate : wlen.

(** Side conditions on offsets and lengths. *)
Ltac wside := autorewrite with wlen; cbn [length]; lia.

(** The offsets of structure fields, as numbers. *)
Ltac layout_simpl :=
  repeat match goal with
  | |- context [offsetof ?s ?f] =>
    let n := eval vm_compute in (offsetof s f) in change (offsetof s f) with n
  | |- context [sizeof ?s] => let n := eval vm_compute in (sizeof s) in change (sizeof s) with n
  end.

(** One statement of a builder's program. *)
Ltac wp1 :=
  lazymatch goal with
  | |- wp (mret _) _ _ => apply wp_ret
  | |- wp (mbind (fun _ => _) _) _ _ => apply wp_bind
  | |- wp (mem_write _ _) _ _ => apply wp_write; [try wside|]
  | |- wp (put_le32 _ _) _ _ => apply wp_put; [try wside|]
  | |- wp (mbim_wire_put_string _ _) _ _ => apply wp_put_string; [try wside|]
  | |- wp (mbim_wire_init _ _) _ _ => apply wp_init
  | |- wp (set_frame_base _) _ _ => apply wp_frame
  | |- wp mbim_wire_len _ _ => apply wp_len
  | |- wp wire_base _ _ => apply wp_base
  | |- wp wire_overflow _ _ => apply wp_overflow
  | |- wp mbim_wire_finalize _ _ => apply wp_finalize
  | |- wp (mbim_wire_reserve _) _ _ => apply wp_reserve; [try wside..|]
  | |- wp (mbim_wire_append_string _) _ _ =>
      apply wp_append; [try wside..|let pad := fresh "pad" in let H := fresh "Hpad" in intros pad H; cbn [length] in H]
  end.

Lemma field32_put_at i v m o :
  o = i -> (i + 4 <= length m)%nat -> field32 (list_inserts i (le_list 4 v) m) o = u32 v.
Proof. intros ->. apply field32_put. Qed.

Lemma bytes_at_inserts_at i l m o n :
  o = i -> n = length l -> (i + length l <= length m)%nat -> bytes_at (list_inserts i l m) o n = l.
Proof. intros ->. apply bytes_at_inserts_eq. Qed.

(** What the host reads after a sequence of writes. *)
Ltac mread1 :=
  match goal with
  | |- context [field32 (list_inserts ?i ?l ?m) ?o] =>
      first [rewrite (field32_ne i l m o) by wside
            |lazymatch l with
             | le_list 4 ?v => rewrite (field32_put_at i v m o) by wside
             | replicate ?n 0 => rewrite (field32_zero i n m o) by wside
             end]
  | |- context [bytes_at (list_inserts ?i ?l ?m) ?o ?n] =>
      first [rewrite (bytes_at_inserts_ne i l m o n) by wside
            |rewrite (bytes_at_inserts_at i l m o n) by wside]
  end.
Ltac mread := repeat mread1.
