(* ===== verification/MbimSms.v ===== *)
(** The store of received SMS and its reading: the [g_sms_store] part of
    [src/src/mbim_frontend/mbim_handlers.c].  The static variables are the
    record [sms_store], passed from call to call. *)

From S2P Require Import Prelude MbimWire.

#[local] Set Primitive Projections.

Definition MBIM_SMS_STORE_MAX : nat := 8.
Definition MBIM_SMS_PDU_MAX : Z := 256.

Record mbim_sms_store_entry := SmsEntry {
  se_used : bool;
  se_unread : bool;
  se_notified : bool;
  se_index : Z;
  se_pdu : bytes;
  se_pdu_len : Z }.

Definition sms_entry_zero : mbim_sms_store_entry :=
  SmsEntry false false false 0 (replicate 256 0) 0.

(** [g_sms_store] and [g_sms_next_index]. *)
Record sms_store := SmsStore { ss_entries : list mbim_sms_store_entry; ss_next_index : Z }.

Definition sms_store_initial : sms_store := SmsStore (replicate MBIM_SMS_STORE_MAX sms_entry_zero) 1.

(** The index of the first entry that satisfies the test. *)
Fixpoint find_entry (p : mbim_sms_store_entry -> bool) (i : nat) (l : list mbim_sms_store_entry)
    : option nat :=
  match l with
  | [] => None
  | e :: l => if p e then Some i else find_entry p (S i) l
  end.

(** The C result, the index written through [message_index], and the store. *)
Definition mbim_handlers_sms_store_append (s : sms_store) (pdu : option bytes) (pdu_len : Z)
    : option (bool * option Z * sms_store) :=
  match pdu with
  | None => Some (false, None, s)
  | Some pdu =>
    if (pdu_len =? 0) || (MBIM_SMS_PDU_MAX <? pdu_len) then Some (false, None, s) else
    let slot := default 0%nat (find_entry (fun e => negb (se_used e)) 0 (ss_entries s)) in
    e ← ss_entries s !! slot;
    data ← slice pdu 0 (Z.to_nat pdu_len);
    let e := e <| se_used := true |> <| se_unread := true |> <| se_notified := false |>
               <| se_index := (ss_next_index s) |> <| se_pdu := (over data (se_pdu e)) |>
               <| se_pdu_len := pdu_len |> in
    Some (true, Some (se_index e),
          SmsStore (<[slot := e]> (ss_entries s)) (u32 (ss_next_index s + 1)))
  end.

Definition mbim_handlers_sms_store_has_unread (s : sms_store) : option Z :=
  i ← find_entry (fun e => se_used e && se_unread e) 0 (ss_entries s);
  e ← ss_entries s !! i;
  Some (se_index e).

Definition sms_store_delete (s : sms_store) (index : Z) : sms_store :=
  s <| ss_entries :=
    ((fun e => if se_used e && ((index =? 0) || (se_index e =? index)) then sms_entry_zero else e)
       <$> ss_entries s) |>.

(** The PDU of a SET_SMS_SEND InformationBuffer, [None] inside where the C
    function returns false. *)
Definition sms_extract_send_pdu (ib : bytes) (ib_len : Z) (out_cap : Z) : option (option bytes) :=
  if ib_len <? 12 then Some None else
  format ← get_le32 ib 0;
  if negb (format =? 0) then Some None else
  off ← get_le32 ib 4;
  size ← get_le32 ib 8;
  let abs_off := 4 + off in
  if (size =? 0) || (out_cap <? size) || (ib_len <? abs_off + size) then Some None else
  data ← slice ib (Z.to_nat abs_off) (Z.to_nat size);
  Some (Some data).

Inductive sms_read_mode := SMS_READ_QUERY | SMS_READ_QUERY_NEW | SMS_READ_NOTIFY.

Definition sms_entry_included (e : mbim_sms_store_entry) (mode : sms_read_mode) : bool :=
  se_used e && match mode with
               | SMS_READ_QUERY_NEW => se_unread e
               | SMS_READ_NOTIFY => negb (se_notified e)
               | SMS_READ_QUERY => true
               end.

Definition mark_read (mode : sms_read_mode) (e : mbim_sms_store_entry) : mbim_sms_store_entry :=
  match mode with
  | SMS_READ_NOTIFY => e <| se_notified := true |>
  | _ => e <| se_unread := false |>
  end.

(** One message: its record, its PDU and its reference in the list. *)
Definition sms_put_record (e : mbim_sms_store_entry) (reflist_off : Z) (written : nat) : B unit :=
  rec_off ← mbim_wire_reserve (Z.of_nat (sizeof mbim_sms_pdu_read_record));
  set_frame_base rec_off ;;
  pdu_off ← mbim_wire_reserve (mbim_align4 (se_pdu_len e));
  ov ← wire_overflow;
  base ← wire_base;
  (if (ov : bool) then mret tt
   else mem_write (base + Z.to_nat pdu_off) (take (Z.to_nat (se_pdu_len e)) (se_pdu e))) ;;
  set_frame_base 0 ;;
  let rec := (base + Z.to_nat rec_off)%nat in
  put_le32 (rec + offsetof mbim_sms_pdu_read_record "messageindex"%string) (se_index e) ;;
  put_le32 (rec + offsetof mbim_sms_pdu_read_record "messagestatus"%string)
    (if se_unread e then 0 else 1) ;;
  mbim_wire_put_string (rec + offsetof mbim_sms_pdu_read_record "pdudata"%string)
    (u32 (pdu_off - rec_off), se_pdu_len e) ;;
  len ← mbim_wire_len;
  mbim_wire_put_string (base + Z.to_nat reflist_off + written * 8) (rec_off, u32 (len - rec_off)).

(** The loop over the entries; [written] never reaches [count] before the last
    included entry, so the test of the loop is the end of the list. *)
Fixpoint sms_put_records (mode : sms_read_mode) (l : list mbim_sms_store_entry) (reflist_off : Z)
    (written count : nat) : B (list mbim_sms_store_entry * nat) :=
  match l with
  | [] => mret ([], written)
  | e :: l =>
    if negb (written <?n count) then mret (e :: l, written) else
    if negb (sms_entry_included e mode) then
      '(l, written) ← sms_put_records mode l reflist_off written count;
      mret (e :: l, written)
    else
      sms_put_record e reflist_off written ;;
      '(l, written) ← sms_put_records mode l reflist_off (S written) count;
      mret (mark_read mode e :: l, written)
  end.

(** The length, or 0 on overflow, and the entries afterwards; the builder
    writes at [out] with [out_cap] bytes. *)
Definition sms_build_read_info (entries : list mbim_sms_store_entry) (out : nat) (out_cap : Z)
    (mode : sms_read_mode) : B (Z * list mbim_sms_store_entry) :=
  let count := length (filter (fun e => sms_entry_included e mode = true) entries) in
  mbim_wire_init out out_cap ;;
  mbim_wire_reserve 8 ;;
  reflist_off ← mbim_wire_reserve (8 * Z.of_nat count);
  '(entries, written) ← sms_put_records mode entries reflist_off 0 count;
  put_le32 (out + 0) 0 ;;
  put_le32 (out + 4) (Z.of_nat written) ;;
  info_len ← mbim_wire_len;
  ok ← mbim_wire_finalize;
  mret (if (ok : bool) then info_len else 0, entries).

(** The C result, the buffer, its length, and the store. *)
Definition mbim_handlers_build_sms_read_indication (s : sms_store) (out : bytes) (out_cap : Z)
    : option (bool * bytes * Z * sms_store) :=
  if forallb (fun e => negb (se_used e && negb (se_notified e))) (ss_entries s)
  then Some (false, out, 0, s) else
  '(len, entries, out) ← run_wire (sms_build_read_info (ss_entries s) 0 out_cap SMS_READ_NOTIFY) out;
  Some (0 <? len, out, len, s <| ss_entries := entries |>).

(** ** The store *)

(** What an entry in use holds. *)
Record sms_entry_ok (e : mbim_sms_store_entry) : Prop := {
  seo_pdu : length (se_pdu e) = 256%nat;
  seo_len : se_used e = true -> 0 < se_pdu_len e <= 256;
  seo_index : 0 <= se_index e < 2 ^ 32 }.

Record sms_store_ok (s : sms_store) : Prop := {
  sso_length : length (ss_entries s) = MBIM_SMS_STORE_MAX;
  sso_entries : Forall sms_entry_ok (ss_entries s);
  sso_next : 0 <= ss_next_index s < 2 ^ 32 }.

Lemma sms_entry_zero_ok : sms_entry_ok sms_entry_zero.
Proof. split; [apply length_replicate|done|cbn; lia]. Qed.

Lemma sms_store_initial_ok : sms_store_ok sms_store_initial.
Proof. split; [done| |cbn; lia]. apply Forall_replicate, sms_entry_zero_ok. Qed.

Lemma find_entry_lt p i l j : find_entry p i l = Some j -> (i <= j < i + length l)%nat.
Proof.
  revert i. induction l as [|e l IH]; intros i H; [done|]. cbn in *. case_match; simplify_eq; [lia|].
  apply IH in H. lia.
Qed.

Lemma find_entry_spec p i l j :
  find_entry p i l = Some (i + j)%nat ->
  exists e, l !! j = Some e /\ p e = true.
Proof.
  revert i j. induction l as [|e l IH]; intros i j H; [done|]. cbn in H. case_match eqn:E.
  - simplify_eq. assert (j = 0%nat) as -> by lia. by exists e.
  - pose proof (find_entry_lt _ _ _ _ H). destruct j as [|j]; [lia|]. cbn.
    apply (IH (S i)). by rewrite H; f_equal; lia.
Qed.

Lemma find_entry_none p i l : find_entry p i l = None -> Forall (fun e => p e = false) l.
Proof.
  revert i. induction l as [|e l IH]; intros i H; [constructor|]. cbn in H. case_match; [done|].
  constructor; [done|by eapply IH].
Qed.

(** ** Reading the store *)

(** The size of the records of the messages. *)
Definition sms_size (e : mbim_sms_store_entry) : Z := 16 + mbim_align4 (se_pdu_len e).
Definition sms_total (l : list mbim_sms_store_entry) : Z := foldr (fun e n => sms_size e + n) 0 l.

(** What the host reads of the [k]-th message: index, status, PDU. *)
Definition host_sms_record (m : bytes) (info k : nat) : Z * Z * bytes :=
  let rec := (info + Z.to_nat (field32 m (info + 8 + 8 * k)))%nat in
  (field32 m rec, field32 m (rec + 4), string_ref m rec (rec + 8)).

Definition sms_record (e : mbim_sms_store_entry) : Z * Z * bytes :=
  (se_index e, if se_unread e then 0 else 1, take (Z.to_nat (se_pdu_len e)) (se_pdu e)).

(** The part of the memory a pass over the entries leaves alone: what precedes
    the references it writes, and what lies between the list and the records. *)
Definition sms_frame (base count written : nat) (len : Z) (mem mem' : bytes) : Prop :=
  length mem' = length mem
  /\ forall o n, (o + n <= base + 8 + 8 * written \/
                 base + 8 + 8 * count <= o /\ o + n <= base + Z.to_nat len)%nat ->
       bytes_at mem' o n = bytes_at mem o n.

Lemma sms_size_bound e : sms_entry_ok e -> se_used e = true ->
  16 + se_pdu_len e <= sms_size e < 20 + se_pdu_len e /\ 0 <= sms_size e <= 276.
Proof.
  intros H Hu. pose proof (seo_len e H Hu). unfold sms_size.
  destruct (align4_spec (se_pdu_len e)); lia.
Qed.

Lemma sms_total_nonneg mode l :
  Forall sms_entry_ok l -> 0 <= sms_total (filter (fun e => sms_entry_included e mode = true) l).
Proof.
  induction 1 as [|e l He Hl IH]; [done|]. rewrite filter_cons. case_decide as Hi; [|done].
  unfold sms_entry_included in Hi. apply andb_true_iff in Hi as [Hu _].
  pose proof (sms_size_bound e He Hu). cbn [sms_total foldr] in *. fold (sms_total (filter (fun e => sms_entry_included e mode = true) l)) in *. lia.
Qed.

(** The [w]-th message of the list is at [off] of the InformationBuffer. *)
Record sms_at (m : bytes) (base w : nat) (off : Z) (e : mbim_sms_store_entry) : Prop := {
  sa_off : field32 m (base + 8 + 8 * w) = off;
  sa_index : field32 m (base + Z.to_nat off) = se_index e;
  sa_status : field32 m (base + Z.to_nat off + 4) = (if se_unread e then 0 else 1);
  sa_data : field32 m (base + Z.to_nat off + 8) = 16;
  sa_size : field32 m (base + Z.to_nat off + 12) = se_pdu_len e;
  sa_pdu : bytes_at m (base + Z.to_nat off + 16) (Z.to_nat (se_pdu_len e))
           = take (Z.to_nat (se_pdu_len e)) (se_pdu e) }.

Lemma sms_at_record m base w off e :
  sms_at m base w off e -> host_sms_record m base w = sms_record e.
Proof.
  intros [H1 H2 H3 H4 H5 H6]. unfold host_sms_record, string_ref, sms_record.
  rewrite H1, H2, H3, H4. replace (base + Z.to_nat off + 8 + 4)%nat with (base + Z.to_nat off + 12)%nat by lia.
  rewrite H5. f_equal. exact H6.
Qed.

(** What the host reads of a message does not depend on later ones. *)
Lemma sms_at_frame base count w off w' len' m m' e :
  sms_entry_ok e -> se_used e = true ->
  sms_frame base count w' len' m m' -> (w < w' <= count)%nat -> 8 + 8 * Z.of_nat count <= off ->
  off + sms_size e <= len' -> sms_at m base w off e -> sms_at m' base w off e.
Proof.
  intros He Hu [_ Hf] Hw Hl Hlen [H1 H2 H3 H4 H5 H6]. pose proof (seo_len e He Hu).
  pose proof (sms_size_bound e He Hu) as [Hs _].
  split; [rewrite <- H1|rewrite <- H2|rewrite <- H3|rewrite <- H4|rewrite <- H5|rewrite <- H6];
    unfold field32; rewrite Hf by lia; done.
Qed.

Lemma sms_frame_trans base count w len w' len' m m1 m2 :
  sms_frame base count w len m m1 -> sms_frame base count w' len' m1 m2 ->
  (w <= w')%nat -> len <= len' -> sms_frame base count w len m m2.
Proof.
  intros [L1 H1] [L2 H2] Hw Hl. split; [congruence|]. intros o n Ho.
  rewrite H2 by lia. apply H1. lia.
Qed.

Lemma sms_put_record_ok e written count mem base cap len Q :
  sms_entry_ok e -> se_used e = true -> (written < count)%nat ->
  8 + 8 * Z.of_nat count <= len -> len + sms_size e <= cap -> cap < 2 ^ 31 ->
  (base + Z.to_nat cap <= length mem)%nat ->
  (forall mem', sms_frame base count written len mem mem' ->
     sms_at mem' base written len e ->
     Q tt (Wire mem' base cap (len + sms_size e) 0 false)) ->
  wp (sms_put_record e 8 written) (Wire mem base cap len 0 false) Q.
Proof.
  intros He Hu Hw Hl Hc Hcap Hm HQ. pose proof (seo_len e He Hu) as Hlen.
  pose proof (sms_size_bound e He Hu) as [Hsz _]. pose proof (seo_pdu e He) as Hpdu.
  pose proof (seo_index e He) as Hix.
  unfold sms_put_record. layout_simpl. change (Z.of_nat 16) with 16.
  unfold sms_size in *. set (p := mbim_align4 (se_pdu_len e)) in *.
  assert (length (take (Z.to_nat (se_pdu_len e)) (se_pdu e)) = Z.to_nat (se_pdu_len e)) as Htk
    by (rewrite length_take; lia).
  repeat wp1. cbv iota. repeat wp1.
  replace (len + 16 + p) with (len + (16 + p)) by lia. apply HQ.
  - split; [by rewrite !length_inserts|]. intros o n Ho. cbn [fst snd]. by mread.
  - cbn [fst snd]. split.
    + mread. apply u32_small. lia.
    + mread. apply u32_small. lia.
    + mread. apply u32_small. destruct (se_unread e); lia.
    + mread. by replace (len + 16 - len) with 16 by lia.
    + mread. apply u32_small. lia.
    + by mread.
Qed.

Lemma mark_none mode l :
  filter (fun e => sms_entry_included e mode = true) l = [] ->
  (fun e => if sms_entry_included e mode then mark_read mode e else e) <$> l = l.
Proof.
  induction l as [|e l IH]; [done|]. rewrite filter_cons. cbn [fmap list_fmap].
  case_decide as Hi; [done|]. apply not_true_is_false in Hi. rewrite Hi. intros H. f_equal. by apply IH.
Qed.

(** The pass over the entries. *)
Lemma sms_put_records_ok mode l count : Forall sms_entry_ok l -> forall written mem base cap len Q,
  let incl := filter (fun e => sms_entry_included e mode = true) l in
  count = (written + length incl)%nat ->
  8 + 8 * Z.of_nat count <= len -> len + sms_total incl <= cap -> cap < 2 ^ 31 ->
  (base + Z.to_nat cap <= length mem)%nat ->
  (forall mem', sms_frame base count written len mem mem' ->
     (forall k e, incl !! k = Some e -> exists off, 8 + 8 * Z.of_nat count <= off /\ sms_at mem' base (written + k) off e) ->
     Q ((fun e => if sms_entry_included e mode then mark_read mode e else e) <$> l, count)
       (Wire mem' base cap (len + sms_total incl) 0 false)) ->
  wp (sms_put_records mode l 8 written count) (Wire mem base cap len 0 false) Q.
Proof.
  induction 1 as [|e l He Hl IH]; intros written mem base cap len Q incl Hcount H8 Hc Hcap Hm HQ.
  - cbn [sms_put_records]. apply wp_ret. subst incl count. cbn [filter list_filter length] in *.
    rewrite Nat.add_0_r in *. replace (len + sms_total []) with len in HQ by (cbn; lia).
    apply HQ; [|done]. split; done.
  - subst incl. cbn [sms_put_records]. pose proof (sms_total_nonneg mode l Hl) as Hnn.
    rewrite filter_cons in *. cbn [fmap list_fmap] in HQ. case_decide as Hi.
    + rewrite Hi in HQ |- *. cbn [length sms_total foldr negb] in *.
      replace (negb _) with false by lia. apply wp_seq.
      assert (se_used e = true) as Hu by (by apply andb_true_iff in Hi as [? _]).
      pose proof (sms_size_bound e He Hu) as [_ Hsz].
      fold (sms_total (filter (fun e => sms_entry_included e mode = true) l)) in *.
      apply (sms_put_record_ok e written count); [done|done|lia..|].
      intros m1 Hf1 Ha1. apply wp_bind, IH; [lia..|rewrite (proj1 Hf1); lia|].
      intros m2 Hf2 Ha2. apply wp_ret. rewrite <- Z.add_assoc. apply HQ.
      * eapply sms_frame_trans; [done..| |]; lia.
      * intros [|k] e' Hk; cbn in Hk.
        -- simplify_eq. rewrite Nat.add_0_r. exists len. split; [done|]. eapply sms_at_frame; [done..| | | |done]; lia.
        -- destruct (Ha2 k e' Hk) as (off & ? & Ho). exists off. split; [done|]. by replace (written + S k)%nat with (S written + k)%nat by lia.
    + apply not_true_is_false in Hi. rewrite Hi in HQ |- *. cbn [negb].
      destruct (written <?n count) eqn:Ew; cbn [negb].
      * apply wp_bind, IH; [done..|]. intros m2 Hf2 Ha2. apply wp_ret. by apply HQ.
      * apply wp_ret. assert (filter (fun e => sms_entry_included e mode = true) l = []) as Hn
          by (apply nil_length_inv; lia).
        rewrite (mark_none mode l Hn), Hn in HQ. rewrite Hn in Hcount. cbn [length] in Hcount.
        replace (len + sms_total []) with len in HQ by (cbn; lia).
        replace written with count by lia. apply HQ; [|done]. by split.
Qed.

(** Reading the store.  When the records fit, the InformationBuffer is their
    length, the host reads each included message in the order of the store with
    its index, its status and its PDU, and exactly those messages are marked. *)
Lemma sms_build_read_info_ok mode l mem out cap Q :
  let incl := filter (fun e => sms_entry_included e mode = true) l in
  let total := 8 + 8 * Z.of_nat (length incl) + sms_total incl in
  Forall sms_entry_ok l -> total <= cap -> cap < 2 ^ 31 -> (out + Z.to_nat cap <= length mem)%nat ->
  Z.of_nat (length incl) < 2 ^ 32 ->
  (forall mem', length mem' = length mem ->
     (forall o n, (o + n <= out)%nat -> bytes_at mem' o n = bytes_at mem o n) ->
     field32 mem' out = 0 -> field32 mem' (out + 4) = Z.of_nat (length incl) ->
     (forall k e, incl !! k = Some e -> host_sms_record mem' out k = sms_record e) ->
     Q (total, (fun e => if sms_entry_included e mode then mark_read mode e else e) <$> l)
       (Wire mem' out cap total 0 false)) ->
  forall base c n fb ov,
  wp (sms_build_read_info l out cap mode) (Wire mem base c n fb ov) Q.
Proof.
  intros incl total Hl Ht Hcap Hm Hn HQ base c n fb ov. unfold sms_build_read_info. fold incl.
  pose proof (sms_total_nonneg mode l Hl) as Hnn. fold incl in Hnn.
  do 6 wp1. apply wp_bind. eapply sms_put_records_ok; [done|fold incl; lia..|wside|].
  fold incl. intros m [Hlen Hf] Ha. rewrite !length_inserts in Hlen. repeat wp1.
  replace (0 + 8 + 8 * Z.of_nat (length incl) + sms_total incl) with total by lia.
  replace (negb _) with true by lia. rewrite Nat.add_0_r. apply HQ.
  - by rewrite !length_inserts.
  - intros o k Ho. mread. rewrite Hf by lia. by mread.
  - by mread.
  - mread. apply u32_small. lia.
  - intros k e Hk. destruct (Ha k e Hk) as (off & Ho & [H1 H2 H3 H4 H5 H6]).
    apply (sms_at_record _ _ _ off). cbn [Nat.add] in *. split; by mread.
Qed.

Lemma sms_total_bound mode l :
  Forall sms_entry_ok l ->
  sms_total (filter (fun e => sms_entry_included e mode = true) l)
  <= 276 * Z.of_nat (length (filter (fun e => sms_entry_included e mode = true) l)).
Proof.
  induction 1 as [|e l He Hl IH]; [done|]. rewrite filter_cons. case_decide as Hi; [|done].
  assert (se_used e = true) as Hu by (by apply andb_true_iff in Hi as [? _]).
  pose proof (sms_size_bound e He Hu) as [_ Hsz].
  change (sms_total (e :: ?l)) with (sms_size e + sms_total l). cbn [length]. lia.
Qed.

(** The InformationBuffer of a query holds the whole store. *)
Lemma sms_store_total mode s :
  sms_store_ok s ->
  let incl := filter (fun e => sms_entry_included e mode = true) (ss_entries s) in
  (length incl <= 8)%nat /\ 0 <= sms_total incl /\ 8 + 8 * Z.of_nat (length incl) + sms_total incl <= 2280.
Proof.
  intros [Hlen Hok _]. cbv zeta. pose proof (sms_total_bound mode _ Hok). pose proof (sms_total_nonneg mode _ Hok).
  pose proof (length_filter (fun e => sms_entry_included e mode = true) (ss_entries s)).
  unfold MBIM_SMS_STORE_MAX in *. lia.
Qed.

(** ** The operations keep the store well formed *)

Lemma mark_read_ok mode e : sms_entry_ok e -> sms_entry_ok (mark_read mode e).
Proof. intros [H1 H2 H3]. by destruct mode; split. Qed.

Lemma sms_store_marked_ok mode s :
  sms_store_ok s ->
  sms_store_ok (s <| ss_entries :=
    ((fun e => if sms_entry_included e mode then mark_read mode e else e) <$> ss_entries s) |>).
Proof.
  intros [H1 H2 H3]. split; [by rewrite <- H1; apply length_fmap| |done].
  apply Forall_fmap. eapply Forall_impl; [exact H2|]. intros e He. cbn.
  destruct (sms_entry_included e mode); [by apply mark_read_ok|done].
Qed.

Lemma sms_store_delete_ok s i : sms_store_ok s -> sms_store_ok (sms_store_delete s i).
Proof.
  intros [H1 H2 H3]. split; [by rewrite <- H1; apply length_fmap| |done].
  apply Forall_fmap. eapply Forall_impl; [exact H2|]. intros e He. cbn.
  destruct (_ && _); [apply sms_entry_zero_ok|done].
Qed.

(** A message of 1 to 256 bytes is always stored, in the first free slot or in
    the first slot, with the next index and unread. *)
Lemma sms_store_append_ok s pdu :
  sms_store_ok s -> 0 < Z.of_nat (length pdu) <= 256 ->
  exists slot s', (slot < 8)%nat
  /\ mbim_handlers_sms_store_append s (Some pdu) (Z.of_nat (length pdu))
     = Some (true, Some (ss_next_index s), s')
  /\ sms_store_ok s'
  /\ exists e, ss_entries s' = <[slot := e]> (ss_entries s)
  /\ se_used e = true /\ se_unread e = true /\ se_notified e = false
  /\ sms_record e = (ss_next_index s, 0, pdu).
Proof.
  intros [H1 H2 H3] Hp. unfold mbim_handlers_sms_store_append, MBIM_SMS_PDU_MAX.
  replace (_ || _) with false by lia. set (slot := default _ _).
  assert (slot < 8)%nat as Hs.
  { subst slot. destruct (find_entry _ _ _) as [j|] eqn:E; [|cbn; lia].
    apply find_entry_lt in E. rewrite H1 in E. cbn in *. unfold MBIM_SMS_STORE_MAX in *. lia. }
  destruct (lookup_lt_is_Some_2 (ss_entries s) slot) as [e He]; [rewrite H1; exact Hs|].
  rewrite He. ob. rewrite Nat2Z.id. rewrite (slice_in _ 0) by lia.
  rewrite drop_0, take_ge by lia. ob. cbn [se_index]. eexists slot, _. split; [done|]. split; [done|].
  assert (length (se_pdu e) = 256%nat) as Hpdu by (by apply seo_pdu; eapply Forall_lookup_1).
  split; [split|].
  - cbn [ss_entries]. by rewrite length_insert.
  - cbn [ss_entries]. apply Forall_insert; [done|]. split; cbn.
    + rewrite length_over; lia.
    + lia.
    + lia.
  - cbn [ss_next_index]. apply u32_range.
  - eexists. split; [reflexivity|]. split_and!; [done..|]. unfold sms_record. cbn.
    by rewrite Nat2Z.id, take_over.
Qed.
