(* ===== verification/MbimHandlers.v ===== *)
(** The MBIM commands: [src/src/mbim_frontend/mbim_handlers.c].

    A command is answered by a program of the builder monad that writes the
    response buffer.  The static variables of the file and the modem state are
    the record [mbim_device]; the actions the handlers call are functions on a
    state [U] that stands for the rest of the program.  [cmd] is the object that
    holds the command, [cmd_len] its length; reading the header's last field in
    bounds makes the reads of its earlier fields so. *)

From S2P Require Import Prelude CString MbimWire ModemState MbimSms.

#[local] Set Primitive Projections.
#[local] Open Scope string_scope.
#[local] Open Scope Z_scope.

Definition MBIM_INFOBUF_CAP : Z := 4048.

Definition uuid_eq (a b : bytes) : bool := bool_decide (a = b).

Record mbim_bce_state := BceState { bce_attach_apn : bytes; bce_attach_apn_set : bool }.
Definition g_bce_state_initial : mbim_bce_state := BceState (str "internet") false.

Record mbim_device := Device {
  dev_state : modem_state; dev_bce : mbim_bce_state; dev_sms : sms_store }.

(** The characters up to a zero or to the end of either array. *)
Fixpoint utf16le_ascii_to_cstr (dst_room : nat) (src : bytes) : bytes :=
  match dst_room, src with
  | S n, c :: _ :: src => if c =? 0 then [] else c :: utf16le_ascii_to_cstr n src
  | _, _ => []
  end.

(** The event for the QMUX layer; the payload runs to the end of the object. *)
Record mbim_vendor_event := QmiCtlSync {
  ve_tid : Z; ve_cid : Z; ve_qmi_payload : bytes; ve_qmi_payload_len : Z }.

Record mbim_handler_actions (U : Type) := Actions {
  act_request_register : option (U -> option U);
  act_request_connect : option (U -> bytes -> option U);
  act_request_disconnect : option (U -> option U);
  act_set_radio : option (U -> bool -> option U);
  (** The C result and the reference written on success. *)
  act_send_sms_ims : option (U -> bytes -> option (Z * Z * U));
  act_sms_enabled : bool;
  act_ims_enabled : bool }.
Arguments Actions {U}.
Arguments act_request_register {U}.
Arguments act_request_connect {U}.
Arguments act_request_disconnect {U}.
Arguments act_set_radio {U}.
Arguments act_send_sms_ims {U}.
Arguments act_sms_enabled {U}.
Arguments act_ims_enabled {U}.

(** ** Responses *)

Definition init_command_done (cmd : bytes) (tid cid : Z) : B unit :=
  mem_write 0 (replicate (Z.to_nat 4096) 0) ;;
  put_le32 0 MBIM_COMMAND_DONE ;;
  put_le32 8 tid ;;
  put_le32 12 1 ;;
  put_le32 16 0 ;;
  mem_write 20 (bytes_at cmd 20 16) ;;
  put_le32 36 cid ;;
  put_le32 40 MBIM_STATUS_SUCCESS.

(** The lengths of the message and of the InformationBuffer. *)
Definition finish_response (info_len : Z) : B Z :=
  put_le32 4 (u32 (48 + info_len)) ;;
  put_le32 44 info_len ;;
  mret (u32 (48 + info_len)).

Definition empty_response : B Z := finish_response 0.

Definition failure_response : B Z :=
  put_le32 4 48 ;; put_le32 40 1 ;; put_le32 44 0 ;; mret 48.

Definition device_caps (st : modem_state) (sms ims : bool) : B Z :=
  let s := mbim_basic_connect_device_caps in
  mbim_wire_init 48 MBIM_INFOBUF_CAP ;;
  mbim_wire_reserve (Z.of_nat (sizeof s)) ;;
  custom_ref ← mbim_wire_append_string [];
  devid_ref ← mbim_wire_append_string (id_imei (ms_identity st));
  fw_ref ← mbim_wire_append_string (id_firmware (ms_identity st));
  hw_ref ← mbim_wire_append_string (id_model (ms_identity st));
  put_le32 (48 + offsetof s "devicetype") 2 ;;
  put_le32 (48 + offsetof s "cellularclass") 1 ;;
  put_le32 (48 + offsetof s "voiceclass") 1 ;;
  put_le32 (48 + offsetof s "simclass") 2 ;;
  put_le32 (48 + offsetof s "dataclass") 0x20 ;;
  put_le32 (48 + offsetof s "smscaps")
    (if sms && ims then MBIM_SMS_CAPS_PDU_RECEIVE |. MBIM_SMS_CAPS_PDU_SEND else 0) ;;
  put_le32 (48 + offsetof s "controlcaps") 1 ;;
  put_le32 (48 + offsetof s "maxsessions") 1 ;;
  mbim_wire_put_string (48 + offsetof s "customdataclass") custom_ref ;;
  mbim_wire_put_string (48 + offsetof s "deviceid") devid_ref ;;
  mbim_wire_put_string (48 + offsetof s "firmwareinfo") fw_ref ;;
  mbim_wire_put_string (48 + offsetof s "hardwareinfo") hw_ref ;;
  info_len ← mbim_wire_len;
  finish_response info_len.

Definition subscriber_ready_status (st : modem_state) : B Z :=
  let s := mbim_basic_connect_subscriber_ready_status in
  let imsi := if ms_sim_ready st then id_imsi (ms_identity st) else [] in
  let iccid := if ms_sim_ready st then id_iccid (ms_identity st) else [] in
  mbim_wire_init 48 MBIM_INFOBUF_CAP ;;
  mbim_wire_reserve (Z.of_nat (sizeof s)) ;;
  id_ref ← mbim_wire_append_string imsi;
  icc_ref ← mbim_wire_append_string iccid;
  put_le32 (48 + offsetof s "readystate") (if ms_sim_ready st then 1 else 0) ;;
  mbim_wire_put_string (48 + offsetof s "subscriberid") id_ref ;;
  mbim_wire_put_string (48 + offsetof s "simiccid") icc_ref ;;
  put_le32 (48 + offsetof s "readyinfo") 0 ;;
  put_le32 (48 + offsetof s "telephonenumberscount") 0 ;;
  put_le32 (48 + offsetof s "telephonenumbers") 0 ;;
  info_len ← mbim_wire_len;
  finish_response info_len.

Definition context_type_internet : bytes :=
  [0xb4; 0x3f; 0x75; 0x8c; 0xa5; 0x60; 0x4b; 0x46; 0xb3; 0x5e; 0xc5; 0x86; 0x96; 0x41; 0xfb; 0x54].

Definition apn_or_internet (st : modem_state) : bytes :=
  match ms_apn st with [] => str "internet" | apn => apn end.

Definition provisioned_contexts (st : modem_state) : B Z :=
  let s := mbimprovisionedcontextelement in
  mbim_wire_init 48 MBIM_INFOBUF_CAP ;;
  mbim_wire_reserve 4 ;;
  reflist_off ← mbim_wire_reserve 8;
  elem_off ← mbim_wire_reserve (Z.of_nat (sizeof s));
  let el := (48 + Z.to_nat elem_off)%nat in
  set_frame_base elem_off ;;
  apn_ref ← mbim_wire_append_string (apn_or_internet st);
  set_frame_base 0 ;;
  len ← mbim_wire_len;
  put_le32 (el + offsetof s "contextid") 1 ;;
  mem_write (el + offsetof s "contexttype") context_type_internet ;;
  mbim_wire_put_string (el + offsetof s "accessstring") apn_ref ;;
  put_le32 (48 + offsetof mbim_basic_connect_provisioned_contexts "provisionedcontextscount") 1 ;;
  mbim_wire_put_string (48 + Z.to_nat reflist_off) (elem_off, u32 (len - elem_off)) ;;
  info_len ← mbim_wire_len;
  finish_response info_len.

Definition register_state_set : B Z :=
  let s := mbim_basic_connect_register_state in
  put_le32 (48 + offsetof s "nwerror") 0 ;;
  put_le32 (48 + offsetof s "registerstate") 1 ;;
  put_le32 (48 + offsetof s "registermode") 1 ;;
  put_le32 (48 + offsetof s "availabledataclasses") 0 ;;
  put_le32 (48 + offsetof s "currentcellularclass") 1 ;;
  put_le32 (48 + offsetof s "registrationflag") 2 ;;
  finish_response (Z.of_nat (sizeof s)).

Definition register_state_query (st : modem_state) : B Z :=
  let s := mbim_basic_connect_register_state in
  put_le32 (48 + offsetof s "nwerror") 0 ;;
  put_le32 (48 + offsetof s "registerstate") (if ms_registered_home st then 3 else 1) ;;
  put_le32 (48 + offsetof s "registermode") 1 ;;
  put_le32 (48 + offsetof s "availabledataclasses") (if ms_packet_attached st then 0x20 else 0) ;;
  put_le32 (48 + offsetof s "currentcellularclass") 1 ;;
  finish_response 44.

Definition packet_service (st : modem_state) : B Z :=
  let s := mbim_basic_connect_packet_service in
  put_le32 (48 + offsetof s "nwerror") 0 ;;
  put_le32 (48 + offsetof s "packetservicestate") (if ms_packet_attached st then 2 else 0) ;;
  put_le32 (48 + offsetof s "highestavailabledataclass")
    (if ms_packet_attached st then 0x20 else 0) ;;
  put_le32 (48 + offsetof s "uplinkspeed") (if ms_packet_attached st then 50000000 else 0) ;;
  put_le32 (48 + offsetof s "uplinkspeed" + 4) 0 ;;
  put_le32 (48 + offsetof s "downlinkspeed") (if ms_packet_attached st then 100000000 else 0) ;;
  put_le32 (48 + offsetof s "downlinkspeed" + 4) 0 ;;
  finish_response (Z.of_nat (sizeof s)).

Definition uuid_context_type_internet : bytes :=
  [0x7e; 0x5e; 0x2a; 0x7e; 0x4e; 0x6f; 0x72; 0x72; 0x73; 0x6b; 0x65; 0x6e; 0x7e; 0x5e; 0x2a; 0x7e].

Definition connect_info (session activationstate : Z) : B Z :=
  let s := mbim_basic_connect_connect in
  put_le32 (48 + offsetof s "sessionid") session ;;
  put_le32 (48 + offsetof s "activationstate") activationstate ;;
  put_le32 (48 + offsetof s "voicecallstate") 0 ;;
  put_le32 (48 + offsetof s "iptype") 1 ;;
  mem_write (48 + offsetof s "contexttype") uuid_context_type_internet ;;
  put_le32 (48 + offsetof s "nwerror") 0 ;;
  finish_response (Z.of_nat (sizeof s)).

Definition ip_configuration (st : modem_state) : B Z :=
  let s := mbim_basic_connect_ip_configuration in
  let addr_off := sizeof s in
  let gw_off := (addr_off + sizeof mbimipv4element)%nat in
  let dns_off := (gw_off + 4)%nat in
  let addr := (48 + addr_off)%nat in
  put_le32 (48 + offsetof s "sessionid") (ms_connect_session_id st) ;;
  put_le32 (48 + offsetof s "ipv4configurationavailable") 0x0f ;;
  put_le32 (48 + offsetof s "ipv6configurationavailable") 0 ;;
  put_le32 (48 + offsetof s "ipv4addresscount") 1 ;;
  put_le32 (48 + offsetof s "ipv4address") (Z.of_nat addr_off) ;;
  put_le32 (48 + offsetof s "ipv6addresscount") 0 ;;
  put_le32 (48 + offsetof s "ipv6address") 0 ;;
  put_le32 (48 + offsetof s "ipv4gateway") (Z.of_nat gw_off) ;;
  put_le32 (48 + offsetof s "ipv6gateway") 0 ;;
  put_le32 (48 + offsetof s "ipv4dnsservercount") 1 ;;
  put_le32 (48 + offsetof s "ipv4dnsserver") (Z.of_nat dns_off) ;;
  put_le32 (48 + offsetof s "ipv6dnsservercount") 0 ;;
  put_le32 (48 + offsetof s "ipv6dnsserver") 0 ;;
  put_le32 (48 + offsetof s "ipv4mtu") (mip_mtu (ms_ip st)) ;;
  put_le32 (48 + offsetof s "ipv6mtu") 0 ;;
  put_le32 (addr + offsetof mbimipv4element "onlinkprefixlength") 24 ;;
  mem_write (addr + offsetof mbimipv4element "ipv4address") (mip_ipv4_addr (ms_ip st)) ;;
  mem_write (48 + gw_off) (mip_ipv4_gw (ms_ip st)) ;;
  mem_write (48 + dns_off) (mip_ipv4_dns1 (ms_ip st)) ;;
  finish_response (Z.of_nat (dns_off + 4)).

Definition radio_state (hw sw : bool) : B Z :=
  let s := mbim_basic_connect_radio_state in
  put_le32 (48 + offsetof s "hwradiostate") (if hw then 1 else 0) ;;
  put_le32 (48 + offsetof s "swradiostate") (if sw then 1 else 0) ;;
  finish_response (Z.of_nat (sizeof s)).

Definition services : list (bytes * list Z) :=
  [(UUID_EXT_QMUX, [1]);
   (UUID_BASIC_CONNECT_EXTENSIONS,
    [MBIM_EXT_CID_PROVISIONED_CONTEXT_V2; MBIM_EXT_CID_LTE_ATTACH_CONFIG;
     MBIM_EXT_CID_LTE_ATTACH_STATUS]);
   (UUID_SMS,
    [MBIM_CID_SMS_CONFIGURATION; MBIM_CID_SMS_READ; MBIM_CID_SMS_SEND; MBIM_CID_SMS_DELETE;
     MBIM_CID_SMS_MESSAGE_STORE_STATUS])].

Fixpoint put_cids (p : nat) (cids : list Z) : B unit :=
  match cids with
  | [] => mret tt
  | c :: cids => put_le32 p c ;; put_cids (p + 4) cids
  end.

Fixpoint put_services (l : list (bytes * list Z)) (ref : nat) : B unit :=
  match l with
  | [] => mret tt
  | (uuid, cids) :: l =>
    let s := mbimdeviceserviceelement in
    let elem_size := Z.of_nat (offsetof s "cids") + Z.of_nat (length cids) * 4 in
    elem_off ← mbim_wire_reserve elem_size;
    let e := (48 + Z.to_nat elem_off)%nat in
    mem_write (e + offsetof s "deviceserviceid") uuid ;;
    put_le32 (e + offsetof s "dsspayload") 0 ;;
    put_le32 (e + offsetof s "maxdssinstances") 0 ;;
    put_le32 (e + offsetof s "cidscount") (Z.of_nat (length cids)) ;;
    put_cids (e + offsetof s "cids") cids ;;
    mbim_wire_put_string ref (elem_off, elem_size) ;;
    put_services l (ref + 8)
  end.

Definition device_services : B Z :=
  let s := mbim_basic_connect_device_services in
  let nsvc := Z.of_nat (length services) in
  mbim_wire_init 48 MBIM_INFOBUF_CAP ;;
  mbim_wire_reserve 8 ;;
  reflist_off ← mbim_wire_reserve (8 * nsvc);
  put_services services (48 + Z.to_nat reflist_off) ;;
  put_le32 (48 + offsetof s "deviceservicescount") nsvc ;;
  put_le32 (48 + offsetof s "maxdsssessions") 0 ;;
  info_len ← mbim_wire_len;
  finish_response info_len.

(** ** Responses of the extensions and of the SMS service *)

Definition provisioned_context_v2 (st : modem_state) : B Z :=
  let s := mbim_ms_context_v2 in
  mbim_wire_init 48 MBIM_INFOBUF_CAP ;;
  mbim_wire_reserve 4 ;;
  reflist_off ← mbim_wire_reserve 8;
  elem_off ← mbim_wire_reserve (Z.of_nat (sizeof s));
  let el := (48 + Z.to_nat elem_off)%nat in
  set_frame_base elem_off ;;
  apn_ref ← mbim_wire_append_string (apn_or_internet st);
  set_frame_base 0 ;;
  len ← mbim_wire_len;
  put_le32 (el + offsetof s "contextid") 1 ;;
  mem_write (el + offsetof s "contexttype") context_type_internet ;;
  put_le32 (el + offsetof s "iptype") 1 ;;
  put_le32 (el + offsetof s "enable") 1 ;;
  put_le32 (el + offsetof s "roaming") 6 ;;
  put_le32 (el + offsetof s "mediatype") 0 ;;
  put_le32 (el + offsetof s "source") 0 ;;
  mbim_wire_put_string (el + offsetof s "accessstring") apn_ref ;;
  put_le32 (48 + offsetof mbim_ms_provisioned_contexts_info_v2 "elementcount") 1 ;;
  mbim_wire_put_string (48 + Z.to_nat reflist_off) (elem_off, u32 (len - elem_off)) ;;
  info_len ← mbim_wire_len;
  finish_response info_len.

(** The APN set by a SET of the attach configuration: the last 64 bytes of the
    payload, read as a string. *)
Definition lte_attach_config_set (bce : mbim_bce_state) (cmd : bytes) (cmd_type payload_len : Z)
    : option mbim_bce_state :=
  if (cmd_type =? 1) && (8 <=? payload_len) then
    let tail := Z.min payload_len 64 in
    cand ← slice cmd (Z.to_nat (48 + (payload_len - tail))) (Z.to_nat tail);
    match utf16le_ascii_to_cstr 63 cand with
    | [] => Some bce
    | apn => Some (BceState apn true)
    end
  else Some bce.

Definition attach_apn (bce : mbim_bce_state) (st : modem_state) : bytes :=
  if bce_attach_apn_set bce then bce_attach_apn bce else ms_apn st.

Fixpoint put_attach_configs (n : nat) (i : nat) (apn : bytes) (ref : nat) : B unit :=
  match n with
  | O => mret tt
  | S n =>
    let s := mbim_ms_lte_attach_configuration in
    cfg_off ← mbim_wire_reserve (Z.of_nat (sizeof s));
    let cfg := (48 + Z.to_nat cfg_off)%nat in
    set_frame_base cfg_off ;;
    apn_ref ← mbim_wire_append_string apn;
    set_frame_base 0 ;;
    put_le32 (cfg + offsetof s "iptype") 1 ;;
    put_le32 (cfg + offsetof s "roaming") (Z.of_nat i) ;;
    put_le32 (cfg + offsetof s "source") 0 ;;
    mbim_wire_put_string (cfg + offsetof s "accessstring") apn_ref ;;
    len ← mbim_wire_len;
    mbim_wire_put_string (ref + i * 8) (cfg_off, u32 (len - cfg_off)) ;;
    put_attach_configs n (S i) apn ref
  end.

Definition lte_attach_config (apn : bytes) : B Z :=
  mbim_wire_init 48 MBIM_INFOBUF_CAP ;;
  mbim_wire_reserve 4 ;;
  reflist_off ← mbim_wire_reserve 24;
  put_attach_configs 3 0 apn (48 + Z.to_nat reflist_off) ;;
  put_le32 (48 + offsetof mbim_ms_lte_attach_configuration_info "configurationcount") 3 ;;
  info_len ← mbim_wire_len;
  finish_response info_len.

(** The fields of an attach status at [base], and its length. *)
Definition put_attach_status (base : nat) (attached : bool) (apn : bytes) : B Z :=
  let s := mbim_ms_lte_attach_status in
  let access := if attached then apn else [] in
  mbim_wire_reserve (Z.of_nat (sizeof s)) ;;
  acc_ref ← mbim_wire_append_string access;
  usr_ref ← mbim_wire_append_string [];
  pwd_ref ← mbim_wire_append_string [];
  put_le32 (base + offsetof s "lteattachstate") (if attached then 1 else 0) ;;
  put_le32 (base + offsetof s "iptype") 1 ;;
  mbim_wire_put_string (base + offsetof s "accessstring") acc_ref ;;
  mbim_wire_put_string (base + offsetof s "username") usr_ref ;;
  mbim_wire_put_string (base + offsetof s "password") pwd_ref ;;
  put_le32 (base + offsetof s "compression") 0 ;;
  put_le32 (base + offsetof s "authprotocol") 0 ;;
  mbim_wire_len.

Definition lte_attach_status (st : modem_state) (apn : bytes) : B Z :=
  mbim_wire_init 48 MBIM_INFOBUF_CAP ;;
  info_len ← put_attach_status 48 (ms_packet_attached st) apn;
  finish_response info_len.

Definition sms_configuration : B Z :=
  let s := mbim_sms_configuration in
  mbim_wire_init 48 MBIM_INFOBUF_CAP ;;
  mbim_wire_reserve (Z.of_nat (sizeof s)) ;;
  sca_ref ← mbim_wire_append_string [];
  put_le32 (48 + offsetof s "smsstoragestate") 1 ;;
  put_le32 (48 + offsetof s "format") 0 ;;
  put_le32 (48 + offsetof s "maxmessages") 100 ;;
  put_le32 (48 + offsetof s "cdmashortmessagesize") 0 ;;
  mbim_wire_put_string (48 + offsetof s "scaddress") sca_ref ;;
  info_len ← mbim_wire_len;
  finish_response info_len.

Definition sms_read_mode_of (flag : Z) : sms_read_mode :=
  if flag =? MBIM_SMS_FLAG_NEW then SMS_READ_QUERY_NEW else SMS_READ_QUERY.

Definition sms_read (entries : list mbim_sms_store_entry) (mode : sms_read_mode)
    : B (Z * list mbim_sms_store_entry) :=
  '(info_len, entries) ← sms_build_read_info entries 48 MBIM_INFOBUF_CAP mode;
  n ← finish_response info_len;
  mret (n, entries).

Definition sms_message_store_status (unread : option Z) : B Z :=
  let s := mbim_sms_message_store_status in
  put_le32 (48 + offsetof s "flag")
    (if unread is Some _ then MBIM_SMS_STATUS_FLAG_NEW_MESSAGE else MBIM_SMS_STATUS_FLAG_NONE) ;;
  put_le32 (48 + offsetof s "messageindex") (default 0 unread) ;;
  finish_response (Z.of_nat (sizeof s)).

Definition sms_sent (reference : Z) : B Z :=
  put_le32 (48 + offsetof mbim_sms_send "messagereference") reference ;;
  finish_response (Z.of_nat (sizeof mbim_sms_send)).

Definition echo_payload (payload : bytes) : B Z :=
  finish_response (Z.of_nat (length payload)) ;;
  mem_write 48 payload ;;
  mret (u32 (48 + Z.of_nat (length payload))).

(** ** Commands *)

Record mbim_outcome (U : Type) := Outcome {
  mo_ret : bool;
  mo_resp : bytes;
  mo_resp_len : Z;
  mo_dev : mbim_device;
  mo_world : U;
  mo_event : option mbim_vendor_event }.
Arguments Outcome {U}.
Arguments mo_ret {U}.
Arguments mo_resp {U}.
Arguments mo_resp_len {U}.
Arguments mo_dev {U}.
Arguments mo_world {U}.
Arguments mo_event {U}.

Section Commands.
Context {U : Type}.
Implicit Types (acts : option (mbim_handler_actions U)) (w : U) (dev : mbim_device).

Definition respond (m : B Z) (resp : bytes) (dev : mbim_device) (w : U) : option (mbim_outcome U) :=
  '(n, resp) ← run_wire m resp;
  Some (Outcome true resp n dev w None).

(** A call through a pointer of the actions, when there is one. *)
Definition act (acts : option (mbim_handler_actions U))
    (get : mbim_handler_actions U -> option (U -> option U)) (w : U) : option U :=
  match acts ≫= get with Some f => f w | None => Some w end.

Definition handle_connect acts dev w (cmd : bytes) (cmd_len cmd_type ib_len : Z)
    : option (Z * mbim_device * U) :=
  let st := dev_state dev in
  if cmd_type =? 1 then
    activation_command ← (if (8 <=? ib_len) && (56 <=? cmd_len) then get_le32 cmd 52 else Some 1);
    if activation_command =? 0 then
      w ← act acts act_request_disconnect w;
      Some (3, dev <| dev_state := (st <| ms_connect_activated := false |>
                                       <| ms_connect_session_id := 0 |>) |>, w)
    else
      w ← act acts (fun a => f ← act_request_connect a; Some (fun w => f w (ms_apn st))) w;
      Some (1, dev <| dev_state := (st <| ms_connect_activated := true |>
                                       <| ms_connect_session_id := 0 |>) |>, w)
  else Some (if ms_connect_activated st then 1 else 3, dev, w).

Definition handle_radio_state acts dev w (cmd : bytes) (cmd_len cmd_type ib_len : Z)
    : option (bool * bool * U) :=
  if (cmd_type =? 1) && (4 <=? ib_len) && (52 <=? cmd_len) then
    requested ← get_le32 cmd 48;
    let on := negb (requested =? 0) in
    w ← act acts (fun a => f ← act_set_radio a; Some (fun w => f w on)) w;
    Some (true, on, w)
  else Some (ms_radio_hw_on (dev_state dev), ms_radio_sw_on (dev_state dev), w).

Definition handle_basic_command acts dev w (cmd : bytes) (cmd_len cid cmd_type ib_len : Z)
    (head : B unit) (resp : bytes) : option (mbim_outcome U) :=
  let st := dev_state dev in
  let reply m := respond (head ;; m) resp dev w in
  if cid =? MBIM_CID_DEVICE_CAPS then
    reply (if negb (cmd_type =? 0) then empty_response else
           device_caps st (match acts with Some a => act_sms_enabled a | None => false end)
                          (match acts with Some a => act_ims_enabled a | None => false end))
  else if cid =? MBIM_CID_SUBSCRIBER_READY_STATUS then reply (subscriber_ready_status st)
  else if cid =? MBIM_CID_PROVISIONED_CONTEXTS then reply (provisioned_contexts st)
  else if cid =? MBIM_CID_REGISTER_STATE then
    if negb (cmd_type =? 0) then
      w ← act acts act_request_register w;
      respond (head ;; register_state_set) resp dev w
    else reply (register_state_query st)
  else if cid =? MBIM_CID_PACKET_SERVICE then reply (packet_service st)
  else if cid =? MBIM_CID_SIGNAL_STATE then reply empty_response
  else if cid =? MBIM_CID_CONNECT then
    '(activationstate, dev, w) ← handle_connect acts dev w cmd cmd_len cmd_type ib_len;
    respond (head ;; connect_info (ms_connect_session_id (dev_state dev)) activationstate)
      resp dev w
  else if cid =? MBIM_CID_IP_CONFIGURATION then reply (ip_configuration st)
  else if cid =? MBIM_CID_RADIO_STATE then
    '(hw, sw, w) ← handle_radio_state acts dev w cmd cmd_len cmd_type ib_len;
    respond (head ;; radio_state hw sw) resp dev w
  else if cid =? MBIM_CID_DEVICE_SERVICES then reply device_services
  else reply empty_response.

(** A QMUX message; [payload_len] is what the C code takes for its length. *)
Definition qmux_payload_len (cmd_len ib_len : Z) : Z :=
  if (0 <? ib_len) && (u32 (48 + ib_len) <=? cmd_len) then ib_len
  else if 48 <? cmd_len then cmd_len - 48 else 0.

Definition is_ctl_sync (q : bytes) : bool :=
  bool_decide (take 7 q = [0x01; 0x0b; 0; 0; 0; 0; 0])
  && bool_decide (take 4 (drop 8 q) = [0x27; 0; 0; 0]).

Definition handle_qmux_command dev w (cmd : bytes) (cmd_len tid cid ib_len : Z)
    (head : B unit) (resp : bytes) : option (mbim_outcome U) :=
  let len := qmux_payload_len cmd_len ib_len in
  sync ← (if 12 <=? len then q ← slice cmd 48 12; Some (is_ctl_sync q) else Some false);
  if sync : bool
  then Some (Outcome true resp 0 dev w (Some (QmiCtlSync tid cid (drop 48 cmd) len)))
  else respond (head ;; failure_response) resp dev w.

Definition handle_ext_command dev w (cmd : bytes) (payload_len cid cmd_type : Z)
    (head : B unit) (resp : bytes) : option (mbim_outcome U) :=
  let st := dev_state dev in
  if cid =? MBIM_EXT_CID_PROVISIONED_CONTEXT_V2 then
    respond (head ;; provisioned_context_v2 st) resp dev w
  else if cid =? MBIM_EXT_CID_LTE_ATTACH_CONFIG then
    bce ← lte_attach_config_set (dev_bce dev) cmd cmd_type payload_len;
    respond (head ;; lte_attach_config (attach_apn bce st)) resp (dev <| dev_bce := bce |>) w
  else if cid =? MBIM_EXT_CID_LTE_ATTACH_STATUS then
    respond (head ;; lte_attach_status st (attach_apn (dev_bce dev) st)) resp dev w
  else respond (head ;; empty_response) resp dev w.

Definition handle_sms_send acts w (cmd : bytes) (payload_len : Z) : option (option Z * U) :=
  pdu ← sms_extract_send_pdu (drop 48 cmd) payload_len MBIM_SMS_PDU_MAX;
  match pdu, acts ≫= act_send_sms_ims with
  | Some pdu, Some f =>
    '(rc, reference, w) ← f w pdu;
    Some (if rc =? 0 then Some reference else None, w)
  | _, _ => Some (None, w)
  end.

Definition handle_sms_command acts dev w (cmd : bytes) (cmd_len payload_len cid : Z)
    (head : B unit) (resp : bytes) : option (mbim_outcome U) :=
  if cid =? MBIM_CID_SMS_CONFIGURATION then respond (head ;; sms_configuration) resp dev w
  else if cid =? MBIM_CID_SMS_READ then
    flag ← (if 56 <=? cmd_len then get_le32 cmd 52 else Some MBIM_SMS_FLAG_ALL);
    '(n, entries, resp) ←
      run_wire (head ;; sms_read (ss_entries (dev_sms dev)) (sms_read_mode_of flag)) resp;
    Some (Outcome true resp n (dev <| dev_sms := ((dev_sms dev) <| ss_entries := entries |>) |>) w None)
  else if cid =? MBIM_CID_SMS_MESSAGE_STORE_STATUS then
    respond (head ;; sms_message_store_status (mbim_handlers_sms_store_has_unread (dev_sms dev)))
      resp dev w
  else if cid =? MBIM_CID_SMS_SEND then
    '(sent, w) ← handle_sms_send acts w cmd payload_len;
    respond (head ;; match sent with Some r => sms_sent r | None => failure_response end) resp dev w
  else if cid =? MBIM_CID_SMS_DELETE then
    index ← (if 12 <=? payload_len then get_le32 cmd 56 else Some 0);
    respond (head ;; empty_response) resp
      (dev <| dev_sms := (sms_store_delete (dev_sms dev) index) |>) w
  else respond (head ;; empty_response) resp dev w.

Definition handle_vendor_command acts dev w (cmd : bytes) (cmd_len tid cid ib_len cmd_type : Z)
    (head : B unit) (resp : bytes) : option (mbim_outcome U) :=
  let uuid := bytes_at cmd 20 16 in
  let payload_len := if 48 <? cmd_len then cmd_len - 48 else 0 in
  if uuid_eq uuid UUID_EXT_QMUX then
    handle_qmux_command dev w cmd cmd_len tid cid ib_len head resp
  else if uuid_eq uuid UUID_BASIC_CONNECT_EXTENSIONS then
    handle_ext_command dev w cmd payload_len cid cmd_type head resp
  else if uuid_eq uuid UUID_SMS then
    handle_sms_command acts dev w cmd cmd_len payload_len cid head resp
  else
    payload ← slice cmd 48 (Z.to_nat payload_len);
    respond (head ;; echo_payload payload) resp dev w.

Definition mbim_handlers_handle_command (cmd : option bytes) (cmd_len : Z) acts dev w
    (resp : bytes) (resp_len : Z) : option (mbim_outcome U) :=
  match cmd with
  | None => Some (Outcome false resp resp_len dev w None)
  | Some cmd =>
    if cmd_len <? 48 then Some (Outcome false resp resp_len dev w None) else
    ib_len ← get_le32 cmd 44;
    cmd_type ← get_le32 cmd 40;
    cid ← get_le32 cmd 36;
    tid ← get_le32 cmd 8;
    let head := init_command_done cmd tid cid in
    if uuid_eq (bytes_at cmd 20 16) UUID_BASIC_CONNECT
    then handle_basic_command acts dev w cmd cmd_len cid cmd_type ib_len head resp
    else handle_vendor_command acts dev w cmd cmd_len tid cid ib_len cmd_type head resp
  end.
End Commands.
