(* ===== verification/MbimReports.v ===== *)
(** What the host reads in the answers of [mbim_handlers.c]. *)

From S2P Require Import Prelude CString MbimWire ModemState MbimSms MbimHandlers.

#[local] Open Scope string_scope.
#[local] Open Scope Z_scope.

(** The header of an answer of [n] bytes. *)
Record command_done (cmd resp : bytes) (n status : Z) : Prop := {
  cd_size : 48 <= n <= 4096;
  cd_length : length resp = 4096%nat;
  cd_type : field32 resp 0 = MBIM_COMMAND_DONE;
  cd_msg_len : field32 resp 4 = n;
  cd_tid : field32 resp 8 = field32 cmd 8;
  cd_fragments : field32 resp 12 = 1 /\ field32 resp 16 = 0;
  cd_service : bytes_at resp 20 16 = bytes_at cmd 20 16;
  cd_cid : field32 resp 36 = field32 cmd 36;
  cd_status : field32 resp 40 = status;
  cd_info_len : field32 resp 44 = n - 48 }.

(** What a program that finishes an answer leaves: the two lengths and the status
    are set, the rest of the header is that of [mem]. *)
Record finished (mem : bytes) (n status : Z) (mem' : bytes) : Prop := {
  fin_size : 48 <= n <= 4096;
  fin_length : length mem' = 4096%nat;
  fin_msg_len : field32 mem' 4 = n;
  fin_info_len : field32 mem' 44 = n - 48;
  fin_status : field32 mem' 40 = status;
  fin_header : forall o k, (o + k <= 4 \/ 8 <= o /\ o + k <= 40)%nat ->
    bytes_at mem' o k = bytes_at mem o k }.

(** The message after [init_command_done]. *)
Record started (mem : bytes) : Prop := {
  st_length : length mem = 4096%nat;
  st_status : field32 mem 40 = 0;
  st_zero : forall o n, (48 <= o)%nat -> (o + n <= 4096)%nat -> bytes_at mem o n = replicate n 0 }.

(** Whatever the builder was, the program ends inside the buffer with the length
    of the message, and the host then reads [P]. *)
Definition answers (m : B Z) (status : Z) (P : Z -> bytes -> Prop) : Prop :=
  forall mem base cap len fb ov, started mem ->
  wp m (Wire mem base cap len fb ov) (fun n b =>
    finished mem n status (w_mem b) /\ P n (w_mem b)).

Lemma wp_finish n mem base cap len fb ov Q :
  0 <= n <= 4048 -> length mem = 4096%nat ->
  (forall mem', length mem' = 4096%nat -> field32 mem' 4 = 48 + n -> field32 mem' 44 = n ->
     (forall o k, (o + k <= 4 \/ 8 <= o /\ o + k <= 44 \/ 48 <= o)%nat ->
        bytes_at mem' o k = bytes_at mem o k) ->
     Q (48 + n) (Wire mem' base cap len fb ov)) ->
  wp (finish_response n) (Wire mem base cap len fb ov) Q.
Proof.
  intros Hn Hm HQ. unfold finish_response. repeat wp1. rewrite u32_small by lia. apply HQ.
  - by rewrite !length_inserts.
  - mread. apply u32_small. lia.
  - mread. apply u32_small. lia.
  - intros o k Ho. by mread.
Qed.

(** The InformationBuffer of a program that only writes there. *)
Lemma wp_finish_answer n mem0 mem base cap len fb ov Q :
  started mem0 -> 0 <= n <= 4048 -> length mem = 4096%nat ->
  (forall o k, (o + k <= 48)%nat -> bytes_at mem o k = bytes_at mem0 o k) ->
  (forall mem', finished mem0 (48 + n) 0 mem' ->
     (forall o k, (48 <= o)%nat -> bytes_at mem' o k = bytes_at mem o k) ->
     Q (48 + n) (Wire mem' base cap len fb ov)) ->
  wp (finish_response n) (Wire mem base cap len fb ov) Q.
Proof.
  intros Hs Hn Hm Hf HP. apply wp_finish; [done|done|]. intros mem' Hl H4 H44 Hk.
  apply HP; [|intros o k Ho; apply Hk; lia].
  split; [lia|done|done|lia| |].
  - rewrite <- (st_status _ Hs). unfold field32. by rewrite Hk, Hf by lia.
  - intros o k Ho. by rewrite Hk, Hf by lia.
Qed.

(** The obligations of [answers] for a program that writes fields and finishes. *)
Ltac answers_start :=
  intros mem base cap len fb ov Hmem; pose proof (st_length _ Hmem) as Hlength;
  unfold MBIM_INFOBUF_CAP, empty_response; cbv zeta; layout_simpl; repeat (wp1; cbv zeta); cbn [fst snd Z.of_nat Pos.of_succ_nat Pos.succ];
  lazymatch goal with
  | |- wp (finish_response _) _ _ =>
    refine (wp_finish_answer _ _ _ _ _ _ _ _ _ Hmem _ _ _ _);
    [try lia|try wside|intros o k Ho; try by mread
    |let m := fresh "m" in let Hf := fresh "Hf" in let Hr := fresh "Hr" in intros m Hf Hr;
     cbn [w_mem]; split; [exact Hf|];
     pose proof (fun o Ho => f_equal le_val (Hr o 4%nat Ho)) as Hr32;
     change (forall o, (48 <= o)%nat -> field32 m o = field32 ltac:(lazymatch type of Hr with forall o k, _ -> _ = bytes_at ?m' o k => exact m' end) o) in Hr32]
  end.

Lemma length_uuid_context : length uuid_context_type_internet = 16%nat.
Proof. done. Qed.
Lemma length_context_type : length context_type_internet = 16%nat.
Proof. done. Qed.
Lemma length_uuid_qmux : length UUID_EXT_QMUX = 16%nat.
Proof. done. Qed.
Lemma length_uuid_ext : length UUID_BASIC_CONNECT_EXTENSIONS = 16%nat.
Proof. done. Qed.
Lemma length_uuid_sms : length UUID_SMS = 16%nat.
Proof. done. Qed.
#[export] Hint Rewrite length_uuid_context length_context_type length_uuid_qmux length_uuid_ext
  length_uuid_sms : wlen.

(** What is left: the values of fields. *)
Ltac answers_read :=
  repeat match goal with
  | |- _ /\ _ => split
  | Hr : forall o, (48 <= o)%nat -> field32 ?m o = _ |- context [field32 ?m ?o] => rewrite (Hr o) by lia
  | Hr : forall o k, (48 <= o)%nat -> bytes_at ?m o k = _ |- context [bytes_at ?m ?o ?k] =>
      rewrite (Hr o k) by lia
  end;
  mread; try reflexivity; try (rewrite u32_small; lia); 
  try (repeat match goal with |- context [if ?b then _ else _] => destruct b end; reflexivity).

Ltac answers := answers_start; answers_read.

(** ** Programs without a string *)

Lemma register_state_query_answers st :
  answers (register_state_query st) 0 (fun n m =>
    field32 m 52 = (if ms_registered_home st then 3 else 1)
    /\ field32 m 60 = (if ms_packet_attached st then 0x20 else 0)).
Proof. unfold register_state_query. answers. Qed.

Lemma register_state_set_answers :
  answers register_state_set 0 (fun n m => field32 m 52 = 1 /\ field32 m 92 = 2).
Proof. unfold register_state_set. answers. Qed.

Lemma empty_response_answers : answers empty_response 0 (fun n m => n = 48).
Proof. answers. Qed.

Lemma packet_service_answers st :
  answers (packet_service st) 0 (fun n m =>
    field32 m 52 = (if ms_packet_attached st then 2 else 0)
    /\ field32 m 56 = (if ms_packet_attached st then 0x20 else 0)
    /\ field32 m 60 = (if ms_packet_attached st then 50000000 else 0) /\ field32 m 64 = 0
    /\ field32 m 68 = (if ms_packet_attached st then 100000000 else 0) /\ field32 m 72 = 0).
Proof. unfold packet_service. answers. Qed.

Lemma connect_info_answers session activation :
  0 <= session < 2 ^ 32 -> 0 <= activation < 2 ^ 32 ->
  answers (connect_info session activation) 0 (fun n m =>
    field32 m 48 = session /\ field32 m 52 = activation
    /\ field32 m 60 = 1 /\ bytes_at m 64 16 = uuid_context_type_internet).
Proof. intros Hs Ha. unfold connect_info. answers. Qed.

Lemma radio_state_answers hw sw :
  answers (radio_state hw sw) 0 (fun n m =>
    field32 m 48 = (if hw then 1 else 0) /\ field32 m 52 = (if sw then 1 else 0)).
Proof. unfold radio_state. answers. Qed.

Lemma sms_message_store_status_answers unread :
  (forall i, unread = Some i -> 0 <= i < 2 ^ 32) ->
  answers (sms_message_store_status unread) 0 (fun n m =>
    field32 m 48 = (if unread is Some _ then 2 else 0) /\ field32 m 52 = default 0 unread).
Proof.
  intros Hu. unfold sms_message_store_status. answers.
  destruct unread as [i|]; [|done]. apply u32_small. pose proof (Hu i eq_refl). cbn. lia.
Qed.

Lemma sms_sent_answers reference :
  0 <= reference < 2 ^ 32 -> answers (sms_sent reference) 0 (fun n m => field32 m 48 = reference).
Proof. intros Hr. unfold sms_sent. answers. Qed.

(** The address, the gateway and the name server, through their offsets. *)
Lemma ip_configuration_answers st :
  modem_state_ok st ->
  answers (ip_configuration st) 0 (fun n m =>
    field32 m 48 = ms_connect_session_id st
    /\ bytes_at m (48 + Z.to_nat (field32 m 64) + 4) 4 = mip_ipv4_addr (ms_ip st)
    /\ bytes_at m (48 + Z.to_nat (field32 m 76)) 4 = mip_ipv4_gw (ms_ip st)
    /\ bytes_at m (48 + Z.to_nat (field32 m 88)) 4 = mip_ipv4_dns1 (ms_ip st)
    /\ field32 m 100 = mip_mtu (ms_ip st)).
Proof.
  intros [Hs _ _ _ _ _ _ _ _ Ha Hg Hd Hmtu]. unfold ip_configuration. layout_simpl. answers_start.
  assert (field32 m 64 = 60) as -> by answers_read.
  assert (field32 m 76 = 68) as -> by answers_read.
  assert (field32 m 88 = 72) as -> by answers_read.
  answers_read.
Qed.
