(* ===== verification/MbimStrings.v ===== *)
(** The answers of [mbim_handlers.c] that carry strings or lists. *)

From S2P Require Import Prelude CString MbimWire ModemState MbimSms MbimHandlers MbimReports.

#[local] Open Scope string_scope.
#[local] Open Scope Z_scope.

(** ** Programs with strings *)

(** A string reference at [p], relative to [frame], for the string put at [off]. *)
Ltac answers_string s off :=
  match goal with
  | |- string_ref ?m ?frame ?p = utf16le s =>
    apply (string_ref_read m frame p s off); [lia|lia|answers_read..];
    try (do 2 f_equal; f_equal; rewrite u32_small; lia)
  end.

Lemma subscriber_ready_status_answers st :
  modem_state_ok st ->
  answers (subscriber_ready_status st) 0 (fun n m =>
    field32 m 48 = (if ms_sim_ready st then 1 else 0)
    /\ string_ref m 48 52 = utf16le (if ms_sim_ready st then id_imsi (ms_identity st) else [])
    /\ string_ref m 48 60 = utf16le (if ms_sim_ready st then id_iccid (ms_identity st) else [])
    /\ field32 m 68 = 0 /\ field32 m 72 = 0).
Proof.
  intros Hst. pose proof (mso_imsi _ Hst) as Himsi. pose proof (mso_iccid _ Hst) as Hiccid. clear Hst. red in Himsi, Hiccid. unfold subscriber_ready_status.
  set (imsi := if ms_sim_ready st then id_imsi _ else _).
  set (iccid := if ms_sim_ready st then id_iccid _ else _).
  assert (length imsi < 32)%nat as H1 by (subst imsi; destruct (ms_sim_ready st); cbn in *; lia).
  assert (length iccid < 40)%nat as H2 by (subst iccid; destruct (ms_sim_ready st); cbn in *; lia).
  clearbody imsi iccid. answers_start.
  split; [|split; [|split]]; [answers_read|answers_string imsi 32|answers_string iccid (32 + pad)|answers_read].
Qed.

Lemma device_caps_answers st sms ims :
  modem_state_ok st ->
  answers (device_caps st sms ims) 0 (fun n m =>
    field32 m 64 = 0x20 /\ field32 m 68 = (if sms && ims then 3 else 0) /\ field32 m 76 = 1
    /\ string_ref m 48 88 = utf16le (id_imei (ms_identity st))
    /\ string_ref m 48 96 = utf16le (id_firmware (ms_identity st))
    /\ string_ref m 48 104 = utf16le (id_model (ms_identity st))).
Proof.
  intros Hst. pose proof (mso_imei _ Hst) as Himei. pose proof (mso_model _ Hst) as Hmodel.
  pose proof (mso_firmware _ Hst) as Hfw. clear Hst. red in Himei, Hmodel, Hfw. unfold device_caps.
  set (imei := id_imei _) in *. set (fw := id_firmware _) in *. set (model := id_model _) in *.
  clearbody imei fw model. answers_start.
  split_and!; [answers_read|answers_read|answers_read|answers_string imei (64 + pad)
    |answers_string fw (64 + pad + pad0)|answers_string model (64 + pad + pad0 + pad1)].
Qed.

Lemma apn_or_internet_length st :
  modem_state_ok st -> (0 < length (apn_or_internet st) < 64)%nat.
Proof.
  intros Hs. pose proof (mso_apn st Hs) as H. red in H. unfold apn_or_internet.
  destruct (ms_apn st); [vm_compute; lia|cbn [length] in *; lia].
Qed.

(** The single context: its reference in the list, its number and its APN. *)
Definition context_reported (m : bytes) (element : nat) (access : nat) (apn : bytes) : Prop :=
  field32 m 48 = 1 /\ field32 m 52 = Z.of_nat element
  /\ field32 m (48 + element) = 1
  /\ string_ref m (48 + element) (48 + element + access) = utf16le apn.

Lemma provisioned_contexts_answers st :
  modem_state_ok st ->
  answers (provisioned_contexts st) 0 (fun n m => context_reported m 12 20 (apn_or_internet st)).
Proof.
  intros Hs. pose proof (apn_or_internet_length st Hs) as Hl. unfold provisioned_contexts, context_reported.
  set (apn := apn_or_internet st) in *. clearbody apn. answers_start.
  split_and!; [answers_read..|answers_string apn 60].
Qed.

Lemma provisioned_context_v2_answers st :
  modem_state_ok st ->
  answers (provisioned_context_v2 st) 0 (fun n m => context_reported m 12 40 (apn_or_internet st)).
Proof.
  intros Hs. pose proof (apn_or_internet_length st Hs) as Hl. unfold provisioned_context_v2, context_reported.
  set (apn := apn_or_internet st) in *. clearbody apn. answers_start.
  split_and!; [answers_read..|answers_string apn 72].
Qed.

(** Configuration [j] of the list is at [off]. *)
Record attach_at (m : bytes) (apn : bytes) (j : nat) (off : Z) : Prop := {
  aa_off : field32 m (52 + 8 * j) = off;
  aa_roaming : field32 m (48 + Z.to_nat off + 4) = Z.of_nat j;
  aa_ref : field32 m (48 + Z.to_nat off + 12) = u32 (str_ref apn 44).1;
  aa_len : field32 m (48 + Z.to_nat off + 16) = u32 (str_ref apn 44).2;
  aa_apn : bytes_at m (48 + Z.to_nat off + 44) (2 * length apn) = utf16le apn }.

(** What the configurations from [i] on leave alone. *)
Definition attach_frame (i : nat) (len : Z) (mem mem' : bytes) : Prop :=
  length mem' = 4096%nat
  /\ forall o k, (o + k <= 52 + 8 * i \/ 76 <= o /\ o + k <= 48 + Z.to_nat len)%nat ->
       bytes_at mem' o k = bytes_at mem o k.

Lemma attach_at_frame m m' apn j off i len :
  attach_frame i len m m' -> (j < i <= 3)%nat -> 28 <= off -> off + 44 + 2 * Z.of_nat (length apn) <= len ->
  attach_at m apn j off -> attach_at m' apn j off.
Proof.
  intros [_ Hf] Hj Ho Hl [H1 H2 H3 H4 H5].
  split; [rewrite <- H1|rewrite <- H2|rewrite <- H3|rewrite <- H4|rewrite <- H5];
    unfold field32; rewrite Hf by lia; done.
Qed.

Lemma put_attach_configs_ok apn n : (length apn < 64)%nat -> forall i mem cap len fb Q,
  (i + n = 3)%nat -> 28 <= len -> len + Z.of_nat n * (47 + 2 * Z.of_nat (length apn)) <= 1000 ->
  cap = 4048 -> length mem = 4096%nat ->
  (forall mem' len' fb', len <= len' <= 1000 -> attach_frame i len mem mem' ->
     (forall j, (i <= j < 3)%nat -> exists off, 28 <= off < 1000 /\ attach_at mem' apn j off) ->
     Q tt (Wire mem' 48 cap len' fb' false)) ->
  wp (put_attach_configs n i apn 52) (Wire mem 48 cap len fb false) Q.
Proof.
  intros Ha. induction n as [|n IH]; intros i mem cap len fb Q Hi Hl Hb -> Hm HQ.
  - apply wp_ret. apply (HQ mem len fb); [lia|by split|]. intros j Hj. lia.
  - cbn [put_attach_configs]. layout_simpl. repeat (lazymatch goal with
      | |- wp (put_attach_configs _ _ _ _) _ _ => fail | _ => wp1 end).
    apply IH; [lia|lia|lia|done|by rewrite !length_inserts|].
    cbn [fst snd]. intros m' len' fb' Hl' Hf Hat.
    match type of Hf with attach_frame _ _ ?m _ => set (m1 := m) in *;
      assert (attach_frame i len mem m1) as Hf1
        by (split; [subst m1; by rewrite !length_inserts|intros o k Ho; subst m1; by mread]);
      assert (attach_at m1 apn i len) as Hat1 end.
    { subst m1. split; mread; try (rewrite ?u32_small; lia); try reflexivity;
        do 2 f_equal; f_equal; rewrite u32_small; lia. }
    apply HQ; [lia| |].
    + destruct Hf as [L F], Hf1 as [_ F1]. split; [done|]. intros o k Ho.
      rewrite F by lia. apply F1. lia.
    + intros j Hj. destruct (decide (j = i)) as [->|Hne]; [|apply Hat; lia].
      exists len. split; [lia|]. eapply attach_at_frame; [exact Hf|lia|lia|lia|done].
Qed.

Lemma lte_attach_config_answers apn :
  (length apn < 64)%nat ->
  answers (lte_attach_config apn) 0 (fun n m =>
    field32 m 48 = 3
    /\ forall i, (i < 3)%nat ->
       let cfg := (48 + Z.to_nat (field32 m (52 + 8 * i)))%nat in
       field32 m (cfg + 4) = Z.of_nat i /\ string_ref m cfg (cfg + 12) = utf16le apn).
Proof.
  intros Hl mem base cap len fb ov Hmem. pose proof (st_length _ Hmem) as Hlength.
  unfold lte_attach_config, MBIM_INFOBUF_CAP. do 6 wp1. apply wp_seq.
  apply put_attach_configs_ok; [done|done|lia|lia|done|by rewrite !length_inserts|].
  intros m1 l1 fb1 Hl1 [L F] Hat. layout_simpl. do 3 wp1. cbn beta. wp1.
  apply (wp_finish_answer _ mem); [done|lia|by rewrite length_inserts| |].
  { intros o k Ho. mread. rewrite F by lia. by mread. }
  intros m Hf Hr. cbn [w_mem].
  assert (forall o, (48 <= o)%nat -> field32 m o = field32 (list_inserts (48 + 0) (le_list 4 3) m1) o) as Hr32
    by (intros o Ho; unfold field32; by rewrite Hr by lia).
  split; [done|]. split; [answers_read|]. intros i Hi.
  destruct (Hat i ltac:(lia)) as (off & Ho & [H1 H2 H3 H4 H5]).
  assert (field32 m (52 + 8 * i) = off) as -> by (answers_read; done).
  cbv zeta. split; [answers_read; done|].
  apply (string_ref_read _ _ _ _ 44); [lia|lia|answers_read; done| |answers_read; done].
  rewrite Hr32 by lia. mread. by rewrite <- H4; f_equal; lia.
Qed.

Lemma lte_attach_status_answers st apn :
  (length apn < 64)%nat ->
  answers (lte_attach_status st apn) 0 (fun n m =>
    field32 m 48 = (if ms_packet_attached st then 1 else 0)
    /\ string_ref m 48 56 = utf16le (if ms_packet_attached st then apn else [])).
Proof.
  intros Hl. unfold lte_attach_status, put_attach_status.
  set (access := if ms_packet_attached st then apn else []).
  assert (length access < 64)%nat as Ha by (subst access; destruct (ms_packet_attached st); cbn in *; lia).
  clearbody access. answers_start. split; [answers_read|answers_string access 40].
Qed.

Lemma sms_configuration_answers :
  answers sms_configuration 0 (fun n m => field32 m 48 = 1 /\ field32 m 56 = 100).
Proof. unfold sms_configuration. answers. Qed.

(** The list of the services: the reference of each element, then the elements,
    a UUID, two zero fields, the number of CIDs and the CIDs. *)
Definition service_element (s : bytes * list Z) : bytes :=
  s.1 ++ le_list 4 0 ++ le_list 4 0 ++ le_list 4 (Z.of_nat (length s.2))
  ++ concat (le_list 4 <$> s.2).

Fixpoint service_refs (off : Z) (l : list bytes) : bytes :=
  match l with
  | [] => []
  | e :: l => le_list 4 off ++ le_list 4 (Z.of_nat (length e))
              ++ service_refs (off + Z.of_nat (length e)) l
  end.

Definition services_wire : bytes :=
  let l := service_element <$> services in
  le_list 4 (Z.of_nat (length l)) ++ le_list 4 0
  ++ service_refs (8 + 8 * Z.of_nat (length l)) l ++ concat l.

Lemma device_services_answers :
  answers device_services 0 (fun n m => bytes_at m 48 (length services_wire) = services_wire).
Proof.
  unfold device_services, services, put_services, put_cids. cbn [length]. answers_start.
  change (length services_wire) with 152%nat. rewrite Hr by lia.
  repeat (rewrite bytes_at_inserts_window by wside). rewrite (st_zero _ Hmem) by lia.
  vm_compute. reflexivity.
Qed.

(** ** Echo, failure and the SMS store *)

Lemma echo_payload_answers payload :
  (length payload <= 4048)%nat ->
  answers (echo_payload payload) 0 (fun n m =>
    n = 48 + Z.of_nat (length payload) /\ bytes_at m 48 (length payload) = payload).
Proof.
  intros Hp mem base cap len fb ov Hmem. pose proof (st_length _ Hmem) as Hlength.
  unfold echo_payload. apply wp_seq, (wp_finish_answer _ mem); [done|lia|done|done|].
  intros m Hf Hr. pose proof (fin_length _ _ _ _ Hf). repeat wp1. rewrite u32_small by lia.
  cbn [w_mem]. split; [|split; [done|by mread]].
  destruct Hf as [H1 H2 H3 H4 H5 H6]. split; [done|by rewrite length_inserts|by mread..|].
  intros o k Ho. mread. by apply H6.
Qed.

Lemma failure_response_answers : answers failure_response 1 (fun n m => n = 48).
Proof.
  intros mem base cap len fb ov Hmem. pose proof (st_length _ Hmem) as Hlength.
  unfold failure_response. repeat wp1. cbn [w_mem]. split; [|done].
  split; [lia|by rewrite !length_inserts|by mread..|]. intros o k Ho. by mread.
Qed.

(** Reading the store answers with the included messages and marks them. *)
Lemma sms_read_answers s mode mem base cap len fb ov :
  sms_store_ok s -> started mem ->
  let incl := filter (fun e => sms_entry_included e mode = true) (ss_entries s) in
  wp (sms_read (ss_entries s) mode) (Wire mem base cap len fb ov) (fun r b =>
    finished mem r.1 0 (w_mem b)
    /\ r.2 = (fun e => if sms_entry_included e mode then mark_read mode e else e) <$> ss_entries s
    /\ field32 (w_mem b) 48 = 0 /\ field32 (w_mem b) 52 = Z.of_nat (length incl)
    /\ forall k e, incl !! k = Some e -> host_sms_record (w_mem b) 48 k = sms_record e).
Proof.
  intros Hs Hmem incl. pose proof (st_length _ Hmem) as Hlength.
  destruct (sms_store_total mode s Hs) as (Hn & H0 & Ht). fold incl in Hn, H0, Ht.
  unfold sms_read, MBIM_INFOBUF_CAP. apply wp_bind.
  apply sms_build_read_info_ok; [apply Hs|fold incl; lia|lia|rewrite Hlength; lia|fold incl; lia|].
  fold incl. intros m Hl Hf E0 E1 Hrec. apply wp_bind, (wp_finish_answer _ mem); [done|lia|lia|done|].
  intros m' Hfin Hr. apply wp_ret. cbn [fst snd w_mem].
  assert (forall o, (48 <= o)%nat -> field32 m' o = field32 m o) as Hr32
    by (intros o Ho; unfold field32; by rewrite Hr by lia).
  split_and!; [done|done|by rewrite Hr32 by lia|by rewrite Hr32 by lia|].
  intros k e Hk. rewrite <- (Hrec k e Hk). unfold host_sms_record, string_ref.
  rewrite !Hr32 by lia. by rewrite Hr by lia.
Qed.
