(* ===== verification/MbimCommands.v ===== *)
(** Every MBIM command is answered: the dispatch of [mbim_handlers.c] over the
    answers of [MbimReports] and [MbimStrings]. *)

From S2P Require Import Prelude CString MbimWire ModemState MbimSms MbimHandlers MbimReports MbimStrings.

#[local] Set Primitive Projections.

(** What the handlers' static variables hold. *)
Record device_ok (dev : mbim_device) : Prop := {
  dok_state : modem_state_ok (dev_state dev);
  dok_bce : (length (bce_attach_apn (dev_bce dev)) < 64)%nat;
  dok_sms : sms_store_ok (dev_sms dev) }.

Definition device_initial : mbim_device :=
  Device modem_state_init_defaults g_bce_state_initial sms_store_initial.

Lemma device_initial_ok : device_ok device_initial.
Proof. split; [apply modem_state_defaults_ok|vm_compute; lia|apply sms_store_initial_ok]. Qed.

(** A command in its object of 4096 bytes. *)
Record command_ok (cmd : bytes) (cmd_len : Z) : Prop := {
  cok_object : length cmd = 4096%nat;
  cok_bytes : Forall is_byte cmd;
  cok_len : 48 <= cmd_len <= 4096 }.

Lemma field32_range m i : Forall is_byte m -> 0 <= field32 m i < 2 ^ 32.
Proof.
  intros H. unfold field32, le_val.
  assert (Forall is_byte (reverse (bytes_at m i 4))) as Hb
    by (apply Forall_reverse, Forall_take, Forall_drop, H).
  pose proof (be_val_range _ Hb) as Hr.
  assert (length (reverse (bytes_at m i 4)) <= 4)%nat
    by (rewrite length_reverse; unfold bytes_at; rewrite length_take; lia).
  assert (256 ^ Z.of_nat (length (reverse (bytes_at m i 4))) <= 256 ^ 4)
    by (apply Z.pow_le_mono_r; lia).
  change (2 ^ 32) with (256 ^ 4). lia.
Qed.

(** The message after [init_command_done]. *)
Lemma wp_init_command_done cmd cmd_len mem base cap len fb ov Q :
  command_ok cmd cmd_len -> length mem = 4096%nat ->
  (forall mem', started mem' -> field32 mem' 0 = MBIM_COMMAND_DONE ->
     field32 mem' 8 = field32 cmd 8 -> field32 mem' 12 = 1 -> field32 mem' 16 = 0 ->
     bytes_at mem' 20 16 = bytes_at cmd 20 16 -> field32 mem' 36 = field32 cmd 36 ->
     Q tt (Wire mem' base cap len fb ov)) ->
  wp (init_command_done cmd (field32 cmd 8) (field32 cmd 36)) (Wire mem base cap len fb ov) Q.
Proof.
  intros [Hc Hb Hl] Hm HQ. pose proof (field32_range cmd 8 Hb). pose proof (field32_range cmd 36 Hb).
  assert (length (bytes_at cmd 20 16) = 16%nat) as H16 by (apply length_bytes_at; lia).
  unfold init_command_done. set (u := bytes_at cmd 20 16) in *. clearbody u. repeat wp1.
  apply HQ; try (mread; try reflexivity; rewrite u32_small; lia).
  split; [by rewrite !length_inserts|by mread|].
  intros o n Ho Hn. repeat (rewrite bytes_at_inserts_ne by wside).
  rewrite bytes_at_inserts_in by wside. by rewrite bytes_at_replicate by lia.
Qed.

(** An answered command: the state afterwards and what the host reads. *)
Record answered {U} (cmd : bytes) (o : mbim_outcome U) (dev : mbim_device) (w : U) (status : Z)
    (P : Z -> bytes -> Prop) : Prop := {
  ans_ret : mo_ret o = true;
  ans_event : mo_event o = None;
  ans_dev : mo_dev o = dev;
  ans_world : mo_world o = w;
  ans_done : command_done cmd (mo_resp o) (mo_resp_len o) status;
  ans_reads : P (mo_resp_len o) (mo_resp o) }.

Lemma answered_mono {U} cmd (o : mbim_outcome U) dev w status (P Q : Z -> bytes -> Prop) :
  (forall n m, P n m -> Q n m) -> answered cmd o dev w status P -> answered cmd o dev w status Q.
Proof. intros H [? ? ? ? ? ?]. split; auto. Qed.

Lemma finished_done cmd mem n status mem' :
  finished mem n status mem' -> field32 mem 0 = MBIM_COMMAND_DONE ->
  field32 mem 8 = field32 cmd 8 -> field32 mem 12 = 1 -> field32 mem 16 = 0 ->
  bytes_at mem 20 16 = bytes_at cmd 20 16 -> field32 mem 36 = field32 cmd 36 ->
  command_done cmd mem' n status.
Proof.
  intros [H1 H2 H3 H4 H5 H6] E0 E8 E12 E16 E20 E36.
  assert (forall i, (i + 4 <= 4 \/ 8 <= i /\ i + 4 <= 40)%nat -> field32 mem' i = field32 mem i) as H32
    by (intros i Hi; unfold field32; by rewrite H6).
  split; [done..|by rewrite H32 by lia|done|by rewrite H32 by lia| | |by rewrite H32 by lia|done|done].
  - by rewrite !H32 by lia.
  - by rewrite H6 by lia.
Qed.

Section Commands.
Context {U : Type} (acts : option (mbim_handler_actions U)).

Lemma respond_answered cmd cmd_len m resp dev (w : U) status P :
  command_ok cmd cmd_len -> length resp = 4096%nat -> answers m status P ->
  exists o, respond (init_command_done cmd (field32 cmd 8) (field32 cmd 36) ;; m) resp dev w = Some o
  /\ answered cmd o dev w status P.
Proof.
  intros Hc Hr Hm. unfold respond, run_wire.
  assert (wp (init_command_done cmd (field32 cmd 8) (field32 cmd 36) ;; m) (Wire resp 0 0 0 0 false)
    (fun n b => command_done cmd (w_mem b) n status /\ P n (w_mem b))) as H.
  { apply wp_seq. eapply wp_init_command_done; [done|done|].
    intros mem Hs E0 E8 E12 E16 E20 E36. eapply wp_mono; [by apply Hm|].
    intros n b [Hf HP]. split; [by eapply finished_done|done]. }
  unfold wp in H. destruct ((init_command_done _ _ _ ;; m) _) as [[n b]|]; [|done].
  destruct H as [Hd HP]. ob. eexists. split; [reflexivity|]. by split.
Qed.

Lemma respond_reports cmd cmd_len m resp dev (w : U) (P Q : Z -> bytes -> Prop) :
  command_ok cmd cmd_len -> length resp = 4096%nat -> answers m 0 P -> (forall n m, P n m -> Q n m) ->
  exists o, respond (init_command_done cmd (field32 cmd 8) (field32 cmd 36) ;; m) resp dev w = Some o
  /\ answered cmd o dev w 0 Q.
Proof.
  intros Hc Hr Hm HPQ. destruct (respond_answered cmd cmd_len m resp dev w 0 P Hc Hr Hm) as (o & E & A).
  exists o. split; [done|]. by eapply answered_mono.
Qed.

(** The actions return, and a reference is a 32-bit number. *)
Record acts_ok (w : U) : Prop := {
  aok_register : forall f, acts ≫= act_request_register = Some f -> is_Some (f w);
  aok_connect : forall f apn, acts ≫= act_request_connect = Some f -> is_Some (f w apn);
  aok_disconnect : forall f, acts ≫= act_request_disconnect = Some f -> is_Some (f w);
  aok_radio : forall f on, acts ≫= act_set_radio = Some f -> is_Some (f w on);
  aok_sms : forall f pdu, acts ≫= act_send_sms_ims = Some f ->
    exists rc reference w', f w pdu = Some (rc, reference, w') /\ 0 <= reference < 2 ^ 32 }.

(** The outcome of a command that is not malformed. *)
Definition outcome_ok (cmd resp : bytes) (o : mbim_outcome U) : Prop :=
  mo_ret o = true /\ device_ok (mo_dev o)
  /\ match mo_event o with
     | Some ev => bytes_at cmd 20 16 = UUID_EXT_QMUX /\ mo_resp_len o = 0 /\ mo_resp o = resp
                  /\ exists len, 12 <= len /\ ev = QmiCtlSync (field32 cmd 8) (field32 cmd 36) (drop 48 cmd) len
     | None => exists status, (status = 0 \/ status = 1)
                 /\ command_done cmd (mo_resp o) (mo_resp_len o) status
     end.

Lemma respond_ok cmd cmd_len m resp dev (w : U) status P :
  command_ok cmd cmd_len -> length resp = 4096%nat -> answers m status P -> device_ok dev ->
  status = 0 \/ status = 1 ->
  exists o, respond (init_command_done cmd (field32 cmd 8) (field32 cmd 36) ;; m) resp dev w = Some o
  /\ outcome_ok cmd resp o.
Proof.
  intros Hc Hr Hm Hd Hs. destruct (respond_answered cmd cmd_len m resp dev w status P Hc Hr Hm)
    as (o & E & [R1 R2 R3 R4 R5 R6]). exists o. split; [done|]. unfold outcome_ok.
  rewrite R1, R2, R3. split; [done|]. split; [done|]. by exists status.
Qed.

Lemma act_ok get (w : U) :
  (forall f, acts ≫= get = Some f -> is_Some (f w)) -> exists w', act acts get w = Some w'.
Proof. intros H. unfold act. destruct (acts ≫= get) as [f|] eqn:E; [apply (H f eq_refl)|by exists w]. Qed.

Lemma handle_connect_ok dev (w : U) cmd cmd_len cmd_type ib_len :
  acts_ok w -> device_ok dev -> length cmd = 4096%nat ->
  exists a dev' w', handle_connect acts dev w cmd cmd_len cmd_type ib_len = Some (a, dev', w')
  /\ device_ok dev' /\ (a = 1 \/ a = 3).
Proof.
  intros Ha Hd Hc. unfold handle_connect. destruct (cmd_type =? 1).
  2: { destruct (ms_connect_activated _); eexists _, _, _; (split; [done|]); auto. }
  assert (exists c, (if (8 <=? ib_len) && (56 <=? cmd_len) then get_le32 cmd 52 else Some 1) = Some c)
    as [c ->] by (destruct (_ && _); [rewrite get_le32_in by lia|]; by eexists).
  ob. destruct Hd as [Hs Hb Hm]. destruct (c =? 0).
  - destruct (act_ok act_request_disconnect w) as [w' ->]; [intros; by apply (aok_disconnect _ Ha)|].
    ob. eexists _, _, _. split; [done|]. split; [|by right].
    split; [|done|done]. by destruct Hs; split.
  - destruct (act_ok (fun a => f ← act_request_connect a; Some (fun w => f w (ms_apn (dev_state dev)))) w)
      as [w' ->].
    { intros f E. destruct acts as [a|] eqn:Ea; [|done]. cbn in E.
      destruct (act_request_connect a) as [g|] eqn:Eg; [|done]. cbn in E. simplify_eq.
      apply (aok_connect _ Ha). rewrite Ea. exact Eg. }
    ob. eexists _, _, _. split; [done|]. split; [|by left].
    split; [|done|done]. by destruct Hs; split.
Qed.

Lemma handle_radio_state_ok dev (w : U) cmd cmd_len cmd_type ib_len :
  acts_ok w -> length cmd = 4096%nat ->
  exists hw sw w', handle_radio_state acts dev w cmd cmd_len cmd_type ib_len = Some (hw, sw, w').
Proof.
  intros Ha Hc. unfold handle_radio_state. destruct (_ && _); [|by eexists _, _, _].
  rewrite get_le32_in by lia. ob. set (on := negb _).
  destruct (act_ok (fun a => f ← act_set_radio a; Some (fun w => f w on)) w) as [w' ->].
  { intros f E. destruct acts as [a|] eqn:Ea; [|done]. cbn in E.
    destruct (act_set_radio a) as [g|] eqn:Eg; [|done]. cbn in E. simplify_eq.
    apply (aok_radio _ Ha). rewrite Ea. exact Eg. }
  ob. by eexists _, _, _.
Qed.

Lemma basic_command_ok dev (w : U) cmd cmd_len ib_len resp :
  acts_ok w -> device_ok dev -> command_ok cmd cmd_len -> length resp = 4096%nat ->
  exists o, handle_basic_command acts dev w cmd cmd_len (field32 cmd 36) (field32 cmd 40) ib_len
              (init_command_done cmd (field32 cmd 8) (field32 cmd 36)) resp = Some o
  /\ outcome_ok cmd resp o.
Proof.
  intros Ha Hd Hc Hr. pose proof (cok_object _ _ Hc) as Hobj. pose proof (dok_state _ Hd) as Hst.
  unfold handle_basic_command. set (cid := field32 cmd 36).
  repeat match goal with |- context [if cid =? ?c then _ else _] => destruct (cid =? c) end.
  - destruct (negb _); (eapply respond_ok; [done|done| |done|by left]);
      [apply empty_response_answers|by apply device_caps_answers].
  - eapply respond_ok; [done|done| |done|by left]. by apply subscriber_ready_status_answers.
  - eapply respond_ok; [done|done| |done|by left]. by apply provisioned_contexts_answers.
  - destruct (negb _).
    + destruct (act_ok act_request_register w) as [w' ->]; [intros; by apply (aok_register _ Ha)|]. ob.
      eapply respond_ok; [done|done| |done|by left]. apply register_state_set_answers.
    + eapply respond_ok; [done|done| |done|by left]. apply register_state_query_answers.
  - eapply respond_ok; [done|done| |done|by left]. apply packet_service_answers.
  - eapply respond_ok; [done|done| |done|by left]. apply empty_response_answers.
  - destruct (handle_connect_ok dev w cmd cmd_len (field32 cmd 40) ib_len Ha Hd Hobj)
      as (a & dev' & w' & -> & Hd' & Ha'). ob.
    eapply respond_ok; [done|done| |done|by left].
    apply connect_info_answers; [apply Hd'|lia].
  - eapply respond_ok; [done|done| |done|by left]. by apply ip_configuration_answers.
  - destruct (handle_radio_state_ok dev w cmd cmd_len (field32 cmd 40) ib_len Ha Hobj)
      as (hw & sw & w' & ->). ob.
    eapply respond_ok; [done|done| |done|by left]. apply radio_state_answers.
  - eapply respond_ok; [done|done| |done|by left]. apply device_services_answers.
  - eapply respond_ok; [done|done| |done|by left]. apply empty_response_answers.
Qed.

Lemma length_utf16_cstr n src : (length (utf16le_ascii_to_cstr n src) <= n)%nat.
Proof.
  revert src. induction n as [|n IH]; intros [|c [|d src]]; cbn [utf16le_ascii_to_cstr length]; try lia.
  destruct (c =? 0); cbn [length]; [lia|]. pose proof (IH src). lia.
Qed.

Lemma lte_attach_config_set_ok bce cmd cmd_type payload_len :
  length cmd = 4096%nat -> 0 <= payload_len <= 4048 -> (length (bce_attach_apn bce) < 64)%nat ->
  exists bce', lte_attach_config_set bce cmd cmd_type payload_len = Some bce'
  /\ (length (bce_attach_apn bce') < 64)%nat.
Proof.
  intros Hc Hp Hb. unfold lte_attach_config_set. destruct (_ && _); [|by exists bce].
  rewrite slice_in by lia. ob. set (src := take _ _). pose proof (length_utf16_cstr 63 src).
  destruct (utf16le_ascii_to_cstr 63 src) as [|c apn]; [by exists bce|].
  eexists. split; [done|]. cbn [bce_attach_apn length] in *. lia.
Qed.

Lemma attach_apn_length dev : device_ok dev -> (length (attach_apn (dev_bce dev) (dev_state dev)) < 64)%nat.
Proof.
  intros [Hs Hb _]. unfold attach_apn. destruct (bce_attach_apn_set _); [done|].
  exact (mso_apn _ Hs).
Qed.

Lemma ext_command_ok dev (w : U) cmd cmd_len payload_len cid cmd_type resp :
  device_ok dev -> command_ok cmd cmd_len -> length resp = 4096%nat -> 0 <= payload_len <= 4048 ->
  exists o, handle_ext_command dev w cmd payload_len cid cmd_type
              (init_command_done cmd (field32 cmd 8) (field32 cmd 36)) resp = Some o
  /\ outcome_ok cmd resp o.
Proof.
  intros Hd Hc Hr Hp. pose proof (cok_object _ _ Hc) as Hobj. pose proof Hd as [Hst Hb Hsms].
  unfold handle_ext_command.
  repeat match goal with |- context [if cid =? ?c then _ else _] => destruct (cid =? c) end.
  - eapply respond_ok; [done|done| |done|by left]. by apply provisioned_context_v2_answers.
  - destruct (lte_attach_config_set_ok (dev_bce dev) cmd cmd_type payload_len Hobj Hp Hb)
      as (bce & -> & Hb'). ob.
    assert (device_ok (dev <| dev_bce := bce |>)) as Hd' by by split.
    eapply respond_ok; [done|done| |done|by left]. apply lte_attach_config_answers.
    exact (attach_apn_length _ Hd').
  - eapply respond_ok; [done|done| |done|by left]. apply lte_attach_status_answers.
    by apply attach_apn_length.
  - eapply respond_ok; [done|done| |done|by left]. apply empty_response_answers.
Qed.

Lemma sms_extract_ok ib ib_len cap :
  0 <= ib_len <= Z.of_nat (length ib) -> Forall is_byte ib -> exists r, sms_extract_send_pdu ib ib_len cap = Some r.
Proof.
  intros Hl Hb. unfold sms_extract_send_pdu. destruct (ib_len <? 12) eqn:E; [by eexists|].
  rewrite (get_le32_in ib 0) by lia. ob. destruct (negb _); [by eexists|].
  rewrite (get_le32_in ib 4) by lia. ob. rewrite (get_le32_in ib 8) by lia. ob.
  pose proof (field32_range ib 4 Hb). pose proof (field32_range ib 8 Hb).
  destruct (_ || _) eqn:E2; [by eexists|]. rewrite slice_in by lia. ob. by eexists.
Qed.

Lemma handle_sms_send_ok (w : U) cmd cmd_len payload_len :
  acts_ok w -> command_ok cmd cmd_len -> 0 <= payload_len <= 4048 ->
  exists sent w', handle_sms_send acts w cmd payload_len = Some (sent, w')
  /\ (forall r, sent = Some r -> 0 <= r < 2 ^ 32).
Proof.
  intros Ha [Hc Hb _] Hp. unfold handle_sms_send.
  destruct (sms_extract_ok (drop 48 cmd) payload_len MBIM_SMS_PDU_MAX) as [r ->];
    [rewrite length_drop; lia|by apply Forall_drop|]. ob.
  destruct r as [pdu|]; [|by eexists _, _].
  destruct (acts ≫= act_send_sms_ims) as [f|] eqn:Ef; [|by eexists _, _].
  destruct (aok_sms _ Ha f pdu Ef) as (rc & reference & w' & -> & Hr). ob.
  eexists _, _. split; [done|]. intros r. destruct (rc =? 0); by intros [= <-].
Qed.

(** Reading the store is answered with its messages. *)
Lemma sms_read_answered cmd cmd_len dev (w : U) mode resp :
  device_ok dev -> command_ok cmd cmd_len -> length resp = 4096%nat ->
  let incl := filter (fun e => sms_entry_included e mode = true) (ss_entries (dev_sms dev)) in
  let marked := (fun e => if sms_entry_included e mode then mark_read mode e else e)
                  <$> ss_entries (dev_sms dev) in
  exists n m, run_wire (init_command_done cmd (field32 cmd 8) (field32 cmd 36) ;;
                        sms_read (ss_entries (dev_sms dev)) mode) resp = Some (n, marked, m)
  /\ command_done cmd m n 0
  /\ field32 m 48 = 0 /\ field32 m 52 = Z.of_nat (length incl)
  /\ forall k e, incl !! k = Some e -> host_sms_record m 48 k = sms_record e.
Proof.
  intros Hd Hc Hr incl marked. unfold run_wire.
  assert (wp (init_command_done cmd (field32 cmd 8) (field32 cmd 36) ;;
              sms_read (ss_entries (dev_sms dev)) mode) (Wire resp 0 0 0 0 false)
    (fun r b => command_done cmd (w_mem b) r.1 0 /\ r.2 = marked
      /\ field32 (w_mem b) 48 = 0 /\ field32 (w_mem b) 52 = Z.of_nat (length incl)
      /\ forall k e, incl !! k = Some e -> host_sms_record (w_mem b) 48 k = sms_record e)) as H.
  { apply wp_seq. eapply wp_init_command_done; [done|done|].
    intros mem Hs E0 E8 E12 E16 E20 E36.
    eapply wp_mono; [apply sms_read_answers; [apply Hd|done]|].
    intros r b (Hf & Hm & H1 & H2 & H3). split; [by eapply finished_done|done]. }
  unfold wp in H. destruct ((init_command_done _ _ _ ;; _) _) as [[[n l] b]|]; [|done].
  cbn [fst snd] in H. destruct H as (H1 & -> & H2 & H3 & H4). by exists n, (w_mem b).
Qed.

Lemma sms_command_ok dev (w : U) cmd cmd_len payload_len cid resp :
  acts_ok w -> device_ok dev -> command_ok cmd cmd_len -> length resp = 4096%nat ->
  0 <= payload_len <= 4048 -> (56 <= cmd_len -> 8 <= payload_len) ->
  exists o, handle_sms_command acts dev w cmd cmd_len payload_len cid
              (init_command_done cmd (field32 cmd 8) (field32 cmd 36)) resp = Some o
  /\ outcome_ok cmd resp o.
Proof.
  intros Ha Hd Hc Hr Hp _. pose proof (cok_object _ _ Hc) as Hobj. pose proof Hd as [Hst Hb Hsms].
  unfold handle_sms_command.
  repeat match goal with |- context [if cid =? ?c then _ else _] => destruct (cid =? c) end.
  - eapply respond_ok; [done|done| |done|by left]. apply sms_configuration_answers.
  - assert (exists flag, (if 56 <=? cmd_len then get_le32 cmd 52 else Some MBIM_SMS_FLAG_ALL) = Some flag)
      as [flag ->] by (destruct (56 <=? cmd_len); [rewrite get_le32_in by lia|]; by eexists). ob.
    destruct (sms_read_answered cmd cmd_len dev w (sms_read_mode_of flag) resp Hd Hc Hr)
      as (n & m & -> & Hdone & _). ob.
    eexists. split; [reflexivity|]. split; [done|]. split.
    + split; [done|done|]. by apply sms_store_marked_ok.
    + exists 0. split; [by left|done].
  - eapply respond_ok; [done|done| |done|by left]. apply sms_message_store_status_answers.
    intros i Hi. unfold mbim_handlers_sms_store_has_unread in Hi.
    destruct (find_entry _ _ _) as [j|]; [|done]. cbn in Hi.
    destruct (ss_entries (dev_sms dev) !! j) as [e|] eqn:Ej; [|done]. cbn in Hi. simplify_eq.
    apply (seo_index e). eapply Forall_lookup_1; [apply Hsms|exact Ej].
  - destruct (handle_sms_send_ok w cmd cmd_len payload_len Ha Hc Hp) as (sent & w' & -> & Hs). ob.
    destruct sent as [r|]; (eapply respond_ok; [done|done| |done|]);
      [apply sms_sent_answers; by apply Hs|by left|apply failure_response_answers|by right].
  - assert (exists i, (if 12 <=? payload_len then get_le32 cmd 56 else Some 0) = Some i)
      as [i ->] by (destruct (12 <=? payload_len); [rewrite get_le32_in by lia|]; by eexists). ob.
    eapply respond_ok; [done|done|apply empty_response_answers| |by left].
    split; [done|done|]. by apply sms_store_delete_ok.
  - eapply respond_ok; [done|done| |done|by left]. apply empty_response_answers.
Qed.

Lemma vendor_command_ok dev (w : U) cmd cmd_len ib_len cmd_type resp :
  acts_ok w -> device_ok dev -> command_ok cmd cmd_len -> length resp = 4096%nat ->
  exists o, handle_vendor_command acts dev w cmd cmd_len (field32 cmd 8) (field32 cmd 36) ib_len cmd_type
              (init_command_done cmd (field32 cmd 8) (field32 cmd 36)) resp = Some o
  /\ outcome_ok cmd resp o.
Proof.
  intros Ha Hd Hc Hr. pose proof Hc as [Hobj Hb Hl]. unfold handle_vendor_command. cbv zeta.
  set (payload_len := if 48 <? cmd_len then _ else _).
  assert (0 <= payload_len <= 4048 /\ (56 <= cmd_len -> 8 <= payload_len)) as [Hp Hp8]
    by (subst payload_len; destruct (48 <? cmd_len) eqn:E; lia).
  unfold uuid_eq. case_bool_decide as Hq; [|case_bool_decide; [|case_bool_decide]].
  - unfold handle_qmux_command.
    assert (exists sync, (if 12 <=? qmux_payload_len cmd_len ib_len
                          then q ← slice cmd 48 12; Some (is_ctl_sync q) else Some false) = Some sync
                         /\ (sync = true -> 12 <= qmux_payload_len cmd_len ib_len))
      as (sync & -> & Hsync).
    { destruct (12 <=? qmux_payload_len cmd_len ib_len) eqn:E; [|by eexists].
      rewrite slice_in by lia. ob. eexists. split; [done|lia]. }
    ob. destruct sync.
    + eexists. split; [reflexivity|]. split; [done|]. split; [exact Hd|]. split_and!; [done..|].
      exists (qmux_payload_len cmd_len ib_len). split; [by apply Hsync|done].
    + eapply respond_ok; [done|done|apply failure_response_answers|done|by right].
  - by eapply ext_command_ok.
  - by eapply sms_command_ok.
  - rewrite slice_in by lia. ob.
    eapply respond_ok; [done|done| |done|by left]. apply echo_payload_answers.
    rewrite length_take, length_drop. lia.
Qed.
End Commands.

Arguments acts_ok {U}.
Arguments outcome_ok {U}.

(** A command is answered. *)
Lemma handle_command_ok {U} acts dev (w : U) cmd cmd_len resp resp_len :
  acts_ok acts w -> device_ok dev -> command_ok cmd cmd_len -> length resp = 4096%nat ->
  exists o, mbim_handlers_handle_command (Some cmd) cmd_len acts dev w resp resp_len = Some o
  /\ outcome_ok cmd resp o.
Proof.
  intros Ha Hd Hc Hr. pose proof Hc as [Hobj Hb Hl]. unfold mbim_handlers_handle_command.
  replace (cmd_len <? 48) with false by lia. rewrite !get_le32_in by lia. ob.
  destruct (uuid_eq _ _); [by eapply basic_command_ok|by eapply vendor_command_ok].
Qed.

(** The QMUX synchronisation: the request SYNC (0x27) of the control service,
    with its length and flags, in a payload of 12 bytes at least. *)
Definition ctl_sync_command (cmd : bytes) (cmd_len : Z) : Prop :=
  bytes_at cmd 20 16 = UUID_EXT_QMUX /\ 12 <= qmux_payload_len cmd_len (field32 cmd 44)
  /\ bytes_at cmd 48 7 = [0x01; 0x0b; 0; 0; 0; 0; 0] /\ bytes_at cmd 56 4 = [0x27; 0; 0; 0].

Lemma is_ctl_sync_spec cmd :
  is_ctl_sync (take 12 (drop 48 cmd)) = true
  <-> bytes_at cmd 48 7 = [0x01; 0x0b; 0; 0; 0; 0; 0] /\ bytes_at cmd 56 4 = [0x27; 0; 0; 0].
Proof.
  unfold is_ctl_sync, bytes_at. rewrite andb_true_iff, !bool_decide_eq_true.
  rewrite take_take, skipn_firstn_comm, take_take, drop_drop. done.
Qed.

Lemma respond_no_event {U} m resp dev (w : U) o : respond m resp dev w = Some o -> mo_event o = None.
Proof. unfold respond. destruct (run_wire m resp) as [[n r]|]; [|done]. by intros [= <-]. Qed.

(** The event tells the synchronisation from every other command. *)
Lemma ctl_sync_event {U} acts dev (w : U) cmd cmd_len resp resp_len o :
  command_ok cmd cmd_len -> outcome_ok cmd resp o ->
  mbim_handlers_handle_command (Some cmd) cmd_len acts dev w resp resp_len = Some o ->
  is_Some (mo_event o) <-> ctl_sync_command cmd cmd_len.
Proof.
  intros Hc (_ & _ & Ho) E. pose proof Hc as [Hobj Hb Hl].
  destruct (decide (bytes_at cmd 20 16 = UUID_EXT_QMUX)) as [Hq|Hq].
  2: { unfold ctl_sync_command. destruct (mo_event o); [by destruct Ho|]. split; [intros []; done|tauto]. }
  unfold mbim_handlers_handle_command in E. replace (cmd_len <? 48) with false in E by lia.
  rewrite !get_le32_in in E by lia. cbn [mbind option_bind] in E.
  unfold handle_vendor_command, uuid_eq in E. rewrite Hq in E.
  rewrite bool_decide_false in E by done. rewrite bool_decide_true in E by done.
  unfold handle_qmux_command in E. unfold ctl_sync_command.
  set (len := qmux_payload_len cmd_len _) in *.
  destruct (12 <=? len) eqn:El.
  2: { cbn [mbind option_bind] in E. apply respond_no_event in E as ->.
       split; [by intros []|]. intros (_ & ? & _). lia. }
  rewrite slice_in in E by lia. cbn [mbind option_bind] in E.
  destruct (is_ctl_sync (take 12 (drop 48 cmd))) eqn:Es.
  - injection E as <-. split; [|by eexists]. intros _. split; [done|]. split; [lia|]. by apply is_ctl_sync_spec.
  - apply respond_no_event in E as ->. split; [by intros []|]. intros (_ & _ & H). apply is_ctl_sync_spec in H.
    congruence.
Qed.

(** C17: every command of the host is answered.  On any command of 48 to 4096
    bytes, whatever its service, its CID and the lengths it announces, the handler
    returns inside its buffers and keeps the well-formedness of the modem state,
    the attach APN and the SMS store.  With one exception the response is a
    COMMAND_DONE of 48 to 4096 bytes with the transaction, the service and the CID
    of the command, and both of its lengths are right.  The exception is exactly
    the QMUX synchronisation, a SYNC request of the control service in a command
    of the QMUX service: the response is empty and the event that the core answers
    from carries the transaction, the CID and the payload of the command. *)
Theorem command_answered {U} acts dev (w : U) cmd cmd_len resp resp_len :
  acts_ok acts w -> device_ok dev -> command_ok cmd cmd_len -> length resp = 4096%nat ->
  exists o, mbim_handlers_handle_command (Some cmd) cmd_len acts dev w resp resp_len = Some o
  /\ outcome_ok cmd resp o
  /\ (is_Some (mo_event o) <-> ctl_sync_command cmd cmd_len).
Proof.
  intros Ha Hd Hc Hr.
  destruct (handle_command_ok acts dev w cmd cmd_len resp resp_len Ha Hd Hc Hr) as (o & E & Ho).
  exists o. split; [exact E|]. split; [exact Ho|]. by apply (ctl_sync_event acts dev w cmd cmd_len resp resp_len).
Qed.

(** ** The rest of the program *)

(** The actions keep a property of the rest of the program. *)
Record acts_keep {U} (acts : option (mbim_handler_actions U)) (P : U -> Prop) : Prop := {
  ak_register : forall f w w', acts ≫= act_request_register = Some f -> f w = Some w' -> P w -> P w';
  ak_connect : forall f w apn w', acts ≫= act_request_connect = Some f -> f w apn = Some w' -> P w -> P w';
  ak_disconnect : forall f w w', acts ≫= act_request_disconnect = Some f -> f w = Some w' -> P w -> P w';
  ak_radio : forall f w on w', acts ≫= act_set_radio = Some f -> f w on = Some w' -> P w -> P w';
  ak_sms : forall f w pdu rc r w', acts ≫= act_send_sms_ims = Some f -> f w pdu = Some (rc, r, w') ->
    P w -> P w' }.

Section Worlds.
Context {U : Type} (acts : option (mbim_handler_actions U)) (P : U -> Prop).
Hypothesis Hk : acts_keep acts P.
#[local] Set Default Proof Using "Type*".

Lemma act_keeps get w w' :
  (forall f w', acts ≫= get = Some f -> f w = Some w' -> P w -> P w') -> act acts get w = Some w' -> P w -> P w'.
Proof.
  unfold act. intros H E Hw. destruct (acts ≫= get) as [f|] eqn:Ef; [by eapply H|]. by injection E as <-.
Qed.

Lemma respond_world m resp dev w (o : mbim_outcome U) : respond m resp dev w = Some o -> mo_world o = w.
Proof. unfold respond. destruct (run_wire m resp) as [[n r]|]; ob; [|done]. by intros [= <-]. Qed.

Lemma handle_connect_world dev w cmd cmd_len t ib a dev' w' :
  handle_connect acts dev w cmd cmd_len t ib = Some (a, dev', w') -> P w -> P w'.
Proof.
  unfold handle_connect. intros E Hw. destruct (t =? 1); [|by injection E as <- <- <-].
  destruct (if _ && _ then _ else _) as [c|]; cbn [mbind option_bind] in E; [|done]. destruct (c =? 0).
  - destruct (act acts act_request_disconnect w) as [w2|] eqn:Ea; cbn [mbind option_bind] in E; [|done].
    injection E as <- <- <-. eapply act_keeps; [|exact Ea|done]. intros f w3. apply (ak_disconnect _ _ Hk).
  - match type of E with context [act acts ?g w] => destruct (act acts g w) as [w2|] eqn:Ea end;
      cbn [mbind option_bind] in E; [|done].
    injection E as <- <- <-. eapply act_keeps; [|exact Ea|done]. cbv beta. intros f w3 Ef.
    destruct acts as [x|] eqn:Ex; [|done]. cbn in Ef.
    destruct (act_request_connect x) as [g|] eqn:Eg; [|done]. injection Ef as <-.
    apply (ak_connect _ _ Hk). cbn. exact Eg.
Qed.

Lemma handle_radio_world dev w cmd cmd_len t ib hw sw w' :
  handle_radio_state acts dev w cmd cmd_len t ib = Some (hw, sw, w') -> P w -> P w'.
Proof.
  unfold handle_radio_state. intros E Hw. destruct (_ && _ && _); [|by injection E as <- <- <-].
  destruct (get_le32 cmd 48) as [c|]; cbn [mbind option_bind] in E; [|done].
  match type of E with context [act acts ?g w] => destruct (act acts g w) as [w2|] eqn:Ea end;
    cbn [mbind option_bind] in E; [|done].
  injection E as <- <- <-. eapply act_keeps; [|exact Ea|done]. cbv beta. intros f w3 Ef.
  destruct acts as [x|] eqn:Ex; [|done]. cbn in Ef.
  destruct (act_set_radio x) as [g|] eqn:Eg; [|done]. injection Ef as <-.
  apply (ak_radio _ _ Hk). cbn. exact Eg.
Qed.

Lemma handle_sms_send_world w cmd payload_len sent w' :
  handle_sms_send acts w cmd payload_len = Some (sent, w') -> P w -> P w'.
Proof.
  unfold handle_sms_send. intros E Hw.
  destruct (sms_extract_send_pdu _ _ _) as [pdu|]; cbn [mbind option_bind] in E; [|done].
  destruct pdu as [pdu|]; [|by injection E as <- <-].
  destruct (acts ≫= act_send_sms_ims) as [f|] eqn:Ef; [|by injection E as <- <-].
  destruct (f w pdu) as [[[rc r] w2]|] eqn:Ew; cbn [mbind option_bind] in E; [|done].
  injection E as <- <-. by eapply (ak_sms _ _ Hk).
Qed.

(** Handling a command keeps the property. *)
Lemma handle_command_world cmd cmd_len dev w resp resp_len o :
  mbim_handlers_handle_command cmd cmd_len acts dev w resp resp_len = Some o -> P w -> P (mo_world o).
Proof.
  unfold mbim_handlers_handle_command. intros E Hw. destruct cmd as [cmd|]; [|by injection E as <-].
  destruct (cmd_len <? 48); [by injection E as <-|].
  destruct (get_le32 cmd 44) as [ib|]; cbn [mbind option_bind] in E; [|done].
  destruct (get_le32 cmd 40) as [t|]; cbn [mbind option_bind] in E; [|done].
  destruct (get_le32 cmd 36) as [cid|]; cbn [mbind option_bind] in E; [|done].
  destruct (get_le32 cmd 8) as [tid|]; cbn [mbind option_bind] in E; [|done].
  destruct (uuid_eq _ _).
  - unfold handle_basic_command in E.
    repeat match type of E with (if ?b then _ else _) = _ => destruct b end;
      try (apply respond_world in E; by rewrite E).
    + destruct (act acts act_request_register w) as [w2|] eqn:Ea; cbn [mbind option_bind] in E; [|done].
      apply respond_world in E. rewrite E. eapply act_keeps; [|exact Ea|done].
      intros f w3. apply (ak_register _ _ Hk).
    + destruct (handle_connect _ _ _ _ _ _ _) as [[[a d] w2]|] eqn:Ec; cbn [mbind option_bind] in E; [|done].
      apply respond_world in E. rewrite E. by eapply handle_connect_world.
    + destruct (handle_radio_state _ _ _ _ _ _ _) as [[[a d] w2]|] eqn:Ec; cbn [mbind option_bind] in E; [|done].
      apply respond_world in E. rewrite E. by eapply handle_radio_world.
  - unfold handle_vendor_command in E.
    repeat match type of E with (if ?b then _ else _) = _ => destruct b end.
    + unfold handle_qmux_command in E.
      destruct (if _ <=? _ then _ else _) as [[]|]; cbn [mbind option_bind] in E; [|by apply respond_world in E; rewrite E|done].
      by injection E as <-.
    + unfold handle_ext_command in E.
      repeat match type of E with (if ?b then _ else _) = _ => destruct b end;
        try (apply respond_world in E; by rewrite E).
      destruct (lte_attach_config_set _ _ _ _) as [b|]; cbn [mbind option_bind] in E; [|done].
      apply respond_world in E. by rewrite E.
    + unfold handle_sms_command in E.
      repeat match type of E with (if ?b then _ else _) = _ => destruct b end;
        try (apply respond_world in E; by rewrite E).
      * destruct (if _ <=? _ then _ else _) as [flag|]; cbn [mbind option_bind] in E; [|done].
        destruct (run_wire _ _) as [[[n l] r]|]; cbn [mbind option_bind] in E; [|done]. by injection E as <-.
      * destruct (handle_sms_send _ _ _ _) as [[sent w2]|] eqn:Es; cbn [mbind option_bind] in E; [|done].
        apply respond_world in E. rewrite E. by eapply handle_sms_send_world.
      * destruct (if _ <=? _ then _ else _) as [ix|]; cbn [mbind option_bind] in E; [|done].
        apply respond_world in E. by rewrite E.
    + destruct (slice cmd _ _) as [p|]; cbn [mbind option_bind] in E; [|done].
      apply respond_world in E. by rewrite E.
Qed.
End Worlds.

(** A command adds no message to the store: it marks messages read or deletes
    them. *)
Definition sms_thinned (l l' : list mbim_sms_store_entry) : Prop :=
  exists f, l' = f <$> l
  /\ forall e, f e = e \/ f e = e <| se_unread := false |> \/ f e = sms_entry_zero.

Lemma sms_thinned_refl l : sms_thinned l l.
Proof. exists id. split; [by rewrite list_fmap_id|]. by left. Qed.

Lemma sms_thinned_read mode l :
  mode <> SMS_READ_NOTIFY ->
  sms_thinned l ((fun e => if sms_entry_included e mode then mark_read mode e else e) <$> l).
Proof.
  intros Hm. eexists. split; [reflexivity|]. intros e. cbv beta.
  destruct (sms_entry_included e mode); [|by left]. right; left. by destruct mode.
Qed.

Lemma sms_thinned_delete s index : sms_thinned (ss_entries s) (ss_entries (sms_store_delete s index)).
Proof.
  eexists. split; [reflexivity|]. intros e. cbv beta. destruct (_ && _); [by right; right|by left].
Qed.

Lemma sms_read_mode_query flag : sms_read_mode_of flag <> SMS_READ_NOTIFY.
Proof. unfold sms_read_mode_of. by destruct (_ =? _). Qed.

Section Stores.
Context {U : Type} (acts : option (mbim_handler_actions U)).
Implicit Types (o : mbim_outcome U).

Lemma respond_dev m resp dev (w : U) o : respond m resp dev w = Some o -> mo_dev o = dev.
Proof. unfold respond. destruct (run_wire m resp) as [[n r]|]; ob; [|done]. by intros [= <-]. Qed.

(** The store after a response on a device with the same store. *)
Lemma respond_sms m resp dev dev' (w : U) o :
  respond m resp dev' w = Some o -> dev_sms dev' = dev_sms dev ->
  sms_thinned (ss_entries (dev_sms dev)) (ss_entries (dev_sms (mo_dev o))).
Proof. intros E Hd. apply respond_dev in E. rewrite E, Hd. apply sms_thinned_refl. Qed.

Lemma handle_connect_sms dev (w : U) cmd cmd_len t ib a dev' w' :
  handle_connect acts dev w cmd cmd_len t ib = Some (a, dev', w') -> dev_sms dev' = dev_sms dev.
Proof.
  unfold handle_connect. destruct (t =? 1); [|by intros [= <- <- <-]].
  destruct (if _ && _ then _ else _) as [c|]; cbn [mbind option_bind]; [|done]. destruct (c =? 0).
  all: match goal with |- context [act acts ?g ?x] => destruct (act acts g x) end;
    cbn [mbind option_bind]; [|done]; by intros [= <- <- <-].
Qed.

Lemma handle_command_sms dev (w : U) cmd cmd_len resp resp_len o :
  device_ok dev -> command_ok cmd cmd_len -> length resp = 4096%nat ->
  mbim_handlers_handle_command (Some cmd) cmd_len acts dev w resp resp_len = Some o ->
  sms_thinned (ss_entries (dev_sms dev)) (ss_entries (dev_sms (mo_dev o))).
Proof.
  intros Hd Hc Hr. pose proof Hc as [Hobj Hb Hl]. unfold mbim_handlers_handle_command.
  replace (cmd_len <? 48) with false by lia. rewrite !get_le32_in by lia. ob.
  assert (forall m dev' (w' : U), respond m resp dev' w' = Some o -> dev_sms dev' = dev_sms dev ->
    sms_thinned (ss_entries (dev_sms dev)) (ss_entries (dev_sms (mo_dev o)))) as Hresp
    by (intros; by eapply respond_sms).
  destruct (uuid_eq _ _).
  - unfold handle_basic_command. intros E.
    repeat match type of E with (if ?b then _ else _) = _ => destruct b end;
      try (by eapply Hresp; [exact E|]).
    + destruct (act acts act_request_register w) as [w2|]; cbn [mbind option_bind] in E; [|done].
      by eapply Hresp.
    + destruct (handle_connect _ _ _ _ _ _ _) as [[[a d] w2]|] eqn:Ec; cbn [mbind option_bind] in E; [|done].
      eapply Hresp; [exact E|]. by eapply handle_connect_sms.
    + destruct (handle_radio_state _ _ _ _ _ _ _) as [[[a d] w2]|]; cbn [mbind option_bind] in E; [|done].
      by eapply Hresp.
  - unfold handle_vendor_command. intros E.
    repeat match type of E with (if ?b then _ else _) = _ => destruct b end.
    + unfold handle_qmux_command in E.
      destruct (if _ <=? _ then _ else _) as [[]|]; cbn [mbind option_bind] in E;
        [injection E as <-; apply sms_thinned_refl|by eapply Hresp|done].
    + unfold handle_ext_command in E.
      repeat match type of E with (if ?b then _ else _) = _ => destruct b end;
        try (by eapply Hresp; [exact E|]).
      destruct (lte_attach_config_set _ _ _ _) as [b|]; cbn [mbind option_bind] in E; [|done].
      by eapply Hresp.
    + unfold handle_sms_command in E.
      repeat match type of E with (if ?b then _ else _) = _ => destruct b end;
        try (by eapply Hresp; [exact E|]).
      * destruct (if _ <=? _ then _ else _) as [flag|]; cbn [mbind option_bind] in E; [|done].
        destruct (sms_read_answered cmd cmd_len dev w (sms_read_mode_of flag) resp Hd Hc Hr)
          as (n & m & Er & _). rewrite Er in E. cbn [mbind option_bind] in E. injection E as <-.
        apply sms_thinned_read, sms_read_mode_query.
      * destruct (handle_sms_send _ _ _ _) as [[sent w2]|]; cbn [mbind option_bind] in E; [|done].
        by eapply Hresp.
      * destruct (if _ <=? _ then _ else _) as [ix|]; cbn [mbind option_bind] in E; [|done].
        apply respond_dev in E. rewrite E. apply sms_thinned_delete.
    + destruct (slice cmd _ _) as [p|]; cbn [mbind option_bind] in E; [|done]. by eapply Hresp.
Qed.
End Stores.

(** What a query of the basic service reports of the modem state. *)
Definition basic_report (sms ims : bool) (st : modem_state) (cid n : Z) (m : bytes) : Prop :=
  if cid =? MBIM_CID_DEVICE_CAPS then
    field32 m 68 = (if sms && ims then 3 else 0)
    /\ string_ref m 48 88 = utf16le (id_imei (ms_identity st))
    /\ string_ref m 48 96 = utf16le (id_firmware (ms_identity st))
    /\ string_ref m 48 104 = utf16le (id_model (ms_identity st))
  else if cid =? MBIM_CID_SUBSCRIBER_READY_STATUS then
    field32 m 48 = (if ms_sim_ready st then 1 else 0)
    /\ string_ref m 48 52 = utf16le (if ms_sim_ready st then id_imsi (ms_identity st) else [])
    /\ string_ref m 48 60 = utf16le (if ms_sim_ready st then id_iccid (ms_identity st) else [])
  else if cid =? MBIM_CID_PROVISIONED_CONTEXTS then context_reported m 12 20 (apn_or_internet st)
  else if cid =? MBIM_CID_REGISTER_STATE then
    field32 m 52 = (if ms_registered_home st then 3 else 1)
    /\ field32 m 60 = (if ms_packet_attached st then 0x20 else 0)
  else if cid =? MBIM_CID_PACKET_SERVICE then
    field32 m 52 = (if ms_packet_attached st then 2 else 0)
    /\ field32 m 60 = (if ms_packet_attached st then 50000000 else 0)
    /\ field32 m 68 = (if ms_packet_attached st then 100000000 else 0)
  else if cid =? MBIM_CID_SIGNAL_STATE then n = 48
  else if cid =? MBIM_CID_CONNECT then
    field32 m 48 = ms_connect_session_id st
    /\ field32 m 52 = (if ms_connect_activated st then 1 else 3)
  else if cid =? MBIM_CID_IP_CONFIGURATION then
    bytes_at m (48 + Z.to_nat (field32 m 64) + 4) 4 = mip_ipv4_addr (ms_ip st)
    /\ bytes_at m (48 + Z.to_nat (field32 m 76)) 4 = mip_ipv4_gw (ms_ip st)
    /\ bytes_at m (48 + Z.to_nat (field32 m 88)) 4 = mip_ipv4_dns1 (ms_ip st)
    /\ field32 m 100 = mip_mtu (ms_ip st)
  else if cid =? MBIM_CID_RADIO_STATE then
    field32 m 48 = (if ms_radio_hw_on st then 1 else 0)
    /\ field32 m 52 = (if ms_radio_sw_on st then 1 else 0)
  else if cid =? MBIM_CID_DEVICE_SERVICES then
    bytes_at m 48 (length services_wire) = services_wire
  else n = 48.

(** The reported part of what an answer carries. *)
Ltac reports := intros ? ? H; cbv beta in H; destruct_and?; split_and?.

(** C18: the queries of the basic service are read only and report the modem
    state: whatever the state, the host reads in the answer, through the offsets
    and lengths it carries, the identity strings, the registration, the packet
    service, the session, the IP configuration and the radio state of the model,
    and neither the modem nor the rest of the program changes. *)
Theorem queries_report_state {U} (acts : option (mbim_handler_actions U)) dev w cmd cmd_len resp resp_len :
  device_ok dev -> command_ok cmd cmd_len -> length resp = 4096%nat ->
  bytes_at cmd 20 16 = UUID_BASIC_CONNECT -> field32 cmd 40 = 0 ->
  exists o, mbim_handlers_handle_command (Some cmd) cmd_len acts dev w resp resp_len = Some o
  /\ answered cmd o dev w 0
       (basic_report (match acts with Some a => act_sms_enabled a | None => false end)
                     (match acts with Some a => act_ims_enabled a | None => false end)
                     (dev_state dev) (field32 cmd 36)).
Proof.
  intros Hd Hc Hr Hu Ht. pose proof Hc as [Hobj Hb Hl]. pose proof (dok_state _ Hd) as Hst.
  unfold mbim_handlers_handle_command.
  replace (cmd_len <? 48) with false by lia. rewrite !get_le32_in by lia. ob.
  unfold uuid_eq. rewrite bool_decide_true by done. rewrite Ht. unfold handle_basic_command, basic_report.
  set (cid := field32 cmd 36). cbn [Z.eqb negb].
  repeat match goal with |- context [if cid =? ?c then _ else _] => destruct (cid =? c) end.
  - eapply respond_reports; [done|done|by apply device_caps_answers|by reports].
  - eapply respond_reports; [done|done|by apply subscriber_ready_status_answers|by reports].
  - eapply respond_reports; [done|done|by apply provisioned_contexts_answers|by reports].
  - eapply respond_reports; [done|done|by apply register_state_query_answers|by reports].
  - eapply respond_reports; [done|done|by apply packet_service_answers|by reports].
  - eapply respond_reports; [done|done|by apply empty_response_answers|by reports].
  - unfold handle_connect. cbn [Z.eqb Pos.eqb]. ob. cbn [negb].
    eapply respond_reports; [done|done|apply connect_info_answers|by reports].
    + apply Hst.
    + destruct (ms_connect_activated _); lia.
  - eapply respond_reports; [done|done|by apply ip_configuration_answers|by reports].
  - unfold handle_radio_state. cbn [Z.eqb Pos.eqb andb]. ob.
    eapply respond_reports; [done|done|by apply radio_state_answers|by reports].
  - eapply respond_reports; [done|done|by apply device_services_answers|by reports].
  - eapply respond_reports; [done|done|by apply empty_response_answers|by reports].
Qed.

(** C19: SMS reading.  A read command with flag NEW is answered with the unread
    messages, any other read with all of them, in the order of the store; the
    host reads from the answer the index, the status and the PDU of each of them
    exactly as they were stored, and just those messages become read. *)
Theorem sms_read_delivers {U} (acts : option (mbim_handler_actions U)) dev w cmd cmd_len resp resp_len :
  device_ok dev -> command_ok cmd cmd_len -> length resp = 4096%nat -> 56 <= cmd_len ->
  bytes_at cmd 20 16 = UUID_SMS -> field32 cmd 36 = MBIM_CID_SMS_READ ->
  let mode := sms_read_mode_of (field32 cmd 52) in
  let incl := filter (fun e => sms_entry_included e mode = true) (ss_entries (dev_sms dev)) in
  exists o, mbim_handlers_handle_command (Some cmd) cmd_len acts dev w resp resp_len = Some o
  /\ command_done cmd (mo_resp o) (mo_resp_len o) 0 /\ mo_world o = w
  /\ field32 (mo_resp o) 52 = Z.of_nat (length incl)
  /\ (forall k e, incl !! k = Some e -> host_sms_record (mo_resp o) 48 k = sms_record e)
  /\ mo_dev o = dev <| dev_sms := ((dev_sms dev) <| ss_entries :=
       ((fun e => if sms_entry_included e mode then e <| se_unread := false |> else e)
          <$> ss_entries (dev_sms dev)) |>) |>.
Proof.
  intros Hd Hc Hr Hlen Hu Hcid mode incl. pose proof Hc as [Hobj Hb Hl].
  unfold mbim_handlers_handle_command.
  replace (cmd_len <? 48) with false by lia. rewrite !get_le32_in by lia. ob.
  unfold uuid_eq. rewrite Hu, bool_decide_false by discriminate.
  unfold handle_vendor_command, uuid_eq. rewrite Hu. cbv zeta.
  do 2 rewrite bool_decide_false by discriminate. rewrite bool_decide_true by done.
  unfold handle_sms_command. rewrite Hcid. cbn [Z.eqb Pos.eqb MBIM_CID_SMS_READ MBIM_CID_SMS_CONFIGURATION].
  replace (56 <=? cmd_len) with true by lia. rewrite get_le32_in by lia. ob. rewrite <- Hcid. fold mode.
  destruct (sms_read_answered cmd cmd_len dev w mode resp Hd Hc Hr)
    as (n & m & -> & Hdone & _ & Hcount & Hrec). ob.
  eexists. split; [reflexivity|]. split; [done|]. split; [done|]. split; [done|]. split; [done|].
  cbn [mo_dev]. do 2 f_equal. apply list_fmap_ext. intros _ e _. subst mode. unfold sms_read_mode_of.
  by destruct (_ =? _).
Qed.

(** ** Witnesses *)

(** A command with transaction 7 and the payload [info], in an object of 4096 bytes. *)
Definition test_command (service : bytes) (cid cmd_type : Z) (info : bytes) : bytes :=
  let m := le_list 4 MBIM_COMMAND_MSG ++ le_list 4 (48 + Z.of_nat (length info)) ++ le_list 4 7
           ++ le_list 4 1 ++ le_list 4 0 ++ service ++ le_list 4 cid ++ le_list 4 cmd_type
           ++ le_list 4 (Z.of_nat (length info)) ++ info in
  over m (replicate (Z.to_nat 4096) 0).

#[local] Definition test_acts : mbim_handler_actions nat :=
  Actions (Some (fun w => Some (S w))) None None None
    (Some (fun w pdu => Some (0, 5, S w))) true true.
#[local] Definition test_store : sms_store :=
  match mbim_handlers_sms_store_append sms_store_initial (Some [7; 145; 51; 4]) 4 with
  | Some (_, _, s) => s
  | None => sms_store_initial
  end.
#[local] Definition test_device : mbim_device := device_initial <| dev_sms := test_store |>.

Lemma test_command_ok service cid cmd_type info n :
  length service = 16%nat -> Forall is_byte service -> Forall is_byte info ->
  (length info <= 4000)%nat -> 48 <= n <= 4096 -> command_ok (test_command service cid cmd_type info) n.
Proof.
  intros Hl Hs Hi Hn H. split; [| |done]; unfold test_command, over.
  - rewrite !length_app, length_drop, length_replicate, ?length_app, ?length_le_list. lia.
  - repeat (apply Forall_app; split); try apply le_list_bytes; try done.
    apply Forall_drop, Forall_replicate. unfold is_byte. lia.
Qed.

Lemma test_device_ok : device_ok test_device.
Proof.
  split; [apply modem_state_defaults_ok|vm_compute; lia|]. unfold test_device, test_store.
  destruct (sms_store_append_ok sms_store_initial [7; 145; 51; 4] sms_store_initial_ok ltac:(cbn; lia))
    as (slot & s & _ & E & Hs & _).
  change (Z.of_nat (length [7; 145; 51; 4])) with 4 in E. by rewrite E.
Qed.

Lemma command_answered_witness :
  exists o, mbim_handlers_handle_command
      (Some (test_command UUID_BASIC_CONNECT MBIM_CID_REGISTER_STATE 1 [0; 0; 0; 0])) 52
      (Some test_acts) device_initial 3%nat (replicate (Z.to_nat 4096) 0) 0 = Some o
  /\ mo_ret o = true /\ field32 (mo_resp o) 8 = 7.
Proof.
  destruct (command_answered (Some test_acts) device_initial 3%nat
    (test_command UUID_BASIC_CONNECT MBIM_CID_REGISTER_STATE 1 [0; 0; 0; 0]) 52
    (replicate (Z.to_nat 4096) 0) 0) as (o & E & (Hr & _ & Ho) & _).
  - split; cbn; intros; simplify_eq; try (by eexists).
    eexists _, _, _. split; [reflexivity|lia].
  - apply device_initial_ok.
  - apply test_command_ok; [reflexivity|apply (bool_decide_unpack _); vm_compute; exact I..|cbn; lia|lia].
  - apply length_replicate.
  - exists o. split; [exact E|]. split; [exact Hr|]. destruct (mo_event o) as [ev|].
    + destruct Ho as [Hq _]. vm_compute in Hq. discriminate.
    + destruct Ho as (status & _ & Hd). rewrite (cd_tid _ _ _ _ Hd). vm_compute. reflexivity.
Defined.

Lemma queries_report_state_witness :
  exists o, mbim_handlers_handle_command
      (Some (test_command UUID_BASIC_CONNECT MBIM_CID_REGISTER_STATE 0 [])) 48
      (Some test_acts) device_initial 3%nat (replicate (Z.to_nat 4096) 0) 0 = Some o
  /\ field32 (mo_resp o) 52 = 3 /\ mo_world o = 3%nat.
Proof.
  destruct (queries_report_state (Some test_acts) device_initial 3%nat
    (test_command UUID_BASIC_CONNECT MBIM_CID_REGISTER_STATE 0 []) 48
    (replicate (Z.to_nat 4096) 0) 0) as (o & E & [H1 H2 H3 H4 H5 H6]).
  - apply device_initial_ok.
  - apply test_command_ok; [reflexivity|apply (bool_decide_unpack _); vm_compute; exact I..|cbn; lia|lia].
  - apply length_replicate.
  - vm_compute. reflexivity.
  - vm_compute. reflexivity.
  - exists o. split; [exact E|]. split; [|exact H4].
    replace (field32 (test_command UUID_BASIC_CONNECT MBIM_CID_REGISTER_STATE 0 []) 36)
      with MBIM_CID_REGISTER_STATE in H6 by (vm_compute; reflexivity).
    exact (proj1 H6).
Defined.

Lemma sms_read_delivers_witness :
  exists o, mbim_handlers_handle_command
      (Some (test_command UUID_SMS MBIM_CID_SMS_READ 0 [0; 0; 0; 0; 0; 0; 0; 0; 0; 0; 0; 0])) 60
      (Some test_acts) test_device 3%nat (replicate (Z.to_nat 4096) 0) 0 = Some o
  /\ field32 (mo_resp o) 52 = 1.
Proof.
  destruct (sms_read_delivers (Some test_acts) test_device 3%nat
    (test_command UUID_SMS MBIM_CID_SMS_READ 0 [0; 0; 0; 0; 0; 0; 0; 0; 0; 0; 0; 0]) 60
    (replicate (Z.to_nat 4096) 0) 0) as (o & E & _ & _ & H & _).
  - apply test_device_ok.
  - apply test_command_ok; [reflexivity|apply (bool_decide_unpack _); vm_compute; exact I..|cbn; lia|lia].
  - apply length_replicate.
  - lia.
  - vm_compute. reflexivity.
  - vm_compute. reflexivity.
  - exists o. split; [exact E|]. rewrite H. vm_compute. reflexivity.
Defined.
