(* ===== verification/MbimIndications.v ===== *)
(** Unsolicited MBIM indications: [src/src/mbim_frontend/mbim_indications.c], and
    the QMUX synchronisation of [mbim_vendor_qmux.c].

    The callback that queues a message is the interface [IndicationQueue] on the
    queue's state; the message is passed as the bytes the callback copies. *)

From S2P Require Import Prelude MbimWire ModemState MbimHandlers MbimReports MbimStrings MbimCommands.

#[local] Set Primitive Projections.
#[local] Open Scope string_scope.
#[local] Open Scope Z_scope.

(** [mbim_indications_enqueue_fn] with its user pointer; [None] when the message
    does not fit the queue's slot. *)
Class IndicationQueue (Q : Type) := enqueue : bytes -> Q -> option (bool * Q).

Record mbim_indications_state := IndState {
  is_sms_cfg_sent : bool; is_packet_service_sent : bool;
  is_register_state_sent : bool; is_radio_state_sent : bool }.

Definition mbim_indications_reset : mbim_indications_state := IndState false false false false.

(** The characters that fit [cap] bytes, and the number of bytes written. *)
Definition write_utf16le_ascii (dst : nat) (src : bytes) (cap : nat) : B Z :=
  let l := utf16le (take (cap / 2) src) in
  mem_write dst l ;; mret (Z.of_nat (length l)).

Definition fill {A} (m : B A) (n : nat) : option bytes := snd <$> run_wire m (replicate n 0).

Section Indications.
Context {Q : Type} `{IndicationQueue Q}.
Implicit Types (q : Q).

(** The message in [ind], of 512 bytes. *)
Definition queue_indication_uuid_cid q (service_id : bytes) (cid : Z) (payload : bytes)
    : option (bool * Q) :=
  let payload_len := Z.of_nat (length payload) in
  let total_len := u32 (44 + payload_len) in
  if 512 <? total_len then Some (false, q) else
  ind ← fill (put_le32 0 MBIM_INDICATE_STATUS_MSG ;;
              put_le32 4 total_len ;;
              put_le32 8 0 ;;
              put_le32 12 1 ;;
              put_le32 16 0 ;;
              mem_write 20 service_id ;;
              put_le32 36 cid ;;
              put_le32 40 payload_len ;;
              mem_write 44 payload) (Z.to_nat total_len);
  enqueue ind q.

Definition mbim_indications_emit_sms_configuration (st : mbim_indications_state) q
    : bool * mbim_indications_state * Q :=
  if is_sms_cfg_sent st then (false, st, q) else (true, st <| is_sms_cfg_sent := true |>, q).

Definition mbim_indications_emit_sms_read q (info : option bytes) (info_len : Z)
    : option (bool * Q) :=
  match info with
  | None => Some (false, q)
  | Some info =>
    if info_len =? 0 then Some (false, q) else
    data ← slice info 0 (Z.to_nat info_len);
    queue_indication_uuid_cid q UUID_SMS MBIM_CID_SMS_READ data
  end.

Definition mbim_indications_emit_sms_message_store_status q (message_index : Z)
    : option (bool * Q) :=
  payload ← fill (put_le32 0 MBIM_SMS_STATUS_FLAG_NEW_MESSAGE ;; put_le32 4 message_index) 8;
  queue_indication_uuid_cid q UUID_SMS MBIM_CID_SMS_MESSAGE_STORE_STATUS payload.

Definition mbim_indications_emit_packet_service (st : mbim_indications_state) q
    : option (bool * mbim_indications_state * Q) :=
  if is_packet_service_sent st then Some (false, st, q) else
  payload ← fill (put_le32 0 0 ;; put_le32 4 20 ;; put_le32 8 0 ;; put_le32 12 0) 16;
  '(ok, q) ← queue_indication_uuid_cid q UUID_BASIC_CONNECT 10 payload;
  Some (ok, if ok : bool then st <| is_packet_service_sent := true |> else st, q).

(** The seven words of a packet service payload. *)
Definition packet_service_payload (state data_class ul dl : Z) : option bytes :=
  fill (put_le32 0 0 ;; put_le32 4 state ;; put_le32 8 data_class ;; put_le32 12 ul ;;
        put_le32 16 0 ;; put_le32 20 dl ;; put_le32 24 0) 28.

Definition mbim_indications_emit_packet_service_attaching q : option (bool * Q) :=
  payload ← packet_service_payload 1 0 0 0;
  queue_indication_uuid_cid q UUID_BASIC_CONNECT MBIM_CID_PACKET_SERVICE payload.

Definition mbim_indications_emit_packet_service_attached q : option (bool * Q) :=
  payload ← packet_service_payload 2 0x20 50000000 100000000;
  queue_indication_uuid_cid q UUID_BASIC_CONNECT MBIM_CID_PACKET_SERVICE payload.

Definition mbim_indications_emit_packet_service_detached q : option (bool * Q) :=
  payload ← packet_service_payload 0 0 0 0;
  queue_indication_uuid_cid q UUID_BASIC_CONNECT MBIM_CID_PACKET_SERVICE payload.

Definition register_state_payload (state : Z) : option bytes :=
  fill (put_le32 0 0 ;; put_le32 4 state ;; put_le32 8 1 ;; put_le32 12 0 ;; put_le32 16 1 ;;
        put_le32 44 2) 48.

Definition mbim_indications_emit_register_state_searching q : option (bool * Q) :=
  payload ← register_state_payload 2;
  queue_indication_uuid_cid q UUID_BASIC_CONNECT MBIM_CID_REGISTER_STATE payload.

Definition mbim_indications_emit_register_state_deregistered q : option (bool * Q) :=
  payload ← register_state_payload 1;
  queue_indication_uuid_cid q UUID_BASIC_CONNECT MBIM_CID_REGISTER_STATE payload.

Definition register_home_payload (st : modem_state) : option bytes :=
  fill (put_le32 0 0 ;; put_le32 4 3 ;; put_le32 8 1 ;; put_le32 12 0x20 ;; put_le32 16 1 ;;
        put_le32 20 48 ;;
        plmn_len ← write_utf16le_ascii 48 (op_plmn (ms_oper st)) 12;
        put_le32 24 plmn_len ;;
        put_le32 28 60 ;;
        name_len ← write_utf16le_ascii 60 (op_name (ms_oper st)) 16;
        put_le32 32 name_len ;;
        put_le32 44 2) 76.

Definition mbim_indications_emit_register_state_home q (state : option modem_state)
    : option (bool * Q) :=
  match state with
  | None => Some (false, q)
  | Some st =>
    payload ← register_home_payload st;
    queue_indication_uuid_cid q UUID_BASIC_CONNECT MBIM_CID_REGISTER_STATE payload
  end.

Definition mbim_indications_emit_register_state (st : mbim_indications_state) q
    : option (bool * mbim_indications_state * Q) :=
  if is_register_state_sent st then Some (false, st, q) else
  payload ← fill (put_le32 0 1 ;; put_le32 4 1 ;; put_le32 8 20 ;; put_le32 12 1 ;;
                  put_le32 16 0 ;; put_le32 20 0) 24;
  '(ok, q) ← queue_indication_uuid_cid q UUID_BASIC_CONNECT 9 payload;
  Some (ok, if ok : bool then st <| is_register_state_sent := true |> else st, q).

Definition mbim_indications_emit_radio_state (st : mbim_indications_state) q
    : option (bool * mbim_indications_state * Q) :=
  if is_radio_state_sent st then Some (false, st, q) else
  payload ← fill (put_le32 0 1 ;; put_le32 4 1) 8;
  '(ok, q) ← queue_indication_uuid_cid q UUID_BASIC_CONNECT 3 payload;
  Some (ok, if ok : bool then st <| is_radio_state_sent := true |> else st, q).

Definition mbim_indications_emit_connect q : bool * Q := (true, q).

Definition mbim_indications_emit_lte_attach_status q (state : option modem_state)
    : option (bool * Q) :=
  let apn := match state with Some st => apn_or_internet st | None => str "internet" end in
  let attached := match state with Some st => ms_packet_attached st | None => false end in
  '(info_len, payload) ← run_wire (mbim_wire_init 0 256 ;; put_attach_status 0 attached apn)
                                  (replicate 256 0);
  data ← slice payload 0 (Z.to_nat info_len);
  queue_indication_uuid_cid q UUID_BASIC_CONNECT_EXTENSIONS MBIM_EXT_CID_LTE_ATTACH_STATUS data.
End Indications.

(** ** The QMUX synchronisation *)

Record mbim_vendor_qmux_state := QmuxState {
  qx_sync_ind_sent : bool; qx_sync_ind_pending : bool; qx_sync_ind_buf : bytes; qx_sync_ind_len : Z }.

Definition mbim_vendor_qmux_reset (st : mbim_vendor_qmux_state) : mbim_vendor_qmux_state :=
  st <| qx_sync_ind_sent := false |> <| qx_sync_ind_pending := false |> <| qx_sync_ind_len := 0 |>.

(** The QMI response: the transaction and the message number of the request. *)
Definition ctl_sync_response (q7 q8 q9 : Z) : bytes :=
  [0x01; 0x11; 0x00; 0x80; 0x00; 0x00; 0x00; q7; q8; q9; 0x07; 0x00;
   0x02; 0x04; 0x00; 0x00; 0x00; 0x00; 0x00].

Definition ctl_sync_command_done (mbim_tid cid : Z) (service_id resp_qmi : bytes) : option bytes :=
  let n := Z.of_nat (length resp_qmi) in
  cmd_done ← fill (put_le32 0 MBIM_COMMAND_DONE ;;
        put_le32 4 (48 + n) ;;
        put_le32 8 mbim_tid ;;
        put_le32 12 1 ;;
        put_le32 16 0 ;;
        mem_write 20 service_id ;;
        put_le32 36 cid ;;
        put_le32 40 MBIM_STATUS_SUCCESS ;;
        put_le32 44 n ;;
        mem_write 48 resp_qmi) 128;
  Some (take (Z.to_nat (48 + n)) cmd_done).

Definition ctl_sync_indication (cid : Z) : option bytes :=
  let ind_qmi := [0x01; 0x0b; 0x00; 0x80; 0x00; 0x00; 0x02; 0x00; 0x27; 0x00; 0x00; 0x00] in
  ind ← fill (put_le32 0 MBIM_INDICATE_STATUS_MSG ;;
        put_le32 4 56 ;;
        put_le32 8 0 ;;
        put_le32 12 1 ;;
        put_le32 16 0 ;;
        mem_write 20 UUID_EXT_QMUX ;;
        put_le32 36 cid ;;
        put_le32 40 12 ;;
        mem_write 44 ind_qmi) 64;
  Some (take 56 ind).

Section Qmux.
Context {Q : Type} `{IndicationQueue Q}.

Definition mbim_vendor_qmux_handle_ctl_sync (st : mbim_vendor_qmux_state) (mbim_tid cid : Z)
    (service_id : bytes) (q : option bytes) (q_len : Z) (queue : Q)
    : option (bool * mbim_vendor_qmux_state * Q) :=
  match q with
  | None => Some (false, st, queue)
  | Some q =>
    if q_len <? 12 then Some (false, st, queue) else
    q7 ← q !! 7%nat; q8 ← q !! 8%nat; q9 ← q !! 9%nat;
    cmd_done ← ctl_sync_command_done mbim_tid cid service_id (ctl_sync_response q7 q8 q9);
    '(ok, queue) ← enqueue cmd_done queue;
    if negb ok then Some (false, st, queue) else
    if negb (qx_sync_ind_sent st) then
      ind ← ctl_sync_indication cid;
      Some (true, st <| qx_sync_ind_buf := (over ind (qx_sync_ind_buf st)) |>
                     <| qx_sync_ind_len := 56 |> <| qx_sync_ind_pending := true |>, queue)
    else Some (true, st, queue)
  end.
End Qmux.

Definition mbim_vendor_qmux_has_pending_indication (st : mbim_vendor_qmux_state) : bool :=
  qx_sync_ind_pending st.

(** The bytes copied to [out], [None] when 0 is returned. *)
Definition mbim_vendor_qmux_take_pending_indication (st : mbim_vendor_qmux_state) (out_size : Z)
    : option bytes * mbim_vendor_qmux_state :=
  if negb (qx_sync_ind_pending st) || (qx_sync_ind_len st =? 0) || (out_size <? qx_sync_ind_len st)
  then (None, st)
  else (Some (take (Z.to_nat (qx_sync_ind_len st)) (qx_sync_ind_buf st)),
        st <| qx_sync_ind_pending := false |>).

Definition mbim_vendor_qmux_mark_indication_sent (st : mbim_vendor_qmux_state)
    : mbim_vendor_qmux_state :=
  st <| qx_sync_ind_sent := true |> <| qx_sync_ind_len := 0 |>.
