(* ===== verification/MbimIndicated.v ===== *)
(** What the indications of [MbimIndications.v] say: each emitter queues one
    INDICATE_STATUS message from which the host reads the new state, or nothing
    when the queue is full. *)

From S2P Require Import Prelude CString MbimWire ModemState MbimSms MbimHandlers MbimReports MbimStrings.
From S2P Require Import MbimCommands MbimIndications.

(** An INDICATE_STATUS message with the payload [payload]. *)
Record indicated (service : bytes) (cid : Z) (payload msg : bytes) : Prop := {
  in_length : length msg = (44 + length payload)%nat;
  in_type : field32 msg 0 = MBIM_INDICATE_STATUS_MSG;
  in_msg_len : field32 msg 4 = Z.of_nat (length msg);
  in_tid : field32 msg 8 = 0;
  in_fragments : field32 msg 12 = 1 /\ field32 msg 16 = 0;
  in_service : bytes_at msg 20 16 = service;
  in_cid : field32 msg 36 = cid;
  in_payload_len : field32 msg 40 = Z.of_nat (length payload);
  in_payload : drop 44 msg = payload }.

Lemma fill_wp {A} (m : B A) n (Q : bytes -> Prop) :
  wp m (Wire (replicate n 0) 0 0 0 0 false) (fun _ b => Q (w_mem b)) ->
  exists out, fill m n = Some out /\ Q out.
Proof.
  unfold wp, fill, run_wire. intros H. destruct (m _) as [[x b]|]; [|done]. by exists (w_mem b).
Qed.

Section Emit.
Context {Q : Type} `{IndicationQueue Q}.
Implicit Types (q : Q).

Lemma queue_indication_ok q service cid payload :
  length service = 16%nat -> 0 <= cid < 2 ^ 32 -> (length payload <= 468)%nat ->
  exists msg, indicated service cid payload msg
  /\ queue_indication_uuid_cid q service cid payload = enqueue msg q.
Proof.
  intros Hs Hc Hp. unfold queue_indication_uuid_cid. set (n := Z.of_nat (length payload)).
  rewrite (u32_small (44 + n)) by lia. replace (512 <? 44 + n) with false by lia.
  match goal with |- context [fill ?m ?k] =>
    assert (exists out, fill m k = Some out /\ indicated service cid payload out) as (msg & -> & Hi) end.
  { apply fill_wp. replace (Z.to_nat (44 + n)) with (44 + length payload)%nat by lia.
    repeat wp1. cbn [w_mem]. split; try (mread; try reflexivity; rewrite u32_small; lia).
    - by rewrite !length_inserts, length_replicate.
    - rewrite !length_inserts, length_replicate. mread. rewrite u32_small; lia.
    - split; mread; reflexivity.
    - rewrite <- (firstn_all2 (n := length payload) (drop 44 _))
        by (rewrite length_drop, !length_inserts, length_replicate; lia).
      match goal with |- take ?k (drop ?i ?m) = _ => change (bytes_at m i k = payload) end.
      rewrite bytes_at_inserts_eq; [done|done|]. wside. }
  ob. by exists msg.
Qed.

Lemma queue_indication_long q service cid payload :
  (468 < length payload)%nat -> Z.of_nat (length payload) < 2 ^ 31 ->
  queue_indication_uuid_cid q service cid payload = Some (false, q).
Proof.
  intros Hl Hb. unfold queue_indication_uuid_cid. rewrite u32_small by lia.
  by replace (512 <? _) with true by lia.
Qed.

(** The emitters.  [payload] is what the host reads of the change. *)
Definition emits_one (r : option (bool * Q)) q (service : bytes) (cid : Z) (P : bytes -> Prop) : Prop :=
  exists payload msg, P payload /\ (length payload <= 468)%nat /\ indicated service cid payload msg
  /\ r = enqueue msg q.

Lemma emit_fill q service cid n (m : B unit) (P : bytes -> Prop) :
  length service = 16%nat -> 0 <= cid < 2 ^ 32 -> (n <= 468)%nat ->
  wp m (Wire (replicate n 0) 0 0 0 0 false) (fun _ b => length (w_mem b) = n /\ P (w_mem b)) ->
  emits_one (payload ← fill m n; queue_indication_uuid_cid q service cid payload) q service cid P.
Proof.
  intros Hs Hc Hn Hm. destruct (fill_wp m n (fun out => length out = n /\ P out) Hm) as (out & -> & Hl & HP). ob.
  destruct (queue_indication_ok q service cid out Hs Hc ltac:(lia)) as (msg & Hi & E).
  exists out, msg. split_and!; [done|lia|done|done].
Qed.

Lemma length_uuid_basic : length UUID_BASIC_CONNECT = 16%nat.
Proof. done. Qed.

Lemma packet_indicated q :
  emits_one (mbim_indications_emit_packet_service_attaching q) q UUID_BASIC_CONNECT MBIM_CID_PACKET_SERVICE
    (fun p => field32 p 4 = 1)
  /\ emits_one (mbim_indications_emit_packet_service_attached q) q UUID_BASIC_CONNECT MBIM_CID_PACKET_SERVICE
    (fun p => field32 p 4 = 2 /\ field32 p 12 = 50000000 /\ field32 p 20 = 100000000)
  /\ emits_one (mbim_indications_emit_packet_service_detached q) q UUID_BASIC_CONNECT MBIM_CID_PACKET_SERVICE
    (fun p => field32 p 4 = 0).
Proof.
  split_and!; (apply emit_fill; [done|done|lia|]; repeat wp1; cbn [w_mem];
    (split; [by rewrite !length_inserts, length_replicate|]); split_and?; by mread).
Qed.

Lemma register_indicated q :
  emits_one (mbim_indications_emit_register_state_searching q) q UUID_BASIC_CONNECT MBIM_CID_REGISTER_STATE
    (fun p => field32 p 4 = 2)
  /\ emits_one (mbim_indications_emit_register_state_deregistered q) q UUID_BASIC_CONNECT MBIM_CID_REGISTER_STATE
    (fun p => field32 p 4 = 1).
Proof.
  split_and!; (apply emit_fill; [done|done|lia|]; repeat wp1; cbn [w_mem];
    (split; [by rewrite !length_inserts, length_replicate|]); by mread).
Qed.

Lemma length_utf16_field n s : (length (utf16le (take (n / 2) s)) <= n)%nat.
Proof. rewrite length_utf16le, length_take. pose proof (Nat.Div0.mul_div_le n 2). lia. Qed.

(** The operator: at most six characters of its code and eight of its name. *)
Lemma home_indicated q st :
  emits_one (mbim_indications_emit_register_state_home q (Some st)) q
    UUID_BASIC_CONNECT MBIM_CID_REGISTER_STATE
    (fun p => field32 p 4 = 3 /\ string_ref p 0 20 = utf16le (take 6 (op_plmn (ms_oper st)))
              /\ string_ref p 0 28 = utf16le (take 8 (op_name (ms_oper st)))).
Proof.
  apply emit_fill; [done|done|lia|]. unfold write_utf16le_ascii.
  change (12 / 2)%nat with 6%nat. change (16 / 2)%nat with 8%nat.
  pose proof (length_utf16_field 12 (op_plmn (ms_oper st))) as H1.
  pose proof (length_utf16_field 16 (op_name (ms_oper st))) as H2.
  change (12 / 2)%nat with 6%nat in H1. change (16 / 2)%nat with 8%nat in H2.
  set (plmn := utf16le (take 6 _)) in *. set (name := utf16le (take 8 _)) in *. clearbody plmn name.
  repeat wp1. cbn [w_mem].
  split; [by rewrite !length_inserts, length_replicate|]. unfold string_ref.
  split; [by mread|]. split; mread; rewrite !u32_small by lia; rewrite ?Nat2Z.id;
    change (Z.to_nat 48) with 48%nat; change (Z.to_nat 60) with 60%nat; cbn [Nat.add]; by mread.
Qed.

Lemma store_status_indicated q i :
  0 <= i < 2 ^ 32 ->
  emits_one (mbim_indications_emit_sms_message_store_status q i) q UUID_SMS MBIM_CID_SMS_MESSAGE_STORE_STATUS
    (fun p => field32 p 0 = MBIM_SMS_STATUS_FLAG_NEW_MESSAGE /\ field32 p 4 = i).
Proof.
  intros Hi. apply emit_fill; [done|done|lia|]. repeat wp1. cbn [w_mem].
  split; [by rewrite !length_inserts, length_replicate|]. split; mread; [done|]. by apply u32_small.
Qed.

Lemma lte_attach_indicated q st :
  modem_state_ok st ->
  emits_one (mbim_indications_emit_lte_attach_status q (Some st)) q
    UUID_BASIC_CONNECT_EXTENSIONS MBIM_EXT_CID_LTE_ATTACH_STATUS
    (fun p => field32 p 0 = (if ms_packet_attached st then 1 else 0)).
Proof.
  intros Hs. pose proof (apn_or_internet_length st Hs) as Hl.
  unfold mbim_indications_emit_lte_attach_status. set (apn := apn_or_internet st) in *.
  assert (wp (mbim_wire_init 0 256 ;; put_attach_status 0 (ms_packet_attached st) apn)
    (Wire (replicate 256 0) 0 0 0 0 false)
    (fun n b => length (w_mem b) = 256%nat /\ 0 <= n <= 256
       /\ field32 (w_mem b) 0 = (if ms_packet_attached st then 1 else 0) /\ 4 <= n)) as Hw.
  { unfold put_attach_status. set (access := if ms_packet_attached st then apn else []).
    assert (length access < 64)%nat as Ha by (subst access; destruct (ms_packet_attached st); cbn; lia).
    clearbody access. layout_simpl. repeat (wp1; cbv zeta). cbn [w_mem fst snd].
    split; [by rewrite !length_inserts, length_replicate|]. split; [lia|]. split; [|lia].
    mread. by destruct (ms_packet_attached st). }
  unfold wp, run_wire in *. destruct ((mbim_wire_init 0 256 ;; _) _) as [[n b]|]; [|done].
  destruct Hw as (Hlen & Hn & Hf & Hn4). ob. rewrite (slice_in _ 0) by lia. ob.
  set (data := take (Z.to_nat n) (drop 0 (w_mem b))).
  assert (length data = Z.to_nat n) as Hd by (subst data; rewrite length_take, length_drop; lia).
  destruct (queue_indication_ok q UUID_BASIC_CONNECT_EXTENSIONS MBIM_EXT_CID_LTE_ATTACH_STATUS data
    ltac:(done) ltac:(done) ltac:(lia)) as (msg & Hi & E). exists data, msg.
  split; [|split_and!; [lia|done|done]].
  rewrite <- Hf. unfold field32. f_equal. subst data. rewrite drop_0. unfold bytes_at. rewrite !drop_0.
  rewrite take_take. f_equal. lia.
Qed.
End Emit.
