(* ===== verification/Ring.v ===== *)
(** Ring buffers: the queues of [core.c] and [state_bridge.c] are arrays of [n]
    slots with the indices of the oldest entry and of the next free slot; one
    slot stays free, so that equal indices mean an empty queue.

    The contents of a ring, from the oldest entry to the newest, is the list
    [rg_items]; the lemmas say that the operations are those of a bounded queue
    on that list. *)

From S2P Require Import Prelude.

#[local] Set Primitive Projections.

Record ring (A : Type) := Ring { rg_slots : list A; rg_head : nat; rg_tail : nat }.
Arguments Ring {A}.
Arguments rg_slots {A}.
Arguments rg_head {A}.
Arguments rg_tail {A}.

Section Ring.
Context {A : Type} (n : nat).
Implicit Types (r : ring A).

Definition rg_new (x : A) : ring A := Ring (replicate n x) 0 0.

Definition rg_next (i : nat) : nat := (i + 1) mod n.
Definition rg_empty r : bool := rg_head r =?n rg_tail r.
Definition rg_full r : bool := rg_next (rg_tail r) =?n rg_head r.
Definition rg_count r : nat := (rg_tail r + n - rg_head r) mod n.

(** Writing the slot at the tail and moving the tail. *)
Definition rg_put (x : A) r : ring A :=
  Ring (<[rg_tail r := x]> (rg_slots r)) (rg_head r) (rg_next (rg_tail r)).
Definition rg_peek r : option A := rg_slots r !! rg_head r.
(** Changing the slot at the head and moving the head. *)
Definition rg_pop (f : A -> A) r : ring A :=
  Ring (alter f (rg_head r) (rg_slots r)) (rg_next (rg_head r)) (rg_tail r).

(** ** Contents *)

Record rg_ok r : Prop := {
  rgo_slots : length (rg_slots r) = n;
  rgo_head : (rg_head r < n)%nat;
  rgo_tail : (rg_tail r < n)%nat }.

(** The slot of the [k]th entry. *)
Definition rg_at r (k : nat) : nat := (rg_head r + k) mod n.
End Ring.

Definition rg_items {A} `{Inhabited A} (n : nat) (r : ring A) : list A :=
  (fun k => rg_slots r !!! rg_at n r k) <$> seq 0 (rg_count n r).

Lemma wrap_mod a n : (a < 2 * n)%nat -> (a mod n = if a <?n n then a else a - n)%nat.
Proof.
  intros H. destruct (a <?n n) eqn:E; [apply Nat.mod_small; lia|].
  symmetry. apply (Nat.mod_unique a n 1); lia.
Qed.

Ltac ring_arith :=
  unfold rg_count, rg_at, rg_next, rg_full, rg_empty in *; cbn [rg_pop rg_put rg_head rg_tail rg_slots] in *;
  repeat first
    [ match goal with
      | |- context [if (?a <?n ?b) then _ else _] => destruct (Nat.ltb_spec a b)
      | H : context [if (?a <?n ?b) then _ else _] |- _ => destruct (Nat.ltb_spec a b)
      end
    | rewrite wrap_mod by lia
    | match goal with H : context [(?a mod ?b)%nat] |- _ => rewrite (wrap_mod a b) in H by lia end ];
  lia.

Section Contents.
Context {A : Type} `{HI : Inhabited A} (n : nat).
Implicit Types (r : ring A).

Lemma rg_new_ok (x : A) : (0 < n)%nat -> rg_ok n (rg_new n x) /\ rg_items n (rg_new n x) = [].
Proof.
  intros Hn. split; [split; [apply length_replicate|done..]|].
  unfold rg_items, rg_count, rg_new. cbn [rg_head rg_tail].
  by rewrite Nat.add_0_l, Nat.sub_0_r, Nat.Div0.mod_same.
Qed.

Lemma rg_count_lt r : rg_ok n r -> (rg_count n r < n)%nat.
Proof. intros [_ Hh Ht]. apply Nat.mod_upper_bound. lia. Qed.

Lemma rg_length r : length (rg_items n r) = rg_count n r.
Proof. unfold rg_items. by rewrite length_fmap, length_seq. Qed.

Lemma rg_lookup r k : rg_ok n r -> (k < rg_count n r)%nat -> rg_items n r !! k = rg_slots r !! rg_at n r k.
Proof.
  intros [Hs Hh Ht] Hk. unfold rg_items. rewrite list_lookup_fmap, lookup_seq_lt by done.
  cbn [fmap option_fmap option_map]. symmetry. apply list_lookup_lookup_total_lt.
  rewrite Hs. apply Nat.mod_upper_bound. lia.
Qed.

Lemma rg_empty_items r : rg_ok n r -> rg_empty r = true <-> rg_items n r = [].
Proof.
  intros [Hs Hh Ht]. rewrite <- length_zero_iff_nil, rg_length. unfold rg_empty, rg_count.
  rewrite Nat.eqb_eq, wrap_mod by lia. destruct (Nat.ltb_spec (rg_tail r + n - rg_head r) n); lia.
Qed.

Lemma rg_full_items r : rg_ok n r -> rg_full n r = true <-> S (length (rg_items n r)) = n.
Proof.
  intros [Hs Hh Ht]. rewrite rg_length. unfold rg_full. rewrite Nat.eqb_eq. ring_arith.
Qed.

Lemma rg_put_items x r :
  rg_ok n r -> rg_full n r = false ->
  rg_ok n (rg_put n x r) /\ rg_items n (rg_put n x r) = rg_items n r ++ [x].
Proof.
  intros Hok Hf. pose proof Hok as [Hs Hh Ht].
  assert (rg_full n r <> true) as Hf' by congruence. clear Hf.
  rewrite (rg_full_items r Hok), rg_length in Hf'.
  assert (rg_ok n (rg_put n x r)) as Hok'.
  { split; cbn [rg_put rg_slots rg_head rg_tail]; [by rewrite length_insert|done|].
    apply Nat.mod_upper_bound. lia. }
  pose proof (rg_count_lt r Hok).
  assert (rg_count n (rg_put n x r) = S (rg_count n r)) as Hc.
  { revert Hf'. unfold rg_put. clear -Hh Ht. intros. ring_arith. }
  split; [done|]. apply list_eq. intros k.
  destruct (Nat.lt_ge_cases k (rg_count n r)) as [Hk|Hk].
  - rewrite rg_lookup by (done || lia). rewrite lookup_app_l by (by rewrite rg_length).
    rewrite rg_lookup by done. cbn [rg_put rg_slots]. apply list_lookup_insert_ne.
    change (rg_at n (rg_put n x r) k) with (rg_at n r k). revert Hk Hf'. clear -Hh Ht. intros. ring_arith.
  - rewrite lookup_app_r by (by rewrite rg_length). rewrite rg_length.
    destruct (Nat.eq_dec k (rg_count n r)) as [->|Hne].
    + rewrite rg_lookup by (done || lia). rewrite Nat.sub_diag. cbn [rg_put rg_slots lookup list_lookup].
      change (rg_at n (rg_put n x r) (rg_count n r)) with (rg_at n r (rg_count n r)).
      replace (rg_at n r (rg_count n r)) with (rg_tail r); [by rewrite list_lookup_insert_eq by lia|].
      clear -Hh Ht. ring_arith.
    + rewrite lookup_ge_None_2 by (rewrite rg_length; lia). symmetry. apply lookup_ge_None_2. cbn. lia.
Qed.

Lemma rg_pop_items f x l r :
  rg_ok n r -> rg_items n r = x :: l ->
  rg_peek r = Some x /\ rg_ok n (rg_pop n f r) /\ rg_items n (rg_pop n f r) = l.
Proof.
  intros Hok Hl. pose proof Hok as [Hs Hh Ht].
  pose proof (rg_length r) as Hlen. rewrite Hl in Hlen. cbn [length] in Hlen.
  assert (rg_ok n (rg_pop n f r)) as Hok'.
  { split; cbn [rg_pop rg_slots rg_head rg_tail]; [by rewrite length_alter| |done].
    apply Nat.mod_upper_bound. lia. }
  pose proof (rg_count_lt r Hok).
  assert (rg_count n (rg_pop n f r) = length l) as Hc.
  { revert Hlen. unfold rg_pop. clear -Hh Ht. intros. ring_arith. }
  split; [|split; [done|]].
  - pose proof (rg_lookup r 0 Hok ltac:(lia)) as Hz. rewrite Hl in Hz. change (Some x = rg_slots r !! rg_at n r 0) in Hz. unfold rg_peek. rewrite Hz.
    f_equal. clear -Hh. ring_arith.
  - apply list_eq. intros k. destruct (Nat.lt_ge_cases k (length l)) as [Hk|Hk].
    + rewrite rg_lookup by (done || lia).
      pose proof (rg_lookup r (S k) Hok ltac:(lia)) as HS. rewrite Hl in HS.
      change (l !! k = rg_slots r !! rg_at n r (S k)) in HS. rewrite HS. cbn [rg_pop rg_slots].
      replace (rg_at n (rg_pop n f r) k) with (rg_at n r (S k))
        by (revert Hk Hlen; unfold rg_pop; clear -Hh Ht; intros; ring_arith).
      apply list_lookup_alter_ne. revert Hk Hlen; clear -Hh Ht; intros; ring_arith.
    + rewrite !lookup_ge_None_2; [done|lia|rewrite rg_length; lia].
Qed.

(** Overwriting the [k]th entry. *)
Lemma rg_insert_items x k r :
  rg_ok n r -> (k < rg_count n r)%nat ->
  let r' := Ring (<[rg_at n r k := x]> (rg_slots r)) (rg_head r) (rg_tail r) in
  rg_ok n r' /\ rg_items n r' = <[k := x]> (rg_items n r).
Proof.
  intros Hok Hk r'. pose proof Hok as [Hs Hh Ht]. pose proof (rg_count_lt r Hok).
  assert (rg_ok n r') as Hok' by (split; cbn; [by rewrite length_insert|done|done]).
  split; [done|]. apply list_eq. intros j.
  destruct (Nat.lt_ge_cases j (rg_count n r)) as [Hj|Hj].
  - rewrite rg_lookup by done. change (rg_at n r' j) with (rg_at n r j). cbn [rg_slots r'].
    destruct (Nat.eq_dec j k) as [->|Hne].
    + rewrite !list_lookup_insert_eq; [done|by rewrite rg_length|]. rewrite Hs.
      apply Nat.mod_upper_bound. lia.
    + rewrite !list_lookup_insert_ne; [by rewrite rg_lookup|done|].
      revert Hj Hk Hne; clear -Hh Ht; intros; ring_arith.
  - rewrite !lookup_ge_None_2; [done|rewrite length_insert, rg_length; lia|rewrite rg_length; exact Hj].
Qed.

(** The tail moved back: without the last entry. *)
Lemma rg_unput_items r :
  rg_ok n r -> (0 < rg_count n r)%nat ->
  let r' := Ring (rg_slots r) (rg_head r) ((rg_tail r + n - 1) mod n) in
  rg_ok n r' /\ rg_items n r' = take (rg_count n r - 1) (rg_items n r).
Proof.
  intros Hok Hc r'. pose proof Hok as [Hs Hh Ht].
  assert (rg_ok n r') as Hok' by (split; cbn; [done..|apply Nat.mod_upper_bound; lia]).
  assert (rg_count n r' = rg_count n r - 1)%nat as Hc'.
  { revert Hc. subst r'. clear -Hh Ht. intros. ring_arith. }
  split; [done|]. apply list_eq. intros j.
  destruct (Nat.lt_ge_cases j (rg_count n r - 1)) as [Hj|Hj].
  - rewrite rg_lookup by (done || lia). rewrite lookup_take_lt by done. by rewrite rg_lookup by (done || lia).
  - rewrite !lookup_ge_None_2; [done|rewrite length_take, rg_length; lia|rewrite rg_length; lia].
Qed.
End Contents.
