(* ===== verification/ApnContext.v ===== *)
(** The table of access point names: [src/src/apn_context/apn_context.c] and its
    header.

    [apn_view] is what the table is for: a finite map from names, compared
    without case, to contexts.  [apn_context_upsert] refines the insertion into
    that map. *)

From stdpp Require Import gmap.
From S2P Require Import Prelude CString.

#[local] Set Primitive Projections.

Definition APN_CONTEXT_APN_MAX : nat := 64.
Definition APN_CONTEXT_MAX : nat := 16.

Inductive apn_context_kind := APN_CONTEXT_HOST_DATA | APN_CONTEXT_IMS_INTERNAL.
Inductive apn_context_source :=
  APN_CONTEXT_SOURCE_HOST_PROVISIONED | APN_CONTEXT_SOURCE_HOST_LTE_ATTACH
| APN_CONTEXT_SOURCE_HOST_CONNECT | APN_CONTEXT_SOURCE_INTERNAL.
#[export] Instance apn_context_kind_eq_dec : EqDecision apn_context_kind.
Proof. solve_decision. Defined.

(** [enum apn_context_ip_type]; callers may pass 0. *)
Definition APN_CONTEXT_IP_TYPE_IPV4 : Z := 1.

Record apn_context := ApnContext {
  ac_used : bool; ac_id : Z; ac_apn : bytes; ac_ip_type : Z;
  ac_source : apn_context_source; ac_kind : apn_context_kind }.

Definition apn_context_zero : apn_context :=
  ApnContext false 0 [] 0 APN_CONTEXT_SOURCE_HOST_PROVISIONED APN_CONTEXT_HOST_DATA.
#[export] Instance apn_context_inhabited : Inhabited apn_context := populate apn_context_zero.

Record apn_context_manager := ApnManager {
  am_ims_enabled : bool; am_next_id : Z; am_contexts : list apn_context }.

Definition apn_context_manager_init (ims_enabled : bool) : apn_context_manager :=
  ApnManager ims_enabled 1 (replicate APN_CONTEXT_MAX apn_context_zero).

Definition apn_context_classify (mgr : apn_context_manager) (apn : option bytes)
    : apn_context_kind :=
  match apn with
  | Some apn => if am_ims_enabled mgr && strcaseeq apn (str "ims")
                then APN_CONTEXT_IMS_INTERNAL else APN_CONTEXT_HOST_DATA
  | None => APN_CONTEXT_HOST_DATA
  end.

(** The index of the first context that satisfies the test. *)
Definition find_context (p : apn_context -> bool) (mgr : apn_context_manager) : option nat :=
  fst <$> list_find (fun c => p c = true) (am_contexts mgr).

Definition find_by_apn (mgr : apn_context_manager) (apn : bytes) : option nat :=
  match apn with
  | [] => None
  | _ => find_context (fun c => ac_used c && strcaseeq (ac_apn c) apn) mgr
  end.

(** The slot of a new context. *)
Definition add_context (mgr : apn_context_manager) (apn : bytes)
    : option (nat * apn_context_manager) :=
  i ← find_context (fun c => negb (ac_used c)) mgr;
  let c := ApnContext true (am_next_id mgr) (strcpy_n APN_CONTEXT_APN_MAX apn) 0
             APN_CONTEXT_SOURCE_HOST_PROVISIONED APN_CONTEXT_HOST_DATA in
  Some (i, mgr <| am_next_id := (u32 (am_next_id mgr + 1)) |>
               <| am_contexts := (<[i := c]> (am_contexts mgr)) |>).

(** The C result, the value written to [out_id], and the table. *)
Definition apn_context_upsert (mgr : apn_context_manager) (apn : option bytes) (ip_type : Z)
    (source : apn_context_source) : Z * Z * apn_context_manager :=
  match apn with
  | None | Some [] => (-1, 0, mgr)
  | Some apn =>
    match (match find_by_apn mgr apn with Some i => Some (i, mgr) | None => add_context mgr apn end) with
    | None => (-1, 0, mgr)
    | Some (i, mgr) =>
      let c := am_contexts mgr !!! i in
      let c := c <| ac_ip_type := (if ip_type =? 0 then APN_CONTEXT_IP_TYPE_IPV4 else ip_type) |>
                 <| ac_source := source |>
                 <| ac_kind := (apn_context_classify mgr (Some apn)) |> in
      (0, ac_id c, mgr <| am_contexts := (<[i := c]> (am_contexts mgr)) |>)
    end
  end.

Definition apn_context_get_ims (mgr : apn_context_manager) : option apn_context :=
  i ← find_context (fun c => ac_used c && bool_decide (ac_kind c = APN_CONTEXT_IMS_INTERNAL)) mgr;
  am_contexts mgr !! i.

Definition apn_context_get_by_id (mgr : apn_context_manager) (id : Z) : option apn_context :=
  if id =? 0 then None else
  i ← find_context (fun c => ac_used c && (ac_id c =? id)) mgr;
  am_contexts mgr !! i.

(** ** Well-formed tables *)

(** The contexts in use come first, with the identities 1, 2, ... in order, and
    different names. *)
Record apn_ok (mgr : apn_context_manager) (used : list apn_context) : Prop := {
  ao_contexts : am_contexts mgr = used ++ replicate (APN_CONTEXT_MAX - length used) apn_context_zero;
  ao_length : (length used <= APN_CONTEXT_MAX)%nat;
  ao_next : am_next_id mgr = Z.of_nat (length used) + 1;
  ao_used : Forall (fun c => ac_used c = true) used;
  ao_ids : forall i c, used !! i = Some c -> ac_id c = Z.of_nat i + 1;
  ao_kind : Forall (fun c => (length (ac_apn c) < APN_CONTEXT_APN_MAX)%nat
              /\ ac_kind c = apn_context_classify mgr (Some (ac_apn c))) used;
  ao_names : NoDup ((fun c => tolower <$> ac_apn c) <$> used) }.

Definition apn_key (c : apn_context) : bytes := tolower <$> ac_apn c.

Definition apn_view (mgr : apn_context_manager) : gmap bytes apn_context :=
  list_to_map ((fun c => (apn_key c, c)) <$> filter (fun c => ac_used c = true) (am_contexts mgr)).

Lemma filter_keep {A} (P : A -> Prop) `{!forall x, Decision (P x)} (l : list A) :
  Forall P l -> filter P l = l.
Proof. induction 1 as [|x l Hx _ IH]; [done|]. rewrite filter_cons_True by done. by rewrite IH. Qed.

Lemma filter_drop {A} (P : A -> Prop) `{!forall x, Decision (P x)} (l : list A) :
  Forall (fun x => ~ P x) l -> filter P l = [].
Proof. induction 1 as [|x l Hx _ IH]; [done|]. by rewrite filter_cons_False. Qed.

Lemma apn_init_ok ims : apn_ok (apn_context_manager_init ims) [].
Proof. split; [done|cbn; unfold APN_CONTEXT_MAX; lia|done|done|done|done|constructor]. Qed.

Section Table.
Context (mgr : apn_context_manager) (used : list apn_context).
Hypothesis Hok : apn_ok mgr used.
#[local] Set Default Proof Using "Type*".

Lemma view_used : apn_view mgr = list_to_map ((fun c => (apn_key c, c)) <$> used).
Proof.
  unfold apn_view. rewrite (ao_contexts _ _ Hok), filter_app. do 2 f_equal.
  rewrite filter_keep by (apply (ao_used _ _ Hok)).
  rewrite filter_drop; [apply app_nil_r|]. apply Forall_replicate. done.
Qed.

Lemma view_keys : ((fun c => (apn_key c, c)) <$> used).*1 = apn_key <$> used.
Proof. rewrite <- list_fmap_compose. done. Qed.

Lemma view_lookup k c : apn_view mgr !! k = Some c <-> c ∈ used /\ apn_key c = k.
Proof.
  rewrite view_used, <- elem_of_list_to_map by (rewrite view_keys; apply (ao_names _ _ Hok)).
  rewrite list_elem_of_fmap. split; [intros (c' & [= -> ->] & H); done|].
  intros [H <-]. by exists c.
Qed.

Lemma view_size : size (apn_view mgr) = length used.
Proof.
  rewrite view_used, map_size_list_to_map by (rewrite view_keys; apply (ao_names _ _ Hok)).
  by rewrite length_fmap.
Qed.

(** The free slots do not matter to a search for a context in use. *)
Lemma find_context_used p :
  p apn_context_zero = false -> find_context p mgr = fst <$> list_find (fun c => p c = true) used.
Proof.
  intros Hz. unfold find_context. rewrite (ao_contexts _ _ Hok).
  destruct (list_find _ used) as [[i c]|] eqn:E; [by rewrite (list_find_app_l _ _ _ _ _ E)|].
  rewrite list_find_app_r by done.
  replace (list_find _ (replicate _ _)) with (None : option (nat * apn_context)); [done|].
  symmetry. apply list_find_None, Forall_replicate. congruence.
Qed.

Lemma find_free :
  find_context (fun c => negb (ac_used c)) mgr
  = if (length used <?n APN_CONTEXT_MAX) then Some (length used) else None.
Proof.
  unfold find_context. rewrite (ao_contexts _ _ Hok), list_find_app_r.
  - destruct (length used <?n APN_CONTEXT_MAX) eqn:E.
    + destruct (APN_CONTEXT_MAX - length used)%nat as [|k] eqn:Ek; [lia|]. done.
    + by replace (APN_CONTEXT_MAX - length used)%nat with 0%nat by lia.
  - apply list_find_None. eapply Forall_impl; [apply (ao_used _ _ Hok)|]. cbn. intros c ->. done.
Qed.

Lemma find_by_apn_view apn :
  apn <> [] ->
  match find_by_apn mgr apn with
  | Some i => exists c, used !! i = Some c /\ apn_key c = tolower <$> apn
  | None => apn_view mgr !! (tolower <$> apn) = None
  end.
Proof.
  intros Hne. unfold find_by_apn. destruct apn as [|a apn]; [done|]. set (s := a :: apn).
  rewrite find_context_used by done.
  destruct (list_find _ used) as [[i c]|] eqn:E; cbn [fmap option_fmap option_map fst].
  - apply list_find_Some in E as (Hc & Hp & _). exists c. split; [done|].
    apply andb_prop in Hp as [_ Hp]. by apply strcaseeq_spec.
  - apply list_find_None in E. destruct (apn_view mgr !! _) as [c|] eqn:Ev; [|done].
    apply view_lookup in Ev as [Hin Hk]. rewrite Forall_forall in E. destruct (E c Hin).
    pose proof (ao_used _ _ Hok) as Hu. rewrite Forall_forall in Hu. rewrite (Hu c Hin).
    cbn [andb]. by apply strcaseeq_spec.
Qed.

End Table.

(** Replacing a context by one of the same name and identity. *)
Lemma update_ok mgr used i c c' :
  apn_ok mgr used -> used !! i = Some c -> ac_used c' = true -> ac_id c' = ac_id c ->
  ac_apn c' = ac_apn c -> ac_kind c' = ac_kind c ->
  let mgr' := mgr <| am_contexts := (<[i := c']> (am_contexts mgr)) |> in
  apn_ok mgr' (<[i := c']> used) /\ apn_view mgr' = <[apn_key c := c']> (apn_view mgr).
Proof.
  intros Hok Hi Hu Hid Hn Hk mgr'. pose proof (lookup_lt_Some _ _ _ Hi) as Hlt.
  assert (apn_ok mgr' (<[i := c']> used)) as Hok'.
  { destruct Hok as [H1 H2 H3 H4 H5 H6 H7].
    split; cbn [mgr' am_contexts am_next_id set_field]; rewrite ?length_insert; try done.
    - rewrite H1. by rewrite insert_app_l by done.
    - by apply Forall_insert.
    - intros j d Hj. destruct (decide (i = j)) as [<-|Hne].
      + rewrite list_lookup_insert_eq in Hj by done. injection Hj as <-. rewrite Hid. by apply H5.
      + rewrite list_lookup_insert_ne in Hj by done. by apply H5.
    - apply Forall_insert; [exact H6|]. rewrite Hn, Hk. exact (Forall_lookup_1 _ _ _ _ H6 Hi).
    - rewrite list_fmap_insert, list_insert_id; [done|].
      by rewrite list_lookup_fmap, Hi; cbn; rewrite Hn. }
  split; [done|]. apply map_eq. intros k. apply option_eq. intros d.
  assert (apn_key c' = apn_key c) as Hkey by (unfold apn_key; by rewrite Hn).
  rewrite lookup_insert_Some, !view_lookup by done. rewrite !list_elem_of_lookup. split.
  - intros [[j Hj] Hd]. destruct (decide (i = j)) as [<-|Hne].
    + left. rewrite list_lookup_insert_eq in Hj by done. split; congruence.
    + right. rewrite list_lookup_insert_ne in Hj by done. split; [|by split; [exists j|]].
      intros Hkk. apply Hne. apply (NoDup_lookup _ _ _ (tolower <$> ac_apn c) (ao_names _ _ Hok));
        rewrite list_lookup_fmap; [by rewrite Hi|]. rewrite Hj. cbn. f_equal. unfold apn_key in *. congruence.
  - intros [[Hk' <-]|[Hne [[j Hj] Hd]]].
    + split; [exists i; by apply list_lookup_insert_eq|congruence].
    + split; [|done]. exists j. rewrite list_lookup_insert_ne; [done|]. intros ->. congruence.
Qed.

(** A new context in the first free slot. *)
Lemma append_ok mgr used c :
  apn_ok mgr used -> (length used < APN_CONTEXT_MAX)%nat -> ac_used c = true ->
  ac_id c = Z.of_nat (length used) + 1 -> (length (ac_apn c) < APN_CONTEXT_APN_MAX)%nat ->
  ac_kind c = apn_context_classify mgr (Some (ac_apn c)) -> apn_view mgr !! apn_key c = None ->
  let mgr' := mgr <| am_next_id := (u32 (am_next_id mgr + 1)) |>
                  <| am_contexts := (<[length used := c]> (am_contexts mgr)) |> in
  apn_ok mgr' (used ++ [c]) /\ apn_view mgr' = <[apn_key c := c]> (apn_view mgr).
Proof.
  intros Hok Hl Hu Hid Hn Hk Hnone mgr'.
  assert (apn_key c ∉ apn_key <$> used) as Hfresh.
  { rewrite list_elem_of_fmap. intros (d & Hd & Hin).
    assert (apn_view mgr !! apn_key c = Some d) as Hv by (apply (view_lookup mgr used Hok); done). congruence. }
  assert (apn_ok mgr' (used ++ [c])) as Hok'.
  { destruct Hok as [H1 H2 H3 H4 H5 H6 H7].
    split; cbn [mgr' am_contexts am_next_id set_field]; rewrite ?length_app; cbn [length].
    - rewrite H1, insert_app_r_alt by lia. rewrite Nat.sub_diag, <- app_assoc. f_equal.
      replace (APN_CONTEXT_MAX - length used)%nat with (S (APN_CONTEXT_MAX - (length used + 1))) by lia. done.
    - lia.
    - rewrite H3, u32_small; [lia|]. unfold APN_CONTEXT_MAX in Hl. lia.
    - apply Forall_app. by repeat constructor.
    - intros j d Hj. apply lookup_app_Some in Hj as [Hj|[Hj1 Hj]]; [by apply H5|].
      apply list_lookup_singleton_Some in Hj as [Hj <-]. lia.
    - apply Forall_app. split; [exact H6|]. constructor; [|done]. split; [done|].
      by rewrite Hk.
    - rewrite fmap_app. apply NoDup_app. split; [done|]. split; [|apply NoDup_singleton].
      intros k Hk1 Hk2. apply list_elem_of_singleton in Hk2 as ->. by apply Hfresh. }
  split; [done|]. rewrite (view_used _ _ Hok'), (view_used _ _ Hok), fmap_app. cbn [fmap list_fmap].
  apply list_to_map_snoc. by rewrite (view_keys mgr used Hok).
Qed.

Lemma classify_case mgr a b :
  tolower <$> a = tolower <$> b -> apn_context_classify mgr (Some a) = apn_context_classify mgr (Some b).
Proof. intros H. unfold apn_context_classify, strcaseeq. by rewrite H. Qed.

(** What an update leaves in a context. *)
Definition apn_entry (mgr : apn_context_manager) (id : Z) (name : bytes) (ip_type : Z)
    (source : apn_context_source) : apn_context :=
  ApnContext true id name (if ip_type =? 0 then APN_CONTEXT_IP_TYPE_IPV4 else ip_type) source
    (apn_context_classify mgr (Some name)).

Lemma upsert_refines mgr used apn ip_type source :
  apn_ok mgr used -> apn <> [] -> (length apn < APN_CONTEXT_APN_MAX)%nat ->
  let '(rc, id, mgr') := apn_context_upsert mgr (Some apn) ip_type source in
  let key := tolower <$> apn in
  (exists used', apn_ok mgr' used')
  /\ match apn_view mgr !! key with
     | Some c => rc = 0 /\ id = ac_id c
                 /\ apn_view mgr' = <[key := apn_entry mgr id (ac_apn c) ip_type source]> (apn_view mgr)
     | None =>
       if (size (apn_view mgr) <?n APN_CONTEXT_MAX)
       then rc = 0 /\ id = Z.of_nat (size (apn_view mgr)) + 1
            /\ apn_view mgr' = <[key := apn_entry mgr id apn ip_type source]> (apn_view mgr)
       else rc = -1 /\ mgr' = mgr
     end.
Proof.
  intros Hok Hne Hl. unfold apn_context_upsert. destruct apn as [|a0 apn0] eqn:Ea; [done|].
  rewrite <- Ea in *. clear Ea. cbv zeta. pose proof (find_by_apn_view mgr used Hok apn Hne) as Hf.
  destruct (find_by_apn mgr apn) as [i|].
  - destruct Hf as (c & Hi & Hk).
    assert (apn_view mgr !! (tolower <$> apn) = Some c) as ->
      by (apply (view_lookup _ _ Hok); split; [by eapply list_elem_of_lookup_2|done]).
    assert (am_contexts mgr !!! i = c) as ->.
    { apply list_lookup_total_correct. rewrite (ao_contexts _ _ Hok). by apply lookup_app_l_Some. }
    pose proof (Forall_lookup_1 _ _ _ _ (ao_used _ _ Hok) Hi) as Hu. cbv beta in Hu.
    destruct (Forall_lookup_1 _ _ _ _ (ao_kind _ _ Hok) Hi) as [_ Hkind].
    pose proof (classify_case mgr _ _ Hk) as Hcl.
    match goal with |- context [<[i := ?x]> _] =>
      assert (x = apn_entry mgr (ac_id c) (ac_apn c) ip_type source) as -> end.
    { unfold apn_entry. rewrite Hcl, <- Hu. done. }
    destruct (update_ok mgr used i c (apn_entry mgr (ac_id c) (ac_apn c) ip_type source) Hok Hi)
      as [Hok' Hv]; [done|done|done|by rewrite Hkind|].
    split; [eexists; exact Hok'|]. split; [done|]. split; [done|]. rewrite <- Hk. exact Hv.
  - rewrite Hf. unfold add_context. rewrite strcpy_n_fits by done. rewrite (find_free _ _ Hok). rewrite (view_size _ _ Hok).
    destruct (length used <?n APN_CONTEXT_MAX) eqn:El; cbn [mbind option_bind]; [|by split; [exists used|]].
    set (c0 := ApnContext true _ _ _ _ _).
    assert (am_contexts mgr !! length used = Some apn_context_zero) as Hz.
    { rewrite (ao_contexts _ _ Hok), lookup_app_r by lia. rewrite Nat.sub_diag.
      apply lookup_replicate. split; [done|lia]. }
    pose proof (lookup_lt_Some _ _ _ Hz) as Hlen.
    cbn [set_field am_contexts]. rewrite list_lookup_total_insert_eq by done.
    rewrite list_insert_insert_eq. cbn [c0 set_field ac_id].
    pose proof (ao_next _ _ Hok) as Hnext. 
    pose (c := apn_entry mgr (am_next_id mgr) apn ip_type source).
    assert (c = apn_entry mgr (Z.of_nat (length used) + 1) apn ip_type source) as Hc
      by (by rewrite <- Hnext).
    destruct (append_ok mgr used c Hok) as [Hok' Hv]; [lia|done|by rewrite Hc|by rewrite Hc|by rewrite Hc|by rewrite Hc|].
    split; [eexists; exact Hok'|]. split; [done|]. split; [done|].
    rewrite Hnext, <- Hc. exact Hv.
Qed.

(** Updating keeps the table well formed. *)
Lemma apn_upsert_keeps mgr used apn ip_type source :
  apn_ok mgr used -> apn <> [] -> (length apn < APN_CONTEXT_APN_MAX)%nat ->
  exists used', apn_ok (apn_context_upsert mgr (Some apn) ip_type source).2 used'.
Proof.
  intros Hok Hne Hl. pose proof (upsert_refines mgr used apn ip_type source Hok Hne Hl) as H.
  destruct (apn_context_upsert _ _ _ _) as [[rc id] mgr']. by destruct H.
Qed.

(** A name that does not fit its array is never found. *)
Lemma find_by_apn_long mgr apn :
  Forall (fun c => length (ac_apn c) < APN_CONTEXT_APN_MAX)%nat (am_contexts mgr) ->
  (APN_CONTEXT_APN_MAX <= length apn)%nat -> find_by_apn mgr apn = None.
Proof.
  intros Hc Hl. unfold find_by_apn. destruct apn as [|a0 apn0] eqn:E; [done|]. rewrite <- E in *.
  unfold find_context. rewrite (proj2 (list_find_None _ _)); [done|].
  eapply Forall_impl; [exact Hc|]. cbn. intros c Hlen Hp. apply andb_prop in Hp as [_ Hp].
  apply strcaseeq_spec, (f_equal length) in Hp. rewrite !length_fmap in Hp. lia.
Qed.

Lemma upsert_long mgr used apn ip_type source :
  apn_ok mgr used -> (APN_CONTEXT_APN_MAX <= length apn)%nat ->
  let '(rc, id, mgr') := apn_context_upsert mgr (Some apn) ip_type source in
  find_by_apn mgr apn = None /\ find_by_apn mgr' apn = None
  /\ if (size (apn_view mgr) <?n APN_CONTEXT_MAX)
     then rc = 0 /\ id = Z.of_nat (size (apn_view mgr)) + 1
          /\ am_contexts mgr' = <[size (apn_view mgr) :=
               (apn_entry mgr id (take 63 apn) ip_type source)
                 <| ac_kind := (apn_context_classify mgr (Some apn)) |>]> (am_contexts mgr)
     else rc = -1 /\ mgr' = mgr.
Proof.
  intros Hok Hl. unfold apn_context_upsert. unfold APN_CONTEXT_APN_MAX in Hl.
  destruct apn as [|a0 apn0] eqn:Ea; [cbn in Hl; lia|]. rewrite <- Ea in *. clear Ea.
  assert (Forall (fun c => length (ac_apn c) < APN_CONTEXT_APN_MAX)%nat (am_contexts mgr)) as Hs.
  { rewrite (ao_contexts _ _ Hok). apply Forall_app. split.
    - eapply Forall_impl; [apply (ao_kind _ _ Hok)|]. by intros c [? _].
    - apply Forall_replicate. cbn. unfold APN_CONTEXT_APN_MAX. lia. }
  rewrite (find_by_apn_long mgr apn Hs Hl). unfold add_context. rewrite (find_free _ _ Hok), (view_size _ _ Hok).
  destruct (length used <?n APN_CONTEXT_MAX) eqn:El; cbn [mbind option_bind];
    [|by rewrite (find_by_apn_long mgr apn Hs Hl)].
  assert (length used < length (am_contexts mgr))%nat as Hlen.
  { rewrite (ao_contexts _ _ Hok), length_app, length_replicate. pose proof (ao_length _ _ Hok). lia. }
  cbn [set_field am_contexts]. rewrite list_lookup_total_insert_eq by done. rewrite list_insert_insert_eq.
  cbn [set_field ac_id]. split; [done|]. split.
  - apply find_by_apn_long; [|done]. cbn [set_field am_contexts]. apply Forall_insert; [exact Hs|].
    cbn [set_field ac_apn]. unfold APN_CONTEXT_APN_MAX. apply length_strcpy_n. lia.
  - split; [done|]. split; [exact (ao_next _ _ Hok)|]. rewrite (ao_next _ _ Hok). done.
Qed.

(** C20: [apn_context_upsert] is the insertion into a finite map of at most 16
    names of less than 64 characters, compared without case: a known name keeps
    its spelling and its identity and takes the new type and source; a new name
    gets the next identity; a full table refuses new names and does not change.
    The well-formedness of the table is kept.  A missing or empty name is refused.
    A name of 64 characters or more is not in the map: it is not found before the
    call nor after it, so each call takes a new entry, named by its first 63
    characters, until the table is full. *)
Theorem apn_upsert_refines mgr used apn ip_type source :
  apn_ok mgr used ->
  let '(rc, id, mgr') := apn_context_upsert mgr apn ip_type source in
  match apn with
  | None | Some [] => rc = -1 /\ mgr' = mgr
  | Some name =>
    let key := tolower <$> name in
    if (length name <?n APN_CONTEXT_APN_MAX) then
      (exists used', apn_ok mgr' used')
      /\ match apn_view mgr !! key with
         | Some c => rc = 0 /\ id = ac_id c
             /\ apn_view mgr' = <[key := apn_entry mgr id (ac_apn c) ip_type source]> (apn_view mgr)
         | None =>
           if (size (apn_view mgr) <?n APN_CONTEXT_MAX)
           then rc = 0 /\ id = Z.of_nat (size (apn_view mgr)) + 1
                /\ apn_view mgr' = <[key := apn_entry mgr id name ip_type source]> (apn_view mgr)
           else rc = -1 /\ mgr' = mgr
         end
    else
      find_by_apn mgr name = None /\ find_by_apn mgr' name = None
      /\ if (size (apn_view mgr) <?n APN_CONTEXT_MAX)
         then rc = 0 /\ id = Z.of_nat (size (apn_view mgr)) + 1
              /\ am_contexts mgr' = <[size (apn_view mgr) :=
                   (apn_entry mgr id (take 63 name) ip_type source)
                     <| ac_kind := (apn_context_classify mgr (Some name)) |>]> (am_contexts mgr)
         else rc = -1 /\ mgr' = mgr
  end.
Proof.
  intros Hok. destruct apn as [[|a name]|]; [done| |done]. set (apn := a :: name).
  destruct (length apn <?n APN_CONTEXT_APN_MAX) eqn:El.
  - apply (upsert_refines mgr used apn ip_type source Hok); [done|by apply Nat.ltb_lt].
  - apply (upsert_long mgr used apn ip_type source Hok). by apply Nat.ltb_ge.
Qed.

(** ** Searches *)

Section Search.
Context (mgr : apn_context_manager) (used : list apn_context).
Hypothesis Hok : apn_ok mgr used.
#[local] Set Default Proof Using "Type*".

Lemma find_context_some p :
  p apn_context_zero = false ->
  match find_context p mgr with
  | Some i => exists c, am_contexts mgr !! i = Some c /\ c ∈ used /\ p c = true
  | None => Forall (fun c => p c = false) used
  end.
Proof.
  intros Hz. rewrite (find_context_used mgr used Hok) by done.
  destruct (list_find _ used) as [[i c]|] eqn:E; cbn [fmap option_fmap option_map fst].
  - apply list_find_Some in E as (Hc & Hp & _). exists c. split; [|split; [by eapply list_elem_of_lookup_2|done]].
    rewrite (ao_contexts _ _ Hok). by apply lookup_app_l_Some.
  - apply list_find_None in E. eapply Forall_impl; [exact E|]. cbn. intros c Hc. by destruct (p c).
Qed.

(** There is an IMS context when IMS is enabled and the name "ims" known. *)
Lemma get_ims_view :
  is_Some (apn_context_get_ims mgr) <-> am_ims_enabled mgr = true /\ is_Some (apn_view mgr !! str "ims").
Proof.
  unfold apn_context_get_ims.
  pose proof (find_context_some (fun c => ac_used c && bool_decide (ac_kind c = APN_CONTEXT_IMS_INTERNAL))
                eq_refl) as H.
  assert (forall c, c ∈ used -> ac_kind c = APN_CONTEXT_IMS_INTERNAL
            <-> am_ims_enabled mgr = true /\ apn_key c = str "ims") as Hk.
  { intros c Hc. pose proof (ao_kind _ _ Hok) as Hf. rewrite Forall_forall in Hf.
    destruct (Hf c Hc) as [_ ->]. unfold apn_context_classify.
    destruct (am_ims_enabled mgr); cbn [andb]; [|by split; [|intros [? _]]].
    destruct (strcaseeq _ _) eqn:E.
    - apply strcaseeq_spec in E. split; [|done]. intros _. split; [done|]. exact E.
    - split; [done|]. intros [_ Hs]. exfalso.
      assert (strcaseeq (ac_apn c) (str "ims") = true) by (apply strcaseeq_spec; exact Hs). congruence. }
  destruct (find_context _ mgr) as [i|]; cbn [mbind option_bind].
  - destruct H as (c & Hi & Hc & Hp). rewrite Hi. apply andb_prop in Hp as [_ Hp].
    apply bool_decide_eq_true in Hp. apply Hk in Hp as [He Hs]; [|done].
    split; [|by eexists]. intros _. split; [done|]. exists c. by apply (view_lookup mgr used Hok).
  - split; [by intros [? ?]|]. intros [He [c Hv]]. apply (view_lookup mgr used Hok) in Hv as [Hc Hs].
    rewrite Forall_forall in H. specialize (H c Hc). pose proof (ao_used _ _ Hok) as Hu.
    rewrite Forall_forall in Hu. rewrite (Hu c Hc) in H. cbn [andb] in H.
    apply bool_decide_eq_false in H. destruct H. by apply Hk.
Qed.

(** An identity is that of one context. *)
Lemma get_by_id_view id c :
  apn_context_get_by_id mgr id = Some c <-> exists k, apn_view mgr !! k = Some c /\ ac_id c = id.
Proof.
  assert (forall d, d ∈ used -> 1 <= ac_id d) as Hpos.
  { intros d [i Hi]%list_elem_of_lookup. rewrite (ao_ids _ _ Hok _ _ Hi). lia. }
  assert (forall d e, d ∈ used -> e ∈ used -> ac_id d = ac_id e -> d = e) as Hinj.
  { intros d e [i Hi]%list_elem_of_lookup [j Hj]%list_elem_of_lookup He.
    rewrite (ao_ids _ _ Hok _ _ Hi), (ao_ids _ _ Hok _ _ Hj) in He.
    assert (i = j) as -> by lia. congruence. }
  unfold apn_context_get_by_id.
  pose proof (find_context_some (fun c => ac_used c && (ac_id c =? id))) as H. specialize (H eq_refl).
  split.
  - destruct (Z.eqb_spec id 0); [done|].
    destruct (find_context _ mgr) as [i|]; cbn [mbind option_bind]; [|done].
    destruct H as (d & Hi & Hd & Hp). rewrite Hi. intros [= ->]. exists (apn_key c).
    split; [by apply (view_lookup mgr used Hok)|]. apply andb_prop in Hp as [_ Hp]. lia.
  - intros (k & Hv & Hid). apply (view_lookup mgr used Hok) in Hv as [Hc _].
    pose proof (Hpos c Hc). replace (id =? 0) with false by lia.
    destruct (find_context _ mgr) as [i|]; cbn [mbind option_bind].
    + destruct H as (d & Hi & Hd & Hp). rewrite Hi. f_equal. apply andb_prop in Hp as [_ Hp].
      apply Hinj; [done|done|]. lia.
    + rewrite Forall_forall in H. specialize (H c Hc). pose proof (ao_used _ _ Hok) as Hu.
      rewrite Forall_forall in Hu. rewrite (Hu c Hc) in H. cbn [andb] in H. lia.
Qed.
End Search.

(** ** A table *)

#[local] Definition internet_context : apn_context :=
  ApnContext true 1 (str "internet") 1 APN_CONTEXT_SOURCE_INTERNAL APN_CONTEXT_HOST_DATA.
#[local] Definition internet_table : apn_context_manager :=
  (apn_context_upsert (apn_context_manager_init true) (Some (str "internet")) 0
     APN_CONTEXT_SOURCE_INTERNAL).2.

Lemma internet_table_ok : apn_ok internet_table [internet_context].
Proof.
  split; [done|vm_compute; lia|done|by repeat constructor| |repeat constructor|apply NoDup_singleton].
  - intros i c Hi. apply list_lookup_singleton_Some in Hi as [-> <-]. done.
Qed.

Lemma apn_upsert_refines_witness :
  let '(rc, id, mgr') :=
    apn_context_upsert internet_table (Some (str "IMS")) 3 APN_CONTEXT_SOURCE_HOST_CONNECT in
  rc = 0 /\ id = 2 /\ (exists used', apn_ok mgr' used')
  /\ apn_view mgr' !! str "ims"
     = Some (ApnContext true 2 (str "IMS") 3 APN_CONTEXT_SOURCE_HOST_CONNECT APN_CONTEXT_IMS_INTERNAL).
Proof.
  pose proof (apn_upsert_refines internet_table [internet_context] (Some (str "IMS")) 3
    APN_CONTEXT_SOURCE_HOST_CONNECT internet_table_ok) as H2.
  destruct (apn_context_upsert internet_table (Some (str "IMS")) 3 APN_CONTEXT_SOURCE_HOST_CONNECT)
    as [[rc id] m'] eqn:E2.
  cbv beta iota zeta in H2. change (length (str "IMS") <?n APN_CONTEXT_APN_MAX) with true in H2. cbv iota in H2.
  destruct H2 as [Hu H2].
  assert (apn_view internet_table !! (tolower <$> str "IMS") = None) as Hn by (vm_compute; reflexivity).
  assert (size (apn_view internet_table) = 1%nat) as Hs by (vm_compute; reflexivity).
  rewrite Hn, Hs in H2. destruct H2 as (-> & -> & ->).
  split; [done|]. split; [done|]. split; [done|].
  change (tolower <$> str "IMS") with (str "ims"). rewrite lookup_insert_eq. vm_compute. reflexivity.
Defined.
