(* ===== verification/StateBridge.v ===== *)
(** The bridge between the UE and the MBIM front end:
    [src/src/state_bridge/state_bridge.c].

    [g_default_bridge] is [None] while there is no bridge.  The IMS service is
    the interface [ImsService] on its state.  Each function is one step: the lock
    of the SMS queue makes the calls of the IMS thread steps too.  What a call
    takes from outside the program is the record [platform]. *)

From S2P Require Import Prelude CString InstanceConfig UeTypes UeMm UeSm RanTransport UserPlane UeContext EngineNas.
From S2P Require Import UeEngine ModemState Ring ApnContext.

#[local] Set Primitive Projections.

(** The clock, the random numbers of the transport's identity and the socket
    that opening it gives. *)
Record platform := Platform { pf_now_ms : Z; pf_r1 : Z; pf_r2 : Z; pf_fd : Z }.

(** The IMS service: [ims_service.h]. *)
Class ImsService (I : Type) := {
  ims_service_init : ue_instance_config -> option I;
  (** The C result, the reference on success, and the service. *)
  ims_service_submit_sms : bytes -> I -> Z * Z * I;
  ims_reference : forall pdu ims, 0 <= (ims_service_submit_sms pdu ims).1.2 < 2 ^ 32;
  ims_service_receive_ip : Z -> bytes -> I -> Z * I;
  ims_service_set_pdu_active : bool -> bytes -> bool -> bytes -> I -> I;
  ims_service_enabled : I -> bool;
  ims_service_registered : I -> bool }.

(** [enum mbim_bridge_indication]; [MBIM_BRIDGE_IND_NONE] is [None]. *)
Inductive mbim_bridge_indication :=
  MBIM_BRIDGE_IND_REGISTER_SEARCHING | MBIM_BRIDGE_IND_REGISTER_DEREGISTERED
| MBIM_BRIDGE_IND_REGISTER_HOME | MBIM_BRIDGE_IND_PACKET_ATTACHING
| MBIM_BRIDGE_IND_PACKET_ATTACHED | MBIM_BRIDGE_IND_PACKET_DETACHED.
#[export] Instance mbim_bridge_indication_eq_dec : EqDecision mbim_bridge_indication.
Proof. solve_decision. Defined.
#[export] Instance mbim_bridge_indication_inhabited : Inhabited mbim_bridge_indication :=
  populate MBIM_BRIDGE_IND_REGISTER_SEARCHING.

Definition BRIDGE_QUEUE_SIZE : nat := 16.
Definition SMS_DATA_MAX : nat := 512.
Definition ENODEV : Z := 19.

(** The [data] and [len] of a slot of the SMS queue are the first [len] bytes. *)
Record state_bridge (I : Type) := Bridge {
  sb_engine : ue_context;
  sb_ims : I;
  sb_apn_contexts : apn_context_manager;
  sb_prev : ue_engine_snapshot;
  sb_ind : ring mbim_bridge_indication;
  sb_sms : ring bytes }.
Arguments Bridge {I}.
Arguments sb_engine {I}.
Arguments sb_ims {I}.
Arguments sb_apn_contexts {I}.
Arguments sb_prev {I}.
Arguments sb_ind {I}.
Arguments sb_sms {I}.

(** ** The queue of indications *)

Definition ind_enqueue (ind : mbim_bridge_indication) (q : ring mbim_bridge_indication)
    : ring mbim_bridge_indication :=
  if rg_full BRIDGE_QUEUE_SIZE q then q else rg_put BRIDGE_QUEUE_SIZE ind q.

Definition ind_dequeue (q : ring mbim_bridge_indication)
    : option mbim_bridge_indication * ring mbim_bridge_indication :=
  if rg_empty q then (None, q) else (rg_peek q, rg_pop BRIDGE_QUEUE_SIZE id q).

(** The slot of the first entry equal to [target], the tail when there is none. *)
Fixpoint ind_find (fuel : nat) (q : ring mbim_bridge_indication) (idx : nat)
    (target : mbim_bridge_indication) : option nat :=
  match fuel with
  | O => None
  | S fuel =>
    if idx =?n rg_tail q then Some idx else
    ind ← rg_slots q !! idx;
    if decide (ind = target) then Some idx
    else ind_find fuel q (rg_next BRIDGE_QUEUE_SIZE idx) target
  end.

(** The entries after [cur] move down by one slot. *)
Fixpoint ind_shift (fuel : nat) (slots : list mbim_bridge_indication) (cur tail : nat)
    : option (list mbim_bridge_indication) :=
  match fuel with
  | O => None
  | S fuel =>
    if cur =?n tail then Some slots else
    let next := rg_next BRIDGE_QUEUE_SIZE cur in
    if next =?n tail then Some slots else
    ind ← slots !! next;
    ind_shift fuel (<[cur := ind]> slots) next tail
  end.

(** The loops stop within 16 rounds; [None] is the lack of fuel. *)
Definition ind_drop_first (target : mbim_bridge_indication) (q : ring mbim_bridge_indication)
    : option (ring mbim_bridge_indication) :=
  if rg_empty q then Some q else
  idx ← ind_find 17 q (rg_head q) target;
  if idx =?n rg_tail q then Some q else
  slots ← ind_shift 17 (rg_slots q) idx (rg_tail q);
  Some (Ring slots (rg_head q) ((rg_tail q + BRIDGE_QUEUE_SIZE - 1) mod BRIDGE_QUEUE_SIZE)).

(** ** The SMS queue *)

Definition sms_queue_push (pdu : option bytes) (q : ring bytes) : Z * ring bytes :=
  match pdu with
  | None | Some [] => (-1, q)
  | Some pdu =>
    if (SMS_DATA_MAX <?n length pdu) then (-1, q) else
    if rg_full BRIDGE_QUEUE_SIZE q then (-1, q) else (0, rg_put BRIDGE_QUEUE_SIZE pdu q)
  end.

Definition sms_queue_pop (out_cap : nat) (q : ring bytes) : option bytes * ring bytes :=
  if rg_empty q then (None, q) else
  match rg_peek q with
  | None => (None, q)
  | Some pdu => if (out_cap <?n length pdu) then (None, q)
                else (Some pdu, rg_pop BRIDGE_QUEUE_SIZE id q)
  end.

(** ** The modem state of a snapshot *)

(** The copy of an address, byte by byte. *)
Definition copy_ipv4 (a : bytes) : bytes := [a !!! 0%nat; a !!! 1%nat; a !!! 2%nat; a !!! 3%nat].

Definition publish_snapshot (snap : ue_engine_snapshot) : modem_state :=
  let active := bool_decide (ss_sm_state snap = UE_SM_ACTIVE) in
  let home := bool_decide (ss_mm_state snap = UE_MM_REGISTERED_HOME) in
  {| ms_sim_ready := ss_sim_ready snap; ms_radio_hw_on := true;
     ms_radio_sw_on := ss_radio_on snap;
     ms_registered_home := home; ms_packet_attached := active;
     ms_serving_connected := home; ms_connect_activated := active;
     ms_connect_session_id := u32 (ss_session_id snap);
     ms_apn := strcpy_n 64 (ss_active_dnn snap);
     ms_identity := ModemIdentity (strcpy_n 32 (ss_imei snap)) (strcpy_n 32 (ss_imsi snap))
       (strcpy_n 40 (ss_iccid snap)) (strcpy_n 64 (ss_manufacturer snap))
       (strcpy_n 64 (ss_model snap)) (strcpy_n 64 (ss_firmware snap))
       (strcpy_n 64 (ss_serial snap));
     ms_oper := ModemOperator (strcpy_n 16 (ss_plmn snap)) (strcpy_n 64 (ss_operator_name snap));
     ms_ip := ModemIp (copy_ipv4 (ip_ipv4_addr (ss_ip snap))) (copy_ipv4 (ip_ipv4_gw (ss_ip snap)))
                (copy_ipv4 (ip_dns1 (ss_ip snap))) (u32 (ip_mtu (ss_ip snap))) |}.

(** The indications of a change from [prev] to [snap]. *)
Definition queue_transitions (prev snap : ue_engine_snapshot) (q : ring mbim_bridge_indication)
    : option (ring mbim_bridge_indication) :=
  let was_home := bool_decide (ss_mm_state prev = UE_MM_REGISTERED_HOME) in
  let home := bool_decide (ss_mm_state snap = UE_MM_REGISTERED_HOME) in
  let was_establishing := bool_decide (ss_sm_state prev = UE_SM_ESTABLISHING) in
  let establishing := bool_decide (ss_sm_state snap = UE_SM_ESTABLISHING) in
  let was_active := bool_decide (ss_sm_state prev = UE_SM_ACTIVE) in
  let active := bool_decide (ss_sm_state snap = UE_SM_ACTIVE) in
  let q := if negb was_home && home then ind_enqueue MBIM_BRIDGE_IND_REGISTER_HOME q else q in
  let q := if was_home && negb home
           then ind_enqueue MBIM_BRIDGE_IND_REGISTER_DEREGISTERED q else q in
  let q := if negb was_establishing && establishing
           then ind_enqueue MBIM_BRIDGE_IND_PACKET_ATTACHING q else q in
  q ← (if negb was_active && active
       then q ← ind_drop_first MBIM_BRIDGE_IND_PACKET_ATTACHING q;
            Some (ind_enqueue MBIM_BRIDGE_IND_PACKET_ATTACHED q)
       else Some q);
  if was_active && negb active
  then q ← ind_drop_first MBIM_BRIDGE_IND_PACKET_ATTACHING q;
       Some (ind_enqueue MBIM_BRIDGE_IND_PACKET_DETACHED q)
  else Some q.

(** ** The calls *)

Section Bridge.
Variable sendto : nat -> sockaddr -> bytes -> Z.
(** The bound of the engine's loop over received PDUs. *)
Variable fuel : nat.
Context {I : Type} `{ImsService I}.
Implicit Types (g : option (state_bridge I)) (b : state_bridge I) (pf : platform).

(** The bridge, [None] when the C function returns -1.  The transport starts
    with the log [trace] and the RRC decoder's buffer [copy]. *)
Definition state_bridge_init_with_config (cfg : ue_instance_config) pf
    (trace : list (sockaddr * bytes)) (copy : bytes) : option (state_bridge I) :=
  let '(_, engine) := ue_engine_init cfg 1 (pf_r1 pf) (pf_r2 pf) trace copy in
  let enabled := ims_enabled (cfg_ims cfg) in
  let mgr := apn_context_manager_init enabled in
  let '(_, _, mgr) := apn_context_upsert mgr (Some (net_dnn (cfg_network cfg)))
                        APN_CONTEXT_IP_TYPE_IPV4 APN_CONTEXT_SOURCE_INTERNAL in
  let '(_, _, mgr) := if enabled : bool
                      then apn_context_upsert mgr (Some (str "ims"))
                             APN_CONTEXT_IP_TYPE_IPV4 APN_CONTEXT_SOURCE_INTERNAL
                      else (0, 0, mgr) in
  ims ← ims_service_init cfg;
  let engine := ue_engine_start engine in
  Some (Bridge engine ims mgr (uc_snapshot engine)
          (rg_new BRIDGE_QUEUE_SIZE MBIM_BRIDGE_IND_REGISTER_SEARCHING)
          (rg_new BRIDGE_QUEUE_SIZE [])).

(** A bridge that exists is kept. *)
Definition state_bridge_init_default_with_config g (cfg : ue_instance_config) pf trace copy
    : Z * option (state_bridge I) :=
  match g with
  | Some b => (0, Some b)
  | None => match state_bridge_init_with_config cfg pf trace copy with
            | Some b => (0, Some b)
            | None => (-1, None)
            end
  end.

Definition bridge_has_ims_context b : bool :=
  match apn_context_get_ims (sb_apn_contexts b) with Some _ => true | None => false end.
Definition state_bridge_has_ims_context g : bool :=
  match g with Some b => bridge_has_ims_context b | None => false end.

(** The request for the IMS session, once registered. *)
Definition bridge_request_ims b : option (state_bridge I) :=
  if bool_decide (ss_mm_state (uc_snapshot (sb_engine b)) = UE_MM_REGISTERED_HOME)
     && bridge_has_ims_context b && negb (uc_ims_pdu_requested (sb_engine b))
  then '(_, engine) ← ue_engine_request_ims_pdu sendto (sb_engine b);
       Some (b <| sb_engine := engine |>)
  else Some b.

Definition bridge_inform_ims b : state_bridge I :=
  let engine := sb_engine b in
  b <| sb_ims := (ims_service_set_pdu_active (uc_ims_pdu_active engine)
         (ip_ipv4_addr (uc_ims_ip engine)) (uc_ims_has_pcscf engine)
         (uc_ims_pcscf_ipv4 engine) (sb_ims b)) |>.

Definition bridge_tell b : option (state_bridge I) :=
  let snap := uc_snapshot (sb_engine b) in
  ind ← queue_transitions (sb_prev b) snap (sb_ind b);
  Some (b <| sb_ind := ind |> <| sb_prev := snap |>).

(** [snap] points into the engine: what is read through it is the snapshot of
    the moment. *)
Definition bridge_poll b (ms : modem_state) pf : option (Z * state_bridge I * modem_state) :=
  '(rc, engine) ← ue_engine_tick sendto fuel (sb_engine b) (pf_r1 pf) (pf_r2 pf) (pf_now_ms pf);
  let b := b <| sb_engine := engine |> in
  if rc <? 0 then Some (-1, b, ms) else
  let ms := publish_snapshot (uc_snapshot (sb_engine b)) in
  b ← bridge_request_ims b;
  b ← bridge_tell (bridge_inform_ims b);
  Some (0, b, ms).

Definition state_bridge_poll g ms pf : option (Z * option (state_bridge I) * modem_state) :=
  match g with
  | None => Some (- ENODEV, None, ms)
  | Some b => '(rc, b, ms) ← bridge_poll b ms pf; Some (rc, Some b, ms)
  end.

(** The requests of the host. *)
Definition state_bridge_set_radio g (on : bool) pf : option (Z * option (state_bridge I)) :=
  match g with
  | None => Some (- ENODEV, None)
  | Some b => engine ← ue_engine_set_radio sendto (sb_engine b) on (pf_r1 pf) (pf_r2 pf) (pf_fd pf);
              Some (0, Some (b <| sb_engine := engine |>))
  end.

Definition state_bridge_request_register g : Z * option (state_bridge I) :=
  match g with
  | None => (- ENODEV, None)
  | Some b => let b := b <| sb_ind := (ind_enqueue MBIM_BRIDGE_IND_REGISTER_SEARCHING (sb_ind b)) |> in
              (0, Some (b <| sb_engine := (ue_engine_request_register (sb_engine b)) |>))
  end.

Definition state_bridge_request_connect g (apn : option bytes) pf
    : option (Z * option (state_bridge I)) :=
  match g with
  | None => Some (- ENODEV, None)
  | Some b =>
    let engine := sb_engine b in
    engine ← (if negb (ss_radio_on (uc_snapshot engine))
              then engine ← ue_engine_set_radio sendto engine true (pf_r1 pf) (pf_r2 pf) (pf_fd pf);
                   Some (ue_engine_request_register engine)
              else Some engine);
    Some (0, Some (b <| sb_engine := (ue_engine_request_connect engine apn) |>))
  end.

(** The session is released, then the radio is switched off. *)
Definition state_bridge_request_disconnect g pf : option (Z * option (state_bridge I)) :=
  match g with
  | None => Some (- ENODEV, None)
  | Some b =>
    engine ← ue_engine_set_radio sendto (ue_engine_request_disconnect (sb_engine b)) false
               (pf_r1 pf) (pf_r2 pf) (pf_fd pf);
    Some (0, Some (b <| sb_engine := engine |>))
  end.

Definition state_bridge_next_indication g
    : option mbim_bridge_indication * option (state_bridge I) :=
  match g with
  | None => (None, None)
  | Some b => let '(ind, q) := ind_dequeue (sb_ind b) in (ind, Some (b <| sb_ind := q |>))
  end.

Definition state_bridge_has_pending_indication g : bool :=
  match g with None => false | Some b => negb (rg_empty (sb_ind b)) end.

(** ** SMS over IMS *)

Definition state_bridge_send_sms_ims g (sms_pdu : bytes) : Z * Z * option (state_bridge I) :=
  match g with
  | None => (- ENODEV, 0, None)
  | Some b => let '(rc, reference, ims) := ims_service_submit_sms sms_pdu (sb_ims b) in
              (rc, reference, Some (b <| sb_ims := ims |>))
  end.

Definition bridge_sms_downlink_cb (pdu : option bytes) b : Z * state_bridge I :=
  let '(rc, q) := sms_queue_push pdu (sb_sms b) in (rc, b <| sb_sms := q |>).

Definition bridge_ims_ip_uplink_cb (packet : bytes) b : option (Z * state_bridge I) :=
  '(rc, engine) ← ue_engine_inject_ims_ip sendto (sb_engine b) packet;
  Some (rc, b <| sb_engine := engine |>).

Definition state_bridge_has_pending_sms g : bool :=
  match g with None => false | Some b => negb (rg_empty (sb_sms b)) end.

Definition state_bridge_pop_sms g (out_cap : nat) : option bytes * option (state_bridge I) :=
  match g with
  | None => (None, None)
  | Some b => let '(pdu, q) := sms_queue_pop out_cap (sb_sms b) in (pdu, Some (b <| sb_sms := q |>))
  end.

Definition state_bridge_upsert_apn_context g (apn : option bytes) (ip_type : Z)
    (source : apn_context_source) : Z * Z * option (state_bridge I) :=
  match g with
  | None => (- ENODEV, 0, None)
  | Some b => let '(rc, id, mgr) := apn_context_upsert (sb_apn_contexts b) apn ip_type source in
              (rc, id, Some (b <| sb_apn_contexts := mgr |>))
  end.

Definition state_bridge_sms_enabled g : bool :=
  match g with None => false | Some b => sms_enabled (cfg_sms (uc_cfg (sb_engine b))) end.
Definition state_bridge_sms_transport g : ue_sms_transport_mode :=
  match g with
  | None => UE_SMS_TRANSPORT_AUTO
  | Some b => sms_transport (cfg_sms (uc_cfg (sb_engine b)))
  end.
Definition state_bridge_ims_enabled g : bool :=
  match g with None => false | Some b => ims_service_enabled (sb_ims b) end.
Definition state_bridge_ims_registered g : bool :=
  match g with None => false | Some b => ims_service_registered (sb_ims b) end.

(** [ue_context_drain_downlink] runs on the transport's thread; the packets of
    the IMS session go to the IMS service, those of the host's to [dl_cb], the
    callback of [state_bridge_set_downlink_callback].  [H] is the state of that
    callback. *)
Definition bridge_ims_ip_downlink_cb {H} (psi : Z) (data : bytes) (h : I * H) : Z * (I * H) :=
  let '(rc, ims) := ims_service_receive_ip psi data h.1 in (rc, (ims, h.2)).

Definition bridge_dl_adapter {H} (dl_cb : option (Z -> bytes -> H -> Z * H))
    (psi : Z) (data : bytes) (h : I * H) : Z * (I * H) :=
  match dl_cb with
  | Some cb => let '(rc, h2) := cb psi data h.2 in (rc, (h.1, h2))
  | None => (-1, h)
  end.

#[local] Instance bridge_link : DataLink ue_ran_transport_ctx := ran_data_link sendto.

Definition bridge_drain_downlink {H} (dl_cb : option (Z -> bytes -> H -> Z * H)) b (h : H)
    : option (state_bridge I * H) :=
  '(engine, (ims, h)) ← ue_context_drain_downlink (bridge_dl_adapter dl_cb)
                          bridge_ims_ip_downlink_cb fuel (sb_engine b) (sb_ims b, h);
  Some (b <| sb_engine := engine |> <| sb_ims := ims |>, h).
End Bridge.

(** ** The queues as lists *)

Lemma ind_enqueue_items ind q :
  rg_ok BRIDGE_QUEUE_SIZE q ->
  rg_ok BRIDGE_QUEUE_SIZE (ind_enqueue ind q)
  /\ rg_items BRIDGE_QUEUE_SIZE (ind_enqueue ind q)
     = if (length (rg_items BRIDGE_QUEUE_SIZE q) <?n 15) then rg_items BRIDGE_QUEUE_SIZE q ++ [ind]
       else rg_items BRIDGE_QUEUE_SIZE q.
Proof.
  intros Hok. unfold ind_enqueue. pose proof (rg_full_items BRIDGE_QUEUE_SIZE q Hok) as Hf.
  pose proof (rg_count_lt BRIDGE_QUEUE_SIZE q Hok) as Hc. pose proof (rg_length BRIDGE_QUEUE_SIZE q) as Hl.
  unfold BRIDGE_QUEUE_SIZE in Hf, Hc, Hl |- *.
  destruct (rg_full 16 q) eqn:Ef.
  - pose proof (proj1 Hf eq_refl) as Hn. replace (_ <?n 15) with false by lia. by split.
  - replace (_ <?n 15) with true; [by apply rg_put_items|]. symmetry. apply Nat.ltb_lt.
    assert (S (length (rg_items 16 q)) <> 16)%nat by (intros E; apply Hf in E; congruence). lia.
Qed.

Lemma ind_dequeue_items q :
  rg_ok BRIDGE_QUEUE_SIZE q ->
  rg_ok BRIDGE_QUEUE_SIZE (ind_dequeue q).2
  /\ match rg_items BRIDGE_QUEUE_SIZE q with
     | [] => ind_dequeue q = (None, q)
     | x :: l => (ind_dequeue q).1 = Some x /\ rg_items BRIDGE_QUEUE_SIZE (ind_dequeue q).2 = l
     end.
Proof.
  intros Hok. unfold ind_dequeue. pose proof (rg_empty_items BRIDGE_QUEUE_SIZE q Hok) as He.
  destruct (rg_empty q) eqn:Ee.
  - by rewrite (proj1 He eq_refl).
  - destruct (rg_items BRIDGE_QUEUE_SIZE q) as [|x l] eqn:E; [by discriminate (proj2 He eq_refl)|].
    destruct (rg_pop_items BRIDGE_QUEUE_SIZE id x l q Hok E) as (Hp & Hok' & Hi). by split_and!.
Qed.

(** The search visits the entries from the [k]th on. *)
Lemma ind_find_items target q fuel k :
  rg_ok BRIDGE_QUEUE_SIZE q -> (k <= rg_count BRIDGE_QUEUE_SIZE q)%nat ->
  (rg_count BRIDGE_QUEUE_SIZE q - k < fuel)%nat ->
  match list_find (fun i => i = target) (drop k (rg_items BRIDGE_QUEUE_SIZE q)) with
  | Some (j, _) => (k + j < rg_count BRIDGE_QUEUE_SIZE q)%nat
      /\ ind_find fuel q (rg_at BRIDGE_QUEUE_SIZE q k) target = Some (rg_at BRIDGE_QUEUE_SIZE q (k + j))
  | None => ind_find fuel q (rg_at BRIDGE_QUEUE_SIZE q k) target = Some (rg_tail q)
  end.
Proof.
  intros Hok. revert k. unfold BRIDGE_QUEUE_SIZE in *. pose proof Hok as [Hs Hh Ht].
  pose proof (rg_length 16 q) as Hl. pose proof (rg_count_lt 16 q Hok) as Hc.
  induction fuel as [|fuel IH]; intros k Hk Hf; [lia|]. cbn [ind_find].  unfold BRIDGE_QUEUE_SIZE.
  destruct (Nat.eq_dec k (rg_count 16 q)) as [->|Hne].
  - rewrite drop_ge by lia. cbn [list_find].
    replace (rg_at 16 q (rg_count 16 q)) with (rg_tail q) by (revert Hh Ht; clear; intros; ring_arith).
    by rewrite Nat.eqb_refl.
  - assert (k < rg_count 16 q)%nat as Hk' by lia.
    replace (rg_at 16 q k =?n rg_tail q) with false
      by (symmetry; apply Nat.eqb_neq; revert Hk' Hh Ht; clear; intros; ring_arith).
    rewrite <- (rg_lookup 16 q k Hok Hk').
    destruct (lookup_lt_is_Some_2 (rg_items 16 q) k) as [x Hx]; [lia|]. rewrite Hx. ob.
    rewrite (drop_S _ _ _ Hx). cbn [list_find]. destruct (decide (x = target)).
    + rewrite Nat.add_0_r. by split.
    + replace (rg_next 16 (rg_at 16 q k)) with (rg_at 16 q (S k))
        by (revert Hk' Hh Ht; clear; intros; ring_arith).
      specialize (IH (S k) ltac:(lia) ltac:(lia)).
      destruct (list_find _ (drop (S k) _)) as [[j y]|]; cbn [fmap option_fmap option_map prod_map fst snd id]; [|exact IH].
      replace (k + S j)%nat with (S k + j)%nat by lia. exact IH.
Qed.

(** The shift from the [k]th entry leaves its successors one place lower. *)
Lemma ind_shift_items q fuel k :
  rg_ok BRIDGE_QUEUE_SIZE q -> (k < rg_count BRIDGE_QUEUE_SIZE q)%nat ->
  (rg_count BRIDGE_QUEUE_SIZE q - k < fuel)%nat ->
  exists slots, ind_shift fuel (rg_slots q) (rg_at BRIDGE_QUEUE_SIZE q k) (rg_tail q) = Some slots
  /\ rg_ok BRIDGE_QUEUE_SIZE (Ring slots (rg_head q) (rg_tail q))
  /\ take (rg_count BRIDGE_QUEUE_SIZE q - 1) (rg_items BRIDGE_QUEUE_SIZE (Ring slots (rg_head q) (rg_tail q)))
     = take k (rg_items BRIDGE_QUEUE_SIZE q) ++ drop (S k) (rg_items BRIDGE_QUEUE_SIZE q).
Proof.
  unfold BRIDGE_QUEUE_SIZE. revert q k. induction fuel as [|fuel IH]; intros q k Hok Hk Hf; [lia|].
  pose proof Hok as [Hs Hh Ht]. pose proof (rg_length 16 q) as Hl. pose proof (rg_count_lt 16 q Hok) as Hc.
  cbn [ind_shift]. unfold BRIDGE_QUEUE_SIZE.
  replace (rg_at 16 q k =?n rg_tail q) with false
    by (symmetry; apply Nat.eqb_neq; revert Hk Hh Ht; clear; intros; ring_arith).
  replace (rg_next 16 (rg_at 16 q k)) with (rg_at 16 q (S k)) by (revert Hk Hh Ht; clear; intros; ring_arith).
  destruct (Nat.eq_dec (S k) (rg_count 16 q)) as [E|E].
  - replace (rg_at 16 q (S k)) with (rg_tail q) by (revert E Hh Ht; clear; intros; ring_arith).
    rewrite Nat.eqb_refl. exists (rg_slots q). split; [done|]. split; [by split|].
    rewrite (drop_ge _ (S k)) by lia. rewrite app_nil_r.
    replace (rg_count 16 q - 1)%nat with k by lia. done.
  - replace (rg_at 16 q (S k) =?n rg_tail q) with false
      by (symmetry; apply Nat.eqb_neq; revert E Hk Hh Ht; clear; intros; ring_arith).
    rewrite <- (rg_lookup 16 q (S k) Hok ltac:(lia)).
    destruct (lookup_lt_is_Some_2 (rg_items 16 q) (S k)) as [x Hx]; [lia|]. rewrite Hx. ob.
    destruct (rg_insert_items 16 x k q Hok Hk) as [Hok' Hi]. set (q' := Ring _ _ _) in *.
    destruct (IH q' (S k) Hok' ltac:(change (rg_count 16 q') with (rg_count 16 q); lia)
                ltac:(change (rg_count 16 q') with (rg_count 16 q); lia)) as (slots & E1 & E2 & E3).
    exists slots. split; [exact E1|]. split; [exact E2|].
    change (rg_count 16 q') with (rg_count 16 q) in E3. cbn [q' rg_head rg_tail] in E3. rewrite E3, Hi.
    rewrite (take_S_r _ _ x) by (apply list_lookup_insert_eq; lia).
    rewrite take_insert_ge by lia. rewrite drop_insert_lt by lia. rewrite <- app_assoc. f_equal.
    by rewrite (drop_S _ _ _ Hx).
Qed.

(** [ind_drop_first] takes the first entry equal to the target out. *)
Fixpoint remove_first (target : mbim_bridge_indication) (l : list mbim_bridge_indication) :=
  match l with
  | [] => []
  | x :: l => if decide (x = target) then l else x :: remove_first target l
  end.

Lemma remove_first_find target l :
  remove_first target l = match list_find (fun i => i = target) l with
                          | Some (j, _) => take j l ++ drop (S j) l
                          | None => l
                          end.
Proof.
  induction l as [|x l IH]; [done|]. cbn [remove_first list_find]. destruct (decide (x = target)); [done|].
  rewrite IH. by destruct (list_find _ l) as [[j y]|].
Qed.

Lemma ind_drop_first_items target q :
  rg_ok BRIDGE_QUEUE_SIZE q ->
  exists q', ind_drop_first target q = Some q' /\ rg_ok BRIDGE_QUEUE_SIZE q'
  /\ rg_items BRIDGE_QUEUE_SIZE q' = remove_first target (rg_items BRIDGE_QUEUE_SIZE q).
Proof.
  intros Hok. unfold ind_drop_first. pose proof (rg_empty_items _ q Hok) as He.
  destruct (rg_empty q) eqn:Ee; [exists q; split; [done|]; split; [done|]; by rewrite (proj1 He eq_refl)|].
  pose proof (rg_count_lt _ q Hok) as Hc.
  pose proof (ind_find_items target q 17 0 Hok ltac:(lia) ltac:(unfold BRIDGE_QUEUE_SIZE in *; lia)) as Hfind.
  pose proof Hok as [Hs Hh Ht]. rewrite drop_0 in Hfind.
  assert (rg_at BRIDGE_QUEUE_SIZE q 0 = rg_head q) as E0
    by (unfold BRIDGE_QUEUE_SIZE in *; clear -Hh; ring_arith).
  rewrite E0 in Hfind. rewrite remove_first_find.
  destruct (list_find _ (rg_items _ q)) as [[j y]|].
  - destruct Hfind as [Hj Hfind]. rewrite Nat.add_0_l in Hj, Hfind. rewrite Hfind. ob.
    replace (rg_at BRIDGE_QUEUE_SIZE q j =?n rg_tail q) with false
      by (symmetry; apply Nat.eqb_neq; unfold BRIDGE_QUEUE_SIZE in *; revert Hj Hh Ht; clear; intros; ring_arith).
    destruct (ind_shift_items q 17 j Hok Hj ltac:(unfold BRIDGE_QUEUE_SIZE in *; lia)) as (slots & -> & Hok' & Hi).
    ob. destruct (rg_unput_items BRIDGE_QUEUE_SIZE (Ring slots (rg_head q) (rg_tail q)) Hok'
      ltac:(change (0 < rg_count BRIDGE_QUEUE_SIZE q)%nat; lia)) as [Hok2 Hi2].
    eexists. split; [reflexivity|]. split; [exact Hok2|]. cbn [rg_slots rg_head rg_tail] in Hi2.
    rewrite Hi2. exact Hi.
  - rewrite Hfind. ob. rewrite Nat.eqb_refl. exists q. done.
Qed.
