(* ===== verification/BridgeReach.v ===== *)
(** The bridge in the running program: every call returns and keeps the bridge
    well formed, and the host, if it takes its indications in time, is told of
    every change of the registration and of the session.

    [bridge_call] lists the calls of [state_bridge.h], those of the IMS thread,
    and any call of the engine by the threads of the transport and of the data
    path. *)

From S2P Require Import Prelude CString InstanceConfig NasEncode NasSecurity Rrc RanTransport RanLink UeTypes UeMm UeSm UserPlane UeContext EngineNas.
From S2P Require Import UeEngine EngineSafe EngineReach ModemState Ring ApnContext StateBridge.

Inductive bridge_call :=
| BPoll (pf : platform) | BSetRadio (on : bool) (pf : platform) | BRegister
| BConnect (apn : option bytes) (pf : platform) | BDisconnect (pf : platform)
| BUpsertApn (apn : option bytes) (ip_type : Z) (source : apn_context_source)
| BSendSms (pdu : bytes) | BSmsDownlink (pdu : option bytes) | BPopSms (out_cap : nat)
| BEngine (c : engine_call).

(** A name fits its array; what the engine asks of its calls. *)
Definition bridge_call_ok (c : bridge_call) : Prop :=
  match c with
  | BPoll pf => 0 <= pf_now_ms pf < 2 ^ 63
  | BUpsertApn (Some apn) _ _ => (length apn < APN_CONTEXT_APN_MAX)%nat
  | BEngine c => call_ok c
  | _ => True
  end.

Record bridge_ok {I} (b : state_bridge I) : Prop := {
  bo_engine : engine_ok (sb_engine b);
  bo_apn : exists used, apn_ok (sb_apn_contexts b) used;
  bo_ind : rg_ok BRIDGE_QUEUE_SIZE (sb_ind b);
  bo_sms : rg_ok BRIDGE_QUEUE_SIZE (sb_sms b);
  bo_pdus : Forall (fun p => 0 < length p <= SMS_DATA_MAX)%nat (rg_items BRIDGE_QUEUE_SIZE (sb_sms b)) }.

(** The queued indications. *)
Definition ind_items {I} (b : state_bridge I) : list mbim_bridge_indication :=
  rg_items BRIDGE_QUEUE_SIZE (sb_ind b).

(** ** The indications of a poll *)

Definition spec_enqueue (ind : mbim_bridge_indication) (l : list mbim_bridge_indication) :=
  if (length l <?n 15) then l ++ [ind] else l.

Definition spec_transitions (prev snap : ue_engine_snapshot) (l : list mbim_bridge_indication)
    : list mbim_bridge_indication :=
  let was_home := bool_decide (ss_mm_state prev = UE_MM_REGISTERED_HOME) in
  let home := bool_decide (ss_mm_state snap = UE_MM_REGISTERED_HOME) in
  let was_establishing := bool_decide (ss_sm_state prev = UE_SM_ESTABLISHING) in
  let establishing := bool_decide (ss_sm_state snap = UE_SM_ESTABLISHING) in
  let was_active := bool_decide (ss_sm_state prev = UE_SM_ACTIVE) in
  let active := bool_decide (ss_sm_state snap = UE_SM_ACTIVE) in
  let l := if negb was_home && home then spec_enqueue MBIM_BRIDGE_IND_REGISTER_HOME l else l in
  let l := if was_home && negb home then spec_enqueue MBIM_BRIDGE_IND_REGISTER_DEREGISTERED l else l in
  let l := if negb was_establishing && establishing
           then spec_enqueue MBIM_BRIDGE_IND_PACKET_ATTACHING l else l in
  let l := if negb was_active && active
           then spec_enqueue MBIM_BRIDGE_IND_PACKET_ATTACHED (remove_first MBIM_BRIDGE_IND_PACKET_ATTACHING l)
           else l in
  if was_active && negb active
  then spec_enqueue MBIM_BRIDGE_IND_PACKET_DETACHED (remove_first MBIM_BRIDGE_IND_PACKET_ATTACHING l)
  else l.

Lemma queue_transitions_spec prev snap q :
  rg_ok BRIDGE_QUEUE_SIZE q ->
  exists q', queue_transitions prev snap q = Some q' /\ rg_ok BRIDGE_QUEUE_SIZE q'
  /\ rg_items BRIDGE_QUEUE_SIZE q' = spec_transitions prev snap (rg_items BRIDGE_QUEUE_SIZE q).
Proof.
  intros Hok. unfold queue_transitions, spec_transitions. cbv zeta.
  assert (forall (c : bool) ind q, rg_ok BRIDGE_QUEUE_SIZE q ->
    rg_ok BRIDGE_QUEUE_SIZE (if c then ind_enqueue ind q else q)
    /\ rg_items BRIDGE_QUEUE_SIZE (if c then ind_enqueue ind q else q)
       = if c then spec_enqueue ind (rg_items BRIDGE_QUEUE_SIZE q) else rg_items BRIDGE_QUEUE_SIZE q) as Henq
    by (intros [] ind p Hp; [by apply ind_enqueue_items|done]).
  assert (forall (c : bool) ind q, rg_ok BRIDGE_QUEUE_SIZE q ->
    exists q', (if c then q ← ind_drop_first MBIM_BRIDGE_IND_PACKET_ATTACHING q; Some (ind_enqueue ind q)
                else Some q) = Some q'
    /\ rg_ok BRIDGE_QUEUE_SIZE q'
    /\ rg_items BRIDGE_QUEUE_SIZE q'
       = if c then spec_enqueue ind (remove_first MBIM_BRIDGE_IND_PACKET_ATTACHING (rg_items BRIDGE_QUEUE_SIZE q))
         else rg_items BRIDGE_QUEUE_SIZE q) as Hdrop.
  { intros [] ind p Hp; [|by exists p].
    destruct (ind_drop_first_items MBIM_BRIDGE_IND_PACKET_ATTACHING p Hp) as (p' & -> & Hp' & Hi). ob.
    destruct (ind_enqueue_items ind p' Hp') as [Ho He]. eexists. split; [done|]. split; [done|].
    by rewrite He, Hi. }
  repeat match goal with |- context [if ?c then ind_enqueue ?i ?p else ?p] =>
    lazymatch p with context [if _ then _ else _] => fail | _ => idtac end;
    let Ho := fresh "Ho" in let Hi := fresh "Hi" in
    assert (rg_ok BRIDGE_QUEUE_SIZE p) as Ho by eassumption;
    destruct (Henq c i p Ho) as [? Hi]; rewrite <- Hi; clear Hi;
    generalize dependent (if c then ind_enqueue i p else p); intros end.
  match goal with |- context [if ?c then _ ← ind_drop_first _ ?p; Some (ind_enqueue ?i _) else _] =>
    destruct (Hdrop c i p ltac:(eassumption)) as (q1 & E1 & Hq1 & I1) end.
  rewrite E1. ob. rewrite <- I1.
  match goal with |- context [if ?c then _ ← ind_drop_first _ ?p; Some (ind_enqueue ?i _) else _] =>
    destruct (Hdrop c i p ltac:(eassumption)) as (q2 & E2 & Hq2 & I2) end.
  exists q2. by rewrite E2.
Qed.

(** ** What the host believes *)

(** The session state of a host that follows the indications. *)
Definition hear_packet (attached : bool) (ind : mbim_bridge_indication) : bool :=
  match ind with
  | MBIM_BRIDGE_IND_PACKET_ATTACHED => true
  | MBIM_BRIDGE_IND_PACKET_ATTACHING | MBIM_BRIDGE_IND_PACKET_DETACHED => false
  | _ => attached
  end.
(** Its registration state; SEARCHING answers the host's own request. *)
Definition hear_register (home : bool) (ind : mbim_bridge_indication) : bool :=
  match ind with
  | MBIM_BRIDGE_IND_REGISTER_HOME => true
  | MBIM_BRIDGE_IND_REGISTER_DEREGISTERED => false
  | _ => home
  end.
Definition packet_view : list mbim_bridge_indication -> bool := foldl hear_packet false.
Definition register_view : list mbim_bridge_indication -> bool := foldl hear_register false.

Lemma register_view_remove target l :
  target = MBIM_BRIDGE_IND_PACKET_ATTACHING ->
  forall v, foldl hear_register v (remove_first target l) = foldl hear_register v l.
Proof.
  intros ->. induction l as [|x l IH]; intros v; cbn [remove_first foldl]; [done|].
  destruct (decide _) as [->|]; cbn [foldl]; auto.
Qed.

Lemma length_remove_first target l : (length (remove_first target l) <= length l)%nat.
Proof. induction l as [|x l IH]; cbn; [lia|]. destruct (decide _); cbn; lia. Qed.

(** With room for three more, a poll brings both views up to date. *)
Lemma transitions_view prev snap l heard :
  (length l <= 12)%nat ->
  packet_view (heard ++ l) = bool_decide (ss_sm_state prev = UE_SM_ACTIVE) ->
  register_view (heard ++ l) = bool_decide (ss_mm_state prev = UE_MM_REGISTERED_HOME) ->
  packet_view (heard ++ spec_transitions prev snap l) = bool_decide (ss_sm_state snap = UE_SM_ACTIVE)
  /\ register_view (heard ++ spec_transitions prev snap l)
     = bool_decide (ss_mm_state snap = UE_MM_REGISTERED_HOME).
Proof.
  intros Hl. unfold packet_view, register_view. rewrite !foldl_app.
  set (p0 := foldl hear_packet false heard). set (r0 := foldl hear_register false heard).
  intros Hp Hr. unfold spec_transitions. cbv zeta.
  pose proof (length_remove_first MBIM_BRIDGE_IND_PACKET_ATTACHING) as Hrem.
  assert (forall m i, (length m <= 14)%nat -> spec_enqueue i m = m ++ [i]) as Henq
    by (intros m i Hm; unfold spec_enqueue; by replace (length m <?n 15) with true by lia).
  set (was_home := bool_decide (ss_mm_state prev = _)) in *. set (home := bool_decide (ss_mm_state snap = _)).
  set (l2 := if was_home && negb home then _ else _).
  assert ((length l2 <= 13)%nat /\ foldl hear_packet p0 l2 = foldl hear_packet p0 l
          /\ foldl hear_register r0 l2 = home) as (L2 & P2 & R2).
  { subst l2. destruct was_home, home; cbn [negb andb orb]; rewrite ?Henq by lia;
      rewrite ?length_app, ?foldl_app; cbn [length foldl hear_packet hear_register]; (split; [lia|]); auto. }
  clearbody l2. rewrite Hp in P2.
  assert (bool_decide (ss_sm_state snap = UE_SM_ESTABLISHING) = true ->
          bool_decide (ss_sm_state snap = UE_SM_ACTIVE) = false) as Hex.
  { rewrite bool_decide_eq_true, bool_decide_eq_false. congruence. }
  set (was_active := bool_decide (ss_sm_state prev = UE_SM_ACTIVE)) in *.
  set (active := bool_decide (ss_sm_state snap = UE_SM_ACTIVE)) in *.
  set (l3 := if _ && bool_decide (ss_sm_state snap = UE_SM_ESTABLISHING) then _ else _).
  assert ((length l3 <= 14)%nat /\ foldl hear_register r0 l3 = home
          /\ (was_active = active -> foldl hear_packet p0 l3 = active)) as (L3 & R3 & P3).
  { subst l3. destruct (_ && bool_decide _) eqn:E.
    - apply andb_prop in E as [_ E]. rewrite Henq by lia. rewrite length_app, !foldl_app.
      cbn [length foldl hear_packet hear_register]. split; [lia|]. split; [done|]. intros _. by rewrite Hex.
    - split; [lia|]. split; [done|]. congruence. }
  clearbody l3 was_active active. pose proof (Hrem l3).
  destruct was_active, active; cbn [negb andb]; rewrite ?Henq by lia; rewrite ?foldl_app;
    rewrite ?register_view_remove by done; cbn [foldl hear_packet hear_register]; auto.
Qed.

(** ** The calls *)

(** The published snapshot is not touched by the request for the IMS session. *)
Lemma protect_snapshot ctx nas len io pdu c :
  engine_protect ctx nas len io = Some (pdu, c) -> uc_snapshot c = uc_snapshot ctx.
Proof.
  unfold engine_protect. destruct (sc_active _); [|by intros [= _ <-]].
  destruct (ue_nas_security_protect_with_sht _ _ _ _ _ _) as [[[n o] sec]|]; ob; [|done].
  destruct o; ob; [|done]. by intros [= _ <-].
Qed.

Lemma send_uplink_snapshot sendto ctx nas len io r c :
  engine_send_nas_uplink sendto ctx nas len io = Some (r, c) -> uc_snapshot c = uc_snapshot ctx.
Proof.
  unfold engine_send_nas_uplink. destruct (len <=? 0); [by intros [= _ <-]|].
  destruct (engine_protect ctx nas len io) as [[pdu c1]|] eqn:E; ob; [|done].
  apply protect_snapshot in E. destruct pdu as [[p n]|]; [|by intros [= _ <-]].
  destruct (ue_rrc_encode_ul_info_transfer _ _ _ _) as [[rl rb]|]; ob; [|done].
  destruct rb; ob; [|done]. destruct (rl <=? 0); [by intros [= _ <-]|].
  destruct (rt_send_nas_pdu _ _ _ _) as [[? ?]|]; ob; [|done]. intros [= _ <-]. exact E.
Qed.

Lemma ims_pdu_snapshot sendto ctx rc c :
  ue_engine_request_ims_pdu sendto ctx = Some (rc, c) -> uc_snapshot c = uc_snapshot ctx.
Proof.
  unfold ue_engine_request_ims_pdu. destruct (_ || _ || _ || _); [by intros [= _ <-]|].
  destruct (_ || _); [by intros [= _ <-]|]. destruct (free_psi _ _ _); [|by intros [= _ <-]]. cbv zeta.
  destruct (ue_nas_encode_pdu_session_est_request _ _ _ _ _ _ _ _) as [[n nas]|]; ob; [|done].
  destruct nas; ob; [|done]. destruct (n <=? 0); [by intros [= _ <-]|].
  destruct (engine_send_nas_uplink _ _ _ _ _) as [[r c2]|] eqn:E; ob; [|done].
  apply send_uplink_snapshot in E. destruct (r <? 0); intros [= _ <-]; exact E.
Qed.

(** The host's requests change the machines only. *)
Lemma requests_ok e apn :
  engine_ok e -> engine_ok (ue_engine_request_register e) /\ engine_ok (ue_engine_request_connect e apn)
  /\ engine_ok (ue_engine_request_disconnect e) /\ engine_ok (ue_engine_start e).
Proof.
  intros He. pose (cb := fun (_ : Z) (_ : bytes) (h : unit) => (0, h)).
  pose proof (fun c => call_total (fun _ _ _ => 0) (fun _ => None) (fun _ => None) cb cb c e tt He) as Hc.
  destruct (Hc CallRegister Logic.I) as (e1 & h1 & E1 & H1), (Hc (CallConnect apn) Logic.I) as (e2 & h2 & E2 & H2),
    (Hc CallDisconnect Logic.I) as (e3 & h3 & E3 & H3), (Hc CallStart Logic.I) as (e4 & h4 & E4 & H4).
  injection E1 as <- <-. injection E2 as <- <-. injection E3 as <- <-.
  injection E4 as <- <-. done.
Qed.

Section Reach.
Variable sendto : nat -> sockaddr -> bytes -> Z.
Variables (pton : bytes -> option Z) (gai : bytes -> option sockaddr).
Context {I : Type} `{!ImsService I}.
(** The receiver of the host's downlink packets and its state. *)
Context {H : Type} (dl_cb : Z -> bytes -> H -> Z * H).
Implicit Types (b : state_bridge I) (h : H).

Definition run_bridge (c : bridge_call) b h : option (state_bridge I * H) :=
  let ret (g : option (state_bridge I)) := b ← g; Some (b, h) in
  match c with
  | BPoll pf => '(_, b, _) ← bridge_poll sendto CALL_FUEL b modem_state_init_defaults pf; Some (b, h)
  | BSetRadio on pf => '(_, g) ← state_bridge_set_radio sendto (Some b) on pf; ret g
  | BRegister => ret (state_bridge_request_register (Some b)).2
  | BConnect apn pf => '(_, g) ← state_bridge_request_connect sendto (Some b) apn pf; ret g
  | BDisconnect pf => '(_, g) ← state_bridge_request_disconnect sendto (Some b) pf; ret g
  | BUpsertApn apn t source => ret (state_bridge_upsert_apn_context (Some b) apn t source).2
  | BSendSms pdu => ret (state_bridge_send_sms_ims (Some b) pdu).2
  | BSmsDownlink pdu => Some ((bridge_sms_downlink_cb pdu b).2, h)
  | BPopSms cap => ret (state_bridge_pop_sms (Some b) cap).2
  | BEngine c =>
    '(engine, (ims, h)) ← run_call sendto pton gai (bridge_dl_adapter (Some dl_cb))
                            bridge_ims_ip_downlink_cb c (sb_engine b) (sb_ims b, h);
    Some (b <| sb_engine := engine |> <| sb_ims := ims |>, h)
  end.

(** The number of indications a call may add. *)
Definition bridge_room (c : bridge_call) b : bool :=
  match c with
  | BPoll _ => length (ind_items b) <=? 12
  | BRegister => length (ind_items b) <=? 14
  | _ => true
  end%nat.

(** [timely]: so far there was room for every indication; [heard]: those the
    host has taken. *)
Inductive bridge_reachable : bool -> list mbim_bridge_indication -> state_bridge I -> H -> Prop :=
| brr_init cfg pf trace copy b h :
    (length (net_mcc (cfg_network cfg)) < 8)%nat -> (length (net_mnc (cfg_network cfg)) < 8)%nat ->
    (length (net_dnn (cfg_network cfg)) < 64)%nat -> Z.of_nat (length copy) = UE_RRC_MAX_NAS_SIZE ->
    state_bridge_init_with_config cfg pf trace copy = Some b ->
    bridge_reachable true [] b h
| brr_call timely heard b h c b' h' :
    bridge_reachable timely heard b h -> bridge_call_ok c -> run_bridge c b h = Some (b', h') ->
    bridge_reachable (timely && bridge_room c b) heard b' h'
| brr_next timely heard b h ind b' :
    bridge_reachable timely heard b h ->
    state_bridge_next_indication (Some b) = (Some ind, Some b') ->
    bridge_reachable timely (heard ++ [ind]) b' h.

(** ** Every call returns *)

Lemma request_ims_total b :
  engine_ok (sb_engine b) ->
  exists e, bridge_request_ims sendto b = Some (b <| sb_engine := e |>) /\ engine_ok e
  /\ uc_snapshot e = uc_snapshot (sb_engine b).
Proof.
  clear pton gai dl_cb. intros He. unfold bridge_request_ims. destruct (_ && _ && _).
  - destruct (ims_pdu_total sendto (sb_engine b) He) as (rc & e & E & Ho). exists e. rewrite E.
    split; [done|]. split; [done|]. exact (ims_pdu_snapshot _ _ _ _ E).
  - exists (sb_engine b). split; [|done]. by destruct b.
Qed.

Lemma poll_total b ms pf :
  bridge_ok b -> 0 <= pf_now_ms pf < 2 ^ 63 ->
  exists b', bridge_poll sendto CALL_FUEL b ms pf = Some (0, b', publish_snapshot (sb_prev b'))
  /\ bridge_ok b' /\ ind_items b' = spec_transitions (sb_prev b) (sb_prev b') (ind_items b)
  /\ sb_prev b' = context_snapshot (sb_engine b') /\ sb_sms b' = sb_sms b.
Proof.
  clear pton gai dl_cb. intros [He Ha Hi Hs Hp] Hnow. unfold bridge_poll.
  destruct (tick_total sendto (sb_engine b) (pf_r1 pf) (pf_r2 pf) (pf_now_ms pf) He Hnow) as (e & E & He').
  rewrite E. ob. cbn [Z.ltb Z.compare].
  pose (b1 := b <| sb_engine := e |>).
  destruct (request_ims_total b1 He') as (e2 & E2 & He2 & Hsn). unfold b1 in E2. rewrite E2. ob.
  unfold bridge_tell.
  destruct (queue_transitions_spec (sb_prev b) (uc_snapshot e2) (sb_ind b) Hi) as (q & Eq & Hq & Iq).
  match goal with |- context [queue_transitions ?x ?y ?z] =>
    change (queue_transitions x y z) with (queue_transitions (sb_prev b) (uc_snapshot e2) (sb_ind b)) end.
  rewrite Eq. ob. eexists. split.
  - change (uc_snapshot e2 = uc_snapshot e) in Hsn. apply f_equal, (f_equal2 pair); [reflexivity|].
    apply (f_equal publish_snapshot). exact (eq_sym Hsn).
  - split; [by split|]. split; [exact Iq|]. split; [exact (eo_snapshot _ He2)|done].
Qed.

Lemma pop_sms_ok b cap :
  bridge_ok b -> bridge_ok (b <| sb_sms := (sms_queue_pop cap (sb_sms b)).2 |>)
  /\ match rg_items BRIDGE_QUEUE_SIZE (sb_sms b) with
     | [] => sms_queue_pop cap (sb_sms b) = (None, sb_sms b)
     | p :: l => if (cap <?n length p) then sms_queue_pop cap (sb_sms b) = (None, sb_sms b)
                 else (sms_queue_pop cap (sb_sms b)).1 = Some p
                      /\ rg_items BRIDGE_QUEUE_SIZE (sms_queue_pop cap (sb_sms b)).2 = l
     end.
Proof.
  clear sendto pton gai dl_cb. intros Hb. pose proof Hb as [He Ha Hi Hs Hp].
  pose proof (rg_empty_items BRIDGE_QUEUE_SIZE (sb_sms b) Hs) as Hz. unfold sms_queue_pop.
  destruct (rg_items BRIDGE_QUEUE_SIZE (sb_sms b)) as [|p l] eqn:E.
  - rewrite (proj2 Hz eq_refl). split; [exact Hb|done].
  - destruct (rg_empty (sb_sms b)) eqn:Ez; [by discriminate (proj1 Hz eq_refl)|].
    destruct (rg_pop_items BRIDGE_QUEUE_SIZE id p l (sb_sms b) Hs E) as (-> & Hs' & Hl).
    destruct (cap <?n length p); (split; [|done]).
    + exact Hb.
    + split; [done..|exact Hs'|]. cbn [snd sb_sms set_field]. rewrite Hl. by apply Forall_cons in Hp as [_ Hp].
Qed.

Lemma push_sms_ok b pdu : bridge_ok b -> bridge_ok (b <| sb_sms := (sms_queue_push pdu (sb_sms b)).2 |>).
Proof.
  clear sendto pton gai dl_cb. intros Hb. pose proof Hb as [He Ha Hi Hs Hp]. unfold sms_queue_push.
  destruct pdu as [[|x pdu]|]; [by destruct b| |by destruct b].
  destruct (SMS_DATA_MAX <?n length (x :: pdu)) eqn:El; [by destruct b|].
  destruct (rg_full _ _) eqn:Ef; [by destruct b|].
  destruct (rg_put_items BRIDGE_QUEUE_SIZE (x :: pdu) (sb_sms b) Hs Ef) as [Hs' Hl].
  split; [done..|exact Hs'|]. cbn [snd sb_sms set_field]. rewrite Hl.
  apply Forall_app. split; [done|]. constructor; [|done]. cbn [length] in *. lia.
Qed.

Lemma register_total b :
  bridge_ok b ->
  exists b', (state_bridge_request_register (Some b)).2 = Some b' /\ bridge_ok b'
  /\ ind_items b' = spec_enqueue MBIM_BRIDGE_IND_REGISTER_SEARCHING (ind_items b)
  /\ sb_prev b' = sb_prev b /\ sb_sms b' = sb_sms b.
Proof.
  clear pton gai dl_cb. intros [He Ha Hi Hs Hp].
  destruct (requests_ok (sb_engine b) None He) as [He' _].
  destruct (ind_enqueue_items MBIM_BRIDGE_IND_REGISTER_SEARCHING (sb_ind b) Hi) as [Hi' Hl].
  eexists. split; [reflexivity|]. split; [by split|]. by split.
Qed.

Lemma connect_total b apn pf :
  bridge_ok b -> exists b', state_bridge_request_connect sendto (Some b) apn pf = Some (0, Some b')
  /\ bridge_ok b' /\ sb_ind b' = sb_ind b /\ sb_prev b' = sb_prev b /\ sb_sms b' = sb_sms b.
Proof.
  clear pton gai dl_cb. intros [He Ha Hi Hs Hp]. unfold state_bridge_request_connect.
  assert (exists e, (if negb (ss_radio_on (uc_snapshot (sb_engine b)))
      then engine ← ue_engine_set_radio sendto (sb_engine b) true (pf_r1 pf) (pf_r2 pf) (pf_fd pf);
           Some (ue_engine_request_register engine)
      else Some (sb_engine b)) = Some e /\ engine_ok e) as (e & -> & He').
  { destruct (negb _); [|by eexists].
    destruct (radio_on_total sendto (sb_engine b) (pf_r1 pf) (pf_r2 pf) (pf_fd pf) He) as (e & -> & Ho). ob.
    destruct (requests_ok e None Ho) as [Hr _]. by eexists. }
  ob. destruct (requests_ok e apn He') as (_ & He2 & _). eexists. split; [reflexivity|]. split; [by split|done].
Qed.

Lemma disconnect_total b pf :
  bridge_ok b -> exists b', state_bridge_request_disconnect sendto (Some b) pf = Some (0, Some b')
  /\ bridge_ok b' /\ sb_ind b' = sb_ind b /\ sb_prev b' = sb_prev b /\ sb_sms b' = sb_sms b.
Proof.
  clear pton gai dl_cb. intros [He Ha Hi Hs Hp]. unfold state_bridge_request_disconnect.
  destruct (requests_ok (sb_engine b) None He) as (_ & _ & He' & _).
  destruct (radio_off_total sendto _ (pf_r1 pf) (pf_r2 pf) (pf_fd pf) He') as (e2 & -> & He2 & _). ob.
  eexists. split; [reflexivity|]. split; [by split|done].
Qed.

Lemma set_radio_total b on pf :
  bridge_ok b -> exists b', state_bridge_set_radio sendto (Some b) on pf = Some (0, Some b')
  /\ bridge_ok b' /\ sb_ind b' = sb_ind b /\ sb_prev b' = sb_prev b /\ sb_sms b' = sb_sms b.
Proof.
  clear pton gai dl_cb. intros [He Ha Hi Hs Hp]. unfold state_bridge_set_radio.
  assert (exists e, ue_engine_set_radio sendto (sb_engine b) on (pf_r1 pf) (pf_r2 pf) (pf_fd pf) = Some e
    /\ engine_ok e) as (e & -> & He').
  { destruct on; [by apply radio_on_total|].
    destruct (radio_off_total sendto (sb_engine b) (pf_r1 pf) (pf_r2 pf) (pf_fd pf) He) as (e & E & Ho & _).
    by exists e. }
  ob. eexists. split; [reflexivity|]. split; [by split|done].
Qed.

(** A call returns, keeps the bridge well formed, and queues what it should. *)
Lemma bridge_call_total c b h :
  bridge_ok b -> bridge_call_ok c ->
  exists b' h', run_bridge c b h = Some (b', h') /\ bridge_ok b'
  /\ match c with
     | BPoll _ => ind_items b' = spec_transitions (sb_prev b) (sb_prev b') (ind_items b)
                  /\ sb_prev b' = context_snapshot (sb_engine b')
     | BRegister => ind_items b' = spec_enqueue MBIM_BRIDGE_IND_REGISTER_SEARCHING (ind_items b)
                    /\ sb_prev b' = sb_prev b
     | _ => ind_items b' = ind_items b /\ sb_prev b' = sb_prev b
     end.
Proof.
  intros Hb Hc. pose proof Hb as [He Ha Hi Hs Hp].
  destruct c as [pf|on pf| |apn pf|pf|apn t source|pdu|pdu|cap|c]; cbn [run_bridge]; cbv zeta.
  - destruct (poll_total b modem_state_init_defaults pf Hb Hc) as (b' & -> & Hb' & H1 & H2 & _). ob.
    by eexists _, _.
  - destruct (set_radio_total b on pf Hb) as (b' & -> & Hb' & H1 & H2 & _). ob. eexists _, _.
    split; [reflexivity|]. split; [done|]. split; [|done]. unfold ind_items. by rewrite H1.
  - destruct (register_total b Hb) as (b' & -> & Hb' & H1 & H2 & _). ob. by eexists _, _.
  - destruct (connect_total b apn pf Hb) as (b' & -> & Hb' & H1 & H2 & _). ob. eexists _, _.
    split; [reflexivity|]. split; [done|]. split; [|done]. unfold ind_items. by rewrite H1.
  - destruct (disconnect_total b pf Hb) as (b' & -> & Hb' & H1 & H2 & _). ob. eexists _, _.
    split; [reflexivity|]. split; [done|]. split; [|done]. unfold ind_items. by rewrite H1.
  - unfold state_bridge_upsert_apn_context. destruct Ha as [used Hused].
    destruct (apn_context_upsert (sb_apn_contexts b) apn t source) as [[rc id] mgr] eqn:E. ob.
    eexists _, _. split; [reflexivity|]. split; [|by split]. split; [done| |done..].
    cbn [sb_apn_contexts set_field]. destruct apn as [[|x apn]|]; [by injection E as <- <- <-; exists used| |
      by injection E as <- <- <-; exists used].
    pose proof (apn_upsert_keeps (sb_apn_contexts b) used (x :: apn) t source Hused ltac:(done) Hc) as Hk.
    by rewrite E in Hk.
  - unfold state_bridge_send_sms_ims. destruct (ims_service_submit_sms pdu (sb_ims b)) as [[rc r] ims]. ob.
    eexists _, _. split; [reflexivity|]. by split; [split|].
  - eexists _, _. split; [reflexivity|]. unfold bridge_sms_downlink_cb.
    pose proof (push_sms_ok b pdu Hb) as Hpush. destruct (sms_queue_push pdu (sb_sms b)) as [rc q].
    by split; [exact Hpush|].
  - unfold state_bridge_pop_sms. pose proof (proj1 (pop_sms_ok b cap Hb)) as Hpop.
    destruct (sms_queue_pop cap (sb_sms b)) as [p q]. ob. eexists _, _. split; [reflexivity|].
    by split; [exact Hpop|].
  - destruct (call_total sendto pton gai (bridge_dl_adapter (Some dl_cb)) bridge_ims_ip_downlink_cb c
      (sb_engine b) (sb_ims b, h) He Hc) as (e & [ims h'] & E & He').
    rewrite E. ob. eexists _, _. split; [reflexivity|]. by split; [split|].
Qed.

Lemma init_bridge_ok cfg pf trace copy b :
  (length (net_mcc (cfg_network cfg)) < 8)%nat -> (length (net_mnc (cfg_network cfg)) < 8)%nat ->
  (length (net_dnn (cfg_network cfg)) < 64)%nat -> Z.of_nat (length copy) = UE_RRC_MAX_NAS_SIZE ->
  state_bridge_init_with_config cfg pf trace copy = Some b ->
  bridge_ok b /\ ind_items b = [] /\ ss_sm_state (sb_prev b) = UE_SM_INACTIVE
  /\ ss_mm_state (sb_prev b) <> UE_MM_REGISTERED_HOME.
Proof.
  clear sendto pton gai dl_cb. intros H1 H2 H3 H4. unfold state_bridge_init_with_config.
  pose proof (init_engine_ok cfg 1 (pf_r1 pf) (pf_r2 pf) trace copy H1 H2 H4) as He.
  destruct (ue_engine_init cfg 1 (pf_r1 pf) (pf_r2 pf) trace copy) as [rc e] eqn:Ei. cbn [snd] in He.
  destruct (requests_ok e None He) as (_ & _ & _ & He').
  assert (ss_sm_state (uc_snapshot (ue_engine_start e)) = UE_SM_INACTIVE
          /\ ss_mm_state (uc_snapshot (ue_engine_start e)) <> UE_MM_REGISTERED_HOME) as Hs.
  { change e with (rc, e).2. rewrite <- Ei. clear. unfold ue_engine_init, ue_context_init_from_config.
    cbn. unfold ue_sm_set_profile. cbv zeta.
    split; [by destruct (nonempty_arg _), (nonempty_arg _)|by destruct (sim_sim_present (cfg_sim cfg))]. }
  assert (exists used, apn_ok (apn_context_upsert (apn_context_manager_init (ims_enabled (cfg_ims cfg)))
      (Some (net_dnn (cfg_network cfg))) APN_CONTEXT_IP_TYPE_IPV4 APN_CONTEXT_SOURCE_INTERNAL).2 used)
    as [used Hused].
  { destruct (net_dnn (cfg_network cfg)) as [|x dnn] eqn:Ed; [exists []; apply apn_init_ok|].
    eapply apn_upsert_keeps; [apply apn_init_ok|done|]. exact H3. }
  destruct (apn_context_upsert (apn_context_manager_init _) _ _ _) as [[rc1 id1] mgr]. cbn [snd] in Hused.
  assert (exists used', apn_ok (if ims_enabled (cfg_ims cfg) then apn_context_upsert mgr (Some (str "ims"))
      APN_CONTEXT_IP_TYPE_IPV4 APN_CONTEXT_SOURCE_INTERNAL else (0, 0, mgr)).2 used') as Hused'.
  { destruct (ims_enabled _); [|by exists used]. eapply apn_upsert_keeps; [done|done|]. vm_compute. lia. }
  destruct (if ims_enabled _ then _ else _) as [[rc2 id2] mgr2].
  destruct (ims_service_init cfg) as [ims|]; ob; [|done]. intros [= <-].
  destruct (rg_new_ok BRIDGE_QUEUE_SIZE MBIM_BRIDGE_IND_REGISTER_SEARCHING ltac:(unfold BRIDGE_QUEUE_SIZE; lia))
    as [Hr1 Hr2].
  destruct (rg_new_ok BRIDGE_QUEUE_SIZE ([] : bytes) ltac:(unfold BRIDGE_QUEUE_SIZE; lia)) as [Hr3 Hr4].
  split; [|by split]. split; [exact He'|exact Hused'|exact Hr1|exact Hr3|]. cbn [sb_sms]. by rewrite Hr4.
Qed.

Lemma enqueue_view i l heard :
  (length l <= 14)%nat -> hear_packet true i = true -> hear_packet false i = false ->
  hear_register true i = true -> hear_register false i = false ->
  packet_view (heard ++ spec_enqueue i l) = packet_view (heard ++ l)
  /\ register_view (heard ++ spec_enqueue i l) = register_view (heard ++ l).
Proof.
  clear. intros Hl H1 H2 H3 H4. unfold spec_enqueue. replace (length l <?n 15) with true by lia.
  unfold packet_view, register_view. rewrite app_assoc, !(foldl_app _ (heard ++ l)). cbn [foldl].
  split; [by destruct (foldl hear_packet false (heard ++ l))|by destruct (foldl hear_register false (heard ++ l))].
Qed.

Lemma bridge_reachable_ok timely heard b h :
  bridge_reachable timely heard b h ->
  bridge_ok b
  /\ (timely = true ->
       packet_view (heard ++ ind_items b) = bool_decide (ss_sm_state (sb_prev b) = UE_SM_ACTIVE)
       /\ register_view (heard ++ ind_items b)
          = bool_decide (ss_mm_state (sb_prev b) = UE_MM_REGISTERED_HOME)).
Proof.
  induction 1 as [cfg pf trace copy b h H1 H2 H3 H4 E|timely heard b h c b' h' _ [IH IHv] Hc E
    |timely heard b h ind b' _ [IH IHv] E].
  - destruct (init_bridge_ok _ _ _ _ _ H1 H2 H3 H4 E) as (Hb & Hi & Hs & Hm). split; [done|]. intros _.
    rewrite Hi, Hs, (bool_decide_false _ Hm). done.
  - destruct (bridge_call_total c b h IH Hc) as (b2 & h2 & E2 & Hb2 & Hq). rewrite E in E2.
    injection E2 as <- <-. split; [done|]. intros [Ht Hr]%andb_prop. destruct (IHv Ht) as [V1 V2].
    destruct c; cbn [bridge_room] in Hr; try (destruct Hq as [-> ->]; by split).
    + destruct Hq as [-> _]. apply transitions_view; [by apply Nat.leb_le|done|done].
    + destruct Hq as [-> ->]. rewrite <- V1, <- V2. apply enqueue_view; [by apply Nat.leb_le|done..].
  - unfold state_bridge_next_indication in E. pose proof IH as [He Ha Hi Hs Hp].
    destruct (ind_dequeue_items (sb_ind b) Hi) as [Hi' Hq].
    destruct (ind_dequeue (sb_ind b)) as [x q] eqn:Eq. injection E as -> <-. cbn [fst snd] in *.
    split; [by split|]. intros Ht. destruct (IHv Ht) as [V1 V2]. unfold ind_items in *.
    cbn [sb_ind sb_prev set_field] in *.
    destruct (rg_items BRIDGE_QUEUE_SIZE (sb_ind b)) as [|y l]; [done|]. destruct Hq as [[= ->] ->].
    rewrite <- !app_assoc. by split.
Qed.

(** C21: a host that takes its indications in time is told of everything: after
    any history of calls of the bridge, of the IMS service and of the engine by
    the other threads in which the queue always had room, one further poll, with
    at most 12 of the 15 places taken, returns, and after it the indications the
    host has taken, followed by those still queued, tell it exactly whether the UE
    is registered and whether its session is active.  In
    every history each call returns and the two queues stay well formed. *)
Theorem host_is_told timely heard b h :
  bridge_reachable timely heard b h ->
  (forall c, bridge_call_ok c -> exists b' h', run_bridge c b h = Some (b', h') /\ bridge_ok b')
  /\ (forall pf, timely = true -> 0 <= pf_now_ms pf < 2 ^ 63 -> (length (ind_items b) <= 12)%nat ->
       exists b', run_bridge (BPoll pf) b h = Some (b', h)
       /\ packet_view (heard ++ ind_items b') = is_sm UE_SM_ACTIVE (uc_sm (sb_engine b'))
       /\ register_view (heard ++ ind_items b') = is_mm UE_MM_REGISTERED_HOME (uc_mm (sb_engine b'))).
Proof.
  intros Hr. destruct (bridge_reachable_ok _ _ _ _ Hr) as [Hb Hv]. split.
  - intros c Hc. destruct (bridge_call_total c b h Hb Hc) as (b' & h' & E & Hb' & _). by exists b', h'.
  - intros pf Ht Hnow Hl. destruct (Hv Ht) as [V1 V2].
    destruct (bridge_call_total (BPoll pf) b h Hb Hnow) as (b' & h' & E & _ & Hi & Hp).
    cbn [run_bridge] in E |- *. destruct (bridge_poll _ _ _ _ _) as [[[rc b2] ms]|]; [|done].
    cbn [mbind option_bind] in *. injection E as -> <-. exists b'. split; [done|]. rewrite Hi.
    destruct (transitions_view (sb_prev b) (sb_prev b') (ind_items b) heard Hl V1 V2) as [-> ->].
    by rewrite Hp.
Qed.
End Reach.

(** A full queue loses a change for good: the loss of the session adds nothing,
    and the next poll compares with the state after it. *)
Lemma full_queue_loses_detach prev snap l :
  length l = 15%nat -> MBIM_BRIDGE_IND_PACKET_ATTACHING ∉ l ->
  ss_mm_state snap = ss_mm_state prev -> ss_sm_state prev = UE_SM_ACTIVE ->
  ss_sm_state snap = UE_SM_INACTIVE -> spec_transitions prev snap l = l.
Proof.
  intros Hl Ha Hm Hp Hs. unfold spec_transitions. rewrite Hm, Hp, Hs. cbv zeta.
  destruct (bool_decide (ss_mm_state prev = _)); cbn [negb andb].
  all: assert (remove_first MBIM_BRIDGE_IND_PACKET_ATTACHING l = l) as Hr.
  1,3: clear -Ha; induction l as [|x l IH]; [done|]; cbn [remove_first];
    apply not_elem_of_cons in Ha as [Hx Ha]; destruct (decide _) as [->|]; [done|]; f_equal; auto.
  all: rewrite !bool_decide_true, !bool_decide_false by done; cbn [negb andb];
    rewrite Hr; unfold spec_enqueue; by rewrite Hl.
Qed.

(** ** Witness *)

(** An IMS service that is switched off. *)
#[local] Instance no_ims : ImsService unit := {
  ims_service_init _ := Some tt;
  ims_service_submit_sms _ _ := (-1, 0, tt);
  ims_service_receive_ip _ _ _ := (-1, tt);
  ims_service_set_pdu_active _ _ _ _ _ := tt;
  ims_service_enabled _ := false;
  ims_service_registered _ := false;
  ims_reference _ _ := conj (Z.le_refl 0) eq_refl }.

#[local] Definition test_bridge : option (state_bridge unit) :=
  state_bridge_init_with_config ue_instance_config_set_defaults (Platform 0 5 6 3) []
    (replicate (Z.to_nat UE_RRC_MAX_NAS_SIZE) 0).

Lemma host_is_told_witness :
  exists b b', test_bridge = Some b
  /\ run_bridge test_sendto test_pton test_gai test_cb (BPoll (Platform 1000 1 2 3)) b tt = Some (b', tt)
  /\ packet_view (ind_items b') = is_sm UE_SM_ACTIVE (uc_sm (sb_engine b')).
Proof.
  assert (exists b, test_bridge = Some b) as [b Eb].
  { assert (match test_bridge with Some _ => true | None => false end = true) as E by (vm_compute; reflexivity).
    destruct test_bridge as [b|]; [by exists b|done]. }
  assert (bridge_reachable test_sendto test_pton test_gai test_cb true [] b tt) as Hr.
  { eapply brr_init; [| | | |exact Eb]; [vm_compute; lia|vm_compute; lia|vm_compute; lia|].
    rewrite length_replicate. reflexivity. }
  destruct (host_is_told test_sendto test_pton test_gai test_cb true [] b tt Hr) as [_ H].
  assert (ind_items b = []) as Hi.
  { assert (ind_items <$> test_bridge = Some []) as E by (vm_compute; reflexivity). rewrite Eb in E. by injection E. }
  destruct (H (Platform 1000 1 2 3) eq_refl) as (b' & E & Hv & _); [cbn; lia|rewrite Hi; cbn; lia|].
  exists b, b'. split; [done|]. split; [exact E|exact Hv].
Defined.
