(* ===== verification/CoreMbim.v ===== *)
(** The core: [src/src/core.c], the control channel of the MBIM function and its
    data path.

    The static variables of the file and of the modules it calls are the record
    [core_state].  A host's SEND_ENCAPSULATED_COMMAND, its
    GET_ENCAPSULATED_RESPONSE, the tick between USB events and the packets of the
    two data threads are steps on it; [None] is an access outside a buffer.  The
    doorbell, the write on the interrupt endpoint, is the list [cs_bells] of the
    identities of the responses at the head of the queue when it rang.  The
    variables that only logging reads are left out. *)

From S2P Require Import Prelude InstanceConfig RanTransport UserPlane UeContext EngineNas UeEngine MbimNtb.
From S2P Require Import Ring ModemState MbimWire MbimSms MbimHandlers MbimIndications ApnContext StateBridge.

#[local] Set Primitive Projections.

Definition MBIM_RESP_QUEUE_SIZE : nat := 16.
Definition MBIM_HELD_QUEUE_SIZE : nat := 16.
Definition MBIM_ITEM_MAX : nat := Z.to_nat 4096.
Definition DL_FIFO_DEPTH : nat := 64.
Definition DL_PKT_MAX : nat := 2048.

(** A slot of the response queue: its first [len] bytes and its number. *)
Record mbim_resp_item := RespItem { ri_data : bytes; ri_id : Z }.
#[export] Instance mbim_resp_item_inhabited : Inhabited mbim_resp_item := populate (RespItem [] 0).

Record core_state (I : Type) := Core {
  cs_bridge : option (state_bridge I);
  cs_dev : mbim_device;
  cs_cmd : bytes; cs_cmd_len : Z;
  cs_resp : bytes; cs_resp_len : Z;
  cs_respq : ring mbim_resp_item; cs_resp_seq : Z;
  cs_held : ring bytes;
  cs_ind_state : mbim_indications_state;
  cs_qmux : mbim_vendor_qmux_state;
  cs_connect_activated : bool; cs_connect_session_id : Z;
  cs_pending_lte_attach : bool;
  cs_notif_pending : bool; cs_notif_armed : bool; cs_get_in_progress : bool;
  cs_gadget_fd : Z; cs_ep_int : Z; cs_ep_out : Z; cs_ep_in : Z;
  cs_bells : list Z;
  cs_dl_fifo : ring bytes; cs_dl_seq : Z }.
Arguments Core {I}.
Arguments cs_bridge {I}.
Arguments cs_dev {I}.
Arguments cs_cmd {I}.
Arguments cs_cmd_len {I}.
Arguments cs_resp {I}.
Arguments cs_resp_len {I}.
Arguments cs_respq {I}.
Arguments cs_resp_seq {I}.
Arguments cs_held {I}.
Arguments cs_ind_state {I}.
Arguments cs_qmux {I}.
Arguments cs_connect_activated {I}.
Arguments cs_connect_session_id {I}.
Arguments cs_pending_lte_attach {I}.
Arguments cs_notif_pending {I}.
Arguments cs_notif_armed {I}.
Arguments cs_get_in_progress {I}.
Arguments cs_gadget_fd {I}.
Arguments cs_ep_int {I}.
Arguments cs_ep_out {I}.
Arguments cs_ep_in {I}.
Arguments cs_bells {I}.
Arguments cs_dl_fifo {I}.
Arguments cs_dl_seq {I}.

(** The state of a program that has set up its bridge and the gadget. *)
Definition core_initial {I} (bridge : option (state_bridge I)) (gadget_fd ep_int ep_out ep_in : Z)
    : core_state I :=
  {| cs_bridge := bridge;
     cs_dev := Device modem_state_init_defaults g_bce_state_initial sms_store_initial;
     cs_cmd := replicate MBIM_ITEM_MAX 0; cs_cmd_len := 0;
     cs_resp := replicate MBIM_ITEM_MAX 0; cs_resp_len := 0;
     cs_respq := rg_new MBIM_RESP_QUEUE_SIZE (RespItem [] 0); cs_resp_seq := 0;
     cs_held := rg_new MBIM_HELD_QUEUE_SIZE [];
     cs_ind_state := mbim_indications_reset;
     cs_qmux := QmuxState false false (replicate 64 0) 0;
     cs_connect_activated := false; cs_connect_session_id := 0;
     cs_pending_lte_attach := false;
     cs_notif_pending := false; cs_notif_armed := false; cs_get_in_progress := false;
     cs_gadget_fd := gadget_fd; cs_ep_int := ep_int; cs_ep_out := ep_out; cs_ep_in := ep_in;
     cs_bells := [];
     cs_dl_fifo := rg_new DL_FIFO_DEPTH []; cs_dl_seq := 0 |}.

Section Core.
Variable sendto : nat -> sockaddr -> bytes -> Z.
Variable fuel : nat.
Context {I : Type} `{ImsService I}.
Implicit Types (s : core_state I) (pf : platform).

(** ** The queues of responses and of held commands *)

Definition mbim_resp_queue_full s : bool := rg_full MBIM_RESP_QUEUE_SIZE (cs_respq s).
Definition mbim_resp_pending s : bool := negb (rg_empty (cs_respq s)).

Definition mbim_resp_enqueue (data : bytes) s : option (core_state I) :=
  if (length data =?n 0) then Some s else
  if mbim_resp_queue_full s then Some s else
  if (MBIM_ITEM_MAX <?n length data) then None else
  let id := u32 (cs_resp_seq s + 1) in
  Some (s <| cs_respq := (rg_put MBIM_RESP_QUEUE_SIZE (RespItem data id) (cs_respq s)) |>
          <| cs_resp_seq := id |>).

(** The bytes copied to [out]: none when the queue is empty. *)
Definition mbim_resp_dequeue s : option (bytes * core_state I) :=
  if rg_empty (cs_respq s) then Some ([], s) else
  item ← rg_peek (cs_respq s);
  Some (ri_data item, s <| cs_respq := (rg_pop MBIM_RESP_QUEUE_SIZE (fun _ => RespItem [] 0) (cs_respq s)) |>).

Definition msg_type_of (d : bytes) : Z := default 0 (get_le32 d 0).

Fixpoint has_command_response (n : nat) (q : ring mbim_resp_item) (idx : nat) : option bool :=
  match n with
  | O => None
  | S n =>
    if idx =?n rg_tail q then Some false else
    item ← rg_slots q !! idx;
    if negb (msg_type_of (ri_data item) =? MBIM_INDICATE_STATUS_MSG) then Some true
    else has_command_response n q (rg_next MBIM_RESP_QUEUE_SIZE idx)
  end.
Definition mbim_resp_has_command_response s : option bool :=
  has_command_response 17 (cs_respq s) (rg_head (cs_respq s)).

Definition mbim_hold_command (buf : bytes) s : core_state I :=
  if rg_full MBIM_HELD_QUEUE_SIZE (cs_held s) then s else
  s <| cs_held := (rg_put MBIM_HELD_QUEUE_SIZE (take MBIM_ITEM_MAX buf) (cs_held s)) |>.

Definition mbim_held_dequeue s : option (option bytes * core_state I) :=
  if rg_empty (cs_held s) then Some (None, s) else
  buf ← rg_peek (cs_held s);
  Some (Some buf, s <| cs_held := (rg_pop MBIM_HELD_QUEUE_SIZE (fun _ => []) (cs_held s)) |>).

(** ** The doorbell *)

Definition mbim_send_response_available_notification s : core_state I :=
  if 0 <=? cs_ep_int s then
    let head_id := if mbim_resp_pending s then default 0 (ri_id <$> rg_peek (cs_respq s)) else 0 in
    s <| cs_bells := (cs_bells s ++ [head_id]) |>
  else s.

Definition mbim_mark_notification_needed s : core_state I := s <| cs_notif_pending := true |>.

Definition mbim_try_send_deferred_notification (fd : Z) s : core_state I :=
  if (fd <? 0) || (cs_ep_int s <? 0) then s else
  if negb (cs_notif_pending s) then s else
  if cs_get_in_progress s then s else
  if cs_notif_armed s then s else
  if negb (mbim_resp_pending s) then s <| cs_notif_pending := false |> else
  let s := mbim_send_response_available_notification s in
  s <| cs_notif_armed := true |> <| cs_notif_pending := false |>.

(** ** The callbacks that queue messages *)

Definition mbim_enqueue_indication_blob : IndicationQueue (core_state I) := fun data s =>
  if mbim_resp_queue_full s then Some (false, s) else
  s ← mbim_resp_enqueue data s;
  Some (true, mbim_mark_notification_needed s).
Definition mbim_enqueue_response_blob : IndicationQueue (core_state I) := fun data s =>
  if mbim_resp_queue_full s then Some (false, s) else
  s ← mbim_resp_enqueue data s;
  Some (true, s).
#[local] Existing Instance mbim_enqueue_indication_blob | 0.

(** ** Commands *)

Definition reset_qmi_ctl_sync_state s : core_state I :=
  s <| cs_qmux := (mbim_vendor_qmux_reset (cs_qmux s)) |>.
Definition reset_mbim_standard_indication_state s : core_state I :=
  s <| cs_ind_state := mbim_indications_reset |> <| cs_pending_lte_attach := false |>
    <| cs_notif_pending := false |> <| cs_notif_armed := false |> <| cs_get_in_progress := false |>.

(** The actions of the handlers are the calls of the bridge. *)
Definition bridge_actions pf (g : option (state_bridge I))
    : mbim_handler_actions (option (state_bridge I)) :=
  Actions
    (Some (fun g => Some (state_bridge_request_register g).2))
    (Some (fun g apn => '(_, g) ← state_bridge_request_connect sendto g (Some apn) pf; Some g))
    (Some (fun g => '(_, g) ← state_bridge_request_disconnect sendto g pf; Some g))
    (Some (fun g on => '(_, g) ← state_bridge_set_radio sendto g on pf; Some g))
    (Some (fun g pdu => Some (state_bridge_send_sms_ims g pdu)))
    (state_bridge_sms_enabled g) (state_bridge_ims_enabled g).

(** The answer to OPEN and CLOSE. *)
Definition short_response (msg_type tid : Z) s : option (core_state I) :=
  '(_, resp) ← run_wire (put_le32 0 msg_type ;; put_le32 4 16 ;; put_le32 8 tid ;;
                         put_le32 12 MBIM_STATUS_SUCCESS) (cs_resp s);
  Some (s <| cs_resp := resp |> <| cs_resp_len := 16 |>).

Definition handle_command_msg pf s : option (core_state I) :=
  if cs_cmd_len s <? 48 then Some (s <| cs_resp_len := 0 |>) else
  o ← mbim_handlers_handle_command (Some (cs_cmd s)) (cs_cmd_len s)
        (Some (bridge_actions pf (cs_bridge s))) (cs_dev s) (cs_bridge s) (cs_resp s) (cs_resp_len s);
  let s := s <| cs_dev := (mo_dev o) |> <| cs_bridge := (mo_world o) |> <| cs_resp := (mo_resp o) |>
             <| cs_resp_len := (if mo_ret o then mo_resp_len o else 0) |> in
  match mo_event o with
  | None => Some s
  | Some ev =>
    '(ok, qmux, s) ←
      mbim_vendor_qmux_handle_ctl_sync (H := mbim_enqueue_response_blob) (cs_qmux s) (ve_tid ev)
        (ve_cid ev) (bytes_at (cs_cmd s) 20 16) (Some (ve_qmi_payload ev)) (ve_qmi_payload_len ev) s;
    let s := s <| cs_qmux := qmux |> in
    if ok : bool
    then Some (mbim_try_send_deferred_notification (cs_gadget_fd s) (mbim_mark_notification_needed s))
    else Some s
  end.

Definition prepare_mbim_response pf s : option (core_state I) :=
  if cs_cmd_len s <? 12 then Some s else
  msg_type ← get_le32 (cs_cmd s) 0;
  tid ← get_le32 (cs_cmd s) 8;
  let s := s <| cs_resp_len := 0 |> in
  if msg_type =? MBIM_OPEN_MSG then
    short_response MBIM_OPEN_DONE tid (reset_qmi_ctl_sync_state s)
  else if msg_type =? MBIM_CLOSE_MSG then
    short_response MBIM_CLOSE_DONE tid
      (reset_mbim_standard_indication_state (reset_qmi_ctl_sync_state s))
  else if msg_type =? MBIM_COMMAND_MSG then handle_command_msg pf s
  else Some s.

(** The response that [prepare_mbim_response] left, queued. *)
Definition queue_prepared_response s : option (core_state I) :=
  if 0 <? cs_resp_len s then
    resp ← slice (cs_resp s) 0 (Z.to_nat (cs_resp_len s));
    s ← mbim_resp_enqueue resp s;
    Some (mbim_mark_notification_needed s)
  else Some s.

Definition mbim_process_held_command pf s : option (core_state I) :=
  '(buf, s) ← mbim_held_dequeue s;
  match buf with
  | None => Some s
  | Some buf =>
    let s := s <| cs_cmd := (over buf (cs_cmd s)) |> <| cs_cmd_len := (Z.of_nat (length buf)) |> in
    s ← prepare_mbim_response pf s;
    queue_prepared_response s
  end.

(** ** Indications *)

Definition emit_bridge_indication (ind : mbim_bridge_indication) s : option (core_state I) :=
  let st := Some (dev_state (cs_dev s)) in
  match ind with
  | MBIM_BRIDGE_IND_REGISTER_SEARCHING =>
    '(_, s) ← mbim_indications_emit_register_state_searching s; Some s
  | MBIM_BRIDGE_IND_REGISTER_DEREGISTERED =>
    '(_, s) ← mbim_indications_emit_register_state_deregistered s; Some s
  | MBIM_BRIDGE_IND_REGISTER_HOME =>
    '(_, s) ← mbim_indications_emit_register_state_home s st; Some s
  | MBIM_BRIDGE_IND_PACKET_ATTACHING =>
    '(_, s) ← mbim_indications_emit_packet_service_attaching s; Some s
  | MBIM_BRIDGE_IND_PACKET_ATTACHED =>
    '(ok, s) ← mbim_indications_emit_packet_service_attached s;
    Some (if ok : bool then s <| cs_pending_lte_attach := true |> else s)
  | MBIM_BRIDGE_IND_PACKET_DETACHED =>
    '(ok, s) ← mbim_indications_emit_packet_service_detached s;
    Some (if ok : bool then s <| cs_pending_lte_attach := true |> else s)
  end.

Fixpoint drain_bridge_indications (n : nat) s : option (core_state I) :=
  match n with
  | O => None
  | S n =>
    if negb (mbim_resp_queue_full s) && state_bridge_has_pending_indication (cs_bridge s) then
      let '(ind, g) := state_bridge_next_indication (cs_bridge s) in
      let s := s <| cs_bridge := g |> in
      match ind with
      | None => Some s
      | Some ind => s ← emit_bridge_indication ind s; drain_bridge_indications n s
      end
    else Some s
  end.

(** Whether a message was stored. *)
Fixpoint drain_sms (n : nat) (arrived : bool) s : option (bool * core_state I) :=
  match n with
  | O => None
  | S n =>
    if negb (mbim_resp_queue_full s) && state_bridge_has_pending_sms (cs_bridge s) then
      let '(pdu, g) := state_bridge_pop_sms (cs_bridge s) 512 in
      let s := s <| cs_bridge := g |> in
      match pdu with
      | None => Some (arrived, s)
      | Some pdu =>
        '(ok, index, sms) ← mbim_handlers_sms_store_append (dev_sms (cs_dev s)) (Some pdu)
                              (Z.of_nat (length pdu));
        let s := s <| cs_dev := ((cs_dev s) <| dev_sms := sms |>) |> in
        if negb ok then drain_sms n arrived s else
        '(_, s) ← mbim_indications_emit_sms_message_store_status s (default 0 index);
        drain_sms n true s
      end
    else Some (arrived, s)
  end.

Definition mbim_emit_sms_read_indication s : option (core_state I) :=
  '(ok, info, info_len, sms) ←
    mbim_handlers_build_sms_read_indication (dev_sms (cs_dev s)) (replicate 512 0) 512;
  let s := s <| cs_dev := ((cs_dev s) <| dev_sms := sms |>) |> in
  if ok : bool
  then '(_, s) ← mbim_indications_emit_sms_read s (Some info) info_len; Some s
  else Some s.

(** The pending indication of the QMUX synchronisation. *)
Definition drain_qmux s : option (core_state I) :=
  if negb (mbim_resp_queue_full s) && mbim_vendor_qmux_has_pending_indication (cs_qmux s) then
    let '(ind, qmux) := mbim_vendor_qmux_take_pending_indication (cs_qmux s) 4096 in
    s ← mbim_resp_enqueue (default [] ind) (s <| cs_qmux := qmux |>);
    Some (mbim_mark_notification_needed
            (s <| cs_qmux := (mbim_vendor_qmux_mark_indication_sent (cs_qmux s)) |>))
  else Some s.

Definition drain_lte_attach s : option (core_state I) :=
  if negb (mbim_resp_queue_full s) && cs_pending_lte_attach s then
    '(_, s) ← mbim_indications_emit_lte_attach_status s (Some (dev_state (cs_dev s)));
    Some (s <| cs_pending_lte_attach := false |>)
  else Some s.

(** Both loops take entries of a queue of 15. *)
Definition drain_pending_indications s : option (core_state I) :=
  if negb (rg_empty (cs_held s)) then Some s else
  s ← drain_qmux s;
  s ← drain_lte_attach s;
  s ← drain_bridge_indications 16 s;
  '(sms_arrived, s) ← drain_sms 16 false s;
  if sms_arrived && negb (mbim_resp_queue_full s) then mbim_emit_sms_read_indication s else Some s.

(** ** The host's requests and the tick *)

(** [io_data] is what the transfer left in the 4096 bytes of the request. *)
Definition core_on_send_encapsulated_command (fd : Z) (io_data : bytes) (w_length : Z) pf s
    : option (core_state I) :=
  let copy_len := if 4096 <? w_length then 4096 else w_length in
  data ← slice io_data 0 (Z.to_nat copy_len);
  let s := s <| cs_cmd_len := copy_len |> <| cs_cmd := (over data (cs_cmd s)) |> in
  msg_type ← (if 4 <=? copy_len then get_le32 (cs_cmd s) 0 else Some 0);
  hold ← (if msg_type =? MBIM_COMMAND_MSG then mbim_resp_has_command_response s else Some false);
  if hold : bool then Some (mbim_hold_command data s) else
  s ← prepare_mbim_response pf s;
  s ← queue_prepared_response s;
  Some (mbim_try_send_deferred_notification fd s).

(** The bytes for the host and the state. *)
Definition core_on_get_encapsulated_response pf s : option (bytes * core_state I) :=
  '(resp, s) ← mbim_resp_dequeue s;
  let s := s <| cs_get_in_progress := true |> <| cs_notif_armed := false |> in
  s ← (if rg_empty (cs_respq s) && negb (rg_empty (cs_held s))
       then mbim_process_held_command pf s else Some s);
  s ← drain_pending_indications s;
  let s := s <| cs_get_in_progress := false |> in
  Some (resp, if mbim_resp_pending s then mbim_mark_notification_needed s else s).

Definition core_ep0_tick pf s : option (core_state I) :=
  '(_, g, ms) ← state_bridge_poll sendto fuel (cs_bridge s) (dev_state (cs_dev s)) pf;
  let s := s <| cs_bridge := g |> <| cs_dev := ((cs_dev s) <| dev_state := ms |>) |>
             <| cs_connect_activated := (ms_connect_activated ms) |>
             <| cs_connect_session_id := (ms_connect_session_id ms) |> in
  if 0 <=? cs_gadget_fd s then
    s ← drain_pending_indications s;
    Some (if mbim_resp_pending s
          then mbim_try_send_deferred_notification (cs_gadget_fd s) (mbim_mark_notification_needed s)
          else s)
  else Some s.

(** ** The data path *)

Definition dl_fifo_push (data : bytes) s : core_state I :=
  if (DL_PKT_MAX <?n length data) then s else
  if rg_full DL_FIFO_DEPTH (cs_dl_fifo s) then s
  else s <| cs_dl_fifo := (rg_put DL_FIFO_DEPTH data (cs_dl_fifo s)) |>.

(** At most [cap] bytes of the oldest packet, none when there is none. *)
Definition dl_fifo_pop (cap : nat) s : bytes * core_state I :=
  if rg_empty (cs_dl_fifo s) then ([], s) else
  (take cap (default [] (rg_peek (cs_dl_fifo s))),
   s <| cs_dl_fifo := (rg_pop DL_FIFO_DEPTH id (cs_dl_fifo s)) |>).

(** A round of the downlink thread: the block it writes. *)
Definition mbim_dl_worker s : option bytes * core_state I :=
  let '(ntb, s) := dl_fifo_pop MBIM_ITEM_MAX s in
  if (length ntb =?n 0) then (None, s) else
  if (cs_gadget_fd s <? 0) || (cs_ep_in s <? 0) then (None, s) else (Some ntb, s).

Definition core_mbim_dl_callback (psi : Z) (data : bytes) s : option (Z * core_state I) :=
  if (cs_gadget_fd s <? 0) || (cs_ep_in s <? 0) then Some (-1, s) else
  if negb (cs_connect_activated s) then Some (-1, s) else
  if (length data =?n 0) then Some (-1, s) else
  let dl_seq := cs_dl_seq s in
  let s := s <| cs_dl_seq := (u16 (dl_seq + 1)) |> in
  '(ntb_len, ntb) ← mbim_ntb16_frame_single (Some (replicate DL_PKT_MAX 0)) 2048 (Some data)
                      (u32 (Z.of_nat (length data))) dl_seq;
  ntb ← ntb;
  if ntb_len =? 0 then Some (-1, s) else
  Some (0, dl_fifo_push (take (Z.to_nat ntb_len) ntb) s).

Definition ul_deframe_cb (dg : bytes) s : option (core_state I) :=
  if negb (cs_connect_activated s) then Some s else
  match cs_bridge s with
  | None => Some s
  | Some b => '(_, engine) ← ue_engine_inject_uplink_ip sendto (sb_engine b) dg;
              Some (s <| cs_bridge := (Some (b <| sb_engine := engine |>)) |>)
  end.

(** The datagrams of a block in order. *)
Fixpoint deliver_datagrams (dgs : list bytes) s : option (core_state I) :=
  match dgs with
  | [] => Some s
  | dg :: dgs => s ← ul_deframe_cb dg s; deliver_datagrams dgs s
  end.

(** A round of the uplink thread that read [rv] bytes into [data]. *)
Definition mbim_data_worker (data : bytes) (rv : Z) s : option (core_state I) :=
  if 0 <? rv then
    '(_, dgs) ← mbim_ntb16_deframe (Some data) rv true;
    deliver_datagrams dgs s
  else Some s.
End Core.
