(* ===== verification/CoreReach.v ===== *)
(** The core in the running program: the invariant of [core_state] and that each
    step returns. *)

From S2P Require Import Prelude CString InstanceConfig RanTransport RanLink UeTypes UeMm UeSm UserPlane UeContext EngineNas.
From S2P Require Import UeEngine EngineSafe DataPath EngineReach MbimNtb ModemState MbimWire MbimSms MbimHandlers MbimReports.
From S2P Require Import MbimStrings MbimCommands MbimIndications MbimIndicated Ring ApnContext StateBridge BridgeReach CoreMbim.

#[local] Set Primitive Projections.

(** What a poll publishes fits the modem state's arrays. *)
Lemma publish_snapshot_ok snap : modem_state_ok (publish_snapshot snap).
Proof.
  split; unfold c_string; try (cbn [publish_snapshot ms_apn ms_identity ms_oper id_imei id_imsi id_iccid
    id_manufacturer id_model id_firmware op_plmn op_name]; apply length_strcpy_n; lia); try reflexivity; apply u32_range.
Qed.

(** ** The invariant *)

Definition item_ok (i : mbim_resp_item) : Prop := (0 < length (ri_data i) <= MBIM_ITEM_MAX)%nat.

Definition held_ok (d : bytes) : Prop := (length d <= MBIM_ITEM_MAX)%nat /\ Forall is_byte d.

Record core_ok {I} (s : core_state I) : Prop := {
  co_bridge : forall b, cs_bridge s = Some b -> bridge_ok b;
  co_dev : device_ok (cs_dev s);
  co_cmd : length (cs_cmd s) = 4096%nat /\ Forall is_byte (cs_cmd s);
  co_cmd_len : 0 <= cs_cmd_len s <= 4096;
  co_resp : length (cs_resp s) = 4096%nat;
  co_resp_len : 0 <= cs_resp_len s <= 4096;
  co_respq : rg_ok MBIM_RESP_QUEUE_SIZE (cs_respq s);
  co_items : Forall item_ok (rg_items MBIM_RESP_QUEUE_SIZE (cs_respq s));
  co_held : rg_ok MBIM_HELD_QUEUE_SIZE (cs_held s);
  co_held_items : Forall held_ok (rg_items MBIM_HELD_QUEUE_SIZE (cs_held s));
  co_qmux : length (qx_sync_ind_buf (cs_qmux s)) = 64%nat /\ 0 <= qx_sync_ind_len (cs_qmux s) <= 64;
  co_dl : rg_ok DL_FIFO_DEPTH (cs_dl_fifo s);
  co_dl_items : Forall (fun p => 0 < length p <= DL_PKT_MAX)%nat (rg_items DL_FIFO_DEPTH (cs_dl_fifo s)) }.

(** The responses to be read by the host, oldest first. *)
Definition resp_items {I} (s : core_state I) : list mbim_resp_item :=
  rg_items MBIM_RESP_QUEUE_SIZE (cs_respq s).

(** The fields of the invariant that a step leaves alone. *)
Ltac core_fields H :=
  split; [try exact (co_bridge _ H)|try exact (co_dev _ H)|try exact (co_cmd _ H)|try exact (co_cmd_len _ H)
    |try exact (co_resp _ H)|try exact (co_resp_len _ H)|try exact (co_respq _ H)|try exact (co_items _ H)
    |try exact (co_held _ H)|try exact (co_held_items _ H)|try exact (co_qmux _ H)|try exact (co_dl _ H)
    |try exact (co_dl_items _ H)].

Section Queue.
Context {I : Type}.
Implicit Types (s : core_state I).

Lemma resp_full_items s :
  core_ok s -> mbim_resp_queue_full s = (length (resp_items s) =?n 15).
Proof.
  unfold resp_items. intros H. pose proof (rg_full_items _ _ (co_respq _ H)) as Hf. unfold mbim_resp_queue_full, MBIM_RESP_QUEUE_SIZE in *.
  destruct (rg_full 16 (cs_respq s)) eqn:E; symmetry; [apply Nat.eqb_eq|apply Nat.eqb_neq].
  - pose proof (proj1 Hf eq_refl). lia.
  - intros Hl. assert (S (length (rg_items 16 (cs_respq s))) = 16)%nat as Hx by lia.
    apply Hf in Hx. congruence.
Qed.

Lemma resp_pending_items s : core_ok s -> mbim_resp_pending s = negb (length (resp_items s) =?n 0).
Proof.
  unfold resp_items. intros H. pose proof (rg_empty_items _ _ (co_respq _ H)) as He. unfold mbim_resp_pending. f_equal.
  destruct (rg_empty (cs_respq s)) eqn:E.
  - by rewrite (proj1 He eq_refl).
  - destruct (rg_items MBIM_RESP_QUEUE_SIZE (cs_respq s)) as [|x l]; [|done]. by discriminate (proj2 He eq_refl).
Qed.

(** Queuing a message. *)
Lemma resp_enqueue_ok (data : bytes) s :
  core_ok s -> (0 < length data <= MBIM_ITEM_MAX)%nat ->
  exists s', mbim_resp_enqueue data s = Some s' /\ core_ok s'
  /\ s' = s <| cs_respq := (cs_respq s') |> <| cs_resp_seq := (cs_resp_seq s') |>
  /\ ri_data <$> resp_items s' = (ri_data <$> resp_items s) ++ (if mbim_resp_queue_full s then [] else [data]).
Proof.
  unfold resp_items. intros H Hd. unfold mbim_resp_enqueue. replace (length data =?n 0) with false by lia.
  destruct (mbim_resp_queue_full s) eqn:Ef.
  - exists s. rewrite app_nil_r. by destruct s.
  - replace (MBIM_ITEM_MAX <?n length data) with false by lia.
    destruct (rg_put_items MBIM_RESP_QUEUE_SIZE (RespItem data (u32 (cs_resp_seq s + 1))) (cs_respq s)
      (co_respq _ H) Ef) as [Hok Hi].
    eexists. split; [reflexivity|]. split; [|split; [done|]].
    + core_fields H; cbn [cs_respq set_field]; [exact Hok|]. rewrite Hi.
      apply Forall_app. split; [apply H|]. constructor; [exact Hd|constructor].
    + cbn [cs_respq set_field]. by rewrite Hi, fmap_app.
Qed.

Lemma resp_dequeue_ok s :
  core_ok s ->
  exists data s', mbim_resp_dequeue s = Some (data, s') /\ core_ok s'
  /\ s' = s <| cs_respq := (cs_respq s') |>
  /\ match resp_items s with
     | [] => data = [] /\ s' = s
     | x :: l => data = ri_data x /\ resp_items s' = l
     end.
Proof.
  unfold resp_items. intros H. unfold mbim_resp_dequeue. pose proof (rg_empty_items _ _ (co_respq _ H)) as He.
  destruct (rg_empty (cs_respq s)) eqn:E.
  - exists [], s. rewrite (proj1 He eq_refl). split; [done|]. split; [done|]. split; [by destruct s|done].
  - destruct (rg_items MBIM_RESP_QUEUE_SIZE (cs_respq s)) as [|x l] eqn:Ei; [by discriminate (proj2 He eq_refl)|].
    destruct (rg_pop_items MBIM_RESP_QUEUE_SIZE (fun _ => RespItem [] 0) x l _ (co_respq _ H) Ei)
      as (-> & Hok & Hi). ob. eexists _, _. split; [reflexivity|]. split; [|split; [done|by split]].
    pose proof (co_items _ H) as Hf. rewrite Ei in Hf. apply Forall_cons in Hf as [_ Hf].
    core_fields H; cbn [cs_respq set_field]; [exact Hok|]. by rewrite Hi.
Qed.
End Queue.

(** ** Draining *)

(** What draining leaves alone. *)
Definition core_rest {I} (s : core_state I) :=
  (cs_cmd s, cs_cmd_len s, cs_resp s, cs_resp_len s, cs_held s, cs_ind_state s,
   (cs_connect_activated s, cs_connect_session_id s), (cs_notif_armed s, cs_get_in_progress s),
   (cs_gadget_fd s, cs_ep_int s, cs_ep_out s, cs_ep_in s), (cs_bells s, cs_dl_fifo s, cs_dl_seq s)).

(** The messages [msgs] have been queued; a notification is then due. *)
Record drained {I} (msgs : list bytes) (s s' : core_state I) : Prop := {
  dr_ok : core_ok s';
  dr_rest : core_rest s' = core_rest s;
  dr_state : dev_state (cs_dev s') = dev_state (cs_dev s);
  dr_items : ri_data <$> resp_items s' = (ri_data <$> resp_items s) ++ msgs;
  dr_notif : msgs <> [] \/ cs_notif_pending s = true -> cs_notif_pending s' = true }.

Lemma drained_refl {I} (s : core_state I) : core_ok s -> drained [] s s.
Proof. intros H. split; [done..|by rewrite app_nil_r|by intros [?|?]]. Qed.

Lemma drained_trans {I} l1 l2 (s1 s2 s3 : core_state I) :
  drained l1 s1 s2 -> drained l2 s2 s3 -> drained (l1 ++ l2) s1 s3.
Proof.
  intros [A1 B1 C1 D1 E1] [A2 B2 C2 D2 E2]. split; [done|congruence|congruence|by rewrite D2, D1, app_assoc|].
  intros Hn. apply E2. destruct l2; [|by left]. rewrite app_nil_r in Hn. right. by apply E1.
Qed.

Definition core_inds {I} (s : core_state I) : list mbim_bridge_indication :=
  match cs_bridge s with Some b => ind_items b | None => [] end.
Definition core_pdus {I} (s : core_state I) : list bytes :=
  match cs_bridge s with Some b => rg_items BRIDGE_QUEUE_SIZE (sb_sms b) | None => [] end.

(** The length of the list of new messages: those stored and not yet
    notified, and those the bridge has queued. *)
Definition new_cost (e : mbim_sms_store_entry) : Z :=
  if se_used e && negb (se_notified e) then 8 + sms_size e else 0.
Definition pdu_cost (p : bytes) : Z := 24 + mbim_align4 (Z.of_nat (length p)).
Definition sum_of {A} (f : A -> Z) (l : list A) : Z := foldr (fun x n => f x + n) 0 l.

Definition sms_load {I} (s : core_state I) : Z :=
  sum_of new_cost (ss_entries (dev_sms (cs_dev s))) + sum_of pdu_cost (core_pdus s).

Lemma sum_insert {A} (f : A -> Z) l i x :
  (forall x, 0 <= f x) -> sum_of f (<[i := x]> l) <= sum_of f l + f x.
Proof.
  intros Hf. revert i. induction l as [|y l IH]; intros i; [change (0 <= 0 + f x); pose proof (Hf x); lia|].
  destruct i as [|i].
  - change (f x + sum_of f l <= f y + sum_of f l + f x). pose proof (Hf y). lia.
  - change (f y + sum_of f (<[i := x]> l) <= f y + sum_of f l + f x). specialize (IH i). lia.
Qed.

Lemma align4_nonneg v : 0 <= mbim_align4 v.
Proof. unfold mbim_align4. apply Z.ldiff_nonneg. left. apply u32_range. Qed.

Lemma new_cost_nonneg e : 0 <= new_cost e.
Proof. unfold new_cost, sms_size. pose proof (align4_nonneg (se_pdu_len e)). destruct (_ && _); lia. Qed.

Lemma sum_nonneg {A} (f : A -> Z) l : (forall x, 0 <= f x) -> 0 <= sum_of f l.
Proof. intros H. induction l as [|x l IH]; [done|]. cbn. fold (sum_of f l). pose proof (H x). lia. Qed.

(** The cost of a stored message is the one it had in the queue. *)
Lemma record_cost e index pdu :
  sms_entry_ok e -> se_used e = true -> se_notified e = false -> sms_record e = (index, 0, pdu) ->
  new_cost e = pdu_cost pdu.
Proof.
  intros He Hu Hn Hr. unfold new_cost, pdu_cost, sms_size. rewrite Hu, Hn. cbn [andb negb].
  unfold sms_record in Hr. injection Hr as _ _ Hp. pose proof (seo_pdu e He). pose proof (seo_len e He Hu).
  rewrite <- Hp, length_take. rewrite Nat.min_l by lia. rewrite Z2Nat.id by lia. lia.
Qed.

(** The list of new messages fits when its cost does. *)
Lemma new_messages_cost l :
  8 * Z.of_nat (length (filter (fun e => sms_entry_included e SMS_READ_NOTIFY = true) l))
  + sms_total (filter (fun e => sms_entry_included e SMS_READ_NOTIFY = true) l) = sum_of new_cost l.
Proof.
  induction l as [|e l IH]; [done|]. cbn [sum_of foldr]. fold (sum_of new_cost l). rewrite <- IH.
  rewrite filter_cons. unfold new_cost. change (se_used e && negb (se_notified e)) with
    (sms_entry_included e SMS_READ_NOTIFY).
  destruct (decide (sms_entry_included e SMS_READ_NOTIFY = true)) as [E|E].
  - rewrite E. cbn [length]. change (sms_total (e :: ?l)) with (sms_size e + sms_total l). lia.
  - apply not_true_is_false in E. rewrite E. lia.
Qed.

Section Drain.
Context {I : Type} `{!ImsService I}.
Implicit Types (s : core_state I).
#[local] Existing Instance mbim_enqueue_indication_blob | 0.

(** Queuing an indication where there is room. *)
Lemma enqueue_drained (msg : bytes) s :
  core_ok s -> (0 < length msg <= MBIM_ITEM_MAX)%nat -> mbim_resp_queue_full s = false ->
  exists s', enqueue msg s = Some (true, s') /\ drained [msg] s s' /\ cs_bridge s' = cs_bridge s
  /\ cs_dev s' = cs_dev s /\ cs_qmux s' = cs_qmux s /\ cs_pending_lte_attach s' = cs_pending_lte_attach s.
Proof.
  intros H Hm Hf. unfold enqueue, mbim_enqueue_indication_blob. rewrite Hf.
  destruct (resp_enqueue_ok msg s H Hm) as (s' & E & Hok & Hs & Hi). rewrite E. ob. rewrite Hf in Hi.
  eexists. split; [reflexivity|]. split; [|by rewrite Hs].
  split; [core_fields Hok|by rewrite Hs|by rewrite Hs|exact Hi|done].
Qed.

Lemma emit_drained r s service cid P :
  core_ok s -> mbim_resp_queue_full s = false -> emits_one r s service cid P ->
  exists s' payload msg, r = Some (true, s') /\ P payload /\ indicated service cid payload msg
  /\ drained [msg] s s' /\ cs_bridge s' = cs_bridge s
  /\ cs_dev s' = cs_dev s /\ cs_qmux s' = cs_qmux s /\ cs_pending_lte_attach s' = cs_pending_lte_attach s.
Proof.
  intros H Hf (payload & msg & HP & Hl & Hi & ->). pose proof (in_length _ _ _ _ Hi) as Hlen.
  destruct (enqueue_drained msg s H) as (s' & E & Hd); [unfold MBIM_ITEM_MAX; lia|done|].
  by exists s', payload, msg.
Qed.

(** The message for an indication of the bridge. *)
Definition says (st : modem_state) (ind : mbim_bridge_indication) (msg : bytes) : Prop :=
  exists p,
    match ind with
    | MBIM_BRIDGE_IND_REGISTER_SEARCHING =>
      indicated UUID_BASIC_CONNECT MBIM_CID_REGISTER_STATE p msg /\ field32 p 4 = 2
    | MBIM_BRIDGE_IND_REGISTER_DEREGISTERED =>
      indicated UUID_BASIC_CONNECT MBIM_CID_REGISTER_STATE p msg /\ field32 p 4 = 1
    | MBIM_BRIDGE_IND_REGISTER_HOME =>
      indicated UUID_BASIC_CONNECT MBIM_CID_REGISTER_STATE p msg /\ field32 p 4 = 3
      /\ string_ref p 0 20 = utf16le (take 6 (op_plmn (ms_oper st)))
      /\ string_ref p 0 28 = utf16le (take 8 (op_name (ms_oper st)))
    | MBIM_BRIDGE_IND_PACKET_ATTACHING =>
      indicated UUID_BASIC_CONNECT MBIM_CID_PACKET_SERVICE p msg /\ field32 p 4 = 1
    | MBIM_BRIDGE_IND_PACKET_ATTACHED =>
      indicated UUID_BASIC_CONNECT MBIM_CID_PACKET_SERVICE p msg /\ field32 p 4 = 2
    | MBIM_BRIDGE_IND_PACKET_DETACHED =>
      indicated UUID_BASIC_CONNECT MBIM_CID_PACKET_SERVICE p msg /\ field32 p 4 = 0
    end.

Lemma pending_lte_drained msgs s s' b :
  drained msgs s s' -> drained msgs s (s' <| cs_pending_lte_attach := b |>).
Proof. intros [A B C D E]. split; [|exact B|exact C|exact D|exact E]. core_fields A. Qed.

Lemma emit_bridge_ok ind s :
  core_ok s -> mbim_resp_queue_full s = false ->
  exists s' msg, emit_bridge_indication ind s = Some s' /\ says (dev_state (cs_dev s)) ind msg
  /\ drained [msg] s s' /\ cs_bridge s' = cs_bridge s /\ cs_dev s' = cs_dev s.
Proof.
  intros H Hf. unfold emit_bridge_indication.
  destruct (register_indicated s) as [Hsearch Hdereg].
  destruct (packet_indicated s) as (Hatt & Hatted & Hdet).
  pose proof (home_indicated s (dev_state (cs_dev s))) as Hhome.
  destruct ind.
  - destruct (emit_drained _ _ _ _ _ H Hf Hsearch) as (s' & p & msg & -> & HP & Hi & Hd & Hb & Hv & _). ob.
    exists s', msg. split; [done|]. split; [by exists p|done].
  - destruct (emit_drained _ _ _ _ _ H Hf Hdereg) as (s' & p & msg & -> & HP & Hi & Hd & Hb & Hv & _). ob.
    exists s', msg. split; [done|]. split; [by exists p|done].
  - destruct (emit_drained _ _ _ _ _ H Hf Hhome) as (s' & p & msg & -> & HP & Hi & Hd & Hb & Hv & _). ob.
    exists s', msg. split; [done|]. split; [by exists p|done].
  - destruct (emit_drained _ _ _ _ _ H Hf Hatt) as (s' & p & msg & -> & HP & Hi & Hd & Hb & Hv & _). ob.
    exists s', msg. split; [done|]. split; [by exists p|done].
  - destruct (emit_drained _ _ _ _ _ H Hf Hatted) as (s' & p & msg & -> & HP & Hi & Hd & Hb & Hv & _). ob.
    eexists _, msg. split; [reflexivity|]. split; [exists p; split; [done|apply HP]|].
    split; [by apply pending_lte_drained|done].
  - destruct (emit_drained _ _ _ _ _ H Hf Hdet) as (s' & p & msg & -> & HP & Hi & Hd & Hb & Hv & _). ob.
    eexists _, msg. split; [reflexivity|]. split; [by exists p|].
    split; [by apply pending_lte_drained|done].
Qed.

(** Replacing the bridge. *)
Lemma drained_bridge s b :
  core_ok s -> bridge_ok b -> drained [] s (s <| cs_bridge := (Some b) |>).
Proof.
  intros H Hb. split; [|done|done|by rewrite app_nil_r|by intros [?|?]].
  core_fields H. cbn [cs_bridge set_field]. by intros ? [= <-].
Qed.

Lemma resp_room msgs s s' :
  drained msgs s s' -> length (resp_items s') = (length (resp_items s) + length msgs)%nat.
Proof.
  intros H. pose proof (f_equal length (dr_items _ _ _ H)) as E.
  by rewrite length_app, !length_fmap in E.
Qed.

(** The indications the bridge has queued become messages in their order, as
    many as there is room for. *)
Lemma drain_bridge_ok n s :
  core_ok s -> (length (core_inds s) < n)%nat ->
  exists s' msgs, drain_bridge_indications n s = Some s' /\ drained msgs s s'
  /\ cs_dev s' = cs_dev s /\ core_pdus s' = core_pdus s
  /\ Forall2 (says (dev_state (cs_dev s)))
       (take (15 - length (resp_items s)) (core_inds s)) msgs
  /\ core_inds s' = drop (15 - length (resp_items s)) (core_inds s).
Proof.
  revert s. induction n as [|n IH]; intros s H Hn; [lia|]. cbn [drain_bridge_indications].
  rewrite (resp_full_items s H). unfold core_inds, core_pdus in *.
  destruct (cs_bridge s) as [b|] eqn:Eb; cbn [state_bridge_has_pending_indication].
  2: { rewrite andb_false_r. exists s, []. split; [done|]. split; [by apply drained_refl|].
       rewrite Eb, take_nil, drop_nil. by split_and!. }
  pose proof (co_bridge _ H b Eb) as Hb. pose proof Hb as [He Ha Hi Hs Hp].
  destruct (ind_dequeue_items (sb_ind b) Hi) as [Hi' Hq].
  pose proof (rg_empty_items BRIDGE_QUEUE_SIZE (sb_ind b) Hi) as Hz.
  destruct (length (resp_items s) =?n 15) eqn:Efull; cbn [negb andb].
  { exists s, []. split; [done|]. split; [by apply drained_refl|]. apply Nat.eqb_eq in Efull. rewrite Efull.
    rewrite Eb. by split_and!. }
  apply Nat.eqb_neq in Efull. pose proof (rg_count_lt _ _ (co_respq _ H)) as Hc.
  rewrite <- rg_length in Hc. fold (resp_items s) in Hc. unfold MBIM_RESP_QUEUE_SIZE in Hc.
  unfold ind_items in *.
  destruct (rg_items BRIDGE_QUEUE_SIZE (sb_ind b)) as [|ind l] eqn:Ei.
  { rewrite (proj2 Hz eq_refl). cbn [negb]. exists s, []. split; [done|]. split; [by apply drained_refl|].
    rewrite Eb, Ei, take_nil, drop_nil. by split_and!. }
  destruct (rg_empty (sb_ind b)) eqn:Ez; [by discriminate (proj1 Hz eq_refl)|]. cbn [negb].
  destruct Hq as [Hq1 Hq2]. unfold state_bridge_next_indication.
  destruct (ind_dequeue (sb_ind b)) as [x q] eqn:Eq. cbn [fst snd] in *. subst x.
  set (b1 := b <| sb_ind := q |>). assert (bridge_ok b1) as Hb1 by (by split).
  pose proof (drained_bridge s b1 H Hb1) as Hd1. set (s1 := s <| cs_bridge := Some b1 |>) in *.
  pose proof (dr_ok _ _ _ Hd1) as H1.
  destruct (emit_bridge_ok ind s1 H1) as (s2 & msg & E2 & Hsay & Hd2 & Hb2 & Hv2).
  { rewrite (resp_full_items s1 H1). by apply Nat.eqb_neq. }
  rewrite E2. ob. pose proof (dr_ok _ _ _ Hd2) as H2. pose proof (resp_room _ _ _ Hd2) as Hr2.
  change (resp_items s1) with (resp_items s) in Hr2. cbn [length] in Hr2.
  destruct (IH s2 H2) as (s3 & msgs & E3 & Hd3 & Hv3 & Hp3 & Hs3 & Hi3).
  { rewrite Hb2. cbn [s1 cs_bridge set_field sb_ind b1]. rewrite Hq2. cbn [length] in Hn. lia. }
  rewrite Hb2 in Hp3, Hs3, Hi3. cbn [s1 cs_bridge set_field sb_ind sb_sms b1] in Hp3, Hs3, Hi3.
  rewrite Hq2 in Hs3, Hi3. rewrite Hv2 in Hs3, Hv3. change (cs_dev s1) with (cs_dev s) in Hs3, Hv3, Hsay.
  exists s3, (msg :: msgs). split; [exact E3|].
  split; [exact (drained_trans [] _ _ _ _ Hd1 (drained_trans [msg] _ _ _ _ Hd2 Hd3))|].
  split; [exact Hv3|]. split; [exact Hp3|].
  replace (15 - length (resp_items s))%nat with (S (15 - length (resp_items s2))) by lia.
  cbn [take drop]. split; [by constructor|exact Hi3].
Qed.

(** Replacing the store. *)
Lemma drained_sms s store :
  core_ok s -> sms_store_ok store ->
  drained [] s (s <| cs_dev := ((cs_dev s) <| dev_sms := store |>) |>).
Proof.
  intros H Hs. split; [|done|done|by rewrite app_nil_r|by intros [?|?]].
  core_fields H. pose proof (co_dev _ H) as [D1 D2 _]. by split.
Qed.

(** The messages the bridge has queued go to the store, as many as there is
    room for announcements; the list of new messages does not grow. *)
Lemma drain_sms_ok n arrived s :
  core_ok s -> (length (core_pdus s) < n)%nat ->
  exists arrived' s' msgs, drain_sms n arrived s = Some (arrived', s') /\ drained msgs s s'
  /\ sms_load s' <= sms_load s
  /\ (core_pdus s = [] -> arrived' = arrived /\ s' = s).
Proof.
  revert s arrived. induction n as [|n IH]; intros s arrived H Hn; [lia|]. cbn [drain_sms].
  destruct (negb (mbim_resp_queue_full s) && _) eqn:Eg.
  2: { exists arrived, s, []. split; [done|]. split; [by apply drained_refl|]. by split. }
  apply andb_prop in Eg as [Ef%negb_true_iff Hp]. unfold core_pdus in Hn |- *.
  destruct (cs_bridge s) as [b|] eqn:Eb; cbn [state_bridge_has_pending_sms] in Hp; [|done].
  pose proof (co_bridge _ H b Eb) as Hb. pose proof (bo_sms _ Hb) as Hs.
  destruct (pop_sms_ok b 512 Hb) as [Hb1 Hpop]. unfold state_bridge_pop_sms.
  pose proof (rg_empty_items BRIDGE_QUEUE_SIZE (sb_sms b) Hs) as Hz.
  pose proof (bo_pdus _ Hb) as Hall.
  destruct (rg_items BRIDGE_QUEUE_SIZE (sb_sms b)) as [|p l] eqn:Ei.
  { rewrite (proj2 Hz eq_refl) in Hp. done. }
  apply Forall_cons in Hall as [Hpl _]. unfold SMS_DATA_MAX in Hpl.
  replace (512 <?n length p) with false in Hpop by lia. destruct Hpop as [Hp1 Hp2].
  destruct (sms_queue_pop 512 (sb_sms b)) as [x q] eqn:Eq. cbn [fst snd] in *. subst x.
  pose proof (drained_bridge s _ H Hb1) as Hd1.
  set (b1 := b <| sb_sms := q |>) in *. set (s1 := s <| cs_bridge := Some b1 |>) in *.
  pose proof (dr_ok _ _ _ Hd1) as H1.
  assert (0 <= pdu_cost p) as Hp0 by (unfold pdu_cost; pose proof (align4_nonneg (Z.of_nat (length p))); lia).
  assert (core_pdus s1 = l) as Hq1.
  { unfold core_pdus. exact Hp2. }
  assert (sms_load s = sms_load s1 + pdu_cost p) as Hload.
  { unfold sms_load. rewrite Hq1. change (dev_sms (cs_dev s1)) with (dev_sms (cs_dev s)).
    unfold core_pdus. rewrite Eb, Ei.
    change (sum_of pdu_cost (p :: l)) with (pdu_cost p + sum_of pdu_cost l). lia. }
  cbn [length] in Hn.
  destruct (decide (length p <= 256)%nat) as [Hle|Hgt].
  - destruct (sms_store_append_ok (dev_sms (cs_dev s1)) p (dok_sms _ (co_dev _ H1)) ltac:(lia))
      as (slot & st & Hslot & Es & Hst & e & He1 & He2 & _ & He3 & He4).
    rewrite Es. ob. pose proof (drained_sms s1 st H1 Hst) as Hd2.
    set (s2 := s1 <| cs_dev := ((cs_dev s1) <| dev_sms := st |>) |>) in *.
    pose proof (dr_ok _ _ _ Hd2) as H2. cbn [negb default].
    pose proof (store_status_indicated s2 (ss_next_index (dev_sms (cs_dev s1)))
      (sso_next _ (dok_sms _ (co_dev _ H1)))) as Hind.
    destruct (emit_drained _ _ _ _ _ H2 Ef Hind) as (s3 & payload & msg & E3 & _ & _ & Hd3 & Hb3 & Hv3 & _).
    unfold from_option, id. rewrite E3. ob. pose proof (dr_ok _ _ _ Hd3) as H3.
    assert (core_pdus s3 = l) as Hq3 by (unfold core_pdus; rewrite Hb3; exact Hq1).
    destruct (IH s3 true H3) as (arrived' & s4 & msgs & E4 & Hd4 & Hl4 & _); [rewrite Hq3; lia|].
    exists arrived', s4, ([] ++ [] ++ [msg] ++ msgs). split; [exact E4|].
    split; [by repeat (eapply drained_trans; [eassumption|])|]. split; [|done].
    assert (sms_load s3 <= sms_load s1 + pdu_cost p); [|lia].
    unfold sms_load. rewrite Hq1, Hq3, Hv3. change (dev_sms (cs_dev s2)) with st. rewrite He1.
    pose proof (sum_insert new_cost (ss_entries (dev_sms (cs_dev s1))) slot e new_cost_nonneg).
    assert (sms_entry_ok e) as Heok.
    { eapply Forall_lookup_1; [exact (sso_entries _ Hst)|]. rewrite He1. apply list_lookup_insert_eq.
      rewrite (sso_length _ (dok_sms _ (co_dev _ H1))). exact Hslot. }
    rewrite (record_cost e _ p Heok He2 He3 He4) in *. lia.
  - assert (mbim_handlers_sms_store_append (dev_sms (cs_dev s1)) (Some p) (Z.of_nat (length p))
            = Some (false, None, dev_sms (cs_dev s1))) as ->.
    { unfold mbim_handlers_sms_store_append, MBIM_SMS_PDU_MAX. by replace (_ || _) with true by lia. }
    ob. cbn [negb].
    destruct (IH s1 arrived H1) as (arrived' & s4 & msgs & E4 & Hd4 & Hl4 & _); [rewrite Hq1; lia|].
    exists arrived', s4, ([] ++ msgs). split; [exact E4|]. split; [by eapply drained_trans|].
    split; [lia|done].
Qed.

(** Building the list of new messages: it fits in the 512 bytes. *)
Lemma sms_indication_ok store :
  sms_store_ok store -> 8 + sum_of new_cost (ss_entries store) <= 512 ->
  exists ok info n store',
    mbim_handlers_build_sms_read_indication store (replicate 512 0) 512 = Some (ok, info, n, store')
    /\ sms_store_ok store' /\ length info = 512%nat /\ 0 <= n <= 512.
Proof.
  clear. intros Hs Hc. unfold mbim_handlers_build_sms_read_indication.
  destruct (forallb _ _).
  { eexists _, _, _, _. split; [reflexivity|]. split; [done|]. split; [apply length_replicate|lia]. }
  pose proof (sms_store_total SMS_READ_NOTIFY store Hs) as (Hn & Ht & _).
  rewrite <- new_messages_cost in Hc.
  assert (wp (sms_build_read_info (ss_entries store) 0 512 SMS_READ_NOTIFY)
    (Wire (replicate 512 0) 0 0 0 0 false)
    (fun r b => length (w_mem b) = 512%nat /\ 0 <= r.1 <= 512
       /\ r.2 = (fun e => if sms_entry_included e SMS_READ_NOTIFY then mark_read SMS_READ_NOTIFY e else e)
                  <$> ss_entries store)) as Hw.
  { apply sms_build_read_info_ok; [apply Hs|lia|lia|rewrite length_replicate; lia|lia|].
    intros mem Hm _ _ _ _. cbn [w_mem fst snd]. rewrite Hm, length_replicate. split; [done|]. split; [lia|done]. }
  unfold wp, run_wire in *. destruct (sms_build_read_info _ _ _ _ _) as [[[n l] b]|]; [|done].
  cbn [fst snd] in Hw. destruct Hw as (Hm & Hn2 & ->). ob. eexists _, _, _, _. split; [reflexivity|].
  split; [by apply sms_store_marked_ok|done].
Qed.

Lemma emit_sms_read_ok s :
  core_ok s -> mbim_resp_queue_full s = false -> 8 + sms_load s <= 512 ->
  exists s' msgs, mbim_emit_sms_read_indication s = Some s' /\ drained msgs s s' /\ cs_bridge s' = cs_bridge s.
Proof.
  intros H Hf Hload. unfold mbim_emit_sms_read_indication.
  assert (0 <= sum_of pdu_cost (core_pdus s)) as Hp.
  { apply sum_nonneg. intros p. unfold pdu_cost. pose proof (align4_nonneg (Z.of_nat (length p))). lia. }
  destruct (sms_indication_ok (dev_sms (cs_dev s)) (dok_sms _ (co_dev _ H)))
    as (ok & info & n & store & -> & Hs & Hi & Hn); [unfold sms_load in Hload; lia|]. ob.
  pose proof (drained_sms s store H Hs) as Hd1. set (s1 := s <| cs_dev := _ |>) in *.
  pose proof (dr_ok _ _ _ Hd1) as H1. destruct ok; [|by exists s1, []].
  unfold mbim_indications_emit_sms_read. destruct (n =? 0); [ob; by exists s1, []|].
  rewrite slice_in by lia. ob. set (data := take _ _).
  assert (length data = Z.to_nat n) as Hl by (subst data; rewrite length_take, length_drop; lia).
  destruct (decide (length data <= 468)%nat) as [Hle|Hgt].
  - destruct (queue_indication_ok s1 UUID_SMS MBIM_CID_SMS_READ data ltac:(done) ltac:(done) Hle)
      as (msg & Hmsg & E).
    assert (emits_one (queue_indication_uuid_cid s1 UUID_SMS MBIM_CID_SMS_READ data) s1 UUID_SMS
      MBIM_CID_SMS_READ (fun _ => True)) as Hem by (by exists data, msg).
    destruct (emit_drained _ _ _ _ _ H1 Hf Hem) as (s2 & pl & m & -> & _ & _ & Hd2 & Hb2 & _). ob.
    exists s2, ([] ++ [m]). split; [done|]. split; [by eapply drained_trans|]. by rewrite Hb2.
  - rewrite queue_indication_long by lia. ob. by exists s1, [].
Qed.

Lemma drain_qmux_ok s :
  core_ok s ->
  exists s' msgs, drain_qmux s = Some s' /\ drained msgs s s' /\ (length msgs <= 1)%nat
  /\ cs_bridge s' = cs_bridge s /\ cs_dev s' = cs_dev s
  /\ cs_pending_lte_attach s' = cs_pending_lte_attach s.
Proof.
  intros H. unfold drain_qmux. destruct (negb _ && _) eqn:Eg.
  2: { exists s, []. split; [done|]. split; [by apply drained_refl|]. split; [cbn; lia|done]. }
  apply andb_prop in Eg as [Hf%negb_true_iff _]. unfold mbim_vendor_qmux_take_pending_indication.
  destruct (co_qmux _ H) as [Hq1 Hq2].
  assert (forall ind q, (length (qx_sync_ind_buf q) = 64%nat /\ 0 <= qx_sync_ind_len q <= 64) ->
    (length (default [] ind) <= 64)%nat ->
    exists s' msgs, (s ← mbim_resp_enqueue (default [] ind) (s <| cs_qmux := q |>);
      Some (mbim_mark_notification_needed
            (s <| cs_qmux := (mbim_vendor_qmux_mark_indication_sent (cs_qmux s)) |>))) = Some s'
    /\ drained msgs s s' /\ (length msgs <= 1)%nat /\ cs_bridge s' = cs_bridge s /\ cs_dev s' = cs_dev s
    /\ cs_pending_lte_attach s' = cs_pending_lte_attach s) as Hgo.
  { intros ind q Hq Hl. set (s1 := s <| cs_qmux := q |>).
    assert (core_ok s1) as H1 by (core_fields H; exact Hq).
    destruct (default [] ind) as [|x data] eqn:Ed.
    - unfold mbim_resp_enqueue. cbn [length Nat.eqb]. ob. eexists _, []. split; [reflexivity|].
      split; [|split; [cbn; lia|done]]. split; [|done|done|by rewrite app_nil_r|done].
      core_fields H1. cbn. split; [exact (proj1 Hq)|lia].
    - destruct (resp_enqueue_ok (x :: data) s1 H1) as (s2 & E2 & H2 & Hs2 & Hi2);
        [unfold MBIM_ITEM_MAX; cbn [length] in *; lia|]. rewrite E2. ob.
      change (mbim_resp_queue_full s1) with (mbim_resp_queue_full s) in Hi2. rewrite Hf in Hi2.
      eexists _, [x :: data]. split; [reflexivity|]. split; [|split; [cbn; lia|]].
      + split; [|by rewrite Hs2|by rewrite Hs2|exact Hi2|done].
        core_fields H2. cbn. split; [exact (proj1 (co_qmux _ H2))|lia].
      + by rewrite Hs2. }
  destruct (negb (qx_sync_ind_pending _) || _ || _).
  - apply (Hgo None); [done|cbn; lia].
  - apply (Hgo (Some _)); [done|]. cbn. rewrite length_take. lia.
Qed.

Lemma drain_lte_ok s :
  core_ok s ->
  exists s' msgs, drain_lte_attach s = Some s' /\ drained msgs s s' /\ (length msgs <= 1)%nat
  /\ cs_bridge s' = cs_bridge s /\ cs_dev s' = cs_dev s.
Proof.
  intros H. unfold drain_lte_attach. destruct (negb _ && _) eqn:Eg.
  2: { exists s, []. split; [done|]. split; [by apply drained_refl|]. split; [cbn; lia|done]. }
  apply andb_prop in Eg as [Hf%negb_true_iff _].
  pose proof (lte_attach_indicated s (dev_state (cs_dev s)) (dok_state _ (co_dev _ H))) as Hi.
  destruct (emit_drained _ _ _ _ _ H Hf Hi) as (s2 & pl & m & -> & _ & _ & Hd2 & Hb2 & Hv2 & _). ob.
  eexists _, [m]. split; [reflexivity|]. split; [by apply pending_lte_drained|]. split; [cbn; lia|done].
Qed.

(** The burst of messages that is to be announced fits. *)
Definition sms_fits s : Prop := core_pdus s = [] \/ 8 + sms_load s <= 512.

Lemma drain_pending_eq s s1 s2 s3 s4 arrived :
  rg_empty (cs_held s) = true -> drain_qmux s = Some s1 -> drain_lte_attach s1 = Some s2 ->
  drain_bridge_indications 16 s2 = Some s3 -> drain_sms 16 false s3 = Some (arrived, s4) ->
  drain_pending_indications s
  = if arrived && negb (mbim_resp_queue_full s4) then mbim_emit_sms_read_indication s4 else Some s4.
Proof.
  intros E0 E1 E2 E3 E4. unfold drain_pending_indications. rewrite E0. change (negb true) with false.
  do 3 (eapply bind_some; [eassumption|]). eapply bind_some; [eassumption|]. reflexivity.
Qed.

(** Draining: when no command is held, at most two messages of the modem, then
    those of the bridge in their order, then those for the text messages. *)
Lemma drain_pending_ok s :
  core_ok s -> sms_fits s ->
  exists s' msgs, drain_pending_indications s = Some s' /\ drained msgs s s'
  /\ if rg_empty (cs_held s) then
       exists pre told post, msgs = pre ++ told ++ post /\ (length pre <= 2)%nat
       /\ let room := (15 - length (resp_items s) - length pre)%nat in
          Forall2 (says (dev_state (cs_dev s))) (take room (core_inds s)) told
     else s' = s.
Proof.
  intros H Hfits. destruct (rg_empty (cs_held s)) eqn:Ee.
  2: { exists s, []. split; [unfold drain_pending_indications; by rewrite Ee|]. by split; [apply drained_refl|]. }
  destruct (drain_qmux_ok s H) as (s1 & m1 & E1 & Hd1 & L1 & B1 & V1 & _).
  destruct (drain_lte_ok s1 (dr_ok _ _ _ Hd1)) as (s2 & m2 & E2 & Hd2 & L2 & B2 & V2).
  pose proof (drained_trans _ _ _ _ _ Hd1 Hd2) as Hd12. pose proof (dr_ok _ _ _ Hd12) as H2.
  pose proof (resp_room _ _ _ Hd12) as R2.
  assert (core_inds s2 = core_inds s /\ core_pdus s2 = core_pdus s) as [Hi2 Hp2]
    by (unfold core_inds, core_pdus; by rewrite B2, B1).
  assert ((length (core_inds s2) < 16)%nat /\ (length (core_pdus s2) < 16)%nat) as [Hl1 Hl2].
  { unfold core_inds, core_pdus, ind_items. destruct (cs_bridge s2) as [b|] eqn:Eb; [|cbn; lia].
    rewrite !rg_length. destruct (co_bridge _ H2 b Eb) as [_ _ Hi Hs _].
    pose proof (rg_count_lt _ _ Hi). pose proof (rg_count_lt _ _ Hs). unfold BRIDGE_QUEUE_SIZE in *. lia. }
  destruct (drain_bridge_ok 16 s2 H2 Hl1) as (s3 & m3 & E3 & Hd3 & V3 & P3 & Hsay & _).
  pose proof (dr_ok _ _ _ Hd3) as H3. rewrite <- P3 in Hl2.
  destruct (drain_sms_ok 16 false s3 H3 Hl2) as (arrived & s4 & m4 & E4 & Hd4 & Hload & Hnone).
  rewrite (drain_pending_eq s s1 s2 s3 s4 arrived Ee E1 E2 E3 E4).
  pose proof (drained_trans _ _ _ _ _ Hd12 (drained_trans _ _ _ _ _ Hd3 Hd4)) as Hd14.
  assert (forall m5, exists pre told post, (m1 ++ m2) ++ m3 ++ m4 ++ m5 = pre ++ told ++ post
    /\ (length pre <= 2)%nat
    /\ Forall2 (says (dev_state (cs_dev s))) (take (15 - length (resp_items s) - length pre) (core_inds s)) told)
    as Hsplit.
  { intros m5. exists (m1 ++ m2), m3, (m4 ++ m5). split; [done|]. rewrite length_app in *. split; [lia|].
    rewrite R2, V2, V1, Hi2 in Hsay. by rewrite <- Nat.sub_add_distr. }
  destruct (arrived && negb (mbim_resp_queue_full s4)) eqn:Ea.
  - apply andb_prop in Ea as [-> Hf%negb_true_iff].
    destruct (emit_sms_read_ok s4 (dr_ok _ _ _ Hd4) Hf) as (s5 & m5 & -> & Hd5 & _).
    { destruct Hfits as [Hno|Hc].
      - rewrite P3, Hp2 in Hnone. by destruct (Hnone Hno).
      - unfold sms_load in *. rewrite P3, V3, V2, V1, Hp2 in Hload. lia. }
    exists s5, (((m1 ++ m2) ++ m3 ++ m4) ++ m5). split; [done|]. split; [by eapply drained_trans|].
    rewrite <- !app_assoc. rewrite (app_assoc m1). apply Hsplit.
  - exists s4, ((m1 ++ m2) ++ m3 ++ m4). split; [done|]. split; [done|].
    pose proof (Hsplit []) as Hs0. by rewrite app_nil_r in Hs0.
Qed.
End Drain.
