(* ===== verification/CoreSteps.v ===== *)
(** The steps of the core: every control transfer, every tick and every round of
    the data threads returns and keeps the invariant of [CoreReach]. *)

From S2P Require Import Prelude CString InstanceConfig RanTransport RanLink UeTypes UeMm UeSm UserPlane UeContext EngineNas.
From S2P Require Import UeEngine EngineSafe DataPath EngineReach MbimNtb ModemState MbimWire MbimSms MbimHandlers MbimReports.
From S2P Require Import MbimStrings MbimCommands MbimIndications MbimIndicated Ring ApnContext StateBridge BridgeReach CoreMbim CoreReach.

#[local] Set Primitive Projections.

(** ** The answer to the QMI synchronisation *)

Lemma length_ctl_sync_response q7 q8 q9 : length (ctl_sync_response q7 q8 q9) = 19%nat.
Proof. done. Qed.

Lemma ctl_sync_done_ok tid cid service r :
  length service = 16%nat -> length r = 19%nat ->
  exists msg, ctl_sync_command_done tid cid service r = Some msg /\ length msg = 67%nat.
Proof.
  intros Hs Hr. unfold ctl_sync_command_done. rewrite Hr.
  match goal with |- context [fill ?m ?k] =>
    assert (exists out, fill m k = Some out /\ length out = k) as (out & -> & Ho) end.
  { apply fill_wp. repeat wp1. cbn [w_mem]. by rewrite !length_inserts, length_replicate. }
  ob. eexists. split; [reflexivity|]. rewrite length_take, Ho. done.
Qed.

Lemma ctl_sync_indication_ok cid : exists msg, ctl_sync_indication cid = Some msg /\ length msg = 56%nat.
Proof.
  unfold ctl_sync_indication.
  match goal with |- context [fill ?m ?k] =>
    assert (exists out, fill m k = Some out /\ length out = k) as (out & -> & Ho) end.
  { apply fill_wp. repeat wp1. cbn [w_mem]. by rewrite !length_inserts, length_replicate. }
  ob. eexists. split; [reflexivity|]. rewrite length_take, Ho. done.
Qed.

(** ** What a command leaves alone *)

(** The bridge after the actions of a command. *)
Definition bridge_after {I} (g g' : option (state_bridge I)) : Prop :=
  match g, g' with
  | Some b, Some b' => bridge_ok b' /\ sb_sms b' = sb_sms b
  | None, None => True
  | _, _ => False
  end.

(** A step that answers commands: the invariant, the burst of messages and the
    held commands. *)
Record answers_only {I} (s s' : core_state I) : Prop := {
  ao_ok : core_ok s';
  ao_load : sms_load s' <= sms_load s;
  ao_pdus : core_pdus s' = core_pdus s;
  ao_held : cs_held s' = cs_held s;
  ao_fds : (cs_gadget_fd s', cs_ep_int s', cs_ep_out s', cs_ep_in s')
           = (cs_gadget_fd s, cs_ep_int s, cs_ep_out s, cs_ep_in s);
  ao_get : cs_get_in_progress s = false -> cs_get_in_progress s' = false;
  ao_items : (ri_data <$> resp_items s) `prefix_of` (ri_data <$> resp_items s') }.

Lemma answers_only_trans {I} (s1 s2 s3 : core_state I) :
  answers_only s1 s2 -> answers_only s2 s3 -> answers_only s1 s3.
Proof. intros [A1 B1 C1 D1 E1 F1 G1] [A2 B2 C2 D2 E2 F2 G2]. split; [done|lia|congruence..|auto|by etrans]. Qed.

Lemma answers_only_fits {I} (s s' : core_state I) : answers_only s s' -> sms_fits s -> sms_fits s'.
Proof. intros [A B C _ _ _ _] [Hn|Hl]; [left; congruence|right; lia]. Qed.

Lemma thinned_cost l l' : sms_thinned l l' -> sum_of new_cost l' <= sum_of new_cost l.
Proof.
  intros (f & -> & Hf). induction l as [|e l IH]; [done|].
  change (new_cost (f e) + sum_of new_cost (f <$> l) <= new_cost e + sum_of new_cost l).
  enough (new_cost (f e) <= new_cost e) by lia. pose proof (new_cost_nonneg e).
  destruct (Hf e) as [->|[->| ->]]; [lia|apply Z.le_refl|done].
Qed.

Section Steps.
Variable sendto : nat -> sockaddr -> bytes -> Z.
Context {I : Type} `{!ImsService I}.
Implicit Types (s : core_state I) (g : option (state_bridge I)) (pf : platform).

Lemma bridge_actions_ok pf g :
  (forall b, g = Some b -> bridge_ok b) -> acts_ok (Some (bridge_actions sendto pf g)) g.
Proof.
  intros Hg. destruct g as [b|].
  2: { split; cbn; intros; simplify_eq; try by eexists. eexists _, _, _. split; [reflexivity|]. lia. }
  specialize (Hg b eq_refl). split; cbn [bridge_actions mbind option_bind act_request_register
    act_request_connect act_request_disconnect act_set_radio act_send_sms_ims]; intros f; intros; simplify_eq.
  - by eexists.
  - destruct (connect_total sendto b (Some apn) pf Hg) as (b' & -> & _). ob. by eexists.
  - destruct (disconnect_total sendto b pf Hg) as (b' & -> & _). ob. by eexists.
  - destruct (set_radio_total sendto b on pf Hg) as (b' & -> & _). ob. by eexists.
  - pose proof (ims_reference pdu (sb_ims b)) as Hr. cbn [state_bridge_send_sms_ims].
    destruct (ims_service_submit_sms pdu (sb_ims b)) as [[rc r] ims]. eexists _, _, _. by split.
Qed.

Lemma bridge_actions_keep pf g g0 :
  acts_keep (Some (bridge_actions sendto pf g)) (bridge_after g0).
Proof.
  assert (forall g' g2, bridge_after g0 g' ->
    (forall b, g' = Some b -> exists b', g2 = Some b' /\ bridge_ok b' /\ sb_sms b' = sb_sms b) ->
    (g' = None -> g2 = None) -> bridge_after g0 g2) as Hgo.
  { intros g' g2 Ha Hs Hn. destruct g' as [b|]; cbn in Ha.
    - destruct g0 as [b0|]; [|done]. destruct Ha as [_ Hb0].
      destruct (Hs b eq_refl) as (b' & -> & Hb' & E). split; [done|congruence].
    - by rewrite Hn. }
  assert (forall g' b, bridge_after g0 g' -> g' = Some b -> bridge_ok b) as Hok.
  { intros g' b Ha ->. destruct g0; [apply Ha|done]. }
  split; cbn [bridge_actions mbind option_bind act_request_register
    act_request_connect act_request_disconnect act_set_radio act_send_sms_ims]; intros f w; intros; simplify_eq.
  - eapply Hgo; [eassumption|intros b ->|by intros ->].
    destruct (register_total b) as (b' & E & Hb' & _ & _ & Hs); [by eapply Hok|]. by exists b'.
  - eapply Hgo; [eassumption|intros b ->|intros ->; by cbn in *; simplify_eq].
    destruct (connect_total sendto b (Some apn) pf) as (b' & E & Hb' & _ & _ & Hs); [by eapply Hok|].
    rewrite E in *. cbn [mbind option_bind] in *. simplify_eq. by exists b'.
  - eapply Hgo; [eassumption|intros b ->|intros ->; by cbn in *; simplify_eq].
    destruct (disconnect_total sendto b pf) as (b' & E & Hb' & _ & _ & Hs); [by eapply Hok|].
    rewrite E in *. cbn [mbind option_bind] in *. simplify_eq. by exists b'.
  - eapply Hgo; [eassumption|intros b ->|intros ->; by cbn in *; simplify_eq].
    destruct (set_radio_total sendto b on pf) as (b' & E & Hb' & _ & _ & Hs); [by eapply Hok|].
    rewrite E in *. cbn [mbind option_bind] in *. simplify_eq. by exists b'.
  - eapply Hgo; [eassumption|intros b ->|intros ->; by cbn in *; simplify_eq].
    cbn [state_bridge_send_sms_ims] in *. destruct (ims_service_submit_sms pdu (sb_ims b)) as [[rc' r'] ims].
    simplify_eq. eexists. split; [reflexivity|]. split; [|done].
    destruct (Hok _ _ ltac:(eassumption) eq_refl). by split.
Qed.

Lemma bridge_after_refl g : (forall b, g = Some b -> bridge_ok b) -> bridge_after g g.
Proof. intros H. destruct g as [b|]; [|done]. split; [by apply H|done]. Qed.

Lemma bridge_after_pdus g g' :
  bridge_after g g' ->
  match g' with Some b => rg_items BRIDGE_QUEUE_SIZE (sb_sms b) | None => [] end
  = match g with Some b => rg_items BRIDGE_QUEUE_SIZE (sb_sms b) | None => [] end.
Proof. destruct g, g'; cbn; intros H; try done. by destruct H as [_ ->]. Qed.

(** ** Commands *)

#[local] Existing Instance mbim_enqueue_response_blob | 0.

Lemma answers_refl s : core_ok s -> answers_only s s.
Proof. intros H. by split. Qed.

(** The doorbell. *)
Lemma notify_answers fd s : core_ok s -> answers_only s (mbim_try_send_deferred_notification fd s).
Proof.
  intros H. unfold mbim_try_send_deferred_notification, mbim_send_response_available_notification.
  destruct (_ || _); [by apply answers_refl|]. destruct (negb _); [by apply answers_refl|].
  destruct (cs_get_in_progress s); [by apply answers_refl|]. destruct (cs_notif_armed s); [by apply answers_refl|].
  destruct (negb _); [split; [core_fields H|done..]|].
  destruct (0 <=? cs_ep_int s); (split; [core_fields H|done..]).
Qed.

Lemma notify_items fd s : resp_items (mbim_try_send_deferred_notification fd s) = resp_items s.
Proof.
  unfold mbim_try_send_deferred_notification, mbim_send_response_available_notification. repeat case_match; done.
Qed.

Lemma mark_answers s : core_ok s -> answers_only s (mbim_mark_notification_needed s).
Proof. intros H. split; [core_fields H|done..]. Qed.

Lemma enqueue_answers data s :
  core_ok s -> (0 < length data <= MBIM_ITEM_MAX)%nat ->
  exists s', mbim_resp_enqueue data s = Some s' /\ answers_only s s'.
Proof.
  intros H Hd. destruct (resp_enqueue_ok data s H Hd) as (s' & E & Hok & Hs & Hi).
  exists s'. split; [done|]. assert ((ri_data <$> resp_items s) `prefix_of` (ri_data <$> resp_items s')) as Hx
    by (rewrite Hi; by eexists).
  split; [done|rewrite Hs; done..|exact Hx].
Qed.

(** The QMI synchronisation. *)
Lemma ctl_sync_ok (qmux : mbim_vendor_qmux_state) tid cid service q len s :
  core_ok s -> length (qx_sync_ind_buf qmux) = 64%nat /\ 0 <= qx_sync_ind_len qmux <= 64 ->
  length service = 16%nat -> (12 <= length q)%nat -> 12 <= len ->
  exists ok qmux' s', mbim_vendor_qmux_handle_ctl_sync qmux tid cid service (Some q) len s = Some (ok, qmux', s')
  /\ answers_only s s' /\ length (qx_sync_ind_buf qmux') = 64%nat /\ 0 <= qx_sync_ind_len qmux' <= 64.
Proof.
  intros H Hq Hs Hl Hlen. unfold mbim_vendor_qmux_handle_ctl_sync. replace (len <? 12) with false by lia.
  destruct (lookup_lt_is_Some_2 q 7) as [q7 ->]; [lia|]. destruct (lookup_lt_is_Some_2 q 8) as [q8 ->]; [lia|].
  destruct (lookup_lt_is_Some_2 q 9) as [q9 ->]; [lia|]. ob.
  destruct (ctl_sync_done_ok tid cid service (ctl_sync_response q7 q8 q9) Hs (length_ctl_sync_response q7 q8 q9))
    as (msg & -> & Hm). ob. unfold enqueue, mbim_enqueue_response_blob.
  destruct (mbim_resp_queue_full s).
  { ob. cbn [negb]. eexists _, _, _. split; [reflexivity|]. by split; [apply answers_refl|]. }
  destruct (enqueue_answers msg s H) as (s' & -> & Ha); [unfold MBIM_ITEM_MAX; lia|]. ob. cbn [negb].
  destruct (negb (qx_sync_ind_sent qmux)).
  - destruct (ctl_sync_indication_ok cid) as (ind & -> & Hi). ob. eexists _, _, _. split; [reflexivity|].
    split; [done|]. cbn [qx_sync_ind_buf qx_sync_ind_len set_field]. split; [rewrite length_over; lia|lia].
  - eexists _, _, _. split; [reflexivity|]. by split.
Qed.

(** What [prepare_mbim_response] leaves in the buffer of the response. *)
Definition resp_ready s : Prop := cs_resp_len s = 0 \/ 0 < cs_resp_len s <= 4096.

Lemma handle_command_answers pf s :
  core_ok s -> exists s', handle_command_msg sendto pf s = Some s' /\ answers_only s s'.
Proof.
  intros H. unfold handle_command_msg. destruct (cs_cmd_len s <? 48) eqn:El.
  { eexists. split; [reflexivity|]. split; [core_fields H; cbn; lia|done..]. }
  pose proof (co_cmd _ H) as [Hc1 Hc2]. pose proof (co_cmd_len _ H) as Hc3.
  assert (command_ok (cs_cmd s) (cs_cmd_len s)) as Hcmd by (split; [done..|lia]).
  pose proof (bridge_actions_ok pf (cs_bridge s) (co_bridge _ H)) as Hacts.
  destruct (handle_command_ok (Some (bridge_actions sendto pf (cs_bridge s))) (cs_dev s) (cs_bridge s)
    (cs_cmd s) (cs_cmd_len s) (cs_resp s) (cs_resp_len s) Hacts (co_dev _ H) Hcmd (co_resp _ H))
    as (o & Eo & Hret & Hdev & Hev).
  pose proof (handle_command_sms _ _ _ _ _ _ _ _ (co_dev _ H) Hcmd (co_resp _ H) Eo) as Hsms.
  pose proof (handle_command_world _ _ (bridge_actions_keep pf (cs_bridge s) (cs_bridge s)) _ _ _ _ _ _ _ Eo
    (bridge_after_refl _ (co_bridge _ H))) as Hw.
  rewrite Eo. ob. rewrite Hret.
  set (s1 := s <| cs_dev := _ |> <| cs_bridge := _ |> <| cs_resp := _ |> <| cs_resp_len := _ |>).
  assert (0 <= mo_resp_len o <= 4096 /\ length (mo_resp o) = 4096%nat) as [Hn Hr].
  { destruct (mo_event o); [destruct Hev as (_ & -> & -> & _); split; [lia|apply H]|].
    destruct Hev as (status & _ & [Hsz Hlen _ _ _ _ _ _ _ _]). split; [lia|done]. }
  assert (answers_only s s1) as H1.
  { split; [|pose proof (thinned_cost _ _ Hsms) as Ht; unfold sms_load; cbn [s1 cs_dev set_field];
             rewrite (bridge_after_pdus _ _ Hw : core_pdus s1 = core_pdus s); lia
            |exact (bridge_after_pdus _ _ Hw)|done..].
    core_fields H; [|exact Hdev|exact Hr|exact Hn].
    intros b Hb. change (mo_world o = Some b) in Hb. rewrite Hb in Hw. destruct (cs_bridge s); [apply Hw|done]. }
  clearbody s1. destruct (mo_event o) as [ev|]; [|by exists s1].
  destruct Hev as (_ & _ & _ & len & Hlen & ->). cbn [ve_tid ve_cid ve_qmi_payload ve_qmi_payload_len].
  pose proof (ao_ok _ _ H1) as Hok1. pose proof (co_cmd _ Hok1) as [Hcl _].
  destruct (ctl_sync_ok (cs_qmux s1) (field32 (cs_cmd s) 8) (field32 (cs_cmd s) 36)
    (bytes_at (cs_cmd s1) 20 16) (drop 48 (cs_cmd s)) len s1 Hok1 (co_qmux _ Hok1))
    as (ok & qmux & s2 & E2 & H2 & Hq1 & Hq2);
    [apply length_bytes_at; lia|rewrite length_drop; lia|exact Hlen|].
  rewrite E2. ob. set (s3 := s2 <| cs_qmux := qmux |>).
  assert (answers_only s2 s3) as H3 by (split; [core_fields (ao_ok _ _ H2); by split|done..]).
  pose proof (answers_only_trans _ _ _ H1 (answers_only_trans _ _ _ H2 H3)) as H13.
  destruct ok; [|by exists s3]. eexists. split; [reflexivity|].
  eapply answers_only_trans; [exact H13|]. eapply answers_only_trans; [apply mark_answers, H13|].
  apply notify_answers. apply mark_answers, H13.
Qed.

Lemma short_answers ty tid s :
  core_ok s -> exists s', short_response ty tid s = Some s' /\ answers_only s s'.
Proof.
  intros H. unfold short_response, run_wire. pose proof (co_resp _ H) as Hr.
  assert (wp (put_le32 0 ty ;; put_le32 4 16 ;; put_le32 8 tid ;; put_le32 12 MBIM_STATUS_SUCCESS)
    (Wire (cs_resp s) 0 0 0 0 false) (fun _ b => length (w_mem b) = 4096%nat)) as Hw
    by (repeat wp1; cbn [w_mem]; by rewrite !length_inserts).
  unfold wp in Hw. destruct ((put_le32 0 ty ;; _) _) as [[u b]|]; [|done]. ob.
  eexists. split; [reflexivity|]. split; [core_fields H; [exact Hw|cbn; lia]|done..].
Qed.

Lemma qmux_reset_answers s : core_ok s -> answers_only s (reset_qmi_ctl_sync_state s).
Proof. intros H. split; [core_fields H|done..]. cbn. split; [apply (proj1 (co_qmux _ H))|lia]. Qed.

Lemma reset_answers s : core_ok s -> answers_only s (reset_mbim_standard_indication_state s).
Proof. intros H. split; [core_fields H|done..]. Qed.

(** Every command is prepared. *)
Lemma prepare_answers pf s :
  core_ok s -> exists s', prepare_mbim_response sendto pf s = Some s' /\ answers_only s s'.
Proof.
  intros H. unfold prepare_mbim_response. pose proof (co_cmd _ H) as [Hc _].
  destruct (cs_cmd_len s <? 12); [exists s; split; [done|by apply answers_refl]|].
  rewrite !get_le32_in by lia. ob. set (s1 := s <| cs_resp_len := 0 |>).
  assert (answers_only s s1) as H1 by (split; [core_fields H; cbn; lia|done..]).
  pose proof (ao_ok _ _ H1) as Hok1.
  pose proof (qmux_reset_answers s1 Hok1) as Hq. destruct (_ =? MBIM_OPEN_MSG).
  { destruct (short_answers MBIM_OPEN_DONE (field32 (cs_cmd s) 8) _ (ao_ok _ _ Hq)) as (s2 & -> & H2).
    exists s2. split; [done|]. eapply answers_only_trans; [exact H1|]. by eapply answers_only_trans. }
  destruct (_ =? MBIM_CLOSE_MSG).
  { pose proof (reset_answers _ (ao_ok _ _ Hq)) as Hr.
    destruct (short_answers MBIM_CLOSE_DONE (field32 (cs_cmd s) 8) _ (ao_ok _ _ Hr)) as (s2 & -> & H2).
    exists s2. split; [done|]. eapply answers_only_trans; [exact H1|].
    eapply answers_only_trans; [exact Hq|]. by eapply answers_only_trans. }
  destruct (_ =? MBIM_COMMAND_MSG); [|by exists s1].
  destruct (handle_command_answers pf s1 Hok1) as (s2 & -> & H2). exists s2. split; [done|].
  by eapply answers_only_trans.
Qed.

Lemma queue_answers s :
  core_ok s -> exists s', queue_prepared_response s = Some s' /\ answers_only s s'.
Proof.
  intros H. unfold queue_prepared_response. pose proof (co_resp _ H) as Hr. pose proof (co_resp_len _ H).
  destruct (0 <? cs_resp_len s) eqn:E; [|exists s; split; [done|by apply answers_refl]].
  rewrite slice_in by lia. ob.
  destruct (enqueue_answers (take (Z.to_nat (cs_resp_len s)) (drop 0 (cs_resp s))) s H) as (s' & -> & Ha).
  { rewrite length_take, length_drop. unfold MBIM_ITEM_MAX. lia. }
  ob. eexists. split; [reflexivity|]. eapply answers_only_trans; [exact Ha|]. apply mark_answers, Ha.
Qed.

(** A command that was held is answered. *)
Lemma held_answers pf s :
  core_ok s ->
  exists s', mbim_process_held_command sendto pf s = Some s' /\ core_ok s'
  /\ sms_load s' <= sms_load s /\ core_pdus s' = core_pdus s.
Proof.
  intros H. unfold mbim_process_held_command, mbim_held_dequeue.
  pose proof (rg_empty_items _ _ (co_held _ H)) as Hz. pose proof (co_held_items _ H) as Hf.
  destruct (rg_empty (cs_held s)) eqn:Ez; [ob; by exists s|].
  destruct (rg_items MBIM_HELD_QUEUE_SIZE (cs_held s)) as [|d l] eqn:Ei; [by discriminate (proj2 Hz eq_refl)|].
  destruct (rg_pop_items MBIM_HELD_QUEUE_SIZE (fun _ => []) d l _ (co_held _ H) Ei) as (-> & Hr & Hl). ob.
  apply Forall_cons in Hf as [[Hd1 Hd2] Hf]. pose proof (co_cmd _ H) as [Hc1 Hc2].
  set (s1 := s <| cs_held := _ |> <| cs_cmd := _ |> <| cs_cmd_len := _ |>).
  assert (core_ok s1) as H1.
  { core_fields H.
    - unfold MBIM_ITEM_MAX in Hd1.
      change (length (over d (cs_cmd s)) = 4096%nat /\ Forall is_byte (over d (cs_cmd s))).
      split; [rewrite length_over; lia|].
      apply Forall_app. split; [done|]. by apply Forall_drop.
    - change (0 <= Z.of_nat (length d) <= 4096). unfold MBIM_ITEM_MAX in Hd1. lia.
    - exact Hr.
    - change (Forall held_ok (rg_items MBIM_HELD_QUEUE_SIZE (rg_pop MBIM_HELD_QUEUE_SIZE (fun _ => []) (cs_held s)))).
      by rewrite Hl. }
  destruct (prepare_answers pf s1 H1) as (s2 & -> & H2). ob.
  destruct (queue_answers s2 (ao_ok _ _ H2)) as (s3 & -> & H3).
  pose proof (answers_only_trans _ _ _ H2 H3) as [A B C _ _ _ _]. by exists s3.
Qed.

(** The answer of a command that is not the QMUX synchronisation. *)
Lemma handle_command_done pf s :
  core_ok s -> 48 <= cs_cmd_len s -> ~ ctl_sync_command (cs_cmd s) (cs_cmd_len s) ->
  exists s' status, handle_command_msg sendto pf s = Some s' /\ answers_only s s'
  /\ resp_items s' = resp_items s /\ command_done (cs_cmd s) (cs_resp s') (cs_resp_len s') status.
Proof.
  intros H Hl Hsync. destruct (handle_command_answers pf s H) as (s' & E & Ha).
  pose proof (co_cmd _ H) as [Hc1 Hc2]. pose proof (co_cmd_len _ H) as Hc3.
  assert (command_ok (cs_cmd s) (cs_cmd_len s)) as Hcmd by (split; [done..|lia]).
  destruct (handle_command_ok (Some (bridge_actions sendto pf (cs_bridge s))) (cs_dev s) (cs_bridge s)
    (cs_cmd s) (cs_cmd_len s) (cs_resp s) (cs_resp_len s) (bridge_actions_ok pf (cs_bridge s) (co_bridge _ H))
    (co_dev _ H) Hcmd (co_resp _ H)) as (o & Eo & Ho).
  pose proof (ctl_sync_event _ _ _ _ _ _ _ _ Hcmd Ho Eo) as Hev. destruct Ho as (Hret & _ & Ho).
  revert E. unfold handle_command_msg. replace (cs_cmd_len s <? 48) with false by lia. rewrite Eo. ob. rewrite Hret.
  destruct (mo_event o) as [ev|]; [destruct Hsync; by apply Hev|]. destruct Ho as (status & _ & Hd).
  intros [= <-]. eexists _, status. split; [reflexivity|]. split; [exact Ha|]. split; [reflexivity|exact Hd].
Qed.

Lemma command_queued pf s :
  core_ok s -> 48 <= cs_cmd_len s -> field32 (cs_cmd s) 0 = MBIM_COMMAND_MSG ->
  ~ ctl_sync_command (cs_cmd s) (cs_cmd_len s) ->
  exists s2 s3 mem n status, prepare_mbim_response sendto pf s = Some s2
  /\ queue_prepared_response s2 = Some s3 /\ answers_only s s3
  /\ command_done (cs_cmd s) mem n status
  /\ ri_data <$> resp_items s3 = (ri_data <$> resp_items s)
       ++ (if (length (resp_items s) =?n 15) then [] else [take (Z.to_nat n) mem]).
Proof.
  intros H Hl Hty Hsync. pose proof (co_cmd _ H) as [Hc _]. unfold prepare_mbim_response.
  replace (cs_cmd_len s <? 12) with false by lia. rewrite !get_le32_in by lia. ob. rewrite Hty.
  change (MBIM_COMMAND_MSG =? MBIM_OPEN_MSG) with false. change (MBIM_COMMAND_MSG =? MBIM_CLOSE_MSG) with false.
  change (MBIM_COMMAND_MSG =? MBIM_COMMAND_MSG) with true. cbv iota. set (s1 := s <| cs_resp_len := 0 |>).
  assert (answers_only s s1) as H1 by (split; [core_fields H; cbn; lia|done..]).
  destruct (handle_command_done pf s1 (ao_ok _ _ H1) Hl Hsync) as (s2 & status & E & H2 & Hi & Hd).
  exists s2. destruct (queue_answers s2 (ao_ok _ _ H2)) as (s3 & E3 & H3).
  exists s3, (cs_resp s2), (cs_resp_len s2), status. split; [exact E|]. split; [exact E3|].
  split; [eapply answers_only_trans; [exact H1|]; by eapply answers_only_trans|]. split; [exact Hd|].
  pose proof (cd_size _ _ _ _ Hd) as Hn. pose proof (co_resp _ (ao_ok _ _ H2)) as Hr.
  unfold queue_prepared_response in E3. replace (0 <? cs_resp_len s2) with true in E3 by lia.
  rewrite slice_in in E3 by lia. cbn [mbind option_bind] in E3. rewrite drop_0 in E3.
  destruct (resp_enqueue_ok (take (Z.to_nat (cs_resp_len s2)) (cs_resp s2)) s2 (ao_ok _ _ H2)) as (s4 & E4 & _ & _ & Hq).
  { rewrite length_take. unfold MBIM_ITEM_MAX. lia. }
  rewrite E4 in E3. injection E3 as <-. change (resp_items (mbim_mark_notification_needed s4)) with (resp_items s4).
  rewrite Hq, (resp_full_items s2 (ao_ok _ _ H2)), Hi. reflexivity.
Qed.

(** Holding a command. *)
Lemma hold_ok d s :
  core_ok s -> (length d <= MBIM_ITEM_MAX)%nat -> Forall is_byte d ->
  core_ok (mbim_hold_command d s) /\ mbim_hold_command d s = s <| cs_held := (cs_held (mbim_hold_command d s)) |>.
Proof.
  intros H Hl Hb. unfold mbim_hold_command. destruct (rg_full _ _) eqn:Ef; [by split; [|destruct s]|].
  rewrite take_ge by done.
  destruct (rg_put_items MBIM_HELD_QUEUE_SIZE d (cs_held s) (co_held _ H) Ef) as [Hr Hi].
  split; [|done]. core_fields H; [exact Hr|]. cbn [cs_held set_field]. rewrite Hi.
  apply Forall_app. split; [apply H|]. by constructor.
Qed.

(** ** The commands that wait *)

Definition is_response (i : mbim_resp_item) : bool :=
  negb (msg_type_of (ri_data i) =? MBIM_INDICATE_STATUS_MSG).

Lemma has_response_items (q : ring mbim_resp_item) fuel k :
  rg_ok 16 q -> (k <= rg_count 16 q)%nat -> (rg_count 16 q - k < fuel)%nat ->
  has_command_response fuel q (rg_at 16 q k) = Some (existsb is_response (drop k (rg_items 16 q))).
Proof.
  clear sendto. intros Hok. revert k. pose proof Hok as [Hs Hh Ht].
  pose proof (rg_length 16 q) as Hl. pose proof (rg_count_lt 16 q Hok) as Hc.
  induction fuel as [|fuel IH]; intros k Hk Hf; [lia|]. cbn [has_command_response].
  destruct (Nat.eq_dec k (rg_count 16 q)) as [->|Hne].
  - rewrite drop_ge by lia.
    replace (rg_at 16 q (rg_count 16 q)) with (rg_tail q) by (revert Hh Ht; clear; intros; ring_arith).
    by rewrite Nat.eqb_refl.
  - assert (k < rg_count 16 q)%nat as Hk' by lia.
    replace (rg_at 16 q k =?n rg_tail q) with false
      by (symmetry; apply Nat.eqb_neq; revert Hk' Hh Ht; clear; intros; ring_arith).
    rewrite <- (rg_lookup 16 q k Hok Hk').
    destruct (lookup_lt_is_Some_2 (rg_items 16 q) k) as [x Hx]; [lia|]. rewrite Hx. ob.
    rewrite (drop_S _ _ _ Hx). cbn [existsb]. fold (is_response x).
    destruct (is_response x); [done|]. cbn [orb]. unfold MBIM_RESP_QUEUE_SIZE.
    replace (rg_next 16 (rg_at 16 q k)) with (rg_at 16 q (S k))
      by (revert Hk' Hh Ht; clear; intros; ring_arith).
    apply IH; lia.
Qed.

Lemma has_response_ok s :
  core_ok s -> mbim_resp_has_command_response s = Some (existsb is_response (resp_items s)).
Proof.
  clear sendto. intros H. unfold mbim_resp_has_command_response, resp_items, MBIM_RESP_QUEUE_SIZE.
  pose proof (co_respq _ H) as Hq. unfold MBIM_RESP_QUEUE_SIZE in Hq. pose proof (rg_count_lt _ _ Hq).
  pose proof (has_response_items (cs_respq s) 17 0 Hq ltac:(lia) ltac:(lia)) as E. rewrite drop_0 in E.
  rewrite <- E. f_equal. unfold rg_at. rewrite Nat.add_0_r. symmetry. apply Nat.mod_small, Hq.
Qed.

(** ** The control transfers and the tick *)

Definition pf_ok pf : Prop := 0 <= pf_now_ms pf < 2 ^ 63.

Lemma send_command_ok fd io w_length pf s :
  core_ok s -> length io = 4096%nat -> Forall is_byte io -> 0 <= w_length ->
  exists s', core_on_send_encapsulated_command sendto fd io w_length pf s = Some s' /\ core_ok s'
  /\ (ri_data <$> resp_items s) `prefix_of` (ri_data <$> resp_items s')
  /\ (cs_get_in_progress s = false -> cs_get_in_progress s' = false).
Proof.
  intros H Hl Hb Hw. unfold core_on_send_encapsulated_command.
  set (n := if 4096 <? w_length then 4096 else w_length).
  assert (0 <= n <= 4096) as Hn by (subst n; destruct (4096 <? w_length) eqn:E; lia). clearbody n.
  rewrite slice_in by lia. ob. set (data := take (Z.to_nat n) (drop 0 io)).
  assert (length data = Z.to_nat n) as Hd by (subst data; rewrite length_take, length_drop; lia).
  assert (Forall is_byte data) as Hdb by (by apply Forall_take, Forall_drop). clearbody data.
  pose proof (co_cmd _ H) as [Hc1 Hc2].
  set (s1 := s <| cs_cmd_len := n |> <| cs_cmd := over data (cs_cmd s) |>).
  assert (resp_items s1 = resp_items s /\ cs_get_in_progress s1 = cs_get_in_progress s) as [<- <-] by done.
  assert (core_ok s1) as H1.
  { core_fields H; [|exact Hn].
    change (length (over data (cs_cmd s)) = 4096%nat /\ Forall is_byte (over data (cs_cmd s))).
    split; [rewrite length_over; lia|]. apply Forall_app. split; [done|]. by apply Forall_drop. }
  pose proof (co_cmd _ H1) as [Hc3 _].
  assert (exists ty, (if 4 <=? n then get_le32 (cs_cmd s1) 0 else Some 0) = Some ty) as [ty ->]
    by (destruct (4 <=? n); [rewrite get_le32_in by lia|]; by eexists). ob.
  assert (exists hold, (if ty =? MBIM_COMMAND_MSG then mbim_resp_has_command_response s1 else Some false)
    = Some hold) as [hold ->] by (destruct (ty =? _); [rewrite has_response_ok by done|]; by eexists). ob.
  destruct hold.
  { eexists. split; [reflexivity|].
    destruct (hold_ok data s1) as [Hh Heq]; [done|unfold MBIM_ITEM_MAX; lia|done|].
    split; [exact Hh|]. rewrite Heq. by split. }
  destruct (prepare_answers pf s1 H1) as (s2 & -> & H2). ob.
  destruct (queue_answers s2 (ao_ok _ _ H2)) as (s3 & -> & H3). ob.
  eexists. split; [reflexivity|].
  destruct (answers_only_trans _ _ _ H2 (answers_only_trans _ _ _ H3 (notify_answers fd s3 (ao_ok _ _ H3)))).
  by split.
Qed.

(** A command is held behind a response, and answered otherwise. *)
Lemma send_decides fd io w_length pf s :
  core_ok s -> length io = 4096%nat -> Forall is_byte io -> 48 <= w_length ->
  let n := Z.min w_length 4096 in
  let data := take (Z.to_nat n) io in
  let cmd := over data (cs_cmd s) in
  field32 cmd 0 = MBIM_COMMAND_MSG -> ~ ctl_sync_command cmd n ->
  exists s', core_on_send_encapsulated_command sendto fd io w_length pf s = Some s'
  /\ if existsb is_response (resp_items s)
     then ri_data <$> resp_items s' = ri_data <$> resp_items s
          /\ rg_items MBIM_HELD_QUEUE_SIZE (cs_held s') = rg_items MBIM_HELD_QUEUE_SIZE (cs_held s)
               ++ (if (length (rg_items MBIM_HELD_QUEUE_SIZE (cs_held s)) =?n 15) then [] else [data])
     else cs_held s' = cs_held s
          /\ exists mem len status, command_done cmd mem len status
             /\ ri_data <$> resp_items s' = (ri_data <$> resp_items s)
                  ++ (if (length (resp_items s) =?n 15) then [] else [take (Z.to_nat len) mem]).
Proof.
  intros H Hl Hb Hw n data cmd Hty Hsync. unfold core_on_send_encapsulated_command.
  replace (if 4096 <? w_length then 4096 else w_length) with n by (subst n; destruct (4096 <? w_length) eqn:E; lia).
  assert (48 <= n <= 4096) as Hn by (subst n; lia). clearbody n.
  rewrite slice_in by lia. ob. rewrite drop_0. fold data.
  assert (length data = Z.to_nat n) as Hd by (subst data; rewrite length_take; lia).
  assert (Forall is_byte data) as Hdb by (by apply Forall_take).
  pose proof (co_cmd _ H) as [Hc1 Hc2]. fold cmd.
  set (s1 := s <| cs_cmd_len := n |> <| cs_cmd := cmd |>).
  assert (core_ok s1) as H1.
  { core_fields H; [|change (0 <= n <= 4096); lia]. change (length cmd = 4096%nat /\ Forall is_byte cmd). subst cmd.
    split; [rewrite length_over; lia|]. apply Forall_app. split; [done|]. by apply Forall_drop. }
  assert (length (cs_cmd s1) = 4096%nat) as Hc3 by apply (co_cmd _ H1).
  replace (4 <=? n) with true by lia. rewrite get_le32_in by (change (cs_cmd s1) with cmd in *; lia). ob.
  change (field32 cmd 0) with (field32 (cs_cmd s1) 0) in Hty.
  change (~ ctl_sync_command (cs_cmd s1) (cs_cmd_len s1)) in Hsync.
  change (field32 (if true then cs_cmd s1 else cs_cmd s1) 0) with (field32 (cs_cmd s1) 0). rewrite Hty.
  change (MBIM_COMMAND_MSG =? MBIM_COMMAND_MSG) with true. cbv iota. rewrite has_response_ok by done. ob.
  change (resp_items s1) with (resp_items s). destruct (existsb is_response (resp_items s)).
  - eexists. split; [reflexivity|]. change (cs_held s) with (cs_held s1).
    destruct (hold_ok data s1) as [_ Heq]; [done|unfold MBIM_ITEM_MAX; lia|done|]. split; [by rewrite Heq|].
    unfold mbim_hold_command. pose proof (rg_full_items _ _ (co_held _ H1)) as Hf.
    destruct (rg_full MBIM_HELD_QUEUE_SIZE (cs_held s1)) eqn:Ef.
    + pose proof (proj1 Hf eq_refl) as Hlen. unfold MBIM_HELD_QUEUE_SIZE in *.
      replace (length (rg_items 16 (cs_held s1)) =?n 15) with true by (symmetry; apply Nat.eqb_eq; lia).
      by rewrite app_nil_r.
    + destruct (rg_put_items MBIM_HELD_QUEUE_SIZE (take MBIM_ITEM_MAX data) (cs_held s1) (co_held _ H1) Ef) as [_ Hi].
      change (rg_items MBIM_HELD_QUEUE_SIZE (rg_put MBIM_HELD_QUEUE_SIZE (take MBIM_ITEM_MAX data) (cs_held s1))
        = rg_items MBIM_HELD_QUEUE_SIZE (cs_held s1)
          ++ (if (length (rg_items MBIM_HELD_QUEUE_SIZE (cs_held s1)) =?n 15) then [] else [data])).
      rewrite Hi, take_ge by (unfold MBIM_ITEM_MAX; lia). f_equal.
      destruct (Nat.eqb_spec (length (rg_items MBIM_HELD_QUEUE_SIZE (cs_held s1))) 15) as [E|]; [|done].
      discriminate (proj2 Hf ltac:(unfold MBIM_HELD_QUEUE_SIZE in *; lia)).
  - destruct (command_queued pf s1 H1) as (s2 & s3 & mem & len & status & -> & E3 & Ha & Hdone & Hq);
      [change (48 <= n); lia|exact Hty|exact Hsync|]. ob. rewrite E3. ob.
    eexists. split; [reflexivity|]. pose proof (notify_answers fd s3 (ao_ok _ _ Ha)) as Hn3.
    split; [by rewrite (ao_held _ _ Hn3), (ao_held _ _ Ha)|]. exists mem, len, status. split; [exact Hdone|].
    rewrite notify_items. exact Hq.
Qed.

(** A read takes the oldest message and leaves the others in their order. *)
Lemma get_response_ok pf s :
  core_ok s -> sms_fits s ->
  exists s' new, core_on_get_encapsulated_response sendto pf s = Some (hd [] (ri_data <$> resp_items s), s')
  /\ core_ok s' /\ ri_data <$> resp_items s' = tail (ri_data <$> resp_items s) ++ new
  /\ cs_get_in_progress s' = false.
Proof.
  intros H Hfits. unfold core_on_get_encapsulated_response.
  destruct (resp_dequeue_ok s H) as (resp & s1 & -> & H1 & Hs1 & Hr). ob.
  assert (resp = hd [] (ri_data <$> resp_items s)
    /\ ri_data <$> resp_items s1 = tail (ri_data <$> resp_items s)) as [-> R1]
    by (destruct (resp_items s) as [|x l] eqn:Ei; [destruct Hr as [-> ->]; by rewrite Ei|
        destruct Hr as [-> Hl]; cbn [hd tail fmap list_fmap]; by rewrite Hl]).
  clear Hr. assert (sms_fits s1) as F1 by (rewrite Hs1; exact Hfits). clear Hs1.
  set (s2 := s1 <| cs_get_in_progress := true |> <| cs_notif_armed := false |>).
  assert (core_ok s2 /\ sms_fits s2 /\ ri_data <$> resp_items s2 = tail (ri_data <$> resp_items s))
    as (H2 & F2 & R2) by (split; [core_fields H1|by split]).
  clearbody s2. clear s1 H1 R1 F1.
  assert (exists s3 new, (if rg_empty (cs_respq s2) && negb (rg_empty (cs_held s2))
    then mbim_process_held_command sendto pf s2 else Some s2) = Some s3 /\ core_ok s3 /\ sms_fits s3
    /\ ri_data <$> resp_items s3 = (ri_data <$> resp_items s2) ++ new)
    as (s3 & new3 & E3 & H3 & F3 & R3).
  { destruct (rg_empty (cs_respq s2)) eqn:Ez; [|exists s2, []; by rewrite app_nil_r].
    destruct (negb _); [|exists s2, []; by rewrite app_nil_r].
    destruct (held_answers pf s2 H2) as (s3 & E & H3 & A & B).
    exists s3, (ri_data <$> resp_items s3). split; [exact E|]. split; [done|].
    split; [destruct F2 as [F|F]; [left; congruence|right; lia]|].
    unfold resp_items at 2. by rewrite (proj1 (rg_empty_items _ _ (co_respq _ H2)) Ez). }
  rewrite E3. ob. destruct (drain_pending_ok s3 H3 F3) as (s4 & msgs & -> & Hd & _). ob.
  pose proof (dr_items _ _ _ Hd) as R4.
  set (s5 := s4 <| cs_get_in_progress := false |>).
  assert (core_ok s5 /\ resp_items s5 = resp_items s4 /\ cs_get_in_progress s5 = false) as (H5 & R5 & G5)
    by (split; [core_fields (dr_ok _ _ _ Hd)|done]).
  clearbody s5. exists (if mbim_resp_pending s5 then mbim_mark_notification_needed s5 else s5), (new3 ++ msgs).
  split; [done|]. split; [destruct (mbim_resp_pending s5); [apply (ao_ok _ _ (mark_answers s5 H5))|done]|].
  rewrite <- R2, app_assoc, <- R3, <- R4, <- R5. by destruct (mbim_resp_pending s5).
Qed.

(** The poll before a drain: what the engine has become is published, and the
    messages waiting are the same. *)
Lemma core_poll_ok pf s :
  core_ok s -> pf_ok pf ->
  exists rc g ms, state_bridge_poll sendto CALL_FUEL (cs_bridge s) (dev_state (cs_dev s)) pf = Some (rc, g, ms)
  /\ modem_state_ok ms
  /\ match cs_bridge s with
     | None => g = None
     | Some b => exists b', g = Some b' /\ bridge_ok b' /\ sb_sms b' = sb_sms b
                 /\ ms = publish_snapshot (sb_prev b') /\ sb_prev b' = context_snapshot (sb_engine b')
                 /\ ind_items b' = spec_transitions (sb_prev b) (sb_prev b') (ind_items b)
     end.
Proof.
  intros H Hpf. unfold state_bridge_poll. destruct (cs_bridge s) as [b|] eqn:Eb.
  - destruct (poll_total sendto b (dev_state (cs_dev s)) pf (co_bridge _ H b Eb) Hpf)
      as (b' & -> & Hb' & Hi & Hp & Hs). ob.
    eexists _, _, _. split; [reflexivity|]. split; [apply publish_snapshot_ok|]. by exists b'.
  - eexists _, _, _. split; [reflexivity|]. split; [apply (co_dev _ H)|done].
Qed.

(** The state after the poll of a tick. *)
Definition core_polled g (ms : modem_state) s : core_state I :=
  s <| cs_bridge := g |> <| cs_dev := ((cs_dev s) <| dev_state := ms |>) |>
    <| cs_connect_activated := (ms_connect_activated ms) |>
    <| cs_connect_session_id := (ms_connect_session_id ms) |>.

(** The doorbell rings once for what is queued, unless it has rung already. *)
Lemma notify_rings fd s :
  core_ok s -> resp_items s <> [] -> 0 <= fd -> 0 <= cs_ep_int s -> cs_get_in_progress s = false ->
  let s' := mbim_try_send_deferred_notification fd (mbim_mark_notification_needed s) in
  cs_notif_armed s' = true /\ resp_items s' = resp_items s
  /\ cs_bells s' = cs_bells s ++ (if cs_notif_armed s then [] else ri_id <$> take 1 (resp_items s)).
Proof.
  clear sendto ImsService0. intros H Hne Hfd Hep Hg. cbv zeta.
  pose proof (resp_pending_items s H) as Hp. unfold resp_items in *. pose proof (co_respq _ H) as Hq.
  destruct (rg_items MBIM_RESP_QUEUE_SIZE (cs_respq s)) as [|x l] eqn:Ei; [done|].
  destruct (rg_pop_items MBIM_RESP_QUEUE_SIZE (fun _ => RespItem [] 0) x l _ Hq Ei) as (Hx & _).
  unfold mbim_try_send_deferred_notification, mbim_mark_notification_needed.
  set (m := s <| cs_notif_pending := true |>). assert (cs_ep_int m = cs_ep_int s /\ cs_notif_pending m = true
    /\ cs_get_in_progress m = cs_get_in_progress s /\ cs_notif_armed m = cs_notif_armed s
    /\ mbim_resp_pending m = mbim_resp_pending s /\ cs_respq m = cs_respq s /\ cs_bells m = cs_bells s)
    as (-> & -> & -> & -> & M5 & M6 & M7) by done.
  replace ((fd <? 0) || (cs_ep_int s <? 0)) with false by lia. rewrite Hg. cbn [negb].
  destruct (cs_notif_armed s) eqn:Ea.
  { split; [exact Ea|]. split; [exact Ei|]. by rewrite app_nil_r. }
  rewrite M5, Hp. cbn [negb Nat.eqb length]. unfold mbim_send_response_available_notification.
  rewrite M5, Hp. change (cs_ep_int m) with (cs_ep_int s). replace (0 <=? cs_ep_int s) with true by lia.
  rewrite M6, M7, Hx. split; [done|]. by split.
Qed.

(** A tick: the poll, the messages for the host, the doorbell. *)
Lemma tick_tells pf s :
  core_ok s -> pf_ok pf -> sms_fits s ->
  exists s' rc g ms msgs, core_ep0_tick sendto CALL_FUEL pf s = Some s' /\ core_ok s'
  /\ state_bridge_poll sendto CALL_FUEL (cs_bridge s) (dev_state (cs_dev s)) pf = Some (rc, g, ms)
  /\ dev_state (cs_dev s') = ms
  /\ ri_data <$> resp_items s' = (ri_data <$> resp_items s) ++ msgs
  /\ cs_get_in_progress s' = cs_get_in_progress s
  /\ (0 <= cs_gadget_fd s ->
      (rg_empty (cs_held s) = true ->
        exists pre told post, msgs = pre ++ told ++ post /\ (length pre <= 2)%nat
        /\ let room := (15 - length (resp_items s) - length pre)%nat in
           Forall2 (says ms) (take room (core_inds (core_polled g ms s))) told)
      /\ (resp_items s' <> [] -> 0 <= cs_ep_int s -> cs_get_in_progress s = false ->
          cs_notif_armed s' = true
          /\ cs_bells s' = cs_bells s ++ (if cs_notif_armed s then [] else ri_id <$> take 1 (resp_items s')))).
Proof.
  intros H Hpf Hfits. unfold core_ep0_tick.
  destruct (core_poll_ok pf s H Hpf) as (rc & g & ms & E & Hms & Hg). rewrite E. ob.
  change (s <| cs_bridge := g |> <| cs_dev := ((cs_dev s) <| dev_state := ms |>) |>
    <| cs_connect_activated := (ms_connect_activated ms) |>
    <| cs_connect_session_id := (ms_connect_session_id ms) |>) with (core_polled g ms s).
  assert ((cs_held (core_polled g ms s) = cs_held s /\ cs_notif_armed (core_polled g ms s) = cs_notif_armed s
    /\ cs_get_in_progress (core_polled g ms s) = cs_get_in_progress s
    /\ cs_gadget_fd (core_polled g ms s) = cs_gadget_fd s /\ cs_ep_int (core_polled g ms s) = cs_ep_int s
    /\ cs_bells (core_polled g ms s) = cs_bells s)
    /\ resp_items (core_polled g ms s) = resp_items s /\ dev_state (cs_dev (core_polled g ms s)) = ms)
    as ((Hheld & Harm & Hget & Hfd & Hint & Hbells) & I1 & D1) by done.
  set (s1 := core_polled g ms s) in *.
  assert (core_ok s1) as H1.
  { core_fields H; [|by destruct (co_dev _ H)]. change (forall b, g = Some b -> bridge_ok b).
    intros b ->. destruct (cs_bridge s); [|done]. by destruct Hg as (b' & [= ->] & Hb' & _). }
  assert (sms_fits s1) as F1.
  { assert (core_pdus s1 = core_pdus s) as Ep.
    { unfold core_pdus. change (cs_bridge s1) with g. destruct (cs_bridge s) as [b|]; [|by rewrite Hg].
      by destruct Hg as (b' & -> & _ & -> & _). }
    unfold sms_fits, sms_load. rewrite Ep. exact Hfits. }
  assert (core_inds (core_polled g ms s) = core_inds s1) as Hinds by done. clearbody s1.
  rewrite <- Hfd, <- Hint, <- Hheld, <- Hget, <- Harm, <- Hbells, <- I1.
  destruct (0 <=? cs_gadget_fd s1) eqn:Efd.
  2: { exists s1, rc, g, ms, []. rewrite app_nil_r. do 6 (split; [done|]). intros. lia. }
  destruct (drain_pending_ok s1 H1 F1) as (s2 & msgs & -> & Hd & Hsay). ob.
  pose proof (dr_ok _ _ _ Hd) as H2. pose proof (dr_rest _ _ _ Hd) as R2.
  injection R2 as _ _ _ _ _ _ _ _ Harm2 Hget2 Hfd2 Hint2 _ _ Hbells2 _ _.
  pose proof (dr_state _ _ _ Hd) as D2. pose proof (dr_items _ _ _ Hd) as I2. rewrite D1 in D2, Hsay.
  pose proof (resp_pending_items s2 H2) as Hp. rewrite Hp.
  destruct (resp_items s2) as [|x l] eqn:Ei; rewrite ?Ei in I2.
  - cbn [length Nat.eqb negb]. exists s2, rc, g, ms, msgs. rewrite Ei, Hinds. do 4 (split; [done|]). split; [exact I2|]. split; [exact Hget2|]. intros _.
    split; [|done]. intros He. by rewrite He in Hsay.
  - cbn [length Nat.eqb negb].
    pose proof (ao_ok _ _ (notify_answers (cs_gadget_fd s2) _ (ao_ok _ _ (mark_answers s2 H2)))) as H3.
    pose proof (notify_rings (cs_gadget_fd s2) s2 H2) as Hring.
    assert (forall fd (t : core_state I), resp_items (mbim_try_send_deferred_notification fd (mbim_mark_notification_needed t))
      = resp_items t /\ cs_dev (mbim_try_send_deferred_notification fd (mbim_mark_notification_needed t)) = cs_dev t
      /\ cs_get_in_progress (mbim_try_send_deferred_notification fd (mbim_mark_notification_needed t))
         = cs_get_in_progress t) as Hk.
    { clear. intros fd t. unfold mbim_try_send_deferred_notification, mbim_send_response_available_notification.
      repeat case_match; done. }
    destruct (Hk (cs_gadget_fd s2) s2) as (Hk1 & Hk2 & Hk3).
    exists (mbim_try_send_deferred_notification (cs_gadget_fd s2) (mbim_mark_notification_needed s2)), rc, g, ms, msgs. rewrite Hinds.
    split; [done|]. split; [exact H3|]. split; [done|]. split; [by rewrite Hk2|]. split; [by rewrite Hk1, Ei|].
    split; [congruence|]. intros _. split; [intros He; by rewrite He in Hsay|]. intros _ Hint1 Hg1. rewrite Ei in Hring.
    destruct Hring as (Ha & _ & Hb); [done|lia|lia|congruence|]. split; [exact Ha|].
    by rewrite Hk1, Ei, Hb, Harm2, Hbells2.
Qed.

(** While a command is held, the indications of the bridge wait there. *)
Lemma tick_held pf s :
  core_ok s -> pf_ok pf -> rg_empty (cs_held s) = false ->
  exists s' rc g ms, core_ep0_tick sendto CALL_FUEL pf s = Some s'
  /\ state_bridge_poll sendto CALL_FUEL (cs_bridge s) (dev_state (cs_dev s)) pf = Some (rc, g, ms)
  /\ cs_bridge s' = g /\ resp_items s' = resp_items s /\ cs_held s' = cs_held s.
Proof.
  intros H Hpf Hh. unfold core_ep0_tick. destruct (core_poll_ok pf s H Hpf) as (rc & g & ms & E & _). rewrite E. ob.
  set (s1 := s <| cs_bridge := g |> <| cs_dev := _ |> <| cs_connect_activated := _ |> <| cs_connect_session_id := _ |>).
  assert (forall fd (t : core_state I), cs_bridge (mbim_try_send_deferred_notification fd (mbim_mark_notification_needed t))
      = cs_bridge t /\ resp_items (mbim_try_send_deferred_notification fd (mbim_mark_notification_needed t)) = resp_items t
      /\ cs_held (mbim_try_send_deferred_notification fd (mbim_mark_notification_needed t)) = cs_held t) as Hk.
  { clear. intros fd t. unfold mbim_try_send_deferred_notification, mbim_send_response_available_notification.
    repeat case_match; done. }
  assert (drain_pending_indications s1 = Some s1) as Ed
    by (unfold drain_pending_indications; change (cs_held s1) with (cs_held s); by rewrite Hh).
  destruct (0 <=? cs_gadget_fd s1); [rewrite Ed; ob|exists s1, rc, g, ms; by repeat split].
  destruct (mbim_resp_pending s1); [|exists s1, rc, g, ms; by repeat split].
  destruct (Hk (cs_gadget_fd s1) s1) as (K1 & K2 & K3). eexists _, rc, g, ms. split; [reflexivity|].
  split; [done|]. by rewrite K1, K2, K3.
Qed.

(** ** The data path *)

Lemma dl_push_ok data s :
  core_ok s -> (0 < length data)%nat ->
  core_ok (dl_fifo_push data s)
  /\ dl_fifo_push data s = s <| cs_dl_fifo := (cs_dl_fifo (dl_fifo_push data s)) |>
  /\ rg_items DL_FIFO_DEPTH (cs_dl_fifo (dl_fifo_push data s))
     = rg_items DL_FIFO_DEPTH (cs_dl_fifo s)
       ++ if (DL_PKT_MAX <?n length data) || rg_full DL_FIFO_DEPTH (cs_dl_fifo s) then [] else [data].
Proof.
  clear sendto ImsService0. intros H Hd. unfold dl_fifo_push. destruct (DL_PKT_MAX <?n length data) eqn:El.
  { rewrite app_nil_r. by split; [|split; [destruct s|]]. }
  destruct (rg_full _ _) eqn:Ef; cbn [orb].
  { rewrite app_nil_r. by split; [|split; [destruct s|]]. }
  destruct (rg_put_items DL_FIFO_DEPTH data (cs_dl_fifo s) (co_dl _ H) Ef) as [Hr Hi].
  split; [|split; [done|exact Hi]]. core_fields H; [exact Hr|]. cbn [cs_dl_fifo set_field]. rewrite Hi.
  apply Forall_app. split; [apply H|]. constructor; [lia|done].
Qed.

(** A packet for the host becomes a block that the host deframes to it. *)
Lemma dl_callback_ok psi data s :
  core_ok s -> (length data <= UP_PKT_SIZE)%nat ->
  exists rc s', core_mbim_dl_callback psi data s = Some (rc, s') /\ core_ok s'
  /\ s' = s <| cs_dl_fifo := (cs_dl_fifo s') |> <| cs_dl_seq := (cs_dl_seq s') |>
  /\ (cs_connect_activated s = true -> 0 <= cs_gadget_fd s -> 0 <= cs_ep_in s ->
      (0 < length data)%nat -> ntb_total (Z.of_nat (length data)) <= 2048 ->
      rg_full DL_FIFO_DEPTH (cs_dl_fifo s) = false ->
      rc = 0 /\ rg_items DL_FIFO_DEPTH (cs_dl_fifo s')
                = rg_items DL_FIFO_DEPTH (cs_dl_fifo s) ++ [ntb_wire data (cs_dl_seq s)]).
Proof.
  clear sendto ImsService0. intros H Hl. unfold core_mbim_dl_callback.
  destruct (_ || _) eqn:E1; [exists (-1), s; split; [done|]; split; [done|]; split; [by destruct s|lia]|].
  destruct (negb _) eqn:E2; [exists (-1), s; split; [done|]; split; [done|]; split; [by destruct s|];
    intros E; by rewrite E in E2|].
  destruct (length data =?n 0) eqn:E3; [exists (-1), s; split; [done|]; split; [done|]; split; [by destruct s|]; lia|].
  set (s1 := s <| cs_dl_seq := _ |>). assert (core_ok s1) as H1 by core_fields H.
  assert (Z.of_nat (length data) <= 16384) as Hl16 by (unfold UP_PKT_SIZE in Hl; lia).
  assert (Z.of_nat (length data) < 2 ^ 32 - 31) as Hn by lia. rewrite u32_small by lia.
  destruct (ntb_ndp_off_eq (Z.of_nat (length data)) ltac:(lia)) as [_ Et].
  pose proof (length_ntb_wire data (cs_dl_seq s) Hn) as Hw.
  destruct (decide (ntb_total (Z.of_nat (length data)) <= 2048)) as [Hle|Hgt].
  - rewrite ntb_frame_result by (rewrite ?length_replicate; unfold DL_PKT_MAX; lia). ob.
    replace (ntb_total (Z.of_nat (length data)) =? 0) with false by lia.
    rewrite <- Hw, Nat2Z.id. unfold over. rewrite take_app_length.
    set (block := ntb_wire data (cs_dl_seq s)) in *. clearbody block.
    destruct (dl_push_ok block s1 H1 ltac:(lia)) as (H2 & Hs2 & Hi2).
    eexists _, _. split; [reflexivity|]. split; [exact H2|]. split; [by rewrite Hs2|].
    intros _ _ _ _ _ Hroom. split; [done|].
    rewrite Hi2. change (cs_dl_fifo s1) with (cs_dl_fifo s). rewrite Hroom.
    by replace (DL_PKT_MAX <?n length block) with false by (unfold DL_PKT_MAX; lia).
  - assert (mbim_ntb16_frame_single (Some (replicate DL_PKT_MAX 0)) 2048 (Some data)
      (Z.of_nat (length data)) (cs_dl_seq s) = Some (0, Some (replicate DL_PKT_MAX 0))) as ->.
    { unfold mbim_ntb16_frame_single. cbv zeta. by replace (_ || _) with true by lia. }
    ob. cbn [Z.eqb]. eexists _, _. split; [reflexivity|]. split; [exact H1|]. split; [done|lia].
Qed.

(** The next block is written as it was queued. *)
Lemma dl_worker_ok s :
  core_ok s ->
  core_ok (mbim_dl_worker s).2
  /\ (0 <= cs_gadget_fd s -> 0 <= cs_ep_in s ->
      match rg_items DL_FIFO_DEPTH (cs_dl_fifo s) with
      | [] => mbim_dl_worker s = (None, s)
      | x :: l => (mbim_dl_worker s).1 = Some x
                  /\ rg_items DL_FIFO_DEPTH (cs_dl_fifo (mbim_dl_worker s).2) = l
      end).
Proof.
  clear sendto ImsService0. intros H. unfold mbim_dl_worker, dl_fifo_pop.
  pose proof (rg_empty_items _ _ (co_dl _ H)) as Hz. pose proof (co_dl_items _ H) as Hf.
  destruct (rg_items DL_FIFO_DEPTH (cs_dl_fifo s)) as [|x l] eqn:Ei.
  { rewrite (proj2 Hz eq_refl). by split. }
  destruct (rg_empty (cs_dl_fifo s)) eqn:Ez; [by discriminate (proj1 Hz eq_refl)|].
  destruct (rg_pop_items DL_FIFO_DEPTH id x l _ (co_dl _ H) Ei) as (-> & Hr & Hl).
  apply Forall_cons in Hf as [Hx Hf]. unfold DL_PKT_MAX in Hx. cbn [default from_option id].
  rewrite take_ge by (unfold MBIM_ITEM_MAX; lia). replace (length x =?n 0) with false by lia.
  set (s1 := s <| cs_dl_fifo := _ |>).
  assert (core_ok s1) as H1.
  { core_fields H; [exact Hr|].
    change (Forall (fun p => 0 < length p <= DL_PKT_MAX)%nat
      (rg_items DL_FIFO_DEPTH (rg_pop DL_FIFO_DEPTH id (cs_dl_fifo s)))). by rewrite Hl. }
  change (cs_gadget_fd s1) with (cs_gadget_fd s). change (cs_ep_in s1) with (cs_ep_in s).
  destruct (_ || _) eqn:E; (split; [exact H1|]); intros; [lia|]. split; [done|exact Hl].
Qed.

(** A block from the host. *)
Lemma deliver_ok dgs s :
  core_ok s -> exists s', deliver_datagrams sendto dgs s = Some s' /\ core_ok s' /\ resp_items s' = resp_items s
  /\ cs_get_in_progress s' = cs_get_in_progress s.
Proof.
  revert s. induction dgs as [|dg dgs IH]; intros s H; cbn [deliver_datagrams]; [by exists s|].
  assert (exists s1, ul_deframe_cb sendto dg s = Some s1 /\ core_ok s1 /\ resp_items s1 = resp_items s
    /\ cs_get_in_progress s1 = cs_get_in_progress s) as (s1 & -> & H1 & D1 & P1).
  { unfold ul_deframe_cb. destruct (negb _); [by exists s|]. destruct (cs_bridge s) as [b|] eqn:Eb; [|by exists s].
    pose proof (co_bridge _ H b Eb) as [He Ha Hi Hs Hp].
    destruct (send_uplink_total sendto (sb_engine b) dg He) as [(rc & e & E & Ho) _]. rewrite E. ob.
    eexists. split; [reflexivity|]. split; [|by split].
    core_fields H. change (forall b', Some (b <| sb_engine := e |>) = Some b' -> bridge_ok b').
    intros ? [= <-]. by split. }
  ob. destruct (IH s1 H1) as (s2 & -> & H2 & D2 & P2). exists s2. split; [done|]. split; [done|].
  split; congruence.
Qed.
End Steps.
