(* ===== verification/CoreLoop.v ===== *)
(** The core as a running program: its events are the host's control transfers,
    the ticks between them, the rounds of its two data threads and the calls of the
    bridge by the other threads. *)

From S2P Require Import Prelude CString InstanceConfig Rrc Rls RanTransport RanLink UeTypes UeMm UeSm UserPlane UeContext EngineNas.
From S2P Require Import UeEngine EngineSafe DataPath EngineReach MbimNtb ModemState MbimWire MbimSms MbimHandlers MbimReports MbimStrings.
From S2P Require Import MbimCommands MbimIndications MbimIndicated Ring ApnContext StateBridge BridgeReach CoreMbim CoreReach CoreSteps.

#[local] Set Primitive Projections.

(** ** What the downlink keeps of its receiver *)

Section Host.
Context {Host : Type} (dl_cb internal_cb : Z -> bytes -> Host -> Z * Host) (Q : Host -> Prop).
Hypothesis dl_keeps : forall psi d h, (length d <= UP_PKT_SIZE)%nat -> Q h -> Q (dl_cb psi d h).2.
Hypothesis internal_keeps : forall psi d h, Q h -> Q (internal_cb psi d h).2.

Lemma route_keeps up h psi d :
  (length d <= UP_PKT_SIZE)%nat -> Q h -> Q (route_downlink dl_cb internal_cb up h psi d).2.
Proof using dl_keeps internal_keeps.
  intros Hd Hq. unfold route_downlink. destruct (negb _).
  - destruct (_ && _); [|done]. pose proof (internal_keeps psi d h Hq) as Hi.
    destruct (internal_cb psi d h) as [rc h']. by destruct (rc =? 0).
  - destruct (up_dl_callback up); [|done]. pose proof (dl_keeps psi d h Hd Hq) as Hi.
    destruct (dl_cb psi d h) as [rc h']. by destruct (rc <? 0).
Qed.

Lemma drain_keeps q : forall up h k, Q h -> Q (drain dl_cb internal_cb up h q k).1.2.
Proof using dl_keeps internal_keeps.
  induction q as [|[psi p] q IH]; intros up h k Hq; cbn [drain]; [done|].
  destruct (length p =?n 0); [done|].
  pose proof (route_keeps up h psi (take UP_PKT_SIZE p) ltac:(rewrite length_take; lia) Hq) as Hr.
  destruct (route_downlink _ _ _ _ _ _) as [[ok up'] h']. by apply IH.
Qed.

Variable sendto : nat -> sockaddr -> bytes -> Z.
Variables (pton : bytes -> option Z) (gai : bytes -> option sockaddr).

Lemma call_keeps c ctx h ctx' h' :
  engine_ok ctx -> run_call sendto pton gai dl_cb internal_cb c ctx h = Some (ctx', h') -> Q h -> Q h'.
Proof using dl_keeps internal_keeps.
  intros Ho E Hq. pose proof (eo_inv _ Ho) as Hi.
  destruct c; cbn [run_call] in E; unfold call_result in E; try (by injection E as _ <-).
  - destruct (ue_engine_tick _ _ _ _ _ _) as [[? ?]|]; cbn [mbind option_bind] in E; [|done]. by injection E as _ <-.
  - destruct (ue_engine_set_radio _ _ _ _ _ _); cbn [mbind option_bind] in E; [|done]. by injection E as _ <-.
  - destruct (ue_engine_request_ims_pdu _ _) as [[? ?]|]; cbn [mbind option_bind] in E; [|done]. by injection E as _ <-.
  - destruct (ue_engine_inject_uplink_ip _ _ _) as [[? ?]|]; cbn [mbind option_bind] in E; [|done]. by injection E as _ <-.
  - destruct (ue_engine_inject_ims_ip _ _ _) as [[? ?]|]; cbn [mbind option_bind] in E; [|done]. by injection E as _ <-.
  - destruct (ue_ran_transport_tick _ _ _ _ _ _) as [[? ?]|]; cbn [mbind option_bind] in E; [|done]. by injection E as _ <-.
  - assert (length (spec_data (rx_view (uc_ran ctx))) < CALL_FUEL)%nat as Hf.
    { unfold rx_view, CALL_FUEL. cbn [spec_data]. rewrite length_fmap.
      pose proof (ring_list_bound _ (queue_ring _ (ro_data _ (ei_ran _ Hi)))). lia. }
    unfold ue_context_drain_downlink in E.
    destruct (process_downlink_drains (H0 := ran_queue_link sendto) dl_cb internal_cb CALL_FUEL
      (uc_up ctx) (uc_ran ctx) h (ei_ran _ Hi) Hf) as (t & Hd).
    pose proof (drain_keeps (link_queue (QueueLink := ran_queue_link sendto) (uc_ran ctx)) (uc_up ctx) h 0 Hq) as Hk.
    match type of Hd with context [if ?b then (?x, ?y, ?z, ?w) else ?v] =>
      assert (Q (if b then (x, y, z, w) else v).1.2) as Hk2;
      [destruct b; [done|]; match goal with |- context [if ?b2 then _ else _] => by destruct b2 end|];
      destruct (if b then (x, y, z, w) else v) as [[[n up] h2] rest] end.
    destruct Hd as (E2 & _).
    match type of E2 with _ = ?r => match type of E with context [ue_up_process_downlink ?a ?b ?c ?d ?e ?f] =>
      replace (ue_up_process_downlink a b c d e f) with r in E by (symmetry; exact E2) end end.
    cbn [mbind option_bind] in E. by injection E as _ <-.
Qed.
End Host.

(** A call of the bridge keeps what the receiver of the downlink keeps. *)
Lemma bridge_call_keeps {I} `{!ImsService I} {H} sendto pton gai (dl_cb : Z -> bytes -> H -> Z * H) (Q : H -> Prop)
    (c : bridge_call) (b : state_bridge I) h b' h' :
  (forall psi d h, (length d <= UP_PKT_SIZE)%nat -> Q h -> Q (dl_cb psi d h).2) ->
  bridge_ok b -> run_bridge sendto pton gai dl_cb c b h = Some (b', h') -> Q h -> Q h'.
Proof.
  intros Hcb Hb E Hq.
  assert (forall g : option (state_bridge I), (b ← g; Some (b, h)) = Some (b', h') -> h' = h) as Hret.
  { intros g E'. destruct g as [b2|]; cbn [mbind option_bind] in E'; [|done]. by injection E' as _ <-. }
  destruct c; cbn [run_bridge] in E; cbv zeta in E; try (apply Hret in E; by subst h').
  - destruct (bridge_poll _ _ _ _ _) as [[[rc b2] ms]|]; cbn [mbind option_bind] in E; [|done]. by injection E as _ <-.
  - destruct (state_bridge_set_radio _ _ _ _) as [[rc g]|]; cbn [mbind option_bind] in E; [|done].
    apply (Hret g) in E. by subst h'.
  - destruct (state_bridge_request_connect _ _ _ _) as [[rc g]|]; cbn [mbind option_bind] in E; [|done].
    apply (Hret g) in E. by subst h'.
  - destruct (state_bridge_request_disconnect _ _ _) as [[rc g]|]; cbn [mbind option_bind] in E; [|done].
    apply (Hret g) in E. by subst h'.
  - by injection E as _ <-.
  - destruct (run_call _ _ _ _ _ _ _ _) as [[e [ims h2]]|] eqn:Ec; cbn [mbind option_bind] in E; [|done].
    injection E as _ <-.
    apply (call_keeps (bridge_dl_adapter (Some dl_cb)) bridge_ims_ip_downlink_cb (fun p => Q p.2)) in Ec;
      [exact Ec| | |exact (bo_engine _ Hb)|exact Hq].
    + intros psi d [ims1 h1] Hd Hq1. cbn [bridge_dl_adapter snd] in *. pose proof (Hcb psi d h1 Hd Hq1) as Hk.
      by destruct (dl_cb psi d h1) as [rc h3].
    + intros psi d [ims1 h1] Hq1. unfold bridge_ims_ip_downlink_cb. cbn [fst snd] in *.
      by destruct (ims_service_receive_ip psi d ims1) as [rc ims3].
Qed.

(** ** The events *)

Inductive core_event :=
| CSend (io : bytes) (w_length : Z) (pf : platform)
| CGet (pf : platform)
| CTick (pf : platform)
| CBridge (c : bridge_call)
| CDlRound
| CUlRound (data : bytes) (rv : Z).

Section Loop.
Variable sendto : nat -> sockaddr -> bytes -> Z.
Variables (pton : bytes -> option Z) (gai : bytes -> option sockaddr).
Context {I : Type} `{!ImsService I}.
Implicit Types (s : core_state I).

(** The receiver of the host's packets: [core_mbim_dl_callback], [None] once it
    has gone outside a buffer. *)
Definition host_cb (psi : Z) (data : bytes) (h : option (core_state I)) : Z * option (core_state I) :=
  match s ← h; core_mbim_dl_callback psi data s with
  | Some (rc, s) => (rc, Some s)
  | None => (-1, None)
  end.

(** A call of the bridge, whose downlink packets go to the core. *)
Definition core_bridge (c : bridge_call) s : option (core_state I) :=
  match cs_bridge s with
  | None => Some s
  | Some b =>
    '(b, h) ← run_bridge sendto pton gai host_cb c b (Some s);
    s ← h;
    Some (s <| cs_bridge := (Some b) |>)
  end.

Definition run_core (e : core_event) s : option (core_state I) :=
  match e with
  | CSend io w_length pf => core_on_send_encapsulated_command sendto (cs_gadget_fd s) io w_length pf s
  | CGet pf => '(_, s) ← core_on_get_encapsulated_response sendto pf s; Some s
  | CTick pf => core_ep0_tick sendto CALL_FUEL pf s
  | CBridge c => core_bridge c s
  | CDlRound => Some (mbim_dl_worker s).2
  | CUlRound data rv => mbim_data_worker sendto data rv s
  end.

(** What the kernel, the clock and the other threads give; a burst of text
    messages fits the list that announces them. *)
Definition core_event_ok (e : core_event) s : Prop :=
  match e with
  | CSend io w_length pf => length io = 4096%nat /\ Forall is_byte io /\ 0 <= w_length
  | CGet pf => sms_fits s
  | CTick pf => pf_ok pf /\ sms_fits s
  | CBridge c => bridge_call_ok c
  | CDlRound => True
  | CUlRound data rv => Forall is_byte data /\ rv <= Z.of_nat (length data) /\ rv < 2 ^ 32 - 4
  end.

Inductive core_reachable : core_state I -> Prop :=
| cr_init g fd e1 e2 e3 :
    (forall b, g = Some b -> bridge_ok b) -> core_reachable (core_initial g fd e1 e2 e3)
| cr_event e s s' :
    core_reachable s -> core_event_ok e s -> run_core e s = Some s' -> core_reachable s'.

(** What a receiver of packets keeps of the core [s0]. *)
Definition host_state_ok s0 (h : option (core_state I)) : Prop :=
  exists s, h = Some s /\ core_ok s /\ resp_items s = resp_items s0
  /\ cs_get_in_progress s = cs_get_in_progress s0.

Lemma host_cb_keeps s0 psi d h :
  (length d <= UP_PKT_SIZE)%nat -> host_state_ok s0 h -> host_state_ok s0 (host_cb psi d h).2.
Proof using Type.
  clear sendto pton gai. intros Hd (s & -> & Hs & Hi & Hg). unfold host_cb.
  destruct (dl_callback_ok psi d s Hs Hd) as (rc & s' & E & Hs' & Heq & _). cbn [mbind option_bind].
  rewrite E. exists s'. split; [done|]. split; [done|]. rewrite Heq. by split.
Qed.

Lemma core_bridge_ok c s :
  core_ok s -> bridge_call_ok c ->
  exists s', core_bridge c s = Some s' /\ core_ok s' /\ resp_items s' = resp_items s
  /\ cs_get_in_progress s' = cs_get_in_progress s.
Proof.
  intros H Hc. unfold core_bridge. destruct (cs_bridge s) as [b|] eqn:Eb; [|by exists s].
  pose proof (co_bridge _ H b Eb) as Hb.
  destruct (bridge_call_total sendto pton gai host_cb c b (Some s) Hb Hc) as (b' & h' & E & Hb' & _).
  rewrite E. ob.
  destruct (bridge_call_keeps sendto pton gai host_cb (host_state_ok s) c b (Some s) b' h'
    (fun psi d h => host_cb_keeps s psi d h) Hb E) as (s' & -> & Hs' & Hi & Hg); [by exists s|]. ob.
  eexists. split; [reflexivity|]. split; [|by split]. core_fields Hs'.
  change (forall b2, Some b' = Some b2 -> bridge_ok b2). by intros ? [= <-].
Qed.

Lemma core_initial_ok g fd e1 e2 e3 :
  (forall b, g = Some b -> bridge_ok b) -> core_ok (core_initial (I := I) g fd e1 e2 e3).
Proof.
  clear sendto pton gai ImsService0. intros Hg.
  destruct (rg_new_ok MBIM_RESP_QUEUE_SIZE (RespItem [] 0)) as [Hq1 Hq2]; [unfold MBIM_RESP_QUEUE_SIZE; lia|].
  destruct (rg_new_ok MBIM_HELD_QUEUE_SIZE ([] : bytes)) as [Hh1 Hh2]; [unfold MBIM_HELD_QUEUE_SIZE; lia|].
  destruct (rg_new_ok DL_FIFO_DEPTH ([] : bytes)) as [Hd1 Hd2]; [unfold DL_FIFO_DEPTH; lia|].
  split; unfold core_initial; cbn [cs_bridge cs_dev cs_cmd cs_cmd_len cs_resp cs_resp_len cs_respq cs_held
    cs_qmux cs_dl_fifo qx_sync_ind_buf qx_sync_ind_len].
  - exact Hg.
  - apply device_initial_ok.
  - rewrite length_replicate. split; [unfold MBIM_ITEM_MAX; lia|]. apply Forall_replicate. unfold is_byte. lia.
  - lia.
  - rewrite length_replicate. unfold MBIM_ITEM_MAX. lia.
  - lia.
  - exact Hq1.
  - by rewrite Hq2.
  - exact Hh1.
  - by rewrite Hh2.
  - rewrite length_replicate. lia.
  - exact Hd1.
  - by rewrite Hd2.
Qed.

Lemma uplink_round_ok data rv s :
  core_ok s -> Forall is_byte data -> rv <= Z.of_nat (length data) -> rv < 2 ^ 32 - 4 ->
  exists s', mbim_data_worker sendto data rv s = Some s' /\ core_ok s' /\ resp_items s' = resp_items s
  /\ cs_get_in_progress s' = cs_get_in_progress s.
Proof.
  clear pton gai. intros H Hb Hl Hm. unfold mbim_data_worker. destruct (0 <? rv) eqn:E; [|by exists s].
  destruct (ntb_deframe_safe data rv Hb ltac:(lia) Hm) as (rc & ds & -> & _). ob.
  destruct (deliver_ok sendto ds s H) as (s' & -> & Hs' & Hi). by exists s'.
Qed.

(** The messages for the host after an event: a read takes the oldest, every
    other event adds behind the last. *)
Definition queue_after (e : core_event) (l l' : list bytes) : Prop :=
  match e with
  | CGet _ => tail l `prefix_of` l'
  | _ => l `prefix_of` l'
  end.

Lemma run_core_ok e s :
  core_ok s -> core_event_ok e s ->
  exists s', run_core e s = Some s' /\ core_ok s'
  /\ queue_after e (ri_data <$> resp_items s) (ri_data <$> resp_items s')
  /\ (cs_get_in_progress s = false -> cs_get_in_progress s' = false).
Proof.
  intros H He. destruct e as [io w pf|pf|pf|c| |data rv]; cbn [run_core core_event_ok queue_after] in *.
  - destruct He as (H1 & H2 & H3). by apply send_command_ok.
  - destruct (get_response_ok sendto pf s H He) as (s' & new & -> & Hs' & Hi & Hg). ob. exists s'.
    do 2 (split; [done|]). split; [by exists new|done].
  - destruct He as [H1 H2].
    destruct (tick_tells sendto pf s H H1 H2) as (s' & rc & g & ms & msgs & E & Hs' & _ & _ & Hi & Hg & _).
    exists s'. do 2 (split; [done|]). split; [by exists msgs|congruence].
  - destruct (core_bridge_ok c s H He) as (s' & E & Hs' & Hi & Hg). exists s'.
    do 2 (split; [done|]). split; [by rewrite Hi|congruence].
  - eexists. split; [reflexivity|]. split; [by apply dl_worker_ok|].
    assert (resp_items (mbim_dl_worker s).2 = resp_items s
      /\ cs_get_in_progress (mbim_dl_worker s).2 = cs_get_in_progress s) as [-> ->]; [|by split].
    unfold mbim_dl_worker, dl_fifo_pop. destruct (rg_empty _); [done|]. repeat case_match; by simplify_eq.
  - destruct He as (H1 & H2 & H3). destruct (uplink_round_ok data rv s H H1 H2 H3) as (s' & E & Hs' & Hi & Hg).
    exists s'. do 2 (split; [done|]). split; [by rewrite Hi|congruence].
Qed.

Lemma core_reachable_ok s : core_reachable s -> core_ok s /\ cs_get_in_progress s = false.
Proof.
  induction 1 as [g fd e1 e2 e3 Hg|e s s' _ [IH IHg] He E]; [by split; [apply core_initial_ok|]|].
  destruct (run_core_ok e s IH He) as (s2 & E2 & H2 & _ & Hg2). rewrite E in E2. injection E2 as <-. auto.
Qed.
End Loop.

(** ** Claims *)

Section Claims.
Variable sendto : nat -> sockaddr -> bytes -> Z.
Variables (pton : bytes -> option Z) (gai : bytes -> option sockaddr).
Context {I : Type} `{!ImsService I}.
Implicit Types (s : core_state I).

(** C22: the program never goes outside a buffer and the host loses no message.
    After any history of the host's transfers, ticks, data rounds and calls of
    the bridge by the other threads, every event whose burst of text messages
    fits the list that announces them returns.  A read gives the host the oldest
    message of the queue and keeps the others in their order; every other event
    keeps the queue and adds behind it; and no event leaves the interlock of the
    read set. *)
Theorem core_events_return s e :
  core_reachable sendto pton gai s -> core_event_ok e s ->
  exists s', run_core sendto pton gai e s = Some s' /\ core_reachable sendto pton gai s' /\ core_ok s'
  /\ cs_get_in_progress s' = false
  /\ match e with
     | CGet pf => core_on_get_encapsulated_response sendto pf s = Some (hd [] (ri_data <$> resp_items s), s')
                  /\ tail (ri_data <$> resp_items s) `prefix_of` (ri_data <$> resp_items s')
     | _ => (ri_data <$> resp_items s) `prefix_of` (ri_data <$> resp_items s')
     end.
Proof.
  intros Hr He. destruct (core_reachable_ok _ _ _ s Hr) as [H Hg].
  destruct (run_core_ok sendto pton gai e s H He) as (s' & E & H' & Hq & Hg'). exists s'. split; [exact E|].
  split; [by eapply cr_event|]. split; [done|]. split; [auto|].
  destruct e as [| pf | | | |]; try exact Hq. split; [|exact Hq]. cbn [run_core core_event_ok] in *.
  destruct (get_response_ok sendto pf s H He) as (s2 & new & E2 & _). rewrite E2 in *. by injection E as ->.
Qed.

(** C23: the host is told by a tick.  Provided the gadget and its interrupt
    endpoint are open and the burst of text messages that waits fits its list, a
    tick polls the bridge and publishes what the engine has
    become.  When no command is held, it queues a message for each indication of
    the bridge, in their order, as far as the queue has room, and each says what
    was published; while a command is held it queues nothing, and the indications
    wait in the bridge.  When a message waits for the host after the tick, the
    doorbell has been rung for the oldest, once until the host reads. *)
Theorem tick_tells_host s pf :
  core_reachable sendto pton gai s -> pf_ok pf -> sms_fits s -> 0 <= cs_gadget_fd s -> 0 <= cs_ep_int s ->
  exists s' rc g ms msgs, core_ep0_tick sendto CALL_FUEL pf s = Some s'
  /\ state_bridge_poll sendto CALL_FUEL (cs_bridge s) (dev_state (cs_dev s)) pf = Some (rc, g, ms)
  /\ dev_state (cs_dev s') = ms
  /\ ri_data <$> resp_items s' = (ri_data <$> resp_items s) ++ msgs
  /\ (rg_empty (cs_held s) = true ->
       exists pre told post, msgs = pre ++ told ++ post /\ (length pre <= 2)%nat
       /\ let room := (15 - length (resp_items s) - length pre)%nat in
          let inds := match g with Some b => ind_items b | None => [] end in
          Forall2 (says ms) (take room inds) told)
  /\ (rg_empty (cs_held s) = false -> msgs = [] /\ cs_bridge s' = g)
  /\ (resp_items s' <> [] ->
       cs_notif_armed s' = true
       /\ cs_bells s' = cs_bells s ++ (if cs_notif_armed s then [] else ri_id <$> take 1 (resp_items s'))).
Proof.
  intros Hr Hpf Hfits Hfd Hint. destruct (core_reachable_ok _ _ _ s Hr) as [H Hg].
  destruct (tick_tells sendto pf s H Hpf Hfits) as (s' & rc & g & ms & msgs & E & _ & Ep & Hd & Hi & _ & Hsay).
  destruct (Hsay Hfd) as [H1 H2]. exists s', rc, g, ms, msgs. do 4 (split; [done|]). split; [exact H1|].
  split; [|intros Hne; by apply H2]. intros Hheld.
  destruct (tick_held sendto pf s H Hpf Hheld) as (s2 & rc2 & g2 & ms2 & E2 & Ep2 & Hb & Hi2 & _).
  rewrite E in E2. injection E2 as <-. rewrite Ep in Ep2. injection Ep2 as _ <- _. split; [|done].
  rewrite Hi2 in Hi. apply (f_equal length) in Hi. rewrite length_app in Hi. destruct msgs; [done|cbn in Hi; lia].
Qed.

(** C24: the data path of the host.  While the context is connected, a packet
    of the network of at most 2020 bytes that finds room in the queue is queued as
    one block, behind those that wait, and the host deframes that block to exactly the packet; the next block is written
    as it was queued; a block the host frames gives its packet to the engine,
    unchanged, and changes nothing else.  While it is not connected, packets are
    dropped in both directions. *)
Theorem host_data_path s psi pkt :
  core_ok s -> 0 <= cs_gadget_fd s -> 0 <= cs_ep_in s -> (0 < length pkt <= UP_PKT_SIZE)%nat ->
  (cs_connect_activated s = true -> 28 + 4 * ((Z.of_nat (length pkt) + 3) / 4) <= 2048 ->
   rg_full DL_FIFO_DEPTH (cs_dl_fifo s) = false ->
   exists s' block, core_mbim_dl_callback psi pkt s = Some (0, s')
     /\ rg_items DL_FIFO_DEPTH (cs_dl_fifo s') = rg_items DL_FIFO_DEPTH (cs_dl_fifo s) ++ [block]
     /\ mbim_ntb16_deframe (Some block) (Z.of_nat (length block)) true = Some (1, [pkt]))
  /\ (forall block l, rg_items DL_FIFO_DEPTH (cs_dl_fifo s) = block :: l ->
       (mbim_dl_worker s).1 = Some block /\ rg_items DL_FIFO_DEPTH (cs_dl_fifo (mbim_dl_worker s).2) = l)
  /\ (forall b o cap sequence n ntb, cs_connect_activated s = true -> cs_bridge s = Some b ->
       cap <= Z.of_nat (length o) -> 0 < n ->
       mbim_ntb16_frame_single (Some o) cap (Some pkt) (Z.of_nat (length pkt)) sequence = Some (n, Some ntb) ->
       exists rc engine, ue_engine_inject_uplink_ip sendto (sb_engine b) pkt = Some (rc, engine)
       /\ mbim_data_worker sendto ntb n s = Some (s <| cs_bridge := (Some (b <| sb_engine := engine |>)) |>))
  /\ (cs_connect_activated s = false ->
       core_mbim_dl_callback psi pkt s = Some (-1, s)
       /\ forall dgs, deliver_datagrams sendto dgs s = Some s).
Proof.
  clear pton gai. intros H Hfd Hin Hl.
  assert (Z.of_nat (length pkt) <= 16384) as Hl16 by (unfold UP_PKT_SIZE in Hl; lia).
  assert (Z.of_nat (length pkt) < 2 ^ 32 - 31) as Hn by lia.
  destruct (ntb_ndp_off_eq (Z.of_nat (length pkt)) ltac:(lia)) as [_ Et].
  split; [|split; [|split]].
  - intros Hc Ht Hroom. destruct (dl_callback_ok psi pkt s H ltac:(lia)) as (rc & s' & E & _ & _ & Hq).
    destruct Hq as [-> Hq]; [done|done|done|lia|lia|done|]. exists s', (ntb_wire pkt (cs_dl_seq s)).
    do 2 (split; [done|]). rewrite length_ntb_wire by done.
    pose proof (ntb_deframes_wire pkt [] (cs_dl_seq s) ltac:(lia) ltac:(lia) Hn) as Hd. by rewrite app_nil_r in Hd.
  - intros block l Hi. destruct (dl_worker_ok s H) as [_ Hw]. specialize (Hw Hfd Hin). by rewrite Hi in Hw.
  - intros b o cap sequence n ntb Hc Hb Hcap Hn0 E.
    destruct (ntb_frame_roundtrip o pkt cap sequence ltac:(lia) Hn Hcap) as [Hok Hno]. cbv zeta in Hok, Hno.
    destruct (decide (28 + 4 * ((Z.of_nat (length pkt) + 3) / 4) <= cap
                      /\ 28 + 4 * ((Z.of_nat (length pkt) + 3) / 4) <= 0xFFFF)) as [Hd|Hd].
    2: { rewrite Hno in E by lia. injection E as <- <-. lia. }
    destruct (Hok Hd) as (o' & E' & _ & Hde). rewrite E' in E. injection E as <- <-.
    pose proof (co_bridge _ H b Hb) as [He _ _ _ _].
    destruct (send_uplink_total sendto (sb_engine b) pkt He) as [(rc & e & Ei & _) _].
    exists rc, e. split; [exact Ei|]. unfold mbim_data_worker. replace (0 <? _) with true by lia.
    rewrite Hde. ob. cbn [deliver_datagrams]. unfold ul_deframe_cb. rewrite Hc, Hb. cbn [negb].
    unfold ue_engine_inject_uplink_ip in *. rewrite Ei. by ob.
  - intros Hc. split.
    + unfold core_mbim_dl_callback. replace ((cs_gadget_fd s <? 0) || (cs_ep_in s <? 0)) with false by lia.
      by rewrite Hc.
    + induction dgs as [|dg dgs IH]; cbn [deliver_datagrams]; [done|]. unfold ul_deframe_cb. by rewrite Hc; ob.
Qed.

(** C25: when a command of the host is answered.  In every reachable state a
    command of at least 48 bytes that is not the QMUX synchronisation is held if and only if a response,
    rather than an indication, waits for the host; it then goes behind the commands
    held before it, or is dropped when 15 are held, and nothing is queued.
    Otherwise it is answered at once, behind the messages that wait and whatever
    commands are held, which stay held: it overtakes them.  Its answer is lost
    when 15 messages wait. *)
Theorem commands_overtaken s io w_length pf :
  core_reachable sendto pton gai s -> length io = 4096%nat -> Forall is_byte io -> 48 <= w_length ->
  let n := Z.min w_length 4096 in
  let data := take (Z.to_nat n) io in
  let cmd := over data (cs_cmd s) in
  field32 cmd 0 = MBIM_COMMAND_MSG -> ~ ctl_sync_command cmd n ->
  exists s', core_on_send_encapsulated_command sendto (cs_gadget_fd s) io w_length pf s = Some s'
  /\ if existsb is_response (resp_items s)
     then ri_data <$> resp_items s' = ri_data <$> resp_items s
          /\ rg_items MBIM_HELD_QUEUE_SIZE (cs_held s') = rg_items MBIM_HELD_QUEUE_SIZE (cs_held s)
               ++ (if (length (rg_items MBIM_HELD_QUEUE_SIZE (cs_held s)) =?n 15) then [] else [data])
     else cs_held s' = cs_held s
          /\ exists mem len status, command_done cmd mem len status
             /\ ri_data <$> resp_items s' = (ri_data <$> resp_items s)
                  ++ (if (length (resp_items s) =?n 15) then [] else [take (Z.to_nat len) mem]).
Proof.
  intros Hr Hl Hb Hw n data cmd Hty Hsync. destruct (core_reachable_ok _ _ _ s Hr) as [H _].
  apply send_decides; assumption.
Qed.
End Claims.

(** ** Two behaviours the code does not mean *)

(** An IMS service that is switched off. *)
#[local] Instance no_service : ImsService unit := {
  ims_service_init _ := Some tt;
  ims_service_submit_sms _ _ := (-1, 0, tt);
  ims_service_receive_ip _ _ _ := (-1, tt);
  ims_service_set_pdu_active _ _ _ _ _ := tt;
  ims_service_enabled _ := false;
  ims_service_registered _ := false;
  ims_reference _ _ := conj (Z.le_refl 0) eq_refl }.

#[local] Definition test_bridge : option (state_bridge unit) :=
  state_bridge_init_with_config ue_instance_config_set_defaults (Platform 0 5 6 3) []
    (replicate (Z.to_nat UE_RRC_MAX_NAS_SIZE) 0).

#[local] Definition test_pf : platform := Platform 1000 1 2 3.

Lemma test_bridge_ok b : test_bridge = Some b -> bridge_ok b.
Proof.
  intros E. eapply init_bridge_ok; [| | | |exact E]; [vm_compute; lia..|]. by rewrite length_replicate.
Qed.

#[local] Definition run_test (e : core_event) (s : core_state unit) : option (core_state unit) :=
  run_core test_sendto test_pton test_gai e s.

(** A run, with the type and the transaction of each message the host read. *)
Definition core_read (e : core_event) (s : core_state unit) : option (list (Z * Z) * core_state unit) :=
  match e with
  | CGet pf => '(d, s) ← core_on_get_encapsulated_response test_sendto pf s;
               Some ([(msg_type_of d, field32 d 8)], s)
  | _ => s ← run_test e s; Some ([], s)
  end.
Fixpoint core_script (es : list core_event) (s : core_state unit)
    : option (list (Z * Z) * core_state unit) :=
  match es with
  | [] => Some ([], s)
  | e :: es => '(l, s) ← core_read e s; '(l', s) ← core_script es s; Some (l ++ l', s)
  end.

(** Command [tid] of the host. *)
Definition test_send (tid : Z) (service : bytes) (cid : Z) (info : bytes) : core_event :=
  CSend (<[8%nat := tid]> (test_command service cid 1 info)) (48 + Z.of_nat (length info)) test_pf.

(** The host sends command 1, a QMI synchronisation, and before it reads the
    answer command 2, which is held behind it; a tick had queued the indication of
    the synchronisation.  The host reads the answer to 1; the queue now holds the
    indication only, so command 2 stays held, while command 3 is answered at once:
    the host reads the answers in the order 1, 3, 2. *)
Lemma overtaken_script :
  let sync := [1; 0x0b; 0; 0; 0; 0; 0; 1; 0x27; 0; 0; 0] in
  fst <$> core_script
    [test_send 1 UUID_EXT_QMUX 1 sync; CTick test_pf;
     test_send 2 UUID_BASIC_CONNECT MBIM_CID_REGISTER_STATE []; CGet test_pf;
     test_send 3 UUID_BASIC_CONNECT MBIM_CID_REGISTER_STATE []; CGet test_pf; CGet test_pf; CGet test_pf]
    (core_initial None 3 4 5 6)
  = Some [(MBIM_COMMAND_DONE, 1); (MBIM_INDICATE_STATUS_MSG, 0); (MBIM_COMMAND_DONE, 3); (MBIM_COMMAND_DONE, 2)].
Proof. vm_compute. reflexivity. Qed.

(** The messages of the IMS network, then the host's next step. *)
Fixpoint receive_all (pdus : list bytes) (s : core_state unit) : option (core_state unit) :=
  match pdus with
  | [] => Some s
  | p :: pdus => s ← run_test (CBridge (BSmsDownlink (Some p))) s; receive_all pdus s
  end.

Lemma receive_all_reachable pdus s s' :
  core_reachable test_sendto test_pton test_gai s -> receive_all pdus s = Some s' ->
  core_reachable test_sendto test_pton test_gai s'.
Proof.
  revert s. induction pdus as [|p pdus IH]; intros s Hr E; cbn [receive_all] in E; [by simplify_eq|].
  destruct (run_test _ s) as [s1|] eqn:E1; [|done]. cbn [mbind option_bind] in E.
  eapply IH; [|exact E]. by eapply cr_event; [exact Hr| |exact E1].
Qed.

(** C26: a burst of text messages leaves the buffer of the announcement.  Three
    messages of 256, 180 and 10 bytes that arrive between two ticks need a list
    of 528 bytes, and the 512 bytes of [info] are overrun, by a tick as by a read
    of the host; the two longer ones alone are announced. *)
Theorem sms_burst_overruns :
  exists s2 s3, core_reachable test_sendto test_pton test_gai s2 /\ core_reachable test_sendto test_pton test_gai s3
  /\ core_pdus s2 = [replicate 256 65; replicate 180 66]
  /\ core_pdus s3 = [replicate 256 65; replicate 180 66; replicate 10 67]
  /\ 8 + sms_load s2 = 492 /\ sms_fits s2 /\ 8 + sms_load s3 = 528
  /\ (exists s', run_test (CTick test_pf) s2 = Some s')
  /\ run_test (CTick test_pf) s3 = None /\ run_test (CGet test_pf) s3 = None.
Proof.
  pose (start (b : state_bridge unit) := core_initial (Some b) 3 4 5 6).
  pose (two := [replicate 256 65; replicate 180 66]). pose (three := two ++ [replicate 10 67]).
  assert (match (b ← test_bridge; s2 ← receive_all two (start b); s3 ← receive_all three (start b); Some (s2, s3)) with
    | Some (s2, s3) =>
      bool_decide (core_pdus s2 = two) && bool_decide (core_pdus s3 = three)
      && (8 + sms_load s2 =? 492) && (8 + sms_load s3 =? 528)
      && (match run_test (CTick test_pf) s2 with Some _ => true | None => false end)
      && (match run_test (CTick test_pf) s3 with Some _ => false | None => true end)
      && (match run_test (CGet test_pf) s3 with Some _ => false | None => true end)
    | None => false end = true) as E by (vm_compute; reflexivity).
  destruct test_bridge as [b|] eqn:Eb; cbn [mbind option_bind] in E; [|done].
  destruct (receive_all two (start b)) as [s2|] eqn:E2; cbn [mbind option_bind] in E; [|done].
  destruct (receive_all three (start b)) as [s3|] eqn:E3; cbn [mbind option_bind] in E; [|done].
  repeat (apply andb_prop in E as [E ?]).
  repeat match goal with H : bool_decide _ = true |- _ => apply bool_decide_eq_true in H end.
  assert (core_reachable test_sendto test_pton test_gai (start b)) as Hr.
  { apply cr_init. intros ? [= <-]. by apply test_bridge_ok. }
  exists s2, s3. split; [by eapply receive_all_reachable|]. split; [by eapply receive_all_reachable|].
  do 2 (split; [done|]). split; [lia|]. split; [right; lia|]. split; [lia|].
  destruct (run_test (CTick test_pf) s2) as [s'|]; [|done].
  destruct (run_test (CTick test_pf) s3); [done|]. destruct (run_test (CGet test_pf) s3); [done|].
  by split; [exists s'|].
Qed.

(** ** Witnesses *)

Lemma test_start : exists b, test_bridge = Some b /\ bridge_ok b /\ core_pdus (core_initial (Some b) 3 4 5 6) = [].
Proof.
  assert ((fun b => core_pdus (core_initial (Some b) 3 4 5 6)) <$> test_bridge = Some []) as E
    by (vm_compute; reflexivity).
  destruct test_bridge as [b|] eqn:Eb; [|done]. exists b. split; [done|]. split; [by apply test_bridge_ok|].
  by injection E.
Qed.

Lemma core_events_return_witness :
  exists b s', test_bridge = Some b
  /\ run_test (CGet test_pf) (core_initial (Some b) 3 4 5 6) = Some s' /\ cs_get_in_progress s' = false.
Proof.
  destruct test_start as (b & Eb & Hb & Hp).
  assert (core_reachable test_sendto test_pton test_gai (core_initial (Some b) 3 4 5 6)) as Hr
    by (apply cr_init; by intros ? [= <-]).
  destruct (core_events_return test_sendto test_pton test_gai _ (CGet test_pf) Hr) as (s' & E & _ & _ & Hg & _);
    [by left|]. by exists b, s'.
Defined.

(** A registration that the host has asked for, with its indication in the bridge. *)
Lemma test_registering : exists b s, test_bridge = Some b
  /\ run_test (CBridge BRegister) (core_initial (Some b) 3 4 5 6) = Some s
  /\ core_reachable test_sendto test_pton test_gai s /\ sms_fits s
  /\ (cs_gadget_fd s, cs_ep_int s, cs_notif_armed s, cs_bells s, resp_items s, rg_empty (cs_held s))
     = (3, 4, false, [], [], true)
  /\ forall rc g ms, state_bridge_poll test_sendto CALL_FUEL (cs_bridge s) (dev_state (cs_dev s)) test_pf
       = Some (rc, g, ms) -> exists b', g = Some b' /\ ind_items b' = [MBIM_BRIDGE_IND_REGISTER_SEARCHING].
Proof.
  assert ((b ← test_bridge; s ← run_test (CBridge BRegister) (core_initial (Some b) 3 4 5 6);
      '(_, g, _) ← state_bridge_poll test_sendto CALL_FUEL (cs_bridge s) (dev_state (cs_dev s)) test_pf;
      Some (core_pdus s, cs_gadget_fd s, cs_ep_int s, cs_notif_armed s, cs_bells s, resp_items s,
        rg_empty (cs_held s), match g return list mbim_bridge_indication with Some b => ind_items b | None => [] end))
    = Some ([], 3, 4, false, [], [], true, [MBIM_BRIDGE_IND_REGISTER_SEARCHING])) as E
    by (vm_compute; reflexivity).
  destruct test_start as (b & Eb & Hb & _). rewrite Eb in E. cbn [mbind option_bind] in E.
  destruct (run_test (CBridge BRegister) (core_initial (Some b) 3 4 5 6)) as [s|] eqn:Es;
    cbn [mbind option_bind] in E; [|done].
  destruct (state_bridge_poll _ _ _ _ _) as [[[rc g] ms]|] eqn:Ep; cbn [mbind option_bind] in E; [|done].
  injection E as Hp H1 H2 H3 H4 H5 H6 H7. exists b, s. split; [done|]. split; [done|].
  split; [eapply cr_event; [| |exact Es]; [apply cr_init; by intros ? [= <-]|exact I]|].
  split; [by left|]. split; [congruence|]. intros rc' g' ms' Ep'. assert (g' = g) as -> by congruence.
  destruct g as [b'|]; [|done]. by exists b'.
Qed.

(** The tick tells the host of the registration and rings once. *)
Lemma tick_tells_host_witness :
  exists s s' pre m post, core_ep0_tick test_sendto CALL_FUEL test_pf s = Some s'
  /\ ri_data <$> resp_items s' = pre ++ m :: post
  /\ says (dev_state (cs_dev s')) MBIM_BRIDGE_IND_REGISTER_SEARCHING m
  /\ length (cs_bells s') = 1%nat /\ cs_notif_armed s' = true.
Proof.
  destruct test_registering as (b & s & _ & _ & Hr & Hf & Hs & Hinds). injection Hs as H1 H2 H3 H4 H5 H6.
  destruct (tick_tells_host test_sendto test_pton test_gai s test_pf Hr)
    as (s' & rc & g & ms & msgs & E & Ep & Hd & Hi & Hnew & _ & Hring);
    [by unfold pf_ok, test_pf; cbn; lia|exact Hf|lia|lia|].
  destruct (Hnew H6) as (pre & told & post & -> & Hpre & Hsay).
  destruct (Hinds rc g ms Ep) as (b' & -> & Hinds').
  cbv zeta in Hsay. rewrite H5, Hinds' in Hsay. cbn [length] in Hsay.
  destruct (15 - 0 - length pre)%nat as [|room] eqn:Eroom; [lia|]. cbn [firstn] in Hsay.
  rewrite firstn_nil in Hsay. assert (length told = 1%nat) as Hlen by (by apply Forall2_length in Hsay).
  destruct told as [|m [|? ?]]; [done| |done].
  apply Forall2_cons_1 in Hsay as [Hm _]. rewrite H5 in Hi. cbn [fmap list_fmap app] in Hi.
  exists s, s', pre, m, post. split; [exact E|]. split; [exact Hi|]. split; [by rewrite Hd|].
  destruct Hring as [Ha Hbells]; [intros Hn; rewrite Hn in Hi; by destruct pre|]. split; [|exact Ha].
  rewrite Hbells, H3, H4. destruct (resp_items s') as [|x l]; [by destruct pre|]. done.
Defined.

(** A run of transfers and ticks, checked as it goes. *)
#[local] Definition event_okb (e : core_event) (s : core_state unit) : bool :=
  match e with
  | CSend io w _ => bool_decide (length io = 4096%nat) && forallb (fun x => bool_decide (is_byte x)) io && (0 <=? w)
  | CGet _ => bool_decide (core_pdus s = [])
  | CTick pf => (0 <=? pf_now_ms pf) && (pf_now_ms pf <? 2 ^ 63) && bool_decide (core_pdus s = [])
  | _ => false
  end.
#[local] Fixpoint run_checked (es : list core_event) (s : core_state unit) : option (core_state unit) :=
  match es with
  | [] => Some s
  | e :: es => if event_okb e s then s ← run_test e s; run_checked es s else None
  end.

Lemma run_checked_reachable es s s' :
  core_reachable test_sendto test_pton test_gai s -> run_checked es s = Some s' ->
  core_reachable test_sendto test_pton test_gai s'.
Proof.
  revert s. induction es as [|e es IH]; intros s Hr E; cbn [run_checked] in E; [by simplify_eq|].
  destruct (event_okb e s) eqn:Ho; [|done]. destruct (run_test e s) as [s1|] eqn:E1; [|done].
  apply (IH s1); [|exact E]. eapply cr_event; [exact Hr| |exact E1]. clear E E1 Hr.
  destruct e; cbn [event_okb core_event_ok] in *; try done.
  - apply andb_prop in Ho as [[H1 H2]%andb_prop H3]. apply bool_decide_eq_true in H1. split; [exact H1|].
    split; [|lia]. apply Forall_forall. intros x Hx. rewrite forallb_forall in H2.
    apply list_elem_of_In, H2, bool_decide_eq_true in Hx. exact Hx.
  - left. by apply bool_decide_eq_true in Ho.
  - apply andb_prop in Ho as [[H1 H2]%andb_prop H3]. apply bool_decide_eq_true in H3.
    split; [unfold pf_ok; lia|by left].
Qed.

#[local] Definition test_third : bytes := <[8%nat := 3]> (test_command UUID_BASIC_CONNECT MBIM_CID_REGISTER_STATE 1 []).

(** Command 2 is held, the answer to 1 read, and an indication waits. *)
#[local] Definition held_script : list core_event :=
  [test_send 1 UUID_EXT_QMUX 1 [1; 0x0b; 0; 0; 0; 0; 0; 1; 0x27; 0; 0; 0]; CTick test_pf;
   test_send 2 UUID_BASIC_CONNECT MBIM_CID_REGISTER_STATE []; CGet test_pf].

Lemma held_script_run : match run_checked held_script (core_initial None 3 4 5 6) with
  | Some s => (existsb is_response (resp_items s), length (resp_items s),
               (fun d => field32 d 8) <$> rg_items MBIM_HELD_QUEUE_SIZE (cs_held s), length (cs_cmd s))
              = (false, 1%nat, [2], Z.to_nat 4096)
  | None => False end.
Proof. vm_compute. reflexivity. Qed.

Lemma test_held : exists s, core_reachable test_sendto test_pton test_gai s
  /\ existsb is_response (resp_items s) = false /\ length (resp_items s) = 1%nat
  /\ (fun d => field32 d 8) <$> rg_items MBIM_HELD_QUEUE_SIZE (cs_held s) = [2]
  /\ length (cs_cmd s) = 4096%nat.
Proof.
  pose proof held_script_run as E. destruct (run_checked held_script (core_initial None 3 4 5 6)) as [s|] eqn:Es; [|destruct E].
  injection E as H1 H2 H3 H4. exists s.
  split; [apply (run_checked_reachable held_script (core_initial None 3 4 5 6) s); [by apply cr_init|exact Es]|].
  split; [exact H1|]. split; [exact H2|]. split; [exact H3|exact H4].
Qed.

Lemma test_third_command (old : bytes) :
  length old = 4096%nat ->
  field32 (over (take 48 test_third) old) 0 = MBIM_COMMAND_MSG
  /\ bytes_at (over (take 48 test_third) old) 20 16 = UUID_BASIC_CONNECT
  /\ field32 (over (take 48 test_third) old) 8 = 3.
Proof.
  intros Hl. assert (length (take 48 test_third) = 48%nat) as H48 by (vm_compute; reflexivity).
  assert (forall i n, (i + n <= 48)%nat ->
    bytes_at (over (take 48 test_third) old) i n = bytes_at (take 48 test_third) i n) as Hb.
  { intros i n Hi. unfold bytes_at, over. rewrite drop_app_le by (rewrite H48; lia).
    apply take_app_le. rewrite length_drop, H48. lia. }
  unfold field32. rewrite !Hb by lia. vm_compute. done.
Qed.

(** Command 3 is answered while command 2 is held. *)
Lemma commands_overtaken_witness :
  exists s s' answer, length (rg_items MBIM_HELD_QUEUE_SIZE (cs_held s)) = 1%nat
  /\ core_on_send_encapsulated_command test_sendto (cs_gadget_fd s) test_third 48 test_pf s = Some s'
  /\ cs_held s' = cs_held s
  /\ ri_data <$> resp_items s' = (ri_data <$> resp_items s) ++ [answer] /\ field32 answer 8 = 3.
Proof.
  destruct test_held as (s & Hr & Hno & Hlen & Hheld & Hcmd).
  destruct (test_third_command (cs_cmd s) Hcmd) as (T1 & T2 & T3).
  destruct (commands_overtaken test_sendto test_pton test_gai s test_third 48 test_pf Hr) as (s' & E & Hs).
  - reflexivity.
  - apply (bool_decide_unpack _). vm_compute. exact I.
  - lia.
  - exact T1.
  - intros (Hq & _). pose proof (eq_trans (eq_sym T2) Hq) as Hne. discriminate Hne.
  - rewrite Hno, Hlen in Hs. destruct Hs as (Hh & mem & len & status & Hdone & Hi). cbn [Nat.eqb] in Hi.
    exists s, s', (take (Z.to_nat len) mem). split; [|split; [exact E|split; [exact Hh|split; [exact Hi|]]]].
    + apply (f_equal length) in Hheld. by rewrite length_fmap in Hheld.
    + pose proof (cd_size _ _ _ _ Hdone). pose proof (eq_trans (cd_tid _ _ _ _ Hdone) T3) as <-.
      unfold field32, bytes_at. rewrite skipn_firstn_comm, take_take. do 2 f_equal. lia.
Defined.

Lemma host_data_path_witness :
  exists s s' block, cs_connect_activated s = true
  /\ core_mbim_dl_callback (I := unit) 1 [69; 0; 1] s = Some (0, s')
  /\ (mbim_dl_worker s').1 = Some block /\ mbim_ntb16_deframe (Some block) 32 true = Some (1, [[69; 0; 1]]).
Proof.
  assert (core_ok (core_initial (I := unit) None 3 4 5 6)) as H0 by by apply core_initial_ok.
  set (s := (core_initial (I := unit) None 3 4 5 6) <| cs_connect_activated := true |>).
  assert (core_ok s) as H by core_fields H0.
  destruct (host_data_path test_sendto s 1 [69; 0; 1] H) as (Hdl & _); [cbn; lia..|unfold UP_PKT_SIZE; cbn; lia|].
  destruct Hdl as (s' & block & E & Hi & Hd); [done|by vm_compute|done|].
  assert (core_ok s' /\ 0 <= cs_gadget_fd s' /\ 0 <= cs_ep_in s') as (H' & F1 & F2).
  { destruct (dl_callback_ok 1 [69; 0; 1] s H) as (rc & s2 & E2 & H2 & Hs & _); [unfold UP_PKT_SIZE; cbn; lia|].
    rewrite E in E2. injection E2 as _ <-. split; [exact H2|].
    assert (cs_gadget_fd s' = 3) as -> by (rewrite Hs; reflexivity).
    assert (cs_ep_in s' = 6) as -> by (rewrite Hs; reflexivity). lia. }
  destruct (host_data_path test_sendto s' 1 [69; 0; 1] H' F1 F2) as (_ & Hw & _); [unfold UP_PKT_SIZE; cbn; lia|].
  destruct (Hw block []) as [Hb _]; [by rewrite Hi|]. exists s, s', block. split; [done|]. split; [exact E|].
  split; [exact Hb|]. assert (Z.of_nat (length block) = 32) as El; [|by rewrite <- El].
  vm_compute in E. injection E as <-. vm_compute in Hi. injection Hi as <-. reflexivity.
Defined.
