(* ===== verification/ImsCodec.v ===== *)
(** The packets of the IMS service: [src/src/ims_service/ims_ip.c], UDP over
    IPv4, and [src/src/ims_service/ims_rpdata.c], the relay layer of SMS
    (TS 24.011) around the PDUs of MBIM. *)

From S2P Require Import Prelude.

#[local] Set Primitive Projections.

Definition EINVAL : Z := 22.
Definition EMSGSIZE : Z := 90.
Definition EPROTONOSUPPORT : Z := 93.

(** ** [ims_ip.c] *)

Definition ip_rd16 (m : bytes) (i : nat) : option Z :=
  hi ← m !! i; lo ← m !! (i + 1)%nat; Some (u16 ((hi ≪ 8) |. lo)).

(** The two bytes [wr16] stores. *)
Definition ip_wr16 (v : Z) : bytes := [u8 (v ≫ 8); u8 v].

(** The words of [data], an odd byte as the high byte of a last one. *)
Fixpoint checksum_add (sum : Z) (data : bytes) : Z :=
  match data with
  | hi :: lo :: data => checksum_add (u32 (sum + u16 ((hi ≪ 8) |. lo))) data
  | [hi] => u32 (sum + (u16 hi ≪ 8))
  | [] => sum
  end.

(** [while (sum >> 16)]; three rounds fold any [uint32_t]. *)
Fixpoint checksum_fold (fuel : nat) (sum : Z) : option Z :=
  match fuel with
  | O => None
  | S fuel => if sum ≫ 16 =? 0 then Some sum else checksum_fold fuel (u32 ((sum &. 0xffff) + (sum ≫ 16)))
  end.
Definition checksum_finish (sum : Z) : option Z := s ← checksum_fold 4 sum; Some (u16 (Z.lnot s)).

Definition ipv4_header_checksum (hdr : bytes) : option Z := checksum_finish (checksum_add 0 hdr).

Definition udp_pseudo (src dst : bytes) (udp_len : Z) : bytes := src ++ dst ++ [0; 17] ++ ip_wr16 (u16 udp_len).

Definition udp_checksum_ipv4 (src dst udp : bytes) : option Z :=
  checksum_finish (checksum_add (checksum_add 0 (udp_pseudo src dst (Z.of_nat (length udp)))) udp).

Record ims_udp_packet := UdpPacket {
  udp_src_ip : bytes; udp_dst_ip : bytes; udp_src_port : Z; udp_dst_port : Z; udp_payload : bytes }.

(** The error or the packet. *)
Definition ims_ip_parse_udp_ipv4 (packet : bytes) : option (Z + ims_udp_packet) :=
  let packet_len := Z.of_nat (length packet) in
  if packet_len <? 28 then Some (inl (- EINVAL)) else
  b0 ← packet !! 0%nat;
  if negb (b0 ≫ 4 =? 4) then Some (inl (- EPROTONOSUPPORT)) else
  let ihl := (b0 &. 15) * 4 in
  if (ihl <? 20) || (packet_len <? ihl) then Some (inl (- EINVAL)) else
  proto ← packet !! 9%nat;
  if negb (proto =? 17) then Some (inl (- EPROTONOSUPPORT)) else
  total_len ← ip_rd16 packet 2;
  if (total_len <? ihl + 8) || (packet_len <? total_len) then Some (inl (- EINVAL)) else
  let udp := Z.to_nat ihl in
  udp_len ← ip_rd16 packet (udp + 4);
  if (udp_len <? 8) || (total_len <? ihl + udp_len) then Some (inl (- EINVAL)) else
  src_ip ← slice packet 12 4;
  dst_ip ← slice packet 16 4;
  src_port ← ip_rd16 packet udp;
  dst_port ← ip_rd16 packet (udp + 2);
  payload ← slice packet (udp + 8) (Z.to_nat (udp_len - 8));
  Some (inr (UdpPacket src_ip dst_ip src_port dst_port payload)).

(** The C result and what is written at [out], a buffer of [out_len] bytes. *)
Definition ims_ip_build_udp_ipv4 (out_len : Z) (src_ip dst_ip : bytes) (src_port dst_port : Z)
    (payload : bytes) : option (Z * bytes) :=
  let payload_len := Z.of_nat (length payload) in
  let udp_len := 8 + payload_len in
  let total_len := 20 + udp_len in
  if (0xffff - 28 <? payload_len) || (out_len <? total_len) then Some (- EMSGSIZE, []) else
  let head csum := [0x45; 0] ++ ip_wr16 (u16 total_len) ++ ip_wr16 0 ++ ip_wr16 0x4000 ++ [64; 17]
                   ++ ip_wr16 csum ++ src_ip ++ dst_ip in
  hcsum ← ipv4_header_checksum (head 0);
  let udp csum := ip_wr16 src_port ++ ip_wr16 dst_port ++ ip_wr16 (u16 udp_len) ++ ip_wr16 csum ++ payload in
  csum ← udp_checksum_ipv4 src_ip dst_ip (udp 0);
  Some (total_len, head hcsum ++ udp (if csum =? 0 then 0xffff else csum)).

(** ** [ims_rpdata.c] *)

(** The C result and what is written at [out], a buffer of [out_cap] bytes. *)
Definition ims_build_rp_data (mbim_pdu : bytes) (rp_mr out_cap : Z) : option (Z * bytes) :=
  let mbim_len := Z.of_nat (length mbim_pdu) in
  if mbim_len <? 1 then Some (-1, []) else
  sca_len ← mbim_pdu !! 0%nat;
  let sca_total := 1 + sca_len in
  if mbim_len <=? sca_total then Some (-1, []) else
  let tpdu_len := mbim_len - sca_total in
  if (tpdu_len =? 0) || (255 <? tpdu_len) then Some (-1, []) else
  if out_cap <? 3 + (if sca_len =? 0 then 1 else sca_total) + 1 + tpdu_len then Some (-1, []) else
  sca ← slice mbim_pdu 0 (Z.to_nat sca_total);
  tpdu ← slice mbim_pdu (Z.to_nat sca_total) (Z.to_nat tpdu_len);
  let rpdu := [0; rp_mr; 0] ++ (if sca_len =? 0 then [0] else sca) ++ [u8 tpdu_len] ++ tpdu in
  Some (Z.of_nat (length rpdu), rpdu).

(** The C result, what is written at [out], and [out_rp_mr], unset before the
    message reference is read. *)
Definition ims_rp_data_to_mbim_pdu (rp : bytes) (out_cap : Z) : option (Z * bytes * option Z) :=
  let rp_len := length rp in
  if (rp_len <?n 3) then Some (-1, [], None) else
  mti ← rp !! 0%nat;
  if negb (mti &. 7 =? 1) then Some (-1, [], None) else
  rp_mr ← rp !! 1%nat;
  oa_len ← rp !! 2%nat;
  let oa_lv := (1 + Z.to_nat oa_len)%nat in
  if (rp_len <=?n 2 + oa_lv) then Some (-1, [], Some rp_mr) else
  let pos := (2 + oa_lv)%nat in
  da_len ← rp !! pos;
  if (rp_len <=?n pos + 1 + Z.to_nat da_len) then Some (-1, [], Some rp_mr) else
  let pos := (pos + (1 + Z.to_nat da_len))%nat in
  iei ← rp !! pos;
  let pos := if (iei =? 0x41) && (pos + 1 <?n rp_len) then (pos + 1)%nat else pos in
  ud_len ← rp !! pos;
  let pos := (pos + 1)%nat in
  if (ud_len =? 0) || (rp_len <?n pos + Z.to_nat ud_len) then Some (-1, [], Some rp_mr) else
  if out_cap <? Z.of_nat oa_lv + ud_len then Some (-1, [], Some rp_mr) else
  oa ← slice rp 2 oa_lv;
  ud ← slice rp pos (Z.to_nat ud_len);
  Some (Z.of_nat (length (oa ++ ud)), oa ++ ud, Some rp_mr).

(** ** Ones' complement sums *)

(** The sum of the 16-bit words. *)
Fixpoint word_sum (data : bytes) : Z :=
  match data with
  | hi :: lo :: data => hi * 256 + lo + word_sum data
  | [hi] => hi * 256
  | [] => 0
  end.

Lemma word_or hi lo : is_byte hi -> is_byte lo -> u16 ((hi ≪ 8) |. lo) = hi * 256 + lo.
Proof.
  intros Hh Hl. rewrite lor_shiftl_add by (unfold is_byte in *; lia). unfold is_byte in *.
  change (2 ^ 8) with 256. rewrite u16_small by lia. lia.
Qed.

(** Pairs first, as the sum takes them. *)
Lemma word_ind (P : bytes -> Prop) :
  P [] -> (forall a, P [a]) -> (forall a b l, P l -> P (a :: b :: l)) -> forall l, P l.
Proof.
  intros H0 H1 H2 l. enough (P l /\ forall a, P (a :: l)) by tauto.
  induction l as [|b l [IH1 IH2]]; [by split|]. split; [apply IH2|]. intros a. by apply H2.
Qed.

Lemma word_sum_bound data : Forall is_byte data -> 0 <= word_sum data <= 32768 * (Z.of_nat (length data) + 1).
Proof.
  induction data as [|a|a b data IH] using word_ind; intros H; [cbn; lia| |].
  - apply Forall_cons in H as [Ha _]. unfold is_byte in Ha. cbn. lia.
  - apply Forall_cons in H as [Ha H]. apply Forall_cons in H as [Hb H]. specialize (IH H).
    unfold is_byte in *. cbn [word_sum length] in *. lia.
Qed.

Lemma checksum_add_sum data sum :
  Forall is_byte data -> 0 <= sum -> sum + word_sum data < 2 ^ 32 ->
  checksum_add sum data = sum + word_sum data.
Proof.
  revert sum. induction data as [|a|a b data IH] using word_ind; intros sum H Hs Hm; cbn [checksum_add word_sum] in *.
  - lia.
  - apply Forall_cons in H as [Ha _]. unfold is_byte in Ha. rewrite u16_small by lia.
    rewrite Z.shiftl_mul_pow2 by lia. rewrite u32_small; lia.
  - apply Forall_cons in H as [Ha H]. apply Forall_cons in H as [Hb H].
    pose proof (word_sum_bound data H). rewrite word_or by done. unfold is_byte in *.
    rewrite u32_small by lia. rewrite IH; [lia|done|lia|lia].
Qed.

Lemma word_sum_app a b : Nat.even (length a) = true -> word_sum (a ++ b) = word_sum a + word_sum b.
Proof.
  induction a as [|x|x y a IH] using word_ind; intros He; [done|done|].
  cbn [app word_sum length Nat.even] in *. rewrite IH by done. lia.
Qed.

(** Folding keeps the sum modulo 65535, in 1 to 65535 unless it is 0. *)
Lemma checksum_fold_spec s :
  0 <= s < 2 ^ 32 ->
  exists r, checksum_fold 4 s = Some r /\ 0 <= r < 65536 /\ (r = 0 <-> s = 0) /\ (65535 | s - r).
Proof.
  assert (forall s, 0 <= s < 2 ^ 32 -> 65536 <= s ->
    let s' := u32 ((s &. 0xffff) + (s ≫ 16)) in
    s' = s mod 65536 + s / 65536 /\ 0 < s' <= 65535 + s / 65536 /\ (65535 | s - s')) as Hstep.
  { intros x Hx Hg. cbv zeta. assert (x &. 65535 = x mod 65536) as -> by (change 65535 with (Z.ones 16); by rewrite land_mask_mod).
    rewrite shiftr_div by lia.
    change (2 ^ 16) with 65536. pose proof (Z.mod_pos_bound x 65536 ltac:(lia)). pose proof (Z.div_mod x 65536 ltac:(lia)).
    assert (1 <= x / 65536 < 2 ^ 16) as _ by lia. assert (1 <= x / 65536 <= 65535) as _ by lia.
    rewrite u32_small by nia. split; [done|]. split; [lia|].
    exists (x / 65536). lia. }
  assert (forall x, (x ≫ 16 =? 0) = (x <? 65536)%Z \/ x < 0) as Ht.
  { intros x. destruct (Z.ltb_spec x 0); [by right|]. left. rewrite shiftr_div by lia. lia. }
  intros Hs. cbn [checksum_fold].
  destruct (Ht s) as [->|]; [|lia]. destruct (Z.ltb_spec s 65536).
  { exists s. split; [done|]. split; [lia|]. split; [done|]. rewrite Z.sub_diag. apply Z.divide_0_r. }
  destruct (Hstep s Hs ltac:(lia)) as (E1 & B1 & D1). set (s1 := u32 ((s &. 0xffff) + (s ≫ 16))) in *.
  destruct (Ht s1) as [->|]; [|lia]. destruct (Z.ltb_spec s1 65536).
  { exists s1. split; [done|]. split; [lia|]. split; [lia|done]. }
  assert (s1 <= 131070) as B1' by lia.
  destruct (Hstep s1 ltac:(lia) ltac:(lia)) as (E2 & B2 & D2). set (s2 := u32 ((s1 &. 0xffff) + (s1 ≫ 16))) in *.
  clearbody s1 s2. assert (s1 / 65536 = 1) as Eq by nia. rewrite Eq in *.
  assert (s2 < 65536) as B2' by lia.
  destruct (Ht s2) as [->|]; [|lia]. destruct (Z.ltb_spec s2 65536); [|lia].
  exists s2. split; [done|]. split; [lia|]. split; [lia|].
  replace (s - s2) with ((s - s1) + (s1 - s2)) by lia. by apply Z.divide_add_r.
Qed.

Lemma u16_lnot r : 0 <= r < 65536 -> u16 (Z.lnot r) = 65535 - r.
Proof. intros H. unfold Z.lnot, u16. lia. Qed.

(** A checksum [c] that completes the sum verifies. *)
Lemma checksum_completes s :
  0 <= s -> s + 65535 < 2 ^ 32 ->
  exists c, checksum_finish s = Some c /\ 0 <= c < 65536
  /\ checksum_finish (s + c) = Some 0 /\ (c = 0 -> checksum_finish (s + 65535) = Some 0).
Proof.
  intros H0 Hm. unfold checksum_finish at 1. destruct (checksum_fold_spec s) as (r & -> & Hr & Hz & Hd); [lia|].
  ob. exists (65535 - r). rewrite u16_lnot by done. split; [done|]. split; [lia|].
  assert (forall t, 0 < t < 2 ^ 32 -> (65535 | t) -> checksum_finish t = Some 0) as Hok.
  { intros t Ht Hdt. unfold checksum_finish. destruct (checksum_fold_spec t) as (q & -> & Hq & Hzq & Hdq); [lia|].
    ob. f_equal. rewrite u16_lnot by done. enough (q = 65535) by lia.
    destruct Hdt as [k Hk]. destruct Hdq as [k' Hk']. lia. }
  destruct Hd as [k Hk]. split.
  - apply Hok; [lia|]. exists (k + 1). lia.
  - intros Hc. apply Hok; [lia|]. exists (k + 2). lia.
Qed.

(** ** The packets *)

Lemma length_ip_wr16 v : length (ip_wr16 v) = 2%nat.
Proof. done. Qed.

Lemma ip_wr16_bytes v : Forall is_byte (ip_wr16 v).
Proof. repeat constructor; apply u8_is_byte. Qed.

Lemma word_sum_wr16 v : word_sum (ip_wr16 v) = u16 v.
Proof. cbn [word_sum ip_wr16]. rewrite shiftr_div by lia. unfold u8, u16. change (2 ^ 8) with 256. lia. Qed.

Lemma ip_rd16_wr16 a v b i : i = length a -> ip_rd16 (a ++ ip_wr16 v ++ b) i = Some (u16 v).
Proof.
  intros ->. unfold ip_rd16.
  rewrite (lookup_app_r a _ (length a)), (lookup_app_r a _ (length a + 1)) by lia.
  replace (length a - length a)%nat with 0%nat by lia. replace (length a + 1 - length a)%nat with 1%nat by lia.
  change ((ip_wr16 v ++ b) !! 0%nat) with (Some (u8 (v ≫ 8))).
  change ((ip_wr16 v ++ b) !! 1%nat) with (Some (u8 v)). ob.
  rewrite word_or by apply u8_is_byte. rewrite shiftr_div by lia. unfold u8, u16. change (2 ^ 8) with 256. f_equal. lia.
Qed.

(** A packet is read without leaving it; what is delivered is a range of it. *)
Lemma ims_ip_parse_safe packet :
  Forall is_byte packet ->
  exists r, ims_ip_parse_udp_ipv4 packet = Some r
  /\ match r with
     | inl e => e < 0
     | inr u => exists i, udp_payload u = take (length (udp_payload u)) (drop i packet)
                /\ (28 <= i)%nat /\ (i + length (udp_payload u) <= length packet)%nat
                /\ length (udp_src_ip u) = 4%nat /\ length (udp_dst_ip u) = 4%nat
     end.
Proof.
  intros Hb. unfold ims_ip_parse_udp_ipv4. cbv zeta.
  assert (forall i, (i + 1 < length packet)%nat -> exists v, ip_rd16 packet i = Some v /\ 0 <= v < 65536) as Hrd.
  { intros i Hi. unfold ip_rd16. destruct (load_in packet i) as (hi & ->); [lia|].
    destruct (load_in packet (i + 1)) as (lo & ->); [lia|]. ob. eexists. split; [done|]. apply u16_range. }
  destruct (Z.ltb_spec (Z.of_nat (length packet)) 28); [by eexists|].
  destruct (load_in packet 0) as (b0 & E0); [lia|]. rewrite E0. ob. pose proof (lookup_byte _ _ _ Hb E0) as Hb0.
  destruct (negb _); [by eexists|]. rewrite land_0f. set (ihl := b0 mod 16 * 4).
  destruct (Z.ltb_spec ihl 20); [by eexists|]. cbn [orb].
  destruct (Z.ltb_spec (Z.of_nat (length packet)) ihl); [by eexists|].
  destruct (load_in packet 9) as (pr & ->); [lia|]. ob. destruct (negb _); [by eexists|].
  destruct (Hrd 2%nat) as (total & -> & Ht); [lia|]. ob.
  destruct (Z.ltb_spec total (ihl + 8)); [by eexists|]. cbn [orb].
  destruct (Z.ltb_spec (Z.of_nat (length packet)) total); [by eexists|].
  destruct (Hrd (Z.to_nat ihl + 4)%nat) as (ulen & -> & Hu); [lia|]. ob.
  destruct (Z.ltb_spec ulen 8); [by eexists|]. cbn [orb].
  destruct (Z.ltb_spec total (ihl + ulen)); [by eexists|].
  rewrite !slice_in by lia. ob.
  destruct (Hrd (Z.to_nat ihl)) as (sp & -> & _); [lia|]. destruct (Hrd (Z.to_nat ihl + 2)%nat) as (dp & -> & _); [lia|].
  ob. eexists. split; [reflexivity|]. cbn [udp_payload udp_src_ip udp_dst_ip].
  exists (Z.to_nat ihl + 8)%nat. rewrite !length_take, !length_drop.
  split; [f_equal; lia|]. split; [lia|]. split; lia.
Qed.

Section Build.
Variables (src dst payload : bytes) (src_port dst_port : Z).
Hypothesis Hsrc : length src = 4%nat.
Hypothesis Hdst : length dst = 4%nat.
Hypothesis Hsb : Forall is_byte src.
Hypothesis Hdb : Forall is_byte dst.
Hypothesis Hpb : Forall is_byte payload.
Hypothesis Hlen : Z.of_nat (length payload) <= 65507.
Let total : Z := 28 + Z.of_nat (length payload).
Let udp_len : Z := 8 + Z.of_nat (length payload).

Let head (csum : Z) : bytes :=
  [0x45; 0] ++ ip_wr16 (u16 total) ++ ip_wr16 0 ++ ip_wr16 0x4000 ++ [64; 17] ++ ip_wr16 csum ++ src ++ dst.
Let udp (csum : Z) : bytes :=
  ip_wr16 src_port ++ ip_wr16 dst_port ++ ip_wr16 (u16 udp_len) ++ ip_wr16 csum ++ payload.

(** The two checksums, and that they verify. *)
Lemma built_checksums :
  exists h c, ipv4_header_checksum (head 0) = Some h /\ udp_checksum_ipv4 src dst (udp 0) = Some c
  /\ ipv4_header_checksum (head h) = Some 0
  /\ udp_checksum_ipv4 src dst (udp (if c =? 0 then 0xffff else c)) = Some 0.
Proof using Hdb Hdst Hlen Hpb Hsb Hsrc.
  assert (forall c, Forall is_byte (head c) /\ length (head c) = 20%nat) as Hh.
  { intros c. split; [repeat (apply Forall_app; split); auto using ip_wr16_bytes; repeat constructor; unfold is_byte; lia|].
    unfold head. rewrite !length_app, !length_ip_wr16, Hsrc, Hdst. done. }
  assert (forall c, Forall is_byte (udp c) /\ Z.of_nat (length (udp c)) = udp_len) as Hu.
  { intros c. split; [repeat (apply Forall_app; split); auto using ip_wr16_bytes|].
    unfold udp. rewrite !length_app, !length_ip_wr16. unfold udp_len. lia. }
  assert (Nat.even (length src) = true) as Ev by by rewrite Hsrc.
  assert (forall c, word_sum (head c) = word_sum (head 0) + u16 c) as Sh.
  { intros c. unfold head. rewrite !word_sum_app, !word_sum_wr16 by done. change (u16 0) with 0. lia. }
  assert (forall c, word_sum (udp c) = word_sum (udp 0) + u16 c) as Su.
  { intros c. unfold udp. rewrite !word_sum_app, !word_sum_wr16 by done. change (u16 0) with 0. lia. }
  set (ps := udp_pseudo src dst udp_len).
  assert (Forall is_byte ps /\ length ps = 12%nat) as [Hp1 Hp2].
  { split; [repeat (apply Forall_app; split); auto using ip_wr16_bytes; repeat constructor; unfold is_byte; lia|].
    unfold ps, udp_pseudo. rewrite !length_app, length_ip_wr16, Hsrc, Hdst. done. }
  pose proof (word_sum_bound ps Hp1) as Bp. rewrite Hp2 in Bp.
  assert (forall c, 0 <= c < 65536 -> ipv4_header_checksum (head c) = checksum_finish (word_sum (head 0) + c)) as Eh.
  { intros c Hc. unfold ipv4_header_checksum. destruct (Hh c) as [B L]. pose proof (word_sum_bound _ B) as Bb.
    rewrite L in Bb. rewrite checksum_add_sum by (done || lia). by rewrite Sh, u16_small. }
  assert (forall c, 0 <= c < 65536 ->
    udp_checksum_ipv4 src dst (udp c) = checksum_finish (word_sum ps + word_sum (udp 0) + c)) as Eu.
  { intros c Hc. unfold udp_checksum_ipv4. destruct (Hu c) as [B L]. rewrite L. fold ps.
    pose proof (word_sum_bound _ B) as Bb. rewrite L in Bb. unfold udp_len in Bb.
    rewrite (checksum_add_sum ps) by (done || lia). rewrite checksum_add_sum by (done || lia).
    rewrite Su, u16_small by done. f_equal. lia. }
  destruct (Hh 0) as [B L]. pose proof (word_sum_bound _ B) as Bh. rewrite L in Bh.
  destruct (Hu 0) as [B2 L2]. pose proof (word_sum_bound _ B2) as Bu. rewrite L2 in Bu. unfold udp_len in Bu.
  destruct (checksum_completes (word_sum (head 0))) as (h & F1 & R1 & V1 & _); [lia..|].
  destruct (checksum_completes (word_sum ps + word_sum (udp 0))) as (c & F2 & R2 & V2 & Z2); [lia..|].
  exists h, c. rewrite !Eh, !Eu, !Z.add_0_r by lia. do 3 (split; [done|]).
  destruct (Z.eqb_spec c 0) as [E|]; rewrite Eu by lia; auto.
Qed.

(** The packet that is built is read back. *)
Lemma ims_ip_roundtrip out_len :
  0 <= src_port < 65536 -> 0 <= dst_port < 65536 -> total <= out_len ->
  exists out, ims_ip_build_udp_ipv4 out_len src dst src_port dst_port payload = Some (total, out)
  /\ Z.of_nat (length out) = total /\ Forall is_byte out
  /\ ims_ip_parse_udp_ipv4 out = Some (inr (UdpPacket src dst src_port dst_port payload))
  /\ ipv4_header_checksum (take 20 out) = Some 0 /\ udp_checksum_ipv4 src dst (drop 20 out) = Some 0.
Proof using Hdb Hdst Hlen Hpb Hsb Hsrc.
  intros Hp1 Hp2 Ho. unfold ims_ip_build_udp_ipv4. cbv zeta.
  replace (20 + (8 + Z.of_nat (length payload))) with total by (unfold total; lia).
  change (8 + Z.of_nat (length payload)) with udp_len.
  destruct built_checksums as (h & c & Eh & Ec & Vh & Vc).
  replace (_ || _) with false by (unfold total in *; lia).
  match goal with |- context [ipv4_header_checksum ?x] => change x with (head 0) end. rewrite Eh. ob.
  match goal with |- context [udp_checksum_ipv4 _ _ ?x] => change x with (udp 0) end. rewrite Ec. ob.
  match goal with |- context [Some (total, ?x)] => change x with (head h ++ udp (if c =? 0 then 0xffff else c)) end.
  set (c' := if c =? 0 then 0xffff else c) in *. clearbody c'.
  assert (length (head h) = 20%nat) as Lh by (unfold head; rewrite !length_app, !length_ip_wr16, Hsrc, Hdst; done).
  assert (Z.of_nat (length (udp c')) = udp_len) as Lu
    by (unfold udp, udp_len; rewrite !length_app, !length_ip_wr16; lia).
  assert (Z.of_nat (length (head h ++ udp c')) = total) as L by (rewrite length_app; unfold total, udp_len in *; lia).
  eexists. split; [reflexivity|]. split; [exact L|].
  split; [repeat (apply Forall_app; split); auto using ip_wr16_bytes; repeat constructor; unfold is_byte; lia|].
  rewrite take_app_length', drop_app_length' by done.
  split; [|by split]. unfold ims_ip_parse_udp_ipv4. cbv zeta. rewrite L.
  replace (total <? 28) with false by (unfold total; lia).
  change ((head h ++ udp c') !! 0%nat) with (Some 0x45). ob. change (negb (0x45 ≫ 4 =? 4)) with false.
  change ((0x45 &. 15) * 4) with 20. replace (_ || _) with false by (unfold total; lia).
  change ((head h ++ udp c') !! 9%nat) with (Some 17). ob. change (negb (17 =? 17)) with false.
  assert (ip_rd16 (head h ++ udp c') 2 = Some total) as ->.
  { unfold head. rewrite <- !app_assoc. rewrite (ip_rd16_wr16 [0x45; 0]) by done. f_equal. unfold u16, total. lia. }
  ob. replace (_ || _) with false by (unfold total; lia). change (Z.to_nat 20) with 20%nat.
  assert (forall a v b i, udp c' = a ++ ip_wr16 v ++ b -> i = (20 + length a)%nat ->
    ip_rd16 (head h ++ udp c') i = Some (u16 v)) as Hrd.
  { intros a v b i -> ->. rewrite app_assoc. apply ip_rd16_wr16. rewrite length_app. lia. }
  rewrite (Hrd (ip_wr16 src_port ++ ip_wr16 dst_port) (u16 udp_len) (ip_wr16 c' ++ payload) (20 + 4)%nat);
    [|unfold udp; by rewrite <- !app_assoc|done].
  ob. replace (u16 (u16 udp_len)) with udp_len by (unfold u16, udp_len; lia).
  replace (_ || _) with false by (unfold total, udp_len; lia).
  rewrite !slice_in by (unfold total, udp_len in *; lia). ob.
  rewrite (Hrd [] src_port (ip_wr16 dst_port ++ ip_wr16 (u16 udp_len) ++ ip_wr16 c' ++ payload) 20%nat) by done. ob.
  rewrite (Hrd (ip_wr16 src_port) dst_port (ip_wr16 (u16 udp_len) ++ ip_wr16 c' ++ payload) (20 + 2)%nat) by done. ob.
  do 2 f_equal. rewrite !u16_small by done. f_equal.
  - unfold head. rewrite <- !app_assoc. cbn [app ip_wr16 drop]. by rewrite drop_0, take_app_length'.
  - unfold head. rewrite <- !app_assoc. cbn [app ip_wr16 drop].
    destruct src as [|s1 [|s2 [|s3 [|s4 [|]]]]]; try done. cbn [app drop]. by rewrite drop_0, take_app_length'.
  - rewrite drop_app_ge by lia. rewrite Lh. cbn [Nat.add Nat.sub]. unfold udp. cbn [app ip_wr16 drop].
    apply take_ge. unfold udp_len. lia.
Qed.
End Build.

(** ** The relay layer *)

(** A length-value element. *)
Definition rp_lv (v : bytes) : bytes := Z.of_nat (length v) :: v.

(** The message of a PDU with its service centre and its TPDU. *)
Lemma rp_data_built sca tpdu rp_mr out_cap :
  (0 < length tpdu <= 255)%nat -> 5 + Z.of_nat (length sca) + Z.of_nat (length tpdu) <= out_cap ->
  let rpdu := [0; rp_mr; 0] ++ rp_lv sca ++ rp_lv tpdu in
  ims_build_rp_data (rp_lv sca ++ tpdu) rp_mr out_cap = Some (Z.of_nat (length rpdu), rpdu).
Proof.
  intros Ht Hc. cbv zeta. unfold ims_build_rp_data. cbv zeta.
  assert (length (rp_lv sca ++ tpdu) = (1 + length sca + length tpdu)%nat) as Hl
    by (rewrite length_app; cbn [rp_lv length]; lia).
  rewrite Hl. replace (_ <? 1) with false by lia.
  change ((rp_lv sca ++ tpdu) !! 0%nat) with (Some (Z.of_nat (length sca))). ob.
  replace (_ <=? _) with false by lia.
  replace (Z.of_nat (1 + length sca + length tpdu) - (1 + Z.of_nat (length sca))) with (Z.of_nat (length tpdu)) by lia.
  replace (_ || _) with false by lia.
  replace (out_cap <? _) with false by (destruct (Z.of_nat (length sca) =? 0) eqn:E; lia).
  rewrite !slice_in by lia. ob. rewrite drop_0.
  replace (Z.to_nat (1 + Z.of_nat (length sca))) with (length (rp_lv sca)) by (cbn [rp_lv length]; lia).
  rewrite Nat2Z.id, take_app_length, drop_app_length, firstn_all.
  replace (if Z.of_nat (length sca) =? 0 then [0] else rp_lv sca) with (rp_lv sca)
    by (destruct (Z.of_nat (length sca) =? 0) eqn:E; [destruct sca; [done|cbn in E; lia]|done]).
  rewrite u8_small by lia. done.
Qed.

Lemma rp_build_total pdu rp_mr out_cap :
  Forall is_byte pdu ->
  exists n out, ims_build_rp_data pdu rp_mr out_cap = Some (n, out)
  /\ (n = -1 /\ out = [] \/ n = Z.of_nat (length out) /\ (5 < length out <= 515)%nat /\ n <= out_cap).
Proof.
  intros Hb. unfold ims_build_rp_data. cbv zeta.
  destruct (Z.ltb_spec (Z.of_nat (length pdu)) 1); [by eexists _, _; split; [|left]|].
  destruct (load_in pdu 0) as (sl & E); [lia|]. rewrite E. ob. pose proof (lookup_byte _ _ _ Hb E) as Hs.
  unfold is_byte in Hs.
  destruct (Z.leb_spec (Z.of_nat (length pdu)) (1 + sl)); [by eexists _, _; split; [|left]|].
  destruct (Z.eqb_spec (Z.of_nat (length pdu) - (1 + sl)) 0); [lia|]. cbn [orb].
  destruct (Z.ltb_spec 255 (Z.of_nat (length pdu) - (1 + sl))); [by eexists _, _; split; [|left]|].
  rewrite !slice_in by lia. ob.
  destruct (sl =? 0) eqn:Es; (destruct (out_cap <? _) eqn:Ec; [by eexists _, _; split; [|left]|]);
    (eexists _, _; split; [reflexivity|]); right; (split; [done|]);
    rewrite !length_app, !length_take, !length_drop; cbn [length]; lia.
Qed.

Lemma rp_parse_safe rp out_cap :
  Forall is_byte rp ->
  exists n out mr, ims_rp_data_to_mbim_pdu rp out_cap = Some (n, out, mr)
  /\ (n = -1 /\ out = [] \/ n = Z.of_nat (length out) /\ (2 <= length out <= 511)%nat /\ n <= out_cap /\ is_Some mr).
Proof.
  intros Hb. unfold ims_rp_data_to_mbim_pdu. cbv zeta.
  assert (forall i, (i < length rp)%nat -> exists v, rp !! i = Some v /\ 0 <= v < 256) as Hl.
  { intros i Hi. destruct (load_in rp i Hi) as (v & E). exists v. split; [done|]. by eapply lookup_byte. }
  destruct (Nat.ltb_spec (length rp) 3); [by eexists _, _, _; split; [|left]|].
  destruct (Hl 0%nat) as (mti & -> & _); [lia|]. ob. destruct (negb _); [by eexists _, _, _; split; [|left]|].
  destruct (Hl 1%nat) as (mr & -> & _); [lia|]. destruct (Hl 2%nat) as (oa & -> & Hoa); [lia|]. ob.
  destruct (Nat.leb_spec (length rp) (2 + (1 + Z.to_nat oa))); [by eexists _, _, _; split; [|left]|].
  destruct (Hl (2 + (1 + Z.to_nat oa))%nat) as (da & -> & Hda); [lia|]. ob.
  match goal with |- context [(length rp <=?n ?x)%nat] => set (p := x) end.
  destruct (Nat.leb_spec (length rp) p); [by eexists _, _, _; split; [|left]|].
  replace (2 + (1 + Z.to_nat oa) + (1 + Z.to_nat da))%nat with p by lia.
  destruct (Hl p) as (iei & -> & _); [lia|]. ob.
  set (q := if _ && _ then _ else _). assert (p <= q < length rp)%nat as Hq.
  { subst q. destruct (iei =? 65); cbn [andb]; [|lia]. destruct (Nat.ltb_spec (p + 1) (length rp)); lia. }
  clearbody q. destruct (Hl q) as (ud & -> & Hud); [lia|]. ob.
  destruct (Z.eqb_spec ud 0); [by eexists _, _, _; split; [|left]|]. cbn [orb].
  destruct (Nat.ltb_spec (length rp) (q + 1 + Z.to_nat ud)); [by eexists _, _, _; split; [|left]|].
  destruct (Z.ltb_spec out_cap (Z.of_nat (1 + Z.to_nat oa) + ud)); [by eexists _, _, _; split; [|left]|].
  rewrite !slice_in by lia. ob. eexists _, _, _. split; [reflexivity|]. right. split; [done|].
  rewrite length_app, !length_take, !length_drop. split; [lia|]. split; [lia|by eexists].
Qed.

(** A message from the network, with or without the identifier before its
    user data. *)
Definition rp_data (mti mr : Z) (oa da : bytes) (iei : bool) (ud : bytes) : bytes :=
  [mti; mr] ++ rp_lv oa ++ rp_lv da ++ (if iei then [0x41] else []) ++ rp_lv ud.

Lemma rp_data_read (mti mr : Z) (oa da : bytes) (iei : bool) (ud : bytes) (out_cap ud_len : Z) (skip : nat) :
  Z.land mti 7 = 1 ->
  let tail := (if iei then [0x41] else []) ++ rp_lv ud in
  skip = (if default 0 (tail !! 0%nat) =? 0x41 then 1%nat else 0%nat) ->
  (1 < length tail)%nat -> tail !! skip = Some ud_len -> 0 <= ud_len ->
  ims_rp_data_to_mbim_pdu (rp_data mti mr oa da iei ud) out_cap
  = Some (if (ud_len =? 0) || (length tail <?n skip + 1 + Z.to_nat ud_len) || (out_cap <? 1 + Z.of_nat (length oa) + ud_len)
          then (-1, [], Some mr)
          else (1 + Z.of_nat (length oa) + ud_len, rp_lv oa ++ take (Z.to_nat ud_len) (drop (skip + 1) tail), Some mr)).
Proof.
  intros Hm tail Hskip Ht1 Hud H0. unfold ims_rp_data_to_mbim_pdu. cbv zeta.
  set (rp := rp_data _ _ _ _ _ _).
  assert (rp = [mti; mr] ++ rp_lv oa ++ rp_lv da ++ tail) as E by done. clearbody rp.
  assert (length (rp_lv oa) = S (length oa) /\ length (rp_lv da) = S (length da)) as [La Ld] by done.
  assert (length rp = (4 + length oa + length da + length tail)%nat) as L
    by (rewrite E, !length_app, La, Ld; cbn [length]; lia).
  replace (length rp <?n 3) with false by lia.
  assert (rp !! 0%nat = Some mti /\ rp !! 1%nat = Some mr /\ rp !! 2%nat = Some (Z.of_nat (length oa)))
    as (-> & -> & ->) by by rewrite E.
  ob. rewrite Hm. change (negb (1 =? 1)) with false. cbv iota. rewrite Nat2Z.id.
  replace (length rp <=?n 2 + (1 + length oa)) with false by lia.
  assert (rp !! (2 + (1 + length oa))%nat = Some (Z.of_nat (length da))) as ->.
  { rewrite E. rewrite lookup_app_r by (cbn; lia). rewrite lookup_app_r by (cbn [length]; lia).
    rewrite lookup_app_l by (cbn [length]; lia). cbn [length]. rewrite La.
    replace (2 + (1 + length oa) - 2 - S (length oa))%nat with 0%nat by lia. done. }
  ob. rewrite Nat2Z.id. replace (length rp <=?n _) with false by lia.
  assert (forall k, rp !! (2 + (1 + length oa) + (1 + length da) + k)%nat = tail !! k) as Htl.
  { intros k. rewrite E, !app_assoc. rewrite lookup_app_r by (rewrite !length_app, La, Ld; cbn [length]; lia).
    f_equal. rewrite !length_app, La, Ld. cbn [length]. lia. }
  pose proof (Htl 0%nat) as H00. rewrite Nat.add_0_r in H00.
  destruct (load_in tail 0) as (x & Ex); [lia|]. rewrite H00, Ex. ob. rewrite Ex in Hskip. cbn [default] in Hskip.
  set (p := (2 + (1 + length oa) + (1 + length da))%nat) in *.
  replace (if (x =? 65) && (p + 1 <?n length rp) then (p + 1)%nat else p) with (p + skip)%nat.
  2: { unfold from_option, id in Hskip. destruct (x =? 65); cbn [andb]; [|lia].
       replace (p + 1 <?n length rp) with true by lia. lia. }
  rewrite Htl, Hud. ob. replace (length rp <?n p + skip + 1 + Z.to_nat ud_len)
    with (length tail <?n skip + 1 + Z.to_nat ud_len).
  2:{ destruct (Nat.ltb_spec (length tail) (skip + 1 + Z.to_nat ud_len)),
        (Nat.ltb_spec (length rp) (p + skip + 1 + Z.to_nat ud_len)); lia. }
  destruct (_ || (_ <?n _)) eqn:Eg; [done|]. cbn [orb].
  assert (skip + 1 + Z.to_nat ud_len <= length tail)%nat as Hfit by lia.
  replace (Z.of_nat (1 + length oa) + ud_len) with (1 + Z.of_nat (length oa) + ud_len) by lia.
  destruct (out_cap <? _); [done|]. rewrite !slice_in by lia. ob.
  assert (take (1 + length oa) (drop 2 rp) = rp_lv oa) as ->.
  { rewrite E. rewrite (drop_app_length' [mti; mr]) by done.
    by rewrite take_app_length'. }
  assert (drop (p + skip + 1) rp = drop (skip + 1) tail) as ->.
  { rewrite E, !app_assoc. rewrite drop_app_ge by (rewrite !length_app, La, Ld; cbn [length]; lia).
    f_equal. rewrite !length_app, La, Ld. cbn [length]. lia. }
  do 3 f_equal. rewrite length_app, length_take, length_drop, La. lia.
Qed.

(** ** The codecs *)

(** C32: Every packet is read inside its bytes; a packet that is built carries
    verifying checksums and is read back; the relay message of a PDU is its
    service centre and its TPDU, and a relay message from the network gives the
    PDU of its originator and its TPDU, unless it has a TPDU of 65 octets
    without identifier: the length 0x41 is then taken for the identifier, and
    the message is misread or refused. *)
Theorem ims_codec_correct :
  (forall packet, Forall is_byte packet ->
    exists r, ims_ip_parse_udp_ipv4 packet = Some r
    /\ match r with
       | inl e => e < 0
       | inr u => exists i, udp_payload u = take (length (udp_payload u)) (drop i packet)
                  /\ (28 <= i)%nat /\ (i + length (udp_payload u) <= length packet)%nat
                  /\ length (udp_src_ip u) = 4%nat /\ length (udp_dst_ip u) = 4%nat
       end)
  /\ (forall src dst payload src_port dst_port out_len,
    length src = 4%nat -> length dst = 4%nat -> Forall is_byte (src ++ dst ++ payload) ->
    28 + Z.of_nat (length payload) <= Z.min 65535 out_len -> 0 <= src_port < 65536 -> 0 <= dst_port < 65536 ->
    exists out, ims_ip_build_udp_ipv4 out_len src dst src_port dst_port payload = Some (Z.of_nat (length out), out)
    /\ ims_ip_parse_udp_ipv4 out = Some (inr (UdpPacket src dst src_port dst_port payload))
    /\ ipv4_header_checksum (take 20 out) = Some 0 /\ udp_checksum_ipv4 src dst (drop 20 out) = Some 0)
  /\ (forall sca tpdu rp_mr out_cap,
    (0 < length tpdu <= 255)%nat -> 5 + Z.of_nat (length sca) + Z.of_nat (length tpdu) <= out_cap ->
    let rpdu := [0; rp_mr; 0] ++ rp_lv sca ++ rp_lv tpdu in
    ims_build_rp_data (rp_lv sca ++ tpdu) rp_mr out_cap = Some (Z.of_nat (length rpdu), rpdu))
  /\ (forall mti mr oa da iei tpdu out_cap,
    mti &. 7 = 1 -> (0 < length tpdu <= 255)%nat -> Forall is_byte tpdu ->
    1 + Z.of_nat (length oa) + Z.of_nat (length tpdu) <= out_cap ->
    let rp := rp_data mti mr oa da iei tpdu in
    if iei || negb (length tpdu =?n 65)
    then ims_rp_data_to_mbim_pdu rp out_cap
         = Some (1 + Z.of_nat (length oa) + Z.of_nat (length tpdu), rp_lv oa ++ tpdu, Some mr)
    else exists n out, ims_rp_data_to_mbim_pdu rp out_cap = Some (n, out, Some mr) /\ out <> rp_lv oa ++ tpdu).
Proof.
  split; [exact ims_ip_parse_safe|]. split; [|split; [intros; by apply rp_data_built|]].
  - intros src dst payload sp dp cap H1 H2 Hb Hl Hs Hd. apply Forall_app in Hb as [Hb1 Hb]. apply Forall_app in Hb as [Hb2 Hb3].
    destruct (ims_ip_roundtrip src dst payload sp dp H1 H2 Hb1 Hb2 Hb3 ltac:(lia) cap Hs Hd ltac:(lia))
      as (out & E & El & _ & H). exists out. by rewrite El.
  - intros mti mr oa da iei tpdu cap Hm Hl Hb Hc. cbv zeta.
    destruct (iei || negb (length tpdu =?n 65)) eqn:Eg.
    + rewrite (rp_data_read mti mr oa da iei tpdu cap (Z.of_nat (length tpdu)) (if iei then 1%nat else 0%nat) Hm);
        [|destruct iei; [done|]|destruct iei; cbn [app length rp_lv]; lia|by destruct iei|lia].
      2:{ cbn [orb] in Eg. change (0%nat = if Z.of_nat (length tpdu) =? 65 then 1%nat else 0%nat).
          by replace (Z.of_nat (length tpdu) =? 65) with false by lia. }
      rewrite Nat2Z.id. replace (_ || _ || _) with false
        by (destruct iei; cbn [app rp_lv length]; symmetry; rewrite !orb_false_iff; repeat split; lia).
      destruct iei; cbn [app rp_lv drop Nat.add]; by rewrite ?drop_0, take_ge by lia.
    + apply orb_false_iff in Eg as [-> Eg]. assert (length tpdu = 65%nat) as L by lia.
      destruct tpdu as [|x t] eqn:Et; [done|]. apply Forall_cons in Hb as [Hx _]. unfold is_byte in Hx.
      rewrite (rp_data_read mti mr oa da false (x :: t) cap x 1%nat Hm);
        [|change (1%nat = if Z.of_nat (length (x :: t)) =? 65 then 1%nat else 0%nat); by rewrite L|cbn [app rp_lv length]; lia|done|lia].
      destruct (_ || _ || _) eqn:Eb; [by exists (-1), []|]. eexists _, _. split; [reflexivity|].
      intros E. apply (f_equal length) in E. rewrite !length_app, length_take, length_drop in E.
      cbn [app rp_lv length] in E, Eb, L. lia.
Qed.

Lemma ims_codec_correct_witness :
  ims_rp_data_to_mbim_pdu (rp_data 1 9 [0x91; 0x33] [] true (replicate 65 4)) 528
    = Some (68, [2; 0x91; 0x33] ++ replicate 65 4, Some 9)
  /\ exists n out, ims_rp_data_to_mbim_pdu (rp_data 1 9 [0x91; 0x33] [] false (replicate 65 4)) 528 = Some (n, out, Some 9)
     /\ out <> [2; 0x91; 0x33] ++ replicate 65 4.
Proof.
  destruct ims_codec_correct as (_ & _ & _ & H).
  assert (Forall is_byte (replicate 65 4)) as Hb by (apply Forall_replicate; unfold is_byte; lia). split.
  - apply (H 1 9 [0x91; 0x33] [] true (replicate 65 4) 528); [done|vm_compute; lia|done|vm_compute; congruence].
  - apply (H 1 9 [0x91; 0x33] [] false (replicate 65 4) 528); [done|vm_compute; lia|done|vm_compute; congruence].
Defined.
