(* ===== verification/ImsDigest.v ===== *)
(** MD5 and the digest of SIP: [src/src/ims_service/ims_digest.c].

    Words are 32-bit integers with the wrap-around written out.  The
    specification is RFC 1321, the message padded to whole blocks and 64 uniform
    steps folded over each of them, and RFC 2617 for the digest. *)

From S2P Require Import Prelude Aes Sha256 CString ImsCodec.

#[local] Set Primitive Projections.

Definition rol32 (v n : Z) : Z := u32 (v ≪ n) |. (v ≫ (32 - n)).

(** The macros [F], [G], [H] and [I]. *)
Inductive md5_fun := MD5_F | MD5_G | MD5_H | MD5_I.
Definition md5_apply (f : md5_fun) (x y z : Z) : Z :=
  match f with
  | MD5_F => (x &. y) |. (not32 x &. z)
  | MD5_G => (x &. z) |. (y &. not32 z)
  | MD5_H => x ^. y ^. z
  | MD5_I => y ^. (x |. not32 z)
  end.

(** [STEP(f,a,b,c,d,x,t,s)]: the new value of [a]. *)
Definition md5_STEP (f : md5_fun) (a b c d x t s : Z) : Z :=
  let a := u32 (a + u32 (md5_apply f b c d + x + t)) in
  let a := rol32 a s in
  u32 (a + b).

Record md5_regs := Md5Regs { md_a : Z; md_b : Z; md_c : Z; md_d : Z }.

(** A line and a half of the source: four steps, on [a], [d], [c] and [b]. *)
Definition md5_quad (x : list Z) (r : md5_regs) (row : md5_fun * list (nat * Z * Z)) : md5_regs :=
  let '(Md5Regs a b c d) := r in
  let '(f, l) := row in
  let st k a b c d := let '(i, t, s) := default (0%nat, 0, 0) (l !! k) in md5_STEP f a b c d (x !!! i) t s in
  let a := st 0%nat a b c d in
  let d := st 1%nat d a b c in
  let c := st 2%nat c d a b in
  let b := st 3%nat b c d a in
  Md5Regs a b c d.

(** The index into the block, the constant and the rotation of each step. *)
Definition md5_rows : list (md5_fun * list (nat * Z * Z)) :=
   [(MD5_F, [(0%nat, 0xd76aa478, 7); (1%nat, 0xe8c7b756, 12); (2%nat, 0x242070db, 17); (3%nat, 0xc1bdceee, 22)]);
    (MD5_F, [(4%nat, 0xf57c0faf, 7); (5%nat, 0x4787c62a, 12); (6%nat, 0xa8304613, 17); (7%nat, 0xfd469501, 22)]);
    (MD5_F, [(8%nat, 0x698098d8, 7); (9%nat, 0x8b44f7af, 12); (10%nat, 0xffff5bb1, 17); (11%nat, 0x895cd7be, 22)]);
    (MD5_F, [(12%nat, 0x6b901122, 7); (13%nat, 0xfd987193, 12); (14%nat, 0xa679438e, 17); (15%nat, 0x49b40821, 22)]);
    (MD5_G, [(1%nat, 0xf61e2562, 5); (6%nat, 0xc040b340, 9); (11%nat, 0x265e5a51, 14); (0%nat, 0xe9b6c7aa, 20)]);
    (MD5_G, [(5%nat, 0xd62f105d, 5); (10%nat, 0x02441453, 9); (15%nat, 0xd8a1e681, 14); (4%nat, 0xe7d3fbc8, 20)]);
    (MD5_G, [(9%nat, 0x21e1cde6, 5); (14%nat, 0xc33707d6, 9); (3%nat, 0xf4d50d87, 14); (8%nat, 0x455a14ed, 20)]);
    (MD5_G, [(13%nat, 0xa9e3e905, 5); (2%nat, 0xfcefa3f8, 9); (7%nat, 0x676f02d9, 14); (12%nat, 0x8d2a4c8a, 20)]);
    (MD5_H, [(5%nat, 0xfffa3942, 4); (8%nat, 0x8771f681, 11); (11%nat, 0x6d9d6122, 16); (14%nat, 0xfde5380c, 23)]);
    (MD5_H, [(1%nat, 0xa4beea44, 4); (4%nat, 0x4bdecfa9, 11); (7%nat, 0xf6bb4b60, 16); (10%nat, 0xbebfbc70, 23)]);
    (MD5_H, [(13%nat, 0x289b7ec6, 4); (0%nat, 0xeaa127fa, 11); (3%nat, 0xd4ef3085, 16); (6%nat, 0x04881d05, 23)]);
    (MD5_H, [(9%nat, 0xd9d4d039, 4); (12%nat, 0xe6db99e5, 11); (15%nat, 0x1fa27cf8, 16); (2%nat, 0xc4ac5665, 23)]);
    (MD5_I, [(0%nat, 0xf4292244, 6); (7%nat, 0x432aff97, 10); (14%nat, 0xab9423a7, 15); (5%nat, 0xfc93a039, 21)]);
    (MD5_I, [(12%nat, 0x655b59c3, 6); (3%nat, 0x8f0ccc92, 10); (10%nat, 0xffeff47d, 15); (1%nat, 0x85845dd1, 21)]);
    (MD5_I, [(8%nat, 0x6fa87e4f, 6); (15%nat, 0xfe2ce6e0, 10); (6%nat, 0xa3014314, 15); (13%nat, 0x4e0811a1, 21)]);
    (MD5_I, [(4%nat, 0xf7537e82, 6); (11%nat, 0xbd3af235, 10); (2%nat, 0x2ad7d2bb, 15); (9%nat, 0xeb86d391, 21)])].

Definition md5_word (block : bytes) (n : nat) : Z :=
  (block !!! (n * 4)%nat) |. ((block !!! (n * 4 + 1)%nat) ≪ 8)
  |. ((block !!! (n * 4 + 2)%nat) ≪ 16) |. ((block !!! (n * 4 + 3)%nat) ≪ 24).

Definition md5_block (r : md5_regs) (block : bytes) : md5_regs :=
  let x := md5_word block <$> seq 0 16 in
  let '(Md5Regs a b c d) := foldl (md5_quad x) r md5_rows in
  Md5Regs (u32 (md_a r + a)) (u32 (md_b r + b)) (u32 (md_c r + c)) (u32 (md_d r + d)).

Record md5_ctx := Md5Ctx { md_regs : md5_regs; md_len : Z; md_buf : bytes; md_buf_len : nat }.

Definition md5_init : md5_ctx :=
  Md5Ctx (Md5Regs 0x67452301 0xefcdab89 0x98badcfe 0x10325476) 0 (replicate 64 0) 0.

(** The loop over what is left of [data]; [None] is the lack of fuel. *)
Fixpoint md5_update_loop (fuel : nat) (ctx : md5_ctx) (data : bytes) : option md5_ctx :=
  match fuel with
  | O => None
  | S fuel =>
    if length data =?n 0 then Some ctx else
    let n := Nat.min (64 - md_buf_len ctx) (length data) in
    let buf := take (md_buf_len ctx) (md_buf ctx) ++ take n data ++ drop (md_buf_len ctx + n) (md_buf ctx) in
    let ctx := ctx <| md_buf := buf |> <| md_buf_len := (md_buf_len ctx + n)%nat |> in
    let ctx := if md_buf_len ctx =?n 64
               then ctx <| md_regs := (md5_block (md_regs ctx) (md_buf ctx)) |> <| md_buf_len := 0%nat |>
               else ctx in
    md5_update_loop fuel ctx (drop n data)
  end.
Definition md5_update (ctx : md5_ctx) (data : bytes) : option md5_ctx :=
  md5_update_loop (S (length data)) (ctx <| md_len := (u64 (md_len ctx + Z.of_nat (length data))) |>) data.

Definition md5_final (ctx : md5_ctx) : option bytes :=
  let bits := u64 (md_len ctx * 8) in
  let pad_len := if (md_buf_len ctx <?n 56) then (56 - md_buf_len ctx)%nat else (120 - md_buf_len ctx)%nat in
  pad ← slice (0x80 :: replicate 63 0) 0 pad_len;
  ctx ← md5_update ctx pad;
  ctx ← md5_update ctx (le_list 8 bits);
  let r := md_regs ctx in
  Some (le_list 4 (md_a r) ++ le_list 4 (md_b r) ++ le_list 4 (md_c r) ++ le_list 4 (md_d r)).

Definition hex16 (digest : bytes) : bytes := concat (hex2 <$> digest).

Definition ims_md5_hex (data : bytes) : option bytes :=
  ctx ← md5_update md5_init data;
  digest ← md5_final ctx;
  Some (hex16 digest).

(** The parts of a hash, each followed by a colon but the last. *)
Fixpoint md5_update_parts (ctx : md5_ctx) (parts : list bytes) (last : bytes) : option md5_ctx :=
  match parts with
  | [] => md5_update ctx last
  | p :: parts =>
    ctx ← md5_update ctx p;
    ctx ← md5_update ctx [58];
    md5_update_parts ctx parts last
  end.
Definition md5_hash_parts (parts : list bytes) (last : bytes) : option bytes :=
  ctx ← md5_update_parts md5_init parts last;
  digest ← md5_final ctx;
  Some (hex16 digest).

(** The error or the response; [nc], [cnonce] and [qop] may be null. *)
Definition ims_digest_md5_response (username realm password method uri nonce : bytes)
    (nc cnonce qop : option bytes) : option (Z + bytes) :=
  ha1 ← md5_hash_parts [username; realm] password;
  ha2 ← md5_hash_parts [method] uri;
  match qop with
  | Some ((_ :: _) as qop) =>
    match nc, cnonce with
    | Some nc, Some cnonce =>
      response ← md5_hash_parts [ha1; nonce; nc; cnonce; qop] ha2; Some (inr response)
    | _, _ => Some (inl (- EINVAL))
    end
  | _ => response ← md5_hash_parts [ha1; nonce] ha2; Some (inr response)
  end.

(** ** RFC 1321 and RFC 2617 *)

(** Step [i]: the function, the word and the rotation by their formulas, the
    constant from the table of the standard. *)
Definition rfc_fun (i : nat) : md5_fun :=
  match (i / 16)%nat with 0%nat => MD5_F | 1%nat => MD5_G | 2%nat => MD5_H | _ => MD5_I end.
Definition rfc_word (i : nat) : nat :=
  (match i / 16 with 0 => i | 1 => 5 * i + 1 | 2 => 3 * i + 5 | _ => 7 * i end mod 16)%nat.
Definition rfc_shift (i : nat) : Z :=
  match (i / 16)%nat with
  | 0%nat => [7; 12; 17; 22] | 1%nat => [5; 9; 14; 20] | 2%nat => [4; 11; 16; 23] | _ => [6; 10; 15; 21]
  end !!! (i mod 4)%nat.
Definition rfc_T (i : nat) : Z := default 0 ((concat (snd <$> md5_rows)).*1.*2 !! i).

Definition rfc_step (x : list Z) (r : md5_regs) (i : nat) : md5_regs :=
  let '(Md5Regs a b c d) := r in
  let f := md5_apply (rfc_fun i) b c d in
  Md5Regs d (u32 (b + rol32 (u32 (a + f + x !!! rfc_word i + rfc_T i)) (rfc_shift i))) b c.

Definition rfc_block (r : md5_regs) (block : bytes) : md5_regs :=
  let x := (fun n => le_val (take 4 (drop (4 * n) block))) <$> seq 0 16 in
  let '(Md5Regs a b c d) := foldl (rfc_step x) r (seq 0 64) in
  Md5Regs (u32 (md_a r + a)) (u32 (md_b r + b)) (u32 (md_c r + c)) (u32 (md_d r + d)).

(** The message followed by 0x80, zeros and the 64-bit length in bits. *)
Definition md5_padding (len : nat) : bytes :=
  0x80 :: replicate ((119 - len mod 64) mod 64) 0 ++ le_list 8 (8 * Z.of_nat len).

Definition rfc1321 (msg : bytes) : bytes :=
  let padded := msg ++ md5_padding (length msg) in
  let r := foldl rfc_block (md_regs md5_init) (blocks_of 64 (length padded / 64) padded) in
  le_list 4 (md_a r) ++ le_list 4 (md_b r) ++ le_list 4 (md_c r) ++ le_list 4 (md_d r).

(** [H(a) = hex(MD5(a))], [KD] and the parts joined by colons. *)
Definition rfc_H (msg : bytes) : bytes := hex16 (rfc1321 msg).
Fixpoint joined (parts : list bytes) (last : bytes) : bytes :=
  match parts with
  | [] => last
  | p :: parts => p ++ [58] ++ joined parts last
  end.
Definition rfc2617 (username realm password method uri nonce : bytes) (qop : option (bytes * bytes * bytes)) : bytes :=
  let ha1 := rfc_H (joined [username; realm] password) in
  let ha2 := rfc_H (joined [method] uri) in
  match qop with
  | Some (nc, cnonce, qop) => rfc_H (joined [ha1; nonce; nc; cnonce; qop] ha2)
  | None => rfc_H (joined [ha1; nonce] ha2)
  end.

Example md5_abc : ims_md5_hex (str "abc") = Some (str "900150983cd24fb0d6963f7d28e17f72").
Proof. vm_compute. reflexivity. Qed.

Example rfc_md5_two_blocks :
  rfc_H (str "12345678901234567890123456789012345678901234567890123456789012345678901234567890")
  = str "57edf4a22be3c955ac49da2e2107b67a".
Proof. vm_compute. reflexivity. Qed.

(** RFC 2617, section 3.5. *)
Example digest_rfc2617 :
  ims_digest_md5_response (str "Mufasa") (str "testrealm@host.com") (str "Circle Of Life") (str "GET")
    (str "/dir/index.html") (str "dcd98b7102dd2f0e8b11d0f600bfb0c093")
    (Some (str "00000001")) (Some (str "0a4f113b")) (Some (str "auth"))
  = Some (inr (str "6629fae49393a05397450978507c4ef1")).
Proof. vm_compute. reflexivity. Qed.

(** ** The compression function *)

Lemma u32_add_u32 a b : u32 (a + u32 b) = u32 (a + b).
Proof. unfold u32. by rewrite Zplus_mod_idemp_r. Qed.

(** One step, with the rotation of the registers. *)
Definition md5_turn (x : list Z) (r : md5_regs) (p : md5_fun * (nat * Z * Z)) : md5_regs :=
  let '(Md5Regs a b c d) := r in
  let '(f, (i, t, s)) := p in
  Md5Regs d (u32 (b + rol32 (u32 (a + md5_apply f b c d + x !!! i + t)) s)) b c.

Lemma STEP_eq f a b c d x t s :
  md5_STEP f a b c d x t s = u32 (b + rol32 (u32 (a + md5_apply f b c d + x + t)) s).
Proof. unfold md5_STEP. rewrite u32_add_u32, Z.add_comm. do 4 f_equal. lia. Qed.

Lemma quad_turns x r f p0 p1 p2 p3 :
  md5_quad x r (f, [p0; p1; p2; p3]) = foldl (md5_turn x) r (pair f <$> [p0; p1; p2; p3]).
Proof.
  destruct r as [a b c d], p0 as [[i0 t0] s0], p1 as [[i1 t1] s1], p2 as [[i2 t2] s2], p3 as [[i3 t3] s3].
  unfold md5_quad. cbn [lookup list_lookup default from_option id fmap list_fmap foldl md5_turn].
  by rewrite !STEP_eq.
Qed.

Definition row_turns (row : md5_fun * list (nat * Z * Z)) : list (md5_fun * (nat * Z * Z)) :=
  pair row.1 <$> row.2.

Lemma rows_turns x r :
  foldl (md5_quad x) r md5_rows = foldl (rfc_step x) r (seq 0 64).
Proof.
  assert (forall l r, Forall (fun row => length row.2 = 4%nat) l ->
    foldl (md5_quad x) r l = foldl (md5_turn x) r (concat (row_turns <$> l))) as Hrows.
  { induction l as [|[f l4] l IH]; intros r0 Hl; [done|]. apply Forall_cons in Hl as [Hl4 Hl].
    cbn [foldl fmap list_fmap concat]. rewrite foldl_app, <- IH by done. f_equal. cbn [fst snd] in *.
    destruct l4 as [|p0 [|p1 [|p2 [|p3 [|]]]]]; try done. apply quad_turns. }
  rewrite Hrows by by repeat constructor.
  replace (concat (row_turns <$> md5_rows))
    with ((fun i => (rfc_fun i, (rfc_word i, rfc_T i, rfc_shift i))) <$> seq 0 64) by (vm_compute; reflexivity).
  rewrite foldl_fmap. generalize (seq 0 64). intros l. revert r. induction l as [|i l IH]; intros [a b c d]; [done|].
  cbn [foldl md5_turn rfc_step]. apply IH.
Qed.

Lemma md5_block_rfc r block :
  length block = 64%nat -> Forall is_byte block -> md5_block r block = rfc_block r block.
Proof.
  intros Hl Hb. unfold md5_block, rfc_block.
  assert (md5_word block <$> seq 0 16 = (fun n => le_val (take 4 (drop (4 * n) block))) <$> seq 0 16) as ->.
  { apply list_fmap_ext. intros i n [-> Hi]%lookup_seq. cbn [Nat.add]. unfold md5_word.
    destruct (load_in block (i * 4)) as (b0 & E0); [lia|]. destruct (load_in block (i * 4 + 1)) as (b1 & E1); [lia|].
    destruct (load_in block (i * 4 + 2)) as (b2 & E2); [lia|]. destruct (load_in block (i * 4 + 3)) as (b3 & E3); [lia|].
    rewrite !list_lookup_total_alt, E0, E1, E2, E3. cbn [default from_option id].
    rewrite le_word4 by by eapply lookup_byte. f_equal.
    replace (4 * i)%nat with (i * 4)%nat by lia.
    rewrite (drop_S _ _ _ E0). replace (S (i * 4)) with (i * 4 + 1)%nat by lia.
    rewrite (drop_S _ _ _ E1). replace (S (i * 4 + 1)) with (i * 4 + 2)%nat by lia.
    rewrite (drop_S _ _ _ E2). replace (S (i * 4 + 2)) with (i * 4 + 3)%nat by lia.
    by rewrite (drop_S _ _ _ E3). }
  by rewrite rows_turns.
Qed.

(** ** The stream *)

(** The registers and the buffer after the message [m]. *)
Record md5_after (m : bytes) (ctx : md5_ctx) : Prop := {
  ma_regs : md_regs ctx = foldl rfc_block (md_regs md5_init) (blocks_of 64 (length m / 64) m);
  ma_buf : length (md_buf ctx) = 64%nat;
  ma_buf_len : md_buf_len ctx = (length m mod 64)%nat;
  ma_rest : take (md_buf_len ctx) (md_buf ctx) = drop (length m / 64 * 64) m }.

Lemma md5_init_after : md5_after [] md5_init.
Proof. by split. Qed.

Lemma update_loop_after fuel m ctx data :
  (length data < fuel)%nat -> Forall is_byte (m ++ data) -> md5_after m ctx ->
  exists ctx', md5_update_loop fuel ctx data = Some ctx' /\ md5_after (m ++ data) ctx' /\ md_len ctx' = md_len ctx.
Proof.
  revert m ctx data. induction fuel as [|fuel IH]; intros m ctx data Hf Hb Ha; [lia|]. cbn [md5_update_loop].
  destruct (Nat.eqb_spec (length data) 0) as [Hz|Hz].
  { exists ctx. destruct data; [|done]. by rewrite app_nil_r. }
  destruct Ha as [Hr Hl Hn Hrest]. set (q := (length m / 64)%nat) in *. set (r := (length m mod 64)%nat) in *.
  assert (length m = 64 * q + r /\ r < 64)%nat as [Hm Hr64] by (subst q r; lia).
  rewrite Hn in *. set (n := Nat.min (64 - r) (length data)).
  set (buf := take r (md_buf ctx) ++ take n data ++ drop (r + n) (md_buf ctx)).
  assert (length buf = 64%nat) as Hbl
    by (unfold buf; rewrite !length_app, !length_take, length_drop; lia).
  assert (length (take n data) = n) as Htn by (rewrite length_take; lia).
  assert (drop (q * 64) (m ++ take n data) = take (r + n) buf) as Htake.
  { rewrite drop_app_le by lia. rewrite <- Hrest. unfold buf. rewrite app_assoc, take_app_length'; [done|].
    rewrite length_app, length_take, Htn. lia. }
  assert (m ++ data = (m ++ take n data) ++ drop n data) as Esplit by by rewrite <- app_assoc, take_drop.
  rewrite Esplit in *. pose proof (proj1 (proj1 (Forall_app is_byte _ _) Hb)) as Hbm. cbn [md_buf_len set_field].
  assert (length (m ++ take n data) = (64 * q + (r + n))%nat) as Hlen by (rewrite length_app, Htn; lia).
  match goal with |- context [md5_update_loop fuel ?c _] =>
    destruct (IH (m ++ take n data) c (drop n data)) as (ctx' & E & Ha' & El);
      [rewrite length_drop; lia|exact Hb| |exists ctx'; split; [exact E|]; split; [exact Ha'|]] end.
  2: { rewrite El. by destruct (r + n =?n 64). }
  destruct (Nat.eqb_spec (r + n) 64) as [E64|E64].
  - split; cbn [md_regs md_buf md_buf_len set_field].
    + rewrite Hlen. replace ((64 * q + (r + n)) / 64)%nat with (q + 1)%nat by lia.
      rewrite blocks_of_add, foldl_app, blocks_of_app, <- Hr by lia.
      unfold blocks_of. cbn [seq fmap list_fmap foldl]. rewrite drop_0, Htake, E64.
      rewrite (take_ge buf 64), (take_ge buf 64) by lia. apply md5_block_rfc; [done|].
      assert (buf = drop (q * 64) (m ++ take n data)) as -> by (rewrite Htake, E64; by rewrite take_ge by lia).
      by apply Forall_drop.
    + exact Hbl.
    + rewrite Hlen. lia.
    + rewrite Hlen. replace ((64 * q + (r + n)) / 64)%nat with (q + 1)%nat by lia.
      rewrite drop_ge by lia. done.
  - assert (r + n < 64)%nat by lia.
    split; cbn [md_regs md_buf md_buf_len set_field].
    + rewrite Hlen. replace ((64 * q + (r + n)) / 64)%nat with q by lia. by rewrite blocks_of_app by lia.
    + exact Hbl.
    + rewrite Hlen. lia.
    + rewrite Hlen. replace ((64 * q + (r + n)) / 64)%nat with q by lia. by rewrite Htake.
Qed.

Lemma md5_update_after m ctx data :
  Forall is_byte (m ++ data) -> md5_after m ctx -> md_len ctx = u64 (Z.of_nat (length m)) ->
  exists ctx', md5_update ctx data = Some ctx' /\ md5_after (m ++ data) ctx'
  /\ md_len ctx' = u64 (Z.of_nat (length (m ++ data))).
Proof.
  intros Hb Ha Hl. unfold md5_update. set (c := ctx <| md_len := _ |>).
  assert (md5_after m c) as Hc by (destruct Ha; by split).
  destruct (update_loop_after (S (length data)) m c data) as (ctx' & -> & Ha' & El); [lia|done..|].
  exists ctx'. split; [done|]. split; [done|]. rewrite El. cbn [c md_len set_field]. rewrite Hl, length_app.
  unfold u64. rewrite Zplus_mod_idemp_l. f_equal. lia.
Qed.

Lemma md5_final_after m ctx :
  Forall is_byte m -> md5_after m ctx -> md_len ctx = u64 (Z.of_nat (length m)) ->
  md5_final ctx = Some (rfc1321 m).
Proof.
  intros Hb Ha Hl. unfold md5_final, rfc1321. cbv zeta. pose proof (ma_buf_len _ _ Ha) as Hn. rewrite Hn.
  set (r := (length m mod 64)%nat). assert (r < 64)%nat by (subst r; lia).
  set (pl := if (r <?n 56) then (56 - r)%nat else (120 - r)%nat).
  assert (1 <= pl <= 64 /\ pl = S ((119 - r) mod 64))%nat as [Hpl Epl].
  { subst pl. destruct (Nat.ltb_spec r 56); [|rewrite Nat.mod_small by lia; lia].
    replace (119 - r)%nat with (55 - r + 1 * 64)%nat by lia. rewrite Nat.Div0.mod_add, Nat.mod_small; lia. }
  clearbody pl. rewrite slice_in by (cbn [length]; rewrite length_replicate; lia). ob. rewrite drop_0.
  assert (take pl (0x80 :: replicate 63 0) = 0x80 :: replicate ((119 - r) mod 64) 0) as ->.
  { rewrite Epl. cbn [take]. rewrite take_replicate. do 2 f_equal. lia. }
  set (pad := 0x80 :: replicate _ 0).
  assert (Forall is_byte pad) as Hpb by (constructor; [unfold is_byte; lia|apply Forall_replicate; unfold is_byte; lia]).
  destruct (md5_update_after m ctx pad) as (c1 & E1 & Ha1 & Hl1); [by apply Forall_app|done..|].
  apply (bind_some _ _ _ _ E1).
  destruct (md5_update_after (m ++ pad) c1 (le_list 8 (u64 (md_len ctx * 8)))) as (c2 & E2 & Ha2 & _);
    [repeat (apply Forall_app; split); auto using le_list_bytes|done..|]. apply (bind_some _ _ _ _ E2).
  assert ((m ++ pad) ++ le_list 8 (u64 (md_len ctx * 8)) = m ++ md5_padding (length m)) as E.
  { assert (le_list 8 (u64 (md_len ctx * 8)) = le_list 8 (8 * Z.of_nat (length m))) as ->
      by (rewrite Hl; unfold le_list; by rewrite bit_len_bytes).
    by rewrite <- app_assoc. }
  rewrite E in Ha2. rewrite (ma_regs _ _ Ha2). reflexivity.
Qed.

(** Hashing the parts hashes them joined. *)
Lemma update_parts_after parts last m ctx :
  Forall (Forall is_byte) parts -> Forall is_byte last -> Forall is_byte m ->
  md5_after m ctx -> md_len ctx = u64 (Z.of_nat (length m)) ->
  exists ctx', md5_update_parts ctx parts last = Some ctx' /\ md5_after (m ++ joined parts last) ctx'
  /\ md_len ctx' = u64 (Z.of_nat (length (m ++ joined parts last)))
  /\ Forall is_byte (m ++ joined parts last).
Proof.
  intros Hp Hlast. revert m ctx. induction Hp as [|p parts Hp _ IH]; intros m ctx Hm Ha Hl; cbn [md5_update_parts joined].
  - destruct (md5_update_after m ctx last) as (c & E & Ha' & Hl'); [by apply Forall_app|done..|]. exists c.
    do 3 (split; [done|]). by apply Forall_app.
  - destruct (md5_update_after m ctx p) as (c1 & -> & Ha1 & Hl1); [by apply Forall_app|done..|]. ob.
    assert (Forall is_byte (m ++ p)) as Hb1 by by apply Forall_app.
    assert (Forall is_byte ((m ++ p) ++ [58])) as Hb2
      by (apply Forall_app; split; [done|]; repeat constructor; unfold is_byte; lia).
    destruct (md5_update_after (m ++ p) c1 [58]) as (c2 & -> & Ha2 & Hl2); [done..|]. ob.
    destruct (IH _ c2 Hb2 Ha2 Hl2) as (c3 & -> & H3). exists c3. split; [done|].
    rewrite <- !app_assoc in H3. exact H3.
Qed.

Lemma hash_parts_rfc parts last :
  Forall (Forall is_byte) parts -> Forall is_byte last ->
  md5_hash_parts parts last = Some (rfc_H (joined parts last)).
Proof.
  intros Hp Hl. unfold md5_hash_parts.
  destruct (update_parts_after parts last [] md5_init) as (c & -> & Ha & Hlen & Hb); [done..|apply md5_init_after|done|].
  ob. by rewrite (md5_final_after _ _ Hb Ha Hlen).
Qed.

Lemma md5_hex_rfc data : Forall is_byte data -> ims_md5_hex data = Some (rfc_H data).
Proof.
  intros Hb. unfold ims_md5_hex. destruct (md5_update_after [] md5_init data) as (c & -> & Ha & Hl); [done| |done|].
  { apply md5_init_after. }
  ob. by rewrite (md5_final_after _ _ Hb Ha Hl).
Qed.

Lemma rfc_H_bytes m : Forall is_byte (rfc_H m) /\ length (rfc_H m) = 32%nat.
Proof.
  unfold rfc_H, hex16.
  assert (Forall is_byte (rfc1321 m) /\ length (rfc1321 m) = 16%nat) as [Hb Hl].
  { unfold rfc1321. split; [repeat (apply Forall_app; split); apply le_list_bytes|].
    by rewrite !length_app, !length_le_list. }
  split; [|by rewrite length_hex2, Hl]. apply Forall_concat, Forall_fmap. eapply Forall_impl; [exact Hb|].
  intros b Hbb. unfold is_byte in Hbb. cbn. unfold hex2, hex_digit. rewrite shiftr_div, land_0f by lia.
  change (2 ^ 4) with 16. repeat constructor; unfold is_byte; case_match; lia.
Qed.

(** The response of the code is that of RFC 2617. *)
Lemma digest_is_rfc2617 username realm password method uri nonce cnonce nc qop :
  Forall is_byte username -> Forall is_byte realm -> Forall is_byte password -> Forall is_byte method ->
  Forall is_byte uri -> Forall is_byte nonce -> Forall is_byte cnonce -> Forall is_byte nc -> Forall is_byte qop ->
  let q := match qop with [] => None | q => Some q end in
  ims_digest_md5_response username realm password method uri nonce (_ ← q; Some nc) (_ ← q; Some cnonce) q
  = Some (inr (rfc2617 username realm password method uri nonce (match qop with [] => None | q => Some (nc, cnonce, q) end))).
Proof.
  intros H1 H2 H3 H4 H5 H6 H7 H8 H9 q. subst q. unfold ims_digest_md5_response.
  assert (forall m, Forall is_byte (rfc_H m)) as Hh by (intros m; apply rfc_H_bytes).
  assert (forall parts last, Forall (Forall is_byte) parts -> Forall is_byte last ->
    md5_hash_parts parts last = Some (rfc_H (joined parts last))) as Hp by exact hash_parts_rfc.
  rewrite (Hp [username; realm]) by auto. ob. rewrite (Hp [method]) by auto. ob.
  destruct qop as [|x qop]; ob; rewrite Hp by auto 10; reflexivity.
Qed.
