(* ===== verification/ImsSip.v ===== *)
(** The SIP messages of [src/src/ims_service/ims_service.c]: how headers are
    searched, the challenge of a REGISTER and its answer, and the texts that are
    sent.

    A text is the list of its characters; a [char] array that is filled from the
    network and used as a string afterwards is cut at its first zero byte
    ([c_str]).  The loops over the lines of a header differ only in what they do
    with a line, so they are functions of the list of lines. *)

From S2P Require Import Prelude CString NasCrypto ImsCodec ImsDigest.

#[local] Set Primitive Projections.

Definition IMS_SIP_LOCAL_PORT : Z := 5062.
Definition IMS_SIP_REMOTE_PORT : Z := 5060.

(** The string in an array. *)
Fixpoint c_str (b : bytes) : bytes :=
  match b with
  | [] => []
  | c :: b => if c =? 0 then [] else c :: c_str b
  end.

Definition CRLF : bytes := [13; 10].
Definition DQUOTE : bytes := [34].

(** ** Searching *)

(** The position of the first occurrence; [needle] is not empty. *)
Fixpoint find_bytes (data needle : bytes) : option nat :=
  match data with
  | [] => None
  | _ :: rest =>
    if bool_decide (take (length needle) data = needle) then Some 0%nat else S <$> find_bytes rest needle
  end.

Fixpoint find_ascii_case (haystack needle : bytes) : option nat :=
  match haystack with
  | [] => None
  | _ :: rest =>
    if strcaseeq (take (length needle) haystack) needle then Some 0%nat else S <$> find_ascii_case rest needle
  end.

(** The lines of a header: every loop takes them one after the other, the last
    one without its end.  [None] is the lack of fuel. *)
Fixpoint sip_lines (fuel : nat) (data : bytes) : option (list bytes) :=
  match fuel with
  | O => None
  | S fuel =>
    if length data =?n 0 then Some [] else
    match find_bytes data CRLF with
    | None => Some [data]
    | Some i => rest ← sip_lines fuel (drop (i + 2) data); Some (take i data :: rest)
    end
  end.
Definition lines_of (hdr : bytes) : option (list bytes) := sip_lines (S (length hdr)) hdr.

(** [line_len > name_len && !strncasecmp(line, name, name_len)]. *)
Definition is_header (name line : bytes) : bool :=
  (length name <?n length line) && strcaseeq (take (length name) line) name.

Definition find_header (name : bytes) (lines : list bytes) : option bytes :=
  snd <$> list_find (fun line => is_header name line = true) lines.

Definition header_has_content_type_sms (hdr : bytes) : option bool :=
  lines ← lines_of hdr;
  Some (existsb (fun line => is_header (str "Content-Type:") line
                  && bool_decide (is_Some (find_bytes line (str "application/vnd.3gpp.sms")))) lines).

Definition header_has_cseq_method (hdr method : bytes) : option bool :=
  lines ← lines_of hdr;
  Some (existsb (fun line => is_header (str "CSeq:") line
                  && bool_decide (is_Some (find_bytes line method))) lines).

Fixpoint skip_blanks (s : bytes) : bytes :=
  match s with
  | c :: s' => if (c =? 32) || (c =? 9) then skip_blanks s' else s
  | [] => []
  end.

(** The digits at the start of [s], in a type of [2 ^ w] values. *)
Fixpoint digits_mod (w acc : Z) (s : bytes) : Z :=
  match s with
  | c :: s => if isdigit c then digits_mod w ((acc * 10 + (c - 48)) mod 2 ^ w) s else acc
  | [] => acc
  end.

(** The number of a header, [None] where the C function returns false. *)
Definition header_number (w : Z) (hdr name : bytes) : option (option Z) :=
  lines ← lines_of hdr;
  Some (line ← find_header name lines;
        match skip_blanks (drop (length name) line) with
        | c :: s => if isdigit c then Some (digits_mod w 0 (c :: s)) else None
        | [] => None
        end).
Definition header_get_content_length (hdr : bytes) : option (option Z) :=
  header_number 64 hdr (str "Content-Length:").
(** The number that is left in [*out]. *)
Definition header_get_uint (hdr name : bytes) : option Z :=
  v ← header_number 32 hdr name; Some (default 0 v).

Definition header_copy_line (hdr name : bytes) (out_len : nat) : option (option bytes) :=
  lines ← lines_of hdr;
  Some ((fun line => c_str (strcpy_n out_len line)) <$> find_header name lines).

(** The lines that fit, each with its end, and their number. *)
Fixpoint copy_lines (name : bytes) (out_cap : nat) (lines : list bytes) (out : bytes) (count : Z) : Z * bytes :=
  match lines with
  | [] => (count, out)
  | line :: lines =>
    if is_header name line && (length out + length line + 3 <=?n out_cap)
    then copy_lines name out_cap lines (out ++ line ++ CRLF) (count + 1)
    else copy_lines name out_cap lines out count
  end.
Definition header_copy_all_lines (hdr name : bytes) (out_cap : nat) : option (Z * bytes) :=
  lines ← lines_of hdr;
  let '(count, out) := copy_lines name out_cap lines [] 0 in
  Some (count, c_str out).

(** ** The challenge *)

(** The value at the start of [v]. *)
Fixpoint take_until (stops : list Z) (v : bytes) : bytes :=
  match v with
  | c :: v => if bool_decide (c ∈ stops) then [] else c :: take_until stops v
  | [] => []
  end.

(** The loop from the position [p] of [line]; [None] is the lack of fuel, [Some
    None] the result false. *)
Fixpoint auth_param_loop (fuel : nat) (line name : bytes) (p out_len : nat) : option (option bytes) :=
  match fuel with
  | O => None
  | S fuel =>
    match find_ascii_case (drop p line) name with
    | None => Some None
    | Some i =>
      let p := (p + i)%nat in
      let next := (p + length name)%nat in
      if negb (p =?n 0) && negb (bool_decide (default 0 (line !! (p - 1)%nat) ∈ [32; 44; 9]))
      then auth_param_loop fuel line name next out_len
      else
        match skip_blanks (drop next line) with
        | 61 :: v =>
          let value :=
            match skip_blanks v with
            | 34 :: v => take_until [34] v
            | v => take_until [44; 32; 9; 13; 10] v
            end in
          Some (if length value =?n 0 then None else Some (strcpy_n out_len value))
        | _ => auth_param_loop fuel line name next out_len
        end
    end
  end.
Definition auth_param_copy (line name : bytes) (out_len : nat) : option (option bytes) :=
  auth_param_loop (S (length line)) line name 0 out_len.

Record sip_auth_challenge := AuthChallenge { ac_realm : bytes; ac_nonce : bytes; ac_algorithm : bytes; ac_qop : bytes }.
Definition sip_auth_empty : sip_auth_challenge := AuthChallenge [] [] [] [].

(** [None] inside where the C function returns false; the nonce is then empty. *)
Definition parse_www_authenticate (hdr : bytes) : option (option sip_auth_challenge) :=
  line ← header_copy_line hdr (str "WWW-Authenticate:") 1024;
  match line with
  | None => Some None
  | Some line =>
    if negb (bool_decide (is_Some (find_ascii_case line (str "Digest")))) then Some None else
    realm ← auth_param_copy line (str "realm") 128;
    match realm with
    | None => Some None
    | Some realm =>
      nonce ← auth_param_copy line (str "nonce") 512;
      match nonce with
      | None => Some None
      | Some nonce =>
        algorithm ← auth_param_copy line (str "algorithm") 32;
        qop ← auth_param_copy line (str "qop") 32;
        let qop := default [] qop in
        Some (Some (AuthChallenge realm nonce (default (str "MD5") algorithm)
                (if bool_decide (is_Some (find_ascii_case qop (str "auth"))) then str "auth" else qop)))
      end
    end
  end.

Definition hex_nibble (c : Z) : Z :=
  if (48 <=? c) && (c <=? 57) then c - 48
  else if (97 <=? c) && (c <=? 102) then 10 + c - 97
  else if (65 <=? c) && (c <=? 70) then 10 + c - 65
  else -1.

(** [None] is [-EINVAL]. *)
Fixpoint parse_hex_bytes (hex : bytes) (out_len : nat) : option bytes :=
  match out_len with
  | O => Some []
  | S n =>
    match hex with
    | h :: l :: hex =>
      let hi := hex_nibble h in
      let lo := hex_nibble l in
      if (hi <? 0) || (lo <? 0) then None else
      rest ← parse_hex_bytes hex n; Some (u8 ((hi ≪ 4) |. lo) :: rest)
    | _ => None
    end
  end.

Definition base64_val (c : Z) : Z :=
  if (65 <=? c) && (c <=? 90) then c - 65
  else if (97 <=? c) && (c <=? 122) then 26 + c - 97
  else if (48 <=? c) && (c <=? 57) then 52 + c - 48
  else if c =? 43 then 62 else if c =? 47 then 63 else -1.

(** The loop: [val] keeps 32 bits, of which a byte is taken from the lowest 12;
    [None] is [-EMSGSIZE]. *)
Fixpoint base64_loop (s : bytes) (val bits : Z) (out : bytes) (out_cap : nat) : option bytes :=
  match s with
  | [] => Some out
  | c :: s =>
    if c =? 61 then Some out else
    let v := base64_val c in
    if v <? 0 then base64_loop s val bits out out_cap else
    let val := u32 (val ≪ 6) |. v in
    let bits := bits + 6 in
    if 0 <=? bits then
      if (out_cap <=?n length out) then None else
      base64_loop s val (bits - 8) (out ++ [(val ≫ bits) &. 0xff]) out_cap
    else base64_loop s val bits out out_cap
  end.
Definition base64_decode (s : bytes) (out_cap : nat) : option bytes := base64_loop s 0 (-8) [] out_cap.

(** The keys of the SIM, as the configuration has them. *)
Record ims_keys := ImsKeys { ik_key : bytes; ik_opc : bytes; ik_amf : bytes }.

(** [None] where the C function returns false; [decoded] has at least the 32
    bytes that are read. *)
Definition ims_compute_aka_res (keys : ims_keys) (nonce : bytes) : option bytes :=
  decoded ← base64_decode nonce 256;
  if (length decoded <?n 32) then None else
  k ← parse_hex_bytes (ik_key keys) 16;
  opc ← parse_hex_bytes (ik_opc keys) 16;
  amf ← parse_hex_bytes (ik_amf keys) 2;
  let rand := take 16 decoded in
  let tmp := ue_milenage_compute opc k rand (replicate 6 0) amf in
  let sqn := zip_with Z.lxor (take 6 (drop 16 decoded)) (mil_ak tmp) in
  let tmp := ue_milenage_compute opc k rand sqn amf in
  if bool_decide (mil_mac_a tmp = take 8 (drop 24 decoded)) then Some (take 8 (mil_res tmp)) else None.

(** ** The destination of a message *)

Definition sms_addr_digit (semi : Z) (high : bool) : option Z :=
  let v := if high then semi ≫ 4 else semi &. 15 in
  if v <=? 9 then Some (48 + v) else if v =? 10 then Some 42 else if v =? 11 then Some 35 else None.

(** The digits [i .. i + n - 1]; [None] is a read outside the PDU, [Some None]
    the result false. *)
Fixpoint sms_digits (pdu : bytes) (at_ i n : nat) : option (option bytes) :=
  match n with
  | O => Some (Some [])
  | S n =>
    semi ← pdu !! (at_ + i / 2)%nat;
    match sms_addr_digit semi (negb (Nat.even i)) with
    | None => Some None
    | Some d => rest ← sms_digits pdu at_ (S i) n; Some ((cons d) <$> rest)
    end
  end.

Definition ims_sms_extract_destination (pdu : bytes) (out_len : nat) : option (option bytes) :=
  let pdu_len := length pdu in
  if (out_len <?n 4) || (pdu_len <?n 5) then Some None else
  sca ← pdu !! 0%nat;
  let tpdu := if (Z.to_nat sca + 1 <?n pdu_len) then (Z.to_nat sca + 1)%nat else 0%nat in
  if (pdu_len <?n tpdu + 4) then Some None else
  first ← pdu !! tpdu;
  if negb (first &. 3 =? 1) then Some None else
  da_len ← pdu !! (tpdu + 2)%nat;
  toa ← pdu !! (tpdu + 3)%nat;
  let da_octets := ((Z.to_nat da_len + 1) / 2)%nat in
  if (da_len =? 0) || (pdu_len <?n tpdu + 4 + da_octets) then Some None else
  let plus := if toa &. 0x70 =? 0x10 then [43] else [] in
  digits ← sms_digits pdu (tpdu + 4) 0 (Nat.min (Z.to_nat da_len) (out_len - 1 - length plus));
  Some (match digits with Some d => Some (plus ++ d) | None => None end).

(** ** The texts *)

(** [%u.%u.%u.%u]. *)
Definition ip_text (ip : bytes) : bytes :=
  utoa (ip !!! 0%nat) ++ str "." ++ utoa (ip !!! 1%nat) ++ str "." ++ utoa (ip !!! 2%nat) ++ str "."
  ++ utoa (ip !!! 3%nat).

Definition contact_text (ip : bytes) : bytes := ip_text ip ++ str ":" ++ utoa IMS_SIP_LOCAL_PORT.

(** The names of the subscriber. *)
Record ims_identity := ImsIdentity { ii_realm : bytes; ii_impi : bytes; ii_impu_user : bytes; ii_preferred_impu : bytes }.

(** [snprintf(out, out_len, ...)] of a text that must fit. *)
Definition fits (out_len : nat) (text : bytes) : option bytes :=
  if (out_len <=?n length text) then None else Some text.

(** [None] is [-EMSGSIZE]. *)
Definition ims_build_contact_uri (out_len : nat) (who : ims_identity) (local_ip : bytes) : option bytes :=
  fits out_len (str "sip:" ++ ii_impu_user who ++ str "@" ++ contact_text local_ip).

Definition register_text (who : ims_identity) (local_ip branch cseq contact authorization : bytes) : bytes :=
  str "REGISTER sip:" ++ ii_realm who ++ str " SIP/2.0" ++ CRLF
  ++ str "Via: SIP/2.0/UDP " ++ contact_text local_ip ++ str ";branch=z9hG4bK-virtlte-" ++ branch ++ CRLF
  ++ str "Max-Forwards: 70" ++ CRLF
  ++ str "From: <" ++ ii_preferred_impu who ++ str ">;tag=virtlte-1" ++ CRLF
  ++ str "To: <" ++ ii_preferred_impu who ++ str ">" ++ CRLF
  ++ str "Call-ID: virtlte-register-1@" ++ ip_text local_ip ++ CRLF
  ++ str "CSeq: " ++ cseq ++ str " REGISTER" ++ CRLF
  ++ str "Supported: path" ++ CRLF
  ++ str "Contact: <" ++ contact ++ str ">;+g.3gpp.smsip" ++ CRLF
  ++ str "Authorization: Digest " ++ authorization ++ CRLF
  ++ str "Expires: 600" ++ CRLF
  ++ str "Content-Length: 0" ++ CRLF ++ CRLF.

(** [name="value"]. *)
Definition quoted (name : bytes) (value : bytes) : bytes := name ++ str "=" ++ DQUOTE ++ value ++ DQUOTE.

Definition initial_authorization (who : ims_identity) : bytes :=
  quoted (str "username") (ii_impi who) ++ str ", " ++ quoted (str "realm") (ii_realm who) ++ str ", "
  ++ quoted (str "nonce") [] ++ str ", " ++ quoted (str "uri") (str "sip:" ++ ii_realm who) ++ str ", "
  ++ quoted (str "response") [].

Definition initial_register (who : ims_identity) (local_ip contact : bytes) : bytes :=
  register_text who local_ip (str "1") (str "1") contact (initial_authorization who).

Definition ims_nc : bytes := str "00000001".

(** [ims_random_hex] of the eight random bytes. *)
Definition ims_random_hex (entropy : bytes) : bytes := concat (hex2 <$> take 8 entropy).

Definition qop_clause (qop : bytes) (cnonce : bytes) : bytes :=
  match qop with
  | [] => []
  | _ => str ", qop=auth, nc=" ++ ims_nc ++ str ", cnonce=" ++ DQUOTE ++ cnonce ++ DQUOTE
  end.

Definition authorized_register (who : ims_identity) (challenge : sip_auth_challenge)
    (local_ip contact realm uri response cnonce : bytes) (cseq : Z) : bytes :=
  register_text who local_ip (str "auth-" ++ utoa cseq) (utoa cseq) contact
    (quoted (str "username") (ii_impi who) ++ str ", " ++ quoted (str "realm") realm ++ str ", "
     ++ quoted (str "nonce") (ac_nonce challenge) ++ str ", " ++ quoted (str "uri") uri ++ str ", "
     ++ quoted (str "response") response ++ str ", algorithm="
     ++ match ac_algorithm challenge with [] => str "AKAv1-MD5" | a => a end
     ++ qop_clause (ac_qop challenge) cnonce).

Definition ok_text (vias from to call_id cseq : bytes) : bytes :=
  str "SIP/2.0 200 OK" ++ CRLF ++ vias ++ from ++ CRLF ++ to ++ CRLF ++ call_id ++ CRLF ++ cseq ++ CRLF
  ++ str "Content-Length: 0" ++ CRLF ++ CRLF.

(** The header of a MESSAGE with a body of [len] bytes. *)
Definition message_header (uri preferred local_ip branch call_id cseq : bytes) (len : Z) : bytes :=
  str "MESSAGE " ++ uri ++ str " SIP/2.0" ++ CRLF
  ++ str "Via: SIP/2.0/UDP " ++ contact_text local_ip ++ str ";branch=z9hG4bK-virtlte-" ++ branch ++ CRLF
  ++ str "Max-Forwards: 70" ++ CRLF
  ++ str "From: <" ++ preferred ++ str ">;tag=virtlte-sms" ++ CRLF
  ++ str "To: <" ++ uri ++ str ">" ++ CRLF
  ++ str "Call-ID: virtlte-" ++ call_id ++ str "@" ++ ip_text local_ip ++ CRLF
  ++ str "CSeq: " ++ cseq ++ str " MESSAGE" ++ CRLF
  ++ str "Content-Type: application/vnd.3gpp.sms" ++ CRLF
  ++ str "Content-Length: " ++ utoa len ++ CRLF ++ CRLF.

(** The address between angle brackets, cut to an array. *)
Definition ims_extract_angle_uri (line : bytes) (cap : nat) : bytes :=
  match strcut 60 line with
  | Some (_, rest) => match strcut 62 rest with Some (uri, _) => strcpy_n cap uri | None => [] end
  | None => []
  end.

(** [strstr(to, "tag=")], and the tag of an answer. *)
Definition with_to_tag (to : bytes) (cap : nat) : bytes :=
  if bool_decide (is_Some (find_bytes to (str "tag="))) then to
  else strcpy_n cap (to ++ str ";tag=virtlte-mt").

Definition rp_ack (rp_mr : Z) : bytes := [2; rp_mr; 0x41; 2; 0; 0].
