(* ===== verification/ImsWorker.v ===== *)
(** The IMS service: [src/src/ims_service/ims_service.c], its calls and a round
    of its thread.

    The packets it sends go to the callback [tx_cb] and the messages it receives
    to [sms_cb], both on the state [W] of the caller.  What a round takes from
    outside the program is [ims_env].  A round of the thread is one step: the
    calls of the other threads, which the lock orders with its start, come
    before or after it.  [None] is an access outside a buffer. *)

From S2P Require Import Prelude CString InstanceConfig NasCrypto Ring StateBridge ImsCodec ImsDigest ImsSip.

#[local] Set Primitive Projections.

Definition IMS_SMS_QUEUE_SIZE : nat := 16.
Definition IMS_SMS_PDU_MAX : nat := 512.
Definition IMS_IP_QUEUE_SIZE : nat := 32.
Definition IMS_IP_PACKET_MAX : nat := 2048.
Definition IMS_REGISTER_EXPIRES_SECONDS : Z := 600.
Definition IMS_REGISTER_REFRESH_MARGIN_SECONDS : Z := 60.
Definition IMS_REGISTER_RETRY_MS : Z := 4000.
Definition IMS_REGISTER_MAX_ATTEMPTS : Z := 5.
Definition EAGAIN : Z := 11.
Definition EACCES : Z := 13.
Definition ENOSPC : Z := 28.
Definition ENOTSUP : Z := 95.

Record ims_sms_item := SmsItem { si_reference : Z; si_pdu : bytes }.
Record ims_ip_item := IpItem { ipi_psi : Z; ipi_packet : bytes }.
#[export] Instance ims_sms_item_inhabited : Inhabited ims_sms_item := populate (SmsItem 0 []).
#[export] Instance ims_ip_item_inhabited : Inhabited ims_ip_item := populate (IpItem 0 []).

(** [struct ims_service]; whether the callbacks are set.  The names and the keys
    of the subscriber are records of their own. *)
Record ims_service := Service {
  im_enabled : bool; im_sms_enabled : bool; im_registered : bool; im_pdu_active : bool; im_has_pcscf : bool;
  im_register_sent : bool; im_register_auth_valid : bool;
  im_register_refresh_ms : Z; im_register_sent_ms : Z; im_register_attempts : Z;
  im_ipv4 : bytes; im_pcscf_ipv4 : bytes;
  im_tx_cb : bool; im_sms_dl_cb : bool;
  im_next_sms_reference : Z; im_next_sip_cseq : Z;
  im_identity : ims_identity; im_keys : ims_keys;
  im_register_auth : sip_auth_challenge;
  im_last_mt_rpdu : bytes;
  im_sms : ring ims_sms_item; im_ip : ring ims_ip_item }.

(** ** Initialisation *)

Definition mnc3_value (mnc : bytes) : option Z := match mnc with [] => Some 0 | _ => atoi mnc end.

Definition ims_build_identity (cfg : ue_instance_config) : option (ims_identity * ims_keys) :=
  let imsi := sim_imsi (cfg_sim cfg) in
  mnc ← mnc3_value (net_mnc (cfg_network cfg));
  mcc ← atoi (net_mcc (cfg_network cfg));
  let realm := strcpy_n 96 (str "ims.mnc" ++ itoa_pad 3 mnc ++ str ".mcc" ++ itoa_pad 3 mcc
                            ++ str ".3gppnetwork.org") in
  let impu_user := strcpy_n 64 imsi in
  Some (ImsIdentity realm (strcpy_n 160 (imsi ++ str "@" ++ realm)) impu_user
          (strcpy_n 180 (str "sip:" ++ impu_user ++ str "@" ++ realm)),
        ImsKeys (strcpy_n 64 (sim_key (cfg_sim cfg))) (strcpy_n 64 (sim_opc (cfg_sim cfg)))
          (strcpy_n 16 (sim_amf (cfg_sim cfg)))).

Definition ims_init (cfg : ue_instance_config) : option ims_service :=
  '(who, keys) ← ims_build_identity cfg;
  Some {| im_enabled := ims_enabled (cfg_ims cfg); im_sms_enabled := sms_enabled (cfg_sms cfg);
          im_registered := false; im_pdu_active := false; im_has_pcscf := false;
          im_register_sent := false; im_register_auth_valid := false;
          im_register_refresh_ms := 0; im_register_sent_ms := 0; im_register_attempts := 0;
          im_ipv4 := replicate 4 0; im_pcscf_ipv4 := replicate 4 0;
          im_tx_cb := false; im_sms_dl_cb := false;
          im_next_sms_reference := 1; im_next_sip_cseq := 2;
          im_identity := who; im_keys := keys; im_register_auth := sip_auth_empty; im_last_mt_rpdu := [];
          im_sms := rg_new IMS_SMS_QUEUE_SIZE (SmsItem 0 []); im_ip := rg_new IMS_IP_QUEUE_SIZE (IpItem 0 []) |}.

(** ** The calls of the other threads *)

Section Service.
Implicit Types (svc : ims_service).

Definition ims_set_tx_callback (cb : bool) svc : ims_service := svc <| im_tx_cb := cb |>.
Definition ims_set_sms_downlink_callback (cb : bool) svc : ims_service := svc <| im_sms_dl_cb := cb |>.

Definition ims_set_pdu_active (active : bool) (ipv4 : bytes) (has_pcscf : bool) (pcscf_ipv4 : bytes) svc
    : ims_service :=
  let changed := negb (Bool.eqb (im_pdu_active svc) active) in
  let svc := if changed || negb active
    then svc <| im_register_sent := false |> <| im_register_sent_ms := 0 |> <| im_register_attempts := 0 |>
    else svc in
  let svc := if negb active
    then svc <| im_registered := false |> <| im_register_auth_valid := false |>
             <| im_register_refresh_ms := 0 |> <| im_register_auth := sip_auth_empty |>
             <| im_sms := (Ring (rg_slots (im_sms svc)) 0 0) |> <| im_ip := (Ring (rg_slots (im_ip svc)) 0 0) |>
    else svc in
  let svc := svc <| im_pdu_active := active |> in
  let svc := if active then svc <| im_ipv4 := ipv4 |> else svc in
  let svc := svc <| im_has_pcscf := (active && has_pcscf) |> in
  if active && has_pcscf then svc <| im_pcscf_ipv4 := pcscf_ipv4 |> else svc.

(** The C result, the reference on success. *)
Definition ims_submit_sms (pdu : bytes) svc : Z * Z * ims_service :=
  if length pdu =?n 0 then (- EINVAL, 0, svc) else
  if negb (im_enabled svc) || negb (im_sms_enabled svc) then (- ENODEV, 0, svc) else
  if (IMS_SMS_PDU_MAX <?n length pdu) then (- EMSGSIZE, 0, svc) else
  if negb (im_registered svc) then (- EAGAIN, 0, svc) else
  if rg_full IMS_SMS_QUEUE_SIZE (im_sms svc) then (- ENOSPC, 0, svc) else
  let ref := u32 (im_next_sms_reference svc) in
  (0, ref, svc <| im_next_sms_reference := (u32 (ref + 1)) |>
               <| im_sms := (rg_put IMS_SMS_QUEUE_SIZE (SmsItem ref pdu) (im_sms svc)) |>).

Definition ims_receive_ip (psi : Z) (packet : bytes) svc : Z * ims_service :=
  if length packet =?n 0 then (-1, svc) else
  if negb (im_enabled svc) then (-1, svc) else
  if (IMS_IP_PACKET_MAX <?n length packet) then (-1, svc) else
  if rg_full IMS_IP_QUEUE_SIZE (im_ip svc) then (-1, svc) else
  (0, svc <| im_ip := (rg_put IMS_IP_QUEUE_SIZE (IpItem psi packet) (im_ip svc)) |>).

(** ** When to register *)

Definition register_needed svc : bool :=
  im_enabled svc && im_pdu_active svc && im_has_pcscf svc && negb (im_registered svc) && negb (im_register_sent svc).
Definition register_refresh_needed svc (now : Z) : bool :=
  im_enabled svc && im_pdu_active svc && im_has_pcscf svc && im_registered svc
  && (0 <? im_register_refresh_ms svc) && (im_register_refresh_ms svc <=? now).
Definition register_retry_needed svc (now : Z) : bool :=
  im_enabled svc && im_pdu_active svc && im_has_pcscf svc && negb (im_registered svc) && im_register_sent svc
  && (0 <? im_register_sent_ms svc) && (im_register_attempts svc <? IMS_REGISTER_MAX_ATTEMPTS)
  && (u64 (im_register_sent_ms svc + IMS_REGISTER_RETRY_MS) <=? now).

(** The deadline the thread sleeps until, and the test that lets it sleep. *)
Definition next_register_refresh_deadline svc : option Z :=
  let best :=
    if im_enabled svc && im_pdu_active svc && im_has_pcscf svc && im_registered svc && (0 <? im_register_refresh_ms svc)
    then Some (im_register_refresh_ms svc) else None in
  if im_enabled svc && im_pdu_active svc && im_has_pcscf svc && negb (im_registered svc) && im_register_sent svc
     && (0 <? im_register_sent_ms svc) && (im_register_attempts svc <? IMS_REGISTER_MAX_ATTEMPTS)
  then
    let retry := u64 (im_register_sent_ms svc + IMS_REGISTER_RETRY_MS) in
    match best with
    | Some b => if retry <? b then Some retry else best
    | None => Some retry
    end
  else best.

Definition ims_may_sleep svc (now : Z) : bool :=
  rg_empty (im_sms svc) && rg_empty (im_ip svc) && negb (register_needed svc)
  && negb (register_refresh_needed svc now) && negb (register_retry_needed svc now).
End Service.

(** What a round takes from outside: the clock when it starts and when it
    handles a packet, and the random bytes of the two REGISTERs it may
    authorize. *)
Record ims_env := ImsEnv { ie_now : Z; ie_rx_now : Z; ie_entropy1 : bytes; ie_entropy2 : bytes }.

Section Worker.
Context {W : Type} (tx_cb : bytes -> W -> option (Z * W)) (sms_cb : bytes -> W -> Z * W).
Implicit Types (svc : ims_service) (w : W).

(** The session a text is sent over, when there is one. *)
Definition ims_ready svc : bool := im_pdu_active svc && im_has_pcscf svc && im_tx_cb svc.

(** A text in a packet of at most [cap] bytes, to [tx_cb]. *)
Definition send_text (cap : Z) (local_ip pcscf_ip text : bytes) w : option (Z * W) :=
  '(n, packet) ← ims_ip_build_udp_ipv4 cap local_ip pcscf_ip IMS_SIP_LOCAL_PORT IMS_SIP_REMOTE_PORT text;
  if n <? 0 then Some (n, w) else tx_cb packet w.

Definition ims_send_initial_register svc (local_ip pcscf_ip : bytes) (cb : bool) w : option (Z * W) :=
  if negb cb then Some (- ENODEV, w) else
  match ims_build_contact_uri 256 (im_identity svc) local_ip with
  | None => Some (- EMSGSIZE, w)
  | Some contact =>
    match fits 1600 (initial_register (im_identity svc) local_ip contact) with
    | None => Some (- EMSGSIZE, w)
    | Some text => send_text 1800 local_ip pcscf_ip text w
    end
  end.

(** The text that answers a challenge, or the error. *)
Definition authorized_text svc (challenge : sip_auth_challenge) (res entropy : bytes) (cseq : Z) : option (Z + bytes) :=
  let who := im_identity svc in
  match ims_build_contact_uri 256 who (im_ipv4 svc) with
  | None => Some (inl (- EMSGSIZE))
  | Some contact =>
    let realm := match ac_realm challenge with [] => ii_realm who | r => r end in
    let qop := match ac_qop challenge with [] => None | q => Some q end in
    let uri := strcpy_n 128 (str "sip:" ++ ii_realm who) in
    let cnonce := ims_random_hex entropy in
    response ← ims_digest_md5_response (ii_impi who) realm res (str "REGISTER") uri (ac_nonce challenge)
                 (_ ← qop; Some ims_nc) (_ ← qop; Some cnonce) qop;
    match response with
    | inl _ => Some (inl (- EINVAL))
    | inr response =>
      match fits 1600 (authorized_register who challenge (im_ipv4 svc) contact realm uri response cnonce cseq) with
      | None => Some (inl (- EMSGSIZE))
      | Some text => Some (inr text)
      end
    end
  end.

Definition ims_send_authorized_register svc (challenge : sip_auth_challenge) (entropy : bytes) w
    : option (Z * ims_service * W) :=
  if negb (strcaseeq (ac_algorithm challenge) (str "AKAv1-MD5")) && negb (strcaseeq (ac_algorithm challenge) (str "MD5"))
  then Some (- ENOTSUP, svc, w) else
  match ims_compute_aka_res (im_keys svc) (ac_nonce challenge) with
  | None => Some (- EACCES, svc, w)
  | Some res =>
    if negb (ims_ready svc) then Some (- ENODEV, svc, w) else
    let cseq := im_next_sip_cseq svc in
    let svc := svc <| im_next_sip_cseq := (u32 (cseq + 1)) |> in
    text ← authorized_text svc challenge res entropy cseq;
    match text with
    | inl e => Some (e, svc, w)
    | inr text => '(rc, w) ← send_text 2048 (im_ipv4 svc) (im_pcscf_ipv4 svc) text w; Some (rc, svc, w)
    end
  end.

Definition ims_send_sms_message svc (sms : ims_sms_item) (local_ip pcscf_ip : bytes) (cb : bool) w
    : option (Z * ims_service * W) :=
  if negb cb || (IMS_SMS_PDU_MAX <?n length (si_pdu sms)) then Some (- EINVAL, svc, w) else
  '(rpdu_len, rpdu) ← ims_build_rp_data (si_pdu sms) (u8 (si_reference sms)) 528;
  if rpdu_len <=? 0 then Some (- EINVAL, svc, w) else
  dst ← ims_sms_extract_destination (si_pdu sms) 64;
  let who := im_identity svc in
  let request_uri := match dst with
    | Some dst => strcpy_n 200 (str "sip:" ++ dst ++ str "@" ++ ii_realm who ++ str ";user=phone")
    | None => strcpy_n 200 (ii_preferred_impu who)
    end in
  let cseq := im_next_sip_cseq svc in
  let svc := svc <| im_next_sip_cseq := (u32 (cseq + 1)) |> in
  let ref := str "sms-" ++ utoa (si_reference sms) in
  let header := message_header request_uri (ii_preferred_impu who) local_ip ref ref (utoa cseq) rpdu_len in
  if (1024 <=?n length header) then Some (- EMSGSIZE, svc, w) else
  if (1600 <?n length header + length rpdu) then Some (- EMSGSIZE, svc, w) else
  '(rc, w) ← send_text 2048 local_ip pcscf_ip (header ++ rpdu) w;
  Some (rc, svc, w).

Definition ims_send_sip_message_ok svc (hdr : bytes) w : option W :=
  '(count, vias) ← header_copy_all_lines hdr (str "Via:") 768;
  from ← header_copy_line hdr (str "From:") 256;
  to ← header_copy_line hdr (str "To:") 288;
  call_id ← header_copy_line hdr (str "Call-ID:") 256;
  cseq ← header_copy_line hdr (str "CSeq:") 128;
  match from, to, call_id, cseq with
  | Some from, Some to, Some call_id, Some cseq =>
    if (count =? 0) || negb (ims_ready svc) then Some w else
    match fits 2048 (ok_text vias from (with_to_tag to 288) call_id cseq) with
    | None => Some w
    | Some text => '(_, w) ← send_text 2200 (im_ipv4 svc) (im_pcscf_ipv4 svc) text w; Some w
    end
  | _, _, _, _ => Some w
  end.

(** [header] has 768 bytes, and [memcpy] takes as many as the text needs. *)
Definition ims_send_rp_ack svc (recv_hdr : bytes) (rp_mr : Z) w : option (ims_service * W) :=
  from ← header_copy_line recv_hdr (str "From:") 256;
  match from with
  | None => Some (svc, w)
  | Some from =>
    let orig_uri := ims_extract_angle_uri from 200 in
    if (length orig_uri =?n 0) || negb (ims_ready svc) then Some (svc, w) else
    let cseq := im_next_sip_cseq svc in
    let svc := svc <| im_next_sip_cseq := (u32 (cseq + 1)) |> in
    let ref := str "rpack-" ++ utoa cseq in
    let text := message_header orig_uri (ii_preferred_impu (im_identity svc)) (im_ipv4 svc) ref ref (utoa cseq) 6 in
    if (1024 <?n length text + 6) then Some (svc, w) else
    header ← slice (take 767 text ++ [0]) 0 (length text);
    '(_, w) ← send_text 1280 (im_ipv4 svc) (im_pcscf_ipv4 svc) (header ++ rp_ack rp_mr) w;
    Some (svc, w)
  end.

(** A message of the network whose body is [body]. *)
Definition ims_deliver_sms svc (hdr content : bytes) w : option (ims_service * W) :=
  '(mbim_len, mbim_pdu, mr) ← ims_rp_data_to_mbim_pdu content 528;
  if mbim_len <=? 0 then Some (svc, w) else
  let rp_mr := default 0 mr in
  let short := (length content <=?n 256) in
  if short && bool_decide (content = im_last_mt_rpdu svc) then ims_send_rp_ack svc hdr rp_mr w else
  let svc := if short then svc <| im_last_mt_rpdu := content |> else svc in
  let w := if im_sms_dl_cb svc then (sms_cb mbim_pdu w).2 else w in
  ims_send_rp_ack svc hdr rp_mr w.

Definition ims_handle_sip_message svc (payload : bytes) w : option (ims_service * W) :=
  if (length payload <?n 8) || negb (bool_decide (take 8 payload = str "MESSAGE ")) then Some (svc, w) else
  match find_bytes payload (CRLF ++ CRLF) with
  | None => Some (svc, w)
  | Some hdr_len =>
    let hdr := take hdr_len payload in
    let body := drop (hdr_len + 4) payload in
    sms ← header_has_content_type_sms hdr;
    content_len ← header_get_content_length hdr;
    match content_len with
    | None => Some (svc, w)
    | Some content_len =>
      if negb sms || (content_len =? 0) || (Z.of_nat (length body) <? content_len) then Some (svc, w) else
      w ← ims_send_sip_message_ok svc hdr w;
      mti ← body !! 0%nat;
      if negb (mti &. 7 =? 1) then Some (svc, w) else
      content ← slice body 0 (Z.to_nat content_len);
      ims_deliver_sms svc hdr content w
    end
  end.

(** The answer to a REGISTER. *)
Definition ims_register_accepted svc (payload : bytes) (now : Z) : option ims_service :=
  expires ← header_get_uint payload (str "Expires:");
  let expires := if expires <=? IMS_REGISTER_REFRESH_MARGIN_SECONDS then IMS_REGISTER_EXPIRES_SECONDS else expires in
  Some (svc <| im_registered := true |> <| im_register_sent := false |> <| im_register_sent_ms := 0 |>
            <| im_register_attempts := 0 |>
            <| im_register_refresh_ms := (u64 (now + (expires - IMS_REGISTER_REFRESH_MARGIN_SECONDS) * 1000)) |>).

Definition ims_register_challenged svc (payload entropy : bytes) (now : Z) w : option (ims_service * W) :=
  challenge ← parse_www_authenticate payload;
  match challenge with
  | None => Some (svc, w)
  | Some challenge =>
    let svc := svc <| im_register_auth := challenge |> <| im_register_auth_valid := true |> in
    match ac_nonce challenge with
    | [] => Some (svc, w)
    | _ =>
      '(rc, svc, w) ← ims_send_authorized_register svc challenge entropy w;
      Some (if rc =? 0 then svc <| im_register_sent := true |> <| im_register_sent_ms := now |> else svc, w)
    end
  end.

Definition ims_handle_rx_ip svc (item : ims_ip_item) (env : ims_env) w : option (ims_service * W) :=
  r ← ims_ip_parse_udp_ipv4 (ipi_packet item);
  match r with
  | inl _ => Some (svc, w)
  | inr udp =>
    if negb (udp_src_port udp =? IMS_SIP_REMOTE_PORT) || negb (udp_dst_port udp =? IMS_SIP_LOCAL_PORT)
    then Some (svc, w) else
    let payload := udp_payload udp in
    '(svc, w) ← ims_handle_sip_message svc payload w;
    answer ← header_has_cseq_method payload (str "REGISTER");
    let begins (s : bytes) := (11 <=?n length payload) && bool_decide (take 11 payload = s) in
    if begins (str "SIP/2.0 200") && answer
    then svc ← ims_register_accepted svc payload (ie_rx_now env); Some (svc, w)
    else if begins (str "SIP/2.0 401") && answer
    then ims_register_challenged svc payload (ie_entropy2 env) (ie_rx_now env) w
    else Some (svc, w)
  end.

(** ** A round of the thread *)

(** What the round does under the lock: the REGISTERs that are due. *)
Definition ims_due svc (now : Z) : bool * bool * sip_auth_challenge * ims_service :=
  let svc := if register_retry_needed svc now
    then svc <| im_register_sent := false |> <| im_register_auth_valid := false |> else svc in
  let do_register := register_needed svc in
  let do_refresh := register_refresh_needed svc now in
  let refresh_auth := if do_refresh then im_register_auth svc else sip_auth_empty in
  let svc := if do_refresh then svc <| im_register_refresh_ms := 0 |> else svc in
  let svc := if do_register
    then svc <| im_register_sent := true |> <| im_register_sent_ms := now |>
             <| im_register_attempts := (im_register_attempts svc + 1) |>
    else svc in
  (do_register, do_refresh, refresh_auth, svc).

(** The oldest entries of the two queues. *)
Definition ims_pop svc : option (option ims_sms_item * option ims_ip_item * ims_service) :=
  '(sms, svc) ← (if rg_empty (im_sms svc) then Some (None, svc) else
    item ← rg_peek (im_sms svc);
    Some (Some item, svc <| im_sms := (rg_pop IMS_SMS_QUEUE_SIZE id (im_sms svc)) |>));
  '(ip, svc) ← (if rg_empty (im_ip svc) then Some (None, svc) else
    item ← rg_peek (im_ip svc);
    Some (Some item, svc <| im_ip := (rg_pop IMS_IP_QUEUE_SIZE id (im_ip svc)) |>));
  Some (sms, ip, svc).

Definition ims_worker_round (env : ims_env) svc w : option (ims_service * W) :=
  let '(do_register, do_refresh, refresh_auth, svc) := ims_due svc (ie_now env) in
  let pdu_ready := im_pdu_active svc && im_has_pcscf svc in
  let registered := im_registered svc in
  let taken := do_register || pdu_ready in
  let local_ip := if taken then im_ipv4 svc else replicate 4 0 in
  let pcscf_ip := if taken then im_pcscf_ipv4 svc else replicate 4 0 in
  let cb := taken && im_tx_cb svc in
  '(sms, ip, svc) ← ims_pop svc;
  w ← (if do_register then '(_, w) ← ims_send_initial_register svc local_ip pcscf_ip cb w; Some w else Some w);
  '(svc, w) ← (if do_refresh then
      match ac_nonce refresh_auth with
      | [] => '(_, w) ← ims_send_initial_register svc local_ip pcscf_ip cb w; Some (svc, w)
      | _ => '(_, svc, w) ← ims_send_authorized_register svc refresh_auth (ie_entropy1 env) w; Some (svc, w)
      end
    else Some (svc, w));
  '(svc, w) ← (match ip with Some item => ims_handle_rx_ip svc item env w | None => Some (svc, w) end);
  match sms with
  | Some item =>
    if registered && pdu_ready
    then '(_, svc, w) ← ims_send_sms_message svc item local_ip pcscf_ip cb w; Some (svc, w)
    else Some (svc, w)
  | None => Some (svc, w)
  end.
End Worker.
