(* ===== verification/ImsReach.v ===== *)
(** The IMS service from outside: its invariant, and that every call and every
    round of its thread returns inside its buffers, whatever the network sends
    and the callbacks do with what they are given. *)

From S2P Require Import Prelude CString InstanceConfig NasCrypto Ring StateBridge ImsCodec ImsDigest ImsSip ImsWorker.

#[local] Set Primitive Projections.

(** [m] gives a result, which satisfies [P]. *)
Definition yields {A} (m : option A) (P : A -> Prop) : Prop := exists x, m = Some x /\ P x.

Lemma yields_ret {A} (x : A) (P : A -> Prop) : P x -> yields (Some x) P.
Proof. by exists x. Qed.

Lemma yields_bind {A B} (m : option A) (k : A -> option B) (P : A -> Prop) (Q : B -> Prop) :
  yields m P -> (forall x, P x -> yields (k x) Q) -> yields (m ≫= k) Q.
Proof. intros (x & -> & Hx) Hk. by apply Hk. Qed.

Lemma yields_mono {A} (m : option A) (P Q : A -> Prop) : yields m P -> (forall x, P x -> Q x) -> yields m Q.
Proof. intros (x & E & Hx) H. exists x. auto. Qed.

Lemma yields_some {A} (m : option A) : is_Some m -> yields m (fun _ => True).
Proof. intros [x E]. by exists x. Qed.

(** ** Scanning a header *)

Lemma find_bytes_lt data needle i : find_bytes data needle = Some i -> (i < length data)%nat.
Proof.
  revert i. induction data as [|c data IH]; intros i; [done|]. cbn [find_bytes length].
  destruct (bool_decide _); [intros [= <-]; lia|]. destruct (find_bytes data needle) as [j|]; [|done].
  intros [= <-]. specialize (IH j eq_refl). lia.
Qed.

Lemma find_ascii_case_lt data needle i : find_ascii_case data needle = Some i -> (i < length data)%nat.
Proof.
  revert i. induction data as [|c data IH]; intros i; [done|]. cbn [find_ascii_case length].
  destruct (strcaseeq _ _); [intros [= <-]; lia|]. destruct (find_ascii_case data needle) as [j|]; [|done].
  intros [= <-]. specialize (IH j eq_refl). lia.
Qed.

(** The lines of a header of [n] bytes: the fuel is enough, since every round
    takes at least the end of a line. *)
Lemma sip_lines_total fuel data : (length data < fuel)%nat -> exists l, sip_lines fuel data = Some l.
Proof.
  revert data. induction fuel as [|fuel IH]; intros data Hf; [lia|]. cbn [sip_lines].
  destruct (length data =?n 0); [by eexists|]. destruct (find_bytes data CRLF) as [i|] eqn:E; [|by eexists].
  apply find_bytes_lt in E. destruct (IH (drop (i + 2) data)) as [l ->]; [rewrite length_drop; lia|]. ob. by eexists.
Qed.

Lemma lines_total hdr : exists l, lines_of hdr = Some l.
Proof. apply sip_lines_total. lia. Qed.

(** Every occurrence of the name is longer than nothing, so the position moves. *)
Lemma auth_param_total line name out_len : (0 < length name)%nat -> exists r, auth_param_copy line name out_len = Some r.
Proof.
  intros Hn. unfold auth_param_copy.
  enough (forall fuel p, (length line < fuel + p)%nat -> exists r, auth_param_loop fuel line name p out_len = Some r \/ fuel = 0%nat)
    as He.
  { destruct (He (S (length line)) 0%nat ltac:(lia)) as [r [E|E]]; [by exists r|done]. }
  induction fuel as [|fuel IH]; intros p Hp; [exists None; by right|]. cbn [auth_param_loop].
  destruct (find_ascii_case (drop p line) name) as [i|] eqn:E; [|exists None; by left].
  apply find_ascii_case_lt in E. rewrite length_drop in E.
  assert (exists r, auth_param_loop fuel line name (p + i + length name) out_len = Some r) as [r Hr].
  { destruct (IH (p + i + length name)%nat ltac:(lia)) as [r [Er| ->]]; [by exists r|lia]. }
  destruct (_ && _); [exists r; by left|].
  destruct (skip_blanks _) as [|c v]; [exists r; by left|].
  destruct (Z.eq_dec c 61) as [->|Hc]; [eexists; by left|].
  exists r. left. rewrite <- Hr. destruct c as [|c|c]; try done. repeat (destruct c as [c|c|]; try done).
Qed.

Lemma copy_line_total hdr name n :
  (0 < n)%nat -> yields (header_copy_line hdr name n) (fun r => forall l, r = Some l -> (length l < n)%nat).
Proof.
  intros Hn. unfold header_copy_line. destruct (lines_total hdr) as [lines ->]. ob. apply yields_ret.
  intros l. destruct (find_header name lines) as [line|]; [|done]. intros [= <-].
  enough (forall s, (length (c_str s) <= length s)%nat) as Hc by (pose proof (Hc (strcpy_n n line));
    pose proof (length_strcpy_n n line Hn); lia).
  clear. induction s as [|c s IH]; [done|]. cbn [c_str]. case_match; simpl; lia.
Qed.

Lemma header_number_total w hdr name :
  0 < w -> yields (header_number w hdr name) (fun r => forall v, r = Some v -> 0 <= v < 2 ^ w).
Proof.
  intros Hw. unfold header_number. destruct (lines_total hdr) as [lines ->]. ob. apply yields_ret.
  destruct (find_header name lines) as [line|]; ob; [|done]. intros v.
  destruct (skip_blanks _) as [|c s]; [done|]. destruct (isdigit c); [|done]. intros [= <-].
  enough (forall s acc, 0 <= acc < 2 ^ w -> 0 <= digits_mod w acc s < 2 ^ w) as H
    by (apply (H (c :: s)); lia).
  clear -Hw. induction s as [|c s IH]; intros acc Ha; cbn [digits_mod]; [done|]. destruct (isdigit c); [|done].
  apply IH. apply Z.mod_pos_bound. lia.
Qed.

Lemma copy_all_total hdr name n : exists r, header_copy_all_lines hdr name n = Some r.
Proof. unfold header_copy_all_lines. destruct (lines_total hdr) as [lines ->]. ob. destruct (copy_lines _ _ _ _ _). by eexists. Qed.

Lemma has_tests_total hdr method :
  (exists b, header_has_content_type_sms hdr = Some b) /\ (exists b, header_has_cseq_method hdr method = Some b).
Proof.
  unfold header_has_content_type_sms, header_has_cseq_method. destruct (lines_total hdr) as [lines ->]. ob.
  split; by eexists.
Qed.

Lemma challenge_total hdr : exists r, parse_www_authenticate hdr = Some r.
Proof.
  unfold parse_www_authenticate. destruct (copy_line_total hdr (str "WWW-Authenticate:") 1024) as (line & -> & _); [lia|].
  ob. destruct line as [line|]; [|by eexists]. destruct (negb _); [by eexists|].
  destruct (auth_param_total line (str "realm") 128) as [realm ->]; [by vm_compute; lia|]. ob.
  destruct realm as [realm|]; [|by eexists].
  destruct (auth_param_total line (str "nonce") 512) as [nonce ->]; [by vm_compute; lia|]. ob.
  destruct nonce as [nonce|]; [|by eexists].
  destruct (auth_param_total line (str "algorithm") 32) as [algorithm ->]; [by vm_compute; lia|]. ob.
  destruct (auth_param_total line (str "qop") 32) as [qop ->]; [by vm_compute; lia|]. ob. by eexists.
Qed.

(** ** The digest and the packets *)

Lemma md5_update_total ctx data :
  (md_buf_len ctx < 64)%nat -> yields (md5_update ctx data) (fun c => md_buf_len c < 64)%nat.
Proof.
  unfold md5_update. set (c := ctx <| md_len := _ |>). intros H. assert (md_buf_len c < 64)%nat as Hc by exact H.
  assert (length data < S (length data))%nat as Hf by lia. clearbody c. clear ctx H.
  generalize dependent (S (length data)). intros fuel. revert c data Hc.
  induction fuel as [|fuel IH]; intros c data Hc Hf; [lia|]. cbn [md5_update_loop].
  destruct (Nat.eqb_spec (length data) 0); [by apply yields_ret|]. cbv zeta. apply IH.
  - set (c' := c <| md_buf := _ |> <| md_buf_len := _ |>).
    assert (md_buf_len c' = md_buf_len c + Nat.min (64 - md_buf_len c) (length data))%nat as E by done.
    destruct (Nat.eqb_spec (md_buf_len c') 64) as [|Hne]; [cbn; lia|]. lia.
  - rewrite length_drop. lia.
Qed.

Lemma md5_final_total ctx : (md_buf_len ctx < 64)%nat -> is_Some (md5_final ctx).
Proof.
  intros H. unfold md5_final. cbv zeta. set (pl := if _ <?n 56 then _ else _).
  assert (pl <= 64)%nat by (subst pl; destruct (Nat.ltb_spec (md_buf_len ctx) 56); lia). clearbody pl.
  destruct (slice (0x80 :: replicate 63 0) 0 pl) as [pad|] eqn:E;
    [|rewrite slice_in in E by (cbn [length]; rewrite length_replicate; lia); done].
  destruct (md5_update_total ctx pad H) as (c1 & E1 & H1).
  destruct (md5_update_total c1 (le_list 8 (u64 (md_len ctx * 8))) H1) as (c2 & E2 & H2).
  eexists. apply (bind_some _ _ _ _ E1), (bind_some _ _ _ _ E2). reflexivity.
Qed.

Lemma hash_parts_total parts last : is_Some (md5_hash_parts parts last).
Proof.
  unfold md5_hash_parts.
  assert (forall ctx, (md_buf_len ctx < 64)%nat ->
    yields (md5_update_parts ctx parts last) (fun c => md_buf_len c < 64)%nat) as Hp.
  { induction parts as [|p parts IH]; intros ctx Hc; cbn [md5_update_parts]; [by apply md5_update_total|].
    eapply yields_bind; [by apply md5_update_total|]. intros c1 H1.
    eapply yields_bind; [by apply md5_update_total|]. intros c2 H2. by apply IH. }
  destruct (Hp md5_init) as (c & -> & Hc); [cbn; lia|]. ob.
  destruct (md5_final_total c Hc) as [d ->]. ob. by eexists.
Qed.

Lemma digest_total username realm password method uri nonce nc cnonce qop :
  is_Some (ims_digest_md5_response username realm password method uri nonce nc cnonce qop).
Proof.
  unfold ims_digest_md5_response. destruct (hash_parts_total [username; realm] password) as [ha1 ->]. ob.
  destruct (hash_parts_total [method] uri) as [ha2 ->]. ob.
  assert (forall parts last, exists r, md5_hash_parts parts last = Some r) as H by exact hash_parts_total.
  destruct qop as [[|q qop]|].
  - destruct (H [ha1; nonce] ha2) as [r ->]. by eexists.
  - destruct nc as [nc|]; [|by eexists]. destruct cnonce as [cnonce|]; [|by eexists].
    destruct (H [ha1; nonce; nc; cnonce; q :: qop] ha2) as [r ->]. by eexists.
  - destruct (H [ha1; nonce] ha2) as [r ->]. by eexists.
Qed.

Lemma checksum_add_range sum data : 0 <= sum < 2 ^ 32 -> 0 <= checksum_add sum data < 2 ^ 32.
Proof.
  revert sum. induction data as [|a|a b data IH] using word_ind; intros sum Hs; cbn [checksum_add]; [done| |].
  - apply u32_range.
  - apply IH, u32_range.
Qed.

Lemma checksum_total sum data : 0 <= sum < 2 ^ 32 -> yields (checksum_finish (checksum_add sum data)) (fun _ => True).
Proof.
  intros Hs. unfold checksum_finish. destruct (checksum_fold_spec _ (checksum_add_range _ data Hs)) as (r & -> & _).
  ob. by apply yields_ret.
Qed.

Lemma ip_build_total cap src dst sp dp payload : is_Some (ims_ip_build_udp_ipv4 cap src dst sp dp payload).
Proof.
  unfold ims_ip_build_udp_ipv4. cbv zeta. destruct (_ || _); [by eexists|].
  unfold ipv4_header_checksum, udp_checksum_ipv4.
  destruct (checksum_total 0 ([0x45; 0] ++ ip_wr16 (u16 (20 + (8 + Z.of_nat (length payload)))) ++ ip_wr16 0
    ++ ip_wr16 0x4000 ++ [64; 17] ++ ip_wr16 0 ++ src ++ dst)) as (h & E & _); [lia|].
  rewrite E. ob. clear E.
  match goal with |- context [checksum_finish (checksum_add ?s ?d)] =>
    destruct (checksum_total s d) as (c & -> & _); [apply checksum_add_range; lia|] end.
  ob. by eexists.
Qed.

Lemma ip_parse_total packet :
  Forall is_byte packet ->
  yields (ims_ip_parse_udp_ipv4 packet)
    (fun r => match r with inl _ => True | inr u => Forall is_byte (udp_payload u) end).
Proof.
  intros Hb. destruct (ims_ip_parse_safe packet Hb) as (r & E & H). exists r. split; [done|].
  destruct r as [e|u]; [done|]. destruct H as (i & -> & _). by apply Forall_take, Forall_drop.
Qed.

Lemma destination_total pdu n : is_Some (ims_sms_extract_destination pdu n).
Proof.
  unfold ims_sms_extract_destination. cbv zeta.
  destruct (Nat.ltb_spec n 4); [by eexists|]. cbn [orb]. destruct (Nat.ltb_spec (length pdu) 5); [by eexists|].
  destruct (load_in pdu 0) as (sca & ->); [lia|]. ob. set (t := if _ <?n _ then _ else 0%nat).
  destruct (Nat.ltb_spec (length pdu) (t + 4)); [by eexists|].
  destruct (load_in pdu t) as (first & ->); [lia|]. ob. destruct (negb _); [by eexists|].
  destruct (load_in pdu (t + 2)) as (da & ->); [lia|]. destruct (load_in pdu (t + 3)) as (toa & ->); [lia|]. ob.
  destruct (_ =? 0); [by eexists|]. cbn [orb].
  destruct (Nat.ltb_spec (length pdu) (t + 4 + (Z.to_nat da + 1) / 2)); [by eexists|].
  set (m := Nat.min _ _).
  assert (forall n i, (i + n <= Z.to_nat da)%nat -> exists r, sms_digits pdu (t + 4) i n = Some r) as Hd.
  { induction n0 as [|k IH]; intros i Hi; cbn [sms_digits]; [by eexists|].
    destruct (load_in pdu (t + 4 + i / 2)) as (semi & ->).
    { assert (i / 2 < (Z.to_nat da + 1) / 2)%nat; [|lia].
      apply Nat.Div0.div_lt_upper_bound. pose proof (Nat.div_mod_eq (Z.to_nat da + 1) 2).
      pose proof (Nat.mod_upper_bound (Z.to_nat da + 1) 2 ltac:(lia)). lia. }
    ob. destruct (sms_addr_digit _ _); [|by eexists]. destruct (IH (S i) ltac:(lia)) as [r ->]. ob. by eexists. }
  destruct (Hd m 0%nat) as [r ->]; [subst m; lia|]. ob. by eexists.
Qed.

(** ** Lengths of texts *)

(** Computes the lengths of literals. *)
Ltac str_lengths :=
  repeat match goal with
  | |- context [length (str ?s)] => let n := eval vm_compute in (length (str s)) in change (length (str s)) with n
  | |- context [length CRLF] => change (length CRLF) with 2%nat
  | |- context [length DQUOTE] => change (length DQUOTE) with 1%nat
  end.

Lemma length_utoa v n : 0 <= v < 10 ^ Z.of_nat n -> (0 < n)%nat -> (length (utoa v) <= n)%nat.
Proof. intros Hv Hn. unfold utoa. rewrite length_dec_list. by apply dec_width_bound. Qed.

Lemma length_ip_text ip : Forall is_byte ip -> (length (ip_text ip) <= 15)%nat.
Proof.
  intros Hb. unfold ip_text. rewrite !length_app. str_lengths.
  assert (forall i, length (utoa (ip !!! i)) <= 3)%nat as H.
  { intros i. apply length_utoa; [|lia]. pose proof (lookup_total_byte ip i Hb) as Hi. unfold is_byte in Hi.
    change (10 ^ Z.of_nat 3) with 1000. lia. }
  pose proof (H 0%nat). pose proof (H 1%nat). pose proof (H 2%nat). pose proof (H 3%nat). lia.
Qed.

Lemma length_u32_text v : 0 <= v < 2 ^ 32 -> (length (utoa v) <= 10)%nat.
Proof. intros Hv. apply length_utoa; [|lia]. change (10 ^ Z.of_nat 10) with 10000000000. lia. Qed.

Lemma length_message_header uri preferred ip branch cseq len :
  Forall is_byte ip ->
  (length (message_header uri preferred ip branch branch cseq len)
   <= 249 + 2 * length uri + length preferred + 2 * length branch + length cseq + length (utoa len))%nat.
Proof.
  intros Hb. unfold message_header, contact_text. rewrite !length_app. str_lengths.
  pose proof (length_ip_text ip Hb). change (length (utoa IMS_SIP_LOCAL_PORT)) with 4%nat. lia.
Qed.

(** ** The invariant *)

Definition sms_item_ok (it : ims_sms_item) : Prop :=
  Forall is_byte (si_pdu it) /\ (1 <= length (si_pdu it) <= 512)%nat /\ 0 <= si_reference it < 2 ^ 32.
Definition ip_item_ok (it : ims_ip_item) : Prop :=
  Forall is_byte (ipi_packet it) /\ (1 <= length (ipi_packet it) <= 2048)%nat.

(** The queues hold what the calls let in, the addresses are four bytes, the
    names fit the header of an acknowledgement, and an unanswered REGISTER has
    been sent at most five times. *)
Record ims_ok (svc : ims_service) : Prop := {
  io_sms : rg_ok IMS_SMS_QUEUE_SIZE (im_sms svc);
  io_sms_items : Forall sms_item_ok (rg_items IMS_SMS_QUEUE_SIZE (im_sms svc));
  io_ip : rg_ok IMS_IP_QUEUE_SIZE (im_ip svc);
  io_ip_items : Forall ip_item_ok (rg_items IMS_IP_QUEUE_SIZE (im_ip svc));
  io_ipv4 : length (im_ipv4 svc) = 4%nat /\ Forall is_byte (im_ipv4 svc);
  io_pcscf : length (im_pcscf_ipv4 svc) = 4%nat /\ Forall is_byte (im_pcscf_ipv4 svc);
  io_impu : (length (ii_preferred_impu (im_identity svc)) <= 77)%nat;
  io_names : (length (ii_realm (im_identity svc)) <= 41 /\ length (ii_impi (im_identity svc)) <= 73
              /\ length (ii_impu_user (im_identity svc)) <= 31)%nat;
  io_reference : 0 <= im_next_sms_reference svc < 2 ^ 32;
  io_cseq : 0 <= im_next_sip_cseq svc < 2 ^ 32;
  io_attempts : 0 <= im_register_attempts svc <= IMS_REGISTER_MAX_ATTEMPTS;
  io_attempts_idle : im_registered svc = false -> im_register_sent svc = false ->
    im_register_attempts svc < IMS_REGISTER_MAX_ATTEMPTS }.

(** Updates of fields the invariant does not read, or reads trivially. *)
Ltac ims_fields H :=
  destruct H; split; try assumption; try (apply u32_range); try (by intros ? ?); try (cbn; done); try (cbn; lia).

Lemma forall_eq {A} (P : A -> Prop) l l' : l = l' -> Forall P l' -> Forall P l.
Proof. by intros ->. Qed.

Lemma bump_cseq svc : ims_ok svc -> ims_ok (svc <| im_next_sip_cseq := (u32 (im_next_sip_cseq svc + 1)) |>).
Proof. intros H. ims_fields H. Qed.

(** ** The calls *)

Lemma atoi_bound s v : (length s < 8)%nat -> atoi s = Some v -> -1000000 < v < 10000000.
Proof.
  intros Hl. unfold atoi. cbv zeta. intros E.
  assert (length (skip_spaces s) <= length s)%nat as Hk.
  { clear. induction s as [|c s IH]; [done|]. cbn [skip_spaces]. case_match; simpl; lia. }
  match type of E with (if ?b then Some ?x else _) = _ =>
    enough (-1000000 < x < 10000000) by (destruct b; [|done]; by injection E as <-) end.
  clear E. assert (forall s n, (length s <= n)%nat -> 0 <= digits_val 0 s < 10 ^ Z.of_nat n) as Hd.
  { clear. intros s n Hn. pose proof (digits_val_range 0 s ltac:(lia)).
    assert (10 ^ Z.of_nat (length s) <= 10 ^ Z.of_nat n) by (apply Z.pow_le_mono_r; lia). lia. }
  destruct (skip_spaces s) as [|c t]; [lia|]. cbn [length] in Hk.
  pose proof (Hd t 6%nat ltac:(lia)). pose proof (Hd (c :: t) 7%nat ltac:(cbn [length]; lia)).
  change (10 ^ Z.of_nat 6) with 1000000 in *. change (10 ^ Z.of_nat 7) with 10000000 in *.
  destruct (c =? 45); [lia|]. destruct (c =? 43); lia.
Qed.

Lemma length_itoa3 v : -1000000 < v < 10000000 -> (length (itoa_pad 3 v) <= 7)%nat.
Proof.
  intros Hv. unfold itoa_pad, utoa_pad. destruct (Z.ltb_spec v 0); cbn [length]; rewrite length_dec_list.
  - pose proof (dec_width_bound 20 6 (- v) ltac:(change (10 ^ Z.of_nat 6) with 1000000; lia) ltac:(lia)). lia.
  - pose proof (dec_width_bound 20 7 v ltac:(change (10 ^ Z.of_nat 7) with 10000000; lia) ltac:(lia)). lia.
Qed.

(** The strings of the configuration fit their arrays. *)
Definition ims_cfg_fits (cfg : ue_instance_config) : Prop :=
  (length (net_mcc (cfg_network cfg)) < 8)%nat /\ (length (net_mnc (cfg_network cfg)) < 8)%nat
  /\ (length (sim_imsi (cfg_sim cfg)) < 32)%nat.

Lemma ims_init_ok cfg : ims_cfg_fits cfg -> yields (ims_init cfg) ims_ok.
Proof.
  intros (Hc & Hn & Hi). unfold ims_init, ims_build_identity. cbv zeta.
  assert (exists v, mnc3_value (net_mnc (cfg_network cfg)) = Some v /\ -1000000 < v < 10000000) as (mnc & -> & Hm).
  { unfold mnc3_value. destruct (net_mnc (cfg_network cfg)) as [|c t] eqn:E; [by exists 0|].
    destruct (atoi_short (c :: t) Hn) as [v Hv]. exists v. split; [done|by eapply atoi_bound]. }
  destruct (atoi_short _ Hc) as [mcc Em]. pose proof (atoi_bound _ _ Hc Em) as Hcc. rewrite Em. ob.
  apply yields_ret.
  assert (length (strcpy_n 96 (str "ims.mnc" ++ itoa_pad 3 mnc ++ str ".mcc" ++ itoa_pad 3 mcc ++ str ".3gppnetwork.org"))
          <= 41)%nat as Hr.
  { unfold strcpy_n. rewrite length_take, !length_app. str_lengths.
    pose proof (length_itoa3 mnc Hm). pose proof (length_itoa3 mcc Hcc). lia. }
  destruct (rg_new_ok IMS_SMS_QUEUE_SIZE (SmsItem 0 []) ltac:(unfold IMS_SMS_QUEUE_SIZE; lia)) as [R1 R2].
  destruct (rg_new_ok IMS_IP_QUEUE_SIZE (IpItem 0 []) ltac:(unfold IMS_IP_QUEUE_SIZE; lia)) as [R3 R4].
  split; cbn [im_sms im_ip im_ipv4 im_pcscf_ipv4 im_identity ii_preferred_impu ii_realm ii_impi ii_impu_user im_next_sms_reference
              im_next_sip_cseq im_register_attempts]; rewrite ?R2, ?R4; try done.
  - split; [done|]. repeat constructor; unfold is_byte; lia.
  - split; [done|]. repeat constructor; unfold is_byte; lia.
  - set (realm := strcpy_n 96 _) in *. unfold strcpy_n. rewrite !length_take, !length_app, !length_take. str_lengths. lia.
  - set (realm := strcpy_n 96 _) in *. unfold strcpy_n. rewrite !length_take, !length_app. str_lengths. lia.
Qed.

Lemma ring_clear {A} `{Inhabited A} n (r : ring A) :
  rg_ok n r -> rg_ok n (Ring (rg_slots r) 0 0) /\ rg_items n (Ring (rg_slots r) 0 0) = [].
Proof.
  intros [Hs Hh Ht]. assert (rg_ok n (Ring (rg_slots r) 0 0)) as Ho by (split; cbn; [done|lia..]).
  split; [done|]. by apply rg_empty_items.
Qed.

Lemma set_pdu_active_ok active ipv4 has pcscf svc :
  length ipv4 = 4%nat -> Forall is_byte ipv4 -> length pcscf = 4%nat -> Forall is_byte pcscf ->
  ims_ok svc -> ims_ok (ims_set_pdu_active active ipv4 has pcscf svc).
Proof.
  intros H1 H2 H3 H4 H. unfold ims_set_pdu_active. cbv zeta.
  set (s1 := if _ || _ then _ else svc).
  assert (ims_ok s1) as Hs1 by (subst s1; destruct (_ || _); [ims_fields H|done]).
  assert (active = false -> im_register_attempts s1 = 0) as Ha
    by (intros ->; subst s1; by rewrite orb_true_r).
  clearbody s1. clear H. set (s2 := if negb active then _ else s1).
  assert (ims_ok s2) as Hs2.
  { subst s2. destruct active; cbn [negb]; [done|]. specialize (Ha eq_refl).
    destruct (ring_clear _ _ (io_sms _ Hs1)) as [? E1], (ring_clear _ _ (io_ip _ Hs1)) as [? E2].
    ims_fields Hs1. intros _ _. exact (eq_ind_r (fun a => a < 5) (eq_refl : 0 < 5) Ha). }
  clearbody s2. clear s1 Hs1 Ha.
  destruct active; cbn [andb]; [destruct has|]; ims_fields Hs2.
Qed.

Lemma submit_sms_ok pdu svc : Forall is_byte pdu -> ims_ok svc -> ims_ok (ims_submit_sms pdu svc).2.
Proof.
  intros Hb H. unfold ims_submit_sms. destruct (Nat.eqb_spec (length pdu) 0); [done|].
  destruct (_ || _); [done|]. destruct (Nat.ltb_spec IMS_SMS_PDU_MAX (length pdu)) as [|Hl]; [done|].
  unfold IMS_SMS_PDU_MAX in Hl. destruct (negb _); [done|]. destruct (rg_full _ _) eqn:Ef; [done|]. cbv zeta. cbn [snd].
  pose proof (u32_range (im_next_sms_reference svc)) as Hr.
  destruct (rg_put_items _ (SmsItem (u32 (im_next_sms_reference svc)) pdu) _ (io_sms _ H) Ef) as [Ho Ei].
  ims_fields H. apply (forall_eq _ _ _ Ei), Forall_app. split; [done|]. apply Forall_singleton.
  split; [done|]. cbn. lia.
Qed.

Lemma receive_ip_ok psi packet svc : Forall is_byte packet -> ims_ok svc -> ims_ok (ims_receive_ip psi packet svc).2.
Proof.
  intros Hb H. unfold ims_receive_ip. destruct (Nat.eqb_spec (length packet) 0); [done|].
  destruct (negb _); [done|]. destruct (Nat.ltb_spec IMS_IP_PACKET_MAX (length packet)) as [|Hl]; [done|].
  unfold IMS_IP_PACKET_MAX in Hl. destruct (rg_full _ _) eqn:Ef; [done|]. cbn [snd].
  destruct (rg_put_items _ (IpItem psi packet) _ (io_ip _ H) Ef) as [Ho Ei].
  ims_fields H. apply (forall_eq _ _ _ Ei), Forall_app. split; [done|]. apply Forall_singleton.
  split; [done|]. cbn. lia.
Qed.

(** ** The rounds of the thread *)

Lemma ims_due_ok svc now : ims_ok svc -> ims_ok (ims_due svc now).2.
Proof.
  intros H. unfold ims_due. cbv zeta. cbn [snd].
  set (s1 := if register_retry_needed svc now then _ else svc).
  assert (ims_ok s1) as H1.
  { subst s1. destruct (register_retry_needed svc now) eqn:E; [|done]. unfold register_retry_needed in E.
    assert (im_register_attempts svc < IMS_REGISTER_MAX_ATTEMPTS) as Ha by lia.
    ims_fields H. }
  clearbody s1. assert (register_needed s1 = true ->
    0 <= im_register_attempts s1 + 1 <= IMS_REGISTER_MAX_ATTEMPTS) as Hn.
  { unfold register_needed. intros E. pose proof (io_attempts _ H1).
    enough (im_register_attempts s1 < IMS_REGISTER_MAX_ATTEMPTS) by lia.
    apply (io_attempts_idle _ H1); [by destruct (im_registered s1); cbn [negb] in E; lia|].
    by destruct (im_register_sent s1); cbn [negb] in E; lia. }
  clear H. destruct (register_needed s1) eqn:En.
  - specialize (Hn eq_refl). destruct (register_refresh_needed s1 now); ims_fields H1; exact Hn.
  - destruct (register_refresh_needed s1 now); ims_fields H1.
Qed.

Lemma ims_pop_ok svc :
  ims_ok svc ->
  yields (ims_pop svc) (fun '(sms, ip, svc') =>
    ims_ok svc' /\ (forall it, sms = Some it -> sms_item_ok it) /\ (forall it, ip = Some it -> ip_item_ok it)).
Proof.
  intros H. unfold ims_pop.
  eapply (yields_bind _ _ (fun r => ims_ok r.2 /\ forall it, r.1 = Some it -> sms_item_ok it)).
  { destruct (rg_empty (im_sms svc)) eqn:Ee; [by apply yields_ret|].
    destruct (rg_items IMS_SMS_QUEUE_SIZE (im_sms svc)) as [|x l] eqn:El.
    { apply (rg_empty_items _ _ (io_sms _ H)) in El. congruence. }
    destruct (rg_pop_items _ id x l _ (io_sms _ H) El) as (-> & Ho & Ei). ob. apply yields_ret.
    pose proof (io_sms_items _ H) as Hf. rewrite El in Hf. apply Forall_cons in Hf as [Hx Hl].
    split; [|by intros it [= <-]]. ims_fields H. by apply (forall_eq _ _ _ Ei). }
  intros [sms s1] [H1 Hs]. cbn [fst snd] in *.
  eapply (yields_bind _ _ (fun r => ims_ok r.2 /\ forall it, r.1 = Some it -> ip_item_ok it)).
  { destruct (rg_empty (im_ip s1)) eqn:Ee; [by apply yields_ret|].
    destruct (rg_items IMS_IP_QUEUE_SIZE (im_ip s1)) as [|x l] eqn:El.
    { apply (rg_empty_items _ _ (io_ip _ H1)) in El. congruence. }
    destruct (rg_pop_items _ id x l _ (io_ip _ H1) El) as (-> & Ho & Ei). ob. apply yields_ret.
    pose proof (io_ip_items _ H1) as Hf. rewrite El in Hf. apply Forall_cons in Hf as [Hx Hl].
    split; [|by intros it [= <-]]. ims_fields H1. by apply (forall_eq _ _ _ Ei). }
  intros [ip s2] [H2 Hi]. by apply yields_ret.
Qed.

Section Rounds.
Context {W : Type} (tx_cb : bytes -> W -> option (Z * W)) (sms_cb : bytes -> W -> Z * W) (Inv : W -> Prop).
(** The callbacks return and keep what the caller's state needs. *)
Hypothesis tx_keeps : forall packet w, Inv w -> yields (tx_cb packet w) (fun r => Inv r.2).
Hypothesis sms_keeps : forall pdu w, Inv w -> Inv (sms_cb pdu w).2.
Implicit Types (svc : ims_service) (w : W).

Lemma send_text_total cap ip1 ip2 text w : Inv w -> yields (send_text tx_cb cap ip1 ip2 text w) (fun r => Inv r.2).
Proof using tx_keeps.
  intros Hw. unfold send_text. destruct (ip_build_total cap ip1 ip2 IMS_SIP_LOCAL_PORT IMS_SIP_REMOTE_PORT text) as [[n p] ->].
  ob. destruct (n <? 0); [by apply yields_ret|]. by apply tx_keeps.
Qed.

Lemma initial_total svc ip1 ip2 cb w : Inv w -> yields (ims_send_initial_register tx_cb svc ip1 ip2 cb w) (fun r => Inv r.2).
Proof using tx_keeps.
  intros Hw. unfold ims_send_initial_register. destruct (negb cb); [by apply yields_ret|].
  destruct (ims_build_contact_uri _ _ _) as [contact|]; [|by apply yields_ret].
  destruct (fits _ _) as [text|]; [|by apply yields_ret]. by apply send_text_total.
Qed.

Lemma authorized_total svc challenge entropy w :
  ims_ok svc -> Inv w ->
  yields (ims_send_authorized_register tx_cb svc challenge entropy w) (fun '(_, svc', w') => ims_ok svc' /\ Inv w').
Proof using tx_keeps.
  intros H Hw. unfold ims_send_authorized_register. destruct (_ && _); [by apply yields_ret|].
  destruct (ims_compute_aka_res _ _) as [res|]; [|by apply yields_ret].
  destruct (negb _); [by apply yields_ret|]. cbv zeta. pose proof (bump_cseq svc H) as H1.
  set (s1 := svc <| im_next_sip_cseq := _ |>) in *.
  eapply (yields_bind _ _ (fun _ => True)).
  { apply yields_some. unfold authorized_text. cbv zeta. destruct (ims_build_contact_uri _ _ _); [|by eexists].
    match goal with |- context [ims_digest_md5_response ?a ?b ?c ?d ?e ?f ?g ?h ?i] =>
      destruct (digest_total a b c d e f g h i) as [r ->] end.
    ob. destruct r as [e|r]; [by eexists|]. destruct (fits _ _); by eexists. }
  intros [e|text] _; [by apply yields_ret|].
  eapply yields_bind; [by apply (send_text_total 2048)|]. intros [rc w'] Hw'. by apply yields_ret.
Qed.

Lemma sms_message_total svc it ip1 ip2 cb w :
  ims_ok svc -> sms_item_ok it -> Inv w ->
  yields (ims_send_sms_message tx_cb svc it ip1 ip2 cb w) (fun '(_, svc', w') => ims_ok svc' /\ Inv w').
Proof using tx_keeps.
  intros H (Hb & Hl & Hr) Hw. unfold ims_send_sms_message. destruct (_ || _); [by apply yields_ret|].
  destruct (rp_build_total (si_pdu it) (u8 (si_reference it)) 528 Hb) as (n & out & -> & _). ob.
  destruct (n <=? 0); [by apply yields_ret|]. destruct (destination_total (si_pdu it) 64) as [dst ->]. ob.
  pose proof (bump_cseq svc H) as H1. set (s1 := svc <| im_next_sip_cseq := _ |>) in *.
  destruct (1024 <=?n _); [by apply yields_ret|]. destruct (1600 <?n _); [by apply yields_ret|].
  eapply yields_bind; [by apply (send_text_total 2048)|]. intros [rc w'] Hw'. by apply yields_ret.
Qed.

Lemma message_ok_total svc hdr w : Inv w -> yields (ims_send_sip_message_ok tx_cb svc hdr w) Inv.
Proof using tx_keeps.
  intros Hw. unfold ims_send_sip_message_ok. destruct (copy_all_total hdr (str "Via:") 768) as [[count vias] ->]. ob.
  destruct (copy_line_total hdr (str "From:") 256) as (from & -> & _); [lia|]. ob.
  destruct (copy_line_total hdr (str "To:") 288) as (to & -> & _); [lia|]. ob.
  destruct (copy_line_total hdr (str "Call-ID:") 256) as (cid & -> & _); [lia|]. ob.
  destruct (copy_line_total hdr (str "CSeq:") 128) as (cseq & -> & _); [lia|]. ob.
  destruct from; [|by apply yields_ret]. destruct to; [|by apply yields_ret].
  destruct cid; [|by apply yields_ret]. destruct cseq; [|by apply yields_ret].
  destruct (_ || _); [by apply yields_ret|]. destruct (fits _ _) as [text|]; [|by apply yields_ret].
  eapply yields_bind; [by apply (send_text_total 2200)|]. intros [rc w'] Hw'. by apply yields_ret.
Qed.

(** The header of an acknowledgement takes 767 bytes at most, and its array has
    768. *)
Lemma rp_ack_total svc hdr mr w :
  ims_ok svc -> Inv w -> yields (ims_send_rp_ack tx_cb svc hdr mr w) (fun '(svc', w') => ims_ok svc' /\ Inv w').
Proof using tx_keeps.
  intros H Hw. unfold ims_send_rp_ack. destruct (copy_line_total hdr (str "From:") 256) as (from & -> & _); [lia|]. ob.
  destruct from as [from|]; [|by apply yields_ret]. cbv zeta. destruct (_ || _); [by apply yields_ret|].
  pose proof (bump_cseq svc H) as H1. set (s1 := svc <| im_next_sip_cseq := _ |>) in *.
  change (im_identity s1) with (im_identity svc). change (im_ipv4 s1) with (im_ipv4 svc).
  match goal with |- context [slice (take 767 ?t ++ [0]) 0 (length ?t)] => set (text := t) end.
  assert (length text <= 767)%nat as Hl.
  { subst text. set (uri := ims_extract_angle_uri from 200). assert (length uri <= 199)%nat as Hu.
    { subst uri. unfold ims_extract_angle_uri. destruct (strcut 60 from) as [[a b]|]; [|cbn; lia].
      destruct (strcut 62 b) as [[u c]|]; [|cbn; lia]. pose proof (length_strcpy_n 200 u ltac:(lia)). lia. }
    clearbody uri. pose proof (length_u32_text _ (io_cseq _ H)) as Hc. pose proof (io_impu _ H) as Hp.
    pose proof (length_message_header uri (ii_preferred_impu (im_identity svc)) (im_ipv4 svc)
      (str "rpack-" ++ utoa (im_next_sip_cseq svc)) (utoa (im_next_sip_cseq svc)) 6 (proj2 (io_ipv4 _ H))) as Hm.
    change (length (utoa 6)) with 1%nat in Hm. rewrite !length_app in Hm.
    change (length (str "rpack-")) with 6%nat in Hm. lia. }
  clearbody text. destruct (Nat.ltb_spec 1024 (length text + 6)); [by apply yields_ret|].
  rewrite (take_ge text) by lia. rewrite slice_prefix by done. ob.
  eapply yields_bind; [by apply (send_text_total 1280)|]. intros [rc w'] Hw'. by apply yields_ret.
Qed.

Lemma deliver_total svc hdr content w :
  ims_ok svc -> Inv w -> Forall is_byte content ->
  yields (ims_deliver_sms tx_cb sms_cb svc hdr content w) (fun '(svc', w') => ims_ok svc' /\ Inv w').
Proof using tx_keeps sms_keeps.
  intros H Hw Hb. unfold ims_deliver_sms. destruct (rp_parse_safe content 528 Hb) as (n & out & mr & -> & _). ob.
  destruct (n <=? 0); [by apply yields_ret|]. cbv zeta. destruct (_ && _); [by apply rp_ack_total|].
  apply rp_ack_total; [|by case_match; [apply sms_keeps|]]. destruct (_ <=?n 256); [ims_fields H|done].
Qed.

Lemma sip_message_total svc payload w :
  ims_ok svc -> Inv w -> Forall is_byte payload ->
  yields (ims_handle_sip_message tx_cb sms_cb svc payload w) (fun '(svc', w') => ims_ok svc' /\ Inv w').
Proof using tx_keeps sms_keeps.
  intros H Hw Hb. unfold ims_handle_sip_message. destruct (_ || _); [by apply yields_ret|].
  destruct (find_bytes _ _) as [i|]; [|by apply yields_ret]. cbv zeta.
  set (hdr := take i payload). set (body := drop (i + 4) payload).
  assert (Forall is_byte body) as Hbody by by apply Forall_drop. clearbody body.
  destruct (has_tests_total hdr []) as [[sms ->] _]. ob.
  destruct (header_number_total 64 hdr (str "Content-Length:")) as (n & E & Hn); [lia|].
  unfold header_get_content_length. rewrite E. ob. destruct n as [n|]; [|by apply yields_ret].
  specialize (Hn n eq_refl). destruct (negb sms); [by apply yields_ret|]. cbn [orb].
  destruct (Z.eqb_spec n 0); [by apply yields_ret|]. cbn [orb].
  destruct (Z.ltb_spec (Z.of_nat (length body)) n); [by apply yields_ret|].
  eapply yields_bind; [by apply message_ok_total|]. intros w1 Hw1.
  destruct (load_in body 0) as (mti & ->); [lia|]. ob. destruct (negb _); [by apply yields_ret|].
  rewrite slice_in by lia. ob. apply deliver_total; [done|done|]. by apply Forall_take, Forall_drop.
Qed.

Lemma rx_ip_total svc it env w :
  ims_ok svc -> Inv w -> ip_item_ok it ->
  yields (ims_handle_rx_ip tx_cb sms_cb svc it env w) (fun '(svc', w') => ims_ok svc' /\ Inv w').
Proof using tx_keeps sms_keeps.
  intros H Hw [Hb _]. unfold ims_handle_rx_ip.
  eapply yields_bind; [by apply ip_parse_total|]. intros [e|u] Hu; [by apply yields_ret|].
  destruct (_ || _); [by apply yields_ret|]. cbv zeta.
  eapply yields_bind; [by apply sip_message_total|]. intros [s1 w1] [H1 Hw1].
  destruct (has_tests_total (udp_payload u) (str "REGISTER")) as [_ [answer ->]]. ob.
  destruct (_ && answer).
  { unfold ims_register_accepted, header_get_uint.
    destruct (header_number_total 32 (udp_payload u) (str "Expires:")) as (e & -> & _); [lia|]. ob.
    apply yields_ret. split; [|done]. ims_fields H1. }
  destruct (_ && answer); [|by apply yields_ret].
  unfold ims_register_challenged. destruct (challenge_total (udp_payload u)) as [r ->]. ob.
  destruct r as [challenge|]; [|by apply yields_ret]. cbv zeta.
  set (s2 := s1 <| im_register_auth := _ |> <| im_register_auth_valid := _ |>).
  assert (ims_ok s2) as H2 by ims_fields H1. clearbody s2.
  destruct (ac_nonce challenge); [by apply yields_ret|].
  eapply yields_bind; [by apply authorized_total|]. intros [[rc s3] w3] [H3 Hw3]. apply yields_ret.
  split; [|done]. destruct (rc =? 0); [ims_fields H3|done].
Qed.

Lemma round_total svc env w :
  ims_ok svc -> Inv w ->
  yields (ims_worker_round tx_cb sms_cb env svc w) (fun '(svc', w') => ims_ok svc' /\ Inv w').
Proof using tx_keeps sms_keeps.
  intros H Hw. unfold ims_worker_round. pose proof (ims_due_ok svc (ie_now env) H) as H1.
  destruct (ims_due svc (ie_now env)) as [[[reg refresh] auth] s1]. cbn [snd] in H1. cbv zeta.
  eapply yields_bind; [by apply ims_pop_ok|]. intros [[sms ip] s2] (H2 & Hsms & Hip).
  eapply (yields_bind _ _ Inv).
  { destruct reg; [|by apply yields_ret]. eapply yields_bind; [by apply initial_total|].
    intros [rc w'] Hw'. by apply yields_ret. }
  intros w1 Hw1. eapply (yields_bind _ _ (fun '(svc', w') => ims_ok svc' /\ Inv w')).
  { destruct refresh; [|by apply yields_ret]. destruct (ac_nonce auth).
    - eapply yields_bind; [by apply initial_total|]. intros [rc w'] Hw'. by apply yields_ret.
    - eapply yields_bind; [by apply authorized_total|]. intros [[rc s3] w'] [H3 Hw']. by apply yields_ret. }
  intros [s3 w3] [H3 Hw3]. eapply (yields_bind _ _ (fun '(svc', w') => ims_ok svc' /\ Inv w')).
  { destruct ip as [it|]; [|by apply yields_ret]. apply rx_ip_total; [done|done|by apply Hip]. }
  intros [s4 w4] [H4 Hw4]. destruct sms as [it|]; [|by apply yields_ret].
  destruct (_ && _); [|by apply yields_ret].
  eapply yields_bind; [apply sms_message_total; [done|by apply Hsms|done]|].
  intros [[rc s5] w5] H5. by apply yields_ret.
Qed.
End Rounds.
