(* ===== verification/ImsAuth.v ===== *)
(** The answer to the challenge of a REGISTER: the text of the nonce, the
    values of AKA, and the response of RFC 2617 with the RES as password. *)

From S2P Require Import Prelude CString Aes Sha256 NasCrypto InstanceConfig Ring StateBridge.
From S2P Require Import ImsCodec ImsDigest ImsSip ImsWorker ImsReach.

#[local] Set Primitive Projections.

(** ** Base64 (RFC 4648) *)

Definition base64_char (v : Z) : Z :=
  if v <? 26 then 65 + v else if v <? 52 then 97 + (v - 26) else if v <? 62 then 48 + (v - 52)
  else if v =? 62 then 43 else 47.

Fixpoint base64_encode (l : bytes) : bytes :=
  match l with
  | a :: b :: c :: l =>
    [base64_char (a / 4); base64_char (a mod 4 * 16 + b / 16); base64_char (b mod 16 * 4 + c / 64); base64_char (c mod 64)]
    ++ base64_encode l
  | [a; b] => [base64_char (a / 4); base64_char (a mod 4 * 16 + b / 16); base64_char (b mod 16 * 4); 61]
  | [a] => [base64_char (a / 4); base64_char (a mod 4 * 16); 61; 61]
  | [] => []
  end.

Lemma base64_val_char v : 0 <= v < 64 -> base64_val (base64_char v) = v /\ base64_char v <> 61.
Proof. intros H. unfold base64_char, base64_val. repeat case_match; lia. Qed.

(** Only the low twelve bits of the accumulator count. *)
Lemma base64_acc val v :
  0 <= v < 64 -> 0 <= val ->
  let w := u32 (val ≪ 6) |. v in 0 <= w /\ w mod 4096 = (val mod 64) * 64 + v.
Proof.
  intros Hv Hval. cbv zeta.
  assert (u32 (val ≪ 6) = (val mod 2 ^ 26) ≪ 6) as ->.
  { rewrite !Z.shiftl_mul_pow2 by lia. unfold u32. change (2 ^ 6) with 64. change 4294967296 with (2 ^ 26 * 64).
    by rewrite Z.mul_mod_distr_r by lia. }
  rewrite lor_shiftl_add by lia. change (2 ^ 6) with 64. change (2 ^ 26) with 67108864. lia.
Qed.

Lemma byte_of_acc w n : 0 <= w -> (n = 0 \/ n = 2 \/ n = 4) -> (w ≫ n) &. 0xff = (w mod 4096) / 2 ^ n mod 256.
Proof.
  intros Hw Hn. rewrite land_ff, shiftr_div by lia.
  destruct Hn as [-> |[-> | ->]]; [change (2 ^ 0) with 1|change (2 ^ 2) with 4|change (2 ^ 4) with 16]; lia.
Qed.

Lemma base64_step v s val bits out cap :
  0 <= v < 64 -> 0 <= val ->
  exists w, 0 <= w /\ w mod 4096 = (val mod 64) * 64 + v
  /\ base64_loop (base64_char v :: s) val bits out cap
     = if 0 <=? bits + 6 then
         if cap <=?n length out then None
         else base64_loop s w (bits + 6 - 8) (out ++ [(w ≫ (bits + 6)) &. 0xff]) cap
       else base64_loop s w (bits + 6) out cap.
Proof.
  intros Hv Hval. destruct (base64_acc val v Hv Hval) as [Hw Hm]. exists (u32 (val ≪ 6) |. v).
  split; [done|]. split; [done|]. destruct (base64_val_char v Hv) as [E1 E2]. cbn [base64_loop].
  rewrite E1. replace (base64_char v =? 61) with false by lia. replace (v <? 0) with false by lia. done.
Qed.

(** Decoding what is encoded, when it fits. *)
Lemma base64_loop_encode l : forall val out cap,
  Forall is_byte l -> 0 <= val -> (length out + length l <= cap)%nat ->
  base64_loop (base64_encode l) val (-8) out cap = Some (out ++ l).
Proof.
  enough (forall n l, (length l <= n)%nat -> forall val out cap,
    Forall is_byte l -> 0 <= val -> (length out + length l <= cap)%nat ->
    base64_loop (base64_encode l) val (-8) out cap = Some (out ++ l)) as H by (intros; by apply (H (length l))).
  clear l. induction n as [|n IH]; intros l Hn val out cap Hb Hval Hc.
  { destruct l; [|cbn in Hn; lia]. cbn. by rewrite app_nil_r. }
  destruct l as [|a l]; [cbn; by rewrite app_nil_r|]. apply Forall_cons in Hb as [Ha Hb]. unfold is_byte in Ha.
  cbn [length] in Hn, Hc.
  assert (forall x s, 0 <= x < 64 -> x / 16 = a mod 4 -> exists w, 0 <= w /\ w mod 64 = x
    /\ base64_loop (base64_char (a / 4) :: base64_char x :: s) val (-8) out cap
       = base64_loop s w (-4) (out ++ [a]) cap) as H2.
  { intros x s Hx Hx4.
    destruct (base64_step (a / 4) (base64_char x :: s) val (-8) out cap ltac:(lia) Hval) as (w1 & H1 & M1 & E1).
    rewrite E1. change (0 <=? -8 + 6) with false. cbv iota.
    destruct (base64_step x s w1 (-8 + 6) out cap Hx H1) as (w2 & H2 & M2 & E2). rewrite E2.
    change (0 <=? -8 + 6 + 6) with true. cbv iota. replace (cap <=?n length out) with false by lia.
    exists w2. split; [done|]. split; [lia|]. change (-8 + 6 + 6) with 4. rewrite byte_of_acc by auto.
    do 3 f_equal. change (2 ^ 4) with 16. lia. }
  destruct l as [|b l].
  { cbn [base64_encode]. destruct (H2 (a mod 4 * 16) [61; 61] ltac:(lia) ltac:(lia)) as (w & _ & _ & ->). done. }
  apply Forall_cons in Hb as [Hbb Hb]. unfold is_byte in Hbb. cbn [length] in Hn, Hc.
  assert (forall y s, 0 <= y < 64 -> y / 4 = b mod 16 -> exists w, 0 <= w /\ w mod 64 = y
    /\ base64_loop (base64_char (a / 4) :: base64_char (a mod 4 * 16 + b / 16) :: base64_char y :: s) val (-8) out cap
       = base64_loop s w (-6) (out ++ [a; b]) cap) as H3.
  { intros y s Hy Hy4.
    destruct (H2 (a mod 4 * 16 + b / 16) (base64_char y :: s) ltac:(lia) ltac:(lia)) as (w & Hw & Mw & ->).
    destruct (base64_step y s w (-4) (out ++ [a]) cap Hy Hw) as (w3 & H3 & M3 & E3). rewrite E3.
    change (0 <=? -4 + 6) with true. cbv iota. rewrite length_app. cbn [length].
    replace (cap <=?n length out + 1) with false by lia. exists w3. split; [done|]. split; [lia|].
    change (-4 + 6) with 2. rewrite byte_of_acc by auto. rewrite <- app_assoc. cbn [app].
    do 4 f_equal. change (2 ^ 2) with 4. lia. }
  destruct l as [|c l].
  { cbn [base64_encode]. destruct (H3 (b mod 16 * 4) [61] ltac:(lia) ltac:(lia)) as (w & _ & _ & ->). done. }
  apply Forall_cons in Hb as [Hcc Hb]. unfold is_byte in Hcc. cbn [length] in Hn, Hc. cbn [base64_encode app].
  destruct (H3 (b mod 16 * 4 + c / 64) (base64_char (c mod 64) :: base64_encode l) ltac:(lia) ltac:(lia))
    as (w & Hw & Mw & ->).
  destruct (base64_step (c mod 64) (base64_encode l) w (-6) (out ++ [a; b]) cap ltac:(lia) Hw) as (w4 & H4 & M4 & E4).
  rewrite E4. change (0 <=? -6 + 6) with true. cbv iota. rewrite length_app. cbn [length].
  replace (cap <=?n length out + 2) with false by lia. change (-6 + 6) with 0. rewrite byte_of_acc by auto.
  rewrite IH; [|lia|done|done|rewrite !length_app; cbn [length]; lia].
  rewrite <- !app_assoc. cbn [app]. do 5 f_equal. change (2 ^ 0) with 1. lia.
Qed.

Lemma base64_roundtrip l cap : Forall is_byte l -> (length l <= cap)%nat -> base64_decode (base64_encode l) cap = Some l.
Proof. intros Hb Hc. unfold base64_decode. by rewrite base64_loop_encode. Qed.

Lemma length_base64 l : (length (base64_encode l) <= 4 * ((length l + 2) / 3))%nat.
Proof.
  enough (forall n l, (length l <= n)%nat -> (length (base64_encode l) <= 4 * ((length l + 2) / 3))%nat) as H by by apply (H (length l)).
  clear l. induction n as [|n IH]; intros l Hn; [destruct l; [cbn; lia|cbn in Hn; lia]|].
  destruct l as [|a [|b [|c l]]]; [cbn; lia|cbn; lia|cbn; lia|]. cbn [base64_encode app length] in *.
  specialize (IH l ltac:(lia)). replace (S (S (S (length l))) + 2)%nat with (length l + 2 + 1 * 3)%nat by lia.
  rewrite Nat.div_add by lia. lia.
Qed.

(** ** Hexadecimal keys *)

Lemma hex_nibble_digit d : 0 <= d < 16 -> hex_nibble (hex_digit d) = d.
Proof. intros H. unfold hex_nibble, hex_digit. repeat case_match; lia. Qed.

Lemma parse_hex_of l rest : Forall is_byte l -> parse_hex_bytes (concat (hex2 <$> l) ++ rest) (length l) = Some l.
Proof.
  induction l as [|b l IH]; intros Hb; [by destruct rest|]. apply Forall_cons in Hb as [Hbb Hb]. unfold is_byte in Hbb.
  rewrite fmap_cons. cbn [concat length parse_hex_bytes hex2 app]. cbv zeta.
  rewrite shiftr_div, land_0f by lia. change (2 ^ 4) with 16. rewrite !hex_nibble_digit by lia.
  replace (_ || _) with false by lia. rewrite IH by done. ob.
  rewrite lor_shiftl_add by lia. change (2 ^ 4) with 16. rewrite u8_small by lia. do 2 f_equal. lia.
Qed.

(** ** AKA *)

(** The AUTN the network makes (TS 33.102). *)
Definition network_autn (opc k rand sqn amf : bytes) : bytes :=
  let m := ue_milenage_compute opc k rand sqn amf in xor_bytes sqn (mil_ak m) ++ amf ++ mil_mac_a m.

(** The keys of the configuration. *)
Definition keys_of (k opc amf : bytes) : ims_keys :=
  ImsKeys (concat (hex2 <$> k)) (concat (hex2 <$> opc)) (concat (hex2 <$> amf)).

Record aka_vector (k opc rand sqn amf : bytes) : Prop := {
  av_k : length k = 16%nat /\ Forall is_byte k;
  av_opc : length opc = 16%nat /\ Forall is_byte opc;
  av_rand : length rand = 16%nat /\ Forall is_byte rand;
  av_sqn : length sqn = 6%nat /\ Forall is_byte sqn;
  av_amf : length amf = 2%nat /\ Forall is_byte amf }.

Lemma rotate_block s r : Forall is_byte s -> is_block (milenage_rotate s r).
Proof.
  intros H. split; [done|]. unfold milenage_rotate. apply Forall_fmap, Forall_forall. intros i _.
  by apply lookup_total_byte.
Qed.

Lemma xor_bytes_byte a b : Forall is_byte a -> Forall is_byte b -> Forall is_byte (xor_bytes a b).
Proof.
  intros Ha. revert b. unfold xor_bytes. induction Ha as [|x a Hx _ IH]; intros [|y b] Hb; cbn [zip_with]; try done.
  apply Forall_cons in Hb as [Hy Hb]. constructor; [by apply lxor_byte|by apply IH].
Qed.

Lemma milenage_out_block k opc x y r c :
  is_block k -> is_block opc -> Forall is_byte x -> is_block y -> is_block (milenage_out k opc x y r c).
Proof.
  intros Hk Ho Hx Hy. unfold milenage_out. apply xor_block; [|done]. apply aes_encrypt_fips; [done|].
  apply xor_block; [apply xor_block; [|done]|split; [apply length_be_list|apply be_list_bytes]].
  apply rotate_block, xor_bytes_byte; [done|apply Ho].
Qed.

#[local] Opaque ue_aes128_ecb_encrypt milenage_out.

Section Vector.
Variables (k opc rand sqn amf : bytes).
Hypothesis Hv : aka_vector k opc rand sqn amf.

Lemma milenage_bytes :
  let m := ue_milenage_compute opc k rand sqn amf in
  (length (mil_ak m) = 6%nat /\ Forall is_byte (mil_ak m)) /\ (length (mil_mac_a m) = 8%nat /\ Forall is_byte (mil_mac_a m))
  /\ length (mil_res m) = 8%nat /\ Forall is_byte (mil_res m).
Proof using Hv.
  cbv zeta. destruct Hv as [Hk Ho Hr [Hs1 Hs2] [Ha1 Ha2]].
  pose proof (milenage_lengths opc k rand sqn amf (proj1 Ho) (proj1 Hk) (proj1 Hr) ltac:(lia) ltac:(lia)) as Hl.
  cbv zeta in Hl. destruct Hl as (L1 & _ & _ & L4 & _ & L6 & _).
  rewrite (milenage_refines opc k rand sqn amf Ho Hk Hr) in L1, L4, L6 |- *. cbv zeta in *.
  cbn [mil_ak mil_mac_a mil_res] in *.
  set (temp := ue_aes128_ecb_encrypt k (xor_bytes rand opc)) in *.
  assert (is_block temp) as Ht by (apply aes_encrypt_fips; [exact Hk|apply xor_block; [exact Hr|exact Ho]]).
  assert (is_block (replicate 16 0)) as Hz by (split; [reflexivity|apply Forall_replicate; unfold is_byte; lia]).
  destruct (milenage_out_block k opc temp (replicate 16 0) 0 1 Hk Ho (proj2 Ht) Hz) as [_ H1].
  assert (Forall is_byte (take 6 sqn ++ take 2 amf ++ take 6 sqn ++ take 2 amf)) as Hin
    by (repeat (apply Forall_app; split); apply Forall_take; assumption).
  destruct (milenage_out_block k opc _ temp 8 0 Hk Ho Hin Ht) as [_ H2].
  exact (conj (conj L4 (Forall_take _ _ _ H1)) (conj (conj L6 (Forall_take _ _ _ H2)) (conj L1 (Forall_drop _ _ _ H1)))).
Qed.

Lemma autn_bytes : length (network_autn opc k rand sqn amf) = 16%nat /\ Forall is_byte (network_autn opc k rand sqn amf).
Proof using Hv.
  destruct milenage_bytes as ([Ha1 Ha2] & [Hm1 Hm2] & _). destruct Hv as [_ _ _ [Hs1 Hs2] [Hf1 Hf2]].
  unfold network_autn. cbv zeta. split.
  - rewrite !length_app, length_xor by lia. lia.
  - apply Forall_app; split; [by apply xor_bytes_byte|]. by apply Forall_app.
Qed.

Lemma ak_any_sqn s1 s2 : mil_ak (ue_milenage_compute opc k rand s1 amf) = mil_ak (ue_milenage_compute opc k rand s2 amf).
Proof using. unfold ue_milenage_compute. cbv zeta. cbn [mil_ak]. reflexivity. Qed.

(** The sequence number of an AUTN. *)
Definition autn_sqn (autn : bytes) : bytes :=
  xor_bytes (take 6 autn) (mil_ak (ue_milenage_compute opc k rand (replicate 6 0) amf)).

(** The nonce decides by the MAC of its AUTN. *)
Lemma aka_decide autn extra :
  length autn = 16%nat -> Forall is_byte autn -> Forall is_byte extra -> (length extra <= 224)%nat ->
  ims_compute_aka_res (keys_of k opc amf) (base64_encode (rand ++ autn ++ extra))
  = let m := ue_milenage_compute opc k rand (autn_sqn autn) amf in
    if bool_decide (mil_mac_a m = drop 8 autn) then Some (take 8 (mil_res m)) else None.
Proof using Hv.
  intros Hn1 Hn2 He Hel. destruct Hv as [[Hk1 Hk2] [Ho1 Ho2] [Hr1 Hr2] _ [Hf1 Hf2]].
  unfold ims_compute_aka_res, keys_of. cbn [ik_key ik_opc ik_amf].
  rewrite base64_roundtrip; [|apply Forall_app; split; [exact Hr2|apply Forall_app; split; [exact Hn2|exact He]]|
    rewrite !length_app; lia]. ob.
  replace (length (rand ++ autn ++ extra) <?n 32) with false by (rewrite !length_app; lia).
  pose proof (parse_hex_of k [] Hk2) as P1. pose proof (parse_hex_of opc [] Ho2) as P2. pose proof (parse_hex_of amf [] Hf2) as P3.
  rewrite app_nil_r, Hk1 in P1. rewrite app_nil_r, Ho1 in P2. rewrite app_nil_r, Hf1 in P3. rewrite P1, P2, P3. ob. cbv zeta.
  rewrite (take_app_length' rand), (drop_app_length' rand) by lia. rewrite take_app_le by lia.
  change (zip_with Z.lxor (take 6 autn) ?a) with (xor_bytes (take 6 autn) a). fold (autn_sqn autn).
  assert (take 8 (drop 24 (rand ++ autn ++ extra)) = drop 8 autn) as ->; [|done].
  rewrite app_assoc, drop_app_le by (rewrite length_app; lia). rewrite drop_app_ge by lia. rewrite Hr1.
  rewrite take_app_le by (rewrite length_drop; lia). apply take_ge. rewrite length_drop. lia.
Qed.

(** The nonce of the vector gives its RES. *)
Lemma network_autn_parts :
  autn_sqn (network_autn opc k rand sqn amf) = sqn
  /\ drop 8 (network_autn opc k rand sqn amf) = mil_mac_a (ue_milenage_compute opc k rand sqn amf).
Proof using Hv.
  pose proof milenage_bytes as ([Ha1 Ha2] & _). destruct Hv as [_ _ _ [Hs1 Hs2] [Hf1 Hf2]].
  unfold autn_sqn. rewrite (ak_any_sqn (replicate 6 0) sqn). unfold network_autn. cbv zeta.
  remember (ue_milenage_compute opc k rand sqn amf) as m eqn:Em. clear Em.
  assert (length (xor_bytes sqn (mil_ak m)) = 6%nat) as Hx by (rewrite length_xor; lia). split.
  - rewrite take_app_length' by lia. clear -Hs1 Ha1. unfold xor_bytes.
    assert (length sqn = length (mil_ak m)) as Hl by lia. clear Hs1 Ha1.
    generalize dependent (mil_ak m). induction sqn as [|x s IH]; intros [|y a] Hl; try done.
    cbn [zip_with]. rewrite lxor_cancel. f_equal. apply IH. by injection Hl.
  - rewrite app_assoc. apply drop_app_length'. rewrite length_app. lia.
Qed.
End Vector.

(** ** The answer *)

(** What [parse_www_authenticate] leaves in its arrays. *)
Definition challenge_fits (c : sip_auth_challenge) : Prop :=
  (length (ac_realm c) < 128 /\ length (ac_nonce c) < 512 /\ length (ac_algorithm c) < 32 /\ length (ac_qop c) < 32)%nat
  /\ Forall is_byte (ac_realm c) /\ Forall is_byte (ac_nonce c) /\ Forall is_byte (ac_qop c).

Lemma str_bytes s : Forall is_byte (str s).
Proof.
  induction s as [|c s IH]; cbn [str]; [done|]. constructor; [|done]. unfold is_byte.
  destruct c as [[] [] [] [] [] [] [] []]; vm_compute; by split.
Qed.

Lemma hex_bytes l : Forall is_byte l -> Forall is_byte (concat (hex2 <$> l)).
Proof.
  intros H. apply Forall_concat, Forall_fmap. eapply Forall_impl; [exact H|].
  intros b Hb. unfold is_byte in Hb. cbn. unfold hex2, hex_digit. rewrite shiftr_div, land_0f by lia.
  change (2 ^ 4) with 16. repeat constructor; unfold is_byte; case_match; lia.
Qed.

Lemma length_authorized who c ip contact realm uri response cnonce cseq :
  Forall is_byte ip ->
  (length (authorized_register who c ip contact realm uri response cnonce cseq)
   <= 420 + length (ii_realm who) + 2 * length (ii_preferred_impu who) + 2 * length (utoa cseq) + length contact
      + length (ii_impi who) + length realm + length (ac_nonce c) + length uri + length response
      + length (ac_algorithm c) + length cnonce)%nat.
Proof.
  intros Hb. unfold authorized_register, register_text, quoted, contact_text, qop_clause, ims_nc.
  pose proof (length_ip_text ip Hb). change (length (utoa IMS_SIP_LOCAL_PORT)) with 4%nat.
  destruct (ac_algorithm c), (ac_qop c); rewrite !length_app; str_lengths; cbn [length]; 
    change (length (utoa IMS_SIP_LOCAL_PORT)) with 4%nat; lia.
Qed.

Section Answer.
Context {W : Type} (tx_cb : bytes -> W -> option (Z * W)).

(** C29: A challenge whose nonce is a RAND and an AUTN is answered with the
    response of RFC 2617 for the RES of Milenage when the MAC of the AUTN is the
    one of the keys and the configured AMF, for any sequence number, and refused
    otherwise; the answer fits its buffer, and the AUTN a network with these keys
    makes is accepted. *)
Theorem challenge_answered svc k opc rand sqn amf autn extra challenge entropy w :
  ims_ok svc -> im_keys svc = keys_of k opc amf -> aka_vector k opc rand sqn amf ->
  Forall is_byte (ii_impi (im_identity svc)) -> Forall is_byte (ii_realm (im_identity svc)) ->
  length autn = 16%nat -> Forall is_byte autn -> Forall is_byte extra -> (length extra <= 224)%nat ->
  Forall is_byte entropy -> challenge_fits challenge ->
  ac_nonce challenge = base64_encode (rand ++ autn ++ extra) ->
  strcaseeq (ac_algorithm challenge) (str "AKAv1-MD5") || strcaseeq (ac_algorithm challenge) (str "MD5") = true ->
  ims_ready svc = true ->
  let who := im_identity svc in
  let m := ue_milenage_compute opc k rand (autn_sqn k opc rand amf autn) amf in
  let contact := str "sip:" ++ ii_impu_user who ++ str "@" ++ contact_text (im_ipv4 svc) in
  let realm := match ac_realm challenge with [] => ii_realm who | r => r end in
  let uri := str "sip:" ++ ii_realm who in
  let cnonce := ims_random_hex entropy in
  let response := rfc2617 (ii_impi who) realm (take 8 (mil_res m)) (str "REGISTER") uri (ac_nonce challenge)
    (match ac_qop challenge with [] => None | q => Some (ims_nc, cnonce, q) end) in
  ims_send_authorized_register tx_cb svc challenge entropy w
  = (if bool_decide (mil_mac_a m = drop 8 autn) then
       '(rc, w) ← send_text tx_cb 2048 (im_ipv4 svc) (im_pcscf_ipv4 svc)
                    (authorized_register who challenge (im_ipv4 svc) contact realm uri response cnonce (im_next_sip_cseq svc)) w;
       Some (rc, svc <| im_next_sip_cseq := (u32 (im_next_sip_cseq svc + 1)) |>, w)
     else Some (- EACCES, svc, w))
  /\ (autn = network_autn opc k rand sqn amf -> mil_mac_a m = drop 8 autn).
Proof.
  intros H Hkeys Hv Hbi Hbr Hn1 Hn2 He Hel Hent Hfit Hnonce Halg Hready who m contact realm uri cnonce response.
  split.
  2:{ intros ->. subst m. destruct (network_autn_parts k opc rand sqn amf Hv) as [-> ->]. reflexivity. }
  destruct Hfit as ((F1 & F2 & F3 & F4) & B1 & B2 & B3).
  pose proof (io_names _ H) as (N1 & N2 & N3). pose proof (io_impu _ H) as N4. fold who in N1, N2, N3, N4.
  pose proof (length_u32_text _ (io_cseq _ H)) as Nc. pose proof (proj2 (io_ipv4 _ H)) as Bip.
  assert (aka_vector k opc rand (autn_sqn k opc rand amf autn) amf) as Hv'.
  { pose proof (milenage_bytes k opc rand sqn amf Hv) as ([Ha1 Ha2] & _). destruct Hv. split; try assumption.
    unfold autn_sqn. rewrite (ak_any_sqn k opc rand amf (replicate 6 0) sqn).
    split; [rewrite length_xor; rewrite length_take; lia|]. apply xor_bytes_byte; [by apply Forall_take|exact Ha2]. }
  pose proof (milenage_bytes _ _ _ _ _ Hv') as (_ & _ & Hres1 & Hres2). fold m in Hres1, Hres2.
  assert (length contact <= 56)%nat as Nct.
  { subst contact. unfold contact_text. rewrite !length_app. str_lengths. pose proof (length_ip_text _ Bip).
    change (length (utoa IMS_SIP_LOCAL_PORT)) with 4%nat. lia. }
  unfold ims_send_authorized_register. replace (_ && _) with false by (rewrite <- negb_orb, Halg; reflexivity).
  rewrite Hkeys, Hnonce, (aka_decide k opc rand sqn amf Hv autn extra Hn1 Hn2 He Hel). cbv zeta. fold m.
  destruct (bool_decide (mil_mac_a m = drop 8 autn)); [|reflexivity]. rewrite Hready. cbn [negb].
  set (s1 := svc <| im_next_sip_cseq := _ |>).
  assert (authorized_text s1 challenge (take 8 (mil_res m)) entropy (im_next_sip_cseq svc)
    = Some (inr (authorized_register who challenge (im_ipv4 svc) contact realm uri response cnonce (im_next_sip_cseq svc))))
    as ->; [|reflexivity].
  unfold authorized_text. cbv zeta. change (im_identity s1) with who. change (im_ipv4 s1) with (im_ipv4 svc).
  unfold ims_build_contact_uri, fits at 1. fold contact. replace (256 <=?n length contact) with false by lia. cbv iota beta.
  fold realm cnonce. replace (strcpy_n 128 (str "sip:" ++ ii_realm who)) with uri
    by (symmetry; apply strcpy_n_fits; unfold uri; rewrite length_app; str_lengths; lia).
  assert (ims_digest_md5_response (ii_impi who) realm (take 8 (mil_res m)) (str "REGISTER") uri (ac_nonce challenge)
    (_ ← match ac_qop challenge with [] => None | q => Some q end; Some ims_nc)
    (_ ← match ac_qop challenge with [] => None | q => Some q end; Some cnonce)
    (match ac_qop challenge with [] => None | q => Some q end) = Some (inr response)) as ->.
  { assert (Forall is_byte realm) as Br by (subst realm; by destruct (ac_realm challenge)).
    assert (Forall is_byte uri) as Bu by (apply Forall_app; split; [apply str_bytes|exact Hbr]).
    assert (Forall is_byte cnonce) as Bc by apply hex_bytes, Forall_take, Hent.
    pose proof (fun qop => digest_is_rfc2617 (ii_impi who) realm (take 8 (mil_res m)) (str "REGISTER") uri
      (ac_nonce challenge) cnonce ims_nc qop Hbi Br (Forall_take _ _ _ Hres2) (str_bytes _) Bu B2 Bc (str_bytes _)) as Hd.
    subst response. destruct (ac_qop challenge) as [|x q]; [apply (Hd [])|apply (Hd (x :: q))]; assumption. }
  ob. unfold fits. destruct (Nat.leb_spec 1600 (length (authorized_register who challenge (im_ipv4 svc) contact realm uri
    response cnonce (im_next_sip_cseq svc)))) as [Hx|]; [|reflexivity]. exfalso.
  pose proof (length_authorized who challenge (im_ipv4 svc) contact realm uri response cnonce (im_next_sip_cseq svc) Bip).
  assert (length response = 32%nat) by (subst response; unfold rfc2617; destruct (ac_qop challenge); apply rfc_H_bytes).
  assert (length cnonce <= 16)%nat by (subst cnonce; unfold ims_random_hex; rewrite length_hex2, length_take; lia).
  assert (length realm <= 127)%nat by (subst realm; destruct (ac_realm challenge); cbn [length] in *; lia).
  assert (length uri <= 45)%nat by (subst uri; rewrite length_app; str_lengths; lia).
  lia.
Qed.
End Answer.

(** ** Witness *)

(** The keys of the default configuration. *)
#[local] Definition test_k : bytes := be_list 16 0x00112233445566778899aabbccddeeff.
#[local] Definition test_opc : bytes := be_list 16 0x63bfa50ee6523365ff14c1f45f88737d.
#[local] Definition test_rand : bytes := be_list 16 0x23553cbe9637a89d218ae64dae47bf35.
#[local] Definition test_sqn : bytes := be_list 6 0xff9bb4d0b607.
#[local] Definition log_tx (packet : bytes) (w : list bytes) : option (Z * list bytes) := Some (0, w ++ [packet]).
#[local] Definition test_ready (svc : ims_service) : ims_service :=
  ims_set_pdu_active true [10; 45; 0; 2] true [10; 45; 0; 1] (ims_set_tx_callback true svc).
#[local] Definition test_challenge (autn : bytes) : sip_auth_challenge :=
  AuthChallenge (str "ims.test") (base64_encode (test_rand ++ autn ++ [])) (str "AKAv1-MD5") (str "auth").
#[local] Definition all_bytes (l : bytes) : bool := bool_decide (Forall (fun x => 0 <= x < 256) l).

Lemma all_bytes_spec l : all_bytes l = true -> Forall is_byte l.
Proof. unfold all_bytes. intros H. by apply bool_decide_eq_true in H. Qed.

Lemma test_ready_facts svc :
  ims_init ue_instance_config_set_defaults = Some svc ->
  ims_ok (test_ready svc) /\ im_keys (test_ready svc) = keys_of test_k test_opc [0x80; 0]
  /\ Forall is_byte (ii_impi (im_identity (test_ready svc))) /\ Forall is_byte (ii_realm (im_identity (test_ready svc)))
  /\ ims_ready (test_ready svc) = true /\ im_next_sip_cseq (test_ready svc) = 2
  /\ im_ipv4 (test_ready svc) = [10; 45; 0; 2] /\ im_pcscf_ipv4 (test_ready svc) = [10; 45; 0; 1].
Proof.
  intros E. destruct (ims_init_ok ue_instance_config_set_defaults ltac:(split_and!; vm_compute; lia)) as (s & E' & H).
  assert (ims_ok (test_ready svc)) as H1.
  { rewrite E in E'. injection E' as E'. apply set_pdu_active_ok;
      [done|repeat constructor; unfold is_byte; lia|done|repeat constructor; unfold is_byte; lia|].
    assert (ims_ok svc) as Hs by exact (eq_ind_r ims_ok H E'). ims_fields Hs. }
  split; [exact H1|]. clear H H1 E'. injection E as <-.
  split; [vm_compute; reflexivity|]. split; [apply all_bytes_spec; vm_compute; reflexivity|].
  split; [apply all_bytes_spec; vm_compute; reflexivity|]. vm_compute. done.
Qed.

Lemma test_vector : aka_vector test_k test_opc test_rand test_sqn [0x80; 0].
Proof.
  assert (forall n v, length (be_list n v) = n /\ Forall is_byte (be_list n v)) as H
    by (intros; split; [apply length_be_list|apply be_list_bytes]).
  split; [apply H..|]. split; [reflexivity|]. repeat constructor; unfold is_byte; lia.
Qed.

Lemma challenge_answered_witness :
  exists svc text, ims_init ue_instance_config_set_defaults = Some svc
  /\ ims_send_authorized_register log_tx (test_ready svc)
       (test_challenge (network_autn test_opc test_k test_rand test_sqn [0x80; 0])) (replicate 8 9) []
     = '(rc, w) ← send_text log_tx 2048 [10; 45; 0; 2] [10; 45; 0; 1] text [];
       Some (rc, (test_ready svc) <| im_next_sip_cseq := 3 |>, w).
Proof.
  destruct (ims_init_ok ue_instance_config_set_defaults ltac:(split_and!; vm_compute; lia)) as (svc & E & _).
  destruct (test_ready_facts svc E) as (H1 & Hk & Hi & Hr & Hready & Hc & H4 & Hp).
  pose proof (autn_bytes _ _ _ _ _ test_vector) as [Hn1 Hn2].
  remember (network_autn test_opc test_k test_rand test_sqn [0x80; 0]) as autn eqn:Ea.
  assert (challenge_fits (test_challenge autn)) as Hf.
  { rewrite Ea. split; [split_and!; vm_compute; lia|]. split; [apply str_bytes|]. split; [|apply str_bytes].
    apply all_bytes_spec. vm_compute. reflexivity. }
  destruct (challenge_answered log_tx (test_ready svc) test_k test_opc test_rand test_sqn [0x80; 0] autn [] (test_challenge autn)
    (replicate 8 9) [] H1 Hk test_vector Hi Hr Hn1 Hn2 (Forall_nil_2 _) ltac:(cbn; lia)
    ltac:(apply Forall_replicate; unfold is_byte; lia) Hf eq_refl eq_refl Hready) as [Ha Hm].
  specialize (Hm Ea). rewrite bool_decide_true in Ha by exact Hm. rewrite Hc, H4, Hp in Ha.
  eexists svc, _. split; [exact E|]. exact Ha.
Defined.
