(* ===== verification/ImsRounds.v ===== *)
(** Histories of the IMS service: its calls in any order, what it sends to a
    network that does not answer, and its rounds on the bridge. *)

From S2P Require Import Prelude InstanceConfig UeTypes EngineReach ModemState Ring StateBridge BridgeReach.
From S2P Require Import ImsCodec ImsDigest ImsSip ImsWorker ImsReach.

#[local] Set Primitive Projections.

(** ** The calls and the rounds *)

Inductive ims_call :=
| IcTx (cb : bool) | IcSmsDownlink (cb : bool)
| IcPdu (active : bool) (ipv4 : bytes) (has_pcscf : bool) (pcscf_ipv4 : bytes)
| IcSubmit (pdu : bytes) | IcReceive (psi : Z) (packet : bytes)
| IcRound (env : ims_env).

(** Addresses are four bytes. *)
Definition ims_call_ok (c : ims_call) : Prop :=
  match c with
  | IcPdu _ ipv4 _ pcscf => (length ipv4 = 4%nat /\ Forall is_byte ipv4) /\ length pcscf = 4%nat /\ Forall is_byte pcscf
  | IcSubmit b | IcReceive _ b => Forall is_byte b
  | _ => True
  end.

Section Calls.
Context {W : Type} (tx_cb : bytes -> W -> option (Z * W)) (sms_cb : bytes -> W -> Z * W).
Implicit Types (svc : ims_service) (w : W).

Definition run_ims (c : ims_call) svc w : option (ims_service * W) :=
  match c with
  | IcTx cb => Some (ims_set_tx_callback cb svc, w)
  | IcSmsDownlink cb => Some (ims_set_sms_downlink_callback cb svc, w)
  | IcPdu active ipv4 has pcscf => Some (ims_set_pdu_active active ipv4 has pcscf svc, w)
  | IcSubmit pdu => Some ((ims_submit_sms pdu svc).2, w)
  | IcReceive psi packet => Some ((ims_receive_ip psi packet svc).2, w)
  | IcRound env => ims_worker_round tx_cb sms_cb env svc w
  end.

(** From [w0], whatever the caller does to its own state in between as long as
    it keeps [Inv]. *)
Inductive ims_reachable (Inv : W -> Prop) : ims_service -> W -> Prop :=
| imr_init cfg svc w : ims_cfg_fits cfg -> ims_init cfg = Some svc -> Inv w -> ims_reachable Inv svc w
| imr_call svc w c svc' w' :
    ims_reachable Inv svc w -> ims_call_ok c -> run_ims c svc w = Some (svc', w') -> ims_reachable Inv svc' w'
| imr_caller svc w w' : ims_reachable Inv svc w -> Inv w' -> ims_reachable Inv svc w'.

Lemma ims_run_total (Inv : W -> Prop) c svc w :
  (forall packet w, Inv w -> yields (tx_cb packet w) (fun r => Inv r.2)) ->
  (forall pdu w, Inv w -> Inv (sms_cb pdu w).2) ->
  ims_ok svc -> Inv w -> ims_call_ok c ->
  yields (run_ims c svc w) (fun '(svc', w') => ims_ok svc' /\ Inv w').
Proof.
  intros Ht Hs H Hw Hc. destruct c as [cb|cb|active ip has pc|pdu|psi pk|env]; cbn [run_ims ims_call_ok] in *.
  - apply yields_ret. split; [ims_fields H|done].
  - apply yields_ret. split; [ims_fields H|done].
  - apply yields_ret. split; [|done]. destruct Hc as [[] []]. by apply set_pdu_active_ok.
  - apply yields_ret. split; [by apply submit_sms_ok|done].
  - apply yields_ret. split; [by apply receive_ip_ok|done].
  - by apply (round_total tx_cb sms_cb Inv).
Qed.

(** C27: In every state the IMS service reaches by its calls and the rounds of
    its thread, whatever packets the network sends and whatever the callbacks do
    with their own state, the next call or round returns inside its buffers and
    keeps the invariant: the queues hold what the calls let in, and a REGISTER
    without answer has been sent at most five times. *)
Theorem ims_calls_return (Inv : W -> Prop) c svc w :
  (forall packet w, Inv w -> yields (tx_cb packet w) (fun r => Inv r.2)) ->
  (forall pdu w, Inv w -> Inv (sms_cb pdu w).2) ->
  ims_reachable Inv svc w -> ims_call_ok c ->
  (ims_ok svc /\ Inv w) /\ yields (run_ims c svc w) (fun '(svc', w') => ims_ok svc' /\ Inv w').
Proof.
  intros Ht Hs Hr Hc. assert (ims_ok svc /\ Inv w) as [H Hw].
  { clear Hc c. induction Hr as [cfg svc w Hf Hi Hw|svc w c svc' w' _ [IH Hw] Hc E|svc w w' _ [IH _] Hw]; [| |done].
    - destruct (ims_init_ok cfg Hf) as (s & E & H). split; [|done]. congruence.
    - destruct (ims_run_total Inv c svc w Ht Hs IH Hw Hc) as ([s1 w1] & E' & H'). congruence. }
  split; [done|]. by apply ims_run_total.
Qed.
End Calls.

(** The thread sleeps exactly until the deadline it computes, unless a queue or
    a first REGISTER waits. *)
Lemma sleeps_until_deadline svc now :
  ims_may_sleep svc now
  = rg_empty (im_sms svc) && rg_empty (im_ip svc) && negb (register_needed svc)
    && match next_register_refresh_deadline svc with Some d => now <? d | None => true end.
Proof.
  unfold ims_may_sleep, next_register_refresh_deadline, register_refresh_needed, register_retry_needed. cbv zeta.
  destruct (rg_empty (im_sms svc) && rg_empty (im_ip svc) && negb (register_needed svc)); [cbn [andb]|done].
  destruct (im_enabled svc && im_pdu_active svc && im_has_pcscf svc); cbn [andb negb]; [|done].
  destruct (im_registered svc); cbn [andb negb].
  - destruct (0 <? im_register_refresh_ms svc); cbn [andb negb]; [|done]. by rewrite andb_true_r, Z.ltb_antisym.
  - destruct (im_register_sent svc && (0 <? im_register_sent_ms svc)
      && (im_register_attempts svc <? IMS_REGISTER_MAX_ATTEMPTS)); cbn [andb negb]; [|done].
    by rewrite Z.ltb_antisym.
Qed.

(** ** A silent network *)

Section Silence.
Context {W : Type} (tx_cb : bytes -> W -> option (Z * W)) (sms_cb : bytes -> W -> Z * W).
Implicit Types (svc : ims_service) (w : W).

(** The rounds, and for each whether it sends a first REGISTER and a refresh. *)
Fixpoint run_rounds (envs : list ims_env) svc w : option (list (bool * bool) * ims_service * W) :=
  match envs with
  | [] => Some ([], svc, w)
  | env :: envs =>
    let '(reg, refresh, _, _) := ims_due svc (ie_now env) in
    '(svc, w) ← ims_worker_round tx_cb sms_cb env svc w;
    '(log, svc, w) ← run_rounds envs svc w;
    Some ((reg, refresh) :: log, svc, w)
  end.

(** Sending a REGISTER or a message changes the number of the next request. *)
Lemma authorized_cseq svc challenge entropy w :
  post (ims_send_authorized_register tx_cb svc challenge entropy w)
    (fun r => exists c, r.1.2 = svc <| im_next_sip_cseq := c |>).
Proof.
  unfold ims_send_authorized_register. assert (exists c, svc = svc <| im_next_sip_cseq := c |>) as Hs
    by by exists (im_next_sip_cseq svc).
  destruct (_ && _); [exact Hs|]. destruct (ims_compute_aka_res _ _) as [res|]; [|exact Hs].
  destruct (negb _); [exact Hs|]. cbv zeta. apply post_bind, post_intro. intros [e|text] _; [by eexists|].
  apply post_bind, post_intro. intros [rc w'] _. by eexists.
Qed.

Lemma message_cseq svc it ip1 ip2 cb w :
  post (ims_send_sms_message tx_cb svc it ip1 ip2 cb w) (fun r => exists c, r.1.2 = svc <| im_next_sip_cseq := c |>).
Proof.
  unfold ims_send_sms_message. assert (exists c, svc = svc <| im_next_sip_cseq := c |>) as Hs
    by by exists (im_next_sip_cseq svc).
  destruct (_ || _); [exact Hs|]. apply post_bind, post_intro. intros [n out] _.
  destruct (n <=? 0); [exact Hs|]. apply post_bind, post_intro. intros dst _. cbv zeta.
  destruct (1024 <=?n _); [by eexists|]. destruct (1600 <?n _); [by eexists|].
  apply post_bind, post_intro. intros [rc w'] _. by eexists.
Qed.

(** A round without a packet changes what is due, the queue of messages and the
    number of the next request. *)
Lemma silent_round env svc w svc' w' :
  rg_empty (im_ip svc) = true -> ims_worker_round tx_cb sms_cb env svc w = Some (svc', w') ->
  exists q c, svc' = (ims_due svc (ie_now env)).2 <| im_sms := q |> <| im_next_sip_cseq := c |>.
Proof.
  intros He. unfold ims_worker_round.
  assert (im_ip (ims_due svc (ie_now env)).2 = im_ip svc) as Ei.
  { unfold ims_due. cbv zeta. cbn [snd]. by repeat case_match. }
  destruct (ims_due svc (ie_now env)) as [[[reg refresh] auth] s1]. cbn [snd] in *. cbv zeta. unfold ims_pop. intros E.
  destruct (if rg_empty (im_sms s1) then Some (None, s1) else _) as [[sms s2]|] eqn:E1; [|done].
  cbn [mbind option_bind] in E.
  assert (exists q, s2 = s1 <| im_sms := q |>) as [q Eq].
  { destruct (rg_empty (im_sms s1)); [injection E1 as _ <-; by exists (im_sms s1)|].
    destruct (rg_peek (im_sms s1)); [|done]. injection E1 as _ <-. by eexists. }
  assert (rg_empty (im_ip s2) = true) as He2 by (rewrite Eq; change (rg_empty (im_ip s1) = true); by rewrite Ei). rewrite He2 in E.
  cbn [mbind option_bind] in E. clear He2 Ei He E1.
  destruct (if reg then _ else Some w) as [w1|]; [|done]. cbn [mbind option_bind] in E.
  destruct (if refresh then _ else Some (s2, w1)) as [[s3 w3]|] eqn:E3; [|done].
  assert (exists c, s3 = s2 <| im_next_sip_cseq := c |>) as [c Ec].
  { assert (exists c, s2 = s2 <| im_next_sip_cseq := c |>) as Hs by by exists (im_next_sip_cseq s2).
    destruct refresh; [|injection E3 as <- _; exact Hs].
    destruct (ac_nonce auth).
    - destruct (ims_send_initial_register _ _ _ _ _ _) as [[rc wx]|]; [|done]. injection E3 as <- _. exact Hs.
    - pose proof (authorized_cseq s2 auth (ie_entropy1 env) w1) as Hp.
      destruct (ims_send_authorized_register _ _ _ _ _) as [[[rc s] wx]|]; [|done]. injection E3 as <- _. exact Hp. }
  cbn [mbind option_bind] in E. clear E3.
  assert (exists c', svc' = s3 <| im_next_sip_cseq := c' |>) as [c' Ec'].
  { assert (exists c, s3 = s3 <| im_next_sip_cseq := c |>) as Hs by by exists (im_next_sip_cseq s3).
    destruct sms as [it|]; [|injection E as <- _; exact Hs].
    destruct (_ && _); [|injection E as <- _; exact Hs].
    match type of E with context [ims_send_sms_message ?t ?s ?i ?a ?b ?c ?w] =>
      pose proof (message_cseq s i a b c w) as Hp; destruct (ims_send_sms_message t s i a b c w) as [[[rc s'] wx]|]; [|done] end.
    injection E as <- _. exact Hp. }
  exists q, c'. by rewrite Ec', Ec, Eq.
Qed.

Definition session_ready svc : bool := im_enabled svc && im_pdu_active svc && im_has_pcscf svc.

(** What is due without a registration, and with one. *)
Lemma due_unregistered svc now :
  im_registered svc = false ->
  let '(reg, refresh, _, svc') := ims_due svc now in
  refresh = false /\ im_registered svc' = false /\ im_ip svc' = im_ip svc /\ session_ready svc' = session_ready svc
  /\ im_register_attempts svc' = im_register_attempts svc + (if reg then 1 else 0)
  /\ (reg = true -> im_register_sent svc' = true /\ im_register_sent_ms svc' = now)
  /\ (session_ready svc = true -> im_register_sent svc = false \/ register_retry_needed svc now = true -> reg = true)
  /\ (im_register_sent svc = true -> register_retry_needed svc now = false ->
      reg = false /\ im_register_sent svc' = true /\ im_register_sent_ms svc' = im_register_sent_ms svc).
Proof.
  intros Hr. unfold ims_due. cbv zeta.
  set (s1 := if register_retry_needed svc now then _ else svc).
  assert (im_registered s1 = false /\ im_ip s1 = im_ip svc /\ session_ready s1 = session_ready svc
    /\ im_register_attempts s1 = im_register_attempts svc /\ im_register_sent_ms s1 = im_register_sent_ms svc
    /\ im_register_sent s1 = (im_register_sent svc && negb (register_retry_needed svc now)))
    as (R1 & R2 & R3 & R4 & R5 & R6).
  { subst s1. destruct (register_retry_needed svc now); cbn [negb]; rewrite ?andb_false_r, ?andb_true_r; done. }
  clearbody s1.
  assert (register_refresh_needed s1 now = false) as -> by (unfold register_refresh_needed; by rewrite R1, andb_false_r).
  assert (register_needed s1 = session_ready svc && negb (im_register_sent s1)) as ->
    by (unfold register_needed; rewrite R1, <- R3; cbn [negb]; by rewrite andb_true_r).
  rewrite R6. destruct (session_ready svc) eqn:Es; cbn [andb].
  - destruct (im_register_sent svc) eqn:Et, (register_retry_needed svc now) eqn:Er; cbn [negb andb];
      (do 2 (split; [done|])); (split; [done|]); (split; [done|]);
      (split; [cbn; by rewrite R4, ?Z.add_0_r|]); split_and!; try done; try (by intros _ [|]).
  - do 4 (split; [done|]). split; [by rewrite R4, Z.add_0_r|]. split; [done|]. split; [done|]. intros A B. split; [done|]. split; [|done]. by rewrite R6, A, B.
Qed.

Lemma due_registered svc now :
  im_registered svc = true ->
  let '(reg, refresh, _, svc') := ims_due svc now in
  reg = false /\ im_registered svc' = true /\ im_ip svc' = im_ip svc
  /\ im_register_refresh_ms svc' = (if refresh then 0 else im_register_refresh_ms svc)
  /\ (refresh = true -> 0 < im_register_refresh_ms svc).
Proof.
  intros Hr. unfold ims_due. cbv zeta.
  assert (register_retry_needed svc now = false) as -> by (unfold register_retry_needed; by rewrite Hr, andb_false_r).
  assert (register_needed svc = false) as -> by (unfold register_needed; by rewrite Hr, andb_false_r).
  destruct (register_refresh_needed svc now) eqn:E; [|done]. do 4 (split; [done|]). intros _.
  unfold register_refresh_needed in E. lia.
Qed.

(** Times at least the retry interval apart. *)
Fixpoint spaced (prev : Z) (nows : list Z) : Prop :=
  match nows with
  | [] => True
  | now :: nows => 0 < now /\ prev + IMS_REGISTER_RETRY_MS <= now < 2 ^ 63 /\ spaced now nows
  end.

Definition sends (p : bool -> bool) (l : list bool) : Z := Z.of_nat (length (filter (fun b => p b = true) l)).

Lemma sends_cons p b l : sends p (b :: l) = (if p b then 1 else 0) + sends p l.
Proof. unfold sends. rewrite filter_cons. destruct (p b) eqn:E; cbn [decide]; case_decide; cbn [length]; try done; lia. Qed.

Section Keeps.
Variable Inv : W -> Prop.
Hypothesis tx_keeps : forall packet w, Inv w -> yields (tx_cb packet w) (fun r => Inv r.2).
Hypothesis sms_keeps : forall pdu w, Inv w -> Inv (sms_cb pdu w).2.

(** A round of a silent network. *)
Lemma silent_step env svc w :
  ims_ok svc -> Inv w -> rg_empty (im_ip svc) = true ->
  exists q c w', let svc' := (ims_due svc (ie_now env)).2 <| im_sms := q |> <| im_next_sip_cseq := c |> in
  ims_worker_round tx_cb sms_cb env svc w = Some (svc', w') /\ ims_ok svc' /\ Inv w'.
Proof using tx_keeps sms_keeps.
  intros H Hw He. destruct (round_total tx_cb sms_cb Inv tx_keeps sms_keeps svc env w H Hw) as ([s1 w1] & E & H1 & Hw1).
  destruct (silent_round env svc w s1 w1 He E) as (q & c & ->). by exists q, c, w1.
Qed.

Lemma silence_registered envs : forall svc w,
  ims_ok svc -> Inv w -> rg_empty (im_ip svc) = true -> im_registered svc = true ->
  exists log svc' w', run_rounds envs svc w = Some (log, svc', w') /\ ims_ok svc' /\ Inv w'
  /\ im_registered svc' = true /\ length log = length envs
  /\ sends id log.*1 = 0 /\ sends id log.*2 <= (if 0 <? im_register_refresh_ms svc then 1 else 0).
Proof using tx_keeps sms_keeps.
  induction envs as [|env envs IH]; intros svc w H Hw He Hr; cbn [run_rounds].
  { exists [], svc, w. do 6 (split; [done|]). change (sends id _) with 0. case_match; lia. }
  destruct (silent_step env svc w H Hw He) as (q & c & w1 & E1 & H1 & Hw1).
  pose proof (due_registered svc (ie_now env) Hr) as Hd.
  destruct (ims_due svc (ie_now env)) as [[[reg refresh] auth] s1]. cbn [snd] in *.
  destruct Hd as (-> & D2 & D3 & D4 & D5). cbv zeta in E1, H1. set (s2 := s1 <| im_sms := q |> <| im_next_sip_cseq := c |>) in *.
  destruct (IH s2 w1 H1 Hw1) as (log & s3 & w3 & E & H3 & Hw3 & R3 & L3 & S1 & S2);
    [change (rg_empty (im_ip s1) = true); by rewrite D3|exact D2|].
  exists ((false, refresh) :: log), s3, w3. rewrite E1. ob. rewrite E. ob. do 4 (split; [done|]).
  split; [cbn [length]; by rewrite L3|]. rewrite !fmap_cons, !sends_cons. cbn [fst snd id]. split; [lia|].
  change (im_register_refresh_ms s2) with (im_register_refresh_ms s1) in S2. rewrite D4 in S2.
  destruct refresh; [|lia]. specialize (D5 eq_refl). change (sends id log.*2 <= 0) in S2.
  destruct (Z.ltb_spec 0 (im_register_refresh_ms svc)); lia.
Qed.

Lemma silence_unregistered envs : forall svc w prev,
  ims_ok svc -> Inv w -> rg_empty (im_ip svc) = true -> im_registered svc = false ->
  exists log svc' w', run_rounds envs svc w = Some (log, svc', w') /\ ims_ok svc' /\ Inv w'
  /\ im_registered svc' = false /\ length log = length envs
  /\ im_register_attempts svc' = im_register_attempts svc + sends id log.*1 /\ sends id log.*2 = 0
  /\ (let k := Z.to_nat (IMS_REGISTER_MAX_ATTEMPTS - im_register_attempts svc) in
      session_ready svc = true -> spaced prev (ie_now <$> envs) ->
      im_register_sent svc = false \/ 0 < im_register_sent_ms svc <= prev \/ k = 0%nat ->
      log.*1 = replicate (Nat.min k (length envs)) true ++ replicate (length envs - k) false).
Proof using tx_keeps sms_keeps.
  induction envs as [|env envs IH]; intros svc w prev H Hw He Hr; cbn [run_rounds].
  { exists [], svc, w. do 5 (split; [done|]). change (sends id _) with 0. split; [lia|]. split; [done|].
    cbv zeta. intros _ _ _. by rewrite Nat.min_0_r. }
  destruct (silent_step env svc w H Hw He) as (q & c & w1 & E1 & H1 & Hw1).
  pose proof (due_unregistered svc (ie_now env) Hr) as Hd.
  destruct (ims_due svc (ie_now env)) as [[[reg refresh] auth] s1]. cbn [snd] in *.
  destruct Hd as (-> & D2 & D3 & D4 & D5 & D6 & D7 & D8). cbv zeta in E1, H1.
  set (s2 := s1 <| im_sms := q |> <| im_next_sip_cseq := c |>) in *.
  destruct (IH s2 w1 (ie_now env) H1 Hw1) as (log & s3 & w3 & E & H3 & Hw3 & R3 & L3 & S1 & S2 & S3);
    [change (rg_empty (im_ip s1) = true); by rewrite D3|exact D2|].
  exists ((reg, false) :: log), s3, w3. rewrite E1. ob. rewrite E. ob. do 3 (split; [done|]).
  split; [done|]. split; [cbn [length]; by rewrite L3|]. rewrite !fmap_cons, !sends_cons. cbn [fst snd id].
  change (im_register_attempts s2) with (im_register_attempts s1) in S1, S3. rewrite D5 in S1, S3.
  split; [destruct reg; lia|]. split; [lia|]. cbv zeta in *. intros Hs (Hp1 & Hp2 & Hsp) Hsent.
  change (session_ready s2) with (session_ready s1) in S3. rewrite D4 in S3. specialize (S3 Hs Hsp).
  change (im_register_sent s2) with (im_register_sent s1) in S3.
  change (im_register_sent_ms s2) with (im_register_sent_ms s1) in S3.
  pose proof (io_attempts _ H) as Ha. pose proof (io_attempts_idle _ H Hr) as Hai. unfold IMS_REGISTER_MAX_ATTEMPTS in *.
  cbn [length]. destruct (Z.eqb_spec (im_register_attempts svc) 5) as [E5|Hne].
  - rewrite E5 in *. destruct (im_register_sent svc) eqn:Est; [|specialize (Hai eq_refl); lia].
    assert (register_retry_needed svc (ie_now env) = false) as Hn
      by (unfold register_retry_needed; rewrite E5; cbn [Z.ltb]; by rewrite !andb_false_r).
    destruct (D8 eq_refl Hn) as (-> & _ & _). rewrite S3 by (right; right; done). cbn. by rewrite Nat.sub_0_r.
  - assert (reg = true) as ->.
    { apply D7; [done|]. destruct (im_register_sent svc) eqn:Est; [|by left]. right.
      destruct Hsent as [|[Hsent|Hk]]; [done| |lia]. unfold register_retry_needed, IMS_REGISTER_MAX_ATTEMPTS.
      unfold session_ready in Hs. rewrite Hs, Hr, Est. unfold IMS_REGISTER_RETRY_MS in *. cbn [negb andb].
      assert (u64 (im_register_sent_ms svc + 4000) = im_register_sent_ms svc + 4000) as -> by (unfold u64; lia). lia. }
    destruct (D6 eq_refl) as [D61 D62]. rewrite S3 by (right; left; rewrite D62; lia).
    replace (Z.to_nat (5 - im_register_attempts svc)) with (S (Z.to_nat (5 - (im_register_attempts svc + 1)))) by lia.
    done.
Qed.

(** C30: On a network that does not answer a REGISTER is sent at most five times,
    and exactly in the first five rounds when they are at least four seconds
    apart, after which nothing is sent; a registration is refreshed at most
    once, and stays although the refresh is not answered. *)
Theorem registration_in_silence envs svc w :
  ims_ok svc -> Inv w -> rg_empty (im_ip svc) = true ->
  exists log svc' w', run_rounds envs svc w = Some (log, svc', w')
  /\ im_registered svc' = im_registered svc
  /\ sends id log.*1 <= (if im_registered svc then 0 else IMS_REGISTER_MAX_ATTEMPTS - im_register_attempts svc)
  /\ sends id log.*2 <= (if im_registered svc then 1 else 0)
  /\ (session_ready svc = true -> im_registered svc = false -> im_register_sent svc = false ->
      im_register_attempts svc = 0 -> spaced 0 (ie_now <$> envs) ->
      log.*1 = replicate (Nat.min 5 (length envs)) true ++ replicate (length envs - 5) false).
Proof using tx_keeps sms_keeps.
  intros H Hw He. destruct (im_registered svc) eqn:Hr.
  - destruct (silence_registered envs svc w H Hw He Hr) as (log & s & w' & E & _ & _ & R & _ & S1 & S2).
    exists log, s, w'. do 2 (split; [done|]). split; [lia|]. split; [destruct (0 <? _); lia|done].
  - destruct (silence_unregistered envs svc w 0 H Hw He Hr) as (log & s & w' & E & Ho & _ & R & _ & S1 & S2 & S3).
    exists log, s, w'. do 2 (split; [done|]). pose proof (io_attempts _ Ho). split; [lia|]. split; [lia|].
    intros Hs _ Hst Ha Hsp. rewrite Ha in S3. apply S3; auto.
Qed.
End Keeps.
End Silence.

(** ** Witnesses *)

(** The caller keeps the packets and the messages it is given. *)
#[local] Definition log_tx (packet : bytes) (w : list bytes) : option (Z * list bytes) := Some (0, w ++ [packet]).
#[local] Definition log_sms (pdu : bytes) (w : list bytes) : Z * list bytes := (0, w ++ [pdu]).
#[local] Definition test_calls (svc : ims_service) : ims_service :=
  ims_set_pdu_active true [10; 45; 0; 2] true [10; 45; 0; 1] (ims_set_tx_callback true svc).
#[local] Definition test_env (now : Z) : ims_env := ImsEnv now now (replicate 8 7) (replicate 8 8).

Lemma ims_calls_return_witness :
  exists svc, ims_init ue_instance_config_set_defaults = Some svc
  /\ yields (run_ims log_tx log_sms (IcRound (test_env 4000)) (test_calls svc) []) (fun '(svc', w') => ims_ok svc').
Proof.
  destruct (ims_init_ok ue_instance_config_set_defaults ltac:(split_and!; vm_compute; lia)) as (svc & E & _).
  exists svc. split; [done|].
  eapply yields_mono; [apply (ims_calls_return log_tx log_sms (fun _ => True) (IcRound (test_env 4000)))|by intros [s w] [H _]].
  - intros p w _. by eexists.
  - done.
  - apply (imr_call _ _ _ (ims_set_tx_callback true svc) [] (IcPdu true [10; 45; 0; 2] true [10; 45; 0; 1]));
      [|split; split; [done| |done|]; repeat constructor; unfold is_byte; lia|done].
    apply (imr_call _ _ _ svc [] (IcTx true)); [|done|done].
    apply (imr_init _ _ _ ue_instance_config_set_defaults); [split_and!; vm_compute; lia|done|done].
  - done.
Defined.

(** Seven rounds: five packets are sent. *)
Lemma registration_in_silence_witness :
  exists svc, ims_init ue_instance_config_set_defaults = Some svc
  /\ let envs := (fun i => test_env (4000 * Z.of_nat i)) <$> seq 1 7 in
     exists log svc' w', run_rounds log_tx log_sms envs (test_calls svc) [] = Some (log, svc', w')
     /\ log.*1 = [true; true; true; true; true; false; false] /\ length w' = 5%nat.
Proof.
  destruct (ims_init_ok ue_instance_config_set_defaults ltac:(split_and!; vm_compute; lia)) as (svc & E & H).
  exists svc. split; [done|]. cbv zeta.
  destruct (registration_in_silence log_tx log_sms (fun _ => True) ltac:(by eexists) ltac:(done)
    ((fun i => test_env (4000 * Z.of_nat i)) <$> seq 1 7) (test_calls svc) []) as (log & svc' & w' & Er & _ & _ & _ & Hl).
  - apply set_pdu_active_ok; [done|repeat constructor; unfold is_byte; lia|done|repeat constructor; unfold is_byte; lia|].
    ims_fields H.
  - done.
  - by injection E as <-.
  - exists log, svc', w'. split; [done|]. split.
    + apply Hl; [by injection E as <-..|]. clear. cbn [fmap list_fmap seq ie_now test_env spaced]. unfold IMS_REGISTER_RETRY_MS. lia.
    + assert ((fun r => length r.2) <$> (ims_init ue_instance_config_set_defaults ≫= fun svc =>
        run_rounds log_tx log_sms ((fun i => test_env (4000 * Z.of_nat i)) <$> seq 1 7) (test_calls svc) []) = Some 5%nat) as Hc
        by (vm_compute; reflexivity).
      rewrite E in Hc. cbn [mbind option_bind] in Hc. rewrite Er in Hc. by injection Hc.
Defined.
