(* ===== verification/ImsBridge.v ===== *)
(** The IMS service under the bridge: it implements the interface the bridge
    uses, and its thread works on the bridge through the two callbacks
    [bridge_ims_ip_uplink_cb] and [bridge_sms_downlink_cb].

    A message from the network is delivered once, however often it comes; the
    acknowledgement does not wait for the bridge to have room for it. *)

From S2P Require Import Prelude InstanceConfig UeTypes RanTransport UeContext UeEngine EngineReach ModemState Ring StateBridge BridgeReach.
From S2P Require Import ImsCodec ImsDigest ImsSip ImsWorker ImsReach ImsRounds.

#[local] Set Primitive Projections.

Lemma submit_reference pdu svc : 0 <= (ims_submit_sms pdu svc).1.2 < 2 ^ 32.
Proof.
  unfold ims_submit_sms. repeat (case_match; [cbn; lia|]). apply u32_range.
Qed.

#[export] Instance ims_is_service : ImsService ims_service := {
  ims_service_init := ims_init;
  ims_service_submit_sms := ims_submit_sms;
  ims_service_receive_ip := ims_receive_ip;
  ims_service_set_pdu_active := ims_set_pdu_active;
  ims_service_enabled := im_enabled;
  ims_service_registered := im_registered;
  ims_reference := submit_reference }.

Definition sms_items (b : state_bridge ims_service) : list bytes := rg_items BRIDGE_QUEUE_SIZE (sb_sms b).

Section Bridge.
Variable sendto : nat -> sockaddr -> bytes -> Z.
Implicit Types (b : state_bridge ims_service) (svc : ims_service).

(** The callbacks the bridge registers with the service. *)
Definition bridge_tx (packet : bytes) b : option (Z * state_bridge ims_service) := bridge_ims_ip_uplink_cb sendto packet b.
Definition bridge_dl (pdu : bytes) b : Z * state_bridge ims_service := bridge_sms_downlink_cb (Some pdu) b.

(** A round of the thread of the bridge's service. *)
Definition bridge_ims_round (env : ims_env) b : option (state_bridge ims_service) :=
  '(svc, b) ← ims_worker_round bridge_tx bridge_dl env (sb_ims b) b;
  Some (b <| sb_ims := svc |>).

(** What a round keeps of the bridge [b0] it starts from. *)
Definition bridge_kept (b0 b : state_bridge ims_service) : Prop :=
  bridge_ok b /\ sb_ind b = sb_ind b0 /\ sb_prev b = sb_prev b0 /\ sb_apn_contexts b = sb_apn_contexts b0
  /\ exists l, sms_items b = sms_items b0 ++ l.

Lemma bridge_tx_keeps b0 packet b : bridge_kept b0 b -> yields (bridge_tx packet b) (fun r => bridge_kept b0 r.2).
Proof.
  intros (Hb & H1 & H2 & H3 & Hl). pose proof Hb as [He Ha Hi Hs Hp]. unfold bridge_tx, bridge_ims_ip_uplink_cb.
  destruct (call_total sendto (fun _ => None) (fun _ => None) (fun _ _ (h : unit) => (0, h)) (fun _ _ h => (0, h))
    (CallImsUplink packet) (sb_engine b) tt He Logic.I) as (e & h & E & He').
  cbn [run_call] in E. unfold call_result in E.
  destruct (ue_engine_inject_ims_ip sendto (sb_engine b) packet) as [[rc e']|]; [|done]. injection E as <- _.
  ob. apply yields_ret. by split; [split|].
Qed.

Lemma bridge_dl_keeps b0 pdu b : bridge_kept b0 b -> bridge_kept b0 (bridge_dl pdu b).2.
Proof.
  intros (Hb & H1 & H2 & H3 & [l Hl]). unfold bridge_dl, bridge_sms_downlink_cb.
  pose proof (push_sms_ok b (Some pdu) Hb) as Hk. unfold sms_queue_push in *.
  destruct pdu as [|x pdu]; [by split; [exact Hk|]; eauto|].
  destruct (SMS_DATA_MAX <?n _); [by split; [exact Hk|]; eauto|].
  destruct (rg_full _ _) eqn:Ef; [by split; [exact Hk|]; eauto|].
  destruct (rg_put_items BRIDGE_QUEUE_SIZE (x :: pdu) (sb_sms b) (bo_sms _ Hb) Ef) as [_ Hi].
  split; [exact Hk|]. do 3 (split; [done|]). exists (l ++ [x :: pdu]). rewrite app_assoc, <- Hl. exact Hi.
Qed.

(** C31: A round of the IMS thread on the bridge returns: the engine, the
    bridge and the service stay well formed, the messages waiting for the host
    keep their order, new ones come after them, and the indications and the
    contexts are untouched. *)
Theorem ims_round_on_bridge env b :
  bridge_ok b -> ims_ok (sb_ims b) ->
  exists b', bridge_ims_round env b = Some b' /\ bridge_ok b' /\ ims_ok (sb_ims b')
  /\ ind_items b' = ind_items b /\ sb_prev b' = sb_prev b /\ sb_apn_contexts b' = sb_apn_contexts b
  /\ exists l, sms_items b' = sms_items b ++ l.
Proof.
  intros Hb Hs. unfold bridge_ims_round.
  destruct (round_total bridge_tx bridge_dl (bridge_kept b) (fun p w => bridge_tx_keeps b p w)
    (fun p w => bridge_dl_keeps b p w) (sb_ims b) env b Hs) as ([svc b'] & E & Hs' & Hb' & H1 & H2 & H3 & Hl).
  { split; [done|]. do 3 (split; [done|]). exists []. by rewrite app_nil_r. }
  rewrite E. ob. eexists. split; [reflexivity|]. split; [by destruct Hb'; split|]. split; [exact Hs'|].
  split; [unfold ind_items; by rewrite <- H1|done].
Qed.
End Bridge.

(** ** Messages from the network *)

(** [payload] is a MESSAGE with the header [hdr] and the body [content]. *)
Record carries_sms (payload hdr content : bytes) : Prop := {
  cs_method : take 8 payload = str "MESSAGE ";
  cs_header : find_bytes payload (CRLF ++ CRLF) = Some (length hdr);
  cs_payload : exists rest, payload = hdr ++ CRLF ++ CRLF ++ content ++ rest;
  cs_type : header_has_content_type_sms hdr = Some true;
  cs_length : header_get_content_length hdr = Some (Some (Z.of_nat (length content)));
  cs_bytes : Forall is_byte content;
  cs_mti : exists mti, content !! 0%nat = Some mti /\ mti &. 7 = 1 }.

Section Messages.
Context {W : Type} (tx_cb : bytes -> W -> option (Z * W)) (sms_cb : bytes -> W -> Z * W).
Implicit Types (svc : ims_service) (w : W).

Lemma message_handled payload hdr content svc w :
  carries_sms payload hdr content ->
  ims_handle_sip_message tx_cb sms_cb svc payload w
  = (w ← ims_send_sip_message_ok tx_cb svc hdr w; ims_deliver_sms tx_cb sms_cb svc hdr content w).
Proof.
  intros [Hm Hh [rest Hp] Ht Hl Hb (mti & E0 & Hmti)]. unfold ims_handle_sip_message.
  assert (8 <= length payload)%nat as Hlen.
  { assert (length (take 8 payload) = 8%nat) as E by (rewrite Hm; reflexivity). rewrite length_take in E. lia. }
  destruct (Nat.ltb_spec (length payload) 8); [lia|]. rewrite bool_decide_true by done. cbn [orb negb]. rewrite Hh. cbv zeta.
  assert (take (length hdr) payload = hdr /\ drop (length hdr + 4) payload = content ++ rest) as [-> ->].
  { rewrite Hp. split; [by rewrite take_app_length|]. rewrite <- drop_drop, drop_app_length. done. }
  rewrite Ht, Hl. ob. cbn [negb orb]. pose proof (lookup_lt_Some _ _ _ E0) as Hc.
  destruct (Z.eqb_spec (Z.of_nat (length content)) 0); [lia|]. cbn [orb].
  destruct (Z.ltb_spec (Z.of_nat (length (content ++ rest))) (Z.of_nat (length content))) as [Hx|];
    [rewrite length_app in Hx; lia|].
  destruct (ims_send_sip_message_ok tx_cb svc hdr w) as [w1|]; ob; [|done].
  rewrite lookup_app_l, E0 by done. ob. rewrite Hmti. cbn [Z.eqb negb]. change (negb (1 =? 1)) with false. cbv iota.
  rewrite Nat2Z.id, slice_prefix by done. done.
Qed.

(** A message and its copies: the first is given to [sms_cb], none of the
    copies that follow is. *)
Lemma message_then_copies payload hdr content pdu mr svc w :
  carries_sms payload hdr content -> (length content <= 256)%nat ->
  ims_rp_data_to_mbim_pdu content 528 = Some (Z.of_nat (length pdu), pdu, Some mr) -> (0 < length pdu)%nat ->
  ims_handle_sip_message tx_cb sms_cb svc payload w
  = (w ← ims_send_sip_message_ok tx_cb svc hdr w;
     if bool_decide (content = im_last_mt_rpdu svc) then ims_send_rp_ack tx_cb svc hdr mr w else
     ims_send_rp_ack tx_cb (svc <| im_last_mt_rpdu := content |>) hdr mr
       (if im_sms_dl_cb svc then (sms_cb pdu w).2 else w)).
Proof.
  intros Hc Hl Hr Hp. rewrite (message_handled _ _ _ _ _ Hc).
  destruct (ims_send_sip_message_ok tx_cb svc hdr w) as [w1|]; ob; [|done].
  unfold ims_deliver_sms. rewrite Hr. ob. destruct (Z.leb_spec (Z.of_nat (length pdu)) 0); [lia|]. cbv zeta.
  destruct (Nat.leb_spec (length content) 256); [|lia]. cbn [andb from_option id default].
  destruct (bool_decide _); done.
Qed.

(** What an acknowledgement changes of the service. *)
Lemma rp_ack_changes svc hdr mr w :
  post (ims_send_rp_ack tx_cb svc hdr mr w) (fun r => exists c, r.1 = svc <| im_next_sip_cseq := c |>).
Proof.
  unfold ims_send_rp_ack. apply post_bind, post_intro. intros from _.
  assert (exists c, svc = svc <| im_next_sip_cseq := c |>) as Hs by by exists (im_next_sip_cseq svc).
  destruct from as [from|]; [|exact Hs]. cbv zeta. destruct (_ || _); [exact Hs|]. destruct (_ <?n _); [by eexists|].
  apply post_bind, post_intro. intros h _. apply post_bind, post_intro. intros [rc w'] _. by eexists.
Qed.
End Messages.

Section Delivery.
Variable sendto : nat -> sockaddr -> bytes -> Z.
Implicit Types (b : state_bridge ims_service) (svc : ims_service).

Definition handle_on_bridge (payload : bytes) svc b : option (ims_service * state_bridge ims_service) :=
  ims_handle_sip_message (bridge_tx sendto) bridge_dl svc payload b.

(** Sending leaves the messages of the host alone. *)
Definition same_sms (q : ring bytes) b : Prop := bridge_ok b /\ sb_sms b = q.

Lemma tx_same q packet b : same_sms q b -> yields (bridge_tx sendto packet b) (fun r => same_sms q r.2).
Proof.
  intros [Hb Hq].
  destruct (bridge_tx_keeps sendto b packet b) as ([rc b'] & E & Hk).
  { split; [done|]. do 3 (split; [done|]). exists []. by rewrite app_nil_r. }
  exists (rc, b'). split; [done|]. split; [apply Hk|]. cbn [snd]. rewrite <- Hq. unfold bridge_tx, bridge_ims_ip_uplink_cb in E.
  destruct (ue_engine_inject_ims_ip sendto (sb_engine b) packet) as [[r e]|]; [|done]. by injection E as _ <-.
Qed.

(** A message with the relay data [pdu] for the host. *)
Record network_sms (payload hdr content pdu : bytes) (mr : Z) : Prop := {
  ns_carries : carries_sms payload hdr content;
  ns_short : (length content <= 256)%nat;
  ns_data : ims_rp_data_to_mbim_pdu content 528 = Some (Z.of_nat (length pdu), pdu, Some mr);
  ns_pdu : (0 < length pdu)%nat }.

Lemma push_result pdu b :
  bridge_ok b -> (0 < length pdu <= 512)%nat ->
  let b' := (bridge_dl pdu b).2 in
  bridge_ok b' /\ sms_items b' = sms_items b ++ (if S (length (sms_items b)) =?n BRIDGE_QUEUE_SIZE then [] else [pdu]).
Proof.
  intros Hb Hl. cbv zeta. unfold bridge_dl, bridge_sms_downlink_cb. pose proof (push_sms_ok b (Some pdu) Hb) as Hk.
  unfold sms_queue_push in *. destruct pdu as [|x pdu]; [cbn in Hl; lia|].
  destruct (Nat.ltb_spec SMS_DATA_MAX (length (x :: pdu))) as [Hx|]; [unfold SMS_DATA_MAX in Hx; lia|].
  pose proof (rg_full_items BRIDGE_QUEUE_SIZE _ (bo_sms _ Hb)) as Hf.
  destruct (rg_full BRIDGE_QUEUE_SIZE (sb_sms b)) eqn:Ef.
  - split; [exact Hk|]. cbn [snd]. replace (S (length (sms_items b)) =?n BRIDGE_QUEUE_SIZE) with true by (symmetry; apply Nat.eqb_eq; exact (proj1 Hf eq_refl)).
    by rewrite app_nil_r.
  - destruct (rg_put_items BRIDGE_QUEUE_SIZE (x :: pdu) (sb_sms b) (bo_sms _ Hb) Ef) as [_ Hi].
    split; [exact Hk|]. destruct (Nat.eqb_spec (S (length (sms_items b))) BRIDGE_QUEUE_SIZE) as [E|_]; [|exact Hi].
    by discriminate (proj2 Hf E).
Qed.

(** What a message does to the service and the queue. *)
Lemma sms_step payload hdr content pdu mr svc b :
  network_sms payload hdr content pdu mr -> bridge_ok b -> ims_ok svc -> im_sms_dl_cb svc = true ->
  exists b1 svc' b',
  ims_send_sip_message_ok (bridge_tx sendto) svc hdr b = Some b1
  /\ ims_send_rp_ack (bridge_tx sendto) (svc <| im_last_mt_rpdu := content |>) hdr mr
       (if bool_decide (content = im_last_mt_rpdu svc) then b1 else (bridge_dl pdu b1).2) = Some (svc', b')
  /\ handle_on_bridge payload svc b = Some (svc', b')
  /\ ims_ok svc' /\ bridge_ok b' /\ im_last_mt_rpdu svc' = content /\ im_sms_dl_cb svc' = true
  /\ sms_items b' = sms_items b ++ (if bool_decide (content = im_last_mt_rpdu svc)
                                       || (S (length (sms_items b)) =?n BRIDGE_QUEUE_SIZE) then [] else [pdu]).
Proof.
  intros [Hc Hl Hr Hp] Hb Hs Hcb. unfold handle_on_bridge.
  rewrite (message_then_copies _ _ _ _ _ _ mr _ _ Hc Hl Hr Hp), Hcb.
  destruct (message_ok_total (bridge_tx sendto) (same_sms (sb_sms b)) (tx_same _) svc hdr b ltac:(by split))
    as (b1 & E1 & Hb1 & Hq1). rewrite E1. ob. exists b1.
  assert (length pdu <= 512)%nat as Hlp.
  { destruct (rp_parse_safe content 528 (cs_bytes _ _ _ Hc)) as (n & out & m & E & [[-> ->]|(_ & Hlo & _)]).
    - rewrite E in Hr. injection Hr as Hr1 Hr2 _. subst pdu. cbn in Hp. lia.
    - rewrite E in Hr. injection Hr as _ Hr2 _. subst pdu. lia. }
  assert (forall s b2, ims_ok s -> bridge_ok b2 -> im_last_mt_rpdu s = content -> im_sms_dl_cb s = true ->
    exists s' b', ims_send_rp_ack (bridge_tx sendto) s hdr mr b2 = Some (s', b') /\ ims_ok s' /\ bridge_ok b'
    /\ im_last_mt_rpdu s' = content /\ im_sms_dl_cb s' = true /\ sb_sms b' = sb_sms b2) as Hack.
  { intros s b2 H1 H2 H3 H4.
    destruct (rp_ack_total (bridge_tx sendto) (same_sms (sb_sms b2)) (tx_same _) s hdr mr b2 H1 ltac:(by split))
      as ([s' b'] & E & Hs' & Hb' & Hq').
    pose proof (rp_ack_changes (bridge_tx sendto) s hdr mr b2) as Hch. rewrite E in Hch. cbn [post fst] in Hch.
    destruct Hch as [c ->]. exists (s <| im_next_sip_cseq := c |>), b'. split; [exact E|]. do 2 (split; [done|]).
    split; [exact H3|]. split; [exact H4|done]. }
  unfold sms_items. destruct (bool_decide_reflect (content = im_last_mt_rpdu svc)) as [Heq|Hne].
  - destruct (Hack svc b1 Hs Hb1 (eq_sym Heq) Hcb) as (s' & b' & E & H1 & H2 & H3 & H4 & H5).
    exists s', b'. split; [done|]. split; [rewrite Heq; exact E|]. split; [done|]. do 4 (split; [done|]). by rewrite H5, Hq1, app_nil_r.
  - destruct (push_result pdu b1 Hb1 ltac:(lia)) as [Hb2 Hi2].
    destruct (Hack (svc <| im_last_mt_rpdu := content |>) (bridge_dl pdu b1).2) as (s' & b' & E & H1 & H2 & H3 & H4 & H5);
      [ims_fields Hs|exact Hb2|done|exact Hcb|].
    exists s', b'. do 2 (split; [done|]). split; [done|]. do 4 (split; [done|]).
    cbn [orb]. unfold sms_items in Hi2. rewrite H5, Hi2, Hq1. done.
Qed.

(** A copy of a message that has been recorded. *)
Lemma copy_answered payload hdr content pdu mr svc b :
  network_sms payload hdr content pdu mr -> bridge_ok b -> ims_ok svc -> im_sms_dl_cb svc = true ->
  im_last_mt_rpdu svc = content ->
  exists b1 svc' b', ims_send_sip_message_ok (bridge_tx sendto) svc hdr b = Some b1
  /\ ims_send_rp_ack (bridge_tx sendto) svc hdr mr b1 = Some (svc', b')
  /\ handle_on_bridge payload svc b = Some (svc', b') /\ sms_items b' = sms_items b.
Proof.
  intros Hn Hb Hs Hcb Heq.
  destruct (sms_step _ _ _ _ _ _ _ Hn Hb Hs Hcb) as (b1 & s1 & b' & E1 & Ea & E & _ & _ & _ & _ & H5).
  rewrite bool_decide_true in Ea, H5 by done. exists b1, s1, b'. split; [done|]. split; [rewrite <- Heq in Ea; exact Ea|]. split; [done|]. by rewrite H5, app_nil_r.
Qed.

(** C28: A message from the network that the service can take ([network_sms]:
    an RP-DATA of at most 256 bytes, from which a message of at most 528 is made, in
    a SIP MESSAGE of the right content type) and that is not a copy of the last
    one is answered, its delivery acknowledged, and queued for the host once, behind
    the messages that wait there; when the queue is full it is acknowledged and not
    queued.  A copy of it that arrives next, in any header, is answered and
    acknowledged and changes nothing for the host: a message that found the queue
    full is lost. *)
Theorem mt_sms_delivered_once payload hdr content pdu mr svc b :
  network_sms payload hdr content pdu mr -> bridge_ok b -> ims_ok svc -> im_sms_dl_cb svc = true ->
  content <> im_last_mt_rpdu svc ->
  exists b1 svc' b', ims_send_sip_message_ok (bridge_tx sendto) svc hdr b = Some b1
  /\ ims_send_rp_ack (bridge_tx sendto) (svc <| im_last_mt_rpdu := content |>) hdr mr (bridge_dl pdu b1).2 = Some (svc', b')
  /\ handle_on_bridge payload svc b = Some (svc', b') /\ ims_ok svc' /\ bridge_ok b'
  /\ sms_items b' = sms_items b ++ (if length (sms_items b) <?n 15 then [pdu] else [])
  /\ (forall payload2 hdr2 b2, carries_sms payload2 hdr2 content -> bridge_ok b2 ->
      exists b3 svc'' b'', ims_send_sip_message_ok (bridge_tx sendto) svc' hdr2 b2 = Some b3
      /\ ims_send_rp_ack (bridge_tx sendto) svc' hdr2 mr b3 = Some (svc'', b'')
      /\ handle_on_bridge payload2 svc' b2 = Some (svc'', b'') /\ sms_items b'' = sms_items b2).
Proof.
  intros Hn Hb Hs Hcb Hne.
  destruct (sms_step _ _ _ _ _ _ _ Hn Hb Hs Hcb) as (b1 & s1 & b' & E1 & Ea & E & H1 & H2 & H3 & H4 & H5).
  rewrite bool_decide_false in Ea, H5 by done. exists b1, s1, b'. do 5 (split; [done|]). split.
  - rewrite H5. f_equal. pose proof (rg_count_lt BRIDGE_QUEUE_SIZE _ (bo_sms _ Hb)) as Hc. rewrite <- rg_length in Hc.
    fold (sms_items b) in Hc. unfold BRIDGE_QUEUE_SIZE in *. cbn [orb].
    destruct (Nat.eqb_spec (S (length (sms_items b))) 16), (Nat.ltb_spec (length (sms_items b)) 15); (done || lia).
  - intros p2 h2 b2 Hc2 Hb2. destruct Hn as [_ Hl Hr Hp]. by apply (copy_answered p2 h2 content pdu mr s1 b2).
Qed.
End Delivery.

(** ** Witnesses *)

#[local] Definition test_sendto (_ : nat) (_ : sockaddr) (d : bytes) : Z := Z.of_nat (length d).
#[local] Definition test_bridge : option (state_bridge ims_service) :=
  state_bridge_init_with_config ue_instance_config_set_defaults (Platform 0 5 6 3) []
    (replicate (Z.to_nat Rrc.UE_RRC_MAX_NAS_SIZE) 0).
#[local] Definition test_pdu : bytes := [3; 0x91; 0x21; 0x43; 4; 1; 2; 3; 4; 5; 6; 7; 8; 9].
#[local] Definition test_content : bytes := rp_data 1 7 [0x91; 0x21; 0x43] [] false [4; 1; 2; 3; 4; 5; 6; 7; 8; 9].
#[local] Definition test_header (call_id : string) : bytes :=
  str "MESSAGE sip:ue@net SIP/2.0" ++ CRLF ++ str "Via: SIP/2.0/UDP 10.0.0.9" ++ CRLF
  ++ str "From: <sip:smsc@net>;tag=1" ++ CRLF ++ str "To: <sip:ue@net>" ++ CRLF ++ str "Call-ID: " ++ str call_id ++ CRLF
  ++ str "CSeq: 4 MESSAGE" ++ CRLF ++ str "Content-Type: application/vnd.3gpp.sms" ++ CRLF ++ str "Content-Length: 18".
#[local] Definition test_payload (call_id : string) : bytes := test_header call_id ++ CRLF ++ CRLF ++ test_content.
#[local] Definition test_service (svc : ims_service) : ims_service :=
  ims_set_sms_downlink_callback true
    (ims_set_pdu_active true [10; 45; 0; 2] true [10; 45; 0; 1] (ims_set_tx_callback true svc)).
(** The packet of the message, to the service. *)
#[local] Definition test_received (svc : ims_service) : ims_service :=
  match ims_ip_build_udp_ipv4 2048 [10; 45; 0; 1] [10; 45; 0; 2] 5060 5062 (test_payload "77") with
  | Some (_, packet) => (ims_receive_ip 5 packet (test_service svc)).2
  | None => svc
  end.
(** A bridge whose queue has [n] messages. *)
#[local] Fixpoint filled (n : nat) (b : state_bridge ims_service) : state_bridge ims_service :=
  match n with O => b | S n => (bridge_dl [9] (filled n b)).2 end.

Lemma bridge_test_start :
  exists b, test_bridge = Some b /\ bridge_ok b /\ ims_ok (sb_ims b) /\ sms_items b = [] /\ im_last_mt_rpdu (sb_ims b) = [].
Proof.
  assert (exists b, test_bridge = Some b) as [b Eb].
  { assert (match test_bridge with Some _ => true | None => false end = true) as E by (vm_compute; reflexivity).
    destruct test_bridge as [b|]; [by exists b|done]. }
  exists b. split; [done|].
  assert ((fun b => (sms_items b, im_last_mt_rpdu (sb_ims b))) <$> test_bridge = Some ([], [])) as E
    by (vm_compute; reflexivity).
  rewrite Eb in E. injection E as E1 E2. split; [|split; [|by split]].
  - eapply (init_bridge_ok ue_instance_config_set_defaults); [| | | |exact Eb]; try (vm_compute; lia).
  - assert (sb_ims <$> test_bridge = ims_init ue_instance_config_set_defaults) as Ei by (vm_compute; reflexivity).
    rewrite Eb in Ei. destruct (ims_init_ok ue_instance_config_set_defaults ltac:(split_and!; vm_compute; lia)) as (s & Es & Hs).
    rewrite Es in Ei. injection Ei as Ei. exact (eq_ind_r ims_ok Hs Ei).
Qed.

Lemma test_service_ok svc : ims_ok svc -> ims_ok (test_service svc) /\ im_last_mt_rpdu (test_service svc) = im_last_mt_rpdu svc.
Proof.
  intros H. split; [|unfold test_service, ims_set_pdu_active; cbv zeta; by destruct (_ || negb true)].
  enough (ims_ok (ims_set_pdu_active true [10; 45; 0; 2] true [10; 45; 0; 1] (ims_set_tx_callback true svc))) as H1
    by ims_fields H1.
  apply set_pdu_active_ok; [done|repeat constructor; unfold is_byte; lia|done|repeat constructor; unfold is_byte; lia|].
  ims_fields H.
Qed.

Lemma test_network_sms call_id :
  In call_id ["77"%string; "78"%string] ->
  network_sms (test_payload call_id) (test_header call_id) test_content test_pdu 7.
Proof.
  intros [<-|[<-|[]]]; (split; [|vm_compute; lia|vm_compute; reflexivity|vm_compute; lia]);
    (split; [vm_compute; reflexivity|vm_compute; reflexivity|exists []; by rewrite app_nil_r|
             vm_compute; reflexivity|vm_compute; reflexivity|repeat constructor; unfold is_byte; lia|by exists 1]).
Qed.

Lemma filled_ok n b :
  bridge_ok b -> sms_items b = [] -> (n <= 15)%nat -> bridge_ok (filled n b) /\ length (sms_items (filled n b)) = n.
Proof.
  intros Hb Hi. induction n as [|n IH]; intros Hn; cbn [filled]; [by rewrite Hi|]. destruct (IH ltac:(lia)) as [H1 H2].
  destruct (push_result [9] _ H1 ltac:(cbn; lia)) as [H3 H4]. split; [exact H3|]. rewrite H4, length_app, H2.
  destruct (Nat.eqb_spec (S n) BRIDGE_QUEUE_SIZE) as [E|]; [unfold BRIDGE_QUEUE_SIZE in E; lia|cbn [length]; lia].
Qed.

(** The message is queued on an empty bridge, its copy is not, and it is lost on
    a full one. *)
Lemma mt_sms_delivered_once_witness :
  exists b svc b' svc' b'', test_bridge = Some b
  /\ handle_on_bridge test_sendto (test_payload "77") (test_service (sb_ims b)) b = Some (svc, b')
  /\ sms_items b' = [test_pdu]
  /\ handle_on_bridge test_sendto (test_payload "78") svc b' = Some (svc', b'') /\ sms_items b'' = [test_pdu]
  /\ exists svc1 b1, handle_on_bridge test_sendto (test_payload "77") (test_service (sb_ims b)) (filled 15 b) = Some (svc1, b1)
     /\ sms_items b1 = sms_items (filled 15 b).
Proof.
  destruct bridge_test_start as (b & Eb & Hb & Hs & Hi & Hl). destruct (test_service_ok _ Hs) as [Hs' Hl'].
  assert (test_content <> im_last_mt_rpdu (test_service (sb_ims b))) as Hne by by rewrite Hl', Hl.
  assert (network_sms (test_payload "77") (test_header "77") test_content test_pdu 7) as Hn by (apply test_network_sms; by left).
  destruct (filled_ok 15 b Hb Hi ltac:(lia)) as [Hf1 Hf2].
  destruct (mt_sms_delivered_once test_sendto _ _ _ _ _ _ b Hn Hb Hs' eq_refl Hne)
    as (b1 & svc & b' & _ & _ & E & _ & Hb' & H & Hc).
  destruct (mt_sms_delivered_once test_sendto _ _ _ _ _ _ (filled 15 b) Hn Hf1 Hs' eq_refl Hne)
    as (b5 & svc5 & b6 & _ & _ & E5 & _ & _ & H5 & _).
  destruct (Hc (test_payload "78") (test_header "78") b') as (b3 & svc' & b'' & _ & _ & E' & H');
    [apply ns_carries with (pdu := test_pdu) (mr := 7), test_network_sms; right; by left|exact Hb'|].
  rewrite Hi in H. rewrite Hf2 in H5. exists b, svc, b', svc', b''. split; [exact Eb|]. split; [exact E|].
  split; [exact H|]. split; [exact E'|]. split; [rewrite H'; exact H|].
  exists svc5, b6. split; [exact E5|]. rewrite H5. apply app_nil_r.
Defined.

Lemma test_round b b' :
  test_bridge = Some b ->
  bridge_ims_round test_sendto (ImsEnv 9000 9000 [] []) (b <| sb_ims := (test_received (sb_ims b)) |>) = Some b' ->
  sms_items b' = [test_pdu].
Proof.
  intros Eb E.
  assert (match test_bridge with
    | Some b => match bridge_ims_round test_sendto (ImsEnv 9000 9000 [] []) (b <| sb_ims := (test_received (sb_ims b)) |>) with
                | Some b' => sms_items b' | None => [] end
    | None => [] end = [test_pdu]) as Hc by (vm_compute; reflexivity).
  rewrite Eb, E in Hc. exact Hc.
Qed.

(** The service is given the packet of the message, and its thread makes a
    round. *)
Lemma ims_round_on_bridge_witness :
  exists b b', bridge_ok b /\ bridge_ims_round test_sendto (ImsEnv 9000 9000 [] []) b = Some b' /\ bridge_ok b'
  /\ sms_items b' = [test_pdu].
Proof.
  destruct bridge_test_start as (b & Eb & Hb & Hs & _). set (b1 := b <| sb_ims := (test_received (sb_ims b)) |>).
  assert (bridge_ok b1) as Hb1 by (destruct Hb; by split).
  assert (ims_ok (sb_ims b1)) as Hs1.
  { change (ims_ok (test_received (sb_ims b))). unfold test_received.
    assert (Forall is_byte (test_payload "77")) as Hp.
    { change (Forall (fun x => 0 <= x < 256) (test_payload "77")). apply (bool_decide_unpack _). by vm_compute. }
    assert (forall a, is_byte a -> Forall is_byte [10; 45; 0; a]) as Ha by (intros; repeat constructor; unfold is_byte in *; lia).
    assert (Z.of_nat (length (test_payload "77")) <= 300) as Hl by (vm_compute; congruence).
    destruct (ims_ip_roundtrip [10; 45; 0; 1] [10; 45; 0; 2] (test_payload "77") 5060 5062 eq_refl eq_refl
      (Ha 1 ltac:(unfold is_byte; lia)) (Ha 2 ltac:(unfold is_byte; lia)) Hp ltac:(lia) 2048 ltac:(lia) ltac:(lia) ltac:(lia))
      as (out & -> & _ & Hout & _).
    apply receive_ip_ok; [exact Hout|]. by apply test_service_ok. }
  destruct (ims_round_on_bridge test_sendto (ImsEnv 9000 9000 [] []) b1 Hb1 Hs1) as (b' & E & Hb' & _).
  exists b1, b'. split; [exact Hb1|]. split; [exact E|]. split; [exact Hb'|]. exact (test_round b b' Eb E).
Defined.
